(* ===== verification/_CoqProject ===== *)
-Q . S2P
Prelude.v
Models.v
PyString.v
Endpoints.v
WriteGuard.v
Config.v
Worker.v
AdapterInterface.v
Dispatcher.v
DispatchLoop.v
Permission.v
Ddl.v
Adapter.v
SuperPools.v
Capacity.v
Hashing.v
Contract.v
Selector.v
Service.v
LifecycleSpec.v
Lifecycle.v
Reservation.v
System.v
Dispatching.v
Transactions.v
Examples.v
SystemTheorems.v
Timing.v
DispatcherTheorems.v
Liveness.v
AdapterTheorems.v
DdlTheorems.v
RequestTheorems.v
CreationTheorems.v
PolicyTheorems.v
BackendAdmin.v
BackendTheorems.v
OperationBudget.v
SqlScan.v
SqlScanTheorems.v
ConnectionCache.v
SqlGateway.v
SqlSessions.v
SessionInvariant.v
SessionLocks.v
SessionClean.v
SessionQuiet.v
SessionTheorems.v
AccessControl.v
AccessTheorems.v
Cursor.v
Listing.v
ListingTheorems.v
DedicatedMySQL.v
DedicatedGrants.v
DedicatedPools.v
DedicatedProvisioner.v
DedicatedWorker.v
DedicatedSync.v
DedicatedService.v
DedicatedAdmin.v
DedicatedAllocation.v
DedicatedLate.v
DedicatedSystem.v
DedicatedTheorems.v
DedicatedProgress.v
DedicatedReclaim.v
AuthModels.v
PersonalTokens.v
OAuthProvider.v
AccessTokens.v
Passwords.v
BrowserSessions.v
AuthRoutes.v
AuthSpec.v
AuthSystem.v
AuthTheorems.v
AuthExamples.v
RateLimit.v
