(* ===== verification/Prelude.v ===== *)
(** * PolarDB agentic server: verification library

    The server ([src/server/]) hands database resources to AI agents: an Agent
    asks for a database, a dispatcher provisions it on a multitenant backend,
    the Agent gets credentials and runs SQL through a gateway, and a deletion
    takes access away, waits for a cool-down and drops the database.  This
    library models that core and proves what makes it correct.

    ** Parts

    The metadata database.  [Models] has the tables of [server/models/] as
    records and finite maps; a transaction is code in the monad [M (Session DB)]
    of this file: statements work on a copy, [commit] publishes it, what other
    sessions commit in between is a list in the session.  [WriteGuard] is
    [core/resource_write_guard.py], [Config] the settings of [config.py] with
    their validator.

    Requests.  [Service] is [core/db_instance_service.py] (create, describe,
    delete, restore), over [Selector] ([backend_selector.py],
    [provisioning_backend_repository.py]: which backends, in which order),
    [Capacity] ([provisioning_capacity.py]: counters and reservation), [Contract]
    ([db_instance_contract.py], [credential_policy.py]: what a resource
    exposes), [Permission] ([permission_template_service.py]) and
    [OperationBudget] ([provisioning_operation_budget.py]).  [Hashing] and
    [PyString] are the parts of the standard library they use: SHA-256, HMAC,
    UTF-8, canonical JSON, [str] methods.

    Access.  [AccessControl] is [core/access_control.py]: the capabilities and
    the SQL permission of a user or an Agent on an instance, from bindings,
    departments and credentials.  [Listing] is [core/db_instance_query.py], the
    listing of what a principal may see, in pages whose signed cursors are
    [Cursor] ([core/signed_cursor.py]).

    Dispatchers.  [Worker] is the claim queue ([db_instance_worker.py]),
    [Dispatcher] every transaction of [db_instance_dispatcher.py], [DispatchLoop]
    its [run_once] with the [while True] loop on fuel.  [AdapterInterface] is the
    protocol an adapter promises and the registry; [Adapter] the multitenant
    adapter ([provisioning_adapter.py], [super_connection_pool.py]); [Ddl] the
    statements it sends ([multitenant_ddl.py]) and how it verifies them.

    Dedicated pools.  [DedicatedPools] is [dedicated_pool_repository.py] (capacity
    snapshot, claim of a prepared member, purchase reservation) with the purchase
    profile ([dedicated_purchase_profile.py]) and the audit that may block a
    purchase ([legacy_pool_retirement.py]); [DedicatedMySQL] is
    [dedicated_mysql.py], what is done on a member's server;
    [DedicatedProvisioner] is [dedicated_pool_provisioner.py], each preparation
    step cut at its call and with the columns the ORM writes back;
    [DedicatedWorker] and [DedicatedSync] are [dedicated_pool_worker.py], one
    definition per claim and transaction, and one pass of the loop;
    [DedicatedService] is the dedicated mode of [db_instance_service.py];
    [DedicatedAdmin] is what administrators do ([dedicated_pool_service.py]) and
    see ([dedicated_pool_readiness.py]).

    Backends.  [BackendAdmin] is [provisioning_backend_service.py] and the health
    worker ([multitenant_health.py]); [SuperPools] the administrator connections
    by generation ([super_connection_pool.py]); [Endpoints] the reviewed cloud
    endpoints ([aliyun/endpoints.py]).

    Authentication.  [AuthModels] has the tables of users and their credentials,
    a database of their own.  [OAuthProvider] is the OAuth server
    ([auth/oauth_provider.py]: codes, refresh tokens in families), [AccessTokens]
    its access tokens with the deny list (verification and revocation),
    [PersonalTokens] is [personal_token_service.py] with its handlers,
    [Passwords] is [auth/builtin.py], [password_policy.py] and
    [credential_mutation.py], [BrowserSessions] the console's sessions
    ([jwt_manager.py], [dependencies.py], [user_session.py], [router.py]),
    [AuthRoutes] the callbacks that issue codes ([auth_routes.py]), the sweep
    ([cleanup.py]) and the operations on users that end credentials, and
    [RateLimit] the limiter in front of them ([auth/rate_limit.py]).

    SQL execution.  [SqlScan] reads statements ([sql_classifier.py] and the
    session scan of [sql_gateway.py]); [ConnectionCache] is
    [connection_cache.py] cut at its awaits; [SqlGateway] the statements, errors
    and discards of [sql_gateway.py]; [SqlSessions] interleaves the calls of many
    users over one cache, with cancellations, as a list of events: every call
    waits for the lock object it was given, and a clean-up may drop that object.

    ** The system and its specification

    [System] makes one step of every transaction of the multitenant mode, whoever
    runs it, and [sys_reachable] of every interleaving; [CreationTheorems] and
    [Dispatching] show that the multi-transaction operations are sequences of such
    steps.  The transactions of the dedicated pools, which write some of the same
    tables, are not steps of this system: what [SystemTheorems] and [Timing] show
    of every run is shown of a server without dedicated pools.
    [LifecycleSpec] is the lifecycle of a resource as an abstract machine;
    [Lifecycle] shows row by row that every transaction is one of its events.
    [Reservation] is the effect of a reservation as one update.  [Transactions]
    has the combinators that prove a block of transactions a sequence of steps,
    for any step relation.  [Examples] has the concrete database the theorems are
    applied to.

    The dedicated pools have a system of their own: [DedicatedSystem] makes one
    step of every transaction of a worker, a request and an administrator, and
    lets a preparation step be interrupted by any of them between its two
    transactions.  The transactions of a worker that read without a lock and
    write at their commit may also commit late, after other steps
    ([DedicatedLate]).  There are two assumptions on timing: a preparation call
    does not outlast the deletion of the resource its member was bought for, and a
    late commit finds its rows as it read them.  [DedicatedAllocation] has the
    invariant; a small pool is at the end of [DedicatedSystem], and the end of
    [DedicatedTheorems] shows two requests on one cluster when the second
    assumption fails.

    So do the credentials: a step of [AuthSystem] is one committed transaction of
    any authentication operation ([event_db]), whose random identifiers ([draws])
    were never drawn before.  [AuthSpec] states the invariants of the tables and
    what a transaction may do to them ([auth_change]); each operation is shown to
    be such a change once, and the theorems use only that.  [AuthExamples] has a
    run.

    ** What the theorems show

    - [SystemTheorems], [Timing]: refinement of the lifecycle machine, capacity
      accounting, the point of no return, revoked access, unique idempotency
      tokens, limits, the cool-down under any clock.
    - [CreationTheorems], [RequestTheorems]: each request on
      every branch; atomicity, idempotency, first fit, refinement under
      interference; the fingerprint determines the request.
    - [DispatcherTheorems], [Liveness]: claims exclude each other, a worker that
      lost its claim writes nothing, retry budgets, error messages do not leak;
      the loop terminates, provisioning, deletion and restoration complete with
      a working adapter.
    - [AdapterTheorems], [DdlTheorems]: no step is reported unverified, nothing
      reaches the tenant server without a valid credential, identifiers cannot
      break out of a statement, grants are read back as they were written.
    - [AccessTheorems]: the capability loop computes the least closed set, and
      an access is resolved exactly when a declarative policy allows it.
    - [ListingTheorems]: following the cursors enumerates the whole listing, each
      row once; [Cursor]: only what the server signed is read back as a cursor.
    - [PolicyTheorems], [OperationBudget]: canonical privileges, snapshot round
      trip, who sees a password, backend order, hourly budgets.
    - [DedicatedTheorems], [DedicatedProgress], [DedicatedReclaim]: no cluster
      serves two Agents, a pass of the worker is a sequence of steps of the
      system, a preparation completes when its calls are answered and is not
      touched again, a resource ends only when its cluster is deleted or emptied.
      [DedicatedAdmin]: a pool changes as the request says or not at all.
    - [SuperPools], [BackendTheorems], [Endpoints]: connections of an older
      generation are fenced off, the health worker ends and touches only its
      rows, only reviewed hosts are used.
    - [DedicatedGrants]: the grants of a member are accepted exactly when they
      are the ones its snapshot asks for.
    - [AuthTheorems]: refresh tokens and codes are used once, a replay ends its
      grant, a changed password ends every older credential, an access token is
      accepted as it was issued and never after it was revoked.
      [RateLimit]: the limiter decides as one that keeps the whole log.
    - [SqlScanTheorems], [SessionTheorems]: the scan computes the executable
      text of every statement; a call runs on a connection of its own user,
      instance and login, which it does not share, in a session as clean as a
      fresh one but for its execution time limit, and leaves nothing behind.
      [SessionInvariant], [SessionClean] and [SessionQuiet] carry the invariants,
      for a table that locks keys; [SessionLocks] shows that the lock objects of
      the source implement it in every run in which no clean-up drops a lock a
      call waits for, and that the connection is the caller's in every run.  The
      end of [SessionTheorems] shows where the guarantees end (a cancelled [USE],
      the connection limit, a cancelled branch reset, the execution time limit, a
      dropped lock).

    ** Bounds and fuel

    Integers of the source are unbounded, as in Python; SHA-256 works on 32-bit
    words modulo [2^32].  Times are microseconds.  Strings are code points below
    256.  The dispatch loop has fuel: [dispatch_loop_terminates] gives a measure
    of the row that is enough, and the liveness theorems name their fuel.  The
    scans of SQL text take the length of the text as fuel, and more changes
    nothing ([scan_fuel]).  The JSON decoder of [Cursor] takes the length of its
    text ([loads_canonical] shows it enough for what is accepted); [walk], a
    client that follows cursors, needs one call a page.
    [datetime.fromisoformat] reads the extended formats, those the server writes.

    ** Parameters

    What is not under [src/] is a parameter: the tenant server (the statements
    the adapter runs, as operations of [Ddl]'s section), the cipher of stored
    credentials, [uuid4] and [secrets] (the entropy of a build), the MySQL server
    behind a gateway connection with the laws [ServerLaws], the judgements
    [sqlparse] makes, the cloud client ([PolarDBClient]) and the MySQL driver
    ([MySQLConnector]) of the dedicated pools, the pools of the driver behind the
    administrator connections, the region and network the cloud access is
    configured with, and what [pydantic] makes of the configuration document the
    legacy audit reads; for authentication, PyJWT's [encode] and [decode] (with
    the laws [JwtLaws]: options are enforced; what was signed decodes while its
    times allow it, [decodes_at]), [str] of
    an [AnyUrl], and what the identity providers answer; for cursors, the derivation of their key ([HKDF]).
    Every theorem that
    assumes something of them is applied to a concrete instance.

    ** Not modelled

    The HTTP API, the rest of authentication (the registration of OAuth clients,
    redirect matching and [authorize], the exchange of external tokens and their
    providers, the tokens of Agent users, cookies), enterprise identity, the MCP
    protocol, the knowledge gateway, the configuration store, the management API
    and the cloud SDK clients, which route, convert and call out; migrations and
    engines; the heartbeat task, whose effect (renewing the
    lease) is a step of the system; metrics and logging other than the log line
    whose content is a claim. *)
From stdpp Require Export gmap strings list fin_maps sorting option pretty.
From Stdlib Require Export Ascii ZArith Lia.

#[global] Open Scope Z_scope.

(** ** Record update

    [r <| field := v |>] copies the record [r] with one field replaced.  A
    record type opts in with an [Eta] instance (the record rebuilt from its
    projections); the setter of a field is computed from it. *)

Class Eta (R : Type) : Type := eta_of : R → R.
Class Setter {R T : Type} (proj : R → T) : Type := set_field : (T → T) → R → R.
Arguments set_field {R T} proj {_} _ _ /.

Ltac solve_setter :=
  lazymatch goal with
  | |- @Setter ?R ?T ?proj =>
      let e := constr:(_ : Eta R) in
      let b := eval hnf in e in
      let p := eval pattern proj in b in
      lazymatch p with
      | ?f _ =>
          let s := eval cbv beta in (λ g : T → T, f (λ r : R, g (proj r))) in
          exact s
      end
  end.

#[export] Hint Extern 1 (Setter _) => solve_setter : typeclass_instances.

Declare Scope record_update_scope.
Delimit Scope record_update_scope with record_update.
#[global] Open Scope record_update_scope.
Notation "r <| f := v |>" := (set_field f (λ _, v) r)
  (at level 1, left associativity, f at level 99, v at level 200) : record_update_scope.

(** Python's [==] and [!=] on values of decidable equality. *)
Declare Scope py_scope.
Delimit Scope py_scope with py.
#[global] Open Scope py_scope.
Notation "x == y" := (bool_decide (x = y)) (at level 70, no associativity) : py_scope.
Notation "x != y" := (negb (bool_decide (x = y))) (at level 70, no associativity) : py_scope.

(** ** Python exceptions and effectful code

    An exception is its class name, its first argument when that is an [int]
    (what [error.args[0]] is for a MySQL driver error) and its message. *)

Record PyExc : Type := mk_exc {
  exc_type : string;
  exc_code : option Z;
  exc_message : string
}.

#[export] Instance PyExc_eq_dec : EqDecision PyExc.
Proof. solve_decision. Defined.

Definition exc (ty msg : string) : PyExc := mk_exc ty None msg.
Definition RuntimeError (msg : string) : PyExc := exc "RuntimeError" msg.
Definition ValueError (msg : string) : PyExc := exc "ValueError" msg.
Definition LookupError (msg : string) : PyExc := exc "LookupError" msg.
Definition HTTPException (code : Z) (message : string) : PyExc := mk_exc "HTTPException" (Some code) message.
Definition is_exc (ty : string) (e : PyExc) : bool := String.eqb (exc_type e) ty.

Inductive outcome (A : Type) : Type :=
| Ret (a : A)
| Raise (e : PyExc).
Arguments Ret {A} a.
Arguments Raise {A} e.

(** [M S A]: code over a mutable state [S] that returns an [A] or raises.  A
    raise keeps the state reached so far, as Python does. *)
Definition M (S A : Type) : Type := S → S * outcome A.

#[export] Instance M_ret (S : Type) : MRet (M S) := λ A a s, (s, Ret a).
#[export] Instance M_bind (S : Type) : MBind (M S) := λ A B k m s,
  match m s with
  | (s', Ret a) => k a s'
  | (s', Raise e) => (s', Raise e)
  end.

Definition raise {S A : Type} (e : PyExc) : M S A := λ s, (s, Raise e).

Definition get_state {S : Type} : M S S := λ s, (s, Ret s).
Definition put_state {S : Type} (s' : S) : M S unit := λ _, (s', Ret tt).

(** [try: m  except Exception as e: h(e)] *)
Definition try_except {S A : Type} (m : M S A) (h : PyExc → M S A) : M S A := λ s,
  match m s with
  | (s', Ret a) => (s', Ret a)
  | (s', Raise e) => h e s'
  end.

(** [try: m  except Exception as e: h(e)  else: k(result)] — [k] is outside the
    protected region, so what it raises is not caught. *)
Definition try_else {S A B : Type} (m : M S A) (h : PyExc → M S B) (k : A → M S B) : M S B := λ s,
  match m s with
  | (s', Ret a) => k a s'
  | (s', Raise e) => h e s'
  end.

(** [try: m  finally: f] — a raise of [f] replaces the result of [m]. *)
Definition try_finally {S A : Type} (m : M S A) (f : M S unit) : M S A := λ s,
  match m s with
  | (s', Ret a) => match f s' with (s'', Ret _) => (s'', Ret a) | (s'', Raise e) => (s'', Raise e) end
  | (s', Raise e) => match f s' with (s'', Ret _) => (s'', Raise e) | (s'', Raise e') => (s'', Raise e') end
  end.

(** A pure computation that may raise. *)
Definition lift_outcome {S A : Type} (o : outcome A) : M S A := λ s, (s, o).

#[export] Instance outcome_ret : MRet outcome := λ A a, Ret a.
#[export] Instance outcome_bind : MBind outcome := λ A B k o,
  match o with Ret a => k a | Raise e => Raise e end.

(** [for x in l: f(x)] *)
Fixpoint for_each {S A : Type} (f : A → M S unit) (l : list A) : M S unit :=
  match l with
  | [] => mret tt
  | x :: l' => f x ;; for_each f l'
  end.

(** ** Database sessions

    A metadata-database session: what is committed, the transaction's working
    copy, whether a transaction is open, and the transactions that other
    sessions commit before each later [BEGIN] of this one.  Transactions are
    serialized (the row locks, or SQLite's [BEGIN IMMEDIATE]), so another
    session's commit falls between two transactions of this session. *)
Record Session (DB : Type) : Type := mk_session {
  committed : DB;
  working : DB;
  in_tx : bool;
  others : list (DB → DB)
}.
Arguments mk_session {DB}.
Arguments committed {DB} _.
Arguments working {DB} _.
Arguments in_tx {DB} _.
Arguments others {DB} _.

Definition open_session {DB : Type} (db : DB) : Session DB := mk_session db db false [].

(** SQLAlchemy begins a transaction at the first statement. *)
Definition autobegin {DB : Type} (s : Session DB) : Session DB :=
  if in_tx s then s
  else
    let db := match others s with [] => committed s | f :: _ => f (committed s) end in
    mk_session db db true (tail (others s)).

Definition query {DB A : Type} (f : DB → A) : M (Session DB) A := λ s,
  let s' := autobegin s in (s', Ret (f (working s'))).

Definition execute {DB : Type} (f : DB → DB) : M (Session DB) unit := λ s,
  let s' := autobegin s in
  (mk_session (committed s') (f (working s')) true (others s'), Ret tt).

Definition commit {DB : Type} : M (Session DB) unit := λ s,
  (mk_session (if in_tx s then working s else committed s)
              (if in_tx s then working s else committed s) false (others s), Ret tt).

Definition rollback {DB : Type} : M (Session DB) unit := λ s,
  (mk_session (committed s) (committed s) false (others s), Ret tt).

Definition in_transaction {DB : Type} : M (Session DB) bool := λ s, (s, Ret (in_tx s)).

(** [async with self._session_factory() as session: m] — closing the session
    discards what was not committed. *)
Definition with_session {DB A : Type} (m : M (Session DB) A) : M DB A := λ db,
  match m (open_session db) with (s, o) => (committed s, o) end.

(** The database after a transaction block, and its outcome. *)
Definition txn_db {DB A : Type} (m : M (Session DB) A) (db : DB) : DB := (with_session m db).1.
Definition txn_out {DB A : Type} (m : M (Session DB) A) (db : DB) : outcome A := (with_session m db).2.

(** *** Running a transaction

    Equations that run the statements of a block one after the other, in a
    session with an open transaction and in one without. *)
Section run.
  Context {DB A B C : Type}.
  Implicit Types (k : A → M (Session DB) B) (c w : DB) (o : list (DB → DB)).

Lemma run_assoc {S} (m : M S A) (f : A → M S B) (g : B → M S C) (s : S) :
  ((m ≫= f) ≫= g) s = (m ≫= (λ a, f a ≫= g)) s.
Proof. unfold mbind, M_bind. by destruct (m s) as [s' [a|e]]. Qed.
Lemma run_bind_ret {S} (m : M S A) (f : A → M S B) s s' a :
  m s = (s', Ret a) → (m ≫= f) s = f a s'.
Proof. unfold mbind, M_bind. by intros ->. Qed.
Lemma run_try_ret {S} (m : M S A) h s s' a :
  m s = (s', Ret a) → try_except m h s = (s', Ret a).
Proof. unfold try_except. by intros ->. Qed.
Lemma run_ret {S} (a : A) (f : A → M S B) s : (mret a ≫= f) s = f a s.
Proof. done. Qed.
Lemma run_raise {S} e (f : A → M S B) s : (raise e ≫= f) s = (s, Raise e).
Proof. done. Qed.
Lemma run_raise_end {S} e (s : S) : raise (A:=A) e s = (s, Raise e).
Proof. done. Qed.
Lemma run_ret_end {S} (a : A) (s : S) : mret (M:=M S) a s = (s, Ret a).
Proof. done. Qed.
Lemma run_outcome {S} (o : outcome A) (f : A → M S B) s :
  (lift_outcome o ≫= f) s = match o with Ret a => f a s | Raise e => (s, Raise e) end.
Proof. by destruct o. Qed.
Lemma run_query f k c w o :
  (query f ≫= k) (mk_session c w true o) = k (f w) (mk_session c w true o).
Proof. done. Qed.
Lemma run_query_begin f k c w :
  (query f ≫= k) (mk_session c w false []) = k (f c) (mk_session c c true []).
Proof. done. Qed.
Lemma run_session_raise e (db : DB) : with_session (raise (A:=A) e) db = (db, Raise e).
Proof. done. Qed.
Lemma run_execute f (k : unit → M (Session DB) B) c w o :
  (execute f ≫= k) (mk_session c w true o) = k tt (mk_session c (f w) true o).
Proof. done. Qed.
Lemma run_execute_end f c w o :
  execute f (mk_session c w true o) = (mk_session c (f w) true o, Ret tt).
Proof. done. Qed.
Lemma run_commit (k : unit → M (Session DB) B) c w o :
  (commit ≫= k) (mk_session c w true o) = k tt (mk_session w w false o).
Proof. done. Qed.
Lemma run_rollback (k : unit → M (Session DB) B) c w b o :
  (rollback ≫= k) (mk_session c w b o) = k tt (mk_session c c false o).
Proof. done. Qed.
End run.

Create Rewrite HintDb pas_txn.
#[export] Hint Rewrite @run_assoc @run_ret @run_raise @run_raise_end @run_ret_end @run_outcome
  @run_query @run_query_begin @run_session_raise @run_execute @run_execute_end @run_commit @run_rollback : pas_txn.

(** ** Time

    An aware [datetime] is its instant in microseconds since the epoch (UTC).
    A naive value read back from the database denotes the same instant in UTC,
    so the [as_utc] normalisations of the source are the identity here. *)
Abbreviation time := Z (only parsing).
Definition seconds (n : Z) : Z := n * 1000000.
Definition hours (n : Z) : Z := n * 3600000000.

(** ** Python strings as Rocq strings *)

(** [bool(s)] of an optional string column: neither [None] nor empty. *)
Definition truthy (s : option string) : bool :=
  match s with None | Some EmptyString => false | Some (String _ _) => true end.

Definition ascii_in (lo hi : nat) (a : ascii) : bool :=
  let n := nat_of_ascii a in (lo <=? n)%nat && (n <=? hi)%nat.
Definition is_digit (a : ascii) : bool := ascii_in 48 57 a.
Definition is_upper (a : ascii) : bool := ascii_in 65 90 a.
Definition is_lower (a : ascii) : bool := ascii_in 97 122 a.
Definition is_alnum (a : ascii) : bool := is_digit a || is_upper a || is_lower a.

Fixpoint string_forallb (p : ascii → bool) (s : string) : bool :=
  match s with
  | EmptyString => true
  | String a s' => p a && string_forallb p s'
  end.

(** [re.fullmatch] of a class repeated [lo] to [hi] times. *)
Definition fullmatch_class (p : ascii → bool) (lo hi : nat) (s : string) : bool :=
  string_forallb p s && (lo <=? String.length s)%nat && (String.length s <=? hi)%nat.

(** [sep.join(parts)] *)
Definition join (sep : string) (parts : list string) : string := String.concat sep parts.

(** ** Ordered selection: [ORDER BY key LIMIT 1] *)
Section first_by.
  Context {A : Type} (le : A → A → bool).

(** The first element of the list that no other element precedes. *)
Fixpoint first_by (l : list A) : option A :=
  match l with
  | [] => None
  | x :: l' =>
      match first_by l' with
      | None => Some x
      | Some y => if le x y then Some x else Some y
      end
  end.

Lemma first_by_elem l x : first_by l = Some x → x ∈ l.
Proof.
  induction l as [|y l IH] in x |- *; simpl; [done|].
  destruct (first_by l) as [z|] eqn:Hl; [destruct (le y z)|];
    intros [= ->]; set_solver.
Qed.

Lemma first_by_none l : first_by l = None ↔ l = [].
Proof.
  destruct l as [|y l]; simpl; [done|].
  split; [|done]. destruct (first_by l); [destruct (le _ _)|]; done.
Qed.

Lemma first_by_least l x :
  (∀ a b, le a b = true ∨ le b a = true) →
  (∀ a b c, le a b = true → le b c = true → le a c = true) →
  first_by l = Some x → ∀ y, y ∈ l → le x y = true.
Proof.
  intros Htot Htr. induction l as [|z l IH] in x |- *; simpl; [done|].
  destruct (first_by l) as [w|] eqn:Hl.
  - destruct (le z w) eqn:Hzw; intros [= ->] y Hy; apply elem_of_cons in Hy as [->|Hy].
    + by destruct (Htot x x).
    + eapply Htr; [exact Hzw|]. by apply IH.
    + destruct (Htot x z) as [?|?]; congruence.
    + by apply IH.
  - intros [= ->] y Hy. apply first_by_none in Hl as ->.
    apply list_elem_of_singleton in Hy as ->. by destruct (Htot x x).
Qed.
End first_by.

(** Lexicographic order of [(time, id)] pairs. *)
Definition key_le (a b : Z * string) : bool :=
  (a.1 <? b.1) || ((a.1 =? b.1) && bool_decide (String.le a.2 b.2)).

(** ** Counting rows *)
Section count_rows.
  Context {V : Type}.

Definition count_rows (p : V → bool) (m : gmap string V) : Z :=
  map_fold (λ _ v acc, (if p v then 1 else 0) + acc) 0 m.

Lemma count_rows_empty p : count_rows p ∅ = 0.
Proof. apply map_fold_empty. Qed.

Lemma count_rows_insert_new p m k v :
  m !! k = None → count_rows p (<[k := v]> m) = (if p v then 1 else 0) + count_rows p m.
Proof.
  intros Hk. unfold count_rows. rewrite map_fold_insert_L; [done| |done].
  intros; lia.
Qed.

Lemma count_rows_delete p m k v :
  m !! k = Some v → count_rows p m = (if p v then 1 else 0) + count_rows p (delete k m).
Proof.
  intros Hk. rewrite <-(insert_delete_id m k v) at 1 by done.
  rewrite count_rows_insert_new; [done|]. by rewrite lookup_delete_eq.
Qed.

Lemma count_rows_insert p m k v v' :
  m !! k = Some v →
  count_rows p (<[k := v']> m)
    = count_rows p m - (if p v then 1 else 0) + (if p v' then 1 else 0).
Proof.
  intros Hk. rewrite (count_rows_delete p m k v) by done.
  rewrite <-insert_delete_eq, count_rows_insert_new by apply lookup_delete_eq. lia.
Qed.

Lemma count_rows_nonneg p m : 0 <= count_rows p m.
Proof.
  induction m as [|k v m Hk IH] using map_ind; [by rewrite count_rows_empty|].
  rewrite count_rows_insert_new by done. destruct (p v); lia.
Qed.

Lemma count_rows_pos p m k v :
  m !! k = Some v → p v = true → 0 < count_rows p m.
Proof.
  intros Hk Hp. rewrite (count_rows_delete p m k v), Hp by done.
  pose proof (count_rows_nonneg p (delete k m)). lia.
Qed.
End count_rows.

(** ** Automation *)
Create HintDb pas discriminated.

(** Split every [if]/[match] of the goal or of a hypothesis, keeping equations. *)
Ltac split_matches :=
  repeat first
    [ case_match
    | match goal with H : context [match ?x with _ => _ end] |- _ => destruct x eqn:? end
    ]; simplify_eq/=.

(** Split on a condition of the program in the goal, not on the result of a
    statement that has not been run. *)
Ltac split_branch :=
  match goal with
  | |- context [match ?x with _ => _ end] =>
      lazymatch type of x with
      | (_ * outcome _)%type => fail
      | _ => destruct x eqn:?
      end
  end.

(** Run a transaction on a symbolic database, branch by branch. *)
Ltac run_branches :=
  repeat first
    [ progress autorewrite with pas_txn | progress cbn [committed working in_tx others fst snd]
    | split_branch ].

(** Run a transaction on a symbolic database. *)
Ltac run_txn :=
  cbv beta iota zeta delta
    [txn_db txn_out with_session open_session query execute commit rollback raise autobegin
     mbind mret M_bind M_ret committed working in_tx others fst snd tail try_except try_else
     lift_outcome in_transaction get_state put_state] in *.
