(* ===== verification/Models.v ===== *)
(** * The metadata database

    The tables of [server/models/] that provisioning uses: one inductive type
    per Python enum (in a module of the enum's name, so a constructor reads as
    in the source), one record per model class with its columns, and the
    database [DB] as a record of finite maps keyed by primary key.  The ORM's
    [updated_at] hook and relationship attributes are not columns here: a
    relationship is the query it stands for ([resource_credentials], ...). *)

From S2P Require Import Prelude.

(** ** JSON documents

    A text column that holds JSON is its decoded value, or [Malformed] when
    [json.loads] rejects it; object keys are kept in the order given. *)
Inductive json : Type :=
| JNull
| JBool (b : bool)
| JNum (z : Z)
| JStr (s : string)
| JArr (l : list json)
| JObj (l : list (string * json)).

Inductive json_text : Type :=
| Encodes (j : json)
| Malformed.

Fixpoint json_eq (j k : json) : {j = k} + {j ≠ k}.
Proof.
  refine (match j, k with
    | JNull, JNull => left eq_refl
    | JBool a, JBool b => cast_if (decide (a = b))
    | JNum a, JNum b => cast_if (decide (a = b))
    | JStr a, JStr b => cast_if (decide (a = b))
    | JArr a, JArr b => cast_if (@list_eq_dec json json_eq a b)
    | JObj a, JObj b => cast_if (@list_eq_dec _ (@prod_eq_dec string _ json json_eq) a b)
    | _, _ => right _
    end); congruence.
Defined.
#[export] Instance json_eq_dec : EqDecision json := json_eq.

#[export] Instance json_text_eq_dec : EqDecision json_text.
Proof. solve_decision. Defined.

Definition json_dumps (j : json) : json_text := Encodes j.
Definition json_loads (t : json_text) : option json :=
  match t with Encodes j => Some j | Malformed => None end.

(** [payload.get(key)] of a JSON object. *)
Fixpoint json_get (key : string) (l : list (string * json)) : option json :=
  match l with
  | [] => None
  | (k, v) :: l' => if String.eqb k key then Some v else json_get key l'
  end.

(** ** Enumerations *)

Module DBInstanceStatus.
Inductive t : Set := | CREATING | READY | FAILED | DELETING | COOLING_DOWN | RESTORING
  | DELETED | DELETE_FAILED.

#[global] Instance t_eq_dec : EqDecision t.
Proof. solve_decision. Defined.

Definition value (x : t) : string :=
  match x with
  | CREATING => "creating"
  | READY => "ready"
  | FAILED => "failed"
  | DELETING => "deleting"
  | COOLING_DOWN => "cooling_down"
  | RESTORING => "restoring"
  | DELETED => "deleted"
  | DELETE_FAILED => "delete_failed"
  end.

End DBInstanceStatus.

Module LeaseProvisioningStep.
Inductive t : Set := | PENDING | RESOURCE_CONFIG_CREATED | TENANT_CREATED | USER_CREATED
  | DATABASE_CREATED | GRANTED | VERIFIED.

#[global] Instance t_eq_dec : EqDecision t.
Proof. solve_decision. Defined.

Definition value (x : t) : string :=
  match x with
  | PENDING => "pending"
  | RESOURCE_CONFIG_CREATED => "resource_config_created"
  | TENANT_CREATED => "tenant_created"
  | USER_CREATED => "user_created"
  | DATABASE_CREATED => "database_created"
  | GRANTED => "granted"
  | VERIFIED => "verified"
  end.

End LeaseProvisioningStep.

Module LeaseCleanupStep.
Inductive t : Set := | PENDING | DATABASE_DROPPED | TENANT_DROPPED | RESOURCE_CONFIG_DROPPED
  | RESIDUE_VERIFIED.

#[global] Instance t_eq_dec : EqDecision t.
Proof. solve_decision. Defined.

Definition value (x : t) : string :=
  match x with
  | PENDING => "pending"
  | DATABASE_DROPPED => "database_dropped"
  | TENANT_DROPPED => "tenant_dropped"
  | RESOURCE_CONFIG_DROPPED => "resource_config_dropped"
  | RESIDUE_VERIFIED => "residue_verified"
  end.

End LeaseCleanupStep.

Module DeleteLifecycleStep.
Inductive t : Set := | PENDING | ACCOUNT_LOCKED | SESSIONS_TERMINATED | DISCONNECTED
  | COOLING_DOWN | LOGICAL_CLEANUP | PHYSICAL_DESTROY | SANITIZE_DISPATCH | COMPLETE.

#[global] Instance t_eq_dec : EqDecision t.
Proof. solve_decision. Defined.

Definition value (x : t) : string :=
  match x with
  | PENDING => "pending"
  | ACCOUNT_LOCKED => "account_locked"
  | SESSIONS_TERMINATED => "sessions_terminated"
  | DISCONNECTED => "disconnected"
  | COOLING_DOWN => "cooling_down"
  | LOGICAL_CLEANUP => "logical_cleanup"
  | PHYSICAL_DESTROY => "physical_destroy"
  | SANITIZE_DISPATCH => "sanitize_dispatch"
  | COMPLETE => "complete"
  end.

End DeleteLifecycleStep.

Module ProvisioningMode.
Inductive t : Set := | DEDICATED | MULTITENANT.

#[global] Instance t_eq_dec : EqDecision t.
Proof. solve_decision. Defined.

Definition value (x : t) : string :=
  match x with
  | DEDICATED => "dedicated"
  | MULTITENANT => "multitenant"
  end.

End ProvisioningMode.

Module InstanceEngine.
Inductive t : Set := | POLARDB_MYSQL.

#[global] Instance t_eq_dec : EqDecision t.
Proof. solve_decision. Defined.

Definition value (x : t) : string :=
  match x with
  | POLARDB_MYSQL => "polardb_mysql"
  end.

End InstanceEngine.

Module InstanceTopology.
Inductive t : Set := | SINGLE_TENANT | MULTITENANT.

#[global] Instance t_eq_dec : EqDecision t.
Proof. solve_decision. Defined.

Definition value (x : t) : string :=
  match x with
  | SINGLE_TENANT => "single_tenant"
  | MULTITENANT => "multitenant"
  end.

End InstanceTopology.

Module AllocationMode.
Inductive t : Set := | AUTO_PROVISIONED | POOLED | REGISTERED | DEDICATED_POOL.

#[global] Instance t_eq_dec : EqDecision t.
Proof. solve_decision. Defined.

End AllocationMode.

Module InstanceStatus.
Inductive t : Set := | CREATING | ACTIVE | STOPPED | FAILED.

#[global] Instance t_eq_dec : EqDecision t.
Proof. solve_decision. Defined.

End InstanceStatus.

Module ReclaimPolicy.
Inductive t : Set := | DESTROY | SANITIZE_AND_REUSE.

#[global] Instance t_eq_dec : EqDecision t.
Proof. solve_decision. Defined.

Definition value (x : t) : string :=
  match x with
  | DESTROY => "destroy"
  | SANITIZE_AND_REUSE => "sanitize_and_reuse"
  end.

End ReclaimPolicy.

Module CredentialPurpose.
Inductive t : Set := | PROVISIONING_ADMIN | DIRECT_ACCESS | RESOURCE_ACCESS.

#[global] Instance t_eq_dec : EqDecision t.
Proof. solve_decision. Defined.

End CredentialPurpose.

Module CredentialCapability.
Inductive t : Set := | READONLY | READWRITE | ADMIN.

#[global] Instance t_eq_dec : EqDecision t.
Proof. solve_decision. Defined.

End CredentialCapability.

Module CredentialStatus.
Inductive t : Set := | ACTIVE | REVOKED.

#[global] Instance t_eq_dec : EqDecision t.
Proof. solve_decision. Defined.

End CredentialStatus.

Module ProvisioningBackendStatus.
Inductive t : Set := | ACTIVE | DRAINING | DISABLED.

#[global] Instance t_eq_dec : EqDecision t.
Proof. solve_decision. Defined.

End ProvisioningBackendStatus.

Module ProvisioningBackendType.
Inductive t : Set := | MULTITENANT | DEDICATED_POOL.

#[global] Instance t_eq_dec : EqDecision t.
Proof. solve_decision. Defined.

End ProvisioningBackendType.

Module AgentStatus.
Inductive t : Set := | ACTIVE | DISABLED.

#[global] Instance t_eq_dec : EqDecision t.
Proof. solve_decision. Defined.

End AgentStatus.

Module DedicatedPoolStatus.
Inductive t : Set := | ACTIVE | DRAINING | DISABLED.

#[global] Instance t_eq_dec : EqDecision t.
Proof. solve_decision. Defined.

End DedicatedPoolStatus.

Module DedicatedMemberStatus.
Inductive t : Set := | REPLENISHING | AVAILABLE | ALLOCATED_PREPARING | ALLOCATED | COOLING_DOWN
  | SANITIZING | QUARANTINED | DELETING | DELETED.

#[global] Instance t_eq_dec : EqDecision t.
Proof. solve_decision. Defined.

End DedicatedMemberStatus.

Module ReadinessStatus.
Inductive t : Set := | FRESH | STALE | CHECKING.

#[global] Instance t_eq_dec : EqDecision t.
Proof. solve_decision. Defined.

End ReadinessStatus.

Module DedicatedPreparationStep.
Inductive t : Set := | PENDING | PURCHASE_INTENT_STORED | PURCHASE_REQUESTED | CLUSTER_READY
  | ENDPOINT_RESOLVED | LIFECYCLE_ACCOUNT_STORED | LIFECYCLE_ACCOUNT_CREATED
  | SANDBOX_ACCOUNT_STORED | SANDBOX_ACCOUNT_CREATED | DATABASE_CREATED | OPENAPI_READY
  | PRIVILEGES_GRANTED | VERIFIED.

#[global] Instance t_eq_dec : EqDecision t.
Proof. solve_decision. Defined.

End DedicatedPreparationStep.

Module LifecycleAdministratorPolicy.
Inductive t : Set := | PAS_MANAGED | ADMIN_PROVIDED.

#[global] Instance t_eq_dec : EqDecision t.
Proof. solve_decision. Defined.

End LifecycleAdministratorPolicy.


Module PermissionSyncMode.
Inductive t : Set := | DRY_RUN | APPLY.

#[global] Instance t_eq_dec : EqDecision t.
Proof. solve_decision. Defined.

End PermissionSyncMode.

Module PermissionSyncStatus.
Inductive t : Set := | PENDING | RUNNING | SUCCEEDED | FAILED.

#[global] Instance t_eq_dec : EqDecision t.
Proof. solve_decision. Defined.

End PermissionSyncStatus.

Module PermissionSyncTargetStatus.
Inductive t : Set := | PENDING | RUNNING | SUCCEEDED | FAILED.

#[global] Instance t_eq_dec : EqDecision t.
Proof. solve_decision. Defined.

End PermissionSyncTargetStatus.

(** ** Model classes *)

Record InstanceCredential : Type := mk_credential {
  c_id : string;
  c_instance_id : option string;
  c_resource_id : option string;
  c_name : string;
  c_purpose : CredentialPurpose.t;
  c_capability : CredentialCapability.t;
  c_username_ciphertext : option string;
  c_password_ciphertext : option string;
  c_database_name : option string;
  c_status : CredentialStatus.t;
  c_version : Z;
  c_created_by_user_id : option string
}.

#[export] Instance InstanceCredential_eta : Eta InstanceCredential := λ x,
  mk_credential
    (c_id x) (c_instance_id x) (c_resource_id x) (c_name x) (c_purpose x) (c_capability x)
    (c_username_ciphertext x) (c_password_ciphertext x) (c_database_name x) (c_status x)
    (c_version x) (c_created_by_user_id x).

Record Instance : Type := mk_instance {
  i_id : string;
  i_cluster_id : string;
  i_name : string;
  i_usage : option string;
  i_engine : InstanceEngine.t;
  i_topology : InstanceTopology.t;
  i_allocation_mode : AllocationMode.t;
  i_region : option string;
  i_host : option string;
  i_port : option Z;
  i_status : InstanceStatus.t;
  i_quota_held : bool;
  i_owner_user_id : option string
}.

#[export] Instance Instance_eta : Eta Instance := λ x,
  mk_instance
    (i_id x) (i_cluster_id x) (i_name x) (i_usage x) (i_engine x) (i_topology x)
    (i_allocation_mode x) (i_region x) (i_host x) (i_port x) (i_status x) (i_quota_held x)
    (i_owner_user_id x).

Record ProvisioningBackend : Type := mk_backend {
  b_id : string;
  b_backend_type : ProvisioningBackendType.t;
  b_instance_id : option string;
  b_dedicated_pool_id : option string;
  b_admin_credential_id : option string;
  b_status : ProvisioningBackendStatus.t;
  b_priority : Z;
  b_max_active_resources : Z;
  b_resource_min_cpu : Z;
  b_resource_max_cpu : Z;
  b_ddl_concurrency : Z;
  b_config_revision : Z;
  b_delete_cooldown_duration_hours : option Z;
  b_permission_template_revision_id : option string
}.

#[export] Instance ProvisioningBackend_eta : Eta ProvisioningBackend := λ x,
  mk_backend
    (b_id x) (b_backend_type x) (b_instance_id x) (b_dedicated_pool_id x)
    (b_admin_credential_id x) (b_status x) (b_priority x) (b_max_active_resources x)
    (b_resource_min_cpu x) (b_resource_max_cpu x) (b_ddl_concurrency x)
    (b_config_revision x) (b_delete_cooldown_duration_hours x)
    (b_permission_template_revision_id x).

Record ProvisioningBackendHealth : Type := mk_health {
  h_backend_id : string;
  h_healthy : bool;
  h_checked_at : time;
  h_consecutive_failures : Z;
  h_error_code : option string
}.

#[export] Instance ProvisioningBackendHealth_eta : Eta ProvisioningBackendHealth := λ x,
  mk_health
    (h_backend_id x) (h_healthy x) (h_checked_at x) (h_consecutive_failures x)
    (h_error_code x).

Record Agent : Type := mk_agent {
  a_id : string;
  a_name : string;
  a_description : option string;
  a_status : AgentStatus.t;
  a_max_active_resources : option Z
}.

#[export] Instance Agent_eta : Eta Agent := λ x,
  mk_agent
    (a_id x) (a_name x) (a_description x) (a_status x) (a_max_active_resources x).

Record AgentProvisioningBinding : Type := mk_provisioning_binding {
  ab_id : string;
  ab_agent_id : string;
  ab_backend_id : string;
  ab_enabled : bool;
  ab_routing_order : option Z;
  ab_created_by_user_id : string
}.

#[export] Instance AgentProvisioningBinding_eta : Eta AgentProvisioningBinding := λ x,
  mk_provisioning_binding
    (ab_id x) (ab_agent_id x) (ab_backend_id x) (ab_enabled x) (ab_routing_order x)
    (ab_created_by_user_id x).

Record PermissionTemplateRevision : Type := mk_revision {
  pr_id : string;
  pr_template_id : string;
  pr_revision : Z;
  pr_privileges_json : json_text;
  pr_grant_option : bool;
  pr_created_by_user_id : option string
}.

#[export] Instance PermissionTemplateRevision_eta : Eta PermissionTemplateRevision := λ x,
  mk_revision
    (pr_id x) (pr_template_id x) (pr_revision x) (pr_privileges_json x) (pr_grant_option x)
    (pr_created_by_user_id x).

Record DedicatedPool : Type := mk_pool {
  p_id : string;
  p_name : string;
  p_status : DedicatedPoolStatus.t;
  p_target_size : Z;
  p_max_total_members : Z;
  p_max_member_purchases_per_hour : Z;
  p_max_create_requests_per_agent_per_hour : Z;
  p_max_delete_requests_per_agent_per_hour : Z;
  p_purchase_config_json : json_text;
  p_purchase_profile_id : option string;
  p_purchase_profile_revision : option Z;
  p_storage_type : option string;
  p_region_id : string;
  p_vpc_id : string;
  p_vswitch_id : string;
  p_zone_id : option string;
  p_security_ip_list : option string;
  p_endpoint_net_type : string;
  p_reclaim_policy : ReclaimPolicy.t;
  p_lifecycle_admin_policy : LifecycleAdministratorPolicy.t;
  p_permission_template_revision_id : string;
  p_account_name_template : string;
  p_database_name_template : string;
  p_delete_cooldown_duration_hours : option Z;
  p_available_health_check_interval_seconds : Z;
  p_available_health_stale_after_seconds : Z;
  p_config_revision : Z
}.

#[export] Instance DedicatedPool_eta : Eta DedicatedPool := λ x,
  mk_pool
    (p_id x) (p_name x) (p_status x) (p_target_size x) (p_max_total_members x)
    (p_max_member_purchases_per_hour x) (p_max_create_requests_per_agent_per_hour x)
    (p_max_delete_requests_per_agent_per_hour x) (p_purchase_config_json x)
    (p_purchase_profile_id x) (p_purchase_profile_revision x) (p_storage_type x) (p_region_id x)
    (p_vpc_id x) (p_vswitch_id x) (p_zone_id x) (p_security_ip_list x) (p_endpoint_net_type x)
    (p_reclaim_policy x) (p_lifecycle_admin_policy x) (p_permission_template_revision_id x)
    (p_account_name_template x) (p_database_name_template x) (p_delete_cooldown_duration_hours x)
    (p_available_health_check_interval_seconds x) (p_available_health_stale_after_seconds x)
    (p_config_revision x).

Record DedicatedPoolMember : Type := mk_member {
  m_id : string;
  m_pool_id : string;
  m_instance_id : string;
  m_status : DedicatedMemberStatus.t;
  m_readiness_status : ReadinessStatus.t;
  m_preparation_step : DedicatedPreparationStep.t;
  m_purchase_token : option string;
  m_cloud_request_id : option string;
  m_agentic_db_cluster_id : option string;
  m_last_ready_verified_at : option time;
  m_lifecycle_username_ciphertext : option string;
  m_lifecycle_password_ciphertext : option string;
  m_sandbox_username_ciphertext : option string;
  m_sandbox_password_ciphertext : option string;
  m_host : option string;
  m_port : option Z;
  m_database_name : option string;
  m_permission_template_revision_id : option string;
  m_permission_snapshot_json : option json_text;
  m_allocated_resource_id : option string;
  m_delete_cooldown_duration_hours : option Z;
  m_failure_reason : option string;
  m_retry_count : Z;
  m_next_retry_at : option time;
  m_worker_id : option string;
  m_worker_lease_until : option time;
  m_created_at : time
}.

#[export] Instance DedicatedPoolMember_eta : Eta DedicatedPoolMember := λ x,
  mk_member
    (m_id x) (m_pool_id x) (m_instance_id x) (m_status x) (m_readiness_status x)
    (m_preparation_step x) (m_purchase_token x) (m_cloud_request_id x) (m_agentic_db_cluster_id x)
    (m_last_ready_verified_at x) (m_lifecycle_username_ciphertext x)
    (m_lifecycle_password_ciphertext x) (m_sandbox_username_ciphertext x)
    (m_sandbox_password_ciphertext x) (m_host x) (m_port x) (m_database_name x)
    (m_permission_template_revision_id x) (m_permission_snapshot_json x)
    (m_allocated_resource_id x) (m_delete_cooldown_duration_hours x) (m_failure_reason x)
    (m_retry_count x) (m_next_retry_at x) (m_worker_id x) (m_worker_lease_until x)
    (m_created_at x).

Record DBInstanceResource : Type := mk_resource {
  r_id : string;
  r_owner_agent_id : string;
  r_backend_id : string;
  r_client_token : string;
  r_request_fingerprint : string;
  r_fingerprint_version : Z;
  r_name : option string;
  r_engine : InstanceEngine.t;
  r_status : DBInstanceStatus.t;
  r_provisioning_mode : ProvisioningMode.t;
  r_allocated_instance_id : option string;
  r_permission_template_id : option string;
  r_permission_template_revision_id : option string;
  r_permission_snapshot_json : option json_text;
  r_tenant_name : option string;
  r_resource_config_name : option string;
  r_database_name : option string;
  r_provisioning_step : LeaseProvisioningStep.t;
  r_cleanup_step : LeaseCleanupStep.t;
  r_cleanup_required : bool;
  r_failure_reason : option string;
  r_retry_count : Z;
  r_next_retry_at : option time;
  r_worker_id : option string;
  r_worker_lease_until : option time;
  r_capacity_released_at : option time;
  r_delete_requested_at : option time;
  r_disconnected_at : option time;
  r_effective_delete_cooldown_duration_hours : option Z;
  r_cooldown_until : option time;
  r_reclaim_policy : option ReclaimPolicy.t;
  r_delete_step : DeleteLifecycleStep.t;
  r_restore_source_status : option DBInstanceStatus.t;
  r_restore_failure_reason : option string;
  r_created_at : time
}.

#[export] Instance DBInstanceResource_eta : Eta DBInstanceResource := λ x,
  mk_resource
    (r_id x) (r_owner_agent_id x) (r_backend_id x) (r_client_token x)
    (r_request_fingerprint x) (r_fingerprint_version x) (r_name x) (r_engine x)
    (r_status x) (r_provisioning_mode x) (r_allocated_instance_id x)
    (r_permission_template_id x) (r_permission_template_revision_id x)
    (r_permission_snapshot_json x) (r_tenant_name x) (r_resource_config_name x)
    (r_database_name x) (r_provisioning_step x) (r_cleanup_step x) (r_cleanup_required x)
    (r_failure_reason x) (r_retry_count x) (r_next_retry_at x) (r_worker_id x)
    (r_worker_lease_until x) (r_capacity_released_at x) (r_delete_requested_at x)
    (r_disconnected_at x) (r_effective_delete_cooldown_duration_hours x)
    (r_cooldown_until x) (r_reclaim_policy x) (r_delete_step x) (r_restore_source_status x)
    (r_restore_failure_reason x) (r_created_at x).


Record PermissionSyncJob : Type := mk_sync_job {
  j_id : string;
  j_template_revision_id : string;
  j_target_scope : string;
  j_target_id : string;
  j_mode : PermissionSyncMode.t;
  j_status : PermissionSyncStatus.t;
  j_confirmed_by_user_id : option string;
  j_total_count : Z;
  j_completed_count : Z;
  j_failed_count : Z;
  j_failure_reason : option string;
  j_next_retry_at : option time;
  j_worker_id : option string;
  j_worker_lease_until : option time
}.

#[export] Instance PermissionSyncJob_eta : Eta PermissionSyncJob := λ x,
  mk_sync_job
    (j_id x) (j_template_revision_id x) (j_target_scope x) (j_target_id x) (j_mode x) (j_status x)
    (j_confirmed_by_user_id x) (j_total_count x) (j_completed_count x) (j_failed_count x)
    (j_failure_reason x) (j_next_retry_at x) (j_worker_id x) (j_worker_lease_until x).

Record PermissionSyncTarget : Type := mk_sync_target {
  t_id : string;
  t_job_id : string;
  t_member_id : string;
  t_resource_id : option string;
  t_previous_revision_id : option string;
  t_status : PermissionSyncTargetStatus.t;
  t_change_required : bool;
  t_retry_count : Z;
  t_next_retry_at : option time;
  t_failure_reason : option string;
  t_worker_id : option string;
  t_worker_lease_until : option time;
  t_created_at : time
}.

#[export] Instance PermissionSyncTarget_eta : Eta PermissionSyncTarget := λ x,
  mk_sync_target
    (t_id x) (t_job_id x) (t_member_id x) (t_resource_id x) (t_previous_revision_id x)
    (t_status x) (t_change_required x) (t_retry_count x) (t_next_retry_at x) (t_failure_reason x)
    (t_worker_id x) (t_worker_lease_until x) (t_created_at x).

#[export] Instance Instance_eq_dec : EqDecision Instance.
Proof. solve_decision. Defined.

#[export] Instance DedicatedPoolMember_eq_dec : EqDecision DedicatedPoolMember.
Proof. solve_decision. Defined.

#[export] Instance DBInstanceResource_eq_dec : EqDecision DBInstanceResource.
Proof. solve_decision. Defined.

(** ** The database

    Capacity and budget rows are keyed by their unique columns
    ([scope_type, scope_id], and those with [operation, window_started_at]). *)

Record DB : Type := mk_db {
  resources : gmap string DBInstanceResource;
  credentials : gmap string InstanceCredential;
  instances : gmap string Instance;
  backends : gmap string ProvisioningBackend;
  backend_health : gmap string ProvisioningBackendHealth;
  capacities : gmap (string * string) Z;
  agents : gmap string Agent;
  provisioning_bindings : gmap (string * string) AgentProvisioningBinding;
  revisions : gmap string PermissionTemplateRevision;
  pools : gmap string DedicatedPool;
  pool_members : gmap string DedicatedPoolMember;
  sync_jobs : gmap string PermissionSyncJob;
  sync_targets : gmap string PermissionSyncTarget;
  budgets : gmap (string * string * string * time) Z
}.

#[export] Instance DB_eta : Eta DB := λ x,
  mk_db (resources x) (credentials x) (instances x) (backends x) (backend_health x)
    (capacities x) (agents x) (provisioning_bindings x) (revisions x) (pools x) (pool_members x)
    (sync_jobs x) (sync_targets x) (budgets x).

Definition empty_db : DB := mk_db ∅ ∅ ∅ ∅ ∅ ∅ ∅ ∅ ∅ ∅ ∅ ∅ ∅ ∅.

Definition put_resource (r : DBInstanceResource) (db : DB) : DB :=
  db <| resources := <[r_id r := r]> (resources db) |>.
Definition put_credential (c : InstanceCredential) (db : DB) : DB :=
  db <| credentials := <[c_id c := c]> (credentials db) |>.
Definition put_capacity (scope : string * string) (n : Z) (db : DB) : DB :=
  db <| capacities := <[scope := n]> (capacities db) |>.

(** [resource.credentials] *)
Definition resource_credentials (rid : string) (db : DB) : list InstanceCredential :=
  filter (λ c, c_resource_id c = Some rid) (snd <$> map_to_list (credentials db)).

(** Every row of a table under a predicate rewritten ([UPDATE ... WHERE p]). *)
Definition update_where {V : Type} (p : V → bool) (f : V → V) (m : gmap string V) : gmap string V :=
  (λ v, if p v then f v else v) <$> m.
