(* ===== verification/PyString.v ===== *)
(** * Python string operations

    The [str] methods the modelled code calls, on Rocq strings (one [ascii] per
    code point below 256; [upper] and [lower] on the ASCII letters). *)

From S2P Require Import Prelude.

(** [s.startswith(p)], giving the rest. *)
Fixpoint strip_prefix (p s : string) : option string :=
  match p, s with
  | EmptyString, _ => Some s
  | String a p', String b s' => if Ascii.eqb a b then strip_prefix p' s' else None
  | String _ _, EmptyString => None
  end.

(** [s.split(sep, 1)] when [sep] occurs: before and after its first occurrence. *)
Fixpoint split_once (sep s : string) : option (string * string) :=
  match strip_prefix sep s with
  | Some rest => Some (EmptyString, rest)
  | None =>
      match s with
      | EmptyString => None
      | String a s' =>
          match split_once sep s' with
          | Some (x, y) => Some (String a x, y)
          | None => None
          end
      end
  end.

(** [sep in s] *)
Definition contains (sep s : string) : bool :=
  match split_once sep s with Some _ => true | None => false end.

(** [s.split(c)] for a one-character separator. *)
Fixpoint split_char (c : ascii) (s : string) : list string :=
  match s with
  | EmptyString => [EmptyString]
  | String a s' =>
      if Ascii.eqb a c then EmptyString :: split_char c s'
      else
        match split_char c s' with
        | x :: l => String a x :: l
        | [] => [String a EmptyString]
        end
  end.

(** [s.rsplit(c, 1)[1]], and [None] when [c] does not occur. *)
Fixpoint after_last (c : ascii) (s : string) : option string :=
  match s with
  | EmptyString => None
  | String a s' =>
      match after_last c s' with
      | Some r => Some r
      | None => if Ascii.eqb a c then Some s' else None
      end
  end.

(** [c.isspace()] below code point 256. *)
Definition is_space (a : ascii) : bool :=
  let n := nat_of_ascii a in
  ((9 <=? n) && (n <=? 13) || (28 <=? n) && (n <=? 32) || (n =? 133) || (n =? 160))%nat.

Fixpoint lstrip (s : string) : string :=
  match s with
  | EmptyString => EmptyString
  | String a s' => if is_space a then lstrip s' else s
  end.

Fixpoint rstrip (s : string) : string :=
  match s with
  | EmptyString => EmptyString
  | String a s' =>
      match rstrip s' with
      | EmptyString => if is_space a then EmptyString else String a EmptyString
      | t => String a t
      end
  end.

Definition strip (s : string) : string := rstrip (lstrip s).

Fixpoint string_map (f : ascii → ascii) (s : string) : string :=
  match s with
  | EmptyString => EmptyString
  | String a s' => String (f a) (string_map f s')
  end.

Definition upper_char (a : ascii) : ascii :=
  if is_lower a then ascii_of_nat (nat_of_ascii a - 32) else a.
Definition lower_char (a : ascii) : ascii :=
  if is_upper a then ascii_of_nat (nat_of_ascii a + 32) else a.
Definition upper (s : string) : string := string_map upper_char s.
Definition lower (s : string) : string := string_map lower_char s.

(** ** Lemmas *)

Lemma app_empty_r s : s +:+ EmptyString = s.
Proof. induction s as [|a s IH]; [done|]. change (String a (s +:+ EmptyString) = String a s). by rewrite IH. Qed.

Lemma rstrip_idem s : rstrip (rstrip s) = rstrip s.
Proof.
  induction s as [|a s IH]; [done|]. cbn. destruct (rstrip s) as [|b t] eqn:Ht.
  - destruct (is_space a) eqn:Ha; [done|]. cbn. by rewrite Ha.
  - change (rstrip (String a (String b t)))
      with (match rstrip (String b t) with
            | EmptyString => if is_space a then EmptyString else String a EmptyString
            | u => String a u end).
    by rewrite IH.
Qed.

Lemma lstrip_rstrip s : lstrip s = s → lstrip (rstrip s) = rstrip s.
Proof.
  destruct s as [|a s]; [done|]. cbn. destruct (is_space a) eqn:Ha.
  - intros Hs. exfalso. assert (∀ t u, lstrip t = String u t → False) as Hlen.
    { intros t u Ht. assert (∀ w, (String.length (lstrip w) <= String.length w)%nat) as Hle.
      { induction w as [|b w IHw]; [done|]. cbn. destruct (is_space b); cbn; lia. }
      specialize (Hle t). rewrite Ht in Hle. cbn in Hle. lia. }
    by eapply Hlen.
  - intros _. destruct (rstrip s); cbn; by rewrite Ha.
Qed.

Lemma strip_idem s : strip (strip s) = strip s.
Proof.
  unfold strip. rewrite (lstrip_rstrip (lstrip s)); [apply rstrip_idem|].
  induction s as [|a s IH]; [done|]. cbn. destruct (is_space a) eqn:Ha; [done|]. cbn. by rewrite Ha.
Qed.

Lemma app_assoc_str s t u : (s +:+ t) +:+ u = s +:+ (t +:+ u).
Proof.
  induction s as [|a s IH]; [done|].
  change (String a ((s +:+ t) +:+ u) = String a (s +:+ (t +:+ u))). by rewrite IH.
Qed.

Lemma app_cons a s t : String a s +:+ t = String a (s +:+ t).
Proof. done. Qed.

Lemma length_app_str s t : String.length (s +:+ t) = (String.length s + String.length t)%nat.
Proof. induction s as [|a s IH]; [done|]. rewrite app_cons. simpl. by rewrite IH. Qed.

Lemma strip_prefix_app p s : strip_prefix p (p +:+ s) = Some s.
Proof. induction p as [|a p IH]; [done|]. rewrite app_cons. simpl. by rewrite Ascii.eqb_refl. Qed.

Lemma split_once_here sep s : split_once sep (sep +:+ s) = Some (EmptyString, s).
Proof.
  pose proof (strip_prefix_app sep s) as H.
  destruct (sep +:+ s) eqn:E; simpl; rewrite H; done.
Qed.

(** A separator found later is found with the skipped text in front. *)
Lemma contains_app_r sep s t : contains sep t = true → contains sep (s +:+ t) = true.
Proof.
  unfold contains. induction s as [|a s IH]; [done|].
  intros Ht. specialize (IH Ht). rewrite app_cons. simpl.
  destruct (strip_prefix sep _); [done|].
  destruct (split_once sep (s +:+ t)) as [[??]|]; done.
Qed.

Lemma contains_here sep s : contains sep (sep +:+ s) = true.
Proof. unfold contains. by rewrite split_once_here. Qed.

Lemma string_forallb_app p s t :
  string_forallb p (s +:+ t) = string_forallb p s && string_forallb p t.
Proof.
  induction s as [|a s IH]; [done|]. rewrite app_cons. simpl.
  by rewrite IH, andb_assoc.
Qed.

Lemma string_map_app f s t : string_map f (s +:+ t) = string_map f s +:+ string_map f t.
Proof. induction s as [|a s IH]; [done|]. rewrite !app_cons. simpl. by rewrite IH. Qed.

Lemma upper_app s t : upper (s +:+ t) = upper s +:+ upper t.
Proof. apply string_map_app. Qed.

Lemma string_forallb_impl (p q : ascii → bool) s :
  (∀ a, p a = true → q a = true) → string_forallb p s = true → string_forallb q s = true.
Proof.
  intros Hpq. induction s as [|a s IH]; [done|]. simpl.
  rewrite !andb_true_iff. naive_solver.
Qed.

Create Rewrite HintDb pas_string.
#[export] Hint Rewrite app_empty_r app_assoc_str app_cons : pas_string.
