(* ===== verification/Endpoints.v ===== *)
(** * The catalog of cloud endpoints ([server/aliyun/endpoints.py])

    Which host answers for a service in a region over a network, and which
    region a resource may be placed in.  The labels of the regions are left
    out. *)

From S2P Require Import Prelude PyString.

(** A row of [_REVIEWED_REGIONS] without its labels. *)
Record ReviewedRegion : Type := mk_region {
  rr_region : string;
  rr_polardb_public : option string;
  rr_polardb_vpc : option string;
  rr_sts_public : option string;
  rr_sts_vpc : option string
}.

Definition REVIEWED_REGIONS : list ReviewedRegion :=
  [
   mk_region "cn-qingdao" (Some "polardb.cn-qingdao.aliyuncs.com") (Some "polardb-vpc.cn-qingdao.aliyuncs.com")
      (Some "sts.cn-qingdao.aliyuncs.com") (Some "sts-vpc.cn-qingdao.aliyuncs.com");
   mk_region "cn-beijing" (Some "polardb.aliyuncs.com") (Some "polardb-vpc.cn-beijing.aliyuncs.com")
      (Some "sts.cn-beijing.aliyuncs.com") (Some "sts-vpc.cn-beijing.aliyuncs.com");
   mk_region "cn-zhangjiakou" (Some "polardb.cn-zhangjiakou.aliyuncs.com") (Some "polardb-vpc.cn-zhangjiakou.aliyuncs.com")
      (Some "sts.cn-zhangjiakou.aliyuncs.com") (Some "sts-vpc.cn-zhangjiakou.aliyuncs.com");
   mk_region "cn-huhehaote" (Some "polardb.cn-huhehaote.aliyuncs.com") (Some "polardb-vpc.cn-huhehaote.aliyuncs.com")
      (Some "sts.cn-huhehaote.aliyuncs.com") (Some "sts-vpc.cn-huhehaote.aliyuncs.com");
   mk_region "cn-wulanchabu" (Some "polardb.aliyuncs.com") (Some "polardb-vpc.cn-wulanchabu.aliyuncs.com")
      (Some "sts.cn-wulanchabu.aliyuncs.com") (Some "sts-vpc.cn-wulanchabu.aliyuncs.com");
   mk_region "cn-hangzhou" (Some "polardb.aliyuncs.com") (Some "polardb-vpc.cn-hangzhou.aliyuncs.com")
      (Some "sts.cn-hangzhou.aliyuncs.com") (Some "sts-vpc.cn-hangzhou.aliyuncs.com");
   mk_region "cn-shanghai" (Some "polardb.aliyuncs.com") (Some "polardb-vpc.cn-shanghai.aliyuncs.com")
      (Some "sts.cn-shanghai.aliyuncs.com") (Some "sts-vpc.cn-shanghai.aliyuncs.com");
   mk_region "cn-shenzhen" (Some "polardb.cn-shenzhen.aliyuncs.com") (Some "polardb-vpc.cn-shenzhen.aliyuncs.com")
      (Some "sts.cn-shenzhen.aliyuncs.com") (Some "sts-vpc.cn-shenzhen.aliyuncs.com");
   mk_region "cn-heyuan" (Some "polardb.aliyuncs.com") (Some "polardb-vpc.cn-heyuan.aliyuncs.com")
      (Some "sts.cn-heyuan.aliyuncs.com") (Some "sts-vpc.cn-heyuan.aliyuncs.com");
   mk_region "cn-guangzhou" (Some "polardb.cn-guangzhou.aliyuncs.com") (Some "polardb-vpc.cn-guangzhou.aliyuncs.com")
      (Some "sts.cn-guangzhou.aliyuncs.com") (Some "sts-vpc.cn-guangzhou.aliyuncs.com");
   mk_region "ap-southeast-6" (Some "polardb.ap-southeast-6.aliyuncs.com") (Some "polardb-vpc.ap-southeast-6.aliyuncs.com")
      (Some "sts.ap-southeast-6.aliyuncs.com") (Some "sts-vpc.ap-southeast-6.aliyuncs.com");
   mk_region "ap-northeast-2" (Some "polardb.ap-northeast-2.aliyuncs.com") (Some "polardb-vpc.ap-northeast-2.aliyuncs.com")
      (Some "sts.ap-northeast-2.aliyuncs.com") (Some "sts-vpc.ap-northeast-2.aliyuncs.com");
   mk_region "ap-southeast-3" (Some "polardb.ap-southeast-3.aliyuncs.com") (Some "polardb-vpc.ap-southeast-3.aliyuncs.com")
      (Some "sts.ap-southeast-3.aliyuncs.com") (Some "sts-vpc.ap-southeast-3.aliyuncs.com");
   mk_region "ap-southeast-8" (Some "polardb.ap-southeast-8.aliyuncs.com") (Some "polardb-vpc.ap-southeast-8.aliyuncs.com")
      (Some "sts.ap-southeast-8.aliyuncs.com") (Some "sts-vpc.ap-southeast-8.aliyuncs.com");
   mk_region "ap-northeast-1" (Some "polardb.ap-northeast-1.aliyuncs.com") (Some "polardb-vpc.ap-northeast-1.aliyuncs.com")
      (Some "sts.ap-northeast-1.aliyuncs.com") (Some "sts-vpc.ap-northeast-1.aliyuncs.com");
   mk_region "ap-southeast-7" (Some "polardb.ap-southeast-7.aliyuncs.com") (Some "polardb-vpc.ap-southeast-7.aliyuncs.com")
      (Some "sts.ap-southeast-7.aliyuncs.com") (Some "sts-vpc.ap-southeast-7.aliyuncs.com");
   mk_region "cn-chengdu" (Some "polardb.cn-chengdu.aliyuncs.com") (Some "polardb-vpc.cn-chengdu.aliyuncs.com")
      (Some "sts.cn-chengdu.aliyuncs.com") (Some "sts-vpc.cn-chengdu.aliyuncs.com");
   mk_region "ap-southeast-1" (Some "polardb.ap-southeast-1.aliyuncs.com") (Some "polardb-vpc.ap-southeast-1.aliyuncs.com")
      (Some "sts.ap-southeast-1.aliyuncs.com") (Some "sts-vpc.ap-southeast-1.aliyuncs.com");
   mk_region "ap-southeast-5" (Some "polardb.ap-southeast-5.aliyuncs.com") (Some "polardb-vpc.ap-southeast-5.aliyuncs.com")
      (Some "sts.ap-southeast-5.aliyuncs.com") (Some "sts-vpc.ap-southeast-5.aliyuncs.com");
   mk_region "cn-hongkong" (Some "polardb.cn-hongkong.aliyuncs.com") (Some "polardb-vpc.cn-hongkong.aliyuncs.com")
      (Some "sts.cn-hongkong.aliyuncs.com") (Some "sts-vpc.cn-hongkong.aliyuncs.com");
   mk_region "eu-central-1" (Some "polardb.eu-central-1.aliyuncs.com") (Some "polardb-vpc.eu-central-1.aliyuncs.com")
      (Some "sts.eu-central-1.aliyuncs.com") (Some "sts-vpc.eu-central-1.aliyuncs.com");
   mk_region "us-east-1" (Some "polardb.us-east-1.aliyuncs.com") (Some "polardb-vpc.us-east-1.aliyuncs.com")
      (Some "sts.us-east-1.aliyuncs.com") (Some "sts-vpc.us-east-1.aliyuncs.com");
   mk_region "us-west-1" (Some "polardb.us-west-1.aliyuncs.com") (Some "polardb-vpc.us-west-1.aliyuncs.com")
      (Some "sts.us-west-1.aliyuncs.com") (Some "sts-vpc.us-west-1.aliyuncs.com");
   mk_region "na-south-1" (Some "polardb.na-south-1.aliyuncs.com") (Some "polardb-vpc.na-south-1.aliyuncs.com")
      (Some "sts.na-south-1.aliyuncs.com") (Some "sts-vpc.na-south-1.aliyuncs.com");
   mk_region "eu-west-1" (Some "polardb.eu-west-1.aliyuncs.com") (Some "polardb-vpc.eu-west-1.aliyuncs.com")
      (Some "sts.eu-west-1.aliyuncs.com") (Some "sts-vpc.eu-west-1.aliyuncs.com");
   mk_region "me-east-1" (Some "polardb.me-east-1.aliyuncs.com") (Some "polardb-vpc.me-east-1.aliyuncs.com")
      (Some "sts.me-east-1.aliyuncs.com") (Some "sts-vpc.me-east-1.aliyuncs.com");
   mk_region "cn-beijing-finance-1" (Some "polardb.aliyuncs.com") (None)
      (Some "sts.cn-beijing-finance-1.aliyuncs.com") (Some "sts-vpc.cn-beijing-finance-1.aliyuncs.com");
   mk_region "cn-hangzhou-finance" (Some "polardb.aliyuncs.com") (Some "polardb-vpc.cn-hangzhou-finance.aliyuncs.com")
      (Some "sts.cn-hangzhou-finance.aliyuncs.com") (None);
   mk_region "cn-shanghai-finance-1" (Some "polardb.cn-shanghai-finance-1.aliyuncs.com") (Some "polardb-vpc.cn-shanghai-finance-1.aliyuncs.com")
      (Some "sts.cn-shanghai-finance-1.aliyuncs.com") (Some "sts-vpc.cn-shanghai-finance-1.aliyuncs.com");
   mk_region "cn-shenzhen-finance-1" (Some "polardb.cn-shenzhen-finance-1.aliyuncs.com") (Some "polardb-vpc.cn-shenzhen-finance-1.aliyuncs.com")
      (Some "sts.cn-shenzhen-finance-1.aliyuncs.com") (Some "sts-vpc.cn-shenzhen-finance-1.aliyuncs.com")
  ].

(** A [dict] keyed by region: the public and the VPC host. *)
Abbreviation endpoint_table := (gmap string (option string * option string)) (only parsing).

Definition POLARDB_ENDPOINTS : endpoint_table :=
  list_to_map ((λ r, (rr_region r, (rr_polardb_public r, rr_polardb_vpc r))) <$> REVIEWED_REGIONS).
Definition STS_ENDPOINTS : endpoint_table :=
  list_to_map ((λ r, (rr_region r, (rr_sts_public r, rr_sts_vpc r))) <$> REVIEWED_REGIONS).

Definition OpenAPIEndpointError (msg : string) : PyExc := exc "OpenAPIEndpointError" msg.

Definition catalog_of (service : string) : option endpoint_table :=
  if String.eqb service "polardb" then Some POLARDB_ENDPOINTS
  else if String.eqb service "sts" then Some STS_ENDPOINTS
  else None.

Definition resolve_openapi_endpoint (service region_id network : string) : outcome string :=
  let entry := catalog ← catalog_of service; catalog !! region_id in
  if negb (String.eqb network "public" || String.eqb network "vpc") then
    Raise (OpenAPIEndpointError "Unsupported OpenAPI service, region, or network")
  else
    match entry with
    | None => Raise (OpenAPIEndpointError "Unsupported OpenAPI service, region, or network")
    | Some (public, vpc) =>
        match (if String.eqb network "public" then public else vpc) with
        | None => Raise (OpenAPIEndpointError "No official endpoint for this service and network")
        | Some endpoint => Ret endpoint
        end
    end.

Definition resolve_polardb_endpoint (region_id network : string) : outcome string :=
  resolve_openapi_endpoint "polardb" region_id network.

Definition validate_resource_region (region_id : option string) (access_region network : string)
    : outcome string :=
  if negb (truthy region_id) then
    Raise (OpenAPIEndpointError "A resource region is required for OpenAPI operations")
  else
    let region := default EmptyString region_id in
    endpoint ← resolve_polardb_endpoint region network;
    if String.eqb network "vpc" && negb (String.eqb region access_region) then
      Raise (OpenAPIEndpointError "VPC OpenAPI resource region must match the PAS access region")
    else Ret region.

(** ** What a resolved host is *)

(** The host of a row for a service and a network. *)
Definition listed_host (service network : string) (r : ReviewedRegion) : option string :=
  match String.eqb service "polardb", String.eqb network "public" with
  | true, true => rr_polardb_public r
  | true, false => rr_polardb_vpc r
  | false, true => rr_sts_public r
  | false, false => rr_sts_vpc r
  end.

Lemma regions_distinct : NoDup (rr_region <$> REVIEWED_REGIONS).
Proof. apply (bool_decide_eq_true_1 _). vm_compute. reflexivity. Qed.

Lemma table_lookup (f : ReviewedRegion → option string * option string) region v :
  (list_to_map ((λ r, (rr_region r, f r)) <$> REVIEWED_REGIONS) : gmap string _) !! region = Some v ↔
  ∃ r, r ∈ REVIEWED_REGIONS ∧ rr_region r = region ∧ f r = v.
Proof.
  assert (NoDup ((λ r, (rr_region r, f r)) <$> REVIEWED_REGIONS).*1) as Hd.
  { rewrite <-list_fmap_compose. exact regions_distinct. }
  rewrite <-elem_of_list_to_map by exact Hd. rewrite list_elem_of_fmap.
  split; intros (r & Hr); exists r; [destruct Hr as [[= -> ->] ?]|destruct Hr as (? & <- & <-)]; done.
Qed.

Lemma table_none (f : ReviewedRegion → option string * option string) region r :
  (list_to_map ((λ r, (rr_region r, f r)) <$> REVIEWED_REGIONS) : gmap string _) !! region = None →
  r ∈ REVIEWED_REGIONS → rr_region r ≠ region.
Proof.
  intros Hn Hr He. pose proof (proj2 (table_lookup f region (f r)) (ex_intro _ r (conj Hr (conj He eq_refl)))). congruence.
Qed.

Lemma region_unique r r' :
  r ∈ REVIEWED_REGIONS → r' ∈ REVIEWED_REGIONS → rr_region r = rr_region r' → r = r'.
Proof.
  intros [i Hi]%list_elem_of_lookup [j Hj]%list_elem_of_lookup He.
  assert (i = j) as ->; [|congruence].
  eapply NoDup_lookup; [exact regions_distinct|rewrite list_lookup_fmap, Hi; done|].
  rewrite list_lookup_fmap, Hj. simpl. by rewrite He.
Qed.

(** The reviewed VPC hosts are the regional ones of their service, and no
    public host is a VPC host. *)
Definition regional_vpc_host (service region : string) : string :=
  service +:+ "-vpc." +:+ region +:+ ".aliyuncs.com".

Lemma vpc_hosts_regional r service host :
  r ∈ REVIEWED_REGIONS → service = "polardb" ∨ service = "sts" →
  listed_host service "vpc" r = Some host → host = regional_vpc_host service (rr_region r).
Proof.
  intros Hr Hs Hh.
  assert (Forall (λ r, ∀ h, (rr_polardb_vpc r = Some h → h = regional_vpc_host "polardb" (rr_region r))
    ∧ (rr_sts_vpc r = Some h → h = regional_vpc_host "sts" (rr_region r))) REVIEWED_REGIONS) as Hall.
  { unfold REVIEWED_REGIONS. repeat constructor; intros [= <-]; reflexivity. }
  rewrite Forall_forall in Hall. specialize (Hall _ Hr host).
  destruct Hs as [-> | ->]; apply Hall; exact Hh.
Qed.

(** What the lookup of a column answers. *)
Definition column_host (table : endpoint_table) (col : option string * option string → option string)
    (region : string) : outcome string :=
  match table !! region with
  | None => Raise (OpenAPIEndpointError "Unsupported OpenAPI service, region, or network")
  | Some e =>
      match col e with
      | None => Raise (OpenAPIEndpointError "No official endpoint for this service and network")
      | Some endpoint => Ret endpoint
      end
  end.

Lemma column_host_listed (f : ReviewedRegion → option string * option string) col region host :
  column_host (list_to_map ((λ r, (rr_region r, f r)) <$> REVIEWED_REGIONS)) col region = Ret host ↔
  ∃ r, r ∈ REVIEWED_REGIONS ∧ rr_region r = region ∧ col (f r) = Some host.
Proof.
  unfold column_host. destruct (_ !! region) as [e|] eqn:Hl.
  - pose proof Hl as (r & Hr & Hreg & <-)%table_lookup. split.
    + intros Hh. exists r. split_and!; [done|done|]. by destruct (col (f r)); [injection Hh as ->|].
    + intros (r' & Hr' & Hreg' & Hh). rewrite (region_unique r' r) in Hh by congruence.
      by rewrite Hh.
  - split; [discriminate|]. intros (r & Hr & Hreg & _). by destruct (table_none f region r Hl Hr).
Qed.

#[local] Opaque REVIEWED_REGIONS.

Lemma polardb_listed col region host :
  column_host POLARDB_ENDPOINTS col region = Ret host ↔
  ∃ r, r ∈ REVIEWED_REGIONS ∧ rr_region r = region
       ∧ col (rr_polardb_public r, rr_polardb_vpc r) = Some host.
Proof. apply (column_host_listed (λ r, (rr_polardb_public r, rr_polardb_vpc r))). Qed.

Lemma sts_listed col region host :
  column_host STS_ENDPOINTS col region = Ret host ↔
  ∃ r, r ∈ REVIEWED_REGIONS ∧ rr_region r = region ∧ col (rr_sts_public r, rr_sts_vpc r) = Some host.
Proof. apply (column_host_listed (λ r, (rr_sts_public r, rr_sts_vpc r))). Qed.

#[local] Opaque POLARDB_ENDPOINTS STS_ENDPOINTS.

Lemma resolve_column service region network host :
  resolve_openapi_endpoint service region network = Ret host ↔
  ∃ table, catalog_of service = Some table
    ∧ (network = "public" ∧ column_host table fst region = Ret host
       ∨ network = "vpc" ∧ column_host table snd region = Ret host).
Proof.
  unfold resolve_openapi_endpoint, column_host.
  destruct (catalog_of service) as [table|]; simpl.
  2: { split; [by case_match|by intros (? & ? & _)]. }
  destruct (String.eqb_spec network "public") as [->|Hp]; simpl.
  2: destruct (String.eqb_spec network "vpc") as [->|Hv]; simpl.
  - split; [intros Hh; exists table; split; [done|]; left; split; [done|]|intros (t & [= <-] & [[_ Hh]|[? _]]); [|done]].
    all: by destruct (table !! region) as [[p v]|].
  - split; [intros Hh; exists table; split; [done|]; right; split; [done|]|intros (t & [= <-] & [[? _]|[_ Hh]]); [done|]].
    all: by destruct (table !! region) as [[p v]|].
  - split; [discriminate|]. by intros (t & _ & [[? _]|[? _]]).
Qed.

(** Only reviewed endpoints: a service, region and network resolve to a host
    exactly when the catalog lists that host in that column of that region's
    row, and to no other; in a VPC the host is the VPC host of that very region,
    so a lookup never falls back to the public network or to another region;
    and a resource region is accepted exactly when it has a PolarDB host for
    the network and, in a VPC, is the region the server runs in. *)
Theorem endpoints_reviewed service region network host :
  (resolve_openapi_endpoint service region network = Ret host ↔
   (service = "polardb" ∨ service = "sts") ∧ (network = "public" ∨ network = "vpc")
   ∧ ∃ r, r ∈ REVIEWED_REGIONS ∧ rr_region r = region ∧ listed_host service network r = Some host)
  ∧ (resolve_openapi_endpoint service region "vpc" = Ret host →
      host = regional_vpc_host service region)
  ∧ ∀ access_region found,
      validate_resource_region (Some region) access_region network = Ret found ↔
      region ≠ EmptyString ∧ found = region
      ∧ is_Some (match resolve_polardb_endpoint region network with Ret h => Some h | Raise _ => None end)
      ∧ (network = "vpc" → region = access_region).
Proof.
  assert (∀ network, resolve_openapi_endpoint service region network = Ret host ↔
   (service = "polardb" ∨ service = "sts") ∧ (network = "public" ∨ network = "vpc")
   ∧ ∃ r, r ∈ REVIEWED_REGIONS ∧ rr_region r = region ∧ listed_host service network r = Some host) as Hres.
  { clear network. intros network. rewrite resolve_column. split.
    - intros (table & Hc & Hn). unfold catalog_of in Hc.
      destruct (String.eqb_spec service "polardb") as [->|Hs];
        [|destruct (String.eqb_spec service "sts") as [->|Ht]; [|discriminate Hc]]; injection Hc as <-;
        destruct Hn as [[-> Hh]|[-> Hh]]; split_and!; auto.
      + exact (proj1 (polardb_listed fst region host) Hh).
      + exact (proj1 (polardb_listed snd region host) Hh).
      + exact (proj1 (sts_listed fst region host) Hh).
      + exact (proj1 (sts_listed snd region host) Hh).
    - intros ([-> | ->] & Hn & Hr); eexists; (split; [reflexivity|]); destruct Hn as [-> | ->].
      + left. split; [reflexivity|]. exact (proj2 (polardb_listed fst region host) Hr).
      + right. split; [reflexivity|]. exact (proj2 (polardb_listed snd region host) Hr).
      + left. split; [reflexivity|]. exact (proj2 (sts_listed fst region host) Hr).
      + right. split; [reflexivity|]. exact (proj2 (sts_listed snd region host) Hr). }
  split; [apply Hres|]. split.
  - intros Hh. apply Hres in Hh as (Hs & _ & r & Hr & <- & Hh). by apply vpc_hosts_regional.
  - intros access_region found. unfold validate_resource_region.
    destruct region as [|a region].
    { split; [discriminate|]. by intros (? & _). }
    change (truthy (Some (String a region))) with true. cbn [negb].
    change (default EmptyString (Some (String a region))) with (String a region).
    destruct (resolve_polardb_endpoint (String a region) network) as [h|e].
    2: { split; [discriminate|]. intros (_ & _ & [x Hx] & _). discriminate Hx. }
    unfold mbind, outcome_bind. destruct (String.eqb_spec network "vpc") as [->|Hv]; cbn [andb].
    + destruct (String.eqb_spec (String a region) access_region) as [Ha|Ha]; cbn [negb].
      * split; [intros [= <-]; split_and!; eauto; done|]. by intros (_ & -> & _).
      * split; [discriminate|]. intros (_ & _ & _ & Hacc). by destruct Ha, Hacc.
    + split; [intros [= <-]; split_and!; eauto; done|]. by intros (_ & -> & _).
Qed.
