(* ===== verification/WriteGuard.v ===== *)
(** * Resource write guard ([server/core/resource_write_guard.py])

    Every mutation of a database resource runs inside
    [serialized_resource_write]: it refuses a session whose caller left a
    transaction open, begins one, and rolls back when the block raises. *)

From S2P Require Import Prelude Models.

Definition ResourceSessionNotIdle : PyExc :=
  exc "ResourceSessionNotIdle"
    "resource mutation requires an idle session; commit or roll back the prior transaction first".

Definition require_idle_resource_session : M (Session DB) unit :=
  busy ← in_transaction;
  if (busy : bool) then raise ResourceSessionNotIdle else mret tt.

(** The explicit [BEGIN IMMEDIATE]. *)
Definition begin_transaction : M (Session DB) unit := λ s, (autobegin s, Ret tt).

Definition serialized_resource_write {A : Type} (block : M (Session DB) A) : M (Session DB) A :=
  require_idle_resource_session ;;
  begin_transaction ;;
  try_except block (λ e,
    busy ← in_transaction;
    (if (busy : bool) then rollback else mret tt) ;;
    raise e).

(** A block that raises before it commits leaves the committed database as it
    was, and the session idle. *)
Lemma serialized_raise_idle {A} (block : M (Session DB) A) s s' e :
  in_tx s = false →
  serialized_resource_write block s = (s', Raise e) → in_tx s' = false.
Proof.
  destruct s as [c w b o]; simpl; intros ->.
  unfold serialized_resource_write, require_idle_resource_session, begin_transaction.
  run_txn. destruct (block _) as [[c1 w1 [] o1] [a|e1]]; by intros [= <- <-].
Qed.

Lemma serialized_busy {A} (block : M (Session DB) A) s :
  in_tx s = true →
  serialized_resource_write block s = (s, Raise ResourceSessionNotIdle).
Proof.
  destruct s as [c w b o]; simpl; intros ->. done.
Qed.

(** What a guarded block does when its session has just been opened. *)
Lemma serialized_open {A} (block : M (Session DB) A) db :
  with_session (serialized_resource_write block) db =
  match block (mk_session db db true []) with
  | (s, Ret a) => (committed s, Ret a)
  | (s, Raise e) => (committed s, Raise e)
  end.
Proof.
  unfold with_session, serialized_resource_write, require_idle_resource_session,
    begin_transaction.
  run_txn. by destruct (block _) as [[c1 w1 [] o1] [a|e1]].
Qed.

#[export] Hint Rewrite @serialized_open : pas_txn.
