(* ===== verification/Config.v ===== *)
(** * Provisioning settings ([TenantProvisioningConfig] of [server/config.py])

    The settings the provisioning workers read, the validator that
    guards them and the two derived limits. *)

From S2P Require Import Prelude.

(** [dedicated_pool_preparation_mode] *)
Inductive PreparationMode : Set := FULL | OPENAPI_ONLY.

#[export] Instance PreparationMode_eq_dec : EqDecision PreparationMode.
Proof. solve_decision. Defined.

Record TenantProvisioningConfig : Type := mk_config {
  dedicated_pool_preparation_mode : PreparationMode;
  max_active_leases : Z;
  max_active_leases_per_agent : Z;
  max_active_resources_per_agent : option Z;
  cfg_resource_min_cpu : Z;
  cfg_resource_max_cpu : Z;
  cfg_ddl_concurrency : Z;
  worker_poll_interval_seconds : Z;
  dedicated_worker_heartbeat_interval_seconds : Z;
  dedicated_worker_heartbeat_stale_after_seconds : Z;
  worker_claim_ttl_seconds : Z;
  worker_claim_renew_seconds : Z;
  worker_max_retries : Z;
  worker_initial_backoff_seconds : Z;
  worker_max_backoff_seconds : Z;
  health_check_interval_seconds : Z;
  health_stale_after_seconds : Z;
  backend_health_stale_after_seconds : option Z;
  describe_max_requests_per_second : Z;
  cfg_delete_cooldown_duration_hours : Z
}.

(** The [Field(default=...)] values. *)
Definition default_config : TenantProvisioningConfig :=
  mk_config FULL 100 20 None 0 2 4 1 10 30 120 30 5 1 30 10 30 None 2 24.

Definition opt_ge (lo : Z) (x : option Z) : bool :=
  match x with None => true | Some v => lo <=? v end.

(** The [Field(ge=..., le=...)] bounds. *)
Definition field_bounds (c : TenantProvisioningConfig) : bool :=
  (1 <=? max_active_leases c) && (1 <=? max_active_leases_per_agent c)
  && opt_ge 1 (max_active_resources_per_agent c)
  && (0 <=? cfg_resource_min_cpu c) && (1 <=? cfg_resource_max_cpu c)
  && (1 <=? cfg_ddl_concurrency c)
  && (1 <=? worker_poll_interval_seconds c) && (worker_poll_interval_seconds c <=? 5)
  && (1 <=? dedicated_worker_heartbeat_interval_seconds c)
  && (1 <=? dedicated_worker_heartbeat_stale_after_seconds c)
  && (10 <=? worker_claim_ttl_seconds c) && (1 <=? worker_claim_renew_seconds c)
  && (0 <=? worker_max_retries c)
  && (1 <=? worker_initial_backoff_seconds c) && (1 <=? worker_max_backoff_seconds c)
  && (1 <=? health_check_interval_seconds c) && (2 <=? health_stale_after_seconds c)
  && opt_ge 2 (backend_health_stale_after_seconds c)
  && (1 <=? describe_max_requests_per_second c)
  && (1 <=? cfg_delete_cooldown_duration_hours c).

(** The model validator: the first violated rule raises. *)
Definition validate_tenant_provisioning (c : TenantProvisioningConfig)
    : outcome TenantProvisioningConfig :=
  let heartbeat_stale_floor :=
    Z.max (3 * dedicated_worker_heartbeat_interval_seconds c) 30 in
  if dedicated_worker_heartbeat_stale_after_seconds c <? 30 then
    Raise (ValueError "worker heartbeat stale threshold must be at least 30 seconds")
  else if dedicated_worker_heartbeat_stale_after_seconds c <? heartbeat_stale_floor then
    Raise (ValueError "worker heartbeat stale threshold must be at least three heartbeat intervals")
  else if worker_claim_ttl_seconds c <=? worker_claim_renew_seconds c then
    Raise (ValueError "claim renew interval must be less than claim TTL")
  else if health_stale_after_seconds c <=? health_check_interval_seconds c then
    Raise (ValueError "health check interval must be less than stale threshold")
  else if match backend_health_stale_after_seconds c with
          | Some s => s <=? health_check_interval_seconds c
          | None => false
          end then
    Raise (ValueError "health check interval must be less than backend health stale threshold")
  else if cfg_resource_max_cpu c <? cfg_resource_min_cpu c then
    Raise (ValueError "resource_min_cpu must not exceed resource_max_cpu")
  else if worker_max_backoff_seconds c <? worker_initial_backoff_seconds c then
    Raise (ValueError "initial worker backoff must not exceed maximum backoff")
  else Ret c.

(** A configuration the server starts with. *)
Definition valid_config (c : TenantProvisioningConfig) : Prop :=
  field_bounds c = true ∧ validate_tenant_provisioning c = Ret c.

Definition effective_max_active_resources_per_agent (c : TenantProvisioningConfig) : Z :=
  match max_active_resources_per_agent c with
  | Some n => n
  | None => max_active_leases_per_agent c
  end.

Definition effective_backend_health_stale_after_seconds (c : TenantProvisioningConfig) : Z :=
  match backend_health_stale_after_seconds c with
  | Some n => n
  | None => health_stale_after_seconds c
  end.

(** The bounds the workers rely on, read off an accepted configuration. *)
Lemma valid_config_worker c :
  valid_config c →
  1 <= worker_initial_backoff_seconds c <= worker_max_backoff_seconds c
  ∧ 1 <= worker_claim_renew_seconds c < worker_claim_ttl_seconds c
  ∧ 0 <= worker_max_retries c
  ∧ 1 <= effective_max_active_resources_per_agent c
  ∧ health_check_interval_seconds c < effective_backend_health_stale_after_seconds c.
Proof.
  intros [Hb Hv]. unfold field_bounds in Hb. unfold validate_tenant_provisioning in Hv.
  unfold effective_max_active_resources_per_agent, effective_backend_health_stale_after_seconds.
  repeat case_match; try done;
  repeat match goal with
  | H : (_ && _)%bool = true |- _ => apply andb_true_iff in H as [? ?]
  | H : opt_ge _ _ = true |- _ => simpl in H
  end; simpl in *; lia.
Qed.
#[export] Hint Resolve valid_config_worker : pas.
