(* ===== verification/Worker.v ===== *)
(** * Claiming resources ([server/core/db_instance_worker.py])

    A dispatcher owns a resource while its [worker_id] is on the row; the lease
    bounds how long another dispatcher must wait before it may take over. *)

From S2P Require Import Prelude Models Config WriteGuard.

Definition claim_serialization {A : Type} (block : M (Session DB) A) : M (Session DB) A :=
  serialized_resource_write block.

(** The constructor's check. *)
Definition valid_worker_id (worker_id : string) : bool :=
  negb (String.eqb worker_id EmptyString) && (String.length worker_id <=? 64)%nat.

(** [column IS NULL OR column <= now] *)
Definition null_or_due (t : option time) (now : time) : bool :=
  match t with None => true | Some u => u <=? now end.

(** [column IS NOT NULL AND column <= now] *)
Definition due (t : option time) (now : time) : bool :=
  match t with None => false | Some u => u <=? now end.

(** The [WHERE] clause of the claim query. *)
Definition claimable (now : time) (r : DBInstanceResource) : bool :=
  ((r_status r == DBInstanceStatus.CREATING)
   || (r_status r == DBInstanceStatus.DELETING)
   || (r_status r == DBInstanceStatus.RESTORING)
   || ((r_status r == DBInstanceStatus.COOLING_DOWN) && due (r_cooldown_until r) now)
   || ((r_status r == DBInstanceStatus.FAILED) && r_cleanup_required r))
  && (r_provisioning_mode r != ProvisioningMode.DEDICATED)
  && null_or_due (r_next_retry_at r) now
  && ((r_worker_id r == None) || null_or_due (r_worker_lease_until r) now).

(** [ORDER BY created_at, id] *)
Definition created_before (a b : DBInstanceResource) : bool :=
  key_le (r_created_at a, r_id a) (r_created_at b, r_id b).

Definition claim_candidate (now : time) (db : DB) : option DBInstanceResource :=
  first_by created_before (filter (λ r, claimable now r = true) (snd <$> map_to_list (resources db))).

Section worker.
  Context (config : TenantProvisioningConfig) (worker_id : string).

Definition claim_one (now : time) : M (Session DB) (option string) :=
  claim_serialization (
    candidate ← query (claim_candidate now);
    match candidate with
    | None => rollback ;; mret None
    | Some resource =>
        let resource :=
          resource <| r_worker_id := Some worker_id |>
                   <| r_worker_lease_until := Some (now + seconds (worker_claim_ttl_seconds config)) |> in
        execute (put_resource resource) ;;
        commit ;;
        mret (Some (r_id resource))
    end).

Definition renew_claim (now : time) (resource_id : string) : M (Session DB) bool :=
  claim_serialization (
    found ← query (λ db, resources db !! resource_id);
    match found with
    | Some resource =>
        if (r_worker_id resource == Some worker_id) then
          execute (put_resource
            (resource <| r_worker_lease_until :=
               Some (now + seconds (worker_claim_ttl_seconds config)) |>)) ;;
          commit ;;
          mret true
        else rollback ;; mret false
    | None => rollback ;; mret false
    end).

(** Called with the retry count already incremented, so [retry_count >= 1]. *)
Definition backoff (retry_count : Z) : Z :=
  seconds (Z.min (worker_initial_backoff_seconds config * 2 ^ (retry_count - 1))
                 (worker_max_backoff_seconds config)).

End worker.
