(* ===== verification/AdapterInterface.v ===== *)
(** * Provisioning adapters

    The [ProvisioningAdapter] protocol of [server/core/provisioning_adapter.py]
    as a record of operations over the world a dispatcher runs in, and the
    registry of [server/core/adapter_registry.py] that picks one. *)

From S2P Require Import Prelude Models.

(** What a dispatcher acts on: the metadata database, the state [X] of the
    services outside this program (the tenant database server), and how many
    readings of the clock have been taken. *)
Record World (X : Type) : Type := mk_world {
  w_db : DB;
  w_ext : X;
  w_tick : nat
}.
Arguments mk_world {X}.
Arguments w_db {X} _.
Arguments w_ext {X} _.
Arguments w_tick {X} _.

(** A detached row as a session returned it: the resource with the
    [credentials] its relationship loaded. *)
Record LoadedResource : Type := mk_loaded {
  lr_resource : DBInstanceResource;
  lr_credentials : list InstanceCredential
}.

Record HealthResult : Type := mk_health_result {
  hr_healthy : bool;
  hr_error_code : option string
}.

(** Each lifecycle operation returns the detached row as the adapter left it
    (it advances one step field), or raises. *)
Record ProvisioningAdapter (X : Type) : Type := mk_adapter {
  adapter_create : LoadedResource → M (World X) DBInstanceResource;
  adapter_delete : LoadedResource → M (World X) DBInstanceResource;
  adapter_verify : LoadedResource → M (World X) DBInstanceResource;
  adapter_disconnect : LoadedResource → M (World X) DBInstanceResource;
  adapter_restore : LoadedResource → M (World X) unit;
  adapter_health_check : ProvisioningBackend → M (World X) HealthResult
}.
Arguments mk_adapter {X}.
Arguments adapter_create {X} _ _ _.
Arguments adapter_delete {X} _ _ _.
Arguments adapter_verify {X} _ _ _.
Arguments adapter_disconnect {X} _ _ _.
Arguments adapter_restore {X} _ _ _.
Arguments adapter_health_check {X} _ _ _.

(** What the dispatcher relies on: an adapter reads the metadata database and
    never writes it.  (Which step it returns is checked, not trusted.) *)
Definition leaves_db {X A : Type} (m : M (World X) A) : Prop :=
  ∀ w, w_db (m w).1 = w_db w.

Class AdapterFrame {X : Type} (a : ProvisioningAdapter X) : Prop := {
  frame_create : ∀ r, leaves_db (adapter_create a r);
  frame_delete : ∀ r, leaves_db (adapter_delete a r);
  frame_verify : ∀ r, leaves_db (adapter_verify a r);
  frame_disconnect : ∀ r, leaves_db (adapter_disconnect a r);
  frame_restore : ∀ r, leaves_db (adapter_restore a r);
  frame_health_check : ∀ b, leaves_db (adapter_health_check a b)
}.

(** A database transaction, and a call to the outside services, in the world. *)
Definition with_db {X A : Type} (m : M (Session DB) A) : M (World X) A := λ w,
  match with_session m (w_db w) with
  | (db, o) => (mk_world db (w_ext w) (w_tick w), o)
  end.

Definition lift_ext {X A : Type} (m : M X A) : M (World X) A := λ w,
  match m (w_ext w) with
  | (x, o) => (mk_world (w_db w) x (w_tick w), o)
  end.

(** ** Programs that leave the database alone *)

Lemma leaves_db_ret {X A} (x : A) : leaves_db (X:=X) (mret x).
Proof. done. Qed.

Lemma leaves_db_raise {X A} e : leaves_db (X:=X) (A:=A) (raise e).
Proof. done. Qed.

Lemma leaves_db_bind {X A B} (m : M (World X) A) (k : A → M (World X) B) :
  leaves_db m → (∀ a, leaves_db (k a)) → leaves_db (m ≫= k).
Proof.
  intros Hm Hk w. unfold mbind, M_bind. specialize (Hm w).
  destruct (m w) as [w1 [a|e]]; simpl in *; [|done]. by rewrite (Hk a w1).
Qed.

Lemma leaves_db_try {X A} (m : M (World X) A) h :
  leaves_db m → (∀ e, leaves_db (h e)) → leaves_db (try_except m h).
Proof.
  intros Hm Hh w. unfold try_except. specialize (Hm w).
  destruct (m w) as [w1 [a|e]]; simpl in *; [done|]. by rewrite (Hh e w1).
Qed.

Lemma leaves_db_lift_outcome {X A} (o : outcome A) : leaves_db (X:=X) (lift_outcome o).
Proof. done. Qed.

Lemma leaves_db_lift_ext {X A} (m : M X A) : leaves_db (lift_ext m).
Proof. intros w. unfold lift_ext. by destruct (m (w_ext w)). Qed.

Lemma leaves_db_query {X A} (f : DB → A) : leaves_db (X:=X) (with_db (query f)).
Proof. done. Qed.
#[export] Hint Resolve leaves_db_lift_outcome leaves_db_lift_ext leaves_db_query : pas.
#[export] Hint Resolve leaves_db_ret leaves_db_raise leaves_db_bind leaves_db_try : pas.

(** ** The registry *)

Abbreviation AdapterRegistry X := (gmap (string * string) (ProvisioningAdapter X)).

Definition registry_key (engine : InstanceEngine.t) (topology : InstanceTopology.t)
    : string * string :=
  (InstanceEngine.value engine, InstanceTopology.value topology).

Definition registry_register {X} (reg : AdapterRegistry X) (engine : InstanceEngine.t)
    (topology : InstanceTopology.t) (a : ProvisioningAdapter X)
    : outcome (AdapterRegistry X) :=
  let key := registry_key engine topology in
  match reg !! key with
  | Some _ => Raise (ValueError ("Adapter already registered for " +:+ key.1 +:+ "/" +:+ key.2))
  | None => Ret (<[key := a]> reg)
  end.

Definition AdapterNotFound (key : string * string) : PyExc :=
  exc "AdapterNotFound" ("No provisioning adapter for " +:+ key.1 +:+ "/" +:+ key.2).

Definition registry_get {X} (reg : AdapterRegistry X) (engine : InstanceEngine.t)
    (topology : InstanceTopology.t) : outcome (ProvisioningAdapter X) :=
  let key := registry_key engine topology in
  match reg !! key with
  | Some a => Ret a
  | None => Raise (AdapterNotFound key)
  end.

(** A registered adapter is the one found for its engine and topology, other
    entries are kept, and a second registration is refused. *)
Lemma registry_get_register {X} (reg reg' : AdapterRegistry X) e t a :
  registry_register reg e t a = Ret reg' →
  registry_get reg' e t = Ret a
  ∧ (∀ t', t' ≠ t → registry_get reg' e t' = registry_get reg e t').
Proof.
  unfold registry_register, registry_get. destruct (reg !! _) eqn:Hk; [done|].
  intros [= <-]. split.
  - by rewrite lookup_insert_eq.
  - intros t' Hne. rewrite lookup_insert_ne; [done|].
    unfold registry_key. destruct t, t'; simpl; congruence.
Qed.
