(* ===== verification/Dispatcher.v ===== *)
(** * The provisioning dispatcher ([server/core/db_instance_dispatcher.py])

    [run_once] claims one resource and drives it: forward through the
    provisioning steps of a [CREATING] resource, through disconnection,
    cool-down and cleanup of a deleted one, through a restore.  Every step is
    an adapter call on a detached row followed by one guarded transaction that
    persists the step only if the row is still the one the step was taken for. *)

From S2P Require Import Prelude Models Config WriteGuard Worker AdapterInterface.

(** ** Step tables *)

Definition next_provisioning_step (s : LeaseProvisioningStep.t) : option LeaseProvisioningStep.t :=
  match s with
  | LeaseProvisioningStep.PENDING => Some LeaseProvisioningStep.RESOURCE_CONFIG_CREATED
  | LeaseProvisioningStep.RESOURCE_CONFIG_CREATED => Some LeaseProvisioningStep.TENANT_CREATED
  | LeaseProvisioningStep.TENANT_CREATED => Some LeaseProvisioningStep.USER_CREATED
  | LeaseProvisioningStep.USER_CREATED => Some LeaseProvisioningStep.DATABASE_CREATED
  | LeaseProvisioningStep.DATABASE_CREATED => Some LeaseProvisioningStep.GRANTED
  | LeaseProvisioningStep.GRANTED => Some LeaseProvisioningStep.VERIFIED
  | LeaseProvisioningStep.VERIFIED => None
  end.

Definition next_cleanup_step (s : LeaseCleanupStep.t) : option LeaseCleanupStep.t :=
  match s with
  | LeaseCleanupStep.PENDING => Some LeaseCleanupStep.DATABASE_DROPPED
  | LeaseCleanupStep.DATABASE_DROPPED => Some LeaseCleanupStep.TENANT_DROPPED
  | LeaseCleanupStep.TENANT_DROPPED => Some LeaseCleanupStep.RESOURCE_CONFIG_DROPPED
  | LeaseCleanupStep.RESOURCE_CONFIG_DROPPED => Some LeaseCleanupStep.RESIDUE_VERIFIED
  | LeaseCleanupStep.RESIDUE_VERIFIED => None
  end.

Definition next_delete_step (s : DeleteLifecycleStep.t) : option DeleteLifecycleStep.t :=
  match s with
  | DeleteLifecycleStep.PENDING => Some DeleteLifecycleStep.ACCOUNT_LOCKED
  | DeleteLifecycleStep.ACCOUNT_LOCKED => Some DeleteLifecycleStep.SESSIONS_TERMINATED
  | DeleteLifecycleStep.SESSIONS_TERMINATED => Some DeleteLifecycleStep.DISCONNECTED
  | _ => None
  end.

(** The delete steps that are past disconnection and cool-down. *)
Definition irreversible (s : DeleteLifecycleStep.t) : bool :=
  match s with
  | DeleteLifecycleStep.LOGICAL_CLEANUP | DeleteLifecycleStep.PHYSICAL_DESTROY
  | DeleteLifecycleStep.SANITIZE_DISPATCH | DeleteLifecycleStep.COMPLETE => true
  | _ => false
  end.

Definition needs_cleanup (r : DBInstanceResource) : bool :=
  ((r_status r == DBInstanceStatus.DELETING)
   && (r_delete_step r == DeleteLifecycleStep.LOGICAL_CLEANUP))
  || ((r_status r == DBInstanceStatus.FAILED) && r_cleanup_required r).

Definition CapacityAccountingError (msg : string) : PyExc := exc "CapacityAccountingError" msg.

(** ** What a failure may write to the log *)

Definition vendor_message_safe_codes : list Z := [9900; 9901; 9902].

Definition static_safe_messages : list string :=
  [ "Provisioning capacity rows are unavailable";
    "Provisioning capacity counters are inconsistent";
    "Adapter returned an invalid provisioning step";
    "Adapter returned an invalid cleanup step";
    "Provisioning backend is unavailable" ].

(** [mysql_error_code(error)]: the first argument when it is an [int]. *)
Definition mysql_error_code (e : PyExc) : option Z := exc_code e.

Definition safe_reason (e : PyExc) : option string :=
  if match mysql_error_code e with
     | Some code => bool_decide (code ∈ vendor_message_safe_codes)
     | None => false
     end then Some (exc_message e)
  else if bool_decide (exc_message e ∈ static_safe_messages) then Some (exc_message e)
  else None.

Definition log_safe_failure (resource_id phase step : string) (e : PyExc) : string :=
  "database instance " +:+ resource_id +:+ " " +:+ phase +:+ " step " +:+ step
  +:+ " failed: " +:+ exc_type e
  +:+ " code=" +:+ match mysql_error_code e with Some c => pretty c | None => "None" end
  +:+ (if truthy (safe_reason e) then " reason=" +:+ default "" (safe_reason e) else "").

(** ** Transactions *)

Definition locked_resource (rid : string) : M (Session DB) (option DBInstanceResource) :=
  query (λ db, resources db !! rid).
Definition locked_backend (bid : string) : M (Session DB) (option ProvisioningBackend) :=
  query (λ db, backends db !! bid).

Definition clear_claim (r : DBInstanceResource) : DBInstanceResource :=
  r <| r_worker_id := None |> <| r_worker_lease_until := None |>.

(** [retry_count = 0; next_retry_at = None] *)
Definition reset_retry (r : DBInstanceResource) : DBInstanceResource :=
  r <| r_retry_count := 0 |> <| r_next_retry_at := None |>.

(** Write the row back and end the transaction with a result. *)
Definition save {A : Type} (r : DBInstanceResource) (result : A) : M (Session DB) A :=
  execute (put_resource r) ;; commit ;; mret result.
Definition abandon {A : Type} (result : A) : M (Session DB) A :=
  rollback ;; mret result.

Section dispatcher.
  Context (config : TenantProvisioningConfig) (worker_id : string).

Definition owns_claim (r : DBInstanceResource) : bool := r_worker_id r == Some worker_id.

Definition persist_disconnect_result (now : time) (rid : string)
    (expected_step new_step : DeleteLifecycleStep.t) : M (Session DB) bool :=
  if Some new_step != next_delete_step expected_step then
    raise (RuntimeError "Adapter returned an invalid disconnect step")
  else claim_serialization (
    found ← locked_resource rid;
    match found with
    | None => abandon false
    | Some r =>
        if negb (owns_claim r) || (r_status r != DBInstanceStatus.DELETING)
           || (r_delete_step r != expected_step) then abandon false
        else
          let r := reset_retry (r <| r_delete_step := new_step |>) <| r_failure_reason := None |> in
          if new_step == DeleteLifecycleStep.DISCONNECTED then
            match r_effective_delete_cooldown_duration_hours r with
            | None => raise (RuntimeError "Delete cooldown is unavailable")
            | Some duration =>
                save (clear_claim
                  (r <| r_disconnected_at := Some now |>
                     <| r_cooldown_until := Some (now + hours duration) |>
                     <| r_delete_step := DeleteLifecycleStep.COOLING_DOWN |>
                     <| r_status := DBInstanceStatus.COOLING_DOWN |>)) false
            end
          else save r true
    end).

Definition begin_cleanup (now : time) (rid : string) : M (Session DB) bool :=
  claim_serialization (
    found ← locked_resource rid;
    match found with
    | None => abandon false
    | Some r =>
        match r_disconnected_at r, r_cooldown_until r with
        | Some _, Some cooldown_until =>
            if negb (owns_claim r) || (r_status r != DBInstanceStatus.COOLING_DOWN)
               || (r_delete_step r != DeleteLifecycleStep.COOLING_DOWN) then abandon false
            else if now <? cooldown_until then save (clear_claim r) false
            else
              save (r <| r_status := DBInstanceStatus.DELETING |>
                      <| r_delete_step := DeleteLifecycleStep.LOGICAL_CLEANUP |>
                      <| r_cleanup_required := true |>) true
        | _, _ => abandon false
        end
    end).

Definition is_resource_access (rid : string) (c : InstanceCredential) : bool :=
  (c_resource_id c == Some rid) && (c_purpose c == CredentialPurpose.RESOURCE_ACCESS).

Definition set_resource_credentials_status (rid : string) (s : CredentialStatus.t) (db : DB) : DB :=
  db <| credentials :=
    update_where (is_resource_access rid) (λ c, c <| c_status := s |>) (credentials db) |>.

Definition finish_restore (rid : string) : M (Session DB) unit :=
  claim_serialization (
    found ← locked_resource rid;
    match found with
    | None => abandon tt
    | Some r =>
        if negb (owns_claim r) || (r_status r != DBInstanceStatus.RESTORING) then abandon tt
        else
          execute (set_resource_credentials_status rid CredentialStatus.ACTIVE) ;;
          save (clear_claim (reset_retry
            (r <| r_status := DBInstanceStatus.READY |>
               <| r_cleanup_required := false |>
               <| r_delete_step := DeleteLifecycleStep.PENDING |>
               <| r_delete_requested_at := None |>
               <| r_disconnected_at := None |>
               <| r_cooldown_until := None |>
               <| r_restore_source_status := None |>
               <| r_restore_failure_reason := None |>
               <| r_failure_reason := None |>))) tt
    end).

Definition record_disconnect_failure (now : time) (rid : string) (e : PyExc)
    (expected_step : DeleteLifecycleStep.t) : M (Session DB) unit :=
  claim_serialization (
    found ← locked_resource rid;
    match found with
    | None => abandon tt
    | Some r =>
        if negb (owns_claim r) || (r_status r != DBInstanceStatus.DELETING)
           || (r_delete_step r != expected_step) then abandon tt
        else
          let r := r <| r_retry_count := r_retry_count r + 1 |>
                     <| r_failure_reason := Some ("Disconnect step failed with " +:+ exc_type e) |> in
          let r :=
            if worker_max_retries config <? r_retry_count r then
              r <| r_status := DBInstanceStatus.DELETE_FAILED |> <| r_next_retry_at := None |>
            else r <| r_next_retry_at := Some (now + backoff config (r_retry_count r)) |> in
          save (clear_claim r) tt
    end).

Definition record_restore_failure (rid : string) (e : PyExc) : M (Session DB) unit :=
  claim_serialization (
    found ← locked_resource rid;
    match found with
    | None => abandon tt
    | Some r =>
        if negb (owns_claim r) || (r_status r != DBInstanceStatus.RESTORING) then abandon tt
        else
          save (clear_claim
            (r <| r_restore_failure_reason :=
                    Some ("Restore verification failed with " +:+ exc_type e) |>
               <| r_status :=
                    if r_restore_source_status r == Some DBInstanceStatus.COOLING_DOWN
                    then DBInstanceStatus.COOLING_DOWN else DBInstanceStatus.DELETE_FAILED |>)) tt
    end).

(** The row of a resource whose backend an administrator disabled. *)
Definition fail_disabled (r : DBInstanceResource) : DBInstanceResource :=
  clear_claim (reset_retry
    (r <| r_status := DBInstanceStatus.FAILED |>
       <| r_cleanup_required := true |>
       <| r_failure_reason := Some "Provisioning backend is disabled" |>)).

Definition queue_disabled (rid : string) : M (Session DB) unit :=
  claim_serialization (
    found ← locked_resource rid;
    match found with
    | None => abandon tt
    | Some r =>
        if negb (owns_claim r) || (r_status r != DBInstanceStatus.CREATING) then abandon tt
        else
          backend ← locked_backend (r_backend_id r);
          match backend with
          | None => abandon tt
          | Some b =>
              if b_status b != ProvisioningBackendStatus.DISABLED then abandon tt
              else save (fail_disabled r) tt
          end
    end).

Definition persist_forward_result (rid : string)
    (expected_step new_step : LeaseProvisioningStep.t) : M (Session DB) bool :=
  if Some new_step != next_provisioning_step expected_step then
    raise (RuntimeError "Adapter returned an invalid provisioning step")
  else claim_serialization (
    found ← locked_resource rid;
    match found with
    | None => abandon false
    | Some r =>
        if negb (owns_claim r) then abandon false
        else if r_status r == DBInstanceStatus.DELETING then save (clear_claim r) false
        else if (r_status r != DBInstanceStatus.CREATING)
                || (r_provisioning_step r != expected_step) then save (clear_claim r) false
        else
          backend ← locked_backend (r_backend_id r);
          match backend with
          | None => raise (RuntimeError "Provisioning backend is unavailable")
          | Some b =>
              if b_status b == ProvisioningBackendStatus.DISABLED then save (fail_disabled r) false
              else
                save (reset_retry (r <| r_provisioning_step := new_step |>)
                        <| r_failure_reason := None |>) true
          end
    end).

Definition finish_ready (rid : string) : M (Session DB) unit :=
  claim_serialization (
    found ← locked_resource rid;
    match found with
    | None => abandon tt
    | Some r =>
        if negb (owns_claim r) || (r_status r != DBInstanceStatus.CREATING)
           || (r_provisioning_step r != LeaseProvisioningStep.VERIFIED) then abandon tt
        else
          backend ← locked_backend (r_backend_id r);
          let disabled :=
            match backend with
            | None => true
            | Some b => b_status b == ProvisioningBackendStatus.DISABLED
            end in
          save
            (if disabled then fail_disabled r
             else clear_claim (reset_retry
               (r <| r_status := DBInstanceStatus.READY |>
                  <| r_cleanup_required := false |>
                  <| r_failure_reason := None |>))) tt
    end).

(** The two capacity rows of a resource, or why they cannot be released. *)
Definition release_capacity (r : DBInstanceResource) : M (Session DB) unit :=
  let agent_key := ("agent", r_owner_agent_id r) in
  let backend_key := ("backend", r_backend_id r) in
  rows ← query (λ db, (capacities db !! agent_key, capacities db !! backend_key));
  match rows with
  | (Some agent_count, Some backend_count) =>
      if (agent_count <=? 0) || (backend_count <=? 0) then
        raise (CapacityAccountingError "Provisioning capacity counters are inconsistent")
      else
        execute (put_capacity agent_key (agent_count - 1)) ;;
        execute (put_capacity backend_key (backend_count - 1))
  | _ => raise (CapacityAccountingError "Provisioning capacity rows are unavailable")
  end.

Definition revoke_and_scrub (rid : string) (db : DB) : DB :=
  db <| credentials :=
    update_where (is_resource_access rid)
      (λ c, c <| c_status := CredentialStatus.REVOKED |>
              <| c_username_ciphertext := None |>
              <| c_password_ciphertext := None |>) (credentials db) |>.

(** [_finish_cleanup_locked]: returns the row as it is to be committed. *)
Definition finish_cleanup_locked (now : time) (r : DBInstanceResource)
    : M (Session DB) DBInstanceResource :=
  r ← match r_capacity_released_at r with
      | Some _ => mret r
      | None => release_capacity r ;; mret (r <| r_capacity_released_at := Some now |>)
      end;
  execute (revoke_and_scrub (r_id r)) ;;
  let r := reset_retry (r <| r_cleanup_required := false |>) <| r_failure_reason := None |> in
  let r :=
    if r_status r == DBInstanceStatus.DELETING then
      r <| r_status := DBInstanceStatus.DELETED |>
        <| r_delete_step := DeleteLifecycleStep.COMPLETE |>
    else r in
  mret (clear_claim r).

Definition persist_cleanup_result (now : time) (rid : string)
    (expected_status : DBInstanceStatus.t) (expected_step new_step : LeaseCleanupStep.t)
    : M (Session DB) bool :=
  if (Some new_step != next_cleanup_step expected_step)
     && negb ((expected_step == new_step) && (new_step == LeaseCleanupStep.RESIDUE_VERIFIED)) then
    raise (RuntimeError "Adapter returned an invalid cleanup step")
  else claim_serialization (
    found ← locked_resource rid;
    match found with
    | None => abandon false
    | Some r =>
        if negb (owns_claim r) || (r_status r != expected_status)
           || (r_cleanup_step r != expected_step) || negb (needs_cleanup r) then abandon false
        else
          let r := reset_retry (r <| r_cleanup_step := new_step |>) <| r_failure_reason := None |> in
          if new_step == LeaseCleanupStep.RESIDUE_VERIFIED then
            r ← finish_cleanup_locked now r;
            save r false
          else save r true
    end).

Definition release_claim (rid : string) : M (Session DB) unit :=
  claim_serialization (
    found ← locked_resource rid;
    match found with
    | None => abandon tt
    | Some r => if owns_claim r then save (clear_claim r) tt else abandon tt
    end).

Inductive phase : Set := Forward | Cleanup.

(** The row after one more failed attempt of a phase. *)
Definition failed_attempt (now : time) (ph : phase) (e : PyExc) (r : DBInstanceResource)
    : DBInstanceResource :=
  let operation := match ph with Cleanup => "Cleanup" | Forward => "Provisioning" end in
  let r := r <| r_retry_count := r_retry_count r + 1 |>
             <| r_failure_reason := Some (operation +:+ " step failed with " +:+ exc_type e) |> in
  if worker_max_retries config <? r_retry_count r then
    let r := r <| r_next_retry_at := None |> in
    match ph with
    | Cleanup => r <| r_status := DBInstanceStatus.DELETE_FAILED |>
    | Forward =>
        r <| r_status := DBInstanceStatus.FAILED |>
          <| r_cleanup_required := true |>
          <| r_retry_count := 0 |>
    end
  else r <| r_next_retry_at := Some (now + backoff config (r_retry_count r)) |>.

Definition record_failure (now : time) (rid : string) (e : PyExc) (ph : phase)
    (expected_status : DBInstanceStatus.t) (expected_forward_step : LeaseProvisioningStep.t)
    (expected_cleanup_step : LeaseCleanupStep.t) : M (Session DB) unit :=
  claim_serialization (
    found ← locked_resource rid;
    match found with
    | None => abandon tt
    | Some r =>
        if negb (owns_claim r) then abandon tt
        else
          match ph with
          | Forward =>
              if r_status r == DBInstanceStatus.DELETING then
                save (clear_claim
                  (reset_retry (r <| r_cleanup_required := true |>)
                     <| r_failure_reason :=
                          Some ("Provisioning step failed with " +:+ exc_type e) |>)) tt
              else if (r_status r != expected_status) || (r_status r != DBInstanceStatus.CREATING)
                      || (r_provisioning_step r != expected_forward_step) then
                save (clear_claim r) tt
              else save (clear_claim (failed_attempt now Forward e r)) tt
          | Cleanup =>
              if (r_status r != expected_status) || (r_cleanup_step r != expected_cleanup_step)
                 || negb (needs_cleanup r) then
                save (clear_claim r) tt
              else save (clear_claim (failed_attempt now Cleanup e r)) tt
          end
    end).

End dispatcher.
