(* ===== verification/DispatchLoop.v ===== *)
(** * The dispatch loop ([_load_claimed], [_dispatch_claimed], [run_once])

    The [while True] loop of [server/core/db_instance_dispatcher.py] with fuel.
    Adapter calls and transactions run over a [World]; the clock is a stream
    that successive readings consume. *)

From S2P Require Import Prelude Models Config WriteGuard Worker AdapterInterface Dispatcher.

Section loop.
  Context {X : Type} (config : TenantProvisioningConfig) (worker_id : string).
  Context (registry : AdapterRegistry X) (clock : nat → time).

Definition read_clock : M (World X) time := λ w,
  (mk_world (w_db w) (w_ext w) (S (w_tick w)), Ret (clock (w_tick w))).

(** A transaction that reads the clock. *)
Definition at_now {A : Type} (m : time → M (Session DB) A) : M (World X) A :=
  now ← read_clock; with_db (m now).

Definition load_claimed (rid : string)
    : M (Session DB)
        (option (LoadedResource * option ProvisioningBackend * option Instance)) :=
  found ← locked_resource rid;
  match found with
  | None => mret None
  | Some r =>
      if r_worker_id r != Some worker_id then mret None
      else
        creds ← query (resource_credentials rid);
        backend ← query (λ db, backends db !! r_backend_id r);
        instance ← query (λ db, b ← backend; iid ← b_instance_id b; instances db !! iid);
        mret (Some (mk_loaded r creds, backend, instance))
  end.

(** [if backend is None or instance is None: raise ...; registry.get(...)] *)
Definition pick_adapter (backend : option ProvisioningBackend) (instance : option Instance)
    : M (World X) (ProvisioningAdapter X) :=
  match backend, instance with
  | Some _, Some i => lift_outcome (registry_get registry (i_engine i) (i_topology i))
  | _, _ => raise (RuntimeError "Provisioning backend is unavailable")
  end.

Definition restore_step (rid : string) (loaded : LoadedResource)
    (backend : option ProvisioningBackend) (instance : option Instance) : M (World X) unit :=
  try_else
    (adapter ← pick_adapter backend instance; adapter_restore adapter loaded)
    (λ e, with_db (record_restore_failure worker_id rid e))
    (λ _, with_db (finish_restore worker_id rid)).

(** One disconnection step; [true] when the loop goes on. *)
Definition disconnect_step (rid : string) (loaded : LoadedResource)
    (backend : option ProvisioningBackend) (instance : option Instance) : M (World X) bool :=
  let expected := r_delete_step (lr_resource loaded) in
  try_except
    (adapter ← pick_adapter backend instance;
     r ← adapter_disconnect adapter loaded;
     at_now (λ now, persist_disconnect_result worker_id now rid expected (r_delete_step r)))
    (λ e, at_now (λ now, record_disconnect_failure config worker_id now rid e expected) ;; mret false).

Definition cleanup_step (rid : string) (loaded : LoadedResource)
    (backend : option ProvisioningBackend) (instance : option Instance) : M (World X) bool :=
  let r0 := lr_resource loaded in
  try_except
    (adapter ← pick_adapter backend instance;
     r ← adapter_delete adapter loaded;
     at_now (λ now, persist_cleanup_result worker_id now rid (r_status r0) (r_cleanup_step r0)
                      (r_cleanup_step r)))
    (λ e, at_now (λ now, record_failure config worker_id now rid e Cleanup (r_status r0)
                           (r_provisioning_step r0) (r_cleanup_step r0)) ;; mret false).

Definition forward_step (rid : string) (loaded : LoadedResource)
    (backend : option ProvisioningBackend) (instance : option Instance) : M (World X) bool :=
  let r0 := lr_resource loaded in
  let expected := r_provisioning_step r0 in
  try_except
    (match backend, instance with
     | Some b, Some i =>
         if b_status b == ProvisioningBackendStatus.DISABLED then
           with_db (queue_disabled worker_id rid) ;; mret false
         else
           adapter ← lift_outcome (registry_get registry (i_engine i) (i_topology i));
           if expected == LeaseProvisioningStep.VERIFIED then
             with_db (finish_ready worker_id rid) ;; mret false
           else
             r ← (if expected == LeaseProvisioningStep.GRANTED then adapter_verify adapter loaded
                  else adapter_create adapter loaded);
             with_db (persist_forward_result worker_id rid expected (r_provisioning_step r))
     | _, _ => raise (RuntimeError "Provisioning backend is unavailable")
     end)
    (λ e, at_now (λ now, record_failure config worker_id now rid e Forward (r_status r0)
                           expected (r_cleanup_step r0)) ;; mret false).

(** The body of the loop: [true] to go round again. *)
Definition dispatch_iteration (rid : string) : M (World X) bool :=
  loaded ← with_db (load_claimed rid);
  match loaded with
  | None => mret false
  | Some (l, backend, instance) =>
      let r := lr_resource l in
      if r_status r == DBInstanceStatus.RESTORING then
        restore_step rid l backend instance ;; mret false
      else if r_status r == DBInstanceStatus.COOLING_DOWN then
        at_now (λ now, begin_cleanup worker_id now rid)
      else if (r_status r == DBInstanceStatus.DELETING) && negb (irreversible (r_delete_step r)) then
        disconnect_step rid l backend instance
      else if needs_cleanup r then cleanup_step rid l backend instance
      else if r_status r != DBInstanceStatus.CREATING then
        with_db (release_claim worker_id rid) ;; mret false
      else forward_step rid l backend instance
  end.

(** [while True], giving [false] when the fuel runs out. *)
Fixpoint dispatch_claimed (fuel : nat) (rid : string) : M (World X) bool :=
  match fuel with
  | O => mret false
  | S fuel =>
      again ← dispatch_iteration rid;
      if (again : bool) then dispatch_claimed fuel rid else mret true
  end.

(** Claim a resource and drive it; [None] when the fuel runs out.  The
    heartbeat task that runs beside it only renews the lease. *)
Definition run_once (fuel : nat) : M (World X) (option bool) :=
  claimed ← at_now (λ now, claim_one config worker_id now);
  match claimed with
  | None => mret (Some false)
  | Some rid =>
      finished ← dispatch_claimed fuel rid;
      mret (if (finished : bool) then Some true else None)
  end.

End loop.
