(* ===== verification/Permission.v ===== *)
(** * Permission templates ([server/core/permission_template_service.py])

    Privilege lists are parsed into the canonical enum order, compiled into a
    snapshot under a scope, and snapshots are stored on resources as JSON. *)

From S2P Require Import Prelude Models.

Module DatabasePrivilege.
Inductive t : Set := CREATE | DROP | ALTER | INDEX | REFERENCES | CREATE_VIEW | SHOW_VIEW
  | CREATE_ROUTINE | ALTER_ROUTINE | EXECUTE | SELECT | INSERT | UPDATE | DELETE
  | CREATE_TEMPORARY_TABLES | LOCK_TABLES | CREATE_USER.

#[global] Instance t_eq_dec : EqDecision t.
Proof. solve_decision. Defined.

Definition value (p : t) : string :=
  match p with
  | CREATE => "CREATE" | DROP => "DROP" | ALTER => "ALTER" | INDEX => "INDEX"
  | REFERENCES => "REFERENCES" | CREATE_VIEW => "CREATE VIEW" | SHOW_VIEW => "SHOW VIEW"
  | CREATE_ROUTINE => "CREATE ROUTINE" | ALTER_ROUTINE => "ALTER ROUTINE"
  | EXECUTE => "EXECUTE" | SELECT => "SELECT" | INSERT => "INSERT" | UPDATE => "UPDATE"
  | DELETE => "DELETE" | CREATE_TEMPORARY_TABLES => "CREATE TEMPORARY TABLES"
  | LOCK_TABLES => "LOCK TABLES" | CREATE_USER => "CREATE USER"
  end.

(** The members in definition order. *)
Definition members : list t :=
  [ CREATE; DROP; ALTER; INDEX; REFERENCES; CREATE_VIEW; SHOW_VIEW; CREATE_ROUTINE;
    ALTER_ROUTINE; EXECUTE; SELECT; INSERT; UPDATE; DELETE; CREATE_TEMPORARY_TABLES;
    LOCK_TABLES; CREATE_USER ].

(** [DatabasePrivilege(value)] *)
Definition of_value (s : string) : option t :=
  first_by (λ _ _, true) (filter (λ p, value p = s) members).

End DatabasePrivilege.

Definition DEFAULT_DATABASE_PRIVILEGES : list DatabasePrivilege.t :=
  filter (λ p, p ≠ DatabasePrivilege.CREATE_USER) DatabasePrivilege.members.

Module PermissionScope.
Inductive t : Set := MULTITENANT | DEDICATED.

#[global] Instance t_eq_dec : EqDecision t.
Proof. solve_decision. Defined.

Definition value (s : t) : string :=
  match s with MULTITENANT => "tenant" | DEDICATED => "global" end.

Definition of_value (s : string) : option t :=
  if String.eqb s "tenant" then Some MULTITENANT
  else if String.eqb s "global" then Some DEDICATED else None.

End PermissionScope.

Record CompiledPermissionSnapshot : Type := mk_snapshot {
  sn_template_id : option string;
  sn_revision_id : option string;
  sn_privileges : list DatabasePrivilege.t;
  sn_grant_option : bool;
  sn_scope : PermissionScope.t;
  sn_legacy_all_privileges : bool
}.

(** The first override that is set, which must be a positive number of hours. *)
Definition effective_delete_cooldown_hours (resource_override pool_or_backend_override : option Z)
    (global_default : Z) : outcome Z :=
  let selected :=
    match resource_override, pool_or_backend_override with
    | Some v, _ => v
    | None, Some v => v
    | None, None => global_default
    end in
  if selected <? 1 then Raise (ValueError "delete cooldown must be at least 1 hour")
  else Ret selected.

(** ** Parsing privilege lists *)

(** The loop over the raw array: the privileges selected so far. *)
Fixpoint select_privileges (raw : list json) (selected : list DatabasePrivilege.t)
    : outcome (list DatabasePrivilege.t) :=
  match raw with
  | [] => Ret selected
  | JStr value :: raw' =>
      match DatabasePrivilege.of_value value with
      | Some p => select_privileges raw' (p :: selected)
      | None => Raise (ValueError ("unsupported privilege: " +:+ value))
      end
  | _ :: _ => Raise (ValueError "privilege values must be strings")
  end.

Definition parse_privileges (privileges_json : json_text) : outcome (list DatabasePrivilege.t) :=
  match json_loads privileges_json with
  | None => Raise (ValueError "privilege list must be valid JSON")
  | Some (JArr (v :: raw)) =>
      selected ← select_privileges (v :: raw) [];
      mret (filter (λ p, p ∈ selected) DatabasePrivilege.members)
  | Some _ => Raise (ValueError "privilege list must be a non-empty array")
  end.

Definition compile_permission_snapshot (revision_id template_id : string)
    (privileges_json : json_text) (grant_option : bool) (scope : PermissionScope.t)
    : outcome CompiledPermissionSnapshot :=
  privileges ← parse_privileges privileges_json;
  if (scope == PermissionScope.MULTITENANT)
     && bool_decide (DatabasePrivilege.CREATE_USER ∈ privileges) then
    Raise (ValueError "CREATE USER requires Dedicated scope")
  else
    Ret (mk_snapshot (Some template_id) (Some revision_id) privileges grant_option scope false).

Definition default_permission_snapshot (scope : PermissionScope.t) : CompiledPermissionSnapshot :=
  mk_snapshot (Some "builtin-mysql-default") (Some "builtin-mysql-default-v1")
    DEFAULT_DATABASE_PRIVILEGES false scope false.

Definition legacy_permission_snapshot (scope : PermissionScope.t) : CompiledPermissionSnapshot :=
  mk_snapshot None None [] true scope true.

(** ** Snapshots as JSON *)

Definition opt_entry (key : string) (v : option string) : list (string * json) :=
  match v with Some s => [(key, JStr s)] | None => [] end.

(** The payload in the sorted key order [json.dumps(sort_keys=True)] gives it. *)
Definition permission_snapshot_to_json (s : CompiledPermissionSnapshot) : json_text :=
  json_dumps (JObj (
    [ ("grant_option", JBool (sn_grant_option s));
      ("legacy", JBool (sn_legacy_all_privileges s));
      ("privileges",
        JArr (if sn_legacy_all_privileges s then [JStr "ALL PRIVILEGES"]
              else (λ p, JStr (DatabasePrivilege.value p)) <$> sn_privileges s)) ]
    ++ opt_entry "revision_id" (sn_revision_id s)
    ++ [ ("scope", JStr (PermissionScope.value (sn_scope s))) ]
    ++ opt_entry "template_id" (sn_template_id s))).

(** Python's [repr] of a string and of a decoded JSON value. *)
Definition hex_digit (n : nat) : ascii :=
  ascii_of_nat (if (n <? 10)%nat then 48 + n else 87 + n).
Definition squote : ascii := ascii_of_nat 39.
Definition dquote : ascii := ascii_of_nat 34.
Definition backslash : ascii := ascii_of_nat 92.

Definition repr_char (quote : ascii) (a : ascii) : string :=
  let n := nat_of_ascii a in
  if Ascii.eqb a quote || Ascii.eqb a backslash then String backslash (String a EmptyString)
  else if (n =? 10)%nat then String backslash "n"
  else if (n =? 13)%nat then String backslash "r"
  else if (n =? 9)%nat then String backslash "t"
  else if (n <? 32)%nat || (n =? 127)%nat then
    String backslash (String "x" (String (hex_digit (n / 16)) (String (hex_digit (n mod 16)) EmptyString)))
  else String a EmptyString.

Fixpoint string_flat_map (f : ascii → string) (s : string) : string :=
  match s with EmptyString => EmptyString | String a s' => f a +:+ string_flat_map f s' end.

Definition repr_str (s : string) : string :=
  let has q := negb (string_forallb (λ a, negb (Ascii.eqb a q)) s) in
  let quote := if has squote && negb (has dquote) then dquote else squote in
  String quote (string_flat_map (repr_char quote) s +:+ String quote EmptyString).

Fixpoint py_repr (j : json) : string :=
  match j with
  | JNull => "None"
  | JBool b => if b then "True" else "False"
  | JNum z => pretty z
  | JStr s => repr_str s
  | JArr l => "[" +:+ join ", " (List.map py_repr l) +:+ "]"
  | JObj l =>
      "{" +:+ join ", " (List.map (λ kv, repr_str kv.1 +:+ ": " +:+ py_repr kv.2) l) +:+ "}"
  end.

Definition py_str (j : json) : string := match j with JStr s => s | _ => py_repr j end.

(** [bool(value)] *)
Definition json_truthy (j : json) : bool :=
  match j with
  | JNull => false
  | JBool b => b
  | JNum z => negb (z =? 0)
  | JStr s => negb (String.eqb s EmptyString)
  | JArr l => negb (length l =? 0)%nat
  | JObj l => negb (length l =? 0)%nat
  end.

(** [str(payload.get(key) or "")] *)
Definition text_or_empty (v : option json) : string :=
  match v with
  | Some j => if json_truthy j then py_str j else EmptyString
  | None => EmptyString
  end.

(** [value or None] *)
Definition none_if_empty (s : option string) : option string :=
  if truthy s then s else None.

Definition permission_snapshot_from_json (encoded : json_text) : outcome CompiledPermissionSnapshot :=
  match json_loads encoded with
  | None => Raise (ValueError "permission snapshot must be valid JSON")
  | Some (JObj payload) =>
      scope ← match json_get "scope" payload with
              | Some (JStr s) =>
                  match PermissionScope.of_value s with
                  | Some scope => Ret scope
                  | None => Raise (ValueError "permission snapshot scope is invalid")
                  end
              | _ => Raise (ValueError "permission snapshot scope is invalid")
              end;
      match json_get "grant_option" payload, default (JBool false) (json_get "legacy" payload) with
      | Some (JBool grant_option), JBool legacy =>
          let privileges := default JNull (json_get "privileges" payload) in
          if legacy then
            match privileges with
            | JArr [JStr s] =>
                if String.eqb s "ALL PRIVILEGES" then Ret (legacy_permission_snapshot scope)
                else Raise (ValueError "legacy permission snapshot is invalid")
            | _ => Raise (ValueError "legacy permission snapshot is invalid")
            end
          else
            compiled ← compile_permission_snapshot
              (text_or_empty (json_get "revision_id" payload))
              (text_or_empty (json_get "template_id" payload))
              (json_dumps privileges) grant_option scope;
            Ret (mk_snapshot (none_if_empty (sn_template_id compiled))
                   (none_if_empty (sn_revision_id compiled))
                   (sn_privileges compiled) (sn_grant_option compiled) (sn_scope compiled) false)
      | _, _ => Raise (ValueError "permission snapshot flags are invalid")
      end
  | Some _ => Raise (ValueError "permission snapshot must be an object")
  end.

(** ** Template revisions *)

Definition template_revisions (template_id : string) (db : DB) : list Z :=
  pr_revision <$>
    filter (λ r, pr_template_id r = template_id) (snd <$> map_to_list (revisions db)).

(** [func.coalesce(func.max(revision), 0)] *)
Definition max_or_zero (l : list Z) : Z :=
  match l with [] => 0 | x :: l' => foldr Z.max x l' end.

(** [new_id] is the generated primary key. *)
Definition create_permission_template_revision (new_id template_id : string)
    (privileges : list string) (grant_option : bool) (created_by_user_id : option string)
    : M (Session DB) PermissionTemplateRevision :=
  compiled ← lift_outcome (compile_permission_snapshot "pending" template_id
               (json_dumps (JArr (JStr <$> privileges))) grant_option PermissionScope.DEDICATED);
  current_revision ← query (λ db, max_or_zero (template_revisions template_id db));
  let revision :=
    mk_revision new_id template_id (current_revision + 1)
      (json_dumps (JArr ((λ p, JStr (DatabasePrivilege.value p)) <$> sn_privileges compiled)))
      grant_option created_by_user_id in
  execute (λ db, db <| revisions := <[new_id := revision]> (revisions db) |>) ;;
  mret revision.

Definition permission_snapshot_for_revision (r : PermissionTemplateRevision)
    : outcome CompiledPermissionSnapshot :=
  compile_permission_snapshot (pr_id r) (pr_template_id r) (pr_privileges_json r)
    (pr_grant_option r) PermissionScope.DEDICATED.
