(* ===== verification/Ddl.v ===== *)
(** * Tenant DDL ([server/core/multitenant_ddl.py])

    The SQL statements that create and drop a tenant's objects, built only from
    validated identifiers, and [MultitenantDDLAdapter], which runs them and
    verifies their effect.  The tenant server itself is a parameter. *)

From S2P Require Import Prelude PyString Models AdapterInterface Dispatcher Permission.

(** ** The services outside this program

    A value of a result row, and the calls made on the tenant database server:
    [server_query] runs one statement on a pooled administrator connection of a
    backend, [server_select_one] logs in as an ordinary account and runs
    [SELECT 1].  [decrypt] is the envelope decryption of stored secrets. *)
Inductive sql_value : Type :=
| SqlNull
| SqlInt (z : Z)
| SqlStr (s : string).

#[export] Instance sql_value_eq_dec : EqDecision sql_value.
Proof. solve_decision. Defined.

Definition row : Type := list sql_value.

Record BackendContext : Type := mk_context {
  ctx_backend : ProvisioningBackend;
  ctx_instance : Instance;
  ctx_credential : InstanceCredential
}.

Class TenantServices (X : Type) : Type := {
  server_query : BackendContext → string → list sql_value → M X (list row);
  server_select_one : string → Z → string → string → string → M X (option row);
  decrypt : string → outcome string
}.

(** ** Identifiers *)

Definition ident_char (a : ascii) : bool := is_alnum a || Ascii.eqb a "_".

Definition InvalidDatabaseIdentifier (msg : string) : PyExc := exc "InvalidDatabaseIdentifier" msg.
Definition DDLVerificationError (msg : string) : PyExc := exc "DDLVerificationError" msg.
Definition ObjectOwnershipConflict (msg : string) : PyExc := exc "ObjectOwnershipConflict" msg.
Definition ActiveTenantSessionsError (msg : string) : PyExc := exc "ActiveTenantSessionsError" msg.

(** [_TENANT_RE], [_RESOURCE_CONFIG_RE], [_ACCOUNT_RE], [_DATABASE_RE] under [fullmatch]. *)
Definition tenant_re (s : string) : bool := fullmatch_class ident_char 1 10 s.
Definition resource_config_re (s : string) : bool := fullmatch_class ident_char 1 64 s.
Definition scoped_re (hi : nat) (s : string) : bool :=
  match split_once "@" s with
  | Some (l, r) => fullmatch_class ident_char 1 hi l && fullmatch_class ident_char 1 10 r
  | None => false
  end.
Definition account_re (s : string) : bool := scoped_re 20 s.
Definition database_re (s : string) : bool := scoped_re 50 s.

Definition validate (value : option string) (pattern : string → bool) (kind : string)
    : outcome string :=
  match value with
  | Some v => if pattern v then Ret v else Raise (InvalidDatabaseIdentifier ("Invalid " +:+ kind))
  | None => Raise (InvalidDatabaseIdentifier ("Invalid " +:+ kind))
  end.

Definition validate_tenant (v : option string) := validate v tenant_re "tenant name".
Definition validate_resource_config (v : option string) :=
  validate v resource_config_re "resource config name".
Definition validate_account (v : option string) := validate v account_re "account name".
Definition validate_database (v : option string) := validate v database_re "database name".

(** ** Statements *)

Definition build_create_resource_config_sql (name : string) (min_cpu max_cpu : Z) : outcome string :=
  name ← validate_resource_config (Some name);
  if (min_cpu <? 0) || (max_cpu <? 1) || (max_cpu <? min_cpu) then
    Raise (ValueError "Invalid resource config CPU range")
  else Ret ("CREATE resource_config " +:+ name +:+ " min_cpu " +:+ pretty min_cpu
            +:+ " max_cpu " +:+ pretty max_cpu).

Definition build_create_tenant_sql (tenant_name resource_config_name : string) : outcome string :=
  tenant_name ← validate_tenant (Some tenant_name);
  resource_config_name ← validate_resource_config (Some resource_config_name);
  Ret ("CREATE tenant " +:+ tenant_name +:+ " resource_config " +:+ resource_config_name).

Definition build_create_user_sql (account_name : string) : outcome string :=
  account_name ← validate_account (Some account_name);
  Ret ("CREATE USER '" +:+ account_name +:+ "'@'%%' "
       +:+ "IDENTIFIED WITH mysql_native_password BY %s").

Definition build_create_database_sql (database_name : string) : outcome string :=
  database_name ← validate_database (Some database_name);
  Ret ("CREATE DATABASE `" +:+ database_name +:+ "`").

Definition snapshot_privileges (s : CompiledPermissionSnapshot) : string :=
  if sn_legacy_all_privileges s then "ALL PRIVILEGES"
  else join ", " (DatabasePrivilege.value <$> sn_privileges s).

Definition build_grant_sql (tenant_name account_name : string)
    (snapshot : option CompiledPermissionSnapshot) : outcome string :=
  tenant_name ← validate_tenant (Some tenant_name);
  account_name ← validate_account (Some account_name);
  if after_last "@" account_name != Some tenant_name then
    Raise (InvalidDatabaseIdentifier "Account does not belong to tenant")
  else
    let resolved := default (legacy_permission_snapshot PermissionScope.MULTITENANT) snapshot in
    if sn_scope resolved != PermissionScope.MULTITENANT then
      Raise (ValueError "Multitenant grant requires tenant permission scope")
    else
      let privileges := snapshot_privileges resolved in
      if String.eqb privileges EmptyString then
        Raise (ValueError "Multitenant grant requires at least one privilege")
      else
        let grant_option := if sn_grant_option resolved then " WITH GRANT OPTION" else "" in
        Ret ("GRANT " +:+ privileges +:+ " ON `%@" +:+ tenant_name +:+ "`.* "
             +:+ "TO '" +:+ account_name +:+ "'@'%'" +:+ grant_option).

Definition build_show_grants_sql (account_name : string) : outcome string :=
  account_name ← validate_account (Some account_name);
  Ret ("SHOW GRANTS FOR '" +:+ account_name +:+ "'@'%'").

Definition build_lock_user_sql (account_name : string) : outcome string :=
  account_name ← validate_account (Some account_name);
  Ret ("ALTER USER '" +:+ account_name +:+ "'@'%' ACCOUNT LOCK").

Definition build_unlock_user_sql (account_name : string) : outcome string :=
  account_name ← validate_account (Some account_name);
  Ret ("ALTER USER '" +:+ account_name +:+ "'@'%' ACCOUNT UNLOCK").

Definition build_kill_connection_sql (connection_id : sql_value) : outcome string :=
  match connection_id with
  | SqlInt z =>
      if z <=? 0 then Raise (ValueError "Invalid connection ID")
      else Ret ("KILL CONNECTION " +:+ pretty z)
  | _ => Raise (ValueError "Invalid connection ID")
  end.

Definition build_drop_database_sql (database_name : string) : outcome string :=
  database_name ← validate_database (Some database_name);
  Ret ("DROP DATABASE `" +:+ database_name +:+ "`").

Definition build_drop_tenant_sql (tenant_name : string) : outcome string :=
  tenant_name ← validate_tenant (Some tenant_name);
  Ret ("DROP tenant " +:+ tenant_name).

Definition build_drop_resource_config_sql (resource_config_name : string) : outcome string :=
  resource_config_name ← validate_resource_config (Some resource_config_name);
  Ret ("DROP resource_config " +:+ resource_config_name).

(** ** Reading a grant back *)

Definition expected_privileges (s : CompiledPermissionSnapshot) : list string :=
  if sn_legacy_all_privileges s then ["ALL PRIVILEGES"]
  else DatabasePrivilege.value <$> sn_privileges s.

(** Whether one [SHOW GRANTS] line grants the account exactly the snapshot. *)
Definition grant_matches (tenant account : string) (snapshot : CompiledPermissionSnapshot)
    (grant : string) : bool :=
  contains ("ON `%@" +:+ tenant +:+ "`.*") grant
  && (contains ("TO `" +:+ account +:+ "`@`%`") grant
      || contains ("TO '" +:+ account +:+ "'@'%'") grant)
  && match split_once "GRANT " grant with
     | None => false
     | Some (_, rest) =>
         let privilege_text :=
           match split_once " ON " rest with Some (p, _) => p | None => rest end in
         let actual :=
           (λ p, upper (strip p)) <$>
             filter (λ p, strip p ≠ EmptyString) (split_char "," privilege_text) in
         bool_decide (list_to_set (C := gset string) actual
                      = list_to_set (expected_privileges snapshot))
         && Bool.eqb (contains " WITH GRANT OPTION" (upper grant)) (sn_grant_option snapshot)
     end.

Definition row_text (v : sql_value) : string :=
  match v with SqlNull => "None" | SqlInt z => pretty z | SqlStr s => s end.

(** The snapshot stored with a resource, or the legacy one. *)
Definition resource_snapshot (r : DBInstanceResource) : outcome CompiledPermissionSnapshot :=
  match r_permission_snapshot_json r with
  | Some encoded => permission_snapshot_from_json encoded
  | None => Ret (legacy_permission_snapshot PermissionScope.MULTITENANT)
  end.

(** ** The adapter *)
Section ddl_adapter.
  Context {X : Type} `{TenantServices X}.
  Context (ctx : BackendContext) (account_name : string).

Definition ddl_execute (sql : string) (params : list sql_value) : M X unit :=
  server_query ctx sql params ;; mret tt.
Definition ddl_fetchone (sql : string) (params : list sql_value) : M X (option row) :=
  rows ← server_query ctx sql params; mret (head rows).
Definition ddl_fetchall (sql : string) (params : list sql_value) : M X (list row) :=
  server_query ctx sql params.

(** [mysql_error_code(error) in codes] *)
Definition code_in (codes : list Z) (e : PyExc) : bool :=
  match mysql_error_code e with Some c => bool_decide (c ∈ codes) | None => false end.

Definition create_and_verify (exec : M X unit) (verify : M X bool)
    (allowed_duplicate_codes : list Z) (object_kind : string) : M X unit :=
  duplicate ← try_except (exec ;; mret false)
    (λ e, if code_in allowed_duplicate_codes e then mret true else raise e);
  verified ← verify;
  if (verified : bool) then mret tt
  else if (duplicate : bool) then
    raise (ObjectOwnershipConflict ("Existing " +:+ object_kind +:+ " does not match the resource"))
  else raise (DDLVerificationError ("Created " +:+ object_kind +:+ " could not be verified")).

Definition drop_and_verify_absent (sql : string) (verify_exists : M X bool)
    (allowed_missing_codes : list Z) (object_kind : string) : M X unit :=
  settled ← try_except (ddl_execute sql [] ;; mret false)
    (λ e,
       if code_in allowed_missing_codes e then mret false
       else
         still_there ← verify_exists;
         if (still_there : bool) then raise e else mret true);
  if (settled : bool) then mret tt
  else
    still_there ← verify_exists;
    if (still_there : bool) then
      raise (DDLVerificationError ("Dropped " +:+ object_kind +:+ " still exists"))
    else mret tt.

Definition verify_resource_config (r : DBInstanceResource) : M X bool :=
  name ← lift_outcome (validate_resource_config (r_resource_config_name r));
  found ← ddl_fetchone
    "SELECT resource_config_name, resource_config_min_cpu, resource_config_max_cpu FROM mysql.tenant_resource_config WHERE resource_config_name = %s"
    [SqlStr name];
  mret (found == Some [SqlStr name; SqlInt (b_resource_min_cpu (ctx_backend ctx));
                       SqlInt (b_resource_max_cpu (ctx_backend ctx))]).

Definition verify_tenant (r : DBInstanceResource) : M X bool :=
  tenant ← lift_outcome (validate_tenant (r_tenant_name r));
  resource_config ← lift_outcome (validate_resource_config (r_resource_config_name r));
  found ← ddl_fetchone
    "SELECT tenant_name, resource_config_name FROM mysql.tenants WHERE tenant_name = %s"
    [SqlStr tenant];
  mret (found == Some [SqlStr tenant; SqlStr resource_config]).

Definition verify_user : M X bool :=
  found ← ddl_fetchone
    "SELECT User, Host FROM mysql.user WHERE User = %s AND Host = '%%'" [SqlStr account_name];
  mret (found == Some [SqlStr account_name; SqlStr "%"]).

Definition verify_database (r : DBInstanceResource) : M X bool :=
  database ← lift_outcome (validate_database (r_database_name r));
  found ← ddl_fetchone
    "SELECT SCHEMA_NAME FROM information_schema.SCHEMATA WHERE SCHEMA_NAME = %s"
    [SqlStr database];
  mret (found == Some [SqlStr database]).

Definition verify_grants (r : DBInstanceResource) : M X bool :=
  tenant ← lift_outcome (validate_tenant (r_tenant_name r));
  sql ← lift_outcome (build_show_grants_sql account_name);
  rows ← ddl_fetchall sql [];
  snapshot ← lift_outcome (resource_snapshot r);
  mret (existsb
    (λ rw, match rw with
           | [] => false
           | v :: _ => grant_matches tenant account_name snapshot (row_text v)
           end) rows).

Definition create_resource_config (r : DBInstanceResource) : M X unit :=
  name ← lift_outcome (validate_resource_config (r_resource_config_name r));
  create_and_verify
    (sql ← lift_outcome (build_create_resource_config_sql name
             (b_resource_min_cpu (ctx_backend ctx)) (b_resource_max_cpu (ctx_backend ctx)));
     ddl_execute sql [])
    (verify_resource_config r) [1062] "resource config".

Definition create_tenant (r : DBInstanceResource) : M X unit :=
  tenant ← lift_outcome (validate_tenant (r_tenant_name r));
  resource_config ← lift_outcome (validate_resource_config (r_resource_config_name r));
  sql ← lift_outcome (build_create_tenant_sql tenant resource_config);
  create_and_verify (ddl_execute sql []) (verify_tenant r) [1062] "tenant".

Definition create_user (password : string) : M X unit :=
  sql ← lift_outcome (build_create_user_sql account_name);
  create_and_verify (ddl_execute sql [SqlStr password]) verify_user [1396] "user".

Definition create_database (r : DBInstanceResource) : M X unit :=
  database ← lift_outcome (validate_database (r_database_name r));
  sql ← lift_outcome (build_create_database_sql database);
  create_and_verify (ddl_execute sql []) (verify_database r) [1007] "database".

Definition grant_privileges (r : DBInstanceResource) : M X unit :=
  snapshot ← lift_outcome (resource_snapshot r);
  tenant ← lift_outcome (validate_tenant (r_tenant_name r));
  sql ← lift_outcome (build_grant_sql tenant account_name (Some snapshot));
  ddl_execute sql [] ;;
  granted ← verify_grants r;
  if (granted : bool) then mret tt
  else raise (DDLVerificationError "Tenant grant could not be verified").

Definition lock_account : M X unit :=
  try_except
    (sql ← lift_outcome (build_lock_user_sql account_name); ddl_execute sql [])
    (λ e, if mysql_error_code e == Some 1396 then mret tt else raise e).

Definition unlock_account : M X unit :=
  sql ← lift_outcome (build_unlock_user_sql account_name); ddl_execute sql [].

Definition sessions_query : string :=
  "SELECT ID FROM information_schema.PROCESSLIST WHERE USER = %s AND ID <> CONNECTION_ID()".

Definition terminate_sessions : M X unit :=
  rows ← ddl_fetchall sessions_query [SqlStr account_name];
  for_each (λ rw : row,
    match rw with
    | [] => raise (DDLVerificationError "Invalid active session metadata")
    | id :: _ =>
        try_except
          (sql ← lift_outcome (build_kill_connection_sql id); ddl_execute sql [])
          (λ e, if mysql_error_code e == Some 1094 then mret tt else raise e)
    end) rows.

Definition verify_disconnected : M X bool :=
  remaining ← ddl_fetchall sessions_query [SqlStr account_name];
  mret (length remaining =? 0)%nat.

Definition prepare_cleanup : M X unit :=
  lock_account ;;
  terminate_sessions ;;
  quiet ← verify_disconnected;
  if (quiet : bool) then mret tt
  else raise (ActiveTenantSessionsError "Tenant sessions remain after connection termination").

Definition drop_database (r : DBInstanceResource) : M X unit :=
  database ← lift_outcome (validate_database (r_database_name r));
  sql ← lift_outcome (build_drop_database_sql database);
  drop_and_verify_absent sql (verify_database r) [1008] "database".

Definition drop_tenant (r : DBInstanceResource) : M X unit :=
  tenant ← lift_outcome (validate_tenant (r_tenant_name r));
  sql ← lift_outcome (build_drop_tenant_sql tenant);
  drop_and_verify_absent sql (verify_tenant r) [1091] "tenant".

Definition drop_resource_config (r : DBInstanceResource) : M X unit :=
  name ← lift_outcome (validate_resource_config (r_resource_config_name r));
  sql ← lift_outcome (build_drop_resource_config_sql name);
  drop_and_verify_absent sql (verify_resource_config r) [1091] "resource config".

Definition verify_residue_absent (r : DBInstanceResource) : M X bool :=
  database_exists ← verify_database r;
  tenant_exists ← verify_tenant r;
  resource_exists ← verify_resource_config r;
  user_exists ← verify_user;
  mret (negb (database_exists || tenant_exists || resource_exists || user_exists)).

End ddl_adapter.
