(* ===== verification/Adapter.v ===== *)
(** * The multitenant adapter ([server/core/provisioning_adapter.py])

    [PolarDBMySQLMultitenantAdapter]: each operation loads and validates the
    backend's administrator credential, derives the account it acts for, runs
    the DDL of the resource's current step and advances the step field. *)

From S2P Require Import Prelude PyString Models AdapterInterface Dispatcher Permission Ddl.

Definition InvalidProvisioningCredential (msg : string) : PyExc :=
  exc "InvalidProvisioningCredential" msg.
Definition InvalidResourceCredential (msg : string) : PyExc := exc "InvalidResourceCredential" msg.
Definition InvalidResourceIdentity (msg : string) : PyExc := exc "InvalidResourceIdentity" msg.

(** [not instance.host or not instance.port] *)
Definition endpoint_incomplete (i : Instance) : bool :=
  negb (truthy (i_host i)) || match i_port i with None => true | Some p => p =? 0 end.

(** [validate_provisioning_credential] of [super_connection_pool.py]. *)
Definition validate_provisioning_credential (b : ProvisioningBackend) (i : Instance)
    (c : InstanceCredential) : outcome unit :=
  if (b_instance_id b != Some (i_id i)) || (b_admin_credential_id b != Some (c_id c))
     || (c_instance_id c != Some (i_id i)) || (c_resource_id c != None)
     || (c_purpose c != CredentialPurpose.PROVISIONING_ADMIN)
     || (c_capability c != CredentialCapability.ADMIN)
     || (c_status c != CredentialStatus.ACTIVE)
     || (c_version c <? 1) || (b_config_revision b <? 1)
     || negb (truthy (c_username_ciphertext c)) || negb (truthy (c_password_ciphertext c)) then
    Raise (InvalidProvisioningCredential "Active provisioning admin credential is required")
  else if endpoint_incomplete i then
    Raise (InvalidProvisioningCredential "Provisioning backend endpoint is incomplete")
  else Ret tt.

(** The backend joined with its instance and administrator credential. *)
Definition backend_row (backend_id : string) (db : DB) : option BackendContext :=
  b ← backends db !! backend_id;
  iid ← b_instance_id b;
  i ← instances db !! iid;
  cid ← b_admin_credential_id b;
  c ← credentials db !! cid;
  Some (mk_context b i c).

Definition resource_access_credentials (creds : list InstanceCredential) : list InstanceCredential :=
  filter (λ c, c_purpose c = CredentialPurpose.RESOURCE_ACCESS) creds.

Section adapter.
  Context {X : Type} `{TenantServices X}.

Definition context (backend_id : string) : M (World X) BackendContext :=
  found ← with_db (query (backend_row backend_id));
  match found with
  | None => raise (RuntimeError "Provisioning backend is unavailable")
  | Some ctx =>
      lift_outcome (validate_provisioning_credential (ctx_backend ctx) (ctx_instance ctx)
                      (ctx_credential ctx)) ;;
      mret ctx
  end.

(** The account and password of a resource; the row is checked before anything
    is decrypted. *)
Definition resource_credential (l : LoadedResource) : outcome (string * string) :=
  let r := lr_resource l in
  match resource_access_credentials (lr_credentials l) with
  | [c] =>
      match c_username_ciphertext c, c_password_ciphertext c with
      | Some username_ciphertext, Some password_ciphertext =>
          if (c_resource_id c != Some (r_id r)) || (c_instance_id c != None)
             || (c_status c != CredentialStatus.ACTIVE)
             || (c_capability c != CredentialCapability.READWRITE)
             || (c_version c <? 1)
             || negb (truthy (Some username_ciphertext)) || negb (truthy (Some password_ciphertext))
             || (c_database_name c != r_database_name r) then
            Raise (InvalidResourceCredential "Active resource access credential is required")
          else
            username ← decrypt username_ciphertext;
            password ← decrypt password_ciphertext;
            Ret (username, password)
      | _, _ => Raise (InvalidResourceCredential "Active resource access credential is required")
      end
  | _ => Raise (InvalidResourceCredential "Exactly one resource access credential is required")
  end.

(** [MultitenantDDLAdapter(...)]: the constructor validates the account name. *)
Definition ddl_account (account : string) : M (World X) string :=
  lift_outcome (validate_account (Some account)).

(** [_forward_ddl]: the context, the account of the DDL adapter, the password. *)
Definition forward_ddl (l : LoadedResource) : M (World X) (BackendContext * string * string) :=
  ctx ← context (r_backend_id (lr_resource l));
  up ← lift_outcome (resource_credential l);
  account ← ddl_account up.1;
  mret (ctx, account, up.2).

(** The account a cleanup acts for, from the names on the row alone. *)
Definition cleanup_account_name (r : DBInstanceResource) : outcome string :=
  match r_tenant_name r, r_database_name r with
  | Some tenant, Some database =>
      if negb (truthy (Some tenant)) || (database != "agentic@" +:+ tenant)
         || (r_resource_config_name r != Some ("rc_" +:+ tenant)) then
        Raise (InvalidResourceIdentity "Database resource identity is inconsistent")
      else Ret database
  | _, _ => Raise (InvalidResourceIdentity "Database resource identity is inconsistent")
  end.

Definition cleanup_ddl (r : DBInstanceResource) : M (World X) (BackendContext * string) :=
  ctx ← context (r_backend_id r);
  name ← lift_outcome (cleanup_account_name r);
  account ← ddl_account name;
  mret (ctx, account).

Definition create (l : LoadedResource) : M (World X) DBInstanceResource :=
  let r := lr_resource l in
  env ← forward_ddl l;
  let ctx := env.1.1 in
  let account := env.1.2 in
  let password := env.2 in
  match r_provisioning_step r with
  | LeaseProvisioningStep.PENDING =>
      lift_ext (create_resource_config ctx r) ;;
      mret (r <| r_provisioning_step := LeaseProvisioningStep.RESOURCE_CONFIG_CREATED |>)
  | LeaseProvisioningStep.RESOURCE_CONFIG_CREATED =>
      lift_ext (create_tenant ctx r) ;;
      mret (r <| r_provisioning_step := LeaseProvisioningStep.TENANT_CREATED |>)
  | LeaseProvisioningStep.TENANT_CREATED =>
      lift_ext (create_user ctx account password) ;;
      mret (r <| r_provisioning_step := LeaseProvisioningStep.USER_CREATED |>)
  | LeaseProvisioningStep.USER_CREATED =>
      lift_ext (create_database ctx r) ;;
      mret (r <| r_provisioning_step := LeaseProvisioningStep.DATABASE_CREATED |>)
  | LeaseProvisioningStep.DATABASE_CREATED =>
      lift_ext (grant_privileges ctx account r) ;;
      mret (r <| r_provisioning_step := LeaseProvisioningStep.GRANTED |>)
  | LeaseProvisioningStep.GRANTED | LeaseProvisioningStep.VERIFIED => mret r
  end.

(** Log in as the resource's account and run [SELECT 1]. *)
Definition login_check (i : Instance) (username password : string) (database : option string)
    (mismatch : string) : M (World X) unit :=
  match i_host i, i_port i with
  | Some host, Some port =>
      if endpoint_incomplete i then
        raise (RuntimeError "Provisioning backend endpoint is incomplete")
      else
        found ← lift_ext (server_select_one host port username password (default EmptyString database));
        if found == Some [SqlInt 1] then mret tt else raise (RuntimeError mismatch)
  | _, _ => raise (RuntimeError "Provisioning backend endpoint is incomplete")
  end.

Definition verify (l : LoadedResource) : M (World X) DBInstanceResource :=
  let r := lr_resource l in
  if r_provisioning_step r == LeaseProvisioningStep.VERIFIED then mret r
  else if r_provisioning_step r != LeaseProvisioningStep.GRANTED then
    raise (RuntimeError "Database resource has not completed DDL")
  else
    env ← forward_ddl l;
    up ← lift_outcome (resource_credential l);
    let i := ctx_instance env.1.1 in
    if endpoint_incomplete i then
      raise (RuntimeError "Provisioning backend endpoint is incomplete")
    else if negb (truthy (r_database_name r)) then
      raise (RuntimeError "Database resource name is unavailable")
    else
      login_check i up.1 up.2 (r_database_name r) "Unexpected ordinary-account verification result" ;;
      mret (r <| r_provisioning_step := LeaseProvisioningStep.VERIFIED |>).

Definition delete (l : LoadedResource) : M (World X) DBInstanceResource :=
  let r := lr_resource l in
  env ← cleanup_ddl r;
  let ctx := env.1 in
  let account := env.2 in
  match r_cleanup_step r with
  | LeaseCleanupStep.PENDING =>
      lift_ext (prepare_cleanup ctx account) ;;
      lift_ext (drop_database ctx r) ;;
      mret (r <| r_cleanup_step := LeaseCleanupStep.DATABASE_DROPPED |>)
  | LeaseCleanupStep.DATABASE_DROPPED =>
      lift_ext (drop_tenant ctx r) ;;
      mret (r <| r_cleanup_step := LeaseCleanupStep.TENANT_DROPPED |>)
  | LeaseCleanupStep.TENANT_DROPPED =>
      lift_ext (drop_resource_config ctx r) ;;
      mret (r <| r_cleanup_step := LeaseCleanupStep.RESOURCE_CONFIG_DROPPED |>)
  | LeaseCleanupStep.RESOURCE_CONFIG_DROPPED =>
      absent ← lift_ext (verify_residue_absent ctx account r);
      if (absent : bool) then
        mret (r <| r_cleanup_step := LeaseCleanupStep.RESIDUE_VERIFIED |>)
      else raise (RuntimeError "Database objects remain after cleanup")
  | LeaseCleanupStep.RESIDUE_VERIFIED => mret r
  end.

Definition disconnect (l : LoadedResource) : M (World X) DBInstanceResource :=
  let r := lr_resource l in
  env ← cleanup_ddl r;
  let ctx := env.1 in
  let account := env.2 in
  match r_delete_step r with
  | DeleteLifecycleStep.PENDING =>
      lift_ext (lock_account ctx account) ;;
      mret (r <| r_delete_step := DeleteLifecycleStep.ACCOUNT_LOCKED |>)
  | DeleteLifecycleStep.ACCOUNT_LOCKED =>
      lift_ext (terminate_sessions ctx account) ;;
      mret (r <| r_delete_step := DeleteLifecycleStep.SESSIONS_TERMINATED |>)
  | DeleteLifecycleStep.SESSIONS_TERMINATED =>
      quiet ← lift_ext (verify_disconnected ctx account);
      if (quiet : bool) then
        mret (r <| r_delete_step := DeleteLifecycleStep.DISCONNECTED |>)
      else raise (RuntimeError "Database sessions remain connected")
  | DeleteLifecycleStep.DISCONNECTED | DeleteLifecycleStep.COOLING_DOWN => mret r
  | _ => raise (RuntimeError "Unsupported disconnect step")
  end.

Definition restore (l : LoadedResource) : M (World X) unit :=
  let r := lr_resource l in
  ctx ← context (r_backend_id r);
  match resource_access_credentials (lr_credentials l) with
  | [c] =>
      match c_username_ciphertext c, c_password_ciphertext c with
      | Some username_ciphertext, Some password_ciphertext =>
          if negb (truthy (Some username_ciphertext)) || negb (truthy (Some password_ciphertext))
             || (c_database_name c != r_database_name r) then
            raise (InvalidResourceCredential "Recovery credential is unavailable")
          else
            username ← lift_outcome (decrypt username_ciphertext);
            password ← lift_outcome (decrypt password_ciphertext);
            account ← ddl_account username;
            lift_ext (unlock_account ctx account) ;;
            lift_ext (grant_privileges ctx account r) ;;
            login_check (ctx_instance ctx) username password (r_database_name r)
              "Unexpected restore verification result"
      | _, _ => raise (InvalidResourceCredential "Recovery credential is unavailable")
      end
  | _ => raise (InvalidResourceCredential "Exactly one recovery credential is required")
  end.

(** [SELECT 1] on an administrator connection; any exception is a reported
    ill health, never raised. *)
Definition health_check (b : ProvisioningBackend) : M (World X) HealthResult :=
  try_except
    (ctx ← context (b_id b);
     found ← lift_ext (ddl_fetchone ctx "SELECT 1" []);
     if found == Some [SqlInt 1] then mret (mk_health_result true None)
     else raise (RuntimeError "Unexpected health query result"))
    (λ e, mret (mk_health_result false (Some (exc_type e)))).

Definition multitenant_adapter : ProvisioningAdapter X :=
  mk_adapter create delete verify disconnect restore health_check.

End adapter.
