(* ===== verification/SuperPools.v ===== *)
(** * Administrator connection pools ([server/core/super_connection_pool.py])

    [SuperConnectionPoolManager] keeps the pool of administrator connections of
    each backend.  A backend row carries a revision; the manager fences requests
    that come with an older one.  All of it runs under one lock, so a call is
    one step; the driver's pools are a parameter. *)

From S2P Require Import Prelude Models AdapterInterface Ddl Permission Adapter.

Definition StaleProvisioningCredential : PyExc :=
  exc "StaleProvisioningCredential" "Provisioning credential version is stale".
Definition StaleProvisioningBackend (msg : string) : PyExc := exc "StaleProvisioningBackend" msg.

(** [asyncmy.create_pool], and closing, pinging through, a pool of it. *)
Class PoolDriver (X P : Type) : Type := {
  create_pool : string → Z → string → string → Z → M X P;
  close_pool : P → M X unit;
  ping_pool : P → M X unit
}.

(** The key of a pool: backend, revision, credential, its version, host, port,
    concurrency. *)
Record PoolKey : Type := mk_pool_key {
  pk_backend : string;
  pk_revision : Z;
  pk_credential : string;
  pk_version : Z;
  pk_host : string;
  pk_port : Z;
  pk_concurrency : Z
}.

#[export] Instance PoolKey_eq_dec : EqDecision PoolKey.
Proof. solve_decision. Defined.

Abbreviation structure := (string * string * Z * Z)%type (only parsing).

(** The manager; [_pools] in the order of insertion. *)
Record Manager (P : Type) : Type := mk_manager {
  sp_pools : list (PoolKey * P);
  sp_versions : gmap (string * string) Z;
  sp_revisions : gmap string Z;
  sp_structures : gmap string structure
}.
Arguments mk_manager {P}.
Arguments sp_pools {P} _.
Arguments sp_versions {P} _.
Arguments sp_revisions {P} _.
Arguments sp_structures {P} _.

#[export] Instance Manager_eta P : Eta (Manager P) := λ x,
  mk_manager (sp_pools x) (sp_versions x) (sp_revisions x) (sp_structures x).

Definition new_manager {P : Type} : Manager P := mk_manager [] ∅ ∅ ∅.

Fixpoint pool_at {P : Type} (k : PoolKey) (l : list (PoolKey * P)) : option P :=
  match l with
  | [] => None
  | (k', p) :: l => if decide (k' = k) then Some p else pool_at k l
  end.

Definition without {P : Type} (k : PoolKey) (l : list (PoolKey * P)) : list (PoolKey * P) :=
  filter (λ kp, kp.1 ≠ k) l.

Section manager.
  Context {X P : Type} `{PoolDriver X P} (decrypt : string → outcome string).
  Abbreviation S := (Manager P * X)%type.

Definition driver {A : Type} (m : M X A) : M S A := λ s,
  match m s.2 with (x, o) => ((s.1, x), o) end.
Definition manager : M S (Manager P) := λ s, (s, Ret s.1).
Definition update (f : Manager P → Manager P) : M S unit := λ s, ((f s.1, s.2), Ret tt).

(** [for key in keys: await self._close_pool(self._pools.pop(key))] *)
Fixpoint close_keys (keys : list PoolKey) : M S unit :=
  match keys with
  | [] => mret tt
  | k :: keys =>
      m ← manager;
      match pool_at k (sp_pools m) with
      | None => raise (exc "KeyError" "pool")
      | Some p =>
          update (λ m, m <| sp_pools := without k (sp_pools m) |>) ;;
          driver (close_pool p) ;;
          close_keys keys
      end
  end.

Definition pool_key (b : ProvisioningBackend) (c : InstanceCredential) (host : string) (port : Z) : PoolKey :=
  mk_pool_key (b_id b) (b_config_revision b) (c_id c) (c_version c) host port (b_ddl_concurrency b).

Definition structure_of (k : PoolKey) : structure :=
  (pk_credential k, pk_host k, pk_port k, pk_concurrency k).

(** The fences, in the order of the checks. *)
Definition fenced (m : Manager P) (k : PoolKey) : option PyExc :=
  let current_revision := sp_revisions m !! pk_backend k in
  if match current_revision with Some r => pk_revision k <? r | None => false end then
    Some (StaleProvisioningBackend "Provisioning backend configuration revision is stale")
  else if (current_revision == Some (pk_revision k))
          && match sp_structures m !! pk_backend k with Some s => structure_of k != s | None => false end then
    Some (StaleProvisioningBackend "Provisioning backend generation does not match revision")
  else if match sp_versions m !! (pk_backend k, pk_credential k) with
          | Some v => pk_version k <? v | None => false end then
    Some StaleProvisioningCredential
  else None.

(** The watermark moves before any pool is closed or created. *)
Definition advance_watermark (k : PoolKey) (m : Manager P) : Manager P :=
  if match sp_revisions m !! pk_backend k with Some r => r <? pk_revision k | None => true end then
    m <| sp_revisions := <[pk_backend k := pk_revision k]> (sp_revisions m) |>
      <| sp_structures := <[pk_backend k := structure_of k]> (sp_structures m) |>
  else m.

Definition stale_keys (k : PoolKey) (m : Manager P) : list PoolKey :=
  filter (λ k', pk_backend k' = pk_backend k ∧ k' ≠ k) (sp_pools m).*1.

Definition open_pool (k : PoolKey) (username_ciphertext password_ciphertext : string) : M S P :=
  update (advance_watermark k) ;;
  m ← manager;
  close_keys (stale_keys k m) ;;
  user ← lift_outcome (decrypt username_ciphertext);
  password ← lift_outcome (decrypt password_ciphertext);
  p ← driver (create_pool (pk_host k) (pk_port k) user password (pk_concurrency k));
  update (λ m, m <| sp_pools := sp_pools m ++ [(k, p)] |>
                 <| sp_versions := <[(pk_backend k, pk_credential k) := pk_version k]> (sp_versions m) |>) ;;
  mret p.

Definition get (b : ProvisioningBackend) (i : Instance) (c : InstanceCredential) : M S P :=
  lift_outcome (validate_provisioning_credential b i c) ;;
  match i_host i, i_port i, c_username_ciphertext c, c_password_ciphertext c with
  | Some host, Some port, Some username_ciphertext, Some password_ciphertext =>
      let k := pool_key b c host port in
      m ← manager;
      match fenced m k with
      | Some e => raise e
      | None =>
          match pool_at k (sp_pools m) with
          | Some existing => mret existing
          | None => open_pool k username_ciphertext password_ciphertext
          end
      end
  | _, _, _, _ => raise (exc "AssertionError" EmptyString)
  end.

(** [async with manager.acquire(...)], up to the connection. *)
Definition acquire (b : ProvisioningBackend) (i : Instance) (c : InstanceCredential) : M S P :=
  p ← get b i c; driver (ping_pool p) ;; mret p.

Definition close_backend (backend_id : string) : M S unit :=
  m ← manager;
  close_keys (filter (λ k, pk_backend k = backend_id) (sp_pools m).*1).

Definition close_all : M S unit :=
  m ← manager;
  update (λ m, m <| sp_pools := [] |>) ;;
  for_each (λ kp : PoolKey * P, driver (close_pool kp.2)) (sp_pools m).

End manager.

(** ** Invariant *)

Section invariant.
  Context {P : Type}.

Definition keys (m : Manager P) : list PoolKey := (sp_pools m).*1.

(** One pool per backend, of the newest revision seen and its structure. *)
Record pools_fenced (m : Manager P) : Prop := {
  pf_nodup : NoDup (keys m);
  pf_one : ∀ k k', k ∈ keys m → k' ∈ keys m → pk_backend k = pk_backend k' → k = k';
  pf_newest : ∀ k, k ∈ keys m →
    sp_revisions m !! pk_backend k = Some (pk_revision k)
    ∧ sp_structures m !! pk_backend k = Some (structure_of k);
  pf_domain : ∀ b, is_Some (sp_revisions m !! b) → is_Some (sp_structures m !! b)
}.

(** Watermarks only grow. *)
Definition watermarks_grow (m m' : Manager P) : Prop :=
  ∀ b r, sp_revisions m !! b = Some r → ∃ r', sp_revisions m' !! b = Some r' ∧ r <= r'.

Lemma watermarks_refl m m' : sp_revisions m' = sp_revisions m → watermarks_grow m m'.
Proof. intros He b r Hr. exists r. by rewrite He. Qed.

#[export] Instance watermarks_trans : Transitive watermarks_grow.
Proof.
  intros m1 m2 m3 H1 H2 b r Hr. destruct (H1 b r Hr) as (r1 & Hr1 & ?).
  destruct (H2 b r1 Hr1) as (r2 & Hr2 & ?). exists r2. split; [done|lia].
Qed.

Lemma pool_at_elem k (l : list (PoolKey * P)) p : pool_at k l = Some p → k ∈ l.*1.
Proof.
  induction l as [|[k' p'] l IH]; simpl; [done|]. case_decide as Hk; [subst; by left|].
  intros. right. by apply IH.
Qed.

Lemma pool_at_none k (l : list (PoolKey * P)) : pool_at k l = None → k ∉ l.*1.
Proof.
  induction l as [|[k' p'] l IH]; simpl; [set_solver|]. case_decide as Hk; [done|]. set_solver.
Qed.

Lemma pool_at_last k (l : list (PoolKey * P)) p : k ∉ l.*1 → pool_at k (l ++ [(k, p)]) = Some p.
Proof.
  induction l as [|[k' p'] l IH]; simpl; [by rewrite decide_True|]. intros Hk.
  rewrite decide_False by set_solver. apply IH. set_solver.
Qed.

Lemma pool_at_some k (l : list (PoolKey * P)) : k ∈ l.*1 → is_Some (pool_at k l).
Proof.
  intros Hk. destruct (pool_at k l) eqn:Hn; [done|]. by apply pool_at_none in Hn.
Qed.

Lemma without_keys k (l : list (PoolKey * P)) : (without k l).*1 = filter (λ k', k' ≠ k) l.*1.
Proof.
  induction l as [|[k' p] l IH]; [done|].
  change (((k', p) :: l).*1) with (k' :: l.*1). unfold without in *. rewrite !filter_cons. cbn [fst].
  case_decide; [change ((k' :: (filter (λ kp, kp.1 ≠ k) l).*1) = k' :: filter (λ k', k' ≠ k) l.*1); by rewrite IH|exact IH].
Qed.

Lemma pools_fenced_subset m m' :
  pools_fenced m → NoDup (keys m') → (∀ k, k ∈ keys m' → k ∈ keys m) →
  sp_revisions m' = sp_revisions m → sp_structures m' = sp_structures m → pools_fenced m'.
Proof.
  intros [Hn Ho Hm Hd] Hn' Hsub Hr Hs. split; [done|by auto| |]; rewrite Hr, Hs; by auto.
Qed.

Lemma pools_fenced_without m k :
  pools_fenced m → pools_fenced (m <| sp_pools := without k (sp_pools m) |>).
Proof.
  intros Hf. apply (pools_fenced_subset m); [done|..]; unfold keys; simpl; try done; rewrite without_keys.
  - apply NoDup_filter, Hf.
  - intros k'. rewrite list_elem_of_filter. by intros [_ ?].
Qed.

Lemma at_most_one {A} (l : list A) :
  NoDup l → (∀ x y, x ∈ l → y ∈ l → x = y) → l = [] ∨ ∃ x, l = [x].
Proof.
  destruct l as [|x [|y l]]; [by left|by right; exists x|]. intros Hn He.
  apply NoDup_cons in Hn as [Hx _]. destruct Hx. rewrite (He x y); set_solver.
Qed.

Lemma stale_keys_one m k :
  pools_fenced m → stale_keys k m = [] ∨ ∃ k0, stale_keys k m = [k0].
Proof.
  intros [Hn Ho _ _]. apply at_most_one; [by apply NoDup_filter|].
  intros x y [[Hx _] Hx']%list_elem_of_filter [[Hy _] Hy']%list_elem_of_filter.
  apply Ho; [done|done|]. by rewrite Hx, Hy.
Qed.
End invariant.

Section theorems.
  Context {X P : Type} `{PoolDriver X P} (decrypt : string → outcome string).

(** A call of the manager, by whoever. *)
Inductive manager_step : Manager P * X → Manager P * X → Prop :=
| step_get b i c s : manager_step s (get decrypt b i c s).1
| step_acquire b i c s : manager_step s (acquire decrypt b i c s).1
| step_close_backend id s : manager_step s (close_backend id s).1
| step_close_all s : manager_step s (close_all s).1
| step_server m x x' : manager_step (m, x) (m, x').

Definition managed (s : Manager P * X) : Prop := ∃ x, rtc manager_step (new_manager, x) s.

(** What every call keeps. *)
Definition keeps_fence {A} (m : M (Manager P * X) A) : Prop :=
  ∀ s, pools_fenced s.1 → pools_fenced (m s).1.1 ∧ watermarks_grow s.1 (m s).1.1.

Lemma keeps_bind {A B} (m : M (Manager P * X) A) (k : A → M (Manager P * X) B) :
  keeps_fence m → (∀ a, keeps_fence (k a)) → keeps_fence (m ≫= k).
Proof.
  intros Hm Hk s Hs. unfold mbind, M_bind. destruct (Hm s Hs) as [H1 H2].
  destruct (m s) as [s1 [a|e]]; simpl in *; [|done].
  destruct (Hk a s1 H1) as [H3 H4]. split; [done|by etrans].
Qed.

Lemma keeps_same {A} (m : M (Manager P * X) A) : (∀ s, (m s).1.1 = s.1) → keeps_fence m.
Proof. intros Hm s Hs. rewrite Hm. split; [done|by apply watermarks_refl]. Qed.

Lemma keeps_driver {A} (m : M X A) : keeps_fence (driver m).
Proof. apply keeps_same. intros s. unfold driver. by destruct (m s.2). Qed.

Lemma keeps_close ks : keeps_fence (close_keys ks).
Proof.
  induction ks as [|k ks IH]; simpl; [by apply keeps_same|].
  apply keeps_bind; [by apply keeps_same|]. intros m. destruct (pool_at k (sp_pools m)) as [p|]; [|by apply keeps_same].
  apply keeps_bind.
  { intros [m' x] Hs. split; [by apply pools_fenced_without|by apply watermarks_refl]. }
  intros _. apply keeps_bind; [apply keeps_driver|]. by intros _.
Qed.

(** The watermark of a request that passes the fences. *)
Lemma advance_effect k (m : Manager P) :
  pools_fenced m → fenced m k = None →
  let m' := advance_watermark k m in
  sp_pools m' = sp_pools m ∧ sp_versions m' = sp_versions m
  ∧ sp_revisions m' !! pk_backend k = Some (pk_revision k)
  ∧ sp_structures m' !! pk_backend k = Some (structure_of k)
  ∧ (∀ b, b ≠ pk_backend k →
      sp_revisions m' !! b = sp_revisions m !! b ∧ sp_structures m' !! b = sp_structures m !! b)
  ∧ watermarks_grow m m'.
Proof.
  intros Hf Hfence m'. subst m'. unfold fenced in Hfence. unfold advance_watermark.
  pose proof (pf_domain m Hf (pk_backend k)) as Hdom.
  destruct (sp_revisions m !! pk_backend k) as [r|] eqn:Hr.
  - destruct (pk_revision k <? r) eqn:Hlt; [discriminate|].
    destruct (r <? pk_revision k) eqn:Hgt; simpl.
    + split_and!; [done|done|apply lookup_insert_eq|apply lookup_insert_eq| |].
      { intros b Hb. by rewrite !lookup_insert_ne. }
      intros b r' Hr'. destruct (decide (b = pk_backend k)) as [->|Hb].
      { exists (pk_revision k). simpl. rewrite lookup_insert_eq. split; [done|]. simplify_eq. lia. }
      exists r'. simpl. by rewrite lookup_insert_ne.
    + assert (r = pk_revision k) as -> by lia. rewrite bool_decide_eq_true_2 in Hfence by done.
      destruct (Hdom ltac:(done)) as [str Hs]. rewrite Hs in Hfence. simpl in Hfence.
      split_and!; [done|done|done| |done|by apply watermarks_refl].
      rewrite Hs. destruct (decide (structure_of k = str)) as [->|Hne]; [done|].
      by rewrite (bool_decide_eq_false_2 _ Hne) in Hfence.
  - split_and!; simpl; [done|done|apply lookup_insert_eq|apply lookup_insert_eq| |].
    { intros b Hb. by rewrite !lookup_insert_ne. }
    intros b r' Hr'. exists r'. simpl. rewrite lookup_insert_ne by congruence. done.
Qed.

Lemma close_one k p m x :
  pool_at k (sp_pools m) = Some p →
  (close_keys [k] (m, x)).1.1 = m <| sp_pools := without k (sp_pools m) |>.
Proof.
  intros Hp. simpl. unfold mbind, M_bind, manager, update, driver. simpl. rewrite Hp. simpl.
  by destruct (close_pool p x) as [x' [u|e]].
Qed.

(** The new watermark stands before the stale pools are closed; whatever then
    fails, no pool of an older generation is left. *)
Lemma advance_close k m x :
  pools_fenced m → fenced m k = None → pool_at k (sp_pools m) = None →
  let m' := (close_keys (stale_keys k (advance_watermark k m)) (advance_watermark k m, x)).1.1 in
  pools_fenced m' ∧ watermarks_grow m m' ∧ (∀ k', k' ∈ keys m' → pk_backend k' ≠ pk_backend k)
  ∧ sp_revisions m' !! pk_backend k = Some (pk_revision k)
  ∧ sp_structures m' !! pk_backend k = Some (structure_of k).
Proof.
  intros Hf Hfence Hnone m'.
  destruct (advance_effect k m Hf Hfence) as (Hp & _ & Hr & Hs & Hother & Hgrow).
  assert (sp_revisions m' = sp_revisions (advance_watermark k m)
    ∧ sp_structures m' = sp_structures (advance_watermark k m)
    ∧ NoDup (keys m') ∧ (∀ k', k' ∈ keys m' → k' ∈ keys m ∧ pk_backend k' ≠ pk_backend k))
    as (Hr' & Hs' & Hnd & Hkeys).
  { subst m'. unfold stale_keys. rewrite Hp. fold (stale_keys k m). apply pool_at_none in Hnone.
    destruct (stale_keys_one m k Hf) as [Hst|[k0 Hst]]; rewrite Hst.
    - simpl. unfold keys. rewrite Hp. split_and!; [done|done|apply Hf|]. intros k' Hk'. split; [done|].
      intros Hb. assert (k' ∈ stale_keys k m) as Hin; [|rewrite Hst in Hin; set_solver].
      apply list_elem_of_filter. split; [|done]. split; [done|]. by intros ->.
    - assert (k0 ∈ stale_keys k m) as [_ Hk0]%list_elem_of_filter by (rewrite Hst; set_solver).
      rewrite <-Hp in Hk0. destruct (pool_at_some k0 _ Hk0) as [p Hpool].
      rewrite (close_one k0 p _ x Hpool). unfold keys. simpl. rewrite Hp, without_keys.
      split_and!; [done|done|apply NoDup_filter, Hf|].
      intros k' [Hne Hk']%list_elem_of_filter. split; [done|]. intros Hb. apply Hne.
      assert (k' ∈ stale_keys k m) as Hin; [|rewrite Hst in Hin; set_solver].
      apply list_elem_of_filter. split; [|done]. split; [done|]. by intros ->. }
  split_and!.
  - split; [done| | |].
    + intros k1 k2 H1 H2. apply (pf_one m Hf); by apply Hkeys.
    + intros k' Hk'. destruct (Hkeys k' Hk') as [Hin Hb]. rewrite Hr', Hs'.
      destruct (Hother _ Hb) as [-> ->]. by apply (pf_newest m Hf).
    + intros b. rewrite Hr', Hs'. destruct (decide (b = pk_backend k)) as [->|Hb]; [by rewrite Hs|].
      destruct (Hother b Hb) as [-> ->]. apply (pf_domain m Hf).
  - etrans; [exact Hgrow|]. by apply watermarks_refl.
  - intros k' Hk'. by apply Hkeys.
  - by rewrite Hr'.
  - by rewrite Hs'.
Qed.

(** Adding the pool of a key whose backend has none. *)
Lemma pools_fenced_add k (p : P) v (m : Manager P) :
  pools_fenced m → (∀ k', k' ∈ keys m → pk_backend k' ≠ pk_backend k) →
  sp_revisions m !! pk_backend k = Some (pk_revision k) →
  sp_structures m !! pk_backend k = Some (structure_of k) →
  pools_fenced (m <| sp_pools := sp_pools m ++ [(k, p)] |> <| sp_versions := v |>).
Proof.
  intros [Hn Ho Hm Hd] Hb Hr Hs.
  assert (keys (m <| sp_pools := sp_pools m ++ [(k, p)] |> <| sp_versions := v |>) = keys m ++ [k]) as Hk
    by (unfold keys; simpl; by rewrite fmap_app).
  split; [rewrite Hk|rewrite Hk|rewrite Hk; simpl|done].
  - apply NoDup_app. split_and!; [done| |apply NoDup_singleton].
    intros k' Hk' ->%list_elem_of_singleton. by destruct (Hb k Hk').
  - intros k1 k2 H1 H2 He. apply elem_of_app in H1 as [H1|H1], H2 as [H2|H2];
      try apply list_elem_of_singleton in H1; try apply list_elem_of_singleton in H2;
      subst; [by apply Ho|by destruct (Hb k1 H1)|by destruct (Hb k2 H2)|done].
  - intros k' Hk'. apply elem_of_app in Hk' as [Hk'|Hk']; [by apply Hm|].
    by apply list_elem_of_singleton in Hk' as ->.
Qed.

Lemma open_pool_fenced k u w m x :
  pools_fenced m → fenced m k = None → pool_at k (sp_pools m) = None →
  let r := open_pool decrypt k u w (m, x) in
  pools_fenced r.1.1 ∧ watermarks_grow m r.1.1
  ∧ match r.2 with
    | Ret p => pool_at k (sp_pools r.1.1) = Some p
               ∧ sp_revisions r.1.1 !! pk_backend k = Some (pk_revision k)
    | Raise _ => True
    end.
Proof.
  intros Hf Hfence Hnone r. pose proof (advance_close k m x Hf Hfence Hnone) as Hac. cbv zeta in Hac.
  subst r. unfold open_pool, mbind, M_bind, update, manager, lift_outcome, driver. simpl.
  destruct (close_keys _ _) as [[m1 x1] [u1|e]]; simpl in *; destruct Hac as (H1 & H2 & H3 & H4 & H5); [|done].
  destruct (decrypt u) as [user|e]; simpl; [|done]. destruct (decrypt w) as [password|e]; simpl; [|done].
  destruct (create_pool _ _ _ _ _ x1) as [x2 [p|e]]; simpl; [|done].
  split_and!; [by apply pools_fenced_add|exact H2| |done].
  apply pool_at_last. intros Hk. by destruct (H3 k Hk).
Qed.

(** What one request does to the manager. *)
Lemma get_fenced b i c m x :
  pools_fenced m →
  let r := get decrypt b i c (m, x) in
  pools_fenced r.1.1 ∧ watermarks_grow m r.1.1
  ∧ match r.2 with
    | Ret p => ∃ host port, i_host i = Some host ∧ i_port i = Some port
        ∧ pool_at (pool_key b c host port) (sp_pools r.1.1) = Some p
        ∧ sp_revisions r.1.1 !! b_id b = Some (b_config_revision b)
    | Raise _ => True
    end.
Proof.
  intros Hf r. subst r. unfold get, mbind, M_bind, lift_outcome.
  assert (watermarks_grow m m) as Hsame by by apply watermarks_refl.
  destruct (validate_provisioning_credential b i c) as [[]|e]; [|done].
  destruct (i_host i) as [host|]; [|done]. destruct (i_port i) as [port|]; [|done].
  destruct (c_username_ciphertext c) as [u|]; [|done]. destruct (c_password_ciphertext c) as [w|]; [|done].
  unfold manager. simpl. destruct (fenced m (pool_key b c host port)) as [e|] eqn:Hfence; [done|].
  destruct (pool_at (pool_key b c host port) (sp_pools m)) as [p|] eqn:Hp; simpl.
  - split_and!; [done|done|]. exists host, port. split_and!; try done.
    by apply (pf_newest m Hf _ (pool_at_elem _ _ _ Hp)).
  - destruct (open_pool_fenced _ u w m x Hf Hfence Hp) as (H1 & H2 & H3).
    destruct (open_pool _ _ _ _ _) as [[m1 x1] [p|e]]; simpl in *; [|done].
    split_and!; [done|done|]. exists host, port. by destruct H3.
Qed.

Lemma manager_step_fenced s s' :
  manager_step s s' → pools_fenced s.1 → pools_fenced s'.1 ∧ watermarks_grow s.1 s'.1.
Proof.
  intros Hstep Hf. destruct Hstep.
  - destruct s as [m x]. destruct (get_fenced b i c m x Hf) as (? & ? & _). done.
  - revert Hf. apply keeps_bind; [|intros p; apply keeps_bind; [apply keeps_driver|]; intros _; by apply keeps_same].
    intros [m x] Hf. destruct (get_fenced b i c m x Hf) as (? & ? & _). done.
  - revert Hf. apply keeps_bind; [by apply keeps_same|]. intros m. apply keeps_close.
  - revert Hf. apply keeps_bind; [by apply keeps_same|]. intros m. apply keeps_bind.
    { intros [m' x] Hs. split; [|by apply watermarks_refl]. apply (pools_fenced_subset m'); try done.
      - by apply NoDup_nil_2.
      - by intros k Hk%not_elem_of_nil. }
    intros _. induction (sp_pools m) as [|kp l IH]; simpl; [by apply keeps_same|].
    apply keeps_bind; [apply keeps_driver|]. by intros _.
  - split; [done|by apply watermarks_refl].
Qed.

Lemma new_manager_fenced : pools_fenced (new_manager (P:=P)).
Proof.
  split; simpl; [apply NoDup_nil_2|by intros k k' Hk%not_elem_of_nil|by intros k Hk%not_elem_of_nil|].
  intros b. rewrite lookup_empty. by intros [? ?].
Qed.

Lemma managed_fenced s : managed s → pools_fenced s.1.
Proof.
  intros [x Hr]. revert s Hr. refine (rtc_ind_r (λ s, pools_fenced s.1) (new_manager, x) _ _).
  - exact new_manager_fenced.
  - intros s s' _ Hs IH. by destruct (manager_step_fenced s s' Hs IH).
Qed.

(** What the manager asks of the key of a request, apart from the order in
    which [fenced] asks it: no older revision than the newest one admitted, at
    that revision the structure admitted with it, and no older version of the
    credential than one a pool was made with. *)
Record admissible (m : Manager P) (k : PoolKey) : Prop := {
  ad_revision : ∀ r, sp_revisions m !! pk_backend k = Some r → r <= pk_revision k;
  ad_structure : ∀ s, sp_revisions m !! pk_backend k = Some (pk_revision k) →
    sp_structures m !! pk_backend k = Some s → s = structure_of k;
  ad_version : ∀ v, sp_versions m !! (pk_backend k, pk_credential k) = Some v → v <= pk_version k
}.

Lemma fenced_admissible (m : Manager P) k : fenced m k = None ↔ admissible m k.
Proof.
  unfold fenced. split.
  - intros Hn. split.
    + intros r Hr. rewrite Hr in Hn. destruct (pk_revision k <? r) eqn:?; [done|lia].
    + intros s Hr Hs. rewrite Hr, Hs in Hn. destruct (pk_revision k <? pk_revision k); [done|].
      rewrite (bool_decide_eq_true_2 (Some _ = _)) in Hn by done. cbn in Hn.
      destruct (decide (structure_of k = s)) as [->|Hne]; [done|].
      by rewrite (bool_decide_eq_false_2 _ Hne) in Hn.
    + intros v Hv. rewrite Hv in Hn. destruct (pk_version k <? v) eqn:?; [|lia].
      by repeat (case_match; try discriminate).
  - intros [Hr Hs Hv].
    destruct (sp_revisions m !! pk_backend k) as [r|] eqn:Er.
    + specialize (Hr r eq_refl). replace (pk_revision k <? r) with false by lia.
      replace ((Some r == Some (pk_revision k))
        && match sp_structures m !! pk_backend k with Some s => structure_of k != s | None => false end) with false.
      * destruct (sp_versions m !! _) as [v|]; [|done]. specialize (Hv v eq_refl).
        by replace (pk_version k <? v) with false by lia.
      * destruct (sp_structures m !! pk_backend k) as [s|]; [|by rewrite andb_false_r].
        case_bool_decide as He; [|done]. cbn.
        rewrite (Hs s He eq_refl). by rewrite (bool_decide_eq_true_2 (structure_of k = _)).
    + cbn. destruct (sp_versions m !! _) as [v|]; [|done]. specialize (Hv v eq_refl).
      by replace (pk_version k <? v) with false by lia.
Qed.

(** Whatever an admitted request meets (a pool, or a driver that fails to close
    or to connect), its revision is the newest from then on. *)
Lemma get_advances b i c m x host port u w :
  pools_fenced m → i_host i = Some host → i_port i = Some port →
  c_username_ciphertext c = Some u → c_password_ciphertext c = Some w →
  validate_provisioning_credential b i c = Ret tt → admissible m (pool_key b c host port) →
  sp_revisions (get decrypt b i c (m, x)).1.1 !! b_id b = Some (b_config_revision b).
Proof.
  intros Hf Hh Hp Hu Hw Hv Ha%fenced_admissible. unfold get. rewrite Hv, Hh, Hp, Hu, Hw.
  unfold mbind, M_bind, lift_outcome, manager. simpl. rewrite Ha.
  destruct (pool_at (pool_key b c host port) (sp_pools m)) as [p|] eqn:Hpool.
  - by apply (pf_newest m Hf _ (pool_at_elem _ _ _ Hpool)).
  - pose proof (advance_close _ m x Hf Ha Hpool) as Hac. cbv zeta in Hac.
    unfold open_pool, mbind, M_bind, update, manager, lift_outcome, driver. simpl.
    destruct (close_keys _ _) as [[m1 x1] [u1|e]]; simpl in *; destruct Hac as (_ & _ & _ & H4 & _); [|done].
    destruct (decrypt u) as [user|e]; simpl; [|done]. destruct (decrypt w) as [password|e]; simpl; [|done].
    by destruct (create_pool _ _ _ _ _ x1) as [x2 [p|e]].
Qed.

(** C40: Administrator pools are fenced by revision.  Whatever calls the pool
    manager has served, failed connections and failed closings included, it
    holds at most one pool per backend, of the newest revision of that backend
    it has admitted; no call lowers that revision, and a request with a valid
    credential raises it to its own as soon as it is admitted, also when closing
    the old pool, decrypting the secrets or connecting then fails.  Admitted is a
    request with no older revision, no other structure at the same revision, and
    no older version of the credential than a pool was made with; any other is
    refused and changes nothing, neither a secret being decrypted nor the driver
    being called.  A request that is answered gets the pool of exactly the
    backend revision, credential version and endpoint of its rows. *)
Theorem super_pools_fenced s b i c :
  managed s →
  (∀ k k', k ∈ keys s.1 → k' ∈ keys s.1 → pk_backend k = pk_backend k' → k = k')
  ∧ (∀ k, k ∈ keys s.1 → sp_revisions s.1 !! pk_backend k = Some (pk_revision k))
  ∧ (∀ s', manager_step s s' → watermarks_grow s.1 s'.1)
  ∧ match get decrypt b i c s with
    | (s', Ret p) => ∃ host port, i_host i = Some host ∧ i_port i = Some port
        ∧ validate_provisioning_credential b i c = Ret tt
        ∧ pool_at (pool_key b c host port) (sp_pools s'.1) = Some p
    | (_, Raise _) => True
    end
  ∧ ∀ host port u w, i_host i = Some host → i_port i = Some port →
      c_username_ciphertext c = Some u → c_password_ciphertext c = Some w →
      validate_provisioning_credential b i c = Ret tt →
      (admissible s.1 (pool_key b c host port) →
         sp_revisions (get decrypt b i c s).1.1 !! b_id b = Some (b_config_revision b))
      ∧ (¬ admissible s.1 (pool_key b c host port) → ∃ e, get decrypt b i c s = (s, Raise e)).
Proof.
  intros Hs. pose proof (managed_fenced s Hs) as Hf. destruct s as [m x].
  split; [apply Hf|]. split; [intros k Hk; by apply (pf_newest _ Hf)|].
  split; [intros s' Hstep; by apply (manager_step_fenced _ _ Hstep)|]. split.
  - pose proof (get_fenced b i c m x Hf) as (_ & _ & Hg).
    assert (∀ s' p, get decrypt b i c (m, x) = (s', Ret p) → validate_provisioning_credential b i c = Ret tt) as Hv.
    { intros s' p. unfold get, mbind, M_bind, lift_outcome.
      destruct (validate_provisioning_credential b i c) as [[]|]; done. }
    destruct (get decrypt b i c (m, x)) as [s' [p|e]]; [|done].
    destruct Hg as (host & port & ? & ? & ? & _). exists host, port. split_and!; try done. by eapply Hv.
  - intros host port u w Hh Hp Hu Hw Hv. split; [intros Ha; by eapply get_advances|].
    intros Hn. unfold get. rewrite Hv, Hh, Hp, Hu, Hw. unfold mbind, M_bind, lift_outcome, manager. simpl.
    destruct (fenced m _) as [e|] eqn:He; [by exists e|]. by destruct Hn; apply fenced_admissible.
Qed.
End theorems.

(** A driver whose pools are numbered and that connects twice only, and three
    generations of one backend. *)
#[export] Instance numbered_driver : PoolDriver nat nat := {|
  create_pool _ _ _ _ _ := λ x,
    if (x <? 2)%nat then (S x, Ret x) else (x, Raise (exc "OperationalError" EmptyString));
  close_pool _ := mret tt;
  ping_pool _ := mret tt
|}.

Definition demo_pool_backend (revision : Z) : ProvisioningBackend :=
  mk_backend "backend-1" ProvisioningBackendType.MULTITENANT (Some "inst-1") None
    (Some "cred-admin") ProvisioningBackendStatus.ACTIVE 0 3 0 2 4 revision None None.
Definition demo_pool_instance : Instance :=
  mk_instance "inst-1" "pc-1" "shared" None InstanceEngine.POLARDB_MYSQL InstanceTopology.MULTITENANT
    AllocationMode.POOLED None (Some "db.internal") (Some 3306) InstanceStatus.ACTIVE false None.
Definition demo_pool_credential : InstanceCredential :=
  {| c_id := "cred-admin"; c_instance_id := Some "inst-1"; c_resource_id := None; c_name := "admin";
     c_purpose := CredentialPurpose.PROVISIONING_ADMIN; c_capability := CredentialCapability.ADMIN;
     c_username_ciphertext := Some "enc:root"; c_password_ciphertext := Some "enc:pw";
     c_database_name := None; c_status := CredentialStatus.ACTIVE; c_version := 1;
     c_created_by_user_id := None |}.

Definition demo_request (revision : Z) (s : Manager nat * nat) : Manager nat * nat :=
  (get Ret (demo_pool_backend revision) demo_pool_instance demo_pool_credential s).1.

Definition demo_managed : Manager nat * nat := demo_request 2 (demo_request 1 (new_manager, 0%nat)).

Definition demo_fenced : Manager nat * nat := demo_request 3 demo_managed.

(** The pool of generation 2 is there; a request of generation 3 is admitted and
    fails to connect: it is the newest revision all the same, the old pool is
    gone, and generation 2 is refused. *)
Lemma super_pools_fenced_witness :
  managed Ret demo_managed ∧ pk_revision <$> keys demo_managed.1 = [2]
  ∧ sp_revisions demo_fenced.1 !! "backend-1" = Some 3 ∧ keys demo_fenced.1 = []
  ∧ ∃ e, get Ret (demo_pool_backend 2) demo_pool_instance demo_pool_credential demo_fenced = (demo_fenced, Raise e).
Proof.
  assert (managed Ret demo_managed) as Hm.
  { exists 0%nat. eapply rtc_l; [apply step_get|]. apply rtc_once. apply step_get. }
  assert (managed Ret demo_fenced) as Hm'.
  { destruct Hm as [x Hx]. exists x. eapply rtc_r; [exact Hx|apply step_get]. }
  split; [exact Hm|]. split; [vm_compute; reflexivity|]. split.
  - destruct (super_pools_fenced Ret demo_managed (demo_pool_backend 3) demo_pool_instance demo_pool_credential Hm)
      as (_ & _ & _ & _ & Hnew).
    apply (Hnew "db.internal" 3306 "enc:root" "enc:pw"); try reflexivity.
    apply fenced_admissible. vm_compute. reflexivity.
  - split; [vm_compute; reflexivity|].
    destruct (super_pools_fenced Ret demo_fenced (demo_pool_backend 2) demo_pool_instance demo_pool_credential Hm')
      as (_ & _ & _ & _ & Hold).
    apply (Hold "db.internal" 3306 "enc:root" "enc:pw"); try reflexivity.
    intros [Hr _ _]. specialize (Hr 3 ltac:(vm_compute; reflexivity)). vm_compute in Hr. by apply Hr.
Defined.
