(* ===== verification/Capacity.v ===== *)
(** * Capacity counters ([server/core/provisioning_capacity.py])

    An active-resource counter per Agent and per backend.  A reservation locks
    both rows, checks both limits and increments both; a release decrements
    both.  [reserve_capacity_and_insert] tries the candidate backends in order
    and commits the resource with its reservation in one transaction. *)

From S2P Require Import Prelude Models Config WriteGuard Permission.

Definition CapacityUnavailable (msg : string) : PyExc := exc "CapacityUnavailable" msg.
Definition is_capacity_unavailable (e : PyExc) : bool := String.eqb (exc_type e) "CapacityUnavailable".
Definition IntegrityError (msg : string) : PyExc := exc "IntegrityError" msg.
Definition is_integrity_error (e : PyExc) : bool := String.eqb (exc_type e) "IntegrityError".

(** [INSERT ... ON CONFLICT DO NOTHING] of a zero counter. *)
Definition insert_zero (scope : string * string) (db : DB) : DB :=
  match capacities db !! scope with
  | Some _ => db
  | None => put_capacity scope 0 db
  end.

Definition ensure_capacity_row (scope : string * string) : M (Session DB) unit :=
  execute (insert_zero scope).

(** The two locked rows; [by_scope[...]] raises [KeyError] on a missing one. *)
Definition locked_capacity_rows (agent_id backend_id : string) : M (Session DB) (Z * Z) :=
  ensure_capacity_row ("agent", agent_id) ;;
  ensure_capacity_row ("backend", backend_id) ;;
  rows ← query (λ db, (capacities db !! ("agent", agent_id), capacities db !! ("backend", backend_id)));
  match rows with
  | (Some a, Some b) => mret (a, b)
  | _ => raise (exc "KeyError" "capacity row")
  end.

Definition set_counters (agent_id backend_id : string) (a b : Z) : M (Session DB) unit :=
  execute (λ db, put_capacity ("backend", backend_id) b (put_capacity ("agent", agent_id) a db)).

Definition reserve_active_capacity_counters (agent_id backend_id : string)
    (agent_limit backend_limit : Z) : M (Session DB) unit :=
  counts ← locked_capacity_rows agent_id backend_id;
  let '(a, b) := counts in
  if (agent_limit <=? a) || (backend_limit <=? b) then raise (CapacityUnavailable EmptyString)
  else set_counters agent_id backend_id (a + 1) (b + 1).

Definition release_active_capacity_counters (agent_id backend_id : string) : M (Session DB) unit :=
  counts ← locked_capacity_rows agent_id backend_id;
  let '(a, b) := counts in
  if (a <=? 0) || (b <=? 0) then
    raise (CapacityUnavailable "Provisioning capacity counters are inconsistent")
  else set_counters agent_id backend_id (a - 1) (b - 1).

(** ** Inserting a resource row *)

(** A row of another resource that a unique column of the new one repeats. *)
Definition resource_conflict (r : DBInstanceResource) (db : DB) : bool :=
  existsb (λ o : DBInstanceResource,
    String.eqb (r_id o) (r_id r)
    || (String.eqb (r_owner_agent_id o) (r_owner_agent_id r)
        && String.eqb (r_client_token o) (r_client_token r))
    || match r_tenant_name o, r_tenant_name r with
       | Some a, Some b => String.eqb a b
       | _, _ => false
       end) (snd <$> map_to_list (resources db)).

(** A credential row whose primary key is taken. *)
Definition credential_conflict (c : InstanceCredential) (db : DB) : bool :=
  bool_decide (is_Some (credentials db !! c_id c)).

(** [session.add(resource); await session.flush()] with its credentials. *)
Definition insert_resource (r : DBInstanceResource) (creds : list InstanceCredential)
    : M (Session DB) unit :=
  conflict ← query (λ db, resource_conflict r db || existsb (λ c, credential_conflict c db) creds);
  if (conflict : bool) then raise (IntegrityError "UNIQUE constraint failed")
  else execute (λ db, foldr put_credential (put_resource r db) creds).

(** ** Reserving a candidate *)

(** A resource to insert: its row and the credentials appended to it. *)
Record NewResource : Type := mk_new_resource {
  nr_resource : DBInstanceResource;
  nr_credentials : list InstanceCredential
}.

(** The backend joined with an active multitenant instance of the engine. *)
Definition placement_row (backend_id : string) (engine : InstanceEngine.t) (db : DB)
    : option ProvisioningBackend :=
  b ← backends db !! backend_id;
  iid ← b_instance_id b;
  i ← instances db !! iid;
  if (i_engine i == engine) && (i_topology i == InstanceTopology.MULTITENANT)
     && (i_status i == InstanceStatus.ACTIVE) then Some b else None.

Definition binding_enabled (agent_id backend_id : string) (db : DB) : bool :=
  match provisioning_bindings db !! (agent_id, backend_id) with
  | Some ab => ab_enabled ab
  | None => false
  end.

Definition healthy_at (backend_id : string) (since : time) (db : DB) : bool :=
  match backend_health db !! backend_id with
  | Some h => h_healthy h && (since <=? h_checked_at h)
  | None => false
  end.

(** [agent.max_active_resources or default] *)
Definition agent_limit_of (config : TenantProvisioningConfig) (a : Agent) : Z :=
  match a_max_active_resources a with
  | Some n => if n =? 0 then effective_max_active_resources_per_agent config else n
  | None => effective_max_active_resources_per_agent config
  end.

Definition backend_revision (b : ProvisioningBackend) (db : DB) : option PermissionTemplateRevision :=
  rid ← b_permission_template_revision_id b; revisions db !! rid.

(** The permission columns of a resource placed on a backend with a template. *)
Definition with_permission_snapshot (revision : option PermissionTemplateRevision)
    (r : DBInstanceResource) : outcome DBInstanceResource :=
  match revision with
  | None => Ret r
  | Some rev =>
      snapshot ← compile_permission_snapshot (pr_id rev) (pr_template_id rev)
        (pr_privileges_json rev) (pr_grant_option rev) PermissionScope.MULTITENANT;
      Ret (r <| r_permission_template_id := sn_template_id snapshot |>
             <| r_permission_template_revision_id := sn_revision_id snapshot |>
             <| r_permission_snapshot_json := Some (permission_snapshot_to_json snapshot) |>)
  end.

Section reserve.
  Context (config : TenantProvisioningConfig).
  (** [before_commit]: the caller's audit hook, run in the transaction. *)
  Context (before_commit : option (DBInstanceResource → M (Session DB) unit)).

Definition run_hook (r : DBInstanceResource) : M (Session DB) unit :=
  match before_commit with Some hook => hook r | None => mret tt end.

Definition reserve_candidate (now : time) (agent_id backend_id : string)
    (engine : InstanceEngine.t) (build_resource : string → NewResource)
    : M (Session DB) DBInstanceResource :=
  let healthy_since := now - seconds (effective_backend_health_stale_after_seconds config) in
  agent ← query (λ db, agents db !! agent_id);
  backend ← query (placement_row backend_id engine);
  bound ← query (binding_enabled agent_id backend_id);
  healthy ← query (healthy_at backend_id healthy_since);
  match agent, backend with
  | Some a, Some b =>
      if (a_status a != AgentStatus.ACTIVE) || (b_status b != ProvisioningBackendStatus.ACTIVE)
         || negb bound || negb healthy then raise (CapacityUnavailable EmptyString)
      else
        reserve_active_capacity_counters agent_id backend_id (agent_limit_of config a)
          (b_max_active_resources b) ;;
        let new := build_resource backend_id in
        revision ← query (backend_revision b);
        r ← lift_outcome (with_permission_snapshot revision (nr_resource new));
        insert_resource r (nr_credentials new) ;;
        run_hook r ;;
        commit ;;
        mret r
  | _, _ => raise (CapacityUnavailable EmptyString)
  end.

(** The candidate loop.  [build_resource] draws fresh names at each call, so
    it also takes the number of the attempt. *)
Fixpoint reserve_over (now : time) (agent_id : string) (engine : InstanceEngine.t)
    (build_resource : nat → string → NewResource) (attempt : nat) (candidate_ids : list string)
    : M (Session DB) DBInstanceResource :=
  match candidate_ids with
  | [] => raise (CapacityUnavailable EmptyString)
  | backend_id :: rest =>
      try_except (reserve_candidate now agent_id backend_id engine (build_resource attempt))
        (λ e,
          if is_capacity_unavailable e then
            rollback ;;
            begin_transaction ;;
            reserve_over now agent_id engine build_resource (S attempt) rest
          else raise e)
  end.

Definition reserve_capacity_and_insert (now : time) (agent_id : string)
    (engine : InstanceEngine.t) (build_resource : nat → string → NewResource) (attempt : nat)
    (candidate_ids : list string) : M (Session DB) DBInstanceResource :=
  serialized_resource_write
    (reserve_over now agent_id engine build_resource attempt candidate_ids).

End reserve.

(** ** Audit hooks

    The hooks of the program append audit rows, a table outside the model: a
    hook leaves the session as it was, and may raise. *)
Definition audit_hook (hook : option (DBInstanceResource → M (Session DB) unit)) : Prop :=
  ∀ r s, (run_hook hook r s).1 = s.

Lemma audit_no_hook : audit_hook None.
Proof. done. Qed.

Lemma run_hook_bind {A} hook r (k : unit → M (Session DB) A) s :
  audit_hook hook →
  (run_hook hook r ≫= k) s =
  match (run_hook hook r s).2 with Ret a => k a s | Raise e => (s, Raise e) end.
Proof.
  intros Hh. unfold mbind, M_bind. specialize (Hh r s).
  by destruct (run_hook hook r s) as [s' [a|e]]; simpl in *; subst.
Qed.
