(* ===== verification/Hashing.v ===== *)
(** * Encodings and digests of the standard library

    [hashlib.sha256], UTF-8 and the canonical form of [json.dumps] with
    [sort_keys=True, separators=(",", ":"), ensure_ascii=False], as the
    fingerprints and tie-breaks of the provisioning code use them. *)

From S2P Require Import Prelude PyString Permission.

(** ** SHA-256 (FIPS 180-4) on 32-bit words as [Z] *)

Definition w32 (x : Z) : Z := Z.land x 4294967295.
Definition add32 (x y : Z) : Z := w32 (x + y).
Definition rotr (n x : Z) : Z := Z.lor (Z.shiftr x n) (w32 (Z.shiftl x (32 - n))).
Definition bsig0 (x : Z) : Z := Z.lxor (rotr 2 x) (Z.lxor (rotr 13 x) (rotr 22 x)).
Definition bsig1 (x : Z) : Z := Z.lxor (rotr 6 x) (Z.lxor (rotr 11 x) (rotr 25 x)).
Definition ssig0 (x : Z) : Z := Z.lxor (rotr 7 x) (Z.lxor (rotr 18 x) (Z.shiftr x 3)).
Definition ssig1 (x : Z) : Z := Z.lxor (rotr 17 x) (Z.lxor (rotr 19 x) (Z.shiftr x 10)).
Definition ch (x y z : Z) : Z := Z.lxor (Z.land x y) (Z.land (Z.lxor x 4294967295) z).
Definition maj (x y z : Z) : Z := Z.lxor (Z.land x y) (Z.lxor (Z.land x z) (Z.land y z)).

(** The round constants are the first 32 fractional bits of the cube roots of
    the first 64 primes, the initial state those of the square roots of the
    first 8. *)
Definition primes : list Z :=
  filter (λ p, bool_decide (p = 2) || forallb (λ d, negb (p mod d =? 0)) (seqZ 2 (p / 2)))
    (seqZ 2 310).

(** The integer cube root, bit by bit from [2^(n-1)] down. *)
Fixpoint cube_root (n : nat) (acc x : Z) : Z :=
  match n with
  | O => acc
  | S n =>
      let next := acc + 2 ^ Z.of_nat n in
      cube_root n (if next * next * next <=? x then next else acc) x
  end.

Definition sha256_k : list Z :=
  Eval vm_compute in (λ p, w32 (cube_root 40 0 (p * 2 ^ 96))) <$> take 64 primes.
Definition sha256_h0 : list Z :=
  Eval vm_compute in (λ p, w32 (Z.sqrt (p * 2 ^ 64))) <$> take 8 primes.

(** The message schedule, newest word first. *)
Fixpoint schedule (n : nat) (w : list Z) : list Z :=
  match n with
  | O => w
  | S n =>
      let at_ i := nth i w 0 in
      schedule n
        (add32 (ssig1 (at_ 1%nat))
           (add32 (at_ 6%nat) (add32 (ssig0 (at_ 14%nat)) (at_ 15%nat))) :: w)
  end.

Definition round (st : list Z) (kw : Z * Z) : list Z :=
  match st with
  | [a; b; c; d; e; f; g; h] =>
      let t1 := add32 h (add32 (bsig1 e) (add32 (ch e f g) (add32 kw.1 kw.2))) in
      let t2 := add32 (bsig0 a) (maj a b c) in
      [add32 t1 t2; a; b; c; add32 d t1; e; f; g]
  | _ => st
  end.

Definition compress (st block : list Z) : list Z :=
  let w := rev (schedule 48 (rev block)) in
  zip_with add32 st (fold_left round (zip sha256_k w) st).

Fixpoint words (bytes : list Z) : list Z :=
  match bytes with
  | a :: b :: c :: d :: rest =>
      (Z.shiftl a 24 + Z.shiftl b 16 + Z.shiftl c 8 + d) :: words rest
  | _ => []
  end.

Fixpoint blocks (fuel : nat) (ws : list Z) : list (list Z) :=
  match fuel, ws with
  | S fuel, _ :: _ => take 16 ws :: blocks fuel (drop 16 ws)
  | _, _ => []
  end.

(** Big-endian bytes of a number. *)
Definition be_bytes (n : nat) (x : Z) : list Z :=
  rev ((λ i, Z.land (Z.shiftr x (8 * Z.of_nat i)) 255) <$> seq 0 n).

Definition sha256_pad (msg : list Z) : list Z :=
  let zeros := Z.to_nat ((55 - Z.of_nat (length msg)) mod 64) in
  msg ++ [128] ++ replicate zeros 0 ++ be_bytes 8 (8 * Z.of_nat (length msg)).

Definition sha256 (msg : list Z) : list Z :=
  let ws := words (sha256_pad msg) in
  mjoin (be_bytes 4 <$> fold_left compress (blocks (length ws) ws) sha256_h0).

Definition hex_byte (b : Z) : string :=
  String (hex_digit (Z.to_nat (b / 16))) (String (hex_digit (Z.to_nat (b mod 16))) EmptyString).

Definition hexdigest (bytes : list Z) : string :=
  foldr (λ b acc, hex_byte b +:+ acc) EmptyString bytes.

(** ** UTF-8 of code points below 256 *)
Definition utf8_char (a : ascii) : list Z :=
  let n := Z.of_nat (nat_of_ascii a) in
  if n <? 128 then [n] else [192 + n / 64; 128 + n mod 64].

Fixpoint utf8 (s : string) : list Z :=
  match s with EmptyString => [] | String a s' => utf8_char a ++ utf8 s' end.

Definition sha256_hex (s : string) : string := hexdigest (sha256 (utf8 s)).

Example sha256_abc :
  sha256_hex "abc" = "ba7816bf8f01cfea414140de5dae2223b00361a396177a9cb410ff61f20015ad".
Proof. vm_compute. reflexivity. Qed.

(** [hmac.digest(key, msg, "sha256")] (RFC 2104, blocks of 64 bytes). *)
Definition hmac_sha256 (key msg : list Z) : list Z :=
  let key := if (64 <? length key)%nat then sha256 key else key in
  let key := key ++ replicate (64 - length key) 0 in
  sha256 ((Z.lxor 0x5c <$> key) ++ sha256 ((Z.lxor 0x36 <$> key) ++ msg)).

Example hmac_fox :
  hexdigest (hmac_sha256 (utf8 "key") (utf8 "The quick brown fox jumps over the lazy dog"))
  = "f7bc83f430538424b13298e6aa6fb143ef4d59a14946175997479dbc2d1a3cd8".
Proof. vm_compute. reflexivity. Qed.

(** ** Canonical JSON of a flat object *)
Definition json_escape (a : ascii) : string :=
  let n := nat_of_ascii a in
  if Ascii.eqb a dquote || Ascii.eqb a backslash then String backslash (String a EmptyString)
  else if (n =? 8)%nat then String backslash "b"
  else if (n =? 9)%nat then String backslash "t"
  else if (n =? 10)%nat then String backslash "n"
  else if (n =? 12)%nat then String backslash "f"
  else if (n =? 13)%nat then String backslash "r"
  else if (n <? 32)%nat then
    String backslash ("u00" +:+ String (hex_digit (n / 16)) (String (hex_digit (n mod 16)) EmptyString))
  else String a EmptyString.

Definition json_quote (s : string) : string :=
  String dquote (string_flat_map json_escape s +:+ String dquote EmptyString).

Definition json_opt (s : option string) : string :=
  match s with Some s => json_quote s | None => "null" end.

(** The object of already encoded members, its keys in sorted order. *)
Definition json_object (members : list (string * string)) : string :=
  "{" +:+ join "," ((λ kv, json_quote kv.1 +:+ ":" +:+ kv.2) <$> members) +:+ "}".
