(* ===== verification/Contract.v ===== *)
(** * What a resource exposes ([db_instance_contract.py], [credential_policy.py])

    Which credential of a resource may be revealed, the connection details it
    decrypts to, the capabilities a resource offers in its status, and when a
    direct-access credential is valid. *)

From S2P Require Import Prelude Models AdapterInterface Ddl.

(** ** Direct-access credentials *)

Definition is_valid_direct_access_credential (credential : option InstanceCredential)
    (instance_id : string) (require_database_name : bool) : bool :=
  match credential with
  | None => false
  | Some c =>
      (c_instance_id c == Some instance_id)
      && (c_resource_id c == None)
      && (c_purpose c == CredentialPurpose.DIRECT_ACCESS)
      && (c_status c == CredentialStatus.ACTIVE)
      && ((c_capability c == CredentialCapability.READONLY)
          || (c_capability c == CredentialCapability.READWRITE))
      && truthy (c_username_ciphertext c)
      && truthy (c_password_ciphertext c)
      && (negb require_database_name || truthy (c_database_name c))
  end.

(** The [WHERE] clause on the stored row, under SQL's three-valued logic for
    [<> '']: a [NULL] column satisfies neither conjunct. *)
Definition not_null_and_not_empty (s : option string) : bool :=
  match s with None => false | Some v => v != EmptyString end.

Definition direct_access_credential_sql_predicate (instance_id : string)
    (require_database_name : bool) (c : InstanceCredential) : bool :=
  (c_instance_id c == Some instance_id)
  && (c_resource_id c == None)
  && (c_purpose c == CredentialPurpose.DIRECT_ACCESS)
  && (c_status c == CredentialStatus.ACTIVE)
  && bool_decide (c_capability c ∈ [CredentialCapability.READONLY; CredentialCapability.READWRITE])
  && not_null_and_not_empty (c_username_ciphertext c)
  && not_null_and_not_empty (c_password_ciphertext c)
  && (if require_database_name then not_null_and_not_empty (c_database_name c) else true).

(** ** Resource-access credentials *)

Definition usable_resource_access_credential (l : LoadedResource) : option InstanceCredential :=
  let r := lr_resource l in
  match filter (λ c, c_purpose c = CredentialPurpose.RESOURCE_ACCESS) (lr_credentials l) with
  | [c] =>
      if (c_resource_id c != Some (r_id r)) || (c_instance_id c != None)
         || (c_status c != CredentialStatus.ACTIVE)
         || (c_capability c != CredentialCapability.READWRITE)
         || (c_version c != 1)
         || negb (truthy (c_username_ciphertext c)) || negb (truthy (c_password_ciphertext c))
         || negb (truthy (r_database_name r))
         || (c_database_name c != r_database_name r) then None
      else Some c
  | _ => None
  end.

Record ResourceConnectionDetails : Type := mk_connection_details {
  rc_database : string;
  rc_username : string;
  rc_password : string
}.

Section contract.
  Context {X : Type} `{TenantServices X}.

Definition resource_connection_details (l : LoadedResource) : option ResourceConnectionDetails :=
  match usable_resource_access_credential l with
  | None => None
  | Some c =>
      match c_database_name c, c_username_ciphertext c, c_password_ciphertext c with
      | Some database, Some username_ciphertext, Some password_ciphertext =>
          match decrypt username_ciphertext, decrypt password_ciphertext with
          | Ret username, Ret password => Some (mk_connection_details database username password)
          | _, _ => None
          end
      | _, _, _ => None
      end
  end.

Definition delete_capable (s : DBInstanceStatus.t) : bool :=
  match s with
  | DBInstanceStatus.CREATING | DBInstanceStatus.READY | DBInstanceStatus.FAILED
  | DBInstanceStatus.DELETING | DBInstanceStatus.DELETE_FAILED => true
  | _ => false
  end.

Definition resource_capabilities (l : LoadedResource) (credentials_revealable : option bool)
    : list string :=
  let status := r_status (lr_resource l) in
  let ready := status == DBInstanceStatus.READY in
  let revealable :=
    match credentials_revealable with
    | Some b => b
    | None => ready && bool_decide (is_Some (resource_connection_details l))
    end in
  ["list"; "describe"]
  ++ (if ready && revealable then ["credentials_read"] else [])
  ++ (if delete_capable status then ["delete"] else [])
  ++ (if ready && revealable then ["run_sql_read"; "run_sql_write"] else []).

End contract.
