(* ===== verification/Selector.v ===== *)
(** * Choosing a backend ([provisioning_backend_repository.py], [backend_selector.py])

    The candidate query joins bindings, backends, health and capacity; the
    candidates are tried by priority, then load, then a hash that spreads
    equal backends over Agents and requests. *)

From S2P Require Import Prelude PyString Models Config Permission Hashing.

Record BackendCandidate : Type := mk_candidate {
  cand_backend_id : string;
  cand_priority : Z;
  cand_active_count : Z;
  cand_max_active_resources : Z;
  cand_routing_order : option Z
}.

Definition tie_break_score (agent_id client_token backend_id : string) : string :=
  sha256_hex (agent_id +:+ ":" +:+ client_token +:+ ":" +:+ backend_id).

(** The key [(-priority, active/max, score)] compared lexicographically; the
    [Decimal] loads are compared by cross-multiplication (their denominators
    are positive and below 2^31, so 28 digits never merge two of them). *)
Definition candidate_le (agent_id client_token : string) (a b : BackendCandidate) : bool :=
  let la := cand_active_count a * cand_max_active_resources b in
  let lb := cand_active_count b * cand_max_active_resources a in
  (cand_priority b <? cand_priority a)
  || ((cand_priority a =? cand_priority b)
      && ((la <? lb)
          || ((la =? lb)
              && String.leb (tie_break_score agent_id client_token (cand_backend_id a))
                            (tie_break_score agent_id client_token (cand_backend_id b))))).

(** [sorted(l, key=...)]: a stable insertion sort under a boolean order. *)
Section sorted.
  Context {A : Type} (le : A → A → bool).

Fixpoint insert_sorted (x : A) (l : list A) : list A :=
  match l with
  | [] => [x]
  | y :: l' => if le x y then x :: l else y :: insert_sorted x l'
  end.

Fixpoint sorted (l : list A) : list A :=
  match l with
  | [] => []
  | x :: l' => insert_sorted x (sorted l')
  end.

End sorted.

Definition order_candidates (agent_id client_token : string) (candidates : list BackendCandidate)
    : list BackendCandidate :=
  sorted (candidate_le agent_id client_token) candidates.

(** [key=lambda item: item.routing_order] over non-null orders. *)
Definition routing_le (a b : BackendCandidate) : bool :=
  default 0 (cand_routing_order a) <=? default 0 (cand_routing_order b).

Definition backend_health_cutoff (config : TenantProvisioningConfig) (now : time) : time :=
  now - seconds (effective_backend_health_stale_after_seconds config).

Definition backend_is_fresh_and_healthy (config : TenantProvisioningConfig) (now : time)
    (db : DB) (b : ProvisioningBackend) : bool :=
  (b_status b == ProvisioningBackendStatus.ACTIVE)
  && match backend_health db !! b_id b with
     | None => false
     | Some h => h_healthy h && (backend_health_cutoff config now <=? h_checked_at h)
     end.

(** The administrator credential the multitenant join requires. *)
Definition admin_credential_ok (i : Instance) (c : InstanceCredential) : bool :=
  (c_instance_id c == Some (i_id i)) && (c_resource_id c == None)
  && (c_purpose c == CredentialPurpose.PROVISIONING_ADMIN)
  && (c_capability c == CredentialCapability.ADMIN)
  && (c_status c == CredentialStatus.ACTIVE)
  && bool_decide (is_Some (c_username_ciphertext c))
  && bool_decide (is_Some (c_password_ciphertext c)).

Definition multitenant_target_ok (engine : InstanceEngine.t) (db : DB) (b : ProvisioningBackend)
    : bool :=
  (b_backend_type b == ProvisioningBackendType.MULTITENANT)
  && match b_instance_id b ≫= (λ iid, instances db !! iid),
           b_admin_credential_id b ≫= (λ cid, credentials db !! cid) with
     | Some i, Some c =>
         (i_engine i == engine) && (i_topology i == InstanceTopology.MULTITENANT)
         && (i_status i == InstanceStatus.ACTIVE) && admin_credential_ok i c
     | _, _ => false
     end.

Definition dedicated_target_ok (db : DB) (b : ProvisioningBackend) (ab : AgentProvisioningBinding)
    : bool :=
  (b_backend_type b == ProvisioningBackendType.DEDICATED_POOL)
  && match b_dedicated_pool_id b ≫= (λ pid, pools db !! pid) with
     | Some p => p_status p == DedicatedPoolStatus.ACTIVE
     | None => false
     end
  && bool_decide (is_Some (ab_routing_order ab)).

(** One joined row of the query, when its [WHERE] clause accepts it. *)
Definition candidate_row (config : TenantProvisioningConfig) (now : time) (db : DB)
    (agent_id : string) (engine : InstanceEngine.t) (mode : ProvisioningMode.t)
    (ab : AgentProvisioningBinding) : option BackendCandidate :=
  b ← backends db !! ab_backend_id ab;
  h ← backend_health db !! ab_backend_id ab;
  if (ab_agent_id ab == agent_id) && ab_enabled ab
     && (b_status b == ProvisioningBackendStatus.ACTIVE)
     && h_healthy h && (backend_health_cutoff config now <=? h_checked_at h)
     && match mode with
        | ProvisioningMode.MULTITENANT => multitenant_target_ok engine db b
        | ProvisioningMode.DEDICATED => dedicated_target_ok db b ab
        end
  then
    Some (mk_candidate (b_id b) (b_priority b)
            (default 0 (capacities db !! ("backend", b_id b)))
            (b_max_active_resources b) (ab_routing_order ab))
  else None.

Definition list_candidates (config : TenantProvisioningConfig) (now : time) (agent_id : string)
    (engine : InstanceEngine.t) (client_token : string) (mode : ProvisioningMode.t) (db : DB)
    : list BackendCandidate :=
  let rows := omap (candidate_row config now db agent_id engine mode)
                (snd <$> map_to_list (provisioning_bindings db)) in
  match mode with
  | ProvisioningMode.DEDICATED => sorted routing_le rows
  | ProvisioningMode.MULTITENANT => order_candidates agent_id client_token rows
  end.

Definition NoEligibleProvisioningBackend (mode : ProvisioningMode.t) : PyExc :=
  exc "NoEligibleProvisioningBackend"
    ("No eligible " +:+ ProvisioningMode.value mode +:+ " provisioning backend").

Definition select_backend (config : TenantProvisioningConfig) (now : time) (agent_id : string)
    (mode : ProvisioningMode.t) (client_token : string) (engine : InstanceEngine.t)
    : M (Session DB) ProvisioningBackend :=
  candidates ← query (list_candidates config now agent_id engine client_token mode);
  match candidates with
  | [] => raise (NoEligibleProvisioningBackend mode)
  | c :: _ =>
      backend ← query (λ db, backends db !! cand_backend_id c);
      match backend with
      | Some b => mret b
      | None => raise (NoEligibleProvisioningBackend mode)
      end
  end.
