(* ===== verification/Service.v ===== *)
(** * The resource service ([server/core/db_instance_service.py])

    Creation with an idempotency token, description, deletion and restoration
    of a database resource.  Creation is modelled for the multitenant mode. *)

From S2P Require Import Prelude PyString Models Config WriteGuard AdapterInterface Dispatcher.
From S2P Require Import Permission Ddl Hashing Contract Selector Capacity.

(** ** Errors *)
Definition InvalidClientToken : PyExc :=
  exc "InvalidClientToken"
    "client_token must be 1-128 characters using letters, numbers, '.', '_', ':', or '-'".
Definition UnsupportedDBType (db_type : string) : PyExc :=
  exc "UnsupportedDBType" ("Unsupported db_type: " +:+ repr_str db_type +:+ "; expected 'polardb_mysql'").
Definition IdempotencyConflict (msg : string) : PyExc := exc "IdempotencyConflict" msg.
Definition NoProvisioningBackend (msg : string) : PyExc := exc "NoProvisioningBackend" msg.
Definition CapacityExhausted : PyExc := exc "CapacityExhausted" "Provisioning capacity is exhausted".
Definition DBInstanceNotFound : PyExc := exc "DBInstanceNotFound" "Database instance not found".
Definition DBInstanceServiceError (msg : string) : PyExc := exc "DBInstanceServiceError" msg.

(** ** Request validation *)

(** [CLIENT_TOKEN_RE]: [[A-Za-z0-9._:-]{1,128}] *)
Definition client_token_char (a : ascii) : bool :=
  is_alnum a || Ascii.eqb a "." || Ascii.eqb a "_" || Ascii.eqb a ":" || Ascii.eqb a "-".

Definition validate_client_token (client_token : string) : outcome unit :=
  if fullmatch_class client_token_char 1 128 client_token then Ret tt else Raise InvalidClientToken.

(** Unicode category [Cc] below code point 256. *)
Definition is_control (a : ascii) : bool :=
  let n := nat_of_ascii a in ((n <? 32) || (127 <=? n) && (n <? 160))%nat.

(** Code points below 256 are their own NFC form. *)
Definition normalize_resource_name (name : option string) : outcome (option string) :=
  match name with
  | None => Ret None
  | Some name =>
      let normalized := strip name in
      if negb ((1 <=? String.length normalized) && (String.length normalized <=? 128))%nat then
        Raise (ValueError "name must be 1-128 Unicode code points after normalization")
      else if negb (string_forallb (λ a, negb (is_control a)) normalized) then
        Raise (ValueError "name must not contain control characters")
      else Ret (Some normalized)
  end.

Definition FINGERPRINT_VERSION : Z := 2.

(** The bytes that are hashed. *)
Definition fingerprint_payload (db_type : string) (name : option string)
    (mode : ProvisioningMode.t) (version : Z) : string :=
  if version =? 1 then
    json_object [("db_type", json_quote db_type); ("name", json_opt name)]
  else
    json_object [("db_type", json_quote db_type); ("name", json_opt name);
                 ("provisioning_mode", json_quote (ProvisioningMode.value mode))].

Definition request_fingerprint (db_type : string) (name : option string)
    (mode : ProvisioningMode.t) (version : Z) : outcome string :=
  if negb ((version =? 1) || (version =? FINGERPRINT_VERSION)) then
    Raise (ValueError ("Unsupported request fingerprint version: " +:+ pretty version))
  else
    normalized_name ← normalize_resource_name name;
    if (version =? 1) && (mode != ProvisioningMode.MULTITENANT) then
      Raise (IdempotencyConflict "Legacy idempotency keys support multitenant mode only")
    else Ret (sha256_hex (fingerprint_payload db_type normalized_name mode version)).

Definition parse_engine (db_type : string) : outcome InstanceEngine.t :=
  if String.eqb db_type (InstanceEngine.value InstanceEngine.POLARDB_MYSQL)
  then Ret InstanceEngine.POLARDB_MYSQL else Raise (UnsupportedDBType db_type).

Definition find_by_client_token (agent_id client_token : string) (db : DB)
    : option DBInstanceResource :=
  head (filter (λ r, r_owner_agent_id r = agent_id ∧ r_client_token r = client_token)
          (snd <$> map_to_list (resources db))).

Definition return_if_same_request (r : DBInstanceResource) (fingerprint : string)
    (fingerprint_version : Z) : outcome DBInstanceResource :=
  if (r_fingerprint_version r != fingerprint_version)
     || (r_request_fingerprint r != fingerprint) then
    Raise (IdempotencyConflict "client_token was already used for a different request")
  else Ret r.

(** ** New resources *)

(** What one build draws from [secrets], [uuid4] and the cipher: the positions
    drawn in the alphabets, the generated keys and the two ciphertexts. *)
Record Entropy : Type := mk_entropy {
  en_resource_id : string;
  en_credential_id : string;
  en_name_draws : list nat;
  en_password_draws : list nat
}.

(** [string.ascii_lowercase + string.digits] *)
Definition resource_alphabet : list ascii :=
  String.list_ascii_of_string "abcdefghijklmnopqrstuvwxyz0123456789".
Definition password_alphabet : list ascii :=
  String.list_ascii_of_string "abcdefghijklmnopqrstuvwxyzABCDEFGHIJKLMNOPQRSTUVWXYZ0123456789".

(** ["".join(secrets.choice(alphabet) for _ in range(n))] *)
Definition random_word (alphabet : list ascii) (n : nat) (draws : list nat) : string :=
  String.string_of_list_ascii
    ((λ i, nth (nth i draws 0%nat mod length alphabet) alphabet "a"%char) <$> seq 0 n).

Record DatabaseIdentity : Type := mk_identity {
  id_tenant_name : string;
  id_resource_config_name : string;
  id_account_name : string;
  id_database_name : string
}.

Definition new_database_identity (draws : list nat) : DatabaseIdentity :=
  let tenant_name := "t" +:+ random_word resource_alphabet 9 draws in
  let account_name := "agentic@" +:+ tenant_name in
  mk_identity tenant_name ("rc_" +:+ tenant_name) account_name account_name.

(** [generate_db_password] of [polardb_provisioning_helpers.py]. *)
Definition generate_db_password (draws : list nat) : string :=
  "Aa1" +:+ random_word password_alphabet 16 draws.

(** A row with the column defaults of the model class. *)
Definition new_resource (id owner_agent_id backend_id client_token fingerprint : string)
    (name : option string) (engine : InstanceEngine.t) (mode : ProvisioningMode.t)
    (created_at : time) : DBInstanceResource :=
  {| r_id := id; r_owner_agent_id := owner_agent_id; r_backend_id := backend_id;
     r_client_token := client_token; r_request_fingerprint := fingerprint;
     r_fingerprint_version := FINGERPRINT_VERSION; r_name := name; r_engine := engine;
     r_status := DBInstanceStatus.CREATING; r_provisioning_mode := mode;
     r_allocated_instance_id := None; r_permission_template_id := None;
     r_permission_template_revision_id := None; r_permission_snapshot_json := None;
     r_tenant_name := None; r_resource_config_name := None; r_database_name := None;
     r_provisioning_step := LeaseProvisioningStep.PENDING;
     r_cleanup_step := LeaseCleanupStep.PENDING; r_cleanup_required := false;
     r_failure_reason := None; r_retry_count := 0; r_next_retry_at := None;
     r_worker_id := None; r_worker_lease_until := None; r_capacity_released_at := None;
     r_delete_requested_at := None; r_disconnected_at := None;
     r_effective_delete_cooldown_duration_hours := None; r_cooldown_until := None;
     r_reclaim_policy := None; r_delete_step := DeleteLifecycleStep.PENDING;
     r_restore_source_status := None; r_restore_failure_reason := None;
     r_created_at := created_at |}.

Section build.
  Context (encrypt : string → string).

Definition build_resource (agent_id client_token fingerprint : string)
    (normalized_name : option string) (engine : InstanceEngine.t) (now : time)
    (entropy : Entropy) (backend_id : string) : NewResource :=
  let ident := new_database_identity (en_name_draws entropy) in
  let password := generate_db_password (en_password_draws entropy) in
  let r := new_resource (en_resource_id entropy) agent_id backend_id client_token fingerprint
             normalized_name engine ProvisioningMode.MULTITENANT now in
  mk_new_resource
    (r <| r_tenant_name := Some (id_tenant_name ident) |>
       <| r_resource_config_name := Some (id_resource_config_name ident) |>
       <| r_database_name := Some (id_database_name ident) |>
       <| r_permission_snapshot_json :=
            Some (permission_snapshot_to_json
                    (default_permission_snapshot PermissionScope.MULTITENANT)) |>)
    [ {| c_id := en_credential_id entropy; c_instance_id := None;
         c_resource_id := Some (en_resource_id entropy); c_name := "resource-access";
         c_purpose := CredentialPurpose.RESOURCE_ACCESS;
         c_capability := CredentialCapability.READWRITE;
         c_username_ciphertext := Some (encrypt (id_account_name ident));
         c_password_ciphertext := Some (encrypt password);
         c_database_name := Some (id_database_name ident);
         c_status := CredentialStatus.ACTIVE; c_version := 1; c_created_by_user_id := None |} ].

End build.

(** ** Creation *)
Section create.
  Context (config : TenantProvisioningConfig) (encrypt : string → string).
  Context (before_commit : option (DBInstanceResource → M (Session DB) unit)).

Definition when_in_transaction_rollback : M (Session DB) unit :=
  busy ← in_transaction; if (busy : bool) then rollback else mret tt.

Definition commit_idempotent_replay (agent_id client_token fingerprint : string)
    (fingerprint_version : Z) : M (Session DB) DBInstanceResource :=
  when_in_transaction_rollback ;;
  serialized_resource_write (
    found ← query (find_by_client_token agent_id client_token);
    match found with
    | None => raise DBInstanceNotFound
    | Some r =>
        r ← lift_outcome (return_if_same_request r fingerprint fingerprint_version);
        run_hook before_commit r ;;
        commit ;;
        mret r
    end).

(** Answer with the row another request created under the same token. *)
Definition answer_with (r : DBInstanceResource) (agent_id client_token fingerprint : string)
    (fingerprint_version : Z) : M (Session DB) DBInstanceResource :=
  lift_outcome (return_if_same_request r fingerprint fingerprint_version) ;;
  match before_commit with
  | None => mret r
  | Some _ => commit_idempotent_replay agent_id client_token fingerprint fingerprint_version
  end.

(** [for attempt in range(3)]: [attempts] attempts are left. *)
Fixpoint create_attempts (attempts : nat) (agent_id client_token fingerprint : string)
    (reserve : nat → M (Session DB) DBInstanceResource) (attempt : nat)
    : M (Session DB) DBInstanceResource :=
  match attempts with
  | O => raise (RuntimeError "unreachable")
  | S attempts =>
      try_except (reserve attempt)
        (λ e,
          if is_capacity_unavailable e then
            rollback ;;
            winner ← query (find_by_client_token agent_id client_token);
            match winner with
            | Some w => answer_with w agent_id client_token fingerprint FINGERPRINT_VERSION
            | None => raise CapacityExhausted
            end
          else if is_integrity_error e then
            rollback ;;
            winner ← query (find_by_client_token agent_id client_token);
            match winner with
            | Some w => answer_with w agent_id client_token fingerprint FINGERPRINT_VERSION
            | None =>
                match attempts with
                | O => raise e
                | S _ =>
                    rollback ;;
                    create_attempts attempts agent_id client_token fingerprint reserve (S attempt)
                end
            end
          else rollback ;; raise e)
  end.

(** [entropy n] is what the [n]-th build of the call draws. *)
Definition create_db_instance_resource (now : time) (entropy : nat → Entropy)
    (agent_id client_token : string) (name : option string) (db_type : string)
    : M (Session DB) DBInstanceResource :=
  require_idle_resource_session ;;
  lift_outcome (validate_client_token client_token) ;;
  engine ← lift_outcome (parse_engine db_type);
  normalized_name ← lift_outcome (normalize_resource_name name);
  fingerprint ← lift_outcome (request_fingerprint db_type normalized_name
                                ProvisioningMode.MULTITENANT FINGERPRINT_VERSION);
  existing ← query (find_by_client_token agent_id client_token);
  match existing with
  | Some r =>
      existing_fingerprint ← lift_outcome (request_fingerprint db_type normalized_name
                               ProvisioningMode.MULTITENANT (r_fingerprint_version r));
      answer_with r agent_id client_token existing_fingerprint (r_fingerprint_version r)
  | None =>
      candidates ← query (list_candidates config now agent_id engine client_token
                            ProvisioningMode.MULTITENANT);
      let candidate_ids := cand_backend_id <$> candidates in
      match candidate_ids with
      | [] => rollback ;; raise (NoProvisioningBackend "Agent has no active, healthy provisioning backend")
      | _ :: _ =>
          when_in_transaction_rollback ;;
          create_attempts 3 agent_id client_token fingerprint
            (λ attempt,
              reserve_capacity_and_insert config before_commit now agent_id engine
                (λ k, build_resource encrypt agent_id client_token fingerprint normalized_name
                        engine now (entropy k))
                (attempt * length candidate_ids) candidate_ids) 0
      end
  end.

End create.

(** ** Description *)

(** Civil date of a day number (days since 1970-01-01), proleptic Gregorian. *)
Definition civil_from_days (days : Z) : Z * Z * Z :=
  let z := days + 719468 in
  let era := z / 146097 in
  let doe := z - era * 146097 in
  let yoe := (doe - doe / 1460 + doe / 36524 - doe / 146096) / 365 in
  let doy := doe - (365 * yoe + yoe / 4 - yoe / 100) in
  let mp := (5 * doy + 2) / 153 in
  let d := doy - (153 * mp + 2) / 5 + 1 in
  let m := if mp <? 10 then mp + 3 else mp - 9 in
  ((yoe + era * 400) + (if m <=? 2 then 1 else 0), m, d).

(** [n] in decimal with that many digits. *)
Fixpoint pad (width : nat) (n : Z) : string :=
  match width with
  | O => EmptyString
  | S width => pad width (n / 10) +:+ String (ascii_of_nat (Z.to_nat (48 + n mod 10))) EmptyString
  end.

(** [datetime.isoformat()] of a UTC instant. *)
Definition isoformat (t : time) : string :=
  let days := t / 86400000000 in
  let us := t mod 86400000000 in
  let '(y, m, d) := civil_from_days days in
  let s := us / 1000000 in
  let micro := us mod 1000000 in
  pad 4 y +:+ "-" +:+ pad 2 m +:+ "-" +:+ pad 2 d +:+ "T"
  +:+ pad 2 (s / 3600) +:+ ":" +:+ pad 2 (s / 60 mod 60) +:+ ":" +:+ pad 2 (s mod 60)
  +:+ (if micro =? 0 then "" else "." +:+ pad 6 micro) +:+ "+00:00".

Definition serialized_timestamp (t : option time) : json :=
  match t with Some t => JStr (isoformat t) | None => JNull end.

Definition json_of_opt (s : option string) : json :=
  match s with Some s => JStr s | None => JNull end.

Inductive PrincipalKind : Set := USER | AGENT.
Record Principal : Type := mk_principal { pk_kind : PrincipalKind; pk_id : string }.

#[export] Instance PrincipalKind_eq_dec : EqDecision PrincipalKind.
Proof. solve_decision. Defined.

(** The joined row: a resource of the Agent, which must be active, whose
    backend exists; with the instance it is allocated on, if any. *)
Definition describe_row (agent_id db_instance_id : string) (db : DB)
    : option (DBInstanceResource * option Instance) :=
  r ← resources db !! db_instance_id;
  b ← backends db !! r_backend_id r;
  a ← agents db !! r_owner_agent_id r;
  if (r_owner_agent_id r == agent_id) && (a_status a == AgentStatus.ACTIVE) then
    let iid := match r_allocated_instance_id r with Some i => Some i | None => b_instance_id b end in
    Some (r, iid ≫= λ i, instances db !! i)
  else None.

Section describe.
  Context {X : Type} `{TenantServices X}.

(** The response, without the ORM's [updated_at]. *)
Definition describe_payload (l : LoadedResource) (instance : option Instance)
    (connection : option ResourceConnectionDetails) : list (string * json) :=
  let r := lr_resource l in
  [ ("db_instance_id", JStr (r_id r));
    ("name", json_of_opt (r_name r));
    ("usage", JNull);
    ("db_type", JStr (InstanceEngine.value (r_engine r)));
    ("source", JStr "provisioned");
    ("status", JStr (upper (DBInstanceStatus.value (r_status r))));
    ("capabilities",
      JArr (JStr <$> resource_capabilities l (Some (bool_decide (is_Some connection)))));
    ("created_at", serialized_timestamp (Some (r_created_at r)));
    ("provisioning_step", JStr (upper (LeaseProvisioningStep.value (r_provisioning_step r))));
    ("cleanup_step", JStr (upper (LeaseCleanupStep.value (r_cleanup_step r))));
    ("cleanup_required", JBool (r_cleanup_required r));
    ("delete_step", JStr (upper (DeleteLifecycleStep.value (r_delete_step r))));
    ("delete_requested_at", serialized_timestamp (r_delete_requested_at r));
    ("disconnected_at", serialized_timestamp (r_disconnected_at r));
    ("cooldown_until", serialized_timestamp (r_cooldown_until r));
    ("delete_cooldown_duration_hours",
      match r_effective_delete_cooldown_duration_hours r with Some h => JNum h | None => JNull end);
    ("reclaim_policy",
      match r_reclaim_policy r with Some p => JStr (ReclaimPolicy.value p) | None => JNull end) ]
  ++ match connection, instance with
     | Some c, Some i =>
         [ ("host", json_of_opt (i_host i));
           ("port", match i_port i with Some p => JNum p | None => JNull end);
           ("database", JStr (rc_database c));
           ("username", JStr (rc_username c));
           ("password", JStr (rc_password c)) ]
     | _, _ => []
     end
  ++ (if truthy (r_failure_reason r)
         && ((r_status r == DBInstanceStatus.FAILED) || (r_status r == DBInstanceStatus.DELETE_FAILED))
      then [("failure_reason", json_of_opt (r_failure_reason r))] else [])
  ++ (if truthy (r_restore_failure_reason r)
      then [("restore_failure_reason", json_of_opt (r_restore_failure_reason r))] else []).

Definition describe_db_instance_resource (principal : Principal) (db_instance_id : string)
    : M (Session DB) (list (string * json)) :=
  if pk_kind principal != AGENT then raise DBInstanceNotFound
  else
    found ← query (describe_row (pk_id principal) db_instance_id);
    match found with
    | None => raise DBInstanceNotFound
    | Some (r, instance) =>
        if (r_status r == DBInstanceStatus.READY) && bool_decide (instance = None) then
          raise DBInstanceNotFound
        else
          creds ← query (resource_credentials (r_id r));
          let l := mk_loaded r creds in
          let connection :=
            if r_status r == DBInstanceStatus.READY then resource_connection_details l else None in
          mret (describe_payload l instance connection)
    end.

End describe.

(** ** Deletion *)
Section delete.
  Context (config : TenantProvisioningConfig).
  Context (before_commit : option (DBInstanceResource → M (Session DB) unit)).

Definition deletable (s : DBInstanceStatus.t) : bool :=
  match s with
  | DBInstanceStatus.CREATING | DBInstanceStatus.READY | DBInstanceStatus.FAILED
  | DBInstanceStatus.DELETE_FAILED => true
  | _ => false
  end.

Definition owned_resource (db_instance_id agent_id : string) (db : DB) : option DBInstanceResource :=
  r ← resources db !! db_instance_id;
  if r_owner_agent_id r == agent_id then Some r else None.

Definition backend_pool (b : ProvisioningBackend) (db : DB) : option DedicatedPool :=
  pid ← b_dedicated_pool_id b; pools db !! pid.

(** What the first deletion request fixes: when, the cool-down, the policy. *)
Definition record_delete_request (now : time) (b : ProvisioningBackend) (pool : option DedicatedPool)
    (r : DBInstanceResource) : outcome DBInstanceResource :=
  match r_delete_requested_at r with
  | Some _ => Ret r
  | None =>
      duration ← effective_delete_cooldown_hours
        (r_effective_delete_cooldown_duration_hours r)
        (match pool with
         | Some p => p_delete_cooldown_duration_hours p
         | None => b_delete_cooldown_duration_hours b
         end)
        (cfg_delete_cooldown_duration_hours config);
      Ret (r <| r_delete_requested_at := Some now |>
             <| r_effective_delete_cooldown_duration_hours := Some duration |>
             <| r_reclaim_policy :=
                  Some (match pool with Some p => p_reclaim_policy p | None => ReclaimPolicy.DESTROY end) |>)
  end.

Definition live_claim (now : time) (r : DBInstanceResource) : bool :=
  truthy (r_worker_id r)
  && match r_worker_lease_until r with Some lease_until => now <? lease_until | None => false end.

(** The row queued for deletion; a live worker keeps its claim unless the
    previous deletion had failed. *)
Definition queue_deletion (now : time) (r : DBInstanceResource) : DBInstanceResource :=
  let previous_status := r_status r in
  let q := reset_retry (r <| r_status := DBInstanceStatus.DELETING |>
                          <| r_cleanup_required := true |>)
             <| r_failure_reason := None |> in
  if negb (live_claim now r) || (previous_status == DBInstanceStatus.DELETE_FAILED)
  then clear_claim q else q.

(** For a resource that is not on a dedicated pool. *)
Definition delete_db_instance_resource (now : time) (agent_id db_instance_id : string)
    : M (Session DB) DBInstanceResource :=
  serialized_resource_write (
    found ← query (owned_resource db_instance_id agent_id);
    match found with
    | None => raise DBInstanceNotFound
    | Some r =>
        r ← (if deletable (r_status r) then
               backend ← query (λ db, backends db !! r_backend_id r);
               match backend with
               | None => raise (NoProvisioningBackend "Provisioning backend is unavailable")
               | Some b =>
                   pool ← query (backend_pool b);
                   r ← lift_outcome (record_delete_request now b pool r);
                   execute (set_resource_credentials_status (r_id r) CredentialStatus.REVOKED) ;;
                   let r := queue_deletion now r in
                   execute (put_resource r) ;;
                   mret r
               end
             else mret r);
        run_hook before_commit r ;;
        commit ;;
        mret r
    end).

End delete.

(** ** Restoration *)

Definition restorable (s : DBInstanceStatus.t) : bool :=
  match s with
  | DBInstanceStatus.DELETING | DBInstanceStatus.DELETE_FAILED | DBInstanceStatus.COOLING_DOWN => true
  | _ => false
  end.

Definition restore_db_instance_resource (db_instance_id : string)
    : M (Session DB) DBInstanceResource :=
  serialized_resource_write (
    found ← query (λ db, resources db !! db_instance_id);
    match found with
    | None => raise DBInstanceNotFound
    | Some r =>
        if negb (restorable (r_status r)) then
          raise (DBInstanceServiceError "Database instance cannot be restored from its current state")
        else if irreversible (r_delete_step r) then
          raise (DBInstanceServiceError "Database cleanup has crossed the irreversible boundary")
        else
          let r := reset_retry (clear_claim
                     (r <| r_restore_source_status := Some (r_status r) |>
                        <| r_status := DBInstanceStatus.RESTORING |>
                        <| r_restore_failure_reason := None |>)) in
          save r r
    end).
