(* ===== verification/LifecycleSpec.v ===== *)
(** * The lifecycle of a multitenant resource, as an abstract state machine

    [life] keeps of a resource row what the lifecycle is about; [life_step] is
    what may happen to it, one constructor per event.  [Lifecycle.v] shows that
    every transaction of the program, on every row, is one of these events or
    leaves the lifecycle alone; the theorems here are about the machine. *)

From S2P Require Import Prelude Models Dispatcher Service.

Record life : Type := mk_life {
  l_status : DBInstanceStatus.t;
  l_pstep : LeaseProvisioningStep.t;
  l_cstep : LeaseCleanupStep.t;
  l_dstep : DeleteLifecycleStep.t;
  l_required : bool;                         (* cleanup_required *)
  l_released : bool;                         (* capacity_released_at is set *)
  l_requested : bool;                        (* delete_requested_at is set *)
  l_duration : bool;                         (* the cool-down duration is set *)
  l_cooled : bool;                           (* disconnected_at and cooldown_until are set *)
  l_source : option DBInstanceStatus.t       (* restore_source_status *)
}.

#[export] Instance life_eta : Eta life := λ l,
  mk_life (l_status l) (l_pstep l) (l_cstep l) (l_dstep l) (l_required l) (l_released l)
    (l_requested l) (l_duration l) (l_cooled l) (l_source l).

Definition is_set {A : Type} (o : option A) : bool := match o with Some _ => true | None => false end.

Definition life_of (r : DBInstanceResource) : life :=
  mk_life (r_status r) (r_provisioning_step r) (r_cleanup_step r) (r_delete_step r)
    (r_cleanup_required r) (is_set (r_capacity_released_at r)) (is_set (r_delete_requested_at r))
    (is_set (r_effective_delete_cooldown_duration_hours r))
    (is_set (r_disconnected_at r) && is_set (r_cooldown_until r)) (r_restore_source_status r).

Definition initial_life : life :=
  mk_life DBInstanceStatus.CREATING LeaseProvisioningStep.PENDING LeaseCleanupStep.PENDING
    DeleteLifecycleStep.PENDING false false false false false None.

(** [needs_cleanup] on the abstract state. *)
Definition cleaning (l : life) : Prop :=
  (l_status l = DBInstanceStatus.DELETING ∧ l_dstep l = DeleteLifecycleStep.LOGICAL_CLEANUP)
  ∨ (l_status l = DBInstanceStatus.FAILED ∧ l_required l = true).

(** The last cleanup step is done: the row is released, and [DELETED] when it
    was being deleted. *)
Definition cleaned (l : life) : life :=
  let l := l <| l_cstep := LeaseCleanupStep.RESIDUE_VERIFIED |>
             <| l_released := true |> <| l_required := false |> in
  match l_status l with
  | DBInstanceStatus.DELETING =>
      l <| l_status := DBInstanceStatus.DELETED |> <| l_dstep := DeleteLifecycleStep.COMPLETE |>
  | _ => l
  end.

Inductive life_step : life → life → Prop :=
| ev_progress l p :
    l_status l = DBInstanceStatus.CREATING → next_provisioning_step (l_pstep l) = Some p →
    life_step l (l <| l_pstep := p |>)
| ev_ready l :
    l_status l = DBInstanceStatus.CREATING → l_pstep l = LeaseProvisioningStep.VERIFIED →
    life_step l (l <| l_status := DBInstanceStatus.READY |> <| l_required := false |>)
| ev_fail l :
    l_status l = DBInstanceStatus.CREATING →
    life_step l (l <| l_status := DBInstanceStatus.FAILED |> <| l_required := true |>)
| ev_delete l :
    deletable (l_status l) = true →
    life_step l (l <| l_status := DBInstanceStatus.DELETING |> <| l_required := true |>
                   <| l_duration := (if l_requested l then l_duration l else true) |>
                   <| l_requested := true |>)
| ev_require_cleanup l :
    l_status l = DBInstanceStatus.DELETING → life_step l (l <| l_required := true |>)
| ev_disconnect l d :
    l_status l = DBInstanceStatus.DELETING → next_delete_step (l_dstep l) = Some d →
    d ≠ DeleteLifecycleStep.DISCONNECTED →
    life_step l (l <| l_dstep := d |>)
| ev_cool_down l :
    l_status l = DBInstanceStatus.DELETING → l_dstep l = DeleteLifecycleStep.SESSIONS_TERMINATED →
    l_duration l = true →
    life_step l (l <| l_status := DBInstanceStatus.COOLING_DOWN |>
                   <| l_dstep := DeleteLifecycleStep.COOLING_DOWN |> <| l_cooled := true |>)
| ev_give_up l :
    l_status l = DBInstanceStatus.DELETING ∨ (l_status l = DBInstanceStatus.FAILED ∧ l_required l = true) →
    life_step l (l <| l_status := DBInstanceStatus.DELETE_FAILED |>)
| ev_begin_cleanup l :
    l_status l = DBInstanceStatus.COOLING_DOWN → l_dstep l = DeleteLifecycleStep.COOLING_DOWN →
    l_cooled l = true →
    life_step l (l <| l_status := DBInstanceStatus.DELETING |>
                   <| l_dstep := DeleteLifecycleStep.LOGICAL_CLEANUP |> <| l_required := true |>)
| ev_cleanup l c :
    cleaning l → next_cleanup_step (l_cstep l) = Some c → c ≠ LeaseCleanupStep.RESIDUE_VERIFIED →
    life_step l (l <| l_cstep := c |>)
| ev_cleaned l :
    cleaning l →
    l_cstep l = LeaseCleanupStep.RESOURCE_CONFIG_DROPPED
      ∨ l_cstep l = LeaseCleanupStep.RESIDUE_VERIFIED →
    life_step l (cleaned l)
| ev_restore l :
    restorable (l_status l) = true → irreversible (l_dstep l) = false →
    life_step l (l <| l_source := Some (l_status l) |> <| l_status := DBInstanceStatus.RESTORING |>)
| ev_restored l :
    l_status l = DBInstanceStatus.RESTORING →
    life_step l (l <| l_status := DBInstanceStatus.READY |> <| l_required := false |>
                   <| l_dstep := DeleteLifecycleStep.PENDING |> <| l_requested := false |>
                   <| l_cooled := false |> <| l_source := None |>)
| ev_restore_failed l s :
    l_status l = DBInstanceStatus.RESTORING →
    s = (if l_source l == Some DBInstanceStatus.COOLING_DOWN
         then DBInstanceStatus.COOLING_DOWN else DBInstanceStatus.DELETE_FAILED) →
    life_step l (l <| l_status := s |>).

Definition reachable (l : life) : Prop := rtc life_step initial_life l.

(** ** The invariant *)

(** The delete steps of a resource that is being disconnected or cleaned up. *)
Definition working_dstep (d : DeleteLifecycleStep.t) : bool :=
  match d with
  | DeleteLifecycleStep.PENDING | DeleteLifecycleStep.ACCOUNT_LOCKED
  | DeleteLifecycleStep.SESSIONS_TERMINATED | DeleteLifecycleStep.LOGICAL_CLEANUP => true
  | _ => false
  end.

Definition disconnecting_dstep (d : DeleteLifecycleStep.t) : bool :=
  working_dstep d && negb (irreversible d).

(** What the state of a resource says about its other columns. *)
Definition life_inv (l : life) : Prop :=
  (l_released l = (l_cstep l == LeaseCleanupStep.RESIDUE_VERIFIED))
  ∧ (l_requested l = true → l_duration l = true)
  ∧ match l_status l with
    | DBInstanceStatus.CREATING =>
        l_dstep l = DeleteLifecycleStep.PENDING ∧ l_cstep l = LeaseCleanupStep.PENDING
        ∧ l_required l = false ∧ l_requested l = false
    | DBInstanceStatus.READY =>
        l_dstep l = DeleteLifecycleStep.PENDING ∧ l_required l = false ∧ l_requested l = false
    | DBInstanceStatus.FAILED =>
        l_dstep l = DeleteLifecycleStep.PENDING ∧ l_requested l = false
        ∧ l_required l = negb (l_released l)
    | DBInstanceStatus.DELETING =>
        working_dstep (l_dstep l) = true ∧ l_required l = true ∧ l_requested l = true
    | DBInstanceStatus.COOLING_DOWN =>
        l_dstep l = DeleteLifecycleStep.COOLING_DOWN ∧ l_cooled l = true
        ∧ l_required l = true ∧ l_requested l = true
    | DBInstanceStatus.RESTORING =>
        l_required l = true
        ∧ ((l_source l = Some DBInstanceStatus.COOLING_DOWN
            ∧ l_dstep l = DeleteLifecycleStep.COOLING_DOWN ∧ l_cooled l = true
            ∧ l_requested l = true)
           ∨ ((l_source l = Some DBInstanceStatus.DELETING
               ∨ l_source l = Some DBInstanceStatus.DELETE_FAILED)
              ∧ disconnecting_dstep (l_dstep l) = true))
    | DBInstanceStatus.DELETED =>
        l_dstep l = DeleteLifecycleStep.COMPLETE ∧ l_released l = true ∧ l_required l = false
    | DBInstanceStatus.DELETE_FAILED =>
        working_dstep (l_dstep l) = true ∧ l_required l = true
    end.

Lemma life_inv_initial : life_inv initial_life.
Proof. by vm_compute. Qed.

Ltac split_facts :=
  repeat match goal with
  | H : _ ∧ _ |- _ => destruct H
  | H : _ ∨ _ |- _ => destruct H
  end; simplify_eq/=.

(** Close a clause of [life_inv], by cases on the delete or the cleanup step
    when its facts leave that open. *)
Ltac solve_life ds cs :=
  repeat match goal with |- _ ∧ _ => split end;
  first
    [ done | congruence | by intros; simplify_eq/= | by auto
    | by left; repeat split; auto | by right; auto
    | by destruct ds; simplify_eq/=; auto
    | by destruct cs; simplify_eq/=; vm_compute; congruence
    | by case_match; auto ].

Lemma life_inv_step l l' : life_step l l' → life_inv l → life_inv l'.
Proof.
  unfold life_inv. destruct 1; intros (Hrel & Hdur & Hst); unfold cleaned, cleaning in *.
  all: destruct l as [st ps cs ds rq rl rd du co so]; simpl in *; subst; split_facts.
  all: try (destruct st; simplify_eq/=); split_facts.
  all: solve_life ds cs.
Qed.

Lemma reachable_inv l : reachable l → life_inv l.
Proof.
  unfold reachable. generalize life_inv_initial. intros Hi Hr.
  induction Hr; [done|]. eauto using life_inv_step.
Qed.

Lemma life_inv_steps l l' : rtc life_step l l' → life_inv l → life_inv l'.
Proof. induction 1; eauto using life_inv_step. Qed.

(** ** What never happens *)

(** The row of a resource past the point of no return. *)
Definition condemned (l : life) : Prop := irreversible (l_dstep l) = true.

Lemma condemned_step l l' : life_step l l' → life_inv l → condemned l → condemned l'.
Proof.
  unfold life_inv, condemned. destruct 1; intros (Hrel & Hdur & Hst) Hc; unfold cleaned, cleaning in *.
  all: destruct l as [st ps cs ds rq rl rd du co so]; simpl in *; subst; split_facts.
  all: try (destruct st; simplify_eq/=); split_facts.
  all: try done.
  all: destruct ds; simplify_eq/=; auto.
Qed.

Lemma condemned_status l :
  life_inv l → condemned l →
  l_status l = DBInstanceStatus.DELETING ∨ l_status l = DBInstanceStatus.DELETE_FAILED
  ∨ l_status l = DBInstanceStatus.DELETED.
Proof.
  unfold life_inv, condemned. destruct l as [st ps cs ds rq rl rd du co so]; simpl.
  intros (Hrel & Hdur & Hst) Hc.
  destruct st; split_facts; auto; destruct ds; simplify_eq/=.
Qed.

Lemma deleted_step l l' : life_step l l' → l_status l ≠ DBInstanceStatus.DELETED.
Proof.
  destruct 1; intros E; unfold cleaning in *.
  all: destruct l as [st ps cs ds rq rl rd du co so]; simpl in *; subst; split_facts.
Qed.

Lemma condemned_steps l l' :
  rtc life_step l l' → life_inv l → condemned l → life_inv l' ∧ condemned l'.
Proof. induction 1; eauto using life_inv_step, condemned_step. Qed.
