(* ===== verification/Lifecycle.v ===== *)
(** * Every transaction against the lifecycle machine *)

From S2P Require Import Prelude Models Config WriteGuard Worker AdapterInterface Dispatcher.
From S2P Require Import Permission Contract Selector Capacity Service LifecycleSpec.

(** ** Tests as propositions *)

Lemma py_eq_true {A} `{EqDecision A} (x y : A) : (x == y) = true → x = y.
Proof. apply bool_decide_eq_true_1. Qed.
Lemma py_ne_false {A} `{EqDecision A} (x y : A) : (x != y) = false → x = y.
Proof. rewrite negb_false_iff. apply bool_decide_eq_true_1. Qed.

(** Turn the branch conditions in the context into facts on columns. *)
Ltac guards :=
  repeat match goal with
  | H : _ || _ = false |- _ => apply orb_false_iff in H as [? ?]
  | H : _ && _ = true |- _ => apply andb_true_iff in H as [? ?]
  | H : negb (bool_decide _) = false |- _ => apply py_ne_false in H
  | H : negb _ = false |- _ => apply negb_false_iff in H
  | H : negb _ = true |- _ => apply negb_true_iff in H
  | H : bool_decide _ = true |- _ => apply bool_decide_eq_true_1 in H
  | H : bool_decide _ = false |- _ => apply bool_decide_eq_false_1 in H
  | H : owns_claim _ _ = true |- _ => unfold owns_claim in H
  end.

(** ... and the disjunctions among them into cases. *)
Ltac either_guard :=
  repeat match goal with
  | H : _ || _ = true |- _ => apply orb_true_iff in H as [H|H]
  end; guards.

(** ** Effects of a transaction on the database *)

(** The columns fixed at creation. *)
Definition identity (r : DBInstanceResource) :=
  (r_id r, r_owner_agent_id r, r_backend_id r, r_client_token r, r_request_fingerprint r,
   r_fingerprint_version r, r_name r, r_engine r, r_provisioning_mode r,
   r_permission_snapshot_json r,
   (r_tenant_name r, r_resource_config_name r, r_database_name r, r_created_at r)).

(** A row whose access must be off: its account is being, or was, disconnected. *)
Definition access_off (l : life) : Prop :=
  l_dstep l ≠ DeleteLifecycleStep.PENDING
  ∨ l_status l = DBInstanceStatus.DELETING ∨ l_status l = DBInstanceStatus.COOLING_DOWN
  ∨ l_status l = DBInstanceStatus.DELETED.

Definition with_status (s : CredentialStatus.t) (c : InstanceCredential) : InstanceCredential :=
  c <| c_status := s |>.
Definition scrubbed (c : InstanceCredential) : InstanceCredential :=
  c <| c_status := CredentialStatus.REVOKED |>
    <| c_username_ciphertext := None |> <| c_password_ciphertext := None |>.

(** What a transaction that moves a row from [l] to [l'] may do to the row's
    access credentials. *)
Inductive credential_effect (l l' : life) : (InstanceCredential → InstanceCredential) → Prop :=
| ce_keep :
    (life_inv l → access_off l' → access_off l) →
    (l_status l' = DBInstanceStatus.DELETED → l_status l = DBInstanceStatus.DELETED) →
    credential_effect l l' (λ c, c)
| ce_revoke :
    l_status l' ≠ DBInstanceStatus.DELETED →
    credential_effect l l' (with_status CredentialStatus.REVOKED)
| ce_activate :
    l_status l' = DBInstanceStatus.READY → l_dstep l' = DeleteLifecycleStep.PENDING →
    credential_effect l l' (with_status CredentialStatus.ACTIVE)
| ce_scrub : credential_effect l l' scrubbed.

(** ... and to the two counters of its Agent and backend. *)
Definition capacity_effect (r r' : DBInstanceResource) (caps caps' : gmap (string * string) Z) : Prop :=
  if is_set (r_capacity_released_at r) then is_set (r_capacity_released_at r') = true ∧ caps' = caps
  else if is_set (r_capacity_released_at r') then
    ∃ a b, caps !! ("agent", r_owner_agent_id r) = Some a
         ∧ caps !! ("backend", r_backend_id r) = Some b
         ∧ 0 < a ∧ 0 < b
         ∧ caps' = <[("backend", r_backend_id r) := b - 1]>
                     (<[("agent", r_owner_agent_id r) := a - 1]> caps)
  else caps' = caps.

(** One row rewritten, with its credentials and counters. *)
Record row_effect (db db' : DB) (r r' : DBInstanceResource) : Prop := {
  re_found : resources db !! r_id r = Some r;
  re_identity : identity r' = identity r;
  re_life : life_of r' = life_of r ∨ life_step (life_of r) (life_of r');
  re_resources : resources db' = <[r_id r := r']> (resources db);
  re_credentials : ∃ g, credential_effect (life_of r) (life_of r') g
    ∧ credentials db' = update_where (is_resource_access (r_id r)) g (credentials db);
  re_capacities : capacity_effect r r' (capacities db) (capacities db')
}.

(** Nothing happens, or one row is rewritten. *)
Definition row_transaction (db db' : DB) : Prop :=
  db' = db ∨ ∃ r r', row_effect db db' r r'.

(** Rows are stored under their primary key. *)
Definition rows_keyed (db : DB) : Prop :=
  ∀ k r, resources db !! k = Some r → r_id r = k.

Lemma update_where_id {V} (p : V → bool) (m : gmap string V) : update_where p (λ v, v) m = m.
Proof.
  unfold update_where. apply map_eq. intros i. rewrite lookup_fmap.
  destruct (m !! i); simpl; [|done]. by case_match.
Qed.

(** A row written back into a database whose credentials and counters were
    changed before it. *)
Lemma row_write db db1 r r' g :
  resources db !! r_id r = Some r →
  resources db1 = resources db →
  identity r' = identity r →
  life_of r' = life_of r ∨ life_step (life_of r) (life_of r') →
  credential_effect (life_of r) (life_of r') g →
  credentials db1 = update_where (is_resource_access (r_id r)) g (credentials db) →
  capacity_effect r r' (capacities db) (capacities db1) →
  row_transaction db (put_resource r' db1).
Proof.
  intros Hr Hres Hid Hl Hg Hcreds Hcaps. right. exists r, r'.
  assert (r_id r' = r_id r) as Hid' by (unfold identity in Hid; congruence).
  split; simpl; try done; [by rewrite Hid', Hres|by exists g].
Qed.

(** The common case: only the row changes, not its capacity. *)
Lemma row_put db rid r r' :
  rows_keyed db → resources db !! rid = Some r →
  identity r' = identity r →
  is_set (r_capacity_released_at r') = is_set (r_capacity_released_at r) →
  life_of r' = life_of r ∨ life_step (life_of r) (life_of r') →
  credential_effect (life_of r) (life_of r') (λ c, c) →
  row_transaction db (put_resource r' db).
Proof.
  intros Hk Hr Hid Hrel Hl Hc. pose proof (Hk _ _ Hr). subst rid.
  apply (row_write db db r r' (λ c, c)); try done.
  - by rewrite update_where_id.
  - unfold capacity_effect. rewrite Hrel. by destruct (is_set (r_capacity_released_at r)).
Qed.

Lemma needs_cleanup_cleaning r : needs_cleanup r = true → cleaning (life_of r).
Proof. unfold needs_cleanup. intros; either_guard; [by left|by right]. Qed.

Lemma final_cleanup_step e :
  (Some LeaseCleanupStep.RESIDUE_VERIFIED != next_cleanup_step e)
  && negb ((e == LeaseCleanupStep.RESIDUE_VERIFIED) && true) = false →
  e = LeaseCleanupStep.RESOURCE_CONFIG_DROPPED ∨ e = LeaseCleanupStep.RESIDUE_VERIFIED.
Proof. destruct e; vm_compute; intros; solve [discriminate | auto]. Qed.

Lemma life_cleaned r r' :
  life_of r' = cleaned (life_of r) → needs_cleanup r = true →
  r_cleanup_step r = LeaseCleanupStep.RESOURCE_CONFIG_DROPPED
    ∨ r_cleanup_step r = LeaseCleanupStep.RESIDUE_VERIFIED →
  life_step (life_of r) (life_of r').
Proof. intros -> ? ?. apply ev_cleaned; [by apply needs_cleanup_cleaning|done]. Qed.

Lemma record_delete_request_life config now b pool r r' :
  record_delete_request config now b pool r = Ret r' →
  identity r' = identity r
  ∧ r_capacity_released_at r' = r_capacity_released_at r
  ∧ life_of r' = (life_of r) <| l_duration := (if is_set (r_delete_requested_at r)
                                then l_duration (life_of r) else true) |>
                           <| l_requested := true |>.
Proof.
  unfold record_delete_request. destruct (r_delete_requested_at r) eqn:Hreq.
  - intros [= <-]. repeat split. unfold life_of. simpl. by rewrite Hreq.
  - unfold mbind, outcome_bind. case_match; [|done]. by intros [= <-].
Qed.

Lemma queue_deletion_life now r :
  identity (queue_deletion now r) = identity r
  ∧ r_capacity_released_at (queue_deletion now r) = r_capacity_released_at r
  ∧ life_of (queue_deletion now r) =
      (life_of r) <| l_status := DBInstanceStatus.DELETING |> <| l_required := true |>.
Proof. unfold queue_deletion. by case_match. Qed.

Lemma claim_candidate_some now db r :
  claim_candidate now db = Some r →
  (∃ k, resources db !! k = Some r) ∧ claimable now r = true.
Proof.
  intros Hc. apply first_by_elem, list_elem_of_filter in Hc as [Hok Hin].
  apply list_elem_of_fmap in Hin as [[k r'] [-> Hin]].
  apply elem_of_map_to_list in Hin. split; [by exists k|done].
Qed.

Section transactions.
  Context (config : TenantProvisioningConfig) (worker_id : string) (db : DB).
  Hypothesis Hkeyed : rows_keyed db.

Ltac keep_credentials :=
  apply ce_keep; [intros _; unfold access_off; simpl; intuition congruence | simpl; congruence].

(** The row is written back with the lifecycle unchanged, or after an event. *)
Ltac solve_put :=
  unfold clear_claim, fail_disabled, reset_retry;
  eapply row_put; [done|eassumption|reflexivity|reflexivity| |keep_credentials].
Ltac same := solve_put; by left.
Ltac side_fact :=
  simpl; first
    [ by eauto | congruence | by case_bool_decide
    | by repeat match goal with H : _ = Some _ |- _ => simpl in H; rewrite H; clear H end ].
Ltac event ev := solve_put; right; eapply ev; side_fact.

Ltac run_row :=
  unfold txn_db, claim_serialization, locked_resource, locked_backend, save, abandon;
  run_branches; guards; try (by left).

Lemma renew_claim_row now rid : row_transaction db (txn_db (renew_claim config worker_id now rid) db).
Proof. unfold renew_claim. run_row. same. Qed.

Lemma release_claim_row rid : row_transaction db (txn_db (release_claim worker_id rid) db).
Proof. unfold release_claim. run_row. same. Qed.

Lemma persist_forward_row rid e n :
  row_transaction db (txn_db (persist_forward_result worker_id rid e n) db).
Proof.
  unfold persist_forward_result. run_row; subst; [same|same| |].
  - event ev_fail.
  - event ev_progress.
Qed.

Lemma finish_ready_row rid : row_transaction db (txn_db (finish_ready worker_id rid) db).
Proof.
  unfold finish_ready. run_row; [event ev_fail|event ev_ready].
Qed.

Lemma queue_disabled_row rid : row_transaction db (txn_db (queue_disabled worker_id rid) db).
Proof. unfold queue_disabled. run_row. event ev_fail. Qed.

Lemma persist_disconnect_row now rid e n :
  row_transaction db (txn_db (persist_disconnect_result worker_id now rid e n) db).
Proof.
  unfold persist_disconnect_result. run_row; subst.
  - destruct (r_delete_step d) eqn:Hd; simplify_eq/=. event ev_cool_down.
  - event ev_disconnect.
Qed.

Lemma begin_cleanup_row now rid :
  row_transaction db (txn_db (begin_cleanup worker_id now rid) db).
Proof. unfold begin_cleanup. run_row; [same|event ev_begin_cleanup]. Qed.

Lemma record_disconnect_failure_row now rid x e :
  row_transaction db (txn_db (record_disconnect_failure config worker_id now rid x e) db).
Proof. unfold record_disconnect_failure. run_row; [event ev_give_up|same]. Qed.

Lemma record_restore_failure_row rid x :
  row_transaction db (txn_db (record_restore_failure worker_id rid x) db).
Proof.
  unfold record_restore_failure. run_row.
  all: unfold clear_claim; eapply row_put; [done|eassumption|reflexivity|reflexivity| |].
  1,3: right; eapply ev_restore_failed; side_fact.
  all: apply ce_keep; [|done].
  - intros (_ & _ & Hinv) _. simpl in Hinv.
    match goal with H : r_status _ = _ |- _ => rewrite H in Hinv end.
    left. simpl. destruct Hinv as [_ [(_ & -> & _)|[[?|?] _]]]; [done|congruence..].
  - intros _ [?|[?|[?|?]]]; simplify_eq/=. by left.
Qed.

Lemma record_failure_row now rid x ph st fs cs :
  row_transaction db (txn_db (record_failure config worker_id now rid x ph st fs cs) db).
Proof.
  unfold record_failure, failed_attempt, needs_cleanup. run_row; either_guard.
  all: first [same | event ev_fail | event ev_require_cleanup | event ev_give_up].
Qed.

Lemma finish_restore_row rid : row_transaction db (txn_db (finish_restore worker_id rid) db).
Proof.
  unfold finish_restore. run_row. pose proof (Hkeyed _ _ Heqo) as <-.
  eapply row_write; [exact Heqo|reflexivity|reflexivity| | |reflexivity|].
  - right. by apply ev_restored.
  - by apply ce_activate.
  - unfold capacity_effect. simpl. by destruct (is_set _).
Qed.

Lemma restore_row rid : row_transaction db (txn_db (restore_db_instance_resource rid) db).
Proof. unfold restore_db_instance_resource. run_row. event ev_restore. Qed.

Lemma persist_cleanup_row now rid st e n :
  row_transaction db (txn_db (persist_cleanup_result worker_id now rid st e n) db).
Proof.
  unfold persist_cleanup_result, finish_cleanup_locked, release_capacity. run_row; subst.
  5: rewrite andb_false_r, andb_true_r in Heqb; guards;
     solve_put; right; apply ev_cleanup; simpl; auto using needs_cleanup_cleaning.
  all: pose proof (Hkeyed _ _ Heqo) as <-.
  all: eapply row_write; [exact Heqo|reflexivity|reflexivity| |by apply ce_scrub|reflexivity|].
  1,3,5,7: right; apply life_cleaned; [|done|by apply final_cleanup_step];
    unfold life_of, cleaned; simpl in *; rewrite ?Heqo0;
    by destruct (r_status d).
  all: unfold capacity_effect; simpl in *; rewrite Heqo0; try done.
  all: guards; eexists _, _; repeat split; [eassumption..| | ]; lia.
Qed.

Lemma owned_resource_some rid agent_id r :
  owned_resource rid agent_id db = Some r →
  resources db !! rid = Some r ∧ r_owner_agent_id r = agent_id.
Proof.
  unfold owned_resource. destruct (resources db !! rid) as [r0|]; simpl; [|done].
  case_bool_decide; by intros [= <-].
Qed.

Lemma delete_row hook now agent_id rid :
  audit_hook hook →
  row_transaction db (txn_db (delete_db_instance_resource config hook now agent_id rid) db).
Proof.
  intros Hhook. unfold delete_db_instance_resource.
  run_row; rewrite ?run_hook_bind by done; run_branches; try (by left).
  apply owned_resource_some in Heqo as [Hr _].
  destruct (record_delete_request_life _ _ _ _ _ _ Heqo1) as (Hid & Hrel & Hlife).
  destruct (queue_deletion_life now a) as (Hid' & Hrel' & Hlife').
  pose proof (Hkeyed _ _ Hr) as <-.
  assert (r_id a = r_id d) as Hia by (unfold identity in Hid; congruence).
  eapply row_write; [exact Hr|reflexivity|congruence| | |by rewrite Hia|].
  - right. rewrite Hlife', Hlife. by apply (ev_delete (life_of d)).
  - apply ce_revoke. by rewrite Hlife'.
  - unfold capacity_effect. rewrite Hrel', Hrel. by destruct (is_set (r_capacity_released_at d)).
Qed.

Lemma claim_row now : row_transaction db (txn_db (claim_one config worker_id now) db).
Proof.
  unfold claim_one. run_row. apply claim_candidate_some in Heqo as [[k Hr] _]. same.
Qed.

End transactions.
