(* ===== verification/Reservation.v ===== *)
(** * Reserving capacity and inserting a resource, as one effect *)

From S2P Require Import Prelude Models Config WriteGuard Dispatcher Permission Capacity Service.
From S2P Require Import LifecycleSpec Lifecycle.

(** ** Counters *)

(** A counter's value; a missing row counts zero. *)
Definition counter (scope : string * string) (db : DB) : Z := default 0 (capacities db !! scope).

Lemma insert_zero_caps scope k db :
  capacities (insert_zero scope db) !! k =
    if decide (k = scope) then Some (counter scope db) else capacities db !! k.
Proof.
  unfold insert_zero, counter. case_decide as Hk; [subst k|];
    destruct (capacities db !! scope) as [n|] eqn:Hs; simpl; try done.
  - apply lookup_insert_eq.
  - by apply lookup_insert_ne.
Qed.

Lemma insert_zero_frame scope db :
  resources (insert_zero scope db) = resources db
  ∧ credentials (insert_zero scope db) = credentials db
  ∧ backends (insert_zero scope db) = backends db
  ∧ revisions (insert_zero scope db) = revisions db.
Proof. unfold insert_zero. by case_match. Qed.

Lemma insert_zero_counter scope k db : counter k (insert_zero scope db) = counter k db.
Proof. unfold counter. rewrite insert_zero_caps. case_decide; by subst. Qed.

Definition ensured (agent_id backend_id : string) (db : DB) : DB :=
  insert_zero ("backend", backend_id) (insert_zero ("agent", agent_id) db).

Lemma locked_capacity_rows_run {A} agent_id backend_id (k : Z * Z → M (Session DB) A) c w o :
  (locked_capacity_rows agent_id backend_id ≫= k) (mk_session c w true o) =
  k (counter ("agent", agent_id) w, counter ("backend", backend_id) w)
    (mk_session c (ensured agent_id backend_id w) true o).
Proof.
  unfold locked_capacity_rows, ensure_capacity_row. autorewrite with pas_txn.
  rewrite !insert_zero_caps, !insert_zero_counter.
  rewrite decide_False, !decide_True by done. by autorewrite with pas_txn.
Qed.

(** Both counters overwritten: the ensured zero rows do not matter. *)
Lemma ensured_overwritten agent_id backend_id x y db :
  <[("backend", backend_id) := y]>
    (<[("agent", agent_id) := x]> (capacities (ensured agent_id backend_id db)))
  = <[("backend", backend_id) := y]> (<[("agent", agent_id) := x]> (capacities db)).
Proof.
  apply map_eq. intros k. unfold ensured.
  destruct (decide (k = ("backend", backend_id))) as [->|Hb]; [by rewrite !lookup_insert_eq|].
  rewrite !(lookup_insert_ne _ ("backend", backend_id)) by done.
  destruct (decide (k = ("agent", agent_id))) as [->|Ha]; [by rewrite !lookup_insert_eq|].
  rewrite !(lookup_insert_ne _ ("agent", agent_id)) by done.
  rewrite !insert_zero_caps. by rewrite !decide_False.
Qed.

(** ** The inserted row *)

(** What a builder promises of the row it builds for a candidate backend. *)
Record builds (agent_id backend_id : string) (new : NewResource) : Prop := {
  bl_owner : r_owner_agent_id (nr_resource new) = agent_id;
  bl_backend : r_backend_id (nr_resource new) = backend_id;
  bl_life : life_of (nr_resource new) = initial_life;
  bl_unclaimed : r_worker_id (nr_resource new) = None;
  bl_timing : r_disconnected_at (nr_resource new) = None ∧ r_cooldown_until (nr_resource new) = None;
  bl_credentials : Forall (λ c, c_resource_id c = Some (r_id (nr_resource new))) (nr_credentials new)
}.

Lemma build_resource_builds encrypt agent_id client_token fingerprint name engine now entropy b :
  builds agent_id b (build_resource encrypt agent_id client_token fingerprint name engine now entropy b).
Proof. split; simpl; try done. by repeat constructor. Qed.

Lemma with_permission_snapshot_placed revision r r' :
  with_permission_snapshot revision r = Ret r' →
  r_id r' = r_id r ∧ r_owner_agent_id r' = r_owner_agent_id r ∧ r_backend_id r' = r_backend_id r
  ∧ r_worker_id r' = r_worker_id r ∧ r_disconnected_at r' = r_disconnected_at r
  ∧ r_cooldown_until r' = r_cooldown_until r ∧ life_of r' = life_of r.
Proof.
  unfold with_permission_snapshot, mbind, outcome_bind.
  destruct revision as [rev|]; [|by intros [= <-]].
  destruct (compile_permission_snapshot _ _ _ _ _); [|done]. by intros [= <-].
Qed.

Lemma resource_conflict_false r db :
  resource_conflict r db = false →
  ∀ k o, resources db !! k = Some o →
    r_id o ≠ r_id r
    ∧ (r_owner_agent_id o, r_client_token o) ≠ (r_owner_agent_id r, r_client_token r)
    ∧ (∀ t, r_tenant_name o = Some t → r_tenant_name r ≠ Some t).
Proof.
  intros Hc k o Ho. unfold resource_conflict in Hc.
  assert (o ∈ snd <$> map_to_list (resources db)) as Hin.
  { apply list_elem_of_fmap. exists (k, o). by rewrite elem_of_map_to_list. }
  destruct (existsb _ _) eqn:Hex; [done|]. clear Hc.
  assert (∀ b, b = false → ¬ b = true) as Hnot by (intros [] ?; done).
  apply Hnot in Hex. rewrite existsb_exists in Hex.
  split_and!; [intros E|intros [= E1 E2]|intros t E1 E2]; apply Hex; exists o;
    rewrite <-list_elem_of_In; (split; [done|]).
  - by rewrite E, String.eqb_refl.
  - by rewrite E1, E2, !String.eqb_refl, orb_true_r.
  - by rewrite E1, E2, String.eqb_refl, orb_true_r.
Qed.

Record insert_effect (config : TenantProvisioningConfig) (agent_id backend_id : string)
    (db db' : DB) (r : DBInstanceResource) : Prop := {
  ie_fresh : resource_conflict r db = false;
  ie_owner : r_owner_agent_id r = agent_id;
  ie_backend : r_backend_id r = backend_id;
  ie_life : life_of r = initial_life;
  ie_unclaimed : r_worker_id r = None;
  ie_timing : r_disconnected_at r = None ∧ r_cooldown_until r = None;
  ie_resources : resources db' = <[r_id r := r]> (resources db);
  ie_credentials : ∃ creds,
    Forall (λ c, c_resource_id c = Some (r_id r)) creds
    ∧ Forall (λ c, credentials db !! c_id c = None) creds
    ∧ credentials db' = foldr (λ c, <[c_id c := c]>) (credentials db) creds;
  ie_capacities : capacities db' =
    <[("backend", backend_id) := counter ("backend", backend_id) db + 1]>
      (<[("agent", agent_id) := counter ("agent", agent_id) db + 1]> (capacities db));
  ie_limits : ∃ a b, agents db !! agent_id = Some a ∧ backends db !! backend_id = Some b
    ∧ a_status a = AgentStatus.ACTIVE ∧ b_status b = ProvisioningBackendStatus.ACTIVE
    ∧ counter ("agent", agent_id) db < agent_limit_of config a
    ∧ counter ("backend", backend_id) db < b_max_active_resources b;
  ie_bound : binding_enabled agent_id backend_id db = true
}.

Lemma foldr_put_credential creds db :
  foldr put_credential db creds
  = db <| credentials := foldr (λ c, <[c_id c := c]>) (credentials db) creds |>.
Proof. induction creds as [|c creds IH]; simpl; [by destruct db|]. by rewrite IH. Qed.

Lemma placement_row_backend backend_id engine db b :
  placement_row backend_id engine db = Some b → backends db !! backend_id = Some b.
Proof.
  unfold placement_row. destruct (backends db !! backend_id) as [b0|]; simpl; [|done].
  destruct (b_instance_id b0) as [i|]; simpl; [|done].
  destruct (instances db !! i); simpl; [|done]. case_match; by intros [= <-].
Qed.

(** The conflict checks read the resources and the credentials only. *)
Lemma conflicts_ext db db' r creds :
  resources db' = resources db → credentials db' = credentials db →
  resource_conflict r db' || existsb (λ c, credential_conflict c db') creds = false →
  resource_conflict r db = false ∧ Forall (λ c, credentials db !! c_id c = None) creds.
Proof.
  unfold resource_conflict, credential_conflict. intros -> -> [Hr Hc]%orb_false_iff.
  split; [done|]. apply Forall_forall. intros c Hin. apply eq_None_not_Some. intros Hs.
  eapply (Bool.eq_true_false_abs _ _ Hc). Unshelve.
  apply existsb_exists. exists c. rewrite <-list_elem_of_In. split; [done|].
  by apply bool_decide_eq_true_2.
Qed.

Lemma ensured_frame agent_id backend_id db :
  resources (ensured agent_id backend_id db) = resources db
  ∧ credentials (ensured agent_id backend_id db) = credentials db.
Proof.
  unfold ensured. destruct (insert_zero_frame ("backend", backend_id)
    (insert_zero ("agent", agent_id) db)) as (-> & -> & _).
  destruct (insert_zero_frame ("agent", agent_id) db) as (-> & -> & _). done.
Qed.

Section reserve.
  Context (config : TenantProvisioningConfig).
  Context (hook : option (DBInstanceResource → M (Session DB) unit)) (Hhook : audit_hook hook).

(** One candidate, in a transaction that has written nothing yet: the resource
    is inserted and committed, or nothing is committed. *)
Lemma reserve_candidate_run now agent_id backend_id engine build db o :
  builds agent_id backend_id (build backend_id) →
  match reserve_candidate config hook now agent_id backend_id engine build
          (mk_session db db true o) with
  | (s, Ret r) => ∃ db', s = mk_session db' db' false o ∧ insert_effect config agent_id backend_id db db' r
  | (s, Raise _) => ∃ w, s = mk_session db w true o
  end.
Proof.
  intros Hb. unfold reserve_candidate, reserve_active_capacity_counters, set_counters, insert_resource.
  autorewrite with pas_txn.
  destruct (agents db !! agent_id) as [a|] eqn:Ha; [|by eexists].
  destruct (placement_row backend_id engine db) as [b|] eqn:Hpl; [|by eexists].
  destruct (_ || _ || _ || _) eqn:Hok; [by eexists|]. guards.
  autorewrite with pas_txn. rewrite locked_capacity_rows_run.
  destruct (_ || _) eqn:Hlim; [by eexists|]. guards. autorewrite with pas_txn.
  destruct (with_permission_snapshot _ _) as [r|e] eqn:Hsnap; [|by eexists].
  autorewrite with pas_txn.
  match goal with |- context [if ?b then raise _ else _] => destruct b eqn:Hconf end;
    [by eexists|].
  autorewrite with pas_txn. rewrite run_hook_bind by done.
  destruct (run_hook _ _ _).2; [|by eexists]. autorewrite with pas_txn.
  destruct (ensured_frame agent_id backend_id db) as [Hfr Hfc].
  apply conflicts_ext with (db := db) in Hconf as [Hfresh Hcreds]; [|exact Hfr|exact Hfc].
  destruct (with_permission_snapshot_placed _ _ _ Hsnap) as (Hid & ? & ? & ? & Hd & Hu & ?).
  destruct Hb as [Hown Hback Hlife Hwk [Hdn Hun] Hcr].
  eexists. split; [reflexivity|]. rewrite foldr_put_credential.
  split; simpl; try congruence.
  - by rewrite Hd, Hu.
  - exists (nr_credentials (build backend_id)). rewrite Hfc. split_and!; [|done|done].
    eapply Forall_impl; [exact Hcr|]. intros c ->. congruence.
  - apply ensured_overwritten.
  - exists a, b. apply placement_row_backend in Hpl. repeat split; try done; lia.
Qed.
End reserve.
