(* ===== verification/System.v ===== *)
(** * The system: all transactions, interleaved

    [sys_step] is one committed transaction of any dispatcher, request or
    administrator; [sys_reachable] what any interleaving of them produces.
    The invariant [consistent] holds of every reachable database. *)

From S2P Require Import Prelude Models Config WriteGuard Worker AdapterInterface Dispatcher.
From S2P Require Import Permission Contract Selector Capacity Service LifecycleSpec Lifecycle.
From S2P Require Import Reservation.

(** What the rest of the program may do to the database: anything to the tables
    of Agents, backends, instances, bindings, templates and health, and to
    credentials that do not belong to a resource. *)
Definition environment (db db' : DB) : Prop :=
  resources db' = resources db
  ∧ capacities db' = capacities db
  ∧ ∀ k c, is_Some (c_resource_id c) →
      credentials db' !! k = Some c ↔ credentials db !! k = Some c.

Section system.
  Context (config : TenantProvisioningConfig).

Inductive sys_step : DB → DB → Prop :=
| step_claim w now db : sys_step db (txn_db (claim_one config w now) db)
| step_renew w now rid db : sys_step db (txn_db (renew_claim config w now rid) db)
| step_release w rid db : sys_step db (txn_db (release_claim w rid) db)
| step_forward w rid e n db : sys_step db (txn_db (persist_forward_result w rid e n) db)
| step_ready w rid db : sys_step db (txn_db (finish_ready w rid) db)
| step_disabled w rid db : sys_step db (txn_db (queue_disabled w rid) db)
| step_disconnect w now rid e n db :
    sys_step db (txn_db (persist_disconnect_result w now rid e n) db)
| step_disconnect_failure w now rid x e db :
    sys_step db (txn_db (record_disconnect_failure config w now rid x e) db)
| step_begin_cleanup w now rid db : sys_step db (txn_db (begin_cleanup w now rid) db)
| step_cleanup w now rid st e n db :
    sys_step db (txn_db (persist_cleanup_result w now rid st e n) db)
| step_failure w now rid x ph st fs cs db :
    sys_step db (txn_db (record_failure config w now rid x ph st fs cs) db)
| step_restored w rid db : sys_step db (txn_db (finish_restore w rid) db)
| step_restore_failure w rid x db : sys_step db (txn_db (record_restore_failure w rid x) db)
| step_delete hook now agent_id rid db :
    audit_hook hook →
    sys_step db (txn_db (delete_db_instance_resource config hook now agent_id rid) db)
| step_restore rid db : sys_step db (txn_db (restore_db_instance_resource rid) db)
| step_reserve hook now agent_id backend_id engine build o db :
    audit_hook hook → builds agent_id backend_id (build backend_id) →
    sys_step db (committed (reserve_candidate config hook now agent_id backend_id engine build
      (mk_session db db true o)).1)
| step_environment db db' : environment db db' → sys_step db db'.

Definition sys_reachable (db : DB) : Prop := rtc sys_step empty_db db.

(** Every step is one of three effects. *)
Lemma step_effect db db' :
  sys_step db db' → rows_keyed db →
  environment db db' ∨ row_transaction db db'
  ∨ ∃ agent_id backend_id r, insert_effect config agent_id backend_id db db' r.
Proof.
  intros Hs Hk. destruct Hs;
    try (right; left; solve [eauto using claim_row, renew_claim_row, release_claim_row,
           persist_forward_row, finish_ready_row, queue_disabled_row, persist_disconnect_row,
           record_disconnect_failure_row, begin_cleanup_row, persist_cleanup_row,
           record_failure_row, finish_restore_row, record_restore_failure_row, delete_row,
           restore_row]).
  - pose proof (reserve_candidate_run config hook H now agent_id backend_id engine build db o H0) as Hr.
    destruct (reserve_candidate _ _ _ _ _ _ _ _) as [s [r|e]].
    + destruct Hr as (db' & -> & He). right. right. by exists agent_id, backend_id, r.
    + destruct Hr as [w ->]. right. left. by left.
  - by left.
Qed.

(** Rule induction over the runs of the system. *)
Lemma sys_reachable_rule (P : DB → Prop) :
  P empty_db → (∀ db db', sys_reachable db → sys_step db db' → P db → P db') →
  ∀ db, sys_reachable db → P db.
Proof. intros H0 Hstep. apply rtc_ind_r; [done|]. intros db db' Hr Hs HP. by eapply Hstep. Qed.

(** ** The invariant *)

Definition holds_agent_slot (a : string) (r : DBInstanceResource) : bool :=
  (r_owner_agent_id r == a) && negb (is_set (r_capacity_released_at r)).
Definition holds_backend_slot (b : string) (r : DBInstanceResource) : bool :=
  (r_backend_id r == b) && negb (is_set (r_capacity_released_at r)).

Record consistent (db : DB) : Prop := {
  cs_keyed : rows_keyed db;
  cs_lives : ∀ k r, resources db !! k = Some r → reachable (life_of r);
  cs_agents : ∀ a, counter ("agent", a) db = count_rows (holds_agent_slot a) (resources db);
  cs_backends : ∀ b, counter ("backend", b) db = count_rows (holds_backend_slot b) (resources db);
  cs_tokens : ∀ k1 k2 r1 r2, resources db !! k1 = Some r1 → resources db !! k2 = Some r2 →
    r_owner_agent_id r1 = r_owner_agent_id r2 → r_client_token r1 = r_client_token r2 → k1 = k2;
  cs_revoked : ∀ k r, resources db !! k = Some r → access_off (life_of r) →
    ∀ i c, credentials db !! i = Some c → is_resource_access k c = true →
      c_status c = CredentialStatus.REVOKED;
  cs_scrubbed : ∀ k r, resources db !! k = Some r → r_status r = DBInstanceStatus.DELETED →
    ∀ i c, credentials db !! i = Some c → is_resource_access k c = true →
      c_status c = CredentialStatus.REVOKED
      ∧ c_username_ciphertext c = None ∧ c_password_ciphertext c = None
}.

Lemma row_effect_keyed db db' r r' : row_effect db db' r r' → rows_keyed db → rows_keyed db'.
Proof.
  intros [Hf Hid _ Hres _ _] Hk k o Ho. rewrite Hres in Ho.
  apply lookup_insert_Some in Ho as [[<- <-]|[_ Ho]]; [|by apply Hk].
  unfold identity in Hid. congruence.
Qed.

(** A released row gives back exactly the slots it held. *)
Lemma capacity_effect_counter r r' db db' :
  identity r' = identity r →
  capacity_effect r r' (capacities db) (capacities db') →
  (∀ a, counter ("agent", a) db' = counter ("agent", a) db
          - (if holds_agent_slot a r then 1 else 0) + (if holds_agent_slot a r' then 1 else 0))
  ∧ (∀ b, counter ("backend", b) db' = counter ("backend", b) db
          - (if holds_backend_slot b r then 1 else 0) + (if holds_backend_slot b r' then 1 else 0)).
Proof.
  intros Hid. unfold capacity_effect, counter, holds_agent_slot, holds_backend_slot.
  assert (r_owner_agent_id r' = r_owner_agent_id r ∧ r_backend_id r' = r_backend_id r)
    as [-> ->] by (unfold identity in Hid; split; congruence).
  destruct (is_set (r_capacity_released_at r)).
  { intros [-> ->]. split; intros; rewrite !andb_false_r; lia. }
  destruct (is_set (r_capacity_released_at r')).
  - intros (x & y & Hx & Hy & _ & _ & ->).
    split; intros z; rewrite andb_true_r, andb_false_r; case_bool_decide; subst.
    + rewrite lookup_insert_ne, lookup_insert_eq, Hx by done. simpl. lia.
    + rewrite !lookup_insert_ne by congruence. lia.
    + rewrite lookup_insert_eq, Hy. simpl. lia.
    + rewrite !lookup_insert_ne by congruence. lia.
  - intros ->. split; intros; lia.
Qed.

Lemma update_where_lookup {V} (p : V → bool) f (m : gmap string V) i v :
  update_where p f m !! i = Some v →
  ∃ v0, m !! i = Some v0 ∧ v = if p v0 then f v0 else v0.
Proof.
  unfold update_where. rewrite lookup_fmap. destruct (m !! i) as [v0|]; [|done].
  intros [= <-]. by exists v0.
Qed.

Lemma is_resource_access_true k c :
  is_resource_access k c = true ↔
  c_resource_id c = Some k ∧ c_purpose c = CredentialPurpose.RESOURCE_ACCESS.
Proof. unfold is_resource_access. by rewrite andb_true_iff, !bool_decide_eq_true. Qed.

Lemma credential_effect_owner l l' g c :
  credential_effect l l' g → c_resource_id (g c) = c_resource_id c ∧ c_purpose (g c) = c_purpose c.
Proof. by destruct 1. Qed.

(** A credential of a rewritten table: which one it was, and whether the
    rewriting reached it. *)
Lemma credential_origin db db' l l' g rid i c k :
  credential_effect l l' g →
  credentials db' = update_where (is_resource_access rid) g (credentials db) →
  credentials db' !! i = Some c → is_resource_access k c = true →
  ∃ c0, credentials db !! i = Some c0 ∧ is_resource_access k c0 = true
      ∧ c = (if decide (k = rid) then g c0 else c0).
Proof.
  intros Hg -> Hi Hk. apply update_where_lookup in Hi as (c0 & Hi & ->). exists c0.
  pose proof (credential_effect_owner _ _ _ c0 Hg) as [Hown Hpur].
  apply is_resource_access_true in Hk as [Hres Hp].
  destruct (is_resource_access rid c0) eqn:Ha.
  - apply is_resource_access_true in Ha as [Hr' Hp'].
    rewrite decide_True by congruence. split_and!; [done| |done].
    apply is_resource_access_true. split; congruence.
  - rewrite decide_False; [split_and!; [done| |done]; by apply is_resource_access_true|].
    intros ->. apply (Bool.eq_true_false_abs _ (proj2 (is_resource_access_true rid c0) (conj Hres Hp)) Ha).
Qed.

Lemma row_effect_consistent db db' r r' : row_effect db db' r r' → consistent db → consistent db'.
Proof.
  intros He [Hk Hl Ha Hb Ht Hr Hs].
  pose proof (row_effect_keyed _ _ _ _ He Hk) as Hk'.
  destruct He as [Hf Hid Hlife Hres (g & Hg & Hcr) Hcap].
  assert (r_id r' = r_id r ∧ r_owner_agent_id r' = r_owner_agent_id r
    ∧ r_backend_id r' = r_backend_id r ∧ r_client_token r' = r_client_token r)
    as (Eid & Eown & Ebk & Etok) by (unfold identity in Hid; repeat split; congruence).
  split; [done| | | | | |].
  - intros k o Ho. rewrite Hres in Ho. apply lookup_insert_Some in Ho as [[<- <-]|[_ Ho]]; [|by eapply Hl].
    destruct Hlife as [->|Hstep]; [by eapply Hl|]. eapply rtc_r; [by eapply Hl|done].
  - intros a. rewrite Hres, (count_rows_insert _ _ _ r) by done.
    destruct (capacity_effect_counter _ _ _ _ Hid Hcap) as [-> _]. by rewrite Ha.
  - intros b. rewrite Hres, (count_rows_insert _ _ _ r) by done.
    destruct (capacity_effect_counter _ _ _ _ Hid Hcap) as [_ ->]. by rewrite Hb.
  - intros k1 k2 o1 o2 H1 H2 Ho Htk. rewrite Hres in H1, H2.
    apply lookup_insert_Some in H1 as [[<- <-]|[_ H1]];
      apply lookup_insert_Some in H2 as [[<- <-]|[_ H2]]; [done| | |];
      eapply Ht; eauto; congruence.
  - intros k o Ho Hoff i c Hi Hacc.
    destruct (credential_origin _ _ _ _ _ _ _ _ _ Hg Hcr Hi Hacc) as (c0 & Hi0 & Hacc0 & ->).
    rewrite Hres in Ho. apply lookup_insert_Some in Ho as [[<- <-]|[Hne Ho]].
    + rewrite decide_True by done. destruct Hg as [Hkeep _|_|Hready Hpend|]; try done.
      * eapply Hr; [exact Hf| |exact Hi0|exact Hacc0]. apply Hkeep; [|done].
        by eapply reachable_inv, Hl.
      * exfalso. destruct Hoff as [?|[?|[?|?]]]; congruence.
    + rewrite decide_False by congruence. by eapply Hr.
  - intros k o Ho Hdel i c Hi Hacc.
    destruct (credential_origin _ _ _ _ _ _ _ _ _ Hg Hcr Hi Hacc) as (c0 & Hi0 & Hacc0 & ->).
    rewrite Hres in Ho. apply lookup_insert_Some in Ho as [[<- <-]|[Hne Ho]].
    + rewrite decide_True by done. destruct Hg as [_ Hkeep|Hnd|Hready|]; try done.
      * eapply Hs; [exact Hf| |exact Hi0|exact Hacc0]. by apply Hkeep.
      * simpl in Hready. congruence.
    + rewrite decide_False by congruence. by eapply Hs.
Qed.
Lemma foldr_insert_lookup (creds : list InstanceCredential) (m : gmap string InstanceCredential) i c :
  foldr (λ c, <[c_id c := c]>) m creds !! i = Some c → c ∈ creds ∨ m !! i = Some c.
Proof.
  induction creds as [|d creds IH]; simpl; [by right|].
  intros [[_ <-]|[_ H]]%lookup_insert_Some; [left; by left|].
  destruct (IH H) as [?|?]; [left; by right|by right].
Qed.

Lemma insert_effect_new a b db db' r :
  insert_effect config a b db db' r → rows_keyed db → resources db !! r_id r = None.
Proof.
  intros He Hk. apply eq_None_not_Some. intros [o Ho].
  destruct (resource_conflict_false _ _ (ie_fresh _ _ _ _ _ _ He) _ _ Ho) as [Hne _].
  by apply Hne, Hk.
Qed.

Lemma insert_effect_consistent a b db db' r :
  insert_effect config a b db db' r → consistent db → consistent db'.
Proof.
  intros He [Hk Hl Ha Hb Ht Hr Hs].
  pose proof (insert_effect_new _ _ _ _ _ He Hk) as Hnew.
  destruct He as [Hfresh Hown Hbk Hlife _ _ Hres (creds & Hcr & Hcf & Hcreds) Hcap _ _].
  pose proof (resource_conflict_false _ _ Hfresh) as Hconf.
  assert (∀ k o i c, k ≠ r_id r → credentials db' !! i = Some c → is_resource_access k c = true →
    resources db !! k = Some o → credentials db !! i = Some c) as Hold.
  { intros k o i c Hne Hi Hacc _. rewrite Hcreds in Hi.
    apply foldr_insert_lookup in Hi as [Hin|Hi]; [|done].
    eapply Forall_forall in Hcr; [|exact Hin].
    apply is_resource_access_true in Hacc as [? _]. congruence. }
  assert (is_set (r_capacity_released_at r) = false) as Hrel
    by (change (l_released (life_of r) = false); by rewrite Hlife).
  split.
  - intros k o Ho. rewrite Hres in Ho. apply lookup_insert_Some in Ho as [[<- <-]|[_ Ho]]; [done|by apply Hk].
  - intros k o Ho. rewrite Hres in Ho. apply lookup_insert_Some in Ho as [[<- <-]|[_ Ho]]; [|by eapply Hl].
    rewrite Hlife. apply rtc_refl.
  - intros z. rewrite Hres, count_rows_insert_new by done. unfold counter. rewrite Hcap.
    rewrite lookup_insert_ne by done. unfold holds_agent_slot at 1. rewrite Hown, Hrel, andb_true_r.
    case_bool_decide as Hz; subst.
    + rewrite lookup_insert_eq. simpl. rewrite Ha. lia.
    + rewrite lookup_insert_ne by congruence. apply Ha.
  - intros z. rewrite Hres, count_rows_insert_new by done. unfold counter. rewrite Hcap.
    unfold holds_backend_slot at 1. rewrite Hbk, Hrel, andb_true_r.
    case_bool_decide as Hz; subst.
    + rewrite lookup_insert_eq. simpl. rewrite Hb. lia.
    + rewrite !lookup_insert_ne by congruence. apply Hb.
  - intros k1 k2 o1 o2 H1 H2 Ho Htk. rewrite Hres in H1, H2.
    apply lookup_insert_Some in H1 as [[<- <-]|[_ H1]];
      apply lookup_insert_Some in H2 as [[<- <-]|[_ H2]]; [done| | |by eapply Ht].
    + destruct (Hconf _ _ H2) as (_ & Hc & _). congruence.
    + destruct (Hconf _ _ H1) as (_ & Hc & _). congruence.
  - intros k o Ho Hoff i c Hi Hacc. rewrite Hres in Ho.
    apply lookup_insert_Some in Ho as [[<- <-]|[Hne Ho]].
    + rewrite Hlife in Hoff. destruct Hoff as [?|[?|[?|?]]]; done.
    + eapply Hr; eauto.
  - intros k o Ho Hdel i c Hi Hacc. rewrite Hres in Ho.
    apply lookup_insert_Some in Ho as [[<- <-]|[Hne Ho]].
    + change (l_status (life_of r) = DBInstanceStatus.DELETED) in Hdel. by rewrite Hlife in Hdel.
    + eapply Hs; eauto.
Qed.

Lemma environment_consistent db db' : environment db db' → consistent db → consistent db'.
Proof.
  intros (Hres & Hcap & Hcr) [Hk Hl Ha Hb Ht Hr Hs].
  assert (∀ k i c, credentials db' !! i = Some c → is_resource_access k c = true →
    credentials db !! i = Some c) as Hold.
  { intros k i c Hi Hacc. apply Hcr; [|done].
    apply is_resource_access_true in Hacc as [-> _]. by eexists. }
  split; unfold rows_keyed, counter; rewrite ?Hres, ?Hcap; eauto.
Qed.

Lemma consistent_empty : consistent empty_db.
Proof.
  split; unfold rows_keyed, counter; simpl; intros; rewrite ?lookup_empty in *; simplify_eq/=; try done;
    by rewrite count_rows_empty.
Qed.

Lemma step_consistent db db' : sys_step db db' → consistent db → consistent db'.
Proof.
  intros Hs Hc.
  destruct (step_effect _ _ Hs (cs_keyed _ Hc)) as [He|[[->|(r & r' & He)]|(a & b & r & He)]];
    eauto using environment_consistent, row_effect_consistent, insert_effect_consistent.
Qed.

Lemma sys_reachable_consistent db : sys_reachable db → consistent db.
Proof.
  unfold sys_reachable. generalize consistent_empty. intros H0 Hr.
  induction Hr; eauto using step_consistent.
Qed.

Lemma steps_consistent db db' : rtc sys_step db db' → consistent db → consistent db'.
Proof. induction 1; eauto using step_consistent. Qed.

(** ** One row along a run *)

Definition row_moves (db db' : DB) : Prop :=
  ∀ k r, resources db !! k = Some r →
    ∃ r', resources db' !! k = Some r' ∧ identity r' = identity r
        ∧ rtc life_step (life_of r) (life_of r').

Lemma step_row_moves db db' : sys_step db db' → consistent db → row_moves db db'.
Proof.
  intros Hs Hc k r Hr.
  destruct (step_effect _ _ Hs (cs_keyed _ Hc)) as [He|[[->|(r0 & r1 & He)]|(a & b & r0 & He)]].
  - destruct He as [-> _]. by exists r.
  - by exists r.
  - destruct He as [Hf Hid Hlife Hres _ _]. rewrite Hres.
    destruct (decide (k = r_id r0)) as [->|Hne].
    + assert (r = r0) as -> by congruence. exists r1. rewrite lookup_insert_eq. split_and!; [done..|].
      destruct Hlife as [->|?]; [done|by apply rtc_once].
    + exists r. by rewrite lookup_insert_ne.
  - pose proof (insert_effect_new _ _ _ _ _ He (cs_keyed _ Hc)) as Hnew.
    rewrite (ie_resources _ _ _ _ _ _ He). exists r. rewrite lookup_insert_ne; [done|congruence].
Qed.

Lemma steps_row_moves db db' : rtc sys_step db db' → consistent db → row_moves db db'.
Proof.
  induction 1 as [db|db db1 db2 Hs _ IH]; intros Hc k r Hr; [by exists r|].
  destruct (step_row_moves _ _ Hs Hc k r Hr) as (r1 & Hr1 & Hid1 & Hm1).
  destruct (IH (step_consistent _ _ Hs Hc) k r1 Hr1) as (r2 & Hr2 & Hid2 & Hm2).
  exists r2. split_and!; [done|congruence|by etrans].
Qed.
End system.

(** Steps are found by the transaction's name: constants are not unfolded. *)
Create HintDb pas_steps discriminated.
#[export] Hint Constants Opaque : pas_steps.
#[export] Hint Constructors sys_step : pas_steps.
