(* ===== verification/Dispatching.v ===== *)
(** * The dispatch loop against the system

    Every run of [run_once] is a sequence of system steps, and its loop ends
    within [loop_measure] iterations. *)

From S2P Require Import Prelude Models Config WriteGuard Worker AdapterInterface Dispatcher.
From S2P Require Import DispatchLoop Permission Contract Selector Capacity Service LifecycleSpec.
From S2P Require Import Lifecycle Reservation System.

(** ** Refinement *)

Section refinement.
  Context {X : Type} (config : TenantProvisioningConfig) (worker_id : string).
  Context (registry : AdapterRegistry X) (clock : nat → time).

(** A program that changes the database by system steps only. *)
Definition refines {A : Type} (m : M (World X) A) : Prop :=
  ∀ w, rtc (sys_step config) (w_db w) (w_db (m w).1).

(** While an adapter talks to the outside services, any other dispatcher or
    request may commit transactions. *)
Record interleaved (a : ProvisioningAdapter X) : Prop := {
  il_create : ∀ l, refines (adapter_create a l);
  il_delete : ∀ l, refines (adapter_delete a l);
  il_verify : ∀ l, refines (adapter_verify a l);
  il_disconnect : ∀ l, refines (adapter_disconnect a l);
  il_restore : ∀ l, refines (adapter_restore a l)
}.

Lemma refines_leaves {A} (m : M (World X) A) : leaves_db m → refines m.
Proof. intros Hm w. rewrite Hm. apply rtc_refl. Qed.

Lemma interleaved_frame (a : ProvisioningAdapter X) : AdapterFrame a → interleaved a.
Proof.
  intros [Hc Hd Hv Hdis Hr _].
  split; intros l; apply refines_leaves; auto.
Qed.

Lemma refines_ret {A} (a : A) : refines (mret a).
Proof. by apply refines_leaves. Qed.
Lemma refines_raise {A} e : refines (raise (A:=A) e).
Proof. by apply refines_leaves. Qed.
Lemma refines_outcome {A} (o : outcome A) : refines (lift_outcome o).
Proof. by apply refines_leaves. Qed.

Lemma refines_bind {A B} (m : M (World X) A) (k : A → M (World X) B) :
  refines m → (∀ a, refines (k a)) → refines (m ≫= k).
Proof.
  intros Hm Hk w. unfold mbind, M_bind. specialize (Hm w).
  destruct (m w) as [w1 [a|e]]; simpl in *; [|done]. etrans; [exact Hm|apply Hk].
Qed.

Lemma refines_try {A} (m : M (World X) A) h :
  refines m → (∀ e, refines (h e)) → refines (try_except m h).
Proof.
  intros Hm Hh w. unfold try_except. specialize (Hm w).
  destruct (m w) as [w1 [a|e]]; simpl in *; [done|]. etrans; [exact Hm|apply Hh].
Qed.

Lemma refines_try_else {A B} (m : M (World X) A) h (k : A → M (World X) B) :
  refines m → (∀ e, refines (h e)) → (∀ a, refines (k a)) → refines (try_else m h k).
Proof.
  intros Hm Hh Hk w. unfold try_else. specialize (Hm w).
  destruct (m w) as [w1 [a|e]]; simpl in *; (etrans; [exact Hm|]); [apply Hk|apply Hh].
Qed.

Lemma refines_txn {A} (m : M (Session DB) A) :
  (∀ db, sys_step config db (txn_db m db)) → refines (with_db m).
Proof.
  intros Hm w. unfold with_db. specialize (Hm (w_db w)). unfold txn_db in Hm.
  destruct (with_session m (w_db w)) as [db o]. by apply rtc_once.
Qed.

Lemma refines_at_now {A} (m : time → M (Session DB) A) :
  (∀ now db, sys_step config db (txn_db (m now) db)) → refines (at_now clock m).
Proof.
  intros Hm. apply refines_bind; [by apply refines_leaves|]. intros now. by apply refines_txn.
Qed.

Lemma refines_if {A} (b : bool) (m1 m2 : M (World X) A) :
  refines m1 → refines m2 → refines (if b then m1 else m2).
Proof. by destruct b. Qed.

Lemma load_claimed_leaves rid : leaves_db (X:=X) (with_db (load_claimed worker_id rid)).
Proof.
  intros w. unfold with_db, with_session, load_claimed, locked_resource, open_session.
  by run_branches.
Qed.

Context (Hreg : ∀ key a, registry !! key = Some a → interleaved a).

Lemma refines_lookup {A} e t (k : ProvisioningAdapter X → M (World X) A) :
  (∀ a, interleaved a → refines (k a)) →
  refines (adapter ← lift_outcome (registry_get registry e t); k adapter).
Proof.
  intros Hk. unfold registry_get. destruct (registry !! _) as [a|] eqn:Ha; [|apply refines_raise].
  intros w. apply Hk. by eapply Hreg.
Qed.

Lemma refines_pick {A} backend instance (k : ProvisioningAdapter X → M (World X) A) :
  (∀ a, interleaved a → refines (k a)) →
  refines (adapter ← pick_adapter registry backend instance; k adapter).
Proof.
  intros Hk. unfold pick_adapter.
  destruct backend; [destruct instance as [i|]|]; try apply refines_raise. by apply refines_lookup.
Qed.

Ltac refine_step :=
  lazymatch goal with
  | |- refines (mret _) => apply refines_ret
  | |- refines (raise _) => apply refines_raise
  | |- refines (lift_outcome _) => apply refines_outcome
  | |- refines (with_db _) => apply refines_txn; intros; auto with pas_steps
  | |- refines (at_now _ _) => apply refines_at_now; intros; auto with pas_steps
  | |- refines (if _ then _ else _) => apply refines_if
  | |- refines (try_except _ _) => apply refines_try; [|intros ?]
  | |- refines (_ ≫= _) => apply refines_bind; [|intros ?]
  end.

Lemma restore_step_refines rid l b i : refines (restore_step worker_id registry rid l b i).
Proof.
  apply refines_try_else; [|intros; by refine_step..].
  apply refines_pick. intros a Ha. apply (il_restore a Ha).
Qed.

Lemma disconnect_step_refines rid l b i :
  refines (disconnect_step config worker_id registry clock rid l b i).
Proof.
  apply refines_try; [|intros; by repeat refine_step].
  apply refines_pick. intros a Ha. apply refines_bind; [apply (il_disconnect a Ha)|].
  intros; by refine_step.
Qed.

Lemma cleanup_step_refines rid l b i :
  refines (cleanup_step config worker_id registry clock rid l b i).
Proof.
  apply refines_try; [|intros; by repeat refine_step].
  apply refines_pick. intros a Ha. apply refines_bind; [apply (il_delete a Ha)|].
  intros; by refine_step.
Qed.

Lemma forward_step_refines rid l b i :
  refines (forward_step config worker_id registry clock rid l b i).
Proof.
  apply refines_try; [|intros; by repeat refine_step].
  destruct b as [b|]; [destruct i as [i|]|]; try apply refines_raise.
  apply refines_if; [by repeat refine_step|]. apply refines_lookup. intros a [Hc _ Hv _ _].
  apply refines_if; [by repeat refine_step|].
  apply refines_bind; [by apply refines_if|]. intros; by refine_step.
Qed.

Lemma dispatch_iteration_refines rid :
  refines (dispatch_iteration config worker_id registry clock rid).
Proof.
  apply refines_bind; [apply refines_leaves, load_claimed_leaves|]. intros [[[l b] i]|]; [|apply refines_ret].
  repeat apply refines_if;
    eauto using disconnect_step_refines, cleanup_step_refines, forward_step_refines.
  - apply refines_bind; [apply restore_step_refines|intros; apply refines_ret].
  - by refine_step.
  - by repeat refine_step.
Qed.

Lemma dispatch_claimed_refines fuel rid :
  refines (dispatch_claimed config worker_id registry clock fuel rid).
Proof.
  induction fuel as [|fuel IH]; simpl; [apply refines_ret|].
  apply refines_bind; [apply dispatch_iteration_refines|]. intros again.
  by apply refines_if; [|apply refines_ret].
Qed.

Lemma run_once_steps fuel : refines (run_once config worker_id registry clock fuel).
Proof.
  apply refines_bind; [by refine_step|]. intros [rid|]; [|apply refines_ret].
  apply refines_bind; [apply dispatch_claimed_refines|]. intros; apply refines_ret.
Qed.
End refinement.

(** ** Termination *)

Definition provisioning_left (s : LeaseProvisioningStep.t) : nat :=
  match s with
  | LeaseProvisioningStep.PENDING => 6
  | LeaseProvisioningStep.RESOURCE_CONFIG_CREATED => 5
  | LeaseProvisioningStep.TENANT_CREATED => 4
  | LeaseProvisioningStep.USER_CREATED => 3
  | LeaseProvisioningStep.DATABASE_CREATED => 2
  | LeaseProvisioningStep.GRANTED => 1
  | LeaseProvisioningStep.VERIFIED => 0
  end.

Definition cleanup_left (s : LeaseCleanupStep.t) : nat :=
  match s with
  | LeaseCleanupStep.PENDING => 3
  | LeaseCleanupStep.DATABASE_DROPPED => 2
  | LeaseCleanupStep.TENANT_DROPPED => 1
  | LeaseCleanupStep.RESOURCE_CONFIG_DROPPED | LeaseCleanupStep.RESIDUE_VERIFIED => 0
  end.

Definition disconnect_left (s : DeleteLifecycleStep.t) : nat :=
  match s with
  | DeleteLifecycleStep.PENDING => 2
  | DeleteLifecycleStep.ACCOUNT_LOCKED => 1
  | _ => 0
  end.

(** How many more times the loop can go round for a row. *)
Definition loop_measure (r : DBInstanceResource) : nat :=
  match r_status r with
  | DBInstanceStatus.CREATING => provisioning_left (r_provisioning_step r)
  | DBInstanceStatus.DELETING =>
      if irreversible (r_delete_step r) then cleanup_left (r_cleanup_step r)
      else disconnect_left (r_delete_step r)
  | DBInstanceStatus.COOLING_DOWN => 4
  | DBInstanceStatus.FAILED => cleanup_left (r_cleanup_step r)
  | _ => 0
  end.

Section termination.
  Context (config : TenantProvisioningConfig) (worker_id : string).

(** A transaction that answers [true] brought the row closer to the end. *)
Definition progresses (rid : string) (m : M (Session DB) bool) : Prop :=
  ∀ db db', rows_keyed db → with_session m db = (db', Ret true) →
    ∃ r r', resources db !! rid = Some r ∧ resources db' !! rid = Some r'
          ∧ (loop_measure r' < loop_measure r)%nat.

Definition never_raises {A} (m : M (Session DB) A) : Prop :=
  ∀ db, ∃ a, (with_session m db).2 = Ret a.

Ltac progress_row :=
  intros db db' Hk;
  unfold claim_serialization, locked_resource, locked_backend, save, abandon;
  run_branches; intros; simplify_eq; guards;
  match goal with
  | H : resources ?db !! ?rid = Some ?r |- _ =>
      let Hid := fresh "Hid" in
      pose proof (Hk _ _ H) as Hid; exists r; eexists;
      split; [reflexivity|]; split; [by rewrite <-Hid; apply lookup_insert_eq|];
      unfold loop_measure; simpl
  end.

Lemma persist_forward_progress rid e n : progresses rid (persist_forward_result worker_id rid e n).
Proof.
  unfold persist_forward_result. progress_row. subst.
  match goal with H : r_status _ = DBInstanceStatus.CREATING |- _ => rewrite H end.
  destruct (r_provisioning_step _); simplify_eq/=; lia.
Qed.

Lemma persist_disconnect_progress now rid e n :
  progresses rid (persist_disconnect_result worker_id now rid e n).
Proof.
  unfold persist_disconnect_result. progress_row. subst.
  match goal with H : r_status _ = DBInstanceStatus.DELETING |- _ => rewrite H end.
  destruct (r_delete_step _); simplify_eq/=; lia.
Qed.

Lemma begin_cleanup_progress now rid : progresses rid (begin_cleanup worker_id now rid).
Proof.
  unfold begin_cleanup. progress_row.
  match goal with H : r_status _ = DBInstanceStatus.COOLING_DOWN |- _ => rewrite H end.
  destruct (r_cleanup_step _); simpl; lia.
Qed.

Lemma persist_cleanup_progress now rid st e n :
  progresses rid (persist_cleanup_result worker_id now rid st e n).
Proof.
  unfold persist_cleanup_result, finish_cleanup_locked, release_capacity. progress_row.
  rewrite andb_false_r, andb_true_r in Heqb. guards. subst. unfold needs_cleanup in *. either_guard;
    repeat match goal with H : r_status _ = _ |- _ => rewrite H end;
    repeat match goal with H : r_delete_step _ = _ |- _ => rewrite H end; simpl;
    destruct (r_cleanup_step _); simplify_eq/=; lia.
Qed.

Ltac total_row :=
  intros db; unfold claim_serialization, locked_resource, locked_backend, save, abandon;
  run_branches; eauto.

Lemma begin_cleanup_total now rid : never_raises (begin_cleanup worker_id now rid).
Proof. unfold begin_cleanup. total_row. Qed.
Lemma finish_restore_total rid : never_raises (finish_restore worker_id rid).
Proof. unfold finish_restore. total_row. Qed.
Lemma finish_ready_total rid : never_raises (finish_ready worker_id rid).
Proof. unfold finish_ready. total_row. Qed.
Lemma queue_disabled_total rid : never_raises (queue_disabled worker_id rid).
Proof. unfold queue_disabled. total_row. Qed.
Lemma release_claim_total rid : never_raises (release_claim worker_id rid).
Proof. unfold release_claim. total_row. Qed.
Lemma record_restore_failure_total rid x : never_raises (record_restore_failure worker_id rid x).
Proof. unfold record_restore_failure. total_row. Qed.
Lemma record_disconnect_failure_total now rid x e :
  never_raises (record_disconnect_failure config worker_id now rid x e).
Proof. unfold record_disconnect_failure. total_row. Qed.
Lemma record_failure_total now rid x ph st fs cs :
  never_raises (record_failure config worker_id now rid x ph st fs cs).
Proof. unfold record_failure. total_row. Qed.
Lemma load_claimed_total rid : never_raises (load_claimed worker_id rid).
Proof.
  intros db. unfold with_session, load_claimed, locked_resource, open_session. run_branches; eauto.
Qed.

Context {X : Type} (registry : AdapterRegistry X) (clock : nat → time).
Context (Hreg : ∀ key a, registry !! key = Some a → AdapterFrame a).

(** A piece of an iteration: it returns, and when it answers [true] the row is
    closer to the end. *)
Definition iterates (rid : string) (m : M (World X) bool) : Prop :=
  ∀ w, rows_keyed (w_db w) → ∃ b, (m w).2 = Ret b
    ∧ (b = true → ∃ r r', resources (w_db w) !! rid = Some r
         ∧ resources (w_db (m w).1) !! rid = Some r' ∧ (loop_measure r' < loop_measure r)%nat).

(** ... or raises, for the body of a [try]. *)
Definition may_iterate (rid : string) (m : M (World X) bool) : Prop :=
  ∀ w, rows_keyed (w_db w) →
    match (m w).2 with
    | Ret true => ∃ r r', resources (w_db w) !! rid = Some r
         ∧ resources (w_db (m w).1) !! rid = Some r' ∧ (loop_measure r' < loop_measure r)%nat
    | _ => True
    end.

(** What follows in a handler or at the end of a branch: [false]. *)
Definition finishes {A} (m : M (World X) A) : Prop := ∀ w, ∃ a, (m w).2 = Ret a.

Lemma finishes_with_db {A} (m : M (Session DB) A) : never_raises m → finishes (with_db m).
Proof.
  intros Hm w. unfold with_db. destruct (Hm (w_db w)) as [a Ha].
  destruct (with_session m (w_db w)) as [db o]. simpl in *. by exists a.
Qed.

Lemma finishes_at_now {A} (m : time → M (Session DB) A) :
  (∀ now, never_raises (m now)) → finishes (at_now clock m).
Proof. intros Hm w. by apply finishes_with_db. Qed.

Lemma iterates_false {A} (m : M (World X) A) rid : finishes m → iterates rid (m ;; mret false).
Proof.
  intros Hm w _. exists false. split; [|done]. unfold mbind, M_bind. destruct (Hm w) as [a Ha].
  destruct (m w) as [w1 o]. simpl in *. by subst.
Qed.

Lemma iterates_try {A} m (h : PyExc → M (World X) A) rid :
  may_iterate rid m → (∀ e, finishes (h e)) → iterates rid (try_except m (λ e, h e ;; mret false)).
Proof.
  intros Hm Hh w Hk. unfold try_except. specialize (Hm w Hk).
  destruct (m w) as [w1 [b|e]]; simpl in *.
  - exists b. split; [done|]. intros ->. exact Hm.
  - exists false. split; [|done]. unfold mbind, M_bind. destruct (Hh e w1) as [a Ha].
    destruct (h e w1) as [w2 o]. simpl in *. by subst.
Qed.

Lemma iterates_bind {A} (m : M (World X) A) k rid :
  leaves_db m → finishes m → (∀ a, iterates rid (k a)) → iterates rid (m ≫= k).
Proof.
  intros Hl Hm Hk w Hw. unfold mbind, M_bind. specialize (Hl w). destruct (Hm w) as [a Ha].
  destruct (m w) as [w1 o]. simpl in *. subst o. rewrite <-Hl in *. by apply Hk.
Qed.

Lemma iterates_if (c : bool) m1 m2 rid :
  iterates rid m1 → iterates rid m2 → iterates rid (if c then m1 else m2).
Proof. by destruct c. Qed.

Lemma may_iterate_raise e rid : may_iterate rid (raise e).
Proof. done. Qed.

Lemma may_iterate_bind {A} (m : M (World X) A) k rid :
  leaves_db m → (∀ a, may_iterate rid (k a)) → may_iterate rid (m ≫= k).
Proof.
  intros Hm Hk w Hw. unfold mbind, M_bind. specialize (Hm w).
  destruct (m w) as [w1 [a|e]]; simpl in *; [|done]. specialize (Hk a w1).
  rewrite <-Hm in *. by apply Hk.
Qed.

Lemma may_iterate_with_db (m : M (Session DB) bool) rid : progresses rid m → may_iterate rid (with_db m).
Proof.
  intros Hm w Hw. unfold with_db. specialize (Hm (w_db w)).
  destruct (with_session m (w_db w)) as [db [[]|e]]; simpl; [|done..]. by apply Hm.
Qed.

Lemma may_iterate_at_now (m : time → M (Session DB) bool) rid :
  (∀ now, progresses rid (m now)) → may_iterate rid (at_now clock m).
Proof. intros Hm. apply may_iterate_bind; [done|]. intros now. by apply may_iterate_with_db. Qed.

Lemma may_iterate_false {A} (m : M (World X) A) rid : may_iterate rid (m ;; mret false).
Proof. intros w _. unfold mbind, M_bind. by destruct (m w) as [w1 [a|e]]. Qed.

Lemma may_iterate_lookup e t (k : ProvisioningAdapter X → M (World X) bool) rid :
  (∀ a, AdapterFrame a → may_iterate rid (k a)) →
  may_iterate rid (a ← lift_outcome (registry_get registry e t); k a).
Proof.
  intros Hk. unfold registry_get. destruct (registry !! _) as [a|] eqn:Ha; [|done].
  intros w. apply Hk. by eapply Hreg.
Qed.

Lemma may_iterate_pick b i (k : ProvisioningAdapter X → M (World X) bool) rid :
  (∀ a, AdapterFrame a → may_iterate rid (k a)) →
  may_iterate rid (a ← pick_adapter registry b i; k a).
Proof.
  intros Hk. unfold pick_adapter. destruct b; [destruct i as [i|]|]; try done.
  by apply may_iterate_lookup.
Qed.

Lemma forward_step_iterates rid l b i :
  iterates rid (forward_step config worker_id registry clock rid l b i).
Proof.
  apply iterates_try.
  - destruct b as [b|]; [destruct i as [i|]|]; try apply may_iterate_raise.
    destruct (b_status b == _); [apply may_iterate_false|].
    apply may_iterate_lookup. intros a [Hc _ Hv _ _ _].
    destruct (r_provisioning_step _ == _); [apply may_iterate_false|].
    apply may_iterate_bind; [by destruct (_ == _)|].
    intros r. apply may_iterate_with_db, persist_forward_progress.
  - intros e. apply finishes_at_now. intros. apply record_failure_total.
Qed.

Lemma disconnect_step_iterates rid l b i :
  iterates rid (disconnect_step config worker_id registry clock rid l b i).
Proof.
  apply iterates_try.
  - apply may_iterate_pick. intros a Ha. apply may_iterate_bind; [apply (frame_disconnect (a:=a))|].
    intros r. apply may_iterate_at_now. intros. apply persist_disconnect_progress.
  - intros e. apply finishes_at_now. intros. apply record_disconnect_failure_total.
Qed.

Lemma cleanup_step_iterates rid l b i :
  iterates rid (cleanup_step config worker_id registry clock rid l b i).
Proof.
  apply iterates_try.
  - apply may_iterate_pick. intros a Ha. apply may_iterate_bind; [apply (frame_delete (a:=a))|].
    intros r. apply may_iterate_at_now. intros. apply persist_cleanup_progress.
  - intros e. apply finishes_at_now. intros. apply record_failure_total.
Qed.

Lemma restore_step_finishes rid l b i : finishes (restore_step worker_id registry rid l b i).
Proof.
  intros w. unfold restore_step, try_else.
  destruct (mbind (M:=M (World X)) _ _ w) as [w1 [a|e]].
  - apply finishes_with_db, finish_restore_total.
  - apply finishes_with_db, record_restore_failure_total.
Qed.

Lemma begin_cleanup_iterates rid : iterates rid (at_now clock (λ now, begin_cleanup worker_id now rid)).
Proof.
  intros w Hk. destruct (finishes_at_now (λ now, begin_cleanup worker_id now rid)
    (λ now, begin_cleanup_total now rid) w) as [b Hb].
  exists b. split; [done|]. intros ->.
  pose proof (may_iterate_at_now (λ now, begin_cleanup worker_id now rid) rid
    (λ now, begin_cleanup_progress now rid) w Hk) as Hp. by rewrite Hb in Hp.
Qed.

Lemma dispatch_iteration_iterates rid :
  iterates rid (dispatch_iteration config worker_id registry clock rid).
Proof.
  apply iterates_bind; [apply load_claimed_leaves|apply finishes_with_db, load_claimed_total|].
  intros [[[l b] i]|]; [|intros w _; by exists false].
  repeat apply iterates_if;
    eauto using begin_cleanup_iterates, disconnect_step_iterates, cleanup_step_iterates,
      forward_step_iterates, iterates_false, restore_step_finishes, finishes_with_db,
      release_claim_total.
Qed.

Lemma frames_interleave : ∀ key a, registry !! key = Some a → interleaved config a.
Proof. intros key a Ha. apply interleaved_frame. by eapply Hreg. Qed.

Lemma iteration_keyed rid w : consistent (w_db w) →
  consistent (w_db (dispatch_iteration config worker_id registry clock rid w).1).
Proof.
  intros Hc. eapply steps_consistent; [|done].
  apply (dispatch_iteration_refines config worker_id registry clock frames_interleave).
Qed.

Lemma dispatch_terminates rid fuel w :
  consistent (w_db w) →
  (∀ r, resources (w_db w) !! rid = Some r → (loop_measure r < fuel)%nat) → (0 < fuel)%nat →
  (dispatch_claimed config worker_id registry clock fuel rid w).2 = Ret true.
Proof.
  induction fuel as [|fuel IH] in w |- *; [lia|]. intros Hc Hm _. simpl.
  unfold mbind at 1, M_bind at 1.
  destruct (dispatch_iteration_iterates rid w (cs_keyed _ Hc)) as (b & Hb & Hprog).
  pose proof (iteration_keyed rid w Hc) as Hc1.
  destruct (dispatch_iteration _ _ _ _ _ w) as [w1 o]. simpl in *. subst o.
  destruct b; [|done]. destruct (Hprog eq_refl) as (r & r' & Hr & Hr' & Hlt).
  specialize (Hm r Hr). apply IH; [done| |lia]. intros r2 Hr2. simplify_eq. lia.
Qed.

Lemma loop_measure_bound r : (loop_measure r < 7)%nat.
Proof.
  unfold loop_measure.
  destruct (r_status r), (r_provisioning_step r), (r_cleanup_step r), (r_delete_step r); simpl; lia.
Qed.
End termination.

(** More fuel does not change the result of a loop that ended. *)
Lemma dispatch_fuel {X} (config : TenantProvisioningConfig) (worker_id : string) (registry : AdapterRegistry X) clock n m rid w w' :
  dispatch_claimed config worker_id registry clock n rid w = (w', Ret true) → (n <= m)%nat →
  dispatch_claimed config worker_id registry clock m rid w = (w', Ret true).
Proof.
  induction n as [|n IH] in m, w |- *; simpl; [done|]. intros Hrun Hle.
  destruct m as [|m]; [lia|]. simpl. unfold mbind, M_bind in *.
  destruct (dispatch_iteration _ _ _ _ _ w) as [w1 [[]|e]]; [|done..].
  apply IH; [done|lia].
Qed.
