(* ===== verification/Transactions.v ===== *)
(** * Code over one session, as steps of a system

    A block of transactions on one session, with other sessions' transactions
    between them, [refines] a step relation when all it ever commits is a
    sequence of steps.  The combinators here prove it of a block statement by
    statement; the systems of the multitenant and of the dedicated resources
    instantiate the relation. *)

From S2P Require Import Prelude Models WriteGuard Capacity Service.

Section sessions.
  (** What one committed transaction may do to the database. *)
  Context (step : DB → DB → Prop).

(** What other sessions commit between the transactions are such steps. *)
Definition others_ok (s : Session DB) : Prop :=
  Forall (λ f, ∀ db, rtc step db (f db)) (others s).

(** An open transaction that has written nothing. *)
Definition clean (s : Session DB) : Prop := in_tx s = true → working s = committed s.

Definition runs_ok {A} (m : M (Session DB) A) (s : Session DB) : Prop :=
  rtc step (committed s) (committed (m s).1) ∧ others_ok (m s).1
  ∧ match (m s).2 with Ret _ => clean (m s).1 | Raise _ => True end.

(** A block that commits such steps only. *)
Definition session_refines {A} (m : M (Session DB) A) : Prop :=
  ∀ s, others_ok s → clean s → runs_ok m s.
(** ... even when it starts in a transaction with writes. *)
Definition session_resets {A} (m : M (Session DB) A) : Prop :=
  ∀ s, others_ok s → runs_ok m s.

Lemma srefines_keep {A} (m : M (Session DB) A) : (∀ s, (m s).1 = s) → session_refines m.
Proof.
  intros Hm s Ho Hc. unfold runs_ok. rewrite !Hm. split_and!; [done|done|]. by case_match.
Qed.

Lemma srefines_bind {A B} (m : M (Session DB) A) (k : A → M (Session DB) B) :
  session_refines m → (∀ a, session_refines (k a)) → session_refines (m ≫= k).
Proof.
  intros Hm Hk s Ho Hc. unfold runs_ok, mbind, M_bind. destruct (Hm s Ho Hc) as (H1 & H2 & H3).
  destruct (m s) as [s1 [a|e]]; simpl in *; [|done].
  destruct (Hk a s1 H2 H3) as (H4 & H5 & H6). split_and!; [by etrans|done|done].
Qed.

Lemma sresets_bind {A B} (m : M (Session DB) A) (k : A → M (Session DB) B) :
  session_resets m → (∀ a, session_refines (k a)) → session_resets (m ≫= k).
Proof.
  intros Hm Hk s Ho. unfold runs_ok, mbind, M_bind. destruct (Hm s Ho) as (H1 & H2 & H3).
  destruct (m s) as [s1 [a|e]]; simpl in *; [|done].
  destruct (Hk a s1 H2 H3) as (H4 & H5 & H6). split_and!; [by etrans|done|done].
Qed.

Lemma sresets_refines {A} (m : M (Session DB) A) : session_resets m → session_refines m.
Proof. intros Hm s Ho _. by apply Hm. Qed.

Lemma srefines_try {A} (m : M (Session DB) A) h :
  session_refines m → (∀ e, session_resets (h e)) → session_refines (try_except m h).
Proof.
  intros Hm Hh s Ho Hc. unfold runs_ok, try_except. destruct (Hm s Ho Hc) as (H1 & H2 & H3).
  destruct (m s) as [s1 [a|e]]; simpl in *; [done|].
  destruct (Hh e s1 H2) as (H4 & H5 & H6). split_and!; [by etrans|done|done].
Qed.

Lemma sresets_rollback : session_resets rollback.
Proof. intros s Ho. split_and!; [done|done|]. simpl. intros Hc. done. Qed.

Lemma sresets_raise {A} e : session_resets (raise (A:=A) e).
Proof. intros s Ho. by split_and!. Qed.

Lemma autobegin_ok s :
  others_ok s → clean s →
  rtc step (committed s) (committed (autobegin s)) ∧ others_ok (autobegin s)
  ∧ clean (autobegin s) ∧ in_tx (autobegin s) = true.
Proof.
  destruct s as [c w [] o]; unfold autobegin, clean, others_ok; simpl; intros Ho Hc; [done|].
  split_and!; [|by destruct Ho|done|done].
  destruct Ho as [|f o Hf _]; [done|apply Hf].
Qed.

Lemma srefines_query {A} (f : DB → A) : session_refines (query f).
Proof. intros s Ho Hc. by destruct (autobegin_ok s Ho Hc) as (? & ? & ? & ?). Qed.

Lemma srefines_begin : session_refines begin_transaction.
Proof. intros s Ho Hc. by destruct (autobegin_ok s Ho Hc) as (? & ? & ? & ?). Qed.

Lemma srefines_commit : session_refines commit.
Proof.
  intros [c w b o] Ho Hc. unfold runs_ok, clean in *. simpl in *.
  split_and!; [|done|by destruct b]. destruct b; [by rewrite Hc|done].
Qed.

Lemma srefines_hook hook r : audit_hook hook → session_refines (run_hook hook r).
Proof. intros Hh. apply srefines_keep. intros s. apply Hh. Qed.

(** The block of a guarded write starts in an open transaction. *)
Definition transaction_refines {A} (m : M (Session DB) A) : Prop :=
  ∀ s, in_tx s = true → others_ok s → clean s → runs_ok m s.

Lemma srefines_transaction {A} (m : M (Session DB) A) : session_refines m → transaction_refines m.
Proof. intros Hm s _. apply Hm. Qed.

Lemma begin_then {A} (m : M (Session DB) A) :
  transaction_refines m → session_refines (begin_transaction ;; m).
Proof.
  intros Hm s Ho Hc. destruct (autobegin_ok s Ho Hc) as (H1 & H2 & H3 & H4).
  destruct (Hm (autobegin s) H4 H2 H3) as (H5 & H6 & H7).
  unfold runs_ok. change ((begin_transaction ;; m) s) with (m (autobegin s)).
  split_and!; [by etrans|done|done].
Qed.

Lemma require_idle_refines : session_refines require_idle_resource_session.
Proof. apply srefines_keep. by intros [c w [] o]. Qed.

Lemma srefines_serialized {A} (m : M (Session DB) A) :
  transaction_refines m → session_refines (serialized_resource_write m).
Proof.
  intros Hm. apply srefines_bind; [apply require_idle_refines|]. intros _.
  apply begin_then. intros s Ht Ho Hc. unfold runs_ok, try_except.
  destruct (Hm s Ht Ho Hc) as (H1 & H2 & H3).
  destruct (m s) as [[c w b o] [a|e]]; simpl in *; [done|].
  destruct b; run_txn; by split_and!.
Qed.

Context (hook : option (DBInstanceResource → M (Session DB) unit)) (Hhook : audit_hook hook).

Lemma reset_when_busy : session_refines when_in_transaction_rollback.
Proof.
  intros [c w b o] Ho Hc. unfold when_in_transaction_rollback. destruct b; run_txn; by split_and!.
Qed.

Lemma replay_refines agent_id token fp v :
  session_refines (commit_idempotent_replay hook agent_id token fp v).
Proof.
  apply srefines_bind; [apply reset_when_busy|]. intros _.
  apply srefines_serialized, srefines_transaction.
  apply srefines_bind; [apply srefines_query|]. intros [r|]; [|apply srefines_keep; done].
  apply srefines_bind; [by apply srefines_keep|]. intros r'.
  apply srefines_bind; [by apply srefines_hook|]. intros _.
  apply srefines_bind; [apply srefines_commit|]. intros _. by apply srefines_keep.
Qed.

Lemma answer_refines r agent_id token fp v :
  session_refines (answer_with hook r agent_id token fp v).
Proof.
  apply srefines_bind; [by apply srefines_keep|]. intros _.
  assert (∀ (o : option (DBInstanceResource → M (Session DB) unit)),
    session_refines match o with
      | None => mret r | Some _ => commit_idempotent_replay hook agent_id token fp v end) as H.
  { intros [h|]; [apply replay_refines|by apply srefines_keep]. }
  apply H.
Qed.

Lemma attempts_refine attempts agent_id token fp reserve attempt :
  (∀ k, session_refines (reserve k)) →
  session_refines (create_attempts hook attempts agent_id token fp reserve attempt).
Proof.
  intros Hr. revert attempt. induction attempts as [|n IH]; intros attempt; simpl.
  { by apply srefines_keep. }
  apply srefines_try; [apply Hr|]. intros e.
  destruct (is_capacity_unavailable e); [|destruct (is_integrity_error e)];
    apply sresets_bind; try apply sresets_rollback; intros _; [| |by apply srefines_keep].
  all: apply srefines_bind; [apply srefines_query|]; intros [w|]; [apply answer_refines|].
  - by apply srefines_keep.
  - destruct n as [|n]; [by apply srefines_keep|].
    apply srefines_bind; [apply sresets_refines, sresets_rollback|]. intros _. apply IH.
Qed.

(** A refining block on a session of its own. *)
Lemma txn_refines {A} (m : M (Session DB) A) db :
  session_refines m → rtc step db (txn_db m db).
Proof.
  intros Hm. destruct (Hm (open_session db) (Forall_nil_2 _)) as (H & _); [done|].
  unfold txn_db, with_session. by destruct (m (open_session db)).
Qed.
End sessions.
