(* ===== verification/Examples.v ===== *)
(** * A small concrete database

    One Agent, one healthy multitenant backend and what a few operations make
    of them: the inputs at which the theorems are applied. *)

From S2P Require Import Prelude PyString Models Config WriteGuard Worker AdapterInterface.
From S2P Require Import Dispatcher Permission Capacity Service LifecycleSpec Lifecycle Reservation.
From S2P Require Import System.

Definition demo_agent : Agent := mk_agent "agent-1" "demo" None AgentStatus.ACTIVE (Some 2).

Definition demo_instance : Instance :=
  mk_instance "inst-1" "pc-1" "shared" None InstanceEngine.POLARDB_MYSQL InstanceTopology.MULTITENANT
    AllocationMode.POOLED None (Some "db.internal") (Some 3306) InstanceStatus.ACTIVE false None.

Definition demo_backend : ProvisioningBackend :=
  mk_backend "backend-1" ProvisioningBackendType.MULTITENANT (Some "inst-1") None
    (Some "cred-admin") ProvisioningBackendStatus.ACTIVE 0 3 0 2 4 1 None None.

Definition demo_admin : InstanceCredential :=
  {| c_id := "cred-admin"; c_instance_id := Some "inst-1"; c_resource_id := None; c_name := "admin";
     c_purpose := CredentialPurpose.PROVISIONING_ADMIN; c_capability := CredentialCapability.ADMIN;
     c_username_ciphertext := Some "enc:root"; c_password_ciphertext := Some "enc:pw";
     c_database_name := None; c_status := CredentialStatus.ACTIVE; c_version := 1;
     c_created_by_user_id := None |}.

Definition demo_start : time := seconds 1700000000.

(** Set up by an administrator. *)
Definition demo_db : DB :=
  empty_db <| agents := {[ "agent-1" := demo_agent ]} |>
           <| instances := {[ "inst-1" := demo_instance ]} |>
           <| backends := {[ "backend-1" := demo_backend ]} |>
           <| backend_health := {[ "backend-1" :=
                mk_health "backend-1" true demo_start 0 None ]} |>
           <| provisioning_bindings := {[ ("agent-1", "backend-1") :=
                mk_provisioning_binding "bind-1" "agent-1" "backend-1" true None "user-1" ]} |>
           <| credentials := {[ "cred-admin" := demo_admin ]} |>.

Definition demo_encrypt (s : string) : string := "enc:" +:+ s.

Definition demo_entropy (n : nat) : Entropy :=
  mk_entropy ("res-" +:+ pretty (Z.of_nat n)) ("cred-" +:+ pretty (Z.of_nat n))
    (seq n 9) (seq n 16).

Definition demo_build (token : string) (n : nat) : string → NewResource :=
  build_resource demo_encrypt "agent-1" token "fp" (Some "db one") InstanceEngine.POLARDB_MYSQL
    demo_start (demo_entropy n).

Definition demo_reserve (token : string) (n : nat) (db : DB) : Session DB * outcome DBInstanceResource :=
  reserve_candidate default_config None demo_start "agent-1" "backend-1" InstanceEngine.POLARDB_MYSQL
    (demo_build token n) (mk_session db db true []).

(** After one creation request, and with the resource claimed. *)
Definition demo_created : DB := committed (demo_reserve "token-1" 0 demo_db).1.
Definition demo_claimed : DB := txn_db (claim_one default_config "worker-1" demo_start) demo_created.

Lemma demo_environment : environment empty_db demo_db.
Proof.
  split_and!; [done|done|]. intros k c [i Hi]. simpl. rewrite lookup_empty. split; [|done].
  intros [_ <-]%lookup_singleton_Some. done.
Qed.

Lemma demo_db_reachable : sys_reachable default_config demo_db.
Proof. apply rtc_once, step_environment, demo_environment. Qed.

Lemma demo_created_reachable : sys_reachable default_config demo_created.
Proof.
  eapply rtc_r; [apply demo_db_reachable|]. apply (step_reserve _ None); [done|].
  apply build_resource_builds.
Qed.

Lemma demo_claimed_reachable : sys_reachable default_config demo_claimed.
Proof. eapply rtc_r; [apply demo_created_reachable|]. apply step_claim. Qed.

Example demo_created_row :
  (λ r, (r_status r, r_owner_agent_id r, r_tenant_name r)) <$> resources demo_created !! "res-0"
  = Some (DBInstanceStatus.CREATING, "agent-1", Some "tabcdefghi").
Proof. vm_compute. reflexivity. Qed.

(** ** A deletion, transaction by transaction *)

Definition demo_later : time := demo_start + hours 25.

Definition demo_disconnect (e n : DeleteLifecycleStep.t) (db : DB) : DB :=
  txn_db (persist_disconnect_result "worker-1" demo_start "res-0" e n) db.
Definition demo_cleanup (e n : LeaseCleanupStep.t) (db : DB) : DB :=
  txn_db (persist_cleanup_result "worker-1" demo_later "res-0" DBInstanceStatus.DELETING e n) db.

Definition apply_all (fs : list (DB → DB)) (db : DB) : DB := foldl (λ db f, f db) db fs.

(** To the cool-down, to the start of the cleanup, and to the end. *)
Definition demo_cooling : DB := apply_all
  [ txn_db (delete_db_instance_resource default_config None demo_start "agent-1" "res-0");
    txn_db (claim_one default_config "worker-1" demo_start);
    demo_disconnect DeleteLifecycleStep.PENDING DeleteLifecycleStep.ACCOUNT_LOCKED;
    demo_disconnect DeleteLifecycleStep.ACCOUNT_LOCKED DeleteLifecycleStep.SESSIONS_TERMINATED;
    demo_disconnect DeleteLifecycleStep.SESSIONS_TERMINATED DeleteLifecycleStep.DISCONNECTED ]
  demo_created.
Definition demo_reclaimed : DB := txn_db (claim_one default_config "worker-1" demo_later) demo_cooling.
Definition demo_condemned : DB := txn_db (begin_cleanup "worker-1" demo_later "res-0") demo_reclaimed.
Definition demo_deleted : DB := apply_all
  [ demo_cleanup LeaseCleanupStep.PENDING LeaseCleanupStep.DATABASE_DROPPED;
    demo_cleanup LeaseCleanupStep.DATABASE_DROPPED LeaseCleanupStep.TENANT_DROPPED;
    demo_cleanup LeaseCleanupStep.TENANT_DROPPED LeaseCleanupStep.RESOURCE_CONFIG_DROPPED;
    demo_cleanup LeaseCleanupStep.RESOURCE_CONFIG_DROPPED LeaseCleanupStep.RESIDUE_VERIFIED ]
  demo_condemned.

Lemma apply_all_steps config fs db :
  Forall (λ f, ∀ db, sys_step config db (f db)) fs → rtc (sys_step config) db (apply_all fs db).
Proof.
  unfold apply_all. intros Hf. revert db. induction Hf as [|f fs Hs _ IH]; intros db; simpl; [done|].
  eapply rtc_l; [apply Hs|apply IH].
Qed.

Lemma demo_cooling_reachable : sys_reachable default_config demo_cooling.
Proof.
  unfold sys_reachable; etrans; [apply demo_created_reachable|]. apply apply_all_steps.
  repeat apply Forall_cons_2; try apply Forall_nil_2; intros;
    unfold demo_disconnect; auto using audit_no_hook with pas_steps.
Qed.
Lemma demo_reclaimed_reachable : sys_reachable default_config demo_reclaimed.
Proof. eapply rtc_r; [apply demo_cooling_reachable|]. apply step_claim. Qed.
Lemma demo_condemned_reachable : sys_reachable default_config demo_condemned.
Proof. eapply rtc_r; [apply demo_reclaimed_reachable|]. apply step_begin_cleanup. Qed.
Lemma demo_condemned_deleted : rtc (sys_step default_config) demo_condemned demo_deleted.
Proof. apply apply_all_steps. repeat apply Forall_cons_2; try apply Forall_nil_2; intros;
  apply step_cleanup. Qed.
Lemma demo_deleted_reachable : sys_reachable default_config demo_deleted.
Proof. unfold sys_reachable; etrans; [apply demo_condemned_reachable|apply demo_condemned_deleted]. Qed.

(** The rows and the credential at the stages of the deletion. *)
Definition demo_row (db : DB) : option life := life_of <$> resources db !! "res-0".
Example demo_stages :
  (l_status <$> demo_row demo_cooling, l_status <$> demo_row demo_condemned,
   l_status <$> demo_row demo_deleted)
  = (Some DBInstanceStatus.COOLING_DOWN, Some DBInstanceStatus.DELETING,
     Some DBInstanceStatus.DELETED).
Proof. vm_compute. reflexivity. Qed.
