(* ===== verification/SystemTheorems.v ===== *)
(** * What every interleaving guarantees

    Theorems about all databases that [sys_step] reaches: capacity accounting,
    the lifecycle, the point of no return, access and idempotency tokens. *)

From S2P Require Import Prelude Models Config WriteGuard Worker AdapterInterface Dispatcher.
From S2P Require Import Permission Contract Selector Capacity Service LifecycleSpec Lifecycle.
From S2P Require Import Reservation System Examples.

(** ** Capacity *)

(** C2: In every reachable database the capacity counter of each Agent equals
    the number of its resources whose capacity has not been released, and so
    does the counter of each backend: no interleaving of creations, failures,
    deletions and cleanups leaks a slot or gives one back twice. *)
Theorem capacity_conserved config db :
  sys_reachable config db →
  (∀ a, counter ("agent", a) db = count_rows (holds_agent_slot a) (resources db))
  ∧ (∀ b, counter ("backend", b) db = count_rows (holds_backend_slot b) (resources db)).
Proof. intros Hr. destruct (sys_reachable_consistent _ _ Hr). done. Qed.

Lemma capacity_conserved_witness :
  counter ("agent", "agent-1") demo_created = 1
  ∧ counter ("backend", "backend-1") demo_created
    = count_rows (holds_backend_slot "backend-1") (resources demo_created).
Proof.
  split; [by vm_compute|].
  apply (capacity_conserved default_config demo_created demo_created_reachable).
Defined.

(** A reservation that commits keeps both limits: afterwards the Agent
    holds at most its own limit (or the configured default) of unreleased
    resources, and the backend at most [max_active_resources]. *)
Theorem reservation_within_limits config hook now agent_id backend_id engine build o db s r :
  sys_reachable config db → audit_hook hook → builds agent_id backend_id (build backend_id) →
  reserve_candidate config hook now agent_id backend_id engine build (mk_session db db true o)
    = (s, Ret r) →
  ∃ a b, agents db !! agent_id = Some a ∧ backends db !! backend_id = Some b
    ∧ count_rows (holds_agent_slot agent_id) (resources (committed s)) <= agent_limit_of config a
    ∧ count_rows (holds_backend_slot backend_id) (resources (committed s)) <= b_max_active_resources b.
Proof.
  intros Hr Hh Hb Hrun.
  pose proof (sys_reachable_consistent _ _ Hr) as Hc.
  pose proof (reserve_candidate_run config hook Hh now agent_id backend_id engine build db o Hb) as Hs.
  rewrite Hrun in Hs. destruct Hs as (db' & -> & He).
  pose proof (insert_effect_consistent _ _ _ _ _ _ He Hc) as Hc'. simpl.
  destruct (ie_limits _ _ _ _ _ _ He) as (a & b & Ha & Hbk & _ & _ & Hla & Hlb).
  exists a, b. split_and!; [done|done|..].
  - rewrite <-(cs_agents _ Hc'). unfold counter. rewrite (ie_capacities _ _ _ _ _ _ He).
    rewrite lookup_insert_ne, lookup_insert_eq by done. simpl. lia.
  - rewrite <-(cs_backends _ Hc'). unfold counter. rewrite (ie_capacities _ _ _ _ _ _ He).
    rewrite lookup_insert_eq. simpl. lia.
Qed.

Lemma reservation_within_limits_witness :
  ∃ a b, agents demo_db !! "agent-1" = Some a ∧ backends demo_db !! "backend-1" = Some b
    ∧ count_rows (holds_agent_slot "agent-1") (resources demo_created) <= agent_limit_of default_config a
    ∧ count_rows (holds_backend_slot "backend-1") (resources demo_created) <= b_max_active_resources b.
Proof.
  apply (reservation_within_limits default_config None demo_start "agent-1" "backend-1"
    InstanceEngine.POLARDB_MYSQL (demo_build "token-1" 0) [] demo_db
    (demo_reserve "token-1" 0 demo_db).1
    (nr_resource (demo_build "token-1" 0 "backend-1"))).
  - apply demo_db_reachable.
  - apply audit_no_hook.
  - apply build_resource_builds.
  - vm_compute. reflexivity.
Defined.

(** ** The lifecycle *)

(** C1: Refinement of the lifecycle machine: from a reachable database, every
    transaction of every dispatcher, request or administrator either leaves
    the lifecycle of a resource as it was, or performs one event of
    [life_step] on it; resources are never lost, their identity columns never
    change, and new ones start in [initial_life]. *)
Theorem lifecycle_refinement config db db' rid r' :
  sys_reachable config db → sys_step config db db' → resources db' !! rid = Some r' →
  (resources db !! rid = None ∧ life_of r' = initial_life)
  ∨ ∃ r, resources db !! rid = Some r ∧ identity r' = identity r
       ∧ (life_of r' = life_of r ∨ life_step (life_of r) (life_of r')).
Proof.
  intros Hr Hs Hl. pose proof (sys_reachable_consistent _ _ Hr) as Hc.
  destruct (step_effect _ _ _ Hs (cs_keyed _ Hc)) as [He|[[->|(r0 & r1 & He)]|(a & b & r0 & He)]].
  - destruct He as [Hres _]. rewrite Hres in Hl. right. exists r'. by auto.
  - right. exists r'. by auto.
  - rewrite (re_resources _ _ _ _ He) in Hl.
    apply lookup_insert_Some in Hl as [[<- <-]|[_ Hl]]; [|right; exists r'; by auto].
    right. exists r0. split_and!; [apply (re_found _ _ _ _ He)|apply (re_identity _ _ _ _ He)|].
    apply (re_life _ _ _ _ He).
  - pose proof (insert_effect_new _ _ _ _ _ _ He (cs_keyed _ Hc)) as Hnew.
    rewrite (ie_resources _ _ _ _ _ _ He) in Hl.
    apply lookup_insert_Some in Hl as [[<- <-]|[_ Hl]]; [|right; exists r'; by auto].
    left. split; [done|apply (ie_life _ _ _ _ _ _ He)].
Qed.

Lemma lifecycle_refinement_witness :
  ∃ r', resources demo_claimed !! "res-0" = Some r'
    ∧ ((resources demo_created !! "res-0" = None ∧ life_of r' = initial_life)
       ∨ ∃ r, resources demo_created !! "res-0" = Some r ∧ identity r' = identity r
           ∧ (life_of r' = life_of r ∨ life_step (life_of r) (life_of r'))).
Proof.
  destruct (resources demo_claimed !! "res-0") as [r'|] eqn:E; [|vm_compute in E; discriminate].
  exists r'. split; [reflexivity|].
  apply (lifecycle_refinement default_config demo_created demo_claimed "res-0" r').
  - apply demo_created_reachable.
  - apply step_claim.
  - exact E.
Defined.

(** What the columns of a reachable row say about each other, by its status. *)
Lemma reachable_life_inv config db rid r :
  sys_reachable config db → resources db !! rid = Some r → life_inv (life_of r).
Proof.
  intros Hr Hl. apply reachable_inv. by eapply cs_lives; [apply (sys_reachable_consistent _ _ Hr)|].
Qed.

(** C28: Row invariant: in every reachable database the step columns, flags and
    timestamps of a row fit its status.  [READY] rows have no deletion under
    way; [COOLING_DOWN] rows carry [disconnected_at] and [cooldown_until];
    [DELETING] rows have a recorded request and cool-down; [RESTORING] rows are
    not past the point of no return; a row is released exactly when its residue
    was verified; and a [DELETED] row is complete, clean and released. *)
Theorem row_wellformed config db rid r :
  sys_reachable config db → resources db !! rid = Some r →
  (is_Some (r_capacity_released_at r) ↔ r_cleanup_step r = LeaseCleanupStep.RESIDUE_VERIFIED)
  ∧ (r_status r = DBInstanceStatus.READY →
      r_delete_step r = DeleteLifecycleStep.PENDING ∧ r_cleanup_required r = false
      ∧ r_delete_requested_at r = None)
  ∧ (r_status r = DBInstanceStatus.COOLING_DOWN →
      r_delete_step r = DeleteLifecycleStep.COOLING_DOWN
      ∧ is_Some (r_disconnected_at r) ∧ is_Some (r_cooldown_until r))
  ∧ (r_status r = DBInstanceStatus.DELETING →
      r_cleanup_required r = true ∧ is_Some (r_delete_requested_at r)
      ∧ is_Some (r_effective_delete_cooldown_duration_hours r))
  ∧ (r_status r = DBInstanceStatus.RESTORING → irreversible (r_delete_step r) = false)
  ∧ (r_status r = DBInstanceStatus.DELETED →
      r_delete_step r = DeleteLifecycleStep.COMPLETE
      ∧ r_cleanup_step r = LeaseCleanupStep.RESIDUE_VERIFIED
      ∧ r_cleanup_required r = false ∧ is_Some (r_capacity_released_at r)).
Proof.
  intros Hr Hl. destruct (reachable_life_inv _ _ _ _ Hr Hl) as (Hrel & Hdur & Hst).
  simpl in *. unfold disconnecting_dstep, working_dstep in Hst.
  assert (∀ A (o : option A), is_set o = true ↔ is_Some o) as Hset
    by (intros A [x|]; simpl; split; try done; intros [? ?]; done).
  split_and!.
  - rewrite <-Hset, Hrel, bool_decide_eq_true. done.
  - intros E. rewrite E in Hst. destruct Hst as (? & ? & Hreq). split_and!; [done|done|].
    by destruct (r_delete_requested_at r).
  - intros E. rewrite E in Hst. destruct Hst as (? & Hc & _ & _).
    apply andb_true_iff in Hc. by rewrite <-!Hset.
  - intros E. rewrite E in Hst. destruct Hst as (_ & ? & ?). rewrite <-!Hset. auto.
  - intros E. rewrite E in Hst. destruct Hst as [_ [(_ & -> & _)|[_ Hd]]]; [done|].
    apply andb_true_iff in Hd as [_ Hd]. by apply negb_true_iff.
  - intros E. rewrite E in Hst. destruct Hst as (? & Hrl & ?). split_and!; [done| |done|].
    + rewrite Hrl in Hrel. symmetry in Hrel. by apply bool_decide_eq_true in Hrel.
    + by apply Hset.
Qed.

Lemma row_wellformed_witness :
  ∃ r, resources demo_created !! "res-0" = Some r
    ∧ (is_Some (r_capacity_released_at r) ↔ r_cleanup_step r = LeaseCleanupStep.RESIDUE_VERIFIED).
Proof.
  destruct (resources demo_created !! "res-0") as [r|] eqn:E; [|vm_compute in E; discriminate].
  exists r. split; [reflexivity|].
  apply (row_wellformed default_config demo_created "res-0" r demo_created_reachable E).
Defined.

(** C9: The point of no return: once the delete step of a resource has passed
    the cool-down ([LOGICAL_CLEANUP] or later), it never becomes [READY],
    [RESTORING] or anything but [DELETING], [DELETE_FAILED] or [DELETED] again,
    in any continuation of the run. *)
Theorem no_return config db db' rid r :
  sys_reachable config db → rtc (sys_step config) db db' →
  resources db !! rid = Some r → irreversible (r_delete_step r) = true →
  ∃ r', resources db' !! rid = Some r' ∧ irreversible (r_delete_step r') = true
    ∧ (r_status r' = DBInstanceStatus.DELETING ∨ r_status r' = DBInstanceStatus.DELETE_FAILED
       ∨ r_status r' = DBInstanceStatus.DELETED).
Proof.
  intros Hr Hs Hl Hirr.
  destruct (steps_row_moves _ _ _ Hs (sys_reachable_consistent _ _ Hr) rid r Hl)
    as (r' & Hl' & _ & Hmoves). exists r'. split; [done|].
  destruct (condemned_steps _ _ Hmoves (reachable_life_inv _ _ _ _ Hr Hl) Hirr) as [Hinv' Hcon].
  split; [done|]. by apply (condemned_status (life_of r')).
Qed.

Lemma no_return_witness :
  ∃ r r', resources demo_condemned !! "res-0" = Some r ∧ resources demo_deleted !! "res-0" = Some r'
    ∧ irreversible (r_delete_step r') = true.
Proof.
  destruct (resources demo_condemned !! "res-0") as [r|] eqn:E; [|vm_compute in E; discriminate].
  destruct (no_return default_config demo_condemned demo_deleted "res-0" r) as (r' & E' & H & _).
  - apply demo_condemned_reachable.
  - apply demo_condemned_deleted.
  - exact E.
  - vm_compute in E. injection E as <-. reflexivity.
  - exists r, r'. split; [reflexivity|]. split; [exact E'|exact H].
Defined.

(** [DELETED] is final: a deleted resource keeps its status, its completed
    step fields and its identity in every continuation of the run. *)
Theorem deleted_is_final config db db' rid r :
  sys_reachable config db → rtc (sys_step config) db db' →
  resources db !! rid = Some r → r_status r = DBInstanceStatus.DELETED →
  ∃ r', resources db' !! rid = Some r' ∧ life_of r' = life_of r ∧ identity r' = identity r.
Proof.
  intros Hr Hs Hl Hdel.
  destruct (steps_row_moves _ _ _ Hs (sys_reachable_consistent _ _ Hr) rid r Hl)
    as (r' & Hl' & Hid & Hmoves). exists r'. split_and!; [done| |done].
  destruct (rtc_inv _ _ Hmoves) as [->|(l1 & Hst & _)]; [done|]. by apply deleted_step in Hst.
Qed.

Lemma deleted_is_final_witness :
  ∃ r r', resources demo_deleted !! "res-0" = Some r
    ∧ resources (txn_db (claim_one default_config "worker-2" demo_later) demo_deleted) !! "res-0" = Some r'
    ∧ life_of r' = life_of r.
Proof.
  destruct (resources demo_deleted !! "res-0") as [r|] eqn:E; [|vm_compute in E; discriminate].
  destruct (deleted_is_final default_config demo_deleted
    (txn_db (claim_one default_config "worker-2" demo_later) demo_deleted) "res-0" r)
    as (r' & E' & H & _).
  - apply demo_deleted_reachable.
  - apply rtc_once, step_claim.
  - exact E.
  - vm_compute in E. injection E as <-. reflexivity.
  - exists r, r'. split; [reflexivity|]. split; [exact E'|exact H].
Defined.

(** ** Tokens and access *)

(** Idempotency tokens identify resources: no interleaving of creation
    requests leaves an Agent with two resources under one [client_token]. *)
Theorem client_token_unique config db k1 k2 r1 r2 :
  sys_reachable config db →
  resources db !! k1 = Some r1 → resources db !! k2 = Some r2 →
  r_owner_agent_id r1 = r_owner_agent_id r2 → r_client_token r1 = r_client_token r2 →
  k1 = k2 ∧ r1 = r2.
Proof.
  intros Hr H1 H2 Ho Ht.
  assert (k1 = k2) as <- by (eapply cs_tokens; eauto using sys_reachable_consistent).
  split; [done|congruence].
Qed.

Lemma client_token_unique_witness :
  ∃ r, resources demo_created !! "res-0" = Some r ∧ "res-0" = "res-0" ∧ r = r.
Proof.
  destruct (resources demo_created !! "res-0") as [r|] eqn:E; [|vm_compute in E; discriminate].
  exists r. split; [reflexivity|].
  exact (client_token_unique default_config demo_created "res-0" "res-0" r r
           demo_created_reachable E E eq_refl eq_refl).
Defined.

(** C13: Access follows the lifecycle: while a resource is being deleted, cools
    down, or is past disconnection, every access credential of it is [REVOKED];
    and once it is [DELETED] both ciphertexts are gone as well. *)
Theorem access_revoked config db rid r i c :
  sys_reachable config db → resources db !! rid = Some r →
  credentials db !! i = Some c → is_resource_access rid c = true →
  (r_status r = DBInstanceStatus.DELETING ∨ r_status r = DBInstanceStatus.COOLING_DOWN
     ∨ r_delete_step r ≠ DeleteLifecycleStep.PENDING →
   c_status c = CredentialStatus.REVOKED)
  ∧ (r_status r = DBInstanceStatus.DELETED →
     c_status c = CredentialStatus.REVOKED
     ∧ c_username_ciphertext c = None ∧ c_password_ciphertext c = None).
Proof.
  intros Hr Hl Hi Hacc. pose proof (sys_reachable_consistent _ _ Hr) as Hc. split.
  - intros Hst. eapply (cs_revoked _ Hc); [exact Hl| |exact Hi|exact Hacc].
    unfold access_off. simpl. tauto.
  - intros Hst. by eapply (cs_scrubbed _ Hc).
Qed.

Lemma access_revoked_witness :
  ∃ c, credentials demo_deleted !! "cred-0" = Some c ∧ c_password_ciphertext c = None.
Proof.
  destruct (resources demo_deleted !! "res-0") as [r|] eqn:E; [|vm_compute in E; discriminate].
  destruct (credentials demo_deleted !! "cred-0") as [c|] eqn:Ec; [|vm_compute in Ec; discriminate].
  exists c. split; [reflexivity|].
  apply (access_revoked default_config demo_deleted "res-0" r "cred-0" c
           demo_deleted_reachable E Ec).
  - vm_compute in Ec. injection Ec as <-. reflexivity.
  - vm_compute in E. injection E as <-. reflexivity.
Defined.
