(* ===== verification/Timing.v ===== *)
(** * Cool-down: how long, and who may end it *)

From S2P Require Import Prelude Models Config WriteGuard Worker AdapterInterface Dispatcher.
From S2P Require Import Permission Contract Selector Capacity Service LifecycleSpec Lifecycle.
From S2P Require Import Reservation System Examples.

(** A relation between the versions of every row before and after. *)
Definition row_rel (R : DBInstanceResource → DBInstanceResource → Prop) (db db' : DB) : Prop :=
  ∀ k r r', resources db !! k = Some r → resources db' !! k = Some r' → R r r'.

Lemma row_rel_refl R `{!Reflexive R} db : row_rel R db db.
Proof. intros k r r' H H'. by simplify_eq. Qed.

Lemma row_rel_put R `{!Reflexive R} db db1 rid r r' :
  rows_keyed db → resources db !! rid = Some r →
  resources db1 = resources db → r_id r' = r_id r → R r r' → row_rel R db (put_resource r' db1).
Proof.
  intros Hk Hr Hres Hid HR k o o' Ho Ho'. simpl in Ho'. rewrite Hid, Hres in Ho'.
  apply lookup_insert_Some in Ho' as [[<- <-]|[_ Ho']].
  - pose proof (Hk _ _ Hr). subst rid. by simplify_eq.
  - by simplify_eq.
Qed.

(** Only [begin_cleanup] makes a delete step irreversible. *)
Definition stays_reversible (r r' : DBInstanceResource) : Prop :=
  irreversible (r_delete_step r') = true → irreversible (r_delete_step r) = true.

(** The cool-down columns: unset until the disconnection, then
    [cooldown_until = disconnected_at + duration]; durations are positive. *)
Definition timing_ok (r : DBInstanceResource) : Prop :=
  (∀ h, r_effective_delete_cooldown_duration_hours r = Some h → 1 <= h)
  ∧ (r_delete_requested_at r = None → r_disconnected_at r = None)
  ∧ match r_disconnected_at r, r_cooldown_until r with
    | None, None => True
    | Some d, Some u => ∃ h, r_effective_delete_cooldown_duration_hours r = Some h ∧ u = d + hours h
    | _, _ => False
    end.
Definition keeps_timing (r r' : DBInstanceResource) : Prop :=
  (r_status r = DBInstanceStatus.DELETING → is_Some (r_delete_requested_at r)) →
  timing_ok r → timing_ok r'.

#[export] Instance stays_reversible_refl : Reflexive stays_reversible.
Proof. intros r Hr. exact Hr. Qed.
#[export] Instance keeps_timing_refl : Reflexive keeps_timing.
Proof. intros r _ Hr. exact Hr. Qed.

(** Run a step's transaction; then every branch writes one row or none. *)
Ltac run_step :=
  unfold txn_db, renew_claim, release_claim, persist_forward_result, finish_ready, queue_disabled,
    persist_disconnect_result, record_disconnect_failure, begin_cleanup, persist_cleanup_result,
    finish_cleanup_locked, release_capacity, record_failure, failed_attempt, finish_restore,
    record_restore_failure, restore_db_instance_resource, needs_cleanup,
    claim_serialization, locked_resource, locked_backend, save, abandon;
  run_branches; guards; either_guard.

Ltac relate_rows solve_row :=
  first
    [ apply row_rel_refl, _
    | eapply row_rel_put; [apply _ | done | eassumption | reflexivity | reflexivity | solve_row ] ].

(** The columns in question are not touched, or touched as allowed. *)
Ltac same_row :=
  unfold stays_reversible, keeps_timing, timing_ok; simpl in *; intros;
  repeat match goal with H : _ ∧ _ |- _ => destruct H end;
  solve [ done | auto | congruence
        | by match goal with H : r_delete_step _ = _ |- _ => rewrite H end
        | by subst; destruct (r_delete_step _); simplify_eq/= ].

Lemma row_rel_claim R `{!Reflexive R} config w now db :
  rows_keyed db →
  (∀ r a b, R r (r <| r_worker_id := a |> <| r_worker_lease_until := b |>)) →
  row_rel R db (txn_db (claim_one config w now) db).
Proof.
  intros Hk HR. unfold txn_db, claim_one, claim_serialization. run_branches; [|apply row_rel_refl, _].
  apply claim_candidate_some in Heqo as [[k Hr] _].
  eapply row_rel_put; [apply _|done|exact Hr|reflexivity|reflexivity|apply HR].
Qed.

Lemma row_rel_environment R `{!Reflexive R} db db' : environment db db' → row_rel R db db'.
Proof. intros [Hres _] k r r' H H'. rewrite Hres in H'. by simplify_eq. Qed.

Lemma row_rel_insert R `{!Reflexive R} config a b db db' r :
  rows_keyed db → insert_effect config a b db db' r → row_rel R db db'.
Proof.
  intros Hk He k o o' Ho Ho'. pose proof (insert_effect_new _ _ _ _ _ _ He Hk).
  rewrite (ie_resources _ _ _ _ _ _ He), lookup_insert_ne in Ho' by congruence. by simplify_eq.
Qed.

Lemma row_rel_reserve R `{!Reflexive R} config hook now agent_id backend_id engine build o db :
  audit_hook hook → builds agent_id backend_id (build backend_id) → rows_keyed db →
  row_rel R db (committed (reserve_candidate config hook now agent_id backend_id engine build
                             (mk_session db db true o)).1).
Proof.
  intros Hh Hb Hk.
  pose proof (reserve_candidate_run config hook Hh now agent_id backend_id engine build db o Hb) as Hr.
  destruct (reserve_candidate _ _ _ _ _ _ _ _) as [s [r|e]].
  - destruct Hr as (db' & -> & He). by eapply row_rel_insert.
  - destruct Hr as [w ->]. apply row_rel_refl, _.
Qed.

(** A deletion request: the row it is about, before and after. *)
Lemma row_rel_delete R `{!Reflexive R} config hook now agent_id rid db :
  audit_hook hook → rows_keyed db →
  (∀ r r1 b pool, record_delete_request config now b pool r = Ret r1 →
     deletable (r_status r) = true → R r (queue_deletion now r1)) →
  row_rel R db (txn_db (delete_db_instance_resource config hook now agent_id rid) db).
Proof.
  intros Hhook Hk HR. unfold txn_db, delete_db_instance_resource.
  run_branches; rewrite ?run_hook_bind by done; run_branches; try apply row_rel_refl, _.
  apply owned_resource_some in Heqo as [Hr _].
  destruct (record_delete_request_life _ _ _ _ _ _ Heqo1) as (Hid & _ & _).
  destruct (queue_deletion_life now a) as (Hid' & _ & _).
  eapply row_rel_put; [apply _|done|exact Hr|reflexivity| |by eapply HR].
  unfold identity in *. congruence.
Qed.

Lemma effective_hours_positive a b c h :
  effective_delete_cooldown_hours a b c = Ret h → 1 <= h.
Proof.
  unfold effective_delete_cooldown_hours. case_match eqn:Hlt; [done|].
  intros [= <-]. apply Z.ltb_ge in Hlt. lia.
Qed.

(** The columns of a row after a deletion request. *)
Lemma queued_columns config now b pool r r1 :
  record_delete_request config now b pool r = Ret r1 →
  let q := queue_deletion now r1 in
  r_delete_step q = r_delete_step r ∧ r_disconnected_at q = r_disconnected_at r
  ∧ r_cooldown_until q = r_cooldown_until r ∧ is_Some (r_delete_requested_at q)
  ∧ if is_set (r_delete_requested_at r) then
      r_effective_delete_cooldown_duration_hours q = r_effective_delete_cooldown_duration_hours r
    else ∃ h, r_effective_delete_cooldown_duration_hours q = Some h ∧ 1 <= h.
Proof.
  unfold record_delete_request, queue_deletion. intros Hq.
  destruct (r_delete_requested_at r) as [t|] eqn:Ht.
  - injection Hq as <-. case_match; simpl; rewrite Ht; repeat split; by eexists.
  - unfold mbind, outcome_bind in Hq.
    destruct (effective_delete_cooldown_hours _ _ _) as [h|] eqn:Hh; [|done].
    apply effective_hours_positive in Hh. injection Hq as <-.
    case_match; simpl; repeat split; by eexists.
Qed.

Lemma step_reversible config db db' :
  sys_step config db db' → rows_keyed db →
  (∃ w now rid, db' = txn_db (begin_cleanup w now rid) db) ∨ row_rel stays_reversible db db'.
Proof.
  intros Hs Hk. destruct Hs; try (right; run_step; relate_rows same_row); try (by left; eauto); right.
  - by apply row_rel_claim; [apply _|done|intros r a b Hr].
  - apply row_rel_delete; [apply _|done|done|]. intros r r1 b pool Hq _.
    destruct (queued_columns _ _ _ _ _ _ Hq) as (Hd & _). unfold stays_reversible. by rewrite Hd.
  - apply row_rel_reserve; [apply _|done..].
  - by apply row_rel_environment; [apply _|].
Qed.

Lemma step_timing config db db' : sys_step config db db' → rows_keyed db → row_rel keeps_timing db db'.
Proof.
  intros Hs Hk. destruct Hs; try (run_step; relate_rows same_row).
  - by apply row_rel_claim; [apply _|done|intros r a b _ Hr].
  - run_step; try (relate_rows same_row).
    eapply row_rel_put; [apply _|done|eassumption|reflexivity|reflexivity|].
    simpl in *. intros Hreq (Hpos & _ & _). unfold timing_ok. simpl. split_and!; [done| |by eexists].
    intros Hn. rewrite Hn in Hreq. by destruct Hreq.
  - apply row_rel_delete; [apply _|done|done|]. intros r r1 b pool Hq _ _ (Hpos & Hdn & Hm).
    destruct (queued_columns _ _ _ _ _ _ Hq) as (_ & Ed & Eu & [t Et] & Eh).
    unfold timing_ok. rewrite Ed, Eu, Et.
    destruct (r_delete_requested_at r) eqn:Hreq; simpl in Eh.
    + rewrite Eh. split_and!; [done|done|]. destruct (r_disconnected_at r); done.
    + destruct Eh as (h & -> & Hh). rewrite Hdn in Hm |- * by done.
      destruct (r_cooldown_until r); [done|]. split_and!; [congruence|done|done].
  - apply row_rel_reserve; [apply _|done..].
  - by apply row_rel_environment; [apply _|].
Qed.

(** The rows of a reachable database. *)
Lemma step_new_timing config db db' k r' :
  sys_step config db db' → consistent db → resources db !! k = None →
  resources db' !! k = Some r' → timing_ok r'.
Proof.
  intros Hs Hc Hn Hl.
  destruct (step_effect _ _ _ Hs (cs_keyed _ Hc)) as [He|[[->|(r0 & r1 & He)]|(a & b & r0 & He)]].
  - destruct He as [Hres _]. congruence.
  - congruence.
  - rewrite (re_resources _ _ _ _ He) in Hl.
    apply lookup_insert_Some in Hl as [[<- _]|[_ Hl]]; [|congruence].
    pose proof (re_found _ _ _ _ He). congruence.
  - rewrite (ie_resources _ _ _ _ _ _ He) in Hl.
    apply lookup_insert_Some in Hl as [[_ <-]|[_ Hl]]; [|congruence].
    destruct (ie_timing _ _ _ _ _ _ He) as [Hd Hu].
    pose proof (f_equal l_duration (ie_life _ _ _ _ _ _ He)) as Hdur. simpl in Hdur.
    unfold timing_ok. rewrite Hd, Hu. split_and!; [|done|done].
    intros h Hh. rewrite Hh in Hdur. done.
Qed.

Lemma reachable_timing config db :
  sys_reachable config db → ∀ k r, resources db !! k = Some r → timing_ok r.
Proof.
  revert db. apply (sys_reachable_rule config (λ db, ∀ k r, resources db !! k = Some r → timing_ok r)); [done|]. intros db db' Hr Hs IH.
  intros k r' Hl. pose proof (sys_reachable_consistent _ _ Hr) as Hc.
  destruct (resources db !! k) as [r|] eqn:Hk; [|by eapply step_new_timing].
  apply (step_timing _ _ _ Hs (cs_keyed _ Hc) k r r' Hk Hl); [|by eapply IH].
  intros Hst. destruct (reachable_inv _ (cs_lives _ Hc _ _ Hk)) as (_ & _ & Hinv).
  simpl in Hinv. rewrite Hst in Hinv. destruct Hinv as (_ & _ & Hq).
  by destruct (r_delete_requested_at r).
Qed.

Lemma begin_cleanup_crosses w now rid' db rid r r' :
  rows_keyed db → resources db !! rid = Some r →
  resources (txn_db (begin_cleanup w now rid') db) !! rid = Some r' →
  irreversible (r_delete_step r) = false → irreversible (r_delete_step r') = true →
  rid' = rid ∧ r_worker_id r = Some w ∧ r_status r = DBInstanceStatus.COOLING_DOWN
  ∧ ∃ d u, r_disconnected_at r = Some d ∧ r_cooldown_until r = Some u ∧ u <= now.
Proof.
  intros Hk Hl. unfold txn_db, begin_cleanup, claim_serialization, locked_resource, save, abandon.
  run_branches; intros Hl' Hrev Hirr; guards; try (rewrite Hl in Hl'; simplify_eq; congruence).
  all: simpl in Hl'; apply lookup_insert_Some in Hl' as [[Hid <-]|[_ Hl']];
    [|rewrite Hl in Hl'; simplify_eq; congruence].
  all: pose proof (Hk _ _ Heqo) as Hk'; simpl in Hid, Hirr; rewrite Hid in Hk'; subst;
    rewrite Hl in Heqo; injection Heqo as ->; simpl in *.
  1: congruence.
  split_and!; [done..|]. eexists _, _. split_and!; [done..|]. lia.
Qed.


(** C4: The cool-down is respected: in any run, the only transaction that moves
    a resource past the point of no return is [begin_cleanup], by the worker
    that holds its claim, of a disconnected [COOLING_DOWN] row, at a clock
    reading at or after [disconnected_at] plus the recorded duration, which is
    at least one hour. *)
Theorem cooldown_respected config db db' rid r r' :
  sys_reachable config db → sys_step config db db' →
  resources db !! rid = Some r → resources db' !! rid = Some r' →
  irreversible (r_delete_step r) = false → irreversible (r_delete_step r') = true →
  ∃ w now d h, db' = txn_db (begin_cleanup w now rid) db
    ∧ r_worker_id r = Some w ∧ r_status r = DBInstanceStatus.COOLING_DOWN
    ∧ r_disconnected_at r = Some d ∧ r_effective_delete_cooldown_duration_hours r = Some h
    ∧ 1 <= h ∧ d + hours h <= now.
Proof.
  intros Hr Hs Hl Hl' Hrev Hirr. pose proof (sys_reachable_consistent _ _ Hr) as Hc.
  pose proof (cs_keyed _ Hc) as Hk.
  destruct (step_reversible _ _ _ Hs Hk) as [(w & now & rid' & ->)|Hrel].
  2: by rewrite (Hrel _ _ _ Hl Hl' Hirr) in Hrev.
  destruct (begin_cleanup_crosses _ _ _ _ _ _ _ Hk Hl Hl' Hrev Hirr)
    as (-> & Hw & Hst & d & u & Hd & Hu & Hle).
  destruct (reachable_timing _ _ Hr _ _ Hl) as (Hpos & _ & Htime).
  rewrite Hd, Hu in Htime. destruct Htime as (h & Hh & ->).
  exists w, now, d, h. split_and!; auto.
Qed.

Lemma cooldown_respected_witness :
  ∃ w now d h, demo_condemned = txn_db (begin_cleanup w now "res-0") demo_reclaimed
    ∧ d + hours h <= now.
Proof.
  destruct (resources demo_reclaimed !! "res-0") as [r|] eqn:E; [|vm_compute in E; discriminate].
  destruct (resources demo_condemned !! "res-0") as [r'|] eqn:E'; [|vm_compute in E'; discriminate].
  destruct (cooldown_respected default_config demo_reclaimed demo_condemned "res-0" r r')
    as (w & now & d & h & H & _ & _ & _ & _ & _ & Hle).
  - apply demo_reclaimed_reachable.
  - apply step_begin_cleanup.
  - exact E.
  - exact E'.
  - vm_compute in E. injection E as <-. reflexivity.
  - vm_compute in E'. injection E' as <-. reflexivity.
  - exists w, now, d, h. split; [exact H|exact Hle].
Defined.
