(* ===== verification/DispatcherTheorems.v ===== *)
(** * Claims, retries and progress of the dispatcher *)

From S2P Require Import Prelude Models Config WriteGuard Worker AdapterInterface Dispatcher.
From S2P Require Import DispatchLoop Permission Contract Selector Capacity Service LifecycleSpec.
From S2P Require Import Lifecycle Reservation System Dispatching Examples.

(** ** Claims *)

Lemma key_le_total a b : key_le a b = true ∨ key_le b a = true.
Proof.
  unfold key_le. destruct (Z.lt_trichotomy a.1 b.1) as [H|[H|H]].
  - left. by rewrite (proj2 (Z.ltb_lt _ _) H).
  - rewrite H, Z.ltb_irrefl, Z.eqb_refl. simpl.
    destruct (total String.le a.2 b.2) as [Hle|Hle]; [left|right]; by apply bool_decide_eq_true_2.
  - right. by rewrite (proj2 (Z.ltb_lt _ _) H).
Qed.

Lemma key_le_trans a b c : key_le a b = true → key_le b c = true → key_le a c = true.
Proof.
  unfold key_le. rewrite !orb_true_iff, !andb_true_iff, !Z.ltb_lt, !Z.eqb_eq, !bool_decide_eq_true.
  intros [H1|[H1 L1]] [H2|[H2 L2]]; [left; lia..|right]. split; [lia|by etrans].
Qed.

Lemma claim_candidate_none now db k r :
  claim_candidate now db = None → resources db !! k = Some r → claimable now r = false.
Proof.
  intros Hn Hr. apply first_by_none in Hn. destruct (claimable now r) eqn:Hc; [|done].
  assert (r ∈ filter (λ r, claimable now r = true) (snd <$> map_to_list (resources db))) as Hin.
  { apply list_elem_of_filter. split; [done|]. apply list_elem_of_fmap.
    exists (k, r). by rewrite elem_of_map_to_list. }
  rewrite Hn in Hin. by apply not_elem_of_nil in Hin.
Qed.

Lemma claim_candidate_first now db r k o :
  claim_candidate now db = Some r → resources db !! k = Some o → claimable now o = true →
  created_before r o = true.
Proof.
  intros Hf Ho Hc. eapply (first_by_least created_before); [| |exact Hf|].
  - intros a b. apply key_le_total.
  - intros a b c. apply key_le_trans.
  - apply list_elem_of_filter. split; [done|]. apply list_elem_of_fmap.
    exists (k, o). by rewrite elem_of_map_to_list.
Qed.

(** [claim_one] claims the oldest claimable row, or reports that there is
    none.  The claimed row carries the worker's name and a lease of
    [worker_claim_ttl_seconds], and until the lease runs out no [claim_one] of
    any worker can take the row again. *)
Theorem claim_one_exclusive config w now db :
  rows_keyed db →
  match with_session (claim_one config w now) db with
  | (db', Ret (Some rid)) =>
      ∃ r r', resources db !! rid = Some r ∧ claimable now r = true
        ∧ (∀ k o, resources db !! k = Some o → claimable now o = true → created_before r o = true)
        ∧ db' = put_resource r' db ∧ r_id r' = rid ∧ life_of r' = life_of r
        ∧ r_worker_id r' = Some w
        ∧ r_worker_lease_until r' = Some (now + seconds (worker_claim_ttl_seconds config))
        ∧ (∀ t, t < now + seconds (worker_claim_ttl_seconds config) → claimable t r' = false)
  | (db', Ret None) => db' = db ∧ ∀ k o, resources db !! k = Some o → claimable now o = false
  | (_, Raise _) => False
  end.
Proof.
  intros Hk. unfold claim_one, claim_serialization. run_branches.
  - destruct (claim_candidate_some _ _ _ Heqo) as [[k Hr] Hc].
    eexists d, _. split_and!; [by rewrite <-(Hk _ _ Hr) in Hr|done| |reflexivity|done..|].
    + intros k' o Ho Hco. by eapply claim_candidate_first.
    + intros t Ht. unfold claimable, null_or_due. simpl.
      rewrite (proj2 (Z.leb_gt _ _) Ht). by rewrite andb_false_r.
  - split; [done|]. intros k o Ho. by eapply claim_candidate_none.
Qed.

Lemma claim_one_exclusive_witness :
  ∃ r, resources demo_created !! "res-0" = Some r ∧ claimable demo_start r = true.
Proof.
  assert (rows_keyed demo_created) as Hk
    by exact (cs_keyed _ (sys_reachable_consistent _ _ demo_created_reachable)).
  pose proof (claim_one_exclusive default_config "worker-1" demo_start demo_created Hk) as H.
  destruct (with_session (claim_one default_config "worker-1" demo_start) demo_created)
    as [db' [[rid|]|e]] eqn:E; [|vm_compute in E; discriminate|vm_compute in E; discriminate].
  assert (rid = "res-0") as -> by (vm_compute in E; injection E as _ <-; reflexivity).
  destruct H as (r & r' & Hr & Hc & _). exists r. split; [exact Hr|exact Hc].
Defined.

(** C14: A worker that lost its claim cannot write: when the row names another
    worker, or none, every transaction a dispatcher runs for that row leaves
    the whole database unchanged. *)
Theorem stale_worker_cannot_write config w rid db r :
  resources db !! rid = Some r → r_worker_id r ≠ Some w →
  (∀ now, txn_db (renew_claim config w now rid) db = db)
  ∧ txn_db (release_claim w rid) db = db
  ∧ (∀ e n, txn_db (persist_forward_result w rid e n) db = db)
  ∧ txn_db (finish_ready w rid) db = db
  ∧ txn_db (queue_disabled w rid) db = db
  ∧ (∀ now e n, txn_db (persist_disconnect_result w now rid e n) db = db)
  ∧ (∀ now x e, txn_db (record_disconnect_failure config w now rid x e) db = db)
  ∧ (∀ now, txn_db (begin_cleanup w now rid) db = db)
  ∧ (∀ now st e n, txn_db (persist_cleanup_result w now rid st e n) db = db)
  ∧ (∀ now x ph st fs cs, txn_db (record_failure config w now rid x ph st fs cs) db = db)
  ∧ txn_db (finish_restore w rid) db = db
  ∧ (∀ x, txn_db (record_restore_failure w rid x) db = db).
Proof.
  intros Hr Hw. assert (owns_claim w r = false) as Hown by by apply bool_decide_eq_false_2.
  assert ((r_worker_id r == Some w) = false) as Hown' by done.
  split_and!; intros; unfold txn_db, renew_claim, release_claim, persist_forward_result,
    finish_ready, queue_disabled, persist_disconnect_result, record_disconnect_failure,
    begin_cleanup, persist_cleanup_result, record_failure, finish_restore, record_restore_failure,
    claim_serialization, locked_resource, abandon.
  all: try match goal with |- context [if ?b then raise _ else _] => destruct b; [done|] end.
  all: autorewrite with pas_txn; rewrite Hr, ?Hown, ?Hown'; simpl; by run_branches.
Qed.

Lemma stale_worker_cannot_write_witness :
  txn_db (release_claim "worker-2" "res-0") demo_claimed = demo_claimed.
Proof.
  destruct (resources demo_claimed !! "res-0") as [r|] eqn:E; [|vm_compute in E; discriminate].
  refine (proj1 (proj2 (stale_worker_cannot_write default_config "worker-2" "res-0" demo_claimed r E _))).
  vm_compute in E. injection E as <-. discriminate.
Defined.

(** ** Retries *)

Lemma backoff_value config n :
  backoff config n = seconds (Z.min (worker_initial_backoff_seconds config * 2 ^ (n - 1))
                                    (worker_max_backoff_seconds config)).
Proof. done. Qed.

(** Retry delays: under an accepted configuration the first delay is the
    initial backoff, delays never shrink, each doubles until the maximum, and
    none exceeds the maximum. *)
Theorem backoff_bounds config n :
  valid_config config → 1 <= n →
  backoff config 1 = seconds (worker_initial_backoff_seconds config)
  ∧ seconds 1 <= backoff config n <= seconds (worker_max_backoff_seconds config)
  ∧ backoff config n <= backoff config (n + 1)
  ∧ backoff config (n + 1) = Z.min (2 * backoff config n) (seconds (worker_max_backoff_seconds config)).
Proof.
  intros Hv Hn. destruct (valid_config_worker config Hv) as ([H1 H2] & _).
  assert (1 <= 2 ^ (n - 1)) as Hp by (pose proof (Z.pow_pos_nonneg 2 (n - 1)); lia).
  assert (2 ^ (n + 1 - 1) = 2 * 2 ^ (n - 1)) as Hs
    by (rewrite <-Z.pow_succ_r by lia; f_equal; lia).
  rewrite !backoff_value, Hs. unfold seconds. simpl (2 ^ (1 - 1)).
  set (p := 2 ^ (n - 1)) in *. nia.
Qed.

Lemma backoff_bounds_witness :
  backoff default_config 1 = seconds 1 ∧ backoff default_config 7 <= seconds 30.
Proof.
  assert (valid_config default_config) as Hv by (split; vm_compute; reflexivity).
  split.
  - exact (proj1 (backoff_bounds default_config 1 Hv ltac:(lia))).
  - exact (proj2 (proj1 (proj2 (backoff_bounds default_config 7 Hv ltac:(lia))))).
Defined.

(** [n] failed attempts of a phase in a row. *)
Definition fail_times (config : TenantProvisioningConfig) (ph : phase) (now : time) (e : PyExc)
    (n : nat) (r : DBInstanceResource) : DBInstanceResource :=
  Nat.iter n (failed_attempt config now ph e) r.

Lemma fail_times_below config ph now e n r :
  r_retry_count r = 0 → Z.of_nat n <= worker_max_retries config →
  r_status (fail_times config ph now e n r) = r_status r
  ∧ r_retry_count (fail_times config ph now e n r) = Z.of_nat n
  ∧ (1 <= Z.of_nat n →
     r_next_retry_at (fail_times config ph now e n r) = Some (now + backoff config (Z.of_nat n))).
Proof.
  intros H0. induction n as [|n IH]; intros Hle; [by unfold fail_times; simpl; split_and!; [|lia|lia]|].
  destruct IH as (Hs & Hc & _); [lia|]. unfold fail_times in *. simpl Nat.iter.
  set (q := Nat.iter n _ r) in *. unfold failed_attempt.
  assert ((worker_max_retries config <? r_retry_count q + 1) = false) as Hlt by (apply Z.ltb_ge; lia).
  simpl. rewrite Hlt. simpl. rewrite Hs, Hc. split_and!; [done|lia|]. intros _. do 3 f_equal. lia.
Qed.

(** The retry budget: [worker_max_retries] consecutive failures only
    schedule the next attempt with its backoff; the one after them makes a
    provisioning resource [FAILED] with its cleanup queued and its retry count
    reset, and a resource being cleaned up [DELETE_FAILED]. *)
Theorem retry_budget config ph now e r :
  r_retry_count r = 0 → 0 <= worker_max_retries config →
  let k := Z.to_nat (worker_max_retries config) in
  (∀ n, (n <= k)%nat → r_status (fail_times config ph now e n r) = r_status r
     ∧ ((1 <= n)%nat → r_next_retry_at (fail_times config ph now e n r)
                        = Some (now + backoff config (Z.of_nat n))))
  ∧ let last := fail_times config ph now e (S k) r in
    r_next_retry_at last = None
    ∧ match ph with
      | Forward => r_status last = DBInstanceStatus.FAILED ∧ r_cleanup_required last = true
                   ∧ r_retry_count last = 0
      | Cleanup => r_status last = DBInstanceStatus.DELETE_FAILED
      end.
Proof.
  intros H0 Hmax k. split.
  - intros n Hn. destruct (fail_times_below config ph now e n r) as (Hs & _ & Hb); [done|lia|].
    split; [done|]. intros. apply Hb. lia.
  - destruct (fail_times_below config ph now e k r) as (Hs & Hc & _); [done|lia|].
    unfold fail_times in *. simpl Nat.iter. set (q := Nat.iter k _ r) in *. simpl. unfold failed_attempt.
    assert ((worker_max_retries config <? r_retry_count q + 1) = true) as Hlt by (apply Z.ltb_lt; lia).
    simpl. rewrite Hlt. by destruct ph.
Qed.

Lemma retry_budget_witness :
  ∃ r, resources demo_claimed !! "res-0" = Some r
    ∧ r_status (fail_times default_config Forward demo_start (RuntimeError "x") 6 r)
      = DBInstanceStatus.FAILED.
Proof.
  destruct (resources demo_claimed !! "res-0") as [r|] eqn:E; [|vm_compute in E; discriminate].
  exists r. split; [reflexivity|].
  assert (r_retry_count r = 0) as H0 by (vm_compute in E; injection E as <-; reflexivity).
  assert (0 <= worker_max_retries default_config) as H1 by (vm_compute; discriminate).
  exact (proj1 (proj2 (proj2 (retry_budget default_config Forward demo_start (RuntimeError "x") r H0 H1)))).
Defined.

(** ** Progress *)

Lemma slots_present db rid r :
  consistent db → resources db !! rid = Some r → r_capacity_released_at r = None →
  ∃ a b, capacities db !! ("agent", r_owner_agent_id r) = Some a
       ∧ capacities db !! ("backend", r_backend_id r) = Some b ∧ 0 < a ∧ 0 < b.
Proof.
  intros Hc Hl Hrel.
  assert (0 < counter ("agent", r_owner_agent_id r) db) as Ha.
  { rewrite (cs_agents _ Hc). eapply count_rows_pos; [exact Hl|].
    unfold holds_agent_slot. by rewrite Hrel, bool_decide_eq_true_2. }
  assert (0 < counter ("backend", r_backend_id r) db) as Hb.
  { rewrite (cs_backends _ Hc). eapply count_rows_pos; [exact Hl|].
    unfold holds_backend_slot. by rewrite Hrel, bool_decide_eq_true_2. }
  unfold counter in *.
  destruct (capacities db !! ("agent", r_owner_agent_id r)) as [a|]; [|done].
  destruct (capacities db !! ("backend", r_backend_id r)) as [b|]; [|done]. by exists a, b.
Qed.

Lemma cleanup_step_accepted e n :
  next_cleanup_step e = Some n
    ∨ (e = LeaseCleanupStep.RESIDUE_VERIFIED ∧ n = LeaseCleanupStep.RESIDUE_VERIFIED) →
  (Some n != next_cleanup_step e)
    && negb ((e == n) && (n == LeaseCleanupStep.RESIDUE_VERIFIED)) = false.
Proof. destruct e; intros [H|[H1 H2]]; simplify_eq/=; by vm_compute. Qed.

(** Cleanup cannot get stuck in the accounting: in every reachable database
    the worker that owns a row in cleanup and reports the next step of it has
    that step persisted, releasing the row's capacity when the residue is
    verified; neither [CapacityAccountingError] can occur. *)
Theorem cleanup_always_persists config db rid w now r n :
  sys_reachable config db → resources db !! rid = Some r → r_worker_id r = Some w →
  needs_cleanup r = true →
  (next_cleanup_step (r_cleanup_step r) = Some n
   ∨ (r_cleanup_step r = LeaseCleanupStep.RESIDUE_VERIFIED ∧ n = LeaseCleanupStep.RESIDUE_VERIFIED)) →
  let m := persist_cleanup_result w now rid (r_status r) (r_cleanup_step r) n in
  txn_out m db = Ret (n != LeaseCleanupStep.RESIDUE_VERIFIED)
  ∧ ∃ r', resources (txn_db m db) !! rid = Some r' ∧ r_cleanup_step r' = n
     ∧ (n = LeaseCleanupStep.RESIDUE_VERIFIED →
        is_Some (r_capacity_released_at r') ∧ r_worker_id r' = None
        ∧ (r_status r = DBInstanceStatus.DELETING → r_status r' = DBInstanceStatus.DELETED)).
Proof.
  intros Hr Hl Hw Hneed Hn m. pose proof (sys_reachable_consistent _ _ Hr) as Hc.
  pose proof (cs_keyed _ Hc _ _ Hl) as Hid.
  assert (owns_claim w r = true) as Hown by by apply bool_decide_eq_true_2.
  subst m. unfold txn_out, txn_db, persist_cleanup_result, finish_cleanup_locked, release_capacity,
    claim_serialization, locked_resource, save, abandon.
  rewrite cleanup_step_accepted by done. autorewrite with pas_txn.
  rewrite Hl, Hown, Hneed, !bool_decide_eq_true_2 by done. simpl.
  destruct (n == LeaseCleanupStep.RESIDUE_VERIFIED) eqn:Hlast; guards.
  - destruct (r_capacity_released_at r) as [t|] eqn:Hrel.
    + run_branches; split; try done; eexists; rewrite <-Hid; (split; [apply lookup_insert_eq|]);
        simpl; rewrite ?Hrel; guards; naive_solver.
    + destruct (slots_present _ _ _ Hc Hl Hrel) as (a & b & Ha & Hb & Hpa & Hpb).
      autorewrite with pas_txn. simpl. rewrite Ha, Hb.
      rewrite (proj2 (Z.leb_gt a 0)), (proj2 (Z.leb_gt b 0)) by lia. simpl.
      run_branches; split; try done; eexists; rewrite <-Hid; (split; [apply lookup_insert_eq|]);
        simpl; guards; naive_solver.
  - run_branches. split; [done|]. eexists. rewrite <-Hid. split; [apply lookup_insert_eq|]. done.
Qed.

Lemma cleanup_always_persists_witness :
  txn_out (persist_cleanup_result "worker-1" demo_later "res-0" DBInstanceStatus.DELETING
             LeaseCleanupStep.PENDING LeaseCleanupStep.DATABASE_DROPPED) demo_condemned = Ret true.
Proof.
  destruct (resources demo_condemned !! "res-0") as [r|] eqn:E; [|vm_compute in E; discriminate].
  pose proof (cleanup_always_persists default_config demo_condemned "res-0" "worker-1" demo_later r
    LeaseCleanupStep.DATABASE_DROPPED demo_condemned_reachable E) as H.
  vm_compute in E. injection E as <-. refine (proj1 (H _ _ _)); [reflexivity..|left; reflexivity].
Defined.

(** C38: Failures leak no message.  What a failed step commits depends on the
    class of the exception only, whatever the phase: never on its message or
    code; and two exceptions of one class and code whose messages are neither
    listed as safe nor carry a safe vendor code leave the same log line, so
    that neither the rows nor the log tell the messages apart. *)
Theorem failures_leak_no_message config w now rid e1 e2 :
  exc_type e1 = exc_type e2 →
  (∀ ph st fs cs, record_failure config w now rid e1 ph st fs cs
                  = record_failure config w now rid e2 ph st fs cs)
  ∧ (∀ step, record_disconnect_failure config w now rid e1 step
             = record_disconnect_failure config w now rid e2 step)
  ∧ record_restore_failure w rid e1 = record_restore_failure w rid e2
  ∧ (∀ phase step, exc_code e1 = exc_code e2 →
       (∀ e, e = e1 ∨ e = e2 → exc_message e ∉ static_safe_messages
          ∧ ∀ c, exc_code e = Some c → c ∉ vendor_message_safe_codes) →
       log_safe_failure rid phase step e1 = log_safe_failure rid phase step e2).
Proof.
  intros Ht. destruct e1 as [t c1 m1], e2 as [t' c2 m2]. simpl in Ht. subst t'.
  split_and!; try reflexivity. intros phase step Hc Hsafe. simpl in Hc. subst c2.
  assert (∀ m, mk_exc t c1 m = mk_exc t c1 m1 ∨ mk_exc t c1 m = mk_exc t c1 m2 →
    safe_reason (mk_exc t c1 m) = None) as Hnone.
  { intros m Hm. destruct (Hsafe _ Hm) as [Hmsg Hcode]. unfold safe_reason. simpl in *.
    rewrite (bool_decide_eq_false_2 (m ∈ _)) by done.
    destruct c1 as [c|]; [|done]. simpl. by rewrite bool_decide_eq_false_2 by by apply Hcode. }
  unfold log_safe_failure. rewrite !Hnone by auto. done.
Qed.

Lemma failures_leak_no_message_witness :
  log_safe_failure "res-0" "forward" "pending" (mk_exc "OperationalError" (Some 1045) "user root, password hunter2")
  = log_safe_failure "res-0" "forward" "pending" (mk_exc "OperationalError" (Some 1045) "other").
Proof.
  refine (proj2 (proj2 (proj2 (failures_leak_no_message default_config "worker-1" 0 "res-0"
    (mk_exc "OperationalError" (Some 1045) "user root, password hunter2")
    (mk_exc "OperationalError" (Some 1045) "other") eq_refl))) "forward" "pending" eq_refl _).
  intros e [->| ->]; (split; [vm_compute; intros H|intros c [= <-]; vm_compute; intros H]);
    repeat (apply elem_of_cons in H as [H|H]; [discriminate H|]); by apply not_elem_of_nil in H.
Defined.
