(* ===== verification/Liveness.v ===== *)
(** * What a dispatcher achieves with a working backend

    With an adapter whose calls succeed and no interference, the dispatch loop
    takes a creating resource to [READY], a deleted one to [COOLING_DOWN], and
    one whose cool-down is over to [DELETED], within a fixed fuel. *)

From S2P Require Import Prelude Models Config WriteGuard Worker AdapterInterface Dispatcher.
From S2P Require Import DispatchLoop Permission Contract Selector Capacity Service LifecycleSpec.
From S2P Require Import Lifecycle Reservation System Dispatching Examples DispatcherTheorems.

(** Calls that succeed: each reports the step after the row's. *)
Record cooperative {X : Type} (a : ProvisioningAdapter X) : Prop := {
  co_create : ∀ l w s,
    next_provisioning_step (r_provisioning_step (lr_resource l)) = Some s →
    s ≠ LeaseProvisioningStep.VERIFIED →
    ∃ x t, adapter_create a l w
      = (mk_world (w_db w) x t, Ret ((lr_resource l) <| r_provisioning_step := s |>));
  co_verify : ∀ l w,
    r_provisioning_step (lr_resource l) = LeaseProvisioningStep.GRANTED →
    ∃ x t, adapter_verify a l w
      = (mk_world (w_db w) x t,
         Ret ((lr_resource l) <| r_provisioning_step := LeaseProvisioningStep.VERIFIED |>));
  co_disconnect : ∀ l w s,
    next_delete_step (r_delete_step (lr_resource l)) = Some s →
    ∃ x t, adapter_disconnect a l w
      = (mk_world (w_db w) x t, Ret ((lr_resource l) <| r_delete_step := s |>));
  co_delete : ∀ l w s,
    next_cleanup_step (r_cleanup_step (lr_resource l)) = Some s →
    ∃ x t, adapter_delete a l w
      = (mk_world (w_db w) x t, Ret ((lr_resource l) <| r_cleanup_step := s |>));
  co_delete_done : ∀ l w,
    r_cleanup_step (lr_resource l) = LeaseCleanupStep.RESIDUE_VERIFIED →
    ∃ x t, adapter_delete a l w = (mk_world (w_db w) x t, Ret (lr_resource l))
}.

Section liveness.
  Context {X : Type} (config : TenantProvisioningConfig) (worker_id : string).
  Context (registry : AdapterRegistry X) (clock : nat → time).

(** The row is owned, and its backend, instance and adapter are there. *)
Record drivable (rid : string) (r : DBInstanceResource) (w : World X) : Prop := {
  dr_row : resources (w_db w) !! rid = Some r;
  dr_id : r_id r = rid;
  dr_owned : r_worker_id r = Some worker_id;
  dr_backend : ∃ b i iid a,
    backends (w_db w) !! r_backend_id r = Some b
    ∧ b_status b ≠ ProvisioningBackendStatus.DISABLED
    ∧ b_instance_id b = Some iid ∧ instances (w_db w) !! iid = Some i
    ∧ registry_get registry (i_engine i) (i_topology i) = Ret a ∧ cooperative a
}.

(** Writing the row back keeps it drivable while it stays owned. *)
Lemma drivable_put rid r r' w x t :
  drivable rid r w → identity r' = identity r → r_worker_id r' = Some worker_id →
  drivable rid r' (mk_world (put_resource r' (w_db w)) x t).
Proof.
  intros [Hr Hid Ho Hb] Hi Hw.
  assert (r_id r' = r_id r ∧ r_backend_id r' = r_backend_id r) as [Hid' Hb']
    by (unfold identity in Hi; split; congruence).
  split; simpl; [|congruence|done|by rewrite Hb'].
  rewrite Hid', Hid. apply lookup_insert_eq.
Qed.

Lemma load_claimed_run rid r w :
  drivable rid r w →
  ∃ l b i, with_db (load_claimed worker_id rid) w = (w, Ret (Some (l, Some b, Some i)))
    ∧ lr_resource l = r ∧ b_status b ≠ ProvisioningBackendStatus.DISABLED
    ∧ backends (w_db w) !! r_backend_id r = Some b
    ∧ ∃ a, registry_get registry (i_engine i) (i_topology i) = Ret a ∧ cooperative a.
Proof.
  intros [Hr Hid Ho (b & i & iid & a & Hb & Hst & Hi & Hinst & Hreg & Hco)].
  destruct w as [db x t]. simpl in *.
  exists (mk_loaded r (resource_credentials rid db)), b, i. split_and!; [|done..|by exists a].
  unfold with_db, with_session, load_claimed, locked_resource, open_session. simpl.
  autorewrite with pas_txn. rewrite Hr, Ho, bool_decide_eq_true_2 by done. simpl.
  autorewrite with pas_txn. rewrite Hb. simpl. rewrite Hi. simpl. by rewrite Hinst.
Qed.

(** *** Provisioning *)

Lemma persist_forward_run rid r n db b :
  resources db !! rid = Some r → r_worker_id r = Some worker_id →
  r_status r = DBInstanceStatus.CREATING →
  next_provisioning_step (r_provisioning_step r) = Some n →
  backends db !! r_backend_id r = Some b → b_status b ≠ ProvisioningBackendStatus.DISABLED →
  with_session (persist_forward_result worker_id rid (r_provisioning_step r) n) db
  = (put_resource (reset_retry (r <| r_provisioning_step := n |>) <| r_failure_reason := None |>) db,
     Ret true).
Proof.
  intros Hr Ho Hst Hn Hb Hdis. unfold persist_forward_result, claim_serialization, locked_resource,
    locked_backend, save, abandon, owns_claim.
  rewrite Hn, bool_decide_eq_true_2 by done. simpl. autorewrite with pas_txn.
  rewrite Hr, (bool_decide_eq_true_2 (r_worker_id r = _)) by done. simpl.
  rewrite (bool_decide_eq_false_2 (r_status r = _)) by congruence.
  rewrite !bool_decide_eq_true_2 by done. simpl. autorewrite with pas_txn.
  rewrite Hb, bool_decide_eq_false_2 by done. by autorewrite with pas_txn.
Qed.

(** The result of a transaction, in the world. *)
Lemma with_db_run {A} (m : M (Session DB) A) db' o (w : World X) :
  with_session m (w_db w) = (db', o) → with_db m w = (mk_world db' (w_ext w) (w_tick w), o).
Proof. unfold with_db. by intros ->. Qed.

Lemma forward_iteration rid r w n :
  drivable rid r w → r_status r = DBInstanceStatus.CREATING →
  next_provisioning_step (r_provisioning_step r) = Some n →
  ∃ x t, dispatch_iteration config worker_id registry clock rid w
    = (mk_world (put_resource (reset_retry (r <| r_provisioning_step := n |>)
                                 <| r_failure_reason := None |>) (w_db w)) x t, Ret true).
Proof.
  intros Hd Hst Hn.
  destruct (load_claimed_run _ _ _ Hd) as (l & b & i & Hload & Hl & Hdis & Hb & a & Hreg & Hco).
  assert (∃ x t, (if r_provisioning_step r == LeaseProvisioningStep.GRANTED
                  then adapter_verify a l else adapter_create a l) w
     = (mk_world (w_db w) x t, Ret (r <| r_provisioning_step := n |>))) as (x & t & Hcall).
  { rewrite <-Hl in *. case_bool_decide as Hg.
    - rewrite Hg in Hn. injection Hn as <-. by apply (co_verify a Hco).
    - apply (co_create a Hco); [done|]. intros ->. destruct (r_provisioning_step _); done. }
  exists x, t. unfold dispatch_iteration. rewrite (run_bind_ret _ _ _ _ _ Hload), Hl.
  unfold needs_cleanup. rewrite Hst. simpl.
  unfold forward_step. apply run_try_ret. rewrite bool_decide_eq_false_2 by done. rewrite Hreg, Hl.
  rewrite run_outcome, bool_decide_eq_false_2 by (intros E; by rewrite E in Hn).
  rewrite (run_bind_ret _ _ _ _ _ Hcall).
  destruct Hd as [Hr Hid Ho _]. erewrite with_db_run; [reflexivity|].
  by apply (persist_forward_run rid r n (w_db w) b).
Qed.

Lemma ready_iteration rid r w :
  drivable rid r w → r_status r = DBInstanceStatus.CREATING →
  r_provisioning_step r = LeaseProvisioningStep.VERIFIED →
  ∃ x t, dispatch_iteration config worker_id registry clock rid w
    = (mk_world (put_resource (clear_claim (reset_retry
         (r <| r_status := DBInstanceStatus.READY |> <| r_cleanup_required := false |>
            <| r_failure_reason := None |>))) (w_db w)) x t, Ret false).
Proof.
  intros Hd Hst Hv.
  destruct (load_claimed_run _ _ _ Hd) as (l & b & i & Hload & Hl & Hdis & Hb & a & Hreg & Hco).
  exists (w_ext w), (w_tick w). unfold dispatch_iteration. rewrite (run_bind_ret _ _ _ _ _ Hload), Hl.
  unfold needs_cleanup. rewrite Hst. simpl.
  unfold forward_step. apply run_try_ret. rewrite bool_decide_eq_false_2 by done. rewrite Hreg, Hl.
  rewrite run_outcome, bool_decide_eq_true_2 by done.
  erewrite run_bind_ret; [reflexivity|]. erewrite with_db_run; [reflexivity|].
  destruct Hd as [Hr Hid Ho _].
  unfold finish_ready, claim_serialization, locked_resource, locked_backend, save, abandon, owns_claim.
  autorewrite with pas_txn. rewrite Hr, !bool_decide_eq_true_2 by done. simpl.
  autorewrite with pas_txn. rewrite Hb, bool_decide_eq_false_2 by done. by autorewrite with pas_txn.
Qed.

Lemma dispatch_again fuel rid w w1 :
  dispatch_iteration config worker_id registry clock rid w = (w1, Ret true) →
  dispatch_claimed config worker_id registry clock (S fuel) rid w
  = dispatch_claimed config worker_id registry clock fuel rid w1.
Proof. intros Hi. simpl. by rewrite (run_bind_ret _ _ _ _ _ Hi). Qed.

Lemma dispatch_stops fuel rid w w1 :
  dispatch_iteration config worker_id registry clock rid w = (w1, Ret false) →
  dispatch_claimed config worker_id registry clock (S fuel) rid w = (w1, Ret true).
Proof. intros Hi. simpl. by rewrite (run_bind_ret _ _ _ _ _ Hi). Qed.

(** The provisioning steps from a row's step on, by the number of steps left. *)
Lemma provisioning_run k rid r w :
  drivable rid r w → r_status r = DBInstanceStatus.CREATING →
  provisioning_left (r_provisioning_step r) = k →
  ∃ w' r', dispatch_claimed config worker_id registry clock (S k) rid w = (w', Ret true)
    ∧ resources (w_db w') !! rid = Some r' ∧ identity r' = identity r
    ∧ r_status r' = DBInstanceStatus.READY
    ∧ r_provisioning_step r' = LeaseProvisioningStep.VERIFIED
    ∧ r_cleanup_required r' = false ∧ r_worker_id r' = None ∧ r_retry_count r' = 0
    ∧ (∀ k, k ≠ rid → resources (w_db w') !! k = resources (w_db w) !! k).
Proof.
  induction k as [|k IH] in r, w |- *; intros Hd Hst Hk.
  - assert (r_provisioning_step r = LeaseProvisioningStep.VERIFIED) as Hv
      by (destruct (r_provisioning_step r); done).
    destruct (ready_iteration _ _ _ Hd Hst Hv) as (x & t & Hi).
    eexists _, _. split; [by apply dispatch_stops|]. destruct Hd as [Hr Hid _ _]. simpl.
    subst rid. split; [apply lookup_insert_eq|]. split_and!; try done.
    intros k' Hne. by apply lookup_insert_ne.
  - assert (∃ n, next_provisioning_step (r_provisioning_step r) = Some n
              ∧ provisioning_left n = k) as (n & Hn & Hleft)
      by (destruct (r_provisioning_step r); simplify_eq/=; eauto).
    destruct (forward_iteration _ _ _ _ Hd Hst Hn) as (x & t & Hi).
    rewrite (dispatch_again _ _ _ _ Hi).
    pose (r1 := reset_retry (r <| r_provisioning_step := n |>) <| r_failure_reason := None |>).
    destruct (IH r1 _ (drivable_put rid r r1 w x t Hd eq_refl (dr_owned _ _ _ Hd)) Hst Hleft)
      as (w' & r' & Hrun & Hr' & Hid' & Hst' & Hv' & Hq' & Hw' & Hc' & Hoth).
    exists w', r'. split_and!; try done. intros k' Hne. rewrite Hoth by done. simpl.
    rewrite (dr_id _ _ _ Hd). by apply lookup_insert_ne.
Qed.

(** *** Deletion *)

Lemma disconnect_iteration rid r w d h :
  drivable rid r w → r_status r = DBInstanceStatus.DELETING →
  next_delete_step (r_delete_step r) = Some d →
  r_effective_delete_cooldown_duration_hours r = Some h →
  ∃ x t now, dispatch_iteration config worker_id registry clock rid w
    = (mk_world (put_resource
         (let q := reset_retry (r <| r_delete_step := d |>) <| r_failure_reason := None |> in
          if d == DeleteLifecycleStep.DISCONNECTED then
            clear_claim (q <| r_disconnected_at := Some now |>
              <| r_cooldown_until := Some (now + hours h) |>
              <| r_delete_step := DeleteLifecycleStep.COOLING_DOWN |>
              <| r_status := DBInstanceStatus.COOLING_DOWN |>)
          else q) (w_db w)) x t, Ret (d != DeleteLifecycleStep.DISCONNECTED)).
Proof.
  intros Hd Hst Hn Hh.
  destruct (load_claimed_run _ _ _ Hd) as (l & b & i & Hload & Hl & Hdis & Hb & a & Hreg & Hco).
  pose proof (co_disconnect a Hco l w d) as Hcall. rewrite Hl in Hcall.
  destruct (Hcall Hn) as (x & t & Hrun). clear Hcall.
  exists x, (S t), (clock t).
  unfold dispatch_iteration. rewrite (run_bind_ret _ _ _ _ _ Hload), Hl, Hst. simpl.
  assert (irreversible (r_delete_step r) = false) as -> by (destruct (r_delete_step r); done).
  unfold disconnect_step. apply run_try_ret. unfold pick_adapter. rewrite Hreg, run_outcome, Hl.
  rewrite (run_bind_ret _ _ _ _ _ Hrun). unfold at_now. erewrite run_bind_ret by reflexivity.
  erewrite with_db_run; [reflexivity|]. simpl. destruct Hd as [Hr Hid Ho _].
  unfold persist_disconnect_result, claim_serialization, locked_resource, save, abandon, owns_claim.
  rewrite Hn, (bool_decide_eq_true_2 (Some d = Some d)) by done. simpl. autorewrite with pas_txn.
  rewrite Hr, (bool_decide_eq_true_2 (r_worker_id r = _)) by done. simpl.
  rewrite (bool_decide_eq_true_2 (r_status r = _)) by done.
  rewrite (bool_decide_eq_true_2 (r_delete_step r = _)) by done. simpl.
  destruct (d == DeleteLifecycleStep.DISCONNECTED); [|by autorewrite with pas_txn].
  rewrite Hh. by autorewrite with pas_txn.
Qed.

Lemma disconnect_run k rid r w h :
  drivable rid r w → r_status r = DBInstanceStatus.DELETING →
  disconnecting_dstep (r_delete_step r) = true → disconnect_left (r_delete_step r) = k →
  r_effective_delete_cooldown_duration_hours r = Some h →
  ∃ w' r' now, dispatch_claimed config worker_id registry clock (S k) rid w = (w', Ret true)
    ∧ resources (w_db w') !! rid = Some r' ∧ identity r' = identity r
    ∧ r_status r' = DBInstanceStatus.COOLING_DOWN
    ∧ r_delete_step r' = DeleteLifecycleStep.COOLING_DOWN
    ∧ r_disconnected_at r' = Some now ∧ r_cooldown_until r' = Some (now + hours h)
    ∧ r_worker_id r' = None
    ∧ (∀ k, k ≠ rid → resources (w_db w') !! k = resources (w_db w) !! k).
Proof.
  induction k as [|k IH] in r, w |- *; intros Hd Hst Hdd Hk Hh.
  - assert (next_delete_step (r_delete_step r) = Some DeleteLifecycleStep.DISCONNECTED) as Hn
      by (destruct (r_delete_step r); done).
    destruct (disconnect_iteration _ _ _ _ _ Hd Hst Hn Hh) as (x & t & now & Hi).
    eexists _, _, now. split; [by apply dispatch_stops|]. destruct Hd as [Hr Hid _ _]. simpl.
    subst rid. split; [apply lookup_insert_eq|]. split_and!; try done.
    intros k' Hne. by apply lookup_insert_ne.
  - assert (∃ d, next_delete_step (r_delete_step r) = Some d ∧ disconnect_left d = k
              ∧ disconnecting_dstep d = true ∧ d ≠ DeleteLifecycleStep.DISCONNECTED)
      as (d & Hn & Hleft & Hdd' & Hne)
      by (destruct (r_delete_step r); simplify_eq/=; eauto).
    destruct (disconnect_iteration _ _ _ _ _ Hd Hst Hn Hh) as (x & t & now & Hi).
    rewrite bool_decide_eq_false_2 in Hi by done. rewrite (dispatch_again _ _ _ _ Hi).
    pose (r1 := reset_retry (r <| r_delete_step := d |>) <| r_failure_reason := None |>).
    destruct (IH r1 _ (drivable_put rid r r1 w x t Hd eq_refl (dr_owned _ _ _ Hd)) Hst Hdd' Hleft Hh)
      as (w' & r' & now' & Hrun & Hr' & Hid' & Hst' & Hs' & Hd' & Hu' & Hw' & Hoth).
    exists w', r', now'. split_and!; try done. intros k' Hk'. rewrite Hoth by done. simpl.
    rewrite (dr_id _ _ _ Hd). by apply lookup_insert_ne.
Qed.

(** *** Cleanup *)

(** The counters a row still holds can be released. *)
Definition releasable (r : DBInstanceResource) (db : DB) : Prop :=
  r_capacity_released_at r = None →
  ∃ a b, capacities db !! ("agent", r_owner_agent_id r) = Some a
       ∧ capacities db !! ("backend", r_backend_id r) = Some b ∧ 0 < a ∧ 0 < b.

Lemma cleanup_call rid r w n :
  drivable rid r w → r_status r = DBInstanceStatus.DELETING →
  r_delete_step r = DeleteLifecycleStep.LOGICAL_CLEANUP →
  next_cleanup_step (r_cleanup_step r) = Some n →
  ∃ x t now, ∀ db' o, with_session (persist_cleanup_result worker_id now rid DBInstanceStatus.DELETING
                                (r_cleanup_step r) n) (w_db w) = (db', Ret o) →
    dispatch_iteration config worker_id registry clock rid w = (mk_world db' x t, Ret o).
Proof.
  intros Hd Hst Hds Hn.
  destruct (load_claimed_run _ _ _ Hd) as (l & b & i & Hload & Hl & Hdis & Hb & a & Hreg & Hco).
  pose proof (co_delete a Hco l w n) as Hcall. rewrite Hl in Hcall.
  destruct (Hcall Hn) as (x & t & Hrun). clear Hcall.
  exists x, (S t), (clock t). intros db' o Hp.
  unfold dispatch_iteration. rewrite (run_bind_ret _ _ _ _ _ Hload), Hl.
  unfold needs_cleanup. rewrite Hst, Hds. simpl.
  unfold cleanup_step. apply run_try_ret. unfold pick_adapter. rewrite Hreg, run_outcome, Hl, Hst.
  rewrite (run_bind_ret _ _ _ _ _ Hrun). unfold at_now. erewrite run_bind_ret by reflexivity.
  by apply with_db_run.
Qed.

Lemma cleanup_guard r e n :
  r_worker_id r = Some worker_id → r_status r = DBInstanceStatus.DELETING →
  r_delete_step r = DeleteLifecycleStep.LOGICAL_CLEANUP → r_cleanup_step r = e →
  next_cleanup_step e = Some n →
  (Some n != next_cleanup_step e)
    && negb ((e == n) && (n == LeaseCleanupStep.RESIDUE_VERIFIED)) = false
  ∧ (negb (owns_claim worker_id r) || (r_status r != DBInstanceStatus.DELETING)
     || (r_cleanup_step r != e) || negb (needs_cleanup r)) = false.
Proof.
  intros Ho Hst Hds He Hn. unfold owns_claim, needs_cleanup. rewrite Hn, Hst, Hds. split.
  - by rewrite bool_decide_eq_true_2.
  - rewrite (bool_decide_eq_true_2 (r_worker_id r = _)) by done.
    by rewrite (bool_decide_eq_true_2 (r_cleanup_step r = _)).
Qed.

Lemma cleanup_iteration rid r w n :
  drivable rid r w → r_status r = DBInstanceStatus.DELETING →
  r_delete_step r = DeleteLifecycleStep.LOGICAL_CLEANUP →
  next_cleanup_step (r_cleanup_step r) = Some n → n ≠ LeaseCleanupStep.RESIDUE_VERIFIED →
  ∃ x t, dispatch_iteration config worker_id registry clock rid w
    = (mk_world (put_resource (reset_retry (r <| r_cleanup_step := n |>)
                                 <| r_failure_reason := None |>) (w_db w)) x t, Ret true).
Proof.
  intros Hd Hst Hds Hn Hne. destruct (cleanup_call _ _ _ _ Hd Hst Hds Hn) as (x & t & now & Hi).
  exists x, t. apply Hi. destruct Hd as [Hr Hid Ho _].
  destruct (cleanup_guard r _ n Ho Hst Hds eq_refl Hn) as [Hg1 Hg2].
  unfold persist_cleanup_result, claim_serialization, locked_resource, save, abandon.
  rewrite Hg1. autorewrite with pas_txn. rewrite Hr, Hg2. simpl.
  rewrite bool_decide_eq_false_2 by done. by autorewrite with pas_txn.
Qed.

Lemma cleanup_last rid r w :
  drivable rid r w → r_status r = DBInstanceStatus.DELETING →
  r_delete_step r = DeleteLifecycleStep.LOGICAL_CLEANUP →
  r_cleanup_step r = LeaseCleanupStep.RESOURCE_CONFIG_DROPPED → releasable r (w_db w) →
  ∃ w' r', dispatch_iteration config worker_id registry clock rid w = (w', Ret false)
    ∧ resources (w_db w') = <[rid := r']> (resources (w_db w)) ∧ identity r' = identity r
    ∧ r_status r' = DBInstanceStatus.DELETED ∧ r_delete_step r' = DeleteLifecycleStep.COMPLETE
    ∧ is_Some (r_capacity_released_at r') ∧ r_worker_id r' = None.
Proof.
  intros Hd Hst Hds Hcs Hrel.
  assert (next_cleanup_step (r_cleanup_step r) = Some LeaseCleanupStep.RESIDUE_VERIFIED) as Hn
    by by rewrite Hcs.
  destruct (cleanup_call _ _ _ _ Hd Hst Hds Hn) as (x & t & now & Hi).
  destruct Hd as [Hr Hid Ho _]. destruct (cleanup_guard r _ _ Ho Hst Hds eq_refl Hn) as [Hg1 Hg2].
  assert (∃ db' r', with_session (persist_cleanup_result worker_id now rid DBInstanceStatus.DELETING
      (r_cleanup_step r) LeaseCleanupStep.RESIDUE_VERIFIED) (w_db w) = (db', Ret false)
    ∧ resources db' = <[rid := r']> (resources (w_db w)) ∧ identity r' = identity r
    ∧ r_status r' = DBInstanceStatus.DELETED ∧ r_delete_step r' = DeleteLifecycleStep.COMPLETE
    ∧ is_Some (r_capacity_released_at r') ∧ r_worker_id r' = None) as (db' & r' & Hp & Hrest).
  2: by exists (mk_world db' x t), r'; split; [apply Hi|].
  unfold persist_cleanup_result, finish_cleanup_locked, release_capacity, claim_serialization,
    locked_resource, save, abandon.
  rewrite Hg1. autorewrite with pas_txn. rewrite Hr, Hg2. simpl. rewrite Hst. simpl.
  destruct (r_capacity_released_at r) as [z|] eqn:Hz.
  - autorewrite with pas_txn. subst rid. eexists _, _. split; [reflexivity|]. split; [reflexivity|].
    simpl. rewrite ?Hz. eauto 10.
  - destruct (Hrel Hz) as (a & b & Ha & Hb & Hpa & Hpb).
    autorewrite with pas_txn. simpl. rewrite Ha, Hb.
    rewrite (proj2 (Z.leb_gt a 0)), (proj2 (Z.leb_gt b 0)) by lia. simpl. autorewrite with pas_txn.
    subst rid. eexists _, _. split; [reflexivity|]. split; [reflexivity|]. simpl. eauto 10.
Qed.

Lemma cleanup_run k rid r w :
  drivable rid r w → r_status r = DBInstanceStatus.DELETING →
  r_delete_step r = DeleteLifecycleStep.LOGICAL_CLEANUP → cleanup_left (r_cleanup_step r) = k →
  r_cleanup_step r ≠ LeaseCleanupStep.RESIDUE_VERIFIED → releasable r (w_db w) →
  ∃ w' r', dispatch_claimed config worker_id registry clock (S k) rid w = (w', Ret true)
    ∧ resources (w_db w') = <[rid := r']> (resources (w_db w)) ∧ identity r' = identity r
    ∧ r_status r' = DBInstanceStatus.DELETED ∧ r_delete_step r' = DeleteLifecycleStep.COMPLETE
    ∧ is_Some (r_capacity_released_at r') ∧ r_worker_id r' = None.
Proof.
  induction k as [|k IH] in r, w |- *; intros Hd Hst Hds Hk Hnr Hrel.
  - assert (r_cleanup_step r = LeaseCleanupStep.RESOURCE_CONFIG_DROPPED) as Hcs
      by (destruct (r_cleanup_step r); done).
    destruct (cleanup_last _ _ _ Hd Hst Hds Hcs Hrel) as (w' & r' & Hi & Hrest).
    exists w', r'. split; [by apply dispatch_stops|done].
  - assert (∃ n, next_cleanup_step (r_cleanup_step r) = Some n ∧ cleanup_left n = k
              ∧ n ≠ LeaseCleanupStep.RESIDUE_VERIFIED) as (n & Hn & Hleft & Hne)
      by (destruct (r_cleanup_step r); simplify_eq/=; eauto).
    destruct (cleanup_iteration _ _ _ _ Hd Hst Hds Hn Hne) as (x & t & Hi).
    rewrite (dispatch_again _ _ _ _ Hi).
    pose (r1 := reset_retry (r <| r_cleanup_step := n |>) <| r_failure_reason := None |>).
    destruct (IH r1 _ (drivable_put rid r r1 w x t Hd eq_refl (dr_owned _ _ _ Hd)) Hst Hds Hleft Hne Hrel)
      as (w' & r' & Hrun & Hres & Hrest).
    exists w', r'. split; [exact Hrun|]. split; [|done]. rewrite Hres. simpl.
    rewrite (dr_id _ _ _ Hd). apply insert_insert_eq.
Qed.

Lemma begin_cleanup_iteration rid r w d u :
  drivable rid r w → r_status r = DBInstanceStatus.COOLING_DOWN →
  r_delete_step r = DeleteLifecycleStep.COOLING_DOWN →
  r_disconnected_at r = Some d → r_cooldown_until r = Some u → u <= clock (w_tick w) →
  ∃ x t, dispatch_iteration config worker_id registry clock rid w
    = (mk_world (put_resource (r <| r_status := DBInstanceStatus.DELETING |>
                      <| r_delete_step := DeleteLifecycleStep.LOGICAL_CLEANUP |>
                      <| r_cleanup_required := true |>) (w_db w)) x t, Ret true).
Proof.
  intros Hd Hst Hds Hdis Hu Hle.
  destruct (load_claimed_run _ _ _ Hd) as (l & b & i & Hload & Hl & _ & _ & a & _ & _).
  exists (w_ext w), (S (w_tick w)).
  unfold dispatch_iteration. rewrite (run_bind_ret _ _ _ _ _ Hload), Hl, Hst. simpl.
  unfold at_now. erewrite run_bind_ret by reflexivity. erewrite with_db_run; [reflexivity|]. simpl.
  destruct Hd as [Hr Hid Ho _].
  unfold begin_cleanup, claim_serialization, locked_resource, save, abandon, owns_claim.
  autorewrite with pas_txn. rewrite Hr, Hdis, Hu, (bool_decide_eq_true_2 (r_worker_id r = _)) by done.
  simpl. rewrite !bool_decide_eq_true_2 by done. simpl.
  rewrite (proj2 (Z.ltb_ge _ _)) by done. autorewrite with pas_txn. simpl. by rewrite ?Hdis, ?Hu.
Qed.
End liveness.

(** An adapter whose calls all succeed. *)
Definition ideal_adapter : ProvisioningAdapter unit :=
  let advance {S : Type} (next : S → option S) (get : DBInstanceResource → S)
      (put : S → DBInstanceResource → DBInstanceResource) (l : LoadedResource)
      : M (World unit) DBInstanceResource :=
    let r := lr_resource l in
    mret (match next (get r) with Some s => put s r | None => r end) in
  mk_adapter
    (advance next_provisioning_step r_provisioning_step (λ s r, r <| r_provisioning_step := s |>))
    (advance next_cleanup_step r_cleanup_step (λ s r, r <| r_cleanup_step := s |>))
    (advance next_provisioning_step r_provisioning_step (λ s r, r <| r_provisioning_step := s |>))
    (advance next_delete_step r_delete_step (λ s r, r <| r_delete_step := s |>))
    (λ _, mret tt)
    (λ _, mret (mk_health_result true None)).

Lemma ideal_cooperative : cooperative ideal_adapter.
Proof.
  split; intros l w; intros; exists (w_ext w), (w_tick w); destruct w as [db x t]; cbn;
    match goal with H : _ = _ |- _ => by rewrite H end.
Qed.

Definition ideal_registry : AdapterRegistry unit :=
  {[ registry_key InstanceEngine.POLARDB_MYSQL InstanceTopology.MULTITENANT := ideal_adapter ]}.

(** A row of the demonstration databases, claimed by [worker-1]. *)
Ltac demo_drivable E :=
  split;
    [ exact E
    | vm_compute in E; injection E as <-; reflexivity
    | vm_compute in E; injection E as <-; reflexivity
    | exists demo_backend, demo_instance, "inst-1", ideal_adapter;
      vm_compute in E; injection E as <-;
      repeat split; first [discriminate | reflexivity | apply ideal_cooperative] ].

(** C10: Provisioning completes: when the calls of the adapter succeed, the loop
    of the worker that claimed a [CREATING] resource takes it through every
    provisioning step to [READY] and [VERIFIED] within seven iterations, clears
    the claim, the retry state and [cleanup_required], keeps the identity
    columns and touches no other resource. *)
Theorem provisioning_completes {X} (config : TenantProvisioningConfig) (worker_id : string) (registry : AdapterRegistry X) clock fuel rid r w :
  drivable worker_id registry rid r w → r_status r = DBInstanceStatus.CREATING → (7 <= fuel)%nat →
  ∃ w' r', dispatch_claimed config worker_id registry clock fuel rid w = (w', Ret true)
    ∧ resources (w_db w') !! rid = Some r' ∧ identity r' = identity r
    ∧ r_status r' = DBInstanceStatus.READY
    ∧ r_provisioning_step r' = LeaseProvisioningStep.VERIFIED
    ∧ r_cleanup_required r' = false ∧ r_worker_id r' = None ∧ r_retry_count r' = 0
    ∧ (∀ k, k ≠ rid → resources (w_db w') !! k = resources (w_db w) !! k).
Proof.
  intros Hd Hst Hf. destruct (provisioning_run config worker_id registry clock _ rid r w Hd Hst eq_refl)
    as (w' & r' & Hrun & Hrest).
  exists w', r'. split; [|done]. eapply dispatch_fuel; [exact Hrun|].
  destruct (r_provisioning_step r); simpl; lia.
Qed.

Lemma provisioning_completes_witness :
  ∃ w' r', dispatch_claimed default_config "worker-1" ideal_registry (λ _, demo_start) 7 "res-0"
             (mk_world demo_claimed tt 0) = (w', Ret true)
    ∧ resources (w_db w') !! "res-0" = Some r' ∧ r_status r' = DBInstanceStatus.READY.
Proof.
  destruct (resources demo_claimed !! "res-0") as [r|] eqn:E; [|vm_compute in E; discriminate].
  destruct (provisioning_completes default_config "worker-1" ideal_registry (λ _, demo_start) 7 "res-0" r
    (mk_world demo_claimed tt 0)) as (w' & r' & Hrun & Hr' & _ & Hst & _).
  - demo_drivable E.
  - vm_compute in E. injection E as <-. reflexivity.
  - lia.
  - exists w', r'. split; [exact Hrun|]. split; [exact Hr'|exact Hst].
Defined.

(** C11: Deletion completes in two runs, each of a worker that holds the claim,
    while the resource's backend is there and not disabled and its adapter's
    calls succeed ([drivable]).  A [DELETING] resource that is not past the point
    of no return, with its cool-down recorded: three iterations of the loop (or
    any larger bound) disconnect it and leave it [COOLING_DOWN] and unclaimed,
    with [cooldown_until] the recorded hours after [disconnected_at].  A
    [COOLING_DOWN] resource whose cleanup has not begun, at a clock not before
    [cooldown_until], in a database that satisfies the invariant: five iterations
    clean it up and leave it [DELETED], released and unclaimed.  Neither run
    touches another resource or the identity columns. *)
Theorem deletion_completes {X} (config : TenantProvisioningConfig) (worker_id : string) (registry : AdapterRegistry X) clock fuel rid r w :
  drivable worker_id registry rid r w →
  (∀ h, (3 <= fuel)%nat → r_status r = DBInstanceStatus.DELETING → disconnecting_dstep (r_delete_step r) = true →
     r_effective_delete_cooldown_duration_hours r = Some h →
     ∃ w' r' now, dispatch_claimed config worker_id registry clock fuel rid w = (w', Ret true)
       ∧ resources (w_db w') !! rid = Some r' ∧ identity r' = identity r
       ∧ r_status r' = DBInstanceStatus.COOLING_DOWN
       ∧ r_delete_step r' = DeleteLifecycleStep.COOLING_DOWN
       ∧ r_disconnected_at r' = Some now ∧ r_cooldown_until r' = Some (now + hours h)
       ∧ r_worker_id r' = None
       ∧ (∀ k, k ≠ rid → resources (w_db w') !! k = resources (w_db w) !! k))
  ∧ (∀ d u, (5 <= fuel)%nat → consistent (w_db w) → r_status r = DBInstanceStatus.COOLING_DOWN →
     r_cleanup_step r = LeaseCleanupStep.PENDING →
     r_disconnected_at r = Some d → r_cooldown_until r = Some u → u <= clock (w_tick w) →
     ∃ w' r', dispatch_claimed config worker_id registry clock fuel rid w = (w', Ret true)
       ∧ resources (w_db w') = <[rid := r']> (resources (w_db w)) ∧ identity r' = identity r
       ∧ r_status r' = DBInstanceStatus.DELETED ∧ r_delete_step r' = DeleteLifecycleStep.COMPLETE
       ∧ is_Some (r_capacity_released_at r') ∧ r_worker_id r' = None).
Proof.
  intros Hd. split.
  - intros h Hf Hst Hdd Hh.
    destruct (disconnect_run config worker_id registry clock _ rid r w h Hd Hst Hdd eq_refl Hh)
      as (w' & r' & now & Hrun & Hrest).
    exists w', r', now. split; [|done]. eapply dispatch_fuel; [exact Hrun|].
    destruct (r_delete_step r); simpl; lia.
  - intros d u Hf Hc Hst Hcs Hdis Hu Hle. destruct fuel as [|fuel]; [lia|].
    pose proof (reachable_inv _ (cs_lives _ Hc _ _ (dr_row _ _ _ _ _ Hd))) as (_ & _ & Hinv).
    simpl in Hinv. rewrite Hst in Hinv. destruct Hinv as [Hds _].
    destruct (begin_cleanup_iteration config worker_id registry clock rid r w d u Hd Hst Hds Hdis Hu Hle)
      as (x & t & Hi).
    rewrite (dispatch_again _ _ _ _ _ _ _ _ Hi).
    pose (r1 := r <| r_status := DBInstanceStatus.DELETING |>
                  <| r_delete_step := DeleteLifecycleStep.LOGICAL_CLEANUP |>
                  <| r_cleanup_required := true |>).
    pose proof (drivable_put worker_id registry rid r r1 w x t Hd eq_refl (dr_owned _ _ _ _ _ Hd)) as Hd1.
    destruct (cleanup_run config worker_id registry clock 3 rid r1 _ Hd1 eq_refl eq_refl)
      as (w' & r' & Hrun & Hres & Hrest).
    + simpl. by rewrite Hcs.
    + simpl. by rewrite Hcs.
    + intros Hrel. apply (slots_present (w_db w) rid r Hc (dr_row _ _ _ _ _ Hd) Hrel).
    + exists w', r'. split; [eapply dispatch_fuel; [exact Hrun|lia]|]. split; [|done].
      rewrite Hres. simpl. rewrite (dr_id _ _ _ _ _ Hd). apply insert_insert_eq.
Qed.

(** The resource of the demonstration, deleted and claimed. *)
Definition demo_deleting : DB :=
  txn_db (claim_one default_config "worker-1" demo_start)
    (txn_db (delete_db_instance_resource default_config None demo_start "agent-1" "res-0") demo_created).

(** Both runs: one after the deletion, and one after the cool-down. *)
Lemma deletion_completes_witness :
  (∃ w' r', dispatch_claimed default_config "worker-1" ideal_registry (λ _, demo_start) 3 "res-0"
              (mk_world demo_deleting tt 0) = (w', Ret true)
     ∧ resources (w_db w') !! "res-0" = Some r' ∧ r_status r' = DBInstanceStatus.COOLING_DOWN)
  ∧ ∃ w' r', dispatch_claimed default_config "worker-1" ideal_registry (λ _, demo_later) 5 "res-0"
             (mk_world demo_reclaimed tt 0) = (w', Ret true)
    ∧ resources (w_db w') = <["res-0" := r']> (resources demo_reclaimed)
    ∧ r_status r' = DBInstanceStatus.DELETED.
Proof.
  split.
  - destruct (resources demo_deleting !! "res-0") as [r|] eqn:E; [|vm_compute in E; discriminate].
    destruct (r_effective_delete_cooldown_duration_hours r) as [h|] eqn:Eh;
      [|vm_compute in E; injection E as <-; discriminate].
    assert (drivable "worker-1" ideal_registry "res-0" r (mk_world demo_deleting tt 0)) as Hd
      by demo_drivable E.
    destruct (proj1 (deletion_completes default_config "worker-1" ideal_registry (λ _, demo_start) 3 "res-0"
      r (mk_world demo_deleting tt 0) Hd) h (le_n 3)) as (w' & r' & now & Hrun & Hr' & _ & Hst & _).
    + vm_compute in E. injection E as <-. reflexivity.
    + vm_compute in E. injection E as <-. reflexivity.
    + exact Eh.
    + exists w', r'. split; [exact Hrun|]. split; [exact Hr'|exact Hst].
  - destruct (resources demo_reclaimed !! "res-0") as [r|] eqn:E; [|vm_compute in E; discriminate].
    destruct (r_cooldown_until r) as [u|] eqn:Eu; [|vm_compute in E; injection E as <-; discriminate].
    destruct (r_disconnected_at r) as [d|] eqn:Ed; [|vm_compute in E; injection E as <-; discriminate].
    assert (drivable "worker-1" ideal_registry "res-0" r (mk_world demo_reclaimed tt 0)) as Hd
      by demo_drivable E.
    destruct (proj2 (deletion_completes default_config "worker-1" ideal_registry (λ _, demo_later) 5 "res-0"
      r (mk_world demo_reclaimed tt 0) Hd) d u (le_n 5)) as (w' & r' & Hrun & Hr' & _ & Hst & _).
    + exact (sys_reachable_consistent _ _ demo_reclaimed_reachable).
    + vm_compute in E. injection E as <-. reflexivity.
    + vm_compute in E. injection E as <-. reflexivity.
    + exact Ed.
    + exact Eu.
    + vm_compute in E. injection E as <-. vm_compute in Eu. injection Eu as <-. vm_compute. discriminate.
    + exists w', r'. split; [exact Hrun|]. split; [exact Hr'|exact Hst].
Defined.

(** ** The loop *)

Lemma ideal_frame : AdapterFrame ideal_adapter.
Proof. split; intros r w; destruct w; reflexivity. Qed.

Lemma ideal_registry_frame : ∀ key a, ideal_registry !! key = Some a → AdapterFrame a.
Proof.
  intros key a Ha. unfold ideal_registry in Ha. apply lookup_singleton_Some in Ha as [_ <-].
  apply ideal_frame.
Qed.

(** The dispatcher refines the system: whatever [run_once] does to the
    metadata database, with any adapters during whose calls other workers and
    requests may commit transactions, is a sequence of system steps, so every
    theorem about reachable databases holds before and after it. *)
Theorem run_once_refinement {X} (config : TenantProvisioningConfig) (worker_id : string)
    (registry : AdapterRegistry X) clock fuel w :
  (∀ key a, registry !! key = Some a → interleaved config a) →
  rtc (sys_step config) (w_db w) (w_db (run_once config worker_id registry clock fuel w).1)
  ∧ (sys_reachable config (w_db w) →
     sys_reachable config (w_db (run_once config worker_id registry clock fuel w).1)).
Proof.
  intros Hreg.
  pose proof (run_once_steps config worker_id registry clock Hreg fuel w) as Hs.
  split; [exact Hs|]. intros Hr. unfold sys_reachable in *. by etrans.
Qed.

Lemma run_once_refinement_witness :
  sys_reachable default_config
    (w_db (run_once default_config "worker-1" ideal_registry (λ _, demo_start) 7
             (mk_world demo_created tt 0)).1).
Proof.
  refine (proj2 (run_once_refinement default_config "worker-1" ideal_registry (λ _, demo_start) 7
    (mk_world demo_created tt 0) _) demo_created_reachable).
  intros key a Ha. exact (interleaved_frame default_config a (ideal_registry_frame key a Ha)).
Defined.

(** C22: The dispatch loop terminates and never raises: for every database that
    satisfies the invariant, every row and every adapter that leaves the
    metadata database alone (its calls may raise or report any step), seven
    iterations end the [while True] loop. *)
Theorem dispatch_loop_terminates {X} (config : TenantProvisioningConfig) (worker_id : string)
    (registry : AdapterRegistry X) clock fuel rid w :
  (∀ key a, registry !! key = Some a → AdapterFrame a) →
  consistent (w_db w) → (7 <= fuel)%nat →
  (dispatch_claimed config worker_id registry clock fuel rid w).2 = Ret true.
Proof.
  intros Hreg Hc Hf. apply dispatch_terminates; [done|done| |lia].
  intros r _. pose proof (loop_measure_bound r). lia.
Qed.

Lemma dispatch_loop_terminates_witness :
  (dispatch_claimed default_config "worker-1" ideal_registry (λ _, demo_start) 7 "res-0"
     (mk_world demo_claimed tt 0)).2 = Ret true.
Proof.
  apply (dispatch_loop_terminates default_config "worker-1" ideal_registry (λ _, demo_start) 7 "res-0"
    (mk_world demo_claimed tt 0)).
  - apply ideal_registry_frame.
  - exact (sys_reachable_consistent _ _ demo_claimed_reachable).
  - lia.
Defined.
