(* ===== verification/AdapterTheorems.v ===== *)
(** * The multitenant adapter meets its interface *)

From S2P Require Import Prelude PyString Models Config AdapterInterface Dispatcher DispatchLoop.
From S2P Require Import Permission Ddl Adapter Capacity Service Examples.

Section adapter.
  Context {X : Type} `{!TenantServices X}.

Lemma context_leaves b : leaves_db (X:=X) (context b).
Proof.
  apply leaves_db_bind; [apply leaves_db_query|]. intros [ctx|]; [|apply leaves_db_raise].
  apply leaves_db_bind; [apply leaves_db_lift_outcome|]. intros. apply leaves_db_ret.
Qed.

Lemma forward_ddl_leaves l : leaves_db (X:=X) (forward_ddl l).
Proof.
  apply leaves_db_bind; [apply context_leaves|]. intros ctx.
  apply leaves_db_bind; [apply leaves_db_lift_outcome|]. intros up.
  apply leaves_db_bind; [apply leaves_db_lift_outcome|]. intros. apply leaves_db_ret.
Qed.

Lemma cleanup_ddl_leaves r : leaves_db (X:=X) (cleanup_ddl r).
Proof.
  apply leaves_db_bind; [apply context_leaves|]. intros ctx.
  apply leaves_db_bind; [apply leaves_db_lift_outcome|]. intros name.
  apply leaves_db_bind; [apply leaves_db_lift_outcome|]. intros. apply leaves_db_ret.
Qed.

Lemma login_check_leaves i u p d msg : leaves_db (X:=X) (login_check i u p d msg).
Proof.
  unfold login_check. destruct (i_host i), (i_port i); try apply leaves_db_raise.
  case_match; [apply leaves_db_raise|].
  apply leaves_db_bind; [apply leaves_db_lift_ext|]. intros. case_match; done.
Qed.

Hint Resolve context_leaves forward_ddl_leaves cleanup_ddl_leaves login_check_leaves : pas.

Ltac leaves :=
  repeat first
    [ apply leaves_db_ret | apply leaves_db_raise | apply leaves_db_lift_outcome
    | apply leaves_db_lift_ext | apply context_leaves | apply forward_ddl_leaves
    | apply cleanup_ddl_leaves | apply login_check_leaves
    | apply leaves_db_bind; [|intros ?] | apply leaves_db_try; [|intros ?] | case_match ].

(** The interface the dispatcher's theorems are proved against. *)
#[export] Instance multitenant_frame : AdapterFrame (multitenant_adapter (X:=X)).
Proof.
  split; intros r; simpl;
    [unfold create|unfold delete|unfold verify|unfold disconnect|unfold restore|unfold health_check];
    leaves.
Qed.

(** ** Steps *)

Lemma bind_ret_inv {S A B} (m : M S A) (k : A → M S B) s s' b :
  (m ≫= k) s = (s', Ret b) → ∃ s1 a, m s = (s1, Ret a) ∧ k a s1 = (s', Ret b).
Proof.
  unfold mbind, M_bind. destruct (m s) as [s1 [a|e]] eqn:E; [|done]. intros Hk. by exists s1, a.
Qed.

Ltac peel H :=
  repeat match type of H with
  | (_ ≫= _) _ = (_, Ret _) =>
      let s1 := fresh "w1" in let a := fresh "a" in
      let E := fresh "E" in
      apply bind_ret_inv in H as (s1 & a & E & H)
  | mret _ _ = (_, Ret _) => injection H as <- <-
  | raise _ _ = _ => discriminate H
  | (if ?b then _ else _) _ = _ => destruct b
  end.

(** The adapter reports exactly the dispatcher's next step.  When a call of
    the multitenant adapter returns, the row it returns is the row it was given
    with only the step field advanced as in the dispatcher's step tables
    ([create] leaves [GRANTED] to [verify]), so the dispatcher's step check
    never rejects it. *)
Theorem adapter_reports_next_step (l : LoadedResource) (w w' : World X) r' :
  let r := lr_resource l in
  (create l w = (w', Ret r') →
     if (r_provisioning_step r == LeaseProvisioningStep.GRANTED)
        || (r_provisioning_step r == LeaseProvisioningStep.VERIFIED) then r' = r
     else ∃ n, next_provisioning_step (r_provisioning_step r) = Some n
               ∧ r' = r <| r_provisioning_step := n |>)
  ∧ (verify l w = (w', Ret r') →
     r' = r <| r_provisioning_step := LeaseProvisioningStep.VERIFIED |>)
  ∧ (disconnect l w = (w', Ret r') →
     match next_delete_step (r_delete_step r) with
     | Some n => r' = r <| r_delete_step := n |>
     | None => r' = r
     end)
  ∧ (delete l w = (w', Ret r') →
     match next_cleanup_step (r_cleanup_step r) with
     | Some n => r' = r <| r_cleanup_step := n |>
     | None => r' = r
     end).
Proof.
  intros r. split_and!; intros H.
  - unfold create in H. fold r in H. peel H.
    destruct (r_provisioning_step r); peel H; simpl; eauto.
  - unfold verify in H. fold r in H. destruct (r_provisioning_step r == _) eqn:Hv; peel H; [|done].
    apply bool_decide_eq_true in Hv. destruct r. simpl in *. by subst.
  - unfold disconnect in H. fold r in H. peel H. destruct (r_delete_step r); peel H; done.
  - unfold delete in H. fold r in H. peel H. destruct (r_cleanup_step r); peel H; done.
Qed.

(** ** Every reported step was verified *)

Lemma create_and_verify_ret exec verified codes kind (x x' : X) u :
  create_and_verify exec verified codes kind x = (x', Ret u) → ∃ x1, verified x1 = (x', Ret true).
Proof.
  unfold create_and_verify. intros H. apply bind_ret_inv in H as (x1 & d & _ & H).
  apply bind_ret_inv in H as (x2 & v & Hv & H). exists x1.
  destruct v; [by injection H as <-|by destruct d].
Qed.

Lemma exists_answer_false {B} (exists_ : M X bool) (raised : M X B) (b : B) x x' u :
  (∀ s, ∃ e, raised s = (s, Raise e)) →
  (found ← exists_; if (found : bool) then raised else mret b) x = (x', Ret u) →
  exists_ x = (x', Ret false).
Proof.
  intros Hr H. apply bind_ret_inv in H as (x1 & f & Hf & H).
  destruct f; [destruct (Hr x1) as [e E]; congruence|]. by injection H as <-.
Qed.

Lemma drop_and_verify_ret ctx sql exists_ codes kind (x x' : X) u :
  drop_and_verify_absent ctx sql exists_ codes kind x = (x', Ret u) → ∃ x1, exists_ x1 = (x', Ret false).
Proof.
  unfold drop_and_verify_absent. intros H. apply bind_ret_inv in H as (x1 & settled & Ht & H).
  destruct settled.
  - injection H as <-. unfold try_except in Ht.
    destruct ((ddl_execute ctx sql [] ;; mret false) x) as [x2 [b|e]] eqn:Hx.
    + apply bind_ret_inv in Hx as (? & ? & _ & Hx). unfold mret, M_ret in Hx. congruence.
    + destruct (code_in codes e); [discriminate Ht|]. exists x2.
      eapply exists_answer_false; [|exact Ht]. by eexists.
  - exists x1. eapply exists_answer_false; [|exact H]. by eexists.
Qed.

Lemma lift_ext_ret {A} (m : M X A) w w1 a :
  lift_ext m w = (w1, Ret a) → m (w_ext w) = (w_ext w1, Ret a).
Proof. unfold lift_ext. destruct (m (w_ext w)) as [x o]. by intros [= <- ->]. Qed.

(** The last thing the server was asked, and its answer. *)
Definition answered (m : M X bool) (b : bool) (w' : World X) : Prop := ∃ x, m x = (w_ext w', Ret b).

(** No step is reported unverified.  When [create] returns from a DDL step,
    the last thing it did was to ask the tenant server for the object and find
    it as the row describes it; when [delete] returns from a drop, the server
    had just denied the object (and before the database is dropped, reported no
    session of the account); and [RESIDUE_VERIFIED], which releases the
    capacity, is reported only after the server denied the database, the
    tenant, the resource config and the user one after the other. *)
Theorem steps_are_verified (l : LoadedResource) (w w' : World X) r' :
  let r := lr_resource l in
  (create l w = (w', Ret r') → ∃ ctx account,
     match r_provisioning_step r with
     | LeaseProvisioningStep.PENDING => answered (verify_resource_config ctx r) true w'
     | LeaseProvisioningStep.RESOURCE_CONFIG_CREATED => answered (verify_tenant ctx r) true w'
     | LeaseProvisioningStep.TENANT_CREATED => answered (verify_user ctx account) true w'
     | LeaseProvisioningStep.USER_CREATED => answered (verify_database ctx r) true w'
     | LeaseProvisioningStep.DATABASE_CREATED => answered (verify_grants ctx account r) true w'
     | _ => True
     end)
  ∧ (delete l w = (w', Ret r') → ∃ ctx account,
     match r_cleanup_step r with
     | LeaseCleanupStep.PENDING =>
         (∃ x x1, verify_disconnected ctx account x = (x1, Ret true))
         ∧ answered (verify_database ctx r) false w'
     | LeaseCleanupStep.DATABASE_DROPPED => answered (verify_tenant ctx r) false w'
     | LeaseCleanupStep.TENANT_DROPPED => answered (verify_resource_config ctx r) false w'
     | LeaseCleanupStep.RESOURCE_CONFIG_DROPPED => ∃ x0 x1 x2 x3,
         verify_database ctx r x0 = (x1, Ret false) ∧ verify_tenant ctx r x1 = (x2, Ret false)
         ∧ verify_resource_config ctx r x2 = (x3, Ret false)
         ∧ verify_user ctx account x3 = (w_ext w', Ret false)
     | LeaseCleanupStep.RESIDUE_VERIFIED => True
     end).
Proof.
  intros r. split; intros H.
  - unfold create in H. fold r in H. apply bind_ret_inv in H as (w1 & [[ctx account] pw] & _ & H).
    exists ctx, account. simpl in H.
    destruct (r_provisioning_step r); try done; peel H; apply lift_ext_ret in E.
    + unfold create_resource_config in E. peel E. by apply create_and_verify_ret in E.
    + unfold create_tenant in E. peel E. by apply create_and_verify_ret in E.
    + unfold create_user in E. peel E. by apply create_and_verify_ret in E.
    + unfold create_database in E. peel E. by apply create_and_verify_ret in E.
    + unfold grant_privileges in E. do 4 (apply bind_ret_inv in E as (? & ? & _ & E)).
      apply bind_ret_inv in E as (xg & granted & Hg & E). eexists. rewrite Hg.
      destruct granted; [by injection E as <-|discriminate E].
  - unfold delete in H. fold r in H. apply bind_ret_inv in H as (w1 & [ctx account] & _ & H).
    exists ctx, account. simpl in H.
    destruct (r_cleanup_step r); try done.
    + apply bind_ret_inv in H as (w2 & u2 & Hp & H). apply lift_ext_ret in Hp.
      apply bind_ret_inv in H as (w3 & u3 & Hd & H). apply lift_ext_ret in Hd. injection H as <- _. split.
      * unfold prepare_cleanup in Hp. do 2 (apply bind_ret_inv in Hp as (? & ? & _ & Hp)).
        apply bind_ret_inv in Hp as (xq & quiet & Hq & Hp). eexists _, _. rewrite Hq.
        destruct quiet; [done|discriminate Hp].
      * unfold drop_database in Hd. peel Hd. by apply drop_and_verify_ret in Hd.
    + apply bind_ret_inv in H as (w2 & u2 & Hd & H). apply lift_ext_ret in Hd. injection H as <- _.
      unfold drop_tenant in Hd. peel Hd. by apply drop_and_verify_ret in Hd.
    + apply bind_ret_inv in H as (w2 & u2 & Hd & H). apply lift_ext_ret in Hd. injection H as <- _.
      unfold drop_resource_config in Hd. peel Hd. by apply drop_and_verify_ret in Hd.
    + apply bind_ret_inv in H as (w2 & absent & Hv & H). apply lift_ext_ret in Hv.
      destruct absent; [|discriminate H]. injection H as <- _. unfold verify_residue_absent in Hv.
      apply bind_ret_inv in Hv as (y1 & b1 & H1 & Hv). apply bind_ret_inv in Hv as (y2 & b2 & H2 & Hv).
      apply bind_ret_inv in Hv as (y3 & b3 & H3 & Hv). apply bind_ret_inv in Hv as (y4 & b4 & H4 & Hv).
      injection Hv as <- Hb. destruct b1, b2, b3, b4; try done. by exists (w_ext w1), y1, y2, y3.
Qed.

(** ** Who may reach the tenant server *)

Definition present (ciphertext : option string) : Prop := ∃ s, ciphertext = Some s ∧ s ≠ "".

(** The administrator of a backend's instance: a credential of that instance and
    of no resource, for provisioning, active, that the backend names, of a backend
    and an instance that are complete. *)
Record administrator (b : ProvisioningBackend) (i : Instance) (c : InstanceCredential) : Prop := {
  ad_instance : b_instance_id b = Some (i_id i);
  ad_named : b_admin_credential_id b = Some (c_id c);
  ad_of_instance : c_instance_id c = Some (i_id i);
  ad_of_no_resource : c_resource_id c = None;
  ad_purpose : c_purpose c = CredentialPurpose.PROVISIONING_ADMIN;
  ad_capability : c_capability c = CredentialCapability.ADMIN;
  ad_active : c_status c = CredentialStatus.ACTIVE;
  ad_versions : 1 <= c_version c ∧ 1 <= b_config_revision b;
  ad_secrets : present (c_username_ciphertext c) ∧ present (c_password_ciphertext c);
  ad_endpoint : present (i_host i) ∧ ∃ port, i_port i = Some port ∧ port ≠ 0
}.

Lemma truthy_present s : truthy s = true → present s.
Proof. destruct s as [[|a t]|]; [done| |done]. intros _. by eexists. Qed.

Lemma administrator_valid b i c : validate_provisioning_credential b i c = Ret tt → administrator b i c.
Proof.
  unfold validate_provisioning_credential. destruct (_ || _) eqn:Hc; [done|].
  destruct (endpoint_incomplete i) eqn:He; [done|]. intros _.
  rewrite !orb_false_iff, !negb_false_iff, !bool_decide_eq_true, !Z.ltb_ge in Hc.
  destruct Hc as [[[[[[[[[[? ?] ?] ?] ?] ?] ?] ?] ?] ?%truthy_present] ?%truthy_present].
  unfold endpoint_incomplete in He. split; try done.
  destruct (i_host i) as [h|], (i_port i) as [p|]; try done; cbn in He.
  all: rewrite ?orb_true_r in He; try done.
  apply orb_false_iff in He as [Hh Hp]. split.
  - apply truthy_present. by apply negb_false_iff.
  - exists p. split; [done|]. intros ->. done.
Qed.

(** The administrator the tables give the backend. *)
Definition authorised (backend_id : string) (db : DB) : Prop := ∃ b i c,
  backends db !! backend_id = Some b ∧ b_instance_id b = Some (i_id i)
  ∧ instances db !! i_id i = Some i ∧ credentials db !! c_id c = Some c ∧ administrator b i c.

(** The one access credential of a resource, in order. *)
Record access_in_order (l : LoadedResource) (c : InstanceCredential) : Prop := {
  ao_only : resource_access_credentials (lr_credentials l) = [c];
  ao_resource : c_resource_id c = Some (r_id (lr_resource l));
  ao_no_instance : c_instance_id c = None;
  ao_active : c_status c = CredentialStatus.ACTIVE;
  ao_capability : c_capability c = CredentialCapability.READWRITE;
  ao_version : 1 <= c_version c;
  ao_secrets : present (c_username_ciphertext c) ∧ present (c_password_ciphertext c);
  ao_database : c_database_name c = r_database_name (lr_resource l)
}.

Lemma resource_credential_ret l up : resource_credential l = Ret up → ∃ c, access_in_order l c.
Proof.
  unfold resource_credential. destruct (resource_access_credentials _) as [|c [|c' cs]] eqn:Hc; [done| |done].
  destruct (c_username_ciphertext c) as [u|] eqn:Hu; [|done].
  destruct (c_password_ciphertext c) as [p|] eqn:Hp; [|done].
  destruct (_ || _) eqn:Hg; [done|]. intros _. exists c.
  rewrite !orb_false_iff, !negb_false_iff, !bool_decide_eq_true, Z.ltb_ge in Hg.
  destruct Hg as [[[[[[[? ?] ?] ?] ?] Hut%truthy_present] Hpt%truthy_present] ?].
  split; try done. rewrite Hu, Hp. done.
Qed.

(** The names of a resource belong to one tenant. *)
Definition names_agree (r : DBInstanceResource) : Prop := ∃ tenant, tenant ≠ "" ∧ r_tenant_name r = Some tenant
  ∧ r_database_name r = Some ("agentic@" +:+ tenant) ∧ r_resource_config_name r = Some ("rc_" +:+ tenant).

Lemma cleanup_account_name_ret r name : cleanup_account_name r = Ret name → names_agree r.
Proof.
  unfold cleanup_account_name. destruct (r_tenant_name r) as [t|] eqn:Ht; [|done].
  destruct (r_database_name r) as [d|] eqn:Hd; [|done]. destruct (_ || _) eqn:Hg; [done|]. intros _.
  rewrite !orb_false_iff, !negb_false_iff, !bool_decide_eq_true in Hg.
  destruct Hg as [[(s & [= <-] & Hne)%truthy_present ->] Hr]. by exists t.
Qed.

(** ** What an operation needs to change the server *)

Definition touches {A} (m : M (World X) A) (w : World X) : Prop := w_ext (m w).1 ≠ w_ext w.

Lemma touches_outcome {A B} (o : outcome A) (k : A → M (World X) B) w :
  touches (lift_outcome o ≫= k) w → ∃ a, o = Ret a ∧ touches (k a) w.
Proof. unfold touches, mbind, M_bind, lift_outcome. destruct o as [a|e]; [by exists a|done]. Qed.

Lemma touches_assoc {A B C} (m : M (World X) A) (f : A → M (World X) B) (g : B → M (World X) C) w :
  touches ((m ≫= f) ≫= g) w → touches (m ≫= λ a, f a ≫= g) w.
Proof. unfold touches. by rewrite run_assoc. Qed.

Lemma touches_ret {A} (a : A) w : ¬ touches (mret a) w.
Proof. intros Ht. by apply Ht. Qed.
Lemma touches_raise {A} e w : ¬ touches (raise (A:=A) e) w.
Proof. intros Ht. by apply Ht. Qed.

Lemma touches_context {A} b (k : BackendContext → M (World X) A) w :
  touches (context b ≫= k) w → authorised b (w_db w) ∧ ∃ ctx, touches (k ctx) w.
Proof.
  unfold touches, context, mbind, M_bind, with_db, with_session, query, open_session, autobegin.
  simpl. destruct (backend_row b (w_db w)) as [ctx|] eqn:Hrow; simpl; [|by destruct w].
  destruct (validate_provisioning_credential _ _ _) as [[]|e] eqn:Hv; simpl; [|by destruct w].
  intros Ht. split; [|exists ctx; by destruct w].
  unfold backend_row in Hrow. simplify_option_eq. cbn in Hv. apply administrator_valid in Hv.
  pose proof (ad_instance _ _ _ Hv). pose proof (ad_named _ _ _ Hv). simplify_eq.
  eexists _, _, _. by split_and!.
Qed.

Lemma touches_try {A} (m : M (World X) A) (h : PyExc → A) w :
  touches (try_except m (λ e, mret (h e))) w → touches m w.
Proof. unfold touches, try_except. destruct (m w) as [w' [a|e]]; done. Qed.

Lemma touches_forward {A} l (k : BackendContext * string * string → M (World X) A) w :
  touches (forward_ddl l ≫= k) w →
  authorised (r_backend_id (lr_resource l)) (w_db w) ∧ ∃ c, access_in_order l c.
Proof.
  intros [Ha [ctx Ht%touches_assoc]]%touches_assoc%touches_context.
  apply touches_outcome in Ht as (up & Hup & _). split; [done|]. by eapply resource_credential_ret.
Qed.

Lemma touches_cleanup {A} r (k : BackendContext * string → M (World X) A) w :
  touches (cleanup_ddl r ≫= k) w → authorised (r_backend_id r) (w_db w) ∧ names_agree r.
Proof.
  intros [Ha [ctx Ht%touches_assoc]]%touches_assoc%touches_context.
  apply touches_outcome in Ht as (name & Hname & _). split; [done|]. by eapply cleanup_account_name_ret.
Qed.

(** C35: Nothing reaches the tenant server but under the administrator's
    credential and for a resource that is in order.  Whenever an operation of the
    adapter, the health check included, changes the state of the server, the
    tables give the backend a complete instance and an active administrator
    credential of that instance ([administrator] says which columns count);
    [create] and [verify] also need the resource's one access credential, active,
    of that resource and its database ([access_in_order]), and [verify] the step
    [GRANTED]; [disconnect] and [delete] need the names of tenant, database and
    resource config to belong together; and [restore] needs one access credential
    with both secrets and the resource's database. *)
Theorem tenant_server_guarded (l : LoadedResource) (b : ProvisioningBackend) (w : World X) :
  let r := lr_resource l in
  let authorised_for := λ backend_id, authorised backend_id (w_db w) in
  (touches (create l) w → authorised_for (r_backend_id r) ∧ ∃ c, access_in_order l c)
  ∧ (touches (verify l) w → authorised_for (r_backend_id r) ∧ (∃ c, access_in_order l c)
       ∧ r_provisioning_step r = LeaseProvisioningStep.GRANTED)
  ∧ (touches (disconnect l) w → authorised_for (r_backend_id r) ∧ names_agree r)
  ∧ (touches (delete l) w → authorised_for (r_backend_id r) ∧ names_agree r)
  ∧ (touches (restore l) w → authorised_for (r_backend_id r) ∧ ∃ c, resource_access_credentials (lr_credentials l) = [c]
       ∧ present (c_username_ciphertext c) ∧ present (c_password_ciphertext c) ∧ c_database_name c = r_database_name r)
  ∧ (touches (health_check b) w → authorised_for (b_id b)).
Proof.
  intros r authorised_for. split_and!.
  - intros [Ha Hc]%touches_forward. by split.
  - unfold verify. fold r. case_bool_decide; [by intros ?%touches_ret|]. cbn.
    case_bool_decide as Hs; [|by intros ?%touches_raise]. cbn. intros [Ha Hc]%touches_forward. by split_and!.
  - apply touches_cleanup.
  - apply touches_cleanup.
  - intros [Ha [ctx Ht]]%touches_context. split; [done|]. revert Ht.
    destruct (resource_access_credentials _) as [|c [|c' cs]] eqn:Hc; [by intros ?%touches_raise| |by intros ?%touches_raise].
    destruct (c_username_ciphertext c) as [u|] eqn:Hu; [|by intros ?%touches_raise].
    destruct (c_password_ciphertext c) as [p|] eqn:Hp; [|by intros ?%touches_raise].
    destruct (_ || _) eqn:Hg; [by intros ?%touches_raise|]. intros _. exists c. rewrite Hu, Hp.
    rewrite !orb_false_iff, !negb_false_iff, !bool_decide_eq_true in Hg.
    destruct Hg as [[Hut%truthy_present Hpt%truthy_present] Hd]. done.
  - intros [Ha _]%touches_try%touches_context. done.
Qed.
End adapter.

(** ** At the small example

    A tenant server that knows the resource configs while its state is [true],
    has no other object and no session, and refuses nothing. *)
Definition demo_server : TenantServices bool := {|
  server_query := λ ctx sql params present,
    (present, Ret (if present && contains "FROM mysql.tenant_resource_config" sql
                   then [params ++ [SqlInt (b_resource_min_cpu (ctx_backend ctx));
                                    SqlInt (b_resource_max_cpu (ctx_backend ctx))]]
                   else []));
  server_select_one := λ _ _ _ _ _ present, (present, Ret (Some [SqlInt 1]));
  decrypt := λ s, match strip_prefix "enc:" s with
                  | Some t => Ret t | None => Raise (ValueError "decryption failed") end
|}.

Definition demo_world (present : bool) (db : DB) : World bool := mk_world db present 0.
Definition demo_loaded : LoadedResource :=
  let new := demo_build "token-1" 0 "backend-1" in mk_loaded (nr_resource new) (nr_credentials new).

Lemma demo_create_runs :
  (@create bool demo_server demo_loaded (demo_world true demo_created)).2
  = Ret ((lr_resource demo_loaded)
           <| r_provisioning_step := LeaseProvisioningStep.RESOURCE_CONFIG_CREATED |>).
Proof. vm_compute. reflexivity. Qed.

Lemma demo_create_runs_to :
  ∃ w', @create bool demo_server demo_loaded (demo_world true demo_created)
  = (w', Ret ((lr_resource demo_loaded)
           <| r_provisioning_step := LeaseProvisioningStep.RESOURCE_CONFIG_CREATED |>)).
Proof. eexists. rewrite <-demo_create_runs. apply surjective_pairing. Qed.

Lemma adapter_reports_next_step_witness :
  ∃ n r', next_provisioning_step (r_provisioning_step (lr_resource demo_loaded)) = Some n
        ∧ r' = (lr_resource demo_loaded) <| r_provisioning_step := n |>.
Proof.
  destruct demo_create_runs_to as [w' Hrun].
  destruct (proj1 (@adapter_reports_next_step bool demo_server demo_loaded _ _ _) Hrun) as (n & Hn & Hr).
  exists n. eexists. split; [exact Hn|exact Hr].
Defined.

Lemma steps_are_verified_witness :
  ∃ ctx w', @answered bool (@verify_resource_config bool demo_server ctx (lr_resource demo_loaded)) true w'.
Proof.
  destruct demo_create_runs_to as [w' Hrun].
  destruct (proj1 (@steps_are_verified bool demo_server demo_loaded _ _ _) Hrun) as (ctx & account & H).
  exists ctx, w'. exact H.
Defined.

(** In the example, dropping a database that is there reaches the server, under
    the administrator of the tables; without that credential nothing does. *)
Definition demo_dropping : TenantServices bool := {|
  server_query := λ _ sql _ present, (present && negb (contains "DROP DATABASE" sql), Ret []);
  server_select_one := λ _ _ _ _ _ present, (present, Ret (Some [SqlInt 1]));
  decrypt := Ret
|}.

Lemma demo_delete_touches :
  @touches bool _ (@delete bool demo_dropping demo_loaded) (demo_world true demo_created).
Proof. vm_compute. discriminate. Qed.

Lemma tenant_server_guarded_witness :
  authorised "backend-1" demo_created ∧ names_agree (lr_resource demo_loaded)
  ∧ w_ext (@delete bool demo_dropping demo_loaded (demo_world true (demo_created <| credentials := ∅ |>))).1 = true.
Proof.
  destruct (@tenant_server_guarded bool demo_dropping demo_loaded demo_backend (demo_world true demo_created))
    as (_ & _ & _ & Hd & _).
  destruct (Hd demo_delete_touches) as [Ha Hn]. split; [exact Ha|]. split; [exact Hn|].
  destruct (@tenant_server_guarded bool demo_dropping demo_loaded demo_backend
    (demo_world true (demo_created <| credentials := ∅ |>))) as (_ & _ & _ & Hno & _).
  destruct (w_ext _) eqn:He; [reflexivity|]. exfalso.
  destruct Hno as [(b & i & c & _ & _ & _ & Hc & _) _].
  - unfold touches. rewrite He. discriminate.
  - cbn in Hc. rewrite lookup_empty in Hc. discriminate.
Defined.
