(* ===== verification/DdlTheorems.v ===== *)
(** * Tenant DDL: identifiers, statements and verification *)

From S2P Require Import Prelude PyString Models AdapterInterface Dispatcher Permission Ddl Adapter.
From S2P Require Import Capacity Service.

(** ** Accepted identifiers are inert *)

Definition inert_char (a : ascii) : bool := ident_char a || Ascii.eqb a "@".
Definition inert (s : string) : bool := string_forallb inert_char s.

Lemma strip_prefix_inv p s t : strip_prefix p s = Some t → s = p +:+ t.
Proof.
  induction p as [|a p IH] in s |- *; simpl; [by intros [= <-]|].
  destruct s as [|b s]; [done|]. destruct (Ascii.eqb a b) eqn:E; [|done].
  apply Ascii.eqb_eq in E as ->. intros H. rewrite app_cons. by rewrite (IH _ H).
Qed.

Lemma split_once_inv sep s x y : split_once sep s = Some (x, y) → s = x +:+ sep +:+ y.
Proof.
  induction s as [|a s IH] in x |- *; simpl.
  - destruct (strip_prefix sep _) eqn:E; [|done]. intros [= <- <-]. by apply strip_prefix_inv in E.
  - destruct (strip_prefix sep (String a s)) eqn:E.
    { intros [= <- <-]. by apply strip_prefix_inv in E. }
    destruct (split_once sep s) as [[x' y']|]; [|done]. intros [= <- <-].
    rewrite app_cons. by rewrite (IH x').
Qed.

Lemma fullmatch_class_chars p lo hi s : fullmatch_class p lo hi s = true → string_forallb p s = true.
Proof. unfold fullmatch_class. rewrite !andb_true_iff. tauto. Qed.

Lemma ident_inert s : string_forallb ident_char s = true → inert s = true.
Proof. apply string_forallb_impl. intros a Ha. unfold inert_char. by rewrite Ha. Qed.

Lemma inert_app s t : inert (s +:+ t) = inert s && inert t.
Proof. apply string_forallb_app. Qed.

Lemma scoped_re_inert hi s : scoped_re hi s = true → inert s = true.
Proof.
  unfold scoped_re. destruct (split_once "@" s) as [[l r]|] eqn:E; [|done].
  apply split_once_inv in E as ->. rewrite andb_true_iff. intros [Hl Hr].
  rewrite !inert_app.
  by rewrite (ident_inert l (fullmatch_class_chars _ _ _ _ Hl)),
    (ident_inert r (fullmatch_class_chars _ _ _ _ Hr)).
Qed.

Lemma validate_inert pat kind v s :
  (∀ s, pat s = true → inert s = true) → validate v pat kind = Ret s → v = Some s ∧ inert s = true.
Proof.
  intros Hp. unfold validate. destruct v as [v|]; [|done].
  destruct (pat v) eqn:E; [|done]. intros [= <-]. auto.
Qed.

Lemma class_inert lo hi s : fullmatch_class ident_char lo hi s = true → inert s = true.
Proof. intros H. by eapply ident_inert, fullmatch_class_chars. Qed.

Definition validators : list (option string → outcome string) :=
  [ validate_tenant; validate_resource_config; validate_account; validate_database ].

Lemma validated_inert v name s :
  v name = Ret s → In v validators → name = Some s ∧ inert s = true.
Proof.
  intros Hv [<-|[<-|[<-|[<-|[]]]]]; (eapply validate_inert; [|exact Hv]);
    eauto using class_inert, scoped_re_inert.
Qed.

(** The builders of one name: the names they take, and the text around it. *)
Definition name_builders : list ((string → outcome string) * ((string → bool) * (string * string))) :=
  [ (build_create_user_sql, (account_re, ("CREATE USER '", "'@'%%' IDENTIFIED WITH mysql_native_password BY %s")));
    (build_create_database_sql, (database_re, ("CREATE DATABASE `", "`")));
    (build_show_grants_sql, (account_re, ("SHOW GRANTS FOR '", "'@'%'")));
    (build_lock_user_sql, (account_re, ("ALTER USER '", "'@'%' ACCOUNT LOCK")));
    (build_unlock_user_sql, (account_re, ("ALTER USER '", "'@'%' ACCOUNT UNLOCK")));
    (build_drop_database_sql, (database_re, ("DROP DATABASE `", "`")));
    (build_drop_tenant_sql, (tenant_re, ("DROP tenant ", "")));
    (build_drop_resource_config_sql, (resource_config_re, ("DROP resource_config ", ""))) ].

(** A name a builder refuses. *)
Definition refused (o : outcome string) : Prop := ∃ kind, o = Raise (InvalidDatabaseIdentifier kind).

Definition name_patterns : list (string → bool) := [account_re; database_re; tenant_re; resource_config_re].

Lemma pattern_inert pat s : pat ∈ name_patterns → pat s = true → inert s = true.
Proof.
  unfold name_patterns. rewrite !elem_of_cons, elem_of_nil.
  intros [->|[->|[->|[->|[]]]]]; eauto using class_inert, scoped_re_inert.
Qed.

(** What [validate] does to a name, on both branches. *)
Lemma validate_cases pat kind s :
  validate (Some s) pat kind = if pat s then Ret s else Raise (InvalidDatabaseIdentifier ("Invalid " +:+ kind)).
Proof. done. Qed.

(** The text of the range of a resource config. *)
Definition range_text (min_cpu max_cpu : Z) : string :=
  " min_cpu " +:+ pretty min_cpu +:+ " max_cpu " +:+ pretty max_cpu.

(** C25: No injection through names.  A DDL builder answers a name of its own
    syntax with its fixed text around the name, unchanged, and raises
    [InvalidDatabaseIdentifier] for any other name; the builders of two names do
    the same for both, the one of a resource config also wants a range of CPUs,
    the one of a grant also that the account is the tenant's and a snapshot of the
    tenant's scope with some privilege.  A name of any of
    these syntaxes consists of letters, digits, [_] and [@] only (no quote,
    backtick, space, [;], [%] or backslash). *)
Theorem ddl_names_inert :
  (∀ (pat : string → bool) name, pat ∈ name_patterns → pat name = true → inert name = true)
  ∧ (∀ f (pat : string → bool) pre post name, (f, (pat, (pre, post))) ∈ name_builders →
       pat ∈ name_patterns
       ∧ if pat name then f name = Ret (pre +:+ name +:+ post) else refused (f name))
  ∧ (∀ tenant config,
       if tenant_re tenant && resource_config_re config then
         build_create_tenant_sql tenant config = Ret ("CREATE tenant " +:+ tenant +:+ " resource_config " +:+ config)
       else refused (build_create_tenant_sql tenant config))
  ∧ (∀ config min_cpu max_cpu,
       if negb (resource_config_re config) then refused (build_create_resource_config_sql config min_cpu max_cpu)
       else if decide (0 <= min_cpu <= max_cpu ∧ 1 <= max_cpu) then
         build_create_resource_config_sql config min_cpu max_cpu
           = Ret ("CREATE resource_config " +:+ config +:+ range_text min_cpu max_cpu)
       else ∃ e, build_create_resource_config_sql config min_cpu max_cpu = Raise (ValueError e))
  ∧ (∀ tenant account snapshot,
       if negb (tenant_re tenant && account_re account && bool_decide (after_last "@" account = Some tenant)) then
         refused (build_grant_sql tenant account snapshot)
       else
         let s := default (legacy_permission_snapshot PermissionScope.MULTITENANT) snapshot in
         if decide (sn_scope s = PermissionScope.MULTITENANT ∧ snapshot_privileges s ≠ "") then
           build_grant_sql tenant account snapshot
             = Ret ("GRANT " +:+ snapshot_privileges s +:+ " ON `%@" +:+ tenant +:+ "`.* TO '" +:+ account
                    +:+ "'@'%'" +:+ (if sn_grant_option s then " WITH GRANT OPTION" else ""))
         else ∃ e, build_grant_sql tenant account snapshot = Raise (ValueError e)).
Proof.
  split; [apply pattern_inert|]. split; [|split; [|split]].
  - intros f pat pre post name Hin. unfold name_builders in Hin.
    repeat (apply elem_of_cons in Hin as [[= -> -> -> ->]|Hin]); [..|by apply not_elem_of_nil in Hin].
    all: split; [unfold name_patterns; set_solver|].
    all: match goal with |- if ?p ?n then _ else _ => destruct (p n) eqn:E end;
      unfold refused, build_create_user_sql, build_create_database_sql, build_show_grants_sql,
        build_lock_user_sql, build_unlock_user_sql, build_drop_database_sql, build_drop_tenant_sql,
        build_drop_resource_config_sql, validate_account, validate_database, validate_tenant,
        validate_resource_config; rewrite validate_cases, E; cbn; autorewrite with pas_string; eauto.
  - intros tenant config. unfold build_create_tenant_sql, refused, validate_tenant, validate_resource_config.
    rewrite !validate_cases. destruct (tenant_re tenant), (resource_config_re config); cbn; eauto.
  - intros config lo hi. unfold build_create_resource_config_sql, refused, validate_resource_config, range_text.
    rewrite validate_cases. destruct (resource_config_re config); cbn; [|eauto].
    case_decide as Hd.
    + by replace ((lo <? 0) || (hi <? 1) || (hi <? lo)) with false by lia.
    + replace ((lo <? 0) || (hi <? 1) || (hi <? lo)) with true by lia. eauto.
  - intros tenant account snapshot. unfold build_grant_sql, refused, validate_tenant, validate_account.
    rewrite !validate_cases. destruct (tenant_re tenant), (account_re account); cbn; eauto.
    case_bool_decide as Hd; cbn.
    + set (s := default _ snapshot). case_decide as Hs.
      * destruct Hs as [-> Hp]. cbn. by rewrite (proj2 (String.eqb_neq _ _) Hp).
      * case_bool_decide as Hm; cbn; [|eauto]. destruct (String.eqb_spec (snapshot_privileges s) ""); [eauto|].
        by destruct Hs.
    + eauto.
Qed.

Lemma ddl_names_inert_witness :
  build_drop_database_sql "agentic@tabc" = Ret "DROP DATABASE `agentic@tabc`" ∧ inert "agentic@tabc" = true
  ∧ refused (build_drop_database_sql "agentic@tabc`; DROP DATABASE `x").
Proof.
  destruct ddl_names_inert as (Hp & Hb & _).
  assert ((build_drop_database_sql, (database_re, ("DROP DATABASE `", "`"))) ∈ name_builders) as Hin
    by (unfold name_builders; repeat (first [apply list_elem_of_here | apply list_elem_of_further])).
  split; [exact (proj2 (Hb _ _ _ _ "agentic@tabc" Hin))|]. split.
  - apply (Hp database_re); [exact (proj1 (Hb _ _ _ _ "agentic@tabc" Hin))|vm_compute; reflexivity].
  - exact (proj2 (Hb _ _ _ _ "agentic@tabc`; DROP DATABASE `x" Hin)).
Defined.

(** ** Reading a grant back *)

Definition starts_not (c : ascii) (s : string) : bool :=
  match s with String a _ => negb (Ascii.eqb a c) | EmptyString => false end.

(** Every space is followed by a character other than [c]. *)
Fixpoint no_space_then (c : ascii) (s : string) : bool :=
  match s with
  | EmptyString => true
  | String a s' => (negb (Ascii.eqb a " ") || starts_not c s') && no_space_then c s'
  end.

Lemma no_space_then_app c s t :
  no_space_then c s = true → no_space_then c t = true → no_space_then c (s +:+ t) = true.
Proof.
  induction s as [|a s IH]; [done|]. rewrite app_cons. simpl.
  rewrite !andb_true_iff, !orb_true_iff. intros [[Ha|Ha] Hs] Ht; (split; [|by apply IH]); [by left|].
  right. destruct s; [done|exact Ha].
Qed.

Lemma no_space_then_free c s :
  string_forallb (λ a, negb (Ascii.eqb a " ")) s = true → no_space_then c s = true.
Proof.
  induction s as [|a s IH]; [done|]. simpl. rewrite !andb_true_iff, orb_true_iff. intros [Ha Hs].
  split; [by left|by apply IH].
Qed.

(** Text in which no space is followed by [c] holds no separator [" c..."]. *)
Lemma split_once_skip c sep s t x y :
  no_space_then c s = true → split_once (String " " (String c sep)) t = Some (x, y) →
  split_once (String " " (String c sep)) (s +:+ t) = Some (s +:+ x, y).
Proof.
  intros Hs Ht. induction s as [|a s IH]; [done|]. rewrite app_cons.
  simpl in Hs. apply andb_true_iff in Hs as [Ha Hs]. specialize (IH Hs).
  change (split_once (String " " (String c sep)) (String a (s +:+ t)))
    with (match strip_prefix (String " " (String c sep)) (String a (s +:+ t)) with
          | Some rest => Some (EmptyString, rest)
          | None => match split_once (String " " (String c sep)) (s +:+ t) with
                    | Some (x, y) => Some (String a x, y) | None => None end end).
  rewrite IH. replace (strip_prefix _ _) with (@None string); [done|]. cbn [strip_prefix].
  destruct (Ascii.eqb " " a) eqn:E; [|done]. apply Ascii.eqb_eq in E as <-. simpl in Ha.
  destruct s as [|b s]; [done|]. rewrite app_cons. cbn. simpl in Ha.
  rewrite Ascii.eqb_sym. apply negb_true_iff in Ha. by rewrite Ha.
Qed.

Lemma contains_none c sep s :
  no_space_then c s = true → contains (String " " (String c sep)) s = false.
Proof.
  unfold contains. induction s as [|a s IH]; [done|]. simpl. rewrite andb_true_iff. intros [Ha Hs].
  specialize (IH Hs). destruct (split_once _ s) as [[??]|]; [done|].
  replace (if Ascii.eqb " " a then _ else None) with (@None string); [done|].
  destruct (Ascii.eqb " " a) eqn:E; [|done]. apply Ascii.eqb_eq in E as <-. simpl in Ha.
  destruct s as [|b s]; [done|]. simpl in *. rewrite Ascii.eqb_sym.
  apply negb_true_iff in Ha. by rewrite Ha.
Qed.

(** What a privilege name has to be for a grant line to be read back. *)
Definition good_word (w : string) : bool :=
  no_space_then "O" w && no_space_then "W" w && starts_not "O" w && starts_not "W" w
  && string_forallb (λ a, negb (Ascii.eqb a ",")) w && String.eqb (strip w) w
  && String.eqb (upper w) w.

Lemma privilege_words_good p : good_word (DatabasePrivilege.value p) = true.
Proof. destruct p; vm_compute; reflexivity. Qed.

Lemma join_cons w1 w2 ws : join ", " (w1 :: w2 :: ws) = w1 +:+ ", " +:+ join ", " (w2 :: ws).
Proof. done. Qed.

Lemma words_starts c w ws t :
  starts_not c w = true → starts_not c (join ", " (w :: ws) +:+ t) = true.
Proof.
  destruct w as [|a w]; [done|]. destruct ws as [|w2 ws]; [done|]. by rewrite join_cons.
Qed.

Lemma words_no_space c ws :
  Forall (λ w, no_space_then c w = true ∧ starts_not c w = true) ws →
  no_space_then c (join ", " ws) = true.
Proof.
  induction 1 as [|w ws [Hw Hst] Hf IH]; [done|].
  destruct ws as [|w2 ws]; [done|]. rewrite join_cons. apply no_space_then_app; [done|].
  inversion Hf as [|? ? [_ Hst2] _]. rewrite (app_cons ","). simpl. rewrite app_cons.
  change (EmptyString +:+ ?x) with x. simpl.
  apply andb_true_iff. split; [|done].
  pose proof (words_starts c w2 ws EmptyString Hst2) as Hj. by rewrite app_empty_r in Hj.
Qed.

Lemma split_char_word c w t :
  string_forallb (λ a, negb (Ascii.eqb a c)) w = true →
  split_char c (w +:+ t) = match split_char c t with x :: l => (w +:+ x) :: l | [] => [w] end.
Proof.
  induction w as [|a w IH]; [|rewrite app_cons]; simpl.
  - intros _. change (EmptyString +:+ t) with t.
    assert (split_char c t ≠ []) as Hne
      by (destruct t as [|b t]; simpl; [done|]; destruct (Ascii.eqb b c); [done|]; by case_match).
    by destruct (split_char c t).
  - rewrite andb_true_iff. intros [Ha Hw].
    apply negb_true_iff in Ha. rewrite Ha, IH by done. by destruct (split_char c t).
Qed.

Lemma split_words ws :
  ws ≠ [] → Forall (λ w, string_forallb (λ a, negb (Ascii.eqb a ",")) w = true) ws →
  split_char "," (join ", " ws) = match ws with w :: l => w :: (String " " <$> l) | [] => [] end.
Proof.
  intros Hne Hf. induction Hf as [|w ws Hw Hf IH]; [done|].
  destruct ws as [|w2 ws].
  - change (join ", " [w]) with w. rewrite <-(app_empty_r w) at 1.
    rewrite split_char_word by done. simpl. by rewrite app_empty_r.
  - rewrite join_cons, split_char_word by done.
    change (", " +:+ join ", " (w2 :: ws)) with (String "," (String " " (join ", " (w2 :: ws)))).
    cbn [split_char]. rewrite IH by done. cbn. by rewrite app_empty_r.
Qed.

Lemma strip_space w : strip (String " " w) = strip w.
Proof. done. Qed.

Record good (w : string) : Prop := {
  gw_o : no_space_then "O" w = true;
  gw_w : no_space_then "W" w = true;
  gw_start_o : starts_not "O" w = true;
  gw_start_w : starts_not "W" w = true;
  gw_comma : string_forallb (λ a, negb (Ascii.eqb a ",")) w = true;
  gw_strip : strip w = w;
  gw_upper : upper w = w
}.

Lemma good_word_good w : good_word w = true → good w.
Proof.
  unfold good_word. rewrite !andb_true_iff, !String.eqb_eq. intros [[[[[[]]]]]]. by split.
Qed.

(** The privilege words of a grant line, read back. *)
Lemma read_words ws :
  ws ≠ [] → Forall good ws →
  (λ p, upper (strip p)) <$> filter (λ p, strip p ≠ EmptyString) (split_char "," (join ", " ws)) = ws.
Proof.
  intros Hne Hf. rewrite split_words; [|done|by eapply Forall_impl; [exact Hf|]; intros ? []].
  assert (∀ w, good w → strip w ≠ EmptyString) as Hnn.
  { intros w [_ _ Hst _ _ -> _]. by intros ->. }
  destruct Hf as [|w ws Hw Hf]; [done|]. clear Hne.
  rewrite filter_cons_True by by apply Hnn. rewrite fmap_cons, (gw_strip w Hw), (gw_upper w Hw). f_equal.
  induction Hf as [|w2 ws Hw2 _ IH]; [done|].
  rewrite fmap_cons, filter_cons_True by by rewrite strip_space; apply Hnn.
  by rewrite fmap_cons, strip_space, (gw_strip w2 Hw2), (gw_upper w2 Hw2), IH.
Qed.

(** A [SHOW GRANTS] line, with either quote around the account and host. *)
Definition grant_line (quote : string) (ws : list string) (tenant account : string) (go : bool) : string :=
  "GRANT " +:+ join ", " ws +:+ " ON `%@" +:+ tenant +:+ "`.* TO " +:+ quote +:+ account +:+ quote
  +:+ "@" +:+ quote +:+ "%" +:+ quote +:+ (if go then " WITH GRANT OPTION" else "").

Lemma inert_no_space_then c s : inert s = true → no_space_then c s = true ∧ no_space_then c (upper s) = true.
Proof.
  intros Hs. split; apply no_space_then_free.
  - eapply string_forallb_impl; [|exact Hs]. intros a Ha. by destruct (Ascii.eqb_spec a " ") as [->|].
  - unfold upper. revert Hs. unfold inert. induction s as [|a s IH]; [done|]. simpl.
    rewrite !andb_true_iff. intros [Ha Hs]. split; [|by apply IH].
    by destruct a as [[] [] [] [] [] [] [] []].
Qed.

Lemma upper_words ws : Forall good ws → upper (join ", " ws) = join ", " ws.
Proof.
  induction 1 as [|w ws Hw Hf IH]; [done|]. destruct ws as [|w2 ws]; [apply Hw|].
  rewrite join_cons, !upper_app, (gw_upper w Hw), IH. done.
Qed.

Lemma no_space_then_space c t :
  starts_not c t = true → no_space_then c t = true → no_space_then c (String " " t) = true.
Proof. intros H1 H2. simpl. by rewrite H1, H2. Qed.

Lemma quote_upper q : q = "'" ∨ q = "`" → upper q = q ∧ no_space_then "W" q = true.
Proof. by intros [->| ->]. Qed.

(** Only the option's own text contains [WITH GRANT OPTION]. *)
Lemma grant_option_read q ws tenant account go :
  q = "'" ∨ q = "`" → inert tenant = true → inert account = true → ws ≠ [] → Forall good ws →
  contains " WITH GRANT OPTION" (upper (grant_line q ws tenant account go)) = go.
Proof.
  intros Hq Ht Ha Hne Hws. destruct (quote_upper q Hq) as [Hqu Hqs].
  unfold grant_line. destruct go.
  - rewrite !upper_app. do 12 apply contains_app_r. by vm_compute.
  - apply (contains_none "W" "ITH GRANT OPTION"). rewrite !upper_app, upper_words by done.
    change (upper "GRANT ") with ("GRANT" +:+ " ").
    change (upper "`.* TO ") with ("`.* TO" +:+ " "). rewrite !app_assoc_str, !Hqu.
    destruct (inert_no_space_then "W" _ Ht) as [_ Ht'].
    destruct (inert_no_space_then "W" _ Ha) as [_ Ha'].
    apply no_space_then_app; [done|]. change (" " +:+ ?t) with (String " " t).
    destruct ws as [|w ws]; [done|].
    apply no_space_then_space; [by apply words_starts, (gw_start_w w); inversion Hws|].
    apply no_space_then_app.
    { apply words_no_space. eapply Forall_impl; [exact Hws|]. intros v [_ ? _ ? _ _ _]. done. }
    do 2 (apply no_space_then_app; [done|]). apply no_space_then_app; [done|].
    change (" " +:+ ?t) with (String " " t).
    apply no_space_then_space; [by destruct Hq as [->| ->]|].
    repeat apply no_space_then_app; done.
Qed.

Lemma split_grant ws rest :
  Forall good ws →
  split_once " ON " (join ", " ws +:+ " ON " +:+ rest) = Some (join ", " ws, rest).
Proof.
  intros Hws. rewrite (split_once_skip "O" "N " (join ", " ws) _ EmptyString rest).
  - by rewrite app_empty_r.
  - apply words_no_space. eapply Forall_impl; [exact Hws|]. by intros v [? _ ? _ _ _ _].
  - apply (split_once_here " ON ").
Qed.

Lemma contains_middle sep s t : contains sep (s +:+ sep +:+ t) = true.
Proof. apply contains_app_r, contains_here. Qed.

Lemma on_part j tenant rest :
  contains ("ON `%@" +:+ tenant +:+ "`.*") ("GRANT " +:+ j +:+ " ON `%@" +:+ tenant +:+ "`.* TO " +:+ rest)
  = true.
Proof.
  replace ("GRANT " +:+ j +:+ " ON `%@" +:+ tenant +:+ "`.* TO " +:+ rest)
    with (("GRANT " +:+ j +:+ " ") +:+ ("ON `%@" +:+ tenant +:+ "`.*") +:+ (" TO " +:+ rest))
    by by rewrite !app_assoc_str.
  apply contains_middle.
Qed.

Lemma to_part j q account rest :
  contains ("TO " +:+ q +:+ account +:+ q +:+ "@" +:+ q +:+ "%" +:+ q)
    (j +:+ "`.* TO " +:+ q +:+ account +:+ q +:+ "@" +:+ q +:+ "%" +:+ q +:+ rest) = true.
Proof.
  replace (j +:+ "`.* TO " +:+ q +:+ account +:+ q +:+ "@" +:+ q +:+ "%" +:+ q +:+ rest)
    with ((j +:+ "`.* ") +:+ ("TO " +:+ q +:+ account +:+ q +:+ "@" +:+ q +:+ "%" +:+ q) +:+ rest)
    by by rewrite !app_assoc_str.
  apply contains_middle.
Qed.

Lemma grant_line_matches q ws tenant account snapshot go :
  q = "'" ∨ q = "`" → inert tenant = true → inert account = true → ws ≠ [] → Forall good ws →
  list_to_set (C := gset string) ws = list_to_set (expected_privileges snapshot) →
  grant_matches tenant account snapshot (grant_line q ws tenant account go)
  = Bool.eqb go (sn_grant_option snapshot).
Proof.
  intros Hq Ht Ha Hne Hws Hset. unfold grant_matches.
  rewrite grant_option_read by done. unfold grant_line.
  set (opt := if go then _ else _).
  rewrite on_part, split_once_here.
  set (rest := tenant +:+ "`.* TO " +:+ _).
  assert (split_once " ON " (join ", " ws +:+ " ON `%@" +:+ rest) = Some (join ", " ws, "`%@" +:+ rest))
    as -> by by apply (split_grant ws ("`%@" +:+ rest)).
  rewrite read_words, Hset, bool_decide_eq_true_2 by done. simpl. subst rest.
  pose proof (to_part ("GRANT " +:+ join ", " ws +:+ " ON `%@" +:+ tenant) q account opt) as Hto.
  rewrite !app_assoc_str in Hto.
  match goal with |- (?x || ?y) && _ = _ => assert (x || y = true) as ->; [|done] end.
  apply orb_true_iff. destruct Hq as [->| ->]; [right|left]; exact Hto.
Qed.

Lemma list_to_set_words snapshot ws :
  (∀ w, w ∈ ws ↔ w ∈ expected_privileges snapshot) →
  list_to_set (C := gset string) ws = list_to_set (expected_privileges snapshot).
Proof. intros Hw. apply set_eq. intros w. rewrite !elem_of_list_to_set. apply Hw. Qed.

Lemma expected_good snapshot : Forall good (expected_privileges snapshot).
Proof.
  unfold expected_privileges. destruct (sn_legacy_all_privileges snapshot).
  - repeat constructor; by vm_compute.
  - apply Forall_fmap, Forall_forall. intros p _. apply good_word_good, privilege_words_good.
Qed.

(** C26: Grants read back: the statement [build_grant_sql] issues for a snapshot
    is recognised by [verify_grants]; so is any line the server shows for the
    same grant, with the privileges in any order and the account and host quoted
    either way; and neither [WITH GRANT OPTION] line passes for the other. *)
Theorem grant_round_trip tenant account snapshot sql q ws go :
  build_grant_sql tenant account (Some snapshot) = Ret sql →
  (q = "'" ∨ q = "`") → (∀ w, w ∈ ws ↔ w ∈ expected_privileges snapshot) →
  sql = grant_line "'" (expected_privileges snapshot) tenant account (sn_grant_option snapshot)
  ∧ grant_matches tenant account snapshot sql = true
  ∧ grant_matches tenant account snapshot (grant_line q ws tenant account go)
    = Bool.eqb go (sn_grant_option snapshot).
Proof.
  intros Hb Hq Hws. unfold build_grant_sql, mbind, outcome_bind in Hb.
  destruct (validate_tenant (Some tenant)) as [t|] eqn:Et; [|done].
  apply validated_inert in Et as [[= <-] Hti]; [|by simpl; auto].
  destruct (validate_account (Some account)) as [ac|] eqn:Ea; [|done].
  apply validated_inert in Ea as [[= <-] Hai]; [|by simpl; auto].
  destruct (_ != _); [done|]. simpl in Hb. destruct (_ != _); [done|].
  destruct (String.eqb _ EmptyString) eqn:Hpriv; [done|]. injection Hb as <-.
  pose proof (expected_good snapshot) as Hgood.
  assert (expected_privileges snapshot ≠ []) as Hne.
  { intros He. unfold snapshot_privileges, expected_privileges in *.
    destruct (sn_legacy_all_privileges snapshot); [done|]. by rewrite He in Hpriv. }
  assert (snapshot_privileges snapshot = join ", " (expected_privileges snapshot)) as ->
    by (unfold snapshot_privileges, expected_privileges; by destruct (sn_legacy_all_privileges snapshot)).
  assert (∀ g, ("GRANT " +:+ join ", " (expected_privileges snapshot) +:+ " ON `%@" +:+ tenant
      +:+ "`.* " +:+ "TO '" +:+ account +:+ "'@'%'" +:+ g)
    = "GRANT " +:+ join ", " (expected_privileges snapshot) +:+ " ON `%@" +:+ tenant
      +:+ "`.* TO " +:+ "'" +:+ account +:+ "'" +:+ "@" +:+ "'" +:+ "%" +:+ "'" +:+ g) as Hline by done.
  rewrite Hline. split_and!; [done| |].
  - change (grant_matches tenant account snapshot
      (grant_line "'" (expected_privileges snapshot) tenant account (sn_grant_option snapshot)) = true).
    rewrite grant_line_matches; [apply Bool.eqb_reflx|by left|done..].
  - apply grant_line_matches; [done|done|done| | |by apply list_to_set_words].
    + intros ->. destruct (expected_privileges snapshot) as [|w l]; [done|].
      apply (not_elem_of_nil w), Hws. by left.
    + apply Forall_forall. intros w Hw. apply (proj1 (Forall_forall _ _) Hgood). by apply Hws.
Qed.

Lemma grant_round_trip_witness :
  grant_matches "tabc" "agentic@tabc" (default_permission_snapshot PermissionScope.MULTITENANT)
    (grant_line "`" (rev (expected_privileges (default_permission_snapshot PermissionScope.MULTITENANT)))
       "tabc" "agentic@tabc" false) = true.
Proof.
  destruct (build_grant_sql "tabc" "agentic@tabc"
    (Some (default_permission_snapshot PermissionScope.MULTITENANT))) as [sql|e] eqn:E;
    [|vm_compute in E; discriminate].
  refine (proj2 (proj2 (grant_round_trip "tabc" "agentic@tabc"
    (default_permission_snapshot PermissionScope.MULTITENANT) sql "`" _ false E (or_intror eq_refl) _))).
  intros w. rewrite !list_elem_of_In. split; intros Hw; [by apply in_rev|by apply in_rev in Hw].
Defined.

(** ** Generated names *)

Lemma string_of_list_forallb p l :
  string_forallb p (String.string_of_list_ascii l) = forallb p l.
Proof. induction l as [|a l IH]; [done|]. simpl. by rewrite IH. Qed.

Lemma string_of_list_length l : String.length (String.string_of_list_ascii l) = length l.
Proof. induction l as [|a l IH]; [done|]. simpl. by rewrite IH. Qed.

Lemma random_word_length alphabet n draws : String.length (random_word alphabet n draws) = n.
Proof. unfold random_word. by rewrite string_of_list_length, length_fmap, length_seq. Qed.

Lemma random_word_chars p alphabet n draws :
  alphabet ≠ [] → forallb p alphabet = true → string_forallb p (random_word alphabet n draws) = true.
Proof.
  intros Hne Hp. unfold random_word. rewrite string_of_list_forallb. apply forallb_forall.
  intros a Ha. apply list_elem_of_In, list_elem_of_fmap in Ha as (i & -> & _).
  eapply forallb_forall; [exact Hp|]. apply nth_In. apply Nat.mod_upper_bound.
  by destruct alphabet.
Qed.

Lemma after_last_fresh c s t :
  string_forallb (λ a, negb (Ascii.eqb a c)) t = true → after_last c (s +:+ String c t) = Some t.
Proof.
  intros Ht. assert (after_last c t = None) as Hn.
  { induction t as [|a t IH]; [done|]. simpl in *. apply andb_true_iff in Ht as [Ha Ht].
    rewrite (IH Ht). apply negb_true_iff in Ha. by rewrite Ha. }
  induction s as [|a s IH].
  - change (after_last c (String c t) = Some t). simpl. by rewrite Hn, Ascii.eqb_refl.
  - rewrite app_cons. simpl. by rewrite IH.
Qed.

Lemma forallb_cons_string p a s : string_forallb p (String a s) = p a && string_forallb p s.
Proof. done. Qed.

(** The random part of a new identity: nine identifier characters, none an [@]. *)
Lemma identity_word draws :
  ∃ word, string_forallb ident_char word = true
    ∧ string_forallb (λ a, negb (Ascii.eqb a "@")) (String "t" word) = true
    ∧ String.length word = 9%nat
    ∧ new_database_identity draws
      = mk_identity (String "t" word) ("rc_" +:+ String "t" word)
          ("agentic@" +:+ String "t" word) ("agentic@" +:+ String "t" word).
Proof.
  exists (random_word resource_alphabet 9 draws). split_and!.
  - by apply random_word_chars.
  - rewrite forallb_cons_string. by rewrite random_word_chars.
  - apply random_word_length.
  - done.
Qed.

Lemma tenant_re_word word :
  string_forallb ident_char word = true → String.length word = 9%nat →
  tenant_re (String "t" word) = true.
Proof.
  intros Hid Hlen. unfold tenant_re, fullmatch_class. rewrite forallb_cons_string, Hid.
  change (String.length (String "t" word)) with (S (String.length word)). by rewrite Hlen.
Qed.

Lemma resource_config_re_word word :
  string_forallb ident_char word = true → String.length word = 9%nat →
  resource_config_re ("rc_" +:+ String "t" word) = true.
Proof.
  intros Hid Hlen. unfold resource_config_re, fullmatch_class.
  change ("rc_" +:+ String "t" word) with (String "r" (String "c" (String "_" (String "t" word)))).
  rewrite !forallb_cons_string, Hid. cbn [String.length]. by rewrite Hlen.
Qed.

(** The names a built row carries, read back by the adapter. *)
Lemma build_resource_names encrypt agent_id token fp name engine now entropy backend_id :
  let ident := new_database_identity (en_name_draws entropy) in
  let r := nr_resource (build_resource encrypt agent_id token fp name engine now entropy backend_id) in
  r_tenant_name r = Some (id_tenant_name ident)
  ∧ r_resource_config_name r = Some (id_resource_config_name ident)
  ∧ r_database_name r = Some (id_database_name ident)
  ∧ cleanup_account_name r = Ret (id_account_name ident)
  ∧ resource_snapshot r = Ret (default_permission_snapshot PermissionScope.MULTITENANT).
Proof.
  intros ident r. split_and!; try done.
  unfold cleanup_account_name. replace (r_tenant_name r) with (Some (id_tenant_name ident)) by done.
  replace (r_database_name r) with (Some (id_database_name ident)) by done.
  replace (r_resource_config_name r) with (Some (id_resource_config_name ident)) by done.
  subst ident. destruct (identity_word (en_name_draws entropy)) as (word & _ & _ & _ & ->).
  simpl id_tenant_name. by rewrite !bool_decide_eq_true_2.
Qed.

(** Generated names are accepted: whatever is drawn, the identity of a new
    resource passes every validator of the DDL layer, its account belongs to
    its tenant, the names of the built row lead [cleanup_account_name] back to
    the same account, and its default grant statement is accepted. *)
Theorem new_identity_accepted encrypt agent_id token fp name engine now entropy backend_id :
  let ident := new_database_identity (en_name_draws entropy) in
  let r := nr_resource (build_resource encrypt agent_id token fp name engine now entropy backend_id) in
  validate_tenant (r_tenant_name r) = Ret (id_tenant_name ident)
  ∧ validate_resource_config (r_resource_config_name r) = Ret (id_resource_config_name ident)
  ∧ validate_database (r_database_name r) = Ret (id_database_name ident)
  ∧ validate_account (Some (id_account_name ident)) = Ret (id_account_name ident)
  ∧ cleanup_account_name r = Ret (id_account_name ident)
  ∧ (∃ snapshot, resource_snapshot r = Ret snapshot
     ∧ ∃ sql, build_grant_sql (id_tenant_name ident) (id_account_name ident) (Some snapshot) = Ret sql).
Proof.
  intros ident r.
  destruct (identity_word (en_name_draws entropy)) as (word & Hid & Hat & Hlen & Hwi).
  assert (tenant_re (String "t" word) = true) as Htr by by apply tenant_re_word.
  assert (account_re ("agentic@" +:+ String "t" word) = true) as Hac by exact Htr.
  assert (after_last "@" ("agentic@" +:+ String "t" word) = Some (String "t" word)) as Hal
    by by apply (after_last_fresh "@" "agentic").
  destruct (build_resource_names encrypt agent_id token fp name engine now entropy backend_id)
    as (Et & Er & Ed & Ecn & Es). fold r in Et, Er, Ed, Ecn, Es. fold ident in Et, Er, Ed, Ecn.
  rewrite Et, Er, Ed, Ecn, Es.
  subst ident. rewrite Hwi. simpl id_tenant_name. simpl id_resource_config_name.
  simpl id_database_name. simpl id_account_name. split_and!.
  - unfold validate_tenant, validate. by rewrite Htr.
  - unfold validate_resource_config, validate. by rewrite resource_config_re_word.
  - unfold validate_database, validate. by rewrite (Htr : database_re ("agentic@" +:+ String "t" word) = true).
  - unfold validate_account, validate. by rewrite Hac.
  - done.
  - exists (default_permission_snapshot PermissionScope.MULTITENANT). split; [done|].
    unfold build_grant_sql, mbind, outcome_bind, validate_tenant, validate_account, validate.
    rewrite Htr, Hac, Hal, bool_decide_eq_true_2 by done. by eexists.
Qed.
