(* ===== verification/RequestTheorems.v ===== *)
(** * Requests: names and fingerprints, deletion and restoration

    Normalised names are stable, and the text that is hashed into a request
    fingerprint determines the request.  What deletion and restoration commit on
    every branch, and what the dispatcher makes of a restoration. *)

From S2P Require Import Prelude Models PyString WriteGuard Config Worker AdapterInterface.
From S2P Require Import Dispatcher DispatchLoop Permission Capacity Hashing Contract Selector.
From S2P Require Import Service LifecycleSpec Lifecycle Reservation System Dispatching Examples.
From S2P Require Import DispatcherTheorems Liveness.

(** ** Stripping twice *)

Lemma rstrip_shape s :
  match rstrip s with
  | EmptyString => True
  | String a _ => ∃ t, s = String a t
  end.
Proof. destruct s as [|a s]; simpl; [done|]. destruct (rstrip s); [destruct (is_space a); [done|]|]; eauto. Qed.

Lemma rstrip_idempotent s : rstrip (rstrip s) = rstrip s.
Proof.
  induction s as [|a s IH]; [done|]. simpl. destruct (rstrip s) as [|b t] eqn:E.
  - destruct (is_space a) eqn:Ha; simpl; [done|]. by rewrite Ha.
  - change (rstrip (String a (String b t)))
      with (match rstrip (String b t) with
            | EmptyString => if is_space a then EmptyString else String a EmptyString
            | u => String a u end).
    by rewrite IH.
Qed.

(** No white space in front. *)
Definition head_solid (s : string) : Prop :=
  match s with String a _ => is_space a = false | EmptyString => True end.

Lemma lstrip_solid s : head_solid (lstrip s).
Proof. induction s as [|a s IH]; simpl; [done|]. destruct (is_space a) eqn:E; [done|]. exact E. Qed.

Lemma lstrip_fixed s : head_solid s → lstrip s = s.
Proof. destruct s as [|a s]; simpl; [done|]. by intros ->. Qed.

Lemma strip_idempotent s : strip (strip s) = strip s.
Proof.
  unfold strip. rewrite (lstrip_fixed (rstrip (lstrip s))); [apply rstrip_idempotent|].
  pose proof (lstrip_solid s) as Hs. pose proof (rstrip_shape (lstrip s)) as Hr.
  destruct (rstrip (lstrip s)) as [|a u]; [done|]. destruct Hr as [t Ht]. by rewrite Ht in Hs.
Qed.

Lemma normalize_idempotent name n :
  normalize_resource_name name = Ret n → normalize_resource_name n = Ret n.
Proof.
  unfold normalize_resource_name. destruct name as [name|]; [|by intros [= <-]]. cbv zeta.
  set (bad := negb (_ && _)). set (control := negb (string_forallb _ _)). intros H.
  destruct bad eqn:Hl; [done|]. destruct control eqn:Hc; [done|]. injection H as <-.
  rewrite strip_idempotent. fold bad control. by rewrite Hl, Hc.
Qed.

(** ** A prefix code *)

Lemma app_split s t x y :
  s +:+ x = t +:+ y →
  (∃ u, t = s +:+ u ∧ x = u +:+ y) ∨ (∃ u, s = t +:+ u ∧ y = u +:+ x).
Proof.
  revert t. induction s as [|a s IH]; intros t H; [left; by exists t|].
  destruct t as [|b t]; [right; by exists (String a s)|].
  rewrite !app_cons in H. injection H as -> H.
  destruct (IH _ H) as [(u & -> & ->)|(u & -> & ->)]; [left|right]; by exists u.
Qed.

Definition all_chars : list ascii := ascii_of_nat <$> seq 0 256.

Lemma all_chars_complete a : a ∈ all_chars.
Proof.
  apply list_elem_of_fmap. exists (nat_of_ascii a). split; [by rewrite ascii_nat_embedding|].
  apply elem_of_seq. pose proof (nat_ascii_bounded a). lia.
Qed.

Lemma all_chars_forallb p a : forallb p all_chars = true → p a = true.
Proof.
  intros Hp. apply (proj1 (forallb_forall _ _) Hp), list_elem_of_In, all_chars_complete.
Qed.

Definition prefix_free (f : ascii → string) : bool :=
  forallb (λ a, forallb (λ b, Ascii.eqb a b
     || negb (bool_decide (is_Some (strip_prefix (f a) (f b))))) all_chars) all_chars.

Lemma prefix_free_inj f a b x y :
  prefix_free f = true → f a +:+ x = f b +:+ y → a = b ∧ x = y.
Proof.
  intros Hf H. assert (∀ a b u, f b = f a +:+ u → a = b) as Hab.
  { clear -Hf. intros a b u E. unfold prefix_free in Hf.
    pose proof (all_chars_forallb _ b (all_chars_forallb _ a Hf)) as Hb. cbv beta in Hb.
    apply orb_true_iff in Hb as [Hb|Hb]; [by apply Ascii.eqb_eq in Hb|].
    rewrite E, strip_prefix_app in Hb. done. }
  assert (a = b) as ->.
  { destruct (app_split _ _ _ _ H) as [(u & E & _)|(u & E & _)]; [by eapply Hab|symmetry; by eapply Hab]. }
  split; [done|]. clear -H. induction (f b) as [|c s IH]; [done|].
  rewrite !app_cons in H. injection H as H. by apply IH.
Qed.

Lemma json_escape_prefix_free : prefix_free json_escape = true.
Proof. vm_compute. reflexivity. Qed.

Lemma json_escape_not_quote a x y : json_escape a +:+ x ≠ String dquote y.
Proof.
  assert (forallb (λ a, match json_escape a with
    | String c _ => negb (Ascii.eqb c dquote) | EmptyString => false end) all_chars = true) as Hall
    by (vm_compute; reflexivity).
  pose proof (all_chars_forallb _ a Hall) as Ha. cbv beta in Ha.
  destruct (json_escape a) as [|c s]; [done|]. rewrite app_cons. intros [= -> _]. done.
Qed.

(** ** Quoted members *)

Lemma json_body_inj s t x y :
  string_flat_map json_escape s +:+ String dquote x = string_flat_map json_escape t +:+ String dquote y →
  s = t ∧ x = y.
Proof.
  revert t. induction s as [|a s IH]; intros [|b t] H; simpl in H.
  - by injection H.
  - rewrite app_assoc_str in H. symmetry in H. by apply json_escape_not_quote in H.
  - rewrite app_assoc_str in H. by apply json_escape_not_quote in H.
  - rewrite !app_assoc_str in H. apply (prefix_free_inj _ _ _ _ _ json_escape_prefix_free) in H as [-> H].
    by destruct (IH _ H) as [-> ->].
Qed.

Lemma json_quote_inj s t x y : json_quote s +:+ x = json_quote t +:+ y → s = t ∧ x = y.
Proof.
  unfold json_quote. rewrite !(app_cons dquote), !app_assoc_str. intros [= H].
  rewrite !(app_cons dquote) in H. by apply json_body_inj in H.
Qed.

Lemma json_opt_inj o o' x y : json_opt o +:+ x = json_opt o' +:+ y → o = o' ∧ x = y.
Proof.
  destruct o as [s|], o' as [t|]; simpl.
  - intros H. by apply json_quote_inj in H as [-> ->].
  - done.
  - done.
  - intros H. split; [done|]. by injection H.
Qed.

(** ** Fingerprints *)

Lemma mode_value_inj m m' : ProvisioningMode.value m = ProvisioningMode.value m' → m = m'.
Proof. by destruct m, m'. Qed.

Lemma app_inj_l s x y : s +:+ x = s +:+ y → x = y.
Proof. apply (inj (String.append s)). Qed.

Lemma payload_inj db1 db2 n1 n2 m1 m2 v :
  fingerprint_payload db1 n1 m1 v = fingerprint_payload db2 n2 m2 v → (v = 1 → m1 = m2) →
  db1 = db2 ∧ n1 = n2 ∧ m1 = m2.
Proof.
  unfold fingerprint_payload, json_object, join. simpl String.concat.
  set (k1 := json_quote "db_type"). set (k2 := json_quote "name").
  set (k3 := json_quote "provisioning_mode").
  destruct (v =? 1) eqn:Hv; intros H Hm; rewrite ?app_assoc_str in H.
  - repeat apply (app_inj_l _ _ _) in H. apply json_quote_inj in H as [-> H].
    repeat apply (app_inj_l _ _ _) in H. apply json_opt_inj in H as [-> _].
    split_and!; [done|done|]. apply Hm. lia.
  - repeat apply (app_inj_l _ _ _) in H. apply json_quote_inj in H as [-> H].
    repeat apply (app_inj_l _ _ _) in H. apply json_opt_inj in H as [-> H].
    repeat apply (app_inj_l _ _ _) in H. apply json_quote_inj in H as [H _].
    by apply mode_value_inj in H as ->.
Qed.

(** The text that is hashed determines the request: two requests with the
    same fingerprint payload, of the current version, have the same engine,
    normalised name and mode, whatever characters the name has (quotes and
    control characters included); the legacy payload determines engine and
    name.  Equal fingerprints of different requests are therefore collisions
    of SHA-256, and a request repeated unchanged always has its fingerprint. *)
Theorem fingerprint_determines_request db1 db2 (n1 n2 : option string) (m1 m2 : ProvisioningMode.t) v f :
  request_fingerprint db1 n1 m1 v = Ret f → request_fingerprint db2 n2 m2 v = Ret f →
  ∃ k1 k2, normalize_resource_name n1 = Ret k1 ∧ normalize_resource_name n2 = Ret k2
  ∧ ((db1 = db2 ∧ k1 = k2 ∧ m1 = m2)
     ∨ (fingerprint_payload db1 k1 m1 v ≠ fingerprint_payload db2 k2 m2 v
        ∧ sha256_hex (fingerprint_payload db1 k1 m1 v) = sha256_hex (fingerprint_payload db2 k2 m2 v))).
Proof.
  unfold request_fingerprint, mbind, outcome_bind.
  destruct (negb _) eqn:Hv; [done|]. apply negb_false_iff, orb_true_iff in Hv.
  destruct (normalize_resource_name n1) as [k1|]; [|done].
  destruct (normalize_resource_name n2) as [k2|]; [|by case_match].
  destruct (_ && _) eqn:Hm1; [done|]. destruct ((v =? 1) && (m2 != _)) eqn:Hm2; [done|].
  intros [= H1] [= H2]. exists k1, k2. split_and!; [done|done|].
  destruct (decide (fingerprint_payload db1 k1 m1 v = fingerprint_payload db2 k2 m2 v)) as [E|E];
    [left|right; split; [done|congruence]].
  apply (payload_inj _ _ _ _ _ _ _ E). intros ->. simpl in Hm1, Hm2.
  apply negb_false_iff, bool_decide_eq_true in Hm1, Hm2. congruence.
Qed.

Lemma fingerprint_determines_request_witness :
  ∃ f k1 k2,
    request_fingerprint "polardb_mysql" (Some " orders ") ProvisioningMode.MULTITENANT 2 = Ret f
    ∧ normalize_resource_name (Some " orders ") = Ret k1
    ∧ normalize_resource_name (Some "orders") = Ret k2 ∧ k1 = k2.
Proof.
  destruct (request_fingerprint "polardb_mysql" (Some " orders ") ProvisioningMode.MULTITENANT 2)
    as [f|e] eqn:E1; [|vm_compute in E1; discriminate].
  destruct (request_fingerprint "polardb_mysql" (Some "orders") ProvisioningMode.MULTITENANT 2)
    as [f'|e] eqn:E2; [|vm_compute in E2; discriminate].
  assert (f' = f) as ->.
  { apply (f_equal (λ o, match o with Ret x => x | Raise _ => EmptyString end)) in E1, E2.
    rewrite <-E1, <-E2. vm_compute. reflexivity. }
  destruct (fingerprint_determines_request _ _ _ _ _ _ _ _ E1 E2) as (k1 & k2 & H1 & H2 & _).
  exists f, k1, k2. split; [reflexivity|]. split; [exact H1|]. split; [exact H2|].
  vm_compute in H1, H2. congruence.
Defined.

(** The access credentials of a resource get a status, the others stay. *)
Definition credentials_set (rid : string) (s : CredentialStatus.t) (db db' : DB) : Prop :=
  ∀ i, credentials db' !! i =
    (λ c, if is_resource_access rid c then c <| c_status := s |> else c) <$> credentials db !! i.

Lemma set_status_credentials rid s db : credentials_set rid s db (set_resource_credentials_status rid s db).
Proof. intros i. unfold set_resource_credentials_status, update_where. simpl. apply lookup_fmap. Qed.

(** ** Deletion *)

(** The cool-down a first request selects: the resource's own, then that of its
    pool or backend, then the configured one. *)
Definition cooldown_selected (config : TenantProvisioningConfig) (pool_or_backend : option Z)
    (r : DBInstanceResource) : Z :=
  match r_effective_delete_cooldown_duration_hours r, pool_or_backend with
  | Some v, _ => v
  | None, Some v => v
  | None, None => cfg_delete_cooldown_duration_hours config
  end.

Definition pool_or_backend_cooldown (b : ProvisioningBackend) (pool : option DedicatedPool) : option Z :=
  match pool with Some p => p_delete_cooldown_duration_hours p | None => b_delete_cooldown_duration_hours b end.

(** The states a resource can be deleted in. *)
Definition deletable_in (s : DBInstanceStatus.t) : Prop :=
  s ∈ [DBInstanceStatus.CREATING; DBInstanceStatus.READY; DBInstanceStatus.FAILED;
       DBInstanceStatus.DELETE_FAILED].

#[export] Instance deletable_in_dec s : Decision (deletable_in s).
Proof. unfold deletable_in. apply _. Defined.

Lemma deletable_decide s : deletable s = bool_decide (deletable_in s).
Proof. by destruct s. Qed.

(** What a deletion request leaves of the row it found. *)
Record deletion_queued (config : TenantProvisioningConfig) (now : time) (pool_or_backend : option Z)
    (policy : ReclaimPolicy.t) (r r' : DBInstanceResource) : Prop := {
  dq_identity : identity r' = identity r;
  dq_status : r_status r' = DBInstanceStatus.DELETING ∧ r_cleanup_required r' = true;
  dq_retry : r_retry_count r' = 0 ∧ r_next_retry_at r' = None ∧ r_failure_reason r' = None;
  dq_steps : r_delete_step r' = r_delete_step r ∧ r_cleanup_step r' = r_cleanup_step r
    ∧ r_provisioning_step r' = r_provisioning_step r
    ∧ r_capacity_released_at r' = r_capacity_released_at r;
  dq_first : r_delete_requested_at r = None →
    r_delete_requested_at r' = Some now ∧ r_reclaim_policy r' = Some policy
    ∧ r_effective_delete_cooldown_duration_hours r' = Some (cooldown_selected config pool_or_backend r)
    ∧ 1 <= cooldown_selected config pool_or_backend r;
  dq_again : is_Some (r_delete_requested_at r) →
    r_delete_requested_at r' = r_delete_requested_at r
    ∧ r_reclaim_policy r' = r_reclaim_policy r
    ∧ r_effective_delete_cooldown_duration_hours r' = r_effective_delete_cooldown_duration_hours r;
  dq_claim : r_worker_id r' =
    if live_claim now r && (r_status r != DBInstanceStatus.DELETE_FAILED) then r_worker_id r else None
}.

Lemma queued_row config now b pool r r1 :
  record_delete_request config now b pool r = Ret r1 →
  deletion_queued config now (pool_or_backend_cooldown b pool)
    (match pool with Some p => p_reclaim_policy p | None => ReclaimPolicy.DESTROY end)
    r (queue_deletion now r1).
Proof.
  intros Hrec.
  assert (live_claim now r1 = live_claim now r ∧ r_status r1 = r_status r ∧ r_worker_id r1 = r_worker_id r)
    as (Hl & Hs & Hw).
  { unfold record_delete_request in Hrec. destruct (r_delete_requested_at r); [by injection Hrec as <-|].
    unfold mbind, outcome_bind in Hrec. case_match; [|done]. by injection Hrec as <-. }
  assert (r_worker_id (queue_deletion now r1) =
    if live_claim now r && (r_status r != DBInstanceStatus.DELETE_FAILED) then r_worker_id r else None)
    as Hclaim.
  { unfold queue_deletion. rewrite Hl, Hs. destruct (live_claim now r); simpl; [|done].
    by destruct (r_status r == DBInstanceStatus.DELETE_FAILED). }
  unfold record_delete_request in Hrec. destruct (r_delete_requested_at r) as [z|] eqn:Hreq.
  - injection Hrec as <-. unfold queue_deletion in *. clear Hl Hs Hw.
    destruct (negb (live_claim now r) || _); split; simpl in *; try done; intros; congruence.
  - unfold mbind, outcome_bind, effective_delete_cooldown_hours in Hrec.
    destruct (_ <? 1) eqn:Hh; [done|]. injection Hrec as <-. unfold queue_deletion in *.
    match goal with |- context [if ?c then clear_claim _ else _] => destruct c end;
      split; simpl in *; try done; intros;
      try (match goal with H : is_Some _ |- _ => rewrite Hreq in H; by destruct H end);
      split_and!; try done; unfold cooldown_selected, pool_or_backend_cooldown;
      destruct (r_effective_delete_cooldown_duration_hours r), pool; try done; lia.
Qed.

(** The one reason not to queue it: a cool-down below an hour. *)
Lemma refused_cooldown config now b pool r e :
  record_delete_request config now b pool r = Raise e →
  r_delete_requested_at r = None ∧ cooldown_selected config (pool_or_backend_cooldown b pool) r < 1.
Proof.
  unfold record_delete_request, effective_delete_cooldown_hours, cooldown_selected, pool_or_backend_cooldown.
  destruct (r_delete_requested_at r); [done|]. unfold mbind, outcome_bind.
  destruct (_ <? 1) eqn:Hh; [|done]. intros _. split; [done|]. by apply Z.ltb_lt in Hh.
Qed.

(** C21: A deletion request for a resource that is not on a dedicated pool, alone
    on its session, on every branch.  It raises and changes nothing when the resource is missing or not the Agent's
    ([DBInstanceNotFound]); without a hook, one for the Agent's own resource
    raises only for a deletable resource whose backend row is missing, or which
    was not requested before and whose selected cool-down is below an hour.  A
    resource in no deletable state is returned and nothing changes.  Any other
    is queued: its row becomes [DELETING] with its progress columns kept, the
    first request fixes the time, the cool-down (resource, then pool or backend,
    then configuration) and the reclaim policy, a later one keeps them; a live
    worker keeps its claim unless the last deletion had failed; every access
    credential of the resource is revoked in the same transaction, and no other
    row of any table changes.  A hook is assumed to touch no table; it may
    raise, and then nothing is committed. *)
Theorem deletion_request config hook now agent_id rid db :
  audit_hook hook → rows_keyed db →
  match with_session (delete_db_instance_resource config hook now agent_id rid) db,
        resources db !! rid with
  | (db', Raise e), None => db' = db ∧ e = DBInstanceNotFound
  | (_, Ret _), None => False
  | (db', Raise e), Some r => db' = db
      ∧ (r_owner_agent_id r ≠ agent_id → e = DBInstanceNotFound)
      ∧ (hook = None → r_owner_agent_id r = agent_id → deletable_in (r_status r)
         ∧ ∀ b, backends db !! r_backend_id r = Some b → r_delete_requested_at r = None
            ∧ cooldown_selected config (pool_or_backend_cooldown b (backend_pool b db)) r < 1)
  | (db', Ret r'), Some r => r_owner_agent_id r = agent_id
      ∧ if decide (deletable_in (r_status r)) then
          db' = db <| resources := <[rid := r']> (resources db) |> <| credentials := credentials db' |>
          ∧ credentials_set rid CredentialStatus.REVOKED db db'
          ∧ ∃ b, backends db !! r_backend_id r = Some b
              ∧ let pool := backend_pool b db in
                deletion_queued config now (pool_or_backend_cooldown b pool)
                  (match pool with Some p => p_reclaim_policy p | None => ReclaimPolicy.DESTROY end)
                  r r'
        else db' = db ∧ r' = r
  end.
Proof.
  intros Hhook Hk. unfold delete_db_instance_resource. rewrite serialized_open.
  autorewrite with pas_txn. unfold owned_resource at 1.
  destruct (resources db !! rid) as [r|] eqn:Hr; simpl; [|done].
  destruct (r_owner_agent_id r == agent_id) eqn:Ho; guards; [|by split_and!].
  rewrite deletable_decide. destruct (decide (deletable_in (r_status r))) as [Hd|Hd];
    [rewrite bool_decide_eq_true_2 by done|rewrite bool_decide_eq_false_2 by done].
  - autorewrite with pas_txn. destruct (backends db !! r_backend_id r) as [b|] eqn:Hb;
      [|by split_and!].
    autorewrite with pas_txn. destruct (record_delete_request _ _ _ _) as [r1|e] eqn:Hrec;
      [|by split_and!; [..|intros _ _; split; [|intros b' [= <-]; eapply refused_cooldown]]].
    autorewrite with pas_txn. rewrite run_hook_bind by done.
    pose proof (queued_row _ _ _ _ _ _ Hrec) as Hq.
    assert (r_id r1 = rid ∧ r_id (queue_deletion now r1) = rid) as [Hi1 Hi2].
    { pose proof (dq_identity _ _ _ _ _ _ Hq) as Hid. destruct (queue_deletion_life now r1) as [Hid1 _].
      rewrite <-(Hk _ _ Hr). unfold identity in *. split; congruence. }
    destruct (run_hook hook _ _).2 eqn:Hrun; [|by split_and!; [..|intros ->]].
    autorewrite with pas_txn. unfold put_resource. rewrite Hi2. simpl. rewrite Hi1. split_and!; [done|by destruct db| |].
    + intros i. apply set_status_credentials.
    + exists b. by split.
  - autorewrite with pas_txn. rewrite run_hook_bind by done.
    destruct hook as [h|]; simpl; [|by split_and!]. by destruct (h r _).2; split_and!.
Qed.

Lemma deletion_request_witness :
  rows_keyed demo_created
  ∧ match with_session (delete_db_instance_resource default_config None demo_start "agent-1" "res-0")
            demo_created with
    | (db', Ret r') => resources db' !! "res-0" = Some r' ∧ r_status r' = DBInstanceStatus.DELETING
    | (_, Raise _) => False
    end.
Proof.
  assert (rows_keyed demo_created) as Hk by apply (sys_reachable_consistent _ _ demo_created_reachable).
  split; [exact Hk|].
  pose proof (deletion_request default_config None demo_start "agent-1" "res-0" demo_created
    audit_no_hook Hk) as H.
  destruct (resources demo_created !! "res-0") as [r|] eqn:Hr; [|vm_compute in Hr; discriminate Hr].
  assert (r_owner_agent_id r = "agent-1" ∧ deletable_in (r_status r)) as [Ho Hd]
    by (vm_compute in Hr; injection Hr as <-; split; [reflexivity|];
        apply (bool_decide_eq_true_1 (deletable_in _)); vm_compute; reflexivity).
  destruct (with_session _ _) as [db' [r'|e]] eqn:E.
  - rewrite decide_True in H by exact Hd. destruct H as (_ & Hres & _ & b & _ & Hq). split.
    + rewrite Hres. apply lookup_insert_eq.
    + apply (dq_status _ _ _ _ _ _ Hq).
  - apply (f_equal (λ x, match x.2 with Ret _ => true | Raise _ => false end)) in E.
    vm_compute in E. discriminate E.
Defined.

(** ** Restoration *)

(** A restoration request, alone on its session, on every branch: it
    raises and changes nothing when the resource is missing, when its status
    is not [DELETING], [DELETE_FAILED] or [COOLING_DOWN], or when its delete
    step is past the cool-down; otherwise it commits the row as [RESTORING]
    with the status it came from recorded, unclaimed and due at once, and
    changes nothing else: the deletion's own columns are kept, and the access
    credentials stay revoked until a worker has verified the account. *)
Theorem restoration_request rid db :
  rows_keyed db →
  match with_session (restore_db_instance_resource rid) db with
  | (db', Raise e) => db' = db
      ∧ match resources db !! rid with
        | None => e = DBInstanceNotFound
        | Some r => restorable (r_status r) = false ∨ irreversible (r_delete_step r) = true
        end
  | (db', Ret r') => ∃ r, resources db !! rid = Some r
      ∧ restorable (r_status r) = true ∧ irreversible (r_delete_step r) = false
      ∧ db' = db <| resources := <[rid := r']> (resources db) |>
      ∧ identity r' = identity r
      ∧ r_status r' = DBInstanceStatus.RESTORING ∧ r_restore_source_status r' = Some (r_status r)
      ∧ r_worker_id r' = None ∧ r_next_retry_at r' = None ∧ r_retry_count r' = 0
      ∧ r_delete_step r' = r_delete_step r ∧ r_cleanup_step r' = r_cleanup_step r
      ∧ r_delete_requested_at r' = r_delete_requested_at r
      ∧ r_cooldown_until r' = r_cooldown_until r
  end.
Proof.
  intros Hk. unfold restore_db_instance_resource. rewrite serialized_open. unfold save.
  autorewrite with pas_txn. destruct (resources db !! rid) as [r|] eqn:Hr; [|by split].
  destruct (restorable (r_status r)) eqn:Hs; simpl; [|by split; [|left]].
  destruct (irreversible (r_delete_step r)) eqn:Hd; simpl; [by split; [|right]|].
  autorewrite with pas_txn. cbn [committed]. exists r. do 3 (split; [done|]).
  split; [|by repeat split]. unfold put_resource. cbn [r_id set_field].
  change (r_id (reset_retry _)) with (r_id r). by rewrite (Hk _ _ Hr).
Qed.

Lemma restoration_request_witness :
  match with_session (restore_db_instance_resource "res-0") demo_cooling with
  | (db', Ret r') => r_status r' = DBInstanceStatus.RESTORING
      ∧ r_restore_source_status r' = Some DBInstanceStatus.COOLING_DOWN
  | (_, Raise _) => False
  end.
Proof.
  pose proof (restoration_request "res-0" demo_cooling
    (cs_keyed _ (sys_reachable_consistent _ _ demo_cooling_reachable))) as H.
  destruct (with_session _ _) as [db' [r'|e]] eqn:E.
  - destruct H as (r & Hr & _ & _ & _ & _ & Hst & Hsrc & _). split; [exact Hst|].
    rewrite Hsrc. vm_compute in Hr. injection Hr as <-. reflexivity.
  - apply (f_equal (λ x, match x.2 with Ret _ => true | Raise _ => false end)) in E.
    vm_compute in E. discriminate E.
Defined.

(** What a worker makes of a [RESTORING] row when the adapter answers [o]. *)
Definition restored_row (o : outcome unit) (r r' : DBInstanceResource) : Prop :=
  identity r' = identity r ∧ r_worker_id r' = None
  ∧ match o with
    | Ret _ => r_status r' = DBInstanceStatus.READY
        ∧ r_delete_step r' = DeleteLifecycleStep.PENDING
        ∧ r_delete_requested_at r' = None ∧ r_disconnected_at r' = None ∧ r_cooldown_until r' = None
        ∧ r_restore_source_status r' = None ∧ r_cleanup_required r' = false
        ∧ r_failure_reason r' = None ∧ r_restore_failure_reason r' = None
    | Raise e => r_delete_step r' = r_delete_step r
        ∧ r_cooldown_until r' = r_cooldown_until r
        ∧ r_restore_failure_reason r' = Some ("Restore verification failed with " +:+ exc_type e)
        ∧ r_status r' = (if r_restore_source_status r == Some DBInstanceStatus.COOLING_DOWN
                         then DBInstanceStatus.COOLING_DOWN else DBInstanceStatus.DELETE_FAILED)
    end.

(** C24: A restoration ends in one iteration.  When the worker that owns a
    [RESTORING] row, whose backend and instance are there and whose engine has
    an adapter, runs its loop, and the adapter's [restore] returns without
    touching the database, the row is [READY] with its deletion step, its times
    of request, disconnection and cool-down, its restoration source and its
    failure reasons cleared, its access credentials are active again, and the
    claim is gone; when [restore] raises, the credentials are untouched, the
    reason names the exception class only, and the row goes back to
    [COOLING_DOWN] if it came from there and to [DELETE_FAILED] otherwise.  No
    other resource changes, no capacity moves. *)
Theorem restoration_completes {X} (config : TenantProvisioningConfig) (worker_id : string)
    (registry : AdapterRegistry X) clock fuel rid r w b i iid a x t o :
  resources (w_db w) !! rid = Some r → r_id r = rid → r_worker_id r = Some worker_id →
  r_status r = DBInstanceStatus.RESTORING →
  backends (w_db w) !! r_backend_id r = Some b → b_instance_id b = Some iid →
  instances (w_db w) !! iid = Some i →
  registry_get registry (i_engine i) (i_topology i) = Ret a →
  adapter_restore a (mk_loaded r (resource_credentials rid (w_db w))) w = (mk_world (w_db w) x t, o) →
  ∃ db' r', dispatch_claimed config worker_id registry clock (S fuel) rid w = (mk_world db' x t, Ret true)
    ∧ resources db' = <[rid := r']> (resources (w_db w)) ∧ restored_row o r r'
    ∧ capacities db' = capacities (w_db w)
    ∧ match o with
      | Ret _ => credentials_set rid CredentialStatus.ACTIVE (w_db w) db'
      | Raise _ => credentials db' = credentials (w_db w)
      end.
Proof.
  intros Hr Hid Ho Hst Hb Hiid Hi Ha Hrun. subst rid. destruct w as [db wx wt]. simpl in *.
  assert (with_db (load_claimed worker_id (r_id r)) (mk_world db wx wt)
    = (mk_world db wx wt, Ret (Some (mk_loaded r (resource_credentials (r_id r) db), Some b, Some i))))
    as Hload.
  { unfold with_db, with_session, load_claimed, locked_resource, open_session. simpl.
    autorewrite with pas_txn. rewrite Hr, Ho, bool_decide_eq_true_2 by done. simpl.
    autorewrite with pas_txn. rewrite Hb. simpl. rewrite Hiid. simpl. by rewrite Hi. }
  assert (∃ db' r', restore_step worker_id registry (r_id r) (mk_loaded r (resource_credentials (r_id r) db))
      (Some b) (Some i) (mk_world db wx wt) = (mk_world db' x t, Ret tt)
    ∧ resources db' = <[r_id r := r']> (resources db) ∧ restored_row o r r'
    ∧ capacities db' = capacities db
    ∧ match o with
      | Ret _ => credentials_set (r_id r) CredentialStatus.ACTIVE db db'
      | Raise _ => credentials db' = credentials db
      end) as (db' & r' & Hstep & Hrest).
  { unfold restore_step, pick_adapter, try_else. rewrite Ha, run_outcome, Hrun.
    destruct o as [[]|e]; unfold with_db; simpl.
    - unfold finish_restore, claim_serialization, locked_resource, save, abandon, owns_claim.
      autorewrite with pas_txn. rewrite Hr, !bool_decide_eq_true_2 by done. simpl.
      autorewrite with pas_txn. eexists _, _. split; [reflexivity|].
      simpl. split_and!; [done| |done|apply set_status_credentials].
      unfold restored_row. split_and!; reflexivity.
    - unfold record_restore_failure, claim_serialization, locked_resource, save, abandon, owns_claim.
      autorewrite with pas_txn. rewrite Hr, !(bool_decide_eq_true_2 (_ = _)) by done. simpl.
      autorewrite with pas_txn. eexists _, _. split; [reflexivity|].
      simpl. split_and!; [done| |done|done].
      unfold restored_row. split_and!; reflexivity. }
  exists db', r'. split; [|exact Hrest]. simpl. unfold dispatch_iteration.
  rewrite run_assoc, (run_bind_ret _ _ _ _ _ Hload). simpl. rewrite Hst. simpl.
  by rewrite run_assoc, (run_bind_ret _ _ _ _ _ Hstep).
Qed.

(** The small example, restored in its cool-down and claimed. *)
Definition demo_restoring : DB := apply_all
  [ txn_db (restore_db_instance_resource "res-0");
    txn_db (claim_one default_config "worker-1" demo_start) ] demo_cooling.

Lemma restoration_completes_witness :
  ∃ db' r', dispatch_claimed default_config "worker-1" ideal_registry (λ _, demo_start) 1 "res-0"
             (mk_world demo_restoring tt 0) = (mk_world db' tt 0, Ret true)
    ∧ resources db' = <["res-0" := r']> (resources demo_restoring)
    ∧ r_status r' = DBInstanceStatus.READY
    ∧ c_status <$> credentials db' !! "cred-0" = Some CredentialStatus.ACTIVE.
Proof.
  destruct (resources demo_restoring !! "res-0") as [r|] eqn:Hr; [|vm_compute in Hr; discriminate Hr].
  assert (r_id r = "res-0" ∧ r_worker_id r = Some "worker-1" ∧ r_status r = DBInstanceStatus.RESTORING
    ∧ r_backend_id r = "backend-1") as (Hid & Hw & Hst & Hb)
    by (vm_compute in Hr; injection Hr as <-; repeat split; reflexivity).
  destruct (restoration_completes default_config "worker-1" ideal_registry (λ _, demo_start) 0 "res-0" r
    (mk_world demo_restoring tt 0) demo_backend demo_instance "inst-1" ideal_adapter tt 0%nat (Ret tt))
    as (db' & r' & Hrun & Hres & (_ & _ & Hready & _) & _ & Hcred).
  - exact Hr.
  - exact Hid.
  - exact Hw.
  - exact Hst.
  - rewrite Hb. vm_compute. reflexivity.
  - reflexivity.
  - vm_compute. reflexivity.
  - reflexivity.
  - reflexivity.
  - exists db', r'. split; [exact Hrun|]. split; [exact Hres|]. split; [exact Hready|].
    rewrite (Hcred "cred-0"). vm_compute. reflexivity.
Defined.
