(* ===== verification/CreationTheorems.v ===== *)
(** * What a creation request does

    [create_db_instance_resource] runs several transactions on one session, with
    other sessions' transactions between them: all of it is a sequence of system
    steps.  On a session of its own it is atomic, idempotent in the client token,
    and places the resource on the first candidate with room. *)

From S2P Require Import Prelude Models PyString WriteGuard Config Worker Dispatcher Permission.
From S2P Require Import Capacity Hashing Contract Selector Service LifecycleSpec Lifecycle.
From S2P Require Import Reservation System Transactions Examples RequestTheorems.

Section sessions.
  Context (config : TenantProvisioningConfig).
  Context (hook : option (DBInstanceResource → M (Session DB) unit)) (Hhook : audit_hook hook).
  Abbreviation session_refines := (session_refines (sys_step config)).
  Abbreviation transaction_refines := (transaction_refines (sys_step config)).

Lemma reserve_candidate_refines now agent_id backend_id engine build :
  builds agent_id backend_id (build backend_id) →
  transaction_refines (reserve_candidate config hook now agent_id backend_id engine build).
Proof.
  intros Hb [c w b o] Ht Ho Hc. unfold clean in Hc. simpl in Ht, Hc. subst b. rewrite Hc by done.
  pose proof (step_reserve config hook now agent_id backend_id engine build o c Hhook Hb) as Hs.
  pose proof (reserve_candidate_run config hook Hhook now agent_id backend_id engine build c o Hb) as Hr.
  unfold runs_ok. destruct (reserve_candidate _ _ _ _ _ _ _ _) as [s [r|e]]; simpl in *.
  - destruct Hr as (db' & -> & _). split_and!; [by apply rtc_once|done|done].
  - destruct Hr as [w' ->]. by split_and!.
Qed.

Lemma reserve_over_refines now agent_id engine build attempt ids :
  (∀ k b, builds agent_id b (build k b)) →
  transaction_refines (reserve_over config hook now agent_id engine build attempt ids).
Proof.
  intros Hb. revert attempt. induction ids as [|b ids IH]; intros attempt; simpl.
  { apply srefines_transaction, sresets_refines, sresets_raise. }
  intros s Ht Ho Hc. unfold runs_ok, try_except.
  destruct (reserve_candidate_refines now agent_id b engine (build attempt) (Hb _ _) s Ht Ho Hc)
    as (H1 & H2 & H3).
  destruct (reserve_candidate _ _ _ _ _ _ _ s) as [s1 [r|e]]; simpl in *; [done|].
  destruct (is_capacity_unavailable e); [|done].
  destruct (sresets_bind (sys_step config) rollback (λ _, begin_transaction ;;
      reserve_over config hook now agent_id engine build (S attempt) ids)
      (sresets_rollback _) (λ _, begin_then _ _ (IH _)) s1 H2) as (H4 & H5 & H6).
  split_and!; [by etrans|done|done].
Qed.

(** A creation request, from a session with no open transaction, commits only
    system steps, whatever other sessions commit between its transactions. *)
Lemma create_refines encrypt now entropy agent_id token name db_type :
  session_refines (create_db_instance_resource config encrypt hook now entropy agent_id token name db_type).
Proof.
  unfold create_db_instance_resource.
  apply srefines_bind; [apply require_idle_refines|]. intros _.
  do 4 (apply srefines_bind; [by apply srefines_keep|]; intros ?).
  apply srefines_bind; [apply srefines_query|]. intros [r|].
  - apply srefines_bind; [by apply srefines_keep|]. intros ?. by apply answer_refines.
  - apply srefines_bind; [apply srefines_query|]. intros candidates.
    destruct (cand_backend_id <$> candidates) as [|b0 ids].
    + apply srefines_bind; [apply sresets_refines, sresets_rollback|]. intros _. by apply srefines_keep.
    + apply srefines_bind; [apply reset_when_busy|]. intros _.
      apply attempts_refine; [done|]. intros k. apply srefines_serialized, reserve_over_refines.
      intros; apply build_resource_builds.
Qed.
End sessions.

(** ** Looking a token up *)

Lemma find_by_client_token_Some agent_id token db r :
  find_by_client_token agent_id token db = Some r →
  (∃ k, resources db !! k = Some r) ∧ r_owner_agent_id r = agent_id ∧ r_client_token r = token.
Proof.
  unfold find_by_client_token. intros Hh. apply head_Some_elem_of in Hh.
  apply list_elem_of_filter in Hh as [[Ho Ht] Hin].
  apply list_elem_of_fmap in Hin as ((k & r0) & -> & Hk). rewrite elem_of_map_to_list in Hk. by eauto.
Qed.

(** ** One candidate, on every branch *)

(** The Agent may place a resource on the backend and both have a free slot. *)
Definition has_room (config : TenantProvisioningConfig) (now : time) (agent_id : string)
    (engine : InstanceEngine.t) (db : DB) (backend_id : string) : bool :=
  match agents db !! agent_id, placement_row backend_id engine db with
  | Some a, Some b =>
      (a_status a == AgentStatus.ACTIVE) && (b_status b == ProvisioningBackendStatus.ACTIVE)
      && binding_enabled agent_id backend_id db
      && healthy_at backend_id
           (now - seconds (effective_backend_health_stale_after_seconds config)) db
      && (counter ("agent", agent_id) db <? agent_limit_of config a)
      && (counter ("backend", backend_id) db <? b_max_active_resources b)
  | _, _ => false
  end.

(** A unique column of the new rows is taken. *)
Definition insert_conflict (r : DBInstanceResource) (creds : list InstanceCredential) (db : DB) : bool :=
  resource_conflict r db || existsb (λ c, credential_conflict c db) creds.

(** The permission columns of the backend, if it has a template. *)
Definition placed_row (backend_id : string) (engine : InstanceEngine.t) (db : DB)
    (new : NewResource) : outcome DBInstanceResource :=
  with_permission_snapshot (placement_row backend_id engine db ≫= λ b, backend_revision b db)
    (nr_resource new).

(** The working copy once both counters are set. *)
Definition counted (agent_id backend_id : string) (x y : Z) (db : DB) : DB :=
  put_capacity ("backend", backend_id) y
    (put_capacity ("agent", agent_id) x (ensured agent_id backend_id db)).

(** A placed row keeps the request it was built for. *)
Definition request_of (r : DBInstanceResource) : string * string * Z :=
  (r_client_token r, r_request_fingerprint r, r_fingerprint_version r).

Lemma placed_row_request backend_id engine db new r :
  placed_row backend_id engine db new = Ret r → request_of r = request_of (nr_resource new).
Proof.
  unfold placed_row. generalize (placement_row backend_id engine db ≫= λ b, backend_revision b db).
  intros revision. unfold with_permission_snapshot, mbind, outcome_bind.
  destruct revision as [rev|]; [|by intros [= <-]].
  destruct (compile_permission_snapshot _ _ _ _ _); [|done]. by intros [= <-].
Qed.

Lemma conflict_counted agent_id backend_id x y r creds db :
  insert_conflict r creds (counted agent_id backend_id x y db) = insert_conflict r creds db.
Proof.
  destruct (ensured_frame agent_id backend_id db) as [Hr Hc].
  unfold counted, insert_conflict, resource_conflict, credential_conflict. simpl. by rewrite Hr, Hc.
Qed.

Lemma revision_counted agent_id backend_id x y b db :
  backend_revision b (counted agent_id backend_id x y db) = backend_revision b db.
Proof.
  unfold backend_revision, counted, ensured. simpl.
  destruct (insert_zero_frame ("backend", backend_id) (insert_zero ("agent", agent_id) db))
    as (_ & _ & _ & ->).
  by destruct (insert_zero_frame ("agent", agent_id) db) as (_ & _ & _ & ->).
Qed.

Lemma reserve_candidate_branches config hook now agent_id backend_id engine build db o :
  audit_hook hook →
  match reserve_candidate config hook now agent_id backend_id engine build (mk_session db db true o) with
  | (_, Ret r) => has_room config now agent_id engine db backend_id = true
      ∧ placed_row backend_id engine db (build backend_id) = Ret r
      ∧ insert_conflict r (nr_credentials (build backend_id)) db = false
  | (_, Raise e) =>
      (has_room config now agent_id engine db backend_id = false ∧ e = CapacityUnavailable EmptyString)
      ∨ (has_room config now agent_id engine db backend_id = true
         ∧ (placed_row backend_id engine db (build backend_id) = Raise e
            ∨ ∃ r, placed_row backend_id engine db (build backend_id) = Ret r
                ∧ (insert_conflict r (nr_credentials (build backend_id)) db = true
                     ∧ is_integrity_error e = true
                   ∨ hook ≠ None)))
  end.
Proof.
  intros Hhook. unfold reserve_candidate, reserve_active_capacity_counters, set_counters,
    insert_resource, has_room, placed_row.
  autorewrite with pas_txn.
  destruct (agents db !! agent_id) as [a|]; [|by left].
  destruct (placement_row backend_id engine db) as [b|]; [|by left].
  destruct (_ || _ || _ || _) eqn:Hok.
  { left. split; [|done]. repeat (apply orb_true_iff in Hok as [Hok|Hok]);
      apply negb_true_iff in Hok; rewrite Hok; by rewrite ?andb_false_r. }
  guards. autorewrite with pas_txn. rewrite locked_capacity_rows_run.
  destruct (_ || _) eqn:Hlim.
  { left. split; [|done]. apply orb_true_iff in Hlim as [Hlim|Hlim]; apply Z.leb_le, Z.ltb_ge in Hlim;
      rewrite Hlim; by rewrite ?andb_false_r. }
  guards. autorewrite with pas_txn. fold (counted agent_id backend_id
    (counter ("agent", agent_id) db + 1) (counter ("backend", backend_id) db + 1) db).
  rewrite revision_counted. simpl. rewrite !bool_decide_eq_true_2 by done.
  repeat match goal with H : _ = true |- _ => rewrite H end. simpl.
  assert ((counter ("agent", agent_id) db <? agent_limit_of config a)
    && (counter ("backend", backend_id) db <? b_max_active_resources b) = true) as -> by lia.
  destruct (with_permission_snapshot _ _) as [r|e]; [|by right; auto].
  autorewrite with pas_txn.
  fold (insert_conflict r (nr_credentials (build backend_id))
    (counted agent_id backend_id (counter ("agent", agent_id) db + 1)
       (counter ("backend", backend_id) db + 1) db)).
  rewrite conflict_counted. destruct (insert_conflict _ _ _) eqn:Hconf.
  { right. split; [done|]. right. exists r. auto. }
  autorewrite with pas_txn. rewrite run_hook_bind by done.
  destruct hook as [h|]; simpl; [|by split_and!].
  destruct (h r _).2 as [[]|e]; [by split_and!|]. right. split; [done|]. right. exists r. auto.
Qed.

(** ** Reservation over the candidates *)
Section attempts.
  Context (config : TenantProvisioningConfig).
  Context (hook : option (DBInstanceResource → M (Session DB) unit)) (Hhook : audit_hook hook).

(** What a block that may insert one resource leaves behind. *)
Definition inserts_one (agent_id : string) (Q : DBInstanceResource → Prop) (ids : list string) (db : DB)
    (res : Session DB * outcome DBInstanceResource) : Prop :=
  match res with
  | (s, Ret r) => ∃ b db', b ∈ ids ∧ s = mk_session db' db' false []
      ∧ insert_effect config agent_id b db db' r ∧ Q r
  | (s, Raise _) => committed s = db ∧ others s = []
  end.

Lemma reserve_over_inserts now agent_id Q engine build attempt ids db :
  (∀ k b, builds agent_id b (build k b)) → (∀ k b r, placed_row b engine db (build k b) = Ret r → Q r) →
  inserts_one agent_id Q ids db
    (reserve_over config hook now agent_id engine build attempt ids (mk_session db db true [])).
Proof.
  intros Hb Ht. revert attempt. induction ids as [|b ids IH]; intros attempt; [done|]. simpl.
  pose proof (reserve_candidate_run config hook Hhook now agent_id b engine (build attempt) db []
    (Hb attempt b)) as Hr.
  pose proof (reserve_candidate_branches config hook now agent_id b engine (build attempt) db []
    Hhook) as Hbr.
  unfold try_except. destruct (reserve_candidate _ _ _ _ _ _ _ _) as [s [r|e]].
  - destruct Hr as (db' & -> & He). exists b, db'. split_and!; [by left|done|done|].
    destruct Hbr as (_ & Hp & _). by eapply Ht.
  - destruct Hr as [w ->]. destruct (is_capacity_unavailable e); [|done].
    rewrite run_rollback. change (inserts_one agent_id Q (b :: ids) db
      (reserve_over config hook now agent_id engine build (S attempt) ids (mk_session db db true []))).
    specialize (IH (S attempt)). unfold inserts_one in *.
    destruct (reserve_over _ _ _ _ _ _ _ _) as [s [r|e']]; [|done].
    destruct IH as (b' & db' & Hin & ? & ? & ?). exists b', db'. split_and!; [by right|done..].
Qed.

Lemma reserve_capacity_inserts now agent_id Q engine build attempt ids db :
  (∀ k b, builds agent_id b (build k b)) → (∀ k b r, placed_row b engine db (build k b) = Ret r → Q r) →
  inserts_one agent_id Q ids db
    (reserve_capacity_and_insert config hook now agent_id engine build attempt ids
       (mk_session db db false [])).
Proof.
  intros Hb Ht.
  pose proof (reserve_over_inserts now agent_id Q engine build attempt ids db Hb Ht) as Hr.
  unfold reserve_capacity_and_insert, serialized_resource_write, require_idle_resource_session,
    begin_transaction. run_txn.
  destruct (reserve_over _ _ _ _ _ _ _ _ _) as [[c w [] o] [r|e]]; unfold inserts_one in *; simpl in *;
    try done.
Qed.

(** With no row under the token, each attempt inserts or leaves everything. *)
Lemma attempts_insert attempts agent_id token Q fp ids db reserve attempt :
  find_by_client_token agent_id token db = None →
  (∀ k, inserts_one agent_id Q ids db (reserve k (mk_session db db false []))) →
  inserts_one agent_id Q ids db
    (create_attempts hook attempts agent_id token fp reserve attempt (mk_session db db false [])).
Proof.
  intros Hnone Hr. revert attempt. induction attempts as [|n IH]; intros attempt; [done|].
  simpl. specialize (Hr attempt). unfold try_except.
  destruct (reserve attempt _) as [[c w b o] [r|e]]; [done|].
  destruct Hr as [Hc Ho]. simpl in Hc, Ho. subst c o.
  destruct (is_capacity_unavailable e); [|destruct (is_integrity_error e)];
    rewrite run_rollback; [| |done]; rewrite run_query_begin, Hnone; [done|].
  destruct n as [|n]; [done|]. rewrite run_rollback. apply IH.
Qed.

(** Answering with an existing row changes nothing. *)
Lemma answer_with_found agent_id token fp v r db b :
  find_by_client_token agent_id token db = Some r →
  match answer_with hook r agent_id token fp v (mk_session db db b []) with
  | (s, Ret r') => committed s = db ∧ others s = [] ∧ r' = r
      ∧ r_request_fingerprint r = fp ∧ r_fingerprint_version r = v
  | (s, Raise e) => committed s = db ∧ others s = []
      ∧ (hook = None → e = IdempotencyConflict "client_token was already used for a different request"
           ∧ (r_request_fingerprint r ≠ fp ∨ r_fingerprint_version r ≠ v))
  end.
Proof.
  intros Hf. unfold answer_with. rewrite run_outcome. unfold return_if_same_request at 1.
  destruct (_ || _) eqn:Hsame.
  { split_and!; [done|done|]. intros _. split; [done|].
    apply orb_true_iff in Hsame as [H|H]; apply negb_true_iff, bool_decide_eq_false in H; tauto. }
  guards. assert (∀ (h : option (DBInstanceResource → M (Session DB) unit)), h = hook →
    match (match h with None => mret r | Some _ => commit_idempotent_replay hook agent_id token fp v end)
            (mk_session db db b []) with
    | (s, Ret r') => committed s = db ∧ others s = [] ∧ r' = r
        ∧ r_request_fingerprint r = fp ∧ r_fingerprint_version r = v
    | (s, Raise e) => committed s = db ∧ others s = [] ∧ h ≠ None
    end) as Hans.
  { intros [h|] Hh; [|by split_and!].
    unfold commit_idempotent_replay, when_in_transaction_rollback.
    assert (∀ (m : M (Session DB) DBInstanceResource),
      ((busy ← in_transaction; if (busy : bool) then rollback else mret tt) ;; m) (mk_session db db b [])
      = m (mk_session db db false [])) as Hm by (intros m; by destruct b).
    rewrite Hm. unfold serialized_resource_write, require_idle_resource_session, begin_transaction.
    autorewrite with pas_txn. unfold mbind at 1, M_bind at 1.
    cbn [in_transaction in_tx]. autorewrite with pas_txn.
    unfold mbind at 1, M_bind at 1. cbn [autobegin in_tx others committed].
    unfold try_except at 1. rewrite run_query, Hf, run_outcome.
    unfold return_if_same_request. rewrite !bool_decide_eq_true_2 by done. simpl.
    rewrite run_hook_bind by done.
    destruct (run_hook hook r _).2; [|by run_txn]. by run_txn. }
  specialize (Hans hook eq_refl). destruct hook as [h|].
  - destruct (commit_idempotent_replay _ _ _ _ _ _) as [s [r'|e]]; [done|].
    destruct Hans as (? & ? & ?). by split_and!.
  - by split_and!.
Qed.
End attempts.

(** ** Requests *)

(** The checks that precede the database: the engine, the normalised name and
    the fingerprint of a request. *)
Definition checked_request (client_token : string) (name : option string) (db_type : string)
    : outcome (InstanceEngine.t * option string * string) :=
  validate_client_token client_token ;;
  engine ← parse_engine db_type;
  normalized ← normalize_resource_name name;
  fingerprint ← request_fingerprint db_type normalized ProvisioningMode.MULTITENANT FINGERPRINT_VERSION;
  Ret (engine, normalized, fingerprint).

Lemma checked_request_fields token name db_type engine normalized fp :
  checked_request token name db_type = Ret (engine, normalized, fp) →
  parse_engine db_type = Ret engine ∧ normalize_resource_name name = Ret normalized
  ∧ request_fingerprint db_type normalized ProvisioningMode.MULTITENANT FINGERPRINT_VERSION = Ret fp.
Proof.
  unfold checked_request, mbind, outcome_bind.
  destruct (validate_client_token token); [|done]. destruct (parse_engine db_type); [|done].
  destruct (normalize_resource_name name) as [n|]; [|done].
  destruct (request_fingerprint _ n _ _) eqn:E; [|done]. by intros [= <- <- <-].
Qed.

Section create_run.
  Context (config : TenantProvisioningConfig) (encrypt : string → string).
  Context (hook : option (DBInstanceResource → M (Session DB) unit)).

(** What the request does after its checks, on a session of its own. *)
Lemma create_run now entropy agent_id token name db_type db :
  create_db_instance_resource config encrypt hook now entropy agent_id token name db_type
    (open_session db) =
  match checked_request token name db_type with
  | Raise e => (open_session db, Raise e)
  | Ret (engine, normalized, fp) =>
      match find_by_client_token agent_id token db with
      | Some r =>
          match request_fingerprint db_type normalized ProvisioningMode.MULTITENANT
                  (r_fingerprint_version r) with
          | Raise e => (mk_session db db true [], Raise e)
          | Ret old => answer_with hook r agent_id token old (r_fingerprint_version r)
                         (mk_session db db true [])
          end
      | None =>
          match cand_backend_id <$> list_candidates config now agent_id engine token
                  ProvisioningMode.MULTITENANT db with
          | [] => (open_session db,
                   Raise (NoProvisioningBackend "Agent has no active, healthy provisioning backend"))
          | ids =>
              create_attempts hook 3 agent_id token fp
                (λ attempt, reserve_capacity_and_insert config hook now agent_id engine
                   (λ k, build_resource encrypt agent_id token fp normalized engine now (entropy k))
                   (attempt * length ids) ids) 0 (open_session db)
          end
      end
  end.
Proof.
  unfold create_db_instance_resource, checked_request, open_session.
  rewrite (run_bind_ret _ _ _ (mk_session db db false []) tt) by done.
  rewrite run_outcome.
  destruct (validate_client_token token) as [[]|e]; [|done].
  rewrite run_outcome. destruct (parse_engine db_type) as [engine|e]; [|done].
  rewrite run_outcome. destruct (normalize_resource_name name) as [normalized|e]; [|done].
  rewrite run_outcome. destruct (request_fingerprint _ _ _ _) as [fp|e] eqn:Hfp;
    [|unfold mbind, outcome_bind; by rewrite Hfp].
  replace (Ret tt ≫= _) with (Ret (engine, normalized, fp))
    by (unfold mbind, outcome_bind; by rewrite Hfp). rewrite run_query_begin.
  destruct (find_by_client_token agent_id token db) as [r|].
  { rewrite run_outcome. by destruct (request_fingerprint _ _ _ _). }
  rewrite run_query. by destruct (cand_backend_id <$> _).
Qed.
End create_run.

(** The inserted row is the one its token finds. *)
Lemma find_after_insert config agent_id token b db db' r :
  rows_keyed db → insert_effect config agent_id b db db' r → r_client_token r = token →
  find_by_client_token agent_id token db = None → find_by_client_token agent_id token db' = Some r.
Proof.
  intros Hk He Ht Hnone. unfold find_by_client_token in *.
  set (P := λ o, r_owner_agent_id o = agent_id ∧ r_client_token o = token) in *.
  rewrite (ie_resources _ _ _ _ _ _ He).
  assert (resources db !! r_id r = None) as Hfresh.
  { apply eq_None_not_Some. intros [o Ho].
    destruct (resource_conflict_false _ _ (ie_fresh _ _ _ _ _ _ He) _ _ Ho) as (Hn & _).
    apply Hn. by rewrite (Hk _ _ Ho). }
  assert (filter P (snd <$> map_to_list (<[r_id r := r]> (resources db))) ≡ₚ [r]) as Hp.
  { rewrite (map_to_list_insert _ _ _ Hfresh), fmap_cons, filter_cons_True;
      [|by split; [apply (ie_owner _ _ _ _ _ _ He)|]].
    by rewrite (proj1 (head_None _) Hnone). }
  apply Permutation_singleton_r in Hp. by rewrite Hp.
Qed.

(** A request answers with the row under its token, or inserts one. *)
Lemma create_cases config encrypt hook now entropy agent_id token name db_type db :
  audit_hook hook →
  match create_db_instance_resource config encrypt hook now entropy agent_id token name db_type
          (open_session db) with
  | (s, Raise _) => committed s = db
  | (s, Ret r) => ∃ engine normalized fp,
      checked_request token name db_type = Ret (engine, normalized, fp)
      ∧ ((committed s = db ∧ find_by_client_token agent_id token db = Some r
          ∧ request_fingerprint db_type normalized ProvisioningMode.MULTITENANT
              (r_fingerprint_version r) = Ret (r_request_fingerprint r))
         ∨ (find_by_client_token agent_id token db = None
            ∧ ∃ b, b ∈ (cand_backend_id <$> list_candidates config now agent_id engine token
                          ProvisioningMode.MULTITENANT db)
                ∧ insert_effect config agent_id b db (committed s) r
                ∧ request_of r = (token, fp, FINGERPRINT_VERSION)))
  end.
Proof.
  intros Hhook. rewrite create_run.
  destruct (checked_request token name db_type) as [[[engine normalized] fp]|e]; [|done].
  destruct (find_by_client_token agent_id token db) as [r|] eqn:Hf.
  - destruct (request_fingerprint _ _ _ _) as [old|e] eqn:Hold; [|done].
    pose proof (answer_with_found hook Hhook agent_id token old (r_fingerprint_version r) r db true Hf)
      as Ha.
    destruct (answer_with _ _ _ _ _ _ _) as [s [r'|e]]; [|by destruct Ha].
    destruct Ha as (Hs & _ & -> & Hfp & _). exists engine, normalized, fp. split; [done|]. left.
    by rewrite Hfp.
  - destruct (cand_backend_id <$> _) as [|b0 ids] eqn:Hids; [done|].
    set (build := λ k, build_resource encrypt agent_id token fp normalized engine now (entropy k)).
    set (Q := λ r, request_of r = (token, fp, FINGERPRINT_VERSION)).
    set (reserve := λ attempt : nat, reserve_capacity_and_insert config hook now agent_id engine build
      (attempt * length (b0 :: ids)) (b0 :: ids)).
    pose proof (attempts_insert config hook 3 agent_id token Q fp (b0 :: ids) db reserve 0 Hf
      (λ k, reserve_capacity_inserts config hook Hhook now agent_id Q engine _ _ _ db
        (λ k b, build_resource_builds encrypt _ _ _ _ _ _ (entropy k) b)
        (λ k b, placed_row_request b engine db (build k b)))) as Ha.
    unfold open_session. destruct (create_attempts _ _ _ _ _ _ _ _) as [s [r|e]]; [|by destruct Ha].
    destruct Ha as (b & db' & Hb & -> & He & Hq). exists engine, normalized, fp.
    split; [done|]. right. split; [done|]. exists b. by rewrite Hids.
Qed.

(** C3: A creation request is atomic: alone on its session, when it raises it
    has committed nothing, whichever of its transactions, retries or hooks
    failed; when it returns a row, that row is the one its client token finds,
    and either it was there before and nothing changed, or nothing was there
    under the token and exactly this row was inserted, on one of the candidate
    backends, with its credentials and one slot of the Agent and the backend. *)
Theorem create_atomic config encrypt hook now entropy agent_id token name db_type db :
  audit_hook hook → rows_keyed db →
  match with_session (create_db_instance_resource config encrypt hook now entropy agent_id token
          name db_type) db with
  | (db', Raise _) => db' = db
  | (db', Ret r) =>
      find_by_client_token agent_id token db' = Some r
      ∧ (db' = db
         ∨ find_by_client_token agent_id token db = None
           ∧ ∃ engine b, b ∈ (cand_backend_id <$> list_candidates config now agent_id engine token
                                ProvisioningMode.MULTITENANT db)
               ∧ insert_effect config agent_id b db db' r)
  end.
Proof.
  intros Hhook Hk. unfold with_session.
  pose proof (create_cases config encrypt hook now entropy agent_id token name db_type db Hhook) as Hc.
  destruct (create_db_instance_resource _ _ _ _ _ _ _ _ _ _) as [s [r|e]]; [|exact Hc].
  destruct Hc as (engine & normalized & fp & _ & [(-> & Hf & _)|(Hf & b & Hb & He & Hq)]); [by auto|].
  unfold request_of in Hq. split; [eapply find_after_insert; [done|done|congruence|done]|].
  right. split; [done|]. by exists engine, b.
Qed.

Lemma create_atomic_witness :
  rows_keyed demo_db
  ∧ match with_session (create_db_instance_resource default_config demo_encrypt None demo_start
            demo_entropy "agent-1" "token-1" (Some "orders") "polardb_mysql") demo_db with
    | (db', Raise _) => False
    | (db', Ret r) => find_by_client_token "agent-1" "token-1" db' = Some r ∧ db' ≠ demo_db
    end.
Proof.
  assert (rows_keyed demo_db) as Hk by (intros k r Hr; simpl in Hr; by rewrite lookup_empty in Hr).
  split; [exact Hk|].
  pose proof (create_atomic default_config demo_encrypt None demo_start demo_entropy "agent-1" "token-1"
    (Some "orders") "polardb_mysql" demo_db audit_no_hook Hk) as H.
  destruct (with_session _ _) as [db' [r|e]] eqn:E.
  - split; [exact (proj1 H)|]. intros ->. destruct H as [H _]. vm_compute in H. discriminate H.
  - apply (f_equal (λ x, match x.2 with Ret _ => true | Raise _ => false end)) in E.
    vm_compute in E. discriminate E.
Defined.

(** C12: Creation is idempotent in its token.  When a request returned a row,
    the same request, repeated at any later time on any database in which the
    token still finds that resource, commits nothing and returns it as it then
    is; and any request under the token, if it returns at all, commits nothing
    and returns that same resource, and only when its fingerprint is the stored
    one. *)
Theorem create_idempotent config encrypt hook now entropy agent_id token name db_type db db1 r :
  audit_hook hook →
  with_session (create_db_instance_resource config encrypt hook now entropy agent_id token name db_type)
    db = (db1, Ret r) →
  ∀ now2 entropy2 db2 r2,
    find_by_client_token agent_id token db2 = Some r2 → identity r2 = identity r →
    with_session (create_db_instance_resource config encrypt None now2 entropy2 agent_id token name
      db_type) db2 = (db2, Ret r2)
    ∧ ∀ hook2 name2 db_type2, audit_hook hook2 →
        match with_session (create_db_instance_resource config encrypt hook2 now2 entropy2 agent_id
                token name2 db_type2) db2 with
        | (db3, Ret r3) => db3 = db2 ∧ r3 = r2
            ∧ ∃ n2, normalize_resource_name name2 = Ret n2
                ∧ request_fingerprint db_type2 n2 ProvisioningMode.MULTITENANT
                    (r_fingerprint_version r) = Ret (r_request_fingerprint r)
        | (db3, Raise _) => db3 = db2
        end.
Proof.
  intros Hhook Hrun now2 entropy2 db2 r2 Hf2 Hid.
  assert (r_fingerprint_version r2 = r_fingerprint_version r
    ∧ r_request_fingerprint r2 = r_request_fingerprint r) as [Hv Hfp]
    by (unfold identity in Hid; split; congruence).
  split.
  - pose proof (create_cases config encrypt hook now entropy agent_id token name db_type db Hhook) as Hc.
    unfold with_session in Hrun.
    destruct (create_db_instance_resource _ _ _ _ _ _ _ _ _ _) as [s [r'|e]]; [|done].
    injection Hrun as _ ->. destruct Hc as (engine & normalized & fp & Hchk & Hc).
    unfold with_session. rewrite create_run, Hchk, Hf2, Hv.
    assert (request_fingerprint db_type normalized ProvisioningMode.MULTITENANT
      (r_fingerprint_version r) = Ret (r_request_fingerprint r)) as ->.
    { destruct Hc as [(_ & _ & H)|(_ & b & _ & _ & H)]; [exact H|].
      unfold request_of in H. injection H as _ -> ->. by apply checked_request_fields in Hchk as (_ & _ & ?). }
    unfold answer_with, return_if_same_request. rewrite run_outcome, Hv, Hfp.
    by rewrite !bool_decide_eq_true_2.
  - intros hook2 name2 db_type2 Hh2. unfold with_session.
    pose proof (create_cases config encrypt hook2 now2 entropy2 agent_id token name2 db_type2 db2 Hh2)
      as Hc.
    destruct (create_db_instance_resource _ _ _ _ _ _ _ _ _ _) as [s [r'|e]]; [|exact Hc].
    destruct Hc as (engine & normalized & fp & Hchk & [(Hs & Hf & H)|(Hf & _)]); [|congruence].
    assert (r' = r2) as -> by congruence. split_and!; [done|done|].
    exists normalized. apply checked_request_fields in Hchk as (_ & Hn & _). split; [exact Hn|congruence].
Qed.

(** A request of the small example, and what its token then finds. *)
Definition demo_request (now : time) : M (Session DB) DBInstanceResource :=
  create_db_instance_resource default_config demo_encrypt None now demo_entropy "agent-1" "token-1"
    (Some "orders") "polardb_mysql".

Lemma demo_request_found :
  match with_session (demo_request demo_start) demo_db with
  | (db1, Ret r) => find_by_client_token "agent-1" "token-1" db1 = Some r
  | (_, Raise _) => False
  end.
Proof. vm_compute. reflexivity. Qed.

Lemma create_idempotent_witness :
  ∃ db1 r, with_session (demo_request demo_start) demo_db = (db1, Ret r)
    ∧ with_session (demo_request demo_later) db1 = (db1, Ret r).
Proof.
  pose proof demo_request_found as Hf.
  destruct (with_session _ demo_db) as [db1 [r|e]] eqn:E; [|destruct Hf].
  exists db1, r. split; [reflexivity|].
  exact (proj1 (create_idempotent default_config demo_encrypt None demo_start demo_entropy "agent-1"
    "token-1" (Some "orders") "polardb_mysql" demo_db db1 r audit_no_hook E demo_later demo_entropy
    db1 r Hf eq_refl)).
Defined.

(** ** Which backend *)

(** Without a hook and without other sessions, the loop over the candidates
    stops at the first one with room. *)
Lemma reserve_over_first_fit config now agent_id engine build attempt ids db :
  (∀ k b, builds agent_id b (build k b)) →
  match list_find (λ b, has_room config now agent_id engine db b = true) ids with
  | None => ∃ s, reserve_over config None now agent_id engine build attempt ids (mk_session db db true [])
             = (s, Raise (CapacityUnavailable EmptyString)) ∧ committed s = db ∧ others s = []
  | Some (i, b) => ∀ r,
      placed_row b engine db (build (attempt + i)%nat b) = Ret r →
      insert_conflict r (nr_credentials (build (attempt + i)%nat b)) db = false →
      ∃ db', reserve_over config None now agent_id engine build attempt ids (mk_session db db true [])
        = (mk_session db' db' false [], Ret r) ∧ insert_effect config agent_id b db db' r
  end.
Proof.
  intros Hb. revert attempt. induction ids as [|b ids IH]; intros attempt.
  { simpl. by eexists. }
  simpl. pose proof (reserve_candidate_run config None audit_no_hook now agent_id b engine
    (build attempt) db [] (Hb attempt b)) as Hr.
  pose proof (reserve_candidate_branches config None now agent_id b engine (build attempt) db []
    audit_no_hook) as Hbr.
  unfold try_except. case_decide as Hroom.
  - rewrite Nat.add_0_r. intros r Hp Hc. destruct (reserve_candidate _ _ _ _ _ _ _ _) as [s [r'|e]].
    + destruct Hr as (db' & -> & He). destruct Hbr as (_ & Hp' & _).
      rewrite Hp in Hp'. injection Hp' as <-. by exists db'.
    + exfalso. destruct Hbr as [[? _]|(_ & [?|(r' & Hp' & [[? _]|?])])]; congruence.
  - apply not_true_is_false in Hroom. specialize (IH (S attempt)).
    destruct (reserve_candidate _ _ _ _ _ _ _ _) as [s [r'|e]]; [destruct Hbr; congruence|].
    destruct Hr as [w ->]. destruct Hbr as [[_ ->]|(? & _)]; [|congruence].
    change (is_capacity_unavailable (CapacityUnavailable EmptyString)) with true. cbn match.
    rewrite run_rollback.
    change ((begin_transaction ;; reserve_over config None now agent_id engine build (S attempt) ids)
      (mk_session db db false [])) with
      (reserve_over config None now agent_id engine build (S attempt) ids (mk_session db db true [])).
    destruct (list_find _ ids) as [[i b']|]; simpl; [|exact IH].
    by rewrite Nat.add_succ_comm in IH.
Qed.

(** A guarded write on a session of its own. *)
Lemma serialized_fresh {A} (m : M (Session DB) A) db :
  match m (mk_session db db true []) with
  | (s, Ret a) => serialized_resource_write m (open_session db) = (s, Ret a)
  | (s, Raise e) => ∃ w, serialized_resource_write m (open_session db)
                     = (mk_session (committed s) w false (others s), Raise e)
  end.
Proof.
  unfold serialized_resource_write, require_idle_resource_session, begin_transaction, open_session.
  run_txn. destruct (m _) as [[c w [] o] [a|e]]; by try eexists.
Qed.

Lemma attempts_return hook n agent_id token fp reserve k s s' r :
  reserve k s = (s', Ret r) → create_attempts hook (S n) agent_id token fp reserve k s = (s', Ret r).
Proof. intros H. simpl. unfold try_except. by rewrite H. Qed.

Lemma attempts_full hook n agent_id token fp reserve k s c w b :
  reserve k s = (mk_session c w b [], Raise (CapacityUnavailable EmptyString)) →
  find_by_client_token agent_id token c = None →
  create_attempts hook (S n) agent_id token fp reserve k s
    = (mk_session c c true [], Raise CapacityExhausted).
Proof.
  intros H Hf. simpl. unfold try_except. rewrite H.
  change (is_capacity_unavailable (CapacityUnavailable EmptyString)) with true. cbn match.
  by rewrite run_rollback, run_query_begin, Hf.
Qed.

(** First fit.  A request for a new token, alone on its session: with no
    candidate it raises [NoProvisioningBackend]; when no candidate has room
    (both actors active, binding enabled, health fresh, both counters below
    their limits) it raises [CapacityExhausted]; otherwise the resource goes to
    the first candidate, in the order of the query, that has room, provided the
    generated names are free and the backend's permission template compiles.
    The request never fails while a candidate has room because another is full. *)
Theorem create_first_fit config encrypt now entropy agent_id token name db_type db engine normalized fp :
  checked_request token name db_type = Ret (engine, normalized, fp) →
  find_by_client_token agent_id token db = None →
  let ids := cand_backend_id <$> list_candidates config now agent_id engine token
               ProvisioningMode.MULTITENANT db in
  let request := with_session (create_db_instance_resource config encrypt None now entropy agent_id
                   token name db_type) db in
  match list_find (λ b, has_room config now agent_id engine db b = true) ids with
  | None => request = (db, Raise (match ids with
      | [] => NoProvisioningBackend "Agent has no active, healthy provisioning backend"
      | _ => CapacityExhausted end))
  | Some (i, b) =>
      let new := build_resource encrypt agent_id token fp normalized engine now (entropy i) b in
      ∀ r, placed_row b engine db new = Ret r → insert_conflict r (nr_credentials new) db = false →
      ∃ db', request = (db', Ret r) ∧ insert_effect config agent_id b db db' r
  end.
Proof.
  intros Hchk Hf ids request. unfold request, with_session. rewrite create_run, Hchk, Hf. fold ids.
  clearbody ids. clear request. destruct ids as [|b0 l]; [done|].
  set (build := λ k, build_resource encrypt agent_id token fp normalized engine now (entropy k)).
  pose proof (reserve_over_first_fit config now agent_id engine build 0 (b0 :: l) db
    (λ k b, build_resource_builds encrypt _ _ _ _ _ _ (entropy k) b)) as Hff.
  pose proof (serialized_fresh (reserve_over config None now agent_id engine build 0 (b0 :: l)) db) as Hs.
  destruct (list_find _ (b0 :: l)) as [[i b]|].
  - cbv zeta. intros r Hp Hc. destruct (Hff r Hp Hc) as (db' & Hrun & He). rewrite Hrun in Hs.
    exists db'. split; [|done]. by erewrite attempts_return by exact Hs.
  - destruct Hff as ([c w b o] & Hrun & Hcm & Ho). rewrite Hrun in Hs. simpl in Hcm, Ho, Hs. subst c o.
    destruct Hs as [w' Hs]. by erewrite attempts_full by (try exact Hs; done).
Qed.

(** The candidate backend of the small example has room for one more. *)
Lemma create_first_fit_witness :
  ∃ db' r, with_session (demo_request demo_start) demo_db = (db', Ret r)
    ∧ insert_effect default_config "agent-1" "backend-1" demo_db db' r.
Proof.
  destruct (checked_request "token-1" (Some "orders") "polardb_mysql") as [[[engine n] fp]|e] eqn:Hchk;
    [|vm_compute in Hchk; discriminate Hchk].
  assert (engine = InstanceEngine.POLARDB_MYSQL) as -> by (by destruct engine).
  assert (find_by_client_token "agent-1" "token-1" demo_db = None) as Hf by (vm_compute; reflexivity).
  pose proof (create_first_fit default_config demo_encrypt demo_start demo_entropy "agent-1" "token-1"
    (Some "orders") "polardb_mysql" demo_db _ n fp Hchk Hf) as H.
  cbv zeta in H. change (create_db_instance_resource _ _ _ _ _ _ _ _ _) with (demo_request demo_start) in H.
  replace (list_find _ _) with (Some (0%nat, "backend-1")) in H by (vm_compute; reflexivity).
  destruct (H _ eq_refl) as (db' & Hrun & He); [vm_compute; reflexivity|]. eexists _, _. by split.
Defined.

(** C27: Creation under interference: a creation request may lose races, retry
    and replay while other sessions commit between its transactions, but all
    that is ever committed during it, its own transactions included, is a
    sequence of system steps, so that every theorem about reachable databases
    holds before, during and after it. *)
Theorem create_refinement config encrypt hook now entropy agent_id token name db_type db fs :
  audit_hook hook → sys_reachable config db →
  Forall (λ f, ∀ db, rtc (sys_step config) db (f db)) fs →
  sys_reachable config
    (committed (create_db_instance_resource config encrypt hook now entropy agent_id token name db_type
      (mk_session db db false fs)).1).
Proof.
  intros Hh Hr Hfs. unfold sys_reachable in *. etrans; [exact Hr|].
  by apply (create_refines config hook Hh encrypt now entropy agent_id token name db_type
    (mk_session db db false fs)).
Qed.

(** Another session creates the same resource in between: the request answers
    with the other's row. *)
Definition demo_race : Session DB * outcome DBInstanceResource :=
  demo_request demo_start
    (mk_session demo_db demo_db false [(λ db, db); txn_db (demo_request demo_start)]).

Lemma create_refinement_witness :
  sys_reachable default_config (committed demo_race.1)
  ∧ size (resources (committed demo_race.1)) = 1%nat
  ∧ (match demo_race.2 with Ret r => r_id r | Raise _ => EmptyString end) = "res-0".
Proof.
  split; [|split; vm_compute; reflexivity].
  apply (create_refinement default_config demo_encrypt None demo_start demo_entropy "agent-1" "token-1"
    (Some "orders") "polardb_mysql" demo_db
    [(λ db, db); txn_db (demo_request demo_start)] audit_no_hook demo_db_reachable).
  repeat apply Forall_cons_2; [reflexivity| |apply Forall_nil_2]. intros db.
  apply txn_refines. exact (create_refines default_config None audit_no_hook demo_encrypt demo_start
    demo_entropy "agent-1" "token-1" (Some "orders") "polardb_mysql").
Defined.
