(* ===== verification/PolicyTheorems.v ===== *)
(** * Permissions, credentials and candidates

    Privilege lists and permission snapshots are canonical and read back; the two
    predicates on direct-access credentials agree, and a description reveals a
    password only of a ready resource to its own active Agent; which backend is
    tried first. *)

From S2P Require Import Prelude Models PyString Config AdapterInterface Dispatcher Permission Ddl.
From S2P Require Import Capacity Hashing Contract Selector Service Examples AdapterTheorems.

(** ** Names of privileges *)

Lemma privilege_of_value p : DatabasePrivilege.of_value (DatabasePrivilege.value p) = Some p.
Proof. destruct p; vm_compute; reflexivity. Qed.

Lemma privilege_of_value_inv s p : DatabasePrivilege.of_value s = Some p → DatabasePrivilege.value p = s.
Proof. intros H. by apply first_by_elem, list_elem_of_filter in H as [H _]. Qed.

Lemma members_complete p : p ∈ DatabasePrivilege.members.
Proof. destruct p; vm_compute; repeat first [by left | right]. Qed.

Lemma members_nodup : NoDup DatabasePrivilege.members.
Proof. by apply (bool_decide_unpack _). Qed.

Lemma select_privileges_spec raw selected :
  match select_privileges raw selected with
  | Ret out => (∀ v, v ∈ raw → ∃ p, v = JStr (DatabasePrivilege.value p))
      ∧ ∀ p, p ∈ out ↔ p ∈ selected ∨ JStr (DatabasePrivilege.value p) ∈ raw
  | Raise _ => ∃ v, v ∈ raw ∧ ∀ p, v ≠ JStr (DatabasePrivilege.value p)
  end.
Proof.
  revert selected. induction raw as [|v raw IH]; intros selected; simpl.
  { split; [by intros v ?%not_elem_of_nil|]. intros p. split; [by left|].
    intros [?|?%not_elem_of_nil]; done. }
  destruct v as [| | |s| |]; try (eexists; split; [by left|done]).
  destruct (DatabasePrivilege.of_value s) as [p|] eqn:Hp.
  - apply privilege_of_value_inv in Hp as <-. specialize (IH (p :: selected)).
    destruct (select_privileges raw _) as [out|e].
    + destruct IH as [Hall Hout]. split.
      * intros v [->|Hv]%elem_of_cons; [by exists p|by apply Hall].
      * intros q. rewrite Hout, !elem_of_cons. split.
        -- intros [[->|?]|?]; auto.
        -- intros [?|[E|?]]; auto. injection E as E. left. left.
           apply (f_equal DatabasePrivilege.of_value) in E. rewrite !privilege_of_value in E. congruence.
    + destruct IH as (v & Hv & Hno). exists v. split; [by right|done].
  - exists (JStr s). split; [by left|]. intros p [= ->]. by rewrite privilege_of_value in Hp.
Qed.

(** The privileges in the order of the enum, each once. *)
Definition canonical (ps : list DatabasePrivilege.t) : Prop :=
  ps = filter (λ p, p ∈ ps) DatabasePrivilege.members.

Lemma filter_members_canonical (P : DatabasePrivilege.t → Prop) `{∀ p, Decision (P p)} :
  canonical (filter P DatabasePrivilege.members).
Proof.
  unfold canonical. apply list_filter_iff. intros p. rewrite list_elem_of_filter.
  pose proof (members_complete p). tauto.
Qed.

Lemma parse_privileges_array v raw :
  match parse_privileges (json_dumps (JArr (v :: raw))) with
  | Ret ps => (∀ x, x ∈ v :: raw → ∃ p, x = JStr (DatabasePrivilege.value p))
      ∧ (∀ p, p ∈ ps ↔ JStr (DatabasePrivilege.value p) ∈ v :: raw) ∧ canonical ps
  | Raise _ => ∃ x, x ∈ v :: raw ∧ ∀ p, x ≠ JStr (DatabasePrivilege.value p)
  end.
Proof.
  unfold parse_privileges. simpl json_loads. cbn match. unfold mbind, outcome_bind, mret, outcome_ret.
  pose proof (select_privileges_spec (v :: raw) []) as H.
  destruct (select_privileges _ _) as [out|e]; [|exact H]. destruct H as [Hall Hout].
  split_and!; [exact Hall| |apply filter_members_canonical].
  intros p. rewrite list_elem_of_filter, Hout.
  pose proof (members_complete p). pose proof (not_elem_of_nil (A:=DatabasePrivilege.t) p). tauto.
Qed.

Lemma canonical_ext ps qs : canonical ps → canonical qs → (∀ p, p ∈ ps ↔ p ∈ qs) → ps = qs.
Proof. unfold canonical. intros -> -> H. apply list_filter_iff. intros p.
  specialize (H p). rewrite !list_elem_of_filter in H. pose proof (members_complete p). tauto. Qed.

(** ** Parsing *)

(** Privilege lists have one reading.  A list of names is accepted exactly
    when it is not empty and every name is a privilege; the result holds each
    named privilege once, in the order of the enum, so that the order and the
    repetitions of the input do not matter; and a snapshot compiled for a
    tenant never contains [CREATE USER]. *)
Theorem privileges_canonical (names : list string) revision template grant_option scope :
  match parse_privileges (json_dumps (JArr (JStr <$> names))) with
  | Ret ps => names ≠ [] ∧ NoDup ps ∧ canonical ps
      ∧ (∀ s, s ∈ names ↔ ∃ p, p ∈ ps ∧ s = DatabasePrivilege.value p)
      ∧ (∀ names', (∀ s, s ∈ names' ↔ s ∈ names) →
           parse_privileges (json_dumps (JArr (JStr <$> names'))) = Ret ps)
      ∧ ((scope = PermissionScope.MULTITENANT ∧ DatabasePrivilege.CREATE_USER ∈ ps) ∨
         compile_permission_snapshot revision template (json_dumps (JArr (JStr <$> names)))
           grant_option scope
         = Ret (mk_snapshot (Some template) (Some revision) ps grant_option scope false))
  | Raise _ => names = [] ∨ ∃ s, s ∈ names ∧ ∀ p, s ≠ DatabasePrivilege.value p
  end
  ∧ (∀ text s, compile_permission_snapshot revision template text grant_option
                  PermissionScope.MULTITENANT = Ret s →
     DatabasePrivilege.CREATE_USER ∉ sn_privileges s).
Proof.
  split.
  - destruct names as [|n names]; [by left|]. rewrite fmap_cons.
    pose proof (parse_privileges_array (JStr n) (JStr <$> names)) as H.
    rewrite <-(fmap_cons JStr n names) in *. set (l := n :: names) in *.
    destruct (parse_privileges _) as [ps|e] eqn:Hparse.
    + destruct H as (Hall & Hin & Hc).
      assert (∀ s, JStr s ∈ JStr <$> l ↔ s ∈ l) as Hfm.
      { intros s. rewrite list_elem_of_fmap. split; [by intros (? & [= ->] & ?)|eauto]. }
      assert (∀ s, s ∈ l ↔ ∃ p, p ∈ ps ∧ s = DatabasePrivilege.value p) as Hnames.
      { intros s. rewrite <-Hfm. split.
        - intros Hs. destruct (Hall _ Hs) as [p [= ->]]. exists p. by rewrite Hin.
        - intros (p & Hp & ->). by apply Hin. }
      split_and!; [done| |done|done| |].
      * rewrite Hc. apply NoDup_filter, members_nodup.
      * intros names' Heq. destruct names' as [|n' names'].
        { exfalso. apply (not_elem_of_nil n), Heq. by left. }
        rewrite fmap_cons. pose proof (parse_privileges_array (JStr n') (JStr <$> names')) as H'.
        rewrite <-(fmap_cons JStr n' names') in *. set (l' := n' :: names') in *.
        assert (∀ s, JStr s ∈ JStr <$> l' ↔ JStr s ∈ JStr <$> l) as Hsame.
        { intros s. rewrite Hfm, list_elem_of_fmap, <-Heq. split; [by intros (? & [= ->] & ?)|eauto]. }
        destruct (parse_privileges (json_dumps (JArr (JStr <$> l')))) as [ps'|e].
        -- destruct H' as (_ & Hin' & Hc'). f_equal. apply canonical_ext; [done|done|].
           intros p. by rewrite Hin', Hsame, Hin.
        -- exfalso. destruct H' as (x & Hx & Hno). apply list_elem_of_fmap in Hx as (s & -> & Hs).
           apply Heq, Hnames in Hs as (p & _ & ->). by apply (Hno p).
      * unfold compile_permission_snapshot, mbind, outcome_bind. rewrite Hparse.
        destruct ((scope == _) && _) eqn:Hcu; [|by right]. left.
        by apply andb_true_iff in Hcu as [?%bool_decide_eq_true ?%bool_decide_eq_true].
    + right. destruct H as (x & Hx & Hno). apply list_elem_of_fmap in Hx as (s & -> & Hs).
      exists s. split; [done|]. intros p ->. by apply (Hno p).
  - intros text s. unfold compile_permission_snapshot, mbind, outcome_bind.
    destruct (parse_privileges text) as [ps|]; [|done]. destruct (_ && _) eqn:Hcu; [done|].
    intros [= <-]. simpl in *. by apply bool_decide_eq_false in Hcu.
Qed.

(** ** Snapshots *)

(** The snapshots the program makes. *)
Definition snapshot_wf (s : CompiledPermissionSnapshot) : Prop :=
  if sn_legacy_all_privileges s then s = legacy_permission_snapshot (sn_scope s)
  else sn_privileges s ≠ [] ∧ canonical (sn_privileges s)
       ∧ (sn_scope s = PermissionScope.MULTITENANT → DatabasePrivilege.CREATE_USER ∉ sn_privileges s)
       ∧ sn_template_id s ≠ Some EmptyString ∧ sn_revision_id s ≠ Some EmptyString.

Lemma scope_of_value s : PermissionScope.of_value (PermissionScope.value s) = Some s.
Proof. by destruct s. Qed.

Lemma text_round_trip (s : option string) :
  s ≠ Some EmptyString → none_if_empty (Some (text_or_empty (JStr <$> s))) = s.
Proof. by destruct s as [[|a s]|]. Qed.

(** The members of the stored payload. *)
Lemma payload_members s :
  ∃ payload, permission_snapshot_to_json s = json_dumps (JObj payload)
    ∧ json_get "scope" payload = Some (JStr (PermissionScope.value (sn_scope s)))
    ∧ json_get "grant_option" payload = Some (JBool (sn_grant_option s))
    ∧ json_get "legacy" payload = Some (JBool (sn_legacy_all_privileges s))
    ∧ json_get "privileges" payload = Some (JArr (if sn_legacy_all_privileges s then [JStr "ALL PRIVILEGES"]
              else (λ p, JStr (DatabasePrivilege.value p)) <$> sn_privileges s))
    ∧ json_get "template_id" payload = JStr <$> sn_template_id s
    ∧ json_get "revision_id" payload = JStr <$> sn_revision_id s.
Proof.
  eexists. split; [reflexivity|].
  destruct (sn_template_id s), (sn_revision_id s); split_and!; reflexivity.
Qed.

(** C39: A snapshot stored with a resource is read back as it was: for every
    snapshot the program makes (compiled under either scope from a template
    with an identifier, the default one, the legacy one),
    [permission_snapshot_from_json] inverts [permission_snapshot_to_json]. *)
Theorem snapshot_round_trip s :
  snapshot_wf s → permission_snapshot_from_json (permission_snapshot_to_json s) = Ret s.
Proof.
  intros Hwf. destruct (payload_members s) as (payload & -> & Hs & Hg & Hl & Hp & Ht & Hr).
  unfold permission_snapshot_from_json. simpl json_loads. cbn match.
  rewrite Hs, scope_of_value, Hg, Hl, Hp, Ht, Hr. unfold mbind, outcome_bind. simpl default.
  unfold snapshot_wf in Hwf. destruct (sn_legacy_all_privileges s) eqn:Hleg; [by rewrite Hwf|].
  destruct Hwf as (Hne & Hc & Hcu & Htn & Hrn).
  assert (parse_privileges (json_dumps (JArr ((λ p, JStr (DatabasePrivilege.value p)) <$> sn_privileges s)))
    = Ret (sn_privileges s)) as Hparse.
  { destruct (sn_privileges s) as [|p0 ps] eqn:Hps; [done|]. rewrite fmap_cons.
    pose proof (parse_privileges_array (JStr (DatabasePrivilege.value p0))
      ((λ p, JStr (DatabasePrivilege.value p)) <$> ps)) as H.
    rewrite <-(fmap_cons (λ p, JStr (DatabasePrivilege.value p)) p0 ps) in *.
    assert (∀ p, JStr (DatabasePrivilege.value p) ∈
      (λ p, JStr (DatabasePrivilege.value p)) <$> p0 :: ps ↔ p ∈ p0 :: ps) as Hfm.
    { intros p. rewrite list_elem_of_fmap. split; [|eauto]. intros (q & [= E] & Hq).
      apply (f_equal DatabasePrivilege.of_value) in E. rewrite !privilege_of_value in E. congruence. }
    destruct (parse_privileges _) as [qs|e].
    - destruct H as (_ & Hin & Hcq). f_equal. apply canonical_ext; [done|done|].
      intros p. by rewrite Hin, Hfm.
    - exfalso. destruct H as (x & Hx & Hno). apply list_elem_of_fmap in Hx as (p & -> & _). by apply (Hno p). }
  unfold compile_permission_snapshot, mbind, outcome_bind. rewrite Hparse.
  destruct ((sn_scope s == _) && _) eqn:Hcheck.
  { apply andb_true_iff in Hcheck as [?%bool_decide_eq_true ?%bool_decide_eq_true]. tauto. }
  simpl. rewrite !text_round_trip by done. destruct s. simpl in *. congruence.
Qed.

Lemma default_snapshot_wf scope : snapshot_wf (default_permission_snapshot scope).
Proof.
  split_and!; [by vm_compute| |intros _; by apply (bool_decide_unpack _)|done|done].
  unfold canonical. vm_compute. reflexivity.
Qed.

Lemma snapshot_round_trip_witness :
  permission_snapshot_from_json (permission_snapshot_to_json
    (default_permission_snapshot PermissionScope.MULTITENANT))
  = Ret (default_permission_snapshot PermissionScope.MULTITENANT).
Proof. apply (snapshot_round_trip _ (default_snapshot_wf _)). Defined.

Lemma not_null_and_not_empty_truthy s : not_null_and_not_empty s = truthy s.
Proof. by destruct s as [[|a s]|]. Qed.

(** The filter in the database and the check in Python agree: a stored
    credential passes [direct_access_credential_sql_predicate] for an instance,
    under SQL's three-valued logic, exactly when
    [is_valid_direct_access_credential] accepts the loaded row. *)
Theorem credential_predicates_agree instance_id require_database_name c :
  direct_access_credential_sql_predicate instance_id require_database_name c
  = is_valid_direct_access_credential (Some c) instance_id require_database_name.
Proof.
  unfold direct_access_credential_sql_predicate, is_valid_direct_access_credential.
  rewrite !not_null_and_not_empty_truthy. f_equal; [|by destruct require_database_name].
  do 2 f_equal. by destruct (c_capability c).
Qed.

Lemma usable_credential_facts l c :
  usable_resource_access_credential l = Some c →
  filter (λ c, c_purpose c = CredentialPurpose.RESOURCE_ACCESS) (lr_credentials l) = [c]
  ∧ c_resource_id c = Some (r_id (lr_resource l)) ∧ c_instance_id c = None
  ∧ c_status c = CredentialStatus.ACTIVE ∧ c_capability c = CredentialCapability.READWRITE
  ∧ c_version c = 1 ∧ is_Some (c_username_ciphertext c) ∧ is_Some (c_password_ciphertext c)
  ∧ is_Some (c_database_name c) ∧ c_database_name c = r_database_name (lr_resource l).
Proof.
  unfold usable_resource_access_credential.
  destruct (filter _ _) as [|c0 [|]]; try done.
  destruct (_ || _) eqn:Hb; [done|]. intros [= <-].
  repeat match goal with
  | H : _ || _ = false |- _ => apply orb_false_iff in H as [? ?]
  | H : negb _ = false |- _ => apply negb_false_iff in H
  | H : bool_decide _ = true |- _ => apply bool_decide_eq_true_1 in H
  end.
  assert (∀ s, truthy s = true → is_Some s) as Hs by (intros [s|]; simpl; [by eexists|done]).
  split_and!; try done; auto. rewrite H0. auto.
Qed.

Section describe.
  Context {X : Type} `{!TenantServices X}.

Lemma payload_password l i connection :
  json_get "password" (describe_payload (X:=X) l i connection) =
  match connection, i with Some c, Some _ => Some (JStr (rc_password c)) | _, _ => None end.
Proof.
  unfold describe_payload. destruct connection as [c|], i as [inst|]; simpl; try done.
  all: repeat case_match; done.
Qed.

Lemma payload_capabilities l i connection :
  json_get "capabilities" (describe_payload (X:=X) l i connection)
  = Some (JArr (JStr <$> resource_capabilities (X:=X) l (Some (bool_decide (is_Some connection))))).
Proof. done. Qed.

Lemma connection_details_usable l d :
  resource_connection_details (X:=X) l = Some d →
  ∃ c u p, usable_resource_access_credential l = Some c
    ∧ c_username_ciphertext c = Some u ∧ c_password_ciphertext c = Some p
    ∧ decrypt u = Ret (rc_username d) ∧ decrypt p = Ret (rc_password d)
    ∧ r_database_name (lr_resource l) = Some (rc_database d).
Proof.
  unfold resource_connection_details.
  destruct (usable_resource_access_credential l) as [c|] eqn:Hu; [|done].
  apply usable_credential_facts in Hu as (_ & _ & _ & _ & _ & _ & _ & _ & _ & Hdb).
  destruct (c_database_name c) as [d0|] eqn:Hd; [|done].
  destruct (c_username_ciphertext c) as [u|] eqn:Hun; [|done].
  destruct (c_password_ciphertext c) as [p|] eqn:Hpw; [|done].
  destruct (decrypt u) eqn:Eu; [|done]. destruct (decrypt p) eqn:Ep; [|done]. intros [= <-].
  exists c, u, p. by split_and!.
Qed.

Lemma describe_row_some agent_id rid db r i :
  describe_row agent_id rid db = Some (r, i) →
  resources db !! rid = Some r ∧ r_owner_agent_id r = agent_id
  ∧ ∃ a, agents db !! agent_id = Some a ∧ a_status a = AgentStatus.ACTIVE.
Proof.
  unfold describe_row. destruct (resources db !! rid) as [r0|]; simpl; [|done].
  destruct (backends db !! r_backend_id r0); simpl; [|done].
  destruct (agents db !! r_owner_agent_id r0) as [a|] eqn:Ha; simpl; [|done].
  destruct (_ && _) eqn:Hok; [|done]. intros [= <- _].
  apply andb_true_iff in Hok as [Ho%bool_decide_eq_true Hs%bool_decide_eq_true].
  split_and!; [done|done|]. exists a. by rewrite <-Ho.
Qed.

(** A description never writes, and reveals a secret only when it may.  If
    it answers, the caller is the owning Agent and that Agent is active; the
    answer contains a password exactly when the resource is [READY] and has
    connection details, and then the password is the decryption of the only
    access credential of that resource, which is active, read-write, in its
    first version and names the resource's database; and the capability
    [credentials_read] is offered exactly with the password. *)
Theorem description_reveals principal rid db s payload :
  describe_db_instance_resource (X:=X) principal rid (open_session db) = (s, Ret payload) →
  committed s = db
  ∧ pk_kind principal = AGENT
  ∧ ∃ r, resources db !! rid = Some r ∧ r_owner_agent_id r = pk_id principal
    ∧ (∃ a, agents db !! pk_id principal = Some a ∧ a_status a = AgentStatus.ACTIVE)
    ∧ (∀ secret, json_get "password" payload = Some secret →
        r_status r = DBInstanceStatus.READY
        ∧ ∃ c p password, filter (λ c, c_purpose c = CredentialPurpose.RESOURCE_ACCESS)
                   (resource_credentials (r_id r) db) = [c]
            ∧ c_resource_id c = Some (r_id r) ∧ c_status c = CredentialStatus.ACTIVE
            ∧ c_capability c = CredentialCapability.READWRITE
            ∧ c_database_name c = r_database_name r
            ∧ c_password_ciphertext c = Some p ∧ decrypt p = Ret password ∧ secret = JStr password)
    ∧ (∃ caps, json_get "capabilities" payload = Some (JArr caps)
        ∧ (JStr "credentials_read" ∈ caps ↔ is_Some (json_get "password" payload))).
Proof.
  unfold describe_db_instance_resource. destruct (_ != AGENT) eqn:Hk; [done|].
  apply negb_false_iff, bool_decide_eq_true in Hk. unfold open_session. rewrite run_query_begin.
  destruct (describe_row _ _ _) as [[r i]|] eqn:Hrow; [|done].
  destruct (_ && _) eqn:Hready; [done|]. rewrite run_query. intros [= <- <-].
  apply describe_row_some in Hrow as (Hr & Ho & Ha).
  set (l := mk_loaded r (resource_credentials (r_id r) db)).
  set (connection := if r_status r == _ then _ else _).
  assert (∀ d, connection = Some d → is_Some i) as Hinst.
  { intros d Hd. unfold connection in Hd. destruct (r_status r == _); [|done]. simpl in Hready.
    apply bool_decide_eq_false in Hready. destruct i; [by eexists|done]. }
  split_and!; [done|done|]. exists r. split_and!; [done|done|done| |].
  - intros secret. rewrite payload_password. destruct connection as [d|] eqn:Hc; [|done].
    destruct (Hinst d eq_refl) as [inst ->]. intros [= <-]. unfold connection in Hc.
    destruct (r_status r == _) eqn:Hst; [|done]. apply bool_decide_eq_true in Hst. split; [done|].
    apply connection_details_usable in Hc as (c & u & p & Hu & _ & Hp & _ & Hdec & _).
    pose proof (usable_credential_facts _ _ Hu) as (? & ? & _ & ? & ? & _ & _ & _ & _ & ?).
    exists c, p, (rc_password d). by split_and!.
  - eexists. rewrite payload_capabilities, payload_password. split; [done|].
    rewrite list_elem_of_fmap. unfold resource_capabilities. fold l. simpl lr_resource.
    destruct connection as [d|] eqn:Hc.
    + destruct (Hinst d eq_refl) as [inst ->]. split; [by eexists|]. intros _.
      exists "credentials_read". split; [done|]. unfold connection in Hc.
      destruct (r_status r == _) eqn:Hst; [|done]. rewrite bool_decide_eq_true_2 by by eexists.
      simpl. do 2 right. by left.
    + split; [|by intros [? ?]]. intros (cap & [= <-] & Hin).
      rewrite (bool_decide_eq_false_2 (is_Some (@None ResourceConnectionDetails))) in Hin by apply is_Some_None.
      rewrite andb_false_r in Hin.
      exfalso. destruct (delete_capable _); simpl in Hin;
        repeat (apply elem_of_cons in Hin as [Hin|Hin]; [done|]); by apply not_elem_of_nil in Hin.
Qed.
End describe.

(** The resource of the small example, ready. *)
Definition demo_ready : DB :=
  demo_created <| resources := {[ "res-0" :=
    (lr_resource demo_loaded) <| r_status := DBInstanceStatus.READY |> ]} |>.

Lemma description_reveals_witness :
  match @describe_db_instance_resource bool demo_server (mk_principal AGENT "agent-1") "res-0"
          (open_session demo_ready) with
  | (_, Ret payload) => ∃ r secret, resources demo_ready !! "res-0" = Some r
      ∧ r_owner_agent_id r = "agent-1" ∧ json_get "password" payload = Some secret
      ∧ r_status r = DBInstanceStatus.READY
  | (_, Raise _) => False
  end.
Proof.
  destruct (@describe_db_instance_resource bool demo_server (mk_principal AGENT "agent-1") "res-0"
    (open_session demo_ready)) as [s [payload|e]] eqn:E.
  - destruct (@description_reveals bool demo_server _ _ _ _ _ E) as (_ & _ & r & Hr & Ho & _ & Hs & _).
    destruct (json_get "password" payload) as [secret|] eqn:Hp.
    + exists r, secret. split; [exact Hr|]. split; [exact Ho|]. split; [reflexivity|].
      exact (proj1 (Hs secret eq_refl)).
    + apply (f_equal (λ x, match x.2 with Ret p => json_get "password" p | Raise _ => None end)) in E.
      cbn [snd] in E. rewrite Hp in E. vm_compute in E. discriminate E.
  - apply (f_equal (λ x, match x.2 with Ret _ => true | Raise _ => false end)) in E.
    vm_compute in E. discriminate E.
Defined.

(** ** The insertion sort, on elements where the order is total *)
Section sorted.
  Context {A : Type} (le : A → A → bool) (P : A → Prop).
  Hypothesis le_total : ∀ a b, P a → P b → le a b = true ∨ le b a = true.
  Hypothesis le_trans : ∀ a b c, P a → P b → P c → le a b = true → le b c = true → le a c = true.

Lemma insert_sorted_perm x l : insert_sorted le x l ≡ₚ x :: l.
Proof.
  induction l as [|y l IH]; [done|]. simpl. destruct (le x y); [done|]. rewrite IH. constructor.
Qed.

Lemma sorted_perm l : sorted le l ≡ₚ l.
Proof. induction l as [|x l IH]; [done|]. simpl. by rewrite insert_sorted_perm, IH. Qed.

Lemma insert_sorted_sorted x l :
  P x → Forall P l → StronglySorted (λ a b, le a b = true) l →
  StronglySorted (λ a b, le a b = true) (insert_sorted le x l).
Proof.
  intros Hx. induction l as [|y l IH]; intros Hl Hs; simpl; [by repeat constructor|].
  apply Forall_cons in Hl as [Hy Hl]. inversion Hs as [|? ? Hs' Hf]; subst.
  destruct (le x y) eqn:Hxy.
  - constructor; [done|]. constructor; [done|].
    apply Forall_forall. intros z Hz. apply (le_trans x y z); try done.
    + by eapply Forall_forall in Hl.
    + by eapply Forall_forall in Hf.
  - constructor; [by apply IH|]. apply Forall_forall. intros z Hz.
    rewrite insert_sorted_perm in Hz. apply elem_of_cons in Hz as [->|Hz].
    + destruct (le_total y x Hy Hx) as [?|?]; congruence.
    + by eapply Forall_forall in Hf.
Qed.

Lemma sorted_sorted l : Forall P l → StronglySorted (λ a b, le a b = true) (sorted le l).
Proof.
  induction l as [|x l IH]; intros Hl; simpl; [constructor|]. apply Forall_cons in Hl as [Hx Hl].
  apply insert_sorted_sorted; [done| |by apply IH]. by rewrite sorted_perm.
Qed.
End sorted.

(** ** The order of candidates *)

Lemma score_total a b : String.leb a b = true ∨ String.leb b a = true.
Proof. apply String.leb_total. Qed.

Lemma score_trans a b c : String.leb a b = true → String.leb b c = true → String.leb a c = true.
Proof.
  intros Hab Hbc. assert (String.le a c) as Hac.
  { transitivity b; unfold String.le; by rewrite ?Hab, ?Hbc. }
  unfold String.le in Hac. by destruct (String.leb a c).
Qed.

Definition positive_limit (c : BackendCandidate) : Prop := 0 < cand_max_active_resources c.

Lemma candidate_le_spec agent token a b :
  candidate_le agent token a b = true ↔
    cand_priority b < cand_priority a
    ∨ cand_priority a = cand_priority b
      ∧ (cand_active_count a * cand_max_active_resources b
           < cand_active_count b * cand_max_active_resources a
         ∨ cand_active_count a * cand_max_active_resources b
           = cand_active_count b * cand_max_active_resources a
           ∧ String.leb (tie_break_score agent token (cand_backend_id a))
               (tie_break_score agent token (cand_backend_id b)) = true).
Proof.
  unfold candidate_le. rewrite !orb_true_iff, !andb_true_iff, !orb_true_iff, !andb_true_iff.
  rewrite !Z.ltb_lt, !Z.eqb_eq. done.
Qed.

Lemma candidate_le_total agent token a b :
  candidate_le agent token a b = true ∨ candidate_le agent token b a = true.
Proof.
  rewrite !candidate_le_spec.
  pose proof (score_total (tie_break_score agent token (cand_backend_id a))
    (tie_break_score agent token (cand_backend_id b))) as Hs.
  destruct (Z.lt_trichotomy (cand_priority a) (cand_priority b)) as [?|[?|?]]; [by auto| |by auto].
  destruct (Z.lt_trichotomy (cand_active_count a * cand_max_active_resources b)
    (cand_active_count b * cand_max_active_resources a)) as [?|[?|?]]; intuition auto.
Qed.

Lemma load_trans x y z (p q r : Z) :
  0 < p → 0 < q → 0 < r → x * q <= y * p → y * r <= z * q → x * r <= z * p.
Proof.
  intros Hp Hq Hr H1 H2. apply (Z.mul_le_mono_pos_l _ _ q); [done|].
  apply (Z.mul_le_mono_nonneg_r _ _ r) in H1; [|lia]. apply (Z.mul_le_mono_nonneg_r _ _ p) in H2; lia.
Qed.

Lemma candidate_le_trans agent token a b c :
  positive_limit a → positive_limit b → positive_limit c →
  candidate_le agent token a b = true → candidate_le agent token b c = true →
  candidate_le agent token a c = true.
Proof.
  unfold positive_limit. rewrite !candidate_le_spec. intros Ha Hb Hc H1 H2.
  destruct H1 as [H1|[E1 H1]], H2 as [H2|[E2 H2]]; [left; lia|left; lia|left; lia|].
  right. split; [lia|].
  assert (cand_active_count a * cand_max_active_resources c
    <= cand_active_count c * cand_max_active_resources a) as Hle.
  { eapply (load_trans _ (cand_active_count b) _ _ (cand_max_active_resources b)); try done; lia. }
  destruct (decide (cand_active_count a * cand_max_active_resources c
    = cand_active_count c * cand_max_active_resources a)) as [E|E]; [right|left; lia].
  split; [done|].
  assert (cand_active_count c * cand_max_active_resources b
    <= cand_active_count b * cand_max_active_resources c) as Hback.
  { eapply (load_trans _ (cand_active_count a) _ _ (cand_max_active_resources a)); try done; lia. }
  assert (cand_active_count b * cand_max_active_resources a
    <= cand_active_count a * cand_max_active_resources b) as Hback'.
  { eapply (load_trans _ (cand_active_count c) _ _ (cand_max_active_resources c)); try done; lia. }
  destruct H1 as [H1|[_ H1]]; [lia|]. destruct H2 as [H2|[_ H2]]; [lia|]. by eapply score_trans.
Qed.

(** ** The list of candidates *)

Lemma candidate_row_some config now db agent engine mode ab c :
  candidate_row config now db agent engine mode ab = Some c →
  ab_agent_id ab = agent ∧ ab_enabled ab = true
  ∧ ∃ b h, backends db !! ab_backend_id ab = Some b ∧ backend_health db !! ab_backend_id ab = Some h
    ∧ b_status b = ProvisioningBackendStatus.ACTIVE ∧ h_healthy h = true
    ∧ backend_health_cutoff config now <= h_checked_at h
    ∧ cand_backend_id c = b_id b ∧ cand_priority c = b_priority b
    ∧ cand_max_active_resources c = b_max_active_resources b
    ∧ cand_active_count c = default 0 (capacities db !! ("backend", b_id b)).
Proof.
  unfold candidate_row. destruct (backends db !! _) as [b|]; simpl; [|done].
  destruct (backend_health db !! _) as [h|]; simpl; [|done].
  destruct (_ && _) eqn:Hok; [|done]. intros [= <-].
  repeat match goal with H : _ && _ = true |- _ => apply andb_true_iff in H as [? ?]
    | H : bool_decide _ = true |- _ => apply bool_decide_eq_true_1 in H end.
  split_and!; [done|done|]. exists b, h. split_and!; try done. lia.
Qed.

(** Backend selection.  The candidates of a multitenant request are
    exactly the eligible backends of the Agent, one per enabled binding to an
    active, freshly healthy backend; they are listed in the order of the key
    (priority first, then the load as an exact fraction, then the hash of Agent,
    token and backend), whatever order the database returned them in; and so
    the first one has the highest priority among them, and the lowest load at
    that priority. *)
Theorem candidates_ordered config now agent engine token db :
  (∀ k b, backends db !! k = Some b → 0 < b_max_active_resources b) →
  let eligible := omap (candidate_row config now db agent engine ProvisioningMode.MULTITENANT)
                    (map_to_list (provisioning_bindings db)).*2 in
  let listed := list_candidates config now agent engine token ProvisioningMode.MULTITENANT db in
  listed ≡ₚ eligible
  ∧ StronglySorted (λ a b, candidate_le agent token a b = true) listed
  ∧ (∀ rows, rows ≡ₚ eligible → StronglySorted (λ a b, candidate_le agent token a b = true)
                                   (order_candidates agent token rows))
  ∧ ∀ c rest, listed = c :: rest → ∀ c', c' ∈ eligible →
      cand_priority c' <= cand_priority c
      ∧ (cand_priority c' = cand_priority c →
           cand_active_count c * cand_max_active_resources c'
           <= cand_active_count c' * cand_max_active_resources c).
Proof.
  intros Hpos eligible listed.
  assert (Forall positive_limit eligible) as Hall.
  { apply Forall_forall. intros c (ab & _ & Hc)%list_elem_of_omap.
    apply candidate_row_some in Hc as (_ & _ & b & _ & Hb & _ & _ & _ & _ & _ & _ & Hm & _).
    unfold positive_limit. rewrite Hm. by eapply Hpos. }
  assert (∀ rows, rows ≡ₚ eligible →
    StronglySorted (λ a b, candidate_le agent token a b = true) (order_candidates agent token rows)) as Hs.
  { intros rows Hp. apply (sorted_sorted _ positive_limit).
    - intros; apply candidate_le_total.
    - intros a b c. apply candidate_le_trans.
    - by rewrite Hp. }
  assert (listed ≡ₚ eligible) as Hperm by apply sorted_perm.
  split_and!; [done|by apply Hs|done|].
  intros c rest Hl c' Hc'. rewrite <-Hperm, Hl in Hc'.
  assert (candidate_le agent token c c' = true) as Hle.
  { apply elem_of_cons in Hc' as [->|Hc']; [by destruct (candidate_le_total agent token c c)|].
    assert (StronglySorted (λ a b, candidate_le agent token a b = true) listed) as Hsl by by apply Hs.
    rewrite Hl in Hsl. inversion Hsl as [|? ? _ Hf]; subst. by eapply Forall_forall in Hf. }
  apply candidate_le_spec in Hle. lia.
Qed.

Lemma candidates_ordered_witness :
  ∃ c, list_candidates default_config demo_start "agent-1" InstanceEngine.POLARDB_MYSQL "token-1"
         ProvisioningMode.MULTITENANT demo_db = [c]
    ∧ [c] ≡ₚ omap (candidate_row default_config demo_start demo_db "agent-1"
                     InstanceEngine.POLARDB_MYSQL ProvisioningMode.MULTITENANT)
               (map_to_list (provisioning_bindings demo_db)).*2.
Proof.
  assert (∀ k b, backends demo_db !! k = Some b → 0 < b_max_active_resources b) as Hpos.
  { intros k b Hb. simpl in Hb. apply lookup_singleton_Some in Hb as [_ <-]. vm_compute. reflexivity. }
  pose proof (proj1 (candidates_ordered default_config demo_start "agent-1"
    InstanceEngine.POLARDB_MYSQL "token-1" demo_db Hpos)) as H.
  destruct (list_candidates _ _ _ _ _ _ _) as [|c [|c2 l]] eqn:E; [vm_compute in E; discriminate E| |
    apply (f_equal length) in E; vm_compute in E; discriminate E].
  exists c. split; [reflexivity|exact H].
Defined.
