(* ===== verification/BackendAdmin.v ===== *)
(** * Administration and health of backends

    [provisioning_backend_service.py]: creating and changing a backend, with the
    connectivity check of its administrator credential.
    [multitenant_health.py]: the worker that refreshes the health rows of the
    backends that have an instance. *)

From S2P Require Import Prelude Models Config AdapterInterface DispatchLoop Ddl Permission Capacity.
From S2P Require Import Selector Adapter SuperPools.

Definition BackendNotFound (msg : string) : PyExc := exc "BackendNotFound" msg.
Definition BackendValidationError (msg : string) : PyExc := exc "BackendValidationError" msg.
Definition InvalidBackendTransition (msg : string) : PyExc := exc "InvalidBackendTransition" msg.

Definition put_backend (b : ProvisioningBackend) (db : DB) : DB :=
  db <| backends := <[b_id b := b]> (backends db) |>.
Definition put_health (h : ProvisioningBackendHealth) (db : DB) : DB :=
  db <| backend_health := <[h_backend_id h := h]> (backend_health db) |>.

(** The [CHECK] constraints of the table. *)
Definition backend_checks (b : ProvisioningBackend) : bool :=
  (0 <? b_max_active_resources b)
  && (0 <=? b_resource_min_cpu b) && (0 <? b_resource_max_cpu b)
  && (b_resource_min_cpu b <=? b_resource_max_cpu b)
  && (0 <? b_ddl_concurrency b) && (0 <? b_config_revision b)
  && match b_backend_type b with
     | ProvisioningBackendType.MULTITENANT =>
         bool_decide (is_Some (b_instance_id b)) && (b_dedicated_pool_id b == None)
         && bool_decide (is_Some (b_admin_credential_id b))
     | ProvisioningBackendType.DEDICATED_POOL =>
         (b_instance_id b == None) && bool_decide (is_Some (b_dedicated_pool_id b))
         && (b_admin_credential_id b == None)
     end
  && match b_delete_cooldown_duration_hours b with Some h => 1 <=? h | None => true end.

Definition same_unique (a b : option string) : bool :=
  match a, b with Some a, Some b => String.eqb a b | _, _ => false end.

(** Another row repeats one of the unique columns. *)
Definition backend_conflict (b : ProvisioningBackend) (db : DB) : bool :=
  existsb (λ o : ProvisioningBackend,
    negb (String.eqb (b_id o) (b_id b))
    && (same_unique (b_instance_id o) (b_instance_id b)
        || same_unique (b_dedicated_pool_id o) (b_dedicated_pool_id b)
        || same_unique (b_admin_credential_id o) (b_admin_credential_id b)))
    (snd <$> map_to_list (backends db)).

Definition flush_backend (b : ProvisioningBackend) : M (Session DB) unit :=
  conflict ← query (backend_conflict b);
  if conflict || negb (backend_checks b) then raise (IntegrityError "constraint failed")
  else execute (put_backend b).

(** The atomic [config_revision = config_revision + 1]. *)
Definition bump_backend_config_revision (b : ProvisioningBackend) : M (Session DB) ProvisioningBackend :=
  flush_backend b ;;
  let b' := b <| b_config_revision := b_config_revision b + 1 |> in
  execute (put_backend b') ;;
  mret b'.

Definition validate_backend_definition (b : ProvisioningBackend) (i : Instance) (c : InstanceCredential)
    : outcome unit :=
  if (i_engine i != InstanceEngine.POLARDB_MYSQL) || (i_topology i != InstanceTopology.MULTITENANT)
     || (i_status i != InstanceStatus.ACTIVE) || (c_purpose c != CredentialPurpose.PROVISIONING_ADMIN)
     || (c_capability c != CredentialCapability.ADMIN) || (c_status c != CredentialStatus.ACTIVE) then
    Raise (BackendValidationError
      "Provisioning backends require an active polardb_mysql multitenant instance and active provisioning admin credential")
  else
    match validate_provisioning_credential b i c with
    | Ret _ => Ret tt
    | Raise _ => Raise (BackendValidationError "Provisioning backend credential or endpoint is invalid")
    end.

(** [validate_readiness_schedule] of [models/dedicated_pool.py]. *)
Definition validate_readiness_schedule (check_interval_seconds stale_after_seconds : Z) : outcome unit :=
  if check_interval_seconds <=? 0 then Raise (ValueError "health check interval must be positive")
  else if stale_after_seconds <? 2 * check_interval_seconds then
    Raise (ValueError "maximum evidence age must be at least twice the health check interval")
  else Ret tt.

Definition context_rows (instance_id credential_id : string)
    : M (Session DB) (Instance * InstanceCredential) :=
  instance ← query (λ db, instances db !! instance_id);
  credential ← query (λ db, credentials db !! credential_id);
  match instance, credential with
  | None, _ => raise (BackendNotFound "Instance not found")
  | _, None => raise (BackendNotFound "Credential not found")
  | Some i, Some c => mret (i, c)
  end.

Definition dedicated_pool_context (pool_id : string) : M (Session DB) DedicatedPool :=
  pool ← query (λ db, pools db !! pool_id);
  match pool with
  | None => raise (BackendNotFound "Dedicated pool not found")
  | Some pool =>
      if p_status pool != DedicatedPoolStatus.ACTIVE then
        raise (BackendValidationError "Dedicated pool must be active")
      else
        match validate_readiness_schedule (p_available_health_check_interval_seconds pool)
                (p_available_health_stale_after_seconds pool) with
        | Ret _ => mret pool
        | Raise e => raise (BackendValidationError (exc_message e))
        end
  end.

Definition healthy_row (now : time) (backend_id : string) : ProvisioningBackendHealth :=
  mk_health backend_id true now 0 None.

Definition mark_backend_healthy (now : time) (b : ProvisioningBackend) : M (Session DB) unit :=
  execute (put_health (healthy_row now (b_id b))).

(** [_validate_backend_target] *)
Definition validate_backend_target (b : ProvisioningBackend) : M (Session DB) unit :=
  match b_backend_type b with
  | ProvisioningBackendType.DEDICATED_POOL =>
      match b_dedicated_pool_id b with
      | None => raise (BackendValidationError "Dedicated backend requires a dedicated pool")
      | Some pool_id => dedicated_pool_context pool_id ;; mret tt
      end
  | ProvisioningBackendType.MULTITENANT =>
      match b_instance_id b, b_admin_credential_id b with
      | Some instance_id, Some credential_id =>
          rows ← context_rows instance_id credential_id;
          lift_outcome (validate_backend_definition b rows.1 rows.2)
      | _, _ => raise (BackendValidationError "Multitenant backend requires instance and admin credential")
      end
  end.

(** [ORDER BY priority DESC, id] *)
Definition listed_before (a b : ProvisioningBackend) : bool :=
  (b_priority b <? b_priority a)
  || ((b_priority a =? b_priority b) && bool_decide (String.le (b_id a) (b_id b))).

Definition list_backends (db : DB) : list ProvisioningBackend :=
  sorted listed_before (snd <$> map_to_list (backends db)).

(** ** Requests

    A request runs in the caller's session and calls the backend's server in
    between, so its state is both. *)
Section administration.
  Context {X P : Type} `{PoolDriver X P} (decrypt : string → outcome string).
  Abbreviation S := (Session DB * X)%type.

Definition in_session {A : Type} (m : M (Session DB) A) : M S A := λ s,
  match m s.1 with (s', o) => ((s', s.2), o) end.
Definition outside {A : Type} (m : M X A) : M S A := λ s,
  match m s.2 with (x, o) => ((s.1, x), o) end.

(** A pool manager of its own, closed again whatever happens. *)
Definition probe (b : ProvisioningBackend) (i : Instance) (c : InstanceCredential) : M X HealthResult := λ x,
  match
    try_finally
      (try_except
         (p ← acquire decrypt b i c; driver (ping_pool p) ;; mret (mk_health_result true None))
         (λ e, mret (mk_health_result false (Some (exc_type e)))))
      close_all (new_manager, x)
  with (s, o) => (s.2, o) end.

Definition validate_backend_connectivity (b : ProvisioningBackend) : M S HealthResult :=
  instance ← in_session (query (λ db, iid ← b_instance_id b; instances db !! iid));
  credential ← in_session (query (λ db, cid ← b_admin_credential_id b; credentials db !! cid));
  match instance, credential with
  | Some i, Some c =>
      lift_outcome (validate_backend_definition b i c) ;;
      outside (probe b i c)
  | _, _ => raise (BackendValidationError "Provisioning backend instance or credential was not found")
  end.

Definition require_connectivity (b : ProvisioningBackend) : M S unit :=
  if b_backend_type b == ProvisioningBackendType.MULTITENANT then
    result ← validate_backend_connectivity b;
    if hr_healthy result then mret tt
    else raise (BackendValidationError "Provisioning backend connectivity validation failed")
  else mret tt.

Record BackendRequest : Type := mk_backend_request {
  br_backend_type : ProvisioningBackendType.t;
  br_instance_id : option string;
  br_dedicated_pool_id : option string;
  br_admin_credential_id : option string;
  br_priority : Z;
  br_max_active_resources : Z;
  br_resource_min_cpu : Z;
  br_resource_max_cpu : Z;
  br_ddl_concurrency : Z
}.

(** The row a request asks for; its target is looked up and checked. *)
Definition requested_backend (id : string) (q : BackendRequest) : M (Session DB) ProvisioningBackend :=
  let b := mk_backend id (br_backend_type q) None None None ProvisioningBackendStatus.ACTIVE
             (br_priority q) (br_max_active_resources q) (br_resource_min_cpu q) (br_resource_max_cpu q)
             (br_ddl_concurrency q) 1 None None in
  match br_backend_type q with
  | ProvisioningBackendType.MULTITENANT =>
      match br_instance_id q, br_admin_credential_id q with
      | Some instance_id, Some credential_id =>
          if br_dedicated_pool_id q != None then
            raise (BackendValidationError "Multitenant backend cannot target a dedicated pool")
          else
            rows ← context_rows instance_id credential_id;
            let b := b <| b_instance_id := Some (i_id rows.1) |>
                       <| b_admin_credential_id := Some (c_id rows.2) |> in
            lift_outcome (validate_backend_definition b rows.1 rows.2) ;;
            mret b
      | _, _ => raise (BackendValidationError "Multitenant backend requires instance and admin credential")
      end
  | ProvisioningBackendType.DEDICATED_POOL =>
      match br_dedicated_pool_id q with
      | None => raise (BackendValidationError "Dedicated backend requires a dedicated pool")
      | Some pool_id =>
          if (br_instance_id q != None) || (br_admin_credential_id q != None) then
            raise (BackendValidationError "Dedicated backend cannot target an instance or admin credential")
          else
            pool ← dedicated_pool_context pool_id;
            mret (b <| b_dedicated_pool_id := Some (p_id pool) |>
                    <| b_permission_template_revision_id := Some (p_permission_template_revision_id pool) |>
                    <| b_delete_cooldown_duration_hours := p_delete_cooldown_duration_hours pool |>)
      end
  end.

Definition create_backend (id : string) (now : time) (q : BackendRequest) : M S ProvisioningBackend :=
  if br_resource_max_cpu q <? br_resource_min_cpu q then
    raise (BackendValidationError "resource_min_cpu must not exceed resource_max_cpu")
  else
    b ← in_session (requested_backend id q);
    taken ← in_session (query (λ db, bool_decide (is_Some (backends db !! id))));
    (if (taken : bool) then raise (IntegrityError "UNIQUE constraint failed")
     else in_session (flush_backend b)) ;;
    require_connectivity b ;;
    in_session (mark_backend_healthy now b) ;;
    mret b.

(** The fields present in a request to change a backend. *)
Record BackendChanges : Type := mk_backend_changes {
  bc_admin_credential_id : option (option string);
  bc_priority : option Z;
  bc_max_active_resources : option Z;
  bc_resource_min_cpu : option Z;
  bc_resource_max_cpu : option Z;
  bc_ddl_concurrency : option Z;
  bc_status : option ProvisioningBackendStatus.t
}.

Definition status_change (s : ProvisioningBackendStatus.t) : BackendChanges :=
  mk_backend_changes None None None None None None (Some s).

Definition apply_changes (ch : BackendChanges) (b : ProvisioningBackend) : ProvisioningBackend :=
  b <| b_admin_credential_id := default (b_admin_credential_id b) (bc_admin_credential_id ch) |>
    <| b_priority := default (b_priority b) (bc_priority ch) |>
    <| b_max_active_resources := default (b_max_active_resources b) (bc_max_active_resources ch) |>
    <| b_resource_min_cpu := default (b_resource_min_cpu b) (bc_resource_min_cpu ch) |>
    <| b_resource_max_cpu := default (b_resource_max_cpu b) (bc_resource_max_cpu ch) |>
    <| b_ddl_concurrency := default (b_ddl_concurrency b) (bc_ddl_concurrency ch) |>
    <| b_status := default (b_status b) (bc_status ch) |>.

(** The fields whose change makes the pools of the backend another generation. *)
Definition pool_affecting (ch : BackendChanges) : bool :=
  bool_decide (is_Some (bc_admin_credential_id ch)) || bool_decide (is_Some (bc_ddl_concurrency ch)).

Definition update_backend (now : time) (backend_id : string) (ch : BackendChanges) : M S ProvisioningBackend :=
  found ← in_session (query (λ db, backends db !! backend_id));
  match found with
  | None => raise (BackendNotFound "Provisioning backend not found")
  | Some b =>
      if (b_backend_type b == ProvisioningBackendType.DEDICATED_POOL)
         && bool_decide (is_Some (bc_admin_credential_id ch)) then
        raise (BackendValidationError "Dedicated backend does not use an admin credential")
      else
        let b := apply_changes ch b in
        if b_resource_max_cpu b <? b_resource_min_cpu b then
          raise (BackendValidationError "resource_min_cpu must not exceed resource_max_cpu")
        else
          in_session (validate_backend_target b) ;;
          in_session (flush_backend b) ;;
          b ← (if pool_affecting ch then in_session (bump_backend_config_revision b) else mret b);
          (if (b_status b == ProvisioningBackendStatus.ACTIVE)
              || bool_decide (is_Some (bc_admin_credential_id ch)) then
             require_connectivity b ;; in_session (mark_backend_healthy now b)
           else mret tt) ;;
          mret b
  end.

Definition set_backend_status (now : time) (backend_id : string) (status : ProvisioningBackendStatus.t)
    : M S ProvisioningBackend :=
  if status == ProvisioningBackendStatus.ACTIVE then update_backend now backend_id (status_change status)
  else
    found ← in_session (query (λ db, backends db !! backend_id));
    match found with
    | None => raise (BackendNotFound "Provisioning backend not found")
    | Some b =>
        if (status == ProvisioningBackendStatus.DRAINING)
           && (b_status b == ProvisioningBackendStatus.DISABLED) then
          raise (InvalidBackendTransition "Disabled backend must be activated before it can be drained")
        else
          let b := b <| b_status := status |> in
          in_session (flush_backend b) ;; mret b
    end.
End administration.

(** ** The health worker *)
Section health.
  Context {X : Type} (registry : AdapterRegistry X) (clock : nat → time).
  (** [close_backend] of the worker's pool manager. *)
  Context (close_pools : string → M X unit).

Definition backend_id_le (a b : ProvisioningBackend * Instance) : bool :=
  bool_decide (String.le (b_id a.1) (b_id b.1)).

(** The backends joined with their instance, by id. *)
Definition backends_with_instance (db : DB) : list (ProvisioningBackend * Instance) :=
  sorted backend_id_le
    (omap (λ b, iid ← b_instance_id b; i ← instances db !! iid; Some (b, i)) (snd <$> map_to_list (backends db))).

Definition recorded_health (now : time) (backend_id : string) (result : HealthResult)
    (found : option ProvisioningBackendHealth) : ProvisioningBackendHealth :=
  let failures := match found with Some h => h_consecutive_failures h | None => 0 end in
  if hr_healthy result then mk_health backend_id true now 0 None
  else mk_health backend_id false now (failures + 1)
         (Some (if truthy (hr_error_code result) then default EmptyString (hr_error_code result)
                else "UnknownError")).

Definition record_health (now : time) (backend_id : string) (result : HealthResult) : M (Session DB) unit :=
  b ← query (λ db, backends db !! backend_id);
  match b with
  | None => mret tt
  | Some _ =>
      found ← query (λ db, backend_health db !! backend_id);
      execute (put_health (recorded_health now backend_id result found)) ;;
      commit
  end.

(** [_safe_record]: an exception is logged. *)
Definition safe_record (backend_id : string) (result : HealthResult) : M (World X) unit :=
  try_except (at_now clock (λ now, record_health now backend_id result)) (λ _, mret tt).

Definition check_backend (b : ProvisioningBackend) (i : Instance) : M (World X) unit :=
  if b_status b == ProvisioningBackendStatus.DISABLED then
    try_except (lift_ext (close_pools (b_id b)))
      (λ e, safe_record (b_id b) (mk_health_result false (Some (exc_type e))))
  else
    result ← try_except
      (adapter ← lift_outcome (registry_get registry (i_engine i) (i_topology i));
       adapter_health_check adapter b)
      (λ e, mret (mk_health_result false (Some (exc_type e))));
    safe_record (b_id b) result.

Definition run_once : M (World X) Z :=
  rows ← with_db (query backends_with_instance);
  for_each (λ bi : ProvisioningBackend * Instance, check_backend bi.1 bi.2) rows ;;
  mret (Z.of_nat (length (filter (λ bi, b_status bi.1 ≠ ProvisioningBackendStatus.DISABLED) rows))).

End health.
