(* ===== verification/BackendTheorems.v ===== *)
(** * Health of backends

    What a pass of the health worker writes, and which backends it never
    reaches. *)

From S2P Require Import Prelude Models Config AdapterInterface DispatchLoop Permission Capacity.
From S2P Require Import Selector.
From S2P Require Import PolicyTheorems SuperPools BackendAdmin.

Section health.
  Context {X : Type} (registry : AdapterRegistry X) (clock : nat → time).
  Context (close_pools : string → M X unit).
  Context (Hadapters : ∀ k a, registry !! k = Some a → AdapterFrame a).

(** Only the health row of one backend may have changed. *)
Definition health_only (ids : list string) (db db' : DB) : Prop :=
  ∃ bh, db' = db <| backend_health := bh |> ∧ ∀ k, k ∉ ids → bh !! k = backend_health db !! k.

Lemma health_only_refl ids db : health_only ids db db.
Proof. exists (backend_health db). split; [by destruct db|done]. Qed.

Lemma health_only_trans ids ids' db1 db2 db3 :
  health_only ids db1 db2 → health_only ids' db2 db3 → health_only (ids ++ ids') db1 db3.
Proof.
  intros (bh & -> & H1) (bh' & -> & H2). exists bh'. split; [done|].
  intros k Hk. rewrite H2 by set_solver. simpl. apply H1. set_solver.
Qed.

Lemma health_only_backends ids db db' : health_only ids db db' → backends db' = backends db.
Proof. by intros (bh & -> & _). Qed.

Lemma record_health_run now id result db :
  with_session (record_health now id result) db =
  (match backends db !! id with
   | Some _ => put_health (recorded_health now id result (backend_health db !! id)) db
   | None => db end, Ret tt).
Proof. unfold record_health. run_txn. by destruct (backends db !! id). Qed.

Lemma recorded_id now id result found : h_backend_id (recorded_health now id result found) = id.
Proof. unfold recorded_health. by destruct (hr_healthy result). Qed.

Lemma recorded_at now id result found : h_checked_at (recorded_health now id result found) = now.
Proof. unfold recorded_health. by destruct (hr_healthy result). Qed.

Lemma safe_record_run id result (w : World X) :
  safe_record clock id result w =
  (mk_world (match backends (w_db w) !! id with
             | Some _ => put_health (recorded_health (clock (w_tick w)) id result
                           (backend_health (w_db w) !! id)) (w_db w)
             | None => w_db w end) (w_ext w) (S (w_tick w)), Ret tt).
Proof.
  unfold safe_record, try_except, at_now, mbind, M_bind, read_clock, with_db. simpl.
  by rewrite record_health_run.
Qed.

(** The verdict of a backend's adapter. *)
Definition verdict (b : ProvisioningBackend) (i : Instance) : M (World X) HealthResult :=
  try_except
    (adapter ← lift_outcome (registry_get registry (i_engine i) (i_topology i));
     adapter_health_check adapter b)
    (λ e, mret (mk_health_result false (Some (exc_type e)))).

Lemma verdict_leaves b i : leaves_db (verdict b i) ∧ ∀ w, ∃ r, (verdict b i w).2 = Ret r.
Proof.
  split.
  - apply leaves_db_try; [|intros; apply leaves_db_ret]. intros w. unfold mbind, M_bind, lift_outcome.
    unfold registry_get. destruct (registry !! _) as [a|] eqn:Ha; [|done]. by apply (frame_health_check (AdapterFrame:=Hadapters _ _ Ha)).
  - intros w. unfold verdict, try_except. case_match. case_match; by eexists.
Qed.

Definition joined (db : DB) (bi : ProvisioningBackend * Instance) : Prop :=
  backends db !! b_id bi.1 = Some bi.1.

(** One backend of a pass. *)
Lemma check_backend_run b i w :
  let r := check_backend registry clock close_pools b i w in
  r.2 = Ret tt ∧ health_only [b_id b] (w_db w) (w_db r.1)
  ∧ (joined (w_db w) (b, i) → b_status b ≠ ProvisioningBackendStatus.DISABLED →
     ∃ t result, backend_health (w_db r.1) !! b_id b
       = Some (recorded_health (clock t) (b_id b) result (backend_health (w_db w) !! b_id b))
       ∧ w_tick (verdict b i w).1 = t ∧ (verdict b i w).2 = Ret result).
Proof.
  assert (∀ (w0 w1 : World X) result, w_db w1 = w_db w0 →
    let r := safe_record clock (b_id b) result w1 in
    r.2 = Ret tt ∧ health_only [b_id b] (w_db w0) (w_db r.1)) as Hsafe.
  { intros w0 w1 result Hw r. subst r. rewrite safe_record_run, Hw. split; [done|]. simpl.
    destruct (backends (w_db w0) !! b_id b); [|apply health_only_refl].
    eexists. split; [done|]. intros k Hk. rewrite recorded_id. apply lookup_insert_ne. set_solver. }
  intros r. subst r. unfold check_backend.
  destruct (decide (b_status b = ProvisioningBackendStatus.DISABLED)) as [Hd|Hd].
  - rewrite (bool_decide_eq_true_2 _ Hd). unfold try_except, lift_ext.
    destruct (close_pools (b_id b) (w_ext w)) as [x [[]|e]]; simpl.
    + split_and!; [done|apply health_only_refl|done].
    + destruct (Hsafe w (mk_world (w_db w) x (w_tick w)) (mk_health_result false (Some (exc_type e))) eq_refl).
      split_and!; done.
  - rewrite (bool_decide_eq_false_2 _ Hd). fold (verdict b i).
    destruct (verdict_leaves b i) as [Hl Hret]. specialize (Hl w). destruct (Hret w) as [result Hres].
    unfold mbind, M_bind. destruct (verdict b i w) as [w1 o]. simpl in *. subst o.
    destruct (Hsafe w w1 result Hl) as [H1 H2]. split_and!; [done|done|].
    intros Hj _. exists (w_tick w1), result. split_and!; [|done|done].
    rewrite safe_record_run, Hl. unfold joined in Hj. simpl in Hj. rewrite Hj. simpl.
    rewrite recorded_id. apply lookup_insert_eq.
Qed.

Lemma backends_with_instance_elem db b i :
  (b, i) ∈ backends_with_instance db ↔
  ∃ k iid, backends db !! k = Some b ∧ b_instance_id b = Some iid ∧ instances db !! iid = Some i.
Proof.
  unfold backends_with_instance. rewrite sorted_perm, list_elem_of_omap. split.
  - intros (b' & Hb & Hj). apply list_elem_of_fmap in Hb as [[k b0] [-> Hb]].
    apply elem_of_map_to_list in Hb. simpl in Hj.
    destruct (b_instance_id b0) as [iid|] eqn:Hi; [|done]. simpl in Hj.
    destruct (instances db !! iid) as [i0|] eqn:Hi0; [|done]. simplify_eq/=. by exists k, iid.
  - intros (k & iid & Hb & Hi & Hi0). exists b. split.
    + apply list_elem_of_fmap. exists (k, b). split; [done|]. by apply elem_of_map_to_list.
    + rewrite Hi. simpl. by rewrite Hi0.
Qed.

(** Backends are stored under their primary key. *)
Definition backends_keyed (db : DB) : Prop := ∀ k b, backends db !! k = Some b → b_id b = k.

Lemma joined_ids_nodup db :
  backends_keyed db → NoDup ((λ bi : ProvisioningBackend * Instance, b_id bi.1) <$> backends_with_instance db).
Proof.
  intros Hk. unfold backends_with_instance. rewrite sorted_perm.
  assert (∀ l : list ProvisioningBackend, NoDup (b_id <$> l) →
    NoDup ((λ bi : ProvisioningBackend * Instance, b_id bi.1) <$>
      omap (λ b, iid ← b_instance_id b; i ← instances db !! iid; Some (b, i)) l)) as Homap.
  { intros l. induction l as [|b l IH]; [done|]. intros [Hb Hl]%NoDup_cons. simpl.
    destruct (b_instance_id b ≫= λ iid, instances db !! iid ≫= λ i, Some (b, i)) as [[b' i']|] eqn:Hj;
      [|by apply IH].
    destruct (b_instance_id b) as [iid|]; [|done]. simpl in Hj.
    destruct (instances db !! iid) as [i0|]; [|done]. simplify_eq/=.
    apply NoDup_cons. split; [|by apply IH]. intros Hin. apply Hb.
    apply list_elem_of_fmap in Hin as [[b2 i2] [He Hin]]. apply list_elem_of_omap in Hin as (b3 & Hb3 & Hj).
    destruct (b_instance_id b3) as [iid3|]; [|done]. simpl in Hj.
    destruct (instances db !! iid3) as [i3|]; [|done]. simplify_eq/=.
    apply list_elem_of_fmap. by exists b2. }
  apply Homap. rewrite <-list_fmap_compose.
  assert (b_id ∘ snd <$> map_to_list (backends db) = fst <$> map_to_list (backends db)) as ->.
  { apply list_fmap_ext. intros j [k b] Hj. simpl. apply Hk.
    by apply elem_of_map_to_list, (list_elem_of_lookup_2 _ j). }
  apply NoDup_fst_map_to_list.
Qed.

(** The backends of a pass, one after the other. *)
Lemma check_all_run (rows : list (ProvisioningBackend * Instance)) w :
  NoDup ((λ bi : ProvisioningBackend * Instance, b_id bi.1) <$> rows) →
  let r := for_each (λ bi : ProvisioningBackend * Instance,
             check_backend registry clock close_pools bi.1 bi.2) rows w in
  r.2 = Ret tt ∧ health_only ((λ bi : ProvisioningBackend * Instance, b_id bi.1) <$> rows) (w_db w) (w_db r.1)
  ∧ ∀ b i, (b, i) ∈ rows → joined (w_db w) (b, i) → b_status b ≠ ProvisioningBackendStatus.DISABLED →
     ∃ wv result, (verdict b i wv).2 = Ret result
       ∧ backend_health (w_db r.1) !! b_id b
         = Some (recorded_health (clock (w_tick (verdict b i wv).1)) (b_id b) result
                   (backend_health (w_db w) !! b_id b)).
Proof.
  induction rows as [|[b0 i0] rows IH] in w |- *; intros Hnd; simpl.
  { split_and!; [done|apply health_only_refl|]. by intros b i Hin%not_elem_of_nil. }
  simpl in Hnd. apply NoDup_cons in Hnd as [Hb0 Hnd].
  destruct (check_backend_run b0 i0 w) as (H1 & H2 & H3). unfold mbind, M_bind.
  destruct (check_backend registry clock close_pools b0 i0 w) as [w1 o]. simpl in *. subst o.
  destruct (IH w1 Hnd) as (H4 & H5 & H6).
  split; [done|]. split; [by apply (health_only_trans [_] _ _ (w_db w1))|].
  intros b i Hin Hj Hd. apply elem_of_cons in Hin as [[= -> ->]|Hin].
  - destruct (H3 Hj Hd) as (t & result & Hh & <- & Hv). exists w, result. split; [done|].
    destruct H5 as (bh & Hdb & Hkeep). rewrite Hdb. simpl. rewrite Hkeep by done. exact Hh.
  - assert (joined (w_db w1) (b, i)) as Hj1 by (unfold joined; rewrite (health_only_backends _ _ _ H2); done).
    destruct (H6 b i Hin Hj1 Hd) as (wv & result & Hv & Hh). exists wv, result. split; [done|].
    rewrite Hh. destruct H2 as (bh & Hdb & Hkeep). rewrite Hdb. simpl. rewrite Hkeep; [done|].
    intros He%list_elem_of_singleton. apply Hb0. apply list_elem_of_fmap. by exists (b, i).
Qed.

(** One pass, and the database after it. *)
Definition pass (w : World X) : World X := (run_once registry clock close_pools w).1.

Lemma run_once_run w :
  backends_keyed (w_db w) →
  (∃ n, (run_once registry clock close_pools w).2 = Ret n)
  ∧ health_only ((λ bi : ProvisioningBackend * Instance, b_id bi.1) <$> backends_with_instance (w_db w))
      (w_db w) (w_db (pass w))
  ∧ ∀ b i, (b, i) ∈ backends_with_instance (w_db w) → b_status b ≠ ProvisioningBackendStatus.DISABLED →
     ∃ wv result, (verdict b i wv).2 = Ret result
       ∧ backend_health (w_db (pass w)) !! b_id b
         = Some (recorded_health (clock (w_tick (verdict b i wv).1)) (b_id b) result
                   (backend_health (w_db w) !! b_id b)).
Proof.
  intros Hk. unfold pass, run_once, mbind, M_bind, with_db. simpl.
  pose proof (check_all_run (backends_with_instance (w_db w)) (mk_world (w_db w) (w_ext w) (w_tick w))
    (joined_ids_nodup _ Hk)) as (H1 & H2 & H3).
  destruct (for_each _ _ _) as [w1 o]. simpl in *. subst o. split_and!; [by eexists|exact H2|].
  intros b i Hin Hd. apply H3; [done| |done]. unfold joined. simpl.
  apply backends_with_instance_elem in Hin as (k & iid & Hb & _). by rewrite (Hk _ _ Hb).
Qed.

Lemma health_only_keyed ids db db' : health_only ids db db' → backends_keyed db → backends_keyed db'.
Proof. intros (bh & -> & _). done. Qed.

(** A backend without an instance keeps its health row through any number of
    passes. *)
Lemma passes_skip n b w :
  backends_keyed (w_db w) → backends (w_db w) !! b_id b = Some b → b_instance_id b = None →
  let w' := Nat.iter n pass w in
  backends_keyed (w_db w') ∧ backends (w_db w') !! b_id b = Some b
  ∧ backend_health (w_db w') !! b_id b = backend_health (w_db w) !! b_id b.
Proof.
  intros Hk Hb Hi. induction n as [|n IH]; simpl; [done|]. destruct IH as (H1 & H2 & H3).
  destruct (run_once_run _ H1) as (_ & Hp & _). split_and!.
  - by eapply health_only_keyed.
  - by rewrite (health_only_backends _ _ _ Hp).
  - destruct Hp as (bh & -> & Hkeep). simpl. rewrite Hkeep; [done|].
    intros [[b' i'] [He Hin]]%list_elem_of_fmap. simpl in He.
    apply backends_with_instance_elem in Hin as (k & iid & Hb' & Hi' & _).
    pose proof (H1 _ _ Hb') as Hid. rewrite <-Hid, <-He in Hb'. congruence.
Qed.

(** Health passes: a pass of the health worker always ends and touches only
    health rows; every backend with an instance that is not disabled gets the
    verdict its adapter gave in that pass, with the failures in a row counted.
    A backend without an instance is never reached: through any number of
    passes its health row stays as it was, so once the row is older than the
    stale limit the backend is no candidate of any request.  Every backend of a
    dedicated pool is such a backend. *)
Theorem health_passes n w b h config now :
  backends_keyed (w_db w) →
  (∃ k, (run_once registry clock close_pools w).2 = Ret k)
  ∧ (∀ b' i', (b', i') ∈ backends_with_instance (w_db w) →
      b_status b' ≠ ProvisioningBackendStatus.DISABLED →
      ∃ wv result, (verdict b' i' wv).2 = Ret result
        ∧ backend_health (w_db (pass w)) !! b_id b'
          = Some (recorded_health (clock (w_tick (verdict b' i' wv).1)) (b_id b') result
                    (backend_health (w_db w) !! b_id b')))
  ∧ (backends (w_db w) !! b_id b = Some b → b_instance_id b = None →
     backend_health (w_db w) !! b_id b = Some h → h_checked_at h < backend_health_cutoff config now →
     let db := w_db (Nat.iter n pass w) in
     backend_is_fresh_and_healthy config now db b = false
     ∧ ∀ agent_id engine token mode c,
         c ∈ list_candidates config now agent_id engine token mode db → cand_backend_id c ≠ b_id b)
  ∧ ∀ b', backend_checks b' = true → b_backend_type b' = ProvisioningBackendType.DEDICATED_POOL →
      b_instance_id b' = None.
Proof.
  intros Hk. destruct (run_once_run w Hk) as (H1 & _ & H3). split; [done|]. split; [done|]. split.
  - intros Hb Hi Hh Hold. destruct (passes_skip n b w Hk Hb Hi) as (Hk' & Hb' & Hh').
    cbv zeta. set (db := w_db (Nat.iter n pass w)) in *. rewrite Hh in Hh'.
    assert ((backend_health_cutoff config now <=? h_checked_at h) = false) as Hlate by lia. split.
    + unfold backend_is_fresh_and_healthy. by rewrite Hh', Hlate, !andb_false_r.
    + intros agent_id engine token mode c Hc Heq.
      assert (∃ ab, candidate_row config now db agent_id engine mode ab = Some c) as (ab & Hrow).
      { unfold list_candidates, order_candidates in Hc. destruct mode; rewrite sorted_perm in Hc;
          apply list_elem_of_omap in Hc as (ab & _ & Hab); by exists ab. }
      unfold candidate_row in Hrow.
      destruct (backends db !! ab_backend_id ab) as [b'|] eqn:Hab; [|done]. simpl in Hrow.
      destruct (backend_health db !! ab_backend_id ab) as [h'|] eqn:Hah; [|done]. simpl in Hrow.
      destruct (_ && _) eqn:Hcond in Hrow; [|done]. injection Hrow as <-. simpl in Heq.
      pose proof (Hk' _ _ Hab) as Hid. rewrite <-Hid, Heq in Hah. rewrite Hah in Hh'. injection Hh' as ->.
      by rewrite Hlate, !andb_false_r in Hcond.
  - intros b' Hc Ht. unfold backend_checks in Hc. rewrite Ht in Hc.
    destruct (b_instance_id b'); [|done]. by rewrite !andb_false_r in Hc.
Qed.
End health.

(** A pool's backend, marked healthy when it was created, and three passes. *)
Definition demo_pool_route : ProvisioningBackend :=
  mk_backend "backend-2" ProvisioningBackendType.DEDICATED_POOL None (Some "pool-1") None
    ProvisioningBackendStatus.ACTIVE 0 5 0 2 4 1 None (Some "rev-1").

Definition demo_seconds (n : nat) : time := seconds (Z.of_nat n).

Definition demo_health_world : World unit :=
  mk_world (empty_db <| backends := {[ "backend-2" := demo_pool_route ]} |>
                     <| backend_health := {[ "backend-2" := healthy_row 0 "backend-2" ]} |>) tt 0.

Lemma health_passes_witness :
  let db := w_db (Nat.iter 3 (pass ∅ demo_seconds (λ _, mret tt)) demo_health_world) in
  backend_is_fresh_and_healthy default_config (seconds 1000000) db demo_pool_route = false
  ∧ h_checked_at <$> backend_health db !! "backend-2" = Some 0.
Proof.
  cbv zeta. split; [|vm_compute; reflexivity].
  assert (backends_keyed (w_db demo_health_world)) as Hk
    by (intros k b; simpl; intros [<- <-]%lookup_singleton_Some; reflexivity).
  assert (∀ k a, (∅ : AdapterRegistry unit) !! k = Some a → AdapterFrame a) as Hreg
    by (intros k a; rewrite lookup_empty; done).
  destruct (health_passes ∅ demo_seconds (λ _, mret tt) Hreg 3 demo_health_world demo_pool_route
    (healthy_row 0 "backend-2") default_config (seconds 1000000) Hk) as (_ & _ & Hskip & _).
  apply Hskip; vm_compute; reflexivity.
Defined.
