(* ===== verification/OperationBudget.v ===== *)
(** * Hourly operation budgets ([server/core/provisioning_operation_budget.py])

    A counter per scope, operation and UTC hour; a request consumes one unit of
    the current hour or is refused. *)

From S2P Require Import Prelude Models.

Definition RateLimited : PyExc := exc "RateLimited" "Hourly operation budget exceeded".

(** [now] with minute, second and microsecond zero, in UTC. *)
Definition hourly_window_start (now : time) : time := now - now mod hours 1.

(** The unique columns of a budget row: scope type, scope id, operation, window. *)
Abbreviation budget_key := (string * string * string * Z)%type (only parsing).

Definition put_budget (k : budget_key) (n : Z) (db : DB) : DB :=
  db <| budgets := <[k := n]> (budgets db) |>.

(** [INSERT ... ON CONFLICT DO NOTHING] of a zero count. *)
Definition ensure_budget_row (k : budget_key) : M (Session DB) unit :=
  execute (λ db, match budgets db !! k with Some _ => db | None => put_budget k 0 db end).

(** [UPDATE ... SET request_count = request_count + 1 WHERE key AND
    request_count < limit]: the number of rows it changed. *)
Definition increment_below (k : budget_key) (limit : Z) : M (Session DB) Z :=
  found ← query (λ db, budgets db !! k);
  match found with
  | Some n => if n <? limit then execute (put_budget k (n + 1)) ;; mret 1 else mret 0
  | None => mret 0
  end.

Definition consume_hourly_budget (scope_type scope_id operation : string) (limit : Z) (now : time)
    : M (Session DB) unit :=
  if limit <=? 0 then raise (ValueError "Hourly budget limit must be positive")
  else
    let k := (scope_type, scope_id, operation, hourly_window_start now) in
    ensure_budget_row k ;;
    changed ← increment_below k limit;
    if changed != 1 then raise RateLimited else mret tt.

(** ** One request, committed on its own *)

Definition consume_request (st si op : string) (limit : Z) (now : time) : M (Session DB) unit :=
  consume_hourly_budget st si op limit now ;; commit.

Definition used (k : budget_key) (db : DB) : Z := default 0 (budgets db !! k).

Lemma consume_request_run st si op limit now db :
  let k := (st, si, op, hourly_window_start now) in
  with_session (consume_request st si op limit now) db =
  if limit <=? 0 then (db, Raise (ValueError "Hourly budget limit must be positive"))
  else if used k db <? limit then (put_budget k (used k db + 1) db, Ret tt)
  else (db, Raise RateLimited).
Proof.
  intros k. unfold with_session, consume_request, consume_hourly_budget, open_session, used.
  destruct (limit <=? 0) eqn:Hl; [done|]. fold k.
  unfold ensure_budget_row, increment_below. destruct (budgets db !! k) as [n|] eqn:Hk.
  - run_txn. rewrite Hk. cbn. rewrite Hk. by destruct (n <? limit).
  - run_txn. rewrite Hk. cbn. rewrite lookup_insert_eq. destruct (0 <? limit) eqn:H0; [|lia].
    unfold put_budget. cbn. by rewrite insert_insert_eq.
Qed.

(** [consume_agent_operation_budget] of [dedicated_pool_repository.py], without
    the metrics it emits. *)
Definition consume_agent_operation_budget (pool : DedicatedPool) (agent_id operation : string)
    (now : time) : M (Session DB) unit :=
  match (if String.eqb operation "create" then Some (p_max_create_requests_per_agent_per_hour pool)
         else if String.eqb operation "delete" then Some (p_max_delete_requests_per_agent_per_hour pool)
         else None) with
  | Some limit =>
      consume_hourly_budget "pool_agent" (p_id pool +:+ ":" +:+ agent_id) operation limit now
  | None => raise (ValueError "Unsupported Dedicated Agent operation")
  end.

(** ** Sequences of requests *)

Record BudgetRequest : Type := mk_budget_request {
  bq_scope_type : string;
  bq_scope_id : string;
  bq_operation : string;
  bq_limit : Z;
  bq_now : time
}.

Definition bq_key (q : BudgetRequest) : budget_key :=
  (bq_scope_type q, bq_scope_id q, bq_operation q, hourly_window_start (bq_now q)).

(** The requests one after the other, and which of them were granted. *)
Fixpoint serve (qs : list BudgetRequest) (db : DB) : DB * list (BudgetRequest * bool) :=
  match qs with
  | [] => (db, [])
  | q :: qs =>
      let r := with_session (consume_request (bq_scope_type q) (bq_scope_id q) (bq_operation q)
                 (bq_limit q) (bq_now q)) db in
      let granted := match r.2 with Ret _ => true | Raise _ => false end in
      let rest := serve qs r.1 in
      (rest.1, (q, granted) :: rest.2)
  end.

Definition granted_on (k : budget_key) (log : list (BudgetRequest * bool)) : Z :=
  Z.of_nat (length (filter (λ e, bq_key e.1 = k ∧ e.2 = true) log)).

Lemma granted_on_cons k e log :
  granted_on k (e :: log) =
    (if decide (bq_key e.1 = k ∧ e.2 = true) then 1 else 0) + granted_on k log.
Proof. unfold granted_on. rewrite filter_cons. case_decide; simpl length; lia. Qed.

Lemma used_put k k' n db : used k (put_budget k' n db) = if decide (k = k') then n else used k db.
Proof.
  unfold used, put_budget. simpl. case_decide as E; [subst; by rewrite lookup_insert_eq|].
  by rewrite lookup_insert_ne.
Qed.

(** One request, on every counter. *)
Lemma serve_one q db k :
  let r := with_session (consume_request (bq_scope_type q) (bq_scope_id q) (bq_operation q)
                 (bq_limit q) (bq_now q)) db in
  match r.2 with
  | Ret _ => 0 < bq_limit q ∧ used (bq_key q) db < bq_limit q
      ∧ r.1 = put_budget (bq_key q) (used (bq_key q) db + 1) db
      ∧ used k r.1 = used k db + (if decide (bq_key q = k) then 1 else 0)
  | Raise e => r.1 = db ∧ (bq_limit q <= 0 ∨ bq_limit q <= used (bq_key q) db)
  end.
Proof.
  intros r. subst r. rewrite consume_request_run. fold (bq_key q).
  destruct (bq_limit q <=? 0) eqn:Hl; [simpl; split; [done|lia]|].
  destruct (used (bq_key q) db <? bq_limit q) eqn:Hu; simpl; [|split; [done|lia]].
  split_and!; [lia|lia|done|]. rewrite used_put. repeat case_decide; subst; try done; lia.
Qed.

(** The answer to the request at [pre], and what it committed. *)
Lemma serve_at q pre post db granted :
  nth_error (serve (pre ++ q :: post) db).2 (length pre) = Some (q, granted) →
  let before := (serve pre db).1 in
  let after := (serve (pre ++ [q]) db).1 in
  if granted : bool then
    0 < bq_limit q ∧ used (bq_key q) before < bq_limit q
    ∧ after = put_budget (bq_key q) (used (bq_key q) before + 1) before
  else (bq_limit q <= 0 ∨ bq_limit q <= used (bq_key q) before) ∧ after = before.
Proof.
  induction pre as [|p pre IH] in db |- *; [|apply IH]. simpl.
  intros [= <-]. pose proof (serve_one q db (bq_key q)) as H. simpl in H |- *.
  destruct (with_session _ db) as [db1 [u|e]]; simpl in *; tauto.
Qed.

(** C30: The hourly budget holds.  Let no request for the counter [k] (a scope,
    an operation and an hour) carry a limit above [limit], and let the counter
    not start above [limit].  Then, whatever requests arrive, in whatever order
    and for whatever scopes, the count is the one it started with and the number
    of requests granted in the hour, and never exceeds [limit].  A request is
    granted only when its limit is positive and its hour not used up, and then
    commits one more unit of its own counter and nothing else; one that is
    refused leaves the whole database as it was, and its limit is not positive or
    its hour is used up.  The windows are the UTC hours: each instant lies in
    exactly the hour it counts for. *)
Theorem hourly_budget_enforced qs db k limit :
  (∀ q, q ∈ qs → bq_key q = k → bq_limit q <= limit) → used k db <= limit →
  let served := serve qs db in
  used k served.1 = used k db + granted_on k served.2
  ∧ used k served.1 <= limit
  ∧ length served.2 = length qs
  ∧ (∀ q pre post, qs = pre ++ q :: post →
      let before := (serve pre db).1 in
      let after := (serve (pre ++ [q]) db).1 in
      ∃ granted, nth_error served.2 (length pre) = Some (q, granted)
      ∧ if granted : bool then
          0 < bq_limit q ∧ used (bq_key q) before < bq_limit q
          ∧ after = put_budget (bq_key q) (used (bq_key q) before + 1) before
        else (bq_limit q <= 0 ∨ bq_limit q <= used (bq_key q) before) ∧ after = before)
  ∧ ∀ t, hourly_window_start t <= t < hourly_window_start t + hours 1
         ∧ ∀ t', hourly_window_start t' = hourly_window_start t ↔ t' / hours 1 = t / hours 1.
Proof.
  intros Hlim Hused served. subst served.
  assert (∀ t, hourly_window_start t = hours 1 * (t / hours 1)) as Hw
    by (intros t; unfold hourly_window_start; rewrite Z.mod_eq by done; lia).
  split; [|split; [|split; [|split]]].
  - clear Hlim Hused. induction qs as [|q qs IH] in db |- *; simpl; [unfold granted_on; simpl; lia|].
    rewrite granted_on_cons, IH. pose proof (serve_one q db k) as H. simpl in H |- *.
    destruct (with_session _ db) as [db1 [u|e]]; simpl in *.
    + destruct H as (_ & _ & _ & ->). repeat case_decide; try tauto; lia.
    + destruct H as (-> & _). case_decide as Hd; [by destruct Hd|]. lia.
  - induction qs as [|q qs IH] in db, Hlim, Hused |- *; simpl; [done|]. apply IH.
    { intros q' Hq'. apply Hlim. by right. }
    pose proof (serve_one q db k) as H. simpl in H.
    destruct (with_session _ db) as [db1 [u|e]]; simpl in *; [|by destruct H as (-> & _)].
    destruct H as (_ & Hlt & _ & ->). case_decide as E; [|lia].
    assert (bq_limit q <= limit) by (apply Hlim; [by left|done]). subst k. lia.
  - clear. induction qs as [|q qs IH] in db |- *; simpl; [done|]. by rewrite IH.
  - clear. intros q pre post ->.
    assert (∃ granted, nth_error (serve (pre ++ q :: post) db).2 (length pre) = Some (q, granted)) as [g Hg].
    { induction pre as [|p pre IH] in db |- *; simpl; [by eexists|apply IH]. }
    exists g. split; [exact Hg|by eapply serve_at].
  - intros t. pose proof (Z.mod_pos_bound t (hours 1)) as Hm. rewrite Z.mod_eq in Hm by done.
    unfold hours in *. split; [rewrite Hw; unfold hours; lia|]. intros t'. rewrite !Hw. unfold hours. lia.
Qed.

Lemma hourly_budget_enforced_witness :
  let q := mk_budget_request "pool" "pool-1" "purchase" 2 (hours 5 + seconds 7) in
  let served := serve [q; q; q] empty_db in
  served.2 = [(q, true); (q, true); (q, false)]
  ∧ used (bq_key q) served.1 <= 2
  ∧ (serve [q; q; q] empty_db).1 = (serve [q; q] empty_db).1.
Proof.
  cbv zeta. set (q := mk_budget_request "pool" "pool-1" "purchase" 2 (hours 5 + seconds 7)).
  split; [vm_compute; reflexivity|].
  destruct (hourly_budget_enforced [q; q; q] empty_db (bq_key q) 2) as (_ & Hb & _ & Hone & _).
  - intros q' Hq _. repeat (apply elem_of_cons in Hq as [->|Hq]; [simpl; lia|]).
    by apply not_elem_of_nil in Hq.
  - vm_compute. discriminate.
  - split; [exact Hb|]. destruct (Hone q [q; q] [] eq_refl) as (g & Hg & H). vm_compute in Hg.
    injection Hg as <-. exact (proj2 H).
Defined.
