(* ===== verification/SqlScan.v ===== *)
(** * Reading SQL text ([server/core/sql_classifier.py], [server/core/sql_gateway.py])

    The first keyword of a statement behind its leading comments, and the scan
    that shows the executable text of a statement without literals and inert
    comments, by which the gateway decides whether a connection may be reused.
    An index into the text is the suffix that starts there. *)

From S2P Require Import Prelude PyString.

(** ** Characters below code point 256 *)

Definition newline : ascii := ascii_of_nat 10.
Definition carriage_return : ascii := ascii_of_nat 13.
Definition single_quote : ascii := ascii_of_nat 39.
Definition double_quote : ascii := ascii_of_nat 34.
Definition back_slash : ascii := ascii_of_nat 92.
Definition back_tick : ascii := ascii_of_nat 96.

(** [c.isalpha()]: the ASCII and the Latin-1 letters. *)
Definition is_alpha (a : ascii) : bool :=
  let n := nat_of_ascii a in
  is_upper a || is_lower a
  || ((n =? 170) || (n =? 181) || (n =? 186)
      || (192 <=? n) && negb (n =? 215) && negb (n =? 247))%nat.

(** [c.isdigit()]: the ASCII digits and the superscripts. *)
Definition is_digit_char (a : ascii) : bool :=
  let n := nat_of_ascii a in
  is_digit a || ((n =? 178) || (n =? 179) || (n =? 185))%nat.

Fixpoint skip_while (p : ascii → bool) (s : string) : string :=
  match s with
  | EmptyString => EmptyString
  | String a s' => if p a then skip_while p s' else s
  end.

Fixpoint take_while (p : ascii → bool) (s : string) : string :=
  match s with
  | EmptyString => EmptyString
  | String a s' => if p a then String a (take_while p s') else EmptyString
  end.

(** ** Classification *)

Definition known_types : list string :=
  [ "SELECT"; "INSERT"; "UPDATE"; "DELETE"; "CREATE"; "ALTER"; "DROP"; "TRUNCATE";
    "SHOW"; "DESCRIBE"; "EXPLAIN"; "USE" ].

(** The text from the first character that is neither white space nor in a
    leading comment; each round consumes a comment. *)
Fixpoint skip_leading_trivia (fuel : nat) (sql : string) : string :=
  let s := skip_while is_space sql in
  match fuel with
  | O => s
  | S fuel =>
      match strip_prefix "--" s with
      | Some rest =>
          match split_once (String newline EmptyString) rest with
          | Some (_, after) => skip_leading_trivia fuel after
          | None => EmptyString
          end
      | None =>
          match strip_prefix "/*" s with
          | Some rest =>
              match split_once "*/" rest with
              | Some (_, after) => skip_leading_trivia fuel after
              | None => EmptyString
              end
          | None => s
          end
      end
  end.

Definition classify_sql (sql : option string) : string :=
  match sql with
  | None => "OTHER"
  | Some sql =>
      if String.eqb (strip sql) EmptyString then "OTHER"
      else
        let keyword := upper (take_while is_alpha (skip_leading_trivia (String.length sql) sql)) in
        if bool_decide (keyword ∈ known_types) then keyword else "OTHER"
  end.

(** ** The session scan *)

(** Behind the literal opened by [quote]: a backslash hides the next character,
    a doubled quote is part of the literal. *)
Fixpoint skip_literal (fuel : nat) (quote : ascii) (s : string) : string :=
  match fuel with
  | O => s
  | S fuel =>
      match s with
      | EmptyString => EmptyString
      | String a rest =>
          match rest with
          | String b rest' =>
              if Ascii.eqb a back_slash then skip_literal fuel quote rest'
              else if Ascii.eqb a quote then
                if Ascii.eqb b quote then skip_literal fuel quote rest' else rest
              else skip_literal fuel quote rest
          | EmptyString => EmptyString
          end
      end
  end.

(** The first line end of either kind and what follows it. *)
Fixpoint split_line_end (s : string) : option (ascii * string) :=
  match s with
  | EmptyString => None
  | String a s' =>
      if Ascii.eqb a carriage_return || Ascii.eqb a newline then Some (a, s') else split_line_end s'
  end.

(** What an executable comment runs: its text without the version and the
    white space after it. *)
Definition executable_content (body : string) : string :=
  skip_while is_space (skip_while is_digit_char body).

Fixpoint sql_code_for_session_scan (fuel : nat) (sql : string) : string :=
  match fuel with
  | O => EmptyString
  | S fuel =>
      match sql with
      | EmptyString => EmptyString
      | String char rest =>
          if Ascii.eqb char single_quote || Ascii.eqb char double_quote then
            String " " (sql_code_for_session_scan fuel (skip_literal (String.length rest) char rest))
          else
            match strip_prefix "--" sql with
            | Some after =>
                match split_line_end after with
                | None => EmptyString
                | Some (a, after) => String a (sql_code_for_session_scan fuel after)
                end
            | None =>
                if Ascii.eqb char "#" then
                  match split_line_end rest with
                  | None => EmptyString
                  | Some (a, after) => String a (sql_code_for_session_scan fuel after)
                  end
                else
                  match strip_prefix "/*" sql with
                  | Some inner =>
                      match split_once "*/" inner with
                      | None => EmptyString
                      | Some (body, after) =>
                          (match strip_prefix "!" body with
                           | Some body =>
                               " " +:+ sql_code_for_session_scan fuel (executable_content body) +:+ " "
                           | None => " "
                           end) +:+ sql_code_for_session_scan fuel after
                      end
                  | None => String char (sql_code_for_session_scan fuel rest)
                  end
            end
      end
  end.

Fixpoint string_filter (p : ascii → bool) (s : string) : string :=
  match s with
  | EmptyString => EmptyString
  | String a s' => if p a then String a (string_filter p s') else string_filter p s'
  end.

Definition session_branch_patterns : list string :=
  [ "@@session.branch"; "@@local.branch"; "@@branch"; "setsessionbranch="; "setlocalbranch=";
    "setbranch=" ].

Definition session_scan (sql : string) : string :=
  sql_code_for_session_scan (String.length sql) sql.

Definition mentions_session_branch (sql : string) : bool :=
  let normalized :=
    string_filter (λ a, negb (Ascii.eqb a back_tick))
      (string_filter (λ a, negb (is_space a)) (lower (session_scan sql))) in
  existsb (λ pattern, contains pattern normalized) session_branch_patterns.

Example scan_hides_literals :
  mentions_session_branch "SELECT '@@session.branch' /* @@branch */ -- @@branch" = false.
Proof. vm_compute. reflexivity. Qed.
Example scan_sees_executable_comments :
  mentions_session_branch "/*!80000 SET  `Session` branch */ = 'b'" = true.
Proof. vm_compute. reflexivity. Qed.
