(* ===== verification/SqlScanTheorems.v ===== *)
(** * The scan computes the executable text

    A statement is built from code characters, literals, comments and
    executable comments; the scan shows the code, a blank for each literal and
    inert comment, and the content of executable comments. *)

From S2P Require Import Prelude PyString SqlScan.

(** ** Lengths *)

Lemma strip_prefix_length p s t :
  strip_prefix p s = Some t → String.length s = (String.length p + String.length t)%nat.
Proof.
  revert s. induction p as [|a p IH]; intros s; simpl; [by intros [= ->]|].
  destruct s as [|b s]; [done|]. destruct (Ascii.eqb a b); [|done]. intros H. simpl. by rewrite (IH _ H).
Qed.

Lemma split_once_length sep s x t :
  split_once sep s = Some (x, t) →
  String.length s = (String.length x + String.length sep + String.length t)%nat.
Proof.
  revert x. induction s as [|a s IH]; intros x H; simpl in H.
  - destruct (strip_prefix sep EmptyString) eqn:E; [|done]. injection H as <- <-.
    by apply strip_prefix_length in E.
  - destruct (strip_prefix sep (String a s)) eqn:E.
    + injection H as <- <-. by apply strip_prefix_length in E.
    + destruct (split_once sep s) as [[y u]|]; [|done]. injection H as <- <-. simpl. by rewrite (IH y).
Qed.

Lemma skip_while_length p s : (String.length (skip_while p s) <= String.length s)%nat.
Proof. induction s as [|a s IH]; simpl; [lia|]. destruct (p a); simpl; lia. Qed.

Lemma skip_literal_length fuel q s : (String.length (skip_literal fuel q s) <= String.length s)%nat.
Proof.
  revert s. induction fuel as [|fuel IH]; intros s; simpl; [lia|].
  destruct s as [|a [|b s]]; simpl; [lia|lia|].
  destruct (Ascii.eqb a back_slash); [specialize (IH s); lia|].
  destruct (Ascii.eqb a q); [destruct (Ascii.eqb b q); [specialize (IH s); lia|simpl; lia]|].
  specialize (IH (String b s)). simpl in IH. lia.
Qed.

Lemma split_line_end_length s a t : split_line_end s = Some (a, t) → (String.length t < String.length s)%nat.
Proof.
  induction s as [|b s IH]; simpl; [done|].
  destruct (_ || _); [intros [= <- <-]; lia|]. intros H. specialize (IH H). lia.
Qed.

Lemma executable_content_length s : (String.length (executable_content s) <= String.length s)%nat.
Proof.
  unfold executable_content. pose proof (skip_while_length is_digit_char s).
  pose proof (skip_while_length is_space (skip_while is_digit_char s)). lia.
Qed.

(** ** Fuel *)

(** The length of the text is enough fuel for it, and more changes nothing. *)
Lemma scan_fuel f1 f2 s :
  (String.length s <= f1)%nat → (String.length s <= f2)%nat →
  sql_code_for_session_scan f1 s = sql_code_for_session_scan f2 s.
Proof.
  revert f2 s. induction f1 as [|f1 IH]; intros f2 s H1 H2.
  { destruct s; [|simpl in H1; lia]. by destruct f2. }
  destruct f2 as [|f2]; [destruct s; [done|simpl in H2; lia]|].
  destruct s as [|a s]; [done|]. simpl in H1, H2.
  cbn [sql_code_for_session_scan].
  destruct (Ascii.eqb a single_quote || Ascii.eqb a double_quote).
  { f_equal. pose proof (skip_literal_length (String.length s) a s). apply IH; lia. }
  destruct (strip_prefix "--" (String a s)) as [r|] eqn:Ed.
  { apply strip_prefix_length in Ed. simpl in Ed.
    destruct (split_line_end r) as [[e t]|] eqn:El; [|done]. apply split_line_end_length in El.
    f_equal. apply IH; lia. }
  destruct (Ascii.eqb a "#").
  { destruct (split_line_end s) as [[e t]|] eqn:El; [|done]. apply split_line_end_length in El.
    f_equal. apply IH; lia. }
  destruct (strip_prefix "/*" (String a s)) as [r|] eqn:Eb; [|f_equal; apply IH; lia].
  apply strip_prefix_length in Eb. simpl in Eb.
  destruct (split_once "*/" r) as [[body t]|] eqn:Es; [|done]. apply split_once_length in Es. simpl in Es.
  rewrite (IH f2 t) by lia. destruct (strip_prefix "!" body) as [body1|] eqn:Ex; [|done].
  apply strip_prefix_length in Ex. simpl in Ex. pose proof (executable_content_length body1).
  rewrite (IH f2 (executable_content body1)) by lia. done.
Qed.

Lemma session_scan_fuel f s :
  (String.length s <= f)%nat → sql_code_for_session_scan f s = session_scan s.
Proof. intros H. by apply scan_fuel. Qed.

(** One character of the scan. *)
Lemma session_scan_eq sql :
  session_scan sql =
  match sql with
  | EmptyString => EmptyString
  | String char rest =>
      if Ascii.eqb char single_quote || Ascii.eqb char double_quote then
        String " " (session_scan (skip_literal (String.length rest) char rest))
      else
        match strip_prefix "--" sql with
        | Some after =>
            match split_line_end after with
            | None => EmptyString
            | Some (a, after) => String a (session_scan after)
            end
        | None =>
            if Ascii.eqb char "#" then
              match split_line_end rest with
              | None => EmptyString
              | Some (a, after) => String a (session_scan after)
              end
            else
              match strip_prefix "/*" sql with
              | Some inner =>
                  match split_once "*/" inner with
                  | None => EmptyString
                  | Some (body, after) =>
                      (match strip_prefix "!" body with
                       | Some body => " " +:+ session_scan (executable_content body) +:+ " "
                       | None => " "
                       end) +:+ session_scan after
                  end
              | None => String char (session_scan rest)
              end
        end
  end.
Proof.
  destruct sql as [|a s]; [done|]. unfold session_scan at 1. cbn [String.length sql_code_for_session_scan].
  destruct (Ascii.eqb a single_quote || Ascii.eqb a double_quote).
  { f_equal. apply session_scan_fuel, skip_literal_length. }
  destruct (strip_prefix "--" (String a s)) as [r|] eqn:Ed.
  { apply strip_prefix_length in Ed. simpl in Ed.
    destruct (split_line_end r) as [[e t]|] eqn:El; [|done]. apply split_line_end_length in El.
    f_equal. apply session_scan_fuel. lia. }
  destruct (Ascii.eqb a "#").
  { destruct (split_line_end s) as [[e t]|] eqn:El; [|done]. apply split_line_end_length in El.
    f_equal. apply session_scan_fuel. lia. }
  destruct (strip_prefix "/*" (String a s)) as [r|] eqn:Eb; [|done].
  apply strip_prefix_length in Eb. simpl in Eb.
  destruct (split_once "*/" r) as [[body t]|] eqn:Es; [|done]. apply split_once_length in Es. simpl in Es.
  rewrite (session_scan_fuel (String.length s) t) by lia.
  destruct (strip_prefix "!" body) as [body1|] eqn:Ex; [|done].
  apply strip_prefix_length in Ex. simpl in Ex. pose proof (executable_content_length body1).
  by rewrite (session_scan_fuel (String.length s) (executable_content body1)) by lia.
Qed.

(** ** Statements *)

(** Inside a literal: a character, an escaped one, or the doubled quote. *)
Inductive literal_unit : Set := Plain (a : ascii) | Escaped (a : ascii) | Doubled.

(** How the text ends: complete, or inside a literal (perhaps after a lone
    backslash) or a comment that is never closed. *)
Inductive ending : Set :=
  | Complete
  | OpenLiteral (quote : ascii) (body : list literal_unit) (escape : bool)
  | OpenLine (hash : bool) (text : string)
  | OpenBlock (text : string).

Inductive token : Set :=
  | Code (a : ascii)
  | Literal (quote : ascii) (body : list literal_unit)
  | LineComment (hash : bool) (text : string) (line_end : ascii)
  | BlockComment (text : string)
  | Executable (version blanks : string) (content : list token) (last : ending).

Section concatenation.
  Context {A : Type} (f : A → string).
Fixpoint concat_with (l : list A) : string :=
  match l with [] => EmptyString | x :: l => f x +:+ concat_with l end.
End concatenation.

Definition char_string (a : ascii) : string := String a EmptyString.

Definition render_unit (quote : ascii) (u : literal_unit) : string :=
  match u with
  | Plain a => char_string a
  | Escaped a => String back_slash (char_string a)
  | Doubled => String quote (char_string quote)
  end.

Definition line_opener (hash : bool) : string := if hash then "#" else "--".

Definition render_ending (e : ending) : string :=
  match e with
  | Complete => EmptyString
  | OpenLiteral q body escape =>
      char_string q +:+ concat_with (render_unit q) body
      +:+ (if escape then char_string back_slash else EmptyString)
  | OpenLine hash text => line_opener hash +:+ text
  | OpenBlock text => "/*" +:+ text
  end.

Fixpoint render_token (t : token) : string :=
  match t with
  | Code a => char_string a
  | Literal q body => char_string q +:+ concat_with (render_unit q) body +:+ char_string q
  | LineComment hash text a => line_opener hash +:+ text +:+ char_string a
  | BlockComment text => "/*" +:+ text +:+ "*/"
  | Executable version blanks content last =>
      "/*!" +:+ version +:+ blanks +:+ concat_with render_token content +:+ render_ending last +:+ "*/"
  end.

Definition render (l : list token) (e : ending) : string :=
  concat_with render_token l +:+ render_ending e.

(** What the server may execute of it: code, blanks for literals and inert
    comments, line ends of line comments, the content of executable comments. *)
Definition visible_ending (e : ending) : string :=
  match e with OpenLiteral _ _ _ => " " | _ => EmptyString end.

Fixpoint visible_token (t : token) : string :=
  match t with
  | Code a => char_string a
  | Literal _ _ => " "
  | LineComment _ _ a => char_string a
  | BlockComment _ => " "
  | Executable _ _ content last => " " +:+ concat_with visible_token content +:+ visible_ending last +:+ " "
  end.

Definition visible (l : list token) (e : ending) : string :=
  concat_with visible_token l +:+ visible_ending e.

(** ** Which token sequences are readings of a text *)

Definition is_quote (a : ascii) : bool := Ascii.eqb a single_quote || Ascii.eqb a double_quote.
Definition is_line_end (a : ascii) : bool := Ascii.eqb a carriage_return || Ascii.eqb a newline.
Definition starts (p s : string) : bool := bool_decide (is_Some (strip_prefix p s)).

(** The first character of [s] satisfies [p]. *)
Definition head_is (p : ascii → bool) (s : string) : bool :=
  match s with EmptyString => false | String a _ => p a end.

Definition unit_ok (quote : ascii) (u : literal_unit) : bool :=
  match u with
  | Plain a => negb (Ascii.eqb a back_slash) && negb (Ascii.eqb a quote)
  | _ => true
  end.

Definition literal_ok (quote : ascii) (body : list literal_unit) : bool :=
  is_quote quote && forallb (unit_ok quote) body.

(** A comment text that its terminator really ends. *)
Definition block_ok (text : string) : bool := negb (contains "*/" (text +:+ "*")).

Definition ending_ok (e : ending) : bool :=
  match e with
  | Complete => true
  | OpenLiteral q body _ => literal_ok q body
  | OpenLine _ text => string_forallb (λ a, negb (is_line_end a)) text
  | OpenBlock text => negb (contains "*/" text)
  end.

(** A token in front of [after]. *)
Fixpoint token_ok (t : token) (after : string) : bool :=
  match t with
  | Code a =>
      negb (is_quote a) && negb (Ascii.eqb a "#") && negb (starts "--" (String a after))
      && negb (starts "/*" (String a after))
  | Literal q body => literal_ok q body && negb (head_is (Ascii.eqb q) after)
  | LineComment _ text a => string_forallb (λ a, negb (is_line_end a)) text && is_line_end a
  | BlockComment text => block_ok text && negb (starts "!" text)
  | Executable version blanks content last =>
      let inner := concat_with render_token content +:+ render_ending last in
      string_forallb is_digit_char version && string_forallb is_space blanks
      && negb (head_is is_space inner)
      && (negb (String.eqb blanks EmptyString) || negb (head_is is_digit_char inner))
      && block_ok ("!" +:+ version +:+ blanks +:+ inner)
      && (fix go l := match l with
                      | [] => ending_ok last
                      | t :: l => token_ok t (concat_with render_token l +:+ render_ending last) && go l
                      end) content
  end.

Fixpoint tokens_ok (l : list token) (e : ending) : bool :=
  match l with
  | [] => ending_ok e
  | t :: l => token_ok t (render l e) && tokens_ok l e
  end.

(** ** The scan of one token *)

Lemma is_quote_not_backslash q : is_quote q = true → Ascii.eqb back_slash q = false.
Proof. unfold is_quote. rewrite orb_true_iff, !Ascii.eqb_eq. by intros [->| ->]. Qed.

Lemma eqb_sym_false a b : Ascii.eqb a b = false → Ascii.eqb b a = false.
Proof. intros H. by rewrite Ascii.eqb_sym. Qed.

Lemma literal_ok_spec q body :
  literal_ok q body = true → is_quote q = true ∧ forallb (unit_ok q) body = true.
Proof. apply andb_true_iff. Qed.

Lemma head_is_eqb q s :
  head_is (Ascii.eqb q) s = false → s = EmptyString ∨ ∃ a s', s = String a s' ∧ Ascii.eqb a q = false.
Proof. destruct s as [|a s]; [by left|]. simpl. intros H. right. eauto using eqb_sym_false. Qed.

Lemma skip_closed q body after fuel :
  literal_ok q body = true → head_is (Ascii.eqb q) after = false →
  let s := concat_with (render_unit q) body +:+ String q after in
  (String.length s <= fuel)%nat → skip_literal fuel q s = after.
Proof.
  intros [Hq Hb]%literal_ok_spec Ha. pose proof (is_quote_not_backslash _ Hq) as Hqb. simpl.
  revert fuel. induction body as [|u body IH]; intros fuel Hf.
  - destruct fuel as [|fuel]; [simpl in Hf; lia|]. simpl.
    destruct (head_is_eqb _ _ Ha) as [->|(a & s & -> & Hqa)]; [done|].
    by rewrite (Ascii.eqb_sym q), Hqb, Ascii.eqb_refl, Hqa.
  - simpl in Hb. apply andb_true_iff in Hb as [Hu Hb]. specialize (IH Hb).
    simpl concat_with in Hf |- *. rewrite app_assoc_str in Hf |- *. rewrite length_app_str in Hf.
    destruct u as [a|a|]; simpl in Hf |- *; (destruct fuel as [|fuel]; [lia|]); simpl.
    + simpl in Hu. apply andb_true_iff in Hu as [Hu1 Hu2]. rewrite negb_true_iff in Hu1, Hu2.
      destruct (_ +:+ String q after) as [|b s] eqn:E; [by destruct (concat_with _ body)|].
      rewrite Hu1, Hu2. apply IH. lia.
    + apply IH. lia.
    + rewrite (Ascii.eqb_sym q), Hqb, !Ascii.eqb_refl. apply IH. lia.
Qed.

Lemma skip_open q body (escape : bool) fuel :
  literal_ok q body = true →
  let s := concat_with (render_unit q) body
           +:+ (if escape then char_string back_slash else EmptyString) in
  (String.length s <= fuel)%nat → skip_literal fuel q s = EmptyString.
Proof.
  intros [Hq Hb]%literal_ok_spec. pose proof (is_quote_not_backslash _ Hq) as Hqb. simpl.
  revert fuel. induction body as [|u body IH]; intros fuel Hf.
  - destruct escape, fuel; simpl in Hf |- *; done || lia.
  - simpl in Hb. apply andb_true_iff in Hb as [Hu Hb]. specialize (IH Hb).
    simpl concat_with in Hf |- *. rewrite app_assoc_str in Hf |- *. rewrite length_app_str in Hf.
    destruct u as [a|a|]; simpl in Hf |- *; (destruct fuel as [|fuel]; [lia|]); simpl.
    + simpl in Hu. apply andb_true_iff in Hu as [Hu1 Hu2]. rewrite negb_true_iff in Hu1, Hu2.
      destruct (_ +:+ (if escape then _ else _)) as [|b s] eqn:E; [done|].
      rewrite Hu1, Hu2. apply IH. lia.
    + apply IH. lia.
    + rewrite (Ascii.eqb_sym q), Hqb, !Ascii.eqb_refl. apply IH. lia.
Qed.

Lemma split_line_end_here text a after :
  string_forallb (λ a, negb (is_line_end a)) text = true → is_line_end a = true →
  split_line_end (text +:+ String a after) = Some (a, after).
Proof.
  unfold is_line_end. intros Ht Ha. induction text as [|b text IH]; [simpl; by rewrite Ha|].
  rewrite app_cons. simpl in Ht |- *. apply andb_true_iff in Ht as [Hb Ht]. rewrite negb_true_iff in Hb. rewrite Hb. by apply IH.
Qed.

Lemma split_line_end_none text :
  string_forallb (λ a, negb (is_line_end a)) text = true → split_line_end text = None.
Proof.
  unfold is_line_end. induction text as [|b text IH]; simpl; [done|].
  intros [Hb Ht]%andb_true_iff. rewrite negb_true_iff in Hb. rewrite Hb. by apply IH.
Qed.

Lemma strip_star_slash a s :
  strip_prefix "*/" (String a s) = None ↔ Ascii.eqb "*" a && head_is (Ascii.eqb "/") s = false.
Proof.
  cbn [strip_prefix head_is]. destruct (Ascii.eqb "*" a); cbn [andb]; [|by split].
  destruct s as [|b s]; [by split|]. cbn [strip_prefix head_is]. by destruct (Ascii.eqb "/" b).
Qed.

Lemma split_once_cons sep a s :
  strip_prefix sep (String a s) = None →
  split_once sep (String a s) =
    match split_once sep s with Some (x, y) => Some (String a x, y) | None => None end.
Proof. intros H. cbn [split_once]. by rewrite H. Qed.

Lemma contains_cons sep a s :
  contains sep (String a s) = false → strip_prefix sep (String a s) = None ∧ contains sep s = false.
Proof.
  unfold contains. cbn [split_once]. destruct (strip_prefix sep (String a s)); [done|].
  destruct (split_once sep s) as [[??]|]; done.
Qed.

Lemma not_contains_cons sep a s :
  strip_prefix sep (String a s) = None → contains sep s = false → contains sep (String a s) = false.
Proof. intros H. unfold contains. rewrite split_once_cons by done. by destruct (split_once sep s) as [[??]|]. Qed.

Lemma strip_prefix_spec p s t : strip_prefix p s = Some t → s = p +:+ t.
Proof.
  revert s. induction p as [|a p IH]; intros s; simpl; [by intros [= ->]|].
  destruct s as [|b s]; [done|]. destruct (Ascii.eqb_spec a b) as [->|]; [|done].
  intros H. by rewrite (IH s H).
Qed.

Lemma head_is_app p s t u : head_is p (s +:+ String t u) = head_is p (s +:+ char_string t).
Proof. by destruct s. Qed.

Lemma block_terminated text after :
  block_ok text = true → split_once "*/" (text +:+ "*/" +:+ after) = Some (text, after).
Proof.
  unfold block_ok. rewrite negb_true_iff.
  induction text as [|a text IH]; intros H; [apply (split_once_here "*/" after)|].
  rewrite !app_cons in H |- *. apply contains_cons in H as [Hs Hc].
  rewrite split_once_cons; [by rewrite IH|].
  rewrite strip_star_slash in Hs |- *. by rewrite (head_is_app _ text "*" (String "/" after)).
Qed.

Lemma skip_while_all p s t :
  string_forallb p s = true → head_is p t = false → skip_while p (s +:+ t) = t.
Proof.
  intros Hs Ht. induction s as [|a s IH].
  - destruct t as [|b t]; [done|]. simpl in Ht |- *. by rewrite Ht.
  - rewrite app_cons. simpl in Hs |- *. apply andb_true_iff in Hs as [-> Hs]. by apply IH.
Qed.

Lemma space_not_digit a : is_space a = true → is_digit_char a = false.
Proof. by destruct a as [[] [] [] [] [] [] [] []]. Qed.

Lemma executable_content_here version blanks inner :
  string_forallb is_digit_char version = true → string_forallb is_space blanks = true →
  head_is is_space inner = false →
  negb (String.eqb blanks EmptyString) || negb (head_is is_digit_char inner) = true →
  executable_content (version +:+ blanks +:+ inner) = inner.
Proof.
  intros Hv Hb Hs Hd. unfold executable_content. rewrite skip_while_all; [by apply skip_while_all|done|].
  destruct blanks as [|b blanks]; simpl in Hd |- *; [by apply negb_true_iff|].
  simpl in Hb. apply andb_true_iff in Hb as [Hb _]. by apply space_not_digit.
Qed.

(** ** The scan of a statement *)

Lemma token_rect' (P : token → Prop) :
  (∀ a, P (Code a)) → (∀ q body, P (Literal q body)) → (∀ h text a, P (LineComment h text a)) →
  (∀ text, P (BlockComment text)) →
  (∀ version blanks content last, Forall P content → P (Executable version blanks content last)) →
  ∀ t, P t.
Proof.
  intros H1 H2 H3 H4 H5. fix IH 1. intros [a|q body|h text a|text|version blanks content last];
    [apply H1|apply H2|apply H3|apply H4|].
  apply H5. induction content as [|t content IHc]; [by constructor|]. by constructor; [apply IH|].
Qed.

Definition scans_token (t : token) : Prop :=
  ∀ after, token_ok t after = true →
    session_scan (render_token t +:+ after) = visible_token t +:+ session_scan after.

Lemma starts_false p s : negb (starts p s) = true → strip_prefix p s = None.
Proof. unfold starts. rewrite negb_true_iff, bool_decide_eq_false. by intros H%eq_None_not_Some. Qed.

Lemma scan_block inner :
  session_scan ("/*" +:+ inner) =
  match split_once "*/" inner with
  | None => EmptyString
  | Some (body, after) =>
      (match strip_prefix "!" body with
       | Some body => " " +:+ session_scan (executable_content body) +:+ " "
       | None => " "
       end) +:+ session_scan after
  end.
Proof. by rewrite session_scan_eq. Qed.

Lemma scan_ending e : ending_ok e = true → session_scan (render_ending e) = visible_ending e.
Proof.
  destruct e as [|q body escape|h text|text]; cbn [ending_ok]; intros H; [done|..].
  - rewrite session_scan_eq. simpl. destruct (literal_ok_spec _ _ H) as [Hq _]. unfold is_quote in Hq.
    rewrite Hq. by rewrite (skip_open q body escape).
  - rewrite session_scan_eq. destruct h; simpl; by rewrite split_line_end_none.
  - cbn [render_ending]. rewrite scan_block. unfold contains in H.
    by destruct (split_once "*/" text) as [[??]|].
Qed.

Lemma scan_tokens l e :
  Forall scans_token l → tokens_ok l e = true → session_scan (render l e) = visible l e.
Proof.
  intros Hl. unfold render, visible. induction Hl as [|t l Ht Hl IH]; simpl; [apply scan_ending|].
  intros [Hok Hoks]%andb_true_iff. rewrite !app_assoc_str, Ht by done. by rewrite IH.
Qed.

Lemma token_ok_executable version blanks content last after :
  token_ok (Executable version blanks content last) after = true →
  let inner := render content last in
  tokens_ok content last = true ∧ block_ok ("!" +:+ version +:+ blanks +:+ inner) = true
  ∧ executable_content (version +:+ blanks +:+ inner) = inner.
Proof.
  cbn [token_ok]. intros H. do 5 (apply andb_true_iff in H as [H ?]).
  split_and!; [|done|].
  - clear -H0. induction content as [|t l IH]; [done|].
    apply andb_true_iff in H0 as [Ht Hl]. simpl. apply andb_true_iff. split; [done|by apply IH].
  - apply executable_content_here; try done. by apply negb_true_iff.
Qed.

Lemma scan_executable version blanks content last :
  Forall scans_token content → scans_token (Executable version blanks content last).
Proof.
  intros IH after Hok. apply token_ok_executable in Hok as (Hok & Hb & Hx).
  set (body := version +:+ blanks +:+ render content last) in *.
  assert (render_token (Executable version blanks content last) +:+ after
          = "/*" +:+ ("!" +:+ body) +:+ "*/" +:+ after) as ->.
  { unfold body, render. simpl. by rewrite !app_assoc_str. }
  rewrite scan_block, block_terminated by done.
  change ("!" +:+ body) with (String "!" body). cbn -[session_scan String.append].
  rewrite Hx, scan_tokens by done. unfold visible. simpl. by rewrite !app_assoc_str.
Qed.

Lemma scan_token t : scans_token t.
Proof.
  induction t as [a|q body|h text a|text|version blanks content last IH] using token_rect';
    [intros after Hok..|by apply scan_executable].
  - cbn [token_ok] in Hok. do 3 (apply andb_true_iff in Hok as [Hok ?]). apply negb_true_iff in Hok.
    change (session_scan (String a after) = String a (session_scan after)).
    rewrite session_scan_eq. unfold is_quote in Hok. rewrite Hok, !starts_false by done.
    by destruct (Ascii.eqb a "#").
  - apply andb_true_iff in Hok as [Hok Ha]. apply negb_true_iff in Ha.
    assert (render_token (Literal q body) +:+ after
            = String q (concat_with (render_unit q) body +:+ String q after)) as ->
      by (cbn [render_token]; by rewrite !app_assoc_str).
    rewrite session_scan_eq. destruct (literal_ok_spec _ _ Hok) as [Hq _]. unfold is_quote in Hq.
    by rewrite Hq, skip_closed.
  - apply andb_true_iff in Hok as [Ht Ha].
    assert (render_token (LineComment h text a) +:+ after
            = line_opener h +:+ text +:+ String a after) as ->
      by (cbn [render_token]; by rewrite !app_assoc_str).
    pose proof (split_line_end_here text a after Ht Ha) as Hsplit. revert Hsplit.
    generalize (text +:+ String a after). intros s Hsplit.
    rewrite session_scan_eq. destruct h; [change (line_opener true +:+ s) with (String "#" s)
      |change (line_opener false +:+ s) with (String "-" (String "-" s))]; simpl; by rewrite Hsplit.
  - simpl in Hok. apply andb_true_iff in Hok as [Hb Hx].
    cbn [render_token]. rewrite !app_assoc_str, scan_block, block_terminated by done.
    by rewrite starts_false.
Qed.

(** ** Every text is a statement *)

(** Behind an opening quote the literal is closed, or the text ends in it. *)
Definition literal_read (q : ascii) (s : string) : Prop :=
  (∃ body after, literal_ok q body = true ∧ head_is (Ascii.eqb q) after = false
     ∧ s = concat_with (render_unit q) body +:+ String q after)
  ∨ (∃ body escape, literal_ok q body = true
     ∧ s = concat_with (render_unit q) body
           +:+ (if escape : bool then char_string back_slash else EmptyString)).

Lemma literal_read_unit q u s :
  unit_ok q u = true → literal_read q s → literal_read q (render_unit q u +:+ s).
Proof.
  intros Hu [(body & after & Hb & Ha & ->)|(body & escape & Hb & ->)]; [left|right]; exists (u :: body);
    [exists after|exists escape]; simpl; rewrite app_assoc_str; unfold literal_ok in *; simpl;
    by rewrite Hu.
Qed.

Lemma literal_reads q n s : is_quote q = true → (String.length s <= n)%nat → literal_read q s.
Proof.
  intros Hq. assert (literal_ok q [] = true) as Hnil by (unfold literal_ok; by rewrite Hq).
  revert s. induction n as [n IH] using lt_wf_ind. intros s Hn.
  assert (∀ u t, (String.length t < String.length s)%nat → unit_ok q u = true →
            s = render_unit q u +:+ t → literal_read q s) as Hunit.
  { intros u t Ht Hu ->. apply literal_read_unit; [done|]. apply (IH (String.length t)); lia. }
  destruct s as [|a s]; [right; by exists [], false|].
  destruct (Ascii.eqb_spec a back_slash) as [->|Ha].
  { destruct s as [|b s]; [right; by exists [], true|].
    apply (Hunit (Escaped b) s); simpl; [lia|done..]. }
  destruct (Ascii.eqb_spec a q) as [->|Haq].
  - destruct (head_is (Ascii.eqb q) s) eqn:Hs; [|left; by exists [], s].
    destruct s as [|b s]; [done|]. apply Ascii.eqb_eq in Hs as <-.
    apply (Hunit Doubled s); simpl; [lia|done..].
  - apply (Hunit (Plain a) s); simpl; [lia| |done]. rewrite andb_true_iff, !negb_true_iff, !Ascii.eqb_neq.
    done.
Qed.

Lemma line_reads s :
  match split_line_end s with
  | Some (a, after) => ∃ text, s = text +:+ String a after ∧ is_line_end a = true
      ∧ string_forallb (λ a, negb (is_line_end a)) text = true
  | None => string_forallb (λ a, negb (is_line_end a)) s = true
  end.
Proof.
  induction s as [|a s IH]; [done|]. cbn [split_line_end string_forallb]. fold (is_line_end a).
  destruct (is_line_end a) eqn:Ha; [by exists EmptyString|].
  destruct (split_line_end s) as [[b after]|]; [|done]. destruct IH as (text & -> & Hb & Ht).
  exists (String a text). cbn [string_forallb]. by rewrite Ha.
Qed.

Lemma split_once_spec sep s x t : split_once sep s = Some (x, t) → s = x +:+ sep +:+ t.
Proof.
  revert x. induction s as [|a s IH]; intros x H; cbn [split_once] in H.
  - destruct (strip_prefix sep EmptyString) eqn:E; [|done]. injection H as <- <-.
    by apply strip_prefix_spec in E.
  - destruct (strip_prefix sep (String a s)) eqn:E.
    + injection H as <- <-. by apply strip_prefix_spec in E.
    + destruct (split_once sep s) as [[y u]|]; [|done]. injection H as <- <-.
      rewrite app_cons. f_equal. by apply IH.
Qed.

Lemma block_reads s body after : split_once "*/" s = Some (body, after) → block_ok body = true.
Proof.
  unfold block_ok. rewrite negb_true_iff. revert body.
  induction s as [|a s IH]; intros body H; [done|]. cbn [split_once] in H.
  destruct (strip_prefix "*/" (String a s)) eqn:E; [by injection H as <- <-|].
  destruct (split_once "*/" s) as [[y u]|] eqn:Es; [|done]. injection H as <- <-.
  specialize (IH y eq_refl). apply split_once_spec in Es as ->.
  rewrite app_cons. apply not_contains_cons; [|done]. rewrite strip_star_slash in E |- *.
  by rewrite (head_is_app _ y "*" (String "/" u)) in E.
Qed.

Definition readable (s : string) : Prop := ∃ l e, tokens_ok l e = true ∧ render l e = s.

Lemma readable_token t after :
  token_ok t after = true → readable after → readable (render_token t +:+ after).
Proof.
  intros Ht (l & e & Hl & <-). exists (t :: l), e. cbn [tokens_ok]. rewrite Ht.
  split; [done|]. unfold render. simpl. by rewrite app_assoc_str.
Qed.

Lemma readable_ending e : ending_ok e = true → readable (render_ending e).
Proof. intros H. by exists [], e. Qed.

Lemma take_skip p s : take_while p s +:+ skip_while p s = s.
Proof.
  induction s as [|a s IH]; [done|]. cbn [take_while skip_while]. destruct (p a); [|done].
  rewrite app_cons. by rewrite IH.
Qed.

Lemma take_while_all p s : string_forallb p (take_while p s) = true.
Proof.
  induction s as [|a s IH]; [done|]. cbn [take_while]. destruct (p a) eqn:E; [|done]. simpl. by rewrite E.
Qed.

Lemma skip_while_head p s : head_is p (skip_while p s) = false.
Proof. induction s as [|a s IH]; [done|]. cbn [skip_while]. by destruct (p a) eqn:E. Qed.

Lemma executable_ok body after l e :
  block_ok (String "!" body) = true → tokens_ok l e = true → render l e = executable_content body →
  token_ok (Executable (take_while is_digit_char body)
              (take_while is_space (skip_while is_digit_char body)) l e) after = true.
Proof.
  intros Hb Hl Hr. cbn [token_ok]. fold (render l e). rewrite !take_while_all. cbn [andb].
  rewrite Hr. unfold executable_content at 1 2 3. rewrite skip_while_head, !take_skip. cbn [negb andb].
  change ("!" +:+ body) with (String "!" body). rewrite Hb, andb_true_r.
  assert (negb (String.eqb (take_while is_space (skip_while is_digit_char body)) EmptyString)
          || negb (head_is is_digit_char (skip_while is_space (skip_while is_digit_char body))) = true) as ->.
  { pose proof (skip_while_head is_digit_char body) as Hd.
    destruct (skip_while is_digit_char body) as [|a s]; [done|]. cbn [take_while skip_while].
    destruct (is_space a); [done|]. by rewrite Hd. }
  clear -Hl. induction l as [|t l IH]; [done|]. cbn [tokens_ok] in Hl.
  apply andb_true_iff in Hl as [Ht Hl]. unfold render in Ht. rewrite Ht. by apply IH.
Qed.

Lemma text_readable n s : (String.length s <= n)%nat → readable s.
Proof.
  revert s. induction n as [n IH] using lt_wf_ind. intros s Hn.
  assert (∀ t, (String.length t < String.length s)%nat → readable t) as Hrec
    by (intros t Ht; apply (IH (String.length t)); lia).
  clear IH Hn n. destruct s as [|a s]; [by exists [], Complete|].
  destruct (is_quote a) eqn:Hq.
  { destruct (literal_reads a _ s Hq (le_n _)) as [(body & after & Hb & Ha & ->)|(body & escape & Hb & ->)];
      [|by apply (readable_ending (OpenLiteral a body escape))].
    assert (String a (concat_with (render_unit a) body +:+ String a after)
      = render_token (Literal a body) +:+ after) as ->
      by (cbn [render_token]; by rewrite !app_assoc_str).
    apply readable_token; [cbn [token_ok]; by rewrite Hb, Ha|]. apply Hrec. simpl.
    rewrite length_app_str. simpl. lia. }
  assert (∀ h rest, String a s = line_opener h +:+ rest →
            (String.length rest <= String.length s)%nat → readable (String a s)) as Hline.
  { intros h rest -> Hlen. pose proof (line_reads rest) as Hr.
    destruct (split_line_end rest) as [[b after]|];
      [|by apply (readable_ending (OpenLine h rest))].
    destruct Hr as (text & -> & Hb & Ht).
    assert (line_opener h +:+ text +:+ String b after = render_token (LineComment h text b) +:+ after) as ->
      by (cbn [render_token]; by rewrite !app_assoc_str).
    apply readable_token; [cbn [token_ok]; by rewrite Ht|]. apply Hrec. simpl.
    rewrite length_app_str in Hlen. simpl in Hlen. lia. }
  destruct (strip_prefix "--" (String a s)) as [rest|] eqn:Ed.
  { apply (Hline false rest); [by apply strip_prefix_spec in Ed|].
    apply strip_prefix_length in Ed. simpl in Ed. lia. }
  destruct (Ascii.eqb_spec a "#") as [->|Hh]; [by apply (Hline true s)|].
  destruct (strip_prefix "/*" (String a s)) as [inner|] eqn:Eb.
  - apply strip_prefix_length in Eb as Hlen. apply strip_prefix_spec in Eb. simpl in Hlen.
    rewrite Eb. clear Hline Ed. destruct (split_once "*/" inner) as [[body after]|] eqn:Es.
    2:{ apply (readable_ending (OpenBlock inner)). cbn [ending_ok]. unfold contains. by rewrite Es. }
    apply split_once_length in Es as Hlen2. simpl in Hlen2. apply block_reads in Es as Hb.
    assert (readable after) as Hafter by (apply Hrec; simpl; lia).
    assert (String.length body < String.length (String a s))%nat as Hbody by (simpl; lia).
    clear Hlen Hlen2. apply split_once_spec in Es as ->. destruct (strip_prefix "!" body) as [content|] eqn:Ex.
    + apply strip_prefix_length in Ex as Hlen3. cbn [String.length] in Hlen3.
      pose proof (executable_content_length content) as Hc.
      destruct (Hrec (executable_content content)) as (l & e & Hl & Hr); [lia|].
      apply strip_prefix_spec in Ex as ->.
      pose proof (executable_ok content after l e Hb Hl Hr) as Hok.
      assert ("/*" +:+ ("!" +:+ content) +:+ "*/" +:+ after
        = render_token (Executable (take_while is_digit_char content)
            (take_while is_space (skip_while is_digit_char content)) l e) +:+ after) as ->.
      { cbn [render_token]. rewrite !app_assoc_str.
        rewrite <- (app_assoc_str (concat_with _ _)). fold (render l e). rewrite Hr.
        unfold executable_content. rewrite <- (app_assoc_str (take_while is_space _)), take_skip.
        by rewrite <- (app_assoc_str (take_while is_digit_char _)), take_skip. }
      by apply readable_token.
    + assert ("/*" +:+ body +:+ "*/" +:+ after = render_token (BlockComment body) +:+ after) as ->
        by (cbn [render_token]; by rewrite !app_assoc_str).
      apply readable_token; [|done]. cbn [token_ok]. unfold starts. by rewrite Hb, Ex.
  - apply (readable_token (Code a) s); [|apply Hrec; simpl; lia]. cbn [token_ok]. unfold starts.
    rewrite Hq, Ed, Eb. apply Ascii.eqb_neq in Hh. by rewrite Hh.
Qed.

(** C20: The session scan shows exactly the executable text.  Every statement
    can be read as a sequence of characters of code, quoted literals (with
    escapes and doubled quotes), line and block comments and versioned
    executable comments, down to an unclosed literal or comment at its end;
    and however it is read so, the scan keeps the code, replaces each literal
    and each inert comment by a blank, keeps the line ends of line comments,
    and shows the content of executable comments, itself without literals and
    comments. *)
Theorem session_scan_tokens sql :
  (∃ l e, tokens_ok l e = true ∧ render l e = sql)
  ∧ ∀ l e, tokens_ok l e = true → render l e = sql → session_scan sql = visible l e.
Proof.
  split; [exact (text_readable _ sql (le_n _))|].
  intros l e Hok <-. by apply scan_tokens; [apply Forall_true, scan_token|].
Qed.

(** Two ways of setting the branch that [_mentions_session_branch] does not
    see: the other assignment operator, and a later assignment of a list. *)
Lemma branch_assignment_missed :
  mentions_session_branch "SET SESSION branch := 'b'" = false
  ∧ mentions_session_branch "SET autocommit = 1, SESSION branch = 'b'" = false
  ∧ mentions_session_branch "SET SESSION branch = 'b'" = true.
Proof. vm_compute. repeat split; reflexivity. Qed.
