(* ===== verification/ConnectionCache.v ===== *)
(** * The cache of database connections ([server/core/connection_cache.py])

    [ConnectionCache] keeps at most one idle connection per user and instance
    and leases it to one request at a time.  Its coroutines are cut at their
    awaits: a definition here is what runs from one await to the next, and
    returns what is awaited. *)

From S2P Require Import Prelude PyString Hashing.

(** [ConnectionPoolConfig] of [server/config.py]. *)
Record ConnectionPoolConfig : Type := mk_pool_config {
  max_connections_per_pool : Z;
  idle_timeout_seconds : Z;
  max_total_pools : Z;
  health_check : bool;
  cleanup_interval_s : Z
}.

Definition default_pool_config : ConnectionPoolConfig := mk_pool_config 5 1800 200 true 60.

(** [(user_id, instance_id)] *)
Abbreviation cache_key := (string * string)%type (only parsing).

(** What a request connects with. *)
Record Login : Type := mk_login {
  lg_host : string;
  lg_port : Z;
  lg_user : string;
  lg_password : string;
  lg_database : option string
}.

(** What a MySQL server keeps of a session, as far as the gateway touches it;
    without a [max_execution_time] of its own it has the server's. *)
Record MySQLSession : Type := mk_mysql_session {
  ms_database : option string;
  ms_branch : string;
  ms_autocommit : bool;
  ms_in_transaction : bool;
  ms_read_only : bool;
  ms_max_execution_time : option Z
}.
#[export] Instance MySQLSession_eta : Eta MySQLSession := λ r,
  mk_mysql_session (ms_database r) (ms_branch r) (ms_autocommit r) (ms_in_transaction r) (ms_read_only r)
    (ms_max_execution_time r).

(** A connection object of the driver: for which key and login it was opened,
    its session at the server and whether it was closed. *)
Record Connection : Type := mk_connection {
  cn_key : cache_key;
  cn_login : Login;
  cn_session : MySQLSession;
  cn_open : bool
}.
#[export] Instance Connection_eta : Eta Connection := λ r,
  mk_connection (cn_key r) (cn_login r) (cn_session r) (cn_open r).

(** [cc_conn] is the identity of the connection object, [id(conn)]. *)
Record CachedConnection : Type := mk_cached_connection {
  cc_conn : nat;
  cc_created_at : time;
  cc_last_used : time;
  cc_host : string;
  cc_port : Z;
  cc_user : string;
  cc_password_fingerprint : string;
  cc_database : option string
}.
#[export] Instance CachedConnection_eta : Eta CachedConnection := λ r,
  mk_cached_connection (cc_conn r) (cc_created_at r) (cc_last_used r) (cc_host r) (cc_port r)
    (cc_user r) (cc_password_fingerprint r) (cc_database r).

(** [_cache] and [_leased], with the driver's connections and the clock. *)
Record CacheState : Type := mk_cache_state {
  cs_cache : gmap cache_key CachedConnection;
  cs_leased : gmap (cache_key * nat) CachedConnection;
  cs_connections : gmap nat Connection;
  cs_now : time
}.
#[export] Instance CacheState_eta : Eta CacheState := λ r,
  mk_cache_state (cs_cache r) (cs_leased r) (cs_connections r) (cs_now r).

Definition empty_cache_state : CacheState := mk_cache_state ∅ ∅ ∅ 0.

Definition CONNECTION_LIMIT : PyExc := exc "SQLExecutionError" "Connection limit reached".

(** [size] *)
Definition cache_size (w : CacheState) : Z :=
  Z.of_nat (size (cs_cache w)) + Z.of_nat (size (cs_leased w)).

Definition close_connection (id : nat) (w : CacheState) : CacheState :=
  w <| cs_connections := alter (λ cn, cn <| cn_open := false |>) id (cs_connections w) |>.

Definition on_session (f : MySQLSession → MySQLSession) (id : nat) (w : CacheState) : CacheState :=
  w <| cs_connections := alter (λ cn, cn <| cn_session := f (cn_session cn) |>) id (cs_connections w) |>.

Definition pop_idle (k : cache_key) (w : CacheState) : CacheState :=
  w <| cs_cache := delete k (cs_cache w) |>.

Definition escape_backticks (s : string) : string :=
  (fix go (s : string) := match s with
                          | EmptyString => EmptyString
                          | String a s => if Ascii.eqb a "`" then String a (String a (go s)) else String a (go s)
                          end) s.

Definition use_statement (database : string) : string := "USE `" +:+ escape_backticks database +:+ "`".

Section connection_cache.
  Context (config : ConnectionPoolConfig) (fingerprint_key : list Z).

Definition password_fingerprint (password : string) : string :=
  hexdigest (hmac_sha256 fingerprint_key (utf8 password)).

(** ** [acquire] *)

(** What [acquire] does next, its key lock held. *)
Inductive acquire_next : Type :=
  | Ping (cached : CachedConnection)
  | UseDatabase (cached : CachedConnection) (database : string)
  | Connect
  | Leased (conn : nat).

Definition connection_identity_changed (cached : CachedConnection) (l : Login) : bool :=
  (cc_host cached != lg_host l) || (cc_port cached != lg_port l) || (cc_user cached != lg_user l)
  || (cc_password_fingerprint cached != password_fingerprint (lg_password l)).

Definition stale_database_context (cached : CachedConnection) (l : Login) : bool :=
  (lg_database l == None) && (cc_database cached != None).

Definition lease_idle (k : cache_key) (cached : CachedConnection) (w : CacheState) : CacheState :=
  let cached := cached <| cc_last_used := cs_now w |> in
  w <| cs_cache := delete k (cs_cache w) |>
    <| cs_leased := <[(k, cc_conn cached) := cached]> (cs_leased w) |>.

(** Behind the ping. *)
Definition acquire_pinged (k : cache_key) (l : Login) (cached : CachedConnection) (alive : bool)
    (w : CacheState) : CacheState * acquire_next :=
  if alive then
    if connection_identity_changed cached l || stale_database_context cached l then
      (pop_idle k (close_connection (cc_conn cached) w), Connect)
    else
      match lg_database l with
      | Some database =>
          if truthy (Some database) && (Some database != cc_database cached) then
            (w, UseDatabase cached database)
          else (lease_idle k cached w, Leased (cc_conn cached))
      | None => (lease_idle k cached w, Leased (cc_conn cached))
      end
  else (pop_idle k (close_connection (cc_conn cached) w), Connect).

(** From the key lock to the first await. *)
Definition acquire_lookup (k : cache_key) (l : Login) (w : CacheState) : CacheState * acquire_next :=
  match cs_cache w !! k with
  | Some cached =>
      if health_check config then (w, Ping cached) else acquire_pinged k l cached true w
  | None => (w, Connect)
  end.

(** Behind the [USE]: the connection with its new database, or closed. *)
Definition acquire_used (k : cache_key) (cached : CachedConnection) (database : string) (ok : bool)
    (w : CacheState) : CacheState :=
  if ok then lease_idle k (cached <| cc_database := Some database |>) w
  else pop_idle k (close_connection (cc_conn cached) w).

(** The capacity lock held: whether a connection may be opened. *)
Definition has_capacity (w : CacheState) : bool := cache_size w <? max_total_pools config.

(** A fresh session: [autocommit=True], the database of the login. *)
Definition fresh_session (database : option string) : MySQLSession :=
  mk_mysql_session (if truthy database then database else None) EmptyString true false false None.

Definition acquire_connected (k : cache_key) (l : Login) (conn : nat) (w : CacheState) : CacheState :=
  let cached := mk_cached_connection conn (cs_now w) (cs_now w) (lg_host l) (lg_port l) (lg_user l)
                  (password_fingerprint (lg_password l)) (lg_database l) in
  w <| cs_connections := <[conn := mk_connection k l (fresh_session (lg_database l)) true]>
                           (cs_connections w) |>
    <| cs_leased := <[(k, conn) := cached]> (cs_leased w) |>.

(** ** [release] *)

(** The idle connection of the key, if it is another one, is replaced. *)
Definition replace_idle (k : cache_key) (conn : nat) (w : CacheState) : CacheState :=
  pop_idle k
    match cs_cache w !! k with
    | Some idle => if (cc_conn idle =? conn)%nat then w else close_connection (cc_conn idle) w
    | None => w
    end.

(** From the key lock to the first await: the cached connection whose session
    is to be reset, or nothing more to do. *)
Definition release_locked (k : cache_key) (conn : nat) (discard : bool) (w : CacheState)
    : CacheState * option CachedConnection :=
  match cs_leased w !! (k, conn) with
  | None =>
      let w := match cs_cache w !! k with
               | Some idle => if (cc_conn idle =? conn)%nat then pop_idle k w else w
               | None => w
               end in
      (close_connection conn w, None)
  | Some cached =>
      let w := w <| cs_leased := delete (k, conn) (cs_leased w) |> in
      if discard then (replace_idle k conn (close_connection conn w), None) else (w, Some cached)
  end.

(** Behind the three resetting statements. *)
Definition release_reset (k : cache_key) (cached : CachedConnection) (ok : bool) (w : CacheState)
    : CacheState :=
  if ok then
    let w := replace_idle k (cc_conn cached) w in
    w <| cs_cache := <[k := cached <| cc_last_used := cs_now w |>]> (cs_cache w) |>
  else replace_idle k (cc_conn cached) (close_connection (cc_conn cached) w).

(** ** [cleanup_once] *)

Definition expired (w : CacheState) (cached : CachedConnection) : bool :=
  seconds (idle_timeout_seconds config) <? cs_now w - cc_last_used cached.

Definition evict_expired (w : CacheState) : CacheState :=
  foldr (λ e : cache_key * CachedConnection, λ w, pop_idle e.1 (close_connection (cc_conn e.2) w)) w
    (filter (λ e : cache_key * CachedConnection, expired w e.2 = true) (map_to_list (cs_cache w))).

(** A lock that is not locked, of a key without connections. *)
Definition stale_lock (w : CacheState) (k : cache_key) (locked : bool) : bool :=
  (cs_cache w !! k == None)
  && bool_decide (Forall (λ e : cache_key * nat, e.1 ≠ k) (map_to_list (cs_leased w)).*1)
  && negb locked.
End connection_cache.
