(* ===== verification/SqlGateway.v ===== *)
(** * The SQL gateway ([server/core/sql_gateway.py])

    What the gateway sends on a leased connection, which answers make it
    discard the connection, and what it raises.  [Wire] is the server session
    behind the connection and the answers still to come: each statement takes
    the next one.  The texts [sqlparse] analyses are judged by parameters. *)

From S2P Require Import Prelude PyString ConnectionCache SqlScan.

(** An answer: the statement was executed, or it ends in an exception, the
    server having executed it nevertheless or not. *)
Inductive Answer : Type := Executed | Failed (e : PyExc) (applied : bool).

Definition an_raises (a : Answer) : option PyExc :=
  match a with Executed => None | Failed e _ => Some e end.
Definition an_applied (a : Answer) : bool :=
  match a with Executed => true | Failed _ applied => applied end.

Record Wire : Type := mk_wire { wi_session : MySQLSession; wi_answers : list Answer }.

Definition SQLExecutionError (msg : string) : PyExc := exc "SQLExecutionError" msg.
Definition CancelledError : PyExc := exc "CancelledError" EmptyString.

Definition is_cancelled (e : PyExc) : bool := String.eqb (exc_type e) "CancelledError".
Definition is_timeout (e : PyExc) : bool := String.eqb (exc_type e) "TimeoutError".
Definition is_sql_error (e : PyExc) : bool := String.eqb (exc_type e) "SQLExecutionError".

(** [_sanitized_sql_error] *)
Definition sanitized_sql_error (e : PyExc) : PyExc :=
  if exc_code e == Some 1046 then
    SQLExecutionError "No database is selected. Pass the database argument and retry."
  else SQLExecutionError "Database operation failed".

(** What a failed statement is reported as. *)
Definition reported (timeout_message : string) (e : PyExc) : PyExc :=
  if is_timeout e then SQLExecutionError timeout_message
  else if is_sql_error e || is_cancelled e then e
  else sanitized_sql_error e.

(** [_acquire]: what a failed acquisition is reported as. *)
Definition acquire_error (e : PyExc) : PyExc :=
  if is_cancelled e || is_sql_error e then e else SQLExecutionError "Database connection failed".

(** [try: m] as a value: what it returned or raised. *)
Definition attempt {S A : Type} (m : M S A) : M S (outcome A) := λ s,
  match m s with (s', o) => (s', Ret o) end.

Definition is_ret {A : Type} (o : outcome A) : bool := match o with Ret _ => true | Raise _ => false end.

(** How a gateway call leaves its connection: whether [release] is reached, its
    [discard], and what the call returns or raises. *)
Record CallEnd (A : Type) : Type := mk_call_end {
  ce_released : bool;
  ce_discard : bool;
  ce_outcome : outcome A
}.
Arguments mk_call_end {A}.
Arguments ce_released {A} _.
Arguments ce_discard {A} _.
Arguments ce_outcome {A} _.

Section sql_gateway.
  (** The server: what a statement with its parameters makes of the session. *)
  Context (server : string → list string → MySQLSession → MySQLSession).
  (** The judgements made with [sqlparse] and the rows the driver fetches. *)
  Context (changes_database_context is_select : string → bool).
  Context (apply_pagination : string → Z → Z → string).
  Context {Row : Type} (rows_of : string → MySQLSession → list Row).
  Context (timeout_ms : Z).

(** [_exec_simple], and a cursor's [execute]. *)
Definition send (sql : string) (params : list string) : M Wire unit := λ w,
  let answer := default Executed (head (wi_answers w)) in
  let session :=
    if an_applied answer then server sql params (wi_session w) else wi_session w in
  (mk_wire session (tail (wi_answers w)),
   match an_raises answer with None => Ret tt | Some e => Raise e end).

(** [_execute_query], rows after [_json_safe_rows]: the page, whether it was
    cut, and the offset the next cursor encodes. *)
Record QueryResult : Type := mk_query_result {
  qr_rows : list Row;
  qr_truncated : bool;
  qr_next : option Z
}.

Definition execute_query (sql : string) (max_rows offset : Z) : M Wire QueryResult :=
  send sql [] ;;
  w ← get_state;
  let rows := rows_of sql (wi_session w) in
  let truncated := max_rows <? Z.of_nat (length rows) in
  mret (mk_query_result (if truncated then take (Z.to_nat max_rows) rows else rows) truncated
          (if truncated then Some (offset + max_rows) else None)).

Definition READ_WRITE : string := "SET SESSION TRANSACTION READ WRITE".
Definition SET_BRANCH : string := "SET @@session.branch = %s".
Definition RESET_BRANCH : string := "SET @@session.branch = ''".

(** Whether a statement may leave the session on another database or branch. *)
Definition touches_session (sql : string) : bool :=
  changes_database_context sql || mentions_session_branch sql.

(** The statements in front of the query; whether a branch was set. *)
Definition prepare_session (branch : option string) : M Wire bool :=
  send READ_WRITE [] ;;
  match branch with
  | Some branch => send SET_BRANCH [branch] ;; mret true
  | None => mret false
  end.

Definition execute (sql : string) (max_rows offset : Z) (branch : option string)
    : M Wire (CallEnd QueryResult) :=
  let paginated_sql := apply_pagination sql (max_rows + 1) offset in
  let discard := touches_session sql in
  prepared ← attempt (prepare_session branch);
  let branch_set := match prepared with Ret b => b | Raise _ => false end in
  result ← match prepared with
           | Raise e => mret (Raise e)
           | Ret _ =>
               attempt
                 ((if is_select sql then send ("SET max_execution_time=" +:+ pretty timeout_ms) []
                   else mret tt) ;;
                  execute_query paginated_sql max_rows offset)
           end;
  let discard := discard || negb (is_ret result) in
  let outcome := match result with Ret v => Ret v | Raise e => Raise (reported "Query timed out" e) end in
  if branch_set && negb discard then
    reset ← attempt (send RESET_BRANCH []);
    match reset with
    | Ret _ => mret (mk_call_end true false outcome)
    | Raise e =>
        if is_cancelled e then mret (mk_call_end false true (Raise e))
        else mret (mk_call_end true true outcome)
    end
  else mret (mk_call_end true discard outcome).

Definition execute_parameterized (sql : string) (params : list string) : M Wire (CallEnd (list Row)) :=
  result ← attempt (send sql params ;; w ← get_state; mret (rows_of sql (wi_session w)));
  match result with
  | Ret rows => mret (mk_call_end true false (Ret rows))
  | Raise e => mret (mk_call_end true true (Raise (reported "Schema query timed out" e)))
  end.

Fixpoint execute_all (sql_statements : list string) : M Wire (list QueryResult) :=
  match sql_statements with
  | [] => mret []
  | stmt :: rest => r ← execute_query stmt 1000 0; rs ← execute_all rest; mret (r :: rs)
  end.

Definition execute_transaction (sql_statements : list string) : M Wire (CallEnd (list QueryResult)) :=
  let session_state_touched := existsb touches_session sql_statements in
  result ← attempt
    (send READ_WRITE [] ;; send "BEGIN" [] ;; results ← execute_all sql_statements;
     send "COMMIT" [] ;; mret results);
  match result with
  | Ret results => mret (mk_call_end true session_state_touched (Ret results))
  | Raise e =>
      rolled_back ← attempt (send "ROLLBACK" []);
      match rolled_back with
      | Ret _ =>
          mret (mk_call_end true (is_cancelled e || is_timeout e || session_state_touched)
                  (Raise (reported "Transaction timed out" e)))
      | Raise e' =>
          mret (mk_call_end true true
                  (Raise (if is_cancelled e' then e' else reported "Transaction timed out" e)))
      end
  end.

(** ** Calls, and the statements that reset a session *)

Inductive GatewayCall : Type :=
  | Execute (sql : string) (max_rows offset : Z) (branch : option string)
  | ExecuteParameterized (sql : string) (params : list string)
  | ExecuteTransaction (sql_statements : list string).

Definition forget {A : Type} (m : M Wire (CallEnd A)) : M Wire (CallEnd unit) :=
  r ← m; mret (mk_call_end (ce_released r) (ce_discard r)
                 (match ce_outcome r with Ret _ => Ret tt | Raise e => Raise e end)).

Definition run_call (c : GatewayCall) : M Wire (CallEnd unit) :=
  match c with
  | Execute sql max_rows offset branch => forget (execute sql max_rows offset branch)
  | ExecuteParameterized sql params => forget (execute_parameterized sql params)
  | ExecuteTransaction sql_statements => forget (execute_transaction sql_statements)
  end.

(** The statements of [ConnectionCache.release]. *)
Definition reset_statements : list string := [ "ROLLBACK"; READ_WRITE; "SET autocommit=1" ].

Definition reset_session (s : MySQLSession) : MySQLSession :=
  fold_left (λ s sql, server sql [] s) reset_statements s.
End sql_gateway.
