(* ===== verification/SqlSessions.v ===== *)
(** * Concurrent SQL calls over one connection cache

    Every gateway call is a task that acquires a connection, runs its
    statements and releases it.  The tasks interleave at their awaits:
    [session_step] is what one event does, a run is a list of events; a task may
    be cancelled at every await.

    [_get_lock] gives a task the lock object its key has at that moment, and the
    task waits for this object: [LockObjects].  [session_step] is defined for
    any such lock table ([KeyLocks]); [KeyTable], a table that locks the keys
    themselves, is what the lock objects are meant to implement. *)

From S2P Require Import Prelude PyString Hashing ConnectionCache SqlScan SqlGateway.

Record Request : Type := mk_request {
  rq_user_id : string;
  rq_instance_id : string;
  rq_login : Login;
  rq_call : GatewayCall
}.

Definition rq_key (rq : Request) : cache_key := (rq_user_id rq, rq_instance_id rq).

(** Where a task waits: for the key lock of [acquire], in the ping, in the
    [USE], for the capacity lock, in [connect]; running its statements; for the
    key lock of [release], in the resetting statements; or it has ended. *)
Inductive Point : Type :=
  | AtAcquire
  | AtPing (cached : CachedConnection)
  | AtUse (cached : CachedConnection) (database : string)
  | AtCapacity
  | AtConnect
  | AtStatements (conn : nat)
  | AtRelease (conn : nat) (discard : bool) (result : outcome unit)
  | AtReset (cached : CachedConnection) (result : outcome unit)
  | AtEnd (result : outcome unit).

(** ** Lock tables *)

(** How task [t] uses the lock of key [k]: it fetches it, takes it when it is
    free, and releases it; a clean-up drops the stale ones, [stale] being told
    the key and whether its lock is locked. *)
Class KeyLocks (L : Type) : Type := {
  no_locks : L;
  fetch_lock (k : cache_key) (t : nat) : L → L;
  is_free (k : cache_key) (t : nat) : L → bool;
  take_lock (k : cache_key) (t : nat) : L → L;
  release_lock (k : cache_key) (t : nat) : L → L;
  drop_locks (stale : cache_key → bool → bool) : L → L
}.

Definition is_locked (holder : option nat) : bool := match holder with Some _ => true | None => false end.

(** [_locks], the tasks that hold the lock objects, the object each task was
    last given, and the objects made so far. *)
Record LockObjects : Type := mk_lock_objects {
  lo_locks : gmap cache_key nat;
  lo_held : gmap nat nat;
  lo_given : gmap nat nat;
  lo_next : nat
}.
#[export] Instance LockObjects_eta : Eta LockObjects := λ r,
  mk_lock_objects (lo_locks r) (lo_held r) (lo_given r) (lo_next r).

(** [_get_lock] *)
Definition get_lock (k : cache_key) (t : nat) (L : LockObjects) : LockObjects :=
  match lo_locks L !! k with
  | Some lock => L <| lo_given := <[t := lock]> (lo_given L) |>
  | None =>
      L <| lo_locks := <[k := lo_next L]> (lo_locks L) |>
        <| lo_given := <[t := lo_next L]> (lo_given L) |>
        <| lo_next := S (lo_next L) |>
  end.

Definition lock_holder (L : LockObjects) (k : cache_key) : option nat :=
  lock ← lo_locks L !! k; lo_held L !! lock.

#[export] Instance lock_objects : KeyLocks LockObjects := {
  no_locks := mk_lock_objects ∅ ∅ ∅ 0;
  fetch_lock := get_lock;
  is_free k t L := match lo_given L !! t with Some lock => negb (is_locked (lo_held L !! lock)) | None => false end;
  take_lock k t L :=
    match lo_given L !! t with Some lock => L <| lo_held := <[lock := t]> (lo_held L) |> | None => L end;
  release_lock k t L :=
    match lo_given L !! t with Some lock => L <| lo_held := delete lock (lo_held L) |> | None => L end;
  drop_locks stale L :=
    L <| lo_locks := filter (λ e, stale e.1 (is_locked (lo_held L !! e.2)) = false) (lo_locks L) |>
}.

(** The holder of every key that was ever locked. *)
Abbreviation KeyTable := (gmap cache_key (option nat)) (only parsing).

#[export] Instance key_table : KeyLocks KeyTable := {
  no_locks := ∅;
  fetch_lock k t locks := locks;
  is_free k t locks := match locks !! k with Some (Some _) => false | _ => true end;
  take_lock k t locks := <[k := Some t]> locks;
  release_lock k t locks := <[k := None]> locks;
  drop_locks stale locks := filter (λ e, stale e.1 (is_locked e.2) = false) locks
}.

Record Gateway (L : Type) : Type := mk_gateway {
  gw_cache : CacheState;
  gw_locks : L;
  gw_capacity_lock : option nat;
  gw_tasks : gmap nat (Request * Point)
}.
Arguments mk_gateway {L}.
Arguments gw_cache {L} _.
Arguments gw_locks {L} _.
Arguments gw_capacity_lock {L} _.
Arguments gw_tasks {L} _.
#[export] Instance Gateway_eta {L : Type} : Eta (Gateway L) := λ r,
  mk_gateway (gw_cache r) (gw_locks r) (gw_capacity_lock r) (gw_tasks r).

Definition idle_gateway {L : Type} `{KeyLocks L} : Gateway L := mk_gateway empty_cache_state no_locks None ∅.

(** As the source starts it. *)
Definition new_gateway : Gateway LockObjects := idle_gateway.

Inductive Event : Type :=
  | Begin (t : nat) (rq : Request)
  | LockKey (t : nat)
  | Pinged (t : nat) (alive : bool)
  | Used (t : nat) (error : option PyExc)
  | LockCapacity (t : nat)
  | Connected (t : nat) (error : option PyExc)
  | Answered (t : nat) (answers : list Answer)
  | Reset (t : nat) (ok : bool)
  | Cancelled (t : nat) (applied : bool)
  | CleanupOnce
  | Tick (d : Z).

Section sql_sessions.
  Context (config : ConnectionPoolConfig) (fingerprint_key : list Z).
  Context (server : string → list string → MySQLSession → MySQLSession).
  Context (changes_database_context is_select : string → bool).
  Context (apply_pagination : string → Z → Z → string).
  Context {Row : Type} (rows_of : string → MySQLSession → list Row).
  Context (timeout_ms : Z).
  Context {L : Type} `{KeyLocks L}.

Definition lock_free (k : cache_key) (t : nat) (g : Gateway L) : bool := is_free k t (gw_locks g).

Definition fetch (k : cache_key) (t : nat) (g : Gateway L) : Gateway L :=
  g <| gw_locks := fetch_lock k t (gw_locks g) |>.
Definition lock (k : cache_key) (t : nat) (g : Gateway L) : Gateway L :=
  g <| gw_locks := take_lock k t (gw_locks g) |>.
Definition unlock (k : cache_key) (t : nat) (g : Gateway L) : Gateway L :=
  g <| gw_locks := release_lock k t (gw_locks g) |>.

Definition at_point (t : nat) (rq : Request) (p : Point) (g : Gateway L) : Gateway L :=
  g <| gw_tasks := <[t := (rq, p)]> (gw_tasks g) |>.
Definition with_cache (w : CacheState) (g : Gateway L) : Gateway L := g <| gw_cache := w |>.

(** [acquire] goes on to its next await, or returns. *)
Definition acquire_on (t : nat) (rq : Request) (next : CacheState * acquire_next) (g : Gateway L) : Gateway L :=
  let g := with_cache next.1 g in
  match next.2 with
  | Ping cached => at_point t rq (AtPing cached) g
  | UseDatabase cached database => at_point t rq (AtUse cached database) g
  | Connect => at_point t rq AtCapacity g
  | Leased conn => unlock (rq_key rq) t (at_point t rq (AtStatements conn) g)
  end.

(** The task ends with its key lock released. *)
Definition leave (t : nat) (rq : Request) (result : outcome unit) (g : Gateway L) : Gateway L :=
  unlock (rq_key rq) t (at_point t rq (AtEnd result) g).

Definition run_on_connection (call : GatewayCall) (conn : nat) (answers : list Answer) (w : CacheState)
    : CacheState * CallEnd unit :=
  match cs_connections w !! conn with
  | Some cn =>
      match run_call server changes_database_context is_select apply_pagination rows_of timeout_ms call
              (mk_wire (cn_session cn) answers) with
      | (wire, Ret ending) => (on_session (λ _, wi_session wire) conn w, ending)
      | (wire, Raise e) => (on_session (λ _, wi_session wire) conn w, mk_call_end true true (Raise e))
      end
  | None => (w, mk_call_end true true (Raise (RuntimeError "no such connection")))
  end.

Definition begin_release (t : nat) (rq : Request) (conn : nat) (ending : CallEnd unit) (g : Gateway L) : Gateway L :=
  if ce_released ending then
    at_point t rq (AtRelease conn (ce_discard ending) (ce_outcome ending)) (fetch (rq_key rq) t g)
  else at_point t rq (AtEnd (ce_outcome ending)) g.

(** A [CancelledError] raised at the await. *)
Definition cancel (t : nat) (rq : Request) (p : Point) (applied : bool) (g : Gateway L) : option (Gateway L) :=
  let ended := Raise CancelledError in
  match p with
  | AtAcquire | AtRelease _ _ _ => Some (at_point t rq (AtEnd ended) g)
  | AtPing _ | AtCapacity | AtReset _ _ => Some (leave t rq ended g)
  | AtUse cached database =>
      let w := gw_cache g in
      let w := if applied then on_session (server (use_statement database) []) (cc_conn cached) w else w in
      Some (leave t rq ended (with_cache w g))
  | AtConnect => Some (leave t rq ended (g <| gw_capacity_lock := None |>))
  | AtStatements _ | AtEnd _ => None
  end.

Definition next_connection (w : CacheState) : nat := fresh (dom (cs_connections w) : gset nat).

(** What an event makes of the gateway; [None] when it cannot happen. *)
Definition session_step (ev : Event) (g : Gateway L) : option (Gateway L) :=
  let w := gw_cache g in
  match ev with
  | Begin t rq =>
      match gw_tasks g !! t with
      | None => Some (at_point t rq AtAcquire (fetch (rq_key rq) t g))
      | Some _ => None
      end
  | LockKey t =>
      match gw_tasks g !! t with
      | Some (rq, AtAcquire) =>
          if lock_free (rq_key rq) t g then
            Some (acquire_on t rq (acquire_lookup config fingerprint_key (rq_key rq) (rq_login rq) w)
                    (lock (rq_key rq) t g))
          else None
      | Some (rq, AtRelease conn discard result) =>
          if lock_free (rq_key rq) t g then
            let '(w, next) := release_locked (rq_key rq) conn discard w in
            let g := with_cache w (lock (rq_key rq) t g) in
            Some match next with
                 | Some cached => at_point t rq (AtReset cached result) g
                 | None => leave t rq result g
                 end
          else None
      | _ => None
      end
  | Pinged t alive =>
      match gw_tasks g !! t with
      | Some (rq, AtPing cached) =>
          Some (acquire_on t rq (acquire_pinged fingerprint_key (rq_key rq) (rq_login rq) cached alive w) g)
      | _ => None
      end
  | Used t error =>
      match gw_tasks g !! t with
      | Some (rq, AtUse cached database) =>
          match error with
          | None =>
              let w := on_session (server (use_statement database) []) (cc_conn cached) w in
              Some (acquire_on t rq (acquire_used (rq_key rq) cached database true w, Leased (cc_conn cached)) g)
          | Some e =>
              if is_cancelled e then None
              else Some (leave t rq (Raise (acquire_error e))
                           (with_cache (acquire_used (rq_key rq) cached database false w) g))
          end
      | _ => None
      end
  | LockCapacity t =>
      match gw_tasks g !! t, gw_capacity_lock g with
      | Some (rq, AtCapacity), None =>
          Some (if has_capacity config w then at_point t rq AtConnect (g <| gw_capacity_lock := Some t |>)
                else leave t rq (Raise (acquire_error CONNECTION_LIMIT)) g)
      | _, _ => None
      end
  | Connected t error =>
      match gw_tasks g !! t with
      | Some (rq, AtConnect) =>
          let g := g <| gw_capacity_lock := None |> in
          match error with
          | None =>
              let conn := next_connection w in
              Some (acquire_on t rq (acquire_connected fingerprint_key (rq_key rq) (rq_login rq) conn w, Leased conn) g)
          | Some e =>
              if is_cancelled e then None
              else Some (leave t rq (Raise (acquire_error e)) (with_cache (pop_idle (rq_key rq) w) g))
          end
      | _ => None
      end
  | Answered t answers =>
      match gw_tasks g !! t with
      | Some (rq, AtStatements conn) =>
          let '(w, ending) := run_on_connection (rq_call rq) conn answers w in
          Some (begin_release t rq conn ending (with_cache w g))
      | _ => None
      end
  | Reset t ok =>
      match gw_tasks g !! t with
      | Some (rq, AtReset cached result) =>
          let w := if ok then on_session (reset_session server) (cc_conn cached) w else w in
          Some (leave t rq result (with_cache (release_reset (rq_key rq) cached ok w) g))
      | _ => None
      end
  | Cancelled t applied =>
      match gw_tasks g !! t with Some (rq, p) => cancel t rq p applied g | None => None end
  | CleanupOnce =>
      let w := evict_expired config w in
      Some (with_cache w g <| gw_locks := drop_locks (stale_lock w) (gw_locks g) |>)
  | Tick d => if 0 <=? d then Some (with_cache (w <| cs_now := cs_now w + d |>) g) else None
  end.

(** The states a list of events passes through; [None] when one cannot happen. *)
Fixpoint session_run (evs : list Event) (g : Gateway L) : option (Gateway L) :=
  match evs with
  | [] => Some g
  | ev :: evs => g ← session_step ev g; session_run evs g
  end.

Definition is_cancelling (ev : Event) : bool :=
  match ev with
  | Cancelled _ _ => true
  | Answered _ answers =>
      existsb (λ a, match an_raises a with Some e => is_cancelled e | None => false end) answers
  | _ => false
  end.
End sql_sessions.
