(* ===== verification/SessionInvariant.v ===== *)
(** * The cache under concurrent calls: what always holds

    Every cached, leased, pinged or reset connection was opened for its key
    with its recorded login; no connection is in two hands; a task between
    lock and unlock holds its key's lock.  The lemmas follow the elementary
    moves of [session_step], over the table that locks the keys themselves
    ([KeyTable]). *)

From S2P Require Import Prelude PyString Hashing ConnectionCache SqlScan SqlGateway SqlSessions.

(** The connection in a task's hands; of those, the ones [_leased] records. *)
Definition holds (p : Point) : option nat :=
  match p with
  | AtStatements conn | AtRelease conn _ _ => Some conn
  | AtReset cached _ => Some (cc_conn cached)
  | _ => None
  end.

Definition lease_of (p : Point) : option nat :=
  match p with AtStatements conn | AtRelease conn _ _ => Some conn | _ => None end.

(** The idle connection a task examines. *)
Definition borrowed (p : Point) : option CachedConnection :=
  match p with AtPing cached | AtUse cached _ => Some cached | _ => None end.

(** The connection a task was found fit for. *)
Definition assigned (p : Point) : option nat :=
  match p with AtStatements conn => Some conn | AtUse cached _ => Some (cc_conn cached) | _ => None end.

(** Between taking and releasing the key lock. *)
Definition critical (p : Point) : bool :=
  match p with AtPing _ | AtUse _ _ | AtCapacity | AtConnect | AtReset _ _ => true | _ => false end.

Lemma replace_cache k id w k' c :
  cs_cache (replace_idle k id w) !! k' = Some c → k' ≠ k ∧ cs_cache w !! k' = Some c.
Proof.
  unfold replace_idle. destruct (cs_cache w !! k) as [c'|]; [destruct (_ =? _)%nat|]; simpl;
    intros [? ?]%lookup_delete_Some; done.
Qed.

Lemma replace_leased k id w : cs_leased (replace_idle k id w) = cs_leased w.
Proof. unfold replace_idle. destruct (cs_cache w !! k) as [c'|]; [destruct (_ =? _)%nat|]; done. Qed.

Section invariant.
  Context (fingerprint_key : list Z).

(** The login a connection was opened with, up to the database and the
    fingerprint of the password. *)
Definition same_login (l : Login) (host : string) (port : Z) (user fingerprint : string) : Prop :=
  lg_host l = host ∧ lg_port l = port ∧ lg_user l = user
  ∧ password_fingerprint fingerprint_key (lg_password l) = fingerprint.

Definition genuine (w : CacheState) (k : cache_key) (c : CachedConnection) : Prop :=
  ∃ cn, cs_connections w !! cc_conn c = Some cn ∧ cn_key cn = k
    ∧ same_login (cn_login cn) (cc_host c) (cc_port c) (cc_user c) (cc_password_fingerprint c).

(** Opened for the user and the instance of the request, with its login. *)
Definition opened_for (w : CacheState) (rq : Request) (conn : nat) : Prop :=
  ∃ cn, cs_connections w !! conn = Some cn ∧ cn_key cn = rq_key rq
    ∧ same_login (cn_login cn) (lg_host (rq_login rq)) (lg_port (rq_login rq)) (lg_user (rq_login rq))
        (password_fingerprint fingerprint_key (lg_password (rq_login rq))).

Definition not_held (g : Gateway KeyTable) (conn : nat) : Prop :=
  ∀ t rq p, gw_tasks g !! t = Some (rq, p) → holds p ≠ Some conn.

Record gateway_inv (g : Gateway KeyTable) : Prop := {
  gi_cached : ∀ k c, cs_cache (gw_cache g) !! k = Some c → genuine (gw_cache g) k c;
  gi_leased : ∀ k id c, cs_leased (gw_cache g) !! (k, id) = Some c →
    genuine (gw_cache g) k c ∧ cc_conn c = id;
  gi_lease : ∀ t rq p conn, gw_tasks g !! t = Some (rq, p) → lease_of p = Some conn →
    is_Some (cs_leased (gw_cache g) !! (rq_key rq, conn));
  gi_statements : ∀ t rq p conn, gw_tasks g !! t = Some (rq, p) → assigned p = Some conn →
    opened_for (gw_cache g) rq conn;
  gi_reset : ∀ t rq c r, gw_tasks g !! t = Some (rq, AtReset c r) → genuine (gw_cache g) (rq_key rq) c;
  gi_borrowed : ∀ t rq p c, gw_tasks g !! t = Some (rq, p) → borrowed p = Some c →
    genuine (gw_cache g) (rq_key rq) c ∧ not_held g (cc_conn c)
    ∧ (cs_cache (gw_cache g) !! rq_key rq = Some c ∨ cs_cache (gw_cache g) !! rq_key rq = None);
  gi_locks : ∀ t rq p, gw_tasks g !! t = Some (rq, p) → critical p = true →
    gw_locks g !! rq_key rq = Some (Some t);
  gi_unique : ∀ t t' rq rq' p p' conn, gw_tasks g !! t = Some (rq, p) → gw_tasks g !! t' = Some (rq', p') →
    holds p = Some conn → holds p' = Some conn → t = t';
  gi_idle : ∀ k c, cs_cache (gw_cache g) !! k = Some c → not_held g (cc_conn c);
  gi_capacity : ∀ t rq, gw_tasks g !! t = Some (rq, AtConnect) → gw_capacity_lock g = Some t
}.

(** ** Connections keep key and login *)

Definition connections_kept (w w' : CacheState) : Prop :=
  ∀ id cn, cs_connections w !! id = Some cn →
    ∃ cn', cs_connections w' !! id = Some cn' ∧ cn_key cn' = cn_key cn ∧ cn_login cn' = cn_login cn.

Lemma genuine_kept w w' k c : connections_kept w w' → genuine w k c → genuine w' k c.
Proof.
  intros Hk (cn & Hl & Hc & Hs). destruct (Hk _ _ Hl) as (cn' & Hl' & Hkey & Hlog).
  exists cn'. by rewrite Hlog, Hkey.
Qed.

Lemma opened_for_kept w w' rq conn : connections_kept w w' → opened_for w rq conn → opened_for w' rq conn.
Proof.
  intros Hk (cn & Hl & Hc & Hs). destruct (Hk _ _ Hl) as (cn' & Hl' & Hkey & Hlog).
  exists cn'. by rewrite Hlog, Hkey.
Qed.

Lemma close_kept id w : connections_kept w (close_connection id w).
Proof.
  intros i cn Hi. simpl. destruct (decide (id = i)) as [<-|Hne].
  - rewrite lookup_alter_eq, Hi. simpl. eauto.
  - rewrite lookup_alter_ne by done. eauto.
Qed.

Lemma on_session_kept f id w : connections_kept w (on_session f id w).
Proof.
  intros i cn Hi. simpl. destruct (decide (id = i)) as [<-|Hne].
  - rewrite lookup_alter_eq, Hi. simpl. eauto.
  - rewrite lookup_alter_ne by done. eauto.
Qed.

(** A change of connections, cache and leases that keeps or drops entries. *)
Lemma inv_shrink g w' :
  gateway_inv g → connections_kept (gw_cache g) w' →
  (∀ k c, cs_cache w' !! k = Some c → cs_cache (gw_cache g) !! k = Some c) →
  (∀ k c, cs_leased w' !! k = Some c → cs_leased (gw_cache g) !! k = Some c) →
  (∀ t rq p conn, gw_tasks g !! t = Some (rq, p) → lease_of p = Some conn →
     cs_leased w' !! (rq_key rq, conn) = cs_leased (gw_cache g) !! (rq_key rq, conn)) →
  gateway_inv (with_cache w' g).
Proof.
  intros [] Hk Hc Hl Ht. split; simpl; eauto using genuine_kept, opened_for_kept.
  - intros k id c H. apply Hl, gi_leased0 in H as []. eauto using genuine_kept.
  - intros t rq p conn H1 H2. rewrite (Ht t rq p) by done. eauto.
  - intros t rq p c H1 H2. destruct (gi_borrowed0 t rq p c H1 H2) as (Hg & Hn & Hb).
    split_and!; eauto using genuine_kept.
    destruct (cs_cache w' !! rq_key rq) as [c'|] eqn:E; [|by right]. left.
    apply Hc in E. destruct Hb as [Hb|Hb]; congruence.
Qed.

(** ** Elementary moves *)

Lemma inv_close g id : gateway_inv g → gateway_inv (with_cache (close_connection id (gw_cache g)) g).
Proof. intros H. apply inv_shrink; auto using close_kept. Qed.

Lemma inv_on_session g f id : gateway_inv g → gateway_inv (with_cache (on_session f id (gw_cache g)) g).
Proof. intros H. apply inv_shrink; auto using on_session_kept. Qed.

Lemma kept_same w w' : cs_connections w' = cs_connections w → connections_kept w w'.
Proof. intros E i cn. rewrite E. eauto. Qed.

Lemma inv_pop_idle g k : gateway_inv g → gateway_inv (with_cache (pop_idle k (gw_cache g)) g).
Proof.
  intros H. apply inv_shrink; auto using kept_same.
  intros k' c. simpl. by intros [_ ?]%lookup_delete_Some.
Qed.

Lemma inv_drop_lease g k conn :
  gateway_inv g →
  (∀ t rq p, gw_tasks g !! t = Some (rq, p) → lease_of p = Some conn → rq_key rq ≠ k) →
  gateway_inv (with_cache ((gw_cache g) <| cs_leased := delete (k, conn) (cs_leased (gw_cache g)) |>) g).
Proof.
  intros H Hn. apply inv_shrink; auto using kept_same.
  - intros k' c. simpl. by intros [_ ?]%lookup_delete_Some.
  - intros t rq p conn' H1 H2. simpl. apply lookup_delete_ne. intros [= E ->]. by apply (Hn _ _ _ H1 H2).
Qed.

Lemma inv_tick g d : gateway_inv g → gateway_inv (with_cache ((gw_cache g) <| cs_now := d |>) g).
Proof. intros H. apply inv_shrink; auto using kept_same. Qed.

(** A connection nobody holds becomes the idle one of its key. *)
Lemma inv_put_idle g k c :
  gateway_inv g → genuine (gw_cache g) k c → not_held g (cc_conn c) →
  (∀ t rq p, gw_tasks g !! t = Some (rq, p) → rq_key rq = k → borrowed p = None) →
  gateway_inv (with_cache ((gw_cache g) <| cs_cache := <[k := c]> (cs_cache (gw_cache g)) |>) g).
Proof.
  intros [] Hg Hn Hb. split; simpl; eauto.
  - intros k' c' [[<- <-]|[_ ?]]%lookup_insert_Some; [done|]. by apply gi_cached0.
  - intros t rq p c' H1 H2. destruct (gi_borrowed0 t rq p c' H1 H2) as (? & ? & ?). split_and!; [done..|].
    rewrite lookup_insert_ne; [done|]. intros E. by rewrite (Hb t rq p) in H2.
  - intros k' c' [[<- <-]|[_ ?]]%lookup_insert_Some; [done|]. by apply (gi_idle0 k').
Qed.

Lemma inv_lock g k t :
  gateway_inv g → lock_free k t g = true → gateway_inv (lock k t g).
Proof.
  intros [] Hf. split; simpl; eauto.
  intros t' rq p H1 H2. specialize (gi_locks0 t' rq p H1 H2). rewrite lookup_insert_ne; [done|].
  intros ->. unfold lock_free in Hf. cbn in Hf. by rewrite gi_locks0 in Hf.
Qed.

(** The lock of a key goes when no task is between its lock and unlock. *)
Lemma inv_locks g locks' :
  gateway_inv g →
  (∀ t rq p, gw_tasks g !! t = Some (rq, p) → critical p = true →
     locks' !! rq_key rq = gw_locks g !! rq_key rq) →
  gateway_inv (g <| gw_locks := locks' |>).
Proof.
  intros [] Hl. split; simpl; eauto. intros t rq p H1 H2. rewrite (Hl t rq p) by done. eauto.
Qed.

Lemma inv_unlock g k t :
  gateway_inv g →
  (∀ t' rq p, gw_tasks g !! t' = Some (rq, p) → critical p = true → rq_key rq ≠ k) →
  gateway_inv (unlock k t g).
Proof.
  intros H Hn. apply (inv_locks g _ H). intros t' rq p H1 H2. apply lookup_insert_ne.
  intros E. by apply (Hn t' rq p H1 H2).
Qed.

Lemma inv_capacity g c :
  gateway_inv g → (∀ t rq, gw_tasks g !! t = Some (rq, AtConnect) → c = Some t) →
  gateway_inv (g <| gw_capacity_lock := c |>).
Proof. intros [] Hc. split; simpl; eauto. Qed.

(** A task moves to another point and takes no connection. *)
Record may_move (g : Gateway KeyTable) (t : nat) (rq : Request) (p' : Point) : Prop := {
  mm_holds : ∀ conn, holds p' = Some conn → ∃ p, gw_tasks g !! t = Some (rq, p) ∧ holds p = Some conn;
  mm_lease : ∀ conn, lease_of p' = Some conn → ∃ p, gw_tasks g !! t = Some (rq, p) ∧ lease_of p = Some conn;
  mm_statements : ∀ conn, assigned p' = Some conn → opened_for (gw_cache g) rq conn;
  mm_reset : ∀ c r, p' = AtReset c r → genuine (gw_cache g) (rq_key rq) c;
  mm_borrowed : ∀ c, borrowed p' = Some c →
    genuine (gw_cache g) (rq_key rq) c ∧ not_held g (cc_conn c)
    ∧ (cs_cache (gw_cache g) !! rq_key rq = Some c ∨ cs_cache (gw_cache g) !! rq_key rq = None);
  mm_locks : critical p' = true → gw_locks g !! rq_key rq = Some (Some t);
  mm_capacity : p' = AtConnect → gw_capacity_lock g = Some t
}.

Lemma moved_task {g : Gateway KeyTable} {t rq p'} {t' rq' q} :
  gw_tasks (at_point t rq p' g) !! t' = Some (rq', q) →
  (t' = t ∧ rq' = rq ∧ q = p') ∨ (t' ≠ t ∧ gw_tasks g !! t' = Some (rq', q)).
Proof. simpl. intros [[-> [= -> ->]]|[? ?]]%lookup_insert_Some; auto. Qed.

Lemma not_held_move g t rq p' conn :
  may_move g t rq p' → not_held g conn → not_held (at_point t rq p' g) conn.
Proof.
  intros [] Hn t' rq' q [(-> & -> & ->)|[_ H]]%moved_task; [|by apply (Hn t' rq')].
  intros Hh. destruct (mm_holds0 _ Hh) as (p & Hp & E). by apply (Hn t rq p).
Qed.

Lemma inv_move g t rq p' : gateway_inv g → may_move g t rq p' → gateway_inv (at_point t rq p' g).
Proof.
  intros [] Hm. pose proof Hm as []. split; cbn [gw_cache gw_locks gw_capacity_lock at_point set_field]; eauto.
  - intros t' rq' q conn [(-> & -> & ->)|[_ H]]%moved_task Hl; [|eauto].
    destruct (mm_lease0 _ Hl) as (p & Hp & E). eauto.
  - intros t' rq' q conn [(-> & -> & ->)|[_ H]]%moved_task Ha; eauto.
  - intros t' rq' c r [(-> & -> & <-)|[_ H]]%moved_task; eauto.
  - intros t' rq' q c [(-> & -> & ->)|[_ H]]%moved_task Hb.
    + destruct (mm_borrowed0 c Hb) as (? & ? & ?). eauto using not_held_move.
    + destruct (gi_borrowed0 t' rq' q c H Hb) as (? & ? & ?). eauto using not_held_move.
  - intros t' rq' q [(-> & -> & ->)|[_ H]]%moved_task Hc; eauto.
  - intros t1 t2 rq1 rq2 q1 q2 conn [(-> & -> & ->)|[? H1]]%moved_task
      [(-> & -> & ->)|[? H2]]%moved_task E1 E2; [done|..|eauto].
    + destruct (mm_holds0 _ E1) as (p & Hp & E). eauto.
    + destruct (mm_holds0 _ E2) as (p & Hp & E). eauto.
  - intros k c Hk. eauto using not_held_move.
  - intros t' rq' [(-> & -> & <-)|[_ H]]%moved_task; eauto.
Qed.

(** A task takes a connection nobody holds, with its lease. *)
Lemma inv_lease g t rq p c :
  gateway_inv g → gw_tasks g !! t = Some (rq, p) →
  genuine (gw_cache g) (rq_key rq) c → opened_for (gw_cache g) rq (cc_conn c) →
  not_held g (cc_conn c) →
  (∀ k c', cs_cache (gw_cache g) !! k = Some c' → cc_conn c' ≠ cc_conn c) →
  (∀ t' rq' p' c', t' ≠ t → gw_tasks g !! t' = Some (rq', p') → borrowed p' = Some c' → cc_conn c' ≠ cc_conn c) →
  gateway_inv (at_point t rq (AtStatements (cc_conn c))
    (with_cache ((gw_cache g) <| cs_leased := <[(rq_key rq, cc_conn c) := c]> (cs_leased (gw_cache g)) |>) g)).
Proof.
  intros [] Ht Hg Ho Hn Hc Hb.
  assert (∀ conn, not_held g conn → conn ≠ cc_conn c → not_held (at_point t rq (AtStatements (cc_conn c))
    (with_cache ((gw_cache g) <| cs_leased := <[(rq_key rq, cc_conn c) := c]> (cs_leased (gw_cache g)) |>) g)) conn)
    as Hnh.
  { intros conn H Hne t' rq' q [(-> & -> & ->)|[_ Hq]]%moved_task; [|by apply (H t' rq')].
    simpl. congruence. }
  split; cbn [gw_cache gw_locks gw_capacity_lock at_point with_cache set_field cs_cache cs_leased]; eauto.
  - intros k id c' [[[= <- <-] <-]|[_ H]]%lookup_insert_Some; [done|eauto].
  - intros t' rq' q conn [(-> & -> & ->)|[_ H]]%moved_task Hl.
    + simpl in Hl. injection Hl as <-. rewrite lookup_insert_eq. eauto.
    + apply lookup_insert_is_Some'. right. eauto.
  - intros t' rq' q conn [(-> & -> & ->)|[_ H]]%moved_task Ha; [by injection Ha as <-|eauto].
  - intros t' rq' c' r [(-> & -> & ?)|[_ H]]%moved_task; [done|eauto].
  - intros t' rq' q c' [(-> & -> & ->)|[? H]]%moved_task Hbo; [done|].
    destruct (gi_borrowed0 t' rq' q c' H Hbo) as (? & ? & ?). split_and!; eauto.
  - intros t' rq' q [(-> & -> & ->)|[_ H]]%moved_task Hcr; [done|eauto].
  - intros t1 t2 rq1 rq2 q1 q2 conn [(-> & -> & ->)|[? H1]]%moved_task
      [(-> & -> & ->)|[? H2]]%moved_task E1 E2; [done|..|eauto].
    + simpl in E1. injection E1 as <-. by destruct (Hn t2 rq2 q2 H2).
    + simpl in E2. injection E2 as <-. by destruct (Hn t1 rq1 q1 H1).
  - intros t' rq' [(-> & -> & ?)|[_ H]]%moved_task; [done|eauto].
Qed.

(** ** What a step does *)

Lemma inv_unlock_own g t rq p :
  gateway_inv g → gw_tasks g !! t = Some (rq, p) → critical p = false →
  gw_locks g !! rq_key rq = Some (Some t) → gateway_inv (unlock (rq_key rq) t g).
Proof.
  intros H Ht Hc Hl. apply inv_unlock; [done|]. intros t' rq' p' H1 H2 E.
  pose proof (gi_locks _ H _ _ _ H1 H2) as Hl'. congruence.
Qed.

Lemma inv_leave g t rq r :
  gateway_inv g → gw_locks g !! rq_key rq = Some (Some t) → gateway_inv (leave t rq r g).
Proof.
  intros H Hl. apply (inv_unlock_own _ t rq (AtEnd r)); [|by apply lookup_insert_eq|done..].
  apply inv_move; [done|]. by split.
Qed.

Lemma genuine_key w k k' c c' :
  genuine w k c → genuine w k' c' → cc_conn c = cc_conn c' → k = k'.
Proof. intros (cn & H & <- & _) (cn' & H' & <- & _) E. congruence. Qed.

(** Of an idle connection that [t], the lock holder of its key, takes over. *)
Lemma inv_lease_idle g t rq p c :
  gateway_inv g → gw_tasks g !! t = Some (rq, p) →
  gw_locks g !! rq_key rq = Some (Some t) →
  genuine (gw_cache g) (rq_key rq) c → not_held g (cc_conn c) →
  opened_for (gw_cache g) rq (cc_conn c) →
  gateway_inv (unlock (rq_key rq) t (at_point t rq (AtStatements (cc_conn c))
    (with_cache (lease_idle (rq_key rq) c (gw_cache g)) g))).
Proof.
  intros H Ht Hl Hg Hn Ho.
  pose proof (inv_pop_idle g (rq_key rq) H) as Hp.
  assert (gateway_inv (at_point t rq (AtStatements (cc_conn c))
    (with_cache (lease_idle (rq_key rq) c (gw_cache g)) g))) as Hnew.
  { set (c1 := c <| cc_last_used := cs_now (gw_cache g) |>).
    assert (genuine (gw_cache g) (rq_key rq) c1) as Hg1 by exact Hg.
    pose proof (inv_lease (with_cache (pop_idle (rq_key rq) (gw_cache g)) g) t rq p
             c1 Hp Ht Hg1 Ho Hn) as Hlease. apply Hlease; clear Hlease.
    - intros k c'. simpl. intros [Hne Hk]%lookup_delete_Some E. apply Hne.
      symmetry. apply (genuine_key _ _ _ _ _ (gi_cached _ H _ _ Hk) Hg E).
    - intros t' rq' p' c' Hne Ht' Hb E. apply Hne.
      destruct (gi_borrowed _ H _ _ _ _ Ht' Hb) as (Hg' & _ & _).
      pose proof (genuine_key _ _ _ _ _ Hg' Hg E) as Hkey.
      pose proof (gi_locks _ H t' rq' p' Ht') as Hl'. rewrite Hkey, Hl in Hl'.
      destruct p'; try done; by injection (Hl' eq_refl). }
  apply (inv_unlock_own _ t rq (AtStatements (cc_conn c))); [done|by apply lookup_insert_eq|done..].
Qed.

Lemma identity_opened_for w rq c :
  genuine w (rq_key rq) c → connection_identity_changed fingerprint_key c (rq_login rq) = false →
  opened_for w rq (cc_conn c).
Proof.
  intros (cn & Hl & Hk & Hs) Hi. exists cn. split_and!; [done..|].
  unfold connection_identity_changed in Hi.
  rewrite !orb_false_iff, !negb_false_iff, !bool_decide_eq_true in Hi.
  destruct Hi as [[[Hh Hp] Hu] Hf], Hs as (? & ? & ? & ?). unfold same_login.
  rewrite <- Hh, <- Hp, <- Hu, <- Hf. done.
Qed.

Lemma inv_acquire_pinged g t rq p c alive :
  gateway_inv g → gw_tasks g !! t = Some (rq, p) → holds p = None →
  gw_locks g !! rq_key rq = Some (Some t) →
  genuine (gw_cache g) (rq_key rq) c → not_held g (cc_conn c) →
  (cs_cache (gw_cache g) !! rq_key rq = Some c ∨ cs_cache (gw_cache g) !! rq_key rq = None) →
  gateway_inv (acquire_on t rq
    (acquire_pinged fingerprint_key (rq_key rq) (rq_login rq) c alive (gw_cache g)) g).
Proof.
  intros H Ht Hh Hl Hg Hn Hc.
  assert (gateway_inv (at_point t rq AtCapacity
    (with_cache (pop_idle (rq_key rq) (close_connection (cc_conn c) (gw_cache g))) g))) as Hconnect.
  { apply inv_move; [apply (inv_pop_idle (with_cache (close_connection (cc_conn c) (gw_cache g)) g)),
                      inv_close, H|]. by split. }
  unfold acquire_pinged. destruct alive; [|exact Hconnect].
  destruct (connection_identity_changed fingerprint_key c (rq_login rq)) eqn:Hi; [exact Hconnect|].
  destruct (stale_database_context c (rq_login rq)); [exact Hconnect|]. cbn [orb].
  pose proof (identity_opened_for _ _ _ Hg Hi) as Ho.
  destruct (lg_database (rq_login rq)) as [db|]; [|by apply (inv_lease_idle g t rq p c)].
  destruct (_ && _); [|by apply (inv_lease_idle g t rq p c)].
  apply inv_move; [apply inv_shrink; auto using kept_same|]. split; try done.
  - by intros ? [= <-].
  - by intros ? [= <-].
Qed.


Lemma inv_replace_idle g k conn :
  gateway_inv g → gateway_inv (with_cache (replace_idle k conn (gw_cache g)) g).
Proof.
  intros H. unfold replace_idle. destruct (cs_cache (gw_cache g) !! k) as [i|]; [|by apply inv_pop_idle].
  destruct (cc_conn i =? conn)%nat; [by apply inv_pop_idle|].
  by apply (inv_pop_idle (with_cache (close_connection (cc_conn i) (gw_cache g)) g)), inv_close.
Qed.

(** The lease of a task that is past it. *)
Lemma inv_end_lease g t rq p conn :
  gateway_inv g → gw_tasks g !! t = Some (rq, p) → holds p = Some conn → lease_of p = None →
  gateway_inv (with_cache ((gw_cache g) <| cs_leased := delete (rq_key rq, conn) (cs_leased (gw_cache g)) |>) g).
Proof.
  intros H Ht Hh Hl. apply inv_drop_lease; [done|]. intros t' rq' p' Ht' Hl' E.
  assert (holds p' = Some conn) as Hh' by (by destruct p').
  pose proof (gi_unique _ H _ _ _ _ _ _ _ Ht Ht' Hh Hh') as <-. congruence.
Qed.

(** The lease a task releases is there, so its release resets or closes. *)
Lemma inv_release_locked g t rq conn discard r :
  gateway_inv g → gw_tasks g !! t = Some (rq, AtRelease conn discard r) →
  gw_locks g !! rq_key rq = Some (Some t) →
  let released := release_locked (rq_key rq) conn discard (gw_cache g) in
  gateway_inv (match released.2 with
               | Some cached => at_point t rq (AtReset cached r) (with_cache released.1 g)
               | None => leave t rq r (with_cache released.1 g)
               end).
Proof.
  intros H Ht Hl released. subst released. unfold release_locked.
  destruct (gi_lease _ H _ _ _ _ Ht eq_refl) as [c Hc]. rewrite Hc.
  destruct (gi_leased _ H _ _ _ Hc) as [Hg <-].
  assert (gateway_inv (at_point t rq (AtReset c r)
    (with_cache ((gw_cache g) <| cs_leased := delete (rq_key rq, cc_conn c) (cs_leased (gw_cache g)) |>) g)))
    as Hreset.
  { apply (inv_end_lease (at_point t rq (AtReset c r) g) t rq (AtReset c r) (cc_conn c));
      [|by apply lookup_insert_eq|done..].
    apply inv_move; [done|]. split; try done.
    - intros conn [= <-]. eauto.
    - by intros c' r' [= <- <-]. }
  destruct discard; [|exact Hreset]. cbn [fst snd].
  assert (gateway_inv (with_cache ((gw_cache g)
            <| cs_leased := delete (rq_key rq, cc_conn c) (cs_leased (gw_cache g)) |>)
            (at_point t rq (AtEnd r) g))) as Hend.
  { apply (inv_drop_lease (at_point t rq (AtEnd r) g) (rq_key rq) (cc_conn c)).
    - apply inv_move; [done|]. by split.
    - intros t' rq' p' [(-> & -> & ->)|[Hne Ht']]%moved_task Hl' E; [done|].
      assert (holds p' = Some (cc_conn c)) as Hh' by (by destruct p').
      by pose proof (gi_unique _ H _ _ _ _ _ _ _ Ht Ht' eq_refl Hh'). }
  apply (inv_close _ (cc_conn c)) in Hend. apply (inv_replace_idle _ (rq_key rq) (cc_conn c)) in Hend.
  by apply (inv_unlock_own _ t rq (AtEnd r)); [|by apply lookup_insert_eq|..].
Qed.

Lemma critical_alone g t rq p t' rq' p' :
  gateway_inv g → gw_tasks g !! t = Some (rq, p) → critical p = true →
  gw_tasks g !! t' = Some (rq', p') → critical p' = true → rq_key rq' = rq_key rq → t' = t.
Proof.
  intros H H1 H2 H3 H4 E. pose proof (gi_locks _ H _ _ _ H1 H2). pose proof (gi_locks _ H _ _ _ H3 H4).
  congruence.
Qed.

Lemma inv_release_reset g t rq c r ok :
  gateway_inv g → gw_tasks g !! t = Some (rq, AtReset c r) →
  gateway_inv (leave t rq r (with_cache (release_reset (rq_key rq) c ok (gw_cache g)) g)).
Proof.
  intros H Ht. pose proof (gi_locks _ H _ _ _ Ht eq_refl) as Hl.
  assert (gateway_inv (at_point t rq (AtEnd r) g)) as Hend by (apply inv_move; [done|by split]).
  unfold release_reset. destruct ok.
  - pose proof (inv_replace_idle _ (rq_key rq) (cc_conn c) Hend) as Hrep.
    set (c1 := c <| cc_last_used := _ |>).
    apply (inv_unlock_own _ t rq (AtEnd r)); [|by apply lookup_insert_eq|done..].
    apply (inv_put_idle _ (rq_key rq) c1) in Hrep; [exact Hrep|..].
    + pose proof (gi_reset _ H _ _ _ _ Ht) as Hg. unfold replace_idle.
      destruct (cs_cache _ !! rq_key rq) as [i|]; [|exact Hg]. destruct (_ =? _)%nat; [exact Hg|].
      exact (genuine_kept _ _ _ _ (close_kept _ _) Hg).
    + intros t' rq' p' [(-> & -> & ->)|[Hne Ht']]%moved_task Hh; [done|].
      apply Hne. exact (gi_unique _ H _ _ _ _ _ _ _ Ht' Ht Hh eq_refl).
    + intros t' rq' p' [(-> & -> & ->)|[Hne Ht']]%moved_task E; [done|].
      destruct p'; try done; destruct Hne; exact (critical_alone g t rq _ t' rq' _ H Ht eq_refl Ht' eq_refl E).
  - apply (inv_close _ (cc_conn c)) in Hend. apply (inv_replace_idle _ (rq_key rq) (cc_conn c)) in Hend.
    by apply (inv_unlock_own _ t rq (AtEnd r)); [|by apply lookup_insert_eq|..].
Qed.

Lemma inv_evict config g w' :
  gateway_inv g → w' = evict_expired config (gw_cache g) → gateway_inv (with_cache w' g).
Proof.
  intros H ->. unfold evict_expired.
  assert (∀ l : list (cache_key * CachedConnection), gateway_inv (with_cache
    (foldr (λ e w, pop_idle e.1 (close_connection (cc_conn e.2) w)) (gw_cache g) l) g)) as Hall; [|apply Hall].
  intros l. induction l as [|e l IH]; [destruct g; exact H|].
  by apply inv_close with (id := cc_conn e.2), inv_pop_idle with (k := e.1) in IH.
Qed.

(** A new connection of the driver. *)
Lemma inv_connected g t rq p conn :
  gateway_inv g → gw_tasks g !! t = Some (rq, p) → holds p = None →
  gw_locks g !! rq_key rq = Some (Some t) → cs_connections (gw_cache g) !! conn = None →
  gateway_inv (unlock (rq_key rq) t (at_point t rq (AtStatements conn)
    (with_cache (acquire_connected fingerprint_key (rq_key rq) (rq_login rq) conn (gw_cache g)) g))).
Proof.
  intros H Ht Hh Hl Hfresh.
  set (w1 := (gw_cache g) <| cs_connections := <[conn := mk_connection (rq_key rq) (rq_login rq)
                 (fresh_session (lg_database (rq_login rq))) true]> (cs_connections (gw_cache g)) |>).
  assert (connections_kept (gw_cache g) w1) as Hk.
  { intros i cn Hi. simpl. rewrite lookup_insert_ne by congruence. eauto. }
  assert (gateway_inv (with_cache w1 g)) as H1 by (apply inv_shrink; auto).
  assert (∀ k c, genuine (gw_cache g) k c → cc_conn c ≠ conn) as Hother.
  { intros k c (cn & Hc & _) E. congruence. }
  assert (∀ t' rq' p', gw_tasks g !! t' = Some (rq', p') → holds p' ≠ Some conn) as Hnot.
  { intros t' rq' p' Ht' Hh'. destruct p'; try done; injection Hh' as E.
    - destruct (gi_statements _ H _ _ _ _ Ht' eq_refl) as (cn & Hc & _). congruence.
    - destruct (gi_lease _ H _ _ _ _ Ht' eq_refl) as [c Hc].
      destruct (gi_leased _ H _ _ _ Hc) as [Hg Hi]. apply (Hother _ _ Hg). congruence.
    - exact (Hother _ _ (gi_reset _ H _ _ _ _ Ht') E). }
  pose (c := mk_cached_connection conn (cs_now (gw_cache g)) (cs_now (gw_cache g)) (lg_host (rq_login rq))
    (lg_port (rq_login rq)) (lg_user (rq_login rq))
    (password_fingerprint fingerprint_key (lg_password (rq_login rq))) (lg_database (rq_login rq))).
  assert (cs_connections w1 !! conn = Some (mk_connection (rq_key rq) (rq_login rq)
            (fresh_session (lg_database (rq_login rq))) true)) as Hc by apply lookup_insert_eq.
  apply (inv_unlock_own _ t rq (AtStatements conn)); [|by apply lookup_insert_eq|done..].
  pose proof (inv_lease (with_cache w1 g) t rq p c H1 Ht) as Hlease. apply Hlease.
  - by exists (mk_connection (rq_key rq) (rq_login rq) (fresh_session (lg_database (rq_login rq))) true).
  - by exists (mk_connection (rq_key rq) (rq_login rq) (fresh_session (lg_database (rq_login rq))) true).
  - exact Hnot.
  - intros k c' Hk'. exact (Hother k c' (gi_cached _ H _ _ Hk')).
  - intros t' rq' p' c' _ Ht' Hb. destruct (gi_borrowed _ H _ _ _ _ Ht' Hb) as (Hg & _ & _).
    exact (Hother _ _ Hg).
Qed.
End invariant.

(** ** Every event keeps the invariant *)

Section steps.
  Context (config : ConnectionPoolConfig) (fingerprint_key : list Z).
  Context (server : string → list string → MySQLSession → MySQLSession).
  Context (changes_database_context is_select : string → bool).
  Context (apply_pagination : string → Z → Z → string).
  Context {Row : Type} (rows_of : string → MySQLSession → list Row).
  Context (timeout_ms : Z).
  Abbreviation step := (session_step config fingerprint_key server changes_database_context is_select
                      apply_pagination rows_of timeout_ms).
  Abbreviation run := (session_run config fingerprint_key server changes_database_context is_select
                      apply_pagination rows_of timeout_ms).
  Abbreviation inv := (gateway_inv fingerprint_key).

Lemma inv_lock_key t g g' : inv g → step (LockKey t) g = Some g' → inv g'.
Proof.
  intros H Hs. cbn [session_step] in Hs. destruct (gw_tasks g !! t) as [[rq p]|] eqn:Ht; [|done].
  destruct p; try done; destruct (lock_free (rq_key rq) t g) eqn:Hf; try done.
  - injection Hs as <-. pose proof (inv_lock _ _ _ t H Hf) as H1.
    assert (gw_locks (lock (rq_key rq) t g) !! rq_key rq = Some (Some t)) as Hl by apply lookup_insert_eq.
    unfold acquire_lookup. destruct (cs_cache (gw_cache g) !! rq_key rq) as [c|] eqn:Hc.
    + pose proof (gi_cached _ _ H _ _ Hc) as Hg. pose proof (gi_idle _ _ H _ _ Hc) as Hn.
      destruct (health_check config).
      * apply inv_move; [exact H1|]. split; try done. intros c' [= <-]. split_and!; [done..|by left].
      * apply (inv_acquire_pinged fingerprint_key (lock (rq_key rq) t g) t rq AtAcquire c true H1 Ht);
          [done..|by left].
    + apply inv_move; [exact H1|]. by split.
  - pose proof (inv_release_locked fingerprint_key (lock (rq_key rq) t g) t rq conn discard result
      (inv_lock _ _ _ t H Hf) Ht (lookup_insert_eq _ _ _)) as Hrel.
    simpl gw_cache in Hrel. destruct (release_locked _ _ _ _) as [w next]. by injection Hs as <-.
Qed.

Lemma inv_used t error g g' : inv g → step (Used t error) g = Some g' → inv g'.
Proof.
  intros H Hs. cbn [session_step] in Hs. destruct (gw_tasks g !! t) as [[rq p]|] eqn:Ht; [|done].
  destruct p; try done. destruct (gi_borrowed _ _ H _ _ _ _ Ht eq_refl) as (Hg & Hn & Hc).
  pose proof (gi_locks _ _ H _ _ _ Ht eq_refl) as Hl. destruct error as [e|].
  - destruct (is_cancelled e); [done|]. injection Hs as <-. apply inv_leave; [|exact Hl].
    exact (inv_pop_idle _ (with_cache (close_connection (cc_conn cached) (gw_cache g)) g) (rq_key rq)
             (inv_close _ _ _ H)).
  - injection Hs as <-. set (f := server (use_statement database) []).
    pose proof (inv_on_session _ _ f (cc_conn cached) H) as H1.
    pose proof (gi_statements _ _ H _ _ _ _ Ht eq_refl) as Ho.
    set (c1 := cached <| cc_database := Some database |>).
    assert (genuine fingerprint_key (on_session f (cc_conn cached) (gw_cache g)) (rq_key rq) c1) as Hg1
      by exact (genuine_kept _ _ _ _ cached (on_session_kept _ _ _) Hg).
    exact (inv_lease_idle _ (with_cache (on_session f (cc_conn cached) (gw_cache g)) g) t rq _ c1 H1 Ht Hl
      Hg1 Hn (opened_for_kept _ _ _ _ _ (on_session_kept _ _ _) Ho)).
Qed.

Lemma next_connection_fresh w : cs_connections w !! next_connection w = None.
Proof. apply (not_elem_of_dom (D:=gset nat)). exact (is_fresh _). Qed.

Lemma inv_connect t error g g' : inv g → step (Connected t error) g = Some g' → inv g'.
Proof.
  intros H Hs. cbn [session_step] in Hs. destruct (gw_tasks g !! t) as [[rq p]|] eqn:Ht; [|done].
  destruct p; try done. pose proof (gi_locks _ _ H _ _ _ Ht eq_refl) as Hl.
  pose proof (gi_capacity _ _ H _ _ Ht) as Hcap.
  destruct error as [e|]; [destruct (is_cancelled e); [done|]|].
  - injection Hs as <-.
    set (g1 := leave t rq (Raise (acquire_error e)) (with_cache (pop_idle (rq_key rq) (gw_cache g)) g)).
    assert (inv g1) as H1 by (apply inv_leave; [by apply inv_pop_idle|exact Hl]).
    apply (inv_capacity _ g1 None H1). intros t' rq' [(_ & _ & ?)|[Hne Ht']]%moved_task; [done|].
    pose proof (gi_capacity _ _ H _ _ Ht'). congruence.
  - injection Hs as <-. set (conn := next_connection (gw_cache g)).
    pose proof (inv_connected _ g t rq AtConnect conn H Ht eq_refl Hl) as H1.
    specialize (H1 (next_connection_fresh _)). apply (inv_capacity _ _ None) in H1; [exact H1|].
    intros t' rq' [(_ & _ & ?)|[Hne Ht']]%moved_task; [done|].
    pose proof (gi_capacity _ _ H _ _ Ht'). congruence.
Qed.

Lemma inv_answered t answers g g' : inv g → step (Answered t answers) g = Some g' → inv g'.
Proof.
  intros H Hs. cbn [session_step] in Hs. destruct (gw_tasks g !! t) as [[rq p]|] eqn:Ht; [|done].
  destruct p; try done.
  destruct (run_on_connection _ _ _ _ _ _ _ _ _ _) as [w ending] eqn:Hr. injection Hs as <-.
  assert (inv (with_cache w g)) as H1.
  { unfold run_on_connection in Hr. destruct (cs_connections (gw_cache g) !! conn) as [cn|].
    - destruct (run_call _ _ _ _ _ _ _ _) as [wire [r|e]]; injection Hr as <- _; by apply inv_on_session.
    - injection Hr as <- _. destruct g. exact H. }
  unfold begin_release. destruct (ce_released ending); apply (inv_move _ (with_cache w g));
    try exact H1; split; try done.
  all: intros c [= <-]; eauto.
Qed.

Lemma inv_cancelled t applied g g' : inv g → step (Cancelled t applied) g = Some g' → inv g'.
Proof.
  intros H Hs. cbn [session_step] in Hs. destruct (gw_tasks g !! t) as [[rq p]|] eqn:Ht; [|done].
  assert (critical p = true → gw_locks g !! rq_key rq = Some (Some t)) as Hl by (intros; by eapply gi_locks).
  destruct p; try done; cbn [cancel] in Hs; injection Hs as <-; try (by apply inv_leave; [|apply Hl]);
    try (by apply inv_move; [|split]).
  - apply inv_leave; [|by apply Hl]. destruct applied; [by apply inv_on_session|].
    destruct g. exact H.
  - pose proof (inv_leave _ g t rq (Raise CancelledError) H (Hl eq_refl)) as H1.
    apply (inv_capacity _ _ None) in H1; [exact H1|].
    intros t' rq' [(_ & _ & ?)|[Hne Ht']]%moved_task; [done|].
    pose proof (gi_capacity _ _ H _ _ Ht'). pose proof (gi_capacity _ _ H _ _ Ht). congruence.
Qed.

Lemma inv_step ev g g' : inv g → step ev g = Some g' → inv g'.
Proof.
  intros H Hs. destruct ev; eauto using inv_lock_key, inv_used, inv_connect, inv_answered, inv_cancelled.
  - cbn [session_step] in Hs. destruct (gw_tasks g !! t) eqn:Ht; [done|]. injection Hs as <-.
    apply (inv_move _ g t rq AtAcquire); [done|]. by split.
  - cbn [session_step] in Hs. destruct (gw_tasks g !! t) as [[rq p]|] eqn:Ht; [|done].
    destruct p; try done. injection Hs as <-.
    destruct (gi_borrowed _ _ H _ _ _ _ Ht eq_refl) as (Hg & Hn & Hc).
    apply (inv_acquire_pinged _ g t rq (AtPing cached) cached alive H Ht); try done.
    exact (gi_locks _ _ H _ _ _ Ht eq_refl).
  - cbn [session_step] in Hs. destruct (gw_tasks g !! t) as [[rq p]|] eqn:Ht; [|done].
    destruct p; try done. destruct (gw_capacity_lock g) eqn:Hcap; [done|].
    pose proof (gi_locks _ _ H _ _ _ Ht eq_refl) as Hl. injection Hs as <-.
    destruct (has_capacity config (gw_cache g)); [|by apply inv_leave].
    apply inv_move; [|by split]. apply inv_capacity; [done|].
    intros t' rq' Ht'. pose proof (gi_capacity _ _ H _ _ Ht'). congruence.
  - cbn [session_step] in Hs. destruct (gw_tasks g !! t) as [[rq p]|] eqn:Ht; [|done].
    destruct p; try done. injection Hs as <-. destruct ok; [|by apply inv_release_reset].
    by apply (inv_release_reset _ (with_cache (on_session (reset_session server) (cc_conn cached) (gw_cache g)) g)
      t rq cached result true (inv_on_session _ _ _ _ H)).
  - cbn [session_step] in Hs. injection Hs as <-.
    set (w := evict_expired config (gw_cache g)).
    apply (inv_locks _ (with_cache w g)); [by apply (inv_evict _ config)|].
    intros t rq p Ht Hc. simpl in Ht |- *.
    pose proof (gi_locks _ _ H _ _ _ Ht Hc) as Hl. rewrite Hl. apply map_lookup_filter_Some.
    split; [done|]. unfold stale_lock. simpl. by rewrite !andb_false_r.
  - cbn [session_step] in Hs. destruct (0 <=? d); [|done]. injection Hs as <-. by apply inv_tick.
Qed.

Lemma inv_run evs g g' : inv g → run evs g = Some g' → inv g'.
Proof.
  revert g. induction evs as [|ev evs IH]; intros g H Hr; [by injection Hr as <-|].
  cbn [session_run] in Hr. destruct (step ev g) as [g1|] eqn:Hs; [|done].
  by apply (IH g1); [apply (inv_step ev g)|].
Qed.

Lemma inv_idle_gateway : inv idle_gateway.
Proof. split; unfold idle_gateway; simpl; intros *; rewrite ?lookup_empty; done. Qed.

Lemma run_app evs1 evs2 g :
  run (evs1 ++ evs2) g = (g1 ← run evs1 g; run evs2 g1).
Proof.
  revert g. induction evs1 as [|ev evs1 IH]; intros g; [done|]. simpl.
  destruct (step ev g); [apply IH|done].
Qed.
End steps.
