(* ===== verification/SessionLocks.v ===== *)
(** * The key locks of the connection cache

    Two things about [session_step] under the lock objects of the source.
    Whatever the locks do, a call gets a connection opened for its own user,
    instance and login ([owned]).  And as long as no clean-up drops a lock that
    a call waits for ([locks_survive]), the lock objects implement a table that
    locks the keys themselves ([sim]): the invariants of [SessionInvariant.v],
    [SessionClean.v] and [SessionQuiet.v] are about that table. *)

From S2P Require Import Prelude PyString Hashing ConnectionCache SqlScan SqlGateway SqlSessions.
From S2P Require Import SessionInvariant.

(** ** Whose connection it is, whatever the locks *)

Section owned.
  Context (config : ConnectionPoolConfig) (fingerprint_key : list Z).
  Context (server : string → list string → MySQLSession → MySQLSession).
  Context (changes_database_context is_select : string → bool).
  Context (apply_pagination : string → Z → Z → string).
  Context {Row : Type} (rows_of : string → MySQLSession → list Row).
  Context (timeout_ms : Z).
  Context {L : Type} `{KeyLocks L}.
  Abbreviation step := (session_step config fingerprint_key server changes_database_context is_select
                          apply_pagination rows_of timeout_ms).
  Abbreviation run := (session_run config fingerprint_key server changes_database_context is_select
                         apply_pagination rows_of timeout_ms).
  Abbreviation genuine := (genuine fingerprint_key).
  Abbreviation opened_for := (opened_for fingerprint_key).

Definition point_owned (w : CacheState) (rq : Request) (p : Point) : Prop :=
  match p with
  | AtPing c | AtReset c _ => genuine w (rq_key rq) c
  | AtUse c _ => genuine w (rq_key rq) c ∧ opened_for w rq (cc_conn c)
  | AtStatements conn => opened_for w rq conn
  | _ => True
  end.

Record owned (w : CacheState) (tasks : gmap nat (Request * Point)) : Prop := {
  ow_cached : ∀ k c, cs_cache w !! k = Some c → genuine w k c;
  ow_leased : ∀ k id c, cs_leased w !! (k, id) = Some c → genuine w k c;
  ow_tasks : ∀ t rq p, tasks !! t = Some (rq, p) → point_owned w rq p
}.

Lemma kept_trans w1 w2 w3 : connections_kept w1 w2 → connections_kept w2 w3 → connections_kept w1 w3.
Proof.
  intros H1 H2 id cn Hid. destruct (H1 id cn Hid) as (cn' & Hid' & E1 & E2).
  destruct (H2 id cn' Hid') as (cn'' & ? & ? & ?). exists cn''. split_and!; congruence.
Qed.

Lemma replace_kept k id w : connections_kept w (replace_idle k id w).
Proof.
  unfold replace_idle. destruct (cs_cache w !! k) as [c|]; [|by apply kept_same].
  destruct (cc_conn c =? id)%nat; [by apply kept_same|]. apply close_kept.
Qed.

Lemma connected_kept k l w :
  connections_kept w (acquire_connected fingerprint_key k l (next_connection w) w).
Proof.
  intros id cn Hid. simpl. rewrite lookup_insert_ne; [eauto|].
  intros <-. by rewrite next_connection_fresh in Hid.
Qed.

Lemma point_owned_kept w w' rq p : connections_kept w w' → point_owned w rq p → point_owned w' rq p.
Proof.
  intros Hk. destruct p; simpl; try done; eauto using genuine_kept, opened_for_kept.
  intros [? ?]. eauto using genuine_kept, opened_for_kept.
Qed.

(** What is new in the cache or among the leases is genuine. *)
Lemma owned_cache w w' tasks :
  owned w tasks → connections_kept w w' →
  (∀ k c, cs_cache w' !! k = Some c → cs_cache w !! k = Some c ∨ genuine w' k c) →
  (∀ k id c, cs_leased w' !! (k, id) = Some c → cs_leased w !! (k, id) = Some c ∨ genuine w' k c) →
  owned w' tasks.
Proof.
  intros [] Hk Hc Hl. split.
  - intros k c [?|?]%Hc; eauto using genuine_kept.
  - intros k id c [?|?]%Hl; eauto using genuine_kept.
  - intros t rq p Ht. eauto using point_owned_kept.
Qed.

Lemma owned_move w tasks t rq p : owned w tasks → point_owned w rq p → owned w (<[t := (rq, p)]> tasks).
Proof.
  intros [] Hp. split; [done..|]. intros t' rq' p' [[<- [= <- <-]]|[_ Ht]]%lookup_insert_Some; eauto.
Qed.

(** Connections are closed, idle ones dropped. *)
Lemma owned_shrink w w' tasks :
  owned w tasks → connections_kept w w' → (∀ k c, cs_cache w' !! k = Some c → cs_cache w !! k = Some c) →
  cs_leased w' = cs_leased w → owned w' tasks.
Proof.
  intros Ho Hk Hc Hl. apply (owned_cache w w'); [done..| |]; [by eauto|]. intros k id c. rewrite Hl. by left.
Qed.

Lemma owned_drop w tasks k id : owned w tasks → owned (pop_idle k (close_connection id w)) tasks.
Proof.
  intros Ho. apply (owned_shrink w); [done|apply (close_kept id w)| |done].
  intros k' c. simpl. by intros [_ ?]%lookup_delete_Some.
Qed.

Lemma owned_lease w tasks k c : owned w tasks → genuine w k c → owned (lease_idle k c w) tasks.
Proof.
  intros Ho Hg. apply (owned_cache w); [done|by apply kept_same|..].
  - intros k' c'. simpl. intros [_ ?]%lookup_delete_Some. by left.
  - intros k' id c'. simpl. intros [[[= <- <-] <-]|[_ ?]]%lookup_insert_Some; [by right|by left].
Qed.

Lemma owned_pinged w tasks t rq c alive :
  owned w tasks → genuine w (rq_key rq) c →
  let next := acquire_pinged fingerprint_key (rq_key rq) (rq_login rq) c alive w in
  ∀ g : Gateway L, gw_tasks g = tasks →
  owned (gw_cache (acquire_on t rq next g)) (gw_tasks (acquire_on t rq next g)).
Proof.
  intros Ho Hg next g Hgt. subst next.
  assert (owned (pop_idle (rq_key rq) (close_connection (cc_conn c) w)) (<[t := (rq, AtCapacity)]> (gw_tasks g)))
    as Hconnect by (rewrite Hgt; by apply owned_move; [apply owned_drop|]).
  unfold acquire_pinged. destruct alive; [|exact Hconnect].
  destruct (connection_identity_changed fingerprint_key c (rq_login rq)) eqn:Hi; [exact Hconnect|].
  destruct (stale_database_context c (rq_login rq)); [exact Hconnect|]. cbn [orb].
  pose proof (identity_opened_for _ _ _ _ Hg Hi) as Hop.
  assert (owned (lease_idle (rq_key rq) c w) (<[t := (rq, AtStatements (cc_conn c))]> (gw_tasks g))) as Hlease.
  { rewrite Hgt. apply owned_move; [by apply owned_lease|]. exact Hop. }
  destruct (lg_database (rq_login rq)) as [db|]; [|exact Hlease].
  destruct (_ && _); [|exact Hlease]. simpl. rewrite Hgt. by apply owned_move.
Qed.

Lemma owned_evict w tasks : owned w tasks → owned (evict_expired config w) tasks.
Proof. intros Ho. unfold evict_expired. induction (filter _ _) as [|e l IH]; [done|]. by apply owned_drop. Qed.

Lemma owned_reset w tasks k c (ok : bool) f :
  owned w tasks → genuine w k c →
  owned (release_reset k c ok (if ok then on_session f (cc_conn c) w else w)) tasks.
Proof.
  intros Ho Hg. unfold release_reset. destruct ok.
  - set (w1 := on_session f (cc_conn c) w).
    assert (connections_kept w (replace_idle k (cc_conn c) w1)) as Hk
      by (eapply kept_trans; [apply (on_session_kept f (cc_conn c))|apply replace_kept]).
    apply (owned_cache w); [done|exact Hk|..].
    + set (c1 := set_field cc_last_used _ c). intros k' c' Hc.
      change (<[k := c1]> (cs_cache (replace_idle k (cc_conn c) w1)) !! k' = Some c') in Hc.
      apply lookup_insert_Some in Hc as [[<- <-]|[_ Hc]]; [right; exact (genuine_kept _ _ _ _ c Hk Hg)|].
      apply replace_cache in Hc as [_ Hc]. by left.
    + intros k' id c' Hc. left. change (cs_leased (replace_idle k (cc_conn c) w1) !! (k', id) = Some c') in Hc.
      by rewrite replace_leased in Hc.
  - apply (owned_shrink w); [done| | |by rewrite replace_leased].
    + eapply kept_trans; [apply (close_kept (cc_conn c))|apply replace_kept].
    + intros k' c' Hc. by apply replace_cache in Hc as [_ Hc].
Qed.

Lemma owned_release w tasks k conn discard :
  owned w tasks → owned (release_locked k conn discard w).1 tasks
    ∧ ∀ c, (release_locked k conn discard w).2 = Some c → genuine (release_locked k conn discard w).1 k c.
Proof.
  intros Ho. unfold release_locked. destruct (cs_leased w !! (k, conn)) as [c|] eqn:Hc.
  - set (w1 := w <| cs_leased := _ |>). assert (owned w1 tasks) as H1.
    { apply (owned_cache w); [done|by apply kept_same|by left|]. intros k' id c'. simpl.
      intros [_ ?]%lookup_delete_Some. by left. }
    destruct discard; simpl.
    + split; [|done]. apply (owned_shrink w1); [done| | |by rewrite replace_leased].
      * eapply kept_trans; [apply (close_kept conn)|apply replace_kept].
      * intros k' c' Hc'. by apply replace_cache in Hc' as [_ Hc'].
    + split; [done|]. intros c' [= <-]. exact (ow_leased _ _ Ho _ _ _ Hc).
  - simpl. split; [|done].
    assert (owned (close_connection conn w) tasks) as Hclose
      by (apply (owned_shrink w); try done; apply (close_kept conn)).
    destruct (cs_cache w !! k) as [i|]; [destruct (cc_conn i =? conn)%nat|]; try done. exact (owned_drop w tasks k conn Ho).
Qed.

Lemma owned_used w tasks t rq c database (g : Gateway L) f :
  owned w tasks → point_owned w rq (AtUse c database) → gw_tasks g = tasks →
  let next := (acquire_used (rq_key rq) c database true (on_session f (cc_conn c) w), Leased (cc_conn c)) in
  owned (gw_cache (acquire_on t rq next g)) (gw_tasks (acquire_on t rq next g)).
Proof.
  intros Ho [Hg Hop] Hgt. simpl. rewrite Hgt.
  pose proof (on_session_kept f (cc_conn c) w) as Hk. apply owned_move.
  - apply owned_lease; [by apply (owned_shrink w)|]. exact (genuine_kept _ _ _ _ c Hk Hg).
  - exact (opened_for_kept _ _ _ _ _ Hk Hop).
Qed.

Lemma owned_connected w tasks t rq :
  owned w tasks →
  owned (acquire_connected fingerprint_key (rq_key rq) (rq_login rq) (next_connection w) w)
    (<[t := (rq, AtStatements (next_connection w))]> tasks).
Proof.
  intros Ho. set (w' := acquire_connected _ _ _ _ _).
  assert (opened_for w' rq (next_connection w)) as Hop.
  { eexists. split; [by apply lookup_insert_eq|]. done. }
  apply owned_move; [|exact Hop].
  apply (owned_cache w); [done|apply connected_kept|by left|].
  intros k id c Hc. simpl in Hc. apply lookup_insert_Some in Hc as [[[= <- <-] <-]|[_ ?]]; [right|by left].
  exact Hop.
Qed.

Lemma owned_step ev (g g' : Gateway L) :
  owned (gw_cache g) (gw_tasks g) → step ev g = Some g' → owned (gw_cache g') (gw_tasks g').
Proof.
  intros Ho Hs. assert (∀ t rq p, owned (gw_cache g) (gw_tasks g) → point_owned (gw_cache g) rq p →
    owned (gw_cache g) (<[t := (rq, p)]> (gw_tasks g))) as Hmove by (intros; by apply owned_move).
  destruct ev; cbn [session_step] in Hs;
    try (destruct (gw_tasks g !! t) as [[rq0 p]|] eqn:Ht; try done; pose proof (ow_tasks _ _ Ho _ _ _ Ht) as Hp).
  - destruct (gw_tasks g !! t); [done|]. injection Hs as <-. by apply Hmove.
  - destruct p; try done; destruct (lock_free (rq_key rq0) t g); try done.
    + injection Hs as <-. unfold acquire_lookup.
      destruct (cs_cache (gw_cache g) !! rq_key rq0) as [c|] eqn:Hc; [|by apply Hmove].
      pose proof (ow_cached _ _ Ho _ _ Hc) as Hg. destruct (health_check config); [by apply Hmove|].
      by apply (owned_pinged (gw_cache g) (gw_tasks g)).
    + pose proof (owned_release _ _ (rq_key rq0) conn discard Ho) as [Hr Hg].
      destruct (release_locked _ _ _ _) as [w [c|]]; injection Hs as <-; apply owned_move; try done.
      by apply Hg.
  - destruct p; try done. injection Hs as <-. by apply (owned_pinged (gw_cache g) (gw_tasks g)).
  - destruct p; try done. destruct error as [e|]; [destruct (is_cancelled e); [done|]|]; injection Hs as <-.
    + apply owned_move; [by apply owned_drop|done].
    + exact (owned_used _ _ t rq0 cached database g _ Ho Hp eq_refl).
  - destruct p; try done. destruct (gw_capacity_lock g); [done|]. injection Hs as <-.
    destruct (has_capacity config (gw_cache g)); by apply Hmove.
  - destruct p; try done. destruct error as [e|]; [destruct (is_cancelled e); [done|]|]; injection Hs as <-.
    + apply owned_move; [|done]. apply (owned_shrink (gw_cache g)); [done|by apply kept_same| |done].
      intros k c. simpl. by intros [_ ?]%lookup_delete_Some.
    + by apply owned_connected.
  - destruct p; try done. destruct (run_on_connection _ _ _ _ _ _ _ _ _ _) as [w ending] eqn:Hr. injection Hs as <-.
    assert (owned w (gw_tasks g)) as Hw.
    { unfold run_on_connection in Hr. destruct (cs_connections (gw_cache g) !! conn) as [cn|];
        [destruct (run_call _ _ _ _ _ _ _ _) as [wire [r|e]]|]; injection Hr as <- _; try done;
        apply (owned_shrink (gw_cache g)); try done; apply on_session_kept. }
    unfold begin_release. destruct (ce_released ending); by apply owned_move.
  - destruct p; try done. injection Hs as <-. apply owned_move; [|done].
    exact (owned_reset _ _ _ cached ok _ Ho Hp).
  - destruct p; try done; cbn [cancel] in Hs; injection Hs as <-; try (by apply Hmove).
    apply owned_move; [|done]. destruct applied; [|done].
    apply (owned_shrink (gw_cache g)); try done. apply on_session_kept.
  - injection Hs as <-. by apply owned_evict.
  - destruct (0 <=? d); [|done]. injection Hs as <-.
    apply (owned_shrink (gw_cache g)); try done. by apply kept_same.
Qed.

Lemma owned_run evs (g g' : Gateway L) :
  owned (gw_cache g) (gw_tasks g) → run evs g = Some g' → owned (gw_cache g') (gw_tasks g').
Proof.
  revert g. induction evs as [|ev evs IH]; intros g Ho Hr; [by injection Hr as <-|].
  cbn [session_run] in Hr. destruct (step ev g) as [g1|] eqn:Hs; [|done].
  apply (IH g1); [by eapply owned_step|done].
Qed.

Lemma owned_idle_gateway : owned (gw_cache (idle_gateway (L:=L))) (gw_tasks (idle_gateway (L:=L))).
Proof. split; simpl; intros *; by rewrite lookup_empty. Qed.
End owned.

(** ** The lock objects implement a table of the keys *)

(** [O] is the table of the lock objects, [K] that of the keys. *)
Record implements (O : LockObjects) (K : gmap cache_key (option nat)) : Prop := {
  im_holder : ∀ k t, lock_holder O k = Some t ↔ K !! k = Some (Some t);
  im_distinct : ∀ k k' l, lo_locks O !! k = Some l → lo_locks O !! k' = Some l → k = k';
  im_made : ∀ k l, lo_locks O !! k = Some l → (l < lo_next O)%nat;
  im_held : ∀ l t, lo_held O !! l = Some t → ∃ k, lo_locks O !! k = Some l
}.

(** The object task [t] was given is the one its key has. *)
Definition has_lock (O : LockObjects) (t : nat) (k : cache_key) : Prop :=
  ∃ l, lo_given O !! t = Some l ∧ lo_locks O !! k = Some l.

Lemma holder_of O k l : lo_locks O !! k = Some l → lock_holder O k = lo_held O !! l.
Proof. intros Hl. unfold lock_holder. by rewrite Hl. Qed.

Lemma implements_free O K k t : implements O K → has_lock O t k → is_free k t O = is_free k t K.
Proof.
  intros Hi (l & Hg & Hl). simpl. rewrite Hg. pose proof (holder_of _ _ _ Hl) as Hh.
  destruct (lo_held O !! l) as [t'|] eqn:Hd.
  - by rewrite (proj1 (im_holder _ _ Hi k t') Hh).
  - destruct (K !! k) as [[t'|]|] eqn:Hk; try done.
    apply (im_holder _ _ Hi) in Hk. congruence.
Qed.

Lemma implements_fetch O K k t : implements O K → implements (get_lock k t O) K.
Proof.
  intros []. unfold get_lock. destruct (lo_locks O !! k) as [l|] eqn:Hl; [by split|].
  assert (lo_held O !! lo_next O = None) as Hnew.
  { apply eq_None_not_Some. intros [t' Ht]. destruct (im_held0 _ _ Ht) as [k' Hk']. apply im_made0 in Hk'. lia. }
  split; unfold lock_holder; simpl.
  - intros k' t'. rewrite <- im_holder0. unfold lock_holder. destruct (decide (k' = k)) as [->|Hne].
    + rewrite lookup_insert_eq, Hl. simpl. by rewrite Hnew.
    + by rewrite lookup_insert_ne by congruence.
  - intros k1 k2 l [[<- <-]|[? H1]]%lookup_insert_Some [[<- E]|[? H2]]%lookup_insert_Some; try done; [| |by eauto].
    + apply im_made0 in H2. lia.
    + subst. apply im_made0 in H1. lia.
  - intros k' l [[<- <-]|[? ?%im_made0]]%lookup_insert_Some; lia.
  - intros l t' Ht. destruct (im_held0 l t' Ht) as [k' Hk']. exists k'. rewrite lookup_insert_ne; [done|congruence].
Qed.

Lemma has_fetched O k t : has_lock (get_lock k t O) t k.
Proof.
  unfold has_lock, get_lock. destruct (lo_locks O !! k) as [l|] eqn:Hl; simpl; eexists; by rewrite !lookup_insert_eq.
Qed.

Lemma has_lock_fetch O k t t' k' : t' ≠ t → has_lock O t' k' → has_lock (get_lock k t O) t' k'.
Proof.
  intros Hne (l & Hg & Hl). exists l. unfold get_lock. destruct (lo_locks O !! k) as [l'|] eqn:Hk; simpl;
    rewrite !lookup_insert_ne; try done; congruence.
Qed.

Lemma implements_take O K k t : implements O K → has_lock O t k → implements (take_lock k t O) (take_lock k t K).
Proof.
  intros [] (l & Hg & Hl). simpl. rewrite Hg. split; simpl; try done.
  - intros k' t'. unfold lock_holder. simpl. destruct (decide (k' = k)) as [->|Hne].
    + rewrite Hl, lookup_insert_eq. simpl. rewrite lookup_insert_eq. naive_solver.
    + rewrite lookup_insert_ne, <- im_holder0 by congruence. unfold lock_holder.
      destruct (lo_locks O !! k') as [l'|] eqn:Hk'; [|done]. simpl.
      rewrite lookup_insert_ne; [done|]. intros <-. apply Hne. by eapply im_distinct0.
  - intros l' t' [[<- <-]|[_ ?]]%lookup_insert_Some; eauto.
Qed.

Lemma implements_release O K k t :
  implements O K → has_lock O t k → implements (release_lock k t O) (release_lock k t K).
Proof.
  intros [] (l & Hg & Hl). simpl. rewrite Hg. split; simpl; try done.
  - intros k' t'. unfold lock_holder. simpl. destruct (decide (k' = k)) as [->|Hne].
    + rewrite Hl, lookup_insert_eq. simpl. by rewrite lookup_delete_eq.
    + rewrite lookup_insert_ne, <- im_holder0 by congruence. unfold lock_holder.
      destruct (lo_locks O !! k') as [l'|] eqn:Hk'; [|done]. simpl.
      rewrite lookup_delete_ne; [done|]. intros <-. apply Hne. by eapply im_distinct0.
  - intros l' t' [_ ?]%lookup_delete_Some; eauto.
Qed.

Lemma has_lock_taken O k t t' k' : has_lock (take_lock k t O) t' k' ↔ has_lock O t' k'.
Proof. unfold has_lock. simpl. by destruct (lo_given O !! t). Qed.
Lemma has_lock_released O k t t' k' : has_lock (release_lock k t O) t' k' ↔ has_lock O t' k'.
Proof. unfold has_lock. simpl. by destruct (lo_given O !! t). Qed.

Lemma implements_drop O K stale :
  implements O K → (∀ k, stale k true = false) → implements (drop_locks stale O) (drop_locks stale K).
Proof.
  intros [] Hs. assert (∀ k l t, lo_locks O !! k = Some l → lo_held O !! l = Some t →
    lo_locks (drop_locks stale O) !! k = Some l) as Hkeep.
  { intros k l t Hl Hh. apply map_lookup_filter_Some. split; [done|]. simpl. by rewrite Hh. }
  split; simpl.
  - intros k t. rewrite map_lookup_filter_Some. simpl. rewrite <- im_holder0. split.
    + unfold lock_holder. simpl. destruct (filter _ _ !! k) as [l|] eqn:Hl; [|done]. simpl.
      apply map_lookup_filter_Some in Hl as [-> _]. auto.
    + intros [Hh _]. unfold lock_holder in Hh |- *. destruct (lo_locks O !! k) as [l|] eqn:Hl; [|done].
      simpl in Hh. pose proof (Hkeep k l t Hl Hh) as Hk. simpl in Hk |- *. by rewrite Hk.
  - intros k k' l [H1 _]%map_lookup_filter_Some [H2 _]%map_lookup_filter_Some. by eapply im_distinct0.
  - intros k l [H1 _]%map_lookup_filter_Some. by eapply im_made0.
  - intros l t Ht. destruct (im_held0 l t Ht) as [k Hk]. exists k. by eapply Hkeep.
Qed.

Lemma has_lock_drop O stale t k :
  has_lock O t k → stale k (is_locked (lock_holder O k)) = false → has_lock (drop_locks stale O) t k.
Proof.
  intros (l & Hg & Hl) Hs. exists l. split; [done|]. apply map_lookup_filter_Some. split; [done|]. simpl.
  by rewrite <- (holder_of _ _ _ Hl).
Qed.

(** A task waits for its lock or holds it. *)
Definition uses_lock (p : Point) : bool :=
  match p with AtStatements _ | AtEnd _ => false | _ => true end.

Section simulation.
  Context (config : ConnectionPoolConfig) (fingerprint_key : list Z).
  Context (server : string → list string → MySQLSession → MySQLSession).
  Context (changes_database_context is_select : string → bool).
  Context (apply_pagination : string → Z → Z → string).
  Context {Row : Type} (rows_of : string → MySQLSession → list Row).
  Context (timeout_ms : Z).
  Abbreviation step := (session_step config fingerprint_key server changes_database_context is_select
                          apply_pagination rows_of timeout_ms).
  Abbreviation run := (session_run config fingerprint_key server changes_database_context is_select
                         apply_pagination rows_of timeout_ms).

(** No call waits, in [acquire], for a lock the clean-up drops. *)
Definition waited_locks_stay (g : Gateway LockObjects) : bool :=
  let w := evict_expired config (gw_cache g) in
  forallb (λ e : nat * (Request * Point),
             match e.2.2 with
             | AtAcquire => negb (stale_lock w (rq_key e.2.1) (is_locked (lock_holder (gw_locks g) (rq_key e.2.1))))
             | _ => true
             end) (map_to_list (gw_tasks g)).

(** Of every clean-up of a run. *)
Fixpoint locks_survive (evs : list Event) (g : Gateway LockObjects) : bool :=
  match evs with
  | [] => true
  | ev :: evs =>
      match ev with CleanupOnce => waited_locks_stay g | _ => true end
      && match step ev g with Some g => locks_survive evs g | None => true end
  end.

Record sim (g : Gateway LockObjects) (a : Gateway KeyTable) : Prop := {
  sim_cache : gw_cache a = gw_cache g;
  sim_capacity : gw_capacity_lock a = gw_capacity_lock g;
  sim_tasks : gw_tasks a = gw_tasks g;
  sim_locks : implements (gw_locks g) (gw_locks a);
  sim_given : ∀ t rq p, gw_tasks g !! t = Some (rq, p) → uses_lock p = true → has_lock (gw_locks g) t (rq_key rq)
}.

(** Task [t] moves; the locks of the others are as they were. *)
Lemma sim_move w w' c c' tasks O O' K K' t rq p' :
  sim (mk_gateway w O c tasks) (mk_gateway w K c tasks) → implements O' K' →
  (∀ t' k, t' ≠ t → has_lock O t' k → has_lock O' t' k) →
  (uses_lock p' = true → has_lock O' t (rq_key rq)) →
  sim (mk_gateway w' O' c' (<[t := (rq, p')]> tasks)) (mk_gateway w' K' c' (<[t := (rq, p')]> tasks)).
Proof.
  intros [] Hi Ho Hn. split; try done. simpl in *.
  intros t' rq' q [[<- [= <- <-]]|[Hne Ht]]%lookup_insert_Some Hu; [by apply Hn|].
  apply Ho; [done|]. by eapply sim_given0.
Qed.

Lemma sim_stay w w' c c' tasks O K t rq p' :
  sim (mk_gateway w O c tasks) (mk_gateway w K c tasks) → has_lock O t (rq_key rq) →
  sim (mk_gateway w' O c' (<[t := (rq, p')]> tasks)) (mk_gateway w' K c' (<[t := (rq, p')]> tasks)).
Proof. intros Hs Hh. eapply sim_move; [exact Hs|apply Hs|done|done]. Qed.

Lemma sim_leave w w' c c' tasks O K t rq p' :
  sim (mk_gateway w O c tasks) (mk_gateway w K c tasks) → has_lock O t (rq_key rq) →
  sim (mk_gateway w' (release_lock (rq_key rq) t O) c' (<[t := (rq, p')]> tasks))
      (mk_gateway w' (release_lock (rq_key rq) t K) c' (<[t := (rq, p')]> tasks)).
Proof.
  intros Hs Hh. eapply sim_move; [exact Hs| | |].
  - by apply implements_release; [apply Hs|].
  - intros t' k _. by rewrite has_lock_released.
  - intros _. by apply has_lock_released.
Qed.

Lemma sim_fetch w w' c c' tasks O K t rq p' :
  sim (mk_gateway w O c tasks) (mk_gateway w K c tasks) →
  sim (mk_gateway w' (get_lock (rq_key rq) t O) c' (<[t := (rq, p')]> tasks))
      (mk_gateway w' K c' (<[t := (rq, p')]> tasks)).
Proof.
  intros Hs. eapply sim_move; [exact Hs| | |].
  - by apply implements_fetch, Hs.
  - intros t' k Hne. by apply has_lock_fetch.
  - intros _. apply has_fetched.
Qed.

Lemma sim_lock w c tasks O K t k :
  sim (mk_gateway w O c tasks) (mk_gateway w K c tasks) → has_lock O t k →
  sim (mk_gateway w (take_lock k t O) c tasks) (mk_gateway w (take_lock k t K) c tasks).
Proof.
  intros [] Hh. split; try done; simpl in *.
  - by apply (implements_take O K).
  - intros t' rq p Ht Hu. apply (has_lock_taken O k t). eauto.
Qed.

Lemma sim_acquire_on w w' next c c' tasks O K t rq :
  sim (mk_gateway w O c tasks) (mk_gateway w K c tasks) → has_lock O t (rq_key rq) →
  sim (acquire_on t rq (w', next) (mk_gateway w O c' tasks)) (acquire_on t rq (w', next) (mk_gateway w K c' tasks)).
Proof. intros Hs Hh. destruct next; first [by eapply sim_stay|by eapply sim_leave]. Qed.

(** ** Every event *)

Lemma evict_leased w : cs_leased (evict_expired config w) = cs_leased w.
Proof. unfold evict_expired. induction (filter _ _) as [|e l IH]; [done|exact IH]. Qed.

Lemma held_not_stale w k : stale_lock w k true = false.
Proof. unfold stale_lock. apply andb_false_r. Qed.

Lemma leased_not_stale w k id locked : is_Some (cs_leased w !! (k, id)) → stale_lock w k locked = false.
Proof.
  intros [c Hc]. apply andb_false_iff. left. apply andb_false_iff. right. apply bool_decide_eq_false_2.
  intros Hall. rewrite Forall_forall in Hall. apply (Hall (k, id)); [|done].
  apply list_elem_of_fmap. exists ((k, id), c). split; [done|]. by apply elem_of_map_to_list.
Qed.

Lemma sim_clean g a :
  sim g a → gateway_inv fingerprint_key a → waited_locks_stay g = true →
  let w := evict_expired config (gw_cache g) in
  sim (mk_gateway w (drop_locks (stale_lock w) (gw_locks g)) (gw_capacity_lock g) (gw_tasks g))
      (mk_gateway w (drop_locks (stale_lock w) (gw_locks a)) (gw_capacity_lock g) (gw_tasks g)).
Proof.
  intros Hs Hi Hw w. split; try done.
  - apply (implements_drop (gw_locks g)); [apply Hs|]. intros k. apply held_not_stale.
  - intros t rq p Ht Hu. apply has_lock_drop; [by eapply sim_given|].
    pose proof Ht as Ht'. rewrite <- (sim_tasks _ _ Hs) in Ht'.
    destruct (critical p) eqn:Hc.
    + pose proof (gi_locks _ _ Hi _ _ _ Ht' Hc) as Hl. apply (im_holder _ _ (sim_locks _ _ Hs)) in Hl.
      rewrite Hl. apply held_not_stale.
    + destruct p; try done.
      * unfold waited_locks_stay in Hw. rewrite forallb_forall in Hw.
        assert ((t, (rq, AtAcquire)) ∈ map_to_list (gw_tasks g)) as Hin by (by apply elem_of_map_to_list).
        apply list_elem_of_In, Hw in Hin. by apply negb_true_iff in Hin.
      * apply (leased_not_stale _ _ conn). simpl gw_cache. unfold w. rewrite evict_leased, <- (sim_cache _ _ Hs).
        exact (gi_lease _ _ Hi _ _ _ _ Ht' eq_refl).
Qed.

Lemma sim_cancel w c tasks O K t rq p applied g' :
  sim (mk_gateway w O c tasks) (mk_gateway w K c tasks) → tasks !! t = Some (rq, p) →
  cancel server t rq p applied (mk_gateway w O c tasks) = Some g' →
  ∃ a', cancel server t rq p applied (mk_gateway w K c tasks) = Some a' ∧ sim g' a'.
Proof.
  intros Hs Ht Hg. destruct p; try done; pose proof (sim_given _ _ Hs _ _ _ Ht eq_refl) as Hl;
    injection Hg as <-; eexists; (split; [done|]); first [by eapply sim_stay|by eapply sim_leave].
Qed.

(** The table of the keys makes every step of the lock objects. *)
Lemma sim_step ev g a g' :
  sim g a → gateway_inv fingerprint_key a →
  match ev with CleanupOnce => waited_locks_stay g | _ => true end = true →
  step ev g = Some g' → ∃ a', step ev a = Some a' ∧ sim g' a'.
Proof.
  intros Hs Hi Hw Hg. destruct g as [w O c tasks], a as [w0 K c0 tasks0].
  pose proof (sim_cache _ _ Hs) as E1. pose proof (sim_capacity _ _ Hs) as E2. pose proof (sim_tasks _ _ Hs) as E3.
  simpl in E1, E2, E3. subst w0 c0 tasks0.
  assert (∀ t rq p, tasks !! t = Some (rq, p) → uses_lock p = true → has_lock O t (rq_key rq)) as Hgiven
    by apply Hs.
  assert (∀ t rq p, tasks !! t = Some (rq, p) → uses_lock p = true →
    lock_free (rq_key rq) t (mk_gateway w O c tasks) = lock_free (rq_key rq) t (mk_gateway w K c tasks)) as Hfree.
  { intros t rq p Ht Hu. apply implements_free; [apply Hs|by eapply Hgiven]. }
  destruct ev; cbn [session_step] in Hg |- *; cbn [gw_tasks gw_cache gw_capacity_lock] in Hg |- *;
    try (destruct (tasks !! t) as [[rq0 p]|] eqn:Ht; try done);
    lazymatch type of Hg with
    | cancel _ _ _ _ _ _ = _ => idtac
    | _ => try (destruct p; try done; try pose proof (Hgiven _ _ _ Ht eq_refl) as Hl)
    end.
  - destruct (tasks !! t); [done|]. injection Hg as <-. eexists. split; [done|]. by eapply sim_fetch.
  - rewrite (Hfree _ _ _ Ht eq_refl) in Hg. destruct (lock_free _ _ _); [|done]. injection Hg as <-.
    eexists. split; [done|]. pose proof (sim_lock _ _ _ _ _ _ _ Hs Hl) as H1.
    destruct (acquire_lookup _ _ _ _ _) as [w' next]. eapply sim_acquire_on; [exact H1|by apply has_lock_taken].
  - rewrite (Hfree _ _ _ Ht eq_refl) in Hg. destruct (lock_free _ _ _); [|done].
    destruct (release_locked _ _ _ _) as [w' next]. injection Hg as <-. eexists. split; [done|].
    pose proof (sim_lock _ _ _ _ _ _ _ Hs Hl) as H1.
    destruct next as [cached|]; [eapply sim_stay|eapply sim_leave]; try exact H1; by apply has_lock_taken.
  - injection Hg as <-. eexists. split; [done|].
    destruct (acquire_pinged _ _ _ _ _ _) as [w' next]. by eapply sim_acquire_on.
  - destruct error as [e|]; [destruct (is_cancelled e); [done|]|]; injection Hg as <-; eexists; (split; [done|]);
      by eapply sim_leave.
  - destruct c; [done|]. injection Hg as <-. eexists. split; [done|].
    destruct (has_capacity config w); [by eapply sim_stay|by eapply sim_leave].
  - destruct error as [e|]; [destruct (is_cancelled e); [done|]|]; injection Hg as <-; eexists; (split; [done|]);
      by eapply sim_leave.
  - destruct (run_on_connection _ _ _ _ _ _ _ _ _ _) as [w' ending]. injection Hg as <-.
    eexists. split; [done|]. unfold begin_release. destruct (ce_released ending); [by eapply sim_fetch|].
    eapply sim_move; [exact Hs|apply Hs|done|done].
  - injection Hg as <-. eexists. split; [done|]. by eapply sim_leave.
  - by eapply sim_cancel.
  - injection Hg as <-. eexists. split; [done|]. exact (sim_clean _ _ Hs Hi Hw).
  - destruct (0 <=? d); [|done]. injection Hg as <-. eexists. split; [done|]. by destruct Hs.
Qed.

Lemma sim_run evs g a g' :
  sim g a → gateway_inv fingerprint_key a → locks_survive evs g = true →
  run evs g = Some g' → ∃ a', run evs a = Some a' ∧ sim g' a'.
Proof.
  revert g a. induction evs as [|ev evs IH]; intros g a Hs Hi Hl Hr; [injection Hr as <-; by exists a|].
  cbn [session_run locks_survive] in *. apply andb_true_iff in Hl as [Hw Hl].
  destruct (step ev g) as [g1|] eqn:Hg; [|done].
  destruct (sim_step ev g a g1 Hs Hi Hw Hg) as (a1 & Ha & Hs1). rewrite Ha.
  apply (IH g1 a1); [done|by eapply inv_step|done|done].
Qed.

Lemma sim_idle_gateway : sim idle_gateway idle_gateway.
Proof. split; done. Qed.

(** A run from the start whose locks survive is one of the table of the keys. *)
Lemma keyed_run evs g :
  run evs idle_gateway = Some g → locks_survive evs idle_gateway = true →
  ∃ a : Gateway KeyTable, run evs idle_gateway = Some a ∧ sim g a ∧ gateway_inv fingerprint_key a.
Proof.
  intros Hr Hl.
  destruct (sim_run evs _ _ g sim_idle_gateway (inv_idle_gateway fingerprint_key) Hl Hr) as (a & Ha & Hs).
  exists a. split_and!; [done..|]. eapply inv_run, Ha. apply inv_idle_gateway.
Qed.
End simulation.
