(* ===== verification/SessionClean.v ===== *)
(** * Idle connections are clean

    What the gateway's calls and the cache's reset leave of a session, for a
    server whose statements behave as documented.  From it: the session of every
    idle connection is the fresh one of its recorded database, up to the
    execution time limit, and a call starts in such a session with its own
    database; the argument follows the steps of [SessionInvariant.v]. *)

From S2P Require Import Prelude PyString Hashing SqlScan ConnectionCache SqlGateway SqlSessions.
From S2P Require Import SessionInvariant.

(** The database and the branch are as they were. *)
Definition keeps (s s' : MySQLSession) : Prop :=
  ms_database s' = ms_database s ∧ ms_branch s' = ms_branch s.

#[export] Instance keeps_preorder : PreOrder keeps.
Proof. split; [by intros s|]. intros s1 s2 s3 [E1 E2] [E3 E4]. split; congruence. Qed.

(** An empty database name selects none. *)
Definition selected (database : option string) : option string :=
  if truthy database then database else None.

(** The session of a fresh connection, but for its execution time limit. *)
Definition clean_session (database : option string) (limit : option Z) : MySQLSession :=
  mk_mysql_session (selected database) EmptyString true false false limit.

(** What the gateway relies on of the server's own statements.  Turning
    autocommit on commits the open transaction, if autocommit was off. *)
Record ServerLaws (server : string → list string → MySQLSession → MySQLSession) : Prop := {
  sl_read_write s : server READ_WRITE [] s = s <| ms_read_only := false |>;
  sl_autocommit s : server "SET autocommit=1" [] s
    = s <| ms_autocommit := true |> <| ms_in_transaction := ms_in_transaction s && ms_autocommit s |>;
  sl_rollback s : server "ROLLBACK" [] s = s <| ms_in_transaction := false |>;
  sl_begin s : keeps s (server "BEGIN" [] s);
  sl_commit s : keeps s (server "COMMIT" [] s);
  sl_timeout (n : Z) s : ∃ limit,
    server ("SET max_execution_time=" +:+ pretty n) [] s = s <| ms_max_execution_time := limit |>;
  sl_use database s : server (use_statement database) [] s = s <| ms_database := Some database |>;
  sl_set_branch b s : server SET_BRANCH [b] s = s <| ms_branch := b |>;
  sl_reset_branch s : server RESET_BRANCH [] s = s <| ms_branch := EmptyString |>
}.

Section session_state.
  Context (server : string → list string → MySQLSession → MySQLSession).
  Context (changes_database_context is_select : string → bool).
  Context (apply_pagination : string → Z → Z → string).
  Context {Row : Type} (rows_of : string → MySQLSession → list Row).
  Context (timeout_ms : Z).
  Context (laws : ServerLaws server).
  Abbreviation touches := (touches_session changes_database_context).
  Abbreviation call_wire := (run_call server changes_database_context is_select apply_pagination rows_of timeout_ms).

(** Of the statements of a call: one that the gateway takes for harmless leaves
    database and branch alone, as it is and with a [LIMIT]; the trusted ones of
    [execute_parameterized] always do. *)
Definition harmless (sql : string) : Prop :=
  touches sql = false → ∀ s, keeps s (server sql [] s)
    ∧ ∀ max_rows offset, keeps s (server (apply_pagination sql max_rows offset) [] s).

Definition call_ok (c : GatewayCall) : Prop :=
  match c with
  | Execute sql _ _ _ => harmless sql
  | ExecuteParameterized sql params => ∀ s, keeps s (server sql params s)
  | ExecuteTransaction sql_statements => Forall harmless sql_statements
  end.

(** ** Statements *)

Lemma send_keeps sql params w : 
  (∀ s, keeps s (server sql params s)) → keeps (wi_session w) (wi_session (send server sql params w).1).
Proof. intros H. unfold send. simpl. by destruct (an_applied _). Qed.

(** Code over the wire that keeps database and branch, however it ends. *)
Definition keeping {A : Type} (m : M Wire A) : Prop :=
  ∀ w, keeps (wi_session w) (wi_session (m w).1).

Lemma keeping_bind {A B : Type} (m : M Wire A) (k : A → M Wire B) :
  keeping m → (∀ a, keeping (k a)) → keeping (m ≫= k).
Proof.
  intros Hm Hk w. unfold mbind, M_bind. specialize (Hm w). destruct (m w) as [w1 [a|e]]; [|done].
  etrans; [exact Hm|apply Hk].
Qed.

Lemma keeping_ret {A : Type} (a : A) : keeping (mret a).
Proof. by intros w. Qed.
Lemma keeping_raise {A : Type} e : keeping (raise (A:=A) e).
Proof. by intros w. Qed.
Lemma keeping_get : keeping (get_state (S:=Wire)).
Proof. by intros w. Qed.
Lemma keeping_attempt {A : Type} (m : M Wire A) : keeping m → keeping (attempt m).
Proof. intros Hm w. specialize (Hm w). unfold attempt. by destruct (m w). Qed.

(** Code that never raises. *)
Definition always_answers {A : Type} (m : M Wire A) : Prop := ∀ w, is_ret (m w).2 = true.

Lemma answers_ret {A : Type} (a : A) : always_answers (mret a).
Proof. by intros w. Qed.
Lemma answers_attempt {A : Type} (m : M Wire A) : always_answers (attempt m).
Proof. intros w. unfold attempt. by destruct (m w). Qed.
Lemma answers_bind {A B : Type} (m : M Wire A) (k : A → M Wire B) :
  always_answers m → (∀ a, always_answers (k a)) → always_answers (m ≫= k).
Proof.
  intros Hm Hk w. unfold mbind, M_bind. specialize (Hm w). destruct (m w) as [w1 [a|e]]; [apply Hk|done].
Qed.

Lemma keeping_send sql params : (∀ s, keeps s (server sql params s)) → keeping (send server sql params).
Proof. intros H w. by apply send_keeps. Qed.

Lemma keeping_read_write : keeping (send server READ_WRITE []).
Proof. apply keeping_send. intros s. by rewrite (sl_read_write _ laws). Qed.
Lemma keeping_rollback : keeping (send server "ROLLBACK" []).
Proof. apply keeping_send. intros s. by rewrite (sl_rollback _ laws). Qed.

Lemma keeping_timeout : keeping (send server ("SET max_execution_time=" +:+ pretty timeout_ms) []).
Proof. apply keeping_send. intros s. by destruct (sl_timeout _ laws timeout_ms s) as [limit ->]. Qed.

Lemma keeping_query sql max_rows offset :
  (∀ s, keeps s (server sql [] s)) → keeping (execute_query server rows_of sql max_rows offset).
Proof.
  intros H. unfold execute_query.
  auto using keeping_bind, keeping_send, keeping_get, keeping_ret.
Qed.

Lemma keeping_all stmts :
  Forall harmless stmts → existsb touches stmts = false → keeping (execute_all server rows_of stmts).
Proof.
  induction 1 as [|stmt stmts Hs _ IH]; [intros; apply keeping_ret|].
  simpl. intros [Ht Hts]%orb_false_iff.
  apply keeping_bind; [apply keeping_query; intros s; by apply Hs|]. intros r.
  apply keeping_bind; [auto|intros rs; apply keeping_ret].
Qed.

Lemma bind_attempt {A B : Type} (m : M Wire A) (k : outcome A → M Wire B) w :
  (attempt m ≫= k) w = k (m w).2 (m w).1.
Proof. unfold mbind, M_bind, attempt. by destruct (m w). Qed.

(** ** Calls *)

(** A call that leaves its connection to the cache has kept the database, and
    the branch is the default one it found. *)
Definition returns_session {A : Type} (s : MySQLSession) (r : Wire * outcome (CallEnd A)) : Prop :=
  match r.2 with
  | Ret ending => ce_released ending = true → ce_discard ending = false →
      keeps s (wi_session r.1)
  | Raise _ => False
  end.

Lemma returns_keeping {A : Type} (m : M Wire (CallEnd A)) w :
  keeping m → always_answers m → returns_session (wi_session w) (m w).
Proof. intros Hm Hr. specialize (Hm w). specialize (Hr w). unfold returns_session. destruct (m w) as [w1 [e|e]]; simpl in *; [by intros|done]. Qed.

Lemma parameterized_session sql params w :
  (∀ s, keeps s (server sql params s)) →
  returns_session (wi_session w) (execute_parameterized server rows_of sql params w).
Proof.
  intros H. apply returns_keeping.
  - unfold execute_parameterized. apply keeping_bind.
    + apply keeping_attempt, keeping_bind; [by apply keeping_send|]. intros _.
      apply keeping_bind; [apply keeping_get|intros; apply keeping_ret].
    + intros [rows|e]; apply keeping_ret.
  - apply answers_bind; [apply answers_attempt|]. intros [rows|e]; apply answers_ret.
Qed.

Lemma transaction_session stmts w :
  Forall harmless stmts →
  returns_session (wi_session w) (execute_transaction server changes_database_context rows_of stmts w).
Proof.
  intros H. destruct (existsb touches stmts) eqn:Ht.
  - unfold execute_transaction. rewrite Ht, bind_attempt. destruct (_ w).2 as [rs|e]; [by intros _|].
    rewrite bind_attempt. destruct (send _ _ _ _).2 as [u|e']; [|by intros _].
    unfold returns_session. cbn. by rewrite !orb_true_r.
  - apply returns_keeping.
    + unfold execute_transaction. rewrite Ht. apply keeping_bind.
      * apply keeping_attempt, keeping_bind; [apply keeping_read_write|]. intros _.
        apply keeping_bind; [apply keeping_send, (sl_begin _ laws)|]. intros _.
        apply keeping_bind; [by apply keeping_all|]. intros rs.
        apply keeping_bind; [apply keeping_send, (sl_commit _ laws)|]. intros _. apply keeping_ret.
      * intros [rs|e]; [apply keeping_ret|].
        apply keeping_bind; [apply keeping_attempt, keeping_rollback|].
        intros [u|e']; apply keeping_ret.
    + apply answers_bind; [apply answers_attempt|]. intros [rs|e]; [apply answers_ret|].
      apply answers_bind; [apply answers_attempt|]. intros [u|e']; apply answers_ret.
Qed.

Lemma prepared_session branch w :
  let r := prepare_session server branch w in
  match r.2 with
  | Ret true => ms_database (wi_session r.1) = ms_database (wi_session w)
  | Ret false => keeps (wi_session w) (wi_session r.1)
  | Raise _ => True
  end.
Proof.
  unfold prepare_session, mbind, M_bind. pose proof (keeping_read_write w) as Hk.
  destruct (send server READ_WRITE [] w) as [w1 [u|e]]; [|done]. cbn [fst] in Hk.
  destruct branch as [b|]; [|exact Hk].
  assert (ms_database (wi_session (send server SET_BRANCH [b] w1).1) = ms_database (wi_session w1)) as Hd.
  { unfold send. cbn [fst wi_session]. destruct (an_applied _); [by rewrite (sl_set_branch _ laws)|done]. }
  destruct (send server SET_BRANCH [b] w1) as [w2 [u'|e]]; [|done].
  cbn in *. destruct Hk. congruence.
Qed.

Lemma reset_branch_session w :
  let r := send server RESET_BRANCH [] w in
  match r.2 with
  | Ret _ => ms_database (wi_session r.1) = ms_database (wi_session w)
             ∧ ms_branch (wi_session r.1) = EmptyString
  | Raise _ => True
  end.
Proof.
  unfold send. destruct (default _ _) as [|e applied]; [|done]. simpl.
  by rewrite (sl_reset_branch _ laws).
Qed.

(** The branch of a call is set before its query and reset after it. *)
Lemma execute_session sql max_rows offset branch w :
  harmless sql → ms_branch (wi_session w) = EmptyString →
  returns_session (wi_session w)
    (execute server changes_database_context is_select apply_pagination rows_of timeout_ms
       sql max_rows offset branch w).
Proof.
  intros H Hb. unfold execute. set (paginated := apply_pagination _ _ _).
  rewrite bind_attempt. pose proof (prepared_session branch w) as Hp.
  destruct (prepare_session server branch w) as [w1 prepared]. cbn [fst snd] in Hp |- *.
  destruct prepared as [b|e]; [|rewrite run_ret; unfold returns_session; simpl; by rewrite orb_true_r].
  set (query := attempt (mbind _ _)).
  assert (always_answers query) as Hq by apply answers_attempt.
  assert (touches sql = false → keeping query) as Hk.
  { intros Ht. apply keeping_attempt, keeping_bind.
    - destruct (is_select sql); [apply keeping_timeout|apply keeping_ret].
    - intros _. apply keeping_query. intros s. by apply H. }
  clearbody query. specialize (Hq w1). unfold mbind at 1, M_bind at 1.
  destruct (query w1) as [w2 [result|e]] eqn:Hr; [|done]. cbn [fst snd] in *. clear Hq.
  destruct (touches sql) eqn:Ht; cbn [orb negb]; [by rewrite andb_false_r|].
  specialize (Hk eq_refl w1). rewrite Hr in Hk. cbn [fst] in Hk.
  destruct (negb (is_ret result)) eqn:Hret; cbn [negb]; [rewrite andb_false_r; by intros _|].
  rewrite andb_true_r.
  destruct b; [|intros _ _; by etrans].
  rewrite bind_attempt. pose proof (reset_branch_session w2) as Hreset.
  destruct (send server RESET_BRANCH [] w2) as [w3 [u|e]]; cbn [fst snd] in *;
    [|unfold returns_session; by destruct (is_cancelled e)].
  intros _ _. cbn [fst snd wi_session] in *. destruct Hk as [Hk1 Hk2], Hreset as [Hd Hb'].
  cbn in Hp, Hd, Hk1 |- *. unfold returns_session, keeps. cbn [fst].
  split; [congruence|]. rewrite Hb', Hb. done.
Qed.

Lemma call_session c w :
  call_ok c → ms_branch (wi_session w) = EmptyString → returns_session (wi_session w) (call_wire c w).
Proof.
  intros H Hb. destruct c as [sql m o b|sql ps|stmts]; simpl in H |- *; unfold forget, mbind, M_bind.
  - pose proof (execute_session sql m o b w H Hb) as Hr. by destruct (execute _ _ _ _ _ _ _ _ _ _ _) as [w1 [r|e]].
  - pose proof (parameterized_session sql ps w H) as Hr. by destruct (execute_parameterized _ _ _ _ _) as [w1 [r|e]].
  - pose proof (transaction_session stmts w H) as Hr. by destruct (execute_transaction _ _ _ _ _) as [w1 [r|e]].
Qed.

(** ** Without cancellation every call reaches its [release] *)

Definition calm_wire (w : Wire) : Prop :=
  Forall (λ a, ∀ e, an_raises a = Some e → is_cancelled e = false) (wi_answers w).

(** Code that raises a [CancelledError] only when an answer is one. *)
Definition calm {A : Type} (m : M Wire A) : Prop :=
  ∀ w, calm_wire w → calm_wire (m w).1 ∧ ∀ e, (m w).2 = Raise e → is_cancelled e = false.

Lemma calm_send sql params : calm (send server sql params).
Proof.
  intros w Hw. unfold send, calm_wire in *. simpl. destruct Hw as [|a l Ha Hl]; simpl; [done|].
  split; [done|]. destruct (an_raises a); [|done]. intros e' [= <-]. by apply Ha.
Qed.
Lemma calm_ret {A : Type} (a : A) : calm (mret a).
Proof. by intros w Hw. Qed.
Lemma calm_get : calm (get_state (S:=Wire)).
Proof. by intros w Hw. Qed.
Lemma calm_attempt {A : Type} (m : M Wire A) : calm m → calm (attempt m).
Proof. intros Hm w Hw. specialize (Hm w Hw) as [Hc _]. unfold attempt. by destruct (m w). Qed.
Lemma calm_bind {A B : Type} (m : M Wire A) (k : A → M Wire B) :
  calm m → (∀ a, calm (k a)) → calm (m ≫= k).
Proof.
  intros Hm Hk w Hw. specialize (Hm w Hw) as [Hc He]. unfold mbind, M_bind.
  destruct (m w) as [w1 [a|e]]; [by apply Hk|]. split; [done|]. intros e' [= <-]. by apply He.
Qed.
Hint Resolve calm_send calm_ret calm_get calm_attempt calm_bind : core.

Lemma calm_prepare branch : calm (prepare_session server branch).
Proof. unfold prepare_session. apply calm_bind; [auto|intros _]. destruct branch; auto. Qed.

Lemma calm_query sql max_rows offset : calm (execute_query server rows_of sql max_rows offset).
Proof. unfold execute_query. auto 6. Qed.

Lemma calm_released c w :
  calm_wire w → match (call_wire c w).2 with Ret ending => ce_released ending = true | Raise _ => False end.
Proof.
  intros Hw. destruct c as [sql m o b|sql ps|stmts]; simpl; unfold forget; unfold mbind at 1, M_bind at 1.
  - unfold execute. rewrite bind_attempt. pose proof (calm_prepare b w Hw) as [Hw1 _].
    destruct (prepare_session server b w) as [w1 prepared]. cbn [fst snd] in Hw1 |- *.
    set (branch_set := match prepared with Ret b => b | Raise _ => false end).
    set (query := match prepared with Raise _ => mret _ | Ret _ => _ end).
    assert (calm query) as Hq.
    { unfold query. destruct prepared; [|auto]. apply calm_attempt, calm_bind; [|auto using calm_query].
      destruct (is_select sql); auto. }
    assert (always_answers query) as Ha
      by (unfold query; destruct prepared; [apply answers_attempt|apply answers_ret]).
    clearbody query. specialize (Hq w1 Hw1) as [Hw2 _]. specialize (Ha w1). unfold mbind at 1, M_bind at 1.
    destruct (query w1) as [w2 [result|e]]; [|done]. cbn [fst snd] in *.
    destruct (branch_set && _); [|done]. rewrite bind_attempt.
    pose proof (calm_send RESET_BRANCH [] w2 Hw2) as [_ He].
    destruct (send server RESET_BRANCH [] w2) as [w3 [u|e]]; cbn [fst snd] in *; [done|].
    by rewrite (He e eq_refl).
  - unfold execute_parameterized. rewrite bind_attempt. by destruct (_ w).2.
  - unfold execute_transaction. rewrite bind_attempt. destruct (_ w).2; [done|].
    rewrite bind_attempt. by destruct (send _ _ _ _).2.
Qed.

(** ** The reset of [release] *)

(** It makes a kept session clean, and leaves the execution time limit. *)
Lemma reset_clean s database :
  ms_database s = selected database → ms_branch s = EmptyString →
  reset_session server s = clean_session database (ms_max_execution_time s).
Proof.
  intros Hd Hb. unfold reset_session, reset_statements. cbn [fold_left].
  rewrite (sl_rollback _ laws), (sl_read_write _ laws), (sl_autocommit _ laws).
  unfold clean_session. destruct s. simpl in *. by subst.
Qed.
End session_state.

Section session_clean.
  Context (config : ConnectionPoolConfig) (fingerprint_key : list Z).
  Context (server : string → list string → MySQLSession → MySQLSession).
  Context (changes_database_context is_select : string → bool).
  Context (apply_pagination : string → Z → Z → string).
  Context {Row : Type} (rows_of : string → MySQLSession → list Row).
  Context (timeout_ms : Z).
  Context (laws : ServerLaws server).
  Abbreviation step := (session_step config fingerprint_key server changes_database_context is_select
                          apply_pagination rows_of timeout_ms).
  Abbreviation run := (session_run config fingerprint_key server changes_database_context is_select
                         apply_pagination rows_of timeout_ms).
  Abbreviation inv := (gateway_inv fingerprint_key).
  Abbreviation ok_call := (call_ok server changes_database_context apply_pagination).

Definition clean (w : CacheState) (c : CachedConnection) : Prop :=
  ∃ cn limit, cs_connections w !! cc_conn c = Some cn ∧ cn_session cn = clean_session (cc_database c) limit.

Definition kept (w : CacheState) (c : CachedConnection) : Prop :=
  ∃ cn, cs_connections w !! cc_conn c = Some cn
    ∧ ms_database (cn_session cn) = selected (cc_database c) ∧ ms_branch (cn_session cn) = EmptyString.

(** The database a call asks for is the one recorded with its connection; an
    empty name is not a request. *)
Definition right_database (rq : Request) (c : CachedConnection) : Prop :=
  lg_database (rq_login rq) ≠ Some EmptyString →
  selected (cc_database c) = selected (lg_database (rq_login rq)).

Definition point_clean (w : CacheState) (rq : Request) (p : Point) : Prop :=
  match p with
  | AtPing c => clean w c
  | AtUse c database => clean w c ∧ lg_database (rq_login rq) = Some database ∧ truthy (Some database) = true
  | AtStatements conn => ∃ c, cs_leased w !! (rq_key rq, conn) = Some c ∧ cc_conn c = conn
      ∧ clean w c ∧ right_database rq c
  | AtRelease conn false _ => ∃ c, cs_leased w !! (rq_key rq, conn) = Some c ∧ cc_conn c = conn ∧ kept w c
  | AtReset c _ => kept w c
  | _ => True
  end.

Record all_clean (w : CacheState) (tasks : gmap nat (Request * Point)) : Prop := {
  ac_cached : ∀ k c, cs_cache w !! k = Some c → clean w c;
  ac_tasks : ∀ t rq p, tasks !! t = Some (rq, p) → ok_call (rq_call rq) ∧ point_clean w rq p
}.

(** ** Frames *)

(** Every session but that of [i] is as it was. *)
Definition sessions_kept (i : option nat) (w w' : CacheState) : Prop :=
  ∀ id cn, i ≠ Some id → cs_connections w !! id = Some cn →
    ∃ cn', cs_connections w' !! id = Some cn' ∧ cn_session cn' = cn_session cn.

Definition untouched (i : option nat) (p : Point) : Prop :=
  (∀ c, borrowed p = Some c → i ≠ Some (cc_conn c)) ∧ ∀ conn, holds p = Some conn → i ≠ Some conn.

Lemma clean_kept i w w' c : sessions_kept i w w' → i ≠ Some (cc_conn c) → clean w c → clean w' c.
Proof.
  intros Hs Hi (cn & limit & Hc & E). destruct (Hs _ _ Hi Hc) as (cn' & ? & ?).
  exists cn', limit. split; congruence.
Qed.

Lemma kept_kept i w w' c : sessions_kept i w w' → i ≠ Some (cc_conn c) → kept w c → kept w' c.
Proof.
  intros Hs Hi (cn & Hc & E1 & E2). destruct (Hs _ _ Hi Hc) as (cn' & ? & E). exists cn'. by rewrite E.
Qed.

Lemma point_clean_kept i w w' rq p :
  sessions_kept i w w' → untouched i p →
  (∀ conn, lease_of p = Some conn → cs_leased w' !! (rq_key rq, conn) = cs_leased w !! (rq_key rq, conn)) →
  point_clean w rq p → point_clean w' rq p.
Proof.
  intros Hs [Hb Hh] Hl Hp. destruct p; simpl in *; try done.
  - eapply clean_kept; eauto.
  - destruct Hp as [Hc ?]. split; [|done]. eapply clean_kept; eauto.
  - destruct Hp as (c & Hc & <- & Hcl & Hr). exists c. rewrite Hl by done.
    split_and!; [done..| |done]. eapply clean_kept; eauto.
  - destruct discard; [done|]. destruct Hp as (c & Hc & <- & Hk). exists c. rewrite Hl by done.
    split_and!; [done..|]. eapply kept_kept; eauto.
  - eapply kept_kept; eauto.
Qed.

(** A step of task [t] to [p'], with the sessions of at most [i] changed. *)
Lemma clean_frame i w w' tasks t rq p' :
  all_clean w tasks → sessions_kept i w w' →
  (∀ k c, cs_cache w' !! k = Some c → (cs_cache w !! k = Some c ∧ i ≠ Some (cc_conn c)) ∨ clean w' c) →
  (∀ t' rq' p, t' ≠ t → tasks !! t' = Some (rq', p) → untouched i p
     ∧ ∀ conn, lease_of p = Some conn → cs_leased w' !! (rq_key rq', conn) = cs_leased w !! (rq_key rq', conn)) →
  ok_call (rq_call rq) → point_clean w' rq p' →
  all_clean w' (<[t := (rq, p')]> tasks).
Proof.
  intros [Hc Ht] Hs Hca Ho Hok Hp. split.
  - intros k c Hk. destruct (Hca k c Hk) as [[Hk' Hi]|?]; [|done]. eapply clean_kept; eauto.
  - intros t' rq' p [[<- [= <- <-]]|[Hne Ht']]%lookup_insert_Some; [done|].
    destruct (Ho t' rq' p (not_eq_sym Hne) Ht') as [Hu Hl]. destruct (Ht t' rq' p Ht') as [? Hpc].
    split; [done|]. by eapply point_clean_kept.
Qed.

(** The cache and the sessions only lose entries. *)
Lemma clean_shrink w w' tasks :
  all_clean w tasks → sessions_kept None w w' →
  (∀ k c, cs_cache w' !! k = Some c → cs_cache w !! k = Some c) → cs_leased w' = cs_leased w →
  all_clean w' tasks.
Proof.
  intros [Hc Ht] Hs Hca Hl. split.
  - intros k c Hk. eapply clean_kept; eauto.
  - intros t rq p Hp. destruct (Ht t rq p Hp) as [? Hpc]. split; [done|].
    eapply point_clean_kept; eauto; [done|]. intros conn _. by rewrite Hl.
Qed.

Lemma sessions_refl i w w' : cs_connections w' = cs_connections w → sessions_kept i w w'.
Proof. intros E id cn _ H. rewrite E. eauto. Qed.

Lemma sessions_close i id w : sessions_kept i w (close_connection id w).
Proof.
  intros j cn _ Hj. simpl. destruct (decide (id = j)) as [<-|Hne].
  - rewrite lookup_alter_eq, Hj. simpl. eauto.
  - rewrite lookup_alter_ne by done. eauto.
Qed.

Lemma sessions_on f id w : sessions_kept (Some id) w (on_session f id w).
Proof. intros j cn Hj Hl. simpl. rewrite lookup_alter_ne by congruence. eauto. Qed.

Lemma sessions_trans i w1 w2 w3 : sessions_kept i w1 w2 → sessions_kept i w2 w3 → sessions_kept i w1 w3.
Proof.
  intros H1 H2 id cn Hi Hl. destruct (H1 id cn Hi Hl) as (cn' & Hl' & E).
  destruct (H2 id cn' Hi Hl') as (cn'' & ? & ?). exists cn''. split; congruence.
Qed.

Lemma sessions_replace i k id w : sessions_kept i w (replace_idle k id w).
Proof.
  unfold replace_idle. destruct (cs_cache w !! k) as [c|]; [|by apply sessions_refl].
  destruct (cc_conn c =? id)%nat; [by apply sessions_refl|]. apply sessions_close.
Qed.


(** ** Other tasks *)

Definition others_apart (g : Gateway KeyTable) (t : nat) (conn : nat) : Prop :=
  ∀ t' rq' p, t' ≠ t → gw_tasks g !! t' = Some (rq', p) → untouched (Some conn) p.

Lemma holder_apart g t rq p conn :
  inv g → gw_tasks g !! t = Some (rq, p) → holds p = Some conn → others_apart g t conn.
Proof.
  intros H Ht Hh t' rq' p' Hne Ht'. split.
  - intros c Hb [= E]. destruct (gi_borrowed _ _ H _ _ _ _ Ht' Hb) as (_ & Hn & _).
    apply (Hn t rq p Ht). by rewrite <- E.
  - intros conn' Hh' [= <-]. apply Hne. exact (gi_unique _ _ H _ _ _ _ _ _ _ Ht' Ht Hh' Hh).
Qed.

Lemma borrower_apart g t rq c :
  inv g → gw_locks g !! rq_key rq = Some (Some t) →
  genuine fingerprint_key (gw_cache g) (rq_key rq) c → not_held g (cc_conn c) →
  others_apart g t (cc_conn c).
Proof.
  intros H Hl Hg Hn t' rq' p' Hne Ht'. split.
  - intros c' Hb [= E]. destruct (gi_borrowed _ _ H _ _ _ _ Ht' Hb) as (Hg' & _ & _).
    pose proof (genuine_key _ _ _ _ _ _ Hg' Hg (eq_sym E)) as Hk.
    assert (critical p' = true) as Hcr by (by destruct p').
    pose proof (gi_locks _ _ H _ _ _ Ht' Hcr) as Hl'. congruence.
  - intros conn Hh [= E]. apply (Hn t' rq' p' Ht'). by rewrite E.
Qed.

(** Leases of other connections, with the one of [conn] inserted or deleted. *)
Lemma leases_insert g t k conn c :
  others_apart g t conn → ∀ t' rq' p conn', t' ≠ t → gw_tasks g !! t' = Some (rq', p) →
  lease_of p = Some conn' →
  <[(k, conn) := c]> (cs_leased (gw_cache g)) !! (rq_key rq', conn')
    = cs_leased (gw_cache g) !! (rq_key rq', conn').
Proof.
  intros Ho t' rq' p conn' Hne Ht' Hl. apply lookup_insert_ne. intros [= _ ->].
  destruct (Ho t' rq' p Hne Ht') as [_ Hh]. by apply (Hh conn'); [destruct p|].
Qed.

Lemma leases_delete g t k conn :
  others_apart g t conn → ∀ t' rq' p conn', t' ≠ t → gw_tasks g !! t' = Some (rq', p) →
  lease_of p = Some conn' →
  delete (k, conn) (cs_leased (gw_cache g)) !! (rq_key rq', conn')
    = cs_leased (gw_cache g) !! (rq_key rq', conn').
Proof.
  intros Ho t' rq' p conn' Hne Ht' Hl. apply lookup_delete_ne. intros [= _ ->].
  destruct (Ho t' rq' p Hne Ht') as [_ Hh]. by apply (Hh conn'); [destruct p|].
Qed.

(** A step that moves [t] and at most closes connections and drops idle ones. *)
Lemma clean_move w w' tasks t rq p' :
  all_clean w tasks → sessions_kept None w w' →
  (∀ k c, cs_cache w' !! k = Some c → cs_cache w !! k = Some c) → cs_leased w' = cs_leased w →
  ok_call (rq_call rq) → point_clean w' rq p' → all_clean w' (<[t := (rq, p')]> tasks).
Proof.
  intros H Hs Hc Hl. apply (clean_frame None w w'); [done..| |].
  - intros k c Hk. left. split; [by apply Hc|done].
  - intros t' rq' p _ _. split; [done|]. intros conn _. by rewrite Hl.
Qed.

Lemma pop_close_cache k id w k' c :
  cs_cache (pop_idle k (close_connection id w)) !! k' = Some c → cs_cache w !! k' = Some c.
Proof. simpl. by intros [_ ?]%lookup_delete_Some. Qed.

(** ** Acquiring *)

Lemma clean_lease g t rq c :
  inv g → all_clean (gw_cache g) (gw_tasks g) → ok_call (rq_call rq) →
  others_apart g t (cc_conn c) → clean (gw_cache g) c → right_database rq c →
  all_clean (lease_idle (rq_key rq) c (gw_cache g)) (<[t := (rq, AtStatements (cc_conn c))]> (gw_tasks g)).
Proof.
  intros H Hcl Hok Ho Hc Hr. apply (clean_frame None (gw_cache g)); [done|by apply sessions_refl|..].
  - intros k c'. simpl. intros [_ ?]%lookup_delete_Some. by left.
  - intros t' rq' p Hne Ht'. split; [done|]. intros conn Hl. by apply (leases_insert g t _ _ _ Ho t' rq' p).
  - done.
  - exists (c <| cc_last_used := cs_now (gw_cache g) |>). simpl.
    split_and!; [by apply lookup_insert_eq|done|exact Hc|exact Hr].
Qed.

Lemma clean_pinged g t rq c alive :
  inv g → all_clean (gw_cache g) (gw_tasks g) → ok_call (rq_call rq) →
  others_apart g t (cc_conn c) → clean (gw_cache g) c →
  let g' := acquire_on t rq (acquire_pinged fingerprint_key (rq_key rq) (rq_login rq) c alive (gw_cache g)) g in
  all_clean (gw_cache g') (gw_tasks g').
Proof.
  intros H Hcl Hok Ho Hc. simpl.
  assert (all_clean (pop_idle (rq_key rq) (close_connection (cc_conn c) (gw_cache g)))
            (<[t := (rq, AtCapacity)]> (gw_tasks g))) as Hconnect.
  { apply (clean_move (gw_cache g)); try done; [apply (sessions_close None)|apply pop_close_cache]. }
  unfold acquire_pinged. destruct alive; [|exact Hconnect].
  destruct (connection_identity_changed _ _ _); [exact Hconnect|].
  destruct (stale_database_context c (rq_login rq)) eqn:Hst; [exact Hconnect|]. cbn [orb].
  unfold stale_database_context in Hst.
  destruct (lg_database (rq_login rq)) as [db|] eqn:Hdb.
  - destruct (truthy (Some db) && (Some db != cc_database c)) eqn:Hneq.
    + apply andb_true_iff in Hneq as [Htr _]. apply (clean_move (gw_cache g)); try done.
      by apply sessions_refl.
    + refine (clean_lease g t rq c H Hcl Hok Ho Hc _). unfold right_database. rewrite Hdb. intros Hne.
      apply andb_false_iff in Hneq as [Htr|Hneq]; [by destruct db|].
      apply negb_false_iff, bool_decide_eq_true in Hneq. by rewrite Hneq.
  - refine (clean_lease g t rq c H Hcl Hok Ho Hc _). unfold right_database. rewrite Hdb. intros _.
    rewrite bool_decide_eq_true_2 in Hst by done. simpl in Hst.
    apply negb_false_iff, bool_decide_eq_true in Hst. by rewrite Hst.
Qed.

Lemma clean_used g t rq c database :
  inv g → all_clean (gw_cache g) (gw_tasks g) → gw_tasks g !! t = Some (rq, AtUse c database) →
  let w := on_session (server (use_statement database) []) (cc_conn c) (gw_cache g) in
  all_clean (acquire_used (rq_key rq) c database true w)
    (<[t := (rq, AtStatements (cc_conn c))]> (gw_tasks g)).
Proof.
  intros H Hcl Ht w. destruct (ac_tasks _ _ Hcl _ _ _ Ht) as [Hok (Hc & Hdb & Htr)].
  destruct (gi_borrowed _ _ H _ _ _ _ Ht eq_refl) as (Hg & Hn & Hca).
  pose proof (gi_locks _ _ H _ _ _ Ht eq_refl) as Hl.
  pose proof (borrower_apart g t rq c H Hl Hg Hn) as Ho.
  apply (clean_frame (Some (cc_conn c)) (gw_cache g)); [done|apply sessions_on|..].
  - intros k c'. simpl. intros [Hne Hk]%lookup_delete_Some. left. split; [done|]. intros [= E].
    apply Hne. symmetry. exact (genuine_key _ _ _ _ _ _ (gi_cached _ _ H _ _ Hk) Hg (eq_sym E)).
  - intros t' rq' p Hne Ht'. split; [by apply (Ho t' rq')|].
    intros conn Hlo. by apply (leases_insert g t _ _ _ Ho t' rq' p).
  - done.
  - eexists. split; [by apply lookup_insert_eq|]. split; [done|]. split.
    + destruct Hc as (cn & limit & Hcn & E). simpl.
      exists (cn <| cn_session := server (use_statement database) [] (cn_session cn) |>), limit. split; [simpl; by rewrite lookup_alter_eq, Hcn|]. simpl. rewrite E, (sl_use _ laws).
      unfold clean_session. simpl. unfold selected. by rewrite Htr.
    + intros _. simpl. by rewrite Hdb.
Qed.

Lemma clean_connected g t rq conn :
  inv g → all_clean (gw_cache g) (gw_tasks g) → ok_call (rq_call rq) →
  cs_connections (gw_cache g) !! conn = None →
  all_clean (acquire_connected fingerprint_key (rq_key rq) (rq_login rq) conn (gw_cache g))
    (<[t := (rq, AtStatements conn)]> (gw_tasks g)).
Proof.
  intros H Hcl Hok Hf. apply (clean_frame None (gw_cache g)); [done|..].
  - intros id cn _ Hid. simpl. rewrite lookup_insert_ne by congruence. eauto.
  - intros k c Hk. by left.
  - intros t' rq' p Hne Ht'. split; [done|]. intros conn' Hl. simpl. apply lookup_insert_ne.
    intros E. apply (f_equal snd) in E. simpl in E. subst conn'.
    destruct (gi_lease _ _ H _ _ _ _ Ht' Hl) as [c Hc].
    destruct (gi_leased _ _ H _ _ _ Hc) as [(cn & Hcn & _) E]. congruence.
  - done.
  - eexists. split; [by apply lookup_insert_eq|]. split; [done|]. split; [|done].
    eexists _, None. split; [by apply lookup_insert_eq|]. done.
Qed.

(** ** Statements and release *)

Lemma clean_answered g t rq conn answers :
  inv g → all_clean (gw_cache g) (gw_tasks g) → gw_tasks g !! t = Some (rq, AtStatements conn) →
  let r := run_on_connection server changes_database_context is_select apply_pagination rows_of timeout_ms
             (rq_call rq) conn answers (gw_cache g) in
  let g' := begin_release t rq conn r.2 (with_cache r.1 g) in
  all_clean (gw_cache g') (gw_tasks g').
Proof.
  intros H Hcl Ht r g'. destruct (ac_tasks _ _ Hcl _ _ _ Ht) as [Hok (c & Hc & Hid & (cn & limit & Hcn & Hs) & _)].
  subst r g'. rewrite Hid in Hcn. unfold run_on_connection. rewrite Hcn.
  pose proof (call_session server changes_database_context is_select apply_pagination rows_of timeout_ms laws
    (rq_call rq) (mk_wire (cn_session cn) answers) Hok) as Hcall.
  unfold returns_session in Hcall. cbn [wi_session] in Hcall. rewrite Hs in Hcall |- *.
  specialize (Hcall eq_refl).
  destruct (run_call _ _ _ _ _ _ _ _) as [wire [ending|e]]; [|done]. cbn [fst snd] in *.
  assert (∀ p', point_clean (on_session (λ _, wi_session wire) conn (gw_cache g)) rq p' →
    all_clean (on_session (λ _, wi_session wire) conn (gw_cache g)) (<[t := (rq, p')]> (gw_tasks g))) as Hframe.
  { intros p' Hp'. apply (clean_frame (Some conn) (gw_cache g)); [done|apply sessions_on|..]; [| |done..].
    - intros k c' Hk. left. split; [done|]. intros [= E].
      apply (gi_idle _ _ H k c' Hk t rq _ Ht). by rewrite <- E.
    - intros t' rq' p Hne Ht'. split; [|done]. by apply (holder_apart g t rq _ conn H Ht eq_refl t' rq'). }
  unfold begin_release. destruct (ce_released ending); [|by apply Hframe].
  apply Hframe. simpl. destruct (ce_discard ending); [done|]. destruct (Hcall eq_refl eq_refl) as [Hd Hb].
  exists c. split_and!; [done..|]. exists (cn <| cn_session := wi_session wire |>). rewrite Hid. simpl.
  split_and!; [by rewrite lookup_alter_eq, Hcn|done..].
Qed.

Lemma clean_release g t rq conn discard r :
  inv g → all_clean (gw_cache g) (gw_tasks g) → gw_tasks g !! t = Some (rq, AtRelease conn discard r) →
  let released := release_locked (rq_key rq) conn discard (gw_cache g) in
  all_clean released.1
    (<[t := (rq, match released.2 with Some c => AtReset c r | None => AtEnd r end)]> (gw_tasks g)).
Proof.
  intros H Hcl Ht. destruct (ac_tasks _ _ Hcl _ _ _ Ht) as [Hok Hp]. simpl in Hp.
  pose proof (holder_apart g t rq _ conn H Ht eq_refl) as Ho.
  unfold release_locked. destruct (gi_lease _ _ H _ _ _ _ Ht eq_refl) as [c Hc]. rewrite Hc.
  assert (∀ w' p', sessions_kept None (gw_cache g) w' →
    (∀ k c', cs_cache w' !! k = Some c' → cs_cache (gw_cache g) !! k = Some c') →
    cs_leased w' = delete (rq_key rq, conn) (cs_leased (gw_cache g)) → point_clean w' rq p' →
    all_clean w' (<[t := (rq, p')]> (gw_tasks g))) as Hframe.
  { intros w' p' Hs Hca Hl Hp'. apply (clean_frame None (gw_cache g)); [done|exact Hs|..]; [| |done..].
    - intros k c' Hk. left. split; [by apply Hca|done].
    - intros t' rq' p Hne Ht'. split; [done|]. intros conn' Hlo. rewrite Hl.
      by apply (leases_delete g t _ _ Ho t' rq' p). }
  destruct discard; cbn [fst snd]; apply Hframe; try done.
  - eapply sessions_trans; [|apply sessions_replace]. eapply sessions_trans; [|apply sessions_close].
    by apply sessions_refl.
  - intros k c' Hk. apply replace_cache in Hk as [_ Hk]. exact Hk.
  - by rewrite replace_leased.
  - by apply sessions_refl.
  - destruct Hp as (c' & Hc' & _ & Hk). simpl. rewrite Hc in Hc'. by injection Hc' as <-.
Qed.

Lemma clean_reset g t rq c r ok :
  inv g → all_clean (gw_cache g) (gw_tasks g) → gw_tasks g !! t = Some (rq, AtReset c r) →
  let w := if ok : bool then on_session (reset_session server) (cc_conn c) (gw_cache g) else gw_cache g in
  all_clean (release_reset (rq_key rq) c ok w) (<[t := (rq, AtEnd r)]> (gw_tasks g)).
Proof.
  intros H Hcl Ht. destruct (ac_tasks _ _ Hcl _ _ _ Ht) as [Hok (cn & Hcn & Hd & Hb)].
  pose proof (holder_apart g t rq _ _ H Ht eq_refl) as Ho. cbv zeta.
  assert (∀ k c', cs_cache (gw_cache g) !! k = Some c' → cc_conn c ≠ cc_conn c') as Hidle.
  { intros k c' Hk E. by apply (gi_idle _ _ H k c' Hk t rq _ Ht); simpl; rewrite E. }
  unfold release_reset. destruct ok.
  - set (w1 := on_session _ _ _). set (c1 := set_field cc_last_used _ c).
    assert (sessions_kept (Some (cc_conn c)) (gw_cache g) w1) as Hs1 by apply sessions_on.
    assert (clean w1 c1) as Hcl1.
    { exists (cn <| cn_session := reset_session server (cn_session cn) |>),
        (ms_max_execution_time (cn_session cn)). simpl. split; [by rewrite lookup_alter_eq, Hcn|]. by apply reset_clean. }
    apply (clean_frame (Some (cc_conn c)) (gw_cache g)); [done|..].
    + eapply sessions_trans; [exact Hs1|]. eapply sessions_trans; [apply sessions_replace|].
      by apply sessions_refl.
    + intros k c' Hk.
      change (<[rq_key rq := c1]> (cs_cache (replace_idle (rq_key rq) (cc_conn c) w1)) !! k = Some c') in Hk.
      apply lookup_insert_Some in Hk as [[<- <-]|[_ Hk]].
      * right. eapply (clean_kept None w1); [|done|exact Hcl1].
        eapply sessions_trans; [apply sessions_replace|]. by apply sessions_refl.
      * apply replace_cache in Hk as [_ Hk]. left. split; [exact Hk|]. intros [= E]. by apply (Hidle k c').
    + intros t' rq' p Hne Ht'. split; [by apply (Ho t' rq')|]. intros conn _.
      change (cs_leased (replace_idle (rq_key rq) (cc_conn c) w1) !! (rq_key rq', conn)
              = cs_leased (gw_cache g) !! (rq_key rq', conn)). by rewrite replace_leased.
    + done.
    + done.
  - apply (clean_move (gw_cache g)); try done.
    + eapply sessions_trans; [apply (sessions_close None (cc_conn c))|]. apply sessions_replace.
    + intros k c' Hk. apply replace_cache in Hk as [_ Hk]. exact Hk.
    + by rewrite replace_leased.
Qed.

Lemma clean_evict w tasks : all_clean w tasks → all_clean (evict_expired config w) tasks.
Proof.
  intros H. unfold evict_expired. induction (filter _ _) as [|e l IH]; [done|].
  apply (clean_shrink _ _ _ IH); [apply (sessions_close None)|apply pop_close_cache|done].
Qed.

(** ** Every event *)

(** Calls begin with statements the gateway judges rightly, and no cancelled
    [USE] reaches the server. *)
Definition event_ok (ev : Event) : Prop :=
  match ev with
  | Begin _ rq => ok_call (rq_call rq)
  | Cancelled _ applied => applied = false
  | _ => True
  end.

Lemma clean_step ev g g' :
  inv g → all_clean (gw_cache g) (gw_tasks g) → event_ok ev → step ev g = Some g' →
  all_clean (gw_cache g') (gw_tasks g').
Proof.
  intros H Hcl Hok Hs.
  assert (∀ t rq p p', gw_tasks g !! t = Some (rq, p) → point_clean (gw_cache g) rq p' →
    all_clean (gw_cache g) (<[t := (rq, p')]> (gw_tasks g))) as Hmove.
  { intros t rq p p' Ht Hp. apply (clean_move (gw_cache g)); try done; [by apply sessions_refl|].
    apply (ac_tasks _ _ Hcl _ _ _ Ht). }
  destruct ev; cbn [session_step] in Hs;
    try (destruct (gw_tasks g !! t) as [[rq0 p]|] eqn:Ht; try done;
         destruct (ac_tasks _ _ Hcl _ _ _ Ht) as [Hcall Hpc]).
  - destruct (gw_tasks g !! t); [done|]. injection Hs as <-.
    apply (clean_move (gw_cache g)); try done. by apply sessions_refl.
  - destruct p; try done; destruct (lock_free (rq_key rq0) t g) eqn:Hf; try done.
    + injection Hs as <-. unfold acquire_lookup.
      destruct (cs_cache (gw_cache g) !! rq_key rq0) as [c|] eqn:Hc; [|by apply (Hmove t rq0 AtAcquire)].
      pose proof (ac_cached _ _ Hcl _ _ Hc) as Hcc.
      destruct (health_check config); [by apply (Hmove t rq0 AtAcquire)|].
      apply (clean_pinged (lock (rq_key rq0) t g) t rq0 c true); try done; [by apply inv_lock|].
      apply (borrower_apart _ t rq0 c); [by apply inv_lock|by apply lookup_insert_eq| |].
      * exact (gi_cached _ _ H _ _ Hc).
      * exact (gi_idle _ _ H _ _ Hc).
    + pose proof (clean_release g t rq0 conn discard result H Hcl Ht) as Hr.
      destruct (release_locked _ _ _ _) as [w [c|]]; injection Hs as <-; exact Hr.
  - destruct p; try done. injection Hs as <-.
    destruct (gi_borrowed _ _ H _ _ _ _ Ht eq_refl) as (Hg & Hn & _).
    apply clean_pinged; try done. apply (borrower_apart g t rq0 cached H); [|done..].
    exact (gi_locks _ _ H _ _ _ Ht eq_refl).
  - destruct p; try done. destruct error as [e|].
    + destruct (is_cancelled e); [done|]. injection Hs as <-.
      apply (clean_move (gw_cache g)); try done; [apply (sessions_close None)|apply pop_close_cache].
    + injection Hs as <-. exact (clean_used g t rq0 cached database H Hcl Ht).
  - destruct p; try done. destruct (gw_capacity_lock g); [done|]. injection Hs as <-.
    destruct (has_capacity config (gw_cache g)); by apply (Hmove t rq0 AtCapacity).
  - destruct p; try done. destruct error as [e|].
    + destruct (is_cancelled e); [done|]. injection Hs as <-.
      apply (clean_move (gw_cache g)); try done; [by apply sessions_refl|].
      intros k c. simpl. by intros [_ ?]%lookup_delete_Some.
    + injection Hs as <-. apply (clean_connected g t rq0 _ H Hcl Hcall), next_connection_fresh.
  - destruct p; try done. pose proof (clean_answered g t rq0 conn answers H Hcl Ht) as Ha.
    destruct (run_on_connection _ _ _ _ _ _ _ _ _ _) as [w ending]. by injection Hs as <-.
  - destruct p; try done. injection Hs as <-. exact (clean_reset g t rq0 cached result ok H Hcl Ht).
  - simpl in Hok. subst applied. destruct p; try done; cbn [cancel] in Hs; injection Hs as <-;
      by eapply Hmove.
  - injection Hs as <-. by apply clean_evict.
  - destruct (0 <=? d); [|done]. injection Hs as <-.
    by apply (clean_shrink _ _ _ Hcl); [apply sessions_refl|..].
Qed.

Lemma clean_run evs g g' :
  inv g → all_clean (gw_cache g) (gw_tasks g) → Forall event_ok evs → run evs g = Some g' →
  all_clean (gw_cache g') (gw_tasks g').
Proof.
  intros Hi Hc Hok. revert g Hi Hc. induction Hok as [|ev evs Hev _ IH]; intros g Hi Hc Hr;
    [by injection Hr as <-|].
  cbn [session_run] in Hr. destruct (step ev g) as [g1|] eqn:Hs; [|done].
  apply (IH g1); [by eapply inv_step|by eapply clean_step|done].
Qed.

Lemma clean_idle_gateway : all_clean (gw_cache idle_gateway) (gw_tasks idle_gateway).
Proof. split; simpl; intros *; by rewrite lookup_empty. Qed.
End session_clean.
