(* ===== verification/SessionQuiet.v ===== *)
(** * Nothing is lost

    Without cancellations every lease belongs to a running call, every open
    connection is idle, leased or being reset, and every lock is held by a
    call that is between taking and releasing it. *)

From S2P Require Import Prelude PyString Hashing ConnectionCache SqlScan SqlGateway SqlSessions.
From S2P Require Import SessionInvariant SessionClean.

Section session_quiet.
  Context (config : ConnectionPoolConfig) (fingerprint_key : list Z).
  Context (server : string → list string → MySQLSession → MySQLSession).
  Context (changes_database_context is_select : string → bool).
  Context (apply_pagination : string → Z → Z → string).
  Context {Row : Type} (rows_of : string → MySQLSession → list Row).
  Context (timeout_ms : Z).
  Abbreviation step := (session_step config fingerprint_key server changes_database_context is_select
                          apply_pagination rows_of timeout_ms).
  Abbreviation run := (session_run config fingerprint_key server changes_database_context is_select
                         apply_pagination rows_of timeout_ms).
  Abbreviation inv := (gateway_inv fingerprint_key).

Definition opened (w : CacheState) (id : nat) : Prop :=
  ∃ cn, cs_connections w !! id = Some cn ∧ cn_open cn = true.

Definition idle_in (w : CacheState) (id : nat) : Prop :=
  ∃ k c, cs_cache w !! k = Some c ∧ cc_conn c = id.
Definition leased_in (w : CacheState) (id : nat) : Prop := ∃ k, is_Some (cs_leased w !! (k, id)).
Definition resetting (p : Point) (id : nat) : Prop := ∃ c r, p = AtReset c r ∧ cc_conn c = id.

(** On the way to a new connection. *)
Definition connecting (p : Point) : bool := match p with AtCapacity | AtConnect => true | _ => false end.

Definition tracked (w : CacheState) (tasks : gmap nat (Request * Point)) (id : nat) : Prop :=
  idle_in w id ∨ leased_in w id ∨ ∃ t rq p, tasks !! t = Some (rq, p) ∧ resetting p id.

Record quiet (g : Gateway KeyTable) : Prop := {
  q_lease : ∀ k id, is_Some (cs_leased (gw_cache g) !! (k, id)) →
    ∃ t rq p, gw_tasks g !! t = Some (rq, p) ∧ lease_of p = Some id ∧ rq_key rq = k;
  q_open : ∀ id, opened (gw_cache g) id → tracked (gw_cache g) (gw_tasks g) id;
  q_locks : ∀ k t, gw_locks g !! k = Some (Some t) →
    ∃ rq p, gw_tasks g !! t = Some (rq, p) ∧ critical p = true ∧ rq_key rq = k;
  q_capacity : ∀ t, gw_capacity_lock g = Some t → ∃ rq, gw_tasks g !! t = Some (rq, AtConnect);
  q_empty : ∀ t rq p, gw_tasks g !! t = Some (rq, p) → connecting p = true →
    cs_cache (gw_cache g) !! rq_key rq = None
}.

(** Where task [t] is, or [AtEnd] before it begins. *)
Definition point_of (g : Gateway KeyTable) (t : nat) : Point :=
  match gw_tasks g !! t with Some (_, p) => p | None => AtEnd (Ret tt) end.

(** Task [t] moves to [p']: the leases and the locks that are left are those of
    others or of [p'], and what is left open is in place. *)
Lemma quiet_move g g' t rq p' :
  inv g → quiet g → gw_tasks g' = <[t := (rq, p')]> (gw_tasks g) →
  (∀ k id, is_Some (cs_leased (gw_cache g') !! (k, id)) →
     (is_Some (cs_leased (gw_cache g) !! (k, id)) ∧ lease_of (point_of g t) ≠ Some id)
     ∨ (lease_of p' = Some id ∧ rq_key rq = k)) →
  (∀ id, opened (gw_cache g') id →
     let now := idle_in (gw_cache g') id ∨ leased_in (gw_cache g') id ∨ resetting p' id in
     now ∨ (opened (gw_cache g) id ∧ (idle_in (gw_cache g) id → now) ∧ (leased_in (gw_cache g) id → now)
            ∧ (resetting (point_of g t) id → now))) →
  (∀ k t', gw_locks g' !! k = Some (Some t') →
     (t' ≠ t ∧ gw_locks g !! k = Some (Some t')) ∨ (t' = t ∧ critical p' = true ∧ rq_key rq = k)) →
  (∀ t', gw_capacity_lock g' = Some t' →
     (t' ≠ t ∧ gw_capacity_lock g = Some t') ∨ (t' = t ∧ p' = AtConnect)) →
  (connecting p' = true → cs_cache (gw_cache g') !! rq_key rq = None) →
  (∀ k, is_Some (cs_cache (gw_cache g') !! k) → is_Some (cs_cache (gw_cache g) !! k)
     ∨ (∃ p, gw_tasks g !! t = Some (rq, p) ∧ critical p = true ∧ k = rq_key rq)) →
  quiet g'.
Proof.
  intros Hinv [] Ht Hl Ho Hk Hc He Hca.
  assert (gw_tasks g' !! t = Some (rq, p')) as Hnew by (rewrite Ht; apply lookup_insert_eq).
  assert (∀ t' v, t' ≠ t → gw_tasks g !! t' = Some v → gw_tasks g' !! t' = Some v) as Hold.
  { intros t' v Hne Hv. rewrite Ht. by rewrite lookup_insert_ne by congruence. }
  split.
  - intros k id [[Hs Hne]|[Hp <-]]%Hl; [|by exists t, rq, p'].
    destruct (q_lease0 k id Hs) as (t' & rq' & p & Ht' & Hlo & <-). exists t', rq', p.
    split; [|done]. apply Hold; [|done]. intros ->. unfold point_of in Hne. by rewrite Ht' in Hne.
  - intros id Hid. assert (idle_in (gw_cache g') id ∨ leased_in (gw_cache g') id ∨ resetting p' id →
      tracked (gw_cache g') (gw_tasks g') id) as Hnow.
    { intros [?|[?|?]]; [by left|by right; left|]. right. right. by exists t, rq, p'. }
    destruct (Ho id Hid) as [?|(Hid0 & Hi & Hle & Hr)]; [by apply Hnow|].
    destruct (q_open0 id Hid0) as [?|[?|(t' & rq' & p & Ht' & Hre)]]; [by apply Hnow, Hi|by apply Hnow, Hle|].
    destruct (decide (t' = t)) as [->|Hne].
    + apply Hnow, Hr. unfold point_of. by rewrite Ht'.
    + right. right. exists t', rq', p. split; [by apply Hold|done].
  - intros k t' [[Hne Hk']|(-> & Hcr & <-)]%Hk; [|by exists rq, p'].
    destruct (q_locks0 k t' Hk') as (rq' & p & ? & ?). exists rq', p. auto.
  - intros t' [[Hne Hc']|[-> ->]]%Hc; [|by exists rq]. destruct (q_capacity0 t' Hc') as [rq' ?].
    exists rq'. auto.
  - intros t' rq' q Hq Hcon. rewrite Ht in Hq. apply lookup_insert_Some in Hq as [[<- [= <- <-]]|[Hne Hq]];
      [by apply He|].
    apply eq_None_not_Some. intros [Hs|(p & Hp & Hcr & Hkey)]%Hca.
    + rewrite (q_empty0 t' rq' q Hq Hcon) in Hs. by destruct Hs.
    + assert (critical q = true) as Hcr' by (by destruct q).
      destruct Hne. exact (critical_alone _ g t' rq' q t rq p Hinv Hq Hcr' Hp Hcr (eq_sym Hkey)).
Qed.

(** ** Locks of a move *)

Definition locks_move (g : Gateway KeyTable) (t : nat) (rq : Request) (p' : Point)
    (locks' : gmap cache_key (option nat)) : Prop :=
  ∀ k t', locks' !! k = Some (Some t') →
    (t' ≠ t ∧ gw_locks g !! k = Some (Some t')) ∨ (t' = t ∧ critical p' = true ∧ rq_key rq = k).

Lemma uncritical_locks g t k t' :
  quiet g → critical (point_of g t) = false → gw_locks g !! k = Some (Some t') → t' ≠ t.
Proof.
  intros H Hp Hk ->. destruct (q_locks _ H _ _ Hk) as (rq & p & Ht & Hc & _).
  unfold point_of in Hp. rewrite Ht in Hp. congruence.
Qed.

Lemma locks_taken g t rq p' :
  quiet g → critical (point_of g t) = false → critical p' = true →
  locks_move g t rq p' (<[rq_key rq := Some t]> (gw_locks g)).
Proof.
  intros H Hp Hc k t' [[<- [= <-]]|[Hne Hk]]%lookup_insert_Some; [by right|left].
  split; [by eapply uncritical_locks|done].
Qed.

Lemma locks_released g t rq p p' :
  quiet g → gw_tasks g !! t = Some (rq, p) → locks_move g t rq p' (<[rq_key rq := None]> (gw_locks g)).
Proof.
  intros H Ht k t' [[? ?]|[Hne Hk]]%lookup_insert_Some; [done|left]. split; [|done]. intros ->.
  destruct (q_locks _ H _ _ Hk) as (rq' & p1 & Ht' & _ & <-). congruence.
Qed.

Lemma locks_passed g t rq p' :
  quiet g → critical (point_of g t) = false →
  locks_move g t rq p' (<[rq_key rq := None]> (<[rq_key rq := Some t]> (gw_locks g))).
Proof.
  intros H Hp k t'. rewrite insert_insert_eq. intros [[? ?]|[Hne Hk]]%lookup_insert_Some; [done|left].
  split; [by eapply uncritical_locks|done].
Qed.

Lemma locks_same g t rq p p' :
  quiet g → gw_tasks g !! t = Some (rq, p) → (critical p = true → critical p' = true) →
  locks_move g t rq p' (gw_locks g).
Proof.
  intros H Ht Hc k t' Hk. destruct (decide (t' = t)) as [->|?]; [right|by left].
  destruct (q_locks _ H _ _ Hk) as (rq' & p1 & Ht' & Hcr & <-). rewrite Ht in Ht'.
  injection Ht' as <- <-. auto.
Qed.

Definition capacity_move (g : Gateway KeyTable) (t : nat) (p' : Point) (c' : option nat) : Prop :=
  ∀ t', c' = Some t' → (t' ≠ t ∧ gw_capacity_lock g = Some t') ∨ (t' = t ∧ p' = AtConnect).

Lemma capacity_same g t p' :
  quiet g → point_of g t ≠ AtConnect → capacity_move g t p' (gw_capacity_lock g).
Proof.
  intros H Hp t' Hc. left. split; [|done]. intros ->. destruct (q_capacity _ H _ Hc) as [rq Ht].
  unfold point_of in Hp. by rewrite Ht in Hp.
Qed.

(** ** Connections of a move *)

Lemma opened_close id w j : opened (close_connection id w) j ↔ opened w j ∧ j ≠ id.
Proof.
  unfold opened. simpl. split.
  - intros (cn & Hj & Ho). destruct (decide (id = j)) as [<-|Hne].
    + rewrite lookup_alter_eq in Hj. destruct (cs_connections w !! id); [|done]. by injection Hj as <-.
    + rewrite lookup_alter_ne in Hj by done. split; [by exists cn|done].
  - intros [(cn & Hj & Ho) Hne]. exists cn. by rewrite lookup_alter_ne.
Qed.

Lemma opened_on_session f id w j : opened (on_session f id w) j ↔ opened w j.
Proof.
  unfold opened. simpl. destruct (decide (id = j)) as [<-|Hne]; [|by rewrite lookup_alter_ne].
  rewrite lookup_alter_eq. destruct (cs_connections w !! id) as [cn|]; simpl; [|by split; intros (? & ? & ?)].
  split; intros (cn' & [= <-] & Ho); eauto.
Qed.

(** What is open after a move, and where it is. *)
Definition open_move (w w' : CacheState) (p p' : Point) : Prop :=
  ∀ id, opened w' id →
    let now := idle_in w' id ∨ leased_in w' id ∨ resetting p' id in
    now ∨ (opened w id ∧ (idle_in w id → now) ∧ (leased_in w id → now) ∧ (resetting p id → now)).

Definition lease_move (w w' : CacheState) (rq : Request) (p p' : Point) : Prop :=
  ∀ k id, is_Some (cs_leased w' !! (k, id)) →
    (is_Some (cs_leased w !! (k, id)) ∧ lease_of p ≠ Some id) ∨ (lease_of p' = Some id ∧ rq_key rq = k).

(** Nothing moves but the point. *)
Lemma open_same w p p' : (∀ id, resetting p id → resetting p' id) → open_move w w p p'.
Proof. intros Hr id Hid. right. split_and!; auto. Qed.

Lemma open_still w p p' : (∀ id, ¬ resetting p id) → open_move w w p p'.
Proof. intros Hr. apply open_same. intros id Hid. by destruct (Hr id). Qed.

Lemma lease_none w w' rq p p' :
  cs_leased w' = cs_leased w → lease_of p = None → lease_move w w' rq p p'.
Proof. intros Hw Hp k id Hs. rewrite Hw in Hs. left. split; [done|congruence]. Qed.

Lemma lease_kept g t rq p p' :
  inv g → quiet g → gw_tasks g !! t = Some (rq, p) → lease_of p' = lease_of p →
  lease_move (gw_cache g) (gw_cache g) rq p p'.
Proof.
  intros Hi H Ht Hp k id Hs. destruct (decide (lease_of p = Some id)) as [E|]; [right|by left].
  split; [congruence|]. destruct (q_lease _ H _ _ Hs) as (t' & rq' & q & Ht' & Hl & <-).
  assert (t' = t) as -> by (by apply (gi_unique _ _ Hi t' t rq' rq q p id); [..|destruct q|destruct p]).
  congruence.
Qed.

Lemma lease_taken w w' rq p conn c :
  cs_leased w' = <[(rq_key rq, conn) := c]> (cs_leased w) → lease_of p = None →
  lease_move w w' rq p (AtStatements conn).
Proof.
  intros Hl Hp k id. rewrite Hl. destruct (decide ((rq_key rq, conn) = (k, id))) as [E|Hne].
  - right. injection E as <- <-. done.
  - rewrite lookup_insert_ne by done. left. split; [done|congruence].
Qed.

Lemma lease_given g w' rq t conn d r p' :
  inv g → gw_tasks g !! t = Some (rq, AtRelease conn d r) →
  cs_leased w' = delete (rq_key rq, conn) (cs_leased (gw_cache g)) →
  lease_move (gw_cache g) w' rq (AtRelease conn d r) p'.
Proof.
  intros Hi Ht Hl k id. rewrite Hl. intros [c [Hne Hc]%lookup_delete_Some]. left. split; [by exists c|].
  intros [= ->]. apply Hne. f_equal. destruct (gi_lease _ _ Hi _ _ _ _ Ht eq_refl) as [c0 Hc0].
  destruct (gi_leased _ _ Hi _ _ _ Hc0) as [Hg0 E0]. destruct (gi_leased _ _ Hi _ _ _ Hc) as [Hg E].
  apply (genuine_key _ _ _ _ _ _ Hg0 Hg). congruence.
Qed.

(** An idle connection is closed and dropped. *)
Lemma open_dropped w k id p p' :
  (∀ c, cs_cache w !! k = Some c → cc_conn c = id) → (∀ j, ¬ resetting p j) →
  open_move w (pop_idle k (close_connection id w)) p p'.
Proof.
  intros Hc Hp j Hj. change (opened (close_connection id w) j) in Hj. apply opened_close in Hj as [Hj Hne].
  right. split_and!; [done|..].
  - intros (k' & c & Hk & <-). left. exists k', c. split; [|done]. simpl. apply lookup_delete_Some.
    split; [|done]. intros <-. by rewrite (Hc c Hk) in Hne.
  - intros (k' & Hl). right. left. by exists k'.
  - intros Hr. by destruct (Hp j).
Qed.

Lemma open_leased w k c p conn :
  (∀ c', cs_cache w !! k = Some c' → cc_conn c' = cc_conn c) → (∀ j, ¬ resetting p j) → conn = cc_conn c →
  open_move w (lease_idle k c w) p (AtStatements conn).
Proof.
  intros Hc Hp -> j Hj. right. split_and!; [done|..].
  - intros (k' & c' & Hk & <-). destruct (decide (k' = k)) as [->|Hne].
    + right. left. exists k. rewrite (Hc c' Hk). simpl. by rewrite lookup_insert_eq.
    + left. exists k', c'. split; [|done]. simpl. by rewrite lookup_delete_ne.
  - intros (k' & Hl). right. left. exists k'. simpl. by apply lookup_insert_is_Some'; right.
  - intros Hr. by destruct (Hp j).
Qed.

Lemma open_fresh k l conn w p :
  (∀ j, ¬ resetting p j) →
  open_move w (acquire_connected fingerprint_key k l conn w) p (AtStatements conn).
Proof.
  intros Hp j (cn & Hj & Ho). simpl in Hj. destruct (decide (conn = j)) as [<-|Hne].
  - left. right. left. exists k. simpl. by rewrite lookup_insert_eq.
  - rewrite lookup_insert_ne in Hj by done. right. split_and!; [by exists cn|..].
    + intros Hi. by left.
    + intros (k' & Hl). right. left. exists k'. simpl. by apply lookup_insert_is_Some'; right.
    + intros Hr. by destruct (Hp j).
Qed.

Lemma opened_replace k id w j :
  opened (replace_idle k id w) j →
  opened w j ∧ (∀ c, cs_cache w !! k = Some c → cc_conn c = j → j = id).
Proof.
  unfold replace_idle. destruct (cs_cache w !! k) as [c|]; [|by split].
  destruct (cc_conn c =? id)%nat eqn:E.
  - intros Hj. split; [exact Hj|]. intros c' [= <-] <-. by apply Nat.eqb_eq.
  - intros Hj. change (opened (close_connection (cc_conn c) w) j) in Hj.
    apply opened_close in Hj as [? Hne]. split; [done|]. by intros c' [= <-] <-.
Qed.

Lemma replace_keeps k id w k' : k' ≠ k → cs_cache (replace_idle k id w) !! k' = cs_cache w !! k'.
Proof.
  intros Hne. unfold replace_idle. destruct (cs_cache w !! k) as [c'|]; [destruct (_ =? _)%nat|]; simpl;
    by rewrite lookup_delete_ne.
Qed.

(** A released connection is closed, together with the idle one. *)
Lemma open_discarded w w1 k id p p' :
  cs_cache w1 = cs_cache w → cs_connections w1 = cs_connections w →
  (∀ k' j, j ≠ id → is_Some (cs_leased w !! (k', j)) → is_Some (cs_leased w1 !! (k', j))) →
  (∀ j, resetting p j → j = id) →
  open_move w (replace_idle k id (close_connection id w1)) p p'.
Proof.
  intros Hc Hn Hl Hp j Hj. apply opened_replace in Hj as [[Hj Hne]%opened_close Hidle]. right. split_and!.
  - unfold opened in *. by rewrite Hn in Hj.
  - intros (k' & c & Hk & Hcj). destruct (decide (k' = k)) as [->|Hnk].
    + destruct Hne. apply (Hidle c); [|done]. simpl. by rewrite Hc.
    + left. exists k', c. split; [|done]. rewrite replace_keeps by done. simpl. by rewrite Hc.
  - intros (k' & Hs). right. left. exists k'. rewrite replace_leased. by apply Hl.
  - intros Hr. by destruct Hne, (Hp j).
Qed.

(** A reset connection becomes the idle one of its key. *)
Lemma open_returned w k c c1 r p' :
  cc_conn c1 = cc_conn c →
  open_move w ((replace_idle k (cc_conn c) w)
    <| cs_cache := <[k := c1]> (cs_cache (replace_idle k (cc_conn c) w)) |>) (AtReset c r) p'.
Proof.
  intros Hid j Hj. change (opened (replace_idle k (cc_conn c) w) j) in Hj.
  apply opened_replace in Hj as [Hj Hidle].
  set (w' := set_field _ _ _).
  assert (cs_cache w' = <[k := c1]> (cs_cache (replace_idle k (cc_conn c) w))) as Hw by done.
  assert (cs_leased w' = cs_leased w) as Hlw by apply replace_leased.
  assert (j = cc_conn c → idle_in w' j) as Hnow.
  { intros ->. exists k, c1. rewrite Hw. by rewrite lookup_insert_eq. }
  clearbody w'. right. split_and!; [done|..].
  - intros (k' & c' & Hk & Hcj). left. destruct (decide (k' = k)) as [->|Hnk]; [by eapply Hnow, Hidle|].
    exists k', c'. split; [|done]. rewrite Hw. rewrite lookup_insert_ne by done. by rewrite replace_keeps.
  - intros (k' & Hs). right. left. exists k'. by rewrite Hlw.
  - intros (c' & r' & [= <- _] & E). left. by apply Hnow.
Qed.

(** ** Every event *)

Lemma quiet_at g w' locks' c' t rq p p' :
  inv g → quiet g → gw_tasks g !! t = Some (rq, p) →
  lease_move (gw_cache g) w' rq p p' → open_move (gw_cache g) w' p p' →
  locks_move g t rq p' locks' → capacity_move g t p' c' →
  (connecting p' = true → cs_cache w' !! rq_key rq = None) →
  (∀ k, is_Some (cs_cache w' !! k) → is_Some (cs_cache (gw_cache g) !! k)
     ∨ (critical p = true ∧ k = rq_key rq)) →
  quiet (mk_gateway w' locks' c' (<[t := (rq, p')]> (gw_tasks g))).
Proof.
  intros Hi H Ht Hl Ho Hk Hc He Hca. assert (point_of g t = p) as Hp by (unfold point_of; by rewrite Ht).
  apply (quiet_move g _ t rq p'); rewrite ?Hp; try done.
  intros k Hs. destruct (Hca k Hs) as [?|[? ->]]; [by left|right; by exists p].
Qed.

Lemma shrunk (m m' : gmap cache_key CachedConnection) k (P : Prop) :
  (∀ c, m' !! k = Some c → m !! k = Some c) → is_Some (m' !! k) → is_Some (m !! k) ∨ P.
Proof. intros Hm [c Hc]. left. exists c. by apply Hm. Qed.

Lemma capacity_at g t rq p p' :
  quiet g → gw_tasks g !! t = Some (rq, p) → p ≠ AtConnect →
  capacity_move g t p' (gw_capacity_lock g).
Proof. intros H Ht Hp. apply capacity_same; [done|]. unfold point_of. by rewrite Ht. Qed.

Lemma no_reset p : (match p with AtReset _ _ => False | _ => True end) → ∀ j, ¬ resetting p j.
Proof. intros Hp j (c & r & -> & _). done. Qed.

Lemma quiet_pinged g t rq p c alive locks' :
  inv g → quiet g → gw_tasks g !! t = Some (rq, p) →
  lease_of p = None → (∀ j, ¬ resetting p j) → p ≠ AtConnect →
  (∀ c', cs_cache (gw_cache g) !! rq_key rq = Some c' → cc_conn c' = cc_conn c) →
  (∀ p', critical p' = true → locks_move g t rq p' locks') →
  (∀ p', locks_move g t rq p' (<[rq_key rq := None]> locks')) →
  quiet (acquire_on t rq (acquire_pinged fingerprint_key (rq_key rq) (rq_login rq) c alive (gw_cache g))
           (g <| gw_locks := locks' |>)).
Proof.
  intros Hi H Ht Hl Hr Hp Hc Hk Hu.
  assert (∀ p', capacity_move g t p' (gw_capacity_lock g)) as Hcap by (intros p'; by eapply capacity_at).
  pose proof (λ w' locks', quiet_at g w' locks' (gw_capacity_lock g) t rq p) as Hat.
  assert (quiet (acquire_on t rq (pop_idle (rq_key rq) (close_connection (cc_conn c) (gw_cache g)), Connect)
           (g <| gw_locks := locks' |>))) as Hconnect.
  { refine (Hat (pop_idle (rq_key rq) (close_connection (cc_conn c) (gw_cache g))) locks' AtCapacity
      Hi H Ht _ _ _ _ _ _); auto.
    - by apply lease_none.
    - by apply open_dropped.
    - intros _. apply lookup_delete_eq.
    - intros k. apply shrunk. intros c'. apply lookup_delete_Some. }
  assert (quiet (acquire_on t rq (lease_idle (rq_key rq) c (gw_cache g), Leased (cc_conn c))
           (g <| gw_locks := locks' |>))) as Hlease.
  { refine (Hat (lease_idle (rq_key rq) c (gw_cache g)) (<[rq_key rq := None]> locks')
      (AtStatements (cc_conn c)) Hi H Ht _ _ _ _ _ _); auto; try done.
    - by eapply lease_taken.
    - by apply open_leased.
    - intros k. apply shrunk. intros c'. apply lookup_delete_Some. }
  unfold acquire_pinged. destruct alive; [|exact Hconnect].
  destruct (_ || _); [exact Hconnect|]. destruct (lg_database (rq_login rq)) as [db|]; [|exact Hlease].
  destruct (_ && _); [|exact Hlease].
  refine (Hat (gw_cache g) locks' (AtUse c db) Hi H Ht _ _ _ _ _ _); auto; try done.
  - by apply lease_none.
  - apply open_same. intros j Hj. by destruct (Hr j).
Qed.

Lemma quiet_lock_key t g g' : inv g → quiet g → step (LockKey t) g = Some g' → quiet g'.
Proof.
  intros Hi H Hs. cbn [session_step] in Hs. destruct (gw_tasks g !! t) as [[rq p]|] eqn:Ht; [|done].
  assert (critical p = false → critical (point_of g t) = false) as Hcr by (unfold point_of; by rewrite Ht).
  assert (p ≠ AtConnect → ∀ p', capacity_move g t p' (gw_capacity_lock g)) as Hcap
    by (intros Hp p'; by eapply capacity_at).
  pose proof (λ w' locks', quiet_at g w' locks' (gw_capacity_lock g) t rq p) as Hat.
  destruct p; try done; destruct (lock_free (rq_key rq) t g) eqn:Hf; try done; specialize (Hcr eq_refl).
  - injection Hs as <-. unfold acquire_lookup.
    destruct (cs_cache (gw_cache g) !! rq_key rq) as [c|] eqn:Hc.
    + destruct (health_check config).
      * refine (Hat (gw_cache g) (<[rq_key rq := Some t]> (gw_locks g)) (AtPing c) Hi H Ht _ _ _ _ _ _);
          [by apply lease_none|by apply open_still, no_reset|by apply locks_taken|by apply Hcap|done|by left].
      * apply (quiet_pinged g t rq AtAcquire c true (<[rq_key rq := Some t]> (gw_locks g)) Hi H Ht); try done.
        -- by apply no_reset.
        -- intros c' E. congruence.
        -- intros p' Hp'. by apply locks_taken.
        -- intros p'. by apply locks_passed.
    + refine (Hat (gw_cache g) (<[rq_key rq := Some t]> (gw_locks g)) AtCapacity Hi H Ht _ _ _ _ _ _);
        [by apply lease_none|by apply open_still, no_reset|by apply locks_taken|by apply Hcap|done|by left].
  - unfold release_locked in Hs.
    destruct (gi_lease _ _ Hi _ _ _ _ Ht eq_refl) as [c Hc]. rewrite Hc in Hs.
    destruct (gi_leased _ _ Hi _ _ _ Hc) as [Hg Hid].
    set (w1 := (gw_cache g) <| cs_leased := delete (rq_key rq, conn) (cs_leased (gw_cache g)) |>) in Hs.
    assert (∀ k' j, j ≠ conn → is_Some (cs_leased (gw_cache g) !! (k', j)) → is_Some (cs_leased w1 !! (k', j)))
      as Hother.
    { intros k' j Hne Hsj. simpl. rewrite lookup_delete_ne; [done|].
      intros E. apply (f_equal snd) in E. by simpl in E. }
    destruct discard; injection Hs as <-.
    + refine (Hat (replace_idle (rq_key rq) conn (close_connection conn w1))
        (<[rq_key rq := None]> (<[rq_key rq := Some t]> (gw_locks g))) (AtEnd result) Hi H Ht _ _ _ _ _ _).
      * eapply lease_given; [done..|]. by rewrite replace_leased.
      * apply open_discarded; try done. by intros j (? & ? & ? & _).
      * by apply locks_passed.
      * by apply Hcap.
      * done.
      * intros k'. apply shrunk. intros c' [_ ?]%replace_cache. done.
    + refine (Hat w1 (<[rq_key rq := Some t]> (gw_locks g)) (AtReset c result) Hi H Ht _ _ _ _ _ _).
      * by eapply lease_given.
      * intros j Hj. right. split_and!; [done| | |].
        -- intros Hidle. by left.
        -- intros (k' & Hsj). right. destruct (decide (j = conn)) as [->|Hne]; [right; by exists c, result|left].
           exists k'. by apply Hother.
        -- by intros (? & ? & ? & _).
      * by apply locks_taken.
      * by apply Hcap.
      * done.
      * by left.
Qed.

Lemma open_move_on_session f id w w' p p' :
  open_move (on_session f id w) w' p p' → open_move w w' p p'.
Proof.
  intros H j Hj. destruct (H j Hj) as [?|(Ho & Hrest)]; [by left|right].
  split; [by apply opened_on_session in Ho|exact Hrest].
Qed.

Lemma quiet_used t error g g' : inv g → quiet g → step (Used t error) g = Some g' → quiet g'.
Proof.
  intros Hi H Hs. cbn [session_step] in Hs. destruct (gw_tasks g !! t) as [[rq p]|] eqn:Ht; [|done].
  destruct p; try done. destruct (gi_borrowed _ _ Hi _ _ _ _ Ht eq_refl) as (Hg & Hn & Hc).
  assert (∀ c', cs_cache (gw_cache g) !! rq_key rq = Some c' → cc_conn c' = cc_conn cached) as Hc'
    by (intros c' E; destruct Hc; congruence).
  assert (∀ p', locks_move g t rq p' (<[rq_key rq := None]> (gw_locks g))) as Hun
    by (intros p'; by eapply locks_released).
  assert (∀ p', capacity_move g t p' (gw_capacity_lock g)) as Hcap by (intros p'; by eapply capacity_at).
  destruct error as [e|].
  - destruct (is_cancelled e); [done|]. injection Hs as <-.
    refine (quiet_at g (pop_idle (rq_key rq) (close_connection (cc_conn cached) (gw_cache g)))
      (<[rq_key rq := None]> (gw_locks g)) (gw_capacity_lock g) t rq _
      (AtEnd (Raise (acquire_error e))) Hi H Ht _ _ (Hun _) (Hcap _) _ _); try done.
    + by apply lease_none.
    + apply open_dropped; [done|by apply no_reset].
    + intros k. apply shrunk. intros c'. apply lookup_delete_Some.
  - injection Hs as <-.
    refine (quiet_at g (lease_idle (rq_key rq) (cached <| cc_database := Some database |>)
        (on_session (server (use_statement database) []) (cc_conn cached) (gw_cache g)))
      (<[rq_key rq := None]> (gw_locks g)) (gw_capacity_lock g) t rq _
      (AtStatements (cc_conn cached)) Hi H Ht _ _ (Hun _) (Hcap _) _ _); try done.
    + by eapply lease_taken.
    + eapply open_move_on_session. apply open_leased; [done|by apply no_reset|done].
    + intros k. apply shrunk. intros c'. apply lookup_delete_Some.
Qed.

Lemma quiet_connected t error g g' : inv g → quiet g → step (Connected t error) g = Some g' → quiet g'.
Proof.
  intros Hi H Hs. cbn [session_step] in Hs. destruct (gw_tasks g !! t) as [[rq p]|] eqn:Ht; [|done].
  destruct p; try done. pose proof (q_empty _ H _ _ _ Ht eq_refl) as Hnone.
  assert (∀ p', locks_move g t rq p' (<[rq_key rq := None]> (gw_locks g))) as Hun
    by (intros p'; by eapply locks_released).
  assert (∀ p', capacity_move g t p' None) as Hcap by (by intros p' t').
  destruct error as [e|]; [destruct (is_cancelled e); [done|]|]; injection Hs as <-.
  - refine (quiet_at g (pop_idle (rq_key rq) (gw_cache g)) (<[rq_key rq := None]> (gw_locks g)) None t rq _
      (AtEnd (Raise (acquire_error e))) Hi H Ht _ _ (Hun _) (Hcap _) _ _); try done.
    + by apply lease_none.
    + intros j Hj. right. split_and!; [done| |by right; left|by intros (? & ? & ? & _)].
      intros (k & c & Hk & Hcj). left. exists k, c. split; [|done]. simpl. apply lookup_delete_Some.
      split; [|done]. intros <-. congruence.
    + intros k. apply shrunk. intros c'. apply lookup_delete_Some.
  - refine (quiet_at g (acquire_connected fingerprint_key (rq_key rq) (rq_login rq)
        (next_connection (gw_cache g)) (gw_cache g)) (<[rq_key rq := None]> (gw_locks g)) None t rq _
      (AtStatements (next_connection (gw_cache g))) Hi H Ht _ _ (Hun _) (Hcap _) _ _); try done.
    + by eapply lease_taken.
    + apply open_fresh. by apply no_reset.
    + by left.
Qed.

Lemma quiet_answered t answers g g' :
  inv g → quiet g → is_cancelling (Answered t answers) = false →
  step (Answered t answers) g = Some g' → quiet g'.
Proof.
  intros Hi H Hc Hs. cbn [session_step] in Hs. destruct (gw_tasks g !! t) as [[rq p]|] eqn:Ht; [|done].
  destruct p; try done. destruct (gi_statements _ _ Hi _ _ _ _ Ht eq_refl) as (cn & Hcn & _).
  unfold run_on_connection in Hs. rewrite Hcn in Hs.
  pose proof (calm_released server changes_database_context is_select apply_pagination rows_of timeout_ms
    (rq_call rq) (mk_wire (cn_session cn) answers)) as Hcalm.
  assert (calm_wire (mk_wire (cn_session cn) answers)) as Hw.
  { unfold calm_wire. apply Forall_forall. intros a Ha e He. cbn [is_cancelling] in Hc.
    destruct (is_cancelled e) eqn:E; [|done]. exfalso.
    apply not_true_iff_false in Hc. apply Hc, existsb_exists. exists a.
    split; [by apply list_elem_of_In|]. by rewrite He. }
  specialize (Hcalm Hw). destruct (run_call _ _ _ _ _ _ _ _) as [wire [ending|e]]; [|done].
  cbn [snd] in Hcalm. injection Hs as <-. unfold begin_release. rewrite Hcalm.
  refine (quiet_at g (on_session (λ _, wi_session wire) conn (gw_cache g)) (gw_locks g) (gw_capacity_lock g)
    t rq _ (AtRelease conn (ce_discard ending) (ce_outcome ending)) Hi H Ht _ _ _ _ _ _); try done.
  - by eapply lease_kept.
  - intros j Hj. right. apply opened_on_session in Hj. split_and!; [done|by left|by right; left|].
    by intros (? & ? & ? & _).
  - by eapply locks_same.
  - by eapply capacity_at.
  - by left.
Qed.

Lemma quiet_reset t ok g g' : inv g → quiet g → step (Reset t ok) g = Some g' → quiet g'.
Proof.
  intros Hi H Hs. cbn [session_step] in Hs. destruct (gw_tasks g !! t) as [[rq p]|] eqn:Ht; [|done].
  destruct p; try done. injection Hs as <-.
  assert (∀ p', locks_move g t rq p' (<[rq_key rq := None]> (gw_locks g))) as Hun
    by (intros p'; by eapply locks_released).
  assert (∀ p', capacity_move g t p' (gw_capacity_lock g)) as Hcap by (intros p'; by eapply capacity_at).
  unfold release_reset. destruct ok.
  - set (w1 := on_session (reset_session server) (cc_conn cached) (gw_cache g)).
    set (c1 := set_field cc_last_used _ cached).
    refine (quiet_at g ((replace_idle (rq_key rq) (cc_conn cached) w1) <| cs_cache :=
        <[rq_key rq := c1]> (cs_cache (replace_idle (rq_key rq) (cc_conn cached) w1)) |>)
      (<[rq_key rq := None]> (gw_locks g)) (gw_capacity_lock g) t rq _ (AtEnd result) Hi H Ht
      _ _ (Hun _) (Hcap _) _ _); try done.
    + apply lease_none; [|done]. apply (replace_leased (rq_key rq) (cc_conn cached) w1).
    + eapply open_move_on_session. by apply open_returned.
    + intros k [c Hk].
      change (<[rq_key rq := c1]> (cs_cache (replace_idle (rq_key rq) (cc_conn cached) w1)) !! k = Some c) in Hk.
      apply lookup_insert_Some in Hk as [[<- _]|[_ Hk]]; [by right|left].
      apply replace_cache in Hk as [_ Hk]. by exists c.
  - refine (quiet_at g (replace_idle (rq_key rq) (cc_conn cached) (close_connection (cc_conn cached) (gw_cache g)))
      (<[rq_key rq := None]> (gw_locks g)) (gw_capacity_lock g) t rq _ (AtEnd result) Hi H Ht
      _ _ (Hun _) (Hcap _) _ _); try done.
    + apply lease_none; [|done]. by rewrite replace_leased.
    + apply open_discarded; try done. by intros j (? & ? & [= <- _] & <-).
    + intros k. apply shrunk. intros c [_ ?]%replace_cache. done.
Qed.

Lemma quiet_drop g k id :
  quiet g → (∀ c, cs_cache (gw_cache g) !! k = Some c → cc_conn c = id) →
  quiet (with_cache (pop_idle k (close_connection id (gw_cache g))) g).
Proof.
  intros [] Hc. split; try done.
  - intros j [Hj Hne]%opened_close. destruct (q_open0 j Hj) as [(k' & c & Hk & <-)|[?|?]];
      [left|by right; left|by right; right].
    exists k', c. split; [|done]. simpl. apply lookup_delete_Some. split; [|done].
    intros <-. by rewrite (Hc c Hk) in Hne.
  - intros t rq p Ht Hp. pose proof (q_empty0 t rq p Ht Hp) as E. by apply lookup_delete_None; right.
Qed.

Lemma quiet_evict g : quiet g → quiet (with_cache (evict_expired config (gw_cache g)) g).
Proof.
  intros H. unfold evict_expired.
  set (l := filter _ _). assert (∀ e, e ∈ l → cs_cache (gw_cache g) !! e.1 = Some e.2) as Hl.
  { intros [k c] [_ He]%list_elem_of_filter. by apply elem_of_map_to_list in He. }
  clearbody l.
  set (dropped := foldr _ _).
  assert (quiet (with_cache (dropped l) g)
    ∧ ∀ k c, cs_cache (dropped l) !! k = Some c → cs_cache (gw_cache g) !! k = Some c) as [? _]; [|done].
  induction l as [|e l IH]; [split; [by destruct g|done]|].
  destruct IH as [IH1 IH2]; [intros e' He'; apply Hl; by right|].
  split.
  - apply (quiet_drop (with_cache (dropped l) g) e.1 (cc_conn e.2) IH1).
    intros c Hc. apply IH2 in Hc. rewrite (Hl e) in Hc by (by left). by injection Hc as <-.
  - intros k c Hk. apply IH2. change (delete e.1 (cs_cache (dropped l)) !! k = Some c) in Hk.
    by apply lookup_delete_Some in Hk as [_ Hk].
Qed.

Lemma quiet_step ev g g' :
  inv g → quiet g → is_cancelling ev = false → step ev g = Some g' → quiet g'.
Proof.
  intros Hi H Hc Hs.
  destruct ev; eauto using quiet_lock_key, quiet_used, quiet_connected, quiet_answered, quiet_reset; [..|done| |].
  - cbn [session_step] in Hs. destruct (gw_tasks g !! t) eqn:Ht; [done|]. injection Hs as <-.
    assert (point_of g t = AtEnd (Ret tt)) as Hp by (unfold point_of; by rewrite Ht).
    apply (quiet_move g _ t rq AtAcquire Hi H); rewrite ?Hp; try done.
    + intros k id Hk. by left.
    + apply (open_still (gw_cache g) (AtEnd (Ret tt))). by apply no_reset.
    + intros k t' Hk. left. split; [|done]. eapply uncritical_locks; [done| |done]. by rewrite Hp.
    + intros t' Ht'. left. split; [|done]. intros ->. destruct (q_capacity _ H _ Ht') as [? ?]. congruence.
    + by left.
  - cbn [session_step] in Hs. destruct (gw_tasks g !! t) as [[rq p]|] eqn:Ht; [|done].
    destruct p; try done. injection Hs as <-.
    destruct (gi_borrowed _ _ Hi _ _ _ _ Ht eq_refl) as (Hg & Hn & Hca).
    pose proof (quiet_pinged g t rq (AtPing cached) cached alive (gw_locks g) Hi H Ht) as Hq.
    destruct g as [w lo ca ta]. apply Hq; try done.
    + by apply no_reset.
    + intros c' E. destruct Hca; congruence.
    + intros p' Hp'. by eapply locks_same.
    + intros p'. by eapply locks_released.
  - cbn [session_step] in Hs. destruct (gw_tasks g !! t) as [[rq p]|] eqn:Ht; [|done].
    destruct p; try done. destruct (gw_capacity_lock g) eqn:Hcap; [done|]. injection Hs as <-.
    pose proof (q_empty _ H _ _ _ Ht eq_refl) as Hnone.
    destruct (has_capacity config (gw_cache g)).
    + refine (quiet_at g (gw_cache g) (gw_locks g) (Some t) t rq AtCapacity AtConnect Hi H Ht _ _ _ _ _ _); try done.
      * by apply lease_none.
      * apply open_still. by apply no_reset.
      * by eapply locks_same.
      * intros t' [= <-]. by right.
      * by left.
    + refine (quiet_at g (gw_cache g) (<[rq_key rq := None]> (gw_locks g)) (gw_capacity_lock g) t rq
        AtCapacity _ Hi H Ht _ _ _ _ _ _); try done.
      * by apply lease_none.
      * apply open_still. by apply no_reset.
      * by eapply locks_released.
      * by eapply capacity_at.
      * by left.
  - cbn [session_step] in Hs. injection Hs as <-. pose proof (quiet_evict g H) as [].
    split; try done. intros k t Hk. apply q_locks0. simpl in Hk |- *.
    by apply map_lookup_filter_Some in Hk as [Hk _].
  - cbn [session_step] in Hs. destruct (0 <=? d); [|done]. injection Hs as <-. by destruct H.
Qed.

Lemma quiet_run evs g g' :
  inv g → quiet g → Forall (λ ev, is_cancelling ev = false) evs → run evs g = Some g' → quiet g'.
Proof.
  intros Hi H Hc. revert g Hi H. induction Hc as [|ev evs Hev _ IH]; intros g Hi H Hr;
    [by injection Hr as <-|].
  cbn [session_run] in Hr. destruct (step ev g) as [g1|] eqn:Hs; [|done].
  apply (IH g1); [by eapply inv_step|by eapply quiet_step|done].
Qed.

Lemma quiet_idle_gateway : quiet idle_gateway.
Proof.
  split; unfold idle_gateway; simpl.
  - intros k id [c Hc]. by rewrite lookup_empty in Hc.
  - intros id (cn & Hcn & _). simpl in Hcn. by rewrite lookup_empty in Hcn.
  - intros k t Hk. by rewrite lookup_empty in Hk.
  - done.
  - intros t rq p Ht. by rewrite lookup_empty in Ht.
Qed.
End session_quiet.
