(* ===== verification/SessionTheorems.v ===== *)
(** * What the gateway guarantees of its connections

    Over every interleaving of calls, cancellations, evictions and failures:
    whose connection a call runs on, in which session, and what is left when
    all calls have ended.  That a connection is not shared, and all that follows
    from it, takes clean-ups that drop no lock a call waits for
    ([locks_survive]); the last section shows what happens otherwise. *)

From S2P Require Import Prelude PyString Hashing ConnectionCache SqlScan SqlGateway SqlSessions.
From S2P Require Import SessionInvariant SessionLocks SessionClean SessionQuiet.

(** ** A small server

    It knows the statements of the gateway and [USE]; everything else leaves
    the session alone. *)

(** The identifier in front of a closing backtick. *)
Fixpoint read_identifier (s : string) : string :=
  match s with
  | EmptyString => EmptyString
  | String a rest =>
      if Ascii.eqb a "`" then
        match rest with
        | String b rest' => if Ascii.eqb b "`" then String "`" (read_identifier rest') else EmptyString
        | EmptyString => EmptyString
        end
      else String a (read_identifier rest)
  end.

Fixpoint read_number (n : Z) (s : string) : Z :=
  match s with
  | String a rest => read_number (10 * n + (Z.of_nat (nat_of_ascii a) - 48)) rest
  | EmptyString => n
  end.

Definition demo_server (sql : string) (params : list string) (s : MySQLSession) : MySQLSession :=
  if String.eqb sql READ_WRITE then s <| ms_read_only := false |>
  else if String.eqb sql "SET autocommit=1" then
    s <| ms_autocommit := true |> <| ms_in_transaction := ms_in_transaction s && ms_autocommit s |>
  else if String.eqb sql "ROLLBACK" then s <| ms_in_transaction := false |>
  else if String.eqb sql SET_BRANCH then s <| ms_branch := default EmptyString (head params) |>
  else if String.eqb sql RESET_BRANCH then s <| ms_branch := EmptyString |>
  else match strip_prefix "USE `" sql with
       | Some rest => s <| ms_database := Some (read_identifier rest) |>
       | None =>
           match strip_prefix "SET max_execution_time=" sql with
           | Some rest => s <| ms_max_execution_time := Some (read_number 0 rest) |>
           | None => s
           end
       end.

Definition demo_rows (sql : string) (s : MySQLSession) : list string := [ sql ].

Abbreviation demo_run := (session_run default_pool_config [1; 2; 3] demo_server (λ _, false) (λ _, true)
  (λ sql _ _, sql) demo_rows 30000).

Definition demo_login (database : option string) : Login :=
  mk_login "db.internal" 3306 "reader" "secret" database.

Definition demo_request (database : option string) : Request :=
  mk_request "user-1" "instance-1" (demo_login database) (Execute "SELECT 1" 10 0 None).

(** One call from begin to end on a fresh connection. *)
Definition demo_call (t : nat) (database : option string) : list Event :=
  [ Begin t (demo_request database); LockKey t; LockCapacity t; Connected t None; Answered t [];
    LockKey t; Reset t true ].

(** ** Isolation *)

Section isolation.
  Context (config : ConnectionPoolConfig) (fingerprint_key : list Z).
  Context (server : string → list string → MySQLSession → MySQLSession).
  Context (changes_database_context is_select : string → bool).
  Context (apply_pagination : string → Z → Z → string).
  Context {Row : Type} (rows_of : string → MySQLSession → list Row).
  Context (timeout_ms : Z).
  Abbreviation run := (session_run config fingerprint_key server changes_database_context is_select
                         apply_pagination rows_of timeout_ms).
  Abbreviation survive := (locks_survive config fingerprint_key server changes_database_context is_select
                             apply_pagination rows_of timeout_ms).

(** C18: Isolation of connections.  However calls, cancellations, failures and
    evictions interleave, the connection a call runs its statements on was
    opened for the same user and the same instance, with the host, port and
    user name of the call and a password of the same fingerprint.  In a run in
    which no clean-up drops a lock object that a call waits for in [acquire],
    no other call holds the connection, and it is not offered to anyone as an
    idle connection. *)
Theorem connection_isolated evs g t rq conn :
  run evs new_gateway = Some g → gw_tasks g !! t = Some (rq, AtStatements conn) →
  (∃ cn, cs_connections (gw_cache g) !! conn = Some cn
     ∧ cn_key cn = (rq_user_id rq, rq_instance_id rq)
     ∧ lg_host (cn_login cn) = lg_host (rq_login rq) ∧ lg_port (cn_login cn) = lg_port (rq_login rq)
     ∧ lg_user (cn_login cn) = lg_user (rq_login rq)
     ∧ password_fingerprint fingerprint_key (lg_password (cn_login cn))
       = password_fingerprint fingerprint_key (lg_password (rq_login rq)))
  ∧ (survive evs new_gateway = true →
     (∀ t' rq' p', gw_tasks g !! t' = Some (rq', p') → holds p' = Some conn → t' = t)
     ∧ ∀ k c, cs_cache (gw_cache g) !! k = Some c → cc_conn c ≠ conn).
Proof.
  intros Hr Ht. split.
  - assert (owned fingerprint_key (gw_cache g) (gw_tasks g)) as Ho
      by (eapply owned_run, Hr; apply owned_idle_gateway).
    exact (ow_tasks _ _ _ Ho _ _ _ Ht).
  - intros Hl. destruct (keyed_run _ _ _ _ _ _ _ _ evs g Hr Hl) as (a & _ & Hs & H).
    rewrite <- (sim_cache _ _ Hs). rewrite <- (sim_tasks _ _ Hs) in Ht |- *. split.
    + intros t' rq' p' Ht' Hh. exact (gi_unique _ _ H _ _ _ _ _ _ _ Ht' Ht Hh eq_refl).
    + intros k c Hk E. apply (gi_idle _ _ H k c Hk t rq _ Ht). by rewrite E.
Qed.
End isolation.

Abbreviation demo_survive := (locks_survive default_pool_config [1; 2; 3] demo_server (λ _, false) (λ _, true)
  (λ sql _ _, sql) demo_rows 30000).

(** A call, a clean-up while another one begins, and a third one waiting. *)
Definition demo_reuse : list Event :=
  demo_call 1 (Some "sales")
  ++ [ Begin 2 (demo_request (Some "sales")); CleanupOnce; LockKey 2; Begin 3 (demo_request (Some "sales"));
       CleanupOnce; Pinged 2 true ].

Lemma connection_isolated_witness :
  ∃ g rq conn, demo_run demo_reuse new_gateway = Some g
    ∧ gw_tasks g !! 2%nat = Some (rq, AtStatements conn)
    ∧ (∃ cn, cs_connections (gw_cache g) !! conn = Some cn ∧ cn_key cn = ("user-1", "instance-1"))
    ∧ ∀ k c, cs_cache (gw_cache g) !! k = Some c → cc_conn c ≠ conn.
Proof.
  destruct (demo_run demo_reuse new_gateway) as [g|] eqn:E; [|vm_compute in E; discriminate E].
  exists g, (demo_request (Some "sales")), 0%nat. split; [reflexivity|].
  assert (gw_tasks g !! 2%nat = Some (demo_request (Some "sales"), AtStatements 0)) as Ht
    by (vm_compute in E; injection E as <-; vm_compute; reflexivity).
  split; [exact Ht|].
  destruct (connection_isolated _ _ _ _ _ _ _ _ _ g 2 _ _ E Ht) as [(cn & H1 & H2 & _) Hrest].
  split; [exists cn; split; [exact H1|exact H2]|].
  apply Hrest. vm_compute. reflexivity.
Defined.

(** ** The session a call finds *)

Section sessions.
  Context (config : ConnectionPoolConfig) (fingerprint_key : list Z).
  Context (server : string → list string → MySQLSession → MySQLSession).
  Context (changes_database_context is_select : string → bool).
  Context (apply_pagination : string → Z → Z → string).
  Context {Row : Type} (rows_of : string → MySQLSession → list Row).
  Context (timeout_ms : Z).
  Abbreviation run := (session_run config fingerprint_key server changes_database_context is_select
                         apply_pagination rows_of timeout_ms).
  Abbreviation survive := (locks_survive config fingerprint_key server changes_database_context is_select
                             apply_pagination rows_of timeout_ms).

(** C19: A reused connection is as good as a fresh one, but for its execution
    time limit.  Whatever ran on a connection before (other calls with their
    branches, transactions, failures, time-outs and cancellations), a call
    starts in a session that has the database, the branch, the autocommit mode,
    the transaction state and the access mode of a fresh connection to its own
    database: that database selected, the default branch, autocommit on, no
    transaction open, not read-only; and so does every idle connection, for the
    database recorded with it.  The [max_execution_time] is not reset.  It holds
    for a server that treats the gateway's own statements as documented, for
    calls whose statements the gateway judges rightly (one not taken to touch
    the session leaves database and branch alone), as long as no cancelled
    [USE] reaches the server and no clean-up drops a lock a call waits for. *)
Theorem session_reuse_clean evs g t rq conn :
  ServerLaws server →
  Forall (event_ok server changes_database_context apply_pagination) evs →
  run evs new_gateway = Some g → survive evs new_gateway = true →
  (gw_tasks g !! t = Some (rq, AtStatements conn) → lg_database (rq_login rq) ≠ Some EmptyString →
   ∃ cn limit, cs_connections (gw_cache g) !! conn = Some cn
     ∧ cn_session cn = (fresh_session (lg_database (rq_login rq))) <| ms_max_execution_time := limit |>)
  ∧ ∀ k c, cs_cache (gw_cache g) !! k = Some c →
     ∃ cn limit, cs_connections (gw_cache g) !! cc_conn c = Some cn
       ∧ cn_session cn = (fresh_session (cc_database c)) <| ms_max_execution_time := limit |>.
Proof.
  intros laws Hok Hr Hl. destruct (keyed_run _ _ _ _ _ _ _ _ evs g Hr Hl) as (a & Ha & Hs & _).
  assert (all_clean server changes_database_context apply_pagination (gw_cache a) (gw_tasks a)) as H
    by (eapply clean_run; [exact laws|apply (inv_idle_gateway fingerprint_key)|apply clean_idle_gateway|exact Hok|exact Ha]).
  rewrite (sim_cache _ _ Hs), (sim_tasks _ _ Hs) in H.
  split; [|exact (ac_cached _ _ _ _ _ H)].
  intros Ht Hne. destruct (ac_tasks _ _ _ _ _ H _ _ _ Ht) as [_ (c & _ & <- & (cn & limit & Hcn & E) & Hd)].
  exists cn, limit. split; [exact Hcn|]. rewrite E. unfold clean_session. by rewrite (Hd Hne).
Qed.

(** ** What is left *)

(** Calls leave nothing behind.  When every call has ended and none of them
    was cancelled, no connection is leased any more, the capacity lock and the
    key locks are free, and every connection that is still open is the idle one
    of its key; whatever failed on the way (connects, pings, [USE] statements,
    statements, time-outs, resets) and however often the cache was cleaned up,
    as long as no clean-up drops a lock a call waits for. *)
Theorem calls_leave_nothing evs g :
  Forall (λ ev, is_cancelling ev = false) evs →
  run evs new_gateway = Some g → survive evs new_gateway = true →
  (∀ t rq p, gw_tasks g !! t = Some (rq, p) → ∃ r, p = AtEnd r) →
  cs_leased (gw_cache g) = ∅
  ∧ lo_held (gw_locks g) = ∅ ∧ gw_capacity_lock g = None
  ∧ ∀ id cn, cs_connections (gw_cache g) !! id = Some cn → cn_open cn = true →
      cs_cache (gw_cache g) !! cn_key cn ≠ None
      ∧ ∀ c, cs_cache (gw_cache g) !! cn_key cn = Some c → cc_conn c = id.
Proof.
  intros Hc Hr Hlive Hend. destruct (keyed_run _ _ _ _ _ _ _ _ evs g Hr Hlive) as (a & Ha & Hs & Hi).
  assert (quiet a) as H
    by (eapply quiet_run; [apply (inv_idle_gateway fingerprint_key)|apply quiet_idle_gateway|exact Hc|exact Ha]).
  destruct (sim_locks _ _ Hs) as [Hholder _ _ Hheld].
  rewrite <- (sim_cache _ _ Hs), <- (sim_capacity _ _ Hs). rewrite <- (sim_tasks _ _ Hs) in Hend.
  assert (cs_leased (gw_cache a) = ∅) as Hl.
  { apply map_empty. intros [k id]. apply eq_None_not_Some. intros Hk.
    destruct (q_lease _ H k id Hk) as (t & rq & p & Ht & Hp & _). by destruct (Hend t rq p Ht) as [r ->]. }
  split_and!; [done| | |].
  - apply map_empty. intros l. apply eq_None_not_Some. intros [t Hlt]. destruct (Hheld l t Hlt) as [k Hk].
    assert (gw_locks a !! k = Some (Some t)) as Hkt by (apply Hholder; by rewrite (holder_of _ _ _ Hk)).
    destruct (q_locks _ H k t Hkt) as (rq & p & Ht & Hp & _). by destruct (Hend t rq p Ht) as [r ->].
  - destruct (gw_capacity_lock a) as [t|] eqn:Hk; [|done].
    destruct (q_capacity _ H t Hk) as [rq Ht]. by destruct (Hend t rq _ Ht) as [r ?].
  - intros id cn Hcn Ho.
    destruct (q_open _ H id (ex_intro _ cn (conj Hcn Ho))) as [(k & c & Hk & <-)|[[k Hk]|(t & rq & p & Ht & c & r & -> & _)]].
    + destruct (gi_cached _ _ Hi k c Hk) as (cn' & Hcn' & Hkey & _). rewrite Hcn in Hcn'.
      injection Hcn' as <-. rewrite Hkey, Hk. split; [done|]. by intros c' [= <-].
    + rewrite Hl, lookup_empty in Hk. by destruct Hk.
    + by destruct (Hend t rq _ Ht) as [r' ?].
Qed.
End sessions.

(** ** Their witnesses *)

Lemma read_escaped db : read_identifier (escape_backticks db +:+ "`") = db.
Proof.
  induction db as [|a db IH]; [done|]. unfold escape_backticks in *. cbn [read_identifier].
  destruct (Ascii.eqb a "`") eqn:Ha.
  - apply Ascii.eqb_eq in Ha as ->. rewrite !app_cons. cbn [read_identifier]. rewrite !Ascii.eqb_refl.
    by rewrite IH.
  - rewrite app_cons. cbn [read_identifier]. by rewrite Ha, IH.
Qed.

Lemma demo_server_laws : ServerLaws demo_server.
Proof.
  split; try (intros; reflexivity); try (intros; split; reflexivity).
  { intros n s. eexists. reflexivity. }
  intros db s.
  change (demo_server (use_statement db) [] s)
    with (s <| ms_database := Some (read_identifier (escape_backticks db +:+ "`")) |>).
  by rewrite read_escaped.
Qed.

Definition demo_session : list Event :=
  demo_call 1 (Some "sales")
  ++ [ Begin 2 (demo_request (Some "stock")); LockKey 2; CleanupOnce; Pinged 2 true; Used 2 None ].

Lemma demo_harmless : call_ok demo_server (λ _, false) (λ sql _ _, sql) (Execute "SELECT 1" 10 0 None).
Proof. intros _ s. split; [reflexivity|intros; reflexivity]. Qed.

Lemma session_reuse_clean_witness :
  ∃ g rq conn, demo_run demo_session new_gateway = Some g
    ∧ gw_tasks g !! 2%nat = Some (rq, AtStatements conn)
    ∧ ∃ cn limit, cs_connections (gw_cache g) !! conn = Some cn
        ∧ cn_session cn = (fresh_session (Some "stock")) <| ms_max_execution_time := limit |>.
Proof.
  destruct (demo_run demo_session new_gateway) as [g|] eqn:E; [|vm_compute in E; discriminate E].
  exists g, (demo_request (Some "stock")), 0%nat. split; [reflexivity|].
  assert (gw_tasks g !! 2%nat = Some (demo_request (Some "stock"), AtStatements 0)) as Ht
    by (vm_compute in E; injection E as <-; vm_compute; reflexivity).
  split; [exact Ht|].
  assert (Forall (event_ok demo_server (λ _, false) (λ sql _ _, sql)) demo_session) as Hok
    by (repeat constructor; exact demo_harmless).
  destruct (session_reuse_clean _ _ _ _ _ _ _ _ demo_session g 2 (demo_request (Some "stock")) 0
    demo_server_laws Hok E eq_refl) as [H _].
  apply (H Ht). discriminate.
Defined.

(** A call, a second one that times out on a new connection, a third one. *)
Definition demo_calls : list Event :=
  demo_call 1 (Some "sales")
  ++ [ Begin 2 (demo_request (Some "sales")); LockKey 2; Pinged 2 false; LockCapacity 2; Connected 2 None;
       Answered 2 [ Executed; Executed; Failed (exc "TimeoutError" "") true ]; LockKey 2 ]
  ++ demo_call 3 None.

Definition ended (e : nat * (Request * Point)) : bool :=
  match e.2.2 with AtEnd _ => true | _ => false end.

Lemma demo_calls_checked :
  match demo_run demo_calls new_gateway with
  | Some g => forallb ended (map_to_list (gw_tasks g))
  | None => false
  end = true.
Proof. vm_compute. reflexivity. Qed.

Lemma demo_calls_ended g t rq p :
  demo_run demo_calls new_gateway = Some g → gw_tasks g !! t = Some (rq, p) → ∃ r, p = AtEnd r.
Proof.
  intros E Ht. pose proof demo_calls_checked as H. rewrite E in H. rewrite forallb_forall in H.
  apply elem_of_map_to_list, list_elem_of_In, H in Ht. destruct p; try discriminate Ht. by eexists.
Qed.

Lemma calls_leave_nothing_witness :
  ∃ g, demo_run demo_calls new_gateway = Some g
    ∧ cs_leased (gw_cache g) = ∅ ∧ gw_capacity_lock g = None.
Proof.
  destruct (demo_run demo_calls new_gateway) as [g|] eqn:E; [|vm_compute in E; discriminate E].
  exists g. split; [reflexivity|].
  assert (Forall (λ ev, is_cancelling ev = false) demo_calls) as Hc by (repeat constructor).
  destruct (calls_leave_nothing _ _ _ _ _ _ _ _ demo_calls g Hc E eq_refl (λ t rq p, demo_calls_ended g t rq p E))
    as (H1 & _ & H2 & _).
  split; [exact H1|exact H2].
Defined.

(** ** Where the guarantees end *)

(** A [USE] that is cancelled after the server executed it leaves an idle
    connection whose recorded database is not the selected one: the next call
    for the recorded database runs in the other. *)
Definition cancelled_use : list Event :=
  demo_call 1 (Some "sales")
  ++ [ Begin 2 (demo_request (Some "stock")); LockKey 2; Pinged 2 true; Cancelled 2 true;
       Begin 3 (demo_request (Some "sales")); LockKey 3; Pinged 3 true ].

Lemma cancelled_use_crosses_databases :
  match demo_run cancelled_use new_gateway with
  | Some g =>
      gw_tasks g !! 3%nat = Some (demo_request (Some "sales"), AtStatements 0)
      ∧ (cn_session <$> cs_connections (gw_cache g) !! 0%nat) = Some (clean_session (Some "stock") (Some 30000))
  | None => False
  end.
Proof. vm_compute. split; reflexivity. Qed.

(** [release] takes the lease away before it awaits the reset: meanwhile a
    connection for another key passes the capacity check, and the cache ends
    up with more than [max_total_pools] connections. *)
Definition other_request : Request :=
  mk_request "user-2" "instance-1" (demo_login None) (Execute "SELECT 1" 10 0 None).

Definition over_limit : list Event :=
  [ Begin 1 (demo_request None); LockKey 1; LockCapacity 1; Connected 1 None; Answered 1 []; LockKey 1;
    Begin 2 other_request; LockKey 2; LockCapacity 2; Connected 2 None; Reset 1 true ].

Lemma limit_exceeded :
  let config := mk_pool_config 5 1800 1 true 60 in
  match session_run config [1; 2; 3] demo_server (λ _, false) (λ _, true) (λ sql _ _, sql) demo_rows 30000
          over_limit new_gateway with
  | Some g => max_total_pools config < cache_size (gw_cache g)
  | None => False
  end.
Proof. vm_compute. reflexivity. Qed.

(** A call cancelled while it resets its branch never reaches [release]: its
    lease stays for good and counts against the limit. *)
Definition cancelled_branch_reset : list Event :=
  [ Begin 1 (mk_request "user-1" "instance-1" (demo_login None) (Execute "SELECT 1" 10 0 (Some "dev")));
    LockKey 1; LockCapacity 1; Connected 1 None;
    Answered 1 [ Executed; Executed; Executed; Executed; Failed CancelledError false ] ].

Lemma cancelled_reset_keeps_lease :
  match demo_run cancelled_branch_reset new_gateway with
  | Some g => (snd <$> gw_tasks g !! 1%nat) = Some (AtEnd (Raise CancelledError))
              ∧ size (cs_leased (gw_cache g)) = 1%nat
  | None => False
  end.
Proof. vm_compute. split; reflexivity. Qed.

(** [execute] sets a [max_execution_time] that nothing resets: a call of
    another kind finds it on a reused connection, but not on a fresh one. *)
Definition schema_request : Request :=
  mk_request "user-1" "instance-1" (demo_login None) (ExecuteParameterized "SELECT 2" []).

Definition limit_left : list Event :=
  demo_call 1 None ++ [ Begin 2 schema_request; LockKey 2; Pinged 2 true ].

Lemma execution_limit_stays :
  match demo_run limit_left new_gateway with
  | Some g =>
      gw_tasks g !! 2%nat = Some (schema_request, AtStatements 0)
      ∧ ((ms_max_execution_time ∘ cn_session) <$> cs_connections (gw_cache g) !! 0%nat) = Some (Some 30000)
  | None => False
  end.
Proof. vm_compute. split; reflexivity. Qed.

(** A clean-up between the release of a lock and the moment its waiters resume,
    the key without connections: calls 2, 3 and 4 go on under the dropped lock
    object, call 5 under a new one.  Call 2 leaves an idle connection, and
    calls 4 and 5 both examine and lease it. *)
Definition dropped_lock : list Event :=
  [ Begin 1 (demo_request None); LockKey 1; LockCapacity 1;
    Begin 2 (demo_request None); Begin 3 (demo_request None); Begin 4 (demo_request None);
    Connected 1 (Some (RuntimeError "connection refused")); CleanupOnce;
    LockKey 2; LockCapacity 2; Connected 2 None;
    LockKey 3; LockCapacity 3; Answered 2 []; LockKey 2; Reset 2 true; Connected 3 None;
    LockKey 4; Begin 5 (demo_request None); LockKey 5; Pinged 4 true; Pinged 5 true ].

Lemma dropped_lock_shares_connection :
  match demo_run dropped_lock new_gateway with
  | Some g =>
      gw_tasks g !! 4%nat = Some (demo_request None, AtStatements 0)
      ∧ gw_tasks g !! 5%nat = Some (demo_request None, AtStatements 0)
  | None => False
  end.
Proof. vm_compute. split; reflexivity. Qed.
