(* ===== verification/AccessControl.v ===== *)
(** * Who may do what on an instance ([server/core/access_control.py])

    The capabilities and the SQL permission a user or an Agent has on an
    instance, resolved from personal bindings, department bindings and the
    credential behind them. *)

From S2P Require Import Prelude Models AdapterInterface Ddl Contract.

(** ** Enums and tables ([server/models/binding.py], [server/models/user.py]) *)

Module UserStatus.
Inductive t : Set := | ACTIVE | DISABLED.

#[global] Instance t_eq_dec : EqDecision t.
Proof. solve_decision. Defined.
End UserStatus.

Module Permission.
Inductive t : Set := | READONLY | READWRITE.

#[global] Instance t_eq_dec : EqDecision t.
Proof. solve_decision. Defined.
End Permission.

Module BindingOrigin.
Inductive t : Set := | SYSTEM | ADMIN.

#[global] Instance t_eq_dec : EqDecision t.
Proof. solve_decision. Defined.
End BindingOrigin.

Module TenantProvisioningStep.
Inductive t : Set := | PENDING | RESOURCE_CONFIG | TENANT | USER | DATABASE | GRANT.
End TenantProvisioningStep.

Module BindingCapability.
Inductive t : Set := | DB_INSTANCE_LIST | DB_INSTANCE_DESCRIBE | DB_INSTANCE_CREDENTIALS_READ
  | SQL_READ | SQL_WRITE.

#[global] Instance t_eq_dec : EqDecision t.
Proof. solve_decision. Defined.

Definition index (c : t) : nat :=
  match c with
  | DB_INSTANCE_LIST => 0 | DB_INSTANCE_DESCRIBE => 1 | DB_INSTANCE_CREDENTIALS_READ => 2
  | SQL_READ => 3 | SQL_WRITE => 4
  end.
Definition members : list t :=
  [DB_INSTANCE_LIST; DB_INSTANCE_DESCRIBE; DB_INSTANCE_CREDENTIALS_READ; SQL_READ; SQL_WRITE].

#[global] Instance t_countable : Countable t.
Proof. refine (inj_countable index (λ n, members !! n) _). by intros []. Defined.
End BindingCapability.

Record UserDepartment : Type := mk_user_department {
  ud_id : string;
  ud_user_id : string;
  ud_department_id : string;
  ud_is_primary : bool
}.

Record UserInstanceBinding : Type := mk_user_binding {
  ub_id : string;
  ub_user_id : string;
  ub_instance_id : string;
  ub_credential_id : option string;
  ub_permission : Permission.t;
  ub_enabled : bool;
  ub_origin : BindingOrigin.t;
  ub_tenant_name : option string;
  ub_provisioning_step : option TenantProvisioningStep.t
}.

#[export] Instance UserInstanceBinding_eta : Eta UserInstanceBinding := λ x,
  mk_user_binding (ub_id x) (ub_user_id x) (ub_instance_id x) (ub_credential_id x) (ub_permission x)
    (ub_enabled x) (ub_origin x) (ub_tenant_name x) (ub_provisioning_step x).

Record DepartmentInstanceBinding : Type := mk_department_binding {
  db_id : string;
  db_department_id : string;
  db_instance_id : string;
  db_tenant_name : option string;
  db_default_permission : Permission.t
}.

Record AgentInstanceBinding : Type := mk_agent_binding {
  ag_id : string;
  ag_agent_id : string;
  ag_instance_id : string;
  ag_credential_id : string;
  ag_permission : Permission.t;
  ag_enabled : bool;
  ag_created_by_user_id : string
}.

#[export] Instance AgentInstanceBinding_eta : Eta AgentInstanceBinding := λ x,
  mk_agent_binding (ag_id x) (ag_agent_id x) (ag_instance_id x) (ag_credential_id x) (ag_permission
    x) (ag_enabled x) (ag_created_by_user_id x).

(** The tables the resolution reads; of a user only the status.  The two
    capability tables hold pairs of a binding and a capability. *)
Record AccessDB : Type := mk_access_db {
  ad_users : gmap string UserStatus.t;
  ad_agents : gmap string Agent;
  ad_instances : gmap string Instance;
  ad_credentials : gmap string InstanceCredential;
  ad_user_departments : gmap string UserDepartment;
  ad_user_bindings : gmap string UserInstanceBinding;
  ad_department_bindings : gmap string DepartmentInstanceBinding;
  ad_agent_bindings : gmap string AgentInstanceBinding;
  ad_user_capabilities : gset (string * BindingCapability.t);
  ad_agent_capabilities : gset (string * BindingCapability.t)
}.

(** ** Capabilities *)

Definition dependencies (c : BindingCapability.t) : list BindingCapability.t :=
  match c with
  | BindingCapability.DB_INSTANCE_CREDENTIALS_READ =>
      [BindingCapability.DB_INSTANCE_DESCRIBE; BindingCapability.DB_INSTANCE_LIST]
  | BindingCapability.DB_INSTANCE_DESCRIBE => [BindingCapability.DB_INSTANCE_LIST]
  | BindingCapability.SQL_WRITE => [BindingCapability.SQL_READ]
  | _ => []
  end.

(** The inner loop: each dependency not yet there is added and pushed. *)
Definition add_dependency (st : gset BindingCapability.t * list BindingCapability.t)
    (d : BindingCapability.t) : gset BindingCapability.t * list BindingCapability.t :=
  let '(expanded, pending) := st in
  if bool_decide (d ∈ expanded) then (expanded, pending) else ({[ d ]} ∪ expanded, d :: pending).

(** [while pending]: the last element of the list is the head here. *)
Fixpoint expand (fuel : nat) (expanded : gset BindingCapability.t)
    (pending : list BindingCapability.t) : gset BindingCapability.t :=
  match fuel, pending with
  | S fuel, capability :: pending =>
      let '(expanded, pending) :=
        fold_left add_dependency (dependencies capability) (expanded, pending) in
      expand fuel expanded pending
  | _, _ => expanded
  end.

(** Every capability is pushed once, so their number is enough fuel.  [order]
    is the order in which the set's elements are listed. *)
Definition validate_capability_set (order : gset BindingCapability.t → list BindingCapability.t)
    (provided : gset BindingCapability.t) : gset BindingCapability.t :=
  expand (length BindingCapability.members) provided (order provided).

Definition sql_capabilities_for_permission (permission : Permission.t) : gset BindingCapability.t :=
  if permission == Permission.READWRITE
  then {[ BindingCapability.SQL_READ; BindingCapability.SQL_WRITE ]}
  else {[ BindingCapability.SQL_READ ]}.

Definition effective_permission (requested : Permission.t) (capabilities : gset BindingCapability.t)
    (credential : option InstanceCredential) (credential_required : bool) : option Permission.t :=
  if bool_decide (BindingCapability.SQL_READ ∉ capabilities) then None
  else if credential_required && (credential == None) then None
  else
    let permission :=
      if (requested == Permission.READWRITE) && bool_decide (BindingCapability.SQL_WRITE ∈ capabilities)
      then Permission.READWRITE else Permission.READONLY in
    match credential with
    | Some c =>
        if c_capability c == CredentialCapability.READONLY then Some Permission.READONLY
        else if c_capability c != CredentialCapability.READWRITE then None
        else Some permission
    | None => Some permission
    end.

(** ** Resolution *)

Inductive AccessBinding : Type :=
  | PersonalBinding (b : UserInstanceBinding)
  | AgentBinding (b : AgentInstanceBinding).

Record EffectiveInstanceAccess : Type := mk_access {
  ea_instance : Instance;
  ea_binding : option AccessBinding;
  ea_capabilities : gset BindingCapability.t;
  ea_permission : option Permission.t;
  ea_access_type : string
}.

Definition MultipleResultsFound : PyExc :=
  exc "MultipleResultsFound" "Multiple rows were found when one or none was required".

(** [scalar_one_or_none] *)
Definition scalar_one_or_none {A : Type} (rows : list A) : outcome (option A) :=
  match rows with
  | [] => Ret None
  | [x] => Ret (Some x)
  | _ => Raise MultipleResultsFound
  end.

Definition department_rows (user_id instance_id : string) (db : AccessDB) : list DepartmentInstanceBinding :=
  b ← (map_to_list (ad_department_bindings db)).*2;
  m ← (map_to_list (ad_user_departments db)).*2;
  if (ud_department_id m == db_department_id b) && (ud_user_id m == user_id)
     && (db_instance_id b == instance_id)
  then [b] else [].

Definition department_access (user_id instance_id : string) (db : AccessDB)
    : list DepartmentInstanceBinding * option Permission.t :=
  match department_rows user_id instance_id db with
  | [] => ([], None)
  | inherited =>
      (inherited,
       Some (if existsb (λ b, db_default_permission b == Permission.READONLY) inherited
             then Permission.READONLY else Permission.READWRITE))
  end.

Section resolution.
  Context (order : gset BindingCapability.t → list BindingCapability.t).

Definition capabilities_of (binding_id : string) (rows : gset (string * BindingCapability.t))
    : gset BindingCapability.t :=
  set_map snd (filter (λ e, e.1 = binding_id) rows).

Definition personal_bindings (user_id instance_id : string) (db : AccessDB) : list UserInstanceBinding :=
  filter (λ b, ub_instance_id b = instance_id ∧ ub_user_id b = user_id) (map_to_list (ad_user_bindings db)).*2.

(** Without a personal binding: what the departments grant. *)
Definition inherited_access (inherited : list DepartmentInstanceBinding)
    (inherited_permission : option Permission.t) (db : AccessDB) : option EffectiveInstanceAccess :=
  match inherited, inherited_permission with
  | b :: _, Some permission =>
      match ad_instances db !! db_instance_id b with
      | None => None
      | Some instance =>
          Some (mk_access instance None
                  (validate_capability_set order (sql_capabilities_for_permission permission))
                  (Some permission) "department")
      end
  | _, _ => None
  end.

(** With a personal binding: the permission it may ask for and the kind of
    access; a system binding on somebody else's instance asks for no more than
    the departments grant. *)
Definition requested_access (user_id : string) (personal : UserInstanceBinding) (instance : Instance)
    (inherited_permission : option Permission.t) : option (Permission.t * string) :=
  if (ub_origin personal == BindingOrigin.SYSTEM) && (i_owner_user_id instance != Some user_id) then
    match inherited_permission with
    | None => None
    | Some p =>
        Some (if (ub_permission personal == Permission.READONLY) || (p == Permission.READONLY)
              then Permission.READONLY else ub_permission personal, "department")
    end
  else Some (ub_permission personal, "personal").

Definition personal_access (user_id instance_id : string) (personal : UserInstanceBinding)
    (instance : Instance) (inherited_permission : option Permission.t) (db : AccessDB)
    : option EffectiveInstanceAccess :=
  match requested_access user_id personal instance inherited_permission with
  | None => None
  | Some (requested_permission, access_type) =>
      let stored :=
        if ub_origin personal == BindingOrigin.SYSTEM
        then sql_capabilities_for_permission requested_permission
        else capabilities_of (ub_id personal) (ad_user_capabilities db) in
      let capabilities := validate_capability_set order stored in
      let credential_required :=
        (ub_origin personal == BindingOrigin.ADMIN) || (ub_credential_id personal != None) in
      let credential := i ← ub_credential_id personal; ad_credentials db !! i in
      let credential :=
        if credential_required && negb (is_valid_direct_access_credential credential instance_id false)
        then None else credential in
      Some (mk_access instance (Some (PersonalBinding personal)) capabilities
              (effective_permission requested_permission capabilities credential credential_required)
              access_type)
  end.

Definition resolve_user_instance_access (user_id instance_id : string) (db : AccessDB)
    : outcome (option EffectiveInstanceAccess) :=
  if ad_users db !! user_id != Some UserStatus.ACTIVE then Ret None
  else
    personal ← scalar_one_or_none (personal_bindings user_id instance_id db);
    match personal with
    | Some b =>
        match ub_enabled b, ad_instances db !! ub_instance_id b with
        | true, Some instance =>
            let '(_, inherited_permission) := department_access user_id instance_id db in
            Ret (personal_access user_id instance_id b instance inherited_permission db)
        | _, _ => Ret None
        end
    | None =>
        let '(inherited, inherited_permission) := department_access user_id instance_id db in
        Ret (inherited_access inherited inherited_permission db)
    end.

Definition agent_bindings_of (agent_id instance_id : string) (db : AccessDB) : list AgentInstanceBinding :=
  filter (λ b, ag_agent_id b = agent_id ∧ ag_instance_id b = instance_id) (map_to_list (ad_agent_bindings db)).*2.

Definition resolve_agent_instance_access (agent_id instance_id : string) (db : AccessDB)
    : outcome (option EffectiveInstanceAccess) :=
  binding ← scalar_one_or_none (agent_bindings_of agent_id instance_id db);
  match binding with
  | None => Ret None
  | Some b =>
      match ag_enabled b, ad_instances db !! ag_instance_id b, ad_agents db !! ag_agent_id b with
      | true, Some instance, Some agent =>
          if a_status agent != AgentStatus.ACTIVE then Ret None
          else
            let capabilities :=
              validate_capability_set order (capabilities_of (ag_id b) (ad_agent_capabilities db)) in
            let credential := ad_credentials db !! ag_credential_id b in
            let credential :=
              if is_valid_direct_access_credential credential instance_id false then credential else None in
            Ret (Some (mk_access instance (Some (AgentBinding b)) capabilities
                         (effective_permission (ag_permission b) capabilities credential true) "agent"))
      | true, Some _, None =>
          Raise (exc "AttributeError" "'NoneType' object has no attribute 'status'")
      | _, _, _ => Ret None
      end
  end.
End resolution.
