(* ===== verification/AccessTheorems.v ===== *)
(** * Access to an instance: the capability closure and the access policy

    [validate_capability_set] computes the least set closed under the
    dependencies, and the resolution of a user's or an Agent's access grants
    exactly what the policy below allows. *)

From S2P Require Import Prelude Models AdapterInterface Ddl Contract AccessControl.

(** ** The closure *)

Definition closed (T : gset BindingCapability.t) : Prop :=
  ∀ c d, c ∈ T → d ∈ dependencies c → d ∈ T.

Lemma member_index c : c ∈ BindingCapability.members.
Proof. destruct c; set_solver. Qed.

Lemma capabilities_size (T : gset BindingCapability.t) : (size T ≤ length BindingCapability.members)%nat.
Proof.
  change (length _) with (size (list_to_set BindingCapability.members : gset BindingCapability.t)).
  apply subseteq_size. intros c _. apply elem_of_list_to_set, member_index.
Qed.

(** How many pops are left. *)
Definition pops_left (T : gset BindingCapability.t) (pending : list BindingCapability.t) : nat :=
  (length pending + (length BindingCapability.members - size T))%nat.

Lemma add_dependencies ds expanded pending expanded' pending' :
  fold_left add_dependency ds (expanded, pending) = (expanded', pending') →
  (∀ c, c ∈ expanded' ↔ c ∈ expanded ∨ c ∈ ds)
  ∧ (∀ c, c ∈ pending' ↔ c ∈ pending ∨ (c ∈ ds ∧ c ∉ expanded))
  ∧ pops_left expanded' pending' = pops_left expanded pending.
Proof.
  revert expanded pending. induction ds as [|d ds IH]; simpl; intros expanded pending H.
  { simplify_eq. set_solver. }
  case_bool_decide as Hd; destruct (IH _ _ H) as (He & Hp & Hn).
  - split_and!; [set_solver|set_solver|done].
  - split_and!; [set_solver| |].
    + intros c. rewrite Hp. destruct (decide (c = d)); set_solver.
    + rewrite Hn. unfold pops_left. pose proof (capabilities_size ({[d]} ∪ expanded)) as Hs.
      rewrite size_union, size_singleton in * by set_solver. simpl in *. lia.
Qed.

Lemma expand_closes fuel expanded pending :
  (pops_left expanded pending ≤ fuel)%nat →
  (∀ c d, c ∈ expanded → d ∈ dependencies c → d ∈ expanded ∨ c ∈ pending) →
  expanded ⊆ expand fuel expanded pending ∧ closed (expand fuel expanded pending).
Proof.
  revert expanded pending. induction fuel as [|fuel IH]; intros expanded pending Hf Hc.
  { destruct pending; [|unfold pops_left in Hf; simpl in Hf; lia].
    split; [done|]. intros c d Hin Hd. destruct (Hc c d Hin Hd); set_solver. }
  destruct pending as [|c pending].
  { split; [done|]. intros c d Hin Hd. destruct (Hc c d Hin Hd); set_solver. }
  simpl. destruct (fold_left _ _ _) as [expanded' pending'] eqn:Hfold.
  destruct (add_dependencies _ _ _ _ _ Hfold) as (He & Hp & Hn).
  destruct (IH expanded' pending') as [Hsub Hcl].
  - rewrite Hn. unfold pops_left in *. simpl in *. lia.
  - intros x d Hx Hd. destruct (decide (x = c)) as [->|Hxc]; [left; set_solver|].
    apply He in Hx as [Hx|Hx].
    + destruct (Hc x d Hx Hd) as [?|Hpx]; [set_solver|].
      right. apply Hp. left. set_solver.
    + destruct (decide (x ∈ expanded)) as [Hx'|Hx']; [|right; apply Hp; set_solver].
      destruct (Hc x d Hx' Hd) as [?|Hpx]; [set_solver|]. right. apply Hp. left. set_solver.
  - split; [|done]. intros x Hx. apply Hsub, He. by left.
Qed.

Lemma expand_least fuel expanded pending T :
  expanded ⊆ T → (∀ c, c ∈ pending → c ∈ T) → closed T → expand fuel expanded pending ⊆ T.
Proof.
  revert expanded pending. induction fuel as [|fuel IH]; intros expanded pending He Hp HT; [done|].
  destruct pending as [|c pending]; [done|].
  simpl. destruct (fold_left _ _ _) as [expanded' pending'] eqn:Hfold.
  destruct (add_dependencies _ _ _ _ _ Hfold) as (He' & Hp' & _).
  assert (c ∈ T) as Hc by set_solver.
  apply IH; [| |done].
  - intros x [Hx|Hx]%He'; [set_solver|eauto].
  - intros x [Hx|[Hx _]]%Hp'; [set_solver|eauto].
Qed.

Section closure.
  Context (order : gset BindingCapability.t → list BindingCapability.t).
  Context (Horder : ∀ T, order T ≡ₚ elements T).

Lemma order_elem T c : c ∈ order T ↔ c ∈ T.
Proof using Horder. by rewrite Horder, elem_of_elements. Qed.

Lemma validate_closes provided :
  provided ⊆ validate_capability_set order provided ∧ closed (validate_capability_set order provided).
Proof using Horder.
  apply expand_closes.
  - unfold pops_left. rewrite (Permutation_length (Horder provided)).
    change (length (elements provided)) with (size provided).
    pose proof (capabilities_size provided). lia.
  - intros c d Hc _. right. by apply order_elem.
Qed.

Lemma validate_least provided T :
  provided ⊆ T → closed T → validate_capability_set order provided ⊆ T.
Proof using Horder. intros Hp HT. apply expand_least; [done| |done]. intros c ?%order_elem. eauto. Qed.

Lemma validate_fixed T : closed T → validate_capability_set order T = T.
Proof using Horder.
  intros HT. apply set_eq. intros c. split; [by apply validate_least|]. apply validate_closes.
Qed.

(** Capabilities closed under their dependencies: whatever the order in
    which the interpreter lists the set, the loop's pops are enough and
    [validate_capability_set] returns the least set of capabilities that
    contains the given ones and, with a capability, everything it depends on;
    applying it again changes nothing. *)
Theorem capability_closure provided (result := validate_capability_set order provided) :
  provided ⊆ result ∧ closed result
  ∧ (∀ T, provided ⊆ T → closed T → result ⊆ T)
  ∧ validate_capability_set order result = result.
Proof using Horder.
  destruct (validate_closes provided) as [Hsub Hcl].
  split_and!; [done|done| |by apply validate_fixed]. intros T. apply validate_least.
Qed.

(** What the closure adds to the SQL capabilities. *)
Lemma validate_write T : BindingCapability.SQL_WRITE ∈ validate_capability_set order T ↔ BindingCapability.SQL_WRITE ∈ T.
Proof using Horder.
  split; [|apply validate_closes]. intros H. apply dec_stable. intros Hn.
  assert (validate_capability_set order T ⊆ list_to_set (filter (.≠ BindingCapability.SQL_WRITE) BindingCapability.members)) as Hs; [|by set_solver].
  apply validate_least.
  - intros c Hc. apply elem_of_list_to_set, list_elem_of_filter. split; [set_solver|apply member_index].
  - intros c d _ Hd. apply elem_of_list_to_set, list_elem_of_filter. split; [|apply member_index].
    intros ->. destruct c; set_solver.
Qed.

Lemma validate_read T :
  BindingCapability.SQL_READ ∈ validate_capability_set order T
  ↔ BindingCapability.SQL_READ ∈ T ∨ BindingCapability.SQL_WRITE ∈ T.
Proof using Horder.
  destruct (validate_closes T) as [Hsub Hcl]. split.
  - intros H. apply dec_stable. intros Hn.
    set (others := filter (λ c, c ≠ BindingCapability.SQL_WRITE ∧ c ≠ BindingCapability.SQL_READ) BindingCapability.members).
    assert (validate_capability_set order T ⊆ list_to_set others) as Hs.
    + apply validate_least.
      * intros c Hc. apply elem_of_list_to_set, list_elem_of_filter. split; [|apply member_index].
        split; intros ->; tauto.
      * intros c d Hc Hd. apply elem_of_list_to_set, list_elem_of_filter in Hc as [[Hc _] _].
        apply elem_of_list_to_set, list_elem_of_filter. split; [|apply member_index].
        destruct c; set_solver.
    + apply Hs, elem_of_list_to_set, list_elem_of_filter in H as [[_ H] _]. done.
  - intros [H|H]; [by apply Hsub|]. apply (Hcl BindingCapability.SQL_WRITE); [by apply Hsub|]. set_solver.
Qed.
End closure.

(** ** The policy

    What access the tables stand for: [p] may be used by the user (by the
    Agent) on the instance. *)

Definition covers (q p : Permission.t) : Prop := p = Permission.READWRITE → q = Permission.READWRITE.

(** Every department of the user that is bound to the instance grants [p],
    and there is one. *)
Definition departments_allow (p : Permission.t) (user_id instance_id : string) (db : AccessDB) : Prop :=
  department_rows user_id instance_id db ≠ []
  ∧ Forall (λ b, covers (db_default_permission b) p) (department_rows user_id instance_id db).

(** The capability [p] needs, directly or through a dependency. *)
Definition stored_allows (p : Permission.t) (stored : gset BindingCapability.t) : Prop :=
  match p with
  | Permission.READONLY => BindingCapability.SQL_READ ∈ stored ∨ BindingCapability.SQL_WRITE ∈ stored
  | Permission.READWRITE => BindingCapability.SQL_WRITE ∈ stored
  end.

Definition credential_allows (p : Permission.t) (credential : option InstanceCredential)
    (instance_id : string) : Prop :=
  ∃ c, credential = Some c
       ∧ is_valid_direct_access_credential (Some c) instance_id false = true
       ∧ (p = Permission.READWRITE → c_capability c = CredentialCapability.READWRITE).

Definition personal_allows (p : Permission.t) (user_id instance_id : string)
    (b : UserInstanceBinding) (instance : Instance) (db : AccessDB) : Prop :=
  ub_enabled b = true
  ∧ covers (ub_permission b) p
  ∧ (ub_origin b = BindingOrigin.ADMIN →
       stored_allows p (capabilities_of (ub_id b) (ad_user_capabilities db)))
  ∧ (ub_origin b = BindingOrigin.SYSTEM → i_owner_user_id instance ≠ Some user_id →
       departments_allow p user_id instance_id db)
  ∧ (ub_origin b = BindingOrigin.ADMIN ∨ ub_credential_id b ≠ None →
       credential_allows p (i ← ub_credential_id b; ad_credentials db !! i) instance_id).

Definition user_allowed (p : Permission.t) (user_id instance_id : string) (db : AccessDB) : Prop :=
  ad_users db !! user_id = Some UserStatus.ACTIVE
  ∧ ∃ instance, ad_instances db !! instance_id = Some instance
    ∧ ((personal_bindings user_id instance_id db = [] ∧ departments_allow p user_id instance_id db)
       ∨ (∃ b, personal_bindings user_id instance_id db = [b]
               ∧ personal_allows p user_id instance_id b instance db)).

Definition agent_allowed (p : Permission.t) (agent_id instance_id : string) (db : AccessDB) : Prop :=
  ∃ b agent instance,
    agent_bindings_of agent_id instance_id db = [b]
    ∧ ad_agents db !! agent_id = Some agent ∧ a_status agent = AgentStatus.ACTIVE
    ∧ ad_instances db !! instance_id = Some instance
    ∧ ag_enabled b = true ∧ covers (ag_permission b) p
    ∧ stored_allows p (capabilities_of (ag_id b) (ad_agent_capabilities db))
    ∧ credential_allows p (ad_credentials db !! ag_credential_id b) instance_id.

(** An answer that gives at least [p] on the instance. *)
Definition grants (p : Permission.t) (instance_id : string) (db : AccessDB)
    (answer : outcome (option EffectiveInstanceAccess)) : Prop :=
  ∃ a q, answer = Ret (Some a) ∧ ea_permission a = Some q ∧ covers q p
         ∧ ad_instances db !! instance_id = Some (ea_instance a).

(** ** The parts of the resolution meet the parts of the policy *)

Lemma effective_covers requested T credential required p :
  (∃ q, effective_permission requested T credential required = Some q ∧ covers q p)
  ↔ BindingCapability.SQL_READ ∈ T
    ∧ covers requested p ∧ (p = Permission.READWRITE → BindingCapability.SQL_WRITE ∈ T)
    ∧ (required = true → credential ≠ None)
    ∧ (∀ c, credential = Some c →
         c_capability c = CredentialCapability.READWRITE
         ∨ c_capability c = CredentialCapability.READONLY ∧ p = Permission.READONLY).
Proof.
  unfold effective_permission, covers.
  destruct (decide (BindingCapability.SQL_READ ∈ T)) as [Hr|Hr];
    [rewrite bool_decide_eq_false_2 by tauto|rewrite bool_decide_eq_true_2 by done; naive_solver].
  assert (bool_decide (BindingCapability.SQL_WRITE ∈ T) = true ↔ BindingCapability.SQL_WRITE ∈ T) as Hw
    by apply bool_decide_eq_true.
  destruct (bool_decide _) eqn:Hb in Hw |- *; destruct credential as [c|].
  1, 3: destruct (c_capability c) eqn:Hc.
  all: destruct required, requested, p; simpl; rewrite ?Hc; simpl;
    (split; [intros (q & Hq & Hcov)|intros (_ & Hreq & Hwr & Hsome & Hcap)]);
    try (specialize (Hcap _ eq_refl)); try (specialize (Hreq eq_refl));
    try (specialize (Hwr eq_refl)); try (specialize (Hsome eq_refl)).
  all: try (injection Hq as <-); try (specialize (Hcov eq_refl)); try congruence.
  all: try (split_and!; [done|done|intros; first [congruence|tauto]|done|intros ? [= <-]; intuition congruence]).
  all: try (destruct Hcap as [?|[??]]; congruence).
  all: try (eexists; split; [done|]; intros ?; intuition congruence).
Qed.

Lemma valid_credential_capability c instance_id :
  is_valid_direct_access_credential (Some c) instance_id false = true →
  c_capability c = CredentialCapability.READONLY ∨ c_capability c = CredentialCapability.READWRITE.
Proof.
  unfold is_valid_direct_access_credential. rewrite !andb_true_iff.
  intros [[[[_ H] _] _] _]. apply orb_true_iff in H as [H|H]; apply bool_decide_eq_true in H; tauto.
Qed.

(** The credential the permission is computed from, after the screening. *)
Lemma screened_allows credential instance_id p :
  let screened := if is_valid_direct_access_credential credential instance_id false then credential else None in
  (screened ≠ None
   ∧ ∀ c, screened = Some c →
       c_capability c = CredentialCapability.READWRITE
       ∨ c_capability c = CredentialCapability.READONLY ∧ p = Permission.READONLY)
  ↔ credential_allows p credential instance_id.
Proof.
  cbv zeta. unfold credential_allows.
  destruct credential as [c|]; [|simpl; naive_solver].
  destruct (is_valid_direct_access_credential _ _ _) eqn:Hv;
    [|split; [by intros [? _]|intros (? & [= <-] & ? & _); congruence]].
  pose proof (valid_credential_capability _ _ Hv) as Hc. split.
  - intros [_ H]. exists c. split_and!; [done|done|]. destruct (H c eq_refl) as [?|[? ->]]; congruence.
  - intros (? & [= <-] & _ & H). split; [done|]. intros ? [= <-]. destruct p; naive_solver.
Qed.

Lemma department_permission user_id instance_id db p :
  (∃ q, (department_access user_id instance_id db).2 = Some q ∧ covers q p)
  ↔ departments_allow p user_id instance_id db.
Proof.
  unfold department_access, departments_allow.
  destruct (department_rows _ _ _) as [|b rows]; [naive_solver|].
  destruct (existsb _ _) eqn:He; simpl; split.
  - intros (q & [= <-] & Hq). split; [done|]. apply Forall_forall. intros x _ Hp. by apply Hq in Hp.
  - intros [_ H]. exists Permission.READONLY. split; [done|]. intros ->.
    apply existsb_exists in He as (x & Hx%list_elem_of_In & Hro%bool_decide_eq_true).
    rewrite Forall_forall in H. specialize (H x Hx eq_refl). congruence.
  - intros _. split; [done|]. apply Forall_forall. intros x Hx _.
    destruct (db_default_permission x) eqn:Hd; [|done].
    rewrite (proj2 (existsb_exists _ _)) in He; [done|].
    exists x. split; [by apply list_elem_of_In|]. by rewrite Hd.
  - intros _. exists Permission.READWRITE. split; [done|]. by intros _.
Qed.

Lemma department_rows_instance user_id instance_id db b :
  b ∈ department_rows user_id instance_id db → db_instance_id b = instance_id.
Proof.
  unfold department_rows. intros (b' & H & _)%list_elem_of_bind.
  apply list_elem_of_bind in H as (m & H & _). revert H.
  repeat case_bool_decide; simpl; set_solver.
Qed.

Section policy.
  Context (order : gset BindingCapability.t → list BindingCapability.t).
  Context (Horder : ∀ T, order T ≡ₚ elements T).

Lemma stored_validated T p :
  (BindingCapability.SQL_READ ∈ validate_capability_set order T
   ∧ (p = Permission.READWRITE → BindingCapability.SQL_WRITE ∈ validate_capability_set order T))
  ↔ stored_allows p T.
Proof using Horder.
  rewrite validate_read, validate_write by done. destruct p; simpl; intuition congruence.
Qed.

Lemma sql_capabilities_allow q p : stored_allows p (sql_capabilities_for_permission q) ↔ covers q p.
Proof.
  assert (∀ c, c ∈ sql_capabilities_for_permission q ↔
    c = BindingCapability.SQL_READ ∨ (q = Permission.READWRITE ∧ c = BindingCapability.SQL_WRITE)) as H.
  { intros c. unfold sql_capabilities_for_permission. case_bool_decide;
      rewrite ?elem_of_union, !elem_of_singleton; intuition congruence. }
  unfold covers, stored_allows. destruct p; rewrite !H; intuition congruence.
Qed.

Lemma requested_covers user_id instance_id b instance db p :
  (∃ q t, requested_access user_id b instance (department_access user_id instance_id db).2 = Some (q, t)
          ∧ covers q p)
  ↔ covers (ub_permission b) p
    ∧ (ub_origin b = BindingOrigin.SYSTEM → i_owner_user_id instance ≠ Some user_id →
         departments_allow p user_id instance_id db).
Proof.
  rewrite <-department_permission. unfold requested_access.
  destruct (ub_origin b); simpl;
    [destruct (decide (i_owner_user_id instance = Some user_id)) as [Ho|Ho];
      [rewrite bool_decide_eq_true_2 by done|rewrite bool_decide_eq_false_2 by done]|]; simpl.
  1, 3: split; [intros (q & t & [= <- <-] & H); done|intros [H _]; eauto].
  destruct (department_access _ _ _).2 as [d|].
  2: { split; [by intros (? & ? & [=] & _)|intros [_ H]; by destruct (H eq_refl Ho) as (? & ? & _)]. }
  unfold covers. split.
  - intros (q & t & [= <- <-] & H).
    split; [|intros _ _; exists d; split; [done|]]; intros Hp; specialize (H Hp); revert H;
      destruct (ub_permission b), d; by intros.
  - intros [Hb H]. destruct (H eq_refl Ho) as (d' & [= <-] & Hd).
    do 2 eexists. split; [done|]. intros Hp. by rewrite Hb, Hd.
Qed.

(** The answer with a personal binding. *)
Lemma personal_covers user_id instance_id b instance db p :
  (∃ a q, personal_access order user_id instance_id b instance
            (department_access user_id instance_id db).2 db = Some a
          ∧ ea_permission a = Some q ∧ covers q p ∧ ea_instance a = instance)
  ↔ covers (ub_permission b) p
    ∧ (ub_origin b = BindingOrigin.ADMIN →
         stored_allows p (capabilities_of (ub_id b) (ad_user_capabilities db)))
    ∧ (ub_origin b = BindingOrigin.SYSTEM → i_owner_user_id instance ≠ Some user_id →
         departments_allow p user_id instance_id db)
    ∧ (ub_origin b = BindingOrigin.ADMIN ∨ ub_credential_id b ≠ None →
         credential_allows p (i ← ub_credential_id b; ad_credentials db !! i) instance_id).
Proof using Horder.
  pose proof (requested_covers user_id instance_id b instance db p) as Hreq.
  unfold personal_access.
  destruct (requested_access _ _ _ _) as [[r t]|] eqn:Hr.
  2: { split; [by intros (? & ? & [=] & _)|]. intros (H1 & _ & H2 & _).
       by destruct (proj2 Hreq (conj H1 H2)) as (? & ? & [=] & _). }
  set (stored := if ub_origin b == _ then _ else _).
  assert (covers r p → (stored_allows p stored ↔ (ub_origin b = BindingOrigin.ADMIN →
    stored_allows p (capabilities_of (ub_id b) (ad_user_capabilities db))))) as Hst.
  { intros Hcov. unfold stored. destruct (ub_origin b); simpl; [|tauto].
    rewrite sql_capabilities_allow. split; [done|by intros _]. }
  set (raw := i ← ub_credential_id b; ad_credentials db !! i).
  set (required := (_ || _)%bool).
  assert (required = true ↔ ub_origin b = BindingOrigin.ADMIN ∨ ub_credential_id b ≠ None) as Hrequired.
  { unfold required. by rewrite orb_true_iff, negb_true_iff, bool_decide_eq_true, bool_decide_eq_false. }
  rewrite <-Hrequired.
  assert (((required = true → credential_allows p raw instance_id)) ↔
    ((required = true → (if required && negb (is_valid_direct_access_credential raw instance_id false)
                         then None else raw) ≠ None)
     ∧ ∀ c, (if required && negb (is_valid_direct_access_credential raw instance_id false)
             then None else raw) = Some c →
       c_capability c = CredentialCapability.READWRITE
       ∨ c_capability c = CredentialCapability.READONLY ∧ p = Permission.READONLY)) as Hcred.
  { rewrite <-(screened_allows raw instance_id p). destruct required eqn:Hq; simpl.
    - destruct (is_valid_direct_access_credential _ _ _); simpl; tauto.
    - assert (raw = None) as ->; [|by split].
      unfold raw. destruct (ub_credential_id b) as [i|]; [|done].
      discriminate (proj2 Hrequired). right. done. }
  pose proof (effective_covers r (validate_capability_set order stored)
    (if required && negb (is_valid_direct_access_credential raw instance_id false) then None else raw)
    required p) as Heff.
  pose proof (stored_validated stored p) as Hval.
  split.
  - intros (a & q & [= <-] & Hq & Hcov & _).
    destruct (proj1 Heff (ex_intro _ q (conj Hq Hcov))) as (H1 & H2 & H3 & H4 & H5).
    destruct (proj1 Hreq (ex_intro _ r (ex_intro _ t (conj eq_refl H2)))) as [H6 H7].
    split_and!; [done| |done|by apply Hcred]. apply (Hst H2), Hval. done.
  - intros (H1 & H2 & H3 & H4).
    destruct (proj2 Hreq (conj H1 H3)) as (? & ? & [= <- <-] & Hcov).
    apply Hcred in H4 as [H4 H5]. apply (Hst Hcov), Hval in H2 as [H2 H6].
    destruct (proj2 Heff (conj H2 (conj Hcov (conj H6 (conj H4 H5))))) as (q & Hq & Hqp).
    by eexists _, q.
Qed.

Lemma user_access_sound user_id instance_id db p :
  grants p instance_id db (resolve_user_instance_access order user_id instance_id db) →
  user_allowed p user_id instance_id db.
Proof using Horder.
  intros (a & q & H & Hq & Hcov & Hi). unfold resolve_user_instance_access in H.
  destruct (decide (ad_users db !! user_id = Some UserStatus.ACTIVE)) as [Hu|Hu];
    [rewrite (bool_decide_eq_true_2 _ Hu) in H|by rewrite (bool_decide_eq_false_2 _ Hu) in H].
  split; [done|]. exists (ea_instance a). split; [done|]. simpl in H.
  destruct (personal_bindings user_id instance_id db) as [|b [|]] eqn:Hb; simpl in H; [| |discriminate].
  - left. split; [done|]. destruct (department_access user_id instance_id db) as [rows d] eqn:Hd.
    apply department_permission. rewrite Hd. exists q. split; [|done]. injection H as H.
    unfold inherited_access in H. repeat case_match; simplify_eq; done.
  - right. exists b. split; [done|].
    destruct (ub_enabled b) eqn:He; [|discriminate].
    destruct (ad_instances db !! ub_instance_id b) as [instance|] eqn:Hib; [|discriminate].
    pose proof (personal_covers user_id instance_id b instance db p) as Hpc.
    destruct (department_access user_id instance_id db) as [rows d] eqn:Hd. injection H as H.
    assert (b ∈ personal_bindings user_id instance_id db) as Hin by (rewrite Hb; set_solver).
    apply list_elem_of_filter in Hin as [[Hbi _] _].
    assert (ea_instance a = instance) as Hai by congruence.
    rewrite Hai. split; [done|]. apply Hpc. by exists a, q.
Qed.

Lemma user_access_complete user_id instance_id db p :
  user_allowed p user_id instance_id db →
  grants p instance_id db (resolve_user_instance_access order user_id instance_id db).
Proof using Horder.
  intros (Hu & instance & Hi & H). unfold grants, resolve_user_instance_access.
  rewrite (bool_decide_eq_true_2 _ Hu). simpl.
  destruct H as [[Hb Hd]|(b & Hb & He & H)]; rewrite Hb; simpl.
  - apply department_permission in Hd as (q & Hq & Hcov).
    pose proof (department_rows_instance user_id instance_id db) as Hrows.
    unfold department_access in *. destruct (department_rows _ _ _) as [|b rows]; [done|].
    simpl in Hq. injection Hq as <-. simpl. rewrite (Hrows b), Hi by set_solver.
    by eexists _, _.
  - apply (personal_covers user_id instance_id b instance db p) in H as (a & q & Ha & Hq & Hcov & Hai).
    assert (b ∈ personal_bindings user_id instance_id db) as Hin by (rewrite Hb; set_solver).
    apply list_elem_of_filter in Hin as [[Hbi _] _].
    rewrite He, Hbi, Hi. destruct (department_access _ _ _) as [rows d]. cbn [snd] in Ha. rewrite Ha.
    exists a, q. split_and!; [done|done|done|by rewrite Hai].
Qed.

(** C36: Access of a user: the resolution gives the user a permission that
    covers [p] on the instance exactly when the tables allow it.  The user is
    active and the instance exists; without a personal binding, the user has a
    department bound to the instance and every such department grants [p];
    with one, the binding is enabled and grants [p], an administrator's
    binding also carries the capability (or one that depends on it), a system
    binding on somebody else's instance is also backed by the departments, and
    where a credential is needed it is a valid direct-access credential of the
    instance that reaches [p]. *)
Theorem user_access_policy user_id instance_id db p :
  grants p instance_id db (resolve_user_instance_access order user_id instance_id db)
  ↔ user_allowed p user_id instance_id db.
Proof using Horder. split; [apply user_access_sound|apply user_access_complete]. Qed.

(** No answer on the left and a missing row on the right. *)
Ltac no_access :=
  split; [by intros (? & ? & [=] & _)|intros (? & ? & ? & [= <-] & ? & ? & ? & ? & _); congruence].

(** C37: Access of an Agent: the resolution gives the Agent a permission that
    covers [p] exactly when its one binding to the instance is enabled, grants
    [p] and carries the capability for it, the Agent is active, and the
    binding's credential is a valid direct-access credential of the instance
    that reaches [p]. *)
Theorem agent_access_policy agent_id instance_id db p :
  grants p instance_id db (resolve_agent_instance_access order agent_id instance_id db)
  ↔ agent_allowed p agent_id instance_id db.
Proof using Horder.
  unfold grants, resolve_agent_instance_access, agent_allowed.
  destruct (agent_bindings_of agent_id instance_id db) as [|b [|]] eqn:Hb; simpl.
  1, 3: split; [by intros (? & ? & [=] & _)|by intros (? & ? & ? & [=] & _)].
  assert (b ∈ agent_bindings_of agent_id instance_id db) as Hin by (rewrite Hb; set_solver).
  apply list_elem_of_filter in Hin as [[Hba Hbi] _]. rewrite Hba, Hbi.
  set (stored := capabilities_of _ _). set (raw := ad_credentials db !! _).
  pose proof (effective_covers (ag_permission b) (validate_capability_set order stored)
    (if is_valid_direct_access_credential raw instance_id false then raw else None) true p) as Heff.
  pose proof (stored_validated stored p) as Hval.
  pose proof (screened_allows raw instance_id p) as Hcred. cbv zeta in Hcred.
  destruct (ag_enabled b) eqn:He; [|no_access].
  destruct (ad_instances db !! instance_id) as [instance|]; [|no_access].
  destruct (ad_agents db !! agent_id) as [agent|]; [|no_access].
  destruct (decide (a_status agent = AgentStatus.ACTIVE)) as [Ha|Ha];
    [rewrite (bool_decide_eq_true_2 _ Ha)|rewrite (bool_decide_eq_false_2 _ Ha); no_access]. simpl.
  split.
  - intros (a & q & [= <-] & Hq & Hcov & _). simpl in Hq.
    destruct (proj1 Heff (ex_intro _ q (conj Hq Hcov))) as (H1 & H2 & H3 & H4 & H5).
    exists b, agent, instance. split_and!; [done|done|done|done|done|done|by apply Hval|].
    apply Hcred. split; [by apply H4|done].
  - intros (? & ? & ? & [= <-] & [= <-] & _ & [= <-] & _ & H1 & [H2 H3]%Hval & [H4 H5]%Hcred).
    destruct (proj2 Heff (conj H2 (conj H1 (conj H3 (conj (λ _, H4) H5))))) as (q & Hq & Hqp).
    by eexists _, q.
Qed.
End policy.

(** ** On concrete tables

    A user owning nothing, with an administrator's read-write binding to a
    shared instance, and an Agent that may only read. *)

Definition shared_instance : Instance :=
  mk_instance "inst-1" "pc-1" "shared" None InstanceEngine.POLARDB_MYSQL InstanceTopology.MULTITENANT
    AllocationMode.POOLED None (Some "db.internal") (Some 3306) InstanceStatus.ACTIVE false None.

Definition shared_credential : InstanceCredential :=
  {| c_id := "cred-1"; c_instance_id := Some "inst-1"; c_resource_id := None; c_name := "direct";
     c_purpose := CredentialPurpose.DIRECT_ACCESS; c_capability := CredentialCapability.READWRITE;
     c_username_ciphertext := Some "enc:u"; c_password_ciphertext := Some "enc:p";
     c_database_name := Some "app"; c_status := CredentialStatus.ACTIVE; c_version := 1;
     c_created_by_user_id := None |}.

Definition shared_db : AccessDB :=
  mk_access_db {[ "user-1" := UserStatus.ACTIVE ]}
    {[ "agent-1" := mk_agent "agent-1" "demo" None AgentStatus.ACTIVE None ]}
    {[ "inst-1" := shared_instance ]} {[ "cred-1" := shared_credential ]} ∅
    {[ "ub-1" := mk_user_binding "ub-1" "user-1" "inst-1" (Some "cred-1") Permission.READWRITE true
                   BindingOrigin.ADMIN None None ]} ∅
    {[ "ab-1" := mk_agent_binding "ab-1" "agent-1" "inst-1" "cred-1" Permission.READWRITE true "user-1" ]}
    {[ ("ub-1", BindingCapability.SQL_WRITE) ]} {[ ("ab-1", BindingCapability.SQL_READ) ]}.

Lemma capability_closure_witness :
  validate_capability_set elements {[ BindingCapability.DB_INSTANCE_CREDENTIALS_READ ]}
  = {[ BindingCapability.DB_INSTANCE_CREDENTIALS_READ; BindingCapability.DB_INSTANCE_DESCRIBE;
       BindingCapability.DB_INSTANCE_LIST ]}
  ∧ closed (validate_capability_set elements {[ BindingCapability.DB_INSTANCE_CREDENTIALS_READ ]}).
Proof. split; [by vm_compute|]. by apply (capability_closure elements (λ T, Permutation_refl _)). Defined.

Lemma user_access_policy_witness : user_allowed Permission.READWRITE "user-1" "inst-1" shared_db.
Proof.
  apply (user_access_policy elements (λ T, Permutation_refl _)).
  eexists _, Permission.READWRITE. split_and!; [by vm_compute|by vm_compute|done|by vm_compute].
Defined.

Lemma agent_access_policy_witness :
  agent_allowed Permission.READONLY "agent-1" "inst-1" shared_db
  ∧ ¬ agent_allowed Permission.READWRITE "agent-1" "inst-1" shared_db.
Proof.
  split.
  - apply (agent_access_policy elements (λ T, Permutation_refl _)).
    eexists _, Permission.READONLY. split_and!; [by vm_compute|by vm_compute|done|by vm_compute].
  - intros H. apply (agent_access_policy elements (λ T, Permutation_refl _)) in H as (a & q & H & Hq & Hc & _).
    vm_compute in H. injection H as <-. injection Hq as <-. by specialize (Hc eq_refl).
Defined.
