(* ===== verification/Cursor.v ===== *)
(** * Signed cursors ([server/core/signed_cursor.py])

    A cursor is a canonical JSON object in base64url, a dot and its HMAC.  The
    parts of the standard library it uses come first: base64url, UTF-8, the
    decoder of JSON and [datetime.fromisoformat]. *)

From Stdlib Require Import Decimal DecimalFacts DecimalPos DecimalString.
From S2P Require Import Prelude PyString Models Permission Hashing Service.

Definition InvalidCursor : PyExc := exc "InvalidCursor" "Invalid cursor".

(** ** base64url without padding *)

Definition b64_char (n : Z) : ascii :=
  ascii_of_nat (Z.to_nat
    (if n <? 26 then 65 + n else if n <? 52 then 71 + n else if n <? 62 then n - 4
     else if n =? 62 then 45 else 95)).

Definition b64_value (a : ascii) : option Z :=
  let n := Z.of_nat (nat_of_ascii a) in
  if (65 <=? n) && (n <=? 90) then Some (n - 65)
  else if (97 <=? n) && (n <=? 122) then Some (n - 71)
  else if (48 <=? n) && (n <=? 57) then Some (n + 4)
  else if n =? 45 then Some 62
  else if n =? 95 then Some 63
  else None.

(** [base64.urlsafe_b64encode(value).rstrip(b"=")] *)
Fixpoint encode_base64url (value : list Z) : string :=
  match value with
  | a :: b :: c :: rest =>
      String (b64_char (a / 4)) (String (b64_char (a mod 4 * 16 + b / 16))
        (String (b64_char (b mod 16 * 4 + c / 64)) (String (b64_char (c mod 64)) (encode_base64url rest))))
  | [a; b] =>
      String (b64_char (a / 4)) (String (b64_char (a mod 4 * 16 + b / 16))
        (String (b64_char (b mod 16 * 4)) EmptyString))
  | [a] => String (b64_char (a / 4)) (String (b64_char (a mod 4 * 16)) EmptyString)
  | [] => EmptyString
  end.

(** [base64.urlsafe_b64decode] of a text of the alphabet with its padding: the
    bits left over are ignored, a single last character is an error. *)
Fixpoint b64_decode (s : string) : option (list Z) :=
  match s with
  | EmptyString => Some []
  | String a (String b (String c (String d s))) =>
      x ← b64_value a; y ← b64_value b; z ← b64_value c; w ← b64_value d;
      rest ← b64_decode s;
      Some (x * 4 + y / 16 :: y mod 16 * 16 + z / 4 :: z mod 4 * 64 + w :: rest)
  | String a (String b (String c EmptyString)) =>
      x ← b64_value a; y ← b64_value b; z ← b64_value c;
      Some [x * 4 + y / 16; y mod 16 * 16 + z / 4]
  | String a (String b EmptyString) =>
      x ← b64_value a; y ← b64_value b;
      Some [x * 4 + y / 16]
  | String _ EmptyString => None
  end.

Definition is_base64url (s : string) : bool :=
  negb (String.eqb s EmptyString) && string_forallb (λ a, bool_decide (is_Some (b64_value a))) s.

Definition decode_base64url (value : string) : outcome (list Z) :=
  if negb (is_base64url value) then Raise InvalidCursor
  else
    match b64_decode value with
    | None => Raise InvalidCursor
    | Some decoded => if String.eqb (encode_base64url decoded) value then Ret decoded else Raise InvalidCursor
    end.

(** ** UTF-8 *)
Fixpoint utf8_decode (l : list Z) : option string :=
  match l with
  | [] => Some EmptyString
  | b :: l =>
      if b <? 128 then String (ascii_of_nat (Z.to_nat b)) <$> utf8_decode l
      else
        match l with
        | c :: l =>
            if (194 <=? b) && (b <=? 195) && (128 <=? c) && (c <? 192) then
              String (ascii_of_nat (Z.to_nat ((b - 192) * 64 + (c - 128)))) <$> utf8_decode l
            else None
        | [] => None
        end
  end.

(** ** [json.loads]

    Numbers with a fraction or an exponent, and escapes beyond code point 255,
    are outside of [json]; they are errors here. *)

Fixpoint skip_ws (s : string) : string :=
  match s with
  | String a s' => if bool_decide (nat_of_ascii a ∈ [32; 9; 10; 13]%nat) then skip_ws s' else s
  | EmptyString => EmptyString
  end.

Definition hex_digit_value (a : ascii) : option nat :=
  let n := nat_of_ascii a in
  if (48 <=? n)%nat && (n <=? 57)%nat then Some (n - 48)%nat
  else if (97 <=? n)%nat && (n <=? 102)%nat then Some (n - 87)%nat
  else if (65 <=? n)%nat && (n <=? 70)%nat then Some (n - 55)%nat
  else None.

(** The character an escape letter stands for. *)
Definition escape_char (a : ascii) : option ascii :=
  if Ascii.eqb a dquote || Ascii.eqb a backslash || Ascii.eqb a "/" then Some a
  else if Ascii.eqb a "b" then Some (ascii_of_nat 8)
  else if Ascii.eqb a "f" then Some (ascii_of_nat 12)
  else if Ascii.eqb a "n" then Some (ascii_of_nat 10)
  else if Ascii.eqb a "r" then Some (ascii_of_nat 13)
  else if Ascii.eqb a "t" then Some (ascii_of_nat 9)
  else None.

Definition add_char (a : ascii) (r : option (string * string)) : option (string * string) :=
  match r with Some (s, rest) => Some (String a s, rest) | None => None end.

(** The body of a string literal, up to its closing quote. *)
Fixpoint parse_chars (s : string) : option (string * string) :=
  match s with
  | EmptyString => None
  | String a s =>
      if Ascii.eqb a dquote then Some (EmptyString, s)
      else if Ascii.eqb a backslash then
        match s with
        | String e s =>
            if Ascii.eqb e "u" then
              match s with
              | String h1 (String h2 (String h3 (String h4 s))) =>
                  match hex_digit_value h1, hex_digit_value h2, hex_digit_value h3, hex_digit_value h4 with
                  | Some O, Some O, Some x, Some y => add_char (ascii_of_nat (16 * x + y)) (parse_chars s)
                  | _, _, _, _ => None
                  end
              | _ => None
              end
            else match escape_char e with Some c => add_char c (parse_chars s) | None => None end
        | EmptyString => None
        end
      else if (nat_of_ascii a <? 32)%nat then None
      else add_char a (parse_chars s)
  end.

(** Digits, as far as they go. *)
Fixpoint span_digits (s : string) : Decimal.uint * string :=
  match s with
  | String a s' =>
      match NilEmpty.uint_of_string (String a EmptyString) with
      | Some _ =>
          let '(d, rest) := span_digits s' in
          (match uint_of_char a (Some d) with Some d' => d' | None => d end, rest)
      | None => (Decimal.Nil, s)
      end
  | EmptyString => (Decimal.Nil, EmptyString)
  end.

Definition parse_natural (s : string) : option (N * string) :=
  let '(d, rest) := span_digits s in
  let fraction := match rest with String a _ => bool_decide (a ∈ ["."; "e"; "E"]%char) | EmptyString => false end in
  if fraction then None
  else
    match d with
    | Decimal.Nil => None
    | Decimal.D0 Decimal.Nil => Some (0%N, rest)
    | Decimal.D0 _ => None
    | _ => Some (Pos.of_uint d, rest)
    end.

Definition parse_int (s : string) : option (Z * string) :=
  match s with
  | String "-" s => '(n, rest) ← parse_natural s; Some (- Z.of_N n, rest)
  | _ => '(n, rest) ← parse_natural s; Some (Z.of_N n, rest)
  end.

Definition parse_word (word : string) (v : json) (s : string) : option (json * string) :=
  rest ← strip_prefix word s; Some (v, rest).

(** Every value and every separator takes a character: the length is fuel. *)
Fixpoint parse_value (fuel : nat) (s : string) : option (json * string) :=
  match fuel with
  | O => None
  | S fuel =>
      match skip_ws s with
      | String a s' =>
          if Ascii.eqb a "{" then
            match skip_ws s' with
            | String "}" rest => Some (JObj [], rest)
            | s' => '(l, rest) ← parse_members fuel s'; Some (JObj l, rest)
            end
          else if Ascii.eqb a "[" then
            match skip_ws s' with
            | String "]" rest => Some (JArr [], rest)
            | s' => '(l, rest) ← parse_elements fuel s'; Some (JArr l, rest)
            end
          else if Ascii.eqb a dquote then '(t, rest) ← parse_chars s'; Some (JStr t, rest)
          else if Ascii.eqb a "t" then parse_word "true" (JBool true) (String a s')
          else if Ascii.eqb a "f" then parse_word "false" (JBool false) (String a s')
          else if Ascii.eqb a "n" then parse_word "null" JNull (String a s')
          else '(z, rest) ← parse_int (String a s'); Some (JNum z, rest)
      | EmptyString => None
      end
  end
with parse_members (fuel : nat) (s : string) : option (list (string * json) * string) :=
  match fuel with
  | O => None
  | S fuel =>
      match skip_ws s with
      | String a s =>
          if negb (Ascii.eqb a dquote) then None
          else
            '(key, s) ← parse_chars s;
            match skip_ws s with
            | String ":" s =>
                '(v, s) ← parse_value fuel s;
                match skip_ws s with
                | String "," s => '(l, rest) ← parse_members fuel s; Some ((key, v) :: l, rest)
                | String "}" rest => Some ([(key, v)], rest)
                | _ => None
                end
            | _ => None
            end
      | EmptyString => None
      end
  end
with parse_elements (fuel : nat) (s : string) : option (list json * string) :=
  match fuel with
  | O => None
  | S fuel =>
      '(v, s) ← parse_value fuel s;
      match skip_ws s with
      | String "," s => '(l, rest) ← parse_elements fuel s; Some (v :: l, rest)
      | String "]" rest => Some ([v], rest)
      | _ => None
      end
  end.

Definition loads (s : string) : option json :=
  '(v, rest) ← parse_value (S (String.length s)) s;
  match skip_ws rest with EmptyString => Some v | _ => None end.

(** [json.dumps] of an integer. *)
Definition json_int (z : Z) : string :=
  match z with
  | Z0 => "0"
  | Zpos p => NilEmpty.string_of_uint (Pos.to_uint p)
  | Zneg p => "-" +:+ NilEmpty.string_of_uint (Pos.to_uint p)
  end.

(** ** [datetime.fromisoformat]

    The extended formats of dates and times; the basic and the week formats are
    left out (only a holder of the key could present one). *)

Fixpoint digits (width : nat) (acc : Z) (s : string) : option (Z * string) :=
  match width with
  | O => Some (acc, s)
  | S width =>
      match s with
      | String a s => if is_digit a then digits width (acc * 10 + (Z.of_nat (nat_of_ascii a) - 48)) s else None
      | EmptyString => None
      end
  end.

(** Days since 1970-01-01 of a civil date. *)
Definition days_from_civil (y m d : Z) : Z :=
  let y := if m <=? 2 then y - 1 else y in
  let era := y / 400 in
  let yoe := y - era * 400 in
  let mp := if 2 <? m then m - 3 else m + 9 in
  let doy := (153 * mp + 2) / 5 + d - 1 in
  let doe := yoe * 365 + yoe / 4 - yoe / 100 + doy in
  era * 146097 + doe - 719468.

(** A date exists when it is the date of its own day. *)
Definition valid_date (y m d : Z) : bool :=
  (1 <=? y) && (y <=? 9999) && (1 <=? m) && (m <=? 12)
  && bool_decide (civil_from_days (days_from_civil y m d) = (y, m, d)).

Definition expect (c : ascii) (s : string) : option string :=
  match s with String a s => if Ascii.eqb a c then Some s else None | EmptyString => None end.

(** The digits of a fraction of a second: six count. *)
Fixpoint fraction (weight : Z) (s : string) : Z * string :=
  match s with
  | String a s' =>
      if is_digit a then
        let '(f, rest) := fraction (weight / 10) s' in ((Z.of_nat (nat_of_ascii a) - 48) * weight + f, rest)
      else (0, s)
  | EmptyString => (0, EmptyString)
  end.

(** [HH[:MM[:SS[.f]]]] in microseconds. *)
Definition iso_time (s : string) : option (Z * string) :=
  '(h, s) ← digits 2 0 s;
  match expect ":" s with
  | None => if h <? 24 then Some (h * 3600000000, s) else None
  | Some s =>
      '(m, s) ← digits 2 0 s;
      match expect ":" s with
      | None => if (h <? 24) && (m <? 60) then Some ((h * 60 + m) * 60000000, s) else None
      | Some s =>
          '(sec, s) ← digits 2 0 s;
          let '(f, s) :=
            match s with
            | String a (String b s') =>
                if (Ascii.eqb a "." || Ascii.eqb a ",") && is_digit b then fraction 100000 (String b s') else (0, s)
            | _ => (0, s)
            end in
          if (h <? 24) && (m <? 60) && (sec <? 60) then Some ((h * 3600 + m * 60 + sec) * 1000000 + f, s)
          else None
      end
  end.

(** The offset from UTC, [None] for a naive datetime. *)
Definition iso_offset (s : string) : option (option Z) :=
  match s with
  | EmptyString => Some None
  | String "Z" EmptyString => Some (Some 0)
  | String a s =>
      if Ascii.eqb a "+" || Ascii.eqb a "-" then
        '(o, rest) ← iso_time s;
        match rest with EmptyString => Some (Some (if Ascii.eqb a "+" then o else - o)) | _ => None end
      else None
  end.

(** The wall clock of the datetime and its offset. *)
Definition fromisoformat (s : string) : option (time * option Z) :=
  '(y, s) ← digits 4 0 s; s ← expect "-" s;
  '(m, s) ← digits 2 0 s; s ← expect "-" s;
  '(d, s) ← digits 2 0 s;
  if negb (valid_date y m d) then None
  else
    let day := days_from_civil y m d * 86400000000 in
    match s with
    | EmptyString => Some (day, None)
    | String _ s =>
        '(us, s) ← iso_time s;
        offset ← iso_offset s;
        Some (day + us, offset)
    end.

(** ** The codec *)

Definition CURSOR_VERSION : Z := 1.
Definition CURSOR_TTL_SECONDS : Z := 15 * 60.

Record CursorPayload : Type := mk_cursor_payload {
  cp_version : Z;
  cp_issued_at : Z;
  cp_created_at : string;
  cp_db_instance_id : string;
  cp_filter_hash : string
}.

#[export] Instance CursorPayload_eq_dec : EqDecision CursorPayload.
Proof. solve_decision. Defined.

(** [_canonical_json(asdict(payload))] *)
Definition canonical_payload (p : CursorPayload) : string :=
  json_object [("created_at", json_quote (cp_created_at p));
               ("db_instance_id", json_quote (cp_db_instance_id p));
               ("filter_hash", json_quote (cp_filter_hash p));
               ("issued_at", json_int (cp_issued_at p));
               ("version", json_int (cp_version p))].

Definition hash_filters (db_type source status : option string) : string :=
  sha256_hex (json_object [("db_type", json_opt db_type); ("source", json_opt source); ("status", json_opt status)]).

(** [[0-9a-f]{64}] *)
Definition is_sha256 (s : string) : bool :=
  (String.length s =? 64)%nat
  && string_forallb (λ a, is_digit a || let n := nat_of_ascii a in (97 <=? n)%nat && (n <=? 102)%nat) s.

Definition validate_payload (ttl_seconds now : Z) (payload : CursorPayload) (expected_filter_hash : option string)
    : outcome unit :=
  if negb (cp_version payload =? CURSOR_VERSION)
     || String.eqb (cp_db_instance_id payload) EmptyString
     || (255 <? Z.of_nat (String.length (cp_db_instance_id payload)))
     || negb (is_sha256 (cp_filter_hash payload)) then
    Raise InvalidCursor
  else
    match fromisoformat (cp_created_at payload) with
    | None | Some (_, None) => Raise InvalidCursor
    | Some (_, Some _) =>
        if (now <? cp_issued_at payload) || (ttl_seconds <? now - cp_issued_at payload) then Raise InvalidCursor
        else
          match expected_filter_hash with
          | Some h => if String.eqb (cp_filter_hash payload) h then Ret tt else Raise InvalidCursor
          | None => Ret tt
          end
    end.

(** [HKDF] of the [cryptography] package derives the key of a codec; [key] is its
    result.  [now] is [int(self._clock())]. *)
Record SignedCursorCodec : Type := mk_codec { sc_key : list Z; sc_ttl_seconds : Z }.

Definition signed_cursor_codec (hkdf : list Z → list Z) (master_key : list Z) (ttl_seconds : Z)
    : outcome SignedCursorCodec :=
  if Z.of_nat (length master_key) <? 16 then Raise (ValueError "Cursor master key is too short")
  else Ret (mk_codec (hkdf master_key) ttl_seconds).

Section codec.
  Context (codec : SignedCursorCodec).

Definition signature (encoded_payload : string) : list Z := hmac_sha256 (sc_key codec) (utf8 encoded_payload).

Definition encoded (payload : CursorPayload) : string :=
  let encoded_payload := encode_base64url (utf8 (canonical_payload payload)) in
  encoded_payload +:+ "." +:+ encode_base64url (signature encoded_payload).

Definition encode (now : Z) (payload : CursorPayload) : outcome string :=
  validate_payload (sc_ttl_seconds codec) now payload None ;;
  Ret (encoded payload).

(** The value of the last member of a name. *)
Definition member (key : string) (raw : list (string * json)) : option json := json_get key (rev raw).

Definition payload_of (raw : json) : outcome CursorPayload :=
  match raw with
  | JObj raw =>
      if negb (bool_decide ((list_to_set raw.*1 : gset string)
                 = {["version"; "issued_at"; "created_at"; "db_instance_id"; "filter_hash"]})) then
        Raise InvalidCursor
      else
        match member "version" raw, member "issued_at" raw, member "created_at" raw,
              member "db_instance_id" raw, member "filter_hash" raw with
        | Some (JNum version), Some (JNum issued_at), Some (JStr created_at), Some (JStr db_instance_id),
          Some (JStr filter_hash) =>
            Ret (mk_cursor_payload version issued_at created_at db_instance_id filter_hash)
        | _, _, _, _, _ => Raise InvalidCursor
        end
  | _ => Raise InvalidCursor
  end.

(** [json.loads(payload_bytes)], whose errors are invalid cursors. *)
Definition loads_bytes (payload_bytes : list Z) : outcome json :=
  match utf8_decode payload_bytes ≫= loads with Some raw => Ret raw | None => Raise InvalidCursor end.

Definition decode (now : Z) (cursor expected_filter_hash : string) : outcome CursorPayload :=
  if 4096 <? Z.of_nat (String.length cursor) then Raise InvalidCursor
  else
    match split_once "." cursor with
    | None => Raise InvalidCursor
    | Some (encoded_payload, encoded_signature) =>
        if contains "." encoded_signature then Raise InvalidCursor
        else
          payload_bytes ← decode_base64url encoded_payload;
          given ← decode_base64url encoded_signature;
          if negb (bool_decide (given = signature encoded_payload)) then Raise InvalidCursor
          else
            raw ← loads_bytes payload_bytes;
            payload ← payload_of raw;
            if negb (bool_decide (utf8 (canonical_payload payload) = payload_bytes)) then Raise InvalidCursor
            else
              validate_payload (sc_ttl_seconds codec) now payload (Some expected_filter_hash) ;;
              Ret payload
    end.
End codec.

(** ** base64url reads back *)

Lemma b64_value_char n : 0 ≤ n < 64 → b64_value (b64_char n) = Some n.
Proof.
  intros Hn. assert (forallb (λ n, bool_decide (b64_value (b64_char n) = Some n)) (seqZ 0 64) = true) as Hall
    by (vm_compute; reflexivity).
  rewrite forallb_forall in Hall. apply (bool_decide_eq_true_1 _), Hall, list_elem_of_In, elem_of_seqZ. lia.
Qed.

(** Lists three elements at a time. *)
Lemma list_ind3 {A} (P : list A → Prop) :
  P [] → (∀ a, P [a]) → (∀ a b, P [a; b]) → (∀ a b c l, P l → P (a :: b :: c :: l)) → ∀ l, P l.
Proof.
  intros H0 H1 H2 H3. fix IH 1. intros [|a [|b [|c l]]]; [exact H0|exact (H1 a)|exact (H2 a b)|].
  exact (H3 a b c l (IH l)).
Qed.

Definition byte (x : Z) : Prop := 0 ≤ x < 256.

Ltac dlia := Z.div_mod_to_equations; lia.

Lemma b64_decode_encode l : Forall byte l → b64_decode (encode_base64url l) = Some l.
Proof.
  induction l as [|a|a b|a b c l IH] using list_ind3; intros Hl.
  - done.
  - apply Forall_cons in Hl as [Ha _]. unfold byte in Ha. cbn -[b64_char b64_value Z.div Z.modulo].
    rewrite !b64_value_char by dlia. cbn. do 2 f_equal. dlia.
  - apply Forall_cons in Hl as [Ha [Hb _]%Forall_cons]. unfold byte in *. cbn -[b64_char b64_value Z.div Z.modulo].
    rewrite !b64_value_char by dlia. cbn -[Z.div Z.modulo]. do 2 f_equal; [dlia|]. f_equal. dlia.
  - apply Forall_cons in Hl as [Ha [Hb [Hc Hl]%Forall_cons]%Forall_cons]. unfold byte in *.
    cbn -[b64_char b64_value Z.div Z.modulo]. rewrite !b64_value_char by dlia.
    cbn -[Z.div Z.modulo]. rewrite IH by done. cbn -[Z.div Z.modulo]. do 2 f_equal; [dlia|]. f_equal; [dlia|]. f_equal. dlia.
Qed.

Definition b64_text (s : string) : bool := string_forallb (λ a, bool_decide (is_Some (b64_value a))) s.

Lemma b64_text_cons n s : 0 ≤ n < 64 → b64_text (String (b64_char n) s) = b64_text s.
Proof. intros Hn. unfold b64_text. cbn. by rewrite b64_value_char. Qed.

Lemma b64_text_encode l : Forall byte l → b64_text (encode_base64url l) = true.
Proof.
  induction l as [|a|a b|a b c l IH] using list_ind3; intros Hl; [done|..];
    repeat match goal with H : Forall byte (_ :: _) |- _ => apply Forall_cons in H as [? H] end; unfold byte in *;
    cbn [encode_base64url]; rewrite !b64_text_cons by dlia; [done..|]. by apply IH.
Qed.

Lemma decode_encode_base64url l : l ≠ [] → Forall byte l → decode_base64url (encode_base64url l) = Ret l.
Proof.
  intros Hn Hl. unfold decode_base64url, is_base64url. fold (b64_text (encode_base64url l)).
  rewrite b64_text_encode, b64_decode_encode, String.eqb_refl by done.
  destruct l as [|a [|b [|c l]]]; done.
Qed.

Lemma decode_base64url_inv s l : decode_base64url s = Ret l → s = encode_base64url l.
Proof.
  unfold decode_base64url. destruct (negb _); [done|]. destruct (b64_decode s) as [d|]; [|done].
  destruct (String.eqb_spec (encode_base64url d) s); [|done]. by intros [= <-].
Qed.

Lemma decode_base64url_error s e : decode_base64url s = Raise e → e = InvalidCursor.
Proof.
  unfold decode_base64url. destruct (negb _); [by intros [= <-]|]. destruct (b64_decode s) as [d|]; [|by intros [= <-]].
  destruct (String.eqb _ _); [done|by intros [= <-]].
Qed.

Lemma split_dot_cons a s : split_once "." (String a s) =
  if Ascii.eqb "." a then Some (EmptyString, s)
  else match split_once "." s with Some (x, y) => Some (String a x, y) | None => None end.
Proof. cbn [split_once strip_prefix]. by destruct (Ascii.eqb "." a). Qed.

Lemma b64_text_cons_inv a s : b64_text (String a s) = true → Ascii.eqb "." a = false ∧ b64_text s = true.
Proof.
  unfold b64_text. cbn [string_forallb]. intros [Ha Hs]%andb_prop. split; [|exact Hs].
  destruct (Ascii.eqb_spec "."%char a) as [<-|]; [by vm_compute in Ha|done].
Qed.

Lemma b64_text_no_dot s : b64_text s = true → contains "." s = false.
Proof.
  unfold contains. induction s as [|a s IH]; [done|]. intros [Ha Hs]%b64_text_cons_inv.
  rewrite split_dot_cons, Ha. specialize (IH Hs). by destruct (split_once "." s) as [[x y]|].
Qed.

Lemma split_dot s t : b64_text s = true → split_once "." (s +:+ "." +:+ t) = Some (s, t).
Proof.
  induction s as [|a s IH]; intros Hs; [exact (split_dot_cons "."%char t)|]. apply b64_text_cons_inv in Hs as [Ha Hs].
  rewrite app_cons, split_dot_cons, Ha. by rewrite IH.
Qed.

Lemma split_dot_inv s x y : split_once "." s = Some (x, y) → s = x +:+ "." +:+ y.
Proof.
  revert x y. induction s as [|a s IH]; intros x y; [done|]. rewrite split_dot_cons.
  destruct (Ascii.eqb_spec "."%char a) as [<-|Hn].
  - by intros [= <- <-].
  - destruct (split_once "." s) as [[x' y']|]; [|done]. intros [= <- <-]. by rewrite (IH _ _ eq_refl).
Qed.

(** ** UTF-8 reads back *)
Lemma utf8_decode_char a l : utf8_decode (utf8_char a ++ l) = String a <$> utf8_decode l.
Proof. destruct a as [[] [] [] [] [] [] [] []]; reflexivity. Qed.

Lemma utf8_decode_utf8 s : utf8_decode (utf8 s) = Some s.
Proof. induction s as [|a s IH]; [done|]. cbn [utf8]. by rewrite utf8_decode_char, IH. Qed.

Lemma utf8_inj s t : utf8 s = utf8 t → s = t.
Proof. intros H. apply (f_equal utf8_decode) in H. rewrite !utf8_decode_utf8 in H. by injection H. Qed.

Lemma utf8_bytes s : Forall byte (utf8 s).
Proof.
  induction s as [|a s IH]; [by constructor|]. cbn [utf8]. apply Forall_app. split; [|done].
  unfold utf8_char. pose proof (nat_ascii_bounded a). destruct (Z.ltb_spec (Z.of_nat (nat_of_ascii a)) 128);
    repeat constructor; unfold byte; dlia.
Qed.

(** ** The decoder of JSON reads what [json_quote] and [json_int] write *)

Lemma parse_chars_escape a t : parse_chars (json_escape a +:+ t) = add_char a (parse_chars t).
Proof. destruct a as [[] [] [] [] [] [] [] []]; reflexivity. Qed.

Lemma parse_chars_quoted s rest : parse_chars (string_flat_map json_escape s +:+ String dquote rest) = Some (s, rest).
Proof.
  induction s as [|a s IH]; [reflexivity|]. cbn [string_flat_map].
  rewrite app_assoc_str, parse_chars_escape, IH. reflexivity.
Qed.

(** The rest of a text after an integer: it does not go on with digits. *)
Definition ends_number (rest : string) : bool :=
  match rest with
  | String a _ => bool_decide (NilEmpty.uint_of_string (String a EmptyString) = None)
                  && negb (bool_decide (a ∈ ["."; "e"; "E"]%char))
  | EmptyString => true
  end.

Lemma span_digits_uint d rest : ends_number rest = true →
  span_digits (NilEmpty.string_of_uint d +:+ rest) = (d, rest).
Proof.
  intros Hr. assert (span_digits rest = (Decimal.Nil, rest)) as H0.
  { destruct rest as [|a rest]; [done|]. unfold ends_number in Hr.
    apply andb_prop in Hr as [Hr%bool_decide_eq_true_1 _]. 
    change (match NilEmpty.uint_of_string (String a EmptyString) with
      | Some _ => let '(d, r) := span_digits rest in
                  (match uint_of_char a (Some d) with Some d' => d' | None => d end, r)
      | None => (Decimal.Nil, String a rest) end = (Decimal.Nil, String a rest)). by rewrite Hr. }
  induction d as [|d IH|d IH|d IH|d IH|d IH|d IH|d IH|d IH|d IH|d IH]; [exact H0|..];
    cbn [NilEmpty.string_of_uint]; rewrite app_cons; cbn [span_digits]; cbn; by rewrite IH.
Qed.

(** A positive number has no leading zero. *)
Lemma to_uint_no_leading_zero p d : Pos.to_uint p ≠ Decimal.D0 d.
Proof.
  intros E. pose proof (DecimalPos.Unsigned.to_of (Pos.to_uint p)) as Hu.
  rewrite DecimalPos.Unsigned.of_to in Hu. cbn [N.to_uint] in Hu. rewrite E in Hu. unfold unorm in Hu.
  destruct (nzhead (Decimal.D0 d)) eqn:Hd; try discriminate Hu.
  - apply (DecimalPos.Unsigned.to_uint_nonzero p). by rewrite E, Hu.
  - by apply nzhead_nonzero in Hd.
Qed.

Lemma parse_natural_pos p rest : ends_number rest = true →
  parse_natural (NilEmpty.string_of_uint (Pos.to_uint p) +:+ rest) = Some (Npos p, rest).
Proof.
  intros Hr. unfold parse_natural. rewrite span_digits_uint by done.
  assert (match rest with String a _ => bool_decide (a ∈ ["."; "e"; "E"]%char) | EmptyString => false end = false) as ->.
  { destruct rest as [|a rest]; [done|]. unfold ends_number in Hr. apply andb_prop in Hr as [_ Hr].
    by apply negb_true_iff in Hr. }
  pose proof (DecimalPos.Unsigned.of_to p) as Hp. pose proof (DecimalPos.Unsigned.to_uint_nonnil p) as Hn.
  destruct (Pos.to_uint p) eqn:E; try done; [by apply to_uint_no_leading_zero in E|..]; by rewrite Hp.
Qed.

Lemma parse_int_json z rest : ends_number rest = true → parse_int (json_int z +:+ rest) = Some (z, rest).
Proof.
  intros Hr. destruct z as [|p|p].
  - unfold parse_int. change (json_int 0 +:+ rest) with (String "0" rest). cbv beta iota.
    assert (parse_natural (String "0" rest) = Some (0%N, rest)) as ->; [|done].
    unfold parse_natural. change (String "0" rest) with (NilEmpty.string_of_uint (Decimal.D0 Decimal.Nil) +:+ rest).
    rewrite span_digits_uint by done. destruct rest as [|a rest]; [done|]. unfold ends_number in Hr.
    apply andb_prop in Hr as [_ Hr]. apply negb_true_iff in Hr. by rewrite Hr.
  - pose proof (parse_natural_pos p rest Hr) as Hp. cbn [json_int]. unfold parse_int.
    pose proof (DecimalPos.Unsigned.to_uint_nonnil p) as Hn.
    destruct (Pos.to_uint p) eqn:E; try done; cbn [NilEmpty.string_of_uint] in *; rewrite app_cons in *;
      cbv beta iota; by rewrite Hp.
  - cbn [json_int]. unfold parse_int. change ("-" +:+ ?s) with (String "-" s). rewrite app_cons.
    cbv beta iota. by rewrite parse_natural_pos.
Qed.

Lemma parse_value_string fuel s rest :
  parse_value (S fuel) (json_quote s +:+ rest) = Some (JStr s, rest).
Proof.
  unfold json_quote. rewrite app_cons, app_assoc_str, app_cons. cbn [parse_value].
  change (skip_ws (String dquote ?t)) with (String dquote t). cbv beta iota.
  change (Ascii.eqb dquote "{") with false. change (Ascii.eqb dquote "[") with false.
  change (Ascii.eqb dquote dquote) with true. cbv beta iota. by rewrite parse_chars_quoted.
Qed.

Lemma json_int_head z : ∃ a s, json_int z = String a s ∧ a ∈ ["-"; "0"; "1"; "2"; "3"; "4"; "5"; "6"; "7"; "8"; "9"]%char.
Proof.
  destruct z as [|p|p]; [by eexists _, _; repeat constructor| |].
  - cbn [json_int]. pose proof (DecimalPos.Unsigned.to_uint_nonnil p) as Hn.
    destruct (Pos.to_uint p); [done|..]; cbn [NilEmpty.string_of_uint]; eexists _, _; (split; [done|]);
      apply (bool_decide_eq_true_1 _); vm_compute; reflexivity.
  - eexists _, _. split; [done|]. apply (bool_decide_eq_true_1 _). vm_compute. reflexivity.
Qed.

Lemma parse_value_int fuel z rest : ends_number rest = true →
  parse_value (S fuel) (json_int z +:+ rest) = Some (JNum z, rest).
Proof.
  intros Hr. pose proof (parse_int_json z rest Hr) as Hp. destruct (json_int_head z) as (a & s & E & Ha).
  rewrite E, app_cons in *. cbn [parse_value].
  assert (forallb (λ a, bool_decide (skip_ws (String a EmptyString) = String a EmptyString)
    && negb (Ascii.eqb a "{") && negb (Ascii.eqb a "[") && negb (Ascii.eqb a dquote) && negb (Ascii.eqb a "t")
    && negb (Ascii.eqb a "f") && negb (Ascii.eqb a "n"))
    ["-"; "0"; "1"; "2"; "3"; "4"; "5"; "6"; "7"; "8"; "9"]%char = true) as Hall by (vm_compute; reflexivity).
  rewrite forallb_forall in Hall. specialize (Hall a (proj1 (list_elem_of_In _ _) Ha)). cbv beta in Hall.
  repeat (apply andb_prop in Hall as [Hall ?%negb_true_iff]). apply bool_decide_eq_true_1 in Hall.
  assert (skip_ws (String a (s +:+ rest)) = String a (s +:+ rest)) as ->.
  { cbn [skip_ws] in *. by destruct (bool_decide (nat_of_ascii a ∈ _)). }
  cbv beta iota. by repeat match goal with H : _ = false |- _ => rewrite H; clear H end; rewrite Hp.
Qed.

(** A member and what follows its comma, or the end of the object. *)
Lemma parse_member fuel key text v more l rest :
  parse_value fuel (text +:+ String "," more) = Some (v, String "," more) →
  parse_members fuel more = Some (l, rest) →
  parse_members (S fuel) (json_quote key +:+ String ":" (text +:+ String "," more)) = Some ((key, v) :: l, rest).
Proof.
  intros Hv Hl. unfold json_quote. rewrite app_cons, app_assoc_str, app_cons. cbn [parse_members].
  change (skip_ws (String dquote ?t)) with (String dquote t). cbv beta iota.
  change (Ascii.eqb dquote dquote) with true. cbn [negb]. rewrite parse_chars_quoted. cbn [mbind option_bind].
  change ("" +:+ String ":" ?t) with (String ":" t). change (skip_ws (String ":" ?t)) with (String ":" t).
  cbv beta iota. rewrite Hv. cbn [mbind option_bind]. change (skip_ws (String "," ?t)) with (String "," t).
  cbv beta iota. by rewrite Hl.
Qed.

Lemma parse_last_member fuel key text v rest :
  parse_value fuel (text +:+ String "}" rest) = Some (v, String "}" rest) →
  parse_members (S fuel) (json_quote key +:+ String ":" (text +:+ String "}" rest)) = Some ([(key, v)], rest).
Proof.
  intros Hv. unfold json_quote. rewrite app_cons, app_assoc_str, app_cons. cbn [parse_members].
  change (skip_ws (String dquote ?t)) with (String dquote t). cbv beta iota.
  change (Ascii.eqb dquote dquote) with true. cbn [negb]. rewrite parse_chars_quoted. cbn [mbind option_bind].
  change ("" +:+ String ":" ?t) with (String ":" t). change (skip_ws (String ":" ?t)) with (String ":" t).
  cbv beta iota. rewrite Hv. cbn [mbind option_bind]. change (skip_ws (String "}" ?t)) with (String "}" t).
  reflexivity.
Qed.

Lemma canonical_shape p : canonical_payload p =
  String "{" (json_quote "created_at" +:+ String ":" (json_quote (cp_created_at p) +:+ String ","
    (json_quote "db_instance_id" +:+ String ":" (json_quote (cp_db_instance_id p) +:+ String ","
    (json_quote "filter_hash" +:+ String ":" (json_quote (cp_filter_hash p) +:+ String ","
    (json_quote "issued_at" +:+ String ":" (json_int (cp_issued_at p) +:+ String ","
    (json_quote "version" +:+ String ":" (json_int (cp_version p) +:+ String "}" EmptyString)))))))))).
Proof.
  unfold canonical_payload, json_object, join. cbn [fmap list_fmap String.concat fst snd].
  rewrite !app_assoc_str. reflexivity.
Qed.

Definition raw_payload (p : CursorPayload) : json :=
  JObj [("created_at", JStr (cp_created_at p)); ("db_instance_id", JStr (cp_db_instance_id p));
        ("filter_hash", JStr (cp_filter_hash p)); ("issued_at", JNum (cp_issued_at p));
        ("version", JNum (cp_version p))].

Lemma parse_canonical fuel p :
  parse_value (S (S (S (S (S (S (S fuel))))))) (canonical_payload p) = Some (raw_payload p, EmptyString).
Proof.
  rewrite canonical_shape. set (body := json_quote "created_at" +:+ _).
  assert (parse_members (S (S (S (S (S (S fuel)))))) body
    = Some ([("created_at", JStr (cp_created_at p)); ("db_instance_id", JStr (cp_db_instance_id p));
        ("filter_hash", JStr (cp_filter_hash p)); ("issued_at", JNum (cp_issued_at p));
        ("version", JNum (cp_version p))], EmptyString)) as Hm.
  { subst body. do 3 (apply parse_member; [apply parse_value_string|]).
    apply parse_member; [by apply parse_value_int|]. apply parse_last_member. by apply parse_value_int. }
  assert (∃ b, body = String dquote b) as [b Eb] by (eexists; reflexivity). rewrite Eb in *.
  transitivity ('(l, rest) ← parse_members (S (S (S (S (S (S fuel)))))) (String dquote b); Some (JObj l, rest));
    [reflexivity|by rewrite Hm].
Qed.

Lemma loads_canonical p : loads (canonical_payload p) = Some (raw_payload p).
Proof.
  unfold loads. assert (∃ n, S (String.length (canonical_payload p)) = S (S (S (S (S (S (S n))))))) as [n ->].
  { exists (String.length (canonical_payload p) - 6)%nat. rewrite canonical_shape. cbn [String.length].
    rewrite length_app_str. assert (String.length (json_quote "created_at") = 12)%nat as -> by reflexivity. lia. }
  by rewrite parse_canonical.
Qed.

Lemma payload_of_raw p : payload_of (raw_payload p) = Ret p.
Proof.
  unfold payload_of, raw_payload. rewrite (bool_decide_eq_true_2 (_ = _)) by (apply set_eq; cbn; set_solver).
  by destruct p.
Qed.

Lemma loads_bytes_canonical p : loads_bytes (utf8 (canonical_payload p)) = Ret (raw_payload p).
Proof. unfold loads_bytes. rewrite utf8_decode_utf8. cbn [mbind option_bind]. by rewrite loads_canonical. Qed.

(** ** Digests *)

Lemma be_bytes_bytes n x : Forall byte (be_bytes n x).
Proof.
  unfold be_bytes. apply Forall_rev, Forall_fmap, Forall_true. intros i. cbn. unfold byte.
  change 255 with (Z.ones 8). rewrite Z.land_ones by lia. apply Z.mod_pos_bound. lia.
Qed.

Lemma be_bytes_length n x : length (be_bytes n x) = n.
Proof. unfold be_bytes. by rewrite length_rev, length_fmap, length_seq. Qed.

Lemma round_length st kw : length st = 8%nat → length (round st kw) = 8%nat.
Proof. intros H. do 9 (destruct st as [|? st]; [try discriminate H|]); cbn in *; congruence. Qed.

Lemma compress_length st block : length st = 8%nat → length (compress st block) = 8%nat.
Proof.
  intros H. unfold compress. rewrite length_zip_with, H.
  assert (∀ l st, length st = 8%nat → length (fold_left round l st) = 8%nat) as Hf.
  { induction l as [|kw l IH]; intros st' Hs; [done|]. cbn. apply IH. by apply round_length. }
  by rewrite Hf.
Qed.

Lemma sha256_digest msg : length (sha256 msg) = 32%nat ∧ Forall byte (sha256 msg).
Proof.
  unfold sha256. set (st := fold_left compress _ _).
  assert (length st = 8%nat) as Hst.
  { subst st. generalize (blocks (length (words (sha256_pad msg))) (words (sha256_pad msg))). intros l.
    assert (length sha256_h0 = 8%nat) as H by reflexivity. revert H. generalize sha256_h0.
    induction l as [|b l IH]; intros h H; [exact H|]. cbn. apply IH. by apply compress_length. }
  clearbody st. split.
  - do 9 (destruct st as [|? st]; [try discriminate Hst|]); [|discriminate Hst]. cbn -[be_bytes].
    rewrite ?length_app, ?be_bytes_length. reflexivity.
  - clear Hst. induction st as [|x st IH]; [by constructor|]. apply Forall_app. split; [apply be_bytes_bytes|exact IH].
Qed.

Lemma hexdigest_sha256 l : length l = 32%nat → Forall byte l → is_sha256 (hexdigest l) = true.
Proof.
  intros Hlen Hb. unfold is_sha256. apply andb_true_iff. split.
  - apply Nat.eqb_eq. transitivity (2 * length l)%nat; [|by rewrite Hlen]. clear Hlen Hb.
    induction l as [|b l IH]; [done|]. unfold hexdigest in *. cbn [foldr]. rewrite length_app_str. cbn. lia.
  - clear Hlen. induction Hb as [|b l Hb _ IH]; [done|]. cbn [hexdigest foldr]. unfold hex_byte.
    rewrite !app_cons. change ("" +:+ ?x) with x. cbn [string_forallb]. fold (hexdigest l).
    assert (∀ n, (n < 16)%nat → (is_digit (hex_digit n) || (let k := nat_of_ascii (hex_digit n) in
      (97 <=? k)%nat && (k <=? 102)%nat)) = true) as Hd.
    { intros n Hn. do 16 (destruct n as [|n]; [reflexivity|]). lia. }
    unfold byte in Hb. rewrite !Hd by dlia. exact IH.
Qed.

Lemma hash_filters_sha256 db_type source status : is_sha256 (hash_filters db_type source status) = true.
Proof. unfold hash_filters, sha256_hex. apply hexdigest_sha256; apply sha256_digest. Qed.

(** ** Dates read back *)

Lemma digits_more w acc s :
  digits (S w) acc s = match digits w acc s with Some (a, s') => digits 1 a s' | None => None end.
Proof.
  revert acc s. induction w as [|w IH]; intros acc s; [done|].
  destruct s as [|a s]; [done|]. cbn [digits]. destruct (is_digit a); [|done].
  exact (IH (acc * 10 + (Z.of_nat (nat_of_ascii a) - 48)) s).
Qed.

Lemma digit_char d : 0 ≤ d < 10 → let a := ascii_of_nat (Z.to_nat (48 + d)) in
  is_digit a = true ∧ Z.of_nat (nat_of_ascii a) - 48 = d.
Proof.
  intros Hd. assert (forallb (λ d, let a := ascii_of_nat (Z.to_nat (48 + d)) in
    is_digit a && (Z.of_nat (nat_of_ascii a) - 48 =? d)) (seqZ 0 10) = true) as Hall by (vm_compute; reflexivity).
  rewrite forallb_forall in Hall. specialize (Hall d). cbv zeta in Hall.
  assert (In d (seqZ 0 10)) as Hin by (apply list_elem_of_In, elem_of_seqZ; lia).
  apply Hall, andb_prop in Hin as [H1 H2%Z.eqb_eq]. by split.
Qed.

Lemma digits_pad w n rest acc : 0 ≤ n < 10 ^ Z.of_nat w →
  digits w acc (pad w n +:+ rest) = Some (acc * 10 ^ Z.of_nat w + n, rest).
Proof.
  revert n rest acc. induction w as [|w IH]; intros n rest acc Hn.
  - cbn in *. do 2 f_equal. lia.
  - rewrite Nat2Z.inj_succ, Z.pow_succ_r in * by lia. rewrite digits_more. cbn [pad].
    rewrite app_assoc_str, IH by dlia. cbn [digits]. rewrite app_cons.
    destruct (digit_char (n mod 10)) as [Hd Hv]; [dlia|]. rewrite Hd, Hv. change ("" +:+ rest) with rest.
    do 2 f_equal. dlia.
Qed.

(** The civil date of a day. *)
Lemma year_of_era doe : 0 ≤ doe < 146097 →
  0 ≤ (doe - doe / 1460 + doe / 36524 - doe / 146096) / 365 < 400.
Proof. dlia. Qed.

Lemma day_of_year doe : 0 ≤ doe < 146097 →
  let yoe := (doe - doe / 1460 + doe / 36524 - doe / 146096) / 365 in
  0 ≤ doe - (365 * yoe + yoe / 4 - yoe / 100) ≤ 365.
Proof. cbv zeta. dlia. Qed.

Lemma civil_days z y m d : civil_from_days z = (y, m, d) →
  days_from_civil y m d = z ∧ 1 ≤ m ≤ 12 ∧ 1 ≤ d ≤ 31.
Proof.
  unfold civil_from_days. set (era := (z + 719468) / 146097). set (doe := z + 719468 - era * 146097).
  assert (0 ≤ doe < 146097) as Hdoe by (subst doe era; dlia).
  pose proof (year_of_era doe Hdoe) as Hy. pose proof (day_of_year doe Hdoe) as Hd. cbv zeta in *.
  set (yoe := (doe - doe / 1460 + doe / 36524 - doe / 146096) / 365) in *. clearbody yoe.
  set (doy := doe - (365 * yoe + yoe / 4 - yoe / 100)) in *.
  assert (doe = yoe * 365 + yoe / 4 - yoe / 100 + doy) as Edoe by (subst doy; lia). clearbody doy.
  assert (z = era * 146097 + doe - 719468) as Ez by (subst doe; lia). clearbody doe. clearbody era.
  set (mp := (5 * doy + 2) / 153). assert (0 ≤ mp ≤ 11) as Hmp by (subst mp; dlia).
  assert (0 ≤ doy - (153 * mp + 2) / 5 ≤ 30) as Hday by (subst mp; dlia). clearbody mp.
  intros [= <- <- <-]. unfold days_from_civil.
  destruct (Z.ltb_spec mp 10).
  - rewrite (proj2 (Z.leb_gt (mp + 3) 2)), (proj2 (Z.ltb_lt 2 (mp + 3))) by lia.
    rewrite Z.add_0_r, Z.div_add, (Z.div_small yoe) by lia. split; [|lia].
    replace (yoe + era * 400 - (0 + era) * 400) with yoe by lia. replace (mp + 3 - 3) with mp by lia. lia.
  - rewrite (proj2 (Z.leb_le (mp - 9) 2)), (proj2 (Z.ltb_ge 2 (mp - 9))) by lia.
    replace (yoe + era * 400 + 1 - 1) with (yoe + era * 400) by lia.
    rewrite Z.div_add, (Z.div_small yoe) by lia. split; [|lia].
    replace (yoe + era * 400 - (0 + era) * 400) with yoe by lia. replace (mp - 9 + 9) with mp by lia. lia.
Qed.

(** The instants of a [datetime]: years 1 to 9999. *)
Definition in_datetime (t : time) : Prop := 1 ≤ (civil_from_days (t / 86400000000)).1.1 ≤ 9999.

Lemma fraction_pad n : 0 ≤ n < 1000000 → fraction 100000 (pad 6 n +:+ "+00:00") = (n, "+00:00").
Proof.
  intros Hn.
  assert (∀ d w s, 0 ≤ d < 10 → fraction w (String (ascii_of_nat (Z.to_nat (48 + d))) s)
    = let '(f, rest) := fraction (w / 10) s in (d * w + f, rest)) as Hf.
  { intros d w s Hd. destruct (digit_char d Hd) as [H1 H2]. cbn [fraction]. by rewrite H1, H2. }
  assert (pad 6 n +:+ "+00:00" =
    String (ascii_of_nat (Z.to_nat (48 + n / 10 / 10 / 10 / 10 / 10 mod 10)))
      (String (ascii_of_nat (Z.to_nat (48 + n / 10 / 10 / 10 / 10 mod 10)))
      (String (ascii_of_nat (Z.to_nat (48 + n / 10 / 10 / 10 mod 10)))
      (String (ascii_of_nat (Z.to_nat (48 + n / 10 / 10 mod 10)))
      (String (ascii_of_nat (Z.to_nat (48 + n / 10 mod 10)))
      (String (ascii_of_nat (Z.to_nat (48 + n mod 10))) "+00:00")))))) as -> by reflexivity.
  do 6 (rewrite Hf by dlia). change (fraction (100000 / 10 / 10 / 10 / 10 / 10 / 10) "+00:00") with (0, "+00:00").
  cbv beta iota. f_equal. change (100000 / 10) with 10000. change (10000 / 10) with 1000.
  change (1000 / 10) with 100. change (100 / 10) with 10. change (10 / 10) with 1. dlia.
Qed.

Lemma digits2 n rest : 0 ≤ n < 100 → digits 2 0 (pad 2 n +:+ rest) = Some (n, rest).
Proof. intros Hn. by rewrite digits_pad. Qed.

Lemma iso_time_pad h m s micro : 0 ≤ h < 24 → 0 ≤ m < 60 → 0 ≤ s < 60 → 0 ≤ micro < 1000000 →
  iso_time (pad 2 h +:+ ":" +:+ pad 2 m +:+ ":" +:+ pad 2 s
    +:+ (if micro =? 0 then "" else "." +:+ pad 6 micro) +:+ "+00:00")
  = Some ((h * 3600 + m * 60 + s) * 1000000 + micro, "+00:00").
Proof.
  intros Hh Hm Hs Hf. unfold iso_time. rewrite digits2 by lia. cbn [mbind option_bind].
  change (expect ":" (":" +:+ ?x)) with (Some x). cbv beta iota. rewrite digits2 by lia. cbn [mbind option_bind].
  change (expect ":" (":" +:+ ?x)) with (Some x). cbv beta iota. rewrite digits2 by lia. cbn [mbind option_bind].
  rewrite (proj2 (Z.ltb_lt h 24)), (proj2 (Z.ltb_lt m 60)), (proj2 (Z.ltb_lt s 60)) by lia. cbn [andb].
  destruct (Z.eqb_spec micro 0) as [->|Hz]; [reflexivity|].
  rewrite app_assoc_str. pose proof (fraction_pad micro Hf) as Hp.
  assert (∃ d x, 0 ≤ d < 10 ∧ pad 6 micro +:+ "+00:00" = String (ascii_of_nat (Z.to_nat (48 + d))) x)
    as (d & x & Hd & E) by (exists (micro / 10 / 10 / 10 / 10 / 10 mod 10); eexists; split; [dlia|reflexivity]).
  rewrite E in *. change ("." +:+ ?x) with (String "." x). destruct (digit_char d Hd) as [H1 _].
  change (("" +:+ ?x)) with x. cbv beta iota. rewrite H1. cbn [Ascii.eqb Bool.eqb orb andb].
  change (Ascii.eqb "." ".") with true. cbn [orb andb]. by rewrite Hp.
Qed.

(** [datetime.fromisoformat(t.isoformat())] *)
Lemma fromisoformat_isoformat t : in_datetime t → fromisoformat (isoformat t) = Some (t, Some 0).
Proof.
  intros Ht. unfold in_datetime in Ht. unfold isoformat. set (us := t mod 86400000000).
  destruct (civil_from_days (t / 86400000000)) as [[y m] d] eqn:Hc. cbn [fst] in Ht.
  destruct (civil_days _ _ _ _ Hc) as (Hdays & Hm & Hd). unfold fromisoformat.
  rewrite digits_pad by lia. cbn [mbind option_bind]. change (expect "-" ("-" +:+ ?x)) with (Some x).
  cbn [mbind option_bind]. rewrite digits2 by lia. cbn [mbind option_bind].
  change (expect "-" ("-" +:+ ?x)) with (Some x). cbn [mbind option_bind]. rewrite digits2 by lia.
  cbn [mbind option_bind]. replace (0 * 10 ^ Z.of_nat 4 + y) with y by lia.
  assert (valid_date y m d = true) as ->.
  { unfold valid_date. rewrite Hdays, (bool_decide_eq_true_2 (_ = _)) by done. lia. }
  cbn [negb]. change ("T" +:+ ?x) with (String "T" x). cbv beta iota.
  rewrite iso_time_pad by (subst us; dlia). cbn [mbind option_bind].
  change (iso_offset "+00:00") with (Some (Some 0)). cbn [mbind option_bind]. rewrite Hdays.
  do 2 f_equal. subst us. dlia.
Qed.

(** ** The codec *)

Lemma validate_error ttl now p h e : validate_payload ttl now p h = Raise e → e = InvalidCursor.
Proof.
  unfold validate_payload. destruct (_ || _); [by intros [= <-]|].
  destruct (fromisoformat _) as [[? [?|]]|]; [|by intros [= <-]..].
  destruct (_ || _); [by intros [= <-]|]. destruct h as [h|]; [|done]. destruct (String.eqb _ _); [done|by intros [= <-]].
Qed.

Lemma payload_of_error raw e : payload_of raw = Raise e → e = InvalidCursor.
Proof.
  unfold payload_of. destruct raw; try by intros [= <-]. destruct (negb _); [by intros [= <-]|].
  destruct (member "version" l) as [[]|], (member "issued_at" l) as [[]|], (member "created_at" l) as [[]|],
    (member "db_instance_id" l) as [[]|], (member "filter_hash" l) as [[]|]; by intros [= <-].
Qed.

Section codec_theorems.
  Context (codec : SignedCursorCodec).

Lemma signature_bytes s : signature codec s ≠ [] ∧ Forall byte (signature codec s).
Proof.
  unfold signature, hmac_sha256. set (msg := (_ ++ _) : list Z). clearbody msg.
  destruct (sha256_digest msg) as [Hl Hb]. split; [|exact Hb]. intros E. by rewrite E in Hl.
Qed.

Lemma payload_text_nonempty p : utf8 (canonical_payload p) ≠ [].
Proof. rewrite canonical_shape. discriminate. Qed.

Lemma decode_encoded now p h :
  Z.of_nat (String.length (encoded codec p)) ≤ 4096 → validate_payload (sc_ttl_seconds codec) now p (Some h) = Ret tt →
  decode codec now (encoded codec p) h = Ret p.
Proof.
  intros Hlen Hv. unfold decode. rewrite (proj2 (Z.ltb_ge 4096 _)) by exact Hlen. unfold encoded.
  set (text := encode_base64url (utf8 (canonical_payload p))).
  destruct (signature_bytes text) as [Hn Hb].
  rewrite split_dot by (apply b64_text_encode, utf8_bytes). rewrite b64_text_no_dot by by apply b64_text_encode.
  assert (decode_base64url text = Ret (utf8 (canonical_payload p))) as ->
    by (apply decode_encode_base64url; [apply payload_text_nonempty|apply utf8_bytes]).
  cbn [mbind outcome_bind].
  rewrite decode_encode_base64url by done. cbn [mbind outcome_bind]. rewrite (bool_decide_eq_true_2 (_ = _)) by done.
  cbn [negb]. rewrite loads_bytes_canonical. cbn [mbind outcome_bind]. rewrite payload_of_raw. cbn [mbind outcome_bind].
  rewrite (bool_decide_eq_true_2 (_ = _)) by done. cbn [negb]. rewrite Hv. reflexivity.
Qed.

Lemma decode_inv now c h p : decode codec now c h = Ret p →
  Z.of_nat (String.length c) ≤ 4096 ∧ c = encoded codec p ∧ validate_payload (sc_ttl_seconds codec) now p (Some h) = Ret tt.
Proof.
  unfold decode. destruct (Z.ltb_spec 4096 (Z.of_nat (String.length c))) as [|Hlen]; [done|].
  destruct (split_once "." c) as [[text sig]|] eqn:Hs; [|done]. apply split_dot_inv in Hs as ->.
  destruct (contains "." sig); [done|].
  destruct (decode_base64url text) as [bytes|] eqn:Ht; [|done]. cbn [mbind outcome_bind].
  destruct (decode_base64url sig) as [given|] eqn:Hg; [|done]. cbn [mbind outcome_bind].
  apply decode_base64url_inv in Ht, Hg. destruct (bool_decide_reflect (given = signature codec text)) as [->|]; [|done].
  cbn [negb]. destruct (loads_bytes bytes) as [raw|]; [|done]. cbn [mbind outcome_bind].
  destruct (payload_of raw) as [q|]; [|done]. cbn [mbind outcome_bind].
  destruct (bool_decide_reflect (utf8 (canonical_payload q) = bytes)) as [<-|]; [|done]. cbn [negb].
  destruct (validate_payload (sc_ttl_seconds codec) now q (Some h)) as [[]|] eqn:Hv; [|done]. cbn. intros [= <-].
  split; [exact Hlen|]. split; [|exact Hv]. unfold encoded. by rewrite <-Ht, <-Hg.
Qed.

Lemma decode_raises now c h e : decode codec now c h = Raise e → e = InvalidCursor.
Proof.
  unfold decode. destruct (4096 <? _); [by intros [= <-]|].
  destruct (split_once "." c) as [[text sig]|]; [|by intros [= <-]]. destruct (contains "." sig); [by intros [= <-]|].
  destruct (decode_base64url text) as [bytes|] eqn:Ht; cbn [mbind outcome_bind];
    [|intros [= <-]; by apply decode_base64url_error in Ht].
  destruct (decode_base64url sig) as [given|] eqn:Hg; cbn [mbind outcome_bind];
    [|intros [= <-]; by apply decode_base64url_error in Hg].
  destruct (negb _); [by intros [= <-]|]. unfold loads_bytes.
  destruct (utf8_decode bytes ≫= loads) as [raw|]; cbn [mbind outcome_bind]; [|by intros [= <-]].
  destruct (payload_of raw) as [q|] eqn:Hq; cbn [mbind outcome_bind];
    [|intros [= <-]; by apply payload_of_error in Hq].
  destruct (negb _); [by intros [= <-]|].
  destruct (validate_payload _ _ _ _) as [[]|] eqn:Hv; cbn; [done|]. intros [= <-]. by apply validate_error in Hv.
Qed.

(** C32: A cursor is the text of its payload under the server's key.  [decode]
    accepts a text exactly when it is not longer than 4096 characters and is,
    character for character, the text [encode] makes of the payload returned
    (canonical JSON, base64url, HMAC), and that payload is valid now for the
    filters asked for: no other spelling of a payload passes, and every refusal
    is the same error. *)
Theorem cursor_authentic now c h p :
  (decode codec now c h = Ret p ↔
     Z.of_nat (String.length c) ≤ 4096 ∧ c = encoded codec p
     ∧ validate_payload (sc_ttl_seconds codec) now p (Some h) = Ret tt)
  ∧ ∀ e, decode codec now c h = Raise e → e = InvalidCursor.
Proof.
  split; [|apply decode_raises]. split; [apply decode_inv|]. intros (Hl & -> & Hv). by apply decode_encoded.
Qed.
End codec_theorems.
