(* ===== verification/Listing.v ===== *)
(** * Listing database instances ([server/core/db_instance_query.py])

    The rows a principal may see, from bindings and from provisioned resources,
    in one page after a signed cursor; each row is then resolved to what the
    principal may do with it.  The session only reads. *)

From S2P Require Import Prelude PyString Models AdapterInterface Ddl Hashing Contract Selector.
From S2P Require Import Service.
From S2P Require Import AccessControl Cursor.

(** ** What the query reads

    The provisioning tables, those of access control over the same Agents,
    instances and credentials, and the column [created_at] of instances. *)
Record ListDB : Type := mk_list_db {
  ls_db : DB;
  ls_users : gmap string UserStatus.t;
  ls_user_departments : gmap string UserDepartment;
  ls_user_bindings : gmap string UserInstanceBinding;
  ls_department_bindings : gmap string DepartmentInstanceBinding;
  ls_agent_bindings : gmap string AgentInstanceBinding;
  ls_user_capabilities : gset (string * BindingCapability.t);
  ls_agent_capabilities : gset (string * BindingCapability.t);
  ls_created_at : string → time
}.

#[export] Instance ListDB_eta : Eta ListDB := λ x,
  mk_list_db (ls_db x) (ls_users x) (ls_user_departments x) (ls_user_bindings x)
    (ls_department_bindings x) (ls_agent_bindings x) (ls_user_capabilities x) (ls_agent_capabilities
    x) (ls_created_at x).

Definition access_db (l : ListDB) : AccessDB :=
  mk_access_db (ls_users l) (agents (ls_db l)) (instances (ls_db l)) (credentials (ls_db l))
    (ls_user_departments l) (ls_user_bindings l) (ls_department_bindings l) (ls_agent_bindings l)
    (ls_user_capabilities l) (ls_agent_capabilities l).

(** ** Filters *)

Definition InstanceStatus_value (s : InstanceStatus.t) : string :=
  match s with
  | InstanceStatus.CREATING => "creating"
  | InstanceStatus.ACTIVE => "active"
  | InstanceStatus.STOPPED => "stopped"
  | InstanceStatus.FAILED => "failed"
  end.
Definition instance_statuses : list InstanceStatus.t :=
  [InstanceStatus.CREATING; InstanceStatus.ACTIVE; InstanceStatus.STOPPED; InstanceStatus.FAILED].
Definition resource_statuses : list DBInstanceStatus.t :=
  [DBInstanceStatus.CREATING; DBInstanceStatus.READY; DBInstanceStatus.FAILED; DBInstanceStatus.DELETING;
   DBInstanceStatus.COOLING_DOWN; DBInstanceStatus.RESTORING; DBInstanceStatus.DELETED;
   DBInstanceStatus.DELETE_FAILED].

Definition VALID_SOURCES : list string := ["auto_provisioned"; "bound"; "provisioned"].
Definition VALID_STATUSES : list string :=
  (InstanceStatus_value <$> instance_statuses) ++ (DBInstanceStatus.value <$> resource_statuses).

Definition InvalidDBInstanceFilter (message : string) : PyExc := exc "InvalidDBInstanceFilter" message.

Record Filters : Type := mk_filters {
  fl_db_type : option string;
  fl_source : option string;
  fl_status : option string
}.

Definition validated_filters (db_type source status : option string) : outcome Filters :=
  db_type ← match db_type with
            | None => Ret None
            | Some t =>
                if String.eqb (lower t) (InstanceEngine.value InstanceEngine.POLARDB_MYSQL) then Ret (Some (lower t))
                else Raise (exc "UnsupportedDBType" "Unsupported database type")
            end;
  source ← match source with
           | None => Ret None
           | Some s =>
               if bool_decide (lower s ∈ VALID_SOURCES) then Ret (Some (lower s))
               else Raise (InvalidDBInstanceFilter "Invalid source filter")
           end;
  status ← match status with
           | None => Ret None
           | Some s =>
               if bool_decide (lower s ∈ VALID_STATUSES) then Ret (Some (upper (lower s)))
               else Raise (InvalidDBInstanceFilter "Invalid status filter")
           end;
  Ret (mk_filters db_type source status).

(** ** Candidate rows *)

Inductive RowKind : Set := PHYSICAL | RESOURCE.

#[export] Instance RowKind_eq_dec : EqDecision RowKind.
Proof. solve_decision. Defined.

Record ListRow : Type := mk_list_row {
  row_kind : RowKind;
  row_id : string;
  row_created_at : time;
  row_source : string
}.

#[export] Instance ListRow_eq_dec : EqDecision ListRow.
Proof. solve_decision. Defined.

Definition physical_source (i : Instance) : string :=
  if bool_decide (i_allocation_mode i ∈ [AllocationMode.AUTO_PROVISIONED; AllocationMode.POOLED])
  then "auto_provisioned" else "bound".

(** The conditions the filters add to the statement on an instance whose source
    is [source]; [sources] are those a physical instance of the statement has. *)
Definition engine_matches (filters : Filters) (e : InstanceEngine.t) : bool :=
  match fl_db_type filters with Some _ => e == InstanceEngine.POLARDB_MYSQL | None => true end.
Definition source_matches (filters : Filters) (sources : list string) (source : string) : bool :=
  match fl_source filters with
  | Some s => if bool_decide (s ∈ sources) then String.eqb source s else false
  | None => true
  end.
Definition physical_status_matches (filters : Filters) (s : InstanceStatus.t) : bool :=
  match fl_status filters with
  | Some v => existsb (λ x, String.eqb (InstanceStatus_value x) (lower v) && (s == x)) instance_statuses
  | None => true
  end.
Definition physical_matches (filters : Filters) (sources : list string) (source : string) (i : Instance) : bool :=
  engine_matches filters (i_engine i) && source_matches filters sources source
  && physical_status_matches filters (i_status i).

Definition MANAGEMENT_CAPABILITIES : list BindingCapability.t :=
  [BindingCapability.DB_INSTANCE_LIST; BindingCapability.DB_INSTANCE_DESCRIBE;
   BindingCapability.DB_INSTANCE_CREDENTIALS_READ].

(** The join with the capabilities of a binding. *)
Definition manages (binding_id : string) (rows : gset (string * BindingCapability.t)) : bool :=
  existsb (λ c, bool_decide ((binding_id, c) ∈ rows)) MANAGEMENT_CAPABILITIES.

Section rows.
  Context (l : ListDB).

Definition physical_row (source : string) (i : Instance) : ListRow :=
  mk_list_row PHYSICAL (i_id i) (ls_created_at l (i_id i)) source.

Definition direct_credential (instance_id : string) (credential_id : string) : bool :=
  match credentials (ls_db l) !! credential_id with
  | Some c => direct_access_credential_sql_predicate instance_id false c
  | None => false
  end.

(** The row of a user's binding. *)
Definition user_binding_row (user_id : string) (filters : Filters) (b : UserInstanceBinding) : option ListRow :=
  i ← instances (ls_db l) !! ub_instance_id b;
  credential_id ← ub_credential_id b;
  if (ub_user_id b == user_id) && ub_enabled b && (ub_origin b == BindingOrigin.ADMIN)
     && (ls_users l !! ub_user_id b == Some UserStatus.ACTIVE)
     && manages (ub_id b) (ls_user_capabilities l)
     && direct_credential (i_id i) credential_id
     && physical_matches filters ["auto_provisioned"; "bound"] (physical_source i) i
  then Some (physical_row (physical_source i) i) else None.

(** [SELECT DISTINCT] *)
Definition user_rows (user_id : string) (filters : Filters) : list ListRow :=
  remove_dups (omap (user_binding_row user_id filters) (map_to_list (ls_user_bindings l)).*2).

Definition agent_binding_row (agent_id : string) (filters : Filters) (b : AgentInstanceBinding) : option ListRow :=
  a ← agents (ls_db l) !! ag_agent_id b;
  i ← instances (ls_db l) !! ag_instance_id b;
  if (ag_agent_id b == agent_id) && ag_enabled b && (a_status a == AgentStatus.ACTIVE)
     && manages (ag_id b) (ls_agent_capabilities l)
     && direct_credential (i_id i) (ag_credential_id b)
     && physical_matches filters ["bound"] "bound" i
  then Some (physical_row "bound" i) else None.

Definition agent_rows (agent_id : string) (filters : Filters) : list ListRow :=
  remove_dups (omap (agent_binding_row agent_id filters) (map_to_list (ls_agent_bindings l)).*2).

(** The instances a user is bound to, or a department of theirs. *)
Definition personal_instance_ids (user_id : string) : gset string :=
  list_to_set (ub_instance_id <$> filter (λ b, ub_user_id b = user_id) (map_to_list (ls_user_bindings l)).*2)
  ∪ list_to_set (b ← (map_to_list (ls_department_bindings l)).*2;
                 m ← (map_to_list (ls_user_departments l)).*2;
                 if (ud_department_id m == db_department_id b) && (ud_user_id m == user_id)
                 then [db_instance_id b] else []).

Definition personal_rows (user_id : string) (filters : Filters) : list ListRow :=
  omap (λ i,
    if bool_decide (i_id i ∈ personal_instance_ids user_id)
       && physical_matches filters ["auto_provisioned"; "bound"] (physical_source i) i
    then Some (physical_row (physical_source i) i) else None) (map_to_list (instances (ls_db l))).*2.

Definition resource_status_matches (filters : Filters) (s : DBInstanceStatus.t) : bool :=
  match fl_status filters with
  | Some v => existsb (λ x, String.eqb (DBInstanceStatus.value x) (lower v) && (s == x)) resource_statuses
  | None => s != DBInstanceStatus.DELETED
  end.

Definition resource_row (agent_id : string) (filters : Filters) (r : DBInstanceResource) : option ListRow :=
  a ← agents (ls_db l) !! r_owner_agent_id r;
  if (r_owner_agent_id r == agent_id) && (a_status a == AgentStatus.ACTIVE)
     && engine_matches filters (r_engine r) && source_matches filters ["provisioned"] "provisioned"
     && resource_status_matches filters (r_status r)
  then Some (mk_list_row RESOURCE (r_id r) (r_created_at r) "provisioned") else None.

Definition resource_rows (agent_id : string) (filters : Filters) : list ListRow :=
  omap (resource_row agent_id filters) (map_to_list (resources (ls_db l))).*2.

(** [union_all]; a user has no resources. *)
Definition accessible (principal : Principal) (personal : bool) (filters : Filters) : list ListRow :=
  match pk_kind principal with
  | USER => if personal then personal_rows (pk_id principal) filters else user_rows (pk_id principal) filters
  | AGENT => agent_rows (pk_id principal) filters ++ resource_rows (pk_id principal) filters
  end.
End rows.

(** [ORDER BY created_at DESC, db_instance_id DESC]; ids are compared as SQL
    compares their texts, byte by byte. *)
Definition row_le (a b : ListRow) : bool :=
  (row_created_at b <? row_created_at a)
  || ((row_created_at a =? row_created_at b) && String.leb (row_id b) (row_id a)).

(** The rows after a cursor. *)
Definition after_cursor (created_at : time) (db_instance_id : string) (r : ListRow) : bool :=
  (row_created_at r <? created_at)
  || ((row_created_at r =? created_at) && String.ltb (row_id r) db_instance_id).

(** ** Views *)

Record DBInstanceView : Type := mk_view {
  vw_db_instance_id : string;
  vw_name : option string;
  vw_usage : option string;
  vw_db_type : string;
  vw_source : string;
  vw_status : string;
  vw_permission : option string;
  vw_capabilities : list string;
  vw_created_at : time
}.

Definition permission_value (p : AccessControl.Permission.t) : string :=
  match p with AccessControl.Permission.READONLY => "readonly" | AccessControl.Permission.READWRITE => "readwrite" end.

Definition capability_name (c : BindingCapability.t) : string :=
  match c with
  | BindingCapability.DB_INSTANCE_LIST => "list"
  | BindingCapability.DB_INSTANCE_DESCRIBE => "describe"
  | BindingCapability.DB_INSTANCE_CREDENTIALS_READ => "credentials_read"
  | BindingCapability.SQL_READ => "run_sql_read"
  | BindingCapability.SQL_WRITE => "run_sql_write"
  end.

(** The names of the capabilities, which [members] lists in their order. *)
Definition capability_names (access : EffectiveInstanceAccess) : list string :=
  capability_name <$> filter (λ c, c ∈ ea_capabilities access) BindingCapability.members.

Section views.
  Context {X : Type} `{TenantServices X}.
  Context (order : gset BindingCapability.t → list BindingCapability.t).
  Context (l : ListDB).

Definition resolve_access (principal : Principal) (instance_id : string) : outcome (option EffectiveInstanceAccess) :=
  match pk_kind principal with
  | USER => resolve_user_instance_access order (pk_id principal) instance_id (access_db l)
  | AGENT => resolve_agent_instance_access order (pk_id principal) instance_id (access_db l)
  end.

Definition listable (personal : bool) (access : EffectiveInstanceAccess) : bool :=
  bool_decide (BindingCapability.DB_INSTANCE_LIST ∈ ea_capabilities access)
  || (personal && bool_decide (is_Some (ea_permission access))
      && bool_decide (BindingCapability.SQL_READ ∈ ea_capabilities access)).

Definition physical_view (principal : Principal) (personal : bool) (instance_id source : string)
    : outcome (option DBInstanceView) :=
  access ← resolve_access principal instance_id;
  match access with
  | None => Ret None
  | Some access =>
      if negb (listable personal access) then Ret None
      else
        let instance := ea_instance access in
        Ret (Some {| vw_db_instance_id := i_id instance;
                     vw_name := Some (i_name instance);
                     vw_usage := i_usage instance;
                     vw_db_type := InstanceEngine.value (i_engine instance);
                     vw_source := source;
                     vw_status := upper (InstanceStatus_value (i_status instance));
                     vw_permission := permission_value <$> ea_permission access;
                     vw_capabilities := capability_names access;
                     vw_created_at := ls_created_at l (i_id instance) |})
  end.

Definition resource_view (db_instance_id : string) : option DBInstanceView :=
  resource ← resources (ls_db l) !! db_instance_id;
  let capabilities := resource_capabilities (mk_loaded resource (resource_credentials (r_id resource) (ls_db l))) None in
  let credential_is_usable := bool_decide ("credentials_read" ∈ capabilities) in
  Some {| vw_db_instance_id := r_id resource;
          vw_name := r_name resource;
          vw_usage := None;
          vw_db_type := InstanceEngine.value (r_engine resource);
          vw_source := "provisioned";
          vw_status := upper (DBInstanceStatus.value (r_status resource));
          vw_permission :=
            if (r_status resource == DBInstanceStatus.READY) && credential_is_usable then Some "readwrite" else None;
          vw_capabilities := capabilities;
          vw_created_at := r_created_at resource |}.

Definition row_view (principal : Principal) (personal : bool) (row : ListRow) : outcome (option DBInstanceView) :=
  match row_kind row with
  | RESOURCE => Ret (resource_view (row_id row))
  | PHYSICAL => physical_view principal personal (row_id row) (row_source row)
  end.

(** The views of the visible rows. *)
Fixpoint row_views (principal : Principal) (personal : bool) (rows : list ListRow) : outcome (list DBInstanceView) :=
  match rows with
  | [] => Ret []
  | row :: rows =>
      view ← row_view principal personal row;
      rest ← row_views principal personal rows;
      Ret (match view with Some v => v :: rest | None => rest end)
  end.

(** ** The query *)

Record DBInstancePage : Type := mk_page {
  pg_instances : list DBInstanceView;
  pg_has_more : bool;
  pg_next_cursor : option string
}.

Definition listing_filter_hash (principal : Principal) (personal : bool) (filters : Filters) : string :=
  let filter_hash := hash_filters (fl_db_type filters) (fl_source filters) (fl_status filters) in
  if personal then sha256_hex ("personal:" +:+ pk_id principal +:+ ":" +:+ filter_hash) else filter_hash.

(** The position a cursor stands for: an aware datetime and an id. *)
Definition cursor_position (payload : CursorPayload) : outcome (time * string) :=
  match fromisoformat (cp_created_at payload) with
  | Some (t, offset) => Ret (t - default 0 offset, cp_db_instance_id payload)
  | None => Raise (ValueError "Invalid isoformat string")
  end.

(** The statement: the rows after the cursor, in order, one more than a page. *)
Definition select_rows (principal : Principal) (personal : bool) (filters : Filters)
    (position : option (time * string)) (limit : nat) : list ListRow :=
  let rows := accessible l principal personal filters in
  let rows :=
    match position with
    | Some (created_at, id) => filter (λ r, after_cursor created_at id r = true) rows
    | None => rows
    end in
  take (limit + 1) (sorted row_le rows).

(** The row a next page starts after. *)
Definition last_position (personal : bool) (rows : list ListRow) (instances : list DBInstanceView)
    : option (time * string) :=
  if personal then (λ r, (row_created_at r, row_id r)) <$> last rows
  else (λ v, (vw_created_at v, vw_db_instance_id v)) <$> last instances.

(** [now] is the clock of the call, in seconds. *)
Definition query_db_instances (codec : SignedCursorCodec) (now : Z) (principal : Principal)
    (cursor : option string) (limit : Z) (db_type source status : option string) (personal : bool)
    : outcome DBInstancePage :=
  if negb ((1 <=? limit) && (limit <=? 200)) then Raise (ValueError "limit must be between 1 and 200")
  else
    filters ← validated_filters db_type source status;
    let filter_hash := listing_filter_hash principal personal filters in
    position ← match cursor with
               | None => Ret None
               | Some c => payload ← decode codec now c filter_hash; position ← cursor_position payload; Ret (Some position)
               end;
    let rows := select_rows principal personal filters position (Z.to_nat limit) in
    let has_more := limit <? Z.of_nat (length rows) in
    let rows := take (Z.to_nat limit) rows in
    instances ← row_views principal personal rows;
    next_cursor ← match last_position personal rows instances with
                  | Some (created_at, id) =>
                      if has_more then
                        c ← encode codec now (mk_cursor_payload 1 now (isoformat created_at) id filter_hash);
                        Ret (Some c)
                      else Ret None
                  | None => Ret None
                  end;
    Ret (mk_page instances has_more next_cursor).

(** A client that follows the cursors: all the instances of its pages.  The
    [k]-th call reads [clock k]. *)
Fixpoint walk (fuel k : nat) (codec : SignedCursorCodec) (clock : nat → Z) (principal : Principal)
    (cursor : option string) (limit : Z) (db_type source status : option string) (personal : bool)
    : outcome (list DBInstanceView) :=
  match fuel with
  | O => Raise (RuntimeError "out of fuel")
  | S fuel =>
      page ← query_db_instances codec (clock k) principal cursor limit db_type source status personal;
      match pg_next_cursor page with
      | None => Ret (pg_instances page)
      | Some c =>
          rest ← walk fuel (S k) codec clock principal (Some c) limit db_type source status personal;
          Ret (pg_instances page ++ rest)
      end
  end.
End views.
