(* ===== verification/ListingTheorems.v ===== *)
(** * Pages of a listing

    Following the cursors lists every row the principal may see exactly once, in
    order, and the rows the query selects are rows the access rules let the
    principal see. *)

From S2P Require Import Prelude PyString Models AdapterInterface Ddl Permission Hashing Contract.
From S2P Require Import Selector Service.
From S2P Require Import Capacity Examples AdapterTheorems PolicyTheorems AccessControl.
From S2P Require Import AccessTheorems Cursor Listing.

(** ** Lists *)

Lemma NoDup_omap_values {V B} (f : V → option B) (m : gmap string V) :
  (∀ k1 v1 k2 v2 b, m !! k1 = Some v1 → m !! k2 = Some v2 → f v1 = Some b → f v2 = Some b → k1 = k2) →
  NoDup (omap f (map_to_list m).*2).
Proof.
  intros Hinj. assert (∀ kvs : list (string * V), NoDup kvs.*1 → (∀ k v, (k, v) ∈ kvs → m !! k = Some v) →
    NoDup (omap f kvs.*2)) as H; [|apply H; [apply NoDup_fst_map_to_list|by intros k v ?%elem_of_map_to_list]].
  induction kvs as [|[k v] kvs IH]; intros Hnd Hm; [constructor|]. cbn in Hnd |- *.
  apply NoDup_cons in Hnd as [Hk Hnd]. specialize (IH Hnd ltac:(intros; apply Hm; by right)).
  destruct (f v) as [b|] eqn:Hb; [|exact IH]. apply NoDup_cons. split; [|exact IH].
  intros (v' & Hv' & Hb')%list_elem_of_omap. apply list_elem_of_fmap in Hv' as ([k' v''] & -> & Hin). cbn in Hb'.
  assert (k = k') as <- by (eapply Hinj; [apply Hm; left|apply Hm; right; exact Hin|exact Hb|exact Hb']).
  apply Hk, list_elem_of_fmap. by exists (k, v'').
Qed.

Lemma filter_nothing {A} (P : A → Prop) `{!∀ x, Decision (P x)} l : (∀ x, x ∈ l → ¬ P x) → filter P l = [].
Proof.
  intros Hl. induction l as [|x l IH]; [done|]. rewrite filter_cons_False by (apply Hl; left).
  apply IH. intros y Hy. apply Hl. by right.
Qed.

(** A condition that at most one row of a table satisfies. *)
Lemma filter_values_unique {V} (P : V → Prop) `{!∀ v, Decision (P v)} (m : gmap string V) :
  (∀ k1 v1 k2 v2, m !! k1 = Some v1 → m !! k2 = Some v2 → P v1 → P v2 → k1 = k2) →
  filter P (map_to_list m).*2 = [] ∧ (∀ k v, m !! k = Some v → ¬ P v)
  ∨ ∃ k v, m !! k = Some v ∧ P v ∧ filter P (map_to_list m).*2 = [v].
Proof.
  intros Hu. destruct (filter P (map_to_list m).*2) as [|v [|w l]] eqn:E.
  - left. split; [done|]. intros k v Hk Hv. apply (not_elem_of_nil v). rewrite <-E. apply list_elem_of_filter.
    split; [done|]. apply list_elem_of_fmap. exists (k, v). split; [done|]. by apply elem_of_map_to_list.
  - right. assert (v ∈ [v]) as Hv by left. rewrite <-E in Hv. apply list_elem_of_filter in Hv as [Hv Hin].
    apply list_elem_of_fmap in Hin as ([k v'] & -> & Hk%elem_of_map_to_list). by exists k, v'.
  - exfalso. revert E. assert (∀ kvs : list (string * V), NoDup kvs.*1 → (∀ k v, (k, v) ∈ kvs → m !! k = Some v) →
      (length (filter P kvs.*2) ≤ 1)%nat) as Hlen.
    { induction kvs as [|[k x] kvs IH]; intros Hnd Hm; [cbn; lia|]. rewrite fmap_cons in Hnd. apply NoDup_cons in Hnd as [Hk Hnd].
      specialize (IH Hnd ltac:(intros; apply Hm; by right)). change (((k, x) :: kvs).*2) with (x :: kvs.*2).
      destruct (decide (P x)); [rewrite filter_cons_True by done|by rewrite filter_cons_False].
      assert (filter P kvs.*2 = []) as ->; [|cbn; lia]. apply filter_nothing. intros y Hy Py.
      apply list_elem_of_fmap in Hy as ([k' y'] & -> & Hin). apply Hk.
      rewrite (Hu k x k' y' (Hm _ _ ltac:(left)) (Hm _ _ ltac:(by right)) ltac:(done) Py).
      apply list_elem_of_fmap. by exists (k', y'). }
    intros E. specialize (Hlen (map_to_list m) ltac:(apply NoDup_fst_map_to_list) ltac:(by intros ?? ?%elem_of_map_to_list)).
    rewrite E in Hlen. cbn in Hlen. lia.
Qed.

(** ** The order of rows *)

Lemma compare_same s : String.compare s s = Eq.
Proof. pose proof (String.compare_antisym s s). by destruct (String.compare s s). Qed.

Lemma string_le_compare a b : String.leb a b = true ↔ String.compare a b ≠ Gt.
Proof. unfold String.leb. destruct (String.compare a b); split; congruence. Qed.

Lemma string_lt_compare a b : String.ltb a b = true ↔ String.compare a b = Lt.
Proof. unfold String.ltb. destruct (String.compare a b); split; congruence. Qed.

Lemma row_le_total a b : row_le a b = true ∨ row_le b a = true.
Proof.
  unfold row_le. destruct (Z.lt_trichotomy (row_created_at a) (row_created_at b)) as [H|[H|H]].
  - right. apply orb_true_iff. left. by apply Z.ltb_lt.
  - rewrite H, Z.eqb_refl. cbn. destruct (String.leb_total (row_id a) (row_id b)) as [->| ->]; rewrite orb_true_r; auto.
  - left. apply orb_true_iff. left. by apply Z.ltb_lt.
Qed.

Lemma row_le_spec a b : row_le a b = true ↔
  row_created_at b < row_created_at a ∨ row_created_at a = row_created_at b ∧ String.leb (row_id b) (row_id a) = true.
Proof. unfold row_le. rewrite orb_true_iff, andb_true_iff, Z.ltb_lt, Z.eqb_eq. done. Qed.

Lemma row_le_trans a b c : row_le a b = true → row_le b c = true → row_le a c = true.
Proof.
  rewrite !row_le_spec. intros [H1|[E1 H1]] [H2|[E2 H2]]; [left; lia..|right].
  split; [congruence|]. by eapply score_trans.
Qed.

Lemma row_le_antisym a b : row_le a b = true → row_le b a = true →
  row_created_at a = row_created_at b ∧ row_id a = row_id b.
Proof.
  rewrite !row_le_spec. intros [H1|[E1 H1]] [H2|[E2 H2]]; [lia..|]. split; [done|]. by apply String.leb_antisym.
Qed.

(** After a row: below it and not at its key. *)
Lemma after_cursor_spec a b : after_cursor (row_created_at a) (row_id a) b = true ↔
  row_le a b = true ∧ ¬ (row_created_at a = row_created_at b ∧ row_id a = row_id b).
Proof.
  unfold after_cursor. rewrite orb_true_iff, andb_true_iff, Z.ltb_lt, Z.eqb_eq, row_le_spec, string_lt_compare, string_le_compare.
  split.
  - intros [H|[E H]]; [split; [by left|lia]|]. split; [right; split; [done|congruence]|].
    intros [_ Hid]. rewrite Hid, compare_same in H. done.
  - intros [[H|[E H]] Hn]; [by left|right]. split; [done|]. destruct (String.compare (row_id b) (row_id a)) eqn:Hc; [|done..].
    exfalso. apply Hn. split; [done|]. symmetry. by apply String.compare_eq_iff in Hc.
Qed.

Section paging.
  Context (rows : list ListRow) (Hnd : NoDup rows).
  Context (Hkey : ∀ a b, a ∈ rows → b ∈ rows → row_id a = row_id b → a = b).

Lemma all_sorted l : StronglySorted (λ a b, row_le a b = true) (sorted row_le l).
Proof.
  apply (sorted_sorted _ (λ _, True)); [intros; apply row_le_total|intros a b c _ _ _; apply row_le_trans|].
  by apply Forall_true.
Qed.

(** What a page starts with, after the row [x]. *)
Lemma rows_after pre x rest : sorted row_le rows = pre ++ x :: rest →
  sorted row_le (filter (λ r, after_cursor (row_created_at x) (row_id x) r = true) rows) = rest.
Proof.
  intros Hall. pose proof (sorted_perm row_le rows) as Hp. pose proof (all_sorted rows) as Hs. rewrite Hall in *.
  assert (NoDup (pre ++ x :: rest)) as Hnd' by by rewrite Hp.
  assert (∀ a b, a ∈ pre ++ x :: rest → b ∈ pre ++ x :: rest → row_id a = row_id b → a = b) as Hkey'.
  { intros a b Ha Hb. rewrite Hp in Ha, Hb. by apply Hkey. }
  apply (StronglySorted_unique_strong (λ a b, row_le a b = true)).
  - intros a b Ha Hb H1 H2. rewrite sorted_perm in Ha. apply list_elem_of_filter in Ha as [_ Ha].
    destruct (row_le_antisym a b H1 H2) as [_ Hid]. apply Hkey; [done| |done].
    rewrite <-Hp. apply elem_of_app. right. by right.
  - apply all_sorted.
  - clear -Hs. induction pre as [|y pre IH]; [by inversion Hs|]. inversion Hs; auto.
  - rewrite sorted_perm, <-Hp. rewrite filter_app.
    assert (filter (λ r, after_cursor (row_created_at x) (row_id x) r = true) pre = []) as ->.
    { apply filter_nothing. intros y Hy [Hle Hne]%after_cursor_spec.
      assert (row_le y x = true) as Hyx.
      { clear -Hs Hy. induction pre as [|z pre IH]; [by inversion Hy|]. inversion Hs as [|? ? Hs' Hf]; subst.
        apply elem_of_cons in Hy as [->|Hy]; [|by apply IH]. rewrite Forall_forall in Hf. apply Hf. set_solver. }
      destruct (row_le_antisym _ _ Hyx Hle) as [? ?]. by apply Hne. }
    cbn [app]. rewrite filter_cons_False by (rewrite after_cursor_spec; intros [_ Hn]; by apply Hn).
    assert (filter (λ r, after_cursor (row_created_at x) (row_id x) r = true) rest = rest) as ->; [|done].
    assert (∀ y, y ∈ rest → after_cursor (row_created_at x) (row_id x) y = true) as Haft.
    { intros y Hy. apply after_cursor_spec. split.
      - clear -Hs Hy. induction pre as [|z pre IH]; inversion Hs as [|? ? Hs' Hf]; subst; [|by apply IH].
        rewrite Forall_forall in Hf. by apply Hf.
      - intros [_ Hid]. assert (x = y) as -> by (apply Hkey'; [set_solver..|done]).
        apply NoDup_app in Hnd' as (_ & _ & [Hx _]%NoDup_cons). done. }
    clear -Haft. induction rest as [|y rest IH]; [done|].
    rewrite filter_cons_True by (apply Haft; left). f_equal. apply IH. intros z Hz. apply Haft. by right.
Qed.
End paging.

(** ** Tables as the migrations keep them *)

Definition id_ok (id : string) : Prop := id ≠ EmptyString ∧ (String.length id ≤ 255)%nat.

(** Primary keys, the unique constraints of the bindings, and ids that are UUIDs:
    no instance has the id of a resource. *)
Record list_wf (l : ListDB) : Prop := {
  lw_instance : ∀ k i, instances (ls_db l) !! k = Some i → i_id i = k ∧ id_ok k ∧ in_datetime (ls_created_at l k);
  lw_resource : ∀ k r, resources (ls_db l) !! k = Some r → r_id r = k ∧ id_ok k ∧ in_datetime (r_created_at r);
  lw_disjoint : ∀ k i r, instances (ls_db l) !! k = Some i → resources (ls_db l) !! k = Some r → False;
  lw_user_binding : ∀ k1 b1 k2 b2, ls_user_bindings l !! k1 = Some b1 → ls_user_bindings l !! k2 = Some b2 →
    ub_user_id b1 = ub_user_id b2 → ub_instance_id b1 = ub_instance_id b2 → k1 = k2;
  lw_agent_binding : ∀ k1 b1 k2 b2, ls_agent_bindings l !! k1 = Some b1 → ls_agent_bindings l !! k2 = Some b2 →
    ag_agent_id b1 = ag_agent_id b2 → ag_instance_id b1 = ag_instance_id b2 → k1 = k2
}.

Section rows.
  Context (l : ListDB) (Hwf : list_wf l).

(** A row is determined by its id. *)
Definition source_for (principal : Principal) (i : Instance) : string :=
  match pk_kind principal with USER => physical_source i | AGENT => "bound" end.
Definition row_at (principal : Principal) (r : ListRow) : Prop :=
  (∃ i, instances (ls_db l) !! row_id r = Some i ∧ r = physical_row l (source_for principal i) i)
  ∨ (∃ x, resources (ls_db l) !! row_id r = Some x ∧ r = mk_list_row RESOURCE (r_id x) (r_created_at x) "provisioned").

Lemma row_at_key principal a b : row_at principal a → row_at principal b → row_id a = row_id b → a = b.
Proof.
  intros [(i & Hi & ->)|(x & Hx & ->)] [(j & Hj & ->)|(y & Hy & ->)] E; cbn [row_id physical_row] in *; rewrite E in *.
  - congruence.
  - exfalso. by eapply lw_disjoint.
  - exfalso. by eapply lw_disjoint.
  - congruence.
Qed.

Lemma physical_row_at principal k i s : instances (ls_db l) !! k = Some i → s = source_for principal i →
  row_at principal (physical_row l s i).
Proof. intros Hi ->. left. exists i. cbn. by destruct (lw_instance _ Hwf _ _ Hi) as [-> _]. Qed.

(** What a row of each statement stands for. *)
Definition user_row_of (user_id : string) (r : ListRow) (b : UserInstanceBinding) (i : Instance) : Prop :=
  (∃ k, ls_user_bindings l !! k = Some b) ∧ instances (ls_db l) !! ub_instance_id b = Some i
  ∧ ub_user_id b = user_id ∧ ub_enabled b = true ∧ ub_origin b = BindingOrigin.ADMIN
  ∧ ls_users l !! user_id = Some UserStatus.ACTIVE ∧ manages (ub_id b) (ls_user_capabilities l) = true
  ∧ r = physical_row l (physical_source i) i.

Lemma user_row_inv user_id filters r : r ∈ user_rows l user_id filters → ∃ b i, user_row_of user_id r b i.
Proof.
  unfold user_rows. rewrite elem_of_remove_dups. intros (b & Hb & Hr)%list_elem_of_omap.
  apply list_elem_of_fmap in Hb as ([k b'] & -> & Hk%elem_of_map_to_list). cbn in Hr. unfold user_binding_row in Hr.
  apply bind_Some in Hr as (i & Hi & Hr). apply bind_Some in Hr as (c & _ & Hr).
  destruct (_ && _) eqn:Hc in Hr; [|done]. injection Hr as <-.
  repeat (apply andb_true_iff in Hc as [Hc ?]). repeat match goal with H : bool_decide _ = true |- _ => apply bool_decide_eq_true in H end.
  exists b', i. unfold user_row_of. split_and!; try done; [by exists k|congruence].
Qed.

Definition agent_row_of (agent_id : string) (r : ListRow) (b : AgentInstanceBinding) (i : Instance) (a : Agent) : Prop :=
  (∃ k, ls_agent_bindings l !! k = Some b) ∧ instances (ls_db l) !! ag_instance_id b = Some i
  ∧ agents (ls_db l) !! agent_id = Some a ∧ ag_agent_id b = agent_id ∧ ag_enabled b = true
  ∧ a_status a = AgentStatus.ACTIVE ∧ manages (ag_id b) (ls_agent_capabilities l) = true
  ∧ r = physical_row l "bound" i.

Lemma agent_row_inv agent_id filters r : r ∈ agent_rows l agent_id filters → ∃ b i a, agent_row_of agent_id r b i a.
Proof.
  unfold agent_rows. rewrite elem_of_remove_dups. intros (b & Hb & Hr)%list_elem_of_omap.
  apply list_elem_of_fmap in Hb as ([k b'] & -> & Hk%elem_of_map_to_list). cbn in Hr. unfold agent_binding_row in Hr.
  apply bind_Some in Hr as (a & Ha & Hr). apply bind_Some in Hr as (i & Hi & Hr).
  destruct (_ && _) eqn:Hc in Hr; [|done]. injection Hr as <-.
  repeat (apply andb_true_iff in Hc as [Hc ?]). repeat match goal with H : bool_decide _ = true |- _ => apply bool_decide_eq_true in H end.
  exists b', i, a. unfold agent_row_of. split_and!; try done; [by exists k|congruence].
Qed.

Lemma resource_row_inv agent_id filters r : r ∈ resource_rows l agent_id filters →
  ∃ k x, resources (ls_db l) !! k = Some x ∧ r = mk_list_row RESOURCE (r_id x) (r_created_at x) "provisioned".
Proof.
  intros (x & Hx & Hr)%list_elem_of_omap. apply list_elem_of_fmap in Hx as ([k x'] & -> & Hk%elem_of_map_to_list).
  cbn in Hr. unfold resource_row in Hr. apply bind_Some in Hr as (a & _ & Hr). destruct (_ && _); [|done].
  injection Hr as <-. eauto.
Qed.

Lemma personal_row_inv user_id filters r : r ∈ personal_rows l user_id filters →
  ∃ k i, instances (ls_db l) !! k = Some i ∧ r = physical_row l (physical_source i) i.
Proof.
  intros (i & Hi & Hr)%list_elem_of_omap. apply list_elem_of_fmap in Hi as ([k i'] & -> & Hk%elem_of_map_to_list).
  cbn in Hr. destruct (_ && _); [|done]. injection Hr as <-. eauto.
Qed.

Lemma accessible_rows principal personal filters r :
  r ∈ accessible l principal personal filters → row_at principal r.
Proof.
  unfold accessible. destruct (pk_kind principal) eqn:Hk; [destruct personal|].
  - intros (k & i & Hi & ->)%personal_row_inv. eapply physical_row_at; [exact Hi|]. unfold source_for. by rewrite Hk.
  - intros (b & i & _ & Hi & _ & _ & _ & _ & _ & ->)%user_row_inv. eapply physical_row_at; [exact Hi|].
    unfold source_for. by rewrite Hk.
  - intros [(b & i & a & _ & Hi & _ & _ & _ & _ & _ & ->)%agent_row_inv|(k & x & Hx & ->)%resource_row_inv]%elem_of_app.
    + eapply physical_row_at; [exact Hi|]. unfold source_for. by rewrite Hk.
    + right. exists x. cbn. destruct (lw_resource _ Hwf _ _ Hx) as [-> _]. by split.
Qed.

Lemma accessible_NoDup principal personal filters : NoDup (accessible l principal personal filters).
Proof.
  unfold accessible. destruct (pk_kind principal); [destruct personal|].
  - apply NoDup_omap_values. intros k1 i1 k2 i2 b H1 H2 E1 E2. cbn in *.
    destruct (_ && _) in E1; [|done]. destruct (_ && _) in E2; [|done]. injection E1 as <-. injection E2 as E _ _.
    destruct (lw_instance _ Hwf _ _ H1) as [<- _], (lw_instance _ Hwf _ _ H2) as [<- _]. done.
  - apply NoDup_remove_dups.
  - apply NoDup_app. split; [apply NoDup_remove_dups|]. split.
    + intros r (b & i & a & _ & _ & _ & _ & _ & _ & _ & ->)%agent_row_inv (k & x & _ & [=])%resource_row_inv.
    + apply NoDup_omap_values. intros k1 x1 k2 x2 b H1 H2 E1 E2. unfold resource_row in *.
      apply bind_Some in E1 as (a1 & _ & E1). apply bind_Some in E2 as (a2 & _ & E2).
      destruct (_ && _) in E1; [|done]. destruct (_ && _) in E2; [|done]. injection E1 as <-. injection E2 as E _.
      destruct (lw_resource _ Hwf _ _ H1) as [<- _], (lw_resource _ Hwf _ _ H2) as [<- _]. done.
Qed.
End rows.

(** ** Rows are resolved *)

Section visible.
  Context {X : Type} `{TenantServices X}.
  Context (order : gset BindingCapability.t → list BindingCapability.t) (Horder : ∀ T, order T ≡ₚ elements T).
  Context (l : ListDB) (Hwf : list_wf l).

Lemma manages_list binding_id rows : manages binding_id rows = true →
  BindingCapability.DB_INSTANCE_LIST ∈ validate_capability_set order (capabilities_of binding_id rows).
Proof.
  intros Hm. apply existsb_exists in Hm as (c & Hc%list_elem_of_In & Hin%bool_decide_eq_true).
  destruct (capability_closure order Horder (capabilities_of binding_id rows)) as (Hsub & Hcl & _).
  assert (c ∈ validate_capability_set order (capabilities_of binding_id rows)) as Hv.
  { apply Hsub. unfold capabilities_of. apply elem_of_map. exists (binding_id, c). split; [done|].
    by apply elem_of_filter. }
  unfold MANAGEMENT_CAPABILITIES in Hc. apply elem_of_cons in Hc as [->|Hc]; [done|].
  apply elem_of_cons in Hc as [->|Hc]; [|apply list_elem_of_singleton in Hc as ->]; eapply Hcl; [exact Hv| |exact Hv|];
    cbn; set_solver.
Qed.

Lemma user_bindings_unique user_id instance_id :
  personal_bindings user_id instance_id (access_db l) = []
  ∨ ∃ k b, ls_user_bindings l !! k = Some b ∧ ub_instance_id b = instance_id ∧ ub_user_id b = user_id
    ∧ personal_bindings user_id instance_id (access_db l) = [b].
Proof.
  unfold personal_bindings. cbn [ad_user_bindings access_db].
  destruct (filter_values_unique (λ b, ub_instance_id b = instance_id ∧ ub_user_id b = user_id) (ls_user_bindings l))
    as [[-> _]|(k & b & Hk & [Hi Hu] & ->)].
  - intros k1 b1 k2 b2 H1 H2 [? ?] [? ?]. eapply lw_user_binding; [exact Hwf|exact H1|exact H2|congruence..].
  - by left.
  - right. by exists k, b.
Qed.

Lemma user_resolves user_id instance_id :
  ∃ a, resolve_user_instance_access order user_id instance_id (access_db l) = Ret a.
Proof.
  unfold resolve_user_instance_access. destruct (_ != _); [by eexists|].
  destruct (user_bindings_unique user_id instance_id) as [->|(k & b & _ & _ & _ & ->)];
    cbn [scalar_one_or_none mbind outcome_bind]; destruct (department_access _ _ _) as [inherited permission].
  - by eexists.
  - destruct (ub_enabled b), (ad_instances (access_db l) !! ub_instance_id b); by eexists.
Qed.

Lemma user_row_resolves user_id r b i : user_row_of l user_id r b i →
  ∃ a, resolve_user_instance_access order user_id (row_id r) (access_db l) = Ret (Some a)
    ∧ ea_instance a = i ∧ BindingCapability.DB_INSTANCE_LIST ∈ ea_capabilities a.
Proof.
  intros ((k & Hk) & Hi & Hu & He & Ho & Hact & Hm & ->). cbn [row_id physical_row].
  destruct (lw_instance _ Hwf _ _ Hi) as [Hid _]. rewrite Hid.
  unfold resolve_user_instance_access. cbn [ad_users access_db]. rewrite Hact.
  rewrite (bool_decide_eq_true_2 (Some UserStatus.ACTIVE = Some UserStatus.ACTIVE)) by done. cbn [negb].
  destruct (user_bindings_unique user_id (ub_instance_id b)) as [E|(k' & b' & Hk' & Hi' & Hu' & ->)].
  { exfalso. apply (not_elem_of_nil b). rewrite <-E. apply list_elem_of_filter. split; [done|].
    apply list_elem_of_fmap. exists (k, b). split; [done|]. by apply elem_of_map_to_list. }
  assert (k' = k) as -> by (eapply lw_user_binding; [exact Hwf|exact Hk'|exact Hk|congruence..]).
  assert (b' = b) as -> by congruence.
  cbn [scalar_one_or_none mbind outcome_bind]. rewrite He. change (ad_instances (access_db l)) with (instances (ls_db l)).
  rewrite Hi. destruct (department_access _ _ _) as [inherited permission]. unfold personal_access, requested_access.
  rewrite Ho. cbn [andb]. rewrite (bool_decide_eq_false_2 (BindingOrigin.ADMIN = BindingOrigin.SYSTEM)) by done.
  cbn [andb]. eexists. split; [reflexivity|]. split; [reflexivity|]. by apply manages_list.
Qed.

Lemma agent_row_resolves agent_id r b i a : agent_row_of l agent_id r b i a →
  ∃ e, resolve_agent_instance_access order agent_id (row_id r) (access_db l) = Ret (Some e)
    ∧ ea_instance e = i ∧ BindingCapability.DB_INSTANCE_LIST ∈ ea_capabilities e.
Proof.
  intros ((k & Hk) & Hi & Ha & Hag & He & Hact & Hm & ->). cbn [row_id physical_row].
  destruct (lw_instance _ Hwf _ _ Hi) as [Hid _]. rewrite Hid. unfold resolve_agent_instance_access, agent_bindings_of.
  change (ad_agent_bindings (access_db l)) with (ls_agent_bindings l).
  destruct (filter_values_unique (λ x, ag_agent_id x = agent_id ∧ ag_instance_id x = ag_instance_id b) (ls_agent_bindings l))
    as [[_ Hn]|(k' & b' & Hk' & [Hi' Hu'] & ->)].
  - intros k1 b1 k2 b2 H1 H2 [? ?] [? ?]. eapply lw_agent_binding; [exact Hwf|exact H1|exact H2|congruence..].
  - exfalso. by apply (Hn k b Hk).
  - assert (k' = k) as -> by (eapply lw_agent_binding; [exact Hwf|exact Hk'|exact Hk|congruence..]).
    assert (b' = b) as -> by congruence. cbn [scalar_one_or_none mbind outcome_bind]. rewrite He.
    change (ad_instances (access_db l)) with (instances (ls_db l)). change (ad_agents (access_db l)) with (agents (ls_db l)).
    rewrite Hi, Hag, Ha, Hact. rewrite (bool_decide_eq_true_2 (AgentStatus.ACTIVE = AgentStatus.ACTIVE)) by done.
    cbn [negb]. eexists. split; [reflexivity|]. split; [reflexivity|]. by apply manages_list.
Qed.

(** Every row the query selects is resolved; outside of the personal listing
    every one of them is visible, with the key of its row. *)
Lemma row_view_total principal personal filters r : r ∈ accessible l principal personal filters →
  ∃ v, row_view order l principal personal r = Ret v
    ∧ (personal = false ∨ pk_kind principal = AGENT →
       ∃ w, v = Some w ∧ vw_created_at w = row_created_at r ∧ vw_db_instance_id w = row_id r).
Proof.
  assert (∀ i a s, ea_instance a = i → BindingCapability.DB_INSTANCE_LIST ∈ ea_capabilities a →
    resolve_access order l principal (row_id (physical_row l s i)) = Ret (Some a) →
    ∃ v, row_view order l principal personal (physical_row l s i) = Ret v
      ∧ ∃ w, v = Some w ∧ vw_created_at w = row_created_at (physical_row l s i)
        ∧ vw_db_instance_id w = row_id (physical_row l s i)) as Hvis.
  { intros i a s <- Hlist Hr. unfold row_view. cbn [row_kind physical_row]. unfold physical_view. rewrite Hr.
    cbn [mbind outcome_bind]. unfold listable. rewrite (bool_decide_eq_true_2 (_ ∈ _)) by done. cbn [orb negb].
    eexists. split; [reflexivity|]. by eexists. }
  unfold accessible. destruct (pk_kind principal) eqn:Hk; [destruct personal|].
  - intros (k & i & Hi & ->)%personal_row_inv. unfold row_view. cbn [row_kind physical_row]. unfold physical_view, resolve_access.
    rewrite Hk. destruct (user_resolves (pk_id principal) (row_id (physical_row l (physical_source i) i))) as [a ->].
    cbn [mbind outcome_bind]. destruct a as [a|]; [destruct (negb (listable true a))|];
      (eexists; split; [reflexivity|intros [[=]|[=]]]).
  - intros (b & i & Hrow)%user_row_inv. destruct (user_row_resolves _ _ _ _ Hrow) as (a & Hr & Hi & Hlist).
    destruct Hrow as (_ & _ & _ & _ & _ & _ & _ & ->). destruct (Hvis i a (physical_source i) Hi Hlist) as (v & Hv & w).
    { unfold resolve_access. by rewrite Hk. }
    exists v. split; [exact Hv|]. by intros _.
  - intros [(b & i & a & Hrow)%agent_row_inv|(k & x & Hx & ->)%resource_row_inv]%elem_of_app.
    + destruct (agent_row_resolves _ _ _ _ _ Hrow) as (e & Hr & Hi & Hlist).
      destruct Hrow as (_ & _ & _ & _ & _ & _ & _ & ->). destruct (Hvis i e "bound" Hi Hlist) as (v & Hv & w).
      { unfold resolve_access. by rewrite Hk. }
      exists v. split; [exact Hv|]. by intros _.
    + unfold row_view. cbn [row_kind row_id]. unfold resource_view.
      destruct (lw_resource _ Hwf _ _ Hx) as [Hid _]. rewrite Hid, Hx. cbn [mbind option_bind].
      eexists. split; [reflexivity|]. intros _. eexists. split; [reflexivity|]. by cbn.
Qed.
End visible.

(** ** The length of a cursor *)

Lemma utf8_app s t : utf8 (s +:+ t) = utf8 s ++ utf8 t.
Proof. induction s as [|a s IH]; [done|]. rewrite app_cons. cbn [utf8]. by rewrite IH, (assoc_L (++)). Qed.

Lemma utf8_length s : (length (utf8 s) ≤ 2 * String.length s)%nat.
Proof.
  induction s as [|a s IH]; [done|]. cbn [utf8 String.length]. rewrite length_app.
  assert (length (utf8_char a) ≤ 2)%nat by (unfold utf8_char; destruct (_ <? _); cbn; lia). lia.
Qed.

Lemma escaped_length a : (length (utf8 (json_escape a)) ≤ 6)%nat.
Proof.
  assert (forallb (λ a, (length (utf8 (json_escape a)) <=? 6)%nat) (ascii_of_nat <$> seq 0 256) = true) as Hall
    by (vm_compute; reflexivity).
  rewrite forallb_forall in Hall. apply Nat.leb_le, Hall, list_elem_of_In, list_elem_of_fmap.
  exists (nat_of_ascii a). split; [by rewrite ascii_nat_embedding|]. apply elem_of_seq. pose proof (nat_ascii_bounded a). lia.
Qed.

Lemma quoted_length s : (length (utf8 (json_quote s)) ≤ 6 * String.length s + 2)%nat.
Proof.
  unfold json_quote. change (utf8 (String dquote ?x)) with (34 :: utf8 x). rewrite utf8_app, length_cons, length_app.
  assert (length (utf8 (string_flat_map json_escape s)) ≤ 6 * String.length s)%nat; [|change (length (utf8 (String dquote EmptyString))) with 1%nat; lia].
  induction s as [|a s IH]; [done|]. cbn [string_flat_map String.length]. rewrite utf8_app, length_app.
  pose proof (escaped_length a). lia.
Qed.

Lemma base64url_length l : (3 * String.length (encode_base64url l) ≤ 4 * length l + 2)%nat.
Proof. induction l as [|a|a b|a b c l IH] using list_ind3; cbn [encode_base64url String.length length]; lia. Qed.

Lemma pad_length w n : String.length (pad w n) = w.
Proof. revert n. induction w as [|w IH]; intros n; [done|]. cbn [pad]. rewrite length_app_str, IH. cbn. lia. Qed.

Lemma isoformat_length t : (String.length (isoformat t) ≤ 32)%nat.
Proof.
  unfold isoformat. destruct (civil_from_days _) as [[y m] d]. rewrite !length_app_str, !pad_length.
  destruct (_ =? 0); [|rewrite length_app_str, pad_length]; cbn; lia.
Qed.

Lemma canonical_length p :
  (length (utf8 (canonical_payload p)) ≤ 80 + length (utf8 (json_quote (cp_created_at p)))
    + length (utf8 (json_quote (cp_db_instance_id p))) + length (utf8 (json_quote (cp_filter_hash p)))
    + length (utf8 (json_int (cp_issued_at p))) + length (utf8 (json_int (cp_version p))))%nat.
Proof.
  rewrite canonical_shape. assert (∀ a s, Z.of_nat (nat_of_ascii a) < 128 → length (utf8 (String a s)) = S (length (utf8 s))) as Hc.
  { intros a s Ha. cbn [utf8]. unfold utf8_char. by rewrite (proj2 (Z.ltb_lt _ _) Ha). }
  repeat (rewrite utf8_app || rewrite length_app || rewrite Hc by reflexivity).
  assert (length (utf8 (json_quote "created_at")) = 12 ∧ length (utf8 (json_quote "db_instance_id")) = 16
    ∧ length (utf8 (json_quote "filter_hash")) = 13 ∧ length (utf8 (json_quote "issued_at")) = 11
    ∧ length (utf8 (json_quote "version")) = 9)%nat as (-> & -> & -> & -> & ->) by (vm_compute; done).
  cbn. lia.
Qed.

Section cursors.
  Context (codec : SignedCursorCodec).

Lemma encoded_length p :
  (String.length (cp_created_at p) ≤ 32)%nat → (String.length (cp_db_instance_id p) ≤ 255)%nat →
  (String.length (cp_filter_hash p) = 64)%nat → (String.length (json_int (cp_issued_at p)) ≤ 100)%nat →
  cp_version p = 1 → Z.of_nat (String.length (encoded codec p)) ≤ 4096.
Proof.
  intros Hc Hd Hh Hi Hv. unfold encoded. rewrite !length_app_str.
  set (text := encode_base64url (utf8 (canonical_payload p))).
  pose proof (base64url_length (utf8 (canonical_payload p))). fold text in H.
  pose proof (base64url_length (signature codec text)) as Hs.
  assert (length (signature codec text) = 32)%nat as E.
  { unfold signature, hmac_sha256. match goal with |- length (sha256 ?m) = _ => generalize m end.
    intros m. by destruct (sha256_digest m). }
  rewrite E in Hs. pose proof (canonical_length p) as Hlen. rewrite Hv in Hlen.
  pose proof (quoted_length (cp_created_at p)). pose proof (quoted_length (cp_db_instance_id p)).
  pose proof (quoted_length (cp_filter_hash p)). pose proof (utf8_length (json_int (cp_issued_at p))).
  change (length (utf8 (json_int 1))) with 1%nat in Hlen. change (String.length ".") with 1%nat. lia.
Qed.

(** The cursor of a page is accepted by the next call within the time to live, and
    stands for the position it was made of. *)
Lemma page_cursor issued now t id hash :
  in_datetime t → id_ok id → is_sha256 hash = true → (String.length (json_int issued) ≤ 100)%nat →
  issued ≤ now ≤ issued + sc_ttl_seconds codec →
  let p := mk_cursor_payload 1 issued (isoformat t) id hash in
  encode codec issued p = Ret (encoded codec p) ∧ decode codec now (encoded codec p) hash = Ret p
  ∧ cursor_position p = Ret (t, id).
Proof.
  intros Ht [Hne Hlen] Hh Hi Hnow p.
  assert (∀ n h, issued ≤ n ≤ issued + sc_ttl_seconds codec → h = None ∨ h = Some hash →
    validate_payload (sc_ttl_seconds codec) n p h = Ret tt) as Hv.
  { intros n h Hn Hh'. unfold validate_payload, p. cbn [cp_version cp_db_instance_id cp_filter_hash cp_created_at cp_issued_at].
    rewrite (proj2 (Z.eqb_eq 1 CURSOR_VERSION)), (proj2 (String.eqb_neq _ _) Hne), (proj2 (Z.ltb_ge 255 _)), Hh by (done || lia).
    cbn [negb orb]. rewrite fromisoformat_isoformat by done. rewrite (proj2 (Z.ltb_ge n issued)), (proj2 (Z.ltb_ge _ (n - issued))) by lia.
    cbn [orb]. destruct Hh' as [->| ->]; [done|]. by rewrite String.eqb_refl. }
  split_and!.
  - unfold encode. rewrite Hv by (lia || by left). done.
  - apply decode_encoded; [|by apply Hv; [lia|right]]. apply encoded_length; cbn; [apply isoformat_length|done| |done|done].
    unfold is_sha256 in Hh. apply andb_true_iff in Hh as [Hh _]. by apply Nat.eqb_eq.
  - unfold cursor_position, p. cbn [cp_created_at cp_db_instance_id]. rewrite fromisoformat_isoformat by done. cbn. do 2 f_equal. lia.
Qed.
End cursors.

(** ** Walking the pages *)

Section pages.
  Context {X : Type} `{TenantServices X}.
  Context (order : gset BindingCapability.t → list BindingCapability.t) (Horder : ∀ T, order T ≡ₚ elements T).
  Context (l : ListDB) (Hwf : list_wf l) (codec : SignedCursorCodec) (principal : Principal).
  Context (limit : Z) (Hlimit : 1 ≤ limit ≤ 200) (db_type source status : option string) (personal : bool).
  Context (filters : Filters) (Hfilters : validated_filters db_type source status = Ret filters).
  Context (clock : nat → Z) (Hclock : ∀ k, clock k ≤ clock (S k) ≤ clock k + sc_ttl_seconds codec).
  Context (Hdigits : ∀ k, (String.length (json_int (clock k)) ≤ 100)%nat).

Definition listed_rows : list ListRow := sorted row_le (accessible l principal personal filters).
Definition view_of (r : ListRow) : option DBInstanceView :=
  match row_view order l principal personal r with Ret v => v | Raise _ => None end.

Lemma listed_accessible r : r ∈ listed_rows → r ∈ accessible l principal personal filters.
Proof. unfold listed_rows. by rewrite sorted_perm. Qed.

Lemma view_of_row r : r ∈ listed_rows → row_view order l principal personal r = Ret (view_of r)
  ∧ (personal = false → ∃ w, view_of r = Some w ∧ vw_created_at w = row_created_at r ∧ vw_db_instance_id w = row_id r).
Proof.
  intros Hr%listed_accessible. destruct (row_view_total order Horder l Hwf _ _ _ _ Hr) as (v & Hv & Hvis).
  unfold view_of. rewrite Hv. split; [done|]. auto.
Qed.

Lemma row_views_listed rs : (∀ r, r ∈ rs → r ∈ listed_rows) →
  row_views order l principal personal rs = Ret (omap view_of rs).
Proof.
  induction rs as [|r rs IH]; intros Hrs; [done|]. cbn [row_views]. destruct (view_of_row r) as [-> _]; [apply Hrs; left|].
  cbn [mbind outcome_bind]. rewrite IH by (intros; apply Hrs; by right). cbn [mbind outcome_bind]. cbn. by destruct (view_of r).
Qed.

Lemma last_page_position page x : (∀ r, r ∈ page ++ [x] → r ∈ listed_rows) →
  last_position personal (page ++ [x]) (omap view_of (page ++ [x])) = Some (row_created_at x, row_id x).
Proof.
  intros Hrs. unfold last_position. destruct personal eqn:Hp; [by rewrite last_snoc|].
  destruct (view_of_row x) as [_ Hx]; [apply Hrs; set_solver|]. destruct (Hx Hp) as (w & Hw & Hc & Hi).
  rewrite omap_app. cbn [omap list_omap]. rewrite Hw, last_snoc. cbn. by rewrite Hc, Hi.
Qed.

Lemma row_position r : r ∈ listed_rows → in_datetime (row_created_at r) ∧ id_ok (row_id r).
Proof.
  intros Hr%listed_accessible%accessible_rows; [|done]. destruct Hr as [(i & Hi & E)|(x & Hx & E)]; rewrite E; cbn.
  - rewrite E in Hi. cbn in Hi. by destruct (lw_instance _ Hwf _ _ Hi) as (_ & ? & ?).
  - rewrite E in Hx. cbn in Hx. by destruct (lw_resource _ Hwf _ _ Hx) as (_ & ? & ?).
Qed.

Lemma filter_hash_sha256 : is_sha256 (listing_filter_hash principal personal filters) = true.
Proof.
  unfold listing_filter_hash. destruct personal; [|apply hash_filters_sha256].
  unfold sha256_hex. apply hexdigest_sha256; apply sha256_digest.
Qed.

(** Where a walk stands: before everything, or after the row of its cursor. *)
Definition stands_at (k : nat) (pre : list ListRow) (cursor : option string) : Prop :=
  cursor = None ∧ pre = []
  ∨ ∃ pre' x p, pre = pre' ++ [x] ∧ cursor = Some (encoded codec p)
    ∧ decode codec (clock k) (encoded codec p) (listing_filter_hash principal personal filters) = Ret p
    ∧ cursor_position p = Ret (row_created_at x, row_id x).

Definition page_at (k : nat) (cursor : option string) : outcome DBInstancePage :=
  query_db_instances order l codec (clock k) principal cursor limit db_type source status personal.

Lemma stands_select k pre rest cursor : listed_rows = pre ++ rest → stands_at k pre cursor →
  ∃ position, match cursor with
    | None => Ret None
    | Some c => payload ← decode codec (clock k) c (listing_filter_hash principal personal filters);
                position ← cursor_position payload; Ret (Some position)
    end = Ret position
    ∧ select_rows l principal personal filters position (Z.to_nat limit) = take (Z.to_nat limit + 1) rest.
Proof.
  intros Hall [[-> ->]|(pre' & x & p & -> & -> & Hd & Hp)].
  - exists None. split; [done|]. unfold select_rows. unfold listed_rows in Hall. by rewrite Hall.
  - exists (Some (row_created_at x, row_id x)). rewrite Hd. cbn [mbind outcome_bind]. rewrite Hp. split; [done|].
    unfold select_rows. f_equal. rewrite <-(assoc_L (++)) in Hall. cbn in Hall.
    eapply rows_after; [apply accessible_NoDup; done| |exact Hall].
    intros a b Ha Hb. apply (row_at_key l Hwf principal); by eapply accessible_rows.
Qed.

Lemma walk_from fuel : ∀ k pre rest cursor, listed_rows = pre ++ rest → stands_at k pre cursor →
  (length rest < fuel)%nat →
  walk order l fuel k codec clock principal cursor limit db_type source status personal = Ret (omap view_of rest).
Proof.
  induction fuel as [|fuel IH]; intros k pre rest cursor Hall Hat Hlen; [lia|]. cbn [walk].
  destruct (stands_select _ _ _ _ Hall Hat) as (position & Hpos & Hsel). unfold query_db_instances.
  rewrite (proj2 (Z.leb_le 1 limit)), (proj2 (Z.leb_le limit 200)) by lia. cbn [andb negb]. rewrite Hfilters.
  cbn [mbind outcome_bind]. rewrite Hpos. cbn [mbind outcome_bind]. rewrite Hsel. rewrite length_take, take_take.
  replace (Z.to_nat limit `min` (Z.to_nat limit + 1))%nat with (Z.to_nat limit) by lia.
  assert (∀ r, r ∈ take (Z.to_nat limit) rest → r ∈ listed_rows) as Hin.
  { intros r Hr. rewrite Hall, <-(take_drop (Z.to_nat limit) rest). set_solver. }
  rewrite row_views_listed by done. cbn [mbind outcome_bind].
  destruct (decide (length rest ≤ Z.to_nat limit)%nat) as [Hle|Hgt].
  - rewrite (proj2 (Z.ltb_ge limit _)) by lia. rewrite take_ge by done.
    assert (∀ (o : option (time * string)) (f : time → string → outcome (option string)),
      match o with Some (c, i) => if false then f c i else Ret None | None => Ret None end = Ret None) as Hnone
      by (by intros [[? ?]|]).
    destruct (last_position _ _ _) as [[c i]|]; done.
  - rewrite (proj2 (Z.ltb_lt limit _)) by lia.
    destruct (take (Z.to_nat limit) rest) as [|y page0 _] eqn:Hpage using rev_ind.
    { apply (f_equal length) in Hpage. rewrite length_take in Hpage. cbn in Hpage. lia. }
    rename y into x. rewrite last_page_position by done.
    destruct (row_position x) as [Ht Hid]; [apply Hin; set_solver|].
    destruct (page_cursor codec (clock k) (clock (S k)) (row_created_at x) (row_id x) _ Ht Hid filter_hash_sha256 (Hdigits k) (Hclock k))
      as (Henc & Hdec & Hpos').
    rewrite Henc. cbn [mbind outcome_bind pg_next_cursor pg_instances].
    rewrite (IH (S k) (pre ++ page0 ++ [x]) (drop (Z.to_nat limit) rest)).
    + cbn [mbind outcome_bind]. rewrite <-omap_app, <-Hpage. by rewrite take_drop.
    + rewrite Hall, <-(assoc_L (++)), <-Hpage. by rewrite take_drop.
    + right. eexists (pre ++ page0), x, _. split; [by rewrite (assoc_L (++))|]. done.
    + rewrite length_drop. lia.
Qed.

Lemma shown_ids (rs : list ListRow) : personal = false → (∀ r, r ∈ rs → r ∈ listed_rows) →
  vw_db_instance_id <$> omap view_of rs = row_id <$> rs.
Proof.
  intros Hp. induction rs as [|r rs IH]; intros Hrs; [done|]. cbn.
  destruct (view_of_row r) as [_ Hv]; [apply Hrs; left|]. destruct (Hv Hp) as (w & -> & _ & Hid). cbn. rewrite Hid. f_equal.
  apply IH. intros x Hx. apply Hrs. by right.
Qed.

(** C31: Pages enumerate the listing.  A client that follows [next_cursor], with
    any page size, while the tables stay as they are and no cursor outlives its
    time to live, gets the view of every visible row the query selects, each
    once, newest first, and reaches the end; every row is resolved, and outside
    of the personal listing every one of them is shown: the query selects no row
    the access rules then hide, so no page is lost. *)
Theorem listing_complete fuel : (length listed_rows < fuel)%nat →
  walk order l fuel 0 codec clock principal None limit db_type source status personal = Ret (omap view_of listed_rows)
  ∧ listed_rows ≡ₚ accessible l principal personal filters
  ∧ NoDup listed_rows ∧ StronglySorted (λ a b, row_le a b = true) listed_rows
  ∧ (∀ r, r ∈ listed_rows → row_view order l principal personal r = Ret (view_of r))
  ∧ (personal = false → vw_db_instance_id <$> omap view_of listed_rows = row_id <$> listed_rows).
Proof.
  intros Hfuel. pose proof (sorted_perm row_le (accessible l principal personal filters)) as Hp. fold listed_rows in Hp.
  split_and!.
  - apply (walk_from fuel 0%nat []); [done|by left|done].
  - exact Hp.
  - rewrite Hp. by apply accessible_NoDup.
  - apply all_sorted.
  - intros r Hr. by apply view_of_row.
  - intros Hn. by apply shown_ids.
Qed.
End pages.

(** ** Three databases of one Agent, one to a page *)

Definition demo_lease (id : string) (created_at : time) : DBInstanceResource :=
  (nr_resource (demo_build "token-1" 0 "backend-1")) <| r_id := id |> <| r_created_at := created_at |>.
Definition demo_direct : InstanceCredential :=
  demo_admin <| c_id := "cred-direct" |> <| c_purpose := CredentialPurpose.DIRECT_ACCESS |>
    <| c_capability := CredentialCapability.READWRITE |>.

Definition demo_list : ListDB :=
  {| ls_db := demo_db <| resources := {[ "res-1" := demo_lease "res-1" demo_start;
                                         "res-2" := demo_lease "res-2" (demo_start + seconds 1) ]} |>
                      <| credentials := {[ "cred-direct" := demo_direct ]} |>;
     ls_users := ∅; ls_user_departments := ∅; ls_user_bindings := ∅; ls_department_bindings := ∅;
     ls_agent_bindings := {[ "bind-1" := mk_agent_binding "bind-1" "agent-1" "inst-1" "cred-direct"
                               AccessControl.Permission.READONLY true "user-1" ]};
     ls_user_capabilities := ∅;
     ls_agent_capabilities := {[ ("bind-1", BindingCapability.DB_INSTANCE_DESCRIBE) ]};
     ls_created_at := λ _, demo_start |}.

Lemma demo_list_wf : list_wf demo_list.
Proof.
  split.
  - intros k i. cbn. intros [<- <-]%lookup_singleton_Some. split; [done|]. split; [|vm_compute; split; discriminate].
    split; [done|cbn; lia].
  - intros k r. cbn. rewrite lookup_insert_Some. intros [[<- <-]|[_ [<- <-]%lookup_singleton_Some]];
      (split; [done|split; [split; [done|cbn; lia]|vm_compute; split; discriminate]]).
  - intros k i r. cbn. intros [<- _]%lookup_singleton_Some.
    rewrite lookup_insert_Some. by intros [[? _]|[_ [? _]%lookup_singleton_Some]].
  - intros k1 b1 k2 b2 H1. discriminate H1.
  - intros k1 b1 k2 b2. cbn. intros [<- _]%lookup_singleton_Some [<- _]%lookup_singleton_Some. done.
Qed.

Definition demo_codec : SignedCursorCodec := mk_codec (utf8 "0123456789abcdef0123456789abcdef") CURSOR_TTL_SECONDS.
Definition demo_principal : Principal := mk_principal AGENT "agent-1".
Definition demo_no_filters : Filters := mk_filters None None None.

(** A minute passes between the pages. *)
Definition demo_clock (k : nat) : Z := 1700000100 + 60 * Z.of_nat (k `min` 3).

Lemma listing_complete_witness :
  row_id <$> listed_rows demo_list demo_principal false demo_no_filters = ["res-2"; "res-1"; "inst-1"]
  ∧ walk (H := demo_server) elements demo_list 4 0 demo_codec demo_clock demo_principal None 1 None None None
      false
    = Ret (omap (view_of (H := demo_server) elements demo_list demo_principal false)
             (listed_rows demo_list demo_principal false demo_no_filters)).
Proof.
  assert (row_id <$> listed_rows demo_list demo_principal false demo_no_filters = ["res-2"; "res-1"; "inst-1"]) as Hids
    by (vm_compute; reflexivity).
  split; [exact Hids|].
  apply (listing_complete (H := demo_server) elements (λ T, reflexivity _) demo_list demo_list_wf demo_codec demo_principal 1
    ltac:(lia) None None None false demo_no_filters eq_refl demo_clock).
  - intros k. change (sc_ttl_seconds demo_codec) with CURSOR_TTL_SECONDS. unfold demo_clock, CURSOR_TTL_SECONDS. lia.
  - intros k. unfold demo_clock.
    assert (k `min` 3 = 0 ∨ k `min` 3 = 1 ∨ k `min` 3 = 2 ∨ k `min` 3 = 3)%nat as [->|[->|[->| ->]]] by lia;
      apply Nat.leb_le; vm_compute; reflexivity.
  - rewrite <-(length_fmap row_id), Hids. cbn. lia.
Defined.
