(* ===== verification/DedicatedMySQL.v ===== *)
(** * The data plane of a dedicated member ([server/core/dedicated_mysql.py])

    The grants of a member's sandbox account, read back and compared with the
    permission snapshot, and the operations that lock, unlock and drop the
    account.  The MySQL server behind a connection is a parameter. *)

From S2P Require Import Prelude PyString Models AdapterInterface Dispatcher Permission Ddl.

(** [asyncmy.connect], [cursor.execute] with the rows it leaves to fetch, and
    [connection.close], on connection handles. *)
Class MySQLConnector (X : Type) : Type := {
  mysql_connect : string → Z → string → string → option string → M X nat;
  mysql_execute : nat → string → list sql_value → M X (list row);
  mysql_close : nat → M X unit
}.

Definition DedicatedMySQLError (msg : string) : PyExc := exc "DedicatedMySQLError" msg.
Definition InvalidDedicatedIdentifier (msg : string) : PyExc := exc "InvalidDedicatedIdentifier" msg.
Definition DedicatedGrantVerificationError (msg : string) : PyExc :=
  exc "DedicatedGrantVerificationError" msg.

(** [_IDENTIFIER_RE.fullmatch] *)
Definition identifier (value kind : string) : outcome string :=
  if fullmatch_class ident_char 1 64 value then Ret value
  else Raise (InvalidDedicatedIdentifier ("Invalid " +:+ kind)).

(** [int(value)] of a result cell; of a string, an optional sign and decimal
    digits (digit separators are refused here). *)
Fixpoint decimal_digits (acc : Z) (s : string) : option Z :=
  match s with
  | EmptyString => Some acc
  | String a s' =>
      if is_digit a then decimal_digits (10 * acc + Z.of_nat (nat_of_ascii a - 48)) s' else None
  end.

Definition decimal (s : string) : option Z :=
  match s with
  | EmptyString => None
  | String "-" (String _ _ as s') => Z.opp <$> decimal_digits 0 s'
  | String "+" (String _ _ as s') => decimal_digits 0 s'
  | _ => decimal_digits 0 s
  end.

Definition int_of_value (v : sql_value) : outcome Z :=
  match v with
  | SqlInt z => Ret z
  | SqlStr s =>
      match decimal (strip s) with
      | Some z => Ret z
      | None => Raise (ValueError "invalid literal for int() with base 10")
      end
  | SqlNull => Raise (exc "TypeError" "int() argument must be a string or a real number")
  end.

(** [int(row[0])] *)
Definition first_int (r : row) : outcome Z :=
  match r with
  | v :: _ => int_of_value v
  | [] => Raise (exc "IndexError" "tuple index out of range")
  end.

(** ** Grant statements *)

Definition database_privileges (s : CompiledPermissionSnapshot) : list DatabasePrivilege.t :=
  filter (λ p, p ≠ DatabasePrivilege.CREATE_USER) (sn_privileges s).

Definition creates_users (s : CompiledPermissionSnapshot) : bool :=
  bool_decide (DatabasePrivilege.CREATE_USER ∈ sn_privileges s).

Definition build_dedicated_grant_sql (database account : string)
    (snapshot : CompiledPermissionSnapshot) : outcome (list string) :=
  database ← identifier database "database name";
  account ← identifier account "account name";
  if sn_scope snapshot != PermissionScope.DEDICATED then
    Raise (ValueError "Dedicated grant requires global permission scope")
  else
    let names := DatabasePrivilege.value <$> database_privileges snapshot in
    let grant_option := if sn_grant_option snapshot then " WITH GRANT OPTION" else "" in
    let on_database :=
      if sn_legacy_all_privileges snapshot then
        ["GRANT ALL PRIVILEGES ON `" +:+ database +:+ "`.* TO '" +:+ account +:+ "'@'%'" +:+ grant_option]
      else if negb (length names =? 0)%nat then
        ["GRANT " +:+ join ", " names +:+ " ON `" +:+ database +:+ "`.* TO '" +:+ account
           +:+ "'@'%'" +:+ grant_option]
      else [] in
    let globally :=
      if creates_users snapshot
      then ["GRANT CREATE USER ON *.* TO '" +:+ account +:+ "'@'%'" +:+ grant_option] else [] in
    match on_database ++ globally with
    | [] => Raise (ValueError "Dedicated grant requires at least one privilege")
    | statements => Ret statements
    end.

(** ** Reading grants back *)

(** [s.split()] *)
Fixpoint py_split_from (current : string) (s : string) : list string :=
  match s with
  | EmptyString => if String.eqb current EmptyString then [] else [current]
  | String a s' =>
      if is_space a then
        (if String.eqb current EmptyString then [] else [current]) ++ py_split_from EmptyString s'
      else py_split_from (current +:+ String a EmptyString) s'
  end.
Definition py_split (s : string) : list string := py_split_from EmptyString s.

(** [p] at the start of [s] up to the case of letters, giving the rest. *)
Fixpoint strip_prefix_ci (p s : string) : option string :=
  match p, s with
  | EmptyString, _ => Some s
  | String a p', String b s' =>
      if Ascii.eqb (upper_char a) (upper_char b) then strip_prefix_ci p' s' else None
  | String _ _, EmptyString => None
  end.

(** [(.+)sep] followed by [k], greedily: the longest nonempty text for which
    the rest matches. *)
Fixpoint match_greedy {B : Type} (sep : string) (k : string → option B) (s : string)
    : option (string * B) :=
  match s with
  | EmptyString => None
  | String a s' =>
      match match_greedy sep k s' with
      | Some (p, b) => Some (String a p, b)
      | None =>
          match strip_prefix_ci sep s' with
          | Some rest => match k rest with Some b => Some (String a EmptyString, b) | None => None end
          | None => None
          end
      end
  end.

(** [_GRANT_RE.match]: the two groups of [^GRANT (.+) ON (.+) TO ]. *)
Definition grant_re (text : string) : option (string * string) :=
  match strip_prefix_ci "GRANT " text with
  | Some rest =>
      match match_greedy " ON " (match_greedy " TO " (λ _, Some tt)) rest with
      | Some (privileges, (scope, _)) => Some (privileges, scope)
      | None => None
      end
  | None => None
  end.

Definition dedicated_row_text (r : row) : string :=
  match r with v :: _ => row_text v | [] => "()" end.

(** What the loop over the rows has seen. *)
Record SeenGrants : Type := mk_seen {
  sg_database : gset string;
  sg_global : gset string;
  sg_grant_option : bool;
  sg_unexpected : bool
}.

Definition see_grant (database : string) (seen : SeenGrants) (r : row) : SeenGrants :=
  let text := join " " (py_split (dedicated_row_text r)) in
  let upper_text := upper text in
  match strip_prefix "GRANT USAGE ON *.*" upper_text with
  | Some _ => seen
  | None =>
      match grant_re text with
      | None => mk_seen (sg_database seen) (sg_global seen) (sg_grant_option seen) true
      | Some (privilege_text, scope_text) =>
          let privileges : gset string :=
            list_to_set ((λ p, upper (strip p)) <$> split_char "," privilege_text) in
          let scope := upper scope_text in
          let option := sg_grant_option seen || contains " WITH GRANT OPTION" upper_text in
          if String.eqb scope (upper ("`" +:+ database +:+ "`.*")) then
            mk_seen (sg_database seen ∪ privileges) (sg_global seen) option (sg_unexpected seen)
          else if String.eqb scope "*.*" then
            mk_seen (sg_database seen) (sg_global seen ∪ privileges) option (sg_unexpected seen)
          else mk_seen (sg_database seen) (sg_global seen) option true
      end
  end.

Definition expected_database (s : CompiledPermissionSnapshot) : gset string :=
  if sn_legacy_all_privileges s then {[ "ALL PRIVILEGES" ]}
  else list_to_set (DatabasePrivilege.value <$> database_privileges s).

Definition expected_global (s : CompiledPermissionSnapshot) : gset string :=
  if creates_users s then {[ "CREATE USER" ]} else ∅.

Definition verify_dedicated_grants (database account : string)
    (snapshot : CompiledPermissionSnapshot) (rows : list row) : outcome unit :=
  database ← identifier database "database name";
  _ ← identifier account "account name";
  let seen := foldl (see_grant database) (mk_seen ∅ ∅ false false) rows in
  if sg_unexpected seen
     || negb (bool_decide (sg_database seen = expected_database snapshot))
     || negb (bool_decide (sg_global seen = expected_global snapshot))
     || negb (Bool.eqb (sg_grant_option seen) (sn_grant_option snapshot)) then
    Raise (DedicatedGrantVerificationError "Sandbox grants do not match the permission snapshot")
  else Ret tt.

(** ** [DedicatedMySQL] *)

Record MemberLogin : Type := mk_member_login {
  ml_host : string;
  ml_port : Z;
  ml_lifecycle_user : string;
  ml_lifecycle_password : string;
  ml_sandbox_user : string;
  ml_sandbox_password : string
}.

Section dedicated_mysql.
  Context {X : Type} `{MySQLConnector X}.
  Context (decrypt : string → outcome string).

Definition required (m : DedicatedPoolMember) : outcome MemberLogin :=
  match m_host m, m_port m, m_lifecycle_username_ciphertext m, m_lifecycle_password_ciphertext m,
        m_sandbox_username_ciphertext m, m_sandbox_password_ciphertext m, m_database_name m,
        m_permission_snapshot_json m with
  | Some host, Some port, Some lu, Some lp, Some su, Some sp, Some _, Some _ =>
      lifecycle_user ← decrypt lu;
      lifecycle_password ← decrypt lp;
      sandbox_user ← decrypt su;
      sandbox_password ← decrypt sp;
      Ret (mk_member_login host port lifecycle_user lifecycle_password sandbox_user sandbox_password)
  | _, _, _, _, _, _, _, _ => Raise (DedicatedMySQLError "Dedicated member credentials are incomplete")
  end.

(** [str(value)] of a column that may be [NULL]. *)
Definition str_column (s : option string) : string := default "None" s.

Definition member_snapshot (m : DedicatedPoolMember) : outcome CompiledPermissionSnapshot :=
  permission_snapshot_from_json (default Malformed (m_permission_snapshot_json m)).

(** A connection that is closed whatever happens in between. *)
Definition with_connection {A : Type} (host : string) (port : Z) (user password : string)
    (db : option string) (body : nat → M X A) : M X A :=
  connection ← mysql_connect host port user password db;
  try_finally (body connection) (mysql_close connection).

Definition as_lifecycle {A : Type} (l : MemberLogin) (body : nat → M X A) : M X A :=
  with_connection (ml_host l) (ml_port l) (ml_lifecycle_user l) (ml_lifecycle_password l) None body.

Definition run_statement (connection : nat) (sql : string) : M X unit :=
  mysql_execute connection sql [] ;; mret tt.

Definition apply_permissions (m : DedicatedPoolMember) : M X unit :=
  l ← lift_outcome (required m);
  snapshot ← lift_outcome (member_snapshot m);
  statements ← lift_outcome
    (build_dedicated_grant_sql (str_column (m_database_name m)) (ml_sandbox_user l) snapshot);
  as_lifecycle l (λ c, for_each (run_statement c) statements).

Definition member_verify (m : DedicatedPoolMember) : M X unit :=
  l ← lift_outcome (required m);
  let database := str_column (m_database_name m) in
  snapshot ← lift_outcome (member_snapshot m);
  as_lifecycle l (λ c,
    account ← lift_outcome (identifier (ml_sandbox_user l) "account name");
    rows ← mysql_execute c ("SHOW GRANTS FOR '" +:+ account +:+ "'@'%'") [];
    lift_outcome (verify_dedicated_grants database (ml_sandbox_user l) snapshot rows)) ;;
  with_connection (ml_host l) (ml_port l) (ml_sandbox_user l) (ml_sandbox_password l) (Some database)
    (λ c,
      rows ← mysql_execute c "SELECT 1" [];
      answer ← lift_outcome (match head rows with Some r => n ← first_int r; Ret (Some n) | None => Ret None end);
      if answer != Some 1
      then raise (DedicatedGrantVerificationError "Sandbox credential health check failed")
      else mret tt).

Definition synchronize_permissions (m : DedicatedPoolMember)
    (snapshot : CompiledPermissionSnapshot) : M X unit :=
  l ← lift_outcome (required m);
  statements ← lift_outcome
    (build_dedicated_grant_sql (str_column (m_database_name m)) (ml_sandbox_user l) snapshot);
  as_lifecycle l (λ c,
    account ← lift_outcome (identifier (ml_sandbox_user l) "account name");
    run_statement c ("REVOKE ALL PRIVILEGES, GRANT OPTION FROM '" +:+ account +:+ "'@'%'") ;;
    for_each (run_statement c) statements) ;;
  member_verify m.

(** [KILL CONNECTION] of one row of the process list. *)
Definition kill_session (c : nat) (r : row) : M X unit :=
  connection_id ← lift_outcome (first_int r);
  if connection_id <=? 0 then raise (DedicatedMySQLError "Invalid sandbox session identifier")
  else run_statement c ("KILL CONNECTION " +:+ pretty connection_id).

Definition dedicated_sessions_query : string :=
  "SELECT ID FROM information_schema.PROCESSLIST WHERE USER = %s AND ID <> CONNECTION_ID()".

Definition member_disconnect (m : DedicatedPoolMember) : M X unit :=
  l ← lift_outcome (required m);
  as_lifecycle l (λ c,
    account ← lift_outcome (identifier (ml_sandbox_user l) "account name");
    run_statement c ("ALTER USER '" +:+ account +:+ "'@'%' ACCOUNT LOCK") ;;
    rows ← mysql_execute c dedicated_sessions_query [SqlStr (ml_sandbox_user l)];
    for_each (kill_session c) rows ;;
    remaining ← mysql_execute c dedicated_sessions_query [SqlStr (ml_sandbox_user l)];
    match remaining with
    | [] => mret tt
    | _ => raise (DedicatedMySQLError "Sandbox sessions remain connected")
    end).

Definition member_restore (m : DedicatedPoolMember) : M X unit :=
  l ← lift_outcome (required m);
  as_lifecycle l (λ c,
    account ← lift_outcome (identifier (ml_sandbox_user l) "account name");
    run_statement c ("ALTER USER '" +:+ account +:+ "'@'%' ACCOUNT UNLOCK")) ;;
  apply_permissions m ;;
  member_verify m.

Definition drop_sandbox (m : DedicatedPoolMember) : M X unit :=
  l ← lift_outcome (required m);
  database ← lift_outcome (identifier (str_column (m_database_name m)) "database name");
  as_lifecycle l (λ c,
    run_statement c ("DROP DATABASE IF EXISTS `" +:+ database +:+ "`") ;;
    account ← lift_outcome (identifier (ml_sandbox_user l) "account name");
    run_statement c ("DROP USER IF EXISTS '" +:+ account +:+ "'@'%'")).
End dedicated_mysql.
