(* ===== verification/DedicatedGrants.v ===== *)
(** * Grants of a dedicated member: what verification accepts

    A [SHOW GRANTS] answer is a list of lines; each is read back as the
    privileges, the scope and the option it shows, and the verification accepts
    an answer exactly when the lines add up to the permission snapshot. *)

From S2P Require Import Prelude PyString Models AdapterInterface Dispatcher Permission Ddl Adapter.
From S2P Require Import Capacity Service DedicatedMySQL DdlTheorems.

(** ** Whitespace *)

Definition solid_start (s : string) : bool :=
  match s with String b _ => negb (is_space b) | EmptyString => false end.

(** Single spaces between words, none at the end. *)
Fixpoint tidy (s : string) : bool :=
  match s with
  | EmptyString => true
  | String a s' => (negb (is_space a) || (Ascii.eqb a " " && solid_start s')) && tidy s'
  end.

Lemma tidy_app s t : tidy s = true → tidy t = true → tidy (s +:+ t) = true.
Proof.
  induction s as [|a s IH]; [done|]. rewrite app_cons. simpl. rewrite !andb_true_iff, !orb_true_iff.
  intros [[Ha|[Ha Hst]%andb_true_iff] Hs] Ht; (split; [|by apply IH]); [by left|].
  right. destruct s; [done|]. by rewrite Ha.
Qed.

Lemma tidy_space s : solid_start s = true → tidy s = true → tidy (" " +:+ s) = true.
Proof. intros H1 H2. change (" " +:+ s) with (String " " s). simpl. by rewrite H1, H2. Qed.

Lemma tidy_solid s : string_forallb (λ a, negb (is_space a)) s = true → tidy s = true.
Proof. induction s as [|a s IH]; [done|]. simpl. rewrite !andb_true_iff. intros [-> Hs]. auto. Qed.

Lemma py_split_from_nonempty cur s : cur ≠ EmptyString → py_split_from cur s ≠ [].
Proof.
  revert cur. induction s as [|a s IH]; intros cur Hc; simpl.
  - by rewrite (proj2 (String.eqb_neq _ _) Hc).
  - destruct (is_space a); [by rewrite (proj2 (String.eqb_neq _ _) Hc)|].
    apply IH. by destruct cur.
Qed.

Lemma py_split_solid s : solid_start s = true → py_split_from EmptyString s ≠ [].
Proof.
  destruct s as [|b s]; [done|]. simpl. intros ->%negb_true_iff. by apply py_split_from_nonempty.
Qed.

Lemma join_first w l : l ≠ [] → join " " (w :: l) = w +:+ " " +:+ join " " l.
Proof. by destruct l. Qed.

Lemma py_split_tidy s :
  tidy s = true →
  (∀ cur, cur ≠ EmptyString → join " " (py_split_from cur s) = cur +:+ s)
  ∧ (solid_start s = true → join " " (py_split s) = s).
Proof.
  induction s as [|a s IH]; intros Hs.
  { split; [|done]. intros cur Hc. simpl. rewrite (proj2 (String.eqb_neq _ _) Hc). simpl.
    by rewrite app_empty_r. }
  simpl in Hs. apply andb_true_iff in Hs as [Ha Hs]. destruct (IH Hs) as [IH1 IH2]. clear IH.
  unfold py_split in *. split.
  - intros cur Hc. simpl. destruct (is_space a) eqn:Hsp.
    + simpl in Ha. apply andb_true_iff in Ha as [->%Ascii.eqb_eq Hst].
      rewrite (proj2 (String.eqb_neq _ _) Hc). simpl app.
      rewrite join_first by by apply py_split_solid. by rewrite IH2.
    + rewrite IH1 by by destruct cur. by rewrite app_assoc_str.
  - simpl. intros ->%negb_true_iff. by rewrite IH1.
Qed.

Lemma tidy_words ws :
  Forall (λ w, tidy w = true ∧ solid_start w = true) ws → tidy (join ", " ws) = true.
Proof.
  induction 1 as [|w ws [Hw Hst] Hf IH]; [done|].
  destruct ws as [|w2 ws]; [done|]. rewrite join_cons. apply tidy_app; [done|].
  inversion Hf as [|? ? [_ Hst2] _]; subst. change (", " +:+ ?x) with (String "," (" " +:+ x)).
  apply (tidy_app ","); [done|]. apply tidy_space; [|done].
  destruct w2 as [|b w2]; [done|]. by destruct ws.
Qed.

(** ** The regular expression *)

Lemma strip_prefix_ci_app p s : strip_prefix_ci p (p +:+ s) = Some s.
Proof. induction p as [|a p IH]; [done|]. rewrite app_cons. simpl. by rewrite Ascii.eqb_refl. Qed.

(** [sep] begins nowhere in [s], up to the case of letters. *)
Fixpoint free (sep s : string) : bool :=
  match strip_prefix_ci sep s with Some _ => false | None => true end
  && match s with EmptyString => true | String _ s' => free sep s' end.

Lemma free_tail sep a s : free sep (String a s) = true → free sep s = true.
Proof. simpl. by intros [_ H]%andb_true_iff. Qed.

Lemma free_head sep s : free sep s = true → strip_prefix_ci sep s = None.
Proof. destruct s; simpl; intros [H _]%andb_true_iff; by destruct (strip_prefix_ci _ _). Qed.

Lemma match_greedy_free {B} sep (k : string → option B) s :
  match s with String _ s' => free sep s' = true | EmptyString => True end →
  match_greedy sep k s = None.
Proof.
  induction s as [|a s IH]; [done|]. intros Hs. simpl. rewrite IH by (destruct s; [done|by eapply free_tail]).
  by rewrite (free_head sep s Hs).
Qed.

(** The text before the only separator. *)
Lemma match_greedy_here {B} sep (k : string → option B) s t b :
  s ≠ EmptyString → match_greedy sep k (sep +:+ t) = None → k t = Some b →
  match_greedy sep k (s +:+ sep +:+ t) = Some (s, b).
Proof.
  intros Hs Hfree Hk. induction s as [|a s IH]; [done|]. rewrite app_cons. cbn [match_greedy].
  destruct s as [|a' s].
  - change (EmptyString +:+ ?x) with x. by rewrite Hfree, strip_prefix_ci_app, Hk.
  - by rewrite IH.
Qed.

Lemma free_nonspace sep s t :
  string_forallb (λ a, negb (Ascii.eqb (upper_char a) " ")) s = true →
  free (String " " sep) (s +:+ t) = free (String " " sep) t.
Proof.
  induction s as [|a s IH]; [done|]. rewrite app_cons. cbn [string_forallb free strip_prefix_ci].
  intros [Ha Hs]%andb_true_iff. change (upper_char " ") with " "%char. rewrite Ascii.eqb_sym.
  apply negb_true_iff in Ha. rewrite Ha. by apply IH.
Qed.

Lemma free_space c sep b t :
  Ascii.eqb (upper_char c) (upper_char b) = false →
  free (String " " (String c sep)) (" " +:+ String b t) = free (String " " (String c sep)) (String b t).
Proof.
  intros Hb. change (" " +:+ ?x) with (String " " x). cbn [free strip_prefix_ci].
  by rewrite Hb, Ascii.eqb_refl.
Qed.

(** ** Lines *)

(** What a line grants on: everything, a database, or a table of one. *)
Inductive GrantScope : Type :=
| OnAll
| OnDatabase (database : string)
| OnTable (database table : string).

(** One line of a [SHOW GRANTS] answer. *)
Record ShownGrant : Type := mk_shown {
  sh_privileges : list string;
  sh_scope : GrantScope;
  sh_quote : string;
  sh_option : bool
}.

Definition privilege_names : list string :=
  "ALL PRIVILEGES" :: (DatabasePrivilege.value <$> DatabasePrivilege.members).

(** The visible characters of ASCII, of which object names consist here. *)
Definition graph_char (a : ascii) : bool := (33 <=? nat_of_ascii a)%nat && (nat_of_ascii a <=? 126)%nat.

Definition scope_ok (s : GrantScope) : bool :=
  match s with
  | OnAll => true
  | OnDatabase d => string_forallb graph_char d
  | OnTable d t => string_forallb graph_char d && string_forallb graph_char t
  end.

(** What is needed of a privilege's name: words of capital letters, and not
    the beginning of [USAGE]. *)
Definition name_ok (w : string) : bool :=
  good_word w && tidy w && solid_start w
  && match w with String a (String b _) => negb (Ascii.eqb a "U" && Ascii.eqb b "S") | _ => false end.

Definition shown_ok (g : ShownGrant) : Prop :=
  sh_privileges g ≠ [] ∧ Forall (λ w, name_ok w = true) (sh_privileges g)
  ∧ (sh_quote g = "'" ∨ sh_quote g = "`") ∧ scope_ok (sh_scope g) = true.

Definition shown_scope (s : GrantScope) : string :=
  match s with
  | OnAll => "*.*"
  | OnDatabase d => "`" +:+ d +:+ "`.*"
  | OnTable d t => "`" +:+ d +:+ "`.`" +:+ t +:+ "`"
  end.

Definition quoted (q account : string) : string :=
  q +:+ account +:+ q +:+ "@" +:+ q +:+ "%" +:+ q.

Definition option_text (go : bool) : string := if go then " WITH GRANT OPTION" else "".

Definition shown_line (account : string) (g : ShownGrant) : string :=
  "GRANT " +:+ join ", " (sh_privileges g) +:+ " ON " +:+ shown_scope (sh_scope g)
  +:+ " TO " +:+ quoted (sh_quote g) account +:+ option_text (sh_option g).

Lemma privilege_name_ok w : w ∈ privilege_names → name_ok w = true.
Proof.
  intros Hw. assert (forallb name_ok privilege_names = true) as H by by vm_compute.
  rewrite forallb_forall in H. apply H. by apply list_elem_of_In.
Qed.

Lemma names_good ws : Forall (λ w, name_ok w = true) ws → Forall good ws.
Proof.
  intros H. eapply Forall_impl; [exact H|]. intros w Hw.
  unfold name_ok in Hw. rewrite !andb_true_iff in Hw. apply good_word_good. tauto.
Qed.

Lemma names_tidy ws :
  Forall (λ w, name_ok w = true) ws → Forall (λ w, tidy w = true ∧ solid_start w = true) ws.
Proof.
  intros H. eapply Forall_impl; [exact H|]. intros w Hw.
  unfold name_ok in Hw. rewrite !andb_true_iff in Hw. tauto.
Qed.

(** Identifiers, object names, and what surrounds them, hold no space. *)
Lemma graph_no_space s :
  string_forallb graph_char s = true →
  string_forallb (λ a, negb (is_space a)) s = true
  ∧ string_forallb (λ a, negb (Ascii.eqb (upper_char a) " ")) s = true.
Proof.
  intros H. split; (eapply string_forallb_impl; [|exact H]); intros a; by destruct a as [[] [] [] [] [] [] [] []].
Qed.

Lemma ident_graph s : string_forallb ident_char s = true → string_forallb graph_char s = true.
Proof. apply string_forallb_impl. intros a. by destruct a as [[] [] [] [] [] [] [] []]. Qed.

Lemma ident_no_space s :
  string_forallb ident_char s = true →
  string_forallb (λ a, negb (is_space a)) s = true
  ∧ string_forallb (λ a, negb (Ascii.eqb (upper_char a) " ")) s = true.
Proof. by intros H%ident_graph%graph_no_space. Qed.

Lemma quoted_no_space q account :
  q = "'" ∨ q = "`" → string_forallb ident_char account = true →
  string_forallb (λ a, negb (is_space a)) (quoted q account) = true
  ∧ string_forallb (λ a, negb (Ascii.eqb (upper_char a) " ")) (quoted q account) = true.
Proof.
  intros Hq [H1 H2]%ident_no_space. unfold quoted. rewrite !string_forallb_app, H1, H2.
  by destruct Hq as [->| ->].
Qed.

Lemma scope_no_space s :
  scope_ok s = true →
  string_forallb (λ a, negb (is_space a)) (shown_scope s) = true
  ∧ string_forallb (λ a, negb (Ascii.eqb (upper_char a) " ")) (shown_scope s) = true.
Proof.
  destruct s as [|d|d t]; [done|intros [H1 H2]%graph_no_space|
    intros [[H1 H2]%graph_no_space [H3 H4]%graph_no_space]%andb_true_iff];
    unfold shown_scope; rewrite !string_forallb_app, ?H1, ?H2, ?H3, ?H4; done.
Qed.

(** How a scope begins. *)
Lemma scope_starts s : ∃ t, shown_scope s = String "*" t ∨ shown_scope s = String "`" t.
Proof. destruct s; eexists; [by left|by right..]. Qed.

(** A scope is read as that of the member's database exactly when it is that
    database, its name in either case of letters. *)
Definition on_member (database : string) (s : GrantScope) : bool :=
  match s with OnDatabase d => String.eqb (upper d) (upper database) | _ => false end.

Lemma app_inj_r_str s t u : s +:+ u = t +:+ u → s = t.
Proof.
  revert t. induction s as [|a s IH]; intros [|b t]; [done|..].
  - intros H%(f_equal String.length). rewrite !length_app_str in H. simpl in H. lia.
  - intros H%(f_equal String.length). rewrite !length_app_str in H. simpl in H. lia.
  - rewrite !app_cons. intros [= -> H]. by rewrite (IH t).
Qed.

Lemma last_differs s t a b : s +:+ String a "" = t +:+ String b "" → a = b.
Proof.
  revert t. induction s as [|c s IH]; intros [|d t]; rewrite ?app_cons.
  - by intros [= ->].
  - intros H%(f_equal String.length). change ("" +:+ ?x) with x in H. simpl in H. rewrite length_app_str in H. simpl in H. lia.
  - intros H%(f_equal String.length). change ("" +:+ ?x) with x in H. simpl in H. rewrite length_app_str in H. simpl in H. lia.
  - intros [= _ H]. by eapply IH.
Qed.

Lemma scope_database database s :
  String.eqb (upper (shown_scope s)) (upper ("`" +:+ database +:+ "`.*")) = on_member database s.
Proof.
  destruct s as [|d|d t]; unfold shown_scope, on_member; rewrite !upper_app; [done| |].
  - change (upper "`") with "`". change (upper "`.*") with "`.*".
    destruct (String.eqb_spec (upper d) (upper database)) as [->|Hne]; [apply String.eqb_refl|].
    apply String.eqb_neq. intros [= H]. apply Hne. by eapply app_inj_r_str.
  - apply String.eqb_neq. change (upper "`") with "`". change (upper "`.*") with ("`." +:+ String "*" "").
    intros [= H]. revert H. rewrite <-!app_assoc_str. by intros H%last_differs.
Qed.

Definition on_server (s : GrantScope) : bool := match s with OnAll => true | _ => false end.

(** Neither the member's database nor the whole server. *)
Definition elsewhere (database : string) (s : GrantScope) : bool :=
  negb (on_member database s || on_server s).

Lemma scope_global s : String.eqb (upper (shown_scope s)) "*.*" = on_server s.
Proof. destruct s; [done|..]; unfold shown_scope; rewrite !upper_app; done. Qed.

Section line.
  Context (account : string) (g : ShownGrant).
  Context (Hac : string_forallb ident_char account = true) (Hg : shown_ok g).

Lemma line_tidy : tidy (shown_line account g) = true ∧ solid_start (shown_line account g) = true.
Proof using Hac Hg.
  destruct g as [ws scope q go], Hg as (Hne & Hws & Hq & Hsc). unfold shown_line. simpl in *.
  split; [|done]. pose proof (names_tidy ws Hws) as Ht.
  destruct ws as [|w ws]; [done|]. inversion Ht as [|? ? [Hw Hst] _]; subst.
  refine (tidy_app "GRANT" _ eq_refl (tidy_space _ _ _)).
  { destruct w as [|b w]; [done|]. by destruct ws. }
  apply (tidy_app (join ", " (w :: ws))); [by apply tidy_words|].
  refine (tidy_space ("ON " +:+ _) eq_refl (tidy_app "ON" _ eq_refl (tidy_space _ _ _)));
    [by destruct (scope_starts scope) as (? & [->| ->])|].
  apply (tidy_app (shown_scope scope)); [by apply tidy_solid, scope_no_space|].
  refine (tidy_space ("TO " +:+ _) eq_refl (tidy_app "TO" _ eq_refl (tidy_space _ _ _)));
    [by destruct Hq as [->| ->]|].
  apply (tidy_app (quoted q account)); [by apply tidy_solid, quoted_no_space|by destruct go].
Qed.

Lemma line_not_usage : strip_prefix "GRANT USAGE ON *.*" (upper (shown_line account g)) = None.
Proof using Hg.
  destruct g as [ws scope q go], Hg as (Hne & Hws & Hq & Hsc). unfold shown_line. simpl in *.
  destruct ws as [|w ws]; [done|]. inversion Hws as [|? ? Hw _]; subst.
  unfold name_ok in Hw. rewrite !andb_true_iff in Hw.
  destruct Hw as [[[Hgood _] _] Hus]. apply good_word_good in Hgood.
  rewrite upper_app. change (upper "GRANT ") with "GRANT ".
  change "GRANT USAGE ON *.*" with ("GRANT " +:+ "USAGE ON *.*").
  assert (∀ t, strip_prefix "USAGE ON *.*" (w +:+ t) = None) as Hno.
  { intros t. destruct w as [|a [|b w]]; [done|done|]. rewrite !app_cons.
    cbn [strip_prefix]. rewrite (Ascii.eqb_sym "U"), (Ascii.eqb_sym "S").
    apply negb_true_iff in Hus. destruct (Ascii.eqb a "U"); [|done]. simpl in Hus. by rewrite Hus. }
  rewrite upper_app, upper_words by by apply names_good.
  change (strip_prefix ("GRANT " +:+ ?x) ("GRANT " +:+ ?y)) with (strip_prefix x y).
  destruct ws as [|w2 ws]; [apply Hno|]. rewrite join_cons, app_assoc_str. apply Hno.
Qed.

Lemma line_read :
  grant_re (shown_line account g)
  = Some (join ", " (sh_privileges g), shown_scope (sh_scope g)).
Proof using Hac Hg.
  destruct g as [ws scope q go], Hg as (Hne & Hws & Hq & Hsc). unfold shown_line, grant_re.
  cbn [sh_privileges sh_scope sh_quote sh_option].
  rewrite (strip_prefix_ci_app "GRANT ").
  destruct (scope_no_space scope Hsc) as [_ Hscope].
  destruct (quoted_no_space q account Hq Hac) as [_ Hquoted]; cbn [sh_quote] in Hq.
  set (tail := quoted q account +:+ option_text go).
  assert (free " TO " (" " +:+ tail) = true ∧ free " ON " (" " +:+ tail) = true) as [Hto Hon].
  { assert (∀ sep, free (String " " sep) tail = free (String " " sep) (option_text go)) as Hf
      by (intros sep; by apply free_nonspace).
    assert (∃ t, tail = String "'" t ∨ tail = String "`" t) as [t Ht]
      by (unfold tail, quoted; destruct Hq as [->| ->]; eauto).
    split; (destruct Ht as [Ht|Ht]; rewrite Ht, free_space by done; rewrite <-Ht, Hf; by destruct go). }
  destruct (scope_starts scope) as (st & Hst). set (text := shown_scope scope) in *.
  assert (match_greedy " TO " (λ _, Some tt) (text +:+ " TO " +:+ tail) = Some (text, tt)) as Hin.
  { apply match_greedy_here; [by destruct Hst as [->| ->]| |done].
    apply match_greedy_free. exact (eq_trans (free_nonspace "TO " "TO" (" " +:+ tail) eq_refl) Hto). }
  rewrite match_greedy_here with (b := (text, tt)); [done| | |done].
  - destruct ws as [|w ws]; [done|]. inversion Hws as [|? ? Hw _]; subst.
    destruct w; [done|]. by destruct ws.
  - apply match_greedy_free.
    refine (eq_trans (free_nonspace "ON " "ON" (" " +:+ text +:+ " TO " +:+ tail) eq_refl) _).
    assert (free " ON " (text +:+ " TO " +:+ tail) = true) as Hrest.
    { rewrite free_nonspace by done. refine (eq_trans (free_space "O" "N " "T" ("O " +:+ tail) eq_refl) _).
      exact (eq_trans (free_nonspace "ON " "TO" (" " +:+ tail) eq_refl) Hon). }
    destruct Hst as [Hst|Hst]; rewrite Hst, app_cons; rewrite Hst, app_cons in Hrest.
    + exact (eq_trans (free_space "O" "N " "*" (st +:+ " TO " +:+ tail) eq_refl) Hrest).
    + exact (eq_trans (free_space "O" "N " "`" (st +:+ " TO " +:+ tail) eq_refl) Hrest).
Qed.

Lemma line_option : contains " WITH GRANT OPTION" (upper (shown_line account g)) = sh_option g.
Proof using Hac Hg.
  destruct g as [ws scope q go], Hg as (Hne & Hws & Hq & Hsc). unfold shown_line.
  cbn [sh_privileges sh_scope sh_quote sh_option] in *. unfold option_text. destruct go.
  - rewrite !upper_app. do 6 apply contains_app_r. by vm_compute.
  - apply (contains_none "W" "ITH GRANT OPTION"). rewrite app_empty_r, !upper_app, upper_words by by apply names_good.
    pose proof (names_good ws Hws) as Hgood.
    assert (∀ s, string_forallb (λ a, negb (Ascii.eqb (upper_char a) " ")) s = true →
      no_space_then "W" (upper s) = true) as Hns.
    { intros s Hs. apply no_space_then_free. unfold upper. clear -Hs.
      induction s as [|a s IH]; [done|]. simpl in *. apply andb_true_iff in Hs as [-> Hs]. auto. }
    refine (no_space_then_app "W" "GRANT" (" " +:+ _) eq_refl (no_space_then_space "W" _ _ _)).
    + destruct ws as [|w ws]; [done|]. apply words_starts, (gw_start_w w). by inversion Hgood.
    + apply no_space_then_app.
      { apply words_no_space. eapply Forall_impl; [exact Hgood|]. by intros v [_ ? _ ? _ _ _]. }
      refine (no_space_then_app "W" " ON" (" " +:+ _) eq_refl (no_space_then_space "W" _ _ _)).
      { by destruct (scope_starts scope) as (? & [->| ->]). }
      apply no_space_then_app; [by apply Hns, scope_no_space|].
      refine (no_space_then_app "W" " TO" (" " +:+ _) eq_refl (no_space_then_space "W" _ _ _)).
      { by destruct Hq as [->| ->]. }
      by apply Hns, quoted_no_space.
Qed.
End line.

(** ** Answers *)

Definition usage_line (account : string) : string := "GRANT USAGE ON *.* TO " +:+ quoted "`" account.

Lemma see_usage database seen account :
  string_forallb ident_char account = true → see_grant database seen [SqlStr (usage_line account)] = seen.
Proof.
  intros Hac. destruct (quoted_no_space "`" account (or_intror eq_refl) Hac) as [Hq _].
  unfold see_grant. cbn [dedicated_row_text row_text]. unfold usage_line.
  assert (tidy ("GRANT USAGE ON *.* TO " +:+ quoted "`" account) = true) as Ht.
  { refine (tidy_app "GRANT USAGE ON *.* TO" (" " +:+ quoted "`" account) eq_refl
      (tidy_space (quoted "`" account) eq_refl (tidy_solid _ Hq))). }
  rewrite (proj2 (py_split_tidy _ Ht) eq_refl), upper_app.
  change (upper "GRANT USAGE ON *.* TO ") with ("GRANT USAGE ON *.*" +:+ " TO ").
  by rewrite app_assoc_str, strip_prefix_app.
Qed.

Lemma see_shown database account seen g :
  string_forallb ident_char account = true → shown_ok g →
  see_grant database seen [SqlStr (shown_line account g)] =
  mk_seen
    (sg_database seen ∪ list_to_set (if on_member database (sh_scope g) then sh_privileges g else []))
    (sg_global seen ∪ list_to_set (if on_server (sh_scope g) then sh_privileges g else []))
    (sg_grant_option seen || sh_option g) (sg_unexpected seen || elsewhere database (sh_scope g)).
Proof.
  intros Hac Hg. unfold see_grant. cbn [dedicated_row_text row_text].
  destruct (line_tidy account g Hac Hg) as [Ht Hs].
  rewrite (proj2 (py_split_tidy _ Ht) Hs), line_not_usage, line_read, line_option by done.
  destruct Hg as (Hne & Hws%names_good & _).
  assert ((λ p, upper (strip p)) <$> split_char "," (join ", " (sh_privileges g)) = sh_privileges g) as ->.
  { rewrite split_words; [|done|by eapply Forall_impl; [exact Hws|]; intros ? []].
    destruct Hws as [|w ws Hw Hf]; [done|]. rewrite fmap_cons, (gw_strip w Hw), (gw_upper w Hw). f_equal.
    clear Hne. induction Hf as [|w2 ws Hw2 _ IH]; [done|].
    by rewrite !fmap_cons, strip_space, (gw_strip w2 Hw2), (gw_upper w2 Hw2), IH. }
  rewrite scope_database, scope_global. unfold elsewhere. fold (on_server (sh_scope g)).
  destruct (on_member database (sh_scope g)) eqn:Hm;
    [assert (on_server (sh_scope g) = false) as -> by by destruct (sh_scope g)|
     destruct (on_server (sh_scope g))]; cbn; rewrite ?(right_id_L ∅ (∪)), ?orb_false_r, ?orb_true_r; done.
Qed.

(** An answer: lines of grants, and the line of an account without any. *)
Definition shown_row (account : string) (e : option ShownGrant) : row :=
  [SqlStr match e with Some g => shown_line account g | None => usage_line account end].

(** The privileges an answer shows in the scopes [p] holds of. *)
Definition shown_privileges (p : GrantScope → bool) (es : list (option ShownGrant)) : list string :=
  e ← es;
  match e with
  | Some g => if p (sh_scope g) then sh_privileges g else []
  | None => []
  end.

(** Some line satisfies [p]. *)
Definition shows (p : ShownGrant → bool) (es : list (option ShownGrant)) : bool :=
  existsb (λ e, match e with Some g => p g | None => false end) es.

Definition row_ok (e : option ShownGrant) : Prop := match e with Some g => shown_ok g | None => True end.

Lemma see_rows database account es seen :
  string_forallb ident_char account = true → Forall row_ok es →
  foldl (see_grant database) seen (shown_row account <$> es) =
  mk_seen (sg_database seen ∪ list_to_set (shown_privileges (on_member database) es))
    (sg_global seen ∪ list_to_set (shown_privileges on_server es))
    (sg_grant_option seen || shows sh_option es)
    (sg_unexpected seen || shows (λ g, elsewhere database (sh_scope g)) es).
Proof.
  intros Hac Hes. revert seen. induction Hes as [|e es He Hes IH]; intros seen.
  { destruct seen as [d g o u]. simpl. rewrite !orb_false_r. f_equal; set_solver. }
  rewrite fmap_cons. cbn [foldl]. rewrite IH. unfold shown_row at 1 2 3 4. destruct e as [g|].
  - rewrite see_shown by done. unfold shown_privileges, shows. rewrite !bind_cons, !list_to_set_app_L.
    cbn [existsb sg_database sg_global sg_grant_option sg_unexpected].
    by rewrite !(assoc_L (∪)), !orb_assoc.
  - rewrite see_usage by done. done.
Qed.

Lemma identifier_chars value kind v :
  identifier value kind = Ret v → v = value ∧ string_forallb ident_char value = true.
Proof.
  unfold identifier. destruct (fullmatch_class _ _ _ _) eqn:E; [|done].
  intros [= <-]. split; [done|]. by eapply fullmatch_class_chars.
Qed.

(** The verdict on an answer. *)
Lemma verify_shown database account snapshot es kd ka d a :
  identifier database kd = Ret d → identifier account ka = Ret a → Forall row_ok es →
  verify_dedicated_grants database account snapshot (shown_row account <$> es) = Ret tt ↔
  shows (λ g, elsewhere database (sh_scope g)) es = false
  ∧ list_to_set (shown_privileges (on_member database) es) = expected_database snapshot
  ∧ list_to_set (shown_privileges on_server es) = expected_global snapshot
  ∧ shows sh_option es = sn_grant_option snapshot.
Proof.
  intros Hd Ha Hes. pose proof (identifier_chars _ _ _ Hd) as [-> Hdb].
  pose proof (identifier_chars _ _ _ Ha) as [-> Hac].
  unfold verify_dedicated_grants, mbind, outcome_bind.
  assert (∀ k, identifier database k = Ret database ∧ identifier account k = Ret account) as Hk.
  { intros k. unfold identifier in *. split.
    - by destruct (fullmatch_class ident_char 1 64 database).
    - by destruct (fullmatch_class ident_char 1 64 account). }
  rewrite (proj1 (Hk _)), (proj2 (Hk _)), see_rows by done.
  cbn [sg_database sg_global sg_grant_option sg_unexpected orb]. rewrite !(left_id_L ∅ (∪)).
  destruct (_ || _ || _) eqn:E.
  - split; [done|]. intros (H0 & H1 & H2 & H3). rewrite H0, H1, H2, H3 in E.
    rewrite !bool_decide_eq_true_2, Bool.eqb_reflx in E by done. done.
  - split; [intros _|done]. rewrite !orb_false_iff, !negb_false_iff in E.
    destruct E as [[[H0 H1%bool_decide_eq_true] H2%bool_decide_eq_true] H3%Bool.eqb_prop]. done.
Qed.

(** The statements a snapshot is granted with, as lines. *)
Definition built_grants (database : string) (s : CompiledPermissionSnapshot) : list ShownGrant :=
  (if sn_legacy_all_privileges s then [mk_shown ["ALL PRIVILEGES"] (OnDatabase database) "'" (sn_grant_option s)]
   else match DatabasePrivilege.value <$> database_privileges s with
        | [] => []
        | names => [mk_shown names (OnDatabase database) "'" (sn_grant_option s)]
        end)
  ++ (if creates_users s then [mk_shown ["CREATE USER"] OnAll "'" (sn_grant_option s)] else []).

Lemma built_ok database s : string_forallb ident_char database = true → Forall shown_ok (built_grants database s).
Proof.
  intros Hd%ident_graph.
  assert (∀ ps : list DatabasePrivilege.t,
    Forall (λ w, name_ok w = true) (DatabasePrivilege.value <$> ps)) as Hn.
  { intros ps. apply Forall_fmap, Forall_forall. intros p _. apply privilege_name_ok, list_elem_of_further.
    apply list_elem_of_fmap_2. destruct p; set_solver. }
  unfold built_grants. apply Forall_app. split.
  - destruct (sn_legacy_all_privileges s).
    { constructor; [|done]. split_and!; [done| |by left|done]. constructor; [by vm_compute|done]. }
    specialize (Hn (database_privileges s)). destruct (_ <$> _); [done|].
    constructor; [|done]. split_and!; [done|done|by left|done].
  - destruct (creates_users s); [|done]. constructor; [|done].
    split_and!; [done| |by left|done]. exact (Hn [DatabasePrivilege.CREATE_USER]).
Qed.

Lemma built_statements database account s sqls :
  build_dedicated_grant_sql database account s = Ret sqls →
  sqls = shown_line account <$> built_grants database s ∧ built_grants database s ≠ []
  ∧ identifier database "database name" = Ret database ∧ identifier account "account name" = Ret account.
Proof.
  unfold build_dedicated_grant_sql, mbind, outcome_bind.
  destruct (identifier database _) as [d|] eqn:Hd; [|done].
  destruct (identifier account _) as [a|] eqn:Ha; [|done].
  apply identifier_chars in Hd as Hd'. apply identifier_chars in Ha as Ha'.
  destruct Hd' as [-> _], Ha' as [-> _]. destruct (_ != _); [done|]. unfold built_grants.
  destruct (sn_legacy_all_privileges s), (creates_users s),
    (DatabasePrivilege.value <$> database_privileges s) as [|n ns]; simpl;
    try done; intros [= <-]; split_and!; try done.
  all: unfold shown_line, shown_scope, quoted, option_text; cbn [sh_privileges sh_scope sh_quote sh_option].
  all: rewrite ?app_assoc_str; done.
Qed.

(** C29: The grants of a dedicated member are exact.  Let a [SHOW GRANTS] answer
    show grants of any privileges on the whole server, on any database or on any
    table, in however many lines, with the privileges in any order, the account
    quoted either way and usage lines in between.  [verify_dedicated_grants]
    accepts it exactly when no line grants anything elsewhere than on the
    member's database (its name in either case of letters) and on the whole
    server, the privileges on the database and the global ones are those of the
    snapshot, no more and no fewer, and the grant option is shown exactly when the
    snapshot has it.  The statements [build_dedicated_grant_sql] issues are
    themselves such an answer, and accepted. *)
Theorem dedicated_grants_exact database account snapshot sqls es :
  build_dedicated_grant_sql database account snapshot = Ret sqls → Forall row_ok es →
  (verify_dedicated_grants database account snapshot (shown_row account <$> es) = Ret tt ↔
     shows (λ g, elsewhere database (sh_scope g)) es = false
     ∧ list_to_set (shown_privileges (on_member database) es) = expected_database snapshot
     ∧ list_to_set (shown_privileges on_server es) = expected_global snapshot
     ∧ shows sh_option es = sn_grant_option snapshot)
  ∧ verify_dedicated_grants database account snapshot ((λ sql, [SqlStr sql]) <$> sqls) = Ret tt.
Proof.
  intros Hb Hes. destruct (built_statements _ _ _ _ Hb) as (-> & Hne & Hd & Ha).
  split; [by eapply verify_shown|].
  rewrite <-list_fmap_compose.
  assert ((λ sql, [SqlStr sql]) ∘ shown_line account <$> built_grants database snapshot
    = shown_row account <$> (Some <$> built_grants database snapshot)) as ->
    by by rewrite <-list_fmap_compose.
  eapply verify_shown; [done|done| |].
  { apply Forall_fmap, (built_ok database snapshot). by destruct (identifier_chars _ _ _ Hd). }
  unfold built_grants, expected_database, expected_global, shown_privileges, shows, elsewhere in *.
  assert (on_member database (OnDatabase database) = true) as Hon by apply String.eqb_refl.
  destruct (sn_legacy_all_privileges snapshot), (creates_users snapshot),
    (DatabasePrivilege.value <$> database_privileges snapshot) as [|n ns], (sn_grant_option snapshot);
    try done; cbn -[on_member]; rewrite ?Hon; cbn; rewrite ?app_nil_r; split_and!; set_solver.
Qed.

Lemma dedicated_grants_exact_witness :
  let s := mk_snapshot None None [DatabasePrivilege.SELECT; DatabasePrivilege.CREATE_USER] false
             PermissionScope.DEDICATED false in
  let select := [SqlStr "GRANT SELECT ON `app`.* TO `agentic`@`%`"] in
  let users := [SqlStr "GRANT CREATE USER ON *.* TO `agentic`@`%`"] in
  verify_dedicated_grants "app" "agentic" s
    [[SqlStr "GRANT USAGE ON *.* TO `agentic`@`%`"]; select; users] = Ret tt
  ∧ verify_dedicated_grants "app" "agentic" s [[SqlStr "GRANT SELECT, DROP ON `app`.* TO `agentic`@`%`"]; users] ≠ Ret tt
  ∧ verify_dedicated_grants "app" "agentic" s [select; users; [SqlStr "GRANT SELECT ON `payroll`.`staff` TO `agentic`@`%`"]] ≠ Ret tt.
Proof.
  set (s := mk_snapshot None None [DatabasePrivilege.SELECT; DatabasePrivilege.CREATE_USER] false
             PermissionScope.DEDICATED false). cbv zeta.
  split; [|split].
  - refine (proj2 (proj1 (dedicated_grants_exact "app" "agentic" s _
      [None; Some (mk_shown ["SELECT"] (OnDatabase "app") "`" false); Some (mk_shown ["CREATE USER"] OnAll "`" false)]
      eq_refl _)) _).
    + repeat constructor; try done; by right.
    + split_and!; vm_compute; reflexivity.
  - intros H. refine (_ (proj1 (proj1 (dedicated_grants_exact "app" "agentic" s _
      [Some (mk_shown ["SELECT"; "DROP"] (OnDatabase "app") "`" false); Some (mk_shown ["CREATE USER"] OnAll "`" false)]
      eq_refl _)) H)).
    + intros (_ & Hd & _). assert ("DROP" ∉ expected_database s) as Hx
        by match goal with |- ?P => exact (bool_decide_eq_true_1 P eq_refl) end.
      apply Hx. rewrite <-Hd. apply elem_of_list_to_set. right. by left.
    + repeat constructor; try done; by right.
  - intros H. refine (_ (proj1 (proj1 (dedicated_grants_exact "app" "agentic" s _
      [Some (mk_shown ["SELECT"] (OnDatabase "app") "`" false); Some (mk_shown ["CREATE USER"] OnAll "`" false);
       Some (mk_shown ["SELECT"] (OnTable "payroll" "staff") "`" false)]
      eq_refl _)) H)).
    + intros [Hd _]. by vm_compute in Hd.
    + repeat constructor; try done; by right.
Defined.
