(* ===== verification/DedicatedPools.v ===== *)
(** * Dedicated pools ([server/core/dedicated_pool_repository.py])

    The members of a pool: how many there are, handing a fresh one to a
    resource, and reserving the purchase of another one.  The purchase profile
    is [dedicated_purchase_profile.py], the guard against the retired pool
    [legacy_pool_retirement.py].  Metrics are left out. *)

From S2P Require Import Prelude PyString Models Permission Capacity OperationBudget Worker.

Definition PoolCapacityLimitReached : PyExc :=
  exc "PoolCapacityLimitReached" "Dedicated pool capacity limit reached".
Definition PurchaseProfileUpgradeRequired : PyExc :=
  exc "PurchaseProfileUpgradeRequired" "Dedicated pool purchase profile requires administrator upgrade".
Definition DedicatedMemberNotReady (msg : string) : PyExc := exc "DedicatedMemberNotReady" msg.
Definition LegacyPoolStatePresent (code : string) : PyExc := exc "LegacyPoolStatePresent" code.

Definition put_member (m : DedicatedPoolMember) (db : DB) : DB :=
  db <| pool_members := <[m_id m := m]> (pool_members db) |>.
Definition put_instance (i : Instance) (db : DB) : DB :=
  db <| instances := <[i_id i := i]> (instances db) |>.

Definition members_of (pool_id : string) (db : DB) : list DedicatedPoolMember :=
  filter (λ m, m_pool_id m = pool_id) (snd <$> map_to_list (pool_members db)).

(** The member allocated to a resource. *)
Definition member_of_resource (rid : string) (db : DB) : option DedicatedPoolMember :=
  head (filter (λ m, m_allocated_resource_id m = Some rid) (snd <$> map_to_list (pool_members db))).

(** ** Capacity *)

Record CapacitySnapshot : Type := mk_capacity_snapshot {
  cs_allocatable : Z;
  cs_planning : Z;
  cs_billable_total : Z
}.

(** [sum(p(member) for member in members)] *)
Definition count (p : DedicatedPoolMember → bool) (ms : list DedicatedPoolMember) : Z :=
  Z.of_nat (length (filter (λ m, p m = true) ms)).

Definition since (cutoff : time) (t : option time) : bool :=
  match t with Some t => cutoff <=? t | None => false end.

Definition cutoff (pool : DedicatedPool) (now : time) : time :=
  now - seconds (p_available_health_stale_after_seconds pool).

Definition allocatable (pool : DedicatedPool) (now : time) (m : DedicatedPoolMember) : bool :=
  (m_status m == DedicatedMemberStatus.AVAILABLE)
  && (m_readiness_status m == ReadinessStatus.FRESH)
  && since (cutoff pool now) (m_last_ready_verified_at m).

Definition planned (m : DedicatedPoolMember) : bool :=
  (m_status m == DedicatedMemberStatus.AVAILABLE)
  || ((m_status m == DedicatedMemberStatus.REPLENISHING) && (m_allocated_resource_id m == None)).

Definition billable (m : DedicatedPoolMember) : bool := m_status m != DedicatedMemberStatus.DELETED.

Definition capacity_snapshot (pool_id : string) (now : time) : M (Session DB) CapacitySnapshot :=
  pool ← query (λ db, pools db !! pool_id);
  match pool with
  | None => raise (LookupError "Dedicated pool not found")
  | Some pool =>
      ms ← query (members_of pool_id);
      mret (mk_capacity_snapshot (count (allocatable pool now) ms) (count planned ms) (count billable ms))
  end.

(** ** Handing out a member *)

(** [activate_dedicated_member]: the member and the resource as it leaves them,
    and the credential it appends to a resource that has none. *)
Definition member_access (new_credential_id : string) (m : DedicatedPoolMember)
    (rid : string) : InstanceCredential :=
  {| c_id := new_credential_id; c_instance_id := None; c_resource_id := Some rid;
     c_name := "resource-access"; c_purpose := CredentialPurpose.RESOURCE_ACCESS;
     c_capability := CredentialCapability.READWRITE;
     c_username_ciphertext := m_sandbox_username_ciphertext m;
     c_password_ciphertext := m_sandbox_password_ciphertext m;
     c_database_name := m_database_name m; c_status := CredentialStatus.ACTIVE; c_version := 1;
     c_created_by_user_id := None |}.

Definition activate_dedicated_member (new_credential_id : string)
    (revision : option PermissionTemplateRevision) (creds : list InstanceCredential)
    (m : DedicatedPoolMember) (r : DBInstanceResource)
    : outcome (DedicatedPoolMember * DBInstanceResource * option InstanceCredential) :=
  if (m_host m == None) || (m_port m == None) || (m_database_name m == None)
     || (m_sandbox_username_ciphertext m == None) || (m_sandbox_password_ciphertext m == None)
     || bool_decide (m_permission_snapshot_json m = None) then
    Raise (DedicatedMemberNotReady "Dedicated member readiness data is incomplete")
  else if m_allocated_resource_id m != Some (r_id r) then
    Raise (DedicatedMemberNotReady "Dedicated member is not reserved for the resource")
  else
    Ret (m <| m_status := DedicatedMemberStatus.ALLOCATED |>,
         r <| r_allocated_instance_id := Some (m_instance_id m) |>
           <| r_database_name := m_database_name m |>
           <| r_permission_template_revision_id := m_permission_template_revision_id m |>
           <| r_permission_template_id := pr_template_id <$> revision |>
           <| r_permission_snapshot_json := m_permission_snapshot_json m |>
           <| r_status := DBInstanceStatus.READY |>
           <| r_provisioning_step := LeaseProvisioningStep.VERIFIED |>
           <| r_failure_reason := None |>,
         match creds with [] => Some (member_access new_credential_id m (r_id r)) | _ => None end).

Definition member_revision (m : DedicatedPoolMember) (db : DB) : option PermissionTemplateRevision :=
  id ← m_permission_template_revision_id m; revisions db !! id.

(** The rows written by an activation. *)
Definition put_activation (a : DedicatedPoolMember * DBInstanceResource * option InstanceCredential)
    (db : DB) : DB :=
  let '(m, r, c) := a in
  let db := put_member m (put_resource r db) in
  match c with Some c => put_credential c db | None => db end.

(** The members a resource can be given, by id. *)
Definition claimable_member (pool : DedicatedPool) (now : time) (m : DedicatedPoolMember) : bool :=
  allocatable pool now m && (m_allocated_resource_id m == None).

Definition member_id_le (a b : DedicatedPoolMember) : bool := bool_decide (String.le (m_id a) (m_id b)).

Definition member_candidate (pool : DedicatedPool) (now : time) (db : DB) : option DedicatedPoolMember :=
  first_by member_id_le (filter (λ m, claimable_member pool now m = true) (members_of (p_id pool) db)).

(** The unique columns of a member row that another row repeats. *)
Definition member_conflict (m : DedicatedPoolMember) (db : DB) : bool :=
  existsb (λ o : DedicatedPoolMember,
    negb (String.eqb (m_id o) (m_id m))
    && (String.eqb (m_instance_id o) (m_instance_id m)
        || (negb (m_purchase_token m == None) && (m_purchase_token o == m_purchase_token m))
        || (negb (m_allocated_resource_id m == None)
            && (m_allocated_resource_id o == m_allocated_resource_id m))))
    (snd <$> map_to_list (pool_members db)).

(** [UPDATE] or [INSERT] of a member row. *)
Definition write_member (m : DedicatedPoolMember) : M (Session DB) unit :=
  conflict ← query (member_conflict m);
  if (conflict : bool) then raise (IntegrityError "UNIQUE constraint failed")
  else execute (put_member m).

(** The same of an instance, whose [cluster_id] is unique. *)
Definition instance_conflict (i : Instance) (db : DB) : bool :=
  existsb (λ o : Instance, negb (String.eqb (i_id o) (i_id i)) && String.eqb (i_cluster_id o) (i_cluster_id i))
    (snd <$> map_to_list (instances db)).

Definition write_instance (i : Instance) : M (Session DB) unit :=
  conflict ← query (instance_conflict i);
  if (conflict : bool) then raise (IntegrityError "UNIQUE constraint failed")
  else execute (put_instance i).

Definition claim_fresh_member (pool_id resource_id : string) (now : time)
    : M (Session DB) (option DedicatedPoolMember) :=
  resource ← query (λ db, resources db !! resource_id);
  match resource with
  | None => raise (LookupError "Database resource not found")
  | Some r =>
      if r_allocated_instance_id r != None then mret None
      else
        pool ← query (λ db, pools db !! pool_id);
        match pool with
        | None => raise (LookupError "Dedicated pool not found")
        | Some pool =>
            candidate ← query (member_candidate pool now);
            match candidate with
            | None => mret None
            | Some m =>
                let m := m <| m_status := DedicatedMemberStatus.ALLOCATED_PREPARING |>
                           <| m_allocated_resource_id := Some resource_id |> in
                write_member m ;;
                execute (put_resource (r <| r_allocated_instance_id := Some (m_instance_id m) |>)) ;;
                mret (Some m)
            end
        end
  end.

(** ** Purchases *)

Definition PROFILE_ID : string := "agentic-dedicated-mysql".
Definition PROFILE_REVISION : Z := 1.
Definition DEFAULT_STORAGE_TYPE : string := "essdpl1".

Definition FIXED_PARAMETERS : list (string * string) :=
  [ ("db_type", "MySQL"); ("db_version", "8.0"); ("db_minor_version", "8.0.2");
    ("db_node_class", "polar.mysql.sl.small.c"); ("pay_type", "Postpaid");
    ("serverless_type", "AgileServerless"); ("proxy_type", "GENERAL");
    ("proxy_class", "polar.maxscale.g2.medium.c"); ("scale_min", "0"); ("scale_max", "4");
    ("allow_shut_down", "true"); ("agentic_db_type", "dedicated"); ("scale_ro_num_min", "0");
    ("scale_ro_num_max", "1"); ("storage_space", "20") ].

Definition build_purchase_config (storage_type : string) : outcome (list (string * string)) :=
  if String.eqb storage_type DEFAULT_STORAGE_TYPE
  then Ret (FIXED_PARAMETERS ++ [("storage_type", storage_type)])
  else Raise (exc "UnsupportedStorageType" ("Unsupported Dedicated storage type: " +:+ storage_type)).

(** [parsed == expected] of a decoded object and a dict of strings: the same
    keys with the same values (a repeated key of the text keeps its last value). *)
Definition object_equals (payload : list (string * json)) (expected : list (string * string)) : bool :=
  bool_decide ((list_to_set payload.*1 : gset string) = list_to_set expected.*1)
  && forallb (λ kv, match json_get kv.1 (rev payload) with
                    | Some (JStr s) => String.eqb s kv.2
                    | _ => false
                    end) expected.

(** [classify_legacy_purchase_config(value) == VALID] *)
Definition purchase_config_valid (value : json_text) : bool :=
  match json_loads value with
  | Some (JObj payload) =>
      match json_get "storage_type" (rev payload) with
      | Some (JStr storage_type) =>
          match build_purchase_config storage_type with
          | Ret expected => object_equals payload expected
          | Raise _ => false
          end
      | _ => false
      end
  | _ => false
  end.

(** The stored configuration of the retired pool ([module.resource_pool]): no
    row, a text [ModuleDocument] rejects, or its effective configuration. *)
Inductive ResourcePoolDocument : Type :=
| NoDocument
| InvalidDocument
| Document (effective : option (list (string * json))).

Definition legacy_target_of (document : ResourcePoolDocument) : Z * bool :=
  match document with
  | NoDocument => (0, false)
  | InvalidDocument => (0, true)
  | Document None => (0, false)
  | Document (Some config) =>
      match json_get "target_size" (rev config) with
      | None => (0, false)
      | Some (JNum value) => if value <? 0 then (0, true) else (value, false)
      | Some _ => (0, true)
      end
  end.

Section purchase.
  (** The row as [ModuleDocument.model_validate_json] reads it. *)
  Context (resource_pool_document : DB → ResourcePoolDocument).

Definition legacy_mode (i : Instance) : bool :=
  (i_allocation_mode i == AllocationMode.POOLED) || (i_allocation_mode i == AllocationMode.AUTO_PROVISIONED).

Definition unlinked_physical_instances (db : DB) : Z :=
  count_rows (λ i, legacy_mode i
    && negb (existsb (λ m, String.eqb (m_instance_id m) (i_id i)) (snd <$> map_to_list (pool_members db))))
    (instances db).

Definition member_mode_mismatches (db : DB) : Z :=
  count_rows (λ m, match instances db !! m_instance_id m with
                   | Some i => i_allocation_mode i != AllocationMode.DEDICATED_POOL
                   | None => false
                   end) (pool_members db).

Definition blocking_codes (db : DB) : list string :=
  let '(legacy_target_size, legacy_config_invalid) := legacy_target_of (resource_pool_document db) in
  (if (0 <? legacy_target_size) || legacy_config_invalid then ["LEGACY_POOL_CONFIG_PRESENT"] else [])
  ++ (if negb (unlinked_physical_instances db =? 0) || negb (member_mode_mismatches db =? 0)
      then ["LEGACY_POOL_INSTANCE_PRESENT"] else []).

Definition assert_legacy_purchase_safe : M (Session DB) unit :=
  codes ← query blocking_codes;
  match codes with
  | [] => mret tt
  | code :: _ => raise (LegacyPoolStatePresent code)
  end.

Inductive PurchaseIntent : Set := PREWARM | REQUEST.

Definition profile_valid (pool : DedicatedPool) : bool :=
  (p_purchase_profile_id pool == Some PROFILE_ID)
  && (p_purchase_profile_revision pool == Some PROFILE_REVISION)
  && (p_storage_type pool != None)
  && purchase_config_valid (p_purchase_config_json pool).

(** A write transaction; on SQLite [BEGIN IMMEDIATE] when none is open. *)
Definition reserve_member_purchase (pool_id : string) (now : time) (intent : PurchaseIntent)
    : M (Session DB) bool :=
  assert_legacy_purchase_safe ;;
  pool ← query (λ db, pools db !! pool_id);
  match pool with
  | None => raise (LookupError "Dedicated pool not found")
  | Some pool =>
      if negb (profile_valid pool) then raise PurchaseProfileUpgradeRequired
      else
        snapshot ← capacity_snapshot pool_id now;
        if match intent with PREWARM => p_target_size pool <=? cs_planning snapshot | REQUEST => false end
        then mret false
        else if p_max_total_members pool <=? cs_billable_total snapshot then raise PoolCapacityLimitReached
        else
          consume_hourly_budget "pool" (p_id pool) "purchase" (p_max_member_purchases_per_hour pool) now ;;
          mret true
  end.
End purchase.
