(* ===== verification/DedicatedProvisioner.v ===== *)
(** * Preparing a dedicated member ([server/core/dedicated_pool_provisioner.py])

    One call of [advance] takes a member one preparation step further.  A step
    is cut at its await: [begin_advance] is the transaction that loads the
    member and commits before the cloud or the member's server is called,
    [run_call] is the call, [finish_advance] the transaction that stores what
    came back.  The objects of a session keep the values they were loaded with
    ([expire_on_commit] is off), and a flush writes the columns that differ
    from them, so that [finish_advance] writes over whatever was committed in
    between, column by column. *)

From S2P Require Import Prelude PyString Models AdapterInterface Dispatcher DispatchLoop Permission.
From S2P Require Import Ddl.
From S2P Require Import Capacity Hashing Service DedicatedMySQL DedicatedPools.

Definition DedicatedPoolProvisioningError (msg : string) : PyExc :=
  exc "DedicatedPoolProvisioningError" msg.
Definition AttributeError (msg : string) : PyExc := exc "AttributeError" msg.
Definition StaleDataError : PyExc := exc "StaleDataError" "UPDATE statement on table expected to update 1 row(s)".

(** ** The cloud

    The calls of [PolarDBClient] on the client of a region; choosing that
    client ([_client_or_raise]) may raise and is part of the call. *)

Record ClusterResult : Type := mk_cluster_result {
  cr_cluster_id : option string;
  cr_agentic_db_cluster_id : option string;
  cr_request_id : option string
}.

Record EndpointAddress : Type := mk_address {
  ad_net_type : option string;
  ad_connection_string : string;
  ad_port : string
}.

Record Endpoint : Type := mk_endpoint {
  ep_endpoint_type : string;
  ep_address_items : list EndpointAddress
}.

Class PolarDBClient (X : Type) : Type := {
  create_dedicated_cluster : option string → list (string * string) → string → string → M X ClusterResult;
  describe_cluster_attribute : option string → string → M X (option string);
  describe_endpoints : option string → string → M X (list Endpoint);
  create_account : option string → string → string → string → string → M X unit;
  describe_account : option string → string → string → M X (option (option string));
  cloud_create_database : option string → string → string → M X unit;
  delete_cluster : option string → string → M X unit
}.

(** What an [OpenAPIError] carries besides its text. *)
Record OpenAPIDetails : Type := mk_openapi {
  oa_code : string;
  oa_message : string;
  oa_operation : option string;
  oa_request_id : option string
}.

Definition OPENAPI_DUPLICATE_CODES : list string :=
  ["InvalidAccountName.Duplicate"; "InvalidDBName.Duplicate"].

(** [resolve_primary_endpoint] of [polardb_provisioning_helpers.py]. *)
Definition endpoint_of_type (items : list Endpoint) (ty : string) : option Endpoint :=
  last (filter (λ e, ep_endpoint_type e = ty) items).

Definition chosen_endpoint (items : list Endpoint) : option Endpoint :=
  match endpoint_of_type items "Primary" with
  | Some e => Some e
  | None =>
      match endpoint_of_type items "PrimaryOnProxy" with
      | Some e => Some e
      | None => endpoint_of_type items "Cluster"
      end
  end.

Definition ProvisioningError (msg : string) : PyExc := exc "ProvisioningError" msg.

(** The keys of a dict built by insertion, and [sorted] of a set of strings. *)
Definition first_occurrences (l : list string) : list string :=
  foldl (λ acc x, if bool_decide (x ∈ acc) then acc else acc ++ [x]) [] l.

Definition string_list_repr (l : list string) : string := py_repr (JArr (JStr <$> l)).

Definition sorted_strings (l : list string) : list string :=
  merge_sort String.le (first_occurrences l).

Definition resolve_primary_endpoint (items : list Endpoint) (cluster_id preferred_net_type : string)
    : outcome (string * Z) :=
  match chosen_endpoint items with
  | Some (mk_endpoint _ ((_ :: _) as addresses)) =>
      match head (filter (λ a, ad_net_type a = Some preferred_net_type) addresses) with
      | Some a => port ← int_of_value (SqlStr (ad_port a)); Ret (ad_connection_string a, port)
      | None =>
          let net_types := sorted_strings (filter (.≠ EmptyString) (omap ad_net_type addresses)) in
          Raise (ProvisioningError ("no " +:+ preferred_net_type +:+ " endpoint for " +:+ cluster_id
                 +:+ "; available network types: " +:+ string_list_repr net_types))
      end
  | _ =>
      Raise (ProvisioningError ("no usable endpoint for " +:+ cluster_id +:+ "; available types: "
             +:+ string_list_repr (first_occurrences (ep_endpoint_type <$> items))))
  end.

(** ** Purchase parameters *)

(** [d[key] = value] on an insertion-ordered dict. *)
Fixpoint dict_set (key value : string) (d : list (string * string)) : list (string * string) :=
  match d with
  | [] => [(key, value)]
  | (k, v) :: d' => if String.eqb k key then (k, value) :: d' else (k, v) :: dict_set key value d'
  end.

Definition dict_update (d new : list (string * string)) : list (string * string) :=
  foldl (λ d kv, dict_set kv.1 kv.2 d) d new.

Definition network_identifier (value : option string) (field : string) : outcome string :=
  let normalized := strip (default EmptyString value) in
  if String.eqb normalized EmptyString then
    Raise (DedicatedPoolProvisioningError (field +:+ " cannot be blank"))
  else Ret normalized.

Definition purchase_parameters (m : DedicatedPoolMember) (pool : DedicatedPool) (i : Instance)
    : outcome (list (string * string)) :=
  match json_loads (p_purchase_config_json pool) with
  | None => Raise (DedicatedPoolProvisioningError "Dedicated pool purchase configuration is invalid")
  | Some (JObj configured) =>
      region_id ← network_identifier (i_region i) "region_id";
      vpc_id ← network_identifier (Some (p_vpc_id pool)) "vpc_id";
      vswitch_id ← network_identifier (Some (p_vswitch_id pool)) "vswitch_id";
      let params := dict_update [] ((λ kv, (kv.1, py_str kv.2)) <$> configured) in
      let params := dict_update params
        [("region_id", region_id); ("vpc_id", vpc_id); ("vswitch_id", vswitch_id);
         ("client_token", str_column (m_purchase_token m))] in
      let zone_id := strip (default EmptyString (p_zone_id pool)) in
      let params := if String.eqb zone_id EmptyString then params else dict_set "zone_id" zone_id params in
      Ret (if truthy (p_security_ip_list pool)
           then dict_set "security_ip_list" (default EmptyString (p_security_ip_list pool)) params
           else params)
  | Some _ => Raise (DedicatedPoolProvisioningError "Dedicated pool purchase configuration must be an object")
  end.

(** [_optional_string] *)
Definition optional_string (v : option string) : option string := none_if_empty v.

(** [str(account.get("status") or "").strip().lower() == "available"] *)
Definition account_available (account : option (option string)) : bool :=
  match account with
  | Some status => String.eqb (lower (strip (default EmptyString status))) "available"
  | None => false
  end.

(** ** Failures *)

(** [re.sub(r"[^A-Za-z0-9]+", "_", s)]: [within] when the character before was replaced. *)
Fixpoint collapse_symbols (within : bool) (s : string) : string :=
  match s with
  | EmptyString => EmptyString
  | String a s' =>
      if is_alnum a then String a (collapse_symbols false s')
      else if within then collapse_symbols true s'
      else String "_" (collapse_symbols true s')
  end.

(** [s.strip("_")] *)
Fixpoint lstrip_underscore (s : string) : string :=
  match s with
  | String "_" s' => lstrip_underscore s'
  | _ => s
  end.

Fixpoint rstrip_underscore (s : string) : string :=
  match s with
  | EmptyString => EmptyString
  | String a s' =>
      match rstrip_underscore s' with
      | EmptyString => if Ascii.eqb a "_" then EmptyString else String a EmptyString
      | t => String a t
      end
  end.

(** [safe_request_id] of [logging.py]. *)
Definition request_id_char (a : ascii) : bool :=
  is_alnum a || bool_decide (a ∈ ["."; "_"; ":"; "-"]%char).
Definition safe_request_id (value : option string) : option string :=
  match value with
  | Some v => if fullmatch_class request_id_char 1 128 v then Some v else None
  | None => None
  end.

(** A JSON string with everything outside ASCII escaped. *)
Definition json_escape_ascii (a : ascii) : string :=
  let n := nat_of_ascii a in
  if (127 <? n)%nat then
    String backslash ("u00" +:+ String (hex_digit (n / 16)) (String (hex_digit (n mod 16)) EmptyString))
  else json_escape a.
Definition json_string (s : string) : string :=
  String dquote (string_flat_map json_escape_ascii s +:+ String dquote EmptyString).

Section provisioner.
  Context {X : Type} `{PolarDBClient X} `{MySQLConnector X}.
  Context (encrypt : string → string) (decrypt : string → outcome string).
  Context (openapi_details : PyExc → option OpenAPIDetails).
  Context (clock : nat → time).

Definition is_duplicate (e : PyExc) : bool :=
  match openapi_details e with
  | Some d => bool_decide (oa_code d ∈ OPENAPI_DUPLICATE_CODES)
  | None => false
  end.

Definition failure_code (e : PyExc) : string :=
  let detail := match openapi_details e with Some d => oa_code d | None => exc_type e end in
  let safe := upper (rstrip_underscore (lstrip_underscore (collapse_symbols false detail))) in
  "DEDICATED_PREWARM_" +:+ (if String.eqb safe EmptyString then "FAILED" else safe).

Definition failure_record (now : time) (e : PyExc) : string :=
  let code := failure_code e in
  match openapi_details e with
  | None => code
  | Some d =>
      json_object
        ([("code", json_string code); ("detail", json_string (oa_message d));
          ("occurred_at", json_string (isoformat now))]
         ++ (if truthy (oa_operation d)
             then [("operation", json_string (default EmptyString (oa_operation d)))] else []))
  end.

(** ** Loading a member *)

(** The member of a session with the rows its relationships load. *)
Record LoadedMember : Type := mk_loaded_member {
  lm_member : DedicatedPoolMember;
  lm_pool : DedicatedPool;
  lm_instance : Instance;
  lm_pool_revision : option PermissionTemplateRevision;
  lm_revision : option PermissionTemplateRevision;
  lm_resource : option LoadedResource
}.

Definition load_member (member_id : string) : M (Session DB) (option LoadedMember) :=
  found ← query (λ db, pool_members db !! member_id);
  match found with
  | None => mret None
  | Some m =>
      pool ← query (λ db, pools db !! m_pool_id m);
      instance ← query (λ db, instances db !! m_instance_id m);
      match pool, instance with
      | Some pool, Some instance =>
          pool_revision ← query (λ db, revisions db !! p_permission_template_revision_id pool);
          revision ← query (member_revision m);
          resource ← query (λ db,
            rid ← m_allocated_resource_id m; r ← resources db !! rid;
            Some (mk_loaded r (resource_credentials rid db)));
          mret (Some (mk_loaded_member m pool instance pool_revision revision resource))
      | _, _ => raise (AttributeError "'NoneType' object has no attribute")
      end
  end.

#[export] Instance LoadedMember_eta : Eta LoadedMember := λ x,
  mk_loaded_member (lm_member x) (lm_pool x) (lm_instance x) (lm_pool_revision x) (lm_revision x)
    (lm_resource x).

(** ** Flushing

    A column is written when its value differs from the loaded one. *)

Definition dirty {A : Type} `{EqDecision A} (loaded new current : A) : A :=
  if decide (new = loaded) then current else new.
Definition flush_member (loaded new row : DedicatedPoolMember) : DedicatedPoolMember :=
  {| m_id := m_id row;
     m_pool_id := dirty (m_pool_id loaded) (m_pool_id new) (m_pool_id row);
     m_instance_id := dirty (m_instance_id loaded) (m_instance_id new) (m_instance_id row);
     m_status := dirty (m_status loaded) (m_status new) (m_status row);
     m_readiness_status := dirty (m_readiness_status loaded) (m_readiness_status new) (m_readiness_status row);
     m_preparation_step := dirty (m_preparation_step loaded) (m_preparation_step new) (m_preparation_step row);
     m_purchase_token := dirty (m_purchase_token loaded) (m_purchase_token new) (m_purchase_token row);
     m_cloud_request_id := dirty (m_cloud_request_id loaded) (m_cloud_request_id new) (m_cloud_request_id row);
     m_agentic_db_cluster_id := dirty (m_agentic_db_cluster_id loaded) (m_agentic_db_cluster_id new) (m_agentic_db_cluster_id row);
     m_last_ready_verified_at := dirty (m_last_ready_verified_at loaded) (m_last_ready_verified_at new) (m_last_ready_verified_at row);
     m_lifecycle_username_ciphertext := dirty (m_lifecycle_username_ciphertext loaded) (m_lifecycle_username_ciphertext new) (m_lifecycle_username_ciphertext row);
     m_lifecycle_password_ciphertext := dirty (m_lifecycle_password_ciphertext loaded) (m_lifecycle_password_ciphertext new) (m_lifecycle_password_ciphertext row);
     m_sandbox_username_ciphertext := dirty (m_sandbox_username_ciphertext loaded) (m_sandbox_username_ciphertext new) (m_sandbox_username_ciphertext row);
     m_sandbox_password_ciphertext := dirty (m_sandbox_password_ciphertext loaded) (m_sandbox_password_ciphertext new) (m_sandbox_password_ciphertext row);
     m_host := dirty (m_host loaded) (m_host new) (m_host row);
     m_port := dirty (m_port loaded) (m_port new) (m_port row);
     m_database_name := dirty (m_database_name loaded) (m_database_name new) (m_database_name row);
     m_permission_template_revision_id := dirty (m_permission_template_revision_id loaded) (m_permission_template_revision_id new) (m_permission_template_revision_id row);
     m_permission_snapshot_json := dirty (m_permission_snapshot_json loaded) (m_permission_snapshot_json new) (m_permission_snapshot_json row);
     m_allocated_resource_id := dirty (m_allocated_resource_id loaded) (m_allocated_resource_id new) (m_allocated_resource_id row);
     m_delete_cooldown_duration_hours := dirty (m_delete_cooldown_duration_hours loaded) (m_delete_cooldown_duration_hours new) (m_delete_cooldown_duration_hours row);
     m_failure_reason := dirty (m_failure_reason loaded) (m_failure_reason new) (m_failure_reason row);
     m_retry_count := dirty (m_retry_count loaded) (m_retry_count new) (m_retry_count row);
     m_next_retry_at := dirty (m_next_retry_at loaded) (m_next_retry_at new) (m_next_retry_at row);
     m_worker_id := dirty (m_worker_id loaded) (m_worker_id new) (m_worker_id row);
     m_worker_lease_until := dirty (m_worker_lease_until loaded) (m_worker_lease_until new) (m_worker_lease_until row);
     m_created_at := dirty (m_created_at loaded) (m_created_at new) (m_created_at row) |}.

Definition flush_instance (loaded new row : Instance) : Instance :=
  {| i_id := i_id row;
     i_cluster_id := dirty (i_cluster_id loaded) (i_cluster_id new) (i_cluster_id row);
     i_name := dirty (i_name loaded) (i_name new) (i_name row);
     i_usage := dirty (i_usage loaded) (i_usage new) (i_usage row);
     i_engine := dirty (i_engine loaded) (i_engine new) (i_engine row);
     i_topology := dirty (i_topology loaded) (i_topology new) (i_topology row);
     i_allocation_mode := dirty (i_allocation_mode loaded) (i_allocation_mode new) (i_allocation_mode row);
     i_region := dirty (i_region loaded) (i_region new) (i_region row);
     i_host := dirty (i_host loaded) (i_host new) (i_host row);
     i_port := dirty (i_port loaded) (i_port new) (i_port row);
     i_status := dirty (i_status loaded) (i_status new) (i_status row);
     i_quota_held := dirty (i_quota_held loaded) (i_quota_held new) (i_quota_held row);
     i_owner_user_id := dirty (i_owner_user_id loaded) (i_owner_user_id new) (i_owner_user_id row) |}.

Definition flush_resource (loaded new row : DBInstanceResource) : DBInstanceResource :=
  {| r_id := r_id row;
     r_owner_agent_id := dirty (r_owner_agent_id loaded) (r_owner_agent_id new) (r_owner_agent_id row);
     r_backend_id := dirty (r_backend_id loaded) (r_backend_id new) (r_backend_id row);
     r_client_token := dirty (r_client_token loaded) (r_client_token new) (r_client_token row);
     r_request_fingerprint := dirty (r_request_fingerprint loaded) (r_request_fingerprint new) (r_request_fingerprint row);
     r_fingerprint_version := dirty (r_fingerprint_version loaded) (r_fingerprint_version new) (r_fingerprint_version row);
     r_name := dirty (r_name loaded) (r_name new) (r_name row);
     r_engine := dirty (r_engine loaded) (r_engine new) (r_engine row);
     r_status := dirty (r_status loaded) (r_status new) (r_status row);
     r_provisioning_mode := dirty (r_provisioning_mode loaded) (r_provisioning_mode new) (r_provisioning_mode row);
     r_allocated_instance_id := dirty (r_allocated_instance_id loaded) (r_allocated_instance_id new) (r_allocated_instance_id row);
     r_permission_template_id := dirty (r_permission_template_id loaded) (r_permission_template_id new) (r_permission_template_id row);
     r_permission_template_revision_id := dirty (r_permission_template_revision_id loaded) (r_permission_template_revision_id new) (r_permission_template_revision_id row);
     r_permission_snapshot_json := dirty (r_permission_snapshot_json loaded) (r_permission_snapshot_json new) (r_permission_snapshot_json row);
     r_tenant_name := dirty (r_tenant_name loaded) (r_tenant_name new) (r_tenant_name row);
     r_resource_config_name := dirty (r_resource_config_name loaded) (r_resource_config_name new) (r_resource_config_name row);
     r_database_name := dirty (r_database_name loaded) (r_database_name new) (r_database_name row);
     r_provisioning_step := dirty (r_provisioning_step loaded) (r_provisioning_step new) (r_provisioning_step row);
     r_cleanup_step := dirty (r_cleanup_step loaded) (r_cleanup_step new) (r_cleanup_step row);
     r_cleanup_required := dirty (r_cleanup_required loaded) (r_cleanup_required new) (r_cleanup_required row);
     r_failure_reason := dirty (r_failure_reason loaded) (r_failure_reason new) (r_failure_reason row);
     r_retry_count := dirty (r_retry_count loaded) (r_retry_count new) (r_retry_count row);
     r_next_retry_at := dirty (r_next_retry_at loaded) (r_next_retry_at new) (r_next_retry_at row);
     r_worker_id := dirty (r_worker_id loaded) (r_worker_id new) (r_worker_id row);
     r_worker_lease_until := dirty (r_worker_lease_until loaded) (r_worker_lease_until new) (r_worker_lease_until row);
     r_capacity_released_at := dirty (r_capacity_released_at loaded) (r_capacity_released_at new) (r_capacity_released_at row);
     r_delete_requested_at := dirty (r_delete_requested_at loaded) (r_delete_requested_at new) (r_delete_requested_at row);
     r_disconnected_at := dirty (r_disconnected_at loaded) (r_disconnected_at new) (r_disconnected_at row);
     r_effective_delete_cooldown_duration_hours := dirty (r_effective_delete_cooldown_duration_hours loaded) (r_effective_delete_cooldown_duration_hours new) (r_effective_delete_cooldown_duration_hours row);
     r_cooldown_until := dirty (r_cooldown_until loaded) (r_cooldown_until new) (r_cooldown_until row);
     r_reclaim_policy := dirty (r_reclaim_policy loaded) (r_reclaim_policy new) (r_reclaim_policy row);
     r_delete_step := dirty (r_delete_step loaded) (r_delete_step new) (r_delete_step row);
     r_restore_source_status := dirty (r_restore_source_status loaded) (r_restore_source_status new) (r_restore_source_status row);
     r_restore_failure_reason := dirty (r_restore_failure_reason loaded) (r_restore_failure_reason new) (r_restore_failure_reason row);
     r_created_at := dirty (r_created_at loaded) (r_created_at new) (r_created_at row) |}.

(** The [UPDATE] of one object: none when nothing is dirty, and an error when
    the row is gone. *)
Definition update_member (loaded new : DedicatedPoolMember) : M (Session DB) unit :=
  if decide (flush_member loaded new loaded = loaded) then mret tt
  else
    row ← query (λ db, pool_members db !! m_id loaded);
    match row with
    | None => raise StaleDataError
    | Some row => write_member (flush_member loaded new row)
    end.

Definition update_instance (loaded new : Instance) : M (Session DB) unit :=
  if decide (flush_instance loaded new loaded = loaded) then mret tt
  else
    row ← query (λ db, instances db !! i_id loaded);
    match row with
    | None => raise StaleDataError
    | Some row => write_instance (flush_instance loaded new row)
    end.

Definition update_resource (loaded new : DBInstanceResource) : M (Session DB) unit :=
  if decide (flush_resource loaded new loaded = loaded) then mret tt
  else
    row ← query (λ db, resources db !! r_id loaded);
    match row with
    | None => raise StaleDataError
    | Some row => execute (put_resource (flush_resource loaded new row))
    end.

Definition insert_credential (c : InstanceCredential) : M (Session DB) unit :=
  taken ← query (credential_conflict c);
  if (taken : bool) then raise (IntegrityError "UNIQUE constraint failed") else execute (put_credential c).

(** Everything the session holds, and a commit. *)
Definition store_member (l l' : LoadedMember) (c : option InstanceCredential) : M (Session DB) unit :=
  update_member (lm_member l) (lm_member l') ;;
  update_instance (lm_instance l) (lm_instance l') ;;
  match lm_resource l, lm_resource l' with
  | Some r, Some r' => update_resource (lr_resource r) (lr_resource r')
  | _, _ => mret tt
  end ;;
  match c with Some c => insert_credential c | None => mret tt end ;;
  commit.

(** ** One step *)

(** What a call of [advance] draws from [uuid4] and [secrets]. *)
Record AdvanceEntropy : Type := mk_advance_entropy {
  av_uuid : string;
  av_password_draws : list nat;
  av_credential_id : string
}.

(** The awaited call of a step, [StepDone] when the step has none. *)
Inductive PendingCall : Type :=
| StepDone (step : DedicatedPreparationStep.t)
| PurchaseCluster (params : list (string * string)) (pool_description member_description : string)
| DescribeCluster (cluster_id : string)
| ResolveEndpoint (cluster_id net_type : string)
| CreateAccount (cluster_id user password account_type : string)
| DescribeLifecycleAccount (cluster_id user : string)
| CreateMemberDatabase (cluster_id user database : string)
| GrantPermissions
| VerifyMember.

Inductive CallResult : Type :=
| GotCluster (c : ClusterResult)
| GotStatus (status : option string)
| GotEndpoint (host : string) (port : Z)
| Succeeded
| NotYet.

Definition set_step (step : DedicatedPreparationStep.t) (m : DedicatedPoolMember) : DedicatedPoolMember :=
  m <| m_preparation_step := step |>.

(** A step without a call: store the member and be done. *)
Definition store_done (l : LoadedMember) (m : DedicatedPoolMember) (i : Instance)
    : M (Session DB) (LoadedMember * PendingCall) :=
  let l' := l <| lm_member := m |> <| lm_instance := i |> in
  store_member l l' None ;; mret (l', StepDone (m_preparation_step m)).

(** A step with a call: end the transaction and go on to the call. *)
Definition then_call (l : LoadedMember) (call : PendingCall)
    : M (Session DB) (LoadedMember * PendingCall) :=
  commit ;; mret (l, call).

Definition begin_advance (av : AdvanceEntropy) (allow_data_plane : bool) (member_id : string)
    : M (Session DB) (LoadedMember * PendingCall) :=
  found ← load_member member_id;
  match found with
  | None => raise (DedicatedPoolProvisioningError "Dedicated pool member does not exist")
  | Some l =>
      let m := lm_member l in
      let i := lm_instance l in
      let pool := lm_pool l in
      let cluster_id := i_cluster_id i in
      match m_preparation_step m with
      | DedicatedPreparationStep.PENDING =>
          store_done l
            (set_step DedicatedPreparationStep.PURCHASE_INTENT_STORED
               (m <| m_purchase_token := Some (av_uuid av) |>))
            (i <| i_region := Some (strip (p_region_id pool)) |>)
      | DedicatedPreparationStep.PURCHASE_INTENT_STORED =>
          if negb (truthy (i_region i)) then
            raise (DedicatedPoolProvisioningError
              "Stored purchase region is missing; reconcile the purchase before retrying")
          else if i_region i != Some (strip (p_region_id pool)) then
            raise (DedicatedPoolProvisioningError "Pool placement changed after purchase intent was stored")
          else
            params ← lift_outcome (purchase_parameters m pool i);
            then_call l (PurchaseCluster params ("PAS Dedicated pool " +:+ p_name pool)
                           ("PAS prewarmed member " +:+ m_id m))
      | DedicatedPreparationStep.PURCHASE_REQUESTED => then_call l (DescribeCluster cluster_id)
      | DedicatedPreparationStep.CLUSTER_READY =>
          then_call l (ResolveEndpoint cluster_id (p_endpoint_net_type pool))
      | DedicatedPreparationStep.ENDPOINT_RESOLVED =>
          store_done l
            (set_step DedicatedPreparationStep.LIFECYCLE_ACCOUNT_STORED
               (m <| m_lifecycle_username_ciphertext :=
                       Some (encrypt ("pas_lifecycle_" +:+ String.substring 0 8 (m_id m))) |>
                  <| m_lifecycle_password_ciphertext :=
                       Some (encrypt (generate_db_password (av_password_draws av))) |>)) i
      | DedicatedPreparationStep.LIFECYCLE_ACCOUNT_STORED =>
          user ← lift_outcome (decrypt (str_column (m_lifecycle_username_ciphertext m)));
          password ← lift_outcome (decrypt (str_column (m_lifecycle_password_ciphertext m)));
          then_call l (CreateAccount cluster_id user password "Super")
      | DedicatedPreparationStep.LIFECYCLE_ACCOUNT_CREATED =>
          user ← lift_outcome (decrypt (str_column (m_lifecycle_username_ciphertext m)));
          then_call l (DescribeLifecycleAccount cluster_id user)
      | DedicatedPreparationStep.SANDBOX_ACCOUNT_STORED =>
          user ← lift_outcome (decrypt (str_column (m_sandbox_username_ciphertext m)));
          password ← lift_outcome (decrypt (str_column (m_sandbox_password_ciphertext m)));
          then_call l (CreateAccount cluster_id user password "Normal")
      | DedicatedPreparationStep.SANDBOX_ACCOUNT_CREATED =>
          user ← lift_outcome (decrypt (str_column (m_sandbox_username_ciphertext m)));
          then_call l (CreateMemberDatabase cluster_id user (str_column (m_database_name m)))
      | DedicatedPreparationStep.DATABASE_CREATED =>
          store_done l (set_step DedicatedPreparationStep.OPENAPI_READY m) i
      | DedicatedPreparationStep.OPENAPI_READY =>
          if allow_data_plane then then_call l GrantPermissions
          else mret (l, StepDone DedicatedPreparationStep.OPENAPI_READY)
      | DedicatedPreparationStep.PRIVILEGES_GRANTED => then_call l VerifyMember
      | DedicatedPreparationStep.VERIFIED => mret (l, StepDone DedicatedPreparationStep.VERIFIED)
      end
  end.

(** [except Exception as error: if not _is_duplicate(error): raise] *)
Definition or_duplicate (m : M X unit) : M X unit :=
  try_except m (λ e, if is_duplicate e then mret tt else raise e).

Definition run_call (l : LoadedMember) (call : PendingCall) : M X CallResult :=
  let region := i_region (lm_instance l) in
  match call with
  | StepDone _ => mret NotYet
  | PurchaseCluster params pool_description member_description =>
      c ← create_dedicated_cluster region params pool_description member_description; mret (GotCluster c)
  | DescribeCluster cluster_id =>
      status ← describe_cluster_attribute region cluster_id; mret (GotStatus status)
  | ResolveEndpoint cluster_id net_type =>
      items ← describe_endpoints region cluster_id;
      endpoint ← lift_outcome (resolve_primary_endpoint items cluster_id net_type);
      mret (GotEndpoint endpoint.1 endpoint.2)
  | CreateAccount cluster_id user password account_type =>
      or_duplicate (create_account region cluster_id user password account_type) ;; mret Succeeded
  | DescribeLifecycleAccount cluster_id user =>
      account ← describe_account region cluster_id user;
      mret (if account_available account then Succeeded else NotYet)
  | CreateMemberDatabase cluster_id user database =>
      account ← describe_account region cluster_id user;
      if account_available account then
        or_duplicate (cloud_create_database region cluster_id database) ;; mret Succeeded
      else mret NotYet
  | GrantPermissions => apply_permissions decrypt (lm_member l) ;; mret Succeeded
  | VerifyMember => member_verify decrypt (lm_member l) ;; mret Succeeded
  end.

Definition finish_with (l l' : LoadedMember) (c : option InstanceCredential)
    : M (Session DB) DedicatedPreparationStep.t :=
  store_member l l' c ;; mret (m_preparation_step (lm_member l')).

Definition finish_step (l : LoadedMember) (step : DedicatedPreparationStep.t)
    : M (Session DB) DedicatedPreparationStep.t :=
  finish_with l (l <| lm_member := set_step step (lm_member l) |>) None.

(** The sandbox account, database and permissions a member is prepared with. *)
Definition store_sandbox (av : AdvanceEntropy) (l : LoadedMember) : outcome LoadedMember :=
  let pool := lm_pool l in
  match lm_pool_revision l with
  | None => Raise (AttributeError "'NoneType' object has no attribute 'id'")
  | Some revision =>
      snapshot ← permission_snapshot_for_revision revision;
      Ret (l <| lm_member :=
        set_step DedicatedPreparationStep.SANDBOX_ACCOUNT_STORED
          ((lm_member l) <| m_sandbox_username_ciphertext := Some (encrypt (p_account_name_template pool)) |>
             <| m_sandbox_password_ciphertext := Some (encrypt (generate_db_password (av_password_draws av))) |>
             <| m_database_name := Some (p_database_name_template pool) |>
             <| m_permission_template_revision_id := Some (pr_id revision) |>
             <| m_permission_snapshot_json := Some (permission_snapshot_to_json snapshot) |>) |>)
  end.

(** A verified member: available, or active for the resource it was bought for. *)
Definition verified_member (now : time) (av : AdvanceEntropy) (l : LoadedMember)
    : outcome (LoadedMember * option InstanceCredential) :=
  let m := set_step DedicatedPreparationStep.VERIFIED
             ((lm_member l) <| m_last_ready_verified_at := Some now |>
                <| m_readiness_status := ReadinessStatus.FRESH |>
                <| m_failure_reason := None |> <| m_retry_count := 0 |> <| m_next_retry_at := None |>) in
  let l := l <| lm_instance := (lm_instance l) <| i_status := InstanceStatus.ACTIVE |> |> in
  match m_allocated_resource_id m with
  | None => Ret (l <| lm_member := m <| m_status := DedicatedMemberStatus.AVAILABLE |> |>, None)
  | Some _ =>
      match lm_resource l with
      | None => Raise (DedicatedPoolProvisioningError "Allocated Dedicated resource does not exist")
      | Some loaded =>
          activated ← activate_dedicated_member (av_credential_id av) (lm_revision l)
                        (lr_credentials loaded) m (lr_resource loaded);
          let '(m, r, c) := activated in
          Ret (l <| lm_member := m |> <| lm_resource := Some (mk_loaded r (lr_credentials loaded)) |>, c)
      end
  end.

Definition finish_advance (now : time) (av : AdvanceEntropy) (l : LoadedMember) (call : PendingCall)
    (result : CallResult) : M (Session DB) DedicatedPreparationStep.t :=
  let m := lm_member l in
  let i := lm_instance l in
  match call, result with
  | PurchaseCluster _ _ _, GotCluster c =>
      let cluster_id := default EmptyString (cr_cluster_id c) in
      if String.eqb cluster_id EmptyString then
        raise (DedicatedPoolProvisioningError "Dedicated cluster purchase returned no cluster ID")
      else
        finish_with l
          (l <| lm_instance := i <| i_cluster_id := cluster_id |>
                  <| i_allocation_mode := AllocationMode.DEDICATED_POOL |>
                  <| i_status := InstanceStatus.CREATING |> |>
             <| lm_member :=
                  set_step DedicatedPreparationStep.PURCHASE_REQUESTED
                    (m <| m_agentic_db_cluster_id := optional_string (cr_agentic_db_cluster_id c) |>
                       <| m_cloud_request_id := optional_string (cr_request_id c) |>) |>) None
  | DescribeCluster _, GotStatus status =>
      if status == Some "Running" then finish_step l DedicatedPreparationStep.CLUSTER_READY
      else mret (m_preparation_step m)
  | ResolveEndpoint _ _, GotEndpoint host port =>
      finish_with l
        (l <| lm_instance := i <| i_host := Some host |> <| i_port := Some port |> |>
           <| lm_member := set_step DedicatedPreparationStep.ENDPOINT_RESOLVED
                (m <| m_host := Some host |> <| m_port := Some port |>) |>) None
  | CreateAccount _ _ _ _, Succeeded =>
      finish_step l
        (if m_preparation_step m == DedicatedPreparationStep.LIFECYCLE_ACCOUNT_STORED
         then DedicatedPreparationStep.LIFECYCLE_ACCOUNT_CREATED
         else DedicatedPreparationStep.SANDBOX_ACCOUNT_CREATED)
  | DescribeLifecycleAccount _ _, Succeeded =>
      l' ← lift_outcome (store_sandbox av l); finish_with l l' None
  | CreateMemberDatabase _ _ _, Succeeded => finish_step l DedicatedPreparationStep.DATABASE_CREATED
  | GrantPermissions, Succeeded => finish_step l DedicatedPreparationStep.PRIVILEGES_GRANTED
  | VerifyMember, Succeeded =>
      verified ← lift_outcome (verified_member now av l);
      finish_with l verified.1 verified.2
  | _, _ => mret (m_preparation_step m)
  end.

(** The handler of [advance]: a new session records the failure. *)
Definition record_advance_failure (now : time) (member_id : string) (e : PyExc) : M (Session DB) unit :=
  found ← query (λ db, pool_members db !! member_id);
  match found with
  | None => mret tt
  | Some m =>
      let m := m <| m_failure_reason := Some (failure_record now e) |> in
      let m := match openapi_details e with
               | Some d => m <| m_cloud_request_id := safe_request_id (oa_request_id d) |>
               | None => m
               end in
      write_member (m <| m_retry_count := m_retry_count m + 1 |>) ;;
      commit
  end.

Definition advance_once (av : AdvanceEntropy) (allow_data_plane : bool) (member_id : string)
    : M (World X) DedicatedPreparationStep.t :=
  begun ← with_db (begin_advance av allow_data_plane member_id);
  match begun.2 with
  | StepDone step => mret step
  | call =>
      result ← lift_ext (run_call begun.1 call);
      at_now clock (λ now, finish_advance now av begun.1 call result)
  end.

Definition advance (av : AdvanceEntropy) (allow_data_plane : bool) (member_id : string)
    : M (World X) DedicatedPreparationStep.t :=
  try_except (advance_once av allow_data_plane member_id)
    (λ e, at_now clock (λ now, record_advance_failure now member_id e) ;; raise e).
End provisioner.
