(* ===== verification/DedicatedWorker.v ===== *)
(** * The worker of the dedicated pools ([server/core/dedicated_pool_worker.py])

    Every transaction of [DedicatedPoolWorker] and one pass of its [run_once].
    A claim is a conditional [UPDATE] of a candidate row; each handler loads a
    row in one transaction, calls the member's server or the cloud, and stores
    the outcome in another that looks at the claim again.  The heartbeat row
    ([record_worker_heartbeat]) and metrics are left out. *)

From S2P Require Import Prelude PyString Models Config Worker AdapterInterface Dispatcher.
From S2P Require Import DispatchLoop Ddl.
From S2P Require Import Permission Capacity OperationBudget Service DedicatedMySQL DedicatedPools.
From S2P Require Import DedicatedProvisioner.

(** ** Claims *)

(** [worker_id IS NULL OR worker_lease_until IS NULL OR worker_lease_until <= now] *)
Definition lease_available (now : time) (worker_id : option string) (lease_until : option time) : bool :=
  (worker_id == None) || null_or_due lease_until now.

Definition member_lease_available (now : time) (m : DedicatedPoolMember) : bool :=
  lease_available now (m_worker_id m) (m_worker_lease_until m).
Definition resource_lease_available (now : time) (r : DBInstanceResource) : bool :=
  lease_available now (r_worker_id r) (r_worker_lease_until r).
Definition target_lease_available (now : time) (t : PermissionSyncTarget) : bool :=
  lease_available now (t_worker_id t) (t_worker_lease_until t).

Definition member_before (a b : DedicatedPoolMember) : bool :=
  key_le (m_created_at a, m_id a) (m_created_at b, m_id b).
Definition target_before (a b : PermissionSyncTarget) : bool :=
  key_le (t_created_at a, t_id a) (t_created_at b, t_id b).

Definition all_members (db : DB) : list DedicatedPoolMember := snd <$> map_to_list (pool_members db).

(** [UPDATE ... WHERE id = candidate AND still]: claimed when one row changed. *)
Definition claim_member (candidate : DB → option DedicatedPoolMember)
    (still : DedicatedPoolMember → bool) (mark : DedicatedPoolMember → DedicatedPoolMember)
    : M (Session DB) (option DedicatedPoolMember) :=
  found ← query candidate;
  match found with
  | None => mret None
  | Some c =>
      row ← query (λ db, pool_members db !! m_id c);
      match row with
      | Some m => if still m then write_member (mark m) ;; commit ;; mret (Some (mark m))
                  else rollback ;; mret None
      | None => rollback ;; mret None
      end
  end.

Definition claim_resource (candidate : DB → option DBInstanceResource)
    (still : DBInstanceResource → bool) (mark : DBInstanceResource → DBInstanceResource)
    : M (Session DB) (option string) :=
  found ← query candidate;
  match found with
  | None => mret None
  | Some c =>
      row ← query (λ db, resources db !! r_id c);
      match row with
      | Some r => if still r then execute (put_resource (mark r)) ;; commit ;; mret (Some (r_id r))
                  else rollback ;; mret None
      | None => rollback ;; mret None
      end
  end.

Section worker.
  Context {X : Type} `{PolarDBClient X} `{MySQLConnector X}.
  Context (config : TenantProvisioningConfig) (worker_id : string).
  Context (encrypt : string → string) (decrypt : string → outcome string).
  Context (openapi_details : PyExc → option OpenAPIDetails) (resource_pool_document : DB → ResourcePoolDocument).
  Context (clock : nat → time).

Definition lease_until (now : time) : time := now + seconds (worker_claim_ttl_seconds config).

(** [_backoff]: the exponent is never negative. *)
Definition worker_backoff (retry_count : Z) : Z :=
  seconds (Z.min (worker_initial_backoff_seconds config * 2 ^ Z.max 0 (retry_count - 1))
                 (worker_max_backoff_seconds config)).

Definition claim_of_member (now : time) (m : DedicatedPoolMember) : DedicatedPoolMember :=
  m <| m_worker_id := Some worker_id |> <| m_worker_lease_until := Some (lease_until now) |>.
Definition claim_of_resource (now : time) (r : DBInstanceResource) : DBInstanceResource :=
  r <| r_worker_id := Some worker_id |> <| r_worker_lease_until := Some (lease_until now) |>.
Definition release_member (m : DedicatedPoolMember) : DedicatedPoolMember :=
  m <| m_worker_id := None |> <| m_worker_lease_until := None |>.
Definition release_resource (r : DBInstanceResource) : DBInstanceResource :=
  r <| r_worker_id := None |> <| r_worker_lease_until := None |>.

(** The claimed row, if the claim is still this worker's. *)
Definition own_member (member_id : string) (db : DB) : option DedicatedPoolMember :=
  m ← pool_members db !! member_id; if m_worker_id m == Some worker_id then Some m else None.
Definition own_resource (rid : string) (db : DB) : option DBInstanceResource :=
  r ← resources db !! rid; if r_worker_id r == Some worker_id then Some r else None.

(** A handler's storing transaction on a member it still owns. *)
Definition on_own_member (member_id : string) (f : DedicatedPoolMember → M (Session DB) unit)
    : M (Session DB) unit :=
  found ← query (own_member member_id);
  match found with Some m => f m | None => mret tt end.

Definition save_member (m : DedicatedPoolMember) : M (Session DB) unit := write_member m ;; commit.

(** ** Destroying a member on its own *)

Definition deleting_due (now : time) (m : DedicatedPoolMember) : bool :=
  (m_status m == DedicatedMemberStatus.DELETING) && (m_allocated_resource_id m == None)
  && null_or_due (m_next_retry_at m) now && member_lease_available now m.

Definition claim_deleting_member (now : time) : M (Session DB) (option DedicatedPoolMember) :=
  claim_member (λ db, first_by member_before (filter (λ m, deleting_due now m = true) (all_members db)))
    (deleting_due now) (claim_of_member now).

Definition destroy_failed (now : time) (m : DedicatedPoolMember) : DedicatedPoolMember :=
  release_member
    (m <| m_retry_count := m_retry_count m + 1 |>
       <| m_failure_reason := Some "DEDICATED_MEMBER_DESTROY_FAILED" |>
       <| m_next_retry_at := Some (now + worker_backoff (m_retry_count m + 1)) |>).

Definition destroyed (m : DedicatedPoolMember) : DedicatedPoolMember :=
  release_member
    (m <| m_status := DedicatedMemberStatus.DELETED |> <| m_failure_reason := None |>
       <| m_next_retry_at := None |>).

Definition destroy_deleting_member (member_id : string) : M (World X) unit :=
  found ← with_db (
    owned ← query (own_member member_id);
    match owned with
    | None => mret None
    | Some m =>
        i ← query (λ db, instances db !! m_instance_id m);
        match i with
        | Some i => mret (Some i)
        | None => raise (AttributeError "'NoneType' object has no attribute 'cluster_id'")
        end
    end);
  match found with
  | None => mret tt
  | Some i =>
      try_else (lift_ext (delete_cluster (i_region i) (i_cluster_id i)))
        (λ _, at_now clock (λ now, on_own_member member_id (λ m, save_member (destroy_failed now m))))
        (λ _, with_db (on_own_member member_id (λ m, save_member (destroyed m))))
  end.

(** ** The lifecycle of a resource on a member *)

Definition lifecycle_due (now : time) (r : DBInstanceResource) : bool :=
  (r_status r == DBInstanceStatus.DELETING) || (r_status r == DBInstanceStatus.RESTORING)
  || ((r_status r == DBInstanceStatus.COOLING_DOWN) && due (r_cooldown_until r) now).

Definition claim_lifecycle_resource (now : time) : M (Session DB) (option string) :=
  claim_resource
    (λ db, first_by created_before (filter (λ r,
       (r_provisioning_mode r == ProvisioningMode.DEDICATED) && lifecycle_due now r
       && null_or_due (r_next_retry_at r) now && resource_lease_available now r = true)
       (snd <$> map_to_list (resources db))))
    (λ r, lifecycle_due now r && resource_lease_available now r)
    (claim_of_resource now).

Definition DedicatedMemberUnavailable : PyExc := RuntimeError "Dedicated member is unavailable".

(** A resource this worker owns and that [p] holds of, with its member. *)
Definition with_owned (rid : string) (p : DBInstanceResource → bool)
    (f : DBInstanceResource → option DedicatedPoolMember → M (Session DB) unit) : M (Session DB) unit :=
  found ← query (own_resource rid);
  match found with
  | Some r => if p r then member ← query (member_of_resource rid); f r member else mret tt
  | None => mret tt
  end.

(** Both rows of one flush. *)
Definition save_both (m : DedicatedPoolMember) (r : DBInstanceResource) : M (Session DB) unit :=
  write_member m ;; execute (put_resource r) ;; commit.

Definition finish_dedicated_disconnect (now : time) (rid : string) : M (Session DB) unit :=
  with_owned rid (λ r, r_status r == DBInstanceStatus.DELETING) (λ r member,
    match member, r_effective_delete_cooldown_duration_hours r with
    | Some m, Some duration =>
        save_both (m <| m_status := DedicatedMemberStatus.COOLING_DOWN |>)
          (release_resource
             (r <| r_disconnected_at := Some now |>
                <| r_cooldown_until := Some (now + hours duration) |>
                <| r_status := DBInstanceStatus.COOLING_DOWN |>
                <| r_delete_step := DeleteLifecycleStep.COOLING_DOWN |>
                <| r_failure_reason := None |> <| r_retry_count := 0 |>
                <| r_next_retry_at := None |>))
    | _, _ => raise (RuntimeError "Dedicated cooldown state is incomplete")
    end).

(** The cleanup a cooled-down resource goes into, [None] when it is not due. *)
Definition begin_dedicated_cleanup (now : time) (rid : string)
    : M (Session DB) (option DeleteLifecycleStep.t) :=
  found ← query (own_resource rid);
  match found with
  | None => mret None
  | Some r =>
      match r_status r, r_disconnected_at r, r_cooldown_until r with
      | DBInstanceStatus.COOLING_DOWN, Some _, Some deadline =>
          if now <? deadline then
            execute (put_resource (release_resource r)) ;; commit ;; mret None
          else
            member ← query (member_of_resource rid);
            match member with
            | None => raise DedicatedMemberUnavailable
            | Some m =>
                let sanitize := r_reclaim_policy r == Some ReclaimPolicy.SANITIZE_AND_REUSE in
                let step := if sanitize then DeleteLifecycleStep.SANITIZE_DISPATCH
                            else DeleteLifecycleStep.PHYSICAL_DESTROY in
                save_both
                  (m <| m_status := if sanitize then DedicatedMemberStatus.SANITIZING
                                    else DedicatedMemberStatus.DELETING |>)
                  (r <| r_status := DBInstanceStatus.DELETING |> <| r_delete_step := step |>) ;;
                mret (Some step)
            end
      | _, _, _ => mret None
      end
  end.

(** A sanitized member is prepared again from its lifecycle account on. *)
Definition sanitized_member (m : DedicatedPoolMember) : DedicatedPoolMember :=
  m <| m_allocated_resource_id := None |>
    <| m_sandbox_username_ciphertext := None |> <| m_sandbox_password_ciphertext := None |>
    <| m_database_name := None |> <| m_permission_template_revision_id := None |>
    <| m_permission_snapshot_json := None |> <| m_last_ready_verified_at := None |>
    <| m_readiness_status := ReadinessStatus.STALE |>
    <| m_preparation_step := DedicatedPreparationStep.LIFECYCLE_ACCOUNT_CREATED |>
    <| m_status := DedicatedMemberStatus.REPLENISHING |>.

Definition finish_dedicated_cleanup (now : time) (rid : string) (sanitized : bool) : M (Session DB) unit :=
  with_owned rid
    (λ r, r_delete_step r == (if sanitized then DeleteLifecycleStep.SANITIZE_DISPATCH
                              else DeleteLifecycleStep.PHYSICAL_DESTROY))
    (λ r member,
      match member with
      | None => raise DedicatedMemberUnavailable
      | Some m =>
          r ← match r_capacity_released_at r with
              | Some _ => mret r
              | None =>
                  release_active_capacity_counters (r_owner_agent_id r) (r_backend_id r) ;;
                  mret (r <| r_capacity_released_at := Some now |>)
              end;
          execute (revoke_and_scrub rid) ;;
          save_both
            (if sanitized then sanitized_member m
             else m <| m_allocated_resource_id := None |> <| m_status := DedicatedMemberStatus.DELETED |>)
            (release_resource
               (r <| r_status := DBInstanceStatus.DELETED |>
                  <| r_delete_step := DeleteLifecycleStep.COMPLETE |>
                  <| r_cleanup_required := false |> <| r_failure_reason := None |>))
      end).

Definition finish_dedicated_restore (rid : string) : M (Session DB) unit :=
  with_owned rid (λ r, r_status r == DBInstanceStatus.RESTORING) (λ r member,
    match member with
    | None => raise DedicatedMemberUnavailable
    | Some m =>
        execute (set_resource_credentials_status rid CredentialStatus.ACTIVE) ;;
        save_both (m <| m_status := DedicatedMemberStatus.ALLOCATED |>)
          (release_resource
             (r <| r_status := DBInstanceStatus.READY |>
                <| r_delete_step := DeleteLifecycleStep.PENDING |>
                <| r_delete_requested_at := None |> <| r_disconnected_at := None |>
                <| r_cooldown_until := None |> <| r_restore_source_status := None |>
                <| r_restore_failure_reason := None |> <| r_failure_reason := None |>))
    end).

Definition record_lifecycle_failure (now : time) (rid : string) (e : PyExc) : M (Session DB) unit :=
  with_owned rid (λ _, true) (λ r member,
    if r_status r == DBInstanceStatus.RESTORING then
      execute (put_resource (release_resource
        (r <| r_status := if r_restore_source_status r == Some DBInstanceStatus.COOLING_DOWN
                          then DBInstanceStatus.COOLING_DOWN else DBInstanceStatus.DELETE_FAILED |>
           <| r_restore_failure_reason :=
                Some ("Restore verification failed with " +:+ exc_type e) |>))) ;;
      commit
    else
      let retry_count := r_retry_count r + 1 in
      let r := r <| r_retry_count := retry_count |>
                 <| r_failure_reason := Some ("Dedicated lifecycle step failed with " +:+ exc_type e) |> in
      if worker_max_retries config <? retry_count then
        match member with
        | Some m =>
            if (r_delete_step r == DeleteLifecycleStep.SANITIZE_DISPATCH)
               || (r_delete_step r == DeleteLifecycleStep.PHYSICAL_DESTROY)
            then write_member (m <| m_status := DedicatedMemberStatus.QUARANTINED |>)
            else mret tt
        | None => mret tt
        end ;;
        execute (put_resource (release_resource
          (r <| r_status := DBInstanceStatus.DELETE_FAILED |> <| r_next_retry_at := None |>))) ;;
        commit
      else
        execute (put_resource (release_resource
          (r <| r_next_retry_at := Some (now + worker_backoff retry_count) |>))) ;;
        commit).

Definition load_lifecycle (rid : string)
    : M (Session DB) (option (DBInstanceResource * option (DedicatedPoolMember * Instance))) :=
  found ← query (own_resource rid);
  match found with
  | None => mret None
  | Some r =>
      member ← query (member_of_resource rid);
      match member with
      | None => mret (Some (r, None))
      | Some m =>
          i ← query (λ db, instances db !! m_instance_id m);
          match i with
          | Some i => mret (Some (r, Some (m, i)))
          | None => raise (AttributeError "'NoneType' object has no attribute 'cluster_id'")
          end
      end
  end.

(** The body of the [try] of [_process_lifecycle_resource]. *)
Definition lifecycle_step (rid : string) (r : DBInstanceResource) (m : DedicatedPoolMember) (i : Instance)
    : M (World X) unit :=
  let dispatch (delete_step : DeleteLifecycleStep.t) : M (World X) unit :=
    match delete_step with
    | DeleteLifecycleStep.PHYSICAL_DESTROY =>
        lift_ext (delete_cluster (i_region i) (i_cluster_id i)) ;;
        at_now clock (λ now, finish_dedicated_cleanup now rid false)
    | DeleteLifecycleStep.SANITIZE_DISPATCH =>
        lift_ext (drop_sandbox decrypt m) ;;
        at_now clock (λ now, finish_dedicated_cleanup now rid true)
    | _ =>
        lift_ext (member_disconnect decrypt m) ;;
        at_now clock (λ now, finish_dedicated_disconnect now rid)
    end in
  match r_status r with
  | DBInstanceStatus.RESTORING =>
      lift_ext (member_restore decrypt m) ;; with_db (finish_dedicated_restore rid)
  | DBInstanceStatus.COOLING_DOWN =>
      step ← at_now clock (λ now, begin_dedicated_cleanup now rid);
      match step with None => mret tt | Some step => dispatch step end
  | _ => dispatch (r_delete_step r)
  end.

Definition process_lifecycle_resource (rid : string) : M (World X) unit :=
  loaded ← with_db (load_lifecycle rid);
  match loaded with
  | None => mret tt
  | Some (_, None) => at_now clock (λ now, record_lifecycle_failure now rid DedicatedMemberUnavailable)
  | Some (r, Some (m, i)) =>
      try_except (lifecycle_step rid r m i)
        (λ e, at_now clock (λ now, record_lifecycle_failure now rid e))
  end.

(** ** Handing members to waiting resources *)

Definition pending_resource (now : time) (r : DBInstanceResource) : bool :=
  (r_status r == DBInstanceStatus.CREATING) && (r_allocated_instance_id r == None)
  && resource_lease_available now r.

Definition claim_pending_resource (now : time) : M (Session DB) (option string) :=
  claim_resource
    (λ db, first_by created_before (filter (λ r,
       (r_provisioning_mode r == ProvisioningMode.DEDICATED) && pending_resource now r
       && null_or_due (r_next_retry_at r) now = true) (snd <$> map_to_list (resources db))))
    (pending_resource now) (claim_of_resource now).

Definition fulfill_pending_resource (new_credential_id : string) (now : time) (rid : string)
    : M (Session DB) unit :=
  found ← query (own_resource rid);
  match found with
  | None => mret tt
  | Some r =>
      backend ← query (λ db, backends db !! r_backend_id r);
      match b ← backend; b_dedicated_pool_id b with
      | None =>
          execute (put_resource (release_resource
            (r <| r_status := DBInstanceStatus.FAILED |>
               <| r_failure_reason := Some "DEDICATED_BACKEND_UNAVAILABLE" |>))) ;;
          commit
      | Some pool_id =>
          member ← claim_fresh_member pool_id rid now;
          match member with
          | Some m =>
              creds ← query (resource_credentials rid);
              revision ← query (member_revision m);
              activated ← lift_outcome (activate_dedicated_member new_credential_id revision creds m r);
              let '(m, r, c) := activated in
              execute (put_activation (m, release_resource r, c)) ;;
              commit
          | None =>
              execute (put_resource (release_resource
                (r <| r_next_retry_at := Some (now + seconds (worker_poll_interval_seconds config)) |>))) ;;
              commit
          end
      end
  end.

(** ** Readiness evidence *)

Definition active_pools (db : DB) : list DedicatedPool :=
  merge_sort (λ a b, String.le (p_id a) (p_id b))
    (filter (λ p, p_status p = DedicatedPoolStatus.ACTIVE) (snd <$> map_to_list (pools db))).

Definition evidence_expired (now : time) (pool : DedicatedPool) (m : DedicatedPoolMember) : bool :=
  (m_pool_id m == p_id pool) && (m_status m == DedicatedMemberStatus.AVAILABLE)
  && (m_readiness_status m == ReadinessStatus.FRESH) && negb (since (cutoff pool now) (m_last_ready_verified_at m)).

Definition mark_stale (now : time) (pool : DedicatedPool) (db : DB) : DB :=
  db <| pool_members := update_where (evidence_expired now pool)
          (λ m, m <| m_readiness_status := ReadinessStatus.STALE |>) (pool_members db) |>.

(** The [UPDATE]s of all active pools, and how many rows they changed. *)
Fixpoint mark_pools_stale (now : time) (ps : list DedicatedPool) : M (Session DB) Z :=
  match ps with
  | [] => mret 0
  | pool :: ps =>
      changed ← query (λ db, count_rows (evidence_expired now pool) (pool_members db));
      execute (mark_stale now pool) ;;
      rest ← mark_pools_stale now ps;
      mret (changed + rest)
  end.

Definition mark_expired_evidence_stale (now : time) : M (Session DB) bool :=
  ps ← query active_pools;
  changed ← mark_pools_stale now ps;
  (if 0 <? changed then commit else rollback) ;;
  mret (0 <? changed).

(** ** Health checks *)

Definition check_due (now : time) (pool : DedicatedPool) (m : DedicatedPoolMember) : bool :=
  match m_readiness_status m with
  | ReadinessStatus.STALE | ReadinessStatus.CHECKING => true
  | ReadinessStatus.FRESH =>
      due (m_last_ready_verified_at m) (now - seconds (p_available_health_check_interval_seconds pool))
  end.

Definition check_priority (m : DedicatedPoolMember) : Z :=
  match m_readiness_status m with
  | ReadinessStatus.CHECKING => 0 | ReadinessStatus.STALE => 1 | ReadinessStatus.FRESH => 2
  end.

Definition check_before (a b : DedicatedPoolMember) : bool :=
  key_le (check_priority a, m_id a) (check_priority b, m_id b).

Definition claim_check_of (now : time) (pool : DedicatedPool) : M (Session DB) (option DedicatedPoolMember) :=
  let still m := (m_status m == DedicatedMemberStatus.AVAILABLE) && check_due now pool m
                 && member_lease_available now m in
  claim_member
    (λ db, first_by check_before (filter (λ m,
       (m_pool_id m == p_id pool) && still m && null_or_due (m_next_retry_at m) now = true)
       (all_members db)))
    still
    (λ m, claim_of_member now m <| m_readiness_status := ReadinessStatus.CHECKING |>).

(** A session per pool, until one has a member to check. *)
Fixpoint claim_first_check (now : time) (ps : list DedicatedPool) : M DB (option DedicatedPoolMember) :=
  match ps with
  | [] => mret None
  | pool :: ps =>
      claimed ← with_session (claim_check_of now pool);
      match claimed with Some m => mret (Some m) | None => claim_first_check now ps end
  end.

Definition claim_health_check (now : time) : M DB (option DedicatedPoolMember) :=
  ps ← with_session (query active_pools);
  claim_first_check now ps.

Inductive HealthOutcome : Set := HEALTHY | INCONCLUSIVE | CONCLUSIVE_FAILURE.

Definition checked_member (now : time) (o : HealthOutcome) (m : DedicatedPoolMember) : DedicatedPoolMember :=
  let m := release_member m in
  match o with
  | HEALTHY =>
      m <| m_readiness_status := ReadinessStatus.FRESH |> <| m_last_ready_verified_at := Some now |>
        <| m_failure_reason := None |> <| m_retry_count := 0 |> <| m_next_retry_at := None |>
  | CONCLUSIVE_FAILURE =>
      m <| m_status := DedicatedMemberStatus.QUARANTINED |>
        <| m_readiness_status := ReadinessStatus.STALE |>
        <| m_failure_reason := Some "DEDICATED_READINESS_VERIFICATION_FAILED" |>
        <| m_retry_count := m_retry_count m + 1 |> <| m_next_retry_at := None |>
  | INCONCLUSIVE =>
      m <| m_readiness_status := ReadinessStatus.STALE |>
        <| m_failure_reason := Some "DEDICATED_READINESS_RECHECK_INCONCLUSIVE" |>
        <| m_retry_count := m_retry_count m + 1 |>
        <| m_next_retry_at := Some (now + worker_backoff (m_retry_count m + 1)) |>
  end.

Definition finish_health_check (now : time) (member_id : string) (o : HealthOutcome) : M (Session DB) unit :=
  on_own_member member_id (λ m, save_member (checked_member now o m)).

Definition check_member (m : DedicatedPoolMember) : M (World X) unit :=
  try_else (lift_ext (member_verify decrypt m))
    (λ e, at_now clock (λ now, finish_health_check now (m_id m)
       (if String.eqb (exc_type e) "DedicatedGrantVerificationError" then CONCLUSIVE_FAILURE
        else INCONCLUSIVE)))
    (λ _, at_now clock (λ now, finish_health_check now (m_id m) HEALTHY)).

(** ** Preparing members *)

Definition preparing (m : DedicatedPoolMember) : bool :=
  (m_status m == DedicatedMemberStatus.REPLENISHING) || (m_status m == DedicatedMemberStatus.ALLOCATED_PREPARING).

Definition preparation_open (m : DedicatedPoolMember) : bool :=
  (m_preparation_step m != DedicatedPreparationStep.VERIFIED)
  && ((dedicated_pool_preparation_mode config == FULL)
      || (m_preparation_step m != DedicatedPreparationStep.OPENAPI_READY)).

Definition in_active_pool (db : DB) (m : DedicatedPoolMember) : bool :=
  match pools db !! m_pool_id m with
  | Some p => p_status p == DedicatedPoolStatus.ACTIVE
  | None => false
  end.

Definition claim_replenishing_member (now : time) : M (Session DB) (option DedicatedPoolMember) :=
  claim_member
    (λ db, first_by member_before (filter (λ m,
       in_active_pool db m && preparing m && preparation_open m && null_or_due (m_next_retry_at m) now
       && member_lease_available now m = true) (all_members db)))
    (λ m, preparing m && member_lease_available now m)
    (claim_of_member now).

(** What the second transaction stores after [advance] returned or raised. *)
Definition advanced_member (now : time) (previous : DedicatedPreparationStep.t)
    (result : option DedicatedPreparationStep.t) (m : DedicatedPoolMember) : DedicatedPoolMember :=
  release_member
    (m <| m_next_retry_at :=
       match result with
       | None => Some (now + worker_backoff (Z.max 1 (m_retry_count m)))
       | Some step =>
           if step == previous then Some (now + seconds (worker_poll_interval_seconds config)) else None
       end |>).

Definition advance_replenishing_member (av : AdvanceEntropy) (member_id : string) : M (World X) unit :=
  found ← with_db (query (own_member member_id));
  match found with
  | None => mret tt
  | Some m =>
      result ← try_except
        (step ← advance encrypt decrypt openapi_details clock av
                  (dedicated_pool_preparation_mode config == FULL) member_id;
         mret (Some step))
        (λ _, mret None);
      at_now clock (λ now, on_own_member member_id
        (λ m', save_member (advanced_member now (m_preparation_step m) result m')))
  end.

(** ** Replacements *)

(** A member to buy, with the instance that stands for it until then. *)
Definition new_instance (id token name_prefix : string) (region : option string) : Instance :=
  mk_instance id ("pending-dedicated-" +:+ token) (name_prefix +:+ String.substring 0 8 token) None
    InstanceEngine.POLARDB_MYSQL InstanceTopology.SINGLE_TENANT AllocationMode.DEDICATED_POOL region
    None None InstanceStatus.CREATING false None.

Definition new_member (id pool_id instance_id : string) (status : DedicatedMemberStatus.t)
    (allocated_resource_id : option string) (created_at : time) : DedicatedPoolMember :=
  {| m_id := id; m_pool_id := pool_id; m_instance_id := instance_id; m_status := status;
     m_readiness_status := ReadinessStatus.STALE; m_preparation_step := DedicatedPreparationStep.PENDING;
     m_purchase_token := None; m_cloud_request_id := None; m_agentic_db_cluster_id := None;
     m_last_ready_verified_at := None; m_lifecycle_username_ciphertext := None;
     m_lifecycle_password_ciphertext := None; m_sandbox_username_ciphertext := None;
     m_sandbox_password_ciphertext := None; m_host := None; m_port := None; m_database_name := None;
     m_permission_template_revision_id := None; m_permission_snapshot_json := None;
     m_allocated_resource_id := allocated_resource_id; m_delete_cooldown_duration_hours := None;
     m_failure_reason := None; m_retry_count := 0; m_next_retry_at := None; m_worker_id := None;
     m_worker_lease_until := None; m_created_at := created_at |}.

(** What inserting a member draws from [uuid4] and [secrets]. *)
Record MemberEntropy : Type := mk_member_entropy {
  me_token : string;
  me_instance_id : string;
  me_member_id : string
}.

Definition insert_member (i : Instance) (m : DedicatedPoolMember) : M (Session DB) unit :=
  taken ← query (λ db, bool_decide (is_Some (instances db !! i_id i))
                       || bool_decide (is_Some (pool_members db !! m_id m)));
  if (taken : bool) then raise (IntegrityError "UNIQUE constraint failed")
  else write_instance i ;; write_member m.

Definition reserve_prewarm (now : time) (me : MemberEntropy) (pool_id : string) : M (Session DB) bool :=
  required ← try_except (reserve_member_purchase resource_pool_document pool_id now PREWARM)
    (λ e, if String.eqb (exc_type e) "PoolCapacityLimitReached" || String.eqb (exc_type e) "RateLimited"
          then mret false else raise e);
  if negb required then rollback ;; mret false
  else
    insert_member (new_instance (me_instance_id me) (me_token me) "Dedicated pool member " None)
      (new_member (me_member_id me) pool_id (me_instance_id me) DedicatedMemberStatus.REPLENISHING None now) ;;
    commit ;;
    mret true.

Fixpoint reserve_first (now : time) (me : MemberEntropy) (pool_ids : list string) : M DB bool :=
  match pool_ids with
  | [] => mret false
  | pool_id :: pool_ids =>
      bought ← with_session (reserve_prewarm now me pool_id);
      if (bought : bool) then mret true else reserve_first now me pool_ids
  end.

Definition reserve_replacement (now : time) (me : MemberEntropy) : M DB bool :=
  ids ← with_session (query (λ db, p_id <$> active_pools db));
  reserve_first now me ids.
End worker.
