(* ===== verification/DedicatedSync.v ===== *)
(** * Permission synchronisation and the pass of the worker

    The targets of a permission sync job ([dedicated_pool_worker.py]): a target
    is claimed, its member's grants are replaced and verified, and only then are
    the new revision and snapshot stored.  [run_once] is the order in which the
    worker looks for work. *)

From S2P Require Import Prelude PyString Models Config Worker AdapterInterface Dispatcher.
From S2P Require Import DispatchLoop Ddl.
From S2P Require Import Permission DedicatedMySQL DedicatedPools DedicatedProvisioner.
From S2P Require Import DedicatedWorker.

Definition put_target (t : PermissionSyncTarget) (db : DB) : DB :=
  db <| sync_targets := <[t_id t := t]> (sync_targets db) |>.
Definition put_job (j : PermissionSyncJob) (db : DB) : DB :=
  db <| sync_jobs := <[j_id j := j]> (sync_jobs db) |>.

Definition flush_target (loaded new row : PermissionSyncTarget) : PermissionSyncTarget :=
  {| t_id := t_id row;
     t_job_id := dirty (t_job_id loaded) (t_job_id new) (t_job_id row);
     t_member_id := dirty (t_member_id loaded) (t_member_id new) (t_member_id row);
     t_resource_id := dirty (t_resource_id loaded) (t_resource_id new) (t_resource_id row);
     t_previous_revision_id := dirty (t_previous_revision_id loaded) (t_previous_revision_id new) (t_previous_revision_id row);
     t_status := dirty (t_status loaded) (t_status new) (t_status row);
     t_change_required := dirty (t_change_required loaded) (t_change_required new) (t_change_required row);
     t_retry_count := dirty (t_retry_count loaded) (t_retry_count new) (t_retry_count row);
     t_next_retry_at := dirty (t_next_retry_at loaded) (t_next_retry_at new) (t_next_retry_at row);
     t_failure_reason := dirty (t_failure_reason loaded) (t_failure_reason new) (t_failure_reason row);
     t_worker_id := dirty (t_worker_id loaded) (t_worker_id new) (t_worker_id row);
     t_worker_lease_until := dirty (t_worker_lease_until loaded) (t_worker_lease_until new) (t_worker_lease_until row);
     t_created_at := dirty (t_created_at loaded) (t_created_at new) (t_created_at row) |}.

Definition flush_job (loaded new row : PermissionSyncJob) : PermissionSyncJob :=
  {| j_id := j_id row;
     j_template_revision_id := dirty (j_template_revision_id loaded) (j_template_revision_id new) (j_template_revision_id row);
     j_target_scope := dirty (j_target_scope loaded) (j_target_scope new) (j_target_scope row);
     j_target_id := dirty (j_target_id loaded) (j_target_id new) (j_target_id row);
     j_mode := dirty (j_mode loaded) (j_mode new) (j_mode row);
     j_status := dirty (j_status loaded) (j_status new) (j_status row);
     j_confirmed_by_user_id := dirty (j_confirmed_by_user_id loaded) (j_confirmed_by_user_id new) (j_confirmed_by_user_id row);
     j_total_count := dirty (j_total_count loaded) (j_total_count new) (j_total_count row);
     j_completed_count := dirty (j_completed_count loaded) (j_completed_count new) (j_completed_count row);
     j_failed_count := dirty (j_failed_count loaded) (j_failed_count new) (j_failed_count row);
     j_failure_reason := dirty (j_failure_reason loaded) (j_failure_reason new) (j_failure_reason row);
     j_next_retry_at := dirty (j_next_retry_at loaded) (j_next_retry_at new) (j_next_retry_at row);
     j_worker_id := dirty (j_worker_id loaded) (j_worker_id new) (j_worker_id row);
     j_worker_lease_until := dirty (j_worker_lease_until loaded) (j_worker_lease_until new) (j_worker_lease_until row) |}.

(** The [UPDATE] of a loaded target or job; an error when the row is gone. *)
Definition update_target (loaded new : PermissionSyncTarget) : M (Session DB) unit :=
  row ← query (λ db, sync_targets db !! t_id loaded);
  match row with
  | None => raise StaleDataError
  | Some row => execute (put_target (flush_target loaded new row))
  end.

Definition update_job (loaded new : PermissionSyncJob) : M (Session DB) unit :=
  row ← query (λ db, sync_jobs db !! j_id loaded);
  match row with
  | None => raise StaleDataError
  | Some row => execute (put_job (flush_job loaded new row))
  end.

Section sync.
  Context {X : Type} `{PolarDBClient X} `{MySQLConnector X}.
  Context (config : TenantProvisioningConfig) (worker_id : string).
  Context (decrypt : string → outcome string) (clock : nat → time).

Definition target_due (now : time) (t : PermissionSyncTarget) : bool :=
  (t_status t == PermissionSyncTargetStatus.PENDING) && null_or_due (t_next_retry_at t) now
  && target_lease_available now t.

Definition job_runs (db : DB) (t : PermissionSyncTarget) : bool :=
  match sync_jobs db !! t_job_id t with
  | Some j => (j_mode j == PermissionSyncMode.APPLY)
              && ((j_status j == PermissionSyncStatus.PENDING) || (j_status j == PermissionSyncStatus.RUNNING))
  | None => false
  end.

Definition claim_permission_sync_target (now : time) : M (Session DB) (option string) :=
  candidate ← query (λ db, first_by target_before (filter (λ t, job_runs db t && target_due now t = true)
                             (snd <$> map_to_list (sync_targets db))));
  match candidate with
  | None => mret None
  | Some t =>
      execute (put_target
        (t <| t_status := PermissionSyncTargetStatus.RUNNING |> <| t_worker_id := Some worker_id |>
           <| t_worker_lease_until := Some (lease_until config now) |>)) ;;
      job ← query (λ db, sync_jobs db !! t_job_id t);
      match job with
      | Some j => execute (put_job (j <| j_status := PermissionSyncStatus.RUNNING |>))
      | None => raise (AttributeError "'NoneType' object has no attribute 'status'")
      end ;;
      commit ;;
      mret (Some (t_id t))
  end.

(** [_refresh_permission_sync_job], on the rows as flushed. *)
Definition refreshed_job (statuses : list PermissionSyncTargetStatus.t) (j : PermissionSyncJob)
    : PermissionSyncJob :=
  let total s := Z.of_nat (length (filter (λ x, x = s) statuses)) in
  let completed := total PermissionSyncTargetStatus.SUCCEEDED in
  let failed := total PermissionSyncTargetStatus.FAILED in
  let j := j <| j_completed_count := completed |> <| j_failed_count := failed |> in
  if completed + failed =? j_total_count j then
    if failed =? 0 then j <| j_status := PermissionSyncStatus.SUCCEEDED |> <| j_failure_reason := None |>
    else j <| j_status := PermissionSyncStatus.FAILED |> <| j_failure_reason := Some "PERMISSION_SYNC_FAILED" |>
  else j <| j_status := PermissionSyncStatus.RUNNING |>.

Definition target_statuses (job_id : string) (db : DB) : list PermissionSyncTargetStatus.t :=
  t_status <$> filter (λ t, t_job_id t = job_id) (snd <$> map_to_list (sync_targets db)).

Definition refresh_permission_sync_job (j : PermissionSyncJob) : M (Session DB) unit :=
  statuses ← query (target_statuses (j_id j));
  update_job j (refreshed_job statuses j).

(** What the session of [_process_permission_sync_target] holds. *)
Record LoadedTarget : Type := mk_loaded_target {
  lt_target : PermissionSyncTarget;
  lt_job : PermissionSyncJob;
  lt_revision : PermissionTemplateRevision;
  lt_member : DedicatedPoolMember;
  lt_resource : option DBInstanceResource;
  lt_snapshot : CompiledPermissionSnapshot
}.

Definition load_target (target_id : string) : M (Session DB) (option LoadedTarget) :=
  found ← query (λ db, sync_targets db !! target_id);
  match found with
  | None => mret None
  | Some t =>
      if (t_worker_id t != Some worker_id) || (t_status t != PermissionSyncTargetStatus.RUNNING)
      then mret None
      else
        member ← query (λ db, pool_members db !! t_member_id t);
        match member with
        | None => raise (RuntimeError "Permission sync member is unavailable")
        | Some m =>
            job ← query (λ db, sync_jobs db !! t_job_id t);
            revision ← query (λ db, j ← job; revisions db !! j_template_revision_id j);
            match job, revision with
            | Some j, Some revision =>
                snapshot ← lift_outcome (permission_snapshot_for_revision revision);
                resource ← query (λ db, rid ← t_resource_id t; resources db !! rid);
                mret (Some (mk_loaded_target t j revision m resource snapshot))
            | _, _ => raise (AttributeError "'NoneType' object has no attribute")
            end
        end
  end.

(** The member and the resource under the new revision. *)
Definition synced_member (l : LoadedTarget) : DedicatedPoolMember :=
  (lt_member l) <| m_permission_template_revision_id := Some (pr_id (lt_revision l)) |>
    <| m_permission_snapshot_json := Some (permission_snapshot_to_json (lt_snapshot l)) |>.

Definition synced_resource (l : LoadedTarget) (r : DBInstanceResource) : DBInstanceResource :=
  r <| r_permission_template_id := Some (pr_template_id (lt_revision l)) |>
    <| r_permission_template_revision_id := Some (pr_id (lt_revision l)) |>
    <| r_permission_snapshot_json := Some (permission_snapshot_to_json (lt_snapshot l)) |>.

Definition succeeded_target (t : PermissionSyncTarget) : PermissionSyncTarget :=
  t <| t_status := PermissionSyncTargetStatus.SUCCEEDED |> <| t_failure_reason := None |>
    <| t_worker_id := None |> <| t_worker_lease_until := None |> <| t_next_retry_at := None |>.

Definition store_target (l : LoadedTarget) : M (Session DB) unit :=
  (if t_change_required (lt_target l) then
     update_member (lt_member l) (synced_member l) ;;
     match lt_resource l with
     | Some r => update_resource r (synced_resource l r)
     | None => mret tt
     end
   else mret tt) ;;
  update_target (lt_target l) (succeeded_target (lt_target l)) ;;
  refresh_permission_sync_job (lt_job l) ;;
  commit.

Definition record_permission_sync_failure (now : time) (target_id : string) : M (Session DB) unit :=
  found ← query (λ db, sync_targets db !! target_id);
  match found with
  | None => mret tt
  | Some t =>
      if t_worker_id t != Some worker_id then mret tt
      else
        job ← query (λ db, sync_jobs db !! t_job_id t);
        let retry_count := t_retry_count t + 1 in
        let t := t <| t_retry_count := retry_count |> <| t_failure_reason := Some "PERMISSION_SYNC_FAILED" |>
                   <| t_worker_id := None |> <| t_worker_lease_until := None |> in
        execute (put_target
          (if worker_max_retries config <? retry_count
           then t <| t_status := PermissionSyncTargetStatus.FAILED |> <| t_next_retry_at := None |>
           else t <| t_status := PermissionSyncTargetStatus.PENDING |>
                  <| t_next_retry_at := Some (now + worker_backoff config retry_count) |>)) ;;
        match job with
        | Some j => refresh_permission_sync_job j
        | None => raise (AttributeError "'NoneType' object has no attribute 'id'")
        end ;;
        commit
  end.

Definition process_permission_sync_target (target_id : string) : M (World X) unit :=
  try_except
    (loaded ← with_db (load_target target_id);
     match loaded with
     | None => mret tt
     | Some l =>
         (if t_change_required (lt_target l)
          then lift_ext (synchronize_permissions decrypt (synced_member l) (lt_snapshot l)) else mret tt) ;;
         with_db (store_target l)
     end)
    (λ _, at_now clock (λ now, record_permission_sync_failure now target_id)).
End sync.

(** ** One pass *)
Section pass.
  Context {X : Type} `{PolarDBClient X} `{MySQLConnector X}.
  Context (config : TenantProvisioningConfig) (worker_id : string).
  Context (encrypt : string → string) (decrypt : string → outcome string).
  Context (openapi_details : PyExc → option OpenAPIDetails) (resource_pool_document : DB → ResourcePoolDocument).
  Context (clock : nat → time).

(** A transaction block of several sessions. *)
Definition in_sessions {A : Type} (m : M DB A) : M (World X) A := λ w,
  match m (w_db w) with (db, o) => (mk_world db (w_ext w) (w_tick w), o) end.

(** What one pass draws. *)
Record PassEntropy : Type := mk_pass_entropy {
  pe_advance : AdvanceEntropy;
  pe_member : MemberEntropy;
  pe_credential_id : string
}.

Definition run_once (pe : PassEntropy) : M (World X) bool :=
  resource ← at_now clock (λ now, claim_lifecycle_resource config worker_id now);
  match resource with
  | Some rid => process_lifecycle_resource config worker_id decrypt clock rid ;; mret true
  | None =>
  deleting ← at_now clock (λ now, claim_deleting_member config worker_id now);
  match deleting with
  | Some m => destroy_deleting_member config worker_id clock (m_id m) ;; mret true
  | None =>
  target ← at_now clock (λ now, claim_permission_sync_target config worker_id now);
  match target with
  | Some t => process_permission_sync_target config worker_id decrypt clock t ;; mret true
  | None =>
  stale ← at_now clock mark_expired_evidence_stale;
  if (stale : bool) then mret true
  else
  now ← read_clock clock;
  checked ← in_sessions (claim_health_check config worker_id now);
  match checked with
  | Some m => check_member config worker_id decrypt clock m ;; mret true
  | None =>
  pending ← at_now clock (λ now, claim_pending_resource config worker_id now);
  match pending with
  | Some rid =>
      at_now clock (λ now, fulfill_pending_resource config worker_id (pe_credential_id pe) now rid) ;;
      mret true
  | None =>
  replenishing ← at_now clock (λ now, claim_replenishing_member config worker_id now);
  match replenishing with
  | Some m =>
      advance_replenishing_member config worker_id encrypt decrypt openapi_details clock (pe_advance pe)
        (m_id m) ;; mret true
  | None =>
  now ← read_clock clock;
  in_sessions (reserve_replacement resource_pool_document now (pe_member pe))
  end end end end end end.
End pass.
