(* ===== verification/DedicatedService.v ===== *)
(** * Requests for dedicated resources ([server/core/db_instance_service.py])

    The dedicated branch of creation: a fresh member of the pool is handed over
    at once, or, on the second round over the candidates, another member is
    bought for the resource.  And the handlers of creation and deletion with
    both branches; on a multitenant resource they are those of [Service]. *)

From S2P Require Import Prelude PyString Models Config WriteGuard AdapterInterface Dispatcher.
From S2P Require Import Permission.
From S2P Require Import Capacity Selector Service OperationBudget Worker DedicatedMySQL.
From S2P Require Import DedicatedPools.
From S2P Require Import DedicatedProvisioner DedicatedWorker.

Definition is_pool_refusal (e : PyExc) : bool :=
  String.eqb (exc_type e) "PoolCapacityLimitReached"
  || String.eqb (exc_type e) "PurchaseProfileUpgradeRequired"
  || String.eqb (exc_type e) "RateLimited".

(** What a dedicated request draws. *)
Record DedicatedEntropy : Type := mk_dedicated_entropy {
  de_resource_id : string;
  de_credential_id : string;
  de_member : MemberEntropy
}.

Section dedicated.
  Context (config : TenantProvisioningConfig) (encrypt : string → string).
  Context (resource_pool_document : DB → ResourcePoolDocument).
  Context (before_commit : option (DBInstanceResource → M (Session DB) unit)).

Definition build_dedicated_resource (id agent_id backend_id client_token fingerprint : string)
    (normalized_name : option string) (engine : InstanceEngine.t) (now : time) : DBInstanceResource :=
  new_resource id agent_id backend_id client_token fingerprint normalized_name engine
    ProvisioningMode.DEDICATED now.

(** The backend with its pool, when the Agent may get a dedicated resource of
    the engine there. *)
Definition dedicated_placement (now : time) (agent_id backend_id : string) (engine : InstanceEngine.t)
    (db : DB) : option (Agent * ProvisioningBackend * DedicatedPool) :=
  a ← agents db !! agent_id;
  b ← backends db !! backend_id;
  pool ← backend_pool b db;
  if (a_status a == AgentStatus.ACTIVE)
     && (b_backend_type b == ProvisioningBackendType.DEDICATED_POOL)
     && (b_status b == ProvisioningBackendStatus.ACTIVE)
     && backend_is_fresh_and_healthy config now db b && binding_enabled agent_id backend_id db
     && (p_status pool == DedicatedPoolStatus.ACTIVE) && (engine == InstanceEngine.POLARDB_MYSQL)
  then Some (a, b, pool) else None.

(** A member bought for the resource. *)
Definition buy_member (now : time) (me : MemberEntropy) (pool : DedicatedPool) (r : DBInstanceResource)
    : M (Session DB) DBInstanceResource :=
  insert_member
    (new_instance (me_instance_id me) (me_token me) "Dedicated request member " (Some (p_region_id pool)))
    (new_member (me_member_id me) (p_id pool) (me_instance_id me)
       DedicatedMemberStatus.ALLOCATED_PREPARING (Some (r_id r)) now) ;;
  let r := r <| r_allocated_instance_id := Some (me_instance_id me) |> in
  execute (put_resource r) ;;
  mret r.

Definition reserve_dedicated_candidate (now : time) (de : DedicatedEntropy)
    (agent_id backend_id : string) (engine : InstanceEngine.t) (client_token fingerprint : string)
    (normalized_name : option string) (allow_cold_purchase : bool) : M (Session DB) DBInstanceResource :=
  placement ← query (dedicated_placement now agent_id backend_id engine);
  match placement with
  | None => raise (CapacityUnavailable EmptyString)
  | Some (a, b, pool) =>
      consume_agent_operation_budget pool agent_id "create" now ;;
      reserve_active_capacity_counters agent_id backend_id (agent_limit_of config a)
        (b_max_active_resources b) ;;
      let r := build_dedicated_resource (de_resource_id de) agent_id backend_id client_token fingerprint
                 normalized_name engine now in
      insert_resource r [] ;;
      member ← claim_fresh_member (p_id pool) (r_id r) now;
      r ← match member with
          | Some m =>
              revision ← query (member_revision m);
              activated ← lift_outcome
                (activate_dedicated_member (de_credential_id de) revision []
                   m (r <| r_allocated_instance_id := Some (m_instance_id m) |>));
              execute (put_activation activated) ;;
              mret activated.1.2
          | None =>
              if negb allow_cold_purchase then raise (CapacityUnavailable EmptyString)
              else
                required ← reserve_member_purchase resource_pool_document (p_id pool) now REQUEST;
                if (required : bool) then buy_member now (de_member de) pool r else mret r
          end;
      run_hook before_commit r ;;
      commit ;;
      mret r
  end.

(** The two rounds over the candidates, without and with a cold purchase. *)
Definition dedicated_rounds (candidate_ids : list string) : list (bool * string) :=
  ((λ b, (false, b)) <$> candidate_ids) ++ ((λ b, (true, b)) <$> candidate_ids).

Fixpoint reserve_dedicated_over (now : time) (entropy : nat → DedicatedEntropy) (agent_id : string)
    (engine : InstanceEngine.t) (client_token fingerprint : string) (normalized_name : option string)
    (attempt : nat) (rounds : list (bool * string)) : M (Session DB) DBInstanceResource :=
  match rounds with
  | [] => raise (CapacityUnavailable EmptyString)
  | (allow_cold_purchase, backend_id) :: rounds =>
      try_except
        (reserve_dedicated_candidate now (entropy attempt) agent_id backend_id engine client_token
           fingerprint normalized_name allow_cold_purchase)
        (λ e,
          if is_capacity_unavailable e || is_pool_refusal e then
            rollback ;;
            begin_transaction ;;
            reserve_dedicated_over now entropy agent_id engine client_token fingerprint normalized_name
              (S attempt) rounds
          else raise e)
  end.

Definition reserve_dedicated_capacity_and_insert (now : time) (entropy : nat → DedicatedEntropy)
    (agent_id : string) (engine : InstanceEngine.t) (client_token fingerprint : string)
    (normalized_name : option string) (attempt : nat) (candidate_ids : list string)
    : M (Session DB) DBInstanceResource :=
  serialized_resource_write
    (reserve_dedicated_over now entropy agent_id engine client_token fingerprint normalized_name attempt
       (dedicated_rounds candidate_ids)).

(** ** Creation in either mode *)

Definition create_resource (mode : ProvisioningMode.t) (now : time) (entropy : nat → Entropy)
    (dedicated_entropy : nat → DedicatedEntropy) (agent_id client_token : string) (name : option string)
    (db_type : string) : M (Session DB) DBInstanceResource :=
  require_idle_resource_session ;;
  lift_outcome (validate_client_token client_token) ;;
  engine ← lift_outcome (parse_engine db_type);
  normalized_name ← lift_outcome (normalize_resource_name name);
  fingerprint ← lift_outcome (request_fingerprint db_type normalized_name mode FINGERPRINT_VERSION);
  existing ← query (find_by_client_token agent_id client_token);
  match existing with
  | Some r =>
      existing_fingerprint ← lift_outcome (request_fingerprint db_type normalized_name mode
                               (r_fingerprint_version r));
      answer_with before_commit r agent_id client_token existing_fingerprint (r_fingerprint_version r)
  | None =>
      candidates ← query (list_candidates config now agent_id engine client_token mode);
      let candidate_ids := cand_backend_id <$> candidates in
      match candidate_ids with
      | [] => rollback ;; raise (NoProvisioningBackend "Agent has no active, healthy provisioning backend")
      | _ :: _ =>
          when_in_transaction_rollback ;;
          create_attempts before_commit 3 agent_id client_token fingerprint
            (λ attempt,
              match mode with
              | ProvisioningMode.DEDICATED =>
                  reserve_dedicated_capacity_and_insert now dedicated_entropy agent_id engine client_token
                    fingerprint normalized_name (attempt * (2 * length candidate_ids)) candidate_ids
              | ProvisioningMode.MULTITENANT =>
                  reserve_capacity_and_insert config before_commit now agent_id engine
                    (λ k, build_resource encrypt agent_id client_token fingerprint normalized_name
                            engine now (entropy k))
                    (attempt * length candidate_ids) candidate_ids
              end) 0
      end
  end.

Lemma create_resource_multitenant now entropy de agent_id client_token name db_type :
  create_resource ProvisioningMode.MULTITENANT now entropy de agent_id client_token name db_type
  = create_db_instance_resource config encrypt before_commit now entropy agent_id client_token name db_type.
Proof. reflexivity. Qed.

(** ** Deletion in either mode *)

(** The member of a dedicated resource under deletion; a throttled Agent is
    disconnected all the same. *)
Definition delete_member (now : time) (agent_id rid : string) : M (Session DB) unit :=
  member ← query (member_of_resource rid);
  match member with
  | None => mret tt
  | Some m =>
      write_member (m <| m_status := DedicatedMemberStatus.DELETING |>) ;;
      pool ← query (λ db, pools db !! m_pool_id m);
      match pool with
      | Some pool =>
          try_except (consume_agent_operation_budget pool agent_id "delete" now)
            (λ e, if String.eqb (exc_type e) "RateLimited" then mret tt else raise e)
      | None => raise (AttributeError "'NoneType' object has no attribute")
      end
  end.

Definition delete_resource (now : time) (agent_id db_instance_id : string)
    : M (Session DB) DBInstanceResource :=
  serialized_resource_write (
    found ← query (owned_resource db_instance_id agent_id);
    match found with
    | None => raise DBInstanceNotFound
    | Some r =>
        r ← (if deletable (r_status r) then
               backend ← query (λ db, backends db !! r_backend_id r);
               match backend with
               | None => raise (NoProvisioningBackend "Provisioning backend is unavailable")
               | Some b =>
                   pool ← query (backend_pool b);
                   r ← lift_outcome (record_delete_request config now b pool r);
                   execute (set_resource_credentials_status (r_id r) CredentialStatus.REVOKED) ;;
                   (if r_provisioning_mode r == ProvisioningMode.DEDICATED
                    then delete_member now agent_id (r_id r) else mret tt) ;;
                   let r := queue_deletion now r in
                   execute (put_resource r) ;;
                   mret r
               end
             else mret r);
        run_hook before_commit r ;;
        commit ;;
        mret r
    end).
End dedicated.
