(* ===== verification/DedicatedAdmin.v ===== *)
(** * Administration of dedicated pools

    [dedicated_pool_service.py]: what an administrator does with a pool and its
    members.  [dedicated_pool_readiness.py]: the heartbeats of the workers, what
    blocks a purchase, and the supply state of a pool.  A request runs in the
    caller's session, which commits when it returns. *)

From S2P Require Import Prelude PyString Models Config Endpoints Permission Capacity Selector.
From S2P Require Import DedicatedPools BackendAdmin.

(** ** Errors *)

Definition DedicatedPoolServiceError (msg : string) : PyExc := exc "DedicatedPoolServiceError" msg.
Definition DedicatedPoolNotFound (msg : string) : PyExc := exc "DedicatedPoolNotFound" msg.
Definition DedicatedPoolStateConflict (msg : string) : PyExc := exc "DedicatedPoolStateConflict" msg.
Definition DedicatedPoolConfigurationConflict (msg : string) : PyExc :=
  exc "DedicatedPoolConfigurationConflict" msg.
Definition DedicatedPoolNetworkConfirmationRequired (msg : string) : PyExc :=
  exc "DedicatedPoolNetworkConfirmationRequired" msg.

(** [except E as error: raise DedicatedPoolServiceError(str(error))] *)
Definition as_service_error {A : Type} (o : outcome A) : outcome A :=
  match o with Ret a => Ret a | Raise e => Raise (DedicatedPoolServiceError (exc_message e)) end.

(** ** Validation *)

Definition validate_pool_configuration (target_size max_total_members check_interval_seconds
    stale_after_seconds : Z) (delete_cooldown_duration_hours : option Z) : outcome unit :=
  if (target_size <? 0) || (max_total_members <=? 0) then
    Raise (DedicatedPoolServiceError "Pool sizes are invalid")
  else if max_total_members <? target_size then
    Raise (DedicatedPoolServiceError "target_size must not exceed max_total_members")
  else
    as_service_error (validate_readiness_schedule check_interval_seconds stale_after_seconds) ;;
    match delete_cooldown_duration_hours with
    | Some hours =>
        if hours <? 1 then Raise (DedicatedPoolServiceError "delete cooldown must be at least 1 hour")
        else Ret tt
    | None => Ret tt
    end.

Definition typed_purchase_config (purchase_profile_id : option string)
    (purchase_profile_revision : option Z) (storage_type : option string)
    : outcome (list (string * string)) :=
  if purchase_profile_id != Some PROFILE_ID then
    Raise (DedicatedPoolServiceError "Unsupported purchase profile ID")
  else if purchase_profile_revision != Some PROFILE_REVISION then
    Raise (DedicatedPoolServiceError "Unsupported purchase profile revision")
  else
    match storage_type with
    | None => Raise (DedicatedPoolServiceError "storage_type is required")
    | Some storage_type => as_service_error (build_purchase_config storage_type)
    end.

(** [json.dumps(config, sort_keys=True)] *)
Definition purchase_config_text (config : list (string * string)) : json_text :=
  json_dumps (JObj ((λ kv, (kv.1, JStr kv.2)) <$>
    sorted (λ a b, bool_decide (String.le a.1 b.1)) config)).

(** [_NETWORK_FIELDS]: present or not. *)
Record NetworkValues : Type := mk_network {
  n_region_id : option string;
  n_zone_id : option string;
  n_vpc_id : option string;
  n_vswitch_id : option string
}.

Definition normalized_field (name : string) (value : option string) : outcome (option string) :=
  match value with
  | None => Ret None
  | Some value =>
      if String.eqb (strip value) EmptyString then
        Raise (DedicatedPoolServiceError (name +:+ " cannot be blank"))
      else Ret (Some (strip value))
  end.

(** The [CHECK] constraints of the table. *)
Definition pool_checks (p : DedicatedPool) : bool :=
  (0 <=? p_target_size p) && (0 <? p_max_total_members p) && (p_target_size p <=? p_max_total_members p)
  && (0 <? p_max_member_purchases_per_hour p)
  && (0 <? p_max_create_requests_per_agent_per_hour p)
  && (0 <? p_max_delete_requests_per_agent_per_hour p)
  && match p_delete_cooldown_duration_hours p with Some h => 1 <=? h | None => true end
  && (0 <? p_available_health_check_interval_seconds p)
  && (0 <? p_available_health_stale_after_seconds p)
  && (0 <? p_config_revision p).

Definition put_pool (p : DedicatedPool) (db : DB) : DB :=
  db <| pools := <[p_id p := p]> (pools db) |>.

(** Another pool has the name. *)
Definition pool_conflict (p : DedicatedPool) (db : DB) : bool :=
  existsb (λ o : DedicatedPool, negb (String.eqb (p_id o) (p_id p)) && String.eqb (p_name o) (p_name p))
    (snd <$> map_to_list (pools db)).

Definition flush_pool (p : DedicatedPool) : M (Session DB) unit :=
  conflict ← query (pool_conflict p);
  if conflict || negb (pool_checks p) then raise (IntegrityError "constraint failed")
  else execute (put_pool p).

(** [pool.provisioning_backend] *)
Definition backend_of_pool (pool_id : string) (db : DB) : option ProvisioningBackend :=
  head (filter (λ b, b_dedicated_pool_id b = Some pool_id) (snd <$> map_to_list (backends db))).

(** ** Requests *)

(** A request for a pool, as its schema lets it through. *)
Record PoolValues : Type := mk_pool_values {
  v_name : string;
  v_target_size : Z;
  v_max_total_members : Z;
  v_max_member_purchases_per_hour : Z;
  v_max_create_requests_per_agent_per_hour : Z;
  v_max_delete_requests_per_agent_per_hour : Z;
  v_purchase_profile_id : option string;
  v_purchase_profile_revision : option Z;
  v_storage_type : option string;
  v_network : NetworkValues;
  v_security_ip_list : option string;
  v_endpoint_net_type : string;
  v_reclaim_policy : ReclaimPolicy.t;
  v_lifecycle_admin_policy : LifecycleAdministratorPolicy.t;
  v_permission_template_revision_id : string;
  v_account_name_template : string;
  v_database_name_template : string;
  v_delete_cooldown_duration_hours : option Z;
  v_available_health_check_interval_seconds : Z;
  v_available_health_stale_after_seconds : Z
}.

(** The fields present in a request to change a pool; only the cool-down and
    the address list may be set to null. *)
Record PoolChanges : Type := mk_pool_changes {
  pc_name : option string;
  pc_status : option DedicatedPoolStatus.t;
  pc_target_size : option Z;
  pc_max_total_members : option Z;
  pc_max_member_purchases_per_hour : option Z;
  pc_max_create_requests_per_agent_per_hour : option Z;
  pc_max_delete_requests_per_agent_per_hour : option Z;
  pc_purchase_profile_id : option string;
  pc_purchase_profile_revision : option Z;
  pc_storage_type : option string;
  pc_network : NetworkValues;
  pc_security_ip_list : option (option string);
  pc_reclaim_policy : option ReclaimPolicy.t;
  pc_permission_template_revision_id : option string;
  pc_delete_cooldown_duration_hours : option (option Z);
  pc_available_health_check_interval_seconds : option Z;
  pc_available_health_stale_after_seconds : option Z
}.

Definition no_network : NetworkValues := mk_network None None None None.
Definition no_changes : PoolChanges :=
  mk_pool_changes None None None None None None None None None None no_network None None None None None None.
#[export] Instance PoolChanges_eta : Eta PoolChanges := λ x,
  mk_pool_changes (pc_name x) (pc_status x) (pc_target_size x) (pc_max_total_members x)
    (pc_max_member_purchases_per_hour x) (pc_max_create_requests_per_agent_per_hour x)
    (pc_max_delete_requests_per_agent_per_hour x) (pc_purchase_profile_id x)
    (pc_purchase_profile_revision x) (pc_storage_type x) (pc_network x) (pc_security_ip_list x)
    (pc_reclaim_policy x) (pc_permission_template_revision_id x) (pc_delete_cooldown_duration_hours x)
    (pc_available_health_check_interval_seconds x) (pc_available_health_stale_after_seconds x).

Definition field_changed (change current : option string) : bool :=
  match change with
  | None => false
  | Some value => negb (String.eqb value (strip (default EmptyString current)))
  end.

Definition network_changed (n : NetworkValues) (p : DedicatedPool) : bool :=
  field_changed (n_region_id n) (Some (p_region_id p)) || field_changed (n_zone_id n) (p_zone_id p)
  || field_changed (n_vpc_id n) (Some (p_vpc_id p)) || field_changed (n_vswitch_id n) (Some (p_vswitch_id p)).

(** A member whose purchase may still be placed. *)
Definition purchase_pending (pool_id : string) (db : DB) : bool :=
  existsb (λ m,
    ((m_preparation_step m == DedicatedPreparationStep.PENDING)
     || (m_preparation_step m == DedicatedPreparationStep.PURCHASE_INTENT_STORED))
    && (m_status m != DedicatedMemberStatus.DELETED)) (members_of pool_id db).

(** [for field, value in changes.items(): setattr(pool, field, value)] *)
Definition apply_pool_changes (ch : PoolChanges) (p : DedicatedPool) : DedicatedPool :=
  p <| p_name := default (p_name p) (pc_name ch) |>
    <| p_status := default (p_status p) (pc_status ch) |>
    <| p_target_size := default (p_target_size p) (pc_target_size ch) |>
    <| p_max_total_members := default (p_max_total_members p) (pc_max_total_members ch) |>
    <| p_max_member_purchases_per_hour :=
         default (p_max_member_purchases_per_hour p) (pc_max_member_purchases_per_hour ch) |>
    <| p_max_create_requests_per_agent_per_hour :=
         default (p_max_create_requests_per_agent_per_hour p)
           (pc_max_create_requests_per_agent_per_hour ch) |>
    <| p_max_delete_requests_per_agent_per_hour :=
         default (p_max_delete_requests_per_agent_per_hour p)
           (pc_max_delete_requests_per_agent_per_hour ch) |>
    <| p_purchase_profile_id := union (pc_purchase_profile_id ch) (p_purchase_profile_id p) |>
    <| p_purchase_profile_revision := union (pc_purchase_profile_revision ch) (p_purchase_profile_revision p) |>
    <| p_storage_type := union (pc_storage_type ch) (p_storage_type p) |>
    <| p_region_id := default (p_region_id p) (n_region_id (pc_network ch)) |>
    <| p_zone_id := union (n_zone_id (pc_network ch)) (p_zone_id p) |>
    <| p_vpc_id := default (p_vpc_id p) (n_vpc_id (pc_network ch)) |>
    <| p_vswitch_id := default (p_vswitch_id p) (n_vswitch_id (pc_network ch)) |>
    <| p_security_ip_list := default (p_security_ip_list p) (pc_security_ip_list ch) |>
    <| p_reclaim_policy := default (p_reclaim_policy p) (pc_reclaim_policy ch) |>
    <| p_permission_template_revision_id :=
         default (p_permission_template_revision_id p) (pc_permission_template_revision_id ch) |>
    <| p_delete_cooldown_duration_hours :=
         default (p_delete_cooldown_duration_hours p) (pc_delete_cooldown_duration_hours ch) |>
    <| p_available_health_check_interval_seconds :=
         default (p_available_health_check_interval_seconds p)
           (pc_available_health_check_interval_seconds ch) |>
    <| p_available_health_stale_after_seconds :=
         default (p_available_health_stale_after_seconds p)
           (pc_available_health_stale_after_seconds ch) |>.

(** [profile_fields.intersection(changes)] *)
Definition changes_profile (ch : PoolChanges) : bool :=
  bool_decide (is_Some (pc_purchase_profile_id ch)) || bool_decide (is_Some (pc_purchase_profile_revision ch))
  || bool_decide (is_Some (pc_storage_type ch)).

(** The backend of a pool follows its size and its template. *)
Definition update_pool_backend (p : DedicatedPool) : M (Session DB) unit :=
  backend ← query (backend_of_pool (p_id p));
  match backend with
  | None => mret tt
  | Some b =>
      flush_backend (b <| b_max_active_resources := p_max_total_members p |>
                       <| b_permission_template_revision_id := Some (p_permission_template_revision_id p) |>)
  end.

Section requests.
  (** [get_config().aliyun]: [region_id] and [openapi_network]. *)
  Context (access_region openapi_network : string).

Definition normalize_network_values (check_region : bool) (n : NetworkValues) : outcome NetworkValues :=
  region ← normalized_field "region_id" (n_region_id n);
  zone ← normalized_field "zone_id" (n_zone_id n);
  vpc ← normalized_field "vpc_id" (n_vpc_id n);
  vswitch ← normalized_field "vswitch_id" (n_vswitch_id n);
  match region with
  | Some r =>
      if check_region then
        as_service_error (validate_resource_region (Some r) access_region openapi_network) ;;
        Ret (mk_network region zone vpc vswitch)
      else Ret (mk_network region zone vpc vswitch)
  | None => Ret (mk_network region zone vpc vswitch)
  end.

(** The network of a request for a pool is complete. *)
Definition placed_at (n : NetworkValues) : outcome (string * string * string * string) :=
  match n_region_id n, n_zone_id n, n_vpc_id n, n_vswitch_id n with
  | Some region, Some zone, Some vpc, Some vswitch => Ret (region, zone, vpc, vswitch)
  | _, _, _, _ => Raise (exc "KeyError" "network")
  end.

Definition requested_pool (id : string) (v : PoolValues) (revision_id region zone vpc vswitch : string)
    (config : list (string * string)) : DedicatedPool :=
  {| p_id := id; p_name := strip (v_name v); p_status := DedicatedPoolStatus.ACTIVE;
     p_target_size := v_target_size v; p_max_total_members := v_max_total_members v;
     p_max_member_purchases_per_hour := v_max_member_purchases_per_hour v;
     p_max_create_requests_per_agent_per_hour := v_max_create_requests_per_agent_per_hour v;
     p_max_delete_requests_per_agent_per_hour := v_max_delete_requests_per_agent_per_hour v;
     p_purchase_config_json := purchase_config_text config;
     p_purchase_profile_id := Some PROFILE_ID; p_purchase_profile_revision := Some PROFILE_REVISION;
     p_storage_type := v_storage_type v; p_region_id := region; p_vpc_id := vpc; p_vswitch_id := vswitch;
     p_zone_id := Some zone; p_security_ip_list := v_security_ip_list v;
     p_endpoint_net_type := v_endpoint_net_type v; p_reclaim_policy := v_reclaim_policy v;
     p_lifecycle_admin_policy := v_lifecycle_admin_policy v;
     p_permission_template_revision_id := revision_id;
     p_account_name_template := v_account_name_template v;
     p_database_name_template := v_database_name_template v;
     p_delete_cooldown_duration_hours := v_delete_cooldown_duration_hours v;
     p_available_health_check_interval_seconds := v_available_health_check_interval_seconds v;
     p_available_health_stale_after_seconds := v_available_health_stale_after_seconds v;
     p_config_revision := 1 |}.

(** [ProvisioningBackend(...)] of a pool, the other columns at their defaults. *)
Definition pool_backend (id : string) (p : DedicatedPool) : ProvisioningBackend :=
  mk_backend id ProvisioningBackendType.DEDICATED_POOL None (Some (p_id p)) None
    ProvisioningBackendStatus.ACTIVE 0 (p_max_total_members p) 0 2 4 1 None
    (Some (p_permission_template_revision_id p)).

Definition create_dedicated_pool (id backend_id : string) (now : time) (v : PoolValues)
    : M (Session DB) DedicatedPool :=
  n ← lift_outcome (normalize_network_values true (v_network v));
  place ← lift_outcome (placed_at n);
  lift_outcome (validate_pool_configuration (v_target_size v) (v_max_total_members v)
    (v_available_health_check_interval_seconds v) (v_available_health_stale_after_seconds v)
    (v_delete_cooldown_duration_hours v)) ;;
  revision ← query (λ db, revisions db !! v_permission_template_revision_id v);
  match revision with
  | None => raise (DedicatedPoolNotFound "Permission template revision not found")
  | Some revision =>
      config ← lift_outcome (typed_purchase_config (v_purchase_profile_id v)
                 (v_purchase_profile_revision v) (v_storage_type v));
      let '(region, zone, vpc, vswitch) := place in
      let pool := requested_pool id v (pr_id revision) region zone vpc vswitch config in
      taken ← query (λ db, bool_decide (is_Some (pools db !! id))
                           || bool_decide (is_Some (backends db !! backend_id)));
      if (taken : bool) then raise (IntegrityError "UNIQUE constraint failed")
      else
        flush_pool pool ;;
        flush_backend (pool_backend backend_id pool) ;;
        execute (put_health (healthy_row now backend_id)) ;;
        mret pool
  end.

(** The network of a pool is changed only when confirmed and when no purchase
    is under way. *)
Definition guard_network_change (n : NetworkValues) (network_change_confirmed : bool) (p : DedicatedPool)
    : M (Session DB) unit :=
  if network_changed n p then
    if negb network_change_confirmed then
      raise (DedicatedPoolNetworkConfirmationRequired
        "Confirm connectivity and availability risks before changing pool network placement")
    else
      lift_outcome (normalize_network_values true
        (mk_network (Some (default (p_region_id p) (n_region_id n))) None None None)) ;;
      pending ← query (purchase_pending (p_id p));
      if (pending : bool) then
        raise (DedicatedPoolStateConflict
          "Pool placement cannot change while a purchase is pending; pause replenishment and reconcile outstanding purchases first")
      else mret tt
  else mret tt.

Definition guard_template_change (ch : PoolChanges) : M (Session DB) unit :=
  match pc_permission_template_revision_id ch with
  | None => mret tt
  | Some id =>
      revision ← query (λ db, revisions db !! id);
      match revision with
      | None => raise (DedicatedPoolNotFound "Permission template revision not found")
      | Some _ => mret tt
      end
  end.

(** [pool] is what the changes make of the row. *)
Definition changed_purchase_config (ch : PoolChanges) (pool : DedicatedPool) : outcome DedicatedPool :=
  if changes_profile ch then
    config ← typed_purchase_config (p_purchase_profile_id pool) (p_purchase_profile_revision pool)
               (p_storage_type pool);
    Ret (pool <| p_purchase_config_json := purchase_config_text config |>)
  else Ret pool.

Definition update_dedicated_pool (pool_id : string) (ch : PoolChanges)
    (expected_config_revision : option Z) (network_change_confirmed : bool)
    : M (Session DB) DedicatedPool :=
  found ← query (λ db, pools db !! pool_id);
  match found with
  | None => raise (DedicatedPoolNotFound "Dedicated pool not found")
  | Some pool =>
      if match expected_config_revision with
         | Some expected => negb (p_config_revision pool =? expected)
         | None => false
         end then
        raise (DedicatedPoolConfigurationConflict
          "Dedicated pool configuration changed; reload before updating")
      else
        n ← lift_outcome (normalize_network_values false (pc_network ch));
        let ch := ch <| pc_network := n |> in
        guard_network_change n network_change_confirmed pool ;;
        let changed := apply_pool_changes ch pool in
        lift_outcome (validate_pool_configuration (p_target_size changed) (p_max_total_members changed)
          (p_available_health_check_interval_seconds changed)
          (p_available_health_stale_after_seconds changed)
          (p_delete_cooldown_duration_hours changed)) ;;
        guard_template_change ch ;;
        changed ← lift_outcome (changed_purchase_config ch changed);
        let changed := changed <| p_config_revision := p_config_revision pool + 1 |> in
        flush_pool changed ;;
        update_pool_backend changed ;;
        mret changed
  end.

Definition upgrade_purchase_profile (pool_id : string) (expected_config_revision : Z)
    : M (Session DB) DedicatedPool :=
  found ← query (λ db, pools db !! pool_id);
  match found with
  | None => raise (DedicatedPoolNotFound "Dedicated pool not found")
  | Some pool =>
      if negb (p_config_revision pool =? expected_config_revision) then
        raise (DedicatedPoolStateConflict "Dedicated pool configuration changed; reload before upgrading")
      else
        config ← lift_outcome (build_purchase_config "essdpl1");
        let pool := pool <| p_purchase_config_json := purchase_config_text config |>
                         <| p_purchase_profile_id := Some PROFILE_ID |>
                         <| p_purchase_profile_revision := Some PROFILE_REVISION |>
                         <| p_storage_type := Some "essdpl1" |>
                         <| p_config_revision := p_config_revision pool + 1 |> in
        flush_pool pool ;;
        mret pool
  end.

Definition drain_dedicated_pool (pool_id : string) : M (Session DB) DedicatedPool :=
  update_dedicated_pool pool_id
    (no_changes <| pc_status := Some DedicatedPoolStatus.DRAINING |> <| pc_target_size := Some 0 |>)
    None false.
End requests.

(** ** Members *)

Definition registered_member (id pool_id : string) (i : Instance) (c : InstanceCredential) (now : time)
    : DedicatedPoolMember :=
  {| m_id := id; m_pool_id := pool_id; m_instance_id := i_id i;
     m_status := DedicatedMemberStatus.REPLENISHING; m_readiness_status := ReadinessStatus.STALE;
     m_preparation_step := DedicatedPreparationStep.LIFECYCLE_ACCOUNT_CREATED;
     m_purchase_token := None; m_cloud_request_id := None; m_agentic_db_cluster_id := None;
     m_last_ready_verified_at := None;
     m_lifecycle_username_ciphertext := c_username_ciphertext c;
     m_lifecycle_password_ciphertext := c_password_ciphertext c;
     m_sandbox_username_ciphertext := None; m_sandbox_password_ciphertext := None;
     m_host := i_host i; m_port := i_port i; m_database_name := None;
     m_permission_template_revision_id := None; m_permission_snapshot_json := None;
     m_allocated_resource_id := None; m_delete_cooldown_duration_hours := None;
     m_failure_reason := None; m_retry_count := 0; m_next_retry_at := None; m_worker_id := None;
     m_worker_lease_until := None; m_created_at := now |}.

Definition external_instance (i : option Instance) : outcome Instance :=
  match i with
  | Some i =>
      if (i_topology i != InstanceTopology.SINGLE_TENANT) || (i_status i != InstanceStatus.ACTIVE)
         || (i_host i == None) || (i_port i == None) then
        Raise (DedicatedPoolServiceError
          "External member must be an active single-tenant instance with an endpoint")
      else if i_allocation_mode i != AllocationMode.REGISTERED then
        Raise (DedicatedPoolServiceError "External member must be an administrator-registered instance")
      else Ret i
  | None =>
      Raise (DedicatedPoolServiceError
        "External member must be an active single-tenant instance with an endpoint")
  end.

Definition lifecycle_credential (i : Instance) (c : option InstanceCredential) : outcome InstanceCredential :=
  match c with
  | Some c =>
      if (c_instance_id c != Some (i_id i)) || (c_purpose c != CredentialPurpose.PROVISIONING_ADMIN)
         || (c_capability c != CredentialCapability.ADMIN) || (c_status c != CredentialStatus.ACTIVE)
         || (c_username_ciphertext c == None) || (c_password_ciphertext c == None) then
        Raise (DedicatedPoolServiceError
          "An active lifecycle administrator credential for this instance is required")
      else Ret c
  | None =>
      Raise (DedicatedPoolServiceError
        "An active lifecycle administrator credential for this instance is required")
  end.

Definition register_external_member (id : string) (now : time) (pool_id instance_id : string)
    (lifecycle_credential_id : option string) : M (Session DB) DedicatedPoolMember :=
  pool ← query (λ db, pools db !! pool_id);
  match pool with
  | None => raise (DedicatedPoolNotFound "Dedicated pool not found")
  | Some pool =>
      if p_lifecycle_admin_policy pool != LifecycleAdministratorPolicy.ADMIN_PROVIDED then
        raise (DedicatedPoolStateConflict "External registration requires admin_provided lifecycle policy")
      else
        instance ← query (λ db, instances db !! instance_id);
        i ← lift_outcome (external_instance instance);
        credential ← query (λ db, cid ← lifecycle_credential_id; credentials db !! cid);
        c ← lift_outcome (lifecycle_credential i credential);
        existing ← query (λ db, existsb (λ m, String.eqb (m_instance_id m) (i_id i))
                                  (snd <$> map_to_list (pool_members db)));
        if (existing : bool) then
          raise (DedicatedPoolStateConflict "Instance is already registered in a Dedicated pool")
        else
          let m := registered_member id (p_id pool) i c now in
          taken ← query (λ db, bool_decide (is_Some (pool_members db !! id)));
          if (taken : bool) then raise (IntegrityError "UNIQUE constraint failed")
          else write_member m ;; mret m
  end.

(** The member an action makes of a member. *)
Definition member_action (action : string) (allow_data_plane : bool) (m : DedicatedPoolMember)
    : outcome DedicatedPoolMember :=
  if String.eqb action "retry"
     && ((m_status m == DedicatedMemberStatus.REPLENISHING) || (m_status m == DedicatedMemberStatus.QUARANTINED))
  then
    if (m_preparation_step m == DedicatedPreparationStep.OPENAPI_READY) && negb allow_data_plane then
      Raise (DedicatedPoolStateConflict "Member already reached the OpenAPI-only preparation boundary")
    else
      let m := if m_status m == DedicatedMemberStatus.QUARANTINED
               then m <| m_status := DedicatedMemberStatus.REPLENISHING |> else m in
      Ret (m <| m_readiness_status := ReadinessStatus.STALE |> <| m_retry_count := 0 |>
             <| m_next_retry_at := None |> <| m_failure_reason := None |>)
  else if String.eqb action "quarantine"
     && ((m_status m == DedicatedMemberStatus.AVAILABLE) || (m_status m == DedicatedMemberStatus.REPLENISHING))
  then
    Ret (m <| m_status := DedicatedMemberStatus.QUARANTINED |>
           <| m_readiness_status := ReadinessStatus.STALE |>)
  else if String.eqb action "destroy" && (m_allocated_resource_id m == None)
     && ((m_status m == DedicatedMemberStatus.AVAILABLE) || (m_status m == DedicatedMemberStatus.REPLENISHING)
         || (m_status m == DedicatedMemberStatus.QUARANTINED))
  then
    Ret (m <| m_status := DedicatedMemberStatus.DELETING |> <| m_worker_id := None |>
           <| m_worker_lease_until := None |> <| m_next_retry_at := None |>)
  else Raise (DedicatedPoolStateConflict "Member action is not allowed from its current state").

Definition set_member_action (member_id action : string) (allow_data_plane : bool)
    : M (Session DB) DedicatedPoolMember :=
  member ← query (λ db, pool_members db !! member_id);
  match member with
  | None => raise (DedicatedPoolNotFound "Dedicated pool member not found")
  | Some m =>
      m ← lift_outcome (member_action action allow_data_plane m);
      write_member m ;;
      mret m
  end.

Definition update_member_delete_cooldown (member_id : string) (delete_cooldown_duration_hours : option Z)
    : M (Session DB) DedicatedPoolMember :=
  member ← query (λ db, pool_members db !! member_id);
  match member with
  | None => raise (DedicatedPoolNotFound "Dedicated pool member not found")
  | Some m =>
      if match delete_cooldown_duration_hours with Some h => h <? 1 | None => false end then
        raise (DedicatedPoolServiceError "delete cooldown must be at least 1 hour")
      else
        let m := m <| m_delete_cooldown_duration_hours := delete_cooldown_duration_hours |> in
        write_member m ;;
        mret m
  end.

(** ** Supply *)

Record DedicatedPoolView : Type := mk_pool_view {
  pv_pool : DedicatedPool;
  pv_capacity : CapacitySnapshot
}.

Definition surplus (v : DedicatedPoolView) : Z :=
  Z.max 0 (cs_planning (pv_capacity v) - p_target_size (pv_pool v)).

Definition dedicated_pool_view (now : time) (pool : DedicatedPool) : M (Session DB) DedicatedPoolView :=
  capacity ← capacity_snapshot (p_id pool) now;
  mret (mk_pool_view pool capacity).

Module DedicatedSupplyState.
Inductive t : Set := | NOT_STARTED | PREWARMING | READY | PARTIALLY_READY | CAPACITY_LIMITED | ERROR.
End DedicatedSupplyState.

Definition derive_supply_state (target allocatable planning : Z) (blockers : list string) (failures : Z)
    (capacity_limited : bool) : DedicatedSupplyState.t :=
  if (allocatable =? 0) && (planning =? 0) && negb (bool_decide (blockers = []))
  then DedicatedSupplyState.NOT_STARTED
  else if target <=? allocatable then DedicatedSupplyState.READY
  else if capacity_limited then DedicatedSupplyState.CAPACITY_LIMITED
  else if (0 <? failures) && (planning =? 0) then DedicatedSupplyState.ERROR
  else if (allocatable =? 0) && (0 <? planning) then DedicatedSupplyState.PREWARMING
  else DedicatedSupplyState.PARTIALLY_READY.

Record PoolSupplySnapshot : Type := mk_supply {
  su_state : DedicatedSupplyState.t;
  su_current : Z;
  su_target : Z;
  su_blocking_reasons : list string
}.

(** [blockers.remove(x)] of a list that has [x]. *)
Fixpoint remove_first (x : string) (l : list string) : list string :=
  match l with
  | [] => []
  | y :: l => if String.eqb x y then l else y :: remove_first x l
  end.

(** [members] are [pool.members], [upgrade_required] the status of the purchase
    profile. *)
Definition pool_supply_snapshot (view : DedicatedPoolView) (members : list DedicatedPoolMember)
    (readiness_blockers : list string) (upgrade_required : bool) : PoolSupplySnapshot :=
  let pool := pv_pool view in
  let capacity := pv_capacity view in
  let blockers :=
    if negb (String.eqb (p_permission_template_revision_id pool) EmptyString)
    then remove_first "PERMISSION_TEMPLATE_UNAVAILABLE" readiness_blockers else readiness_blockers in
  let blockers := if upgrade_required then blockers ++ ["PURCHASE_PROFILE_UPGRADE_REQUIRED"] else blockers in
  let failures := count (λ m, m_status m == DedicatedMemberStatus.QUARANTINED) members in
  let capacity_limited :=
    (p_max_total_members pool <=? cs_billable_total capacity) && (cs_planning capacity <? p_target_size pool) in
  let blockers := if capacity_limited then blockers ++ ["POOL_CAPACITY_LIMIT_REACHED"] else blockers in
  mk_supply
    (derive_supply_state (p_target_size pool) (cs_allocatable capacity) (cs_planning capacity) blockers
       failures capacity_limited)
    (cs_allocatable capacity) (p_target_size pool) blockers.

(** *** Heartbeats *)

Record Heartbeat : Type := mk_heartbeat {
  hb_config_revision : Z;
  hb_started_at : time;
  hb_last_heartbeat_at : time
}.

(** The table, by worker id; [now] is the database's clock. *)
Definition record_worker_heartbeat (now : time) (worker_id : string) (config_revision : Z)
    (rows : gmap string Heartbeat) : gmap string Heartbeat :=
  match rows !! worker_id with
  | None => <[worker_id := mk_heartbeat config_revision now now]> rows
  | Some h => <[worker_id := mk_heartbeat config_revision (hb_started_at h) now]> rows
  end.

Record WorkerReadinessSnapshot : Type := mk_worker_readiness {
  active_worker_count : Z;
  last_heartbeat_at : option time;
  database_now : time
}.

(** [func.max] over the rows, null over none. *)
Definition latest (l : list time) : option time :=
  foldr (λ t acc, Some (match acc with Some u => Z.max t u | None => t end)) None l.

Definition worker_readiness_snapshot (database_now : time) (stale_after_seconds : Z)
    (rows : gmap string Heartbeat) : WorkerReadinessSnapshot :=
  let cutoff := database_now - seconds stale_after_seconds in
  let active := filter (λ t, cutoff <= t) (hb_last_heartbeat_at <$> (snd <$> map_to_list rows)) in
  mk_worker_readiness (Z.of_nat (length active)) (latest active) database_now.

(** [_default_permission_template_readiness]: whether the built-in revision
    compiles. *)
Definition default_permission_template_valid (db : DB) : bool :=
  match revisions db !! "builtin-mysql-default-v1" with
  | None => false
  | Some revision =>
      match compile_permission_snapshot (pr_id revision) (pr_template_id revision)
              (pr_privileges_json revision) (pr_grant_option revision) PermissionScope.DEDICATED with
      | Ret _ => true
      | Raise _ => false
      end
  end.

Section readiness.
  (** The settings and the cloud access of the configuration. *)
  Context (dedicated_pool_enabled dedicated_pool_simulation_enabled aliyun_configured : bool).
  Context (resource_pool_document : DB → ResourcePoolDocument).

Definition simulation_mode : bool := dedicated_pool_simulation_enabled && negb aliyun_configured.

(** The blocking reasons of [aggregate_readiness]; the fixed purchase profile
    is valid. *)
Definition readiness_blockers (worker : WorkerReadinessSnapshot) (db : DB) : list string :=
  (if negb dedicated_pool_enabled then ["DEDICATED_WORKER_DISABLED"]
   else if active_worker_count worker =? 0 then ["DEDICATED_WORKER_NOT_RUNNING"] else [])
  ++ (if negb aliyun_configured && negb simulation_mode then ["ALIYUN_ACCESS_NOT_CONFIGURED"] else [])
  ++ (match build_purchase_config DEFAULT_STORAGE_TYPE with
      | Ret _ => [] | Raise _ => ["PURCHASE_PROFILE_INVALID"] end)
  ++ (if default_permission_template_valid db then [] else ["PERMISSION_TEMPLATE_UNAVAILABLE"])
  ++ blocking_codes resource_pool_document db.
End readiness.

(** ** What an update guarantees *)

(** A request: the operation and the commit of the session it runs in. *)
Definition request {A : Type} (m : M (Session DB) A) (db : DB) : DB * outcome A :=
  with_session (a ← m; commit ;; mret a) db.

(** Where a pool is placed, blanks aside. *)
Definition placement (p : DedicatedPool) : string * string * string * string :=
  (strip (p_region_id p), strip (default EmptyString (p_zone_id p)), strip (p_vpc_id p), strip (p_vswitch_id p)).

Record sound_pool (p : DedicatedPool) : Prop := {
  sound_size : 0 <= p_target_size p <= p_max_total_members p;
  sound_schedule :
    0 < p_available_health_check_interval_seconds p
    ∧ 2 * p_available_health_check_interval_seconds p <= p_available_health_stale_after_seconds p
}.

Lemma validated_pool t m c s h :
  validate_pool_configuration t m c s h = Ret tt → (0 <= t <= m) ∧ (0 < c ∧ 2 * c <= s).
Proof.
  unfold validate_pool_configuration, validate_readiness_schedule.
  destruct ((t <? 0) || (m <=? 0)) eqn:?; [done|]. destruct (m <? t) eqn:?; [done|].
  destruct (c <=? 0) eqn:?; [done|]. destruct (s <? 2 * c) eqn:?; [done|]. intros _. lia.
Qed.

(** A profile an update writes is one a purchase accepts. *)
Lemma typed_config_valid id revision storage_type config :
  typed_purchase_config id revision storage_type = Ret config →
  id = Some PROFILE_ID ∧ revision = Some PROFILE_REVISION ∧ is_Some storage_type
  ∧ purchase_config_valid (purchase_config_text config) = true.
Proof.
  unfold typed_purchase_config, build_purchase_config.
  case_bool_decide as Hid; [|done]. case_bool_decide as Hrev; [|done]. cbn.
  destruct storage_type as [s|]; [|done]. destruct (String.eqb_spec s DEFAULT_STORAGE_TYPE) as [->|]; [|done].
  intros [= <-]. split; [done|]. split; [done|]. split; [by eexists|]. vm_compute. reflexivity.
Qed.

Lemma changed_config ch p p' :
  changed_purchase_config ch p = Ret p' →
  (changes_profile ch = true ∧ profile_valid p' = true
   ∨ changes_profile ch = false ∧ p' = p)
  ∧ p' = p <| p_purchase_config_json := p_purchase_config_json p' |>.
Proof.
  unfold changed_purchase_config. destruct (changes_profile ch).
  - destruct (typed_purchase_config _ _ _) as [config|e] eqn:Hc; [|done]. intros [= <-].
    apply typed_config_valid in Hc as (Hid & Hrev & [s Hs] & Hv).
    split; [left; split; [done|]|done].
    unfold profile_valid. cbn [p_purchase_profile_id p_purchase_profile_revision p_storage_type
      p_purchase_config_json set_field]. rewrite Hv.
    change (p_purchase_profile_id p = Some PROFILE_ID) in Hid. by rewrite Hid, Hrev, Hs.
  - intros [= <-]. split; [by right|by destruct p].
Qed.

Lemma normalized_strip name v v' : normalized_field name v = Ret v' → v' = strip <$> v.
Proof. destruct v as [v|]; cbn; [destruct (String.eqb _ _); [done|]|]; by intros [= <-]. Qed.

Definition stripped_network (n : NetworkValues) : NetworkValues :=
  mk_network (strip <$> n_region_id n) (strip <$> n_zone_id n) (strip <$> n_vpc_id n) (strip <$> n_vswitch_id n).

Lemma normalized_network access network check n n' :
  normalize_network_values access network check n = Ret n' →
  n' = stripped_network n.
Proof.
  unfold normalize_network_values, stripped_network. cbn.
  destruct (normalized_field _ (n_region_id n)) as [r|] eqn:Hr; [|done].
  destruct (normalized_field _ (n_zone_id n)) as [z|] eqn:Hz; [|done].
  destruct (normalized_field _ (n_vpc_id n)) as [v|] eqn:Hv; [|done].
  destruct (normalized_field _ (n_vswitch_id n)) as [w|] eqn:Hw; [|done].
  apply normalized_strip in Hr as ->, Hz as ->, Hv as ->, Hw as ->. cbn.
  destruct (strip <$> n_region_id n), check; cbn; [|by intros [= <-]..].
  destruct (as_service_error _); [by intros [= <-]|done].
Qed.

Lemma field_unchanged change current :
  field_changed (strip <$> change) current = false →
  strip (default (default EmptyString current) (strip <$> change)) = strip (default EmptyString current).
Proof.
  destruct change as [v|]; [|done]. cbn.
  destruct (String.eqb_spec (strip v) (strip (default EmptyString current))) as [->|]; [|done].
  intros _. apply strip_idem.
Qed.

(** *** Its statements, in an open transaction *)
Section statements.
  Context (access_region openapi_network : string).
  Implicit Types (c w : DB) (o : list (DB → DB)).

Lemma guard_network_run n confirmed p c w o :
  ∃ out, guard_network_change access_region openapi_network n confirmed p (mk_session c w true o)
         = (mk_session c w true o, out)
    ∧ (out = Ret tt → network_changed n p = true → confirmed = true ∧ purchase_pending (p_id p) w = false).
Proof.
  unfold guard_network_change. destruct (network_changed n p); [|by eexists].
  destruct confirmed; cbn [negb]; [|by eexists]. autorewrite with pas_txn.
  destruct (normalize_network_values _ _ _ _); [|by eexists].
  destruct (purchase_pending (p_id p) w); [by eexists|]. eexists. split; [reflexivity|done].
Qed.

Lemma guard_template_run ch c w o :
  ∃ out, guard_template_change ch (mk_session c w true o) = (mk_session c w true o, out).
Proof.
  unfold guard_template_change. destruct (pc_permission_template_revision_id ch) as [id|]; [|by eexists].
  rewrite run_query. destruct (revisions w !! id); by eexists.
Qed.

Lemma flush_pool_run p c w o :
  flush_pool p (mk_session c w true o) = (mk_session c w true o, Raise (IntegrityError "constraint failed"))
  ∨ flush_pool p (mk_session c w true o) = (mk_session c (put_pool p w) true o, Ret tt)
    ∧ pool_checks p = true.
Proof.
  unfold flush_pool. rewrite run_query.
  destruct (pool_conflict p w), (pool_checks p); cbn [orb negb]; [by left..| |by left].
  right. split; [|done]. apply run_execute_end.
Qed.

(** The backend as its pool says. *)
Definition backend_follows (p : DedicatedPool) (b : ProvisioningBackend) : ProvisioningBackend :=
  b <| b_max_active_resources := p_max_total_members p |>
    <| b_permission_template_revision_id := Some (p_permission_template_revision_id p) |>.

Lemma update_pool_backend_run p c w o :
  ∃ w' out, update_pool_backend p (mk_session c w true o) = (mk_session c w' true o, out)
    ∧ (out = Ret tt →
       w' = match backend_of_pool (p_id p) w with
            | Some b => put_backend (backend_follows p b) w | None => w end).
Proof.
  unfold update_pool_backend. rewrite run_query.
  destruct (backend_of_pool (p_id p) w) as [b|]; [|by do 2 eexists].
  unfold flush_backend. rewrite run_query. destruct (_ || _).
  - do 2 eexists. split; [reflexivity|done].
  - rewrite run_execute_end. do 2 eexists. done.
Qed.

(** [db'] is [db] with the pool [p0] updated to [p]. *)
Record pool_updated (ch : PoolChanges) (confirmed : bool) (db : DB) (p0 p : DedicatedPool) (db' : DB) : Prop := {
  pu_rows : db' = match backend_of_pool (p_id p) (put_pool p db) with
                  | Some b => put_backend (backend_follows p b) (put_pool p db)
                  | None => put_pool p db end;
  pu_applied : p = (apply_pool_changes (ch <| pc_network := stripped_network (pc_network ch) |>) p0)
                   <| p_purchase_config_json := p_purchase_config_json p |>
                   <| p_config_revision := p_config_revision p0 + 1 |>;
  pu_sound : sound_pool p;
  pu_network : placement p ≠ placement p0 → confirmed = true ∧ purchase_pending (p_id p0) db = false;
  pu_profile : profile_valid p0 = true ∨ changes_profile ch = true → profile_valid p = true
}.

Lemma placement_kept n ch p :
  network_changed (stripped_network n) p = false →
  placement (apply_pool_changes (ch <| pc_network := stripped_network n |>) p) = placement p.
Proof.
  unfold placement. change (network_changed (stripped_network n) p = false →
    (strip (default (p_region_id p) (n_region_id (stripped_network n))),
     strip (default EmptyString (union (n_zone_id (stripped_network n)) (p_zone_id p))),
     strip (default (p_vpc_id p) (n_vpc_id (stripped_network n))),
     strip (default (p_vswitch_id p) (n_vswitch_id (stripped_network n)))) = placement p).
  destruct n as [r z v u]. intros Hn. unfold network_changed in Hn. unfold stripped_network in *. cbn [n_region_id n_zone_id n_vpc_id n_vswitch_id] in *.
  apply orb_false_iff in Hn as [[[Hr Hz]%orb_false_iff Hv]%orb_false_iff Hw].
  apply field_unchanged in Hr, Hz, Hv, Hw. unfold placement. rewrite <-Hz.
  change (default EmptyString (Some (p_region_id p))) with (p_region_id p) in Hr.
  change (default EmptyString (Some (p_vpc_id p))) with (p_vpc_id p) in Hv.
  change (default EmptyString (Some (p_vswitch_id p))) with (p_vswitch_id p) in Hw.
  rewrite Hr, Hv, Hw.
  destruct z, (p_zone_id p); reflexivity.
Qed.
Lemma profile_kept ch p :
  changes_profile ch = false → profile_valid (apply_pool_changes ch p) = profile_valid p.
Proof.
  unfold changes_profile. intros [[Ha Hb]%orb_false_iff Hc]%orb_false_iff.
  apply bool_decide_eq_false_1, eq_None_not_Some in Ha, Hb, Hc.
  unfold profile_valid.
  change (p_purchase_profile_id (apply_pool_changes ch p))
    with (union (pc_purchase_profile_id ch) (p_purchase_profile_id p)).
  change (p_purchase_profile_revision (apply_pool_changes ch p))
    with (union (pc_purchase_profile_revision ch) (p_purchase_profile_revision p)).
  change (p_storage_type (apply_pool_changes ch p)) with (union (pc_storage_type ch) (p_storage_type p)).
  rewrite Ha, Hb, Hc.
  by destruct (p_purchase_profile_id p), (p_purchase_profile_revision p), (p_storage_type p).
Qed.
End statements.

(** A request to change a dedicated pool either changes nothing or does
    what it says.  If it fails, whatever the reason, the database is as before.
    If it succeeds, the pool had the configuration revision the caller expected
    and now has the next one; the sizes and the health schedule of the pool are
    sound; the pool is placed elsewhere only if the caller confirmed it and no
    purchase is under way; a purchase profile that was valid still is, and so is
    one the request wrote; and the only other row that changes is the backend of
    the pool, which follows its size and its template. *)
Theorem update_pool_guarded access_region openapi_network pool_id ch expected confirmed db :
  let '(db', out) :=
    request (update_dedicated_pool access_region openapi_network pool_id ch expected confirmed) db in
  match out with
  | Raise _ => db' = db
  | Ret p =>
      ∃ p0, pools db !! pool_id = Some p0
        ∧ (∀ k, expected = Some k → p_config_revision p0 = k)
        ∧ pool_updated ch confirmed db p0 p db'
  end.
Proof.
  unfold request, with_session, update_dedicated_pool. autorewrite with pas_txn.
  unfold open_session. rewrite run_query_begin.
  destruct (pools db !! pool_id) as [p0|] eqn:Hp; [|done].
  destruct (match expected with Some _ => _ | None => _ end) eqn:Hexp; [done|].
  autorewrite with pas_txn.
  destruct (normalize_network_values _ _ false _) as [n|] eqn:Hn; [|done].
  apply normalized_network in Hn. autorewrite with pas_txn.
  subst n. set (ch' := ch <| pc_network := stripped_network (pc_network ch) |>).
  match goal with |- context [guard_network_change ?a ?b ?n ?c ?p] =>
    destruct (guard_network_run a b n c p db db []) as ([[]|e] & Hg & Hnet) end.
  2:{ unfold mbind, M_bind. by rewrite Hg. }
  rewrite (run_bind_ret _ _ _ _ _ Hg), run_assoc, run_outcome.
  destruct (validate_pool_configuration _ _ _ _ _) as [[]|] eqn:Hv; [|done].
  apply validated_pool in Hv as [Hsize Hsched].
  destruct (guard_template_run ch' db db []) as ([[]|e] & Ht).
  2:{ rewrite run_assoc. unfold mbind, M_bind. by rewrite Ht. }
  rewrite run_assoc, (run_bind_ret _ _ _ _ _ Ht), run_assoc, run_outcome.
  destruct (changed_purchase_config ch' _) as [p1|] eqn:Hc; [|done].
  apply changed_config in Hc as [Hprof Hp1].
  set (p := p1 <| p_config_revision := p_config_revision p0 + 1 |>).
  destruct (flush_pool_run p db db []) as [Hf|[Hf _]].
  { rewrite run_assoc. unfold mbind, M_bind. by rewrite Hf. }
  rewrite run_assoc, (run_bind_ret _ _ _ _ _ Hf).
  destruct (update_pool_backend_run p db (put_pool p db) []) as (w' & [[]|e] & Hb & Hrows).
  2:{ rewrite run_assoc. unfold mbind, M_bind. by rewrite Hb. }
  rewrite run_assoc, (run_bind_ret _ _ _ _ _ Hb). autorewrite with pas_txn.
  exists p0. split; [done|]. split.
  { intros k ->. apply negb_false_iff, Z.eqb_eq in Hexp. done. }
  change (changes_profile ch') with (changes_profile ch) in Hprof.
  pose proof (placement_kept (pc_network ch) ch p0) as Hplace. fold ch' in Hplace.
  pose proof (profile_kept ch' p0) as Hkept. change (changes_profile ch') with (changes_profile ch) in Hkept.
  split.
  - by apply Hrows.
  - fold ch'. revert Hp1. subst p. clearbody ch'. clear. generalize (apply_pool_changes ch' p0). intros q Hq.
    exact (f_equal (λ q, q <| p_config_revision := p_config_revision p0 + 1 |>) Hq).
  - clear -Hsize Hsched Hp1. subst p. revert Hsize Hsched Hp1. generalize (apply_pool_changes ch' p0).
    intros q ?? ->. by split.
  - intros Hpl. apply Hnet; [done|]. apply not_false_iff_true. intros Hsame. apply Hpl.
    rewrite <-(Hplace Hsame). clear -Hp1. subst p. revert Hp1. generalize (apply_pool_changes ch' p0).
    intros q Hq. by rewrite Hq.
  - change (profile_valid p) with (profile_valid p1).
    destruct Hprof as [[_ Hv]|[Hno ->]]; [done|]. intros [Hv|Hv]; [|congruence]. by rewrite Hkept.
Qed.
