(* ===== verification/DedicatedAllocation.v ===== *)
(** * Which member a dedicated resource is on

    The invariant [allocated] of the tables of members and resources, and that
    every transaction on dedicated pools keeps it. *)

From S2P Require Import Prelude PyString Models Config WriteGuard Worker AdapterInterface.
From S2P Require Import Dispatcher.
From S2P Require Import DispatchLoop Ddl Permission Capacity OperationBudget Service DedicatedMySQL.
From S2P Require Import DedicatedPools DedicatedProvisioner DedicatedWorker DedicatedSync.
From S2P Require Import DedicatedService DedicatedAdmin Reservation.

(** ** The invariant *)

Definition is_dedicated (r : DBInstanceResource) : Prop := r_provisioning_mode r = ProvisioningMode.DEDICATED.
Definition live (r : DBInstanceResource) : Prop := r_status r ≠ DBInstanceStatus.DELETED.

(** A member and a resource agree that one is allocated to the other. *)
Definition linked (m : DedicatedPoolMember) (r : DBInstanceResource) : Prop :=
  m_allocated_resource_id m = Some (r_id r) ∧ r_allocated_instance_id r = Some (m_instance_id m).

Record allocated (db : DB) : Prop := {
  al_members : ∀ k m, pool_members db !! k = Some m → m_id m = k;
  al_resources : ∀ k r, resources db !! k = Some r → r_id r = k;
  al_instances : ∀ k1 k2 m1 m2, pool_members db !! k1 = Some m1 → pool_members db !! k2 = Some m2 →
    m_instance_id m1 = m_instance_id m2 → k1 = k2;
  (** An allocated member serves a live dedicated resource that knows it. *)
  al_serves : ∀ k m rid, pool_members db !! k = Some m → m_allocated_resource_id m = Some rid →
    ∃ r, resources db !! rid = Some r ∧ is_dedicated r ∧ live r ∧ linked m r;
  (** A live dedicated resource that was given an instance is on a member. *)
  al_placed : ∀ k r i, resources db !! k = Some r → is_dedicated r → live r →
    r_allocated_instance_id r = Some i → ∃ m, pool_members db !! m_id m = Some m ∧ m_instance_id m = i ∧ linked m r;
  al_ready : ∀ k r, resources db !! k = Some r → is_dedicated r → r_status r = DBInstanceStatus.READY →
    is_Some (r_allocated_instance_id r);
  (** A deleted resource is in no worker's hands. *)
  al_closed : ∀ k r, resources db !! k = Some r → is_dedicated r → ¬ live r → r_worker_id r = None
}.

(** What a transaction does to a member it does not hand out or take back. *)
Definition same_member (m m' : DedicatedPoolMember) : Prop :=
  m_id m' = m_id m ∧ m_instance_id m' = m_instance_id m ∧ m_allocated_resource_id m' = m_allocated_resource_id m.

(** And to a resource: it stays deleted or not, and is ready only on an
    instance. *)
Record same_resource (r r' : DBInstanceResource) : Prop := {
  sr_id : r_id r' = r_id r;
  sr_mode : r_provisioning_mode r' = r_provisioning_mode r;
  sr_instance : r_allocated_instance_id r' = r_allocated_instance_id r;
  sr_live : is_dedicated r → live r ↔ live r';
  sr_ready : is_dedicated r → r_status r' = DBInstanceStatus.READY →
    r_status r = DBInstanceStatus.READY ∨ is_Some (r_allocated_instance_id r);
  sr_closed : is_dedicated r → live r ∨ r_worker_id r' = r_worker_id r ∨ r_worker_id r' = None
}.

Lemma same_member_refl m : same_member m m.
Proof. done. Qed.
Lemma same_resource_refl r : same_resource r r.
Proof. split; auto. Qed.

(** Only the tables of members and resources matter. *)
Lemma allocated_other db db' :
  pool_members db' = pool_members db → resources db' = resources db → allocated db → allocated db'.
Proof. intros Hm Hr [? ? ? ? ? ? ?]. split; rewrite ?Hm, ?Hr; done. Qed.

Lemma allocated_member db k m m' :
  allocated db → pool_members db !! k = Some m → same_member m m' → allocated (put_member m' db).
Proof.
  intros Ha Hk (Hid & Hi & Hal). pose proof (al_members _ Ha _ _ Hk) as Hmk.
  assert (m_id m' = k) as Hk' by congruence.
  assert (Hback : ∀ k1 m1, pool_members (put_member m' db) !! k1 = Some m1 →
    ∃ m0, pool_members db !! k1 = Some m0 ∧ same_member m0 m1).
  { intros k1 m1. cbn. rewrite Hk'. intros [[<- <-]|[_ Hm1]]%lookup_insert_Some; [by exists m|by exists m1]. }
  split; [| |intros k1 k2 m1 m2 H1 H2 He|intros k1 m1 rid H1 Hrid|intros k1 r i Hr Hd Hl Hs| |].
  - intros k1 m1 (m0 & Hm0 & Hid0 & _)%Hback. rewrite Hid0. by eapply al_members.
  - apply (al_resources _ Ha).
  - destruct (Hback _ _ H1) as (n1 & Hn1 & _ & Hi1 & _), (Hback _ _ H2) as (n2 & Hn2 & _ & Hi2 & _).
    eapply (al_instances _ Ha); [exact Hn1|exact Hn2|congruence].
  - destruct (Hback _ _ H1) as (m0 & Hm0 & Hsid & Hsi & Hsa). rewrite Hsa in Hrid.
    destruct (al_serves _ Ha _ _ _ Hm0 Hrid) as (r & Hr & Hd & Hl & Hla & Hlb).
    exists r. split; [done|]. split; [done|]. split; [done|]. split; congruence.
  - destruct (al_placed _ Ha _ _ _ Hr Hd Hl Hs) as (m0 & Hm0 & Him & Hla & Hlb).
    destruct (decide (m_id m0 = k)) as [He|Hne].
    + assert (m0 = m) as -> by congruence. exists m'. cbn. rewrite lookup_insert_eq.
      split; [done|]. split; [congruence|]. split; congruence.
    + exists m0. cbn. rewrite Hk', lookup_insert_ne by done. by split.
  - apply (al_ready _ Ha).
  - apply (al_closed _ Ha).
Qed.

Lemma allocated_resource db k r r' :
  allocated db → resources db !! k = Some r → same_resource r r' → allocated (put_resource r' db).
Proof.
  intros Ha Hk Hs. pose proof (al_resources _ Ha _ _ Hk) as Hrk.
  assert (r_id r' = k) as Hk' by (rewrite (sr_id _ _ Hs); done).
  assert (Hback : ∀ k1 r1, resources (put_resource r' db) !! k1 = Some r1 →
    ∃ r0, resources db !! k1 = Some r0 ∧ same_resource r0 r1).
  { intros k1 r1. cbn. rewrite Hk'. intros [[<- <-]|[_ Hr1]]%lookup_insert_Some; [by exists r|].
    exists r1. split; [done|apply same_resource_refl]. }
  assert (Hmode : ∀ r0 r1, same_resource r0 r1 → is_dedicated r1 → is_dedicated r0).
  { intros r0 r1 [_ Hm _ _ _ _]. unfold is_dedicated. congruence. }
  split; [| | |intros k1 m1 rid H1 Hrid|intros k1 r1 i Hr Hd Hl Hi|intros k1 r1 Hr Hd Hst|intros k1 r1 Hr Hd Hl].
  - apply (al_members _ Ha).
  - intros k1 r1 (r0 & Hr0 & Hs0)%Hback. rewrite (sr_id _ _ Hs0). by eapply al_resources.
  - apply (al_instances _ Ha).
  - destruct (al_serves _ Ha _ _ _ H1 Hrid) as (r0 & Hr & Hd & Hl & Hla & Hlb).
    destruct (decide (rid = k)) as [->|Hne].
    + assert (r0 = r) as -> by congruence. exists r'. cbn. rewrite Hk', lookup_insert_eq. split; [done|].
      split; [unfold is_dedicated; by rewrite (sr_mode _ _ Hs)|]. split; [by apply (sr_live _ _ Hs)|].
      split; [by rewrite (sr_id _ _ Hs)|by rewrite (sr_instance _ _ Hs)].
    + exists r0. cbn. rewrite Hk', lookup_insert_ne by done. by split.
  - destruct (Hback _ _ Hr) as (r0 & Hr0 & Hs0). pose proof (Hmode _ _ Hs0 Hd) as Hd0.
    rewrite (sr_instance _ _ Hs0) in Hi.
    destruct (al_placed _ Ha _ _ _ Hr0 Hd0 (proj2 (sr_live _ _ Hs0 Hd0) Hl) Hi) as (m & Hm & Him & Hla & Hlb).
    exists m. split; [done|]. split; [done|].
    split; [by rewrite (sr_id _ _ Hs0)|by rewrite (sr_instance _ _ Hs0)].
  - destruct (Hback _ _ Hr) as (r0 & Hr0 & Hs0). pose proof (Hmode _ _ Hs0 Hd) as Hd0.
    rewrite (sr_instance _ _ Hs0). destruct (sr_ready _ _ Hs0 Hd0 Hst) as [Hst0|?]; [|done].
    by eapply (al_ready _ Ha).
  - destruct (Hback _ _ Hr) as (r0 & Hr0 & Hs0). pose proof (Hmode _ _ Hs0 Hd) as Hd0.
    assert (¬ live r0) as Hl0 by (rewrite (sr_live _ _ Hs0 Hd0); done).
    destruct (sr_closed _ _ Hs0 Hd0) as [?|[->| ->]]; [done| |done]. by eapply (al_closed _ Ha).
Qed.

(** A member and its resource let go of each other. *)
Lemma allocated_release db k m m' r r' :
  allocated db → pool_members db !! k = Some m → m_allocated_resource_id m = Some (r_id r) →
  resources db !! r_id r = Some r →
  m_id m' = m_id m → m_instance_id m' = m_instance_id m → m_allocated_resource_id m' = None →
  r_id r' = r_id r → r_provisioning_mode r' = r_provisioning_mode r → ¬ live r' → r_worker_id r' = None →
  allocated (put_resource r' (put_member m' db)).
Proof.
  intros Ha Hk Hal Hr Hid Hi Hnone Hrid Hmode Hdead Hw.
  pose proof (al_members _ Ha _ _ Hk) as Hmk.
  destruct (al_serves _ Ha _ _ _ Hk Hal) as (r0 & Hr0 & Hd & Hl & Hla & Hlb).
  assert (r0 = r) as -> by congruence.
  assert (Hmback : ∀ k1 m1, <[m_id m' := m']> (pool_members db) !! k1 = Some m1 →
    (k1 = k ∧ m1 = m') ∨ (k1 ≠ k ∧ pool_members db !! k1 = Some m1)).
  { intros k1 m1. rewrite Hid, Hmk. intros [[<- <-]|[Hne ?]]%lookup_insert_Some; [by left|right; split; congruence]. }
  assert (Hrback : ∀ k1 r1, <[r_id r' := r']> (resources db) !! k1 = Some r1 →
    (k1 = r_id r ∧ r1 = r') ∨ (k1 ≠ r_id r ∧ resources db !! k1 = Some r1)).
  { intros k1 r1. rewrite Hrid. intros [[<- <-]|[Hne ?]]%lookup_insert_Some; [by left|right; split; congruence]. }
  split; cbn; [| |intros k1 k2 m1 m2 H1 H2 He|intros k1 m1 rid H1 Hrid1|intros k1 r1 i Hr1 Hd1 Hl1 Hi1| |].
  - intros k1 m1 [[-> ->]|[_ H1]]%Hmback; [congruence|by eapply al_members].
  - intros k1 r1 [[-> ->]|[_ H1]]%Hrback; [done|by eapply al_resources].
  - destruct (Hmback _ _ H1) as [[-> ->]|[_ H1']], (Hmback _ _ H2) as [[-> ->]|[_ H2']]; [done| | |];
      eapply (al_instances _ Ha); try eassumption; congruence.
  - destruct (Hmback _ _ H1) as [[-> ->]|[Hne H1']]; [congruence|].
    destruct (al_serves _ Ha _ _ _ H1' Hrid1) as (r1 & Hr1 & Hd1 & Hl1 & Hl1a & Hl1b). exists r1.
    rewrite Hrid, lookup_insert_ne; [done|]. intros Heq. apply Hne.
    eapply (al_instances _ Ha); [exact H1'|exact Hk|]. congruence.
  - destruct (Hrback _ _ Hr1) as [[-> ->]|[Hne Hr1']]; [done|].
    destruct (al_placed _ Ha _ _ _ Hr1' Hd1 Hl1 Hi1) as (m1 & Hm1 & Him1 & Hl1a & Hl1b). exists m1.
    rewrite Hid, Hmk, lookup_insert_ne; [done|]. intros Heq. apply Hne.
    assert (m1 = m) as -> by congruence. rewrite <-(al_resources _ Ha _ _ Hr1'). congruence.
  - intros k1 r1 [[-> ->]|[_ H1]]%Hrback Hd1 Hst; [|by eapply (al_ready _ Ha)].
    exfalso. apply Hdead. unfold live. congruence.
  - intros k1 r1 [[-> ->]|[_ H1]]%Hrback Hd1 Hl1; [done|by eapply (al_closed _ Ha)].
Qed.

(** A member nobody has and a resource that has none are given to each other. *)
Lemma allocated_assign db k m m' r r' :
  allocated db → pool_members db !! k = Some m → m_allocated_resource_id m = None →
  resources db !! r_id r = Some r → is_dedicated r → r_allocated_instance_id r = None →
  m_id m' = m_id m → m_instance_id m' = m_instance_id m → r_id r' = r_id r →
  r_provisioning_mode r' = r_provisioning_mode r → live r' → linked m' r' →
  allocated (put_member m' (put_resource r' db)).
Proof.
  intros Ha Hk Hal Hr Hd Hnone Hid Hi Hrid Hmode Hl [Hla Hlb].
  pose proof (al_members _ Ha _ _ Hk) as Hmk.
  assert (Hmback : ∀ k1 m1, <[m_id m' := m']> (pool_members db) !! k1 = Some m1 →
    (k1 = k ∧ m1 = m') ∨ (k1 ≠ k ∧ pool_members db !! k1 = Some m1)).
  { intros k1 m1. rewrite Hid, Hmk. intros [[<- <-]|[Hne ?]]%lookup_insert_Some; [by left|right; split; congruence]. }
  assert (Hrback : ∀ k1 r1, <[r_id r' := r']> (resources db) !! k1 = Some r1 →
    (k1 = r_id r ∧ r1 = r') ∨ (k1 ≠ r_id r ∧ resources db !! k1 = Some r1)).
  { intros k1 r1. rewrite Hrid. intros [[<- <-]|[Hne ?]]%lookup_insert_Some; [by left|right; split; congruence]. }
  assert (is_dedicated r') as Hd' by (unfold is_dedicated; congruence).
  split; cbn; [| |intros k1 k2 m1 m2 H1 H2 He|intros k1 m1 rid H1 Hrid1|intros k1 r1 i Hr1 Hd1 Hl1 Hi1| |].
  - intros k1 m1 [[-> ->]|[_ H1]]%Hmback; [congruence|by eapply al_members].
  - intros k1 r1 [[-> ->]|[_ H1]]%Hrback; [done|by eapply al_resources].
  - destruct (Hmback _ _ H1) as [[-> ->]|[_ H1']], (Hmback _ _ H2) as [[-> ->]|[_ H2']]; [done| | |];
      eapply (al_instances _ Ha); try eassumption; congruence.
  - destruct (Hmback _ _ H1) as [[-> ->]|[Hne H1']].
    + exists r'. assert (rid = r_id r') as -> by congruence. rewrite lookup_insert_eq. by split.
    + destruct (al_serves _ Ha _ _ _ H1' Hrid1) as (r1 & Hr1 & Hd1 & Hl1 & Hl1a & Hl1b). exists r1.
      rewrite Hrid, lookup_insert_ne; [done|]. intros Heq. congruence.
  - destruct (Hrback _ _ Hr1) as [[-> ->]|[Hne Hr1']].
    + exists m'. rewrite lookup_insert_eq. split; [done|]. split; [congruence|by split].
    + destruct (al_placed _ Ha _ _ _ Hr1' Hd1 Hl1 Hi1) as (m1 & Hm1 & Him1 & Hl1a & Hl1b). exists m1.
      rewrite Hid, Hmk, lookup_insert_ne; [done|]. intros Heq. congruence.
  - intros k1 r1 [[-> ->]|[_ H1]]%Hrback Hd1 Hst; [by eexists|by eapply (al_ready _ Ha)].
  - intros k1 r1 [[-> ->]|[_ H1]]%Hrback Hd1 Hl1; [done|by eapply (al_closed _ Ha)].
Qed.

(** A new resource has no member yet; a new member has an instance of its own. *)
Lemma allocated_new_resource db r :
  allocated db → resources db !! r_id r = None → live r → r_allocated_instance_id r = None →
  r_status r ≠ DBInstanceStatus.READY → allocated (put_resource r db).
Proof.
  intros Ha Hnew Hl Hnone Hnr.
  assert (Hrback : ∀ k1 r1, <[r_id r := r]> (resources db) !! k1 = Some r1 →
    r1 = r ∧ k1 = r_id r ∨ resources db !! k1 = Some r1).
  { intros k1 r1. intros [[<- <-]|[Hne ?]]%lookup_insert_Some; [by left|by right]. }
  split; cbn; [| | |intros k1 m1 rid H1 Hrid1|intros k1 r1 i Hr1 Hd1 Hl1 Hi1| |].
  - apply (al_members _ Ha).
  - intros k1 r1 [[-> ->]|H1]%Hrback; [done|by eapply al_resources].
  - apply (al_instances _ Ha).
  - destruct (al_serves _ Ha _ _ _ H1 Hrid1) as (r1 & Hr1 & ?). exists r1.
    rewrite lookup_insert_ne; [done|congruence].
  - destruct (Hrback _ _ Hr1) as [[-> ->]|Hr1']; [congruence|]. by eapply (al_placed _ Ha).
  - intros k1 r1 [[-> ->]|H1]%Hrback; [done|by eapply (al_ready _ Ha)].
  - intros k1 r1 [[-> ->]|H1]%Hrback; [done|by eapply (al_closed _ Ha)].
Qed.

Lemma allocated_new_member db m :
  allocated db → pool_members db !! m_id m = None →
  (∀ k m0, pool_members db !! k = Some m0 → m_instance_id m0 ≠ m_instance_id m) →
  m_allocated_resource_id m = None → allocated (put_member m db).
Proof.
  intros Ha Hnew Hfresh Hnone.
  assert (Hmback : ∀ k1 m1, <[m_id m := m]> (pool_members db) !! k1 = Some m1 →
    m1 = m ∧ k1 = m_id m ∨ pool_members db !! k1 = Some m1).
  { intros k1 m1. intros [[<- <-]|[Hne ?]]%lookup_insert_Some; [by left|by right]. }
  split; cbn; [| |intros k1 k2 m1 m2 H1 H2 He|intros k1 m1 rid H1 Hrid1|intros k1 r1 i Hr1 Hd1 Hl1 Hi1| |].
  - intros k1 m1 [[-> ->]|H1]%Hmback; [done|by eapply al_members].
  - apply (al_resources _ Ha).
  - destruct (Hmback _ _ H1) as [[-> ->]|H1'], (Hmback _ _ H2) as [[-> ->]|H2']; [done| | |].
    + by eapply Hfresh in H2'.
    + by eapply Hfresh in H1'.
    + by eapply (al_instances _ Ha).
  - destruct (Hmback _ _ H1) as [[-> ->]|H1']; [congruence|]. by eapply (al_serves _ Ha).
  - destruct (al_placed _ Ha _ _ _ Hr1 Hd1 Hl1 Hi1) as (m1 & Hm1 & ?). exists m1.
    rewrite lookup_insert_ne; [done|congruence].
  - apply (al_ready _ Ha).
  - apply (al_closed _ Ha).
Qed.

(** ** Transactions *)

(** [m] keeps the invariant, from any database that has it. *)
Definition keeps {A} (m : M (Session DB) A) : Prop := ∀ db, allocated db → allocated (txn_db m db).

Ltac run_transaction :=
  intros db Ha; unfold txn_db, with_session, open_session, write_member; run_branches; try done.

#[local] Hint Extern 1 (same_member _ _) => (split; [|split]; reflexivity) : core.

Lemma claim_member_keeps candidate still mark :
  (∀ m, same_member m (mark m)) → keeps (claim_member candidate still mark).
Proof.
  intros Hmark. unfold claim_member. run_transaction.
  eapply allocated_member; [done|eassumption|apply Hmark].
Qed.

Lemma claim_resource_keeps candidate still mark :
  (∀ r, still r = true → same_resource r (mark r)) → keeps (claim_resource candidate still mark).
Proof.
  intros Hmark. unfold claim_resource. run_transaction.
  eapply allocated_resource; [done|eassumption|by apply Hmark].
Qed.

(** Statements on the other tables. *)
Definition same_rows (db db' : DB) : Prop :=
  pool_members db' = pool_members db ∧ resources db' = resources db.

Definition aside {A} (m : M (Session DB) A) : Prop := ∀ c w o, ∃ w' out,
  m (mk_session c w true o) = (mk_session c w' true o, out) ∧ same_rows w w'.

Lemma aside_bind {A B} (m : M (Session DB) A) (k : A → M (Session DB) B) :
  aside m → (∀ a, aside (k a)) → aside (m ≫= k).
Proof.
  intros Hm Hk c w o. destruct (Hm c w o) as (w1 & [a|e] & Hr & H1 & H2).
  - destruct (Hk a c w1 o) as (w2 & out & Hr2 & H3 & H4). exists w2, out.
    rewrite (run_bind_ret _ _ _ _ _ Hr). split; [done|]. split; congruence.
  - exists w1, (Raise e). unfold mbind, M_bind. by rewrite Hr.
Qed.
Lemma aside_ret {A} (a : A) : aside (mret a).
Proof. intros c w o. by eexists _, _. Qed.
Lemma aside_raise {A} e : aside (raise (A:=A) e).
Proof. intros c w o. by eexists _, _. Qed.
Lemma aside_query {A} (f : DB → A) : aside (query f).
Proof. intros c w o. by eexists _, _. Qed.
Lemma aside_execute f : (∀ w, same_rows w (f w)) → aside (execute f).
Proof. intros Hf c w o. eexists _, _. split; [apply run_execute_end|apply Hf]. Qed.
#[local] Hint Resolve aside_ret aside_raise aside_query : aside.

Lemma counters_aside agent_id backend_id :
  aside (locked_capacity_rows agent_id backend_id) ∧ ∀ a b, aside (set_counters agent_id backend_id a b).
Proof.
  assert (∀ scope, aside (ensure_capacity_row scope)) as He.
  { intros scope. apply aside_execute. intros db. unfold insert_zero. by destruct (capacities db !! scope). }
  split; [|by intros a b; apply aside_execute].
  unfold locked_capacity_rows. do 2 (apply aside_bind; [apply He|intros _]).
  apply aside_bind; [auto with aside|]. intros [[a|] [b|]]; auto with aside.
Qed.

Lemma release_counters_aside agent_id backend_id : aside (release_active_capacity_counters agent_id backend_id).
Proof.
  destruct (counters_aside agent_id backend_id) as [Hl Hs]. apply aside_bind; [done|].
  intros [a b]. destruct (_ || _); auto with aside.
Qed.

Lemma reserve_counters_aside agent_id backend_id x y :
  aside (reserve_active_capacity_counters agent_id backend_id x y).
Proof.
  destruct (counters_aside agent_id backend_id) as [Hl Hs]. apply aside_bind; [done|].
  intros [a b]. destruct (_ || _); auto with aside.
Qed.

Lemma budget_aside st si op limit now : aside (consume_hourly_budget st si op limit now).
Proof.
  unfold consume_hourly_budget. destruct (limit <=? 0); [auto with aside|].
  apply aside_bind; [apply aside_execute; intros db; by destruct (budgets db !! _)|intros _].
  apply aside_bind; [|intros n; destruct (n != 1); auto with aside].
  apply aside_bind; [auto with aside|]. intros [n|]; [|auto with aside].
  destruct (n <? limit); [|auto with aside]. apply aside_bind; [by apply aside_execute|auto with aside].
Qed.

Lemma agent_budget_aside pool agent_id op now : aside (consume_agent_operation_budget pool agent_id op now).
Proof.
  unfold consume_agent_operation_budget.
  destruct (if String.eqb op "create" then _ else _); auto using budget_aside with aside.
Qed.

Lemma allocated_aside db db' : same_rows db db' → allocated db → allocated db'.
Proof. intros [Hm Hr]. by apply allocated_other. Qed.

Section steps.
  Context {X : Type} `{PolarDBClient X} `{MySQLConnector X}.
  Context (config : TenantProvisioningConfig) (encrypt : string → string)
    (decrypt : string → outcome string) (openapi_details : PyExc → option OpenAPIDetails)
    (resource_pool_document : DB → ResourcePoolDocument).

Lemma claim_deleting_keeps w now : keeps (claim_deleting_member config w now).
Proof. by apply claim_member_keeps. Qed.

Lemma claim_replenishing_keeps w now : keeps (claim_replenishing_member config w now).
Proof. by apply claim_member_keeps. Qed.

Lemma claim_check_keeps w now pool : keeps (claim_check_of config w now pool).
Proof. by apply claim_member_keeps. Qed.

(** A claim takes a live resource. *)
Lemma claim_live (w : string) now r : live r → same_resource r (claim_of_resource config w now r).
Proof. split; auto. Qed.

Lemma claim_lifecycle_keeps w now : keeps (claim_lifecycle_resource config w now).
Proof.
  apply claim_resource_keeps. intros r [Hdue _]%andb_true_iff. apply claim_live. unfold live.
  intros Hs. unfold lifecycle_due in Hdue. by rewrite Hs in Hdue.
Qed.

Lemma claim_pending_keeps w now : keeps (claim_pending_resource config w now).
Proof.
  apply claim_resource_keeps. intros r Hp. apply claim_live. unfold live. intros Hs.
  unfold pending_resource in Hp. by rewrite Hs in Hp.
Qed.

(** Storing a member that is still claimed. *)
Lemma on_own_member_keeps w member_id f :
  (∀ m, same_member m (f m)) → keeps (on_own_member w member_id (λ m, save_member (f m))).
Proof.
  intros Hf. unfold on_own_member, save_member. run_transaction.
  unfold own_member in *. destruct (pool_members db !! member_id) as [m|] eqn:Hm; [|done]. cbn in *.
  split_matches. eapply allocated_member; [done|exact Hm|apply Hf].
Qed.

Lemma same_live r r' :
  r_id r' = r_id r → r_provisioning_mode r' = r_provisioning_mode r →
  r_allocated_instance_id r' = r_allocated_instance_id r → (is_dedicated r → live r) →
  (is_dedicated r → live r') →
  (is_dedicated r → r_status r' = DBInstanceStatus.READY → is_Some (r_allocated_instance_id r)) →
  same_resource r r'.
Proof. intros. split; auto; tauto. Qed.

Lemma own_resource_some w rid db r :
  own_resource w rid db = Some r → resources db !! rid = Some r ∧ r_worker_id r = Some w.
Proof.
  unfold own_resource. destruct (resources db !! rid) as [r0|]; [|done]. cbn.
  case_bool_decide; [|done]. by intros [= ->].
Qed.

Lemma own_resource_live w rid db r :
  allocated db → own_resource w rid db = Some r → is_dedicated r → live r.
Proof.
  intros Ha [Hr Hw]%own_resource_some Hd Hdead.
  assert (r_worker_id r = None) by (eapply (al_closed _ Ha); [exact Hr|done|by intros Hl]). congruence.
Qed.

Lemma member_of_resource_some rid db m :
  member_of_resource rid db = Some m →
  ∃ k, pool_members db !! k = Some m ∧ m_allocated_resource_id m = Some rid.
Proof.
  unfold member_of_resource. intros Hm. apply head_Some_elem_of, list_elem_of_filter in Hm as [Hal Hm].
  apply list_elem_of_fmap in Hm as ([k m0] & -> & Hkm). apply elem_of_map_to_list in Hkm. by exists k.
Qed.

(** The member of a resource serves it. *)
Lemma member_of_resource_serves rid db m r :
  allocated db → member_of_resource rid db = Some m → resources db !! rid = Some r →
  pool_members db !! m_id m = Some m ∧ r_id r = rid ∧ is_dedicated r ∧ live r ∧ linked m r.
Proof.
  intros Ha (k & Hk & Hal)%member_of_resource_some Hr.
  destruct (al_serves _ Ha _ _ _ Hk Hal) as (r0 & Hr0 & ? & ? & ?). assert (r0 = r) as -> by congruence.
  rewrite (al_members _ Ha _ _ Hk). split; [done|]. split; [by eapply al_resources|done].
Qed.

(** Both rows of a flush. *)
Lemma allocated_both db k m m' r r' :
  allocated db → pool_members db !! k = Some m → same_member m m' →
  resources db !! r_id r = Some r → same_resource r r' → allocated (put_resource r' (put_member m' db)).
Proof.
  intros Ha Hm Hsm Hr Hsr. eapply allocated_resource; [by eapply allocated_member|exact Hr|done].
Qed.

Ltac owned :=
  repeat match goal with
  | H : own_resource _ _ _ = Some ?r |- _ =>
      lazymatch goal with
      | _ : resources _ !! _ = Some r |- _ => fail
      | _ => pose proof (proj1 (own_resource_some _ _ _ _ H))
      end
  end.

Lemma finish_disconnect_keeps w now rid : keeps (finish_dedicated_disconnect w now rid).
Proof.
  unfold finish_dedicated_disconnect, with_owned, save_both. run_transaction. owned.
  match goal with Hm : member_of_resource _ _ = Some _ |- _ =>
    eapply member_of_resource_serves in Hm as (Hk & Hid & Hd & Hl & Hlk); [|eassumption..] end.
  eapply allocated_both; [done|exact Hk|done|by rewrite Hid|]. by apply same_live.
Qed.

Ltac serves :=
  match goal with Hm : member_of_resource _ _ = Some _ |- _ =>
    eapply member_of_resource_serves in Hm as (?Hk & ?Hid & ?Hd & ?Hl & ?Hlk); [|eassumption..] end.

Lemma begin_cleanup_keeps w now rid : keeps (begin_dedicated_cleanup w now rid).
Proof.
  unfold begin_dedicated_cleanup, save_both. run_transaction; owned.
  - eapply allocated_resource; [done|eassumption|]. apply same_live; try done; unfold live; cbn; congruence.
  - serves. eapply allocated_both; [done|exact Hk|done|by rewrite Hid|]. by apply same_live.
  - serves. eapply allocated_both; [done|exact Hk|done|by rewrite Hid|]. by apply same_live.
Qed.

Lemma finish_restore_keeps w rid : keeps (finish_dedicated_restore w rid).
Proof.
  unfold finish_dedicated_restore, with_owned, save_both. run_transaction. owned. serves.
  eapply allocated_both; [by eapply (allocated_other db)|exact Hk|done|by rewrite Hid|].
  apply same_live; [done..|]. intros _ _. cbn. destruct Hlk as [_ ->]. by eexists.
Qed.

Lemma record_lifecycle_failure_keeps w now rid e : keeps (record_lifecycle_failure config w now rid e).
Proof.
  unfold record_lifecycle_failure, with_owned. run_transaction; owned.
  all: match goal with Ho : own_resource _ _ _ = Some ?r |- _ =>
    pose proof (own_resource_live _ _ _ _ Ha Ho) as Hlive end.
  all: try (serves; eapply allocated_both; [done|exact Hk|done|by rewrite Hid|]; by apply same_live).
  all: eapply allocated_resource; [done|eassumption|]; apply same_live; try done.
  intros Hd Hst. by eapply (al_ready _ Ha).
Qed.

Lemma allocated_release_served w rid db db1 r r1 m m1 :
  allocated db → own_resource w rid db = Some r → member_of_resource rid db = Some m → same_rows db db1 →
  m_id m1 = m_id m → m_instance_id m1 = m_instance_id m → m_allocated_resource_id m1 = None →
  r_id r1 = r_id r → r_provisioning_mode r1 = r_provisioning_mode r → ¬ live r1 → r_worker_id r1 = None →
  allocated (put_resource r1 (put_member m1 db1)).
Proof.
  intros Ha Ho Hm Hs. intros. owned. serves. destruct Hlk as [Hla Hlb]. destruct Hs as [Hsm Hsr].
  eapply (allocated_release db1); [by eapply allocated_other|by rewrite Hsm|exact Hla| |try done..].
  by rewrite Hsr, Hid.
Qed.

Lemma finish_cleanup_keeps w now rid sanitized : keeps (finish_dedicated_cleanup w now rid sanitized).
Proof.
  unfold finish_dedicated_cleanup, with_owned, save_both. run_transaction.
  all: match goal with
  | |- context [release_active_capacity_counters ?a ?b] =>
      destruct (release_counters_aside a b db db []) as (db1 & [[]|e] & Hr & Hs);
      [rewrite (run_bind_ret _ _ _ _ _ Hr)|unfold mbind, M_bind; by rewrite Hr]
  | _ => assert (same_rows db db) as Hs by done
  end.
  all: run_branches; try done; eapply allocated_release_served; [exact Ha|eassumption|eassumption| |try done..];
    try exact Hs; by intros Hl; apply Hl.
Qed.

(** *** Handing out *)

(** What a successful claim of a member has written. *)
Definition handed_out (pool_id rid : string) (now : time) (db : DB) (m : DedicatedPoolMember) (db' : DB) : Prop :=
  ∃ r pool m0, resources db !! rid = Some r ∧ r_allocated_instance_id r = None
    ∧ pools db !! pool_id = Some pool ∧ member_candidate pool now db = Some m0
    ∧ m = m0 <| m_status := DedicatedMemberStatus.ALLOCATED_PREPARING |> <| m_allocated_resource_id := Some rid |>
    ∧ db' = put_resource (r <| r_allocated_instance_id := Some (m_instance_id m) |>) (put_member m db).

Lemma claim_fresh_run pool_id rid now c w o :
  ∃ w' out, claim_fresh_member pool_id rid now (mk_session c w true o) = (mk_session c w' true o, out)
    ∧ match out with
      | Ret (Some m) => handed_out pool_id rid now w m w'
      | _ => w' = w
      end.
Proof.
  unfold claim_fresh_member, write_member. rewrite run_query.
  destruct (resources w !! rid) as [r|] eqn:Hr; [|by eexists _, _].
  case_bool_decide as Hn; [|by eexists _, _]. cbn [negb]. rewrite run_query.
  destruct (pools w !! pool_id) as [pool|] eqn:Hp; [|by eexists _, _]. rewrite run_query.
  destruct (member_candidate pool now w) as [m0|] eqn:Hm; [|by eexists _, _].
  rewrite run_assoc, run_query. destruct (member_conflict _ w); [by eexists _, _|].
  rewrite !run_execute. eexists _, _. split; [reflexivity|]. by eexists _, _, _.
Qed.

(** A candidate is available and nobody's. *)
Lemma member_candidate_some pool now db m :
  member_candidate pool now db = Some m →
  ∃ k, pool_members db !! k = Some m ∧ m_pool_id m = p_id pool ∧ allocatable pool now m = true
    ∧ m_allocated_resource_id m = None.
Proof.
  unfold member_candidate, members_of. intros Hm%first_by_elem.
  apply list_elem_of_filter in Hm as [Hc Hm]. apply list_elem_of_filter in Hm as [Hp Hm].
  apply list_elem_of_fmap in Hm as ([k m0] & -> & Hkm). apply elem_of_map_to_list in Hkm.
  apply andb_true_iff in Hc as [? Hn%bool_decide_eq_true_1]. by exists k.
Qed.

(** What an activation makes of both rows. *)
Lemma activate_some cid revision creds m r m' r' c :
  activate_dedicated_member cid revision creds m r = Ret (m', r', c) →
  m_allocated_resource_id m = Some (r_id r) ∧ same_member m m'
  ∧ r_id r' = r_id r ∧ r_provisioning_mode r' = r_provisioning_mode r
  ∧ r_allocated_instance_id r' = Some (m_instance_id m) ∧ r_status r' = DBInstanceStatus.READY
  ∧ r_worker_id r' = r_worker_id r.
Proof.
  unfold activate_dedicated_member. destruct (_ || _); [done|].
  case_bool_decide; [|done]. cbn [negb]. by intros [= <- <- <-].
Qed.

(** The rows a handed-out member and its resource end up with. *)
Lemma allocated_handed_out pool_id rid now db m1 db1 m2 r2 db2 r :
  allocated db → handed_out pool_id rid now db m1 db1 →
  resources db !! rid = Some r → is_dedicated r →
  same_member m1 m2 → r_id r2 = rid → r_provisioning_mode r2 = r_provisioning_mode r →
  live r2 → r_allocated_instance_id r2 = Some (m_instance_id m1) →
  pool_members db2 = <[m_id m2 := m2]> (pool_members db1) →
  resources db2 = <[r_id r2 := r2]> (resources db1) → allocated db2.
Proof.
  intros Ha (r0 & pool & m0 & Hr0 & Hnone & Hp & Hc & -> & ->) Hr Hd (Hid & Hi & Hal) Hrid Hmode Hl Halloc Hm2 Hr2.
  assert (r0 = r) as -> by congruence.
  apply member_candidate_some in Hc as (k & Hk & _ & _ & Hm0).
  pose proof (al_resources _ Ha _ _ Hr) as Hridr.
  apply (allocated_other (put_member m2 (put_resource r2 db))).
  - rewrite Hm2. cbn. rewrite Hid. cbn. by rewrite insert_insert_eq.
  - rewrite Hr2. cbn. rewrite Hrid, Hridr. by rewrite insert_insert_eq.
  - eapply (allocated_assign db); [done|exact Hk|done|by rewrite Hridr|done|done|done|done|congruence|done|done|].
    split; [rewrite Hal; cbn; congruence|]. rewrite Halloc, Hi. done.
Qed.

Lemma fulfill_pending_keeps w cid now rid db :
  (∀ r, resources db !! rid = Some r → is_dedicated r) →
  allocated db → allocated (txn_db (fulfill_pending_resource config w cid now rid) db).
Proof.
  intros Hd Ha. unfold fulfill_pending_resource, txn_db, with_session, open_session. rewrite run_query_begin.
  destruct (own_resource w rid db) as [r|] eqn:Ho; [|done]. rewrite run_query.
  pose proof (proj1 (own_resource_some _ _ _ _ Ho)) as Hr.
  pose proof (own_resource_live _ _ _ _ Ha Ho (Hd _ Hr)) as Hl.
  destruct (_ ≫= _) as [pool_id|].
  2:{ run_branches. eapply allocated_resource; [done|exact Hr|]. by apply same_live. }
  destruct (claim_fresh_run pool_id rid now db db []) as (db1 & [[m|]|e] & Hc & Hout).
  3:{ unfold mbind, M_bind. by rewrite Hc. }
  2:{ rewrite (run_bind_ret _ _ _ _ _ Hc). subst db1. run_branches.
      eapply allocated_resource; [done|exact Hr|]. apply same_live; try done.
      intros _ Hst. by eapply (al_ready _ Ha); [|apply Hd|]. }
  rewrite (run_bind_ret _ _ _ _ _ Hc), !run_query, run_outcome.
  destruct (activate_dedicated_member _ _ _ _ _) as [[[m2 r2] c]|e] eqn:Hact; [|done].
  apply activate_some in Hact as (_ & Hsm & Hrid & Hmode & Halloc & Hst & _).
  rewrite run_execute.
  eapply (allocated_handed_out pool_id rid now db m db1 m2 (release_resource r2) _ r);
    [done|exact Hout|exact Hr|by apply Hd|done|cbn; rewrite Hrid; by eapply al_resources|done| |done| |].
  - unfold live. cbn. by rewrite Hst.
  - by destruct c.
  - by destruct c.
Qed.

(** *** Evidence *)

Lemma allocated_members_map db f :
  (∀ m, same_member m (f m)) → allocated db →
  allocated (db <| pool_members := f <$> pool_members db |>).
Proof.
  intros Hf Ha.
  assert (Hback : ∀ k m', (f <$> pool_members db) !! k = Some m' →
    ∃ m, pool_members db !! k = Some m ∧ m' = f m).
  { intros k m'. rewrite lookup_fmap. destruct (pool_members db !! k) as [m|]; [|done].
    intros [= <-]. by exists m. }
  assert (Hlink : ∀ m r, linked m r → linked (f m) r).
  { intros m r [Hla Hlb]. destruct (Hf m) as (_ & Hi & Hal). split; congruence. }
  split; cbn; [| |intros k1 k2 m1 m2 H1 H2 He|intros k m' rid H1 Hrid|intros k r i Hr Hd Hl Hi| |].
  - intros k m' (m & Hm & ->)%Hback. destruct (Hf m) as (-> & _). by eapply al_members.
  - apply (al_resources _ Ha).
  - destruct (Hback _ _ H1) as (n1 & Hn1 & ->), (Hback _ _ H2) as (n2 & Hn2 & ->).
    destruct (Hf n1) as (_ & He1 & _), (Hf n2) as (_ & He2 & _).
    eapply (al_instances _ Ha); [exact Hn1|exact Hn2|congruence].
  - destruct (Hback _ _ H1) as (m & Hm & ->). destruct (Hf m) as (_ & _ & Hal). rewrite Hal in Hrid.
    destruct (al_serves _ Ha _ _ _ Hm Hrid) as (r & Hr & Hd & Hl & Hlk). exists r. auto.
  - destruct (al_placed _ Ha _ _ _ Hr Hd Hl Hi) as (m & Hm & Him & Hlk). exists (f m).
    destruct (Hf m) as (-> & Hfi & _). rewrite lookup_fmap, Hm. rewrite Hfi. auto.
  - apply (al_ready _ Ha).
  - apply (al_closed _ Ha).
Qed.

Lemma mark_pools_stale_run now ps c w o :
  ∃ w' out, mark_pools_stale now ps (mk_session c w true o) = (mk_session c w' true o, out)
    ∧ (allocated w → allocated w').
Proof.
  induction ps as [|pool ps IH] in w |- *; [by eexists _, _|]. cbn [mark_pools_stale].
  rewrite run_query, run_execute. destruct (IH (mark_stale now pool w)) as (w' & [n|e] & Hr & Hw).
  - rewrite (run_bind_ret _ _ _ _ _ Hr). eexists _, _. split; [reflexivity|]. intros Ha. apply Hw.
    apply allocated_members_map; [|done]. intros m. by destruct (evidence_expired now pool m).
  - unfold mbind, M_bind. rewrite Hr. eexists _, _. split; [reflexivity|]. intros Ha. apply Hw.
    apply allocated_members_map; [|done]. intros m. by destruct (evidence_expired now pool m).
Qed.

Lemma mark_stale_keeps now : keeps (mark_expired_evidence_stale now).
Proof.
  intros db Ha. unfold mark_expired_evidence_stale, txn_db, with_session, open_session.
  rewrite run_query_begin. destruct (mark_pools_stale_run now (active_pools db) db db []) as (w' & [n|e] & Hr & Hw).
  - rewrite (run_bind_ret _ _ _ _ _ Hr). destruct (0 <? n); run_branches; auto.
  - unfold mbind, M_bind. by rewrite Hr.
Qed.

(** *** What a session flushes *)

Record session_ok (s : Session DB) : Prop := {
  so_committed : allocated (committed s);
  so_working : allocated (working s);
  so_alone : others s = [];
  so_begun : in_tx s = false → working s = committed s
}.

Lemma session_ok_open db : allocated db → session_ok (open_session db).
Proof. by split. Qed.

Lemma session_ok_begin s : session_ok s → session_ok (autobegin s) ∧ working (autobegin s) = working s.
Proof.
  intros [Hc Hw Ho Hb]. destruct s as [c w b o]; cbn in *. subst o. destruct b; cbn; [done|].
  rewrite (Hb eq_refl) in *. split; [by split|done].
Qed.

Lemma run_query_at {A B} (f : DB → A) (k : A → M (Session DB) B) s :
  (query f ≫= k) s = k (f (working (autobegin s))) (autobegin s).
Proof. done. Qed.

Lemma session_ok_execute f s :
  session_ok s → allocated (f (working s)) →
  session_ok (execute f s).1 ∧ working (execute f s).1 = f (working s).
Proof.
  intros Hs Hf. destruct (session_ok_begin _ Hs) as [[Hc Hw Ho Hb] He]. cbn. rewrite He. by split.
Qed.

Lemma dirty_same {A} `{EqDecision A} (x y : A) : dirty x x y = y.
Proof. unfold dirty. by rewrite decide_True. Qed.

Lemma flush_same_member loaded new row : same_member loaded new → same_member row (flush_member loaded new row).
Proof. intros (_ & Hi & Hal). unfold same_member. cbn. rewrite Hi, Hal, !dirty_same. done. Qed.

Lemma update_member_ok loaded new s :
  same_member loaded new → session_ok s →
  session_ok (update_member loaded new s).1 ∧ resources (working (update_member loaded new s).1) = resources (working s).
Proof.
  intros Hs Hok. unfold update_member. destruct (decide _); [done|]. rewrite run_query_at.
  destruct (session_ok_begin _ Hok) as [Hok' He]. rewrite He.
  destruct (pool_members (working s) !! m_id loaded) as [row|] eqn:Hrow.
  2:{ cbn [raise fst]. rewrite He. by split. }
  unfold write_member. rewrite run_query_at. destruct (session_ok_begin _ Hok') as [Hok'' He'].
  destruct (member_conflict _ _).
  { cbn [raise fst]. rewrite He', He. by split. }
  destruct (session_ok_execute (put_member (flush_member loaded new row)) (autobegin (autobegin s)))
    as [Hex Hew]; [done| |].
  - rewrite He', He. eapply allocated_member; [apply (so_working _ Hok)|exact Hrow|by apply flush_same_member].
  - rewrite Hew, He', He. by split.
Qed.

Lemma update_instance_ok loaded new s :
  session_ok s →
  session_ok (update_instance loaded new s).1
  ∧ resources (working (update_instance loaded new s).1) = resources (working s).
Proof.
  intros Hok. unfold update_instance. destruct (decide _); [done|]. rewrite run_query_at.
  destruct (session_ok_begin _ Hok) as [Hok' He]. rewrite He.
  destruct (instances (working s) !! i_id loaded) as [row|].
  2:{ cbn [raise fst]. rewrite He. by split. }
  unfold write_instance. rewrite run_query_at. destruct (session_ok_begin _ Hok') as [Hok'' He'].
  destruct (instance_conflict _ _).
  { cbn [raise fst]. rewrite He', He. by split. }
  destruct (session_ok_execute (put_instance (flush_instance loaded new row)) (autobegin (autobegin s)))
    as [Hex Hew]; [done| |].
  - rewrite He', He. eapply (allocated_other (working s)); [done|done|apply (so_working _ Hok)].
  - rewrite Hew, He', He. by split.
Qed.

(** The resource [r] was loaded as the row still is where allocation goes. *)
Definition still_serving (r : DBInstanceResource) (db : DB) : Prop :=
  ∃ row, resources db !! r_id r = Some row ∧ live row ∧ r_allocated_instance_id row = r_allocated_instance_id r.

(** The columns allocation looks at are as loaded. *)
Definition same_columns (r new : DBInstanceResource) : Prop :=
  r_provisioning_mode new = r_provisioning_mode r ∧ r_allocated_instance_id new = r_allocated_instance_id r
  ∧ r_status new = r_status r ∧ r_worker_id new = r_worker_id r.

Lemma update_resource_ok r new s :
  session_ok s → same_columns r new ∨ still_serving r (working s) ∧ r_provisioning_mode new = r_provisioning_mode r
    ∧ r_allocated_instance_id new = r_allocated_instance_id r ∧ is_Some (r_allocated_instance_id r)
    ∧ live new →
  session_ok (update_resource r new s).1.
Proof.
  intros Hok Hnew. unfold update_resource. destruct (decide _) as [|Hdirty]; [done|]. rewrite run_query_at.
  destruct (session_ok_begin _ Hok) as [Hok' He]. rewrite He.
  destruct Hnew as [(Hmode & Hinst & Hst & Hw)|((row & Hrow & Hl & Hsame) & Hmode & Hinst & Hsome & Hlive)].
  { destruct (resources (working s) !! r_id r) as [row|] eqn:Hrow; [|done].
    apply session_ok_execute; [done|]. rewrite He.
    eapply allocated_resource; [apply (so_working _ Hok)|exact Hrow|].
    split; unfold live; cbn; rewrite ?Hmode, ?Hinst, ?Hst, ?Hw, ?dirty_same; auto. }
  rewrite Hrow. apply session_ok_execute; [done|]. rewrite He.
  eapply allocated_resource; [apply (so_working _ Hok)|exact Hrow|]. apply same_live; cbn.
  - done.
  - by rewrite Hmode, dirty_same.
  - by rewrite Hinst, dirty_same.
  - done.
  - intros _. unfold live. cbn. unfold dirty. by case_decide.
  - intros _ _. congruence.
Qed.

Lemma credential_ok c s :
  session_ok s → session_ok (insert_credential c s).1.
Proof.
  intros Hok. unfold insert_credential. rewrite run_query_at.
  destruct (session_ok_begin _ Hok) as [Hok' He]. destruct (credential_conflict _ _); [done|].
  apply session_ok_execute; [done|]. rewrite He.
  eapply (allocated_other (working s)); [done|done|apply (so_working _ Hok)].
Qed.

Lemma commit_ok s : session_ok s → session_ok (commit s).1.
Proof.
  intros [Hc Hw Ho Hb]. destruct s as [c w b o]; cbn in *. subst o. destruct b; by split.
Qed.

Lemma session_ok_bind {A B} (m : M (Session DB) A) (k : A → M (Session DB) B) s :
  session_ok (m s).1 → (∀ a, (m s).2 = Ret a → session_ok (k a (m s).1).1) → session_ok ((m ≫= k) s).1.
Proof. unfold mbind, M_bind. destruct (m s) as [s' [a|e]]; cbn; auto. Qed.

Lemma session_ok_then {A B} (m : M (Session DB) A) (k : A → M (Session DB) B) s :
  session_ok (m s).1 → (∀ a s', session_ok s' → session_ok (k a s').1) → session_ok ((m ≫= k) s).1.
Proof. unfold mbind, M_bind. destruct (m s) as [s' [a|e]]; cbn; auto. Qed.

(** [store_member] keeps the invariant when it changes a resource only where
    allocation does not go. *)
Lemma store_member_ok l l' c s :
  same_member (lm_member l) (lm_member l') → session_ok s →
  match lm_resource l, lm_resource l' with
  | Some r, Some r' => same_columns (lr_resource r) (lr_resource r')
      ∨ still_serving (lr_resource r) (working s)
        ∧ r_provisioning_mode (lr_resource r') = r_provisioning_mode (lr_resource r)
        ∧ r_allocated_instance_id (lr_resource r') = r_allocated_instance_id (lr_resource r)
        ∧ is_Some (r_allocated_instance_id (lr_resource r)) ∧ live (lr_resource r')
  | _, _ => True
  end →
  session_ok (store_member l l' c s).1.
Proof.
  intros Hm Hok Hr. unfold store_member.
  destruct (update_member_ok _ _ _ Hm Hok) as [Hok1 He1]. apply session_ok_bind; [done|intros _ _].
  destruct (update_instance_ok (lm_instance l) (lm_instance l') _ Hok1) as [Hok2 He2].
  apply session_ok_bind; [done|intros _ _].
  match goal with |- session_ok ((?m ≫= _) ?s1).1 => assert (session_ok (m s1).1) as Hok3 end.
  { destruct (lm_resource l) as [r|], (lm_resource l') as [r'|]; try done.
    apply update_resource_ok; [done|]. unfold still_serving in *. by rewrite He2, He1. }
  apply session_ok_bind; [done|intros _ _].
  match goal with |- session_ok ((?m ≫= _) ?s1).1 => assert (session_ok (m s1).1) as Hok4 end.
  { destruct c; [by apply credential_ok|done]. }
  apply session_ok_bind; [done|intros _ _]. by apply commit_ok.
Qed.

(** *** Preparation *)

Definition loaded_from (l : LoadedMember) (db : DB) : Prop :=
  (∃ k, pool_members db !! k = Some (lm_member l))
  ∧ ∀ lr, lm_resource l = Some lr →
      ∃ rid, m_allocated_resource_id (lm_member l) = Some rid ∧ resources db !! rid = Some (lr_resource lr).

Lemma load_member_run member_id db :
  ∃ s out, load_member member_id (open_session db) = (s, out) ∧ (allocated db → session_ok s)
    ∧ (∀ l, out = Ret (Some l) → loaded_from l db) ∧ committed s = db ∧ working s = db.
Proof.
  unfold load_member, open_session. rewrite run_query_begin.
  destruct (pool_members db !! member_id) as [m|] eqn:Hm.
  2:{ eexists _, _. split; [reflexivity|]. split; [by split|by split]. }
  rewrite !run_query. destruct (pools db !! m_pool_id m) as [pool|].
  2:{ eexists _, _. split; [reflexivity|]. split; [by split|by split]. }
  destruct (instances db !! m_instance_id m) as [i|].
  2:{ eexists _, _. split; [reflexivity|]. split; [by split|by split]. }
  rewrite !run_query. eexists _, _. split; [reflexivity|]. split; [by split|]. split; [|done].
  intros l [= <-]. split; [by eexists|]. cbn. intros lr Hlr.
  destruct (m_allocated_resource_id m) as [rid|]; [|done]. cbn in Hlr.
  destruct (resources db !! rid) as [r|] eqn:Hr; [|done]. injection Hlr as <-. by exists rid.
Qed.

Lemma store_done_ok l m i s :
  same_member (lm_member l) m → session_ok s → session_ok (store_done l m i s).1.
Proof.
  intros Hm Hok. unfold store_done.
  match goal with |- session_ok ((?m ≫= _) ?s1).1 => assert (session_ok (m s1).1) as Hs end.
  { apply store_member_ok; [done|done|]. cbn. destruct (lm_resource l); [by left|done]. }
  by apply session_ok_bind.
Qed.

Lemma begin_advance_ok av allow l member_id s out :
  load_member member_id s = (l, out) → session_ok l → session_ok (begin_advance encrypt decrypt av allow member_id s).1.
Proof.
  intros Hload Hok. unfold begin_advance. unfold mbind at 1, M_bind at 1. rewrite Hload.
  destruct out as [[lm|]|e]; [|done|done].
  destruct (m_preparation_step (lm_member lm)); try (by apply store_done_ok);
    repeat first
      [ done | progress (rewrite run_outcome) | by apply commit_ok
      | match goal with
        | |- session_ok (match ?o with Ret _ => _ | Raise _ => _ end).1 => destruct o
        | |- session_ok ((if ?b then _ else _) _).1 => destruct b
        | |- session_ok (then_call _ _ _).1 => apply session_ok_bind; [|intros _ _]; by apply commit_ok
        end ].
Qed.

Lemma begin_advance_keeps av allow member_id : keeps (begin_advance encrypt decrypt av allow member_id).
Proof.
  intros db Ha. destruct (load_member_run member_id db) as (s & out & Hload & Hok & _).
  unfold txn_db, with_session. pose proof (begin_advance_ok av allow s member_id _ out Hload (Hok Ha)) as He.
  destruct (begin_advance _ _ _ _ _ _) as [s' o]. apply (so_committed _ He).
Qed.

Lemma store_done_step l0 m i s l call :
  (store_done l0 m i s).2 = Ret (l, call) → ∃ step, call = StepDone step.
Proof.
  unfold store_done, mbind, M_bind. destruct (store_member _ _ _ s) as [s' [[]|e]]; [|done].
  intros [= _ <-]. by eexists.
Qed.

(** A step that goes on to a call has changed nothing, and its session holds
    the rows as they were. *)
Lemma begin_advance_loaded av allow member_id db l call :
  txn_out (begin_advance encrypt decrypt av allow member_id) db = Ret (l, call) →
  (∀ step, call ≠ StepDone step) →
  loaded_from l db ∧ txn_db (begin_advance encrypt decrypt av allow member_id) db = db.
Proof.
  destruct (load_member_run member_id db) as (s & out & Hload & _ & Hl & Hc & Hw). intros Hrun Hcall.
  unfold txn_out, txn_db, with_session in *.
  enough (Hgoal : (begin_advance encrypt decrypt av allow member_id (open_session db)).2 = Ret (l, call) →
    loaded_from l db ∧ committed (begin_advance encrypt decrypt av allow member_id (open_session db)).1 = db)
    by (destruct (begin_advance _ _ _ _ _ _); by apply Hgoal).
  clear Hrun. unfold begin_advance. destruct out as [a|e].
  2:{ unfold mbind, M_bind. by rewrite Hload. }
  rewrite (run_bind_ret _ _ _ _ _ Hload). destruct a as [lm|]; [|done]. specialize (Hl lm eq_refl).
  enough (Hcase : ∀ p : M (Session DB) (LoadedMember * PendingCall),
    (∃ m i, p = store_done lm m i) ∨ (∃ c, p = then_call lm c) ∨ (∃ e, p = raise e)
      ∨ (∃ step, p = mret (lm, StepDone step)) →
    (p s).2 = Ret (l, call) → loaded_from l db ∧ committed (p s).1 = db).
  { destruct (m_preparation_step (lm_member lm));
      repeat match goal with
      | |- ((if ?b then _ else _) _).2 = _ → _ => destruct b
      | |- ((lift_outcome ?o ≫= _) _).2 = _ → _ => rewrite run_outcome; destruct o; [|done]
      end; apply Hcase; eauto 8. }
  intros p [(m & i & ->)|[[c ->]|[[e ->]|[step ->]]]].
  - intros [step ->]%store_done_step. by destruct (Hcall step).
  - unfold then_call, mbind, M_bind. cbn. intros [= <- _]. split; [done|]. by destruct (in_tx s).
  - done.
  - intros [= _ <-]. by destruct (Hcall step).
Qed.

(** A call that comes back stores what it found; a resource it serves must
    still be where it was. *)
Lemma finish_with_ok l l' c s :
  same_member (lm_member l) (lm_member l') → session_ok s →
  match lm_resource l, lm_resource l' with
  | Some r, Some r' => same_columns (lr_resource r) (lr_resource r')
      ∨ still_serving (lr_resource r) (working s)
        ∧ r_provisioning_mode (lr_resource r') = r_provisioning_mode (lr_resource r)
        ∧ r_allocated_instance_id (lr_resource r') = r_allocated_instance_id (lr_resource r)
        ∧ is_Some (r_allocated_instance_id (lr_resource r)) ∧ live (lr_resource r')
  | _, _ => True
  end →
  session_ok (finish_with l l' c s).1.
Proof.
  intros Hm Hok Hr. unfold finish_with. pose proof (store_member_ok l l' c s Hm Hok Hr).
  by apply session_ok_bind.
Qed.

Lemma finish_plain_ok l l' s :
  same_member (lm_member l) (lm_member l') → lm_resource l' = lm_resource l → session_ok s →
  session_ok (finish_with l l' None s).1.
Proof. intros Hm Hr Hok. apply finish_with_ok; [done|done|]. rewrite Hr. destruct (lm_resource l); [by left|done]. Qed.

Lemma verified_member_some now av l l' c :
  verified_member now av l = Ret (l', c) →
  same_member (lm_member l) (lm_member l')
  ∧ match lm_resource l, lm_resource l' with
    | Some r, Some r' => same_columns (lr_resource r) (lr_resource r')
        ∨ r_id (lr_resource r') = r_id (lr_resource r)
          ∧ r_provisioning_mode (lr_resource r') = r_provisioning_mode (lr_resource r)
          ∧ r_allocated_instance_id (lr_resource r') = Some (m_instance_id (lm_member l))
          ∧ live (lr_resource r')
    | _, _ => True
    end.
Proof.
  unfold verified_member. cbn. destruct (m_allocated_resource_id (lm_member l)) as [rid|] eqn:Hal.
  - destruct (lm_resource l) as [lr|] eqn:Hlr; [|done].
    destruct (activate_dedicated_member _ _ _ _ _) as [[[m r] c']|e] eqn:Hact; [|done].
    intros [= <- <-]. apply activate_some in Hact as (_ & Hsm & Hid & Hmode & Hinst & Hst & _).
    destruct Hsm as (Ha & Hb & Hc). cbn in Ha, Hb, Hc.
    split; [split; [done|split; [done|cbn; congruence]]|]. cbn. right.
    split; [done|]. split; [done|]. split; [done|]. unfold live. by rewrite Hst.
  - intros [= <- <-]. split; [done|]. cbn. destruct (lm_resource l); [by left|done].
Qed.

Lemma finish_advance_keeps now av l call result db0 db :
  allocated db0 → loaded_from l db0 →
  (∀ lr, lm_resource l = Some lr → still_serving (lr_resource lr) db) →
  allocated db → allocated (txn_db (finish_advance encrypt now av l call result) db).
Proof.
  intros Ha0 [[k Hk] Hlr] Hstill Ha. pose proof (session_ok_open _ Ha) as Hok.
  enough (session_ok (finish_advance encrypt now av l call result (open_session db)).1) as He.
  { unfold txn_db, with_session. destruct (finish_advance _ _ _ _ _ _ _) as [s o]. apply (so_committed _ He). }
  destruct call, result; try done; cbn [finish_advance].
  - destruct (String.eqb _ _); [done|]. by apply finish_plain_ok.
  - destruct (_ == _); [by apply finish_plain_ok|done].
  - by apply finish_plain_ok.
  - by apply finish_plain_ok.
  - rewrite run_outcome. destruct (store_sandbox _ _ _) as [l'|e] eqn:Hs; [|done].
    unfold store_sandbox in Hs. destruct (lm_pool_revision l) as [revision|]; [|done]. cbn in Hs.
    destruct (permission_snapshot_for_revision revision); [|done]. injection Hs as <-.
    apply finish_plain_ok; [split; [|split]; reflexivity|reflexivity|done].
  - by apply finish_plain_ok.
  - by apply finish_plain_ok.
  - rewrite run_outcome. destruct (verified_member now av l) as [[l' c]|e] eqn:Hv; [|done].
    apply verified_member_some in Hv as [Hm Hr]. cbn [fst snd]. apply finish_with_ok; [done|done|].
    destruct (lm_resource l) as [lr|] eqn:Hlres; [|done]. destruct (lm_resource l') as [lr'|]; [|done].
    destruct Hr as [?|(Hid & Hmode & Hinst & Hl)]; [by left|right].
    destruct (Hlr lr eq_refl) as (rid & Hal & Hres).
    destruct (al_serves _ Ha0 _ _ _ Hk Hal) as (r0 & Hr0 & _ & _ & _ & Hinst0).
    assert (r0 = lr_resource lr) as -> by congruence.
    split; [by apply Hstill|]. split; [done|]. split; [congruence|]. split; [by eexists|done].
Qed.

(** *** Requests and administration *)

(** Code that writes no resource. *)
Definition beside {A} (m : M (Session DB) A) : Prop := ∀ s, session_ok s →
  session_ok (m s).1 ∧ resources (working (m s).1) = resources (working s).

Lemma beside_bind {A B} (m : M (Session DB) A) (k : A → M (Session DB) B) :
  beside m → (∀ a, beside (k a)) → beside (m ≫= k).
Proof.
  intros Hm Hk s Hs. destruct (Hm s Hs) as [Hs1 He1]. unfold mbind, M_bind.
  destruct (m s) as [s1 [a|e]]; [|done]. destruct (Hk a s1 Hs1) as [Hs2 He2].
  split; [done|]. cbn in He1. congruence.
Qed.
Lemma beside_ret {A} (a : A) : beside (mret a).
Proof. by intros s Hs. Qed.
Lemma beside_raise {A} e : beside (raise (A:=A) e).
Proof. by intros s Hs. Qed.
Lemma beside_outcome {A} (o : outcome A) : beside (lift_outcome o).
Proof. by intros s Hs. Qed.
Lemma beside_query {A} (f : DB → A) : beside (query f).
Proof. intros s Hs. destruct (session_ok_begin _ Hs) as [Hs' He]. split; [done|]. cbn. by rewrite He. Qed.
Lemma beside_execute f : (∀ db, same_rows db (f db)) → beside (execute f).
Proof.
  intros Hf s Hs. destruct (Hf (working s)) as [Hm Hr].
  destruct (session_ok_execute f s Hs) as [Hok He]; [|by rewrite He].
  eapply allocated_other; [done|done|apply (so_working _ Hs)].
Qed.
Lemma beside_try {A} (m : M (Session DB) A) h : beside m → (∀ e, beside (h e)) → beside (try_except m h).
Proof.
  intros Hm Hh s Hs. destruct (Hm s Hs) as [Hs1 He1]. unfold try_except.
  destruct (m s) as [s1 [a|e]]; [done|]. destruct (Hh e s1 Hs1) as [Hs2 He2].
  split; [done|]. cbn in He1. congruence.
Qed.
#[local] Hint Resolve beside_ret beside_raise beside_outcome beside_query : beside.

Lemma write_found k m m' s :
  pool_members (working s) !! k = Some m → same_member m m' → session_ok s →
  session_ok (write_member m' s).1 ∧ resources (working (write_member m' s).1) = resources (working s).
Proof.
  intros Hm Hsame Hok. unfold write_member. rewrite run_query_at.
  destruct (session_ok_begin _ Hok) as [Hok' He]. destruct (member_conflict _ _).
  { cbn [raise fst]. rewrite He. by split. }
  destruct (session_ok_execute (put_member m') (autobegin s)) as [Hex Hew]; [done| |].
  - rewrite He. by eapply allocated_member; [apply (so_working _ Hok)|..].
  - rewrite Hew, He. by split.
Qed.

Lemma budget_beside st si op limit now : beside (consume_hourly_budget st si op limit now).
Proof.
  unfold consume_hourly_budget. destruct (limit <=? 0); [auto with beside|].
  apply beside_bind; [apply beside_execute; intros db; by destruct (budgets db !! _)|intros _].
  apply beside_bind; [|intros n; destruct (n != 1); auto with beside].
  apply beside_bind; [auto with beside|]. intros [n|]; [|auto with beside].
  destruct (n <? limit); [|auto with beside]. apply beside_bind; [by apply beside_execute|auto with beside].
Qed.

Lemma agent_budget_beside pool agent_id op now : beside (consume_agent_operation_budget pool agent_id op now).
Proof.
  unfold consume_agent_operation_budget.
  destruct (if String.eqb op "create" then _ else _); auto using budget_beside with beside.
Qed.

Lemma then_beside {A B} (m : M (Session DB) A) (k : A → M (Session DB) B) s rows :
  session_ok (m s).1 ∧ resources (working (m s).1) = rows → (∀ a, beside (k a)) →
  session_ok ((m ≫= k) s).1 ∧ resources (working ((m ≫= k) s).1) = rows.
Proof.
  intros [Hs1 He1] Hk. unfold mbind, M_bind. destruct (m s) as [s1 [a|e]]; [|done].
  destruct (Hk a s1 Hs1) as [Hs2 He2]. split; [done|]. cbn in He1. congruence.
Qed.

Lemma delete_member_beside now agent_id rid : beside (delete_member now agent_id rid).
Proof.
  intros s Hs. unfold delete_member. rewrite run_query_at. destruct (session_ok_begin _ Hs) as [Hs1 He1].
  rewrite He1. destruct (member_of_resource rid (working s)) as [m|] eqn:Hm.
  2:{ cbn [mret M_ret fst]. rewrite He1. by split. }
  apply member_of_resource_some in Hm as (k & Hk & _).
  destruct (write_found k m (m <| m_status := DedicatedMemberStatus.DELETING |>) (autobegin s))
    as [Hs2 He2]; [by rewrite He1|done|done|].
  apply then_beside; [by rewrite He2, He1|intros _]. apply beside_bind; [auto with beside|].
  intros [pool|]; [|auto with beside]. apply beside_try; [apply agent_budget_beside|].
  intros e. destruct (String.eqb _ _); auto with beside.
Qed.

Lemma serialized_keeps {A} (block : M (Session DB) A) :
  (∀ db, allocated db → session_ok (block (mk_session db db true [])).1) →
  keeps (serialized_resource_write block).
Proof.
  intros Hb db Ha. unfold txn_db. rewrite serialized_open. specialize (Hb db Ha).
  destruct (block _) as [s [a|e]]; apply (so_committed _ Hb).
Qed.

Lemma session_ok_tx db : allocated db → session_ok (mk_session db db true []).
Proof. by split. Qed.

Lemma put_resource_ok r r' s :
  session_ok s → resources (working s) !! r_id r = Some r → same_resource r r' →
  session_ok (execute (put_resource r') s).1.
Proof.
  intros Hok Hr Hsame. apply session_ok_execute; [done|].
  eapply allocated_resource; [apply (so_working _ Hok)|exact Hr|done].
Qed.

Lemma record_delete_request_same now b pool r r' :
  record_delete_request config now b pool r = Ret r' →
  r_id r' = r_id r ∧ same_columns r r'.
Proof.
  unfold record_delete_request. destruct (r_delete_requested_at r); [by intros [= <-]|].
  cbn. destruct (effective_delete_cooldown_hours _ _ _); [|done]. by intros [= <-].
Qed.

Lemma queue_deletion_same now r :
  r_id (queue_deletion now r) = r_id r
  ∧ r_provisioning_mode (queue_deletion now r) = r_provisioning_mode r
  ∧ r_allocated_instance_id (queue_deletion now r) = r_allocated_instance_id r
  ∧ r_status (queue_deletion now r) = DBInstanceStatus.DELETING.
Proof. unfold queue_deletion. by destruct (_ || _). Qed.

Lemma delete_resource_keeps hook now agent_id rid :
  audit_hook hook → keeps (delete_resource config hook now agent_id rid).
Proof.
  intros Hhook. apply serialized_keeps. intros db Ha. pose proof (session_ok_tx _ Ha) as Hok.
  rewrite run_query. destruct (owned_resource rid agent_id db) as [r|] eqn:Ho; [|done].
  assert (resources db !! rid = Some r) as Hr.
  { unfold owned_resource in Ho. destruct (resources db !! rid) as [r0|]; [|done]. cbn in Ho.
    by case_bool_decide; [injection Ho as ->|]. }
  match goal with |- session_ok ((?m ≫= _) ?s).1 => assert (session_ok (m s).1) as Hm end.
  { destruct (deletable (r_status r)) eqn:Hdel; [|done]. rewrite run_query.
    destruct (backends db !! r_backend_id r) as [b|]; [|done]. rewrite run_query, run_outcome.
    destruct (record_delete_request config now b _ r) as [r1|e] eqn:Hrec; [|done].
    apply record_delete_request_same in Hrec as (Hid1 & Hmode1 & Hinst1 & Hst1 & Hw1).
    destruct (queue_deletion_same now r1) as (Hid2 & Hmode2 & Hinst2 & Hst2).
    match goal with |- session_ok ((?m1 ≫= (λ _, ?m2 ≫= _)) _).1 =>
      assert (beside (m1 ≫= λ _, m2)) as Hbes end.
    { apply beside_bind; [by apply beside_execute|intros _].
      case_bool_decide; [apply delete_member_beside|auto with beside]. }
    destruct (Hbes _ Hok) as [Hok1 He1]. rewrite <-run_assoc.
    apply session_ok_bind; [done|intros _ _]. apply session_ok_then; [|done].
    assert (live r) as Hl. { unfold live. intros Hst. by rewrite Hst in Hdel. }
    apply (put_resource_ok r); [done|rewrite He1; by rewrite (al_resources _ Ha _ _ Hr)|].
    apply same_live; [congruence..|done| |]; unfold live; rewrite Hst2; done. }
  apply session_ok_then; [done|]. intros r' s' Hs'. rewrite run_hook_bind by done.
  destruct (run_hook _ _ _).2; [|done]. apply session_ok_then; [by apply commit_ok|done].
Qed.

Lemma restore_keeps rid : keeps (restore_db_instance_resource rid).
Proof.
  apply serialized_keeps. intros db Ha. pose proof (session_ok_tx _ Ha) as Hok. rewrite run_query.
  destruct (resources db !! rid) as [r|] eqn:Hr; [|done].
  destruct (restorable (r_status r)) eqn:Hres; [|done]. cbn [negb].
  destruct (irreversible (r_delete_step r)); [done|]. unfold save.
  apply session_ok_then; [|intros _ s' Hs'; apply session_ok_then; [by apply commit_ok|done]].
  apply (put_resource_ok r); [done|by rewrite (al_resources _ Ha _ _ Hr)|].
  assert (live r) as Hl. { unfold live. intros Hst. by rewrite Hst in Hres. }
  by apply same_live.
Qed.

Lemma keeps_session {A} (m : M (Session DB) A) : (∀ s, session_ok s → session_ok (m s).1) → keeps m.
Proof.
  intros Hm db Ha. specialize (Hm _ (session_ok_open _ Ha)). unfold txn_db, with_session.
  destruct (m _) as [s o]. apply (so_committed _ Hm).
Qed.

Lemma keeps_request {A} (m : M (Session DB) A) (db : DB) :
  session_ok (m (open_session db)).1 → allocated (request m db).1.
Proof.
  intros Hm. unfold request, with_session.
  assert (session_ok ((m ≫= λ a, commit ≫= λ _, mret a) (open_session db)).1) as He.
  { apply session_ok_then; [done|]. intros a s Hs. apply session_ok_then; [by apply commit_ok|done]. }
  destruct ((m ≫= _) _) as [s o]. apply (so_committed _ He).
Qed.

(** *** Permission synchronisation *)

Lemma claim_target_keeps w now : keeps (claim_permission_sync_target config w now).
Proof.
  apply keeps_session. intros s Hs. unfold claim_permission_sync_target.
  apply session_ok_then; [by apply beside_query|]. clear s Hs. intros [t|] s Hs; [|done].
  apply session_ok_then; [by apply beside_execute|]. clear s Hs. intros _ s Hs.
  apply session_ok_then; [by apply beside_query|]. clear s Hs. intros [j|] s Hs; [|done].
  apply session_ok_then; [by apply beside_execute|]. clear s Hs. intros _ s Hs.
  by apply session_ok_then; [apply commit_ok|].
Qed.

Lemma refresh_beside j : beside (refresh_permission_sync_job j).
Proof.
  apply beside_bind; [auto with beside|intros statuses]. unfold update_job.
  apply beside_bind; [auto with beside|intros [row|]; [by apply beside_execute|auto with beside]].
Qed.

Lemma store_target_keeps l : keeps (store_target l).
Proof.
  apply keeps_session. intros s Hs. unfold store_target. apply session_ok_then.
  - destruct (t_change_required _); [|done].
    destruct (update_member_ok (lt_member l) (synced_member l) s) as [Hs1 _]; [done|done|].
    apply session_ok_then; [done|]. intros _ s' Hs'. destruct (lt_resource l) as [r|]; [|done].
    apply update_resource_ok; [done|by left].
  - clear s Hs. intros _ s Hs. apply session_ok_then.
    { unfold update_target. apply session_ok_then; [by apply beside_query|]. clear s Hs.
      intros [row|] s Hs; [by apply beside_execute|done]. }
    clear s Hs. intros _ s Hs. apply session_ok_then; [by apply refresh_beside|]. clear s Hs.
    intros _ s Hs. by apply commit_ok.
Qed.

Lemma record_sync_failure_keeps w now target_id : keeps (record_permission_sync_failure config w now target_id).
Proof.
  apply keeps_session. intros s Hs. unfold record_permission_sync_failure.
  apply session_ok_then; [by apply beside_query|]. clear s Hs. intros [t|] s Hs; [|done].
  case_bool_decide; [|done]. cbn [negb].
  apply session_ok_then; [by apply beside_query|]. clear s Hs. intros job s Hs.
  apply session_ok_then; [by apply beside_execute|]. clear s Hs. intros _ s Hs.
  apply session_ok_then; [|intros _ s' Hs'; by apply commit_ok].
  destruct job as [j|]; [by apply refresh_beside|done].
Qed.

(** *** Members *)

Lemma record_advance_failure_keeps now member_id e :
  keeps (record_advance_failure openapi_details now member_id e).
Proof.
  unfold record_advance_failure. run_transaction;
    (eapply allocated_member; [done|eassumption|]); by destruct (openapi_details e).
Qed.

Lemma member_action_same action allow m m' : member_action action allow m = Ret m' → same_member m m'.
Proof. unfold member_action. intros Ha. repeat case_match; simplify_eq; done. Qed.

Lemma found_member_keeps {A} k (f : DedicatedPoolMember → outcome DedicatedPoolMember) db
    (g : DedicatedPoolMember → A) e :
  allocated db → (∀ m m', f m = Ret m' → same_member m m') →
  allocated (request (member ← query (λ db, pool_members db !! k);
    match member with
    | None => raise e
    | Some m => m ← lift_outcome (f m); write_member m ;; mret (g m)
    end) db).1.
Proof.
  intros Ha Hf. apply keeps_request. pose proof (session_ok_open _ Ha) as Hok. rewrite run_query_at.
  destruct (session_ok_begin _ Hok) as [Hok1 He1]. rewrite He1.
  destruct (pool_members (working (open_session db)) !! k) as [m|] eqn:Hm; [|done]. rewrite run_outcome.
  destruct (f m) as [m'|e'] eqn:Hfm; [|done]. apply session_ok_then; [|done].
  eapply write_found; [by rewrite He1|by eapply Hf|done].
Qed.

Lemma set_member_action_keeps member_id action allow db :
  allocated db → allocated (request (set_member_action member_id action allow) db).1.
Proof. intros Ha. apply found_member_keeps; [done|]. intros m m'. apply member_action_same. Qed.

Lemma update_cooldown_keeps member_id h db :
  allocated db → allocated (request (update_member_delete_cooldown member_id h) db).1.
Proof.
  intros Ha. apply keeps_request. pose proof (session_ok_open _ Ha) as Hok.
  unfold update_member_delete_cooldown. rewrite run_query_at.
  destruct (session_ok_begin _ Hok) as [Hok1 He1]. rewrite He1.
  destruct (pool_members (working (open_session db)) !! member_id) as [m|] eqn:Hm; [|done].
  destruct (match h with Some h => h <? 1 | None => false end); [done|]. apply session_ok_then; [|done].
  eapply write_found; [by rewrite He1|done|done].
Qed.

(** *** New members *)

Lemma member_conflict_false m db :
  allocated db → member_conflict m db = false → pool_members db !! m_id m = None →
  ∀ k m0, pool_members db !! k = Some m0 → m_instance_id m0 ≠ m_instance_id m.
Proof.
  intros Ha Hc Hnew k m0 Hk He. apply (not_true_iff_false _) in Hc. apply Hc.
  unfold member_conflict. apply existsb_exists. exists m0. split.
  - apply list_elem_of_In, list_elem_of_fmap. exists (k, m0). split; [done|]. by apply elem_of_map_to_list.
  - pose proof (al_members _ Ha _ _ Hk). apply andb_true_iff. split.
    + apply negb_true_iff, String.eqb_neq. intros Heq. congruence.
    + apply orb_true_iff; left. apply orb_true_iff; left. by apply String.eqb_eq.
Qed.

(** A member inserted for nobody. *)
Lemma write_new_member m s :
  m_allocated_resource_id m = None → pool_members (working s) !! m_id m = None → session_ok s →
  session_ok (write_member m s).1.
Proof.
  intros Hal Hnew Hok. unfold write_member. rewrite run_query_at.
  destruct (session_ok_begin _ Hok) as [Hok' He]. destruct (member_conflict m _) eqn:Hc; [done|].
  rewrite He in Hc. apply session_ok_execute; [done|]. rewrite He.
  apply allocated_new_member; [apply (so_working _ Hok)|done| |done].
  apply member_conflict_false; [apply (so_working _ Hok)|done|done].
Qed.

Lemma register_keeps id now pool_id instance_id cid db :
  allocated db → allocated (request (register_external_member id now pool_id instance_id cid) db).1.
Proof.
  intros Ha. apply keeps_request. pose proof (session_ok_tx _ Ha) as Hok.
  unfold register_external_member, open_session. rewrite run_query_begin.
  destruct (pools db !! pool_id) as [pool|]; [|done]. case_bool_decide; [|done]. cbn [negb].
  rewrite run_query, run_outcome. destruct (external_instance _) as [i|]; [|done].
  rewrite run_query, run_outcome. destruct (lifecycle_credential i _) as [c|]; [|done]. rewrite run_query.
  destruct (existsb _ _); [done|]. rewrite run_query.
  destruct (bool_decide (is_Some (pool_members db !! id))) eqn:Htaken; [done|].
  apply bool_decide_eq_false_1, eq_None_not_Some in Htaken.
  apply session_ok_then; [|done]. by apply write_new_member.
Qed.

Lemma purchase_beside pool_id now intent :
  beside (reserve_member_purchase resource_pool_document pool_id now intent).
Proof.
  unfold reserve_member_purchase. apply beside_bind.
  { unfold assert_legacy_purchase_safe. apply beside_bind; [auto with beside|intros [|? ?]; auto with beside]. }
  intros _. apply beside_bind; [auto with beside|intros [pool|]; [|auto with beside]].
  destruct (negb _); [auto with beside|]. apply beside_bind.
  { unfold capacity_snapshot. apply beside_bind; [auto with beside|intros [p|]; [|auto with beside]].
    apply beside_bind; auto with beside. }
  intros snapshot. destruct (match intent with PREWARM => _ | REQUEST => _ end); [auto with beside|].
  destruct (_ <=? _); [auto with beside|]. apply beside_bind; [apply budget_beside|auto with beside].
Qed.

Lemma insert_member_ok i m s :
  m_allocated_resource_id m = None → session_ok s → session_ok (insert_member i m s).1.
Proof.
  intros Hal Hok. unfold insert_member. rewrite run_query_at. destruct (session_ok_begin _ Hok) as [Hok1 He1].
  destruct (_ || _) eqn:Ht; [done|]. apply orb_false_iff in Ht as [_ Ht].
  apply bool_decide_eq_false_1, eq_None_not_Some in Ht. unfold write_instance.
  rewrite run_assoc, run_query_at. destruct (session_ok_begin _ Hok1) as [Hok2 He2].
  destruct (instance_conflict _ _); [done|].
  destruct (session_ok_execute (put_instance i) (autobegin (autobegin s))) as [Hok3 He3]; [done| |].
  { eapply (allocated_other (working (autobegin (autobegin s)))); [done|done|apply (so_working _ Hok2)]. }
  apply session_ok_bind; [done|intros _ _]. apply write_new_member; [done| |done].
  rewrite He3, He2. exact Ht.
Qed.

Lemma reserve_prewarm_keeps now me pool_id : keeps (reserve_prewarm resource_pool_document now me pool_id).
Proof.
  apply keeps_session. intros s Hs. unfold reserve_prewarm. apply session_ok_then.
  { apply beside_try; [apply purchase_beside| |done]. intros e. destruct (_ || _); auto with beside. }
  clear s Hs. intros required s Hs. destruct (negb required).
  - apply session_ok_then; [|done]. destruct Hs as [? ? ? ?]. by split.
  - apply session_ok_then; [by apply insert_member_ok|]. clear s Hs. intros _ s Hs.
    apply session_ok_then; [by apply commit_ok|done].
Qed.

(** *** Reserving a dedicated resource *)

Lemma purchase_aside pool_id now intent :
  aside (reserve_member_purchase resource_pool_document pool_id now intent).
Proof.
  unfold reserve_member_purchase. apply aside_bind.
  { unfold assert_legacy_purchase_safe. apply aside_bind; [auto with aside|intros [|? ?]; auto with aside]. }
  intros _. apply aside_bind; [auto with aside|intros [pool|]; [|auto with aside]].
  destruct (negb _); [auto with aside|]. apply aside_bind.
  { unfold capacity_snapshot. apply aside_bind; [auto with aside|intros [p|]; [|auto with aside]].
    apply aside_bind; auto with aside. }
  intros snapshot. destruct (match intent with PREWARM => _ | REQUEST => _ end); [auto with aside|].
  destruct (_ <=? _); [auto with aside|]. apply aside_bind; [apply budget_aside|auto with aside].
Qed.

(** A member bought for a resource that has none. *)
Lemma allocated_bought db i m r r' :
  allocated db → resources db !! r_id r = Some r → is_dedicated r → live r → r_allocated_instance_id r = None →
  pool_members db !! m_id m = None →
  (∀ k m0, pool_members db !! k = Some m0 → m_instance_id m0 ≠ m_instance_id m) →
  r_id r' = r_id r → r_provisioning_mode r' = r_provisioning_mode r → live r' → linked m r' →
  allocated (put_resource r' (put_member m (put_instance i db))).
Proof.
  intros Ha Hr Hd Hl Hnone Hnew Hfresh Hid Hmode Hl' Hlk.
  set (m0 := m <| m_allocated_resource_id := None |>).
  assert (allocated (put_member m0 db)) as Ha0 by (by apply allocated_new_member).
  apply (allocated_other (put_member m (put_resource r' (put_member m0 db)))).
  - cbn. by rewrite insert_insert_eq.
  - done.
  - eapply (allocated_assign (put_member m0 db) (m_id m) m0); try done. cbn. by rewrite lookup_insert_eq.
Qed.

Lemma buy_member_ok now me pool r c db :
  allocated c → allocated db → resources db !! r_id r = Some r → is_dedicated r → live r →
  r_allocated_instance_id r = None → session_ok (buy_member now me pool r (mk_session c db true [])).1.
Proof.
  intros Hc Ha Hr Hd Hl Hnone. unfold buy_member, insert_member, write_instance, write_member.
  rewrite run_assoc, run_query. destruct (_ || _) eqn:Ht; [by split|].
  apply orb_false_iff in Ht as [_ Ht]. apply bool_decide_eq_false_1, eq_None_not_Some in Ht.
  rewrite run_assoc, run_assoc, run_query. destruct (instance_conflict _ db); [by split|].
  rewrite run_execute, run_assoc, run_query. destruct (member_conflict _ _) eqn:Hconf.
  { split; [done| |done|done]. by eapply (allocated_other db). }
  rewrite !run_execute. split; [done| |done|done].
  eapply (allocated_bought db); [done|exact Hr|done|done|done|done| |done|done|done|by split].
  apply member_conflict_false; done.
Qed.

Lemma reserve_dedicated_keeps hook now de agent_id backend_id engine client_token fingerprint name cold db :
  audit_hook hook → allocated db →
  session_ok (reserve_dedicated_candidate config resource_pool_document hook now de agent_id backend_id engine
    client_token fingerprint name cold (mk_session db db true [])).1.
Proof.
  intros Hhook Ha. unfold reserve_dedicated_candidate. rewrite run_query.
  destruct (dedicated_placement _ _ _ _ _ db) as [[[a b] pool]|]; [|by split].
  destruct (agent_budget_aside pool agent_id "create" now db db []) as (db1 & [[]|e] & Hr1 & Hs1).
  2:{ unfold mbind, M_bind. rewrite Hr1. split; [done| |done|done]. by eapply allocated_aside. }
  rewrite (run_bind_ret _ _ _ _ _ Hr1).
  match goal with |- context [reserve_active_capacity_counters ?x ?y ?z ?t] =>
    destruct (reserve_counters_aside x y z t db db1 []) as (db2 & [[]|e] & Hr2 & Hs2) end.
  2:{ unfold mbind, M_bind. rewrite Hr2. split; [done| |done|done].
      eapply allocated_aside; [exact Hs2|]. by eapply allocated_aside. }
  rewrite (run_bind_ret _ _ _ _ _ Hr2).
  assert (allocated db2) as Ha2 by (eapply allocated_aside; [exact Hs2|]; by eapply allocated_aside).
  clear Hr1 Hs1 Hr2 Hs2 db1.
  set (r := build_dedicated_resource _ _ _ _ _ _ _ _).
  unfold insert_resource. rewrite run_assoc, run_query. destruct (_ || _) eqn:Hconf; [by split|].
  apply orb_false_iff in Hconf as [Hconf _]. rewrite run_execute. cbn [foldr].
  assert (resources db2 !! r_id r = None) as Hnew.
  { apply eq_None_not_Some. intros [o Ho]. destruct (resource_conflict_false _ _ Hconf _ _ Ho) as [Hne _].
    apply Hne. by eapply al_resources. }
  assert (allocated (put_resource r db2)) as Ha3 by (by apply allocated_new_resource).
  set (db3 := put_resource r db2) in *.
  assert (resources db3 !! r_id r = Some r) as Hr by (cbn; by rewrite lookup_insert_eq).
  destruct (claim_fresh_run (p_id pool) (r_id r) now db db3 []) as (db4 & [[m|]|e] & Hc & Hout).
  3:{ subst db4. unfold mbind, M_bind. rewrite Hc. by split. }
  - assert (allocated db4) as Ha4.
    { pose proof Hout as (r0 & _ & m0 & Hr0 & _ & _ & _ & Hm & Hdb).
      assert (r0 = r) as -> by congruence.
      eapply (allocated_handed_out (p_id pool) (r_id r) now db3 m db4 m
        (r <| r_allocated_instance_id := Some (m_instance_id m) |>) db4 r); try done.
      - rewrite Hdb. cbn. by rewrite insert_insert_eq.
      - rewrite Hdb. cbn. by rewrite !insert_insert_eq. }
    rewrite (run_bind_ret _ _ _ _ _ Hc), run_assoc, run_query, run_assoc, run_outcome.
    destruct (activate_dedicated_member _ _ _ _ _) as [[[m2 r2] cr]|e] eqn:Hact; [|by split].
    apply activate_some in Hact as (_ & Hsm & Hrid & Hmode & Hinst & Hst & _).
    rewrite run_assoc, run_execute, run_ret.
    apply session_ok_bind; [|intros _ _; apply session_ok_then; [|done]]; rewrite Hhook.
    2: apply commit_ok.
    all: split; [done| |done|done].
    all: eapply (allocated_handed_out (p_id pool) (r_id r) now db3 m db4 m2 r2 _ r); try done.
    all: try (unfold live; by rewrite Hst). all: by destruct cr.
  - subst db4. rewrite (run_bind_ret _ _ _ _ _ Hc). destruct cold; cbn [negb]; [|by split].
    rewrite run_assoc.
    destruct (purchase_aside (p_id pool) now REQUEST db db3 []) as (db5 & [required|e] & Hr5 & Hs5).
    2:{ unfold mbind, M_bind. rewrite Hr5. split; [done| |done|done]. by eapply allocated_aside. }
    rewrite (run_bind_ret _ _ _ _ _ Hr5).
    assert (allocated db5) as Ha5 by (by eapply allocated_aside).
    assert (resources db5 !! r_id r = Some r) as Hr6 by (destruct Hs5 as [_ ->]; done).
    apply session_ok_then.
    + destruct required; [by apply buy_member_ok|by split].
    + intros r' s Hs. apply session_ok_bind; [|intros _ _; apply session_ok_then; [|done]]; rewrite Hhook;
        [done|by apply commit_ok].
Qed.
End steps.
