(* ===== verification/DedicatedLate.v ===== *)
(** * Transactions of the dedicated pools that commit late

    Most transactions of the worker read their rows without a lock
    ([session.get]) and write at their commit: between the two, other sessions
    may commit.  Here such a transaction reads in one database and writes the
    columns it changed in another, and [late_commit] says when that keeps the
    invariant: the rows it changed are still as it read them where the claim and
    the allocation go. *)

From S2P Require Import Prelude PyString Models Config WriteGuard Worker AdapterInterface.
From S2P Require Import Dispatcher.
From S2P Require Import DispatchLoop Ddl Permission Capacity OperationBudget Service DedicatedMySQL.
From S2P Require Import DedicatedPools DedicatedProvisioner DedicatedWorker DedicatedSync.
From S2P Require Import DedicatedService DedicatedAdmin Reservation DedicatedAllocation.

(** ** Writing changed columns *)

(** The rows of [current], each with the columns written in which [new] differs
    from [loaded]. *)
Definition flushed {V} `{EqDecision V} (flush : V → V → V → V) (loaded new current : gmap string V) : gmap string V :=
  map_imap (λ k row, Some
    match loaded !! k, new !! k with
    | Some a, Some b => if decide (b = a) then row else flush a b row
    | _, _ => row
    end) current.

Lemma flushed_lookup {V} `{EqDecision V} flush (loaded new current : gmap string V) k v :
  flushed flush loaded new current !! k = Some v →
  ∃ row, current !! k = Some row
    ∧ (v = row ∧ (∀ a b, loaded !! k = Some a → new !! k = Some b → b = a)
       ∨ ∃ a b, loaded !! k = Some a ∧ new !! k = Some b ∧ b ≠ a ∧ v = flush a b row).
Proof.
  unfold flushed. rewrite map_lookup_imap. destruct (current !! k) as [row|]; [|done]. cbn.
  intros [= <-]. exists row. split; [done|].
  destruct (loaded !! k) as [a|]; [|by left]. destruct (new !! k) as [b|]; [|by left].
  case_decide as Hd; [left|right; by exists a, b]. split; [done|]. by intros ? ? [= <-] [= <-].
Qed.

Lemma flushed_row {V} `{EqDecision V} flush (loaded new current : gmap string V) k row :
  current !! k = Some row → ∃ v, flushed flush loaded new current !! k = Some v.
Proof. intros Hk. unfold flushed. rewrite map_lookup_imap, Hk. by eexists. Qed.

(** What a transaction read in [db0] and wrote as [db1] becomes when it commits
    on [db]; the other tables do not matter here. *)
Record commits_on (db0 db1 db db' : DB) : Prop := {
  co_members : pool_members db' = flushed flush_member (pool_members db0) (pool_members db1) (pool_members db);
  co_resources : resources db' = flushed flush_resource (resources db0) (resources db1) (resources db)
}.

Definition commit_late (db0 db1 db : DB) : DB :=
  db <| pool_members := flushed flush_member (pool_members db0) (pool_members db1) (pool_members db) |>
     <| resources := flushed flush_resource (resources db0) (resources db1) (resources db) |>.

Lemma commit_late_commits db0 db1 db : commits_on db0 db1 db (commit_late db0 db1 db).
Proof. by split. Qed.

(** The rows a transaction wrote are in [db] as it read them: a member it
    allocates or frees has the same instance and allocation, a resource it writes
    the same claim, mode and instance. *)
Record rows_as_read (db0 db1 db : DB) : Prop := {
  ar_member : ∀ k m m1, pool_members db0 !! k = Some m → pool_members db1 !! k = Some m1 →
    m_allocated_resource_id m1 ≠ m_allocated_resource_id m →
    ∃ row, pool_members db !! k = Some row ∧ same_member m row;
  ar_resource : ∀ k r r1, resources db0 !! k = Some r → resources db1 !! k = Some r1 → r1 ≠ r →
    ∃ row, resources db !! k = Some row ∧ r_provisioning_mode row = r_provisioning_mode r
      ∧ r_allocated_instance_id row = r_allocated_instance_id r ∧ r_worker_id row = r_worker_id r
}.

(** It is so when every row it read is still the same. *)
Lemma rows_unchanged db0 db1 db :
  pool_members db0 ⊆ pool_members db → resources db0 ⊆ resources db → rows_as_read db0 db1 db.
Proof.
  intros Hm Hr. split.
  - intros k m m1 Hk _ _. exists m. split; [by eapply lookup_weaken|done].
  - intros k r r1 Hk _ _. exists r. split; [by eapply lookup_weaken|done].
Qed.

(** What the worker's transactions do: they write resources under a claim only,
    keep or drop that claim, and hand out a member with a resource that they
    write as well. *)
Record worker_writes (db0 db1 : DB) : Prop := {
  ww_members : ∀ k, is_Some (pool_members db0 !! k) ↔ is_Some (pool_members db1 !! k);
  ww_resources : ∀ k, is_Some (resources db0 !! k) ↔ is_Some (resources db1 !! k);
  ww_member : ∀ k m m1, pool_members db0 !! k = Some m → pool_members db1 !! k = Some m1 →
    m_instance_id m1 = m_instance_id m
    ∧ (m_allocated_resource_id m1 = m_allocated_resource_id m
       ∨ ∀ rid, m_allocated_resource_id m1 = Some rid → resources db1 !! rid ≠ resources db0 !! rid);
  ww_resource : ∀ k r r1, resources db0 !! k = Some r → resources db1 !! k = Some r1 → r1 ≠ r →
    r_provisioning_mode r1 = r_provisioning_mode r ∧ is_Some (r_worker_id r)
    ∧ (r_allocated_instance_id r1 = r_allocated_instance_id r ∨ is_Some (r_allocated_instance_id r1))
}.

Lemma dirty_read {A} `{EqDecision A} (x y : A) : dirty x y x = y.
Proof. unfold dirty. by case_decide. Qed.

Section late.
  Context (db0 db1 db db' : DB).
  Context (H0 : allocated db0) (H1 : allocated db1) (Hdb : allocated db).
  Context (Hw : worker_writes db0 db1) (Hr : rows_as_read db0 db1 db) (Hc : commits_on db0 db1 db db').

(** A member row after the commit: its allocation is that of the row, or the one
    the transaction gave it. *)
Definition kept_member (k : string) (row m' : DedicatedPoolMember) : Prop :=
  m_allocated_resource_id m' = m_allocated_resource_id row
  ∧ ∀ m m1, pool_members db0 !! k = Some m → pool_members db1 !! k = Some m1 →
      m_allocated_resource_id m1 = m_allocated_resource_id m.

Definition moved_member (k : string) (row m' : DedicatedPoolMember) : Prop :=
  ∃ m m1, pool_members db0 !! k = Some m ∧ pool_members db1 !! k = Some m1
  ∧ m_allocated_resource_id m1 ≠ m_allocated_resource_id m ∧ same_member m row
  ∧ m_allocated_resource_id m' = m_allocated_resource_id m1.

Lemma late_member k m' :
  pool_members db' !! k = Some m' →
  ∃ row, pool_members db !! k = Some row ∧ m_id m' = m_id row ∧ m_instance_id m' = m_instance_id row
  ∧ (kept_member k row m' ∨ moved_member k row m').
Proof using Hw Hr Hc.
  rewrite (co_members _ _ _ _ Hc).
  intros (row & Hrow & [[-> Hsame]|(m & m1 & Hm & Hm1 & Hne & ->)])%flushed_lookup; exists row.
  - split_and!; [done..|]. left. split; [done|]. intros m m1 Hm Hm1. by rewrite (Hsame m m1).
  - destruct (ww_member _ _ Hw _ _ _ Hm Hm1) as [Hi _]. cbn. rewrite Hi, dirty_same. split_and!; [done..|].
    destruct (decide (m_allocated_resource_id m1 = m_allocated_resource_id m)) as [He|Hd].
    + left. split; [cbn; by rewrite He, dirty_same|]. intros ? ? Ha Hb. congruence.
    + right. destruct (ar_member _ _ _ Hr _ _ _ Hm Hm1 Hd) as (row' & Hrow' & Hs).
      assert (row' = row) as -> by congruence. exists m, m1. split_and!; try done.
      cbn. destruct Hs as (_ & _ & ->). by rewrite dirty_read.
Qed.

Lemma member_late k row :
  pool_members db !! k = Some row → ∃ m', pool_members db' !! k = Some m'.
Proof using Hc. rewrite (co_members _ _ _ _ Hc). apply flushed_row. Qed.

(** A resource row after the commit. *)
Definition kept_resource (k : string) (row r' : DBInstanceResource) : Prop :=
  r' = row ∧ resources db1 !! k = resources db0 !! k.

Record moved_resource (k : string) (row r' r r1 : DBInstanceResource) : Prop := {
  mr_loaded : resources db0 !! k = Some r;
  mr_new : resources db1 !! k = Some r1;
  mr_changed : r1 ≠ r;
  mr_claimed : is_Some (r_worker_id row);
  mr_claim : r_worker_id r = r_worker_id row;
  mr_mode0 : r_provisioning_mode r = r_provisioning_mode row;
  mr_mode1 : r_provisioning_mode r1 = r_provisioning_mode row;
  mr_mode : r_provisioning_mode r' = r_provisioning_mode row;
  mr_instance0 : r_allocated_instance_id r = r_allocated_instance_id row;
  mr_instance : r_allocated_instance_id r' = r_allocated_instance_id r1;
  mr_placed : r_allocated_instance_id r1 = r_allocated_instance_id r ∨ is_Some (r_allocated_instance_id r1);
  mr_status : r_status r' = dirty (r_status r) (r_status r1) (r_status row);
  mr_worker : r_worker_id r' = r_worker_id r1
}.

Lemma late_resource k r' :
  resources db' !! k = Some r' →
  ∃ row, resources db !! k = Some row ∧ r_id r' = r_id row
  ∧ (kept_resource k row r' ∨ ∃ r r1, moved_resource k row r' r r1).
Proof using Hw Hr Hc.
  rewrite (co_resources _ _ _ _ Hc).
  intros (row & Hrow & [[-> Hsame]|(r & r1 & Hr0 & Hr1 & Hne & ->)])%flushed_lookup; exists row.
  - split_and!; [done..|]. left. split; [done|].
    pose proof (ww_resources _ _ Hw k) as Hk.
    destruct (resources db0 !! k) as [r|], (resources db1 !! k) as [r1|].
    + f_equal. by apply Hsame.
    + by destruct (proj1 Hk ltac:(by eexists)).
    + by destruct (proj2 Hk ltac:(by eexists)).
    + done.
  - split_and!; [done..|]. right. exists r, r1.
    destruct (ww_resource _ _ Hw _ _ _ Hr0 Hr1 Hne) as (Hmode & Hcl & Hpl).
    destruct (ar_resource _ _ _ Hr _ _ _ Hr0 Hr1 Hne) as (row' & Hrow' & Hm & Hi & Hwk).
    assert (row' = row) as -> by congruence. split; try done; cbn.
    + by rewrite Hwk.
    + congruence.
    + by rewrite Hmode, dirty_same.
    + rewrite Hi. apply dirty_read.
    + rewrite Hwk. apply dirty_read.
Qed.

(** The member of a changed resource's row, and whether it changed. *)
Lemma moved_live k row r' r r1 :
  resources db !! k = Some row → moved_resource k row r' r r1 → is_dedicated row →
  live row ∧ live r ∧ (live r1 → live r') ∧ (live r' → live r1).
Proof using H0 Hdb.
  intros Hrow [Hl Hn _ [w Hcl] Hc0 Hm0 _ _ _ _ _ Hst _] Hd.
  assert (live row) as Hlr.
  { intros Hs. assert (r_worker_id row = None) by (eapply (al_closed _ Hdb); [exact Hrow|done|by intros []]). congruence. }
  assert (live r) as Hl0.
  { intros Hs. assert (r_worker_id r = None); [|congruence].
    eapply (al_closed _ H0); [exact Hl|unfold is_dedicated in *; congruence|by intros []]. }
  split; [done|]. split; [done|]. unfold live in *. rewrite Hst. unfold dirty. case_decide as He; [|done].
  rewrite He. done.
Qed.

Lemma late_serves k m' rid :
  pool_members db' !! k = Some m' → m_allocated_resource_id m' = Some rid →
  ∃ r', resources db' !! rid = Some r' ∧ is_dedicated r' ∧ live r' ∧ linked m' r'.
Proof using All.
  intros Hm' Hal. destruct (late_member k m' Hm') as (row & Hrow & Hid & Hi & Hcase).
  assert (Hres : ∀ row2, resources db !! rid = Some row2 → ∃ r', resources db' !! rid = Some r').
  { intros row2. rewrite (co_resources _ _ _ _ Hc). apply flushed_row. }
  destruct Hcase as [[Ha Hkeep]|(m & m1 & Hm & Hm1 & Hne & Hs & Ha)].
  - rewrite Ha in Hal. destruct (al_serves _ Hdb _ _ _ Hrow Hal) as (r2 & Hr2 & Hd2 & Hl2 & Hla & Hlb).
    destruct (Hres r2 Hr2) as [r' Hr']. exists r'. split; [done|].
    destruct (late_resource rid r' Hr') as (r2' & Hr2' & Hidr & Hk2). assert (r2' = r2) as -> by congruence.
    destruct Hk2 as [[-> _]|(r & r1 & Hmv)]; [split_and!; [done|done|split; congruence]|].
    pose proof (moved_live _ _ _ _ _ Hr2 Hmv Hd2) as (_ & Hl & Hl1 & _).
    destruct Hmv as [Hl0 Hn _ _ _ Hm0 Hm1 Hmo Hi0 Hi1 _ _ _].
    destruct (al_placed _ H0 _ _ _ Hl0 ltac:(unfold is_dedicated in *; congruence) Hl ltac:(rewrite Hi0; exact Hlb))
      as (m0 & Hm00 & Him & Hla0 & Hlb0).
    destruct (proj1 (ww_members _ _ Hw (m_id m0)) ltac:(by eexists)) as [m01 Hm01].
    destruct (ww_member _ _ Hw _ _ _ Hm00 Hm01) as [Hi01 _].
    assert (m_allocated_resource_id m01 = m_allocated_resource_id m0) as Hal01.
    { destruct (decide (m_allocated_resource_id m01 = m_allocated_resource_id m0)) as [|Hd]; [done|].
      destruct (ar_member _ _ _ Hr _ _ _ Hm00 Hm01 Hd) as (row0 & Hrow0 & _ & Hi0' & _).
      assert (m_id m0 = k) as He by (eapply (al_instances _ Hdb); [exact Hrow0|exact Hrow|congruence]).
      rewrite He in Hm00, Hm01. by apply Hkeep. }
    destruct (al_serves _ H1 _ _ rid Hm01) as (r1' & Hr1' & Hd1 & Hl1' & _ & Hlb1).
    { rewrite Hal01, Hla0. f_equal. exact (al_resources _ H0 _ _ Hl0). }
    assert (r1' = r1) as -> by congruence.
    split; [unfold is_dedicated in *; congruence|]. split; [by apply Hl1|]. split; congruence.
  - destruct (al_serves _ H1 _ _ rid Hm1 ltac:(congruence)) as (r1 & Hr1 & Hd1 & Hl1 & Hla1 & Hlb1).
    destruct (ww_member _ _ Hw _ _ _ Hm Hm1) as [Hi1 [?|Hch]]; [done|]. specialize (Hch rid ltac:(congruence)).
    destruct (proj2 (ww_resources _ _ Hw rid) ltac:(by eexists)) as [r Hr0].
    destruct (ar_resource _ _ _ Hr _ _ _ Hr0 Hr1 ltac:(congruence)) as (r2 & Hr2 & _).
    destruct (Hres r2 Hr2) as [r' Hr']. exists r'. split; [done|].
    destruct (late_resource rid r' Hr') as (r2' & Hr2' & Hidr & Hk2). assert (r2' = r2) as -> by congruence.
    destruct Hk2 as [[_ He]|(ra & rb & Hmv)]; [congruence|].
    assert (ra = r ∧ rb = r1) as [-> ->] by (destruct Hmv; split; congruence).
    assert (is_dedicated r2) as Hd2 by (destruct Hmv; unfold is_dedicated in *; congruence).
    pose proof (moved_live _ _ _ _ _ Hr2 Hmv Hd2) as (_ & _ & Hlv & _).
    destruct Hmv. destruct Hs as (Hsid & Hsi & Hsa).
    split; [unfold is_dedicated in *; congruence|]. split; [by apply Hlv|]. split; [|congruence].
    rewrite Ha, Hla1, Hidr. f_equal.
    rewrite (al_resources _ H1 _ _ Hr1). symmetry. exact (al_resources _ Hdb _ _ Hr2).
Qed.

(** A member row of the new database, from one the transaction left alone. *)
Lemma late_member_of k row :
  pool_members db !! k = Some row → (∀ m', pool_members db' !! k = Some m' → ¬ moved_member k row m') →
  ∃ m', pool_members db' !! m_id m' = Some m' ∧ m_instance_id m' = m_instance_id row
    ∧ m_allocated_resource_id m' = m_allocated_resource_id row.
Proof using Hw Hr Hc Hdb.
  intros Hrow Hno. destruct (member_late k row Hrow) as [m' Hm']. exists m'.
  destruct (late_member k m' Hm') as (row' & Hrow' & Hid & Hi & Hcase). assert (row' = row) as -> by congruence.
  rewrite Hid, (al_members _ Hdb _ _ Hrow). split; [done|]. split; [done|].
  destruct Hcase as [[Ha _]|Hmv]; [done|]. by destruct (Hno m' Hm').
Qed.

Lemma late_placed k r' i :
  resources db' !! k = Some r' → is_dedicated r' → live r' → r_allocated_instance_id r' = Some i →
  ∃ m, pool_members db' !! m_id m = Some m ∧ m_instance_id m = i ∧ linked m r'.
Proof using All.
  intros Hr' Hd Hl Hi. destruct (late_resource k r' Hr') as (row & Hrow & Hid & Hcase).
  assert (Hkr : r_id row = k) by exact (al_resources _ Hdb _ _ Hrow).
  assert (Hfrom : ∀ m row0, m_instance_id row0 = i → m_allocated_resource_id row0 = Some k →
    pool_members db' !! m_id m = Some m → m_instance_id m = m_instance_id row0 →
    m_allocated_resource_id m = m_allocated_resource_id row0 →
    ∃ m, pool_members db' !! m_id m = Some m ∧ m_instance_id m = i ∧ linked m r').
  { intros m row0 ? ? ? ? ?. exists m. split_and!; [done|congruence|]. split; congruence. }
  destruct Hcase as [[-> Hsame]|(r & r1 & Hmv)].
  - destruct (al_placed _ Hdb _ _ _ Hrow Hd Hl Hi) as (row0 & Hrow0 & Him & Hla & _).
    destruct (late_member_of _ _ Hrow0) as (m' & ? & ? & ?); [|eapply (Hfrom m' row0); congruence].
    intros m' _ (m & m1 & Hm & Hm1 & Hne & (_ & Hsi & Hsa) & _).
    destruct (al_serves _ H0 _ _ k Hm ltac:(congruence)) as (rr & Hrr & Hdr & Hlr & _ & Hlb).
    destruct (al_placed _ H1 k rr i) as (m2 & Hm2 & Him2 & Hla2 & _); [congruence|done|done|congruence|].
    destruct (ww_member _ _ Hw _ _ _ Hm Hm1) as [Hi1 _].
    assert (m_id m2 = m_id row0) as He by (eapply (al_instances _ H1); [exact Hm2|exact Hm1|congruence]).
    assert (m2 = m1) as -> by congruence. apply Hne.
    rewrite Hla2. rewrite (al_resources _ H0 _ _ Hrr). congruence.
  - assert (is_dedicated row) as Hdrow by (destruct Hmv; unfold is_dedicated in *; congruence).
    pose proof (moved_live _ _ _ _ _ Hrow Hmv Hdrow) as (Hlrow & Hl0 & _ & Hl1). specialize (Hl1 Hl).
    destruct Hmv as [Hr0 Hr1 _ _ _ Hm0 Hm1 _ Hi0 Hi1 _ _ _].
    destruct (al_placed _ H1 k r1 i Hr1 ltac:(unfold is_dedicated in *; congruence) Hl1 ltac:(congruence))
      as (m1 & Hm1k & Him1 & Hla1 & _). rewrite (al_resources _ H1 _ _ Hr1) in Hla1.
    destruct (proj2 (ww_members _ _ Hw (m_id m1)) ltac:(by eexists)) as [m Hm].
    destruct (ww_member _ _ Hw _ _ _ Hm Hm1k) as [Him _].
    destruct (decide (m_allocated_resource_id m1 = m_allocated_resource_id m)) as [He|Hne].
    + destruct (al_serves _ H0 _ _ k Hm ltac:(congruence)) as (r0 & Hr0' & _ & _ & _ & Hlb0).
      assert (r0 = r) as -> by congruence.
      destruct (al_placed _ Hdb _ _ i Hrow Hdrow Hlrow ltac:(congruence)) as (row0 & Hrow0 & Him0 & Hla0 & _).
      destruct (late_member_of _ _ Hrow0) as (m' & ? & ? & ?); [|eapply (Hfrom m' row0); congruence].
      intros m' _ (ma & mb & Hma & Hmb & Hne & (_ & Hsi & _) & _).
      assert (m_id row0 = m_id m1) as Hk by (eapply (al_instances _ H0); [exact Hma|exact Hm|congruence]).
      rewrite Hk in Hma, Hmb. congruence.
    + destruct (ar_member _ _ _ Hr _ _ _ Hm Hm1k Hne) as (row0 & Hrow0 & Hs).
      destruct (member_late _ _ Hrow0) as [m' Hm'].
      destruct (late_member _ _ Hm') as (row0' & Hrow0' & Hid' & Hi' & Hcase'). assert (row0' = row0) as -> by congruence.
      destruct Hs as (Hsid & Hsi & _). exists m'. rewrite Hid', (al_members _ Hdb _ _ Hrow0).
      assert (m_allocated_resource_id m' = Some k) as Ha'.
      { destruct Hcase' as [[_ Hk]|(ma & mb & Hma & Hmb & _ & _ & ->)]; [by rewrite (Hk _ _ Hm Hm1k) in Hne|congruence]. }
      split_and!; [done|congruence|]. split; congruence.
Qed.

(** A late commit keeps the invariant. *)
Lemma late_commit : allocated db'.
Proof using All.
  split.
  - intros k m' (row & Hrow & -> & _)%late_member. by eapply al_members.
  - intros k r' (row & Hrow & -> & _)%late_resource. by eapply al_resources.
  - intros k1 k2 m1 m2 (r1 & Hr1 & _ & Hi1 & _)%late_member (r2 & Hr2 & _ & Hi2 & _)%late_member He.
    eapply (al_instances _ Hdb); [exact Hr1|exact Hr2|congruence].
  - apply late_serves.
  - apply late_placed.
  - intros k r' Hr' Hd Hst. destruct (late_resource k r' Hr') as (row & Hrow & _ & [[-> _]|(r & r1 & Hmv)]).
    { by eapply (al_ready _ Hdb). }
    destruct Hmv as [Hr0 Hr1 _ _ _ Hm0 Hm1 Hmo Hi0 Hi1 Hpl Hs _]. rewrite Hi1. rewrite Hst in Hs. unfold dirty in Hs.
    case_decide as Hsame.
    + destruct Hpl as [->|?]; [|done]. rewrite Hi0. eapply (al_ready _ Hdb); [exact Hrow| |done].
      unfold is_dedicated in *; congruence.
    + eapply (al_ready _ H1); [exact Hr1| |done]. unfold is_dedicated in *; congruence.
  - intros k r' Hr' Hd Hl. destruct (late_resource k r' Hr') as (row & Hrow & _ & [[-> _]|(r & r1 & Hmv)]).
    { by eapply (al_closed _ Hdb). }
    assert (is_dedicated row) as Hdrow by (destruct Hmv; unfold is_dedicated in *; congruence).
    pose proof (moved_live _ _ _ _ _ Hrow Hmv Hdrow) as (_ & _ & Hlv & _).
    destruct Hmv. rewrite mr_worker0. eapply (al_closed _ H1); [done|unfold is_dedicated in *; congruence|tauto].
Qed.
End late.

(** ** What the transactions of the worker write *)

Definition member_written (db0 db1 : DB) : Prop :=
  pool_members db1 = pool_members db0
  ∨ ∃ k m m', pool_members db0 !! k = Some m ∧ pool_members db1 = <[k := m']> (pool_members db0)
    ∧ m_instance_id m' = m_instance_id m
    ∧ (m_allocated_resource_id m' = m_allocated_resource_id m ∨ m_allocated_resource_id m' = None
       ∨ ∃ rid, m_allocated_resource_id m' = Some rid ∧ resources db1 !! rid ≠ resources db0 !! rid).

Definition resource_written (db0 db1 : DB) : Prop :=
  resources db1 = resources db0
  ∨ ∃ k r r', resources db0 !! k = Some r ∧ resources db1 = <[k := r']> (resources db0)
    ∧ r_provisioning_mode r' = r_provisioning_mode r ∧ is_Some (r_worker_id r)
    ∧ (r_allocated_instance_id r' = r_allocated_instance_id r ∨ is_Some (r_allocated_instance_id r')).

Lemma same_domain {V} (k : string) (a b : V) (m m' : gmap string V) :
  m !! k = Some a → m' = <[k := b]> m → ∀ k', is_Some (m !! k') ↔ is_Some (m' !! k').
Proof.
  intros Hk -> k'. destruct (decide (k' = k)) as [->|Hne]; [rewrite lookup_insert_eq, Hk; by split|].
  by rewrite lookup_insert_ne.
Qed.

Lemma written_writes db0 db1 : member_written db0 db1 → resource_written db0 db1 → worker_writes db0 db1.
Proof.
  intros Hm Hr. split.
  - destruct Hm as [->|(k & m & m' & Hk & He & _)]; [done|]. by eapply same_domain.
  - destruct Hr as [->|(k & r & r' & Hk & He & _)]; [done|]. by eapply same_domain.
  - intros k m m1. destruct Hm as [->|(k' & m0 & m' & Hk & -> & Hi & Ha)].
    { intros H1 H2. assert (m1 = m) as -> by congruence. split; [done|by left]. }
    intros H1. destruct (decide (k = k')) as [->|Hne].
    + rewrite lookup_insert_eq. intros [= <-]. assert (m0 = m) as -> by congruence. split; [done|].
      destruct Ha as [?|[Ha|(rid & Ha & Hch)]]; [by left|right..]; intros rid'; rewrite Ha; [done|].
      by intros [= <-].
    + rewrite lookup_insert_ne by done. intros H2. assert (m1 = m) as -> by congruence. split; [done|by left].
  - intros k r r1. destruct Hr as [->|(k' & r0 & r' & Hk & -> & Hrest)]; [intros; congruence|].
    intros H1. destruct (decide (k = k')) as [->|Hne].
    + rewrite lookup_insert_eq. intros [= <-] _. by assert (r0 = r) as -> by congruence.
    + rewrite lookup_insert_ne by done. intros; congruence.
Qed.

(** [m] makes no other changes than these. *)
Definition writes {A} (m : M (Session DB) A) : Prop :=
  ∀ db, allocated db → worker_writes db (txn_db m db).

Lemma writes_none db : worker_writes db db.
Proof. by apply written_writes; left. Qed.

Lemma resource_put w rid db k r r' dbx :
  allocated db → resources dbx = <[k := r']> (resources db) →
  own_resource w rid db = Some r → k = r_id r →
  r_provisioning_mode r' = r_provisioning_mode r →
  r_allocated_instance_id r' = r_allocated_instance_id r ∨ is_Some (r_allocated_instance_id r') →
  resource_written db dbx.
Proof.
  intros Ha He [Hr Hw]%own_resource_some -> Hm Hi. right. exists rid, r, r'.
  rewrite He, (al_resources _ Ha _ _ Hr). by split_and!.
Qed.

Lemma member_put rid db k m m' dbx :
  allocated db → pool_members dbx = <[k := m']> (pool_members db) →
  member_of_resource rid db = Some m → k = m_id m → m_instance_id m' = m_instance_id m →
  m_allocated_resource_id m' = m_allocated_resource_id m ∨ m_allocated_resource_id m' = None →
  member_written db dbx.
Proof.
  intros Ha He (k0 & Hk & _)%member_of_resource_some -> Hi Hal. right. exists k0, m, m'.
  rewrite He, (al_members _ Ha _ _ Hk). split_and!; try done. tauto.
Qed.

Lemma member_kept k0 db k m m' dbx :
  allocated db → pool_members dbx = <[k := m']> (pool_members db) →
  pool_members db !! k0 = Some m → k = m_id m → same_member m m' → member_written db dbx.
Proof.
  intros Ha He Hk -> (Hid & Hi & Hal). right. exists k0, m, m'.
  rewrite He, (al_members _ Ha _ _ Hk). split_and!; [done..|]. by left.
Qed.

Ltac written :=
  first [apply writes_none | apply written_writes;
    [first [by left | eapply member_put; [done|reflexivity|eassumption|reflexivity|reflexivity|first [by left|by right]]]
    |first [by left | eapply resource_put; [done|reflexivity|eassumption|reflexivity|reflexivity|by left]]]].

Ltac run_writes := intros db Ha; unfold txn_db, with_session, open_session, write_member; run_branches.

Section writes.
  Context (config : TenantProvisioningConfig) (openapi_details : PyExc → option OpenAPIDetails).

Lemma finish_disconnect_writes w now rid : writes (finish_dedicated_disconnect w now rid).
Proof. unfold finish_dedicated_disconnect, with_owned, save_both. run_writes; written. Qed.

Lemma begin_cleanup_writes w now rid : writes (begin_dedicated_cleanup w now rid).
Proof. unfold begin_dedicated_cleanup, save_both. run_writes; written. Qed.

Lemma finish_restore_writes w rid : writes (finish_dedicated_restore w rid).
Proof. unfold finish_dedicated_restore, with_owned, save_both. run_writes; written. Qed.

Lemma lifecycle_failure_writes w now rid e : writes (record_lifecycle_failure config w now rid e).
Proof. unfold record_lifecycle_failure, with_owned. run_writes; written. Qed.

Lemma finish_cleanup_writes w now rid sanitized : writes (finish_dedicated_cleanup w now rid sanitized).
Proof.
  unfold finish_dedicated_cleanup, with_owned, save_both. run_writes; try written.
  all: match goal with
  | |- context [release_active_capacity_counters ?a ?b] =>
      destruct (release_counters_aside a b db db []) as (db1 & [[]|e] & Hr & [Hsm Hsr]);
      [rewrite (run_bind_ret _ _ _ _ _ Hr)|unfold mbind, M_bind; rewrite Hr; apply writes_none]
  end.
  all: run_branches; try written.
  all: apply written_writes;
    [eapply member_put; [done|cbn; rewrite Hsm; reflexivity|eassumption|reflexivity|reflexivity|by right]
    |eapply resource_put; [done|cbn; rewrite Hsr; reflexivity|eassumption|reflexivity|reflexivity|by left]].
Qed.

(** A member the worker holds. *)
Lemma own_member_writes w mid f :
  (∀ m, same_member m (f m)) → writes (on_own_member w mid (λ m, save_member (f m))).
Proof.
  intros Hf. unfold on_own_member, save_member. run_writes; try written.
  unfold own_member in *. destruct (pool_members db !! mid) as [m|] eqn:Hm; [|done]. cbn in *. split_matches.
  apply written_writes; [|by left]. eapply member_kept; [done|reflexivity|exact Hm|exact (proj1 (Hf _))|apply Hf].
Qed.

Lemma advance_failure_writes now mid e : writes (record_advance_failure openapi_details now mid e).
Proof.
  unfold record_advance_failure. run_writes; try written; (apply written_writes; [|by left]);
    (eapply member_kept; [done|reflexivity|eassumption|by destruct (openapi_details e)|by destruct (openapi_details e)]).
Qed.

(** The hand-out of a member: its resource gets the member's instance. *)
Lemma handed_out_writes pool_id w rid now db m1 db1 m2 r2 dbx r :
  allocated db → handed_out pool_id rid now db m1 db1 → own_resource w rid db = Some r →
  same_member m1 m2 → r_id r2 = r_id r → r_provisioning_mode r2 = r_provisioning_mode r →
  r_allocated_instance_id r2 = Some (m_instance_id m1) →
  pool_members dbx = <[m_id m2 := m2]> (pool_members db1) →
  resources dbx = <[r_id r2 := r2]> (resources db1) → worker_writes db dbx.
Proof.
  intros Ha (r0 & pool & m0 & Hr0 & Hnone & _ & Hc & -> & ->) [Hr Hw]%own_resource_some (Hid & Hi & Hal)
    Hrid Hmode Halloc Hm Hres.
  assert (r0 = r) as -> by congruence. apply member_candidate_some in Hc as (k & Hk & _ & _ & _).
  pose proof (al_resources _ Ha _ _ Hr) as Hridr. pose proof (al_members _ Ha _ _ Hk) as Hkm.
  assert (pool_members dbx = <[k := m2]> (pool_members db)) as Hm'.
  { rewrite Hm. cbn. rewrite Hid. cbn. by rewrite Hkm, insert_insert_eq. }
  assert (resources dbx = <[rid := r2]> (resources db)) as Hres'.
  { rewrite Hres. cbn. by rewrite Hrid, Hridr, insert_insert_eq. }
  apply written_writes.
  - right. exists k, m0, m2. split_and!; [done|done|by rewrite Hi|]. right. right. exists rid.
    rewrite Hal, Hres', lookup_insert_eq, Hr. split; [done|]. intros [= ->]. congruence.
  - right. exists rid, r, r2. split_and!; [done|done|done|by eexists|]. right. by rewrite Halloc.
Qed.

Lemma fulfill_writes w cid now rid : writes (fulfill_pending_resource config w cid now rid).
Proof.
  intros db Ha. unfold fulfill_pending_resource, txn_db, with_session, open_session. rewrite run_query_begin.
  destruct (own_resource w rid db) as [r|] eqn:Ho; [|apply writes_none]. rewrite run_query.
  destruct (_ ≫= _) as [pool_id|]; [|run_branches; written].
  destruct (claim_fresh_run pool_id rid now db db []) as (db1 & [[m|]|e] & Hc & Hout).
  3:{ unfold mbind, M_bind. rewrite Hc. apply writes_none. }
  2:{ rewrite (run_bind_ret _ _ _ _ _ Hc). subst db1. run_branches; written. }
  rewrite (run_bind_ret _ _ _ _ _ Hc), !run_query, run_outcome.
  destruct (activate_dedicated_member _ _ _ _ _) as [[[m2 r2] c]|e] eqn:Hact; [|apply writes_none].
  apply activate_some in Hact as (_ & Hsm & Hrid & Hmode & Halloc & Hst & _).
  rewrite run_execute.
  eapply (handed_out_writes pool_id w rid now db m db1 m2 (release_resource r2) _ r);
    [done|exact Hout|exact Ho|done|done|done|done|by destruct c|by destruct c].
Qed.

(** ** The transactions that may commit late *)
Inductive worker_commit : DB → DB → Prop :=
| late_destroy_failed w now mid db :
    worker_commit db (txn_db (on_own_member w mid (λ m, save_member (destroy_failed config now m))) db)
| late_destroyed w mid db : worker_commit db (txn_db (on_own_member w mid (λ m, save_member (destroyed m))) db)
| late_disconnected w now rid db : worker_commit db (txn_db (finish_dedicated_disconnect w now rid) db)
| late_begin_cleanup w now rid db : worker_commit db (txn_db (begin_dedicated_cleanup w now rid) db)
| late_cleaned w now rid sanitized db :
    worker_commit db (txn_db (finish_dedicated_cleanup w now rid sanitized) db)
| late_restored w rid db : worker_commit db (txn_db (finish_dedicated_restore w rid) db)
| late_lifecycle_failure w now rid e db :
    worker_commit db (txn_db (record_lifecycle_failure config w now rid e) db)
| late_fulfill w cid now rid db :
    (∀ r, resources db !! rid = Some r → is_dedicated r) →
    worker_commit db (txn_db (fulfill_pending_resource config w cid now rid) db)
| late_checked w now mid o db : worker_commit db (txn_db (finish_health_check config w now mid o) db)
| late_advanced w now mid previous result db :
    worker_commit db (txn_db (on_own_member w mid
      (λ m, save_member (advanced_member config now previous result m))) db)
| late_advance_failure now mid e db :
    worker_commit db (txn_db (record_advance_failure openapi_details now mid e) db).

Lemma worker_commit_writes db db1 :
  allocated db → worker_commit db db1 → worker_writes db db1 ∧ allocated db1.
Proof.
  intros Ha Hs. destruct Hs.
  - split; [by apply own_member_writes|by apply on_own_member_keeps].
  - split; [by apply own_member_writes|by apply on_own_member_keeps].
  - split; [by apply finish_disconnect_writes|by apply finish_disconnect_keeps].
  - split; [by apply begin_cleanup_writes|by apply begin_cleanup_keeps].
  - split; [by apply finish_cleanup_writes|by apply finish_cleanup_keeps].
  - split; [by apply finish_restore_writes|by apply finish_restore_keeps].
  - split; [by apply lifecycle_failure_writes|by apply record_lifecycle_failure_keeps].
  - split; [by apply fulfill_writes|by apply fulfill_pending_keeps].
  - assert (∀ m, same_member m (checked_member config now o m)) as Hc by (intros m; by destruct o).
    split; [by apply own_member_writes|by apply on_own_member_keeps].
  - split; [by apply own_member_writes|by apply on_own_member_keeps].
  - split; [by apply advance_failure_writes|by apply record_advance_failure_keeps].
Qed.
End writes.
