(* ===== verification/DedicatedSystem.v ===== *)
(** * The dedicated pools: all transactions, interleaved

    [pool_step] is one transaction of a worker, a request or an administrator on
    dedicated pools that commits on the rows it read; [pool_reachable] what any
    interleaving of them produces, with the call of a preparation step in between
    two of its transactions, and with the worker's transactions that read without
    a lock committing later, on other rows.  A small pool with its backend and one
    Agent ends the file. *)

From S2P Require Import Prelude Models PyString WriteGuard Config Worker AdapterInterface.
From S2P Require Import Dispatcher DispatchLoop Permission Ddl Capacity Service OperationBudget.
From S2P Require Import DedicatedMySQL DedicatedPools DedicatedProvisioner DedicatedWorker.
From S2P Require Import DedicatedSync DedicatedService DedicatedAdmin DedicatedAllocation.
From S2P Require Import DedicatedLate.

(** What the rest of the program may do: anything to the other tables and to
    resources that are not dedicated. *)
Record pool_environment (db db' : DB) : Prop := {
  pe_members : pool_members db' = pool_members db;
  pe_dedicated : ∀ k r, is_dedicated r → resources db' !! k = Some r ↔ resources db !! k = Some r;
  pe_keyed : ∀ k r, resources db' !! k = Some r → r_id r = k
}.

(** One preparation step, with what its call, if it has one, returns. *)
Definition round_of (encrypt : string → string) (decrypt : string → outcome string) (now : time)
    (av : AdvanceEntropy) (allow : bool) (mid : string) (answer : PendingCall → CallResult) (db : DB) : DB :=
  match with_session (begin_advance encrypt decrypt av allow mid) db with
  | (db1, Ret (_, StepDone _)) | (db1, Raise _) => db1
  | (db1, Ret (l, call)) => txn_db (finish_advance encrypt now av l call (answer call)) db1
  end.

Section system.
  Context (config : TenantProvisioningConfig) (encrypt : string → string)
    (decrypt : string → outcome string) (openapi_details : PyExc → option OpenAPIDetails)
    (resource_pool_document : DB → ResourcePoolDocument).

Inductive pool_step : DB → DB → Prop :=
| step_claim_deleting w now db : pool_step db (txn_db (claim_deleting_member config w now) db)
| step_destroy_failed w now mid db :
    pool_step db (txn_db (on_own_member w mid (λ m, save_member (destroy_failed config now m))) db)
| step_destroyed w mid db :
    pool_step db (txn_db (on_own_member w mid (λ m, save_member (destroyed m))) db)
| step_claim_lifecycle w now db : pool_step db (txn_db (claim_lifecycle_resource config w now) db)
| step_disconnected w now rid db : pool_step db (txn_db (finish_dedicated_disconnect w now rid) db)
| step_begin_cleanup w now rid db : pool_step db (txn_db (begin_dedicated_cleanup w now rid) db)
| step_cleaned w now rid sanitized db :
    pool_step db (txn_db (finish_dedicated_cleanup w now rid sanitized) db)
| step_restored w rid db : pool_step db (txn_db (finish_dedicated_restore w rid) db)
| step_lifecycle_failure w now rid e db :
    pool_step db (txn_db (record_lifecycle_failure config w now rid e) db)
| step_claim_pending w now db : pool_step db (txn_db (claim_pending_resource config w now) db)
(** The worker hands members to resources it claimed, all of them dedicated. *)
| step_fulfill w cid now rid db :
    (∀ r, resources db !! rid = Some r → is_dedicated r) →
    pool_step db (txn_db (fulfill_pending_resource config w cid now rid) db)
| step_mark_stale now db : pool_step db (txn_db (mark_expired_evidence_stale now) db)
| step_claim_check w now pool db : pool_step db (txn_db (claim_check_of config w now pool) db)
| step_checked w now mid o db : pool_step db (txn_db (finish_health_check config w now mid o) db)
| step_claim_replenishing w now db : pool_step db (txn_db (claim_replenishing_member config w now) db)
| step_begin_advance av allow mid db :
    pool_step db (txn_db (begin_advance encrypt decrypt av allow mid) db)
| step_advance_failure now mid e db :
    pool_step db (txn_db (record_advance_failure openapi_details now mid e) db)
| step_advanced w now mid previous result db :
    pool_step db (txn_db (on_own_member w mid
      (λ m, save_member (advanced_member config now previous result m))) db)
| step_prewarm now me pool_id db :
    pool_step db (txn_db (reserve_prewarm resource_pool_document now me pool_id) db)
| step_claim_target w now db : pool_step db (txn_db (claim_permission_sync_target config w now) db)
| step_store_target l db : pool_step db (txn_db (store_target l) db)
| step_target_failure w now tid db :
    pool_step db (txn_db (record_permission_sync_failure config w now tid) db)
| step_reserve hook now de agent_id backend_id engine token fingerprint name cold db :
    audit_hook hook →
    pool_step db (committed (reserve_dedicated_candidate config resource_pool_document hook now de agent_id
      backend_id engine token fingerprint name cold (mk_session db db true [])).1)
| step_delete hook now agent_id rid db :
    audit_hook hook → pool_step db (txn_db (delete_resource config hook now agent_id rid) db)
| step_restore rid db : pool_step db (txn_db (restore_db_instance_resource rid) db)
| step_action mid action allow db : pool_step db (request (set_member_action mid action allow) db).1
| step_register id now pool_id instance_id cid db :
    pool_step db (request (register_external_member id now pool_id instance_id cid) db).1
| step_cooldown mid h db : pool_step db (request (update_member_delete_cooldown mid h) db).1
| step_pool_environment db db' : pool_environment db db' → pool_step db db'.

(** A preparation step loads its rows in one transaction ([db0]), calls out, and
    stores the result in another.  When the member was bought for a resource,
    the call must not outlast the deletion of that resource.

    A transaction of the worker that reads without a lock (it read [db0], and
    alone would have made [db1] of it) may commit its changed columns on another
    database.  It must not outlast the claim it was read under: the resource it
    writes is still claimed as it was, on the same instance, and the member it
    hands out or frees still allocated as it was. *)
Inductive pool_reachable : DB → Prop :=
| pool_start : pool_reachable empty_db
| pool_next db db' : pool_reachable db → pool_step db db' → pool_reachable db'
| pool_advance now av allow mid l call result db0 db :
    pool_reachable db0 → pool_reachable db →
    txn_out (begin_advance encrypt decrypt av allow mid) db0 = Ret (l, call) →
    (∀ step, call ≠ StepDone step) →
    (∀ lr, lm_resource l = Some lr → still_serving (lr_resource lr) db) →
    pool_reachable (txn_db (finish_advance encrypt now av l call result) db)
| pool_late db0 db1 db db' :
    pool_reachable db0 → pool_reachable db → worker_commit config openapi_details db0 db1 →
    rows_as_read db0 db1 db → commits_on db0 db1 db db' → pool_reachable db'.

Lemma environment_allocated db db' : pool_environment db db' → allocated db → allocated db'.
Proof.
  intros [Hm Hd Hk] Ha. split; rewrite ?Hm.
  - apply (al_members _ Ha).
  - done.
  - apply (al_instances _ Ha).
  - intros k m rid Hkm Hrid. destruct (al_serves _ Ha _ _ _ Hkm Hrid) as (r & Hr & Hdr & ?).
    exists r. by rewrite Hd.
  - intros k r i Hr Hdr. rewrite Hd in Hr by done. by eapply (al_placed _ Ha).
  - intros k r Hr Hdr. rewrite Hd in Hr by done. by eapply (al_ready _ Ha).
  - intros k r Hr Hdr. rewrite Hd in Hr by done. by eapply (al_closed _ Ha).
Qed.

Lemma allocated_empty : allocated empty_db.
Proof. split; cbn; intros; by rewrite lookup_empty in *. Qed.

Lemma pool_step_allocated db db' : pool_step db db' → allocated db → allocated db'.
Proof.
  intros Hs Ha. destruct Hs.
  - by apply claim_deleting_keeps.
  - by apply on_own_member_keeps.
  - by apply on_own_member_keeps.
  - by apply claim_lifecycle_keeps.
  - by apply finish_disconnect_keeps.
  - by apply begin_cleanup_keeps.
  - by apply finish_cleanup_keeps.
  - by apply finish_restore_keeps.
  - by apply record_lifecycle_failure_keeps.
  - by apply claim_pending_keeps.
  - by apply fulfill_pending_keeps.
  - by apply mark_stale_keeps.
  - by apply claim_check_keeps.
  - apply on_own_member_keeps; [|done]. intros m. by destruct o.
  - by apply claim_replenishing_keeps.
  - by apply begin_advance_keeps.
  - by apply record_advance_failure_keeps.
  - by apply on_own_member_keeps.
  - by apply reserve_prewarm_keeps.
  - by apply claim_target_keeps.
  - by apply store_target_keeps.
  - by apply record_sync_failure_keeps.
  - apply so_committed. by apply reserve_dedicated_keeps.
  - by apply delete_resource_keeps.
  - by apply restore_keeps.
  - by apply set_member_action_keeps.
  - by apply register_keeps.
  - by apply update_cooldown_keeps.
  - by eapply environment_allocated.
Qed.

Lemma pool_reachable_allocated db : pool_reachable db → allocated db.
Proof.
  induction 1 as [|db db' _ IH Hs|now av allow mid l call result db0 db _ IH0 _ IH Hl Hc Hstill
    |db0 db1 db db' _ IH0 _ IH Hw Hr Hc].
  - apply allocated_empty.
  - by eapply pool_step_allocated.
  - eapply finish_advance_keeps; [exact IH0|by eapply (begin_advance_loaded _ _ _ allow)|done|done].
  - destruct (worker_commit_writes _ _ _ _ IH0 Hw) as [Hww IH1].
    exact (late_commit db0 db1 db db' IH0 IH1 IH Hww Hr Hc).
Qed.

(** A preparation step whose transactions follow each other. *)
Lemma round_reachable now av allow mid l call result db :
  pool_reachable db → txn_out (begin_advance encrypt decrypt av allow mid) db = Ret (l, call) →
  (∀ step, call ≠ StepDone step) →
  pool_reachable (txn_db (finish_advance encrypt now av l call result)
    (txn_db (begin_advance encrypt decrypt av allow mid) db)).
Proof.
  intros Hr Hl Hc. pose proof (pool_reachable_allocated _ Hr) as Ha.
  destruct (begin_advance_loaded _ _ _ allow _ _ _ _ Hl Hc) as [[[k Hk] Hlr] ->].
  eapply pool_advance; [exact Hr|exact Hr|exact Hl|done|]. intros lr Hlres.
  destruct (Hlr lr Hlres) as (rid & Hal & Hres).
  destruct (al_serves _ Ha _ _ _ Hk Hal) as (r & Hr' & _ & Hlive & _).
  assert (r = lr_resource lr) as -> by congruence. exists (lr_resource lr).
  by rewrite (al_resources _ Ha _ _ Hres).
Qed.
End system.

Definition demo_now : time := seconds 1700000000.
Definition demo_later : time := (demo_now + hours 100000)%Z.

Definition demo_revision : PermissionTemplateRevision :=
  mk_revision "rev-1" "template-1" 1
    (json_dumps (JArr ((λ p, JStr (DatabasePrivilege.value p)) <$> DEFAULT_DATABASE_PRIVILEGES))) false None.

Definition demo_network : NetworkValues :=
  mk_network (Some "cn-beijing") (Some "cn-beijing-k") (Some "vpc-1") (Some "vsw-1").

Definition demo_values : PoolValues :=
  mk_pool_values "pool" 1 3 10 10 10 (Some PROFILE_ID) (Some PROFILE_REVISION) (Some DEFAULT_STORAGE_TYPE)
    demo_network None "Private" ReclaimPolicy.DESTROY LifecycleAdministratorPolicy.PAS_MANAGED "rev-1"
    "agentic" "agentic" None 300 600.

(** What the administrator sets up: a template, an Agent, a pool, a binding. *)
Definition demo_empty_pool : DB :=
  (request (create_dedicated_pool "cn-beijing" "public" "pool-1" "backend-1" demo_now demo_values)
    (empty_db <| revisions := {[ "rev-1" := demo_revision ]} |>
              <| agents := {[ "agent-1" := mk_agent "agent-1" "demo" None AgentStatus.ACTIVE (Some 2) ]} |>
              <| provisioning_bindings := {[ ("agent-1", "backend-1") :=
                   mk_provisioning_binding "bind-1" "agent-1" "backend-1" true None "user-1" ]} |>)).1.

Definition demo_member_entropy (n : string) : MemberEntropy :=
  mk_member_entropy ("token-" +:+ n) ("inst-" +:+ n) ("member-" +:+ n).
Definition demo_dedicated_entropy (n : string) : DedicatedEntropy :=
  mk_dedicated_entropy ("res-" +:+ n) ("cred-" +:+ n) (demo_member_entropy n).
Definition demo_advance_entropy (n : string) : AdvanceEntropy :=
  mk_advance_entropy ("uuid-" +:+ n) (seq 0 16) ("cred-a" +:+ n).

(** A request for which a member has to be bought. *)
Definition demo_request (n token : string) (db : DB) : DB :=
  committed (reserve_dedicated_candidate default_config (λ _, NoDocument) None demo_now
    (demo_dedicated_entropy n) "agent-1" "backend-1" InstanceEngine.POLARDB_MYSQL token "fp" None true
    (mk_session db db true [])).1.

Definition demo_bought : DB := demo_request "1" "token-1" demo_empty_pool.

Definition demo_results : list CallResult :=
  [ NotYet; GotCluster (mk_cluster_result (Some "pc-1") None (Some "req-1")); GotStatus (Some "Running");
    GotEndpoint "db.internal" 3306; NotYet; Succeeded; Succeeded; Succeeded; Succeeded; NotYet; Succeeded;
    Succeeded ].

Definition demo_rounds (mid : string) (db : DB) : DB :=
  foldl (λ db result, round_of (λ s, "enc:" +:+ s) Ret demo_now (demo_advance_entropy "1") true mid (λ _, result) db)
    db demo_results.

Definition demo_served : DB := demo_rounds "member-1" demo_bought.

Example demo_served_rows :
  ((λ r, (r_status r, r_allocated_instance_id r)) <$> resources demo_served !! "res-1",
   (λ m, (m_status m, m_preparation_step m)) <$> pool_members demo_served !! "member-1",
   (λ i, (i_cluster_id i, i_host i)) <$> instances demo_served !! "inst-1")
  = (Some (DBInstanceStatus.READY, Some "inst-1"),
     Some (DedicatedMemberStatus.ALLOCATED, DedicatedPreparationStep.VERIFIED),
     Some ("pc-1", Some "db.internal")).
Proof. vm_compute. reflexivity. Qed.

Abbreviation demo_reachable :=
  (pool_reachable default_config (λ s, "enc:" +:+ s) Ret (λ _, None) (λ _, NoDocument)).

Lemma pool_demo_environment db :
  resources db = ∅ → pool_members db = ∅ → demo_reachable db.
Proof.
  intros Hr Hm. eapply pool_next; [apply pool_start|]. apply step_pool_environment.
  split; rewrite ?Hr, ?Hm; [done..|]. intros k r. by rewrite lookup_empty.
Qed.

Lemma demo_round now av allow mid answer db :
  demo_reachable db → demo_reachable (round_of (λ s, "enc:" +:+ s) Ret now av allow mid answer db).
Proof.
  intros Hr. unfold round_of. destruct (with_session _ db) as [db1 o] eqn:Hs.
  assert (txn_db (begin_advance (λ s, "enc:" +:+ s) Ret av allow mid) db = db1) as <- by (unfold txn_db; by rewrite Hs).
  assert (txn_out (begin_advance (λ s, "enc:" +:+ s) Ret av allow mid) db = o) as <- by (unfold txn_out; by rewrite Hs).
  clear Hs. destruct (txn_out _ db) as [[l call]|e] eqn:Ho;
    [|by eapply pool_next; [exact Hr|apply step_begin_advance]].
  destruct call; first [by eapply pool_next; [exact Hr|apply step_begin_advance] | by eapply round_reachable].
Qed.

Lemma demo_bought_reachable : demo_reachable demo_bought.
Proof. eapply pool_next; [|by apply (step_reserve _ _ _ _ _ None)]. by apply pool_demo_environment. Qed.

Lemma demo_served_reachable : demo_reachable demo_served.
Proof.
  unfold demo_served, demo_rounds. generalize demo_results. intros results.
  pose proof demo_bought_reachable as Hr. revert Hr. generalize demo_bought. induction results as [|result results IH]; intros db Hr; [done|].
  by apply IH, demo_round.
Qed.

(** ** A cloud and a MySQL server that answer every call *)
#[export] Instance demo_cloud : PolarDBClient unit := {
  create_dedicated_cluster := λ _ _ _ _ x, (x, Ret (mk_cluster_result (Some "pc-1") None (Some "req-1")));
  describe_cluster_attribute := λ _ _ x, (x, Ret (Some "Running"));
  describe_endpoints := λ _ _ x, (x, Ret [mk_endpoint "Primary" [mk_address (Some "Private") "db.internal" "3306"]]);
  create_account := λ _ _ _ _ _ x, (x, Ret ());
  describe_account := λ _ _ _ x, (x, Ret (Some (Some "Available")));
  cloud_create_database := λ _ _ _ x, (x, Ret ());
  delete_cluster := λ _ _ x, (x, Ret ())
}.

#[export] Instance demo_mysql : MySQLConnector unit := {
  mysql_connect := λ _ _ _ _ _ x, (x, Ret 0%nat);
  mysql_execute := λ _ _ _ x, (x, Ret []);
  mysql_close := λ _ x, (x, Ret ())
}.

Definition demo_pass_entropy : PassEntropy := mk_pass_entropy (demo_advance_entropy "2") (demo_member_entropy "2") "cred-p".

Definition demo_pass (w : World unit) : World unit :=
  (run_once default_config "worker-1" (λ s, "enc:" +:+ s) Ret (λ _, None) (λ _, NoDocument)
     (λ tick, (demo_now + seconds (Z.of_nat tick))%Z) demo_pass_entropy w).1.

Fixpoint demo_passes (n : nat) (w : World unit) : World unit :=
  match n with O => w | S n => demo_passes n (demo_pass w) end.
