(* ===== verification/DedicatedTheorems.v ===== *)
(** * What holds of dedicated pools *)

From S2P Require Import Prelude PyString Models Config WriteGuard Worker AdapterInterface.
From S2P Require Import Dispatcher.
From S2P Require Import DispatchLoop Ddl Permission Capacity OperationBudget Service DedicatedMySQL.
From S2P Require Import DedicatedPools DedicatedProvisioner DedicatedWorker DedicatedSync.
From S2P Require Import DedicatedService DedicatedAdmin DedicatedAllocation DedicatedLate.
From S2P Require Import DedicatedSystem.

(** ** Isolation *)
(** C5: No database cluster of a dedicated pool serves two Agents.  In every
    database that an interleaving of workers, requests and administrators can
    produce, two live dedicated resources placed on the same instance are the
    same resource, and a READY dedicated resource is on an instance whose pool
    member is allocated to it and to nothing else.  The worker's transactions that
    read without a lock ([_finish_dedicated_cleanup] and the others of
    [worker_commit]) write only the columns they changed and may do so after other
    transactions have committed.  Two assumptions on timing: such a transaction
    does not outlast the claim it was read under (the resource it writes is still
    claimed by the same worker, on the same instance, and the member it hands out
    or frees still allocated as it was); and a preparation call does not outlast
    the deletion of the resource its member was bought for.  Claims and bulk
    updates, which are single statements, and requests, which lock their rows,
    are atomic. *)
Theorem dedicated_isolation config encrypt decrypt openapi_details resource_pool_document db :
  pool_reachable config encrypt decrypt openapi_details resource_pool_document db →
  (∀ k1 k2 r1 r2 i, resources db !! k1 = Some r1 → resources db !! k2 = Some r2 →
     is_dedicated r1 → is_dedicated r2 → live r1 → live r2 →
     r_allocated_instance_id r1 = Some i → r_allocated_instance_id r2 = Some i → k1 = k2)
  ∧ (∀ k r, resources db !! k = Some r → is_dedicated r → r_status r = DBInstanceStatus.READY →
     ∃ m, pool_members db !! m_id m = Some m ∧ r_allocated_instance_id r = Some (m_instance_id m)
        ∧ m_allocated_resource_id m = Some k).
Proof.
  intros Ha%pool_reachable_allocated. split.
  - intros k1 k2 r1 r2 i H1 H2 Hd1 Hd2 Hl1 Hl2 Hi1 Hi2.
    destruct (al_placed _ Ha _ _ _ H1 Hd1 Hl1 Hi1) as (m1 & Hm1 & He1 & [Hs1 _]).
    destruct (al_placed _ Ha _ _ _ H2 Hd2 Hl2 Hi2) as (m2 & Hm2 & He2 & [Hs2 _]).
    assert (m_id m1 = m_id m2) as Hid by (eapply (al_instances _ Ha); [exact Hm1|exact Hm2|congruence]).
    rewrite <-(al_resources _ Ha _ _ H1), <-(al_resources _ Ha _ _ H2). congruence.
  - intros k r Hr Hd Hst. destruct (al_ready _ Ha _ _ Hr Hd Hst) as [i Hi].
    assert (live r) as Hl by (unfold live; congruence).
    destruct (al_placed _ Ha _ _ _ Hr Hd Hl Hi) as (m & Hm & Him & [Hs _]).
    exists m. rewrite <-(al_resources _ Ha _ _ Hr). repeat split; congruence.
Qed.

(** The worker disconnects a deleted resource; while its transaction is open,
    another resource is requested and a member bought for it. *)
Definition demo_deleting : DB :=
  txn_db (claim_lifecycle_resource default_config "worker-1" demo_now)
    (txn_db (delete_resource default_config None demo_now "agent-1" "res-1") demo_served).

Definition demo_late : DB :=
  commit_late demo_deleting (txn_db (finish_dedicated_disconnect "worker-1" demo_now "res-1") demo_deleting)
    (demo_request "2" "token-2" demo_deleting).

Lemma demo_late_reachable : demo_reachable demo_late.
Proof.
  assert (demo_reachable demo_deleting) as Hd.
  { eapply pool_next; [|apply step_claim_lifecycle]. eapply pool_next; [|apply step_delete, audit_no_hook].
    apply demo_served_reachable. }
  eapply pool_late; [exact Hd| |apply late_disconnected| |apply commit_late_commits].
  - eapply pool_next; [exact Hd|]. by apply (step_reserve _ _ _ _ _ None).
  - apply rows_unchanged; apply (bool_decide_eq_true_1 _); vm_compute; reflexivity.
Qed.

Lemma dedicated_isolation_witness :
  (r_status <$> resources demo_late !! "res-1", m_allocated_resource_id <$> pool_members demo_late !! "member-2")
    = (Some DBInstanceStatus.COOLING_DOWN, Some (Some "res-2"))
  ∧ (∀ k1 k2 r1 r2 i, resources demo_late !! k1 = Some r1 → resources demo_late !! k2 = Some r2 →
     is_dedicated r1 → is_dedicated r2 → live r1 → live r2 →
     r_allocated_instance_id r1 = Some i → r_allocated_instance_id r2 = Some i → k1 = k2).
Proof.
  split; [vm_compute; reflexivity|].
  apply (dedicated_isolation default_config (λ s, "enc:" +:+ s) Ret (λ _, None) (λ _, NoDocument) demo_late).
  apply demo_late_reachable.
Defined.

(** ** A cleanup that outlasts its claim

    The assumption is needed: the code reads the resource without a lock, so a
    worker that stalls between the read and the commit of
    [_finish_dedicated_cleanup] frees a member that was given away meanwhile. *)

Definition demo_reusing_pool : DB :=
  demo_empty_pool <| pools := (λ p, p <| p_reclaim_policy := ReclaimPolicy.SANITIZE_AND_REUSE |>) <$> pools demo_empty_pool |>.

(** Preparing a member again, from its lifecycle account on. *)
Definition demo_again (mid : string) (db : DB) : DB :=
  foldl (λ db result, round_of (λ s, "enc:" +:+ s) Ret demo_now (demo_advance_entropy "2") true mid (λ _, result) db)
    db (drop 6 demo_results).

(** [res-1] is deleted and cooled down; [worker-1] is to sanitize its member. *)
Definition demo_sanitizing : DB :=
  let served := demo_rounds "member-1" (demo_request "1" "token-1" demo_reusing_pool) in
  let deleted := txn_db (delete_resource default_config None demo_now "agent-1" "res-1") served in
  let claimed := txn_db (claim_lifecycle_resource default_config "worker-1" demo_now) deleted in
  let cooling := txn_db (finish_dedicated_disconnect "worker-1" demo_now "res-1") claimed in
  let reclaimed := txn_db (claim_lifecycle_resource default_config "worker-1" demo_later) cooling in
  txn_db (begin_dedicated_cleanup "worker-1" demo_later "res-1") reclaimed.

(** Its lease has expired: [worker-2] has cleaned up, prepared the member again,
    and given it to [res-2]. *)
Definition demo_reused : DB :=
  let now := (demo_later + hours 1)%Z in
  let claimed := txn_db (claim_lifecycle_resource default_config "worker-2" now) demo_sanitizing in
  let cleaned := txn_db (finish_dedicated_cleanup "worker-2" now "res-1" true) claimed in
  demo_request "2" "token-2" (demo_again "member-1" cleaned).

(** Now [worker-1] commits what it read. *)
Definition demo_stalled : DB :=
  commit_late demo_sanitizing
    (txn_db (finish_dedicated_cleanup "worker-1" demo_later "res-1" true) demo_sanitizing) demo_reused.

(** The member is prepared once more, and given to [res-3] as well. *)
Definition demo_shared : DB := demo_request "3" "token-3" (demo_again "member-1" demo_stalled).

Lemma stalled_cleanup_shares :
  let row := λ db k, (λ r, (r_status r, r_allocated_instance_id r)) <$> resources db !! k in
  row demo_shared "res-2" = Some (DBInstanceStatus.READY, Some "inst-1")
  ∧ row demo_shared "res-3" = Some (DBInstanceStatus.READY, Some "inst-1")
  ∧ r_worker_id <$> resources demo_reused !! "res-1" = Some None.
Proof. vm_compute. auto. Qed.

(** ** The pass of the worker *)
Section pass.
  Context {X : Type} `{PolarDBClient X} `{MySQLConnector X}.
  Context (config : TenantProvisioningConfig) (worker_id : string).
  Context (encrypt : string → string) (decrypt : string → outcome string).
  Context (openapi_details : PyExc → option OpenAPIDetails) (resource_pool_document : DB → ResourcePoolDocument).
  Context (clock : nat → time).
  Abbreviation reachable_db := (pool_reachable config encrypt decrypt openapi_details resource_pool_document).
  Abbreviation step_db := (pool_step config encrypt decrypt openapi_details resource_pool_document).

Definition stays {A} (m : M (World X) A) : Prop := ∀ w, reachable_db (w_db w) → reachable_db (w_db (m w).1).

Lemma stays_bind {A B} (m : M (World X) A) (k : A → M (World X) B) :
  stays m → (∀ a, stays (k a)) → stays (m ≫= k).
Proof.
  intros Hm Hk w Hw. specialize (Hm w Hw). unfold mbind, M_bind.
  destruct (m w) as [w' [a|e]]; [by apply Hk|done].
Qed.
Lemma stays_ret {A} (a : A) : stays (mret a).
Proof. by intros w. Qed.
Lemma stays_outcome {A} (o : outcome A) : stays (lift_outcome o).
Proof. by intros w. Qed.
Lemma stays_try {A} (m : M (World X) A) h : stays m → (∀ e, stays (h e)) → stays (try_except m h).
Proof.
  intros Hm Hh w Hw. specialize (Hm w Hw). unfold try_except. destruct (m w) as [w' [a|e]]; [done|by apply Hh].
Qed.
Lemma stays_try_else {A B} (m : M (World X) A) (h : PyExc → M (World X) B) k :
  stays m → (∀ e, stays (h e)) → (∀ a, stays (k a)) → stays (try_else m h k).
Proof.
  intros Hm Hh Hk w Hw. specialize (Hm w Hw). unfold try_else.
  destruct (m w) as [w' [a|e]]; [by apply Hk|by apply Hh].
Qed.
Lemma stays_ext {A} (m : M X A) : stays (lift_ext m).
Proof. intros w Hw. unfold lift_ext. by destruct (m (w_ext w)). Qed.
Lemma stays_db {A} (m : M (Session DB) A) : (∀ db, step_db db (txn_db m db)) → stays (with_db m).
Proof.
  intros Hm w Hw. unfold with_db. specialize (Hm (w_db w)). unfold txn_db in Hm.
  destruct (with_session m (w_db w)) as [db o]. by eapply pool_next.
Qed.
Lemma stays_now {A} (m : time → M (Session DB) A) : (∀ now db, step_db db (txn_db (m now) db)) → stays (at_now clock m).
Proof. intros Hm w Hw. unfold at_now. apply (stays_db (m (clock (w_tick w)))); [apply Hm|done]. Qed.

(** Transactions that only read. *)
Definition reads {A} (m : M (Session DB) A) : Prop := ∀ s, others s = [] →
  committed (m s).1 = committed s ∧ others (m s).1 = [].
Lemma reads_bind {A B} (m : M (Session DB) A) (k : A → M (Session DB) B) :
  reads m → (∀ a, reads (k a)) → reads (m ≫= k).
Proof.
  intros Hm Hk s Hs. destruct (Hm s Hs) as [Hc Ho]. unfold mbind, M_bind. destruct (m s) as [s' [a|e]]; [|done].
  destruct (Hk a s' Ho) as [Hc' Ho']. split; [|done]. cbn in Hc. congruence.
Qed.
Lemma reads_ret {A} (a : A) : reads (mret a).
Proof. by intros s. Qed.
Lemma reads_raise {A} e : reads (raise (A:=A) e).
Proof. by intros s. Qed.
Lemma reads_outcome {A} (o : outcome A) : reads (lift_outcome o).
Proof. by intros s. Qed.
Lemma reads_query {A} (f : DB → A) : reads (query f).
Proof. intros [c w [] o]; cbn; [done|]. by intros ->. Qed.
#[local] Hint Resolve reads_ret reads_raise reads_outcome reads_query : reads.

Lemma stays_read {A} (m : M (Session DB) A) : reads m → stays (with_db m).
Proof.
  intros Hm w Hw. unfold with_db, with_session. destruct (Hm (open_session (w_db w)) eq_refl) as [Hc _].
  destruct (m _) as [s o]. cbn in *. by rewrite Hc.
Qed.

Lemma load_lifecycle_reads rid : reads (load_lifecycle worker_id rid).
Proof.
  apply reads_bind; [auto with reads|]. intros [r|]; [|auto with reads].
  apply reads_bind; [auto with reads|]. intros [m|]; [|auto with reads].
  apply reads_bind; [auto with reads|]. intros [i|]; auto with reads.
Qed.

Lemma load_target_reads tid : reads (load_target worker_id tid).
Proof.
  apply reads_bind; [auto with reads|]. intros [t|]; [|auto with reads]. destruct (_ || _); [auto with reads|].
  apply reads_bind; [auto with reads|]. intros [m|]; [|auto with reads].
  apply reads_bind; [auto with reads|]. intros job. apply reads_bind; [auto with reads|].
  intros revision. destruct job as [j|], revision as [revision|]; auto with reads.
  apply reads_bind; [auto with reads|]. intros snapshot. apply reads_bind; auto with reads.
Qed.

Create HintDb pass_steps discriminated.
#[local] Hint Constants Opaque : pass_steps.
#[local] Hint Constructors pool_step : pass_steps.
#[local] Hint Resolve stays_ret stays_outcome stays_ext : pass_steps.

Lemma destroy_stays mid : stays (destroy_deleting_member config worker_id clock mid).
Proof.
  apply stays_bind.
  - apply stays_read. apply reads_bind; [auto with reads|]. intros [m|]; [|auto with reads].
    apply reads_bind; [auto with reads|]. intros [i|]; auto with reads.
  - intros [i|]; [|auto with pass_steps]. apply stays_try_else; [auto with pass_steps| |].
    + intros e. apply stays_now. auto with pass_steps.
    + intros []. apply stays_db. auto with pass_steps.
Qed.

Lemma lifecycle_stays rid : stays (process_lifecycle_resource config worker_id decrypt clock rid).
Proof.
  apply stays_bind; [apply stays_read, load_lifecycle_reads|].
  intros [[r [[m i]|]]|]; [|apply stays_now; auto with pass_steps|auto with pass_steps].
  apply stays_try; [|intros e; apply stays_now; auto with pass_steps].
  unfold lifecycle_step.
  assert (∀ step, stays (match step with
    | DeleteLifecycleStep.PHYSICAL_DESTROY => lift_ext (delete_cluster (i_region i) (i_cluster_id i)) ;;
        at_now clock (λ now, finish_dedicated_cleanup worker_id now rid false)
    | DeleteLifecycleStep.SANITIZE_DISPATCH => lift_ext (drop_sandbox decrypt m) ;;
        at_now clock (λ now, finish_dedicated_cleanup worker_id now rid true)
    | _ => lift_ext (member_disconnect decrypt m) ;;
        at_now clock (λ now, finish_dedicated_disconnect worker_id now rid) end)) as Hd.
  { intros step. destruct step; (apply stays_bind; [auto with pass_steps|intros _; apply stays_now; auto with pass_steps]). }
  destruct (r_status r); try (apply Hd).
  - apply stays_bind; [apply stays_now; auto with pass_steps|]. intros [step|]; [apply Hd|auto with pass_steps].
  - apply stays_bind; [auto with pass_steps|intros _; apply stays_db; auto with pass_steps].
Qed.

Lemma sync_stays tid : stays (process_permission_sync_target config worker_id decrypt clock tid).
Proof.
  apply stays_try; [|intros e; apply stays_now; auto with pass_steps].
  apply stays_bind; [apply stays_read, load_target_reads|]. intros [l|]; [|auto with pass_steps].
  apply stays_bind; [destruct (t_change_required _); auto with pass_steps|].
  intros _. apply stays_db. auto with pass_steps.
Qed.

Lemma check_stays m : stays (check_member config worker_id decrypt clock m).
Proof.
  apply stays_try_else; [auto with pass_steps| |]; intros ?; apply stays_now; auto with pass_steps.
Qed.

Lemma bind_at {A B} (m : M (World X) A) (k : A → M (World X) B) (w : World X) :
  (m ≫= k) w = match m w with (w', Ret a) => k a w' | (w', Raise e) => (w', Raise e) end.
Proof. done. Qed.
Lemma at_now_run {A} (m : time → M (Session DB) A) (w : World X) :
  at_now clock m w = match with_session (m (clock (w_tick w))) (w_db w) with
                     | (db, o) => (mk_world db (w_ext w) (S (w_tick w)), o) end.
Proof. done. Qed.

(** A claimed waiting resource is dedicated. *)
Lemma claim_pending_dedicated now db rid :
  allocated db → txn_out (claim_pending_resource config worker_id now) db = Ret (Some rid) →
  ∀ r, resources (txn_db (claim_pending_resource config worker_id now) db) !! rid = Some r → is_dedicated r.
Proof.
  intros Ha. unfold claim_pending_resource, claim_resource, txn_out, txn_db, with_session, open_session.
  run_branches; try done.
  match goal with Hf : first_by _ _ = Some ?c, Hr : resources db !! r_id ?c = Some ?d |- _ =>
    apply first_by_elem, list_elem_of_filter in Hf as [Hsel Hin];
    apply list_elem_of_fmap in Hin as ([k c'] & Hc & Hin); cbn in Hc; subst c';
    apply elem_of_map_to_list in Hin; assert (d = c) as -> by
      (pose proof (al_resources _ Ha _ _ Hin); congruence) end.
  intros [= <-] r. cbn. rewrite lookup_insert_eq. intros [= <-].
  by apply andb_true_iff in Hsel as [[Hmode%bool_decide_eq_true_1 _]%andb_true_iff _].
Qed.

Lemma pending_stays cid (z : M (World X) bool) :
  stays z →
  stays (pending ← at_now clock (λ now, claim_pending_resource config worker_id now);
    match pending with
    | Some rid => at_now clock (λ now, fulfill_pending_resource config worker_id cid now rid) ;; mret true
    | None => z
    end).
Proof.
  intros Hz w Hw. pose proof (pool_reachable_allocated _ _ _ _ _ _ Hw) as Ha.
  set (m := claim_pending_resource config worker_id (clock (w_tick w))).
  assert (reachable_db (txn_db m (w_db w))) as Hdb
    by (eapply pool_next; [exact Hw|apply step_claim_pending]).
  assert (∀ rid, txn_out m (w_db w) = Ret (Some rid) →
    ∀ r, resources (txn_db m (w_db w)) !! rid = Some r → is_dedicated r) as Hded.
  { intros rid. by apply claim_pending_dedicated. }
  rewrite bind_at, at_now_run. fold m.
  unfold txn_db, txn_out in *. destruct (with_session m (w_db w)) as [db [[rid|]|e]]; cbn [fst snd] in *;
    [|by apply Hz|done].
  assert (reachable_db (txn_db (fulfill_pending_resource config worker_id cid (clock (S (w_tick w))) rid) db)) as Hf.
  { eapply pool_next; [exact Hdb|]. apply step_fulfill. by apply Hded. }
  rewrite bind_at, at_now_run. cbn [w_db w_ext w_tick]. unfold txn_db in Hf.
  by destruct (with_session _ db) as [db' [[]|e]].
Qed.

Lemma advance_stays av allow mid : stays (advance encrypt decrypt openapi_details clock av allow mid).
Proof.
  apply stays_try.
  2:{ intros e. apply stays_bind; [apply stays_now; auto with pass_steps|]. by intros _ w. }
  intros w Hw. unfold advance_once.
  set (m := begin_advance encrypt decrypt av allow mid).
  assert (reachable_db (txn_db m (w_db w))) as Hdb by (eapply pool_next; [exact Hw|apply step_begin_advance]).
  rewrite bind_at. unfold with_db at 1. fold m. destruct (with_session m (w_db w)) as [db o] eqn:Hs.
  assert (txn_db m (w_db w) = db) as Hd by (unfold txn_db; by rewrite Hs).
  assert (txn_out m (w_db w) = o) as Ho by (unfold txn_out; by rewrite Hs).
  rewrite Hd in Hdb. destruct o as [[l call]|e]; [|done]. cbn [snd fst].
  assert (Hcall : ∀ x t, (∀ step, call ≠ StepDone step) → reachable_db (w_db
    ((result ← lift_ext (run_call decrypt openapi_details l call);
      at_now clock (λ now, finish_advance encrypt now av l call result)) (mk_world db x t)).1)).
  { intros x t Hc. rewrite bind_at. unfold lift_ext. cbn [w_ext w_db w_tick].
    destruct (run_call decrypt openapi_details l call x) as [x' [result|e]]; [|done]. rewrite at_now_run. cbn [w_ext w_db w_tick].
    assert (reachable_db (txn_db (finish_advance encrypt (clock t) av l call result) db)) as Hf
      by (rewrite <-Hd; by eapply round_reachable).
    unfold txn_db in Hf. by destruct (with_session _ db). }
  destruct call; [done|by apply Hcall..].
Qed.

Lemma replenishing_stays av mid :
  stays (advance_replenishing_member config worker_id encrypt decrypt openapi_details clock av mid).
Proof.
  apply stays_bind; [apply stays_read; auto with reads|]. intros [m|]; [|auto with pass_steps].
  apply stays_bind.
  - apply stays_try; [|intros e; auto with pass_steps].
    apply stays_bind; [apply advance_stays|intros step; auto with pass_steps].
  - intros result. apply stays_now. auto with pass_steps.
Qed.

(** A block of several sessions. *)
Lemma stays_sessions {A} (m : M DB A) : (∀ db, reachable_db db → reachable_db (m db).1) → stays (in_sessions m).
Proof. intros Hm w Hw. specialize (Hm _ Hw). unfold in_sessions. by destruct (m (w_db w)). Qed.

Lemma claim_check_stays now db : reachable_db db → reachable_db (claim_health_check config worker_id now db).1.
Proof.
  intros Hdb. unfold claim_health_check, mbind at 1, M_bind at 1. cbn.
  generalize (active_pools db). intros ps. induction ps as [|pool ps IH] in db, Hdb |- *; [done|].
  cbn [claim_first_check]. unfold mbind, M_bind.
  assert (reachable_db (txn_db (claim_check_of config worker_id now pool) db)) as Hc
    by (eapply pool_next; [exact Hdb|apply step_claim_check]).
  unfold txn_db in Hc. destruct (with_session _ db) as [db' [[m|]|e]]; [done|by apply IH|done].
Qed.

Lemma reserve_stays now me db : reachable_db db → reachable_db (reserve_replacement resource_pool_document now me db).1.
Proof.
  intros Hdb. unfold reserve_replacement, mbind at 1, M_bind at 1. cbn.
  generalize (p_id <$> active_pools db). intros ids. induction ids as [|id ids IH] in db, Hdb |- *; [done|].
  cbn [reserve_first]. unfold mbind, M_bind.
  assert (reachable_db (txn_db (reserve_prewarm resource_pool_document now me id) db)) as Hc
    by (eapply pool_next; [exact Hdb|apply step_prewarm]).
  unfold txn_db in Hc. destruct (with_session _ db) as [db' [[]|e]]; [done|by apply IH|done].
Qed.

(** One pass of the worker of the dedicated pools is a sequence of the
    transactions the system is made of.  Whatever the pass finds to do (a
    lifecycle step, a destruction, a permission target, stale evidence, a health
    check, a waiting resource, a preparation step, a purchase) and whatever the
    cloud and the MySQL servers answer or raise, a pass that starts in a
    reachable database ends in one. *)
Theorem pass_refinement pe w :
  reachable_db (w_db w) →
  reachable_db (w_db (run_once config worker_id encrypt decrypt openapi_details resource_pool_document clock pe w).1).
Proof.
  revert w. change (stays (run_once config worker_id encrypt decrypt openapi_details resource_pool_document clock pe)).
  assert (∀ A (m : M (World X) A), stays m → stays (m ;; mret true)) as Hdone.
  { intros A m Hm. apply stays_bind; [done|auto with pass_steps]. }
  unfold run_once.
  apply stays_bind; [apply stays_now; auto with pass_steps|intros [rid|]; [apply Hdone, lifecycle_stays|]].
  apply stays_bind; [apply stays_now; auto with pass_steps|intros [m|]; [apply Hdone, destroy_stays|]].
  apply stays_bind; [apply stays_now; auto with pass_steps|intros [t|]; [apply Hdone, sync_stays|]].
  apply stays_bind; [apply stays_now; auto with pass_steps|intros [|]; [auto with pass_steps|]].
  apply stays_bind; [by intros w|intros now].
  apply stays_bind; [apply stays_sessions; intros; by apply claim_check_stays|].
  intros [m|]; [apply Hdone, check_stays|].
  apply pending_stays.
  apply stays_bind; [apply stays_now; auto with pass_steps|intros [m|]; [apply Hdone, replenishing_stays|]].
  apply stays_bind; [by intros w|intros now']. apply stays_sessions. intros. by apply reserve_stays.
Qed.
End pass.

Lemma pass_refinement_witness : demo_reachable (w_db (demo_pass (mk_world demo_bought tt 0))).
Proof. apply pass_refinement. apply demo_bought_reachable. Defined.
