(* ===== verification/DedicatedProgress.v ===== *)
(** * Preparing a member comes to an end

    The steps of [advance] in a row, when the cloud and the member's server
    answer each call: what each step leaves for the later ones, and that twelve
    steps take a member from its purchase to its use. *)

From S2P Require Import Prelude PyString Models AdapterInterface Dispatcher DispatchLoop Permission.
From S2P Require Import Capacity Service DedicatedMySQL DedicatedPools DedicatedProvisioner.
From S2P Require Import DedicatedSystem.

(** ** The order of the steps *)
Module Step.
Import DedicatedPreparationStep.

Definition next (step : t) : t :=
  match step with
  | PENDING => PURCHASE_INTENT_STORED
  | PURCHASE_INTENT_STORED => PURCHASE_REQUESTED
  | PURCHASE_REQUESTED => CLUSTER_READY
  | CLUSTER_READY => ENDPOINT_RESOLVED
  | ENDPOINT_RESOLVED => LIFECYCLE_ACCOUNT_STORED
  | LIFECYCLE_ACCOUNT_STORED => LIFECYCLE_ACCOUNT_CREATED
  | LIFECYCLE_ACCOUNT_CREATED => SANDBOX_ACCOUNT_STORED
  | SANDBOX_ACCOUNT_STORED => SANDBOX_ACCOUNT_CREATED
  | SANDBOX_ACCOUNT_CREATED => DATABASE_CREATED
  | DATABASE_CREATED => OPENAPI_READY
  | OPENAPI_READY => PRIVILEGES_GRANTED
  | PRIVILEGES_GRANTED | VERIFIED => VERIFIED
  end.

Definition rank (step : t) : nat :=
  match step with
  | PENDING => 0 | PURCHASE_INTENT_STORED => 1 | PURCHASE_REQUESTED => 2 | CLUSTER_READY => 3
  | ENDPOINT_RESOLVED => 4 | LIFECYCLE_ACCOUNT_STORED => 5 | LIFECYCLE_ACCOUNT_CREATED => 6
  | SANDBOX_ACCOUNT_STORED => 7 | SANDBOX_ACCOUNT_CREATED => 8 | DATABASE_CREATED => 9
  | OPENAPI_READY => 10 | PRIVILEGES_GRANTED => 11 | VERIFIED => 12
  end.

Lemma rank_next step : step ≠ VERIFIED → rank (next step) = S (rank step).
Proof. by destruct step. Qed.
Lemma next_verified step : next step = VERIFIED → step = PRIVILEGES_GRANTED ∨ step = VERIFIED.
Proof. destruct step; auto; discriminate. Qed.
End Step.

(** ** Writing what a session holds *)

(** The database a statement of the session sees. *)
Definition sees (s : Session DB) (db : DB) : Prop := working (autobegin s) = db ∧ others s = [].

Lemma sees_begin s db : sees s db → autobegin s = mk_session (committed s) db true [].
Proof. destruct s as [c w [] o]; unfold sees, autobegin; cbn; [|destruct o]; by intros [? ?]; simplify_eq. Qed.

Lemma sees_commit s db : sees s db → committed (commit s).1 = db.
Proof. destruct s as [c w [] o]; unfold sees, autobegin; cbn; [|destruct o]; by intros [? ?]; simplify_eq. Qed.

Lemma sees_query {A} (f : DB → A) s db :
  sees s db → ∃ s', query f s = (s', Ret (f db)) ∧ sees s' db.
Proof. intros Hs. unfold query. rewrite (sees_begin _ _ Hs). by eexists. Qed.
Lemma sees_execute f s db : sees s db → ∃ s', execute f s = (s', Ret tt) ∧ sees s' (f db).
Proof. intros Hs. unfold execute. rewrite (sees_begin _ _ Hs). by eexists. Qed.

Lemma dirty_loaded {A} `{EqDecision A} (loaded new : A) : dirty loaded new loaded = new.
Proof. unfold dirty. by case_decide. Qed.

Lemma flush_member_loaded l new : m_id new = m_id l → flush_member l new l = new.
Proof. destruct l, new. unfold flush_member. cbn. rewrite !dirty_loaded. by intros ->. Qed.
Lemma flush_instance_loaded l new : i_id new = i_id l → flush_instance l new l = new.
Proof. destruct l, new. unfold flush_instance. cbn. rewrite !dirty_loaded. by intros ->. Qed.
Lemma flush_resource_loaded l new : r_id new = r_id l → flush_resource l new l = new.
Proof. destruct l, new. unfold flush_resource. cbn. rewrite !dirty_loaded. by intros ->. Qed.

Lemma put_member_same m db : pool_members db !! m_id m = Some m → put_member m db = db.
Proof. destruct db. unfold put_member. cbn. intros H. by rewrite insert_id. Qed.
Lemma put_instance_same i db : instances db !! i_id i = Some i → put_instance i db = db.
Proof. destruct db. unfold put_instance. cbn. intros H. by rewrite insert_id. Qed.
Lemma put_resource_same r db : resources db !! r_id r = Some r → put_resource r db = db.
Proof. destruct db. unfold put_resource. cbn. intros H. by rewrite insert_id. Qed.

Lemma update_member_writes l new s db :
  sees s db → pool_members db !! m_id l = Some l → m_id new = m_id l → member_conflict new db = false →
  ∃ s', update_member l new s = (s', Ret tt) ∧ sees s' (put_member new db).
Proof.
  intros Hs Hl Hid Hc. unfold update_member. rewrite flush_member_loaded by done. case_decide as Hd.
  - subst new. eexists. split; [done|]. by rewrite put_member_same.
  - destruct (sees_query (λ db, pool_members db !! m_id l) _ _ Hs) as (s1 & He1 & Hs1).
    rewrite (run_bind_ret _ _ _ _ _ He1), Hl, flush_member_loaded by done. unfold write_member.
    destruct (sees_query (member_conflict new) _ _ Hs1) as (s2 & He2 & Hs2).
    rewrite (run_bind_ret _ _ _ _ _ He2), Hc. by apply sees_execute.
Qed.

Lemma update_instance_writes l new s db :
  sees s db → instances db !! i_id l = Some l → i_id new = i_id l → instance_conflict new db = false →
  ∃ s', update_instance l new s = (s', Ret tt) ∧ sees s' (put_instance new db).
Proof.
  intros Hs Hl Hid Hc. unfold update_instance. rewrite flush_instance_loaded by done. case_decide as Hd.
  - subst new. eexists. split; [done|]. by rewrite put_instance_same.
  - destruct (sees_query (λ db, instances db !! i_id l) _ _ Hs) as (s1 & He1 & Hs1).
    rewrite (run_bind_ret _ _ _ _ _ He1), Hl, flush_instance_loaded by done. unfold write_instance.
    destruct (sees_query (instance_conflict new) _ _ Hs1) as (s2 & He2 & Hs2).
    rewrite (run_bind_ret _ _ _ _ _ He2), Hc. by apply sees_execute.
Qed.

Lemma update_resource_writes l new s db :
  sees s db → resources db !! r_id l = Some l → r_id new = r_id l →
  ∃ s', update_resource l new s = (s', Ret tt) ∧ sees s' (put_resource new db).
Proof.
  intros Hs Hl Hid. unfold update_resource. rewrite flush_resource_loaded by done. case_decide as Hd.
  - subst new. eexists. split; [done|]. by rewrite put_resource_same.
  - destruct (sees_query (λ db, resources db !! r_id l) _ _ Hs) as (s1 & He1 & Hs1).
    rewrite (run_bind_ret _ _ _ _ _ He1), Hl, flush_resource_loaded by done. by apply sees_execute.
Qed.

(** What [store_member] leaves in the tables. *)
Definition stored (l l' : LoadedMember) (c : option InstanceCredential) (db : DB) : DB :=
  let db := put_instance (lm_instance l') (put_member (lm_member l') db) in
  let db := match lm_resource l, lm_resource l' with
            | Some _, Some r' => put_resource (lr_resource r') db
            | _, _ => db
            end in
  match c with Some c => put_credential c db | None => db end.

(** The rows of a loaded member are those of the tables. *)
Record as_loaded (l : LoadedMember) (db : DB) : Prop := {
  asl_member : pool_members db !! m_id (lm_member l) = Some (lm_member l);
  asl_instance : instances db !! i_id (lm_instance l) = Some (lm_instance l);
  asl_resource : ∀ r, lm_resource l = Some r → resources db !! r_id (lr_resource r) = Some (lr_resource r)
}.

(** The new rows are of the same objects and repeat no unique column. *)
Record storable (l l' : LoadedMember) (c : option InstanceCredential) (db : DB) : Prop := {
  st_member : m_id (lm_member l') = m_id (lm_member l);
  st_instance : i_id (lm_instance l') = i_id (lm_instance l);
  st_resource : ∀ r r', lm_resource l = Some r → lm_resource l' = Some r' →
    r_id (lr_resource r') = r_id (lr_resource r);
  st_members : member_conflict (lm_member l') db = false;
  st_instances : instance_conflict (lm_instance l') db = false;
  st_credential : ∀ c', c = Some c' → credential_conflict c' db = false
}.

Lemma store_member_writes l l' c s db :
  sees s db → as_loaded l db → storable l l' c db →
  ∃ s', store_member l l' c s = (s', Ret tt) ∧ committed s' = stored l l' c db
    ∧ sees s' (stored l l' c db).
Proof.
  intros Hs [Hm Hi Hr] [Hmi Hii Hri Hmc Hic Hcc]. unfold store_member, stored.
  destruct (update_member_writes _ (lm_member l') _ _ Hs Hm Hmi Hmc) as (s1 & He1 & Hs1).
  rewrite (run_bind_ret _ _ _ _ _ He1).
  destruct (update_instance_writes _ (lm_instance l') _ _ Hs1 Hi Hii Hic) as (s2 & He2 & Hs2).
  rewrite (run_bind_ret _ _ _ _ _ He2).
  set (db2 := put_instance _ _) in *.
  set (db3 := match lm_resource l, lm_resource l' with
              | Some _, Some r' => put_resource (lr_resource r') db2 | _, _ => db2 end).
  assert (∃ s3, match lm_resource l, lm_resource l' with
                | Some r, Some r' => update_resource (lr_resource r) (lr_resource r')
                | _, _ => mret tt end s2 = (s3, Ret tt)
    ∧ sees s3 db3) as (s3 & He3 & Hs3).
  { subst db3. destruct (lm_resource l) as [r|], (lm_resource l') as [r'|]; [|by eexists..].
    by apply update_resource_writes; [|apply Hr|apply Hri]. }
  rewrite (run_bind_ret _ _ _ _ _ He3).
  assert (credentials db3 = credentials db) as Hcr by (subst db3 db2; by repeat case_match).
  assert (∃ s4, match c with Some c => insert_credential c | None => mret tt end s3 = (s4, Ret tt)
    ∧ sees s4 match c with Some c => put_credential c db3 | None => db3 end) as (s4 & He4 & Hs4).
  { destruct c as [c|]; [|by eexists]. unfold insert_credential.
    destruct (sees_query (credential_conflict c) _ _ Hs3) as (s4 & He4 & Hs4).
    rewrite (run_bind_ret _ _ _ _ _ He4). unfold credential_conflict at 1. rewrite Hcr.
    specialize (Hcc _ eq_refl). unfold credential_conflict in Hcc. rewrite Hcc. by apply sees_execute. }
  rewrite (run_bind_ret _ _ _ _ _ He4). pose proof (sees_commit _ _ Hs4) as Hc4.
  eexists. split; [done|]. split; [done|]. unfold sees. cbn. destruct Hs4 as [_ ->]. split; [|done]. cbn in Hc4. done.
Qed.

(** ** What each step leaves for the later ones *)
Section progress.
  Context (encrypt : string → string) (decrypt : string → outcome string).

Definition known (ciphertext : option string) : Prop := ∃ s, decrypt (str_column ciphertext) = Ret s.

(** A pool from which a cluster can be bought. *)
Record supplied (pool : DedicatedPool) : Prop := {
  sup_config : ∃ kvs, json_loads (p_purchase_config_json pool) = Some (JObj kvs);
  sup_region : strip (p_region_id pool) ≠ EmptyString;
  sup_vpc : strip (p_vpc_id pool) ≠ EmptyString;
  sup_vswitch : strip (p_vswitch_id pool) ≠ EmptyString
}.

Record material (pool : DedicatedPool) (i : Instance) (m : DedicatedPoolMember) : Prop := {
  mat_region : (1 ≤ Step.rank (m_preparation_step m))%nat → i_region i = Some (strip (p_region_id pool));
  mat_endpoint : (4 ≤ Step.rank (m_preparation_step m))%nat → m_host m ≠ None ∧ m_port m ≠ None;
  mat_lifecycle : (5 ≤ Step.rank (m_preparation_step m))%nat →
    known (m_lifecycle_username_ciphertext m) ∧ known (m_lifecycle_password_ciphertext m);
  mat_sandbox : (7 ≤ Step.rank (m_preparation_step m))%nat →
    known (m_sandbox_username_ciphertext m) ∧ known (m_sandbox_password_ciphertext m)
    ∧ m_sandbox_username_ciphertext m ≠ None ∧ m_sandbox_password_ciphertext m ≠ None
    ∧ m_database_name m ≠ None ∧ m_permission_snapshot_json m ≠ None
}.

(** A member that can be prepared, with its rows. *)
Record preparing (pool : DedicatedPool) (revision : PermissionTemplateRevision) (db : DB)
    (m : DedicatedPoolMember) (i : Instance) : Prop := {
  pr_member : pool_members db !! m_id m = Some m;
  pr_instance : instances db !! m_instance_id m = Some i;
  pr_instance_id : i_id i = m_instance_id m;
  pr_pool : pools db !! m_pool_id m = Some pool;
  pr_revision : revisions db !! p_permission_template_revision_id pool = Some revision;
  pr_snapshot : ∃ snapshot, permission_snapshot_for_revision revision = Ret snapshot;
  pr_supplied : supplied pool;
  pr_material : material pool i m;
  pr_resource : ∀ rid, m_allocated_resource_id m = Some rid →
    ∃ r, resources db !! rid = Some r ∧ r_id r = rid;
  pr_alone : member_conflict m db = false;
  pr_cluster : instance_conflict i db = false
}.

(** The identifiers a round draws are in no other row. *)
Record fresh (cluster_id : string) (av : AdvanceEntropy) (db : DB) (m : DedicatedPoolMember) : Prop := {
  fr_token : ∀ k o, pool_members db !! k = Some o → m_id o ≠ m_id m →
    m_purchase_token o ≠ Some (av_uuid av);
  fr_cluster : ∀ k o, instances db !! k = Some o → i_id o ≠ m_instance_id m → i_cluster_id o ≠ cluster_id;
  fr_credential : credentials db !! av_credential_id av = None
}.

(** What a call returns when it succeeds. *)
Definition cooperative (cluster_id : string) (call : PendingCall) (result : CallResult) : Prop :=
  match call, result with
  | PurchaseCluster _ _ _, GotCluster c => cr_cluster_id c = Some cluster_id
  | DescribeCluster _, GotStatus status => status = Some "Running"
  | ResolveEndpoint _ _, GotEndpoint _ _ => True
  | CreateAccount _ _ _ _, Succeeded | DescribeLifecycleAccount _ _, Succeeded
  | CreateMemberDatabase _ _ _, Succeeded | GrantPermissions, Succeeded | VerifyMember, Succeeded => True
  | StepDone _, _ => True
  | _, _ => False
  end.

Lemma network_identifier_some v field :
  strip v ≠ EmptyString → network_identifier (Some v) field = Ret (strip v).
Proof.
  intros Hv. unfold network_identifier. cbv zeta. change (default EmptyString (Some v)) with v.
  by rewrite (proj2 (String.eqb_neq _ _) Hv).
Qed.

Lemma purchase_parameters_supplied m pool i :
  supplied pool → i_region i = Some (strip (p_region_id pool)) → ∃ ps, purchase_parameters m pool i = Ret ps.
Proof.
  intros [[kvs Hc] Hr Hv Hw] Hi. unfold purchase_parameters. rewrite Hc, Hi.
  rewrite !network_identifier_some by (rewrite ?strip_idem; done). by eexists.
Qed.

(** Rows of other members and instances. *)
Lemma member_conflict_none m db :
  member_conflict m db = false ↔ ∀ k o, pool_members db !! k = Some o → m_id o ≠ m_id m →
    m_instance_id o ≠ m_instance_id m
    ∧ (m_purchase_token m ≠ None → m_purchase_token o ≠ m_purchase_token m)
    ∧ (m_allocated_resource_id m ≠ None → m_allocated_resource_id o ≠ m_allocated_resource_id m).
Proof.
  unfold member_conflict. rewrite <-not_true_iff_false, existsb_exists. split.
  - intros Hn k o Hk Hid. split_and!; [intros He|intros Hs He|intros Hs He]; apply Hn; exists o;
      (split; [apply list_elem_of_In, list_elem_of_fmap; exists (k, o); by rewrite elem_of_map_to_list|]);
      rewrite (proj2 (String.eqb_neq _ _) Hid); cbn.
    + by rewrite He, String.eqb_refl.
    + rewrite He. repeat case_bool_decide; try done; by rewrite ?orb_true_r.
    + rewrite He. repeat case_bool_decide; try done; by rewrite ?orb_true_r.
  - intros Hall (o & Hin & Hb). apply list_elem_of_In, list_elem_of_fmap in Hin as ([k o'] & -> & Hk).
    apply elem_of_map_to_list in Hk. cbn in *. apply andb_true_iff in Hb as [Hid Hb].
    apply negb_true_iff, String.eqb_neq in Hid. destruct (Hall _ _ Hk Hid) as (Hi & Ht & Ha).
    apply orb_true_iff in Hb as [[Hb%String.eqb_eq|[Hs Hb]%andb_true_iff]%orb_true_iff|[Hs Hb]%andb_true_iff]; [done| |];
      repeat case_bool_decide; try done; first [by apply Ht|by apply Ha].
Qed.

Lemma instance_conflict_none i db :
  instance_conflict i db = false ↔
  ∀ k o, instances db !! k = Some o → i_id o ≠ i_id i → i_cluster_id o ≠ i_cluster_id i.
Proof.
  unfold instance_conflict. rewrite <-not_true_iff_false, existsb_exists. split.
  - intros Hn k o Hk Hid He. apply Hn. exists o.
    split; [apply list_elem_of_In, list_elem_of_fmap; exists (k, o); by rewrite elem_of_map_to_list|].
    by rewrite (proj2 (String.eqb_neq _ _) Hid), He, String.eqb_refl.
  - intros Hall (o & Hin & Hb). apply list_elem_of_In, list_elem_of_fmap in Hin as ([k o'] & -> & Hk).
    apply elem_of_map_to_list in Hk. cbn in *. apply andb_true_iff in Hb as [Hid Hb].
    apply negb_true_iff, String.eqb_neq in Hid. apply String.eqb_eq in Hb. by eapply Hall.
Qed.

Lemma member_conflict_put m i db : member_conflict m db = false → member_conflict m (put_instance i (put_member m db)) = false.
Proof.
  rewrite !member_conflict_none. intros Ho k o. cbn. intros [[_ <-]|[_ Hk]]%lookup_insert_Some Hid; [done|].
  by eapply Ho.
Qed.
Lemma instance_conflict_put m i db : instance_conflict i db = false → instance_conflict i (put_instance i (put_member m db)) = false.
Proof.
  rewrite !instance_conflict_none. intros Ho k o. cbn. intros [[_ <-]|[_ Hk]]%lookup_insert_Some Hid; [done|].
  by eapply Ho.
Qed.

(** The new row of a member under preparation. *)
Record advanced (m m' : DedicatedPoolMember) (i i' : Instance) : Prop := {
  ad_id : m_id m' = m_id m;
  ad_pool : m_pool_id m' = m_pool_id m;
  ad_instance : m_instance_id m' = m_instance_id m;
  ad_allocated : m_allocated_resource_id m' = m_allocated_resource_id m;
  ad_instance_id : i_id i' = i_id i
}.

Lemma preparing_put pool revision db m i m' i' :
  preparing pool revision db m i → advanced m m' i i' → material pool i' m' →
  member_conflict m' db = false → instance_conflict i' db = false →
  preparing pool revision (put_instance i' (put_member m' db)) m' i'.
Proof.
  intros Hp [Hid Hpo Hin Hal Hii] Hm Hmc Hic.
  split; cbn; rewrite ?Hid, ?Hpo, ?Hin, ?Hal, ?Hii, ?(pr_instance_id _ _ _ _ _ Hp); try apply Hp; try done.
  - by rewrite lookup_insert_eq.
  - by rewrite lookup_insert_eq.
  - by apply member_conflict_put.
  - by apply instance_conflict_put.
Qed.

Lemma fresh_put cluster_id av db m i m' i' :
  fresh cluster_id av db m → advanced m m' i i' → i_id i = m_instance_id m →
  fresh cluster_id av (put_instance i' (put_member m' db)) m'.
Proof.
  intros [Ht Hc Hcr] [Hid _ Hin _ Hii] Hi. split; cbn; [| |done].
  - intros k o [[_ <-]|[_ Hk]]%lookup_insert_Some Hne; [done|]. eapply Ht; [done|congruence].
  - intros k o [[_ <-]|[_ Hk]]%lookup_insert_Some Hne; [congruence|]. eapply Hc; [done|congruence].
Qed.

(** ** One round *)
Definition loaded_in (db : DB) (m : DedicatedPoolMember) (i : Instance) (pool : DedicatedPool) : LoadedMember :=
  mk_loaded_member m pool i (revisions db !! p_permission_template_revision_id pool) (member_revision m db)
    (rid ← m_allocated_resource_id m; r ← resources db !! rid; Some (mk_loaded r (resource_credentials rid db))).

Lemma load_member_finds pool revision db m i :
  preparing pool revision db m i →
  load_member (m_id m) (open_session db) = (mk_session db db true [], Ret (Some (loaded_in db m i pool))).
Proof.
  intros Hp. unfold load_member, open_session. rewrite run_query_begin, (pr_member _ _ _ _ _ Hp).
  rewrite run_query, (pr_pool _ _ _ _ _ Hp), run_query, (pr_instance _ _ _ _ _ Hp). done.
Qed.

Lemma preparing_loaded pool revision db m i :
  preparing pool revision db m i → as_loaded (loaded_in db m i pool) db.
Proof.
  intros Hp. split; cbn; [apply Hp|rewrite (pr_instance_id _ _ _ _ _ Hp); apply Hp|].
  intros lr. destruct (m_allocated_resource_id m) as [rid|] eqn:Ha; cbn; [|done].
  destruct (pr_resource _ _ _ _ _ Hp _ Ha) as (r & Hr & Hid). rewrite Hr. cbn. intros [= <-]. cbn. congruence.
Qed.

(** A step that keeps the resource writes the member and its instance. *)
Lemma stored_plain l l' db :
  as_loaded l db → lm_resource l' = lm_resource l →
  stored l l' None db = put_instance (lm_instance l') (put_member (lm_member l') db).
Proof.
  intros Hl He. unfold stored. rewrite He. destruct (lm_resource l) as [r|] eqn:Hr; [|done].
  apply put_resource_same. cbn. by apply Hl.
Qed.

(** What a round makes of the two rows. *)
Record next_rows (db : DB) (pool : DedicatedPool) (m m' : DedicatedPoolMember) (i i' : Instance) : Prop := {
  nx_advanced : advanced m m' i i';
  nx_step : m_preparation_step m' = Step.next (m_preparation_step m);
  nx_material : material pool i' m';
  nx_alone : member_conflict m' db = false;
  nx_cluster : instance_conflict i' db = false
}.

Section round.
  Context (pool : DedicatedPool) (revision : PermissionTemplateRevision) (db : DB).
  Context (m : DedicatedPoolMember) (i : Instance) (Hp : preparing pool revision db m i).
  Abbreviation l := (loaded_in db m i pool).

Lemma plain_storable m' i' :
  next_rows db pool m m' i i' → storable l (l <| lm_instance := i' |> <| lm_member := m' |>) None db.
Proof.
  intros [Ha _ _ Hm Hi]. split; cbn; [apply Ha|apply Ha| |done|done|done].
  intros r r' -> [= <-]. done.
Qed.

Lemma store_done_writes m' i' :
  next_rows db pool m m' i i' →
  ∃ s, store_done l m' i' (mk_session db db true []) =
         (s, Ret (l <| lm_member := m' |> <| lm_instance := i' |>, StepDone (m_preparation_step m')))
       ∧ committed s = put_instance i' (put_member m' db).
Proof.
  intros Hn. pose proof (plain_storable _ _ Hn) as Hst. unfold store_done.
  destruct (store_member_writes _ (l <| lm_member := m' |> <| lm_instance := i' |>) None (mk_session db db true []) db
    ltac:(done) (preparing_loaded _ _ _ _ _ Hp) Hst) as (s & He & Hc & _).
  exists s. rewrite (run_bind_ret _ _ _ _ _ He). split; [done|]. rewrite Hc.
  by rewrite stored_plain by (done || by eapply preparing_loaded).
Qed.

Lemma finish_with_writes l' m' i' :
  next_rows db pool m m' i i' → l' = l <| lm_instance := i' |> <| lm_member := m' |> →
  txn_db (finish_with l l' None) db = put_instance i' (put_member m' db).
Proof.
  intros Hn ->. pose proof (plain_storable _ _ Hn) as Hst. unfold finish_with, txn_db, with_session.
  destruct (store_member_writes _ (l <| lm_instance := i' |> <| lm_member := m' |>) None (open_session db) db
    ltac:(done) (preparing_loaded _ _ _ _ _ Hp) Hst) as (s & He & Hc & _).
  rewrite (run_bind_ret _ _ _ _ _ He). cbn [fst mret M_ret]. rewrite Hc.
  by rewrite stored_plain by (done || by eapply preparing_loaded).
Qed.

Lemma keeps_alone m' : m_id m' = m_id m → m_instance_id m' = m_instance_id m →
  m_allocated_resource_id m' = m_allocated_resource_id m → m_purchase_token m' = m_purchase_token m →
  member_conflict m' db = false.
Proof.
  intros H1 H2 H3 H4. pose proof (pr_alone _ _ _ _ _ Hp) as Ho. rewrite member_conflict_none in *.
  by rewrite H1, H2, H3, H4.
Qed.

Lemma keeps_cluster i' : i_id i' = i_id i → i_cluster_id i' = i_cluster_id i → instance_conflict i' db = false.
Proof.
  intros H1 H2. pose proof (pr_cluster _ _ _ _ _ Hp) as Ho. rewrite instance_conflict_none in *.
  by rewrite H1, H2.
Qed.

(** The rows of the next step, when only columns of this step change. *)
Lemma next_rows_of m' i' :
  advanced m m' i i' → m_purchase_token m' = m_purchase_token m → i_cluster_id i' = i_cluster_id i →
  m_preparation_step m' = Step.next (m_preparation_step m) → material pool i' m' →
  next_rows db pool m m' i i'.
Proof.
  intros Ha Ht Hc Hs Hm. split; [done..|apply keeps_alone|apply keeps_cluster]; try done; apply Ha.
Qed.

(** A round without a call, and the two transactions of one with a call. *)
Lemma round_done now av answer m' i' :
  begin_advance encrypt decrypt av true (m_id m) (open_session db) = store_done l m' i' (mk_session db db true []) →
  next_rows db pool m m' i i' →
  round_of encrypt decrypt now av true (m_id m) answer db = put_instance i' (put_member m' db).
Proof.
  intros Hb Hn. destruct (store_done_writes _ _ Hn) as (s & He & Hc). unfold round_of, with_session.
  by rewrite Hb, He, Hc.
Qed.

Lemma round_call now av answer call m' i' :
  begin_advance encrypt decrypt av true (m_id m) (open_session db) = then_call l call (mk_session db db true []) →
  (∀ step, call ≠ StepDone step) →
  finish_advance encrypt now av l call (answer call)
    = finish_with l (l <| lm_instance := i' |> <| lm_member := m' |>) None →
  next_rows db pool m m' i i' →
  round_of encrypt decrypt now av true (m_id m) answer db = put_instance i' (put_member m' db).
Proof.
  intros Hb Hc Hf Hn. unfold round_of, with_session. rewrite Hb. unfold then_call.
  rewrite run_commit. cbn [mret M_ret committed]. rewrite <-(finish_with_writes _ _ _ Hn eq_refl), <-Hf.
  destruct call; [by destruct (Hc step)|done..].
Qed.
End round.

Lemma truthy_some s : s ≠ EmptyString → truthy (Some s) = true.
Proof. by destruct s. Qed.

(** *** Each step *)
Section steps.
  Context (pool : DedicatedPool) (revision : PermissionTemplateRevision) (db : DB).
  Context (m : DedicatedPoolMember) (i : Instance) (Hp : preparing pool revision db m i).
  Context (now : time) (av : AdvanceEntropy) (answer : PendingCall → CallResult) (cluster_id : string).
  Context (Hcrypt : ∀ s, ∃ p, decrypt (encrypt s) = Ret p) (Hcid : cluster_id ≠ EmptyString).
  Context (Hans : ∀ call, cooperative cluster_id call (answer call)) (Hfresh : fresh cluster_id av db m).

Definition goes_on : Prop := ∃ m' i',
  round_of encrypt decrypt now av true (m_id m) answer db = put_instance i' (put_member m' db)
  ∧ next_rows db pool m m' i i'.

Lemma begin_finds {A} (k : option LoadedMember → M (Session DB) A) :
  (load_member (m_id m) ≫= k) (open_session db) = k (Some (loaded_in db m i pool)) (mk_session db db true []).
Proof. by rewrite (run_bind_ret _ _ _ _ _ (load_member_finds _ _ _ _ _ Hp)). Qed.

Ltac begin_step Hs :=
  unfold begin_advance; rewrite begin_finds; cbn [lm_member lm_instance lm_pool loaded_in]; rewrite Hs.
(** The columns of a step, from those of the steps before. *)
Ltac step_material Hs :=
  let Hm := fresh "Hm" in pose proof (pr_material _ _ _ _ _ Hp) as Hm;
  destruct Hm as [?Hreg ?Hend ?Hlc ?Hsb]; rewrite Hs in *; cbn [Step.rank] in *;
  split; cbn; intros; first [lia | match goal with H : _ → ?P |- ?P => apply H; lia end | done | idtac].
Ltac plain_step Hs := apply (next_rows_of _ _ _ _ _ Hp); [done|done|done|by rewrite Hs|step_material Hs].

Lemma go_pending : m_preparation_step m = DedicatedPreparationStep.PENDING → goes_on.
Proof.
  intros Hs. assert (next_rows db pool m (set_step DedicatedPreparationStep.PURCHASE_INTENT_STORED
    (m <| m_purchase_token := Some (av_uuid av) |>)) i (i <| i_region := Some (strip (p_region_id pool)) |>)) as Hn.
  { split; [done|by rewrite Hs|step_material Hs| |by apply (pr_cluster _ _ _ _ _ Hp)].
    pose proof (proj1 (member_conflict_none _ _) (pr_alone _ _ _ _ _ Hp)) as Ho.
    apply member_conflict_none. cbn. intros k o Hk Hid. destruct (Ho _ _ Hk Hid) as (? & _ & ?).
    split_and!; [done|intros _; by eapply (fr_token _ _ _ _ Hfresh)|done]. }
  eexists _, _. split; [|exact Hn]. apply (round_done _ _ _ _ _ Hp); [|exact Hn]. by begin_step Hs.
Qed.

Lemma go_purchase : m_preparation_step m = DedicatedPreparationStep.PURCHASE_INTENT_STORED → goes_on.
Proof.
  intros Hs. pose proof (pr_supplied _ _ _ _ _ Hp) as Hsup.
  pose proof (mat_region _ _ _ (pr_material _ _ _ _ _ Hp)) as Hreg. rewrite Hs in Hreg. specialize (Hreg (le_n _)).
  destruct (purchase_parameters_supplied m _ _ Hsup Hreg) as [ps Hps].
  set (call := PurchaseCluster ps ("PAS Dedicated pool " +:+ p_name pool) ("PAS prewarmed member " +:+ m_id m)).
  pose proof (Hans call) as Hc. destruct (answer call) as [c| | | |] eqn:Ha; try done. cbn in Hc.
  set (i' := i <| i_cluster_id := cluster_id |> <| i_allocation_mode := AllocationMode.DEDICATED_POOL |>
               <| i_status := InstanceStatus.CREATING |>).
  set (m' := set_step DedicatedPreparationStep.PURCHASE_REQUESTED
               (m <| m_agentic_db_cluster_id := optional_string (cr_agentic_db_cluster_id c) |>
                  <| m_cloud_request_id := optional_string (cr_request_id c) |>)).
  assert (next_rows db pool m m' i i') as Hn.
  { split; [done|by rewrite Hs|step_material Hs|by apply (keeps_alone _ _ _ _ _ Hp)|].
    apply instance_conflict_none. cbn. rewrite (pr_instance_id _ _ _ _ _ Hp). apply Hfresh. }
  exists m', i'. split; [|exact Hn]. apply (round_call _ _ _ _ _ Hp _ _ _ call); [|by intros| |exact Hn].
  - begin_step Hs. rewrite Hreg, truthy_some by apply Hsup. cbn [negb]. rewrite bool_decide_eq_true_2 by done.
    cbn [negb]. rewrite run_outcome, Hps. reflexivity.
  - rewrite Ha. cbn [finish_advance loaded_in lm_member lm_instance call]. rewrite Hc.
    change (default EmptyString (Some cluster_id)) with cluster_id.
    rewrite (proj2 (String.eqb_neq _ _) Hcid). reflexivity.
Qed.

Lemma known_encrypted s : known (Some (encrypt s)).
Proof. apply Hcrypt. Qed.

(** A call whose success only moves the step. *)
Lemma go_call call step :
  begin_advance encrypt decrypt av true (m_id m) (open_session db)
    = then_call (loaded_in db m i pool) call (mk_session db db true []) →
  (∀ step, call ≠ StepDone step) → step = Step.next (m_preparation_step m) →
  finish_advance encrypt now av (loaded_in db m i pool) call (answer call)
    = finish_step (loaded_in db m i pool) step →
  material pool i (set_step step m) → goes_on.
Proof.
  intros Hb Hc Hn Hf Hm. exists (set_step step m), i.
  assert (next_rows db pool m (set_step step m) i i) as Hr by (apply (next_rows_of _ _ _ _ _ Hp); done).
  split; [|exact Hr]. by apply (round_call _ _ _ _ _ Hp _ _ _ call).
Qed.

(** Answers of the calls that return nothing. *)
Lemma answered call :
  match call with
  | CreateAccount _ _ _ _ | DescribeLifecycleAccount _ _ | CreateMemberDatabase _ _ _ | GrantPermissions
  | VerifyMember => answer call = Succeeded
  | _ => True
  end.
Proof. pose proof (Hans call) as Hc. by destruct call, (answer _). Qed.

Lemma go_requested : m_preparation_step m = DedicatedPreparationStep.PURCHASE_REQUESTED → goes_on.
Proof.
  intros Hs. pose proof (Hans (DescribeCluster (i_cluster_id i))) as Hc.
  destruct (answer (DescribeCluster _)) as [|status| | |] eqn:Ha; try done. cbn in Hc. subst status.
  apply (go_call (DescribeCluster (i_cluster_id i)) DedicatedPreparationStep.CLUSTER_READY);
    [by begin_step Hs|by intros|by rewrite Hs|by rewrite Ha|step_material Hs].
Qed.

Lemma go_endpoint : m_preparation_step m = DedicatedPreparationStep.CLUSTER_READY → goes_on.
Proof.
  intros Hs. set (call := ResolveEndpoint (i_cluster_id i) (p_endpoint_net_type pool)).
  pose proof (Hans call) as Hc. destruct (answer call) as [| |host port| |] eqn:Ha; try done.
  set (i' := i <| i_host := Some host |> <| i_port := Some port |>).
  set (m' := set_step DedicatedPreparationStep.ENDPOINT_RESOLVED (m <| m_host := Some host |> <| m_port := Some port |>)).
  assert (next_rows db pool m m' i i') as Hn by plain_step Hs.
  exists m', i'. split; [|exact Hn]. apply (round_call _ _ _ _ _ Hp _ _ _ call); [by begin_step Hs|by intros| |exact Hn].
  by rewrite Ha.
Qed.

Lemma go_lifecycle : m_preparation_step m = DedicatedPreparationStep.ENDPOINT_RESOLVED → goes_on.
Proof.
  intros Hs. eexists _, i. assert (next_rows db pool m (set_step DedicatedPreparationStep.LIFECYCLE_ACCOUNT_STORED
      (m <| m_lifecycle_username_ciphertext := Some (encrypt ("pas_lifecycle_" +:+ String.substring 0 8 (m_id m))) |>
         <| m_lifecycle_password_ciphertext := Some (encrypt (generate_db_password (av_password_draws av))) |>)) i i) as Hn.
  { plain_step Hs. split; apply known_encrypted. }
  split; [|exact Hn]. apply (round_done _ _ _ _ _ Hp); [by begin_step Hs|exact Hn].
Qed.

Lemma go_lifecycle_account : m_preparation_step m = DedicatedPreparationStep.LIFECYCLE_ACCOUNT_STORED → goes_on.
Proof.
  intros Hs. pose proof (mat_lifecycle _ _ _ (pr_material _ _ _ _ _ Hp)) as Hk. rewrite Hs in Hk.
  destruct (Hk ltac:(cbn; lia)) as [[user Hu] [password Hw]].
  apply (go_call (CreateAccount (i_cluster_id i) user password "Super") DedicatedPreparationStep.LIFECYCLE_ACCOUNT_CREATED);
    [|by intros|by rewrite Hs| |step_material Hs].
  - begin_step Hs. by rewrite !run_outcome, Hu, run_outcome, Hw.
  - rewrite (answered (CreateAccount _ _ _ _)). cbn [finish_advance loaded_in lm_member]. by rewrite Hs.
Qed.

Lemma go_sandbox : m_preparation_step m = DedicatedPreparationStep.LIFECYCLE_ACCOUNT_CREATED → goes_on.
Proof.
  intros Hs. pose proof (mat_lifecycle _ _ _ (pr_material _ _ _ _ _ Hp)) as Hk. rewrite Hs in Hk.
  destruct (Hk ltac:(cbn; lia)) as [[user Hu] _]. destruct (pr_snapshot _ _ _ _ _ Hp) as [snapshot Hsn].
  set (m' := set_step DedicatedPreparationStep.SANDBOX_ACCOUNT_STORED
    (m <| m_sandbox_username_ciphertext := Some (encrypt (p_account_name_template pool)) |>
       <| m_sandbox_password_ciphertext := Some (encrypt (generate_db_password (av_password_draws av))) |>
       <| m_database_name := Some (p_database_name_template pool) |>
       <| m_permission_template_revision_id := Some (pr_id revision) |>
       <| m_permission_snapshot_json := Some (permission_snapshot_to_json snapshot) |>)).
  assert (next_rows db pool m m' i i) as Hn by (plain_step Hs; split_and!; (apply known_encrypted || done)).
  exists m', i. split; [|exact Hn].
  apply (round_call _ _ _ _ _ Hp _ _ _ (DescribeLifecycleAccount (i_cluster_id i) user)); [|by intros| |exact Hn].
  - begin_step Hs. by rewrite run_outcome, Hu.
  - rewrite (answered (DescribeLifecycleAccount _ _)). cbn [finish_advance]. unfold store_sandbox.
    cbn [loaded_in lm_pool_revision]. rewrite (pr_revision _ _ _ _ _ Hp), Hsn. reflexivity.
Qed.

Lemma go_sandbox_account : m_preparation_step m = DedicatedPreparationStep.SANDBOX_ACCOUNT_STORED → goes_on.
Proof.
  intros Hs. pose proof (mat_sandbox _ _ _ (pr_material _ _ _ _ _ Hp)) as Hk. rewrite Hs in Hk.
  destruct (Hk ltac:(cbn; lia)) as ([user Hu] & [password Hw] & _).
  apply (go_call (CreateAccount (i_cluster_id i) user password "Normal") DedicatedPreparationStep.SANDBOX_ACCOUNT_CREATED);
    [|by intros|by rewrite Hs| |step_material Hs].
  - begin_step Hs. by rewrite !run_outcome, Hu, run_outcome, Hw.
  - rewrite (answered (CreateAccount _ _ _ _)). cbn [finish_advance loaded_in lm_member]. by rewrite Hs.
Qed.

Lemma go_database : m_preparation_step m = DedicatedPreparationStep.SANDBOX_ACCOUNT_CREATED → goes_on.
Proof.
  intros Hs. pose proof (mat_sandbox _ _ _ (pr_material _ _ _ _ _ Hp)) as Hk. rewrite Hs in Hk.
  destruct (Hk ltac:(cbn; lia)) as ([user Hu] & _).
  apply (go_call (CreateMemberDatabase (i_cluster_id i) user (str_column (m_database_name m)))
    DedicatedPreparationStep.DATABASE_CREATED); [|by intros|by rewrite Hs| |step_material Hs].
  - begin_step Hs. by rewrite !run_outcome, Hu.
  - by rewrite (answered (CreateMemberDatabase _ _ _)).
Qed.

Lemma go_openapi : m_preparation_step m = DedicatedPreparationStep.DATABASE_CREATED → goes_on.
Proof.
  intros Hs. eexists _, i.
  assert (next_rows db pool m (set_step DedicatedPreparationStep.OPENAPI_READY m) i i) as Hn by plain_step Hs.
  split; [|exact Hn]. apply (round_done _ _ _ _ _ Hp); [by begin_step Hs|exact Hn].
Qed.

Lemma go_grant : m_preparation_step m = DedicatedPreparationStep.OPENAPI_READY → goes_on.
Proof.
  intros Hs. apply (go_call GrantPermissions DedicatedPreparationStep.PRIVILEGES_GRANTED);
    [by begin_step Hs|by intros|by rewrite Hs|by rewrite (answered GrantPermissions)|step_material Hs].
Qed.

(** One round with answers takes a member one step further. *)
Lemma round_next : (Step.rank (m_preparation_step m) < 11)%nat → goes_on.
Proof.
  intros Hr. destruct (m_preparation_step m) eqn:Hs; cbn in Hr; try lia;
    eauto using go_pending, go_purchase, go_requested, go_endpoint, go_lifecycle, go_lifecycle_account,
      go_sandbox, go_sandbox_account, go_database, go_openapi, go_grant.
Qed.

(** *** The last step *)

Lemma has_credentials rid db' k c :
  credentials db' !! k = Some c → c_resource_id c = Some rid → resource_credentials rid db' ≠ [].
Proof.
  intros Hk Hc. unfold resource_credentials. intros Hn. apply (not_elem_of_nil c). rewrite <-Hn.
  apply list_elem_of_filter. split; [done|]. apply list_elem_of_fmap. exists (k, c).
  by rewrite elem_of_map_to_list.
Qed.

(** A member at work: verified, and available or serving its resource. *)
Definition in_service (db : DB) (mid : string) : Prop := ∃ m i,
  pool_members db !! mid = Some m ∧ m_preparation_step m = DedicatedPreparationStep.VERIFIED
  ∧ m_readiness_status m = ReadinessStatus.FRESH ∧ instances db !! m_instance_id m = Some i
  ∧ i_status i = InstanceStatus.ACTIVE
  ∧ match m_allocated_resource_id m with
    | None => m_status m = DedicatedMemberStatus.AVAILABLE
    | Some rid => m_status m = DedicatedMemberStatus.ALLOCATED ∧ ∃ r, resources db !! rid = Some r
        ∧ r_status r = DBInstanceStatus.READY ∧ r_allocated_instance_id r = Some (m_instance_id m)
        ∧ r_database_name r = m_database_name m ∧ resource_credentials rid db ≠ []
    end.

Definition verified_row : DedicatedPoolMember :=
  set_step DedicatedPreparationStep.VERIFIED
    (m <| m_last_ready_verified_at := Some now |> <| m_readiness_status := ReadinessStatus.FRESH |>
       <| m_failure_reason := None |> <| m_retry_count := 0 |> <| m_next_retry_at := None |>).

Lemma verified_stores c l' :
  verified_member now av (loaded_in db m i pool) = Ret (l', c) →
  storable (loaded_in db m i pool) l' c db →
  m_preparation_step m = DedicatedPreparationStep.PRIVILEGES_GRANTED →
  round_of encrypt decrypt now av true (m_id m) answer db = stored (loaded_in db m i pool) l' c db.
Proof.
  intros Hv Hst Hs. unfold round_of, with_session. begin_step Hs. unfold then_call. rewrite run_commit.
  cbn [mret M_ret committed]. rewrite (answered VerifyMember). cbn [finish_advance]. unfold txn_db, with_session.
  rewrite run_outcome, Hv. cbn [fst snd]. unfold finish_with.
  destruct (store_member_writes _ l' c (open_session db) db ltac:(done) (preparing_loaded _ _ _ _ _ Hp) Hst)
    as (s & He & Hc & _).
  rewrite (run_bind_ret _ _ _ _ _ He). cbn. by rewrite Hc.
Qed.
(** The rows of a verified member that was bought for [r]. *)
Definition ready_instance : Instance := i <| i_status := InstanceStatus.ACTIVE |>.
Definition serving_member : DedicatedPoolMember := verified_row <| m_status := DedicatedMemberStatus.ALLOCATED |>.
Definition available_member : DedicatedPoolMember := verified_row <| m_status := DedicatedMemberStatus.AVAILABLE |>.
Definition served_resource (r : DBInstanceResource) : DBInstanceResource :=
  r <| r_allocated_instance_id := Some (m_instance_id m) |> <| r_database_name := m_database_name m |>
    <| r_permission_template_revision_id := m_permission_template_revision_id m |>
    <| r_permission_template_id := pr_template_id <$> member_revision m db |>
    <| r_permission_snapshot_json := m_permission_snapshot_json m |>
    <| r_status := DBInstanceStatus.READY |> <| r_provisioning_step := LeaseProvisioningStep.VERIFIED |>
    <| r_failure_reason := None |>.
Definition granted_access (r : DBInstanceResource) : option InstanceCredential :=
  match resource_credentials (r_id r) db with
  | [] => Some (member_access (av_credential_id av) verified_row (r_id r))
  | _ => None
  end.
Definition serving (r : DBInstanceResource) : LoadedMember :=
  (loaded_in db m i pool) <| lm_instance := ready_instance |> <| lm_member := serving_member |>
    <| lm_resource := Some (mk_loaded (served_resource r) (resource_credentials (r_id r) db)) |>.
Definition available : LoadedMember :=
  (loaded_in db m i pool) <| lm_instance := ready_instance |> <| lm_member := available_member |>.

Context (Hstep : m_preparation_step m = DedicatedPreparationStep.PRIVILEGES_GRANTED).

(** What the steps before left for the activation. *)
Lemma activation_material :
  m_host m ≠ None ∧ m_port m ≠ None ∧ m_sandbox_username_ciphertext m ≠ None
  ∧ m_sandbox_password_ciphertext m ≠ None ∧ m_database_name m ≠ None ∧ m_permission_snapshot_json m ≠ None.
Proof.
  pose proof (pr_material _ _ _ _ _ Hp) as [_ Hend _ Hsb]. rewrite Hstep in Hend, Hsb.
  destruct (Hend ltac:(cbn; lia)) as [Hh Hpt], (Hsb ltac:(cbn; lia)) as (_ & _ & Hu & Hw & Hd & Hj). done.
Qed.

Lemma verified_alone status : member_conflict (verified_row <| m_status := status |>) db = false.
Proof. by apply (keeps_alone _ _ _ _ _ Hp). Qed.
Lemma verified_cluster : instance_conflict ready_instance db = false.
Proof. by apply (keeps_cluster _ _ _ _ _ Hp). Qed.

Lemma verified_free : m_allocated_resource_id m = None →
  verified_member now av (loaded_in db m i pool) = Ret (available, None).
Proof. intros Hal. unfold available, available_member, verified_member, verified_row. cbn. by rewrite Hal. Qed.

Lemma verified_reserved rid r :
  m_allocated_resource_id m = Some rid → resources db !! rid = Some r → r_id r = rid →
  verified_member now av (loaded_in db m i pool) = Ret (serving r, granted_access r).
Proof.
  intros Hal Hr Hrid. destruct activation_material as (Hh & Hpt & Hu & Hw & Hd & Hj).
  unfold verified_member. cbn. rewrite Hal. cbn. rewrite Hr. cbn. unfold activate_dedicated_member. cbn.
  rewrite !(bool_decide_eq_false_2 _) by done. cbn. rewrite Hrid, bool_decide_eq_true_2 by done. cbn.
  unfold serving, serving_member, served_resource, granted_access, verified_row. cbn. by rewrite Hal, Hrid.
Qed.

Lemma round_last_free : m_allocated_resource_id m = None →
  in_service (round_of encrypt decrypt now av true (m_id m) answer db) (m_id m).
Proof.
  intros Hal. rewrite (verified_stores None available).
  - exists available_member, ready_instance.
    rewrite stored_plain by (done || by eapply preparing_loaded). cbn.
    rewrite Hal, (pr_instance_id _ _ _ _ _ Hp), !lookup_insert_eq. by split_and!.
  - by apply verified_free.
  - split; [done|done| |apply verified_alone|exact verified_cluster|done]. intros r r'. cbn. by rewrite Hal.
  - done.
Qed.

Lemma serving_storable rid r :
  m_allocated_resource_id m = Some rid → resources db !! rid = Some r →
  storable (loaded_in db m i pool) (serving r) (granted_access r) db.
Proof.
  intros Hal Hr. split; [done|done| |apply verified_alone|exact verified_cluster|].
  - intros r0 r1. cbn. rewrite Hal. cbn. rewrite Hr. cbn. by intros [= <-] [= <-].
  - unfold granted_access. intros c' Hc. destruct (resource_credentials _ _); [|done]. injection Hc as <-.
    apply bool_decide_eq_false_2. cbn. rewrite (fr_credential _ _ _ _ Hfresh). by intros [].
Qed.

(** The rows of the activation, with the credential it grants. *)
Definition served_rows (r : DBInstanceResource) : DB :=
  put_resource (served_resource r) (put_instance ready_instance (put_member serving_member db)).

Lemma serving_stored rid r :
  m_allocated_resource_id m = Some rid → resources db !! rid = Some r →
  stored (loaded_in db m i pool) (serving r) (granted_access r) db
  = match granted_access r with Some c => put_credential c (served_rows r) | None => served_rows r end.
Proof.
  intros Hal Hr. unfold stored. cbn [loaded_in lm_resource lm_member lm_instance]. rewrite Hal. cbn.
  rewrite Hr. by destruct (granted_access r).
Qed.

Lemma served_credentials r :
  resource_credentials (r_id r)
    match granted_access r with Some c => put_credential c (served_rows r) | None => served_rows r end ≠ [].
Proof.
  unfold granted_access. destruct (resource_credentials (r_id r) db) as [|c creds] eqn:Hc.
  - eapply (has_credentials _ _ (av_credential_id av)); [apply lookup_insert_eq|done].
  - unfold resource_credentials in *. cbn. by rewrite Hc.
Qed.

Lemma round_last_reserved rid r :
  m_allocated_resource_id m = Some rid → resources db !! rid = Some r → r_id r = rid →
  in_service (round_of encrypt decrypt now av true (m_id m) answer db) (m_id m).
Proof.
  intros Hal Hr Hrid.
  rewrite (verified_stores (granted_access r) (serving r)
    (verified_reserved _ _ Hal Hr Hrid) (serving_storable _ _ Hal Hr) Hstep), (serving_stored _ _ Hal Hr).
  pose proof (served_credentials r) as Hcreds. set (c := granted_access r) in *. rewrite Hrid in Hcreds.
  exists serving_member, ready_instance.
  assert (Hrows : let db3 := match c with Some c => put_credential c (served_rows r) | None => served_rows r end in
    pool_members db3 = pool_members (served_rows r) ∧ instances db3 = instances (served_rows r)
    ∧ resources db3 = resources (served_rows r)) by (by destruct c).
  destruct Hrows as (-> & -> & ->). cbn. rewrite Hal, (pr_instance_id _ _ _ _ _ Hp), Hrid, !lookup_insert_eq.
  split_and!; try done. exists (served_resource r). by split_and!.
Qed.

Lemma round_last : in_service (round_of encrypt decrypt now av true (m_id m) answer db) (m_id m).
Proof.
  destruct (m_allocated_resource_id m) as [rid|] eqn:Hal; [|by apply round_last_free].
  destruct (pr_resource _ _ _ _ _ Hp _ Hal) as (r & Hr & Hrid). by eapply round_last_reserved.
Qed.
End steps.

(** A round of a member at work changes nothing. *)
Lemma round_in_service db mid now av answer :
  in_service db mid → round_of encrypt decrypt now av true mid answer db = db.
Proof.
  intros (m & i & Hm & Hs & _ & Hi & _). unfold round_of, with_session, begin_advance, load_member.
  rewrite run_assoc. unfold open_session. rewrite run_query_begin, Hm, run_assoc, run_query, run_assoc, run_query, Hi.
  destruct (pools db !! m_pool_id m) as [pool|]; [|done].
  do 3 rewrite run_assoc, run_query. rewrite run_ret. cbn [lm_member]. by rewrite Hs.
Qed.

(** Rounds one after the other, each with its clock reading and draws. *)
Definition run_rounds (mid : string) (answer : PendingCall → CallResult) (rounds : list (time * AdvanceEntropy))
    (db : DB) : DB :=
  foldl (λ db r, round_of encrypt decrypt r.1 r.2 true mid answer db) db rounds.

Lemma run_in_service mid answer rounds db : in_service db mid → run_rounds mid answer rounds db = db.
Proof.
  intros Hin. induction rounds as [|r rounds IH]; [done|].
  change (run_rounds mid answer (r :: rounds) db) with
    (run_rounds mid answer rounds (round_of encrypt decrypt r.1 r.2 true mid answer db)).
  by rewrite round_in_service.
Qed.

(** The rounds a member needs that is at a step. *)
Definition rounds_left (m : DedicatedPoolMember) : nat := 12 - Step.rank (m_preparation_step m).

(** C23: Preparing a member comes to an end.  From any preparation step but the
    last, with the rows the earlier steps leave, let rounds of [advance] follow
    each other that may use the data plane, with nothing committed in between,
    and let the cloud and the member's server answer each call with success.
    Then the member is in service after as many rounds as steps are left (twelve
    from the first): VERIFIED and fresh, its instance active, and available or,
    when it was bought for a request, the resource READY on it with its database
    name and a credential; and any further rounds change nothing at all.  The rows
    are those of a pool with a supported purchase configuration, its networks and
    placement given, and a permission revision that compiles; their unique columns
    are in no other row, nor is what the rounds draw; and the cipher decrypts what
    it encrypted. *)
Theorem preparation_completes pool revision cluster_id answer rounds db m i :
  (∀ s, ∃ p, decrypt (encrypt s) = Ret p) → preparing pool revision db m i →
  m_preparation_step m ≠ DedicatedPreparationStep.VERIFIED →
  cluster_id ≠ EmptyString → (∀ call, cooperative cluster_id call (answer call)) →
  Forall (λ r, fresh cluster_id r.2 db m) rounds →
  (rounds_left m ≤ length rounds)%nat →
  in_service (run_rounds (m_id m) answer (take (rounds_left m) rounds) db) (m_id m)
  ∧ run_rounds (m_id m) answer rounds db = run_rounds (m_id m) answer (take (rounds_left m) rounds) db.
Proof.
  intros Hcrypt Hp Hv Hcid Hans Hfr Hlen.
  enough (in_service (run_rounds (m_id m) answer (take (rounds_left m) rounds) db) (m_id m)) as Hin.
  { split; [done|]. rewrite <-(take_drop (rounds_left m) rounds) at 1. unfold run_rounds at 1.
    rewrite foldl_app. by apply run_in_service. }
  assert (length (take (rounds_left m) rounds) = rounds_left m) as Hn by (rewrite length_take; lia).
  apply (Forall_take _ (rounds_left m)) in Hfr.
  revert Hfr Hn. generalize (take (rounds_left m) rounds). clear rounds Hlen. intros rounds.
  unfold rounds_left. revert db m i Hp Hv.
  induction rounds as [|[now av] rounds IH]; intros db m i Hp Hv Hf Hlen; cbn in Hlen.
  { destruct (m_preparation_step m); cbn in Hlen; (done || lia). }
  apply Forall_cons in Hf as [Hf Hrest].
  destruct (decide (m_preparation_step m = DedicatedPreparationStep.PRIVILEGES_GRANTED)) as [Hlast|Hne].
  - pose proof (round_last _ _ _ _ _ Hp now av answer _ Hans Hf Hlast) as Hin.
    change (in_service (run_rounds (m_id m) answer rounds (round_of encrypt decrypt now av true (m_id m) answer db)) (m_id m)).
    by rewrite run_in_service.
  - assert (Step.rank (m_preparation_step m) < 11)%nat as Hr by (by destruct (m_preparation_step m); cbn; (lia || done)).
    destruct (round_next _ _ _ _ _ Hp now av answer _ Hcrypt Hcid Hans Hf Hr) as (m' & i' & He & [Ha Hs Hm Hmc Hic]).
    pose proof (preparing_put _ _ _ _ _ _ _ Hp Ha Hm Hmc Hic) as Hp'.
    change (in_service (run_rounds (m_id m) answer rounds (round_of encrypt decrypt now av true (m_id m) answer db)) (m_id m)).
    rewrite He, <-(ad_id _ _ _ _ Ha). eapply IH; [exact Hp'| | |].
    + rewrite Hs. intros [|]%Step.next_verified; done.
    + eapply Forall_impl; [exact Hrest|]. intros r Hr0. eapply fresh_put; [exact Hr0|exact Ha|apply Hp].
    + rewrite Hs, Step.rank_next by done. lia.
Qed.
End progress.

Definition demo_answer (call : PendingCall) : CallResult :=
  match call with
  | StepDone _ => NotYet
  | PurchaseCluster _ _ _ => GotCluster (mk_cluster_result (Some "pc-1") None (Some "req-1"))
  | DescribeCluster _ => GotStatus (Some "Running")
  | ResolveEndpoint _ _ => GotEndpoint "db.internal" 3306
  | _ => Succeeded
  end.

(** The rows of the purchase in the demonstration. *)
Definition demo_member : DedicatedPoolMember :=
  ltac:(let x := eval vm_compute in (pool_members demo_bought !! "member-1") in match x with Some ?m => exact m end).
Definition demo_instance : Instance :=
  ltac:(let x := eval vm_compute in (instances demo_bought !! "inst-1") in match x with Some ?i => exact i end).
Definition demo_bought_pool : DedicatedPool :=
  ltac:(let x := eval vm_compute in (pools demo_bought !! "pool-1") in match x with Some ?p => exact p end).

Lemma demo_members : pool_members demo_bought = {[ "member-1" := demo_member ]}.
Proof. vm_compute. reflexivity. Qed.
Lemma demo_instances : instances demo_bought = {[ "inst-1" := demo_instance ]}.
Proof. vm_compute. reflexivity. Qed.
Lemma demo_pools : pools demo_bought !! "pool-1" = Some demo_bought_pool.
Proof. vm_compute. reflexivity. Qed.

Lemma demo_preparing : preparing Ret demo_bought_pool demo_revision demo_bought demo_member demo_instance.
Proof.
  split.
  - by rewrite demo_members, lookup_singleton_eq.
  - by rewrite demo_instances, lookup_singleton_eq.
  - reflexivity.
  - exact demo_pools.
  - vm_compute. reflexivity.
  - eexists. vm_compute. reflexivity.
  - split; [eexists; vm_compute; reflexivity|apply String.eqb_neq; vm_compute; reflexivity..].
  - split; cbn; lia.
  - intros rid [= <-].
    assert ((r_id <$> resources demo_bought !! "res-1") = Some "res-1") as Hr by (vm_compute; reflexivity).
    destruct (resources demo_bought !! "res-1") as [r|]; [|discriminate Hr]. injection Hr as Hr. by exists r.
  - vm_compute. reflexivity.
  - vm_compute. reflexivity.
Qed.

Lemma demo_fresh : fresh "pc-1" (demo_advance_entropy "1") demo_bought demo_member.
Proof.
  split.
  - intros k o. rewrite demo_members. intros [_ <-]%lookup_singleton_Some Hne. by destruct Hne.
  - intros k o. rewrite demo_instances. intros [_ <-]%lookup_singleton_Some Hne. by destruct Hne.
  - vm_compute. reflexivity.
Qed.

Abbreviation demo_run := (run_rounds (λ s, "enc:" +:+ s) Ret "member-1" demo_answer).
Abbreviation demo_draws := (replicate 14 (demo_now, demo_advance_entropy "1")).

Lemma preparation_completes_witness :
  in_service (demo_run (take 12 demo_draws) demo_bought) "member-1"
  ∧ demo_run demo_draws demo_bought = demo_run (take 12 demo_draws) demo_bought.
Proof.
  apply (preparation_completes (λ s, "enc:" +:+ s) Ret demo_bought_pool demo_revision "pc-1" demo_answer _ _
           demo_member demo_instance).
  - intros s. by eexists.
  - exact demo_preparing.
  - discriminate.
  - discriminate.
  - by intros [].
  - apply Forall_replicate. exact demo_fresh.
  - rewrite length_replicate. change (rounds_left demo_member) with 12%nat. lia.
Defined.
