(* ===== verification/DedicatedReclaim.v ===== *)
(** * A dedicated resource ends only when its data is gone *)

From S2P Require Import Prelude PyString Models Config WriteGuard Worker AdapterInterface.
From S2P Require Import Dispatcher.
From S2P Require Import DispatchLoop Ddl Permission Capacity OperationBudget Service DedicatedMySQL.
From S2P Require Import DedicatedPools DedicatedProvisioner DedicatedWorker DedicatedSync.
From S2P Require Import DedicatedService DedicatedAdmin DedicatedAllocation DedicatedSystem.
From S2P Require Import DedicatedSystem.

(** ** Transactions that end no resource *)

Definition ends_none {A} (m : M (Session DB) A) : Prop := ∀ db, allocated db →
  ∀ k r', resources (txn_db m db) !! k = Some r' → ¬ live r' → ∃ r, resources db !! k = Some r ∧ ¬ live r.

(** The row written over [k] is as live as the old one. *)
Lemma ends_none_put db r r' k r0 :
  resources db !! r_id r = Some r → <[r_id r := r']> (resources db) !! k = Some r0 → ¬ live r0 →
  (¬ live r' → ¬ live r) → ∃ r1, resources db !! k = Some r1 ∧ ¬ live r1.
Proof.
  intros Hr Hk Hd Hl. revert Hk Hd. intros [[<- <-]|[_ H]]%lookup_insert_Some Hd; [|by exists r0].
  exists r. by split; [|apply Hl].
Qed.

Lemma owned_row w rid db r : allocated db → own_resource w rid db = Some r → resources db !! r_id r = Some r.
Proof. intros Ha [Hr _]%own_resource_some. by rewrite (al_resources _ Ha _ _ Hr). Qed.

Ltac ends_none_branches :=
  intros db Ha k r0; unfold txn_db, with_session, open_session; run_branches; try (intros; by exists r0);
  intros Hk Hd; cbn in Hk;
  (eapply ends_none_put; [eapply owned_row; [exact Ha|eassumption]|exact Hk|exact Hd|]);
  unfold live; cbn; repeat case_bool_decide; intros Hl; first [by destruct Hl | auto].

Section reclaim.
  Context (config : TenantProvisioningConfig).

Lemma disconnect_ends_none w now rid : ends_none (finish_dedicated_disconnect w now rid).
Proof. unfold finish_dedicated_disconnect, with_owned, save_both, write_member. ends_none_branches. Qed.

Lemma begin_cleanup_ends_none w now rid : ends_none (begin_dedicated_cleanup w now rid).
Proof. unfold begin_dedicated_cleanup, save_both, write_member. ends_none_branches. Qed.

Lemma restore_ends_none w rid : ends_none (finish_dedicated_restore w rid).
Proof. unfold finish_dedicated_restore, with_owned, save_both, write_member. ends_none_branches. Qed.

Lemma failure_ends_none w now rid e : ends_none (record_lifecycle_failure config w now rid e).
Proof. unfold record_lifecycle_failure, with_owned, write_member. ends_none_branches. Qed.

(** ** The transaction that ends one *)

Definition dead (db : DB) (k : string) : Prop := ∃ r, resources db !! k = Some r ∧ ¬ live r.

(** What becomes of the member: [DELETED], or emptied and prepared again. *)
Definition given_back (sanitized : bool) (m : DedicatedPoolMember) : Prop :=
  m_allocated_resource_id m = None ∧
  if sanitized then
    m_status m = DedicatedMemberStatus.REPLENISHING
    ∧ m_sandbox_username_ciphertext m = None ∧ m_sandbox_password_ciphertext m = None
    ∧ m_database_name m = None ∧ m_permission_template_revision_id m = None
    ∧ m_permission_snapshot_json m = None
    ∧ m_last_ready_verified_at m = None ∧ m_readiness_status m = ReadinessStatus.STALE
    ∧ m_preparation_step m = DedicatedPreparationStep.LIFECYCLE_ACCOUNT_CREATED
  else m_status m = DedicatedMemberStatus.DELETED.

(** The member of [rid] in the old tables, on the same cluster, is given back
    in the new ones. *)
Definition releases (sanitized : bool) (rid : string) (db db' : DB) : Prop := ∃ r m',
  resources db !! rid = Some r ∧ r_allocated_instance_id r = Some (m_instance_id m')
  ∧ pool_members db' !! m_id m' = Some m' ∧ given_back sanitized m'.

Lemma cleanup_ends_served w rid db r db1 m m' r' k sanitized :
  allocated db → own_resource w rid db = Some r → member_of_resource rid db = Some m → same_rows db db1 →
  m_id m' = m_id m → m_instance_id m' = m_instance_id m → given_back sanitized m' → r_id r' = r_id r →
  dead (put_resource r' (put_member m' db1)) k →
  dead db k ∨ k = rid ∧ Ret tt = Ret tt ∧ releases sanitized rid db (put_resource r' (put_member m' db1)).
Proof.
  intros Ha [Ho _]%own_resource_some Hm [Hsm Hsr] Hid Hi Hg Hrid (r0 & Hk & Hd). cbn in Hk. rewrite Hsr in Hk.
  destruct (member_of_resource_serves _ _ _ _ Ha Hm Ho) as (Hkm & He & _ & _ & Hl1 & Hl2).
  revert Hk. rewrite Hrid, He. intros [[<- <-]|[_ Hk]]%lookup_insert_Some; [|left; by exists r0].
  right. split_and!; [done..|]. exists r, m'. split_and!; [done|congruence| |done].
  cbn. by rewrite lookup_insert_eq.
Qed.

Lemma cleanup_ends w now rid sanitized db k :
  allocated db → dead (txn_db (finish_dedicated_cleanup w now rid sanitized) db) k →
  dead db k ∨ k = rid ∧ txn_out (finish_dedicated_cleanup w now rid sanitized) db = Ret tt
    ∧ releases sanitized rid db (txn_db (finish_dedicated_cleanup w now rid sanitized) db).
Proof.
  intros Ha. unfold txn_out, txn_db, with_session, open_session, finish_dedicated_cleanup, with_owned, save_both, write_member.
  run_branches; try (intros; by left).
  all: match goal with
  | |- context [release_active_capacity_counters ?a ?b] =>
      destruct (release_counters_aside a b db db []) as (db1 & [[]|e] & Hr & Hs);
      [rewrite (run_bind_ret _ _ _ _ _ Hr)|unfold mbind, M_bind; rewrite Hr; by left]
  | _ => assert (same_rows db db) as Hs by done
  end.
  all: run_branches; try (intros; by left).
  all: intros Hd; eapply cleanup_ends_served; [exact Ha|eassumption|eassumption|exact Hs| | | | |exact Hd]; done.
Qed.
End reclaim.

(** ** One lifecycle step of the worker *)
Section process.
  Context {X : Type} `{PolarDBClient X} `{MySQLConnector X}.
  Context (config : TenantProvisioningConfig) (worker_id : string) (decrypt : string → outcome string).
  Context (clock : nat → time).

(** A call, the transaction that stores its success, and the handler of both. *)
Definition guarded (rid : string) (c : M X unit) (fin : time → M (Session DB) unit) : M (World X) unit :=
  try_except (lift_ext c ;; at_now clock fin)
    (λ e, at_now clock (λ now, record_lifecycle_failure config worker_id now rid e)).

Lemma failure_dead now rid e db k :
  allocated db → dead (txn_db (record_lifecycle_failure config worker_id now rid e) db) k → dead db k.
Proof. intros Ha (r' & Hr & Hd). by eapply failure_ends_none. Qed.

Lemma bind_world {A B} (m : M (World X) A) (k : A → M (World X) B) (w : World X) :
  (m ≫= k) w = match m w with (w', Ret a) => k a w' | (w', Raise e) => (w', Raise e) end.
Proof. done. Qed.

Lemma at_now_db {A} (m : time → M (Session DB) A) (w : World X) :
  at_now clock m w = (mk_world (txn_db (m (clock (w_tick w))) (w_db w)) (w_ext w) (S (w_tick w)),
                      txn_out (m (clock (w_tick w))) (w_db w)).
Proof. unfold at_now, read_clock, mbind, M_bind, with_db, txn_db, txn_out. cbn. by destruct (with_session _ _). Qed.

(** Something ends only in the transaction after a successful call. *)
Lemma guarded_ends rid c fin w k :
  allocated (w_db w) → (∀ now, keeps (fin now)) → dead (w_db (guarded rid c fin w).1) k →
  dead (w_db w) k ∨ ∃ x now, c (w_ext w) = (x, Ret tt) ∧ dead (txn_db (fin now) (w_db w)) k
    ∧ (txn_out (fin now) (w_db w) = Ret tt → w_db (guarded rid c fin w).1 = txn_db (fin now) (w_db w)).
Proof.
  intros Ha Hf. unfold guarded, try_except. unfold mbind, M_bind, lift_ext.
  destruct (c (w_ext w)) as [x [[]|e]] eqn:Hc; rewrite at_now_db; cbn [w_db w_ext w_tick fst].
  - destruct (txn_out _ _) as [[]|e] eqn:Ho; cbn [fst w_db].
    + right. exists x, (clock (w_tick w)). by split_and!.
    + rewrite at_now_db. cbn [fst w_db w_tick]. intros Hd%failure_dead; [|by apply Hf].
      right. exists x, (clock (w_tick w)). split_and!; [done|done|by rewrite Ho].
  - intros Hd%failure_dead; [by left|done].
Qed.

(** The call of a delete step and the transaction that stores its success. *)
Definition dispatch (rid : string) (m : DedicatedPoolMember) (i : Instance) (step : DeleteLifecycleStep.t)
    : M (World X) unit :=
  match step with
  | DeleteLifecycleStep.PHYSICAL_DESTROY => guarded rid (delete_cluster (i_region i) (i_cluster_id i))
      (λ now, finish_dedicated_cleanup worker_id now rid false)
  | DeleteLifecycleStep.SANITIZE_DISPATCH => guarded rid (drop_sandbox decrypt m)
      (λ now, finish_dedicated_cleanup worker_id now rid true)
  | _ => guarded rid (member_disconnect decrypt m) (λ now, finish_dedicated_disconnect worker_id now rid)
  end.

(** The call that takes the data of a member away. *)
Definition removal (m : DedicatedPoolMember) (i : Instance) (sanitized : bool) : M X unit :=
  if sanitized then drop_sandbox decrypt m else delete_cluster (i_region i) (i_cluster_id i).

Lemma dispatch_ends rid m i step w k :
  allocated (w_db w) → dead (w_db (dispatch rid m i step w).1) k →
  dead (w_db w) k ∨ k = rid ∧ ∃ sanitized x', removal m i sanitized (w_ext w) = (x', Ret tt)
    ∧ releases sanitized rid (w_db w) (w_db (dispatch rid m i step w).1).
Proof.
  intros Ha. assert (Hcl : ∀ sanitized, let w' := (guarded rid (removal m i sanitized)
      (λ now, finish_dedicated_cleanup worker_id now rid sanitized) w).1 in
    dead (w_db w') k → dead (w_db w) k ∨ k = rid ∧ ∃ sanitized x',
      removal m i sanitized (w_ext w) = (x', Ret tt) ∧ releases sanitized rid (w_db w) (w_db w')).
  { intros sanitized w' [Hd|(x' & now & Hc & Hd & Hw)]%guarded_ends; [by left| |done|intros; apply finish_cleanup_keeps].
    apply cleanup_ends in Hd as [Hd|(-> & Ho & Hr)]; [by left| |done].
    right. split; [done|]. exists sanitized, x'. split; [done|]. unfold w'. by rewrite Hw. }
  assert (Hdis : dead (w_db (guarded rid (member_disconnect decrypt m)
      (λ now, finish_dedicated_disconnect worker_id now rid) w).1) k → dead (w_db w) k).
  { intros [Hd|(x' & now & _ & (r' & Hr & Hl) & _)]%guarded_ends;
      [done|by eapply disconnect_ends_none|done|intros; apply finish_disconnect_keeps]. }
  destruct step; try (intros Hd; left; exact (Hdis Hd)); [apply (Hcl false)|apply (Hcl true)].
Qed.

Lemma begin_cleanup_out now rid db step :
  txn_out (begin_dedicated_cleanup worker_id now rid) db = Ret (Some step) →
  ∃ r deadline, resources db !! rid = Some r ∧ r_cooldown_until r = Some deadline ∧ deadline ≤ now.
Proof.
  unfold txn_out, with_session, open_session, begin_dedicated_cleanup, save_both, write_member. run_branches; try done.
  all: intros _; match goal with Ho : own_resource _ _ _ = Some ?r, Hd : r_cooldown_until ?r = Some ?t |- _ =>
    exists r, t; split; [exact (proj1 (own_resource_some _ _ _ _ Ho))|split; [exact Hd|]] end.
  all: lia.
Qed.

Lemma begin_cleanup_place now rid db r' :
  allocated db → resources (txn_db (begin_dedicated_cleanup worker_id now rid) db) !! rid = Some r' →
  ∃ r, resources db !! rid = Some r ∧ r_allocated_instance_id r' = r_allocated_instance_id r.
Proof.
  intros Ha. unfold txn_db, with_session, open_session, begin_dedicated_cleanup, save_both, write_member.
  run_branches; try (intros; by exists r').
  all: match goal with Ho : own_resource _ _ _ = Some ?r |- _ =>
    apply own_resource_some in Ho as [Ho _]; pose proof (al_resources _ Ha _ _ Ho) as Hid end.
  all: cbn; rewrite Hid, lookup_insert_eq; intros [= <-]; by eexists.
Qed.

Lemma load_lifecycle_run rid db : ∃ out, with_session (load_lifecycle worker_id rid) db = (db, out)
  ∧ match out with
    | Ret (Some (r, Some (m, i))) => own_resource worker_id rid db = Some r
        ∧ member_of_resource rid db = Some m ∧ instances db !! m_instance_id m = Some i
    | _ => True
    end.
Proof.
  unfold with_session, open_session, load_lifecycle. run_branches; by eexists.
Qed.

(** The step of a resource that is neither restored nor cooling down, or the
    step its cleanup begins with. *)
Lemma lifecycle_dispatch rid r m i (w : World X) :
  try_except (lifecycle_step worker_id decrypt clock rid r m i)
    (λ e, at_now clock (λ now, record_lifecycle_failure config worker_id now rid e)) w =
  match r_status r with
  | DBInstanceStatus.RESTORING => try_except
      (lift_ext (member_restore decrypt m) ;; with_db (finish_dedicated_restore worker_id rid))
      (λ e, at_now clock (λ now, record_lifecycle_failure config worker_id now rid e)) w
  | DBInstanceStatus.COOLING_DOWN =>
      match at_now clock (λ now, begin_dedicated_cleanup worker_id now rid) w with
      | (w1, Ret (Some step)) => dispatch rid m i step w1
      | (w1, Ret None) => (w1, Ret tt)
      | (w1, Raise e) => at_now clock (λ now, record_lifecycle_failure config worker_id now rid e) w1
      end
  | _ => dispatch rid m i (r_delete_step r) w
  end.
Proof.
  unfold lifecycle_step, dispatch, guarded.
  destruct (r_status r); try (destruct (r_delete_step r); reflexivity).
  unfold try_except at 1. rewrite bind_world.
  destruct (at_now clock _ w) as [w1 [[step|]|e]]; [by destruct step|done|done].
Qed.

(** The member of [rid] lost its data, and only then was given back. *)
Definition ended_by_removal (rid : string) (w w' : World X) : Prop := ∃ r m i sanitized x',
  resources (w_db w) !! rid = Some r ∧ member_of_resource rid (w_db w) = Some m
  ∧ instances (w_db w) !! m_instance_id m = Some i
  ∧ removal m i sanitized (w_ext w) = (x', Ret tt) ∧ releases sanitized rid (w_db w) (w_db w')
  ∧ (r_status r = DBInstanceStatus.COOLING_DOWN →
     ∃ deadline, r_cooldown_until r = Some deadline ∧ deadline ≤ clock (w_tick w)).

Section loaded.
  Context (rid : string) (r : DBInstanceResource) (m : DedicatedPoolMember) (i : Instance) (w : World X).
  Context (Ha : allocated (w_db w)) (Hr : resources (w_db w) !! rid = Some r).
  Context (Hm : member_of_resource rid (w_db w) = Some m).
  Context (Hi : instances (w_db w) !! m_instance_id m = Some i).

Lemma dispatch_now step k :
  r_status r ≠ DBInstanceStatus.COOLING_DOWN → dead (w_db (dispatch rid m i step w).1) k →
  dead (w_db w) k ∨ k = rid ∧ ended_by_removal rid w (dispatch rid m i step w).1.
Proof.
  intros Hn [Hd|(-> & sanitized & x' & Hc & Hrel)]%dispatch_ends; [by left| |done].
  right. split; [done|]. by exists r, m, i, sanitized, x'.
Qed.

Lemma restore_ends k :
  let w' := (try_except (lift_ext (member_restore decrypt m) ;; with_db (finish_dedicated_restore worker_id rid))
      (λ e, at_now clock (λ now, record_lifecycle_failure config worker_id now rid e)) w).1 in
  dead (w_db w') k → dead (w_db w) k.
Proof.
  intros w'. subst w'. unfold try_except. rewrite bind_world. unfold lift_ext.
  destruct (member_restore decrypt m (w_ext w)) as [x [[]|e]].
  - pose proof (finish_restore_keeps worker_id rid (w_db w) Ha) as Hk. unfold with_db. cbn [w_db].
    pose proof (restore_ends_none worker_id rid (w_db w) Ha k) as Hn. unfold txn_db in *.
    destruct (with_session _ _) as [db [[]|e]]; cbn [fst w_db] in *; [|rewrite at_now_db; intros Hd%failure_dead; [|done]; revert Hd];
      intros (r' & Hr' & Hd); by eapply Hn.
  - rewrite at_now_db. by intros Hd%failure_dead.
Qed.

Lemma cooled_ends k :
  let w' := match at_now clock (λ now, begin_dedicated_cleanup worker_id now rid) w with
      | (w1, Ret (Some step)) => dispatch rid m i step w1
      | (w1, Ret None) => (w1, Ret tt)
      | (w1, Raise e) => at_now clock (λ now, record_lifecycle_failure config worker_id now rid e) w1
      end.1 in
  dead (w_db w') k → dead (w_db w) k ∨ k = rid ∧ ended_by_removal rid w w'.
Proof.
  intros w'. subst w'. rewrite at_now_db. set (now := clock (w_tick w)).
  pose proof (begin_cleanup_keeps worker_id now rid (w_db w) Ha) as Hk.
  assert (Hn : dead (txn_db (begin_dedicated_cleanup worker_id now rid) (w_db w)) k → dead (w_db w) k).
  { intros (r' & Hr' & Hd). by eapply begin_cleanup_ends_none. }
  destruct (txn_out _ _) as [[step|]|e] eqn:Ho.
  - destruct (begin_cleanup_out _ _ _ _ Ho) as (r0 & deadline & Hr0 & Hdl & Hle).
    intros [Hd|(-> & sanitized & x' & Hc & (r1 & m' & Hr1 & Hp & Hm' & Hg))]%dispatch_ends; [left; by apply Hn| |done].
    destruct (begin_cleanup_place _ _ _ _ Ha Hr1) as (r2 & Hr2 & Hpl).
    right. split; [done|]. exists r, m, i, sanitized, x'. split_and!; try done.
    + exists r2, m'. split_and!; try done. congruence.
    + intros _. exists deadline. split; [congruence|done].
  - left. by apply Hn.
  - rewrite at_now_db. intros Hd%failure_dead; [left; by apply Hn|done].
Qed.
End loaded.

(** C6: A dedicated resource ends only when its data is gone.  In every
    reachable database, a lifecycle step of the worker on a resource (whatever
    the cloud and the member's server answer) makes no resource DELETED but that
    one, and that one only when the call that deletes the member's cluster, or
    the one that drops its sandbox account and database, has returned.  The
    member, on the same instance, is then allocated to nothing, and [DELETED]
    after the first call; after the second it is [REPLENISHING] from its
    lifecycle account on, with no sandbox account or password, no database name,
    no permission snapshot or revision and no verification left on its row.  A
    resource that was cooling down has reached its deadline. *)
Theorem release_after_removal encrypt openapi_details resource_pool_document rid w k :
  pool_reachable config encrypt decrypt openapi_details resource_pool_document (w_db w) →
  let w' := (process_lifecycle_resource config worker_id decrypt clock rid w).1 in
  dead (w_db w') k → dead (w_db w) k ∨ k = rid ∧ ended_by_removal rid w w'.
Proof.
  intros Ha%pool_reachable_allocated w'. subst w'. unfold process_lifecycle_resource. rewrite bind_world.
  destruct (load_lifecycle_run rid (w_db w)) as (out & Hl & Hout).
  assert (with_db (load_lifecycle worker_id rid) w = (w, out)) as -> by (unfold with_db; rewrite Hl; by destruct w).
  destruct out as [[[r [[m i]|]]|]|e]; [|rewrite at_now_db; intros Hd%failure_dead; [by left|done]|by left|by left].
  destruct Hout as (Ho & Hm & Hi). destruct (own_resource_some _ _ _ _ Ho) as [Hr _]. rewrite lifecycle_dispatch.
  destruct (r_status r) eqn:Hs; try (eapply dispatch_now; [done..|congruence]).
  - by eapply cooled_ends.
  - intros Hd. left. by eapply restore_ends.
Qed.
End process.

(** ** A deletion, up to the end of its cool-down *)
Definition demo_cooled : DB :=
  txn_db (claim_lifecycle_resource default_config "worker-1" demo_later)
    (txn_db (finish_dedicated_disconnect "worker-1" demo_now "res-1")
      (txn_db (claim_lifecycle_resource default_config "worker-1" demo_now)
        (txn_db (delete_resource default_config None demo_now "agent-1" "res-1") demo_served))).

Lemma demo_cooled_reachable : demo_reachable demo_cooled.
Proof.
  eapply pool_next; [|apply step_claim_lifecycle]. eapply pool_next; [|apply step_disconnected].
  eapply pool_next; [|apply step_claim_lifecycle]. eapply pool_next; [|apply step_delete, audit_no_hook].
  apply demo_served_reachable.
Qed.

Definition demo_ended : World unit := (process_lifecycle_resource default_config "worker-1" Ret
  (λ _, demo_later) "res-1" (mk_world demo_cooled tt 0)).1.

Lemma release_after_removal_witness :
  dead (w_db demo_ended) "res-1"
  ∧ ended_by_removal Ret (λ _, demo_later) "res-1" (mk_world demo_cooled tt 0) demo_ended.
Proof.
  assert (dead (w_db demo_ended) "res-1") as Hd.
  { eexists. split; [vm_compute; reflexivity|]. by intros Hl; apply Hl. }
  split; [exact Hd|]. unfold demo_ended in *.
  destruct (release_after_removal default_config "worker-1" Ret (λ _, demo_later) (λ s, "enc:" +:+ s) (λ _, None)
    (λ _, NoDocument) "res-1" (mk_world demo_cooled tt 0) "res-1" demo_cooled_reachable Hd) as [Hb|[_ He]]; [|exact He].
  exfalso. destruct Hb as (r & Hr & Hl). apply Hl. unfold live. vm_compute in Hr. by injection Hr as <-.
Defined.
