(* ===== verification/AuthModels.v ===== *)
(** * The tables of authentication ([server/models/user.py], [oauth.py],
    [user_refresh_token.py], [agent_api_token.py])

    Users with their credential epoch, the rows of the OAuth server, the browser
    sessions and the tokens of Agents.  They are used by none of the code that
    [Models] serves, so they form a database of their own; the same sessions
    ([M (Session AuthDB)]) run on it. *)

From S2P Require Import Prelude PyString Models Hashing Dispatcher AccessControl.

(** ** Enums *)
Module AuthProvider.
Inductive t : Set := | OIDC | BUILTIN.

#[global] Instance t_eq_dec : EqDecision t.
Proof. solve_decision. Defined.
End AuthProvider.

Module UserRole.
Inductive t : Set := | ADMIN | MEMBER.

#[global] Instance t_eq_dec : EqDecision t.
Proof. solve_decision. Defined.

Definition value (r : t) : string := match r with ADMIN => "admin" | MEMBER => "member" end.
End UserRole.

Module PasswordState.
Inductive t : Set := | RESET_REQUIRED | ACTIVE.

#[global] Instance t_eq_dec : EqDecision t.
Proof. solve_decision. Defined.

Definition value (s : t) : string :=
  match s with RESET_REQUIRED => "RESET_REQUIRED" | ACTIVE => "ACTIVE" end.
(** [PasswordState(value)] *)
Definition of_value (v : string) : outcome t :=
  if String.eqb v "RESET_REQUIRED" then Ret RESET_REQUIRED
  else if String.eqb v "ACTIVE" then Ret ACTIVE
  else Raise (ValueError (v +:+ " is not a valid PasswordState")).
End PasswordState.

(** ** Rows *)

Record User : Type := mk_user {
  u_id : string;
  u_external_id : string;
  u_auth_provider : AuthProvider.t;
  u_password_hash : option string;
  u_password_state : option string;
  u_credential_epoch : Z;
  u_role : UserRole.t;
  u_status : UserStatus.t
}.

#[export] Instance User_eta : Eta User := λ x,
  mk_user
    (u_id x) (u_external_id x) (u_auth_provider x) (u_password_hash x) (u_password_state x)
    (u_credential_epoch x) (u_role x) (u_status x).

Record OAuthPendingAuth : Type := mk_pending {
  pa_session_id : string;
  pa_client_id : string;
  pa_redirect_uri : string;
  pa_code_challenge : string;
  pa_code_challenge_method : string;
  pa_resource : option string;
  pa_scopes : json_text;
  pa_state : option string;
  pa_idp_state : option string;
  pa_idp_code_verifier_enc : option string;
  pa_idp_nonce : option string;
  pa_expires_at : time
}.

#[export] Instance OAuthPendingAuth_eta : Eta OAuthPendingAuth := λ x,
  mk_pending
    (pa_session_id x) (pa_client_id x) (pa_redirect_uri x) (pa_code_challenge x)
    (pa_code_challenge_method x) (pa_resource x) (pa_scopes x) (pa_state x) (pa_idp_state x)
    (pa_idp_code_verifier_enc x) (pa_idp_nonce x) (pa_expires_at x).

Record OAuthAuthorizationCode : Type := mk_code {
  ac_code_hash : string;
  ac_client_id : string;
  ac_user_id : string;
  ac_redirect_uri : string;
  ac_redirect_uri_provided_explicitly : bool;
  ac_code_challenge : string;
  ac_code_challenge_method : string;
  ac_resource : option string;
  ac_scopes : json_text;
  ac_expires_at : time;
  ac_consumed_at : option time
}.

#[export] Instance OAuthAuthorizationCode_eta : Eta OAuthAuthorizationCode := λ x,
  mk_code
    (ac_code_hash x) (ac_client_id x) (ac_user_id x) (ac_redirect_uri x)
    (ac_redirect_uri_provided_explicitly x) (ac_code_challenge x) (ac_code_challenge_method x)
    (ac_resource x) (ac_scopes x) (ac_expires_at x) (ac_consumed_at x).

Record OAuthRefreshToken : Type := mk_refresh {
  rt_token_hash : string;
  rt_client_id : string;
  rt_user_id : string;
  rt_code_id : option string;
  rt_token_family : string;
  rt_scopes : json_text;
  rt_resource : option string;
  rt_expires_at : option time;
  rt_revoked_at : option time
}.

#[export] Instance OAuthRefreshToken_eta : Eta OAuthRefreshToken := λ x,
  mk_refresh
    (rt_token_hash x) (rt_client_id x) (rt_user_id x) (rt_code_id x) (rt_token_family x)
    (rt_scopes x) (rt_resource x) (rt_expires_at x) (rt_revoked_at x).

Record ExternalTokenSession : Type := mk_external_session {
  es_id : string;
  es_token_family : string;
  es_user_id : string;
  es_provider_type : string;
  es_provider_key : string;
  es_provider_fingerprint : string;
  es_external_subject : string;
  es_subject_token_ciphertext : string;
  es_external_expires_at : option time;
  es_last_validated_at : time;
  es_expires_at : time;
  es_revoked_at : option time
}.

#[export] Instance ExternalTokenSession_eta : Eta ExternalTokenSession := λ x,
  mk_external_session
    (es_id x) (es_token_family x) (es_user_id x) (es_provider_type x) (es_provider_key x)
    (es_provider_fingerprint x) (es_external_subject x) (es_subject_token_ciphertext x)
    (es_external_expires_at x) (es_last_validated_at x) (es_expires_at x) (es_revoked_at x).

Record UserRefreshToken : Type := mk_user_refresh {
  ur_id : string;
  ur_user_id : string;
  ur_token_hash : string;
  ur_token_family : string;
  ur_expires_at : time;
  ur_revoked_at : option time
}.

#[export] Instance UserRefreshToken_eta : Eta UserRefreshToken := λ x,
  mk_user_refresh
    (ur_id x) (ur_user_id x) (ur_token_hash x) (ur_token_family x) (ur_expires_at x)
    (ur_revoked_at x).

Record AgentAPIToken : Type := mk_agent_token {
  at_id : string;
  at_agent_id : string;
  at_token_prefix : string;
  at_token_hash : string;
  at_token_ciphertext : option string;
  at_expires_at : option time;
  at_revoked_at : option time;
  at_last_used_at : option time
}.

#[export] Instance AgentAPIToken_eta : Eta AgentAPIToken := λ x,
  mk_agent_token
    (at_id x) (at_agent_id x) (at_token_prefix x) (at_token_hash x) (at_token_ciphertext x)
    (at_expires_at x) (at_revoked_at x) (at_last_used_at x).

(** [User.effective_password_state] *)
Definition effective_password_state (u : User) : outcome PasswordState.t :=
  match u_password_state u with
  | None => Ret PasswordState.ACTIVE
  | Some v => PasswordState.of_value v
  end.

(** ** The database

    Codes, refresh tokens and denied tokens are keyed by their primary keys
    ([code_hash], [token_hash], [jti]), browser tokens by their unique
    [token_hash], the tokens of Agents by their unique [agent_id], the reveal
    limits by Administrator and Agent; the other tables by their id. *)
Record AuthDB : Type := mk_auth_db {
  users : gmap string User;
  pending_auths : gmap string OAuthPendingAuth;
  codes : gmap string OAuthAuthorizationCode;
  refresh_tokens : gmap string OAuthRefreshToken;
  external_sessions : gmap string ExternalTokenSession;
  denied_jtis : gmap string time;
  browser_tokens : gmap string UserRefreshToken;
  agent_states : gmap string AgentStatus.t;
  agent_tokens : gmap string AgentAPIToken;
  reveal_limits : gmap (string * string) (time * Z)
}.

#[export] Instance AuthDB_eta : Eta AuthDB := λ x,
  mk_auth_db (users x) (pending_auths x) (codes x) (refresh_tokens x) (external_sessions x)
    (denied_jtis x) (browser_tokens x) (agent_states x) (agent_tokens x) (reveal_limits x).

Definition empty_auth_db : AuthDB := mk_auth_db ∅ ∅ ∅ ∅ ∅ ∅ ∅ ∅ ∅ ∅.

Definition put_user (u : User) (db : AuthDB) : AuthDB := db <| users := <[u_id u := u]> (users db) |>.
Definition put_code (c : OAuthAuthorizationCode) (db : AuthDB) : AuthDB :=
  db <| codes := <[ac_code_hash c := c]> (codes db) |>.
Definition put_refresh (t : OAuthRefreshToken) (db : AuthDB) : AuthDB :=
  db <| refresh_tokens := <[rt_token_hash t := t]> (refresh_tokens db) |>.
Definition put_browser_token (t : UserRefreshToken) (db : AuthDB) : AuthDB :=
  db <| browser_tokens := <[ur_token_hash t := t]> (browser_tokens db) |>.
Definition put_agent_token (t : AgentAPIToken) (db : AuthDB) : AuthDB :=
  db <| agent_tokens := <[at_agent_id t := t]> (agent_tokens db) |>.

(** ** Principals ([auth/principal.py]) *)
Module PrincipalKind.
Inductive t : Set := | USER | AGENT.

#[global] Instance t_eq_dec : EqDecision t.
Proof. solve_decision. Defined.
End PrincipalKind.

Record Principal : Type := mk_principal { pc_kind : PrincipalKind.t; pc_id : string }.

Definition user_subject (user_id : string) : string := "user:" +:+ user_id.
Definition agent_subject (agent_id : string) : string := "agent:" +:+ agent_id.

Definition InvalidPrincipalSubject (subject : string) : PyExc := exc "InvalidPrincipalSubject" subject.

Definition parse_subject (subject : string) : outcome Principal :=
  match split_once ":" subject with
  | None => Raise (InvalidPrincipalSubject subject)
  | Some (prefix, identifier) =>
      if String.eqb identifier EmptyString then Raise (InvalidPrincipalSubject subject)
      else if String.eqb prefix "user" then Ret (mk_principal PrincipalKind.USER identifier)
      else if String.eqb prefix "agent" then Ret (mk_principal PrincipalKind.AGENT identifier)
      else Raise (InvalidPrincipalSubject subject)
  end.

(** The subject of a user reads back as that user. *)
Lemma parse_user_subject user_id :
  user_id ≠ EmptyString → parse_subject (user_subject user_id) = Ret (mk_principal PrincipalKind.USER user_id).
Proof.
  intros Hn. unfold parse_subject, user_subject.
  replace (split_once ":" ("user:" +:+ user_id)) with (Some ("user", user_id)) by done.
  by rewrite (proj2 (String.eqb_neq _ _) Hn).
Qed.

(** ... and nothing else does. *)
Lemma parse_user_subject_inv user_id p :
  parse_subject (user_subject user_id) = Ret p → p = mk_principal PrincipalKind.USER user_id.
Proof.
  destruct (decide (user_id = EmptyString)) as [->|Hn]; [done|]. rewrite parse_user_subject by done. by intros [= <-].
Qed.

(** A subject that names nobody. *)
Lemma parse_subject_error subject e : parse_subject subject = Raise e → e = InvalidPrincipalSubject subject.
Proof.
  unfold parse_subject. destruct (split_once ":" subject) as [[prefix identifier]|]; [|by intros [= <-]].
  destruct (String.eqb identifier EmptyString); [by intros [= <-]|].
  destruct (String.eqb prefix "user"); [done|]. destruct (String.eqb prefix "agent"); [done|]. by intros [= <-].
Qed.

(** ** Common pieces *)

(** [hashlib.sha256(token.encode()).hexdigest()] *)
Definition hash_token (token : string) : string := sha256_hex token.

(** [json.loads] of a column of scopes, as [list[str]] is validated from it. *)
Fixpoint strings_of (l : list json) : option (list string) :=
  match l with
  | [] => Some []
  | JStr s :: l => cons s <$> strings_of l
  | _ :: _ => None
  end.

Definition ValidationError : PyExc := exc "ValidationError" "scopes".
Definition load_scopes (t : json_text) : outcome (list string) :=
  match json_loads t with
  | None => Raise (ValueError "Expecting value")
  | Some (JArr l) => match strings_of l with Some l => Ret l | None => Raise ValidationError end
  | Some _ => Raise ValidationError
  end.
Definition dump_scopes (scopes : list string) : json_text := json_dumps (JArr (JStr <$> scopes)).

Lemma load_dump_scopes scopes : load_scopes (dump_scopes scopes) = Ret scopes.
Proof.
  unfold load_scopes, dump_scopes. cbn [json_loads json_dumps].
  enough (strings_of (JStr <$> scopes) = Some scopes) as -> by done.
  induction scopes as [|s scopes IH]; [done|]. cbn [fmap list_fmap strings_of]. by rewrite IH.
Qed.

(** [UPDATE ... SET revoked_at = now WHERE p AND revoked_at IS NULL] *)
Definition revoke_refresh (p : OAuthRefreshToken → bool) (now : time) (db : AuthDB) : AuthDB :=
  db <| refresh_tokens := update_where (λ t, p t && (rt_revoked_at t == None))
          (λ t, t <| rt_revoked_at := Some now |>) (refresh_tokens db) |>.
Definition revoke_external (p : ExternalTokenSession → bool) (now : time) (db : AuthDB) : AuthDB :=
  db <| external_sessions := update_where (λ s, p s && (es_revoked_at s == None))
          (λ s, s <| es_revoked_at := Some now |>) (external_sessions db) |>.
Definition revoke_browser (p : UserRefreshToken → bool) (now : time) (db : AuthDB) : AuthDB :=
  db <| browser_tokens := update_where (λ t, p t && (ur_revoked_at t == None))
          (λ t, t <| ur_revoked_at := Some now |>) (browser_tokens db) |>.

(** [session.add(row)] of a refresh token, whose hash is the primary key. *)
Definition IntegrityError : PyExc := exc "IntegrityError" "UNIQUE constraint failed".
Definition insert_refresh (t : OAuthRefreshToken) : M (Session AuthDB) unit :=
  taken ← query (λ db, bool_decide (is_Some (refresh_tokens db !! rt_token_hash t)));
  if (taken : bool) then raise IntegrityError else execute (put_refresh t).

(** [s.startswith(p)] *)
Definition starts_with (p s : string) : bool :=
  match strip_prefix p s with Some _ => true | None => false end.

(** [timedelta(days=n)], [timedelta(minutes=n)], and [int(t.timestamp())]. *)
Definition days (n : Z) : time := hours (24 * n).
Definition minutes (n : Z) : time := seconds (60 * n).
Definition timestamp (t : time) : Z := Z.quot t 1000000.
