(* ===== verification/PersonalTokens.v ===== *)
(** * Personal access tokens ([server/core/personal_token_service.py],
    [server/api/personal_tokens.py])

    Opaque bearer credentials kept in the table of refresh tokens under a
    reserved client id, with the credential epoch of their user in [code_id].
    [now] is the clock of a call; the plaintext and the family are drawn by it. *)

From S2P Require Import Prelude PyString Models AccessControl Hashing AuthModels.

Definition TOKEN_PREFIX : string := "pas_personal_".
Definition CLIENT_ID : string := "pas-internal-personal-access-v1".

Definition ActiveTokenExists : PyExc :=
  exc "ActiveTokenExists" "Revoke the existing personal token before issuing another".

(** [f"personal:epoch:{user.credential_epoch}"] *)
Definition epoch_code (user : User) : string := "personal:epoch:" +:+ pretty (u_credential_epoch user).

(** [status(row, user)] *)
Definition status (now : time) (row : OAuthRefreshToken) (user : option User) : string :=
  if match user with Some u => negb (rt_code_id row == Some (epoch_code u)) | None => false end then "revoked"
  else if rt_revoked_at row != None then "revoked"
  else
    match rt_expires_at row with
    | None => "expired"
    | Some e => if e <=? now then "expired" else "active"
    end.

(** The unrevoked, unexpired credential of the user's current epoch, if any. *)
Definition active_credential (now : time) (user : User) (t : OAuthRefreshToken) : bool :=
  String.eqb (rt_client_id t) CLIENT_ID
  && String.eqb (rt_user_id t) (u_id user)
  && (rt_revoked_at t == None)
  && match rt_expires_at t with Some e => now <? e | None => false end
  && (rt_code_id t == Some (epoch_code user)).

Definition issue (now : time) (secret token_family user_id resource : string) (expires_in_days : Z)
    : M (Session AuthDB) (OAuthRefreshToken * string) :=
  if negb ((1 <=? expires_in_days) && (expires_in_days <=? 365)) then
    raise (ValueError "Expiry must be between 1 and 365 days")
  else
    user ← query (λ db, users db !! user_id);
    match user with
    | None => raise (LookupError "Personal account is unavailable")
    | Some user =>
        if u_status user != UserStatus.ACTIVE then raise (LookupError "Personal account is unavailable")
        else
          active ← query (λ db, count_rows (active_credential now user) (refresh_tokens db));
          if negb (active =? 0) then raise ActiveTokenExists
          else
            let plaintext := TOKEN_PREFIX +:+ secret in
            let row :=
              {| rt_token_hash := hash_token plaintext;
                 rt_client_id := CLIENT_ID;
                 rt_user_id := user_id;
                 rt_code_id := Some (epoch_code user);
                 rt_token_family := token_family;
                 rt_scopes := dump_scopes [];
                 rt_resource := Some resource;
                 rt_expires_at := Some (now + days expires_in_days);
                 rt_revoked_at := None |} in
            insert_refresh row ;;
            mret (row, plaintext)
    end.

(** The row of a user's personal token [token_id], its family. *)
Definition personal_row (user_id token_id : string) (t : OAuthRefreshToken) : bool :=
  String.eqb (rt_client_id t) CLIENT_ID
  && String.eqb (rt_user_id t) user_id
  && String.eqb (rt_token_family t) token_id.

Definition revoke (now : time) (user_id token_id : string) : M (Session AuthDB) OAuthRefreshToken :=
  rows ← query (λ db, filter (λ t, personal_row user_id token_id t = true) (map_to_list (refresh_tokens db)).*2);
  match (rows : list OAuthRefreshToken) with
  | [] => raise (LookupError "Personal token not found")
  | row :: _ =>
      let row := row <| rt_revoked_at := Some (default now (rt_revoked_at row)) |> in
      execute (put_refresh row) ;;
      mret row
  end.

Definition resolve (now : time) (plaintext : string) : M (Session AuthDB) (option (User * OAuthRefreshToken)) :=
  if negb (starts_with TOKEN_PREFIX plaintext) || (128 <? Z.of_nat (String.length plaintext)) then mret None
  else
    row ← query (λ db, refresh_tokens db !! hash_token plaintext);
    match row with
    | None => mret None
    | Some row =>
        if negb (String.eqb (rt_client_id row) CLIENT_ID) then mret None
        else if negb (String.eqb (status now row None) "active") then mret None
        else
          user ← query (λ db, users db !! rt_user_id row);
          match user with
          | None => mret None
          | Some user =>
              if (u_status user != UserStatus.ACTIVE) || (rt_code_id row != Some (epoch_code user)) then mret None
              else mret (Some (user, row))
          end
    end.

(** ** The handlers of [/me/personal-tokens]

    The answer carries the new plaintext; the audit record is not modelled. *)
Definition issue_personal_token (now : time) (secret token_family user_id resource : string) (expires_in_days : Z)
    : M (Session AuthDB) (OAuthRefreshToken * string) :=
  try_except
    (issued ← issue now secret token_family user_id resource expires_in_days;
     commit ;;
     mret issued)
    (λ e,
       rollback ;;
       if is_exc "ActiveTokenExists" e then raise (HTTPException 409 (exc_message e))
       else raise (HTTPException 503 "Personal credential administration unavailable")).

Definition revoke_personal_token (now : time) (user_id token_id : string) : M (Session AuthDB) unit :=
  try_except
    (revoke now user_id token_id ;;
     commit)
    (λ e,
       rollback ;;
       if is_exc "LookupError" e then raise (HTTPException 404 "Personal token not found")
       else raise (HTTPException 503 "Personal credential administration unavailable")).
