(* ===== verification/OAuthProvider.v ===== *)
(** * The OAuth authorization server ([server/auth/oauth_provider.py])

    Authorization codes, refresh tokens in families, access tokens and their
    deny list.  Each [async with self._session_factory()] block is one
    transaction, with one reading of the clock; what happens between two blocks
    of one method (the validation of an external token) is an argument of the
    second. *)

From S2P Require Import Prelude PyString Models Dispatcher AccessControl Hashing AuthModels.
From S2P Require Import PersonalTokens.

(** ** Settings and objects *)

(** What the provider reads of [AppConfig]. *)
Record OAuthConfig : Type := mk_oauth_config {
  oc_public_base_url : string;
  oc_access_token_expire_minutes : Z;
  oc_refresh_token_expire_days : Z;
  oc_external_access_token_ttl_seconds : Z
}.

(** [s.rstrip("/")] *)
Fixpoint rstrip_slash (s : string) : string :=
  match s with
  | EmptyString => EmptyString
  | String a s' =>
      match rstrip_slash s' with
      | EmptyString => if Ascii.eqb a "/" then EmptyString else String a EmptyString
      | t => String a t
      end
  end.

Definition oauth_issuer (config : OAuthConfig) : string := rstrip_slash (oc_public_base_url config).
Definition oauth_resource (config : OAuthConfig) : string := oauth_issuer config +:+ "/mcp".
Definition personal_resource (config : OAuthConfig) : string := oauth_resource config +:+ "/personal".

(** The objects of the MCP SDK. *)
Record AuthorizationCode : Type := mk_authorization_code {
  az_code : string;
  az_scopes : list string;
  az_expires_at : time;
  az_client_id : string;
  az_code_challenge : string;
  az_redirect_uri : string;
  az_redirect_uri_provided_explicitly : bool;
  az_resource : option string;
  az_subject : option string
}.

Record RefreshToken : Type := mk_refresh_token {
  rf_token : string;
  rf_client_id : string;
  rf_scopes : list string;
  rf_expires_at : option Z;
  rf_subject : option string
}.

Record OAuthToken : Type := mk_oauth_token {
  ot_access_token : string;
  ot_refresh_token : option string;
  ot_expires_in : Z;
  ot_scope : string
}.

(** [" ".join(scopes)] *)
Definition join_scopes (scopes : list string) : string := String.concat " " scopes.

(** The payload of a JWT: a JSON object. *)
Abbreviation Payload := (list (string * json)) (only parsing).

Definition builtin_credential_claim (user : User) : Payload :=
  match u_auth_provider user with
  | AuthProvider.BUILTIN => [("credential_epoch", JNum (u_credential_epoch user))]
  | AuthProvider.OIDC => []
  end.

(** The result of validating a token of an external identity provider. *)
Record ExternalTokenIdentity : Type := mk_external_identity {
  ei_provider_type : string;
  ei_provider_key : string;
  ei_provider_fingerprint : string;
  ei_subject : string;
  ei_scopes : list string;
  ei_expires_at : option time
}.

Definition ExternalTokenInvalid (message : string) : PyExc := exc "ExternalTokenInvalid" message.

(** [except ValueError]: the exceptions of the authenticator are of that class. *)
Definition is_value_error (e : PyExc) : bool :=
  bool_decide (exc_type e ∈ ["ValueError"; "ExternalTokenError"; "ExternalTokenInvalid";
    "ExternalTokenUnavailable"; "InvalidPrincipalSubject"; "JSONDecodeError"; "UnicodeDecodeError"]).

(** What [jwt.decode] is told to verify; no audience or issuer given means that
    it is not verified. *)
Record JwtOptions : Type := mk_jwt_options {
  jo_verify_signature : bool;
  jo_verify_exp : bool;
  jo_audience : option (list string);
  jo_issuer : option string;
  jo_require : list string
}.

Section provider.
  Context (config : OAuthConfig).
  (** [jwt.encode(payload, private_key, algorithm="RS256")], [jwt.decode] with the
      active public key at an instant, and [str(AnyUrl(uri))]. *)
  Context (jwt_encode : Payload → string) (jwt_decode : time → JwtOptions → string → outcome Payload).
  Context (any_url : string → string).
  (** [decrypt] of [core/crypto.py] and [ExternalTokenAuthenticator.validate]. *)
  Context (decrypt : string → outcome string) (validate : string → outcome ExternalTokenIdentity).

Definition access_token_payload (now : time) (jti subject : string) (resource : option string)
    (client_id : string) (scopes : list string) (expires_in_seconds : option Z) (agent_id : option string)
    : Payload :=
  let iat := timestamp now in
  [("iss", JStr (oauth_issuer config));
   ("sub", JStr subject);
   ("aud", JStr (if truthy resource then default EmptyString resource else oauth_resource config));
   ("jti", JStr jti);
   ("iat", JNum iat);
   ("exp", JNum (iat + default (oc_access_token_expire_minutes config * 60) expires_in_seconds));
   ("type", JStr "access");
   ("client_id", JStr client_id);
   ("scope", JStr (join_scopes scopes))]
  ++ (if resource == Some (personal_resource config) then [("access_mode", JStr "personal")] else [])
  ++ (if truthy agent_id then [("agent_id", JStr (default EmptyString agent_id))] else []).

(** ** Authorization codes *)

Definition code_object (authorization_code : string) (row : OAuthAuthorizationCode)
    : outcome AuthorizationCode :=
  scopes ← load_scopes (ac_scopes row);
  Ret {| az_code := authorization_code;
         az_scopes := scopes;
         az_expires_at := ac_expires_at row;
         az_client_id := ac_client_id row;
         az_code_challenge := ac_code_challenge row;
         az_redirect_uri := any_url (ac_redirect_uri row);
         az_redirect_uri_provided_explicitly := ac_redirect_uri_provided_explicitly row;
         az_resource := ac_resource row;
         az_subject := Some (user_subject (ac_user_id row)) |}.

(** Replay of a code: every refresh token minted from it is revoked (again). *)
Definition revoke_minted (code_hash : string) (now : time) (db : AuthDB) : AuthDB :=
  db <| refresh_tokens := update_where (λ t, rt_code_id t == Some code_hash)
          (λ t, t <| rt_revoked_at := Some now |>) (refresh_tokens db) |>.

Definition load_authorization_code (now : time) (authorization_code : string)
    : M (Session AuthDB) (option AuthorizationCode) :=
  let code_hash := hash_token authorization_code in
  row ← query (λ db, codes db !! code_hash);
  match row with
  | None => mret None
  | Some row =>
      if ac_consumed_at row != None then
        execute (revoke_minted code_hash now) ;;
        commit ;;
        mret None
      else
        code ← lift_outcome (code_object authorization_code row);
        mret (Some code)
  end.

(** The user a subject names. *)
Definition subject_user (subject : option string) (message : string) : outcome Principal :=
  match subject with
  | None => Raise (ValueError message)
  | Some subject =>
      principal ← parse_subject subject;
      if pc_kind principal == PrincipalKind.USER then Ret principal else Raise (ValueError message)
  end.

(** The identifiers drawn by an issuance. *)
Record TokenEntropy : Type := mk_token_entropy {
  te_jti : string;
  te_refresh_token : string;
  te_token_family : string
}.

Definition exchange_authorization_code (now : time) (te : TokenEntropy) (code : AuthorizationCode)
    : M (Session AuthDB) OAuthToken :=
  let code_hash := hash_token (az_code code) in
  principal ← lift_outcome (subject_user (az_subject code) "Authorization code subject must be a User");
  user ← query (λ db, users db !! pc_id principal);
  match user with
  | None => raise (ValueError "Authorization code user is unavailable")
  | Some user =>
      if u_status user == UserStatus.DISABLED then raise (ValueError "Authorization code user is unavailable")
      else
        row ← query (λ db, codes db !! code_hash);
        match row with
        | None => raise (ValueError "Authorization code is unavailable")
        | Some row =>
            if negb (String.eqb (ac_user_id row) (u_id user))
               || negb (String.eqb (ac_client_id row) (az_client_id code)) then
              raise (ValueError "Authorization code is unavailable")
            else if ac_consumed_at row != None then
              execute (revoke_minted code_hash now) ;;
              commit ;;
              raise (ValueError "Authorization code already consumed")
            else
              let payload := 
                access_token_payload now (te_jti te) (default EmptyString (az_subject code)) (az_resource code)
                  (az_client_id code) (az_scopes code) None None
                ++ builtin_credential_claim user in
              execute (put_code (row <| ac_consumed_at := Some now |>)) ;;
              insert_refresh
                {| rt_token_hash := hash_token (te_refresh_token te);
                   rt_client_id := az_client_id code;
                   rt_user_id := pc_id principal;
                   rt_code_id := Some code_hash;
                   rt_token_family := te_token_family te;
                   rt_scopes := dump_scopes (az_scopes code);
                   rt_resource := az_resource code;
                   rt_expires_at := Some (now + days (oc_refresh_token_expire_days config));
                   rt_revoked_at := None |} ;;
              commit ;;
              mret (mk_oauth_token (jwt_encode payload) (Some (te_refresh_token te))
                      (oc_access_token_expire_minutes config * 60) (join_scopes (az_scopes code)))
        end
  end.

(** ** Refresh tokens *)

(** The session of an external token that backs a family: the row the database
    returns first. *)
Definition external_session_of (family : string) (db : AuthDB) : option ExternalTokenSession :=
  head (filter (λ s, es_token_family s = family ∧ es_revoked_at s = None)
          (map_to_list (external_sessions db)).*2).

Definition in_family (family : string) (t : OAuthRefreshToken) : bool := String.eqb (rt_token_family t) family.
Definition session_in_family (family : string) (s : ExternalTokenSession) : bool :=
  String.eqb (es_token_family s) family.

(** The two updates that end a family. *)
Definition end_family (now : time) (family : string) : M (Session AuthDB) unit :=
  execute (revoke_refresh (in_family family) now) ;;
  execute (revoke_external (session_in_family family) now).

Definition revoke_token_family (now : time) (token_family : string) : M (Session AuthDB) unit :=
  end_family now token_family ;;
  commit.

Definition load_refresh_token (now : time) (refresh_token : string) : M (Session AuthDB) (option RefreshToken) :=
  if starts_with TOKEN_PREFIX refresh_token then mret None
  else
    row ← query (λ db, refresh_tokens db !! hash_token refresh_token);
    match row with
    | None => mret None
    | Some row =>
        if rt_revoked_at row != None then
          end_family now (rt_token_family row) ;;
          commit ;;
          mret None
        else if match rt_expires_at row with Some e => e <=? now | None => false end then mret None
        else
          scopes ← lift_outcome (load_scopes (rt_scopes row));
          mret (Some {| rf_token := refresh_token;
                        rf_client_id := rt_client_id row;
                        rf_scopes := scopes;
                        rf_expires_at := timestamp <$> rt_expires_at row;
                        rf_subject := Some (user_subject (rt_user_id row)) |})
    end.

Definition external_access_token_ttl (now : time) (external_expires_at : option time) : outcome Z :=
  let ttl := oc_external_access_token_ttl_seconds config in
  match external_expires_at with
  | None => Ret ttl
  | Some e =>
      let remaining := Z.quot (e - now) 1000000 in
      if remaining <=? 0 then Raise (ValueError "External access token is expired")
      else Ret (Z.min ttl remaining)
  end.

(** The protected region: the stored token is validated again and must still
    denote the identity its session was opened for. *)
Definition external_identity_of (principal : Principal) (es : ExternalTokenSession)
    : outcome ExternalTokenIdentity :=
  plaintext ← decrypt (es_subject_token_ciphertext es);
  identity ← validate plaintext;
  if negb (String.eqb (ei_provider_type identity) (es_provider_type es))
     || negb (String.eqb (ei_provider_key identity) (es_provider_key es))
     || negb (String.eqb (ei_provider_fingerprint identity) (es_provider_fingerprint es))
     || negb (String.eqb (ei_subject identity) (es_external_subject es))
     || negb (String.eqb (pc_id principal) (es_user_id es)) then
    Raise (ExternalTokenInvalid "External token trust or identity changed")
  else Ret identity.

Definition check_external_session (now : time) (principal : Principal) (es : ExternalTokenSession)
    : M (Session AuthDB) ExternalTokenIdentity :=
  match external_identity_of principal es with
  | Ret identity => mret identity
  | Raise e =>
      if is_exc "ExternalTokenUnavailable" e then raise e
      else if is_value_error e then
        revoke_token_family now (es_token_family es) ;;
        raise (ValueError "External access token is no longer valid")
      else raise e
  end.

(** The external session that backs the presented token, with the identity its
    token still denotes. *)
Definition checked_session (now : time) (principal : Principal) (external : option ExternalTokenSession)
    : M (Session AuthDB) (option (ExternalTokenSession * ExternalTokenIdentity)) :=
  match external with
  | None => mret None
  | Some es => identity ← check_external_session now principal es; mret (Some (es, identity))
  end.

(** A scope beyond the external grant ends the family. *)
Definition check_external_scopes (now : time) (effective_scopes : list string)
    (checked : option (ExternalTokenSession * ExternalTokenIdentity)) : M (Session AuthDB) unit :=
  match checked with
  | Some (es, identity) =>
      if negb (ei_scopes identity == []) && negb (bool_decide (Forall (.∈ ei_scopes identity) effective_scopes)) then
        revoke_token_family now (es_token_family es) ;;
        raise (ValueError "Refresh token scope exceeds the external token grant")
      else mret tt
  | None => mret tt
  end.

Definition external_ttl (now : time) (checked : option (ExternalTokenSession * ExternalTokenIdentity))
    : outcome (option Z) :=
  match checked with
  | None => Ret None
  | Some (_, identity) => ttl ← external_access_token_ttl now (ei_expires_at identity); Ret (Some ttl)
  end.

(** The session of the external token is touched in the rotating transaction. *)
Definition touch_external_session (now : time) (token_family : string)
    (checked : option (ExternalTokenSession * ExternalTokenIdentity)) : M (Session AuthDB) unit :=
  match checked with
  | None => mret tt
  | Some (es, identity) =>
      current ← query (λ db, external_sessions db !! es_id es);
      match current with
      | None => raise (ValueError "External token session is unavailable")
      | Some current =>
          if (es_revoked_at current != None) || negb (String.eqb (es_token_family current) token_family) then
            raise (ValueError "External token session is unavailable")
          else
            execute (λ db, db <| external_sessions := <[es_id es :=
              current <| es_last_validated_at := now |> <| es_external_expires_at := ei_expires_at identity |>]>
              (external_sessions db) |>)
      end
  end.

(** The successor of a row. *)
Definition rotated (now : time) (te : TokenEntropy) (rt : RefreshToken) (effective_scopes : list string)
    (user : User) (old_row : OAuthRefreshToken) : OAuthRefreshToken :=
  {| rt_token_hash := hash_token (te_refresh_token te);
     rt_client_id := rf_client_id rt;
     rt_user_id := u_id user;
     rt_code_id := rt_code_id old_row;
     rt_token_family := rt_token_family old_row;
     rt_scopes := dump_scopes effective_scopes;
     rt_resource := rt_resource old_row;
     rt_expires_at := Some (now + days (oc_refresh_token_expire_days config));
     rt_revoked_at := None |}.

(** The rotating transaction. *)
Definition rotate_refresh_token (now : time) (te : TokenEntropy) (principal : Principal) (rt : RefreshToken)
    (effective_scopes : list string) (checked : option (ExternalTokenSession * ExternalTokenIdentity))
    (external_access_ttl : option Z) : M (Session AuthDB) OAuthToken :=
  let old_hash := hash_token (rf_token rt) in
  user ← query (λ db, users db !! pc_id principal);
  match user with
  | None => raise (ValueError "Refresh token user is unavailable")
  | Some user =>
      if u_status user == UserStatus.DISABLED then raise (ValueError "Refresh token user is unavailable")
      else
        old_row ← query (λ db, refresh_tokens db !! old_hash);
        match old_row with
        | None => raise (ValueError "Refresh token not found")
        | Some old_row =>
            if negb (String.eqb (rt_user_id old_row) (u_id user)) then raise (ValueError "Refresh token not found")
            else if match rt_expires_at old_row with Some e => e <=? now | None => false end then
              raise (ValueError "Refresh token expired")
            else if rt_revoked_at old_row != None then
              end_family now (rt_token_family old_row) ;;
              commit ;;
              raise (ValueError "Refresh token already consumed")
            else
              let payload :=
                access_token_payload now (te_jti te) (default EmptyString (rf_subject rt)) (rt_resource old_row)
                  (rf_client_id rt) effective_scopes external_access_ttl None
                ++ builtin_credential_claim user in
              execute (put_refresh (old_row <| rt_revoked_at := Some now |>)) ;;
              insert_refresh (rotated now te rt effective_scopes user old_row) ;;
              touch_external_session now (rt_token_family old_row) checked ;;
              commit ;;
              mret (mk_oauth_token (jwt_encode payload) (Some (te_refresh_token te))
                      (default (oc_access_token_expire_minutes config * 60) external_access_ttl)
                      (join_scopes effective_scopes))
        end
  end.

(** [now_checked] is the clock of the checks of the external token, [now] that of
    the rotating transaction. *)
Definition exchange_refresh_token (now_checked now : time) (te : TokenEntropy) (rt : RefreshToken)
    (scopes : list string) : M (Session AuthDB) OAuthToken :=
  if String.eqb (rf_client_id rt) CLIENT_ID || starts_with TOKEN_PREFIX (rf_token rt) then
    raise (ValueError "Personal access credentials are not refresh tokens")
  else
    principal ← lift_outcome (subject_user (rf_subject rt) "Refresh token subject must be a User");
    external ← query (λ db,
      preliminary ← refresh_tokens db !! hash_token (rf_token rt);
      external_session_of (rt_token_family preliminary) db);
    rollback ;;
    checked ← checked_session now_checked principal external;
    let effective_scopes := if scopes == [] then rf_scopes rt else scopes in
    check_external_scopes now_checked effective_scopes checked ;;
    ttl ← lift_outcome (external_ttl now_checked checked);
    rotate_refresh_token now te principal rt effective_scopes checked ttl.
End provider.
