(* ===== verification/AccessTokens.v ===== *)
(** * Bearer access tokens ([server/auth/oauth_provider.py])

    Verification of the bearer token of a request, and revocation (RFC 7009).
    A server process keeps a cache of denied token ids beside the database; the
    code below runs on both ([AuthWorld]). *)

From S2P Require Import Prelude PyString Models Dispatcher AccessControl Hashing AuthModels.
From S2P Require Import PersonalTokens OAuthProvider.

Record AuthWorld : Type := mk_auth_world {
  jti_deny_cache : gmap string time;
  auth_db : AuthDB
}.

#[export] Instance AuthWorld_eta : Eta AuthWorld := λ w, mk_auth_world (jti_deny_cache w) (auth_db w).

(** [async with self._session_factory() as session: m] *)
Definition in_db {A} (m : M (Session AuthDB) A) : M AuthWorld A := λ w,
  match with_session m (auth_db w) with (db, o) => (w <| auth_db := db |>, o) end.

(** ** The cache of denied tokens *)
Definition JTI_CACHE_MAX : Z := 4096.

Definition jti_is_denied_cached (now : time) (jti : string) : M AuthWorld (option bool) := λ w,
  match jti_deny_cache w !! jti with
  | None => (w, Ret None)
  | Some exp =>
      if exp <? now then (w <| jti_deny_cache := delete jti (jti_deny_cache w) |>, Ret None)
      else (w, Ret (Some true))
  end.

Definition jti_cache_deny (now : time) (jti : string) (expires_at : time) : M AuthWorld unit := λ w,
  let cache := jti_deny_cache w in
  let cache :=
    if JTI_CACHE_MAX <=? Z.of_nat (size cache) then filter (λ kv, ¬ kv.2 < now) cache else cache in
  (w <| jti_deny_cache := <[jti := expires_at]> cache |>, Ret tt).

(** ** Tokens *)

Record AccessToken : Type := mk_access_token {
  ak_token : string;
  ak_client_id : string;
  ak_scopes : list string;
  ak_expires_at : option Z;
  ak_resource : option string;
  ak_subject : string;
  ak_claims : option (list (string * json))
}.

(** [claims.get("access_mode") == "personal"] *)
Definition is_personal_access (token : AccessToken) : bool :=
  match ak_claims token with
  | Some claims => json_get "access_mode" claims == Some (JStr "personal")
  | None => false
  end.

Definition InvalidTokenError (message : string) : PyExc := exc "InvalidTokenError" message.

(** [except (PyJWTError, ValueError)] *)
Definition is_jwt_error (e : PyExc) : bool :=
  bool_decide (exc_type e ∈ ["PyJWTError"; "InvalidTokenError"; "DecodeError"; "InvalidSignatureError";
    "ExpiredSignatureError"; "InvalidAudienceError"; "InvalidIssuerError"; "InvalidIssuedAtError";
    "ImmatureSignatureError"; "MissingRequiredClaimError"; "InvalidAlgorithmError"; "InvalidKeyError"]).

(** The non-empty string a claim holds. *)
Definition text_claim (claim : option json) : option string :=
  match claim with
  | Some (JStr s) => if String.eqb s EmptyString then None else Some s
  | _ => None
  end.

(** [s.split()] *)
Fixpoint split_words (word : string) (s : string) : list string :=
  match s with
  | EmptyString => if String.eqb word EmptyString then [] else [word]
  | String a s =>
      if is_space a then
        if String.eqb word EmptyString then split_words EmptyString s else word :: split_words EmptyString s
      else split_words (word +:+ String a EmptyString) s
  end.
Definition split_ws (s : string) : list string := split_words EmptyString s.

Section tokens.
  Context (config : OAuthConfig).
  Context (jwt_decode : time → JwtOptions → string → outcome (list (string * json))).
  (** A naive datetime read as local time, [row.expires_at.timestamp()]. *)
  Context (local_time : time → time).

Definition access_token_options : JwtOptions :=
  {| jo_verify_signature := true;
     jo_verify_exp := true;
     jo_audience := Some [oauth_resource config; personal_resource config; oauth_issuer config +:+ "/api/v1"];
     jo_issuer := Some (oauth_issuer config);
     jo_require := ["iss"; "aud"; "sub"; "iat"; "exp"; "jti"; "type"] |}.
Definition unverified_options : JwtOptions := mk_jwt_options false false None None [].
(** Revocation decodes with the signature and the expiry, for any audience. *)
Definition revocation_options : JwtOptions := mk_jwt_options true true None None [].

Definition decode_access_token (now : time) (token : string) : outcome (list (string * json)) :=
  payload ← jwt_decode now access_token_options token;
  match text_claim (json_get "sub" payload), text_claim (json_get "jti" payload) with
  | Some subject, Some _ =>
      if negb (json_get "type" payload == Some (JStr "access")) then
        Raise (InvalidTokenError "Invalid access token claims")
      else
        principal ← parse_subject subject;
        if pc_kind principal == PrincipalKind.USER then Ret payload
        else Raise (InvalidTokenError "OAuth access token subject must be a User")
  | _, _ => Raise (InvalidTokenError "Invalid access token claims")
  end.

(** The cache, then the table, whose hit is cached. *)
Definition jti_denied (now : time) (jti : string) : M AuthWorld bool :=
  cached ← jti_is_denied_cached now jti;
  match cached with
  | Some b => mret b
  | None =>
      row ← in_db (query (λ db, denied_jtis db !! jti));
      match row with
      | None => mret false
      | Some expires_at => jti_cache_deny now jti (local_time expires_at) ;; mret true
      end
  end.

(** A builtin user's token must carry the user's current epoch, as an integer. *)
Definition epoch_current (user : User) (payload : list (string * json)) : bool :=
  match u_auth_provider user with
  | AuthProvider.BUILTIN => json_get "credential_epoch" payload == Some (JNum (u_credential_epoch user))
  | AuthProvider.OIDC => true
  end.

(** The fields of the token object: [payload.get("client_id", "")], the words of
    [payload.get("scope", "")], and the optional claims. *)
Definition text_or_empty_claim (claim : option json) : outcome string :=
  match claim with
  | None => Ret EmptyString
  | Some (JStr s) => Ret s
  | Some _ => Raise (exc "ValidationError" "AccessToken")
  end.
Definition text_of (claim : option json) : outcome (option string) :=
  match claim with
  | None | Some JNull => Ret None
  | Some (JStr s) => Ret (Some s)
  | Some _ => Raise (exc "ValidationError" "AccessToken")
  end.
Definition number_of (claim : option json) : outcome (option Z) :=
  match claim with
  | None | Some JNull => Ret None
  | Some (JNum z) => Ret (Some z)
  | Some _ => Raise (exc "ValidationError" "AccessToken")
  end.

Definition access_token_of (token : string) (payload : list (string * json)) : outcome AccessToken :=
  scope ← match json_get "scope" payload with
          | None => Ret EmptyString
          | Some (JStr s) => Ret s
          | Some _ => Raise (exc "AttributeError" "split")
          end;
  client_id ← text_or_empty_claim (json_get "client_id" payload);
  expires_at ← number_of (json_get "exp" payload);
  resource ← text_of (json_get "aud" payload);
  subject ← text_of (json_get "sub" payload);
  Ret {| ak_token := token;
         ak_client_id := client_id;
         ak_scopes := split_ws scope;
         ak_expires_at := expires_at;
         ak_resource := resource;
         ak_subject := default EmptyString subject;
         ak_claims := Some payload |}.

(** A token whose signature and claims were verified. *)
Definition load_decoded (now : time) (token : string) (payload : list (string * json))
    : M AuthWorld (option AccessToken) :=
  denied ← jti_denied now (default EmptyString (text_claim (json_get "jti" payload)));
  if (denied : bool) then mret None
  else
    match json_get "sub" payload with
    | Some (JStr subject) =>
        match parse_subject subject with
        | Raise _ => mret None
        | Ret principal =>
            if negb (pc_kind principal == PrincipalKind.USER) then mret None
            else
              user ← in_db (query (λ db, users db !! pc_id principal));
              match user with
              | None => mret None
              | Some user =>
                  if u_status user == UserStatus.DISABLED then mret None
                  else if negb (epoch_current user payload) then mret None
                  else access ← lift_outcome (access_token_of token payload); mret (Some access)
              end
        end
    | _ => mret None
    end.

Definition load_personal_access_token (now : time) (token : string) : M AuthWorld (option AccessToken) :=
  in_db
    (resolved ← PersonalTokens.resolve now token;
     match (resolved : option (User * OAuthRefreshToken)) with
     | None => mret None
     | Some (user, row) =>
         if negb (rt_resource row == Some (personal_resource config)) then mret None
         else
           mret (Some {| ak_token := token;
                         ak_client_id := CLIENT_ID;
                         ak_scopes := [];
                         ak_expires_at := timestamp <$> rt_expires_at row;
                         ak_resource := rt_resource row;
                         ak_subject := user_subject (u_id user);
                         ak_claims := Some [("access_mode", JStr "personal")] |})
     end).

(** The token of an Agent: its row is the one with the token's hash. *)
Definition load_agent_access_token (now : time) (token : string) : M AuthWorld (option AccessToken) :=
  in_db
    (rows ← query (λ db, filter (λ t, at_token_hash t = hash_token token) (map_to_list (agent_tokens db)).*2);
     row ← lift_outcome (scalar_one_or_none rows);
     match (row : option AgentAPIToken) with
     | None => mret None
     | Some row =>
         agent ← query (λ db, agent_states db !! at_agent_id row);
         match agent with
         | None => mret None
         | Some agent =>
             if (agent != AgentStatus.ACTIVE) || (at_revoked_at row != None) then mret None
             else if match at_expires_at row with Some e => e <=? now | None => false end then mret None
             else
               mret (Some {| ak_token := token;
                             ak_client_id := "agent-token";
                             ak_scopes := [];
                             ak_expires_at := timestamp <$> at_expires_at row;
                             ak_resource := None;
                             ak_subject := agent_subject (at_agent_id row);
                             ak_claims := None |})
         end
     end).

(** [agent_user] and [direct] answer for the tokens of Agent users and for the
    tokens of external providers. *)
Definition load_verified_access_token (agent_user direct : M AuthWorld (option AccessToken))
    (now : time) (token : string) : M AuthWorld (option AccessToken) :=
  if starts_with TOKEN_PREFIX token then load_personal_access_token now token
  else if starts_with "pas_user_agent_" token then agent_user
  else if starts_with "pas_agent_" token then load_agent_access_token now token
  else
    match decode_access_token now token with
    | Ret payload => load_decoded now token payload
    | Raise e =>
        if is_jwt_error e || is_value_error e then
          let unverified :=
            match jwt_decode now unverified_options token with Ret p => p | Raise _ => [] end in
          if json_get "iss" unverified == Some (JStr (oauth_issuer config)) then mret None else direct
        else raise e
    end.

(** [mode] is the MCP endpoint of the request, [None] outside of it. *)
Definition load_access_token (agent_user direct : M AuthWorld (option AccessToken)) (mode : option string)
    (now : time) (token : string) : M AuthWorld (option AccessToken) :=
  access ← load_verified_access_token agent_user direct now token;
  match access, mode with
  | Some a, Some mode =>
      if Bool.eqb (is_personal_access a) (String.eqb mode "personal") then mret access else mret None
  | _, _ => mret access
  end.

(** ** Revocation *)

(** Revocation of an access token: its id is denied until it expires.  A row
    that is there already is left as it is. *)
Definition deny_jti (jti : string) (expires_at : time) : M (Session AuthDB) unit :=
  execute (λ db,
    match denied_jtis db !! jti with
    | Some _ => db
    | None => db <| denied_jtis := <[jti := expires_at]> (denied_jtis db) |>
    end) ;;
  commit.

Definition revoke_access_token (now : time) (token : AccessToken) : M AuthWorld unit :=
  match jwt_decode now revocation_options (ak_token token) with
  | Raise e => if is_jwt_error e then mret tt else raise e
  | Ret payload =>
      match text_claim (json_get "jti" payload), json_get "exp" payload with
      | Some jti, Some (JNum exp) =>
          if exp =? 0 then mret tt
          else
            jti_cache_deny now jti (seconds exp) ;;
            in_db (deny_jti jti (seconds exp))
      | _, _ => mret tt
      end
  end.

(** Revocation of a refresh token ends its family. *)
Definition revoke_refresh_token (now : time) (token : RefreshToken) : M (Session AuthDB) unit :=
  row ← query (λ db, refresh_tokens db !! hash_token (rf_token token));
  match row with
  | None => mret tt
  | Some row =>
      end_family now (rt_token_family row) ;;
      commit
  end.
End tokens.
