(* ===== verification/Passwords.v ===== *)
(** * Built-in passwords and their mutation ([server/auth/builtin.py],
    [password_policy.py], [credential_mutation.py])

    PBKDF2 of the standard library is written out over [Hashing.hmac_sha256]; the
    salt is drawn by the call. *)

From S2P Require Import Prelude PyString Models Permission AccessControl Hashing AuthModels.

(** ** [hashlib.pbkdf2_hmac("sha256", password, salt, iterations)], one block *)

Definition xor_bytes (a b : list Z) : list Z := zip_with Z.lxor a b.

(** [U1 xor U2 xor ...], with the last [U] and the sum so far. *)
Definition pbkdf2_round (password : list Z) (st : list Z * list Z) : list Z * list Z :=
  let u := hmac_sha256 password st.1 in (u, xor_bytes st.2 u).

Definition pbkdf2_hmac_sha256 (password salt : list Z) (iterations : Z) : list Z :=
  let u1 := hmac_sha256 password (salt ++ be_bytes 4 1) in
  (Z.iter (iterations - 1) (pbkdf2_round password) (u1, u1)).2.

(** The first test vectors of RFC 7914 and RFC 6070 (for SHA-256). *)
Example pbkdf2_vector :
  hexdigest (pbkdf2_hmac_sha256 (utf8 "password") (utf8 "salt") 2)
  = "ae4d0c95af6b46d32d0adff928f06dd02a303f8ef3c251dfd6e2d85a95474c43".
Proof. vm_compute. reflexivity. Qed.

(** ** [bytes.fromhex] *)

Definition hex_value (a : ascii) : option Z :=
  let n := Z.of_nat (nat_of_ascii a) in
  if is_digit a then Some (n - 48)
  else if (97 <=? n) && (n <=? 102) then Some (n - 87)
  else if (65 <=? n) && (n <=? 70) then Some (n - 55)
  else None.

(** White space is skipped between bytes. *)
Definition hex_space (a : ascii) : bool :=
  let n := nat_of_ascii a in (n =? 32)%nat || ((9 <=? n)%nat && (n <=? 13)%nat).

Fixpoint from_hex (s : string) : option (list Z) :=
  match s with
  | EmptyString => Some []
  | String a s1 =>
      if hex_space a then from_hex s1
      else
        match s1 with
        | EmptyString => None
        | String b s2 =>
            match hex_value a, hex_value b, from_hex s2 with
            | Some x, Some y, Some rest => Some (16 * x + y :: rest)
            | _, _, _ => None
            end
        end
  end.

(** ** Passwords *)
Definition ITERATIONS : Z := 100000.

Definition hash_password (salt : list Z) (password : string) : string :=
  hexdigest salt +:+ ":" +:+ hexdigest (pbkdf2_hmac_sha256 (utf8 password) salt ITERATIONS).

Definition verify_password (password password_hash : string) : bool :=
  match split_char ":" password_hash with
  | [salt_hex; key_hex] =>
      match from_hex salt_hex, from_hex key_hex with
      | Some salt, Some stored_key =>
          bool_decide (pbkdf2_hmac_sha256 (utf8 password) salt ITERATIONS = stored_key)
      | _, _ => false
      end
  | _ => false
  end.

(** [user.external_id == username and user.auth_provider == BUILTIN]; the column
    is unique. *)
Definition builtin_account (username : string) (u : User) : bool :=
  String.eqb (u_external_id u) username && (u_auth_provider u == AuthProvider.BUILTIN).

Definition authenticate_builtin (username password : string) : M (Session AuthDB) (option User) :=
  rows ← query (λ db, filter (λ u, builtin_account username u = true) (map_to_list (users db)).*2);
  user ← lift_outcome (scalar_one_or_none rows);
  match (user : option User) with
  | None => mret None
  | Some user =>
      state ← lift_outcome (effective_password_state user);
      if state == PasswordState.RESET_REQUIRED then mret None
      else if negb (truthy (u_password_hash user)) then mret None
      else if negb (verify_password password (default EmptyString (u_password_hash user))) then mret None
      else mret (Some user)
  end.

(** ** Mutation *)
Module CredentialMutationMode.
Inductive t : Set := | INITIALIZE | MODIFY | RESET.

#[global] Instance t_eq_dec : EqDecision t.
Proof. solve_decision. Defined.
End CredentialMutationMode.

Definition BuiltinPasswordRequired : PyExc :=
  exc "BuiltinPasswordRequired" "Password mutation requires a builtin user".
Definition AdminPasswordAlreadyInitialized : PyExc :=
  exc "AdminPasswordAlreadyInitialized" "Administrator password is already initialized".
Definition PasswordModificationNotAllowed : PyExc :=
  exc "PasswordModificationNotAllowed" "Password modification requires active credentials".
Definition OldPasswordIncorrect : PyExc := exc "OldPasswordIncorrect" "Current password is incorrect".
Definition OldPasswordNotAllowed : PyExc :=
  exc "OldPasswordNotAllowed" "Current password is not accepted for password reset".

Definition MIN_PASSWORD_LENGTH : Z := 8.
Definition PasswordPolicyError : PyExc :=
  exc "PasswordPolicyError" ("Password must be at least " +:+ pretty MIN_PASSWORD_LENGTH +:+ " characters").

Definition validate_password (password : string) : outcome unit :=
  if Z.of_nat (String.length password) <? MIN_PASSWORD_LENGTH then Raise PasswordPolicyError else Ret tt.

(** What a mode requires of the current credential. *)
Definition mutation_allowed (mode : CredentialMutationMode.t) (user : User) (state : PasswordState.t)
    (old_password : option string) : outcome unit :=
  match mode with
  | CredentialMutationMode.INITIALIZE =>
      if state == PasswordState.RESET_REQUIRED then Ret tt else Raise AdminPasswordAlreadyInitialized
  | CredentialMutationMode.MODIFY =>
      if negb (state == PasswordState.ACTIVE) then Raise PasswordModificationNotAllowed
      else
        match old_password, u_password_hash user with
        | Some old, Some h => if verify_password old h then Ret tt else Raise OldPasswordIncorrect
        | _, _ => Raise OldPasswordIncorrect
        end
  | CredentialMutationMode.RESET =>
      match old_password with Some _ => Raise OldPasswordNotAllowed | None => Ret tt end
  end.

(** The new credential and its epoch. *)
Definition new_credential (salt : list Z) (new_password : string) (user : User) : User :=
  user <| u_password_hash := Some (hash_password salt new_password) |>
       <| u_password_state := Some (PasswordState.value PasswordState.ACTIVE) |>
       <| u_credential_epoch := u_credential_epoch user + 1 |>.

(** Every outstanding credential of the user ends: browser sessions, refresh and
    personal tokens, and codes not yet exchanged. *)
Definition end_credentials (user_id : string) (now : time) (db : AuthDB) : AuthDB :=
  let db := revoke_browser (λ t, String.eqb (ur_user_id t) user_id) now db in
  let db := revoke_refresh (λ t, String.eqb (rt_user_id t) user_id) now db in
  db <| codes := update_where (λ c, String.eqb (ac_user_id c) user_id && (ac_consumed_at c == None))
          (λ c, c <| ac_consumed_at := Some now |>) (codes db) |>.

(** [session.refresh(user, with_for_update=True)] reads the user's row again. *)
Definition mutate_builtin_password_in_session (now : time) (salt : list Z) (user_id : string)
    (mode : CredentialMutationMode.t) (new_password : string) (old_password : option string)
    : M (Session AuthDB) PasswordState.t :=
  user ← query (λ db, users db !! user_id);
  match user with
  | None => raise (exc "InvalidRequestError" "Could not refresh instance")
  | Some user =>
      if negb (u_auth_provider user == AuthProvider.BUILTIN) then raise BuiltinPasswordRequired
      else
        lift_outcome (validate_password new_password) ;;
        state ← lift_outcome (effective_password_state user);
        lift_outcome (mutation_allowed mode user state old_password) ;;
        execute (put_user (new_credential salt new_password user)) ;;
        execute (end_credentials (u_id user) now) ;;
        mret PasswordState.ACTIVE
  end.

(** [POST /change-password] and [PUT /users/{id}/reset-password]. *)
Definition mutation_response (e : PyExc) : PyExc :=
  if is_exc "OldPasswordIncorrect" e then HTTPException 401 "Current password is incorrect."
  else if is_exc "BuiltinPasswordRequired" e then
    HTTPException 400 "Password change is only available for builtin auth users."
  else if is_exc "PasswordModificationNotAllowed" e then
    HTTPException 400 "Password change is unavailable for the current credential state."
  else if is_exc "PasswordPolicyError" e then HTTPException 400 (exc_message e)
  else e.

Definition change_password (now : time) (salt : list Z) (user_id current_password new_password : string)
    : M (Session AuthDB) unit :=
  try_except
    (mutate_builtin_password_in_session now salt user_id CredentialMutationMode.MODIFY new_password
       (Some current_password) ;;
     mret tt)
    (λ e, raise (mutation_response e)) ;;
  commit.

Definition reset_response (e : PyExc) : PyExc :=
  if is_exc "BuiltinPasswordRequired" e then
    HTTPException 400 "Password reset is only available for builtin auth users."
  else if is_exc "PasswordPolicyError" e then HTTPException 400 (exc_message e)
  else e.

Definition reset_password (now : time) (salt : list Z) (user_id new_password : string)
    : M (Session AuthDB) unit :=
  user ← query (λ db, users db !! user_id);
  match user with
  | None => raise (HTTPException 404 "User not found")
  | Some _ =>
      try_except
        (mutate_builtin_password_in_session now salt user_id CredentialMutationMode.RESET new_password None ;;
         mret tt)
        (λ e, raise (reset_response e)) ;;
      commit
  end.
