(* ===== verification/BrowserSessions.v ===== *)
(** * Sessions of the web console ([server/auth/jwt_manager.py],
    [dependencies.py], [user_session.py], [router.py])

    Short access tokens signed by a key ring, and opaque refresh tokens in
    families.  Cookies carry both; the answer of a handler here is their pair. *)

From S2P Require Import Prelude PyString Models Dispatcher AccessControl Hashing AuthModels.
From S2P Require Import PersonalTokens OAuthProvider AccessTokens Passwords.

(** ** The key ring *)
Record JWTKeyRing : Type := mk_key_ring {
  kr_algorithm : string;
  kr_active_kid : string;
  kr_private_key : string;
  kr_public_keys : gmap string string;
  kr_access_token_expire_minutes : Z;
  kr_refresh_token_expire_days : Z;
  kr_session_epoch : Z;
  kr_require_epoch : bool
}.

(** The two tokens a handler sets as cookies. *)
Record SessionTokens : Type := mk_session_tokens {
  st_access_token : string;
  st_refresh_token : string
}.

Definition AUTH_REQUIRED (message : string) : PyExc := HTTPException 401 ("AUTH_REQUIRED: " +:+ message).
Definition USER_DISABLED : PyExc :=
  HTTPException 403 "USER_DISABLED: Your account has been disabled. Contact admin.".
Definition ACCOUNT_DISABLED : PyExc := HTTPException 403 "Your account has been disabled. Contact admin.".

Section sessions.
  Context (ring : JWTKeyRing).
  (** [jwt.encode(payload, key, algorithm, headers)], the [kid] of
      [jwt.get_unverified_header], and [jwt.decode(token, key, [algorithm])]. *)
  Context (ring_encode : list (string * json) → string → string → option string → string).
  Context (header_kid : string → outcome json).
  Context (ring_decode : time → string → string → string → outcome (list (string * json))).

(** [_create_token(data, token_type="access")]: the subject is a user's. *)
Definition create_access_token (now : time) (user_id : string) (data : list (string * json)) : string :=
  let iat := timestamp now in
  let payload :=
    [("sub", JStr (user_subject user_id))] ++ data
    ++ [("exp", JNum (iat + kr_access_token_expire_minutes ring * 60));
        ("iat", JNum iat);
        ("type", JStr "access");
        ("session_epoch", JNum (kr_session_epoch ring))] in
  ring_encode payload (kr_private_key ring) (kr_algorithm ring)
    (if String.eqb (kr_active_kid ring) EmptyString then None else Some (kr_active_kid ring)).

Definition verify_token (now : time) (token : string) : outcome (list (string * json)) :=
  kid ← header_kid token;
  match kid with
  | JStr kid =>
      match kr_public_keys ring !! kid with
      | None => Raise (exc "PyJWTError" "unknown JWT signing key")
      | Some key =>
          result ← ring_decode now key (kr_algorithm ring) token;
          if kr_require_epoch ring && negb (json_get "session_epoch" result == Some (JNum (kr_session_epoch ring)))
          then Raise (exc "PyJWTError" "JWT session epoch is no longer active")
          else Ret result
      end
  | _ => Raise (exc "PyJWTError" "unknown JWT signing key")
  end.

Definition validate_access_token_user (now : time) (token : string) : M (Session AuthDB) User :=
  match verify_token now token with
  | Raise e => if is_jwt_error e then raise (AUTH_REQUIRED "Invalid or expired token.") else raise e
  | Ret payload =>
      if negb (json_get "type" payload == Some (JStr "access")) then raise (AUTH_REQUIRED "Invalid token type.")
      else
        match json_get "sub" payload with
        | Some (JStr subject) =>
            match parse_subject subject with
            | Raise _ => raise (AUTH_REQUIRED "Invalid token payload.")
            | Ret principal =>
                if negb (pc_kind principal == PrincipalKind.USER) then raise (AUTH_REQUIRED "Invalid token payload.")
                else
                  user ← query (λ db, users db !! pc_id principal);
                  match user with
                  | None => raise (AUTH_REQUIRED "User not found.")
                  | Some user =>
                      if u_status user == UserStatus.DISABLED then raise USER_DISABLED
                      else if negb (epoch_current user payload) then
                        raise (AUTH_REQUIRED "Authentication required. Please reconnect.")
                      else mret user
                  end
            end
        | _ => raise (AUTH_REQUIRED "Invalid token payload.")
        end
  end.

Definition require_admin (user : User) : outcome User :=
  if negb (u_role user == UserRole.ADMIN) then Raise (HTTPException 403 "FORBIDDEN: Admin access required.")
  else Ret user.

(** ** Refresh records *)

(** The token and the family an issuance draws. *)
Record SessionEntropy : Type := mk_session_entropy {
  se_id : string;
  se_token : string;
  se_family : string
}.

(** [datetime.now(utc).replace(microsecond=0)] *)
Definition whole_second (t : time) : time := t - t mod 1000000.

(** [session.add] of a row, whose [token_hash] is unique. *)
Definition insert_browser_token (t : UserRefreshToken) : M (Session AuthDB) unit :=
  taken ← query (λ db, bool_decide (is_Some (browser_tokens db !! ur_token_hash t)));
  if (taken : bool) then raise IntegrityError else execute (put_browser_token t).

Definition refresh_record (now : time) (se : SessionEntropy) (user_id : string) (family : option string)
    : UserRefreshToken :=
  {| ur_id := se_id se;
     ur_user_id := user_id;
     ur_token_hash := hash_token (se_token se);
     ur_token_family := if truthy family then default EmptyString family else se_family se;
     ur_expires_at := whole_second now + days (kr_refresh_token_expire_days ring);
     ur_revoked_at := None |}.

Definition create_refresh_record (now : time) (se : SessionEntropy) (user_id : string) (family : option string)
    : M (Session AuthDB) string :=
  insert_browser_token (refresh_record now se user_id family) ;;
  mret (se_token se).

Definition session_claims (user : User) : list (string * json) :=
  [("role", JStr (UserRole.value (u_role user))); ("credential_epoch", JNum (u_credential_epoch user))].

Definition issue_browser_session (now : time) (se : SessionEntropy) (user : User)
    : M (Session AuthDB) SessionTokens :=
  let access_token := create_access_token now (u_id user) (session_claims user) in
  refresh_token ← create_refresh_record now se (u_id user) None;
  mret (mk_session_tokens access_token refresh_token).

(** ** Handlers

    [mode] is [config.auth.mode]; the rate limit of the handlers is in
    [RateLimit]. *)

Definition login (mode : string) (now : time) (se : SessionEntropy) (username password : string)
    : M (Session AuthDB) SessionTokens :=
  if String.eqb mode "oidc" then raise (HTTPException 409 "Enterprise SSO login is required.")
  else
    user ← authenticate_builtin username password;
    match (user : option User) with
    | None => raise (HTTPException 401 "Invalid username or password.")
    | Some user =>
        if u_status user == UserStatus.DISABLED then raise ACCOUNT_DISABLED
        else
          tokens ← issue_browser_session now se user;
          commit ;;
          mret tokens
    end.

Definition recovery_login (mode : string) (now : time) (se : SessionEntropy) (username password : string)
    : M (Session AuthDB) SessionTokens :=
  if negb (String.eqb mode "oidc") then raise (HTTPException 404 "Not Found")
  else
    user ← authenticate_builtin username password;
    match (user : option User) with
    | None => raise (HTTPException 401 "Invalid recovery credentials.")
    | Some user =>
        if negb (u_role user == UserRole.ADMIN) || negb (u_status user == UserStatus.ACTIVE) then
          raise (HTTPException 401 "Invalid recovery credentials.")
        else
          tokens ← issue_browser_session now se user;
          commit ;;
          mret tokens
    end.

Definition in_browser_family (family : string) (t : UserRefreshToken) : bool :=
  String.eqb (ur_token_family t) family.

Definition refresh (now : time) (se : SessionEntropy) (token : option string)
    : M (Session AuthDB) SessionTokens :=
  if negb (truthy token) then raise (HTTPException 401 "No refresh token.")
  else
    let token_hash := hash_token (default EmptyString token) in
    owner ← query (λ db, ur_user_id <$> browser_tokens db !! token_hash);
    match owner with
    | None => raise (HTTPException 401 "Invalid refresh token.")
    | Some user_id =>
        user ← query (λ db, users db !! user_id);
        match user with
        | None => raise (HTTPException 401 "User not found.")
        | Some user =>
            record ← query (λ db, browser_tokens db !! token_hash);
            match record with
            | None => raise (HTTPException 401 "Invalid refresh token.")
            | Some record =>
                if (ur_revoked_at record != None) || (ur_expires_at record <? now) then
                  execute (revoke_browser (in_browser_family (ur_token_family record)) now) ;;
                  commit ;;
                  raise (HTTPException 401 "Refresh token no longer valid.")
                else if u_status user == UserStatus.DISABLED then raise ACCOUNT_DISABLED
                else
                  execute (put_browser_token (record <| ur_revoked_at := Some now |>)) ;;
                  let access_token := create_access_token now (u_id user) (session_claims user) in
                  new_refresh ← create_refresh_record now se (u_id user) (Some (ur_token_family record));
                  commit ;;
                  mret (mk_session_tokens access_token new_refresh)
            end
        end
    end.

Definition logout (now : time) (token : option string) : M (Session AuthDB) unit :=
  if truthy token then
    execute (revoke_browser (λ t, String.eqb (ur_token_hash t) (hash_token (default EmptyString token))) now) ;;
    commit
  else mret tt.
End sessions.
