(* ===== verification/AuthRoutes.v ===== *)
(** * Issuing authorization codes, and the sweep ([server/auth/auth_routes.py],
    [cleanup.py], [enterprise_identity/service.py], [api/users.py])

    The callbacks that end a login at the OAuth server with a code, the periodic
    deletion of spent rows, and the two operations on users that end their
    sessions. *)

From S2P Require Import Prelude PyString Models Dispatcher AccessControl Hashing AuthModels.
From S2P Require Import PersonalTokens OAuthProvider Passwords.

(** ** Login callbacks *)

(** The code of a pending authorization, valid for five minutes. *)
Definition code_record (now : time) (code user_id : string) (pending : OAuthPendingAuth)
    : OAuthAuthorizationCode :=
  {| ac_code_hash := hash_token code;
     ac_client_id := pa_client_id pending;
     ac_user_id := user_id;
     ac_redirect_uri := pa_redirect_uri pending;
     ac_redirect_uri_provided_explicitly := true;
     ac_code_challenge := pa_code_challenge pending;
     ac_code_challenge_method := pa_code_challenge_method pending;
     ac_resource := pa_resource pending;
     ac_scopes := pa_scopes pending;
     ac_expires_at := now + minutes 5;
     ac_consumed_at := None |}.

Definition insert_code (c : OAuthAuthorizationCode) : M (Session AuthDB) unit :=
  taken ← query (λ db, bool_decide (is_Some (codes db !! ac_code_hash c)));
  if (taken : bool) then raise IntegrityError else execute (put_code c).

Definition delete_pending (session_id : string) (db : AuthDB) : AuthDB :=
  db <| pending_auths := delete session_id (pending_auths db) |>.

(** [handle_login_callback]: the result is the redirect URI, the code and the
    state of the client. *)
Definition handle_login_callback (now : time) (code session_id username password : string)
    : M (Session AuthDB) (string * string * option string) :=
  if String.eqb session_id EmptyString || String.eqb username EmptyString || String.eqb password EmptyString then
    raise (HTTPException 400 "Missing required fields")
  else
    pending ← query (λ db, pending_auths db !! session_id);
    match pending with
    | None => raise (HTTPException 404 "Invalid or expired session")
    | Some pending =>
        if pa_expires_at pending <? now then raise (HTTPException 410 "Session expired")
        else
          user ← authenticate_builtin username password;
          match (user : option User) with
          | None => raise (HTTPException 401 "Invalid credentials")
          | Some user =>
              insert_code (code_record now code (u_id user) pending) ;;
              execute (delete_pending session_id) ;;
              commit ;;
              mret (pa_redirect_uri pending, code, pa_state pending)
          end
    end.

Section federation.
  (** What an identity provider tells of a user, with the exchange of its code:
      [federate] is [IdentityFederation.discover_endpoints], [exchange_code] with
      the decrypted PKCE verifier and [extract_user_identity] with the nonce.
      [find_or_create_user] commits. *)
  Context {UserIdentity : Type}.
  Context (federate : option string → option string → string → outcome UserIdentity).
  Context (find_or_create_user : UserIdentity → M (Session AuthDB) string).

(** [handle_oidc_callback] for a pending authorization: it is consumed first.
    Statements of one transaction see the same row, so the deletion counts it.
    [oidc] is [protocol_mode == "oidc"]. *)
Definition handle_oidc_callback (oidc : bool) (now issued : time) (mcp_code code idp_state : string)
    : M (Session AuthDB) (string * string * option string) :=
  if String.eqb code EmptyString || String.eqb idp_state EmptyString then
    raise (HTTPException 400 "Missing code or state")
  else
    rows ← query (λ db, filter (λ p, pa_idp_state p = Some idp_state) (map_to_list (pending_auths db)).*2);
    pending ← lift_outcome (scalar_one_or_none rows);
    match (pending : option OAuthPendingAuth) with
    | None => raise (HTTPException 404 "Invalid or expired session")
    | Some pending =>
        if pa_expires_at pending <? now then raise (HTTPException 410 "Session expired")
        else if oidc && negb (truthy (pa_idp_nonce pending)) then
          raise (HTTPException 400 "Invalid authorization session")
        else
          execute (delete_pending (pa_session_id pending)) ;;
          commit ;;
          match federate (pa_idp_code_verifier_enc pending) (if oidc then pa_idp_nonce pending else None) code with
          | Raise e =>
              if is_value_error e || is_exc "HTTPError" e then raise (HTTPException 400 "Authentication failed")
              else raise e
          | Ret identity =>
              user_id ← find_or_create_user identity;
              insert_code (code_record issued mcp_code user_id pending) ;;
              commit ;;
              mret (pa_redirect_uri pending, mcp_code, pa_state pending)
          end
    end.
End federation.

(** ** The sweep *)
Definition CONSUMED_CODE_RETENTION : time := hours 24.
Definition REVOKED_REFRESH_RETENTION : time := days 7.

Definition before (t : option time) (limit : time) : bool :=
  match t with Some t => t <? limit | None => false end.

Definition code_swept (now : time) (c : OAuthAuthorizationCode) : bool :=
  before (ac_consumed_at c) (now - CONSUMED_CODE_RETENTION)
  || ((ac_expires_at c <? now) && (ac_consumed_at c == None)).
Definition refresh_swept (now : time) (t : OAuthRefreshToken) : bool :=
  before (rt_revoked_at t) (now - REVOKED_REFRESH_RETENTION)
  || (before (rt_expires_at t) now && (rt_revoked_at t == None)).

Definition delete_where {V : Type} (p : V → bool) (m : gmap string V) : gmap string V :=
  filter (λ kv, p kv.2 = false) m.

(** The rows each statement deletes are disjoint, so they are deleted at once. *)
Definition sweep_expired_oauth_rows (now : time) : M (Session AuthDB) unit :=
  execute (λ db, db <| pending_auths := delete_where (λ p, pa_expires_at p <? now) (pending_auths db) |>) ;;
  execute (λ db, db <| codes := delete_where (code_swept now) (codes db) |>) ;;
  execute (λ db, db <| refresh_tokens := delete_where (refresh_swept now) (refresh_tokens db) |>) ;;
  execute (λ db, db <| denied_jtis := delete_where (λ e, e <? now) (denied_jtis db) |>) ;;
  commit.

(** ** Users *)

(** The users an identity source disabled, with everything that keeps them
    signed in ([owned_users] is the query over the directory). *)
Definition disable_source_owned_users (now : time) (owned_users : list string) : M (Session AuthDB) unit :=
  execute (λ db, db <| users := (λ u, if bool_decide (u_id u ∈ owned_users) then u <| u_status := UserStatus.DISABLED |>
                                     else u) <$> users db |>) ;;
  execute (revoke_browser (λ t, bool_decide (ur_user_id t ∈ owned_users)) now) ;;
  execute (revoke_refresh (λ t, bool_decide (rt_user_id t ∈ owned_users)) now) ;;
  execute (revoke_external (λ s, bool_decide (es_user_id s ∈ owned_users)) now).

Definition set_user_status (user_id : string) (status : UserStatus.t) : M (Session AuthDB) unit :=
  user ← query (λ db, users db !! user_id);
  match user with
  | None => raise (ValueError "User not found")
  | Some user => execute (put_user (user <| u_status := status |>)) ;; commit
  end.

(** [delete_user]: [owned] instances and an audit history are what the queries on
    the other tables give.  Browser sessions go with the user; a row of another
    table that refers to the user makes the database refuse. *)
Definition refers_to_user (user_id : string) (db : AuthDB) : bool :=
  negb (count_rows (λ t, String.eqb (rt_user_id t) user_id) (refresh_tokens db) =? 0)
  || negb (count_rows (λ c, String.eqb (ac_user_id c) user_id) (codes db) =? 0).

Definition delete_user (force : bool) (owned : Z) (has_audit_history : bool) (user_id : string)
    : M (Session AuthDB) unit :=
  user ← query (λ db, users db !! user_id);
  match user with
  | None => raise (HTTPException 404 "User not found")
  | Some user =>
      if (0 <? owned) && negb force then raise (HTTPException 409 "USER_OWNS_INSTANCES")
      else if has_audit_history then raise (HTTPException 409 "USER_HAS_AUDIT_HISTORY")
      else
        execute (λ db, db <| browser_tokens := delete_where (λ t, String.eqb (ur_user_id t) user_id) (browser_tokens db) |>) ;;
        refers ← query (refers_to_user user_id);
        if (refers : bool) then raise IntegrityError
        else execute (λ db, db <| users := delete user_id (users db) |>) ;; commit
  end.
