(* ===== verification/AuthSpec.v ===== *)
(** * What the credential tables may do

    The abstract step of the authentication tables: rows are spent or deleted,
    codes are issued, exchanged once, and tokens are rotated within their
    family, with identifiers never drawn before.  The invariant and the
    permanence of spent credentials are proved of these changes alone;
    [AuthSystem] shows that every transaction of the code is one of them. *)

From S2P Require Import Prelude PyString Models AccessControl Hashing AuthModels PersonalTokens.

(** The conditions a branch of the code has passed. *)
Ltac guards :=
  repeat match goal with
  | H : _ || _ = false |- _ => apply orb_false_iff in H as [? ?]
  | H : negb (String.eqb _ _) = false |- _ => apply negb_false_iff, String.eqb_eq in H
  | H : negb (bool_decide _) = false |- _ => apply negb_false_iff, bool_decide_eq_true in H
  | H : bool_decide _ = false |- _ => apply bool_decide_eq_false in H
  | H : bool_decide _ = true |- _ => apply bool_decide_eq_true in H
  end.

(** ** Fewer credentials

    Every row left is a row that was there, at most spent since. *)
Definition fewer_refresh (m m' : gmap string OAuthRefreshToken) : Prop := ∀ h t', m' !! h = Some t' →
  ∃ t, m !! h = Some t ∧ t' = t <| rt_revoked_at := rt_revoked_at t' |>
    ∧ (rt_revoked_at t' = None → rt_revoked_at t = None).
Definition fewer_codes (m m' : gmap string OAuthAuthorizationCode) : Prop := ∀ h c', m' !! h = Some c' →
  ∃ c, m !! h = Some c ∧ c' = c <| ac_consumed_at := ac_consumed_at c' |>
    ∧ (ac_consumed_at c' = None → ac_consumed_at c = None).
Definition fewer_sessions (m m' : gmap string UserRefreshToken) : Prop := ∀ h t', m' !! h = Some t' →
  ∃ t, m !! h = Some t ∧ t' = t <| ur_revoked_at := ur_revoked_at t' |>
    ∧ (ur_revoked_at t' = None → ur_revoked_at t = None).

(** A user keeps its identity, and its epoch never goes back; a new user has an
    id never drawn before ([D] are the identifiers drawn by the step). *)
Definition users_change (D : gset string) (m m' : gmap string User) : Prop := ∀ id u', m' !! id = Some u' →
  (id ∈ D ∧ u_id u' = id)
  ∨ ∃ u, m !! id = Some u ∧ u_id u' = u_id u ∧ u_auth_provider u' = u_auth_provider u
      ∧ u_credential_epoch u ≤ u_credential_epoch u'.

Record fewer (D : gset string) (db db' : AuthDB) : Prop := {
  fw_refresh : fewer_refresh (refresh_tokens db) (refresh_tokens db');
  fw_codes : fewer_codes (codes db) (codes db');
  fw_sessions : fewer_sessions (browser_tokens db) (browser_tokens db');
  fw_users : users_change D (users db) (users db')
}.

Lemma fewer_refresh_refl m : fewer_refresh m m.
Proof. intros h t Ht. exists t. split_and!; [done|by destruct t|done]. Qed.
Lemma fewer_codes_refl m : fewer_codes m m.
Proof. intros h t Ht. exists t. split_and!; [done|by destruct t|done]. Qed.
Lemma fewer_sessions_refl m : fewer_sessions m m.
Proof. intros h t Ht. exists t. split_and!; [done|by destruct t|done]. Qed.
Lemma users_change_refl D m : users_change D m m.
Proof. intros id u Hu. right. by exists u. Qed.
#[export] Hint Resolve fewer_refresh_refl fewer_codes_refl fewer_sessions_refl users_change_refl : pas.

Lemma fewer_refresh_trans m1 m2 m3 : fewer_refresh m1 m2 → fewer_refresh m2 m3 → fewer_refresh m1 m3.
Proof.
  intros H1 H2 h t3 H3. destruct (H2 _ _ H3) as (t2 & Ht2 & E2 & L2). destruct (H1 _ _ Ht2) as (t1 & Ht1 & E1 & L1).
  exists t1. split_and!; [done| |tauto]. rewrite E2, E1. by destruct t1.
Qed.
Lemma fewer_codes_trans m1 m2 m3 : fewer_codes m1 m2 → fewer_codes m2 m3 → fewer_codes m1 m3.
Proof.
  intros H1 H2 h t3 H3. destruct (H2 _ _ H3) as (t2 & Ht2 & E2 & L2). destruct (H1 _ _ Ht2) as (t1 & Ht1 & E1 & L1).
  exists t1. split_and!; [done| |tauto]. rewrite E2, E1. by destruct t1.
Qed.
Lemma fewer_sessions_trans m1 m2 m3 : fewer_sessions m1 m2 → fewer_sessions m2 m3 → fewer_sessions m1 m3.
Proof.
  intros H1 H2 h t3 H3. destruct (H2 _ _ H3) as (t2 & Ht2 & E2 & L2). destruct (H1 _ _ Ht2) as (t1 & Ht1 & E1 & L1).
  exists t1. split_and!; [done| |tauto]. rewrite E2, E1. by destruct t1.
Qed.

(** Updates that only spend, and deletions. *)
Lemma fewer_refresh_spend p now m :
  fewer_refresh m (update_where p (λ t, t <| rt_revoked_at := Some now |>) m).
Proof.
  intros h t'. unfold update_where. rewrite lookup_fmap. destruct (m !! h) as [t|]; [|done]. intros [= <-].
  exists t. destruct (p t); split_and!; try done. by destruct t.
Qed.
Lemma fewer_codes_spend p now m :
  fewer_codes m (update_where p (λ t, t <| ac_consumed_at := Some now |>) m).
Proof.
  intros h t'. unfold update_where. rewrite lookup_fmap. destruct (m !! h) as [t|]; [|done]. intros [= <-].
  exists t. destruct (p t); split_and!; try done. by destruct t.
Qed.
Lemma fewer_sessions_spend p now m :
  fewer_sessions m (update_where p (λ t, t <| ur_revoked_at := Some now |>) m).
Proof.
  intros h t'. unfold update_where. rewrite lookup_fmap. destruct (m !! h) as [t|]; [|done]. intros [= <-].
  exists t. destruct (p t); split_and!; try done. by destruct t.
Qed.
Lemma fewer_refresh_put m t r :
  m !! rt_token_hash t = Some t → fewer_refresh m (<[rt_token_hash t := t <| rt_revoked_at := Some r |>]> m).
Proof.
  intros Ht h t'. intros [[<- <-]|[_ H]]%lookup_insert_Some; [by exists t|]. by apply fewer_refresh_refl.
Qed.

Lemma fewer_refresh_filter (P : string * OAuthRefreshToken → Prop) `{!∀ x, Decision (P x)} m :
  fewer_refresh m (filter P m).
Proof. intros h t' [Ht _]%map_lookup_filter_Some. by apply fewer_refresh_refl. Qed.
Lemma fewer_codes_filter (P : string * OAuthAuthorizationCode → Prop) `{!∀ x, Decision (P x)} m :
  fewer_codes m (filter P m).
Proof. intros h t' [Ht _]%map_lookup_filter_Some. by apply fewer_codes_refl. Qed.
Lemma fewer_sessions_filter (P : string * UserRefreshToken → Prop) `{!∀ x, Decision (P x)} m :
  fewer_sessions m (filter P m).
Proof. intros h t' [Ht _]%map_lookup_filter_Some. by apply fewer_sessions_refl. Qed.

(** A user's row written with its provider, and an epoch not before its own. *)
Lemma users_change_put D m u0 u :
  m !! u_id u = Some u0 → u_id u0 = u_id u → u_auth_provider u = u_auth_provider u0 →
  u_credential_epoch u0 ≤ u_credential_epoch u → users_change D m (<[u_id u := u]> m).
Proof.
  intros Hm Hid Hp He id u'. intros [[<- <-]|[_ H]]%lookup_insert_Some; [right; by exists u0|].
  by eapply users_change_refl.
Qed.

#[export] Hint Resolve fewer_refresh_spend fewer_codes_spend fewer_sessions_spend : pas.

(** ** Changes *)

Definition spent (now : time) (t : OAuthRefreshToken) : OAuthRefreshToken := t <| rt_revoked_at := Some now |>.
Definition consumed (now : time) (c : OAuthAuthorizationCode) : OAuthAuthorizationCode :=
  c <| ac_consumed_at := Some now |>.
Definition signed_out (now : time) (t : UserRefreshToken) : UserRefreshToken := t <| ur_revoked_at := Some now |>.

(** The code ids of personal tokens are not the hash of a code. *)
Definition personal_code (c : string) : Prop := starts_with "personal:epoch:" c = true.

(** A step of the tables that draws the identifiers [D]. *)
Inductive auth_change (D : gset string) (db db' : AuthDB) : Prop :=
| change_fewer : fewer D db db' → auth_change D db db'
| change_code c :
    ac_code_hash c ∈ D → ac_consumed_at c = None → ¬ personal_code (ac_code_hash c) →
    codes db' = <[ac_code_hash c := c]> (codes db) →
    refresh_tokens db' = refresh_tokens db → browser_tokens db' = browser_tokens db → users db' = users db →
    auth_change D db db'
| change_exchange now c t :
    codes db !! ac_code_hash c = Some c → ac_consumed_at c = None →
    rt_code_id t = Some (ac_code_hash c) → rt_user_id t = ac_user_id c → rt_revoked_at t = None →
    rt_token_hash t ∈ D → rt_token_family t ∈ D →
    codes db' = <[ac_code_hash c := consumed now c]> (codes db) →
    refresh_tokens db' = <[rt_token_hash t := t]> (refresh_tokens db) →
    browser_tokens db' = browser_tokens db → users db' = users db →
    auth_change D db db'
| change_rotate now old t :
    refresh_tokens db !! rt_token_hash old = Some old → rt_revoked_at old = None →
    rt_code_id t = rt_code_id old → rt_user_id t = rt_user_id old → rt_resource t = rt_resource old →
    rt_token_family t = rt_token_family old → rt_revoked_at t = None → rt_token_hash t ∈ D →
    refresh_tokens db' = <[rt_token_hash t := t]> (<[rt_token_hash old := spent now old]> (refresh_tokens db)) →
    codes db' = codes db → browser_tokens db' = browser_tokens db → users db' = users db →
    auth_change D db db'
| change_personal code_id t :
    personal_code code_id → rt_code_id t = Some code_id →
    rt_token_hash t ∈ D → rt_token_family t ∈ D →
    refresh_tokens db' = <[rt_token_hash t := t]> (refresh_tokens db) →
    codes db' = codes db → browser_tokens db' = browser_tokens db → users db' = users db →
    auth_change D db db'
| change_session t :
    ur_token_hash t ∈ D → ur_token_family t ∈ D → ur_token_family t ≠ EmptyString →
    browser_tokens db' = <[ur_token_hash t := t]> (browser_tokens db) →
    codes db' = codes db → refresh_tokens db' = refresh_tokens db → users db' = users db →
    auth_change D db db'
| change_renew now old t :
    browser_tokens db !! ur_token_hash old = Some old → ur_revoked_at old = None →
    ur_user_id t = ur_user_id old → ur_token_family t = ur_token_family old → ur_token_hash t ∈ D →
    browser_tokens db' = <[ur_token_hash t := t]> (<[ur_token_hash old := signed_out now old]> (browser_tokens db)) →
    codes db' = codes db → refresh_tokens db' = refresh_tokens db → users db' = users db →
    auth_change D db db'.

Lemma change_none D db db' :
  refresh_tokens db' = refresh_tokens db → codes db' = codes db → browser_tokens db' = browser_tokens db →
  users db' = users db → auth_change D db db'.
Proof. intros Hr Hc Hb Hu. apply change_fewer. split; rewrite ?Hr, ?Hc, ?Hb, ?Hu; eauto with pas. Qed.

(** ** The invariant

    [U] holds every identifier drawn so far. *)

Record refresh_inv (U : gset string) (m : gmap string OAuthRefreshToken) : Prop := {
  ri_known : ∀ h t, m !! h = Some t → rt_token_hash t = h ∧ h ∈ U ∧ rt_token_family t ∈ U;
  (** one live token per family *)
  ri_live : ∀ h1 t1 h2 t2, m !! h1 = Some t1 → m !! h2 = Some t2 →
    rt_token_family t1 = rt_token_family t2 → rt_revoked_at t1 = None → rt_revoked_at t2 = None → h1 = h2;
  (** a family is one grant *)
  ri_grant : ∀ h1 t1 h2 t2, m !! h1 = Some t1 → m !! h2 = Some t2 → rt_token_family t1 = rt_token_family t2 →
    rt_user_id t1 = rt_user_id t2 ∧ rt_code_id t1 = rt_code_id t2 ∧ rt_resource t1 = rt_resource t2;
  (** one family per code *)
  ri_minted : ∀ h1 t1 h2 t2 c, m !! h1 = Some t1 → m !! h2 = Some t2 →
    rt_code_id t1 = Some c → rt_code_id t2 = Some c → ¬ personal_code c → rt_token_family t1 = rt_token_family t2;
  ri_code : ∀ h t c, m !! h = Some t → rt_code_id t = Some c → ¬ personal_code c → c ∈ U
}.

Record sessions_inv (U : gset string) (m : gmap string UserRefreshToken) : Prop := {
  si_known : ∀ h t, m !! h = Some t →
    ur_token_hash t = h ∧ h ∈ U ∧ ur_token_family t ∈ U ∧ ur_token_family t ≠ EmptyString;
  si_live : ∀ h1 t1 h2 t2, m !! h1 = Some t1 → m !! h2 = Some t2 → ur_token_family t1 = ur_token_family t2 →
    ur_user_id t1 = ur_user_id t2 ∧ (ur_revoked_at t1 = None → ur_revoked_at t2 = None → h1 = h2)
}.

Record codes_inv (U : gset string) (cs : gmap string OAuthAuthorizationCode) (m : gmap string OAuthRefreshToken)
    : Prop := {
  ci_known : ∀ h c, cs !! h = Some c → ac_code_hash c = h ∧ h ∈ U ∧ ¬ personal_code h;
  (** a code that can be exchanged has minted nothing *)
  ci_unspent : ∀ h c k t, cs !! h = Some c → ac_consumed_at c = None → m !! k = Some t → rt_code_id t ≠ Some h
}.

Record tables_inv (U : gset string) (db : AuthDB) : Prop := {
  ti_refresh : refresh_inv U (refresh_tokens db);
  ti_codes : codes_inv U (codes db) (refresh_tokens db);
  ti_sessions : sessions_inv U (browser_tokens db);
  ti_users : ∀ id u, users db !! id = Some u → u_id u = id ∧ id ∈ U
}.

(** The identifiers of a row are drawn. *)
Ltac drawn := rewrite ?elem_of_union; split_and?; try congruence; eauto with congruence.

Lemma refresh_inv_mono U U' m : U ⊆ U' → refresh_inv U m → refresh_inv U' m.
Proof.
  intros HU [H1 H2 H3 H4 H5]. split; [|done..|].
  - intros h t Ht. destruct (H1 _ _ Ht) as (? & ? & ?). auto.
  - intros h t c Ht Hc Hp. by eapply HU, H5.
Qed.
Lemma sessions_inv_mono U U' m : U ⊆ U' → sessions_inv U m → sessions_inv U' m.
Proof. intros HU [H1 H2]. split; [|done]. intros h t Ht. destruct (H1 _ _ Ht) as (? & ? & ? & ?). auto. Qed.
Lemma codes_inv_mono U U' cs m : U ⊆ U' → codes_inv U cs m → codes_inv U' cs m.
Proof. intros HU [H1 H2]. split; [|done]. intros h t Ht. destruct (H1 _ _ Ht) as (? & ? & ?). auto. Qed.

(** The rows of a smaller table, with what they were. *)
Lemma fewer_row m m' h t' : fewer_refresh m m' → m' !! h = Some t' →
  ∃ t, m !! h = Some t ∧ rt_token_hash t' = rt_token_hash t ∧ rt_user_id t' = rt_user_id t
    ∧ rt_code_id t' = rt_code_id t ∧ rt_token_family t' = rt_token_family t ∧ rt_resource t' = rt_resource t
    ∧ (rt_revoked_at t' = None → rt_revoked_at t = None).
Proof. intros Hm Ht. destruct (Hm _ _ Ht) as (t & H & E & L). exists t. rewrite E. by split_and!. Qed.

Lemma refresh_inv_fewer U m m' : fewer_refresh m m' → refresh_inv U m → refresh_inv U m'.
Proof.
  intros Hm [H1 H2 H3 H4 H5]. split.
  - intros h t' [t (Ht & Eh & _ & _ & Ef & _)]%(fewer_row _ _ _ _ Hm). rewrite Eh, Ef. eauto.
  - intros h1 t1' h2 t2' [t1 (Ht1 & _ & _ & _ & E1 & _ & L1)]%(fewer_row _ _ _ _ Hm)
      [t2 (Ht2 & _ & _ & _ & E2 & _ & L2)]%(fewer_row _ _ _ _ Hm) Hf ? ?.
    eapply H2; eauto; congruence.
  - intros h1 t1' h2 t2' [t1 (Ht1 & _ & U1 & C1 & E1 & R1 & _)]%(fewer_row _ _ _ _ Hm)
      [t2 (Ht2 & _ & U2 & C2 & E2 & R2 & _)]%(fewer_row _ _ _ _ Hm) Hf.
    rewrite U1, U2, C1, C2, R1, R2. eapply H3; eauto; congruence.
  - intros h1 t1' h2 t2' c [t1 (Ht1 & _ & _ & C1 & E1 & _)]%(fewer_row _ _ _ _ Hm)
      [t2 (Ht2 & _ & _ & C2 & E2 & _)]%(fewer_row _ _ _ _ Hm) Hc1 Hc2 Hp.
    rewrite E1, E2. eapply (H4 _ _ _ _ c); eauto; congruence.
  - intros h t' c [t (Ht & _ & _ & C & _)]%(fewer_row _ _ _ _ Hm) Hc Hp. eapply H5; eauto; congruence.
Qed.

(** A token of a new family, with the code of nobody else. *)
Lemma refresh_inv_new U D m t :
  D ## U → rt_token_hash t ∈ D → rt_token_family t ∈ D →
  (∀ c, rt_code_id t = Some c → ¬ personal_code c →
    c ∈ U ∧ ∀ k t', m !! k = Some t' → rt_code_id t' ≠ Some c) →
  refresh_inv U m → refresh_inv (U ∪ D) (<[rt_token_hash t := t]> m).
Proof.
  intros HD Hh Hf Hc [H1 H2 H3 H4 H5].
  assert (Hnew : ∀ k t', m !! k = Some t' → rt_token_family t' ≠ rt_token_family t).
  { intros k t' (_ & _ & Hk)%H1 E. rewrite E in Hk. by apply (HD (rt_token_family t)). }
  split.
  - intros h t'. intros [[<- <-]|[_ Ht]]%lookup_insert_Some; [drawn|]. destruct (H1 _ _ Ht) as (? & ? & ?). drawn.
  - intros h1 t1 h2 t2. intros [[<- <-]|[_ Ht1]]%lookup_insert_Some [[<- <-]|[_ Ht2]]%lookup_insert_Some E; [done|..].
    + by destruct (Hnew _ _ Ht2).
    + by destruct (Hnew _ _ Ht1).
    + by eapply H2.
  - intros h1 t1 h2 t2. intros [[<- <-]|[_ Ht1]]%lookup_insert_Some [[<- <-]|[_ Ht2]]%lookup_insert_Some E; [done|..].
    + by destruct (Hnew _ _ Ht2).
    + by destruct (Hnew _ _ Ht1).
    + by eapply H3.
  - intros h1 t1 h2 t2 c.
    intros [[<- <-]|[_ Ht1]]%lookup_insert_Some [[<- <-]|[_ Ht2]]%lookup_insert_Some Hc1 Hc2 Hp; [done|..].
    + by destruct (proj2 (Hc _ Hc1 Hp) _ _ Ht2).
    + by destruct (proj2 (Hc _ Hc2 Hp) _ _ Ht1).
    + by eapply H4.
  - intros h t' c. intros [[<- <-]|[_ Ht]]%lookup_insert_Some Hc' Hp; apply elem_of_union_l.
    + by apply Hc.
    + by eapply H5.
Qed.

(** The successor of a live token, which is spent. *)
Lemma refresh_inv_rotate U D m now old t :
  D ## U → m !! rt_token_hash old = Some old → rt_revoked_at old = None →
  rt_code_id t = rt_code_id old → rt_user_id t = rt_user_id old → rt_resource t = rt_resource old →
  rt_token_family t = rt_token_family old → rt_token_hash t ∈ D →
  refresh_inv U m → refresh_inv (U ∪ D) (<[rt_token_hash t := t]> (<[rt_token_hash old := spent now old]> m)).
Proof.
  intros HD Hold Hlive Ec Eu Er Ef Hh [H1 H2 H3 H4 H5].
  (* every row is a row of the grant of an old row, and the only live row of the family is new *)
  assert (Hrow : ∀ h t', <[rt_token_hash t := t]> (<[rt_token_hash old := spent now old]> m) !! h = Some t' →
    ∃ k o, m !! k = Some o ∧ rt_token_family t' = rt_token_family o ∧ rt_user_id t' = rt_user_id o
      ∧ rt_code_id t' = rt_code_id o ∧ rt_resource t' = rt_resource o
      ∧ (h = rt_token_hash t ∨ h = k ∧ rt_token_hash t' = rt_token_hash o
          ∧ (rt_revoked_at t' = None → rt_revoked_at o = None ∧ rt_token_family o ≠ rt_token_family old))
      ∧ (h = rt_token_hash t → t' = t)).
  { intros h t'. intros [[<- <-]|[Hn Ht]]%lookup_insert_Some.
    { exists (rt_token_hash old), old. split_and!; try done. by left. }
    apply lookup_insert_Some in Ht as [[<- <-]|[Hno Ht]].
    { exists (rt_token_hash old), old. split_and!; try done. right. by split_and!. }
    exists h, t'. split_and!; try done. right. split_and!; [done..|].
    intros L. split; [done|]. intros E. destruct Hno. eapply H2; eauto. }
  split.
  - intros h t' Ht. destruct (Hrow _ _ Ht) as (k & o & Ho & Hf & _ & _ & _ & [->|(-> & Eh & _)] & Hnew).
    + rewrite Hf. destruct (H1 _ _ Ho) as (_ & _ & ?). rewrite Hnew by done. drawn.
    + rewrite Hf, Eh. destruct (H1 _ _ Ho) as (? & ? & ?). drawn.
  - intros h1 t1 h2 t2 Ht1 Ht2 E L1 L2.
    destruct (Hrow _ _ Ht1) as (k1 & o1 & Ho1 & Hf1 & _ & _ & _ & [->|(-> & _ & Hl1)] & Hn1),
      (Hrow _ _ Ht2) as (k2 & o2 & Ho2 & Hf2 & _ & _ & _ & [->|(-> & _ & Hl2)] & Hn2); [done|..].
    + destruct (Hl2 L2) as [_ []]. specialize (Hn1 eq_refl). congruence.
    + destruct (Hl1 L1) as [_ []]. specialize (Hn2 eq_refl). congruence.
    + eapply H2; eauto; [congruence|by apply Hl1|by apply Hl2].
  - intros h1 t1 h2 t2 (k1 & o1 & Ho1 & F1 & U1 & C1 & R1 & _)%Hrow (k2 & o2 & Ho2 & F2 & U2 & C2 & R2 & _)%Hrow E.
    rewrite U1, U2, C1, C2, R1, R2. eapply H3; eauto; congruence.
  - intros h1 t1 h2 t2 c (k1 & o1 & Ho1 & F1 & _ & C1 & _)%Hrow (k2 & o2 & Ho2 & F2 & _ & C2 & _)%Hrow Hc1 Hc2 Hp.
    rewrite F1, F2. eapply (H4 _ _ _ _ c); eauto; congruence.
  - intros h t' c (k & o & Ho & _ & _ & C & _)%Hrow Hc Hp. apply elem_of_union_l. eapply H5; eauto; congruence.
Qed.

(** Codes, beside the tokens they minted. *)
Lemma codes_inv_fewer U cs cs' m m' :
  fewer_codes cs cs' → fewer_refresh m m' → codes_inv U cs m → codes_inv U cs' m'.
Proof.
  intros Hcs Hm [H1 H2]. split.
  - intros h c' (c & Hc & E & _)%Hcs. rewrite E. exact (H1 _ _ ltac:(eassumption)).
  - intros h c' k t' (c & Hc & _ & L)%Hcs Hn (t & Ht & _ & _ & -> & _)%(fewer_row _ _ _ _ Hm). by eapply H2; eauto.
Qed.

Lemma codes_inv_new U D cs m c :
  D ## U → ac_code_hash c ∈ D → ¬ personal_code (ac_code_hash c) → refresh_inv U m →
  codes_inv U cs m → codes_inv (U ∪ D) (<[ac_code_hash c := c]> cs) m.
Proof.
  intros HD Hh Hp [_ _ _ _ H5] [H1 H2]. split.
  - intros h c'. intros [[<- <-]|[_ Hc]]%lookup_insert_Some; [drawn|]. destruct (H1 _ _ Hc) as (? & ? & ?). drawn.
  - intros h c' k t. intros [[<- <-]|[_ Hc]]%lookup_insert_Some Hn Ht; [|by eapply H2].
    intros E. by apply (HD (ac_code_hash c)); [|eapply H5].
Qed.

Lemma codes_inv_exchange U cs m now c t :
  ac_code_hash c ∈ U → ¬ personal_code (ac_code_hash c) → rt_code_id t = Some (ac_code_hash c) →
  codes_inv U cs m → codes_inv U (<[ac_code_hash c := consumed now c]> cs) (<[rt_token_hash t := t]> m).
Proof.
  intros HU Hp Ec [H1 H2]. split.
  - intros h c'. intros [[<- <-]|[_ Hc]]%lookup_insert_Some; [done|]. by apply H1.
  - intros h c' k t'. intros [[<- <-]|[Hne Hc]]%lookup_insert_Some; [done|]. intros Hn.
    intros [[<- <-]|[_ Ht]]%lookup_insert_Some; [congruence|]. by eapply H2.
Qed.

Lemma codes_inv_rotate U cs m now old t :
  m !! rt_token_hash old = Some old → rt_code_id t = rt_code_id old →
  codes_inv U cs m → codes_inv U cs (<[rt_token_hash t := t]> (<[rt_token_hash old := spent now old]> m)).
Proof.
  intros Hold Ec [H1 H2]. split; [done|]. intros h c k t' Hc Hn.
  intros [[<- <-]|[_ Ht]]%lookup_insert_Some; [rewrite Ec; by eapply H2|].
  apply lookup_insert_Some in Ht as [[<- <-]|[_ Ht]]; [|by eapply H2]. cbn. by eapply H2.
Qed.

Lemma codes_inv_personal U cs m t code_id :
  personal_code code_id → rt_code_id t = Some code_id →
  codes_inv U cs m → codes_inv U cs (<[rt_token_hash t := t]> m).
Proof.
  intros Hp Ec [H1 H2]. split; [done|]. intros h c k t' Hc Hn.
  intros [[<- <-]|[_ Ht]]%lookup_insert_Some; [|by eapply H2]. destruct (H1 _ _ Hc) as (_ & _ & ?). congruence.
Qed.

(** Browser sessions. *)
Lemma sessions_inv_fewer U m m' : fewer_sessions m m' → sessions_inv U m → sessions_inv U m'.
Proof.
  intros Hm [H1 H2]. split.
  - intros h t' (t & Ht & E & _)%Hm. rewrite E. exact (H1 _ _ ltac:(eassumption)).
  - intros h1 t1' h2 t2' (t1 & Ht1 & E1 & L1)%Hm (t2 & Ht2 & E2 & L2)%Hm Hf.
    destruct (H2 _ _ _ _ Ht1 Ht2) as [Hu Hl]; [by rewrite E1, E2 in Hf|]. rewrite E1, E2. split; [done|]. auto.
Qed.

Lemma sessions_inv_new U D m t :
  D ## U → ur_token_hash t ∈ D → ur_token_family t ∈ D → ur_token_family t ≠ EmptyString →
  sessions_inv U m → sessions_inv (U ∪ D) (<[ur_token_hash t := t]> m).
Proof.
  intros HD Hh Hf Hne [H1 H2].
  assert (Hnew : ∀ k t', m !! k = Some t' → ur_token_family t' ≠ ur_token_family t).
  { intros k t' (_ & _ & Hk & _)%H1 E. rewrite E in Hk. by apply (HD (ur_token_family t)). }
  split.
  - intros h t'. intros [[<- <-]|[_ Ht]]%lookup_insert_Some; [drawn|]. destruct (H1 _ _ Ht) as (? & ? & ? & ?). drawn.
  - intros h1 t1 h2 t2. intros [[<- <-]|[_ Ht1]]%lookup_insert_Some [[<- <-]|[_ Ht2]]%lookup_insert_Some E; [done|..].
    + by destruct (Hnew _ _ Ht2).
    + by destruct (Hnew _ _ Ht1).
    + by eapply H2.
Qed.

Lemma sessions_inv_renew U D m now old t :
  D ## U → m !! ur_token_hash old = Some old → ur_revoked_at old = None →
  ur_user_id t = ur_user_id old → ur_token_family t = ur_token_family old → ur_token_hash t ∈ D →
  sessions_inv U m →
  sessions_inv (U ∪ D) (<[ur_token_hash t := t]> (<[ur_token_hash old := signed_out now old]> m)).
Proof.
  intros HD Hold Hlive Eu Ef Hh [H1 H2].
  assert (Hrow : ∀ h t', <[ur_token_hash t := t]> (<[ur_token_hash old := signed_out now old]> m) !! h = Some t' →
    ∃ k o, m !! k = Some o ∧ ur_token_family t' = ur_token_family o ∧ ur_user_id t' = ur_user_id o
      ∧ (h = ur_token_hash t ∧ t' = t ∨ h = k ∧ ur_token_hash t' = ur_token_hash o
          ∧ (ur_revoked_at t' = None → ur_revoked_at o = None ∧ ur_token_family o ≠ ur_token_family old))).
  { intros h t'. intros [[<- <-]|[Hn Ht]]%lookup_insert_Some.
    { exists (ur_token_hash old), old. split_and!; try done. by left. }
    apply lookup_insert_Some in Ht as [[<- <-]|[Hno Ht]].
    { exists (ur_token_hash old), old. split_and!; try done. right. by split_and!. }
    exists h, t'. split_and!; try done. right. split_and!; [done..|].
    intros L. split; [done|]. intros E. destruct Hno. by eapply (H2 _ _ _ _ Hold Ht). }
  split.
  - intros h t' (k & o & Ho & Hf & _ & [[-> ->]|(-> & Eh & _)])%Hrow; destruct (H1 _ _ Ho) as (? & ? & ? & ?).
    + rewrite Hf. drawn.
    + rewrite Hf, Eh. drawn.
  - intros h1 t1 h2 t2 (k1 & o1 & Ho1 & F1 & U1 & Hk1)%Hrow (k2 & o2 & Ho2 & F2 & U2 & Hk2)%Hrow E.
    destruct (H2 _ _ _ _ Ho1 Ho2) as [Hu Hl]; [congruence|]. split; [congruence|]. intros L1 L2.
    destruct Hk1 as [[-> ->]|(-> & _ & Hl1)], Hk2 as [[-> ->]|(-> & _ & Hl2)]; [done|..].
    + destruct (Hl2 L2) as [_ []]. congruence.
    + destruct (Hl1 L1) as [_ []]. congruence.
    + by apply Hl; [apply Hl1|apply Hl2].
Qed.

(** *** Every change keeps the invariant *)
Lemma change_inv U D db db' :
  D ## U → auth_change D db db' → tables_inv U db → tables_inv (U ∪ D) db'.
Proof.
  intros HD Hch [Hr Hc Hs Hu].
  pose proof (refresh_inv_mono U (U ∪ D) _ ltac:(set_solver) Hr) as Hr'.
  pose proof (codes_inv_mono U (U ∪ D) _ _ ltac:(set_solver) Hc) as Hc'.
  pose proof (sessions_inv_mono U (U ∪ D) _ ltac:(set_solver) Hs) as Hs'.
  assert (Hu' : ∀ id u, users db !! id = Some u → u_id u = id ∧ id ∈ U ∪ D).
  { intros id u [? ?]%Hu. drawn. }
  destruct Hch as [[Fr Fc Fs Fu]|c Hh Hn Hp Ec Er Es Eu|now c t Hrow Hn Et Eid Hl Hh Hf Ec Er Es Eu
    |now old t Hold Hlive E1 E2 E3 E4 Hl Hh Er Ec Es Eu|code_id t Hp Ecode Hh Hf Er Ec Es Eu
    |t Hh Hf Hne Es Ec Er Eu|now old t Hold Hlive E1 E2 Hh Es Ec Er Eu];
    split; rewrite ?Er, ?Ec, ?Es, ?Eu; try done.
  - by eapply refresh_inv_fewer.
  - by eapply codes_inv_fewer.
  - by eapply sessions_inv_fewer.
  - intros id u' [[Hid <-]|(u & Hu0 & E & _)]%Fu; [drawn|]. destruct (Hu _ _ Hu0) as [? ?]. drawn.
  - by apply codes_inv_new.
  - apply refresh_inv_new; try done. intros c0 E0 Hp0. rewrite Et in E0. injection E0 as <-.
    destruct (ci_known _ _ _ Hc _ _ Hrow) as (_ & ? & _). split; [done|]. intros k t' Ht. by eapply ci_unspent.
  - destruct (ci_known _ _ _ Hc _ _ Hrow) as (_ & ? & ?). apply codes_inv_exchange; [drawn|done..].
  - by apply refresh_inv_rotate.
  - by apply codes_inv_rotate.
  - apply refresh_inv_new; try done. intros c0 E0 Hp0. rewrite Ecode in E0. by injection E0 as <-.
  - by eapply codes_inv_personal.
  - by apply sessions_inv_new.
  - by apply sessions_inv_renew.
Qed.

Lemma empty_inv : tables_inv ∅ empty_auth_db.
Proof. split; [split|split|split|]; intros *; by rewrite ?lookup_empty. Qed.

(** ** What is spent stays spent *)

(** Where a token of the table comes from. *)
Lemma change_refresh_row U D db db' h t' :
  auth_change D db db' → tables_inv U db → refresh_tokens db' !! h = Some t' →
  (∃ t, refresh_tokens db !! h = Some t ∧ rt_token_family t' = rt_token_family t ∧ rt_code_id t' = rt_code_id t
     ∧ (rt_revoked_at t' = None → rt_revoked_at t = None))
  ∨ (h ∈ D ∧ rt_token_family t' ∈ D ∧ (∀ c, rt_code_id t' = Some c → personal_code c ∨
       ∃ row, codes db !! c = Some row ∧ ac_consumed_at row = None))
  ∨ (h ∈ D ∧ ∃ k o, refresh_tokens db !! k = Some o ∧ rt_revoked_at o = None
       ∧ rt_token_family t' = rt_token_family o ∧ rt_code_id t' = rt_code_id o).
Proof.
  intros Hch Hi Ht.
  destruct Hch as [[Fr _ _ _]|c _ _ _ _ Er _ _|now c t Hrow Hn Et _ _ Hh Hf _ Er _ _
    |now old t Hold Hlive E1 _ _ E4 _ Hh Er _ _ _|code_id t Hp Ecode Hh Hf Er _ _ _
    |t _ _ _ _ _ Er _|now old t _ _ _ _ _ _ _ Er _]; rewrite ?Er in Ht.
  - left. destruct (fewer_row _ _ _ _ Fr Ht) as (t & ? & _ & _ & ? & ? & _ & ?). eauto 10.
  - left. eauto 10.
  - apply lookup_insert_Some in Ht as [[<- <-]|[_ Ht]]; [|left; eauto 10].
    right; left. split_and!; [done..|]. intros c0 E. rewrite Et in E. injection E as <-. eauto.
  - apply lookup_insert_Some in Ht as [[<- <-]|[_ Ht]]; [right; right; eauto 10|]. left.
    apply lookup_insert_Some in Ht as [[<- <-]|[_ Ht]]; eauto 10.
  - apply lookup_insert_Some in Ht as [[<- <-]|[_ Ht]]; [|left; eauto 10].
    right; left. split_and!; [done..|]. intros c0 E. rewrite Ecode in E. injection E as <-. by left.
  - left. eauto 10.
  - left. eauto 10.
Qed.

(** No live token of a family, in a database where all its identifiers are drawn. *)
Definition family_ended (family : string) (U : gset string) (db : AuthDB) : Prop :=
  family ∈ U ∧ ∀ h t, refresh_tokens db !! h = Some t → rt_token_family t = family → rt_revoked_at t ≠ None.

(** A token that cannot be used. *)
Definition token_ended (h : string) (U : gset string) (db : AuthDB) : Prop :=
  h ∈ U ∧ ∀ t, refresh_tokens db !! h = Some t → rt_revoked_at t ≠ None.
Definition session_ended (h : string) (U : gset string) (db : AuthDB) : Prop :=
  h ∈ U ∧ ∀ t, browser_tokens db !! h = Some t → ur_revoked_at t ≠ None.

(** A code that cannot be exchanged. *)
Definition code_ended (h : string) (U : gset string) (db : AuthDB) : Prop :=
  h ∈ U ∧ ∀ c, codes db !! h = Some c → ac_consumed_at c ≠ None.
(** ... and whose tokens cannot be used. *)
Definition code_revoked (h : string) (U : gset string) (db : AuthDB) : Prop :=
  code_ended h U db ∧ ¬ personal_code h
  ∧ ∀ k t, refresh_tokens db !! k = Some t → rt_code_id t = Some h → rt_revoked_at t ≠ None.

(** A user whose epoch has passed [e]. *)
Definition epoch_passed (id : string) (e : Z) (U : gset string) (db : AuthDB) : Prop :=
  id ∈ U ∧ ∀ u, users db !! id = Some u → u_auth_provider u = AuthProvider.BUILTIN ∧ e < u_credential_epoch u.

Section change.
  Context (U D : gset string) (db db' : AuthDB) (HD : D ## U) (Hch : auth_change D db db') (Hi : tables_inv U db).

Lemma family_ended_step family : family_ended family U db → family_ended family (U ∪ D) db'.
Proof.
  intros [HU Hf]. split; [by apply elem_of_union_l|]. intros h t' Ht E L.
  destruct (change_refresh_row _ _ _ _ _ _ Hch Hi Ht) as [(t & Ht0 & Ef & _ & Hl)|[(_ & Hn & _)|(_ & k & o & Ho & Hl & Ef & _)]].
  - eapply (Hf _ _ Ht0); [congruence|auto].
  - apply (HD family); [congruence|done].
  - eapply (Hf _ _ Ho); [congruence|done].
Qed.

Lemma token_ended_step h : token_ended h U db → token_ended h (U ∪ D) db'.
Proof.
  intros [HU Hf]. split; [by apply elem_of_union_l|]. intros t' Ht L.
  destruct (change_refresh_row _ _ _ _ _ _ Hch Hi Ht) as [(t & Ht0 & _ & _ & Hl)|[(Hn & _)|(Hn & _)]];
    [by eapply Hf, Hl|by apply (HD h)..].
Qed.

Lemma session_ended_step h : session_ended h U db → session_ended h (U ∪ D) db'.
Proof.
  intros [HU Hf]. split; [by apply elem_of_union_l|]. intros t' Ht L.
  destruct Hch as [[_ _ Fs _]|c _ _ _ _ _ Es _|now c t _ _ _ _ _ _ _ _ _ Es _
    |now old t _ _ _ _ _ _ _ _ _ _ Es _|code_id t _ _ _ _ _ _ Es _
    |t Hh _ _ Es _ _ _|now old t Hold Hlive _ _ Hh Es _ _ _]; rewrite ?Es in Ht.
  - destruct (Fs _ _ Ht) as (t & Ht0 & _ & Hl). eapply Hf; eauto.
  - by eapply Hf.
  - by eapply Hf.
  - by eapply Hf.
  - by eapply Hf.
  - apply lookup_insert_Some in Ht as [[<- <-]|[_ Ht]]; [by apply (HD (ur_token_hash t))|by eapply Hf].
  - apply lookup_insert_Some in Ht as [[<- <-]|[_ Ht]]; [by apply (HD (ur_token_hash t))|].
    apply lookup_insert_Some in Ht as [[<- <-]|[_ Ht]]; [done|by eapply Hf].
Qed.

Lemma code_ended_step h : code_ended h U db → code_ended h (U ∪ D) db'.
Proof.
  intros [HU Hf]. split; [by apply elem_of_union_l|]. intros c' Hc L.
  destruct Hch as [[_ Fc _ _]|c Hh _ _ Ec _ _ _|now c t _ _ _ _ _ _ _ Ec _ _ _
    |now old t _ _ _ _ _ _ _ _ _ Ec _ _|code_id t _ _ _ _ _ Ec _ _
    |t _ _ _ _ Ec _ _|now old t _ _ _ _ _ _ Ec _ _]; rewrite ?Ec in Hc.
  - destruct (Fc _ _ Hc) as (c & Hc0 & _ & Hl). eapply Hf; eauto.
  - apply lookup_insert_Some in Hc as [[<- <-]|[_ Hc]]; [by apply (HD (ac_code_hash c))|by eapply Hf].
  - apply lookup_insert_Some in Hc as [[<- <-]|[_ Hc]]; [done|by eapply Hf].
  - by eapply Hf.
  - by eapply Hf.
  - by eapply Hf.
  - by eapply Hf.
Qed.

Lemma code_revoked_step h : code_revoked h U db → code_revoked h (U ∪ D) db'.
Proof.
  intros (Hc & Hp & Hf). split_and!; [by apply code_ended_step|done|]. intros k t' Ht E L.
  destruct (change_refresh_row _ _ _ _ _ _ Hch Hi Ht)
    as [(t & Ht0 & _ & Ec & Hl)|[(_ & _ & Hn)|(_ & k' & o & Ho & Hl & _ & Ec)]].
  - eapply (Hf _ _ Ht0); [congruence|auto].
  - destruct (Hn _ E) as [?|(row & Hrow & Hlive)]; [done|]. by eapply Hc.
  - eapply (Hf _ _ Ho); [congruence|done].
Qed.

Lemma epoch_passed_step id e : epoch_passed id e U db → epoch_passed id e (U ∪ D) db'.
Proof.
  intros [HU Hf]. split; [by apply elem_of_union_l|]. intros u' Hu.
  destruct Hch as [[_ _ _ Fu]|c _ _ _ _ _ _ Eu|now c t _ _ _ _ _ _ _ _ _ _ Eu
    |now old t _ _ _ _ _ _ _ _ _ _ _ Eu|code_id t _ _ _ _ _ _ _ Eu
    |t _ _ _ _ _ _ Eu|now old t _ _ _ _ _ _ _ _ Eu]; rewrite ?Eu in Hu; try by apply Hf.
  destruct (Fu _ _ Hu) as [[Hid _]|(u & Hu0 & _ & Ep & He)]; [by destruct (HD id)|].
  destruct (Hf _ Hu0) as [? ?]. split; [congruence|lia].
Qed.
End change.
