(* ===== verification/AuthSystem.v ===== *)
(** * The transactions of authentication, as one system

    An event is one committed transaction of the OAuth server, of the personal
    tokens, of the web console's sessions or of the password mutation, with its
    arguments, its clock and the identifiers it draws, or a write of a user's
    row by the code that is not modelled.  A run draws every identifier once. *)

From S2P Require Import Prelude PyString Models Permission AccessControl Hashing AuthModels.
From S2P Require Import PersonalTokens.
From S2P Require Import OAuthProvider AccessTokens Passwords BrowserSessions AuthRoutes AuthSpec.

Inductive AuthEvent : Type :=
(** [oauth_provider.py] *)
| LoadCode (now : time) (code : string)
| ExchangeCode (now : time) (te : TokenEntropy) (code : AuthorizationCode)
| LoadRefresh (now : time) (token : string)
| RevokeFamily (now : time) (family : string)
| Rotate (now : time) (te : TokenEntropy) (principal : Principal) (rt : RefreshToken) (scopes : list string)
    (checked : option (ExternalTokenSession * ExternalTokenIdentity)) (ttl : option Z)
| RevokeRefresh (now : time) (rt : RefreshToken)
| DenyJti (jti : string) (expires_at : time)
(** [auth_routes.py], [cleanup.py] *)
| StorePending (pending : OAuthPendingAuth)
| LoginCallback (now : time) (code session_id username password : string)
| ConsumePending (session_id : string)
| IssueCode (now : time) (code user_id : string) (pending : OAuthPendingAuth)
| Sweep (now : time)
(** [personal_token_service.py] *)
| IssuePersonal (now : time) (secret family user_id resource : string) (expires_in_days : Z)
| RevokePersonal (now : time) (user_id token_id : string)
(** [credential_mutation.py] *)
| MutatePassword (now : time) (salt : list Z) (user_id : string) (mode : CredentialMutationMode.t)
    (new_password : string) (old_password : option string)
(** [router.py], [user_session.py] *)
| Login (mode : string) (now : time) (se : SessionEntropy) (username password : string)
| RecoveryLogin (mode : string) (now : time) (se : SessionEntropy) (username password : string)
| OpenSession (now : time) (se : SessionEntropy) (user : User)
| Refresh (now : time) (se : SessionEntropy) (token : option string)
| Logout (now : time) (token : option string)
(** users *)
| DisableUsers (now : time) (owned_users : list string)
| SetStatus (user_id : string) (status : UserStatus.t)
| DeleteUser (force : bool) (owned : Z) (has_audit_history : bool) (user_id : string)
| CreateUser (user : User)
| UpdateUser (user : User).

(** The identifiers an event draws: hashes of opaque tokens and codes, families
    and ids of users. *)
Definition draws (ev : AuthEvent) : list string :=
  match ev with
  | ExchangeCode _ te _ | Rotate _ te _ _ _ _ _ => [hash_token (te_refresh_token te); te_token_family te]
  | LoginCallback _ code _ _ _ | IssueCode _ code _ _ => [hash_token code]
  | IssuePersonal _ secret family _ _ _ => [hash_token (TOKEN_PREFIX +:+ secret); family]
  | Login _ _ se _ _ | RecoveryLogin _ _ se _ _ | OpenSession _ se _ | Refresh _ se _ =>
      [hash_token (se_token se); se_family se]
  | CreateUser u => [u_id u]
  | _ => []
  end.

Section system.
  Context (config : OAuthConfig) (jwt_encode : list (string * json) → string) (any_url : string → string).
  Context (ring : JWTKeyRing) (ring_encode : list (string * json) → string → string → option string → string).

(** The transaction of an event. *)
Definition event_db (ev : AuthEvent) (db : AuthDB) : AuthDB :=
  match ev with
  | LoadCode now code => txn_db (load_authorization_code any_url now code) db
  | ExchangeCode now te code => txn_db (exchange_authorization_code config jwt_encode now te code) db
  | LoadRefresh now token => txn_db (load_refresh_token now token) db
  | RevokeFamily now family => txn_db (revoke_token_family now family) db
  | Rotate now te principal rt scopes checked ttl =>
      txn_db (rotate_refresh_token config jwt_encode now te principal rt scopes checked ttl) db
  | RevokeRefresh now rt => txn_db (revoke_refresh_token now rt) db
  | DenyJti jti e => txn_db (deny_jti jti e) db
  | StorePending p => db <| pending_auths := <[pa_session_id p := p]> (pending_auths db) |>
  | LoginCallback now code sid username password => txn_db (handle_login_callback now code sid username password) db
  | ConsumePending sid => delete_pending sid db
  | IssueCode now code user_id p => txn_db (insert_code (code_record now code user_id p) ;; commit) db
  | Sweep now => txn_db (sweep_expired_oauth_rows now) db
  | IssuePersonal now secret family user_id resource n =>
      txn_db (issue_personal_token now secret family user_id resource n) db
  | RevokePersonal now user_id token_id => txn_db (revoke_personal_token now user_id token_id) db
  | MutatePassword now salt user_id mode new old =>
      txn_db (mutate_builtin_password_in_session now salt user_id mode new old ;; commit) db
  | Login mode now se username password => txn_db (login ring ring_encode mode now se username password) db
  | RecoveryLogin mode now se username password =>
      txn_db (recovery_login ring ring_encode mode now se username password) db
  | OpenSession now se user => txn_db (issue_browser_session ring ring_encode now se user ;; commit) db
  | Refresh now se token => txn_db (refresh ring ring_encode now se token) db
  | Logout now token => txn_db (logout now token) db
  | DisableUsers now ids => txn_db (disable_source_owned_users now ids ;; commit) db
  | SetStatus user_id status => txn_db (set_user_status user_id status) db
  | DeleteUser force owned has_audit_history user_id => txn_db (delete_user force owned has_audit_history user_id) db
  | CreateUser u | UpdateUser u => put_user u db
  end.

(** What the writes of users' rows elsewhere keep: the provider and the epoch;
    and the families drawn for sessions are not empty. *)
Definition event_ok (ev : AuthEvent) (db : AuthDB) : Prop :=
  match ev with
  | UpdateUser u => ∃ u0, users db !! u_id u = Some u0 ∧ u_auth_provider u = u_auth_provider u0
      ∧ u_credential_epoch u = u_credential_epoch u0
  | Login _ _ se _ _ | RecoveryLogin _ _ se _ _ | OpenSession _ se _ | Refresh _ se _ => se_family se ≠ EmptyString
  | _ => True
  end.

(** ** Every transaction is a change of the tables *)

(** The hash of a token is hexadecimal, so it is no code id of a personal token. *)
Lemma be_bytes_range n x : Forall (λ b, 0 ≤ b < 256) (be_bytes n x).
Proof.
  apply Forall_forall. intros b. unfold be_bytes. rewrite list_elem_of_In. intros Hb%in_rev.
  apply list_elem_of_In, list_elem_of_fmap in Hb as (i & -> & _).
  change 255 with (Z.ones 8). rewrite Z.land_ones by lia. apply Z.mod_pos_bound. lia.
Qed.

Lemma sha256_range msg : Forall (λ b, 0 ≤ b < 256) (sha256 msg).
Proof.
  unfold sha256. generalize (fold_left compress (blocks (length (words (sha256_pad msg))) (words (sha256_pad msg))) sha256_h0).
  intros l. induction l as [|x l IH]; cbn [fmap list_fmap mjoin list_join]; [done|].
  apply Forall_app. split; [apply be_bytes_range|done].
Qed.

Lemma starts_with_head a p b s : starts_with (String a p) (String b s) = true → a = b.
Proof. unfold starts_with. cbn. by destruct (Ascii.eqb_spec a b). Qed.

Lemma hex_digit_not_p n : (n < 16)%nat → hex_digit n ≠ "p"%char.
Proof. intros Hn E. do 16 (destruct n as [|n]; [discriminate E|]). lia. Qed.

Lemma hash_not_personal token : ¬ personal_code (hash_token token).
Proof.
  unfold personal_code, hash_token, sha256_hex, hexdigest. pose proof (sha256_range (utf8 token)) as Hr.
  destruct (sha256 (utf8 token)) as [|b l]; [done|]. apply Forall_cons in Hr as [Hb _]. cbn [foldr].
  intros E%starts_with_head. symmetry in E. revert E. apply hex_digit_not_p.
  pose proof (Z.div_lt_upper_bound b 16 16). lia.
Qed.

Lemma epoch_code_personal u : personal_code (epoch_code u).
Proof. reflexivity. Qed.
(** A transaction that commits nothing of the tables of credentials. *)
Ltac unchanged := by apply change_none.
(** ... or spends some of them. *)
Ltac spends :=
  apply change_fewer; split;
  first [apply fewer_refresh_refl | apply fewer_refresh_spend | apply fewer_codes_refl | apply fewer_codes_spend
        | apply fewer_sessions_refl | apply fewer_sessions_spend | apply users_change_refl
        | apply fewer_refresh_filter | apply fewer_codes_filter | apply fewer_sessions_filter | idtac].

(** Run a transaction of an event branch by branch. *)
Ltac run_event := unfold txn_db, with_session, open_session; run_branches; try unchanged.

(** A user who ever used the OAuth server or a personal token cannot be deleted
    while a row of theirs is kept. *)
Lemma delete_user_refused force user_id user db :
  users db !! user_id = Some user → refers_to_user user_id db = true →
  with_session (delete_user force 0 false user_id) db = (db, Raise IntegrityError).
Proof.
  intros Hu Hr. unfold with_session, open_session, delete_user. run_branches; try congruence.
  - discriminate.
  - match goal with H : refers_to_user _ _ = false |- _ => change (refers_to_user user_id db = false) in H end. congruence.
Qed.

(** A transaction of one statement. *)
Lemma write_commit (f : AuthDB → AuthDB) db : txn_db (execute f ;; commit) db = f db.
Proof. reflexivity. Qed.
Lemma write_commit' (f : AuthDB → AuthDB) db :
  (let (s, o) := (execute f ;; commit) (mk_session db db false []) in (committed s, o)).1 = f db.
Proof. reflexivity. Qed.

Section changes.
  Context (U D : gset string) (db : AuthDB) (Hi : tables_inv U db).

Lemma user_row id u : users db !! id = Some u → u_id u = id.
Proof. intros Hu. by apply (ti_users _ _ Hi) in Hu as [? _]. Qed.
Lemma code_row h c : codes db !! h = Some c → ac_code_hash c = h.
Proof. intros Hc. by apply (ci_known _ _ _ (ti_codes _ _ Hi)) in Hc as [? _]. Qed.
Lemma refresh_row h t : refresh_tokens db !! h = Some t → rt_token_hash t = h.
Proof. intros Ht. by apply (ri_known _ _ (ti_refresh _ _ Hi)) in Ht as [? _]. Qed.
Lemma session_row h t : browser_tokens db !! h = Some t → ur_token_hash t = h.
Proof. intros Ht. by apply (si_known _ _ (ti_sessions _ _ Hi)) in Ht as [? _]. Qed.

Lemma load_code_change now code : auth_change D db (txn_db (load_authorization_code any_url now code) db).
Proof. unfold load_authorization_code, revoke_minted. run_event. spends. Qed.

Lemma load_refresh_change now token : auth_change D db (txn_db (load_refresh_token now token) db).
Proof. unfold load_refresh_token, end_family, revoke_refresh, revoke_external. run_event. spends. Qed.

Lemma revoke_family_change now family : auth_change D db (txn_db (revoke_token_family now family) db).
Proof. unfold revoke_token_family, end_family, revoke_refresh, revoke_external. run_event. spends. Qed.

Lemma revoke_token_change now rt : auth_change D db (txn_db (revoke_refresh_token now rt) db).
Proof. unfold revoke_refresh_token, end_family, revoke_refresh, revoke_external. run_event. spends. Qed.

Lemma deny_change jti e : auth_change D db (txn_db (deny_jti jti e) db).
Proof.
  unfold deny_jti. rewrite write_commit. destruct (denied_jtis db !! jti); unchanged.
Qed.

Lemma exchange_code_change now te code :
  hash_token (te_refresh_token te) ∈ D → te_token_family te ∈ D →
  auth_change D db (txn_db (exchange_authorization_code config jwt_encode now te code) db).
Proof.
  intros Hh Hf. unfold exchange_authorization_code, insert_refresh, revoke_minted. run_event.
  - spends.
  - pose proof (user_row _ _ Heqo0) as Eu. pose proof (code_row _ _ Heqo1) as Ec. guards.
    match goal with |- auth_change _ _ (put_refresh ?t _) => apply (change_exchange _ _ _ now o t) end;
      cbn; try done; congruence.
Qed.

Lemma rotate_change now te principal rt scopes checked ttl :
  hash_token (te_refresh_token te) ∈ D →
  auth_change D db (txn_db (rotate_refresh_token config jwt_encode now te principal rt scopes checked ttl) db).
Proof.
  intros Hh. unfold rotate_refresh_token, insert_refresh, touch_external_session, end_family, revoke_refresh, revoke_external.
  run_event; [spends|..].
  all: pose proof (user_row _ _ Heqo) as Eu; pose proof (refresh_row _ _ Heqo0) as Er; guards.
  all: apply (change_rotate _ _ _ now o (rotated config now te rt scopes u o)); cbn; try done; congruence.
Qed.

Lemma pending_change p : auth_change D db (event_db (StorePending p) db).
Proof. unchanged. Qed.
Lemma consume_change sid : auth_change D db (event_db (ConsumePending sid) db).
Proof. unchanged. Qed.

(** A new code, alone or with the deletion of its pending authorization. *)
Lemma code_put_change now code user_id pending db' :
  hash_token code ∈ D → codes db' = codes (put_code (code_record now code user_id pending) db) →
  refresh_tokens db' = refresh_tokens db → browser_tokens db' = browser_tokens db → users db' = users db →
  auth_change D db db'.
Proof.
  intros Hh Hc Hr Hb Hu. apply (change_code _ _ _ (code_record now code user_id pending)); try done.
  apply hash_not_personal.
Qed.

Lemma issue_code_change now code user_id pending :
  hash_token code ∈ D → auth_change D db (event_db (IssueCode now code user_id pending) db).
Proof. intros Hh. cbn [event_db]. unfold insert_code. run_event. by eapply code_put_change. Qed.

Lemma login_callback_change now code sid username password :
  hash_token code ∈ D → auth_change D db (txn_db (handle_login_callback now code sid username password) db).
Proof.
  intros Hh. unfold handle_login_callback, authenticate_builtin, insert_code. run_event. by eapply code_put_change.
Qed.

Lemma personal_issue_change now secret family user_id resource n :
  hash_token (TOKEN_PREFIX +:+ secret) ∈ D → family ∈ D →
  auth_change D db (txn_db (issue_personal_token now secret family user_id resource n) db).
Proof.
  intros Hh Hf. unfold issue_personal_token, issue, insert_refresh, try_except. run_event.
  match goal with |- auth_change _ _ (put_refresh ?t _) => by apply (change_personal _ _ _ (epoch_code u) t) end.
Qed.

Lemma personal_row_found user_id token_id o l :
  filter (λ t, personal_row user_id token_id t = true) (map_to_list (refresh_tokens db)).*2 = o :: l →
  personal_row user_id token_id o = true ∧ refresh_tokens db !! rt_token_hash o = Some o.
Proof.
  intros Hl. assert (o ∈ o :: l) as Ho by apply list_elem_of_here. rewrite <-Hl in Ho.
  apply list_elem_of_filter in Ho as [? ([k o'] & -> & Ho)%list_elem_of_fmap]. apply elem_of_map_to_list in Ho.
  split; [done|]. cbn. by rewrite (refresh_row _ _ Ho).
Qed.

Lemma personal_revoke_change now user_id token_id :
  auth_change D db (txn_db (revoke_personal_token now user_id token_id) db).
Proof.
  unfold revoke_personal_token, revoke, try_except. run_event.
  destruct (personal_row_found _ _ _ _ Heql) as [_ Ho]. apply change_fewer.
  split; [by apply (fewer_refresh_put _ o)|apply fewer_codes_refl|apply fewer_sessions_refl|apply users_change_refl].
Qed.

Lemma sweep_change now : auth_change D db (txn_db (sweep_expired_oauth_rows now) db).
Proof. unfold sweep_expired_oauth_rows. run_event. spends. Qed.

Lemma mutate_change now salt user_id mode new old :
  auth_change D db (txn_db (mutate_builtin_password_in_session now salt user_id mode new old ;; commit) db).
Proof.
  unfold mutate_builtin_password_in_session. run_event. spends.
  pose proof (user_row _ _ Heqo) as Eu. apply (users_change_put _ _ u (new_credential salt new u)); cbn; [congruence|done..|lia].
Qed.

(** A session opened by a login. *)
Lemma session_put_change now se user_id db' :
  hash_token (se_token se) ∈ D → se_family se ∈ D → se_family se ≠ EmptyString →
  browser_tokens db' = browser_tokens (put_browser_token (refresh_record ring now se user_id None) db) →
  refresh_tokens db' = refresh_tokens db → codes db' = codes db → users db' = users db →
  auth_change D db db'.
Proof. intros Hh Hf Hne Hb Hr Hc Hu. by apply (change_session _ _ _ (refresh_record ring now se user_id None)). Qed.

Lemma login_change mode now se username password :
  hash_token (se_token se) ∈ D → se_family se ∈ D → se_family se ≠ EmptyString →
  auth_change D db (txn_db (login ring ring_encode mode now se username password) db).
Proof.
  intros Hh Hf Hne.
  unfold login, authenticate_builtin, issue_browser_session, create_refresh_record, insert_browser_token.
  run_event. by eapply session_put_change.
Qed.

Lemma recovery_change mode now se username password :
  hash_token (se_token se) ∈ D → se_family se ∈ D → se_family se ≠ EmptyString →
  auth_change D db (txn_db (recovery_login ring ring_encode mode now se username password) db).
Proof.
  intros Hh Hf Hne.
  unfold recovery_login, authenticate_builtin, issue_browser_session, create_refresh_record, insert_browser_token.
  run_event. by eapply session_put_change.
Qed.

Lemma open_session_change now se user :
  hash_token (se_token se) ∈ D → se_family se ∈ D → se_family se ≠ EmptyString →
  auth_change D db (txn_db (issue_browser_session ring ring_encode now se user ;; commit) db).
Proof.
  intros Hh Hf Hne. unfold issue_browser_session, create_refresh_record, insert_browser_token.
  run_event. by eapply session_put_change.
Qed.

Lemma logout_change now token : auth_change D db (txn_db (logout now token) db).
Proof. unfold logout, revoke_browser. run_event. rewrite write_commit'. spends. Qed.

Lemma session_refresh_change now se token :
  hash_token (se_token se) ∈ D →
  auth_change D db (txn_db (refresh ring ring_encode now se token) db).
Proof.
  intros Hh. unfold refresh, create_refresh_record, insert_browser_token, revoke_browser. run_event; [spends|].
  injection Heqo as <-. pose proof (user_row _ _ Heqo0) as Eu. pose proof (session_row _ _ Heqo1) as Es. guards.
  destruct (si_known _ _ (ti_sessions _ _ Hi) _ _ Heqo1) as (_ & _ & _ & Hne).
  apply (change_renew _ _ _ now u0 (refresh_record ring now se (u_id u) (Some (ur_token_family u0)))); cbn;
    try done; [congruence|]. by destruct (ur_token_family u0).
Qed.

Lemma users_only_change db' :
  refresh_tokens db' = refresh_tokens db → codes db' = codes db → browser_tokens db' = browser_tokens db →
  users_change D (users db) (users db') → auth_change D db db'.
Proof. intros Hr Hc Hb Hu. apply change_fewer. split; rewrite ?Hr, ?Hc, ?Hb; eauto with pas. Qed.

Lemma disable_change now ids : auth_change D db (txn_db (disable_source_owned_users now ids ;; commit) db).
Proof.
  unfold disable_source_owned_users, revoke_browser, revoke_refresh, revoke_external. run_event. spends.
  intros id u' Hu. change (((λ u, if bool_decide (u_id u ∈ ids) then u <| u_status := UserStatus.DISABLED |> else u)
    <$> users db) !! id = Some u') in Hu.
  rewrite lookup_fmap in Hu. destruct (users db !! id) as [u|]; [|done]. injection Hu as <-. right.
  exists u. by case_match.
Qed.

Lemma set_status_change user_id status : auth_change D db (txn_db (set_user_status user_id status) db).
Proof.
  unfold set_user_status. run_event. apply users_only_change; try done.
  pose proof (user_row _ _ Heqo) as Eu. by apply (users_change_put _ _ u (u <| u_status := status |>)); cbn; [congruence|..].
Qed.

Lemma delete_user_change force owned has_audit_history user_id :
  auth_change D db (txn_db (delete_user force owned has_audit_history user_id) db).
Proof.
  unfold delete_user. run_event. apply change_fewer.
  split; [apply fewer_refresh_refl|apply fewer_codes_refl|apply fewer_sessions_filter|].
  intros id u' Hu. change (delete user_id (users db) !! id = Some u') in Hu.
  apply lookup_delete_Some in Hu as [_ Hu]. by apply users_change_refl.
Qed.

Lemma create_user_change u : u_id u ∈ D → auth_change D db (put_user u db).
Proof.
  intros Hu. apply users_only_change; try done. intros id u'. cbn.
  intros [[<- <-]|[_ H]]%lookup_insert_Some; [by left|]. by apply users_change_refl.
Qed.

Lemma update_user_change u : event_ok (UpdateUser u) db → auth_change D db (put_user u db).
Proof.
  intros (u0 & Hu & Hp & He). apply users_only_change; try done.
  apply (users_change_put _ _ u0); [done|by apply user_row|done|]. by rewrite He.
Qed.
End changes.

(** Every event is a change of the tables that draws its identifiers. *)
Lemma event_change U db ev :
  tables_inv U db → event_ok ev db → auth_change (list_to_set (draws ev)) db (event_db ev db).
Proof.
  intros Hi Hok. destruct ev; cbn [event_db]; eauto 2 using load_code_change, load_refresh_change, revoke_family_change,
    revoke_token_change, deny_change, pending_change, consume_change, personal_revoke_change, sweep_change,
    mutate_change, logout_change, disable_change, set_status_change, delete_user_change, update_user_change.
  - eapply exchange_code_change; [done|set_solver..].
  - eapply rotate_change; [done|set_solver..].
  - apply login_callback_change. set_solver.
  - apply issue_code_change. set_solver.
  - apply personal_issue_change; set_solver.
  - apply login_change; [set_solver..|done].
  - apply recovery_change; [set_solver..|done].
  - apply open_session_change; [set_solver..|done].
  - eapply session_refresh_change; [done|set_solver].
  - apply create_user_change. set_solver.
Qed.
(** The database with the identifiers drawn so far. *)
Record AuthState : Type := mk_auth_state { drawn_ids : gset string; tables : AuthDB }.

Inductive auth_step (st : AuthState) : AuthState → Prop :=
| step_event ev :
    NoDup (draws ev) → (∀ x, x ∈ draws ev → x ∉ drawn_ids st) → event_ok ev (tables st) →
    auth_step st (mk_auth_state (drawn_ids st ∪ list_to_set (draws ev)) (event_db ev (tables st))).

Definition auth_start : AuthState := mk_auth_state ∅ empty_auth_db.
Definition auth_reachable (st : AuthState) : Prop := rtc auth_step auth_start st.
End system.
