(* ===== verification/AuthTheorems.v ===== *)
(** * What the authentication tables guarantee

    Refresh tokens and codes are used once, a replay ends its grant for good, a
    changed password ends every older credential.  [JwtLaws] is what the provider
    relies on of PyJWT: a token the provider issues is accepted as the grant it
    was issued for, and a revoked one is never accepted again. *)

From S2P Require Import Prelude Models PyString Dispatcher Permission Hashing AccessControl.
From S2P Require Import AuthModels PersonalTokens OAuthProvider AccessTokens Passwords.
From S2P Require Import BrowserSessions AuthRoutes AuthSpec AuthSystem.

Section theorems.
  Context (config : OAuthConfig) (jwt_encode : list (string * json) → string) (any_url : string → string).
  Context (ring : JWTKeyRing) (ring_encode : list (string * json) → string → string → option string → string).

Abbreviation step := (auth_step config jwt_encode any_url ring ring_encode).
Abbreviation reachable := (auth_reachable config jwt_encode any_url ring ring_encode).
Abbreviation event := (event_db config jwt_encode any_url ring ring_encode).

Lemma step_change st st' : step st st' → tables_inv (drawn_ids st) (tables st) →
  ∃ D, D ## drawn_ids st ∧ drawn_ids st' = drawn_ids st ∪ D ∧ auth_change D (tables st) (tables st').
Proof.
  intros [ev Hnd Hfresh Hok] Hi. exists (list_to_set (draws ev)). split_and!; [|done|by eapply event_change].
  intros x Hx. apply elem_of_list_to_set in Hx. by apply Hfresh.
Qed.

Lemma step_inv st st' : step st st' → tables_inv (drawn_ids st) (tables st) → tables_inv (drawn_ids st') (tables st').
Proof. intros Hs Hi. destruct (step_change _ _ Hs Hi) as (D & HD & -> & Hch). by eapply change_inv. Qed.

Lemma later_inv st st' : rtc step st st' → tables_inv (drawn_ids st) (tables st) → tables_inv (drawn_ids st') (tables st').
Proof. induction 1; eauto using step_inv. Qed.

Lemma auth_reachable_inv st : reachable st → tables_inv (drawn_ids st) (tables st).
Proof. intros Hr. eapply later_inv; [exact Hr|apply empty_inv]. Qed.

(** A property of the tables that every change keeps holds in every later state. *)
Lemma later_stable (P : gset string → AuthDB → Prop) st st' :
  (∀ U D db db', D ## U → auth_change D db db' → tables_inv U db → P U db → P (U ∪ D) db') →
  rtc step st st' → tables_inv (drawn_ids st) (tables st) →
  P (drawn_ids st) (tables st) → P (drawn_ids st') (tables st').
Proof.
  intros HP. induction 1 as [|st1 st2 st3 Hs _ IH]; [done|]. intros Hi H1. apply IH; [by eapply step_inv|].
  destruct (step_change _ _ Hs Hi) as (D & HD & -> & Hch). by apply (HP _ _ _ _ HD Hch).
Qed.

(** C7: Opaque credentials are used once.  In every state the OAuth server and
    the web console reach, a family of refresh tokens has at most one that is
    not revoked, its tokens are one grant (same user, code and resource); a code
    that can still be exchanged has minted no token, and the unrevoked tokens
    minted from one code are one token; a family of browser tokens has one user
    and at most one that is not revoked. *)
Theorem credentials_single_use st : reachable st →
  (∀ h1 t1 h2 t2, refresh_tokens (tables st) !! h1 = Some t1 → refresh_tokens (tables st) !! h2 = Some t2 →
     rt_token_family t1 = rt_token_family t2 →
     rt_user_id t1 = rt_user_id t2 ∧ rt_code_id t1 = rt_code_id t2 ∧ rt_resource t1 = rt_resource t2
     ∧ (rt_revoked_at t1 = None → rt_revoked_at t2 = None → h1 = h2))
  ∧ (∀ h c, codes (tables st) !! h = Some c →
     (ac_consumed_at c = None → ∀ k t, refresh_tokens (tables st) !! k = Some t → rt_code_id t ≠ Some h)
     ∧ ∀ k1 t1 k2 t2, refresh_tokens (tables st) !! k1 = Some t1 → refresh_tokens (tables st) !! k2 = Some t2 →
         rt_code_id t1 = Some h → rt_code_id t2 = Some h →
         rt_revoked_at t1 = None → rt_revoked_at t2 = None → k1 = k2)
  ∧ (∀ h1 t1 h2 t2, browser_tokens (tables st) !! h1 = Some t1 → browser_tokens (tables st) !! h2 = Some t2 →
     ur_token_family t1 = ur_token_family t2 →
     ur_user_id t1 = ur_user_id t2 ∧ (ur_revoked_at t1 = None → ur_revoked_at t2 = None → h1 = h2)).
Proof.
  intros Hr. destruct (auth_reachable_inv _ Hr) as [[_ Hlive Hgrant Hmint _] [Hck Hcu] [_ Hsess] _]. split_and!.
  - intros h1 t1 h2 t2 H1 H2 E. destruct (Hgrant _ _ _ _ H1 H2 E) as (? & ? & ?). split_and!; eauto.
  - intros h c Hc. split; [intros; by eapply Hcu|]. intros k1 t1 k2 t2 H1 H2 E1 E2 L1 L2.
    destruct (Hck _ _ Hc) as (_ & _ & Hp). eapply Hlive; eauto.
  - exact Hsess.
Qed.

(** ** Replays *)

Lemma load_ended now token U db : token_ended (hash_token token) U db → txn_out (load_refresh_token now token) db = Ret None.
Proof.
  intros [_ He]. unfold load_refresh_token, txn_out, with_session, open_session. destruct (starts_with TOKEN_PREFIX token); [done|].
  rewrite run_query_begin. destruct (refresh_tokens db !! hash_token token) as [t|] eqn:Ht; [|done].
  rewrite bool_decide_eq_false_2 by (by apply He). done.
Qed.

Lemma load_code_ended now code U db :
  code_ended (hash_token code) U db → txn_out (load_authorization_code any_url now code) db = Ret None.
Proof.
  intros [_ He]. unfold load_authorization_code, txn_out, with_session, open_session.
  rewrite run_query_begin. destruct (codes db !! hash_token code) as [c|] eqn:Hc; [|done].
  rewrite bool_decide_eq_false_2 by (by apply He). done.
Qed.

(** The tables after a spent token or a consumed code was presented. *)
Lemma load_spent_ends now token t U db :
  tables_inv U db → starts_with TOKEN_PREFIX token = false →
  refresh_tokens db !! hash_token token = Some t → rt_revoked_at t ≠ None →
  family_ended (rt_token_family t) U (txn_db (load_refresh_token now token) db).
Proof.
  intros Hi Hp Ht Hr. split; [by apply (ri_known _ _ (ti_refresh _ _ Hi) _ _ Ht)|].
  unfold load_refresh_token, txn_db, with_session, open_session, end_family, revoke_refresh. rewrite Hp, run_query_begin, Ht.
  rewrite (bool_decide_eq_false_2 (rt_revoked_at t = None)) by done.
  cbn [negb]. autorewrite with pas_txn. cbn -[update_where]. intros h t'. unfold update_where.
  rewrite lookup_fmap. destruct (refresh_tokens db !! h) as [t0|]; [|done]. intros [= <-]. unfold in_family.
  destruct (String.eqb_spec (rt_token_family t0) (rt_token_family t)) as [E|Hne]; cbn [andb]; [|by intros E].
  destruct (rt_revoked_at t0) eqn:E0; cbn; congruence.
Qed.

Lemma load_consumed_ends now code c U db :
  tables_inv U db → codes db !! hash_token code = Some c → ac_consumed_at c ≠ None →
  code_revoked (hash_token code) U (txn_db (load_authorization_code any_url now code) db).
Proof.
  intros Hi Hc Hn. destruct (ci_known _ _ _ (ti_codes _ _ Hi) _ _ Hc) as (_ & HU & Hp).
  unfold load_authorization_code, txn_db, with_session, open_session, revoke_minted. rewrite run_query_begin, Hc.
  rewrite (bool_decide_eq_false_2 (ac_consumed_at c = None)) by done.
  cbn [negb]. autorewrite with pas_txn. cbn -[update_where]. split_and!; [split; [done|]|done|]; cbn -[update_where].
  - intros c'. rewrite Hc. by intros [= <-].
  - intros k t. unfold update_where. rewrite lookup_fmap. destruct (refresh_tokens db !! k) as [t0|]; [|done].
    intros [= <-]. destruct (bool_decide_reflect (rt_code_id t0 = Some (hash_token code))); cbn; congruence.
Qed.

(** C16: A replay ends the grant for good.  When a refresh token that was already
    used (or revoked) is presented to [load_refresh_token], the answer is none,
    and in every later state no token of its family is unrevoked, so that
    presenting any of them gives nothing; when a consumed authorization code is
    presented, the answer is none, and in every later state no token minted
    from it is unrevoked and the code itself gives nothing. *)
Theorem replay_ends_grant st : reachable st →
  (∀ now token t, starts_with TOKEN_PREFIX token = false →
     refresh_tokens (tables st) !! hash_token token = Some t → rt_revoked_at t ≠ None →
     txn_out (load_refresh_token now token) (tables st) = Ret None
     ∧ ∀ st', rtc step (mk_auth_state (drawn_ids st) (event (LoadRefresh now token) (tables st))) st' →
       ∀ h t', refresh_tokens (tables st') !! h = Some t' → rt_token_family t' = rt_token_family t →
         rt_revoked_at t' ≠ None
         ∧ ∀ now' token', hash_token token' = h → txn_out (load_refresh_token now' token') (tables st') = Ret None)
  ∧ (∀ now code c, codes (tables st) !! hash_token code = Some c → ac_consumed_at c ≠ None →
     txn_out (load_authorization_code any_url now code) (tables st) = Ret None
     ∧ ∀ st', rtc step (mk_auth_state (drawn_ids st) (event (LoadCode now code) (tables st))) st' →
       (∀ h t', refresh_tokens (tables st') !! h = Some t' → rt_code_id t' = Some (hash_token code) →
          rt_revoked_at t' ≠ None)
       ∧ ∀ now', txn_out (load_authorization_code any_url now' code) (tables st') = Ret None).
Proof.
  intros Hr. pose proof (auth_reachable_inv _ Hr) as Hi. split.
  - intros now token t Hp Ht Hn. split.
    { apply (load_ended _ _ (drawn_ids st)). split; [by apply (ri_known _ _ (ti_refresh _ _ Hi) _ _ Ht)|].
      intros t0. rewrite Ht. by intros [= <-]. }
    intros st' Hs h t' Ht' Ef.
    assert (tables_inv (drawn_ids st) (event (LoadRefresh now token) (tables st))) as Hi1.
    { eapply (change_inv _ ∅) in Hi; [|done|apply (load_refresh_change _ _ now token)]. by rewrite union_empty_r_L in Hi. }
    destruct (later_stable _ _ _ (λ _ _ _ _ HD Hch Hi, family_ended_step _ _ _ _ HD Hch Hi (rt_token_family t)) Hs Hi1)
      as [_ He]; [by apply load_spent_ends|].
    split; [by eapply He|]. intros now' token' <-. apply (load_ended _ _ (drawn_ids st')).
    split; [|intros t0; rewrite Ht'; intros [= <-]; by eapply He].
    by apply (ri_known _ _ (ti_refresh _ _ (later_inv _ _ Hs Hi1)) _ _ Ht').
  - intros now code c Hc Hn. split.
    { apply (load_code_ended _ _ (drawn_ids st)). split; [by apply (ci_known _ _ _ (ti_codes _ _ Hi) _ _ Hc)|].
      intros c0. rewrite Hc. by intros [= <-]. }
    intros st' Hs.
    assert (tables_inv (drawn_ids st) (event (LoadCode now code) (tables st))) as Hi1.
    { eapply (change_inv _ ∅) in Hi; [|done|apply (load_code_change any_url _ _ now code)]. by rewrite union_empty_r_L in Hi. }
    destruct (later_stable _ _ _ (λ _ _ _ _ HD Hch Hi, code_revoked_step _ _ _ _ HD Hch Hi (hash_token code)) Hs Hi1)
      as (Hce & _ & He); [by eapply load_consumed_ends|].
    split; [exact He|]. intros now'. by apply (load_code_ended _ _ (drawn_ids st')).
Qed.
(** ** Changed passwords *)

Lemma mutate_result now salt uid mode new old db u :
  users db !! uid = Some u →
  txn_out (mutate_builtin_password_in_session now salt uid mode new old ;; commit) db = Ret tt →
  u_auth_provider u = AuthProvider.BUILTIN
  ∧ txn_db (mutate_builtin_password_in_session now salt uid mode new old ;; commit) db
    = end_credentials (u_id u) now (put_user (new_credential salt new u) db).
Proof.
  intros Hu. unfold mutate_builtin_password_in_session, txn_out, txn_db, with_session, open_session.
  rewrite !run_assoc, !run_query_begin, Hu. run_branches; try discriminate. guards. done.
Qed.

Lemma end_credentials_tokens uid now db h t t' :
  refresh_tokens db !! h = Some t → rt_user_id t = uid →
  refresh_tokens (end_credentials uid now db) !! h = Some t' → rt_revoked_at t' ≠ None.
Proof.
  intros Ht <-. unfold end_credentials, revoke_refresh, revoke_browser, update_where. cbn -[fmap]. rewrite lookup_fmap, Ht.
  intros [= <-]. rewrite String.eqb_refl. destruct (rt_revoked_at t) eqn:E; cbn; congruence.
Qed.

Lemma end_credentials_sessions uid now db h t t' :
  browser_tokens db !! h = Some t → ur_user_id t = uid →
  browser_tokens (end_credentials uid now db) !! h = Some t' → ur_revoked_at t' ≠ None.
Proof.
  intros Ht <-. unfold end_credentials, revoke_refresh, revoke_browser, update_where. cbn -[fmap]. rewrite lookup_fmap, Ht.
  intros [= <-]. rewrite String.eqb_refl. destruct (ur_revoked_at t) eqn:E; cbn; congruence.
Qed.

Lemma end_credentials_codes uid now db h t t' :
  codes db !! h = Some t → ac_user_id t = uid →
  codes (end_credentials uid now db) !! h = Some t' → ac_consumed_at t' ≠ None.
Proof.
  intros Ht <-. unfold end_credentials, revoke_refresh, revoke_browser, update_where. cbn -[fmap]. rewrite lookup_fmap, Ht.
  intros [= <-]. rewrite String.eqb_refl. destruct (ac_consumed_at t) eqn:E; cbn; congruence.
Qed.

(** What an ended credential gives. *)
Lemma resolve_ended now token U db :
  token_ended (hash_token token) U db → txn_out (PersonalTokens.resolve now token) db = Ret None.
Proof.
  intros [_ He]. unfold PersonalTokens.resolve, txn_out, with_session, open_session.
  destruct (_ || _); [done|].
  rewrite run_query_begin. destruct (refresh_tokens db !! hash_token token) as [t|] eqn:Ht; [|done].
  destruct (negb (String.eqb (rt_client_id t) CLIENT_ID)); [done|].
  unfold status. rewrite (bool_decide_eq_false_2 (rt_revoked_at t = None)) by (by apply He). done.
Qed.

Lemma refresh_ended now se token U db :
  session_ended (hash_token token) U db → ∃ e, txn_out (refresh ring ring_encode now se (Some token)) db = Raise e.
Proof.
  intros [_ He]. unfold refresh, txn_out, with_session, open_session.
  destruct (negb (truthy (Some token))); [by eexists|]. rewrite run_query_begin. change (default EmptyString (Some token)) with token.
  destruct (browser_tokens db !! hash_token token) as [t|] eqn:Ht; cbn [fmap option_fmap option_map]; [|by eexists].
  rewrite run_query. destruct (users db !! ur_user_id t) as [u|]; [|by eexists]. rewrite run_query, Ht.
  rewrite (bool_decide_eq_false_2 (ur_revoked_at t = None)) by (by apply He). by eexists.
Qed.

Lemma old_epoch_refused uid e U db (payload : list (string * json)) u :
  epoch_passed uid e U db → users db !! uid = Some u →
  (∀ e', json_get "credential_epoch" payload = Some (JNum e') → e' ≤ e) → epoch_current u payload = false.
Proof.
  intros [_ He] Hu Hp. destruct (He _ Hu) as [Hb Hlt]. unfold epoch_current. rewrite Hb.
  apply bool_decide_eq_false_2. intros E. specialize (Hp _ E). lia.
Qed.

(** The deny list of a process changes its cache only. *)
Lemma jti_denied_run local_time now jti cache db : ∃ b cache',
  jti_denied local_time now jti (mk_auth_world cache db) = (mk_auth_world cache' db, Ret b).
Proof.
  unfold jti_denied, jti_is_denied_cached, jti_cache_deny, in_db, mbind, M_bind. cbn.
  destruct (cache !! jti) as [e|]; [destruct (e <? now)|]; cbn; [| by eexists _, _ |];
    destruct (denied_jtis db !! jti); by eexists _, _.
Qed.

Lemma load_decoded_old local_time cache now token payload uid e U db :
  epoch_passed uid e U db → json_get "sub" payload = Some (JStr (user_subject uid)) →
  (∀ e', json_get "credential_epoch" payload = Some (JNum e') → e' ≤ e) →
  (load_decoded local_time now token payload (mk_auth_world cache db)).2 = Ret None.
Proof.
  intros He Hsub Hep. unfold load_decoded. rewrite Hsub. unfold mbind, M_bind.
  destruct (jti_denied_run local_time now (default EmptyString (text_claim (json_get "jti" payload))) cache db)
    as ([] & cache' & ->); [done|].
  destruct (parse_subject (user_subject uid)) as [p|] eqn:Hpc; [|done]. apply parse_user_subject_inv in Hpc as ->.
  cbn. rewrite bool_decide_eq_true_2 by done. cbn. destruct (users db !! uid) as [u|] eqn:Hu; [|done].
  destruct (u_status u == UserStatus.DISABLED); [done|].
  by rewrite (old_epoch_refused _ _ _ _ _ _ He Hu Hep).
Qed.

Lemma validate_old header_kid ring_decode now token payload uid e U db :
  epoch_passed uid e U db → verify_token ring header_kid ring_decode now token = Ret payload →
  json_get "sub" payload = Some (JStr (user_subject uid)) →
  (∀ e', json_get "credential_epoch" payload = Some (JNum e') → e' ≤ e) →
  ∃ err, txn_out (validate_access_token_user ring header_kid ring_decode now token) db = Raise err.
Proof.
  intros He Hv Hsub Hep. unfold validate_access_token_user, txn_out, with_session, open_session. rewrite Hv, Hsub.
  destruct (negb (json_get "type" payload == Some (JStr "access"))); [by eexists|].
  destruct (parse_subject (user_subject uid)) as [p|] eqn:Hpc; [|by eexists]. apply parse_user_subject_inv in Hpc as ->.
  cbn [pc_kind pc_id]. rewrite bool_decide_eq_true_2 by done. cbn [negb]. rewrite run_query_begin.
  destruct (users db !! uid) as [u|] eqn:Hu; [|by eexists]. destruct (u_status u == UserStatus.DISABLED); [by eexists|].
  rewrite (old_epoch_refused _ _ _ _ _ _ He Hu Hep). by eexists.
Qed.

(** C8: A changed password signs its user out everywhere, for good.  Once
    [mutate_builtin_password_in_session] has committed a user's new password (in
    any mode), in every later state: no refresh token and no personal token the
    user had gives access, no code issued to the user can be exchanged, no
    browser session of the user can be renewed, and no access token with the
    epoch of the old password or an older one, or with none, is accepted by the
    MCP server or by the web console. *)
Theorem password_change_signs_out st now salt uid mode new old u :
  reachable st → users (tables st) !! uid = Some u →
  txn_out (mutate_builtin_password_in_session now salt uid mode new old ;; commit) (tables st) = Ret tt →
  ∀ st', rtc step (mk_auth_state (drawn_ids st) (event (MutatePassword now salt uid mode new old) (tables st))) st' →
  (∀ token t, refresh_tokens (tables st) !! hash_token token = Some t → rt_user_id t = uid →
     ∀ now', txn_out (load_refresh_token now' token) (tables st') = Ret None
       ∧ txn_out (PersonalTokens.resolve now' token) (tables st') = Ret None)
  ∧ (∀ code c, codes (tables st) !! hash_token code = Some c → ac_user_id c = uid →
     ∀ now', txn_out (load_authorization_code any_url now' code) (tables st') = Ret None)
  ∧ (∀ token t, browser_tokens (tables st) !! hash_token token = Some t → ur_user_id t = uid →
     ∀ now' se, ∃ e, txn_out (refresh ring ring_encode now' se (Some token)) (tables st') = Raise e)
  ∧ (∀ payload, json_get "sub" payload = Some (JStr (user_subject uid)) →
     (∀ e, json_get "credential_epoch" payload = Some (JNum e) → e ≤ u_credential_epoch u) →
     (∀ local_time cache now' token,
        (load_decoded local_time now' token payload (mk_auth_world cache (tables st'))).2 = Ret None)
     ∧ ∀ header_kid ring_decode now' token, verify_token ring header_kid ring_decode now' token = Ret payload →
         ∃ err, txn_out (validate_access_token_user ring header_kid ring_decode now' token) (tables st') = Raise err).
Proof.
  intros Hr Hu Hout st' Hs. pose proof (auth_reachable_inv _ Hr) as Hi.
  destruct (mutate_result _ _ _ _ _ _ _ _ Hu Hout) as [Hb Hdb].
  assert (u_id u = uid) as Hid by apply (ti_users _ _ Hi _ _ Hu).
  assert (tables_inv (drawn_ids st) (event (MutatePassword now salt uid mode new old) (tables st))) as Hi1.
  { eapply (change_inv _ ∅) in Hi as Hi0; [|done|apply (mutate_change _ _ _ Hi now salt uid mode new old)].
    by rewrite union_empty_r_L in Hi0. }
  cbn [event_db] in Hs, Hi1. rewrite Hdb in Hs, Hi1. rewrite Hid in Hs, Hi1.
  split_and!.
  - intros token t Ht Htu now'.
    assert (token_ended (hash_token token) (drawn_ids st') (tables st')) as He.
    { apply (later_stable _ _ _ (λ _ _ _ _ HD Hch Hi, token_ended_step _ _ _ _ HD Hch Hi _) Hs Hi1).
      split; [by apply (ri_known _ _ (ti_refresh _ _ Hi) _ _ Ht)|]. intros t'. by eapply end_credentials_tokens. }
    split; [by eapply load_ended|by eapply resolve_ended].
  - intros code c Hc Hcu now'. apply (load_code_ended _ _ (drawn_ids st')).
    apply (later_stable _ _ _ (λ _ _ _ _ HD Hch Hi, code_ended_step _ _ _ _ HD Hch _) Hs Hi1).
    split; [by apply (ci_known _ _ _ (ti_codes _ _ Hi) _ _ Hc)|]. intros c'. by eapply end_credentials_codes.
  - intros token t Ht Htu now' se. apply (refresh_ended _ _ _ (drawn_ids st')).
    apply (later_stable _ _ _ (λ _ _ _ _ HD Hch Hi, session_ended_step _ _ _ _ HD Hch _) Hs Hi1).
    split; [by apply (si_known _ _ (ti_sessions _ _ Hi) _ _ Ht)|]. intros t'. by eapply end_credentials_sessions.
  - intros payload Hsub Hep.
    assert (epoch_passed uid (u_credential_epoch u) (drawn_ids st') (tables st')) as He.
    { apply (later_stable _ _ _ (λ _ _ _ _ HD Hch Hi, epoch_passed_step _ _ _ _ HD Hch _ _) Hs Hi1).
      split; [by apply (ti_users _ _ Hi _ _ Hu)|]. intros u'. cbn. rewrite Hid, lookup_insert_eq. intros [= <-].
      split; [done|]. cbn. lia. }
    split; [intros; by eapply load_decoded_old|intros; by eapply validate_old].
Qed.
End theorems.

(** [jwt.decode]: what a token carries does not depend on when or how it is
    decoded; an accepted token has not expired, and it names the issuer asked
    for; a failure is an error of the library. *)
Class JwtLaws (jwt_decode : time → JwtOptions → string → outcome (list (string * json))) : Prop := {
  jwt_payload : ∀ now1 o1 now2 o2 token p1 p2,
    jwt_decode now1 o1 token = Ret p1 → jwt_decode now2 o2 token = Ret p2 → p1 = p2;
  jwt_unexpired : ∀ now o token p e, jo_verify_exp o = true →
    jwt_decode now o token = Ret p → json_get "exp" p = Some (JNum e) → now < seconds e;
  jwt_issuer : ∀ now o token p i, jo_issuer o = Some i →
    jwt_decode now o token = Ret p → json_get "iss" p = Some (JStr i);
  jwt_unverified : ∀ now o now' token p,
    jwt_decode now o token = Ret p → jwt_decode now' unverified_options token = Ret p;
  jwt_error : ∀ now o token e, jwt_decode now o token = Raise e → is_jwt_error e = true
}.

(** The compact form of an opaque credential. *)
Definition opaque (token : string) : bool :=
  starts_with TOKEN_PREFIX token || starts_with "pas_user_agent_" token || starts_with "pas_agent_" token.

(** Any other token is a JWT. *)
Lemma load_jwt config jwt_decode local_time agent_user direct now token : opaque token = false →
  load_verified_access_token config jwt_decode local_time agent_user direct now token
  = match decode_access_token config jwt_decode now token with
    | Ret payload => load_decoded local_time now token payload
    | Raise e =>
        if is_jwt_error e || is_value_error e then
          let unverified :=
            match jwt_decode now unverified_options token with Ret p => p | Raise _ => [] end in
          if json_get "iss" unverified == Some (JStr (oauth_issuer config)) then mret None else direct
        else raise e
    end.
Proof.
  unfold opaque, load_verified_access_token. intros [[H1 H2]%orb_false_iff H3]%orb_false_iff. by rewrite H1, H2, H3.
Qed.

Section revocation.
  Context (config : OAuthConfig) (local_time : time → time).
  Context (jwt_decode : time → JwtOptions → string → outcome (list (string * json))) `{!JwtLaws jwt_decode}.
  Context (jwt_encode : list (string * json) → string) (any_url : string → string).
  Context (ring : JWTKeyRing) (ring_encode : list (string * json) → string → string → option string → string).

Abbreviation event := (event_db config jwt_encode any_url ring ring_encode).

(** The clock of a sweep is not past [now]. *)
Definition swept_by (now : time) (ev : AuthEvent) : Prop :=
  match ev with Sweep t => t ≤ now | _ => True end.

(** A denial is kept until it expires. *)
Lemma deny_keeps jti e jti' e' db :
  denied_jtis db !! jti = Some e → denied_jtis (txn_db (deny_jti jti' e') db) !! jti = Some e.
Proof.
  intros Hd. unfold deny_jti. rewrite write_commit. destruct (denied_jtis db !! jti') eqn:H'; [done|]. cbn.
  rewrite lookup_insert_ne; [done|]. intros ->. congruence.
Qed.

Lemma sweep_keeps now t jti e db :
  t ≤ now → now < e → denied_jtis db !! jti = Some e →
  denied_jtis (txn_db (sweep_expired_oauth_rows t) db) !! jti = Some e.
Proof.
  intros Ht He Hd. apply map_lookup_filter_Some. split; [exact Hd|]. cbn. lia.
Qed.

Lemma denial_kept now jti e ev db :
  swept_by now ev → now < e → denied_jtis db !! jti = Some e → denied_jtis (event ev db) !! jti = Some e.
Proof.
  intros Hs He Hd. destruct ev; cbn [event_db]; try exact Hd; try by apply deny_keeps.
  all: try by eapply sweep_keeps.
  all: unfold txn_db, with_session, open_session, load_authorization_code, exchange_authorization_code, load_refresh_token,
    revoke_token_family, rotate_refresh_token, touch_external_session, revoke_refresh_token, end_family, revoke_minted,
    handle_login_callback, insert_code, issue_personal_token, issue, insert_refresh,
    revoke_personal_token, revoke, try_except, mutate_builtin_password_in_session, login, recovery_login,
    authenticate_builtin, issue_browser_session, refresh, create_refresh_record, insert_browser_token, logout, disable_source_owned_users,
    set_user_status, delete_user; run_branches; try exact Hd.
Qed.

Lemma denial_kept_all now jti e evs db :
  Forall (swept_by now) evs → now < e → denied_jtis db !! jti = Some e →
  denied_jtis (foldl (λ db ev, event ev db) db evs) !! jti = Some e.
Proof.
  intros Hs He. revert db. induction Hs as [|ev evs Hev _ IH]; intros db Hd; [done|]. apply IH. by apply (denial_kept now).
Qed.

(** A denied id is found, in the cache or in the table. *)
Lemma jti_denied_hit now jti e cache db :
  denied_jtis db !! jti = Some e → (jti_denied local_time now jti (mk_auth_world cache db)).2 = Ret true.
Proof.
  intros Hd. unfold jti_denied, jti_is_denied_cached, jti_cache_deny, in_db, mbind, M_bind. cbn.
  destruct (cache !! jti) as [c|]; [destruct (c <? now)|]; cbn; rewrite ?Hd; done.
Qed.

Lemma load_denied now token payload jti e cache db :
  text_claim (json_get "jti" payload) = Some jti → denied_jtis db !! jti = Some e →
  (load_decoded local_time now token payload (mk_auth_world cache db)).2 = Ret None.
Proof.
  intros Hj Hd. unfold load_decoded. rewrite Hj. cbn [default].
  pose proof (jti_denied_hit now _ _ cache _ Hd) as Hden. unfold mbind, M_bind.
  destruct (jti_denied local_time now _ _) as [w o]. cbn in Hden. by subst o.
Qed.

(** An accepted payload has what [decode_access_token] requires. *)
Lemma decoded_payload now token payload :
  decode_access_token config jwt_decode now token = Ret payload →
  jwt_decode now (access_token_options config) token = Ret payload
  ∧ is_Some (text_claim (json_get "jti" payload)).
Proof.
  unfold decode_access_token, mbind, outcome_bind. destruct (jwt_decode _ _ token) as [p|]; [|done].
  destruct (text_claim (json_get "sub" p)) as [sub|]; [|done].
  destruct (text_claim (json_get "jti" p)) as [jti|] eqn:Hj; [|done]. destruct (negb _); [done|].
  destruct (parse_subject sub) as [pr|]; [|done]. destruct (pc_kind pr == _); [|done]. intros [= <-]. by rewrite Hj.
Qed.

(** A denial that is there already is left as it is. *)
Lemma revoke_keeps_denied now token w jti e :
  denied_jtis (auth_db w) !! jti = Some e →
  denied_jtis (auth_db (revoke_access_token jwt_decode now token w).1) !! jti = Some e.
Proof.
  intros Hd. unfold revoke_access_token. destruct (jwt_decode _ _ _) as [p|err]; [|by destruct (is_jwt_error err)].
  destruct (text_claim _) as [jti'|]; [|done]. destruct (json_get "exp" p) as [[| |e'| | |]|]; try done.
  destruct (e' =? 0); [done|]. unfold in_db. apply (deny_keeps _ _ jti' (seconds e') _ Hd).
Qed.

(** The revocation writes the denial. *)
Lemma revoke_denies now token payload jti e w :
  jwt_decode now revocation_options (ak_token token) = Ret payload →
  text_claim (json_get "jti" payload) = Some jti → json_get "exp" payload = Some (JNum e) → e ≠ 0 →
  ∃ e', denied_jtis (auth_db (revoke_access_token jwt_decode now token w).1) !! jti = Some e'
    ∧ (denied_jtis (auth_db w) !! jti = None → e' = seconds e).
Proof.
  intros Hd Hj He Hne. destruct (denied_jtis (auth_db w) !! jti) as [e'|] eqn:Hw.
  - exists e'. split; [by apply revoke_keeps_denied|done].
  - exists (seconds e). split; [|done]. unfold revoke_access_token. rewrite Hd, Hj, He, (proj2 (Z.eqb_neq _ _) Hne).
    change (denied_jtis (txn_db (deny_jti jti (seconds e)) (auth_db w)) !! jti = Some (seconds e)).
    unfold deny_jti. rewrite write_commit, Hw. cbn. by rewrite lookup_insert_eq.
Qed.

Lemma decode_error now token err :
  decode_access_token config jwt_decode now token = Raise err → is_jwt_error err || is_value_error err = true.
Proof.
  unfold decode_access_token, mbind, outcome_bind. destruct (jwt_decode _ _ token) as [p|e0] eqn:Hd.
  - destruct (text_claim (json_get "sub" p)) as [sub|]; [|by intros [= <-]].
    destruct (text_claim (json_get "jti" p)) as [jti|]; [|by intros [= <-]]. destruct (negb _); [by intros [= <-]|].
    destruct (parse_subject sub) as [pr|err'] eqn:Hp.
    + destruct (pc_kind pr == _); [done|by intros [= <-]].
    + intros [= <-]. apply orb_true_iff. right. by apply parse_subject_error in Hp as ->.
  - intros [= <-]. by rewrite (jwt_error _ _ _ _ Hd).
Qed.

(** C15: A revoked access token is never accepted again.  Let a JWT have been
    accepted by the MCP server once, and revoked while unexpired
    ([revoke_token]).  Whatever transactions are committed afterwards, by this
    process or another, the sweep among them, with clocks not past the current
    one, and whatever the process has in its cache of denied ids,
    [load_access_token] answers none for the token: until its expiry because it
    is denied, and from then on because it has expired. *)
Theorem revoked_token_refused now0 now1 now token payload jti e access w evs cache agent_user direct mode :
  decode_access_token config jwt_decode now0 token = Ret payload → 0 ≤ now0 →
  text_claim (json_get "jti" payload) = Some jti → json_get "exp" payload = Some (JNum e) →
  ak_token access = token → jwt_decode now1 revocation_options token = Ret payload →
  (∀ e', denied_jtis (auth_db w) !! jti = Some e' → e' = seconds e) →
  opaque token = false → Forall (swept_by now) evs →
  let db := foldl (λ db ev, event ev db) (auth_db (revoke_access_token jwt_decode now1 access w).1) evs in
  (load_access_token config jwt_decode local_time agent_user direct mode now token (mk_auth_world cache db)).2 = Ret None.
Proof.
  intros Hdec0 Hpos Hj He <- Hdec1 Hsame Hop Hevs db.
  destruct (decoded_payload _ _ _ Hdec0) as [Hjwt0 _].
  assert (now0 < seconds e) as He0 by (by eapply jwt_unexpired; [|exact Hjwt0|]).
  destruct (revoke_denies now1 access payload jti e w Hdec1 Hj He) as (e' & Hden & Hnew).
  { intros ->. unfold seconds in He0. lia. }
  assert (e' = seconds e) as ->.
  { destruct (denied_jtis (auth_db w) !! jti) as [d|] eqn:Hw; [|by apply Hnew].
    pose proof (revoke_keeps_denied now1 access w jti d Hw) as Hk. rewrite Hk in Hden. injection Hden as <-. by apply Hsame. }
  unfold load_access_token, mbind, M_bind.
  enough ((load_verified_access_token config jwt_decode local_time agent_user direct now (ak_token access)
    (mk_auth_world cache db)).2 = Ret None) as Hn.
  { destruct (load_verified_access_token _ _ _ _ _ _ _ _) as [w' o]. cbn in Hn. by subst o. }
  rewrite (load_jwt _ _ _ _ _ _ _ Hop).
  destruct (decode_access_token config jwt_decode now (ak_token access)) as [payload'|err] eqn:Hdec.
  - destruct (decoded_payload _ _ _ Hdec) as [Hjwt _].
    assert (payload' = payload) as -> by (by eapply jwt_payload).
    eapply load_denied; [done|]. apply (denial_kept_all now); [done|by eapply jwt_unexpired; [|exact Hjwt|]|exact Hden].
  - rewrite (decode_error _ _ _ Hdec), (jwt_unverified _ _ now _ _ Hjwt0). cbn zeta.
    rewrite (jwt_issuer _ (access_token_options config) _ _ _ eq_refl Hjwt0), bool_decide_eq_true_2 by done. done.
Qed.
End revocation.

(** ** Issued tokens *)

(** The words of joined scopes are the scopes. *)
Definition word (s : string) : Prop := s ≠ EmptyString ∧ string_forallb (λ a, negb (is_space a)) s = true.

Lemma append_cons_r s a t : (s +:+ String a EmptyString) +:+ t = s +:+ String a t.
Proof.
  induction s as [|b s IH]; [done|].
  change (String b ((s +:+ String a EmptyString) +:+ t) = String b (s +:+ String a t)). by rewrite IH.
Qed.

Lemma append_nil_r s : s +:+ EmptyString = s.
Proof. induction s as [|b s IH]; [done|]. change (String b (s +:+ EmptyString) = String b s). by rewrite IH. Qed.

Lemma split_words_app s t w :
  string_forallb (λ a, negb (is_space a)) s = true → split_words w (s +:+ t) = split_words (w +:+ s) t.
Proof.
  revert w. induction s as [|a s IH]; intros w Hs; [by rewrite append_nil_r|].
  cbn [string_forallb] in Hs. apply andb_true_iff in Hs as [Ha Hs]. apply negb_true_iff in Ha.
  change (String a s +:+ t) with (String a (s +:+ t)). cbn [split_words]. rewrite Ha, IH by done. by rewrite append_cons_r.
Qed.

Lemma split_join scopes : Forall word scopes → split_ws (join_scopes scopes) = scopes.
Proof.
  unfold split_ws, join_scopes. induction 1 as [|s scopes [Hn Hs] _ IH]; [done|].
  destruct scopes as [|s' scopes].
  - change (String.concat " " [s]) with s. rewrite <-(append_nil_r s) at 1. rewrite split_words_app by done.
    change (EmptyString +:+ s) with s. cbn [split_words]. by rewrite (proj2 (String.eqb_neq _ _) Hn).
  - change (String.concat " " (s :: s' :: scopes)) with (s +:+ String " " (String.concat " " (s' :: scopes))).
    rewrite split_words_app by done. change (EmptyString +:+ s) with s. cbn [split_words].
    change (is_space " ") with true. cbn iota. rewrite (proj2 (String.eqb_neq _ _) Hn), IH. done.
Qed.

(** A claim that is absent, or a time not after [now]. *)
Definition not_future (now : time) (claim : option json) : bool :=
  match claim with None => true | Some (JNum t) => seconds t <=? now | Some _ => false end.

Definition absent_or_text (claim : option json) : bool :=
  match claim with None | Some (JStr _) => true | Some _ => false end.

(** What [jwt.decode] verifies of a payload: that it was not issued in the future
    and is valid already and the types of the subject and the identifier (unless
    the signature is not verified either), the expiry, the audience, the issuer
    and the presence of the required claims. *)
Definition verifiable (now : time) (o : JwtOptions) (p : list (string * json)) : bool :=
  (negb (jo_verify_signature o)
   || not_future now (json_get "iat" p) && not_future now (json_get "nbf" p)
      && absent_or_text (json_get "sub" p) && absent_or_text (json_get "jti" p))
  && (negb (jo_verify_exp o) || match json_get "exp" p with Some (JNum e) => now <? seconds e | _ => false end)
  && match jo_audience o, json_get "aud" p with
     | None, _ => true
     | Some auds, Some (JStr aud) => bool_decide (aud ∈ auds)
     | _, _ => false
     end
  && match jo_issuer o with Some i => json_get "iss" p == Some (JStr i) | None => true end
  && forallb (λ k, negb (json_get k p == None)) (jo_require o).

Section issuance.
  Context (config : OAuthConfig) (local_time : time → time).
  Context (jwt_decode : time → JwtOptions → string → outcome (list (string * json))).
  Context (jwt_encode : list (string * json) → string).

(** A token signed with the active key is decoded to its payload when that
    verifies at the time of the check. *)
Definition decodes_at (now : time) (p : list (string * json)) : Prop :=
  ∀ o, verifiable now o p = true → jwt_decode now o (jwt_encode p) = Ret p.

(** The payload of a code's access token. *)
Definition code_payload (now : time) (te : TokenEntropy) (code : AuthorizationCode) (user : User) : list (string * json) :=
  access_token_payload config now (te_jti te) (default EmptyString (az_subject code)) (az_resource code)
    (az_client_id code) (az_scopes code) None None ++ builtin_credential_claim user.

Lemma exchange_result now te code ot db :
  txn_out (exchange_authorization_code config jwt_encode now te code) db = Ret ot →
  ∃ principal u, subject_user (az_subject code) "Authorization code subject must be a User" = Ret principal
    ∧ users db !! pc_id principal = Some u ∧ u_status u ≠ UserStatus.DISABLED
    ∧ ot_access_token ot = jwt_encode (code_payload now te code u).
Proof.
  unfold exchange_authorization_code, insert_refresh, txn_out, with_session, open_session. run_branches; try discriminate.
  intros [= <-]. guards. by eexists _, _.
Qed.
(** The audience of a code's access token. *)
Definition code_audience (code : AuthorizationCode) : string :=
  if truthy (az_resource code) then default EmptyString (az_resource code) else oauth_resource config.

Lemma code_payload_claims now te code u :
  let p := code_payload now te code u in
  json_get "sub" p = Some (JStr (default EmptyString (az_subject code)))
  ∧ json_get "jti" p = Some (JStr (te_jti te)) ∧ json_get "type" p = Some (JStr "access")
  ∧ json_get "aud" p = Some (JStr (code_audience code)) ∧ json_get "client_id" p = Some (JStr (az_client_id code))
  ∧ json_get "scope" p = Some (JStr (join_scopes (az_scopes code)))
  ∧ json_get "exp" p = Some (JNum (timestamp now + oc_access_token_expire_minutes config * 60))
  ∧ epoch_current u p = true.
Proof.
  cbn zeta. split_and!; try reflexivity. unfold epoch_current, code_payload, builtin_credential_claim.
  destruct (u_auth_provider u); [done|]. apply bool_decide_eq_true_2. unfold access_token_payload.
  by destruct (az_resource code == Some (personal_resource config)).
Qed.

Lemma code_payload_verifiable now te code u now' :
  0 <= now <= now' → code_audience code ∈ [oauth_resource config; personal_resource config; oauth_issuer config +:+ "/api/v1"] →
  now' < seconds (timestamp now + oc_access_token_expire_minutes config * 60) →
  verifiable now' (access_token_options config) (code_payload now te code u) = true.
Proof.
  intros Hnow Ha Ht. unfold verifiable.
  change (json_get "iat" (code_payload now te code u)) with (Some (JNum (timestamp now))).
  assert (not_future now' (Some (JNum (timestamp now))) = true) as ->.
  { cbn. unfold timestamp, seconds in *. pose proof (Z.mul_quot_le now 1000000 ltac:(lia) ltac:(lia)). lia. }
  assert (json_get "nbf" (code_payload now te code u) = None) as ->.
  { unfold code_payload, access_token_payload, builtin_credential_claim.
    by destruct (az_resource code == Some (personal_resource config)), (u_auth_provider u). }
  cbn [jo_verify_signature jo_verify_exp jo_audience jo_issuer jo_require access_token_options negb orb andb].
  change (json_get "exp" (code_payload now te code u))
    with (Some (JNum (timestamp now + oc_access_token_expire_minutes config * 60))).
  change (json_get "aud" (code_payload now te code u)) with (Some (JStr (code_audience code))).
  cbn [negb orb]. rewrite (proj2 (Z.ltb_lt _ _) Ht), bool_decide_eq_true_2 by done.
  change (json_get "iss" (code_payload now te code u)) with (Some (JStr (oauth_issuer config))).
  by rewrite bool_decide_eq_true_2.
Qed.

(** The epoch check depends on the provider and the epoch of the user only. *)
Lemma epoch_current_same u u' p :
  u_auth_provider u' = u_auth_provider u → u_credential_epoch u' = u_credential_epoch u →
  epoch_current u' p = epoch_current u p.
Proof. unfold epoch_current. by intros -> ->. Qed.

Lemma subject_user_inv subject message principal :
  subject_user subject message = Ret principal →
  ∃ sub, subject = Some sub ∧ parse_subject sub = Ret principal ∧ sub ≠ EmptyString
    ∧ pc_kind principal = PrincipalKind.USER.
Proof.
  unfold subject_user, mbind, outcome_bind. destruct subject as [sub|]; [|done].
  destruct (parse_subject sub) as [p|] eqn:Hp; [|done].
  destruct (bool_decide_reflect (pc_kind p = PrincipalKind.USER)); [|done]. intros [= ->].
  exists sub. split_and!; try done. by intros ->.
Qed.

(** The checks on an accepted payload, passed. *)
Lemma load_decoded_accepts now token p sub principal u jti w access :
  json_get "sub" p = Some (JStr sub) → text_claim (json_get "jti" p) = Some jti →
  parse_subject sub = Ret principal → pc_kind principal = PrincipalKind.USER →
  users (auth_db w) !! pc_id principal = Some u → u_status u ≠ UserStatus.DISABLED →
  epoch_current u p = true → access_token_of token p = Ret access →
  denied_jtis (auth_db w) !! jti = None → (∀ c, jti_deny_cache w !! jti = Some c → c < now) →
  ∃ w', load_decoded local_time now token p w = (w', Ret (Some access)).
Proof.
  intros Hsub Hj Hparse Hkind Hu Hst Hep Hacc Hden Hcache. destruct w as [cache db]. cbn in *.
  unfold load_decoded. rewrite Hj, Hsub, Hparse.
  change (default EmptyString (Some jti)) with jti.
  assert (∃ cache', jti_denied local_time now jti (mk_auth_world cache db) = (mk_auth_world cache' db, Ret false))
    as (cache' & Hrun).
  { unfold jti_denied, jti_is_denied_cached, in_db, mbind, M_bind. cbn. destruct (cache !! jti) as [c|] eqn:Hc.
    - rewrite (proj2 (Z.ltb_lt _ _) (Hcache _ eq_refl)). cbn. rewrite Hden. by eexists.
    - cbn. rewrite Hden. by eexists. }
  unfold mbind, M_bind. rewrite Hrun. cbn -[access_token_of]. rewrite bool_decide_eq_true_2 by done.
  cbn -[access_token_of]. rewrite Hu, bool_decide_eq_false_2 by done. rewrite Hep. cbn -[access_token_of].
  rewrite Hacc. by eexists.
Qed.

End issuance.
