(* ===== verification/AuthExamples.v ===== *)
(** * A run of the authentication system

    A user, a code, its exchange and a rotation, on concrete identifiers: the
    inputs at which the theorems of [AuthTheorems] are
    applied. *)

From S2P Require Import Prelude PyString Models Permission Dispatcher AccessControl Hashing.
From S2P Require Import AuthModels.
From S2P Require Import PersonalTokens OAuthProvider AccessTokens Passwords BrowserSessions.
From S2P Require Import AuthRoutes.
From S2P Require Import AuthSpec AuthSystem AuthTheorems.

(** ** Runs *)
Fixpoint fresh_run (U : gset string) (evs : list AuthEvent) : bool :=
  match evs with
  | [] => true
  | ev :: evs =>
      bool_decide (NoDup (draws ev)) && forallb (λ x, bool_decide (x ∉ U)) (draws ev)
      && fresh_run (U ∪ list_to_set (draws ev)) evs
  end.

Section runs.
  Context (config : OAuthConfig) (jwt_encode : list (string * json) → string) (any_url : string → string).
  Context (ring : JWTKeyRing) (ring_encode : list (string * json) → string → string → option string → string).

Definition run_state (st : AuthState) (evs : list AuthEvent) : AuthState :=
  foldl (λ st ev, mk_auth_state (drawn_ids st ∪ list_to_set (draws ev))
                    (event_db config jwt_encode any_url ring ring_encode ev (tables st))) st evs.

Lemma run_steps st evs :
  fresh_run (drawn_ids st) evs = true → Forall (λ ev, ∀ db, event_ok ev db) evs →
  rtc (auth_step config jwt_encode any_url ring ring_encode) st (run_state st evs).
Proof.
  intros Hf Hok. revert st Hf. induction Hok as [|ev evs Hev _ IH]; intros st Hf; [done|]. cbn in Hf.
  apply andb_true_iff in Hf as [[Hnd Hfr]%andb_true_iff Hf]. apply bool_decide_eq_true in Hnd.
  rewrite forallb_forall in Hfr. eapply rtc_l; [|by apply IH].
  constructor; [done| |apply Hev]. intros x Hx%list_elem_of_In. by eapply bool_decide_eq_true, Hfr.
Qed.
End runs.

(** ** The demonstration *)
Definition demo_oauth : OAuthConfig := mk_oauth_config "https://pas.example/" 60 30 900.
Definition demo_ring : JWTKeyRing := mk_key_ring "RS256" "k1" "private" {[ "k1" := "public" ]} 480 30 1 true.
Definition demo_jwt (p : list (string * json)) : string := "eyJhbGciOiJSUzI1NiJ9.e30.c2ln".
Definition demo_ring_jwt (p : list (string * json)) (key algorithm : string) (kid : option string) : string :=
  "eyJraWQiOiJrMSJ9.e30.c2ln".

Definition demo_time : time := seconds 1700000000.
Definition demo_user : User :=
  mk_user "user-1" "alice" AuthProvider.BUILTIN None None 1 UserRole.MEMBER UserStatus.ACTIVE.
Definition demo_pending : OAuthPendingAuth :=
  mk_pending "session-1" "client-1" "http://localhost/cb" "challenge" "S256" (Some "https://pas.example/mcp")
    (dump_scopes ["mcp"]) None None None None (demo_time + minutes 10).
Definition demo_code : AuthorizationCode :=
  mk_authorization_code "code-1" ["mcp"] (demo_time + minutes 5) "client-1" "challenge" "http://localhost/cb" true
    (Some "https://pas.example/mcp") (Some "user:user-1").
Definition demo_refresh : RefreshToken := mk_refresh_token "refresh-1" "client-1" ["mcp"] None (Some "user:user-1").

Definition demo_events : list AuthEvent :=
  [ CreateUser demo_user;
    IssueCode demo_time "code-1" "user-1" demo_pending;
    ExchangeCode demo_time (mk_token_entropy "jti-1" "refresh-1" "family-1") demo_code;
    Rotate (demo_time + minutes 30) (mk_token_entropy "jti-2" "refresh-2" "family-2")
      (mk_principal PrincipalKind.USER "user-1") demo_refresh ["mcp"] None None ].

Abbreviation demo_run := (run_state demo_oauth demo_jwt (λ u, u) demo_ring demo_ring_jwt auth_start).
Definition demo_issued : AuthState := demo_run (take 2 demo_events).
Definition demo_rotated : AuthState := demo_run demo_events.

Lemma demo_fresh_run : fresh_run ∅ demo_events = true.
Proof. vm_compute. reflexivity. Qed.

Lemma demo_rotated_reachable :
  auth_reachable demo_oauth demo_jwt (λ u, u) demo_ring demo_ring_jwt demo_rotated.
Proof. apply run_steps; [apply demo_fresh_run|]. by repeat constructor. Qed.

(** The first token of the family is spent, and the code consumed. *)
Lemma spent_row {A B} (f : A → option B) (o : option A) x :
  f <$> o = Some (Some x) → ∃ a, o = Some a ∧ f a ≠ None.
Proof. destruct o as [a|]; [|done]. intros [= E]. exists a. by rewrite E. Qed.

Lemma demo_spent : ∃ t, refresh_tokens (tables demo_rotated) !! hash_token "refresh-1" = Some t ∧ rt_revoked_at t ≠ None.
Proof. apply (spent_row _ _ (demo_time + minutes 30)). vm_compute. reflexivity. Qed.

Lemma demo_consumed : ∃ c, codes (tables demo_rotated) !! hash_token "code-1" = Some c ∧ ac_consumed_at c ≠ None.
Proof. apply (spent_row _ _ demo_time). vm_compute. reflexivity. Qed.

Lemma demo_rotated_user : users (tables demo_rotated) !! "user-1" = Some demo_user.
Proof. vm_compute. reflexivity. Qed.

(** ** Witnesses *)

Lemma credentials_single_use_witness :
  rt_revoked_at <$> refresh_tokens (tables demo_rotated) !! hash_token "refresh-2" = Some None
  ∧ ∀ h t, refresh_tokens (tables demo_rotated) !! h = Some t → rt_revoked_at t = None →
    ∀ h' t', refresh_tokens (tables demo_rotated) !! h' = Some t' → rt_revoked_at t' = None →
      rt_token_family t = rt_token_family t' → h = h'.
Proof.
  split; [vm_compute; reflexivity|].
  destruct (credentials_single_use demo_oauth demo_jwt (λ u, u) demo_ring demo_ring_jwt demo_rotated demo_rotated_reachable)
    as [H _].
  intros h t Ht L h' t' Ht' L' E. by eapply (H h t h' t').
Defined.

Lemma replay_ends_grant_witness :
  ∃ t, refresh_tokens (tables demo_rotated) !! hash_token "refresh-1" = Some t
  ∧ ∀ st', rtc (auth_step demo_oauth demo_jwt (λ u, u) demo_ring demo_ring_jwt)
      (mk_auth_state (drawn_ids demo_rotated)
         (event_db demo_oauth demo_jwt (λ u, u) demo_ring demo_ring_jwt
            (LoadRefresh (demo_time + minutes 40) "refresh-1") (tables demo_rotated))) st' →
    ∀ h t', refresh_tokens (tables st') !! h = Some t' → rt_token_family t' = rt_token_family t →
      rt_revoked_at t' ≠ None.
Proof.
  destruct demo_spent as (t & Ht & Hn). exists t. split; [exact Ht|]. intros st' Hs h t' Ht' E.
  destruct (replay_ends_grant demo_oauth demo_jwt (λ u, u) demo_ring demo_ring_jwt demo_rotated demo_rotated_reachable)
    as [H _].
  destruct (H (demo_time + minutes 40) "refresh-1" t eq_refl Ht Hn) as [_ H']. by destruct (H' st' Hs h t' Ht' E).
Defined.

Lemma demo_reset :
  txn_out (mutate_builtin_password_in_session (demo_time + minutes 50) [1; 2; 3] "user-1" CredentialMutationMode.RESET
    "correct horse" None ;; commit) (tables demo_rotated) = Ret tt.
Proof.
  unfold mutate_builtin_password_in_session, txn_out, with_session, open_session.
  rewrite run_assoc, run_query_begin, demo_rotated_user. reflexivity.
Qed.

Definition demo_reset_state : AuthState :=
  mk_auth_state (drawn_ids demo_rotated)
    (event_db demo_oauth demo_jwt (λ u, u) demo_ring demo_ring_jwt
       (MutatePassword (demo_time + minutes 50) [1; 2; 3] "user-1" CredentialMutationMode.RESET "correct horse" None)
       (tables demo_rotated)).

Lemma password_change_signs_out_witness :
  (load_decoded (λ t, t) (demo_time + minutes 51) "token"
     [("sub", JStr "user:user-1"); ("jti", JStr "jti-1"); ("credential_epoch", JNum 1)]
     (mk_auth_world ∅ (tables demo_reset_state))).2 = Ret None.
Proof.
  destruct (password_change_signs_out demo_oauth demo_jwt (λ u, u) demo_ring demo_ring_jwt demo_rotated _ _ _ _ _ _ _
    demo_rotated_reachable demo_rotated_user demo_reset demo_reset_state (rtc_refl _ _)) as (_ & _ & _ & H).
  apply H; [reflexivity|]. cbn. intros e [= <-]. lia.
Defined.

(** A decoder that knows the one token of the run. *)
Definition demo_te : TokenEntropy := mk_token_entropy "jti-1" "refresh-1" "family-1".
Definition demo_payload : list (string * json) := code_payload demo_oauth demo_time demo_te demo_code demo_user.

Definition demo_decode (now : time) (o : JwtOptions) (token : string) : outcome (list (string * json)) :=
  if String.eqb token (demo_jwt []) then
    if verifiable now o demo_payload then Ret demo_payload else Raise (InvalidTokenError "claims")
  else Raise (InvalidTokenError "signature").

Lemma demo_decode_ret now o token p :
  demo_decode now o token = Ret p → token = demo_jwt [] ∧ verifiable now o demo_payload = true ∧ p = demo_payload.
Proof.
  unfold demo_decode. destruct (String.eqb_spec token (demo_jwt [])); [|done].
  destruct (verifiable now o demo_payload); [|done]. by intros [= <-].
Qed.

#[export] Instance demo_laws : JwtLaws demo_decode.
Proof.
  split.
  - intros now1 o1 now2 o2 token p1 p2 (_ & _ & ->)%demo_decode_ret (_ & _ & ->)%demo_decode_ret. done.
  - intros now o token p e Ho (_ & Hv & ->)%demo_decode_ret He. unfold verifiable in Hv. rewrite Ho, He in Hv.
    rewrite !andb_true_iff in Hv. cbn in Hv. apply Z.ltb_lt. tauto.
  - intros now o token p i Ho (_ & Hv & ->)%demo_decode_ret. unfold verifiable in Hv. rewrite Ho in Hv.
    rewrite !andb_true_iff, bool_decide_eq_true in Hv. tauto.
  - intros now o now' token p (-> & _ & ->)%demo_decode_ret. reflexivity.
  - intros now o token e. unfold demo_decode.
    destruct (String.eqb token (demo_jwt [])); [destruct (verifiable now o demo_payload)|]; [done|..]; by intros [= <-].
Qed.


Lemma revoked_token_refused_witness :
  (load_access_token demo_oauth demo_decode (λ t, t) (mret None) (mret None) None (demo_time + minutes 3)
     (demo_jwt [])
     (mk_auth_world ∅
        (event_db demo_oauth demo_jwt (λ u, u) demo_ring demo_ring_jwt (Sweep (demo_time + minutes 3))
           (auth_db (revoke_access_token demo_decode (demo_time + minutes 2)
              (mk_access_token (demo_jwt []) "client-1" ["mcp"] None None "user:user-1" None)
              (mk_auth_world ∅ (tables demo_rotated))).1)))).2 = Ret None.
Proof.
  apply (revoked_token_refused demo_oauth (λ t, t) demo_decode demo_jwt (λ u, u) demo_ring demo_ring_jwt
    (demo_time + minutes 1) (demo_time + minutes 2) (demo_time + minutes 3) (demo_jwt []) demo_payload "jti-1" 1700003600
    (mk_access_token (demo_jwt []) "client-1" ["mcp"] None None "user:user-1" None)
    (mk_auth_world ∅ (tables demo_rotated)) [Sweep (demo_time + minutes 3)] ∅ (mret None) (mret None) None).
  - vm_compute. reflexivity.
  - vm_compute. discriminate.
  - reflexivity.
  - vm_compute. reflexivity.
  - reflexivity.
  - vm_compute. reflexivity.
  - intros e'. cbn [auth_db]. assert (denied_jtis (tables demo_rotated) = ∅) as -> by (vm_compute; reflexivity).
    rewrite lookup_empty. discriminate.
  - vm_compute. reflexivity.
  - repeat constructor. cbn. lia.
Defined.
