(* ===== verification/RateLimit.v ===== *)
(** * The sliding-window limiter of authentication requests
    ([server/auth/rate_limit.py])

    A limiter keeps, per key, the times of the requests it let through in the
    last window, for a bounded number of keys.  Times are those of the monotonic
    clock, in microseconds. *)

From S2P Require Import Prelude PyString Models Hashing.

Record SlidingWindowRateLimiter : Type := mk_limiter {
  sw_requests : Z;
  sw_window_seconds : Z;
  sw_max_entries : Z
}.

(** [AuthRateLimitExceeded(retry_after=n)] *)
Definition AuthRateLimitExceeded (retry_after : Z) : PyExc :=
  mk_exc "AuthRateLimitExceeded" (Some retry_after) EmptyString.

(** [math.ceil] of a duration in seconds. *)
Definition ceil_seconds (d : time) : Z := - (- d / 1000000).

(** [while timestamps and timestamps[0] <= cutoff: timestamps.popleft()] *)
Fixpoint drop_expired (cutoff : time) (timestamps : list time) : list time :=
  match timestamps with
  | t :: rest => if t <=? cutoff then drop_expired cutoff rest else timestamps
  | [] => []
  end.

Abbreviation Entries := (gmap string (list time)) (only parsing).

(** The keys whose timestamps have all expired are deleted. *)
Definition purge (cutoff : time) (entries : Entries) : Entries :=
  omap (λ timestamps, match drop_expired cutoff timestamps with [] => None | l => Some l end) entries.

(** [min(t[0] for t in entries.values())] *)
Definition earliest (entries : Entries) : outcome time :=
  match omap head (map_to_list entries).*2 with
  | [] => Raise (ValueError "min() iterable argument is empty")
  | t :: l => Ret (foldr Z.min t l)
  end.

Section limiter.
  Context (limiter : SlidingWindowRateLimiter).

Definition sw_window : time := seconds (sw_window_seconds limiter).

Definition check (now : time) (key : string) : M Entries unit := λ entries,
  let cutoff := now - sw_window in
  let entries :=
    if sw_max_entries limiter <=? Z.of_nat (size entries) then purge cutoff entries else entries in
  let admitted :=
    match entries !! key with
    | Some timestamps => Ret timestamps
    | None =>
        if sw_max_entries limiter <=? Z.of_nat (size entries) then
          first ← earliest entries;
          Raise (AuthRateLimitExceeded (Z.max 1 (ceil_seconds (first + sw_window - now))))
        else Ret []
    end in
  match admitted with
  | Raise e => (entries, Raise e)
  | Ret timestamps =>
      let timestamps := drop_expired cutoff timestamps in
      if sw_requests limiter <=? Z.of_nat (length timestamps) then
        (<[key := timestamps]> entries,
         match timestamps with
         | [] => Raise (exc "IndexError" "deque index out of range")
         | first :: _ => Raise (AuthRateLimitExceeded (Z.max 1 (ceil_seconds (first + sw_window - now))))
         end)
      else (<[key := timestamps ++ [now]]> entries, Ret tt)
  end.
End limiter.

(** ** The limiters of the server *)
Definition login_remote_limiter : SlidingWindowRateLimiter := mk_limiter 20 60 4096.
Definition login_account_limiter : SlidingWindowRateLimiter := mk_limiter 5 60 4096.
Definition recovery_remote_limiter : SlidingWindowRateLimiter := mk_limiter 5 300 4096.
Definition recovery_account_limiter : SlidingWindowRateLimiter := mk_limiter 3 300 4096.
Definition registration_limiter : SlidingWindowRateLimiter := mk_limiter 10 60 4096.
Definition token_limiter : SlidingWindowRateLimiter := mk_limiter 20 60 4096.

(** The entries of the two limiters of a login. *)
Record LoginLimiters : Type := mk_login_limiters { ll_remote : Entries; ll_account : Entries }.

#[export] Instance LoginLimiters_eta : Eta LoginLimiters := λ l, mk_login_limiters (ll_remote l) (ll_account l).

Definition check_remote (limiter : SlidingWindowRateLimiter) (now : time) (key : string) : M LoginLimiters unit :=
  λ l, let '(e, o) := check limiter now key (ll_remote l) in (l <| ll_remote := e |>, o).
Definition check_account (limiter : SlidingWindowRateLimiter) (now : time) (key : string) : M LoginLimiters unit :=
  λ l, let '(e, o) := check limiter now key (ll_account l) in (l <| ll_account := e |>, o).

(** [s[:n]] *)
Definition take_chars (n : nat) (s : string) : string := String.substring 0 n s.

(** [username.strip().casefold()[:255]], hashed; [casefold] on the ASCII letters. *)
Definition account_digest (username : string) : string :=
  sha256_hex (take_chars 255 (lower (strip username))).

Definition check_builtin_login (now : time) (remote username : string) : M LoginLimiters unit :=
  check_remote login_remote_limiter now ("login-remote:" +:+ remote) ;;
  check_account login_account_limiter now ("login-account:" +:+ account_digest username).

Definition check_recovery_login (now : time) (remote username : string) : M LoginLimiters unit :=
  check_remote recovery_remote_limiter now ("recovery-remote:" +:+ remote) ;;
  check_account recovery_account_limiter now ("recovery-account:" +:+ account_digest username).

Definition check_token_endpoint (now : time) (path remote : string) : M Entries unit :=
  check token_limiter now (path +:+ ":" +:+ remote).

(** The requests [AuthEndpointRateLimitMiddleware] meters, the registration and the
    token endpoint, each with the entries of its limiter: the delay of the [429]
    answer, or nothing when the request goes on to the application. *)
Record EndpointLimiters : Type := mk_endpoint_limiters { el_registration : Entries; el_token : Entries }.

Definition rate_limited (now : time) (scope_type method path remote : string) (l : EndpointLimiters)
    : outcome (EndpointLimiters * option Z) :=
  let answer '(l', o) :=
    match o with
    | Ret _ => Ret (l', None)
    | Raise e =>
        match exc_code e with
        | Some n => if String.eqb (exc_type e) "AuthRateLimitExceeded" then Ret (l', Some n) else Raise e
        | None => Raise e
        end
    end in
  if negb (String.eqb scope_type "http" && String.eqb method "POST") then Ret (l, None)
  else if String.eqb path "/register" then
    let '(e, o) := check registration_limiter now (path +:+ ":" +:+ remote) (el_registration l) in
    answer (mk_endpoint_limiters e (el_token l), o)
  else if String.eqb path "/token" then
    let '(e, o) := check_token_endpoint now path remote (el_token l) in
    answer (mk_endpoint_limiters (el_registration l) e, o)
  else Ret (l, None).

(** ** Runs *)

Section runs.
  Context (limiter : SlidingWindowRateLimiter).

(** The requests let through, oldest first, with the entries after them. *)
Definition step_check (st : Entries * list (time * string)) (c : time * string) : Entries * list (time * string) :=
  match check limiter c.1 c.2 st.1 with
  | (entries, Ret _) => (entries, st.2 ++ [c])
  | (entries, Raise _) => (entries, st.2)
  end.
Definition run_checks (checks : list (time * string)) : Entries * list (time * string) :=
  foldl step_check (∅, []) checks.

(** The times a key was let through. *)
Definition times_of (key : string) (log : list (time * string)) : list time :=
  (filter (λ c, c.2 = key) log).*1.

(** The reference: how many requests of a key, and how many keys, were let
    through in the window that ends now. *)
Definition recent (now : time) (key : string) (log : list (time * string)) : Z :=
  Z.of_nat (length (filter (λ t, now - sw_window limiter < t) (times_of key log))).
Definition active_keys (now : time) (log : list (time * string)) : Z :=
  Z.of_nat (size (list_to_set (filter (λ c, now - sw_window limiter < c.1) log).*2 : gset string)).

(** The decision of a limiter that kept the whole log. *)
Definition admits (now : time) (key : string) (log : list (time * string)) : bool :=
  (recent now key log <? sw_requests limiter)
  && ((0 <? recent now key log) || (active_keys now log <? sw_max_entries limiter)).
End runs.

(** ** The limiter keeps what the reference needs *)

Lemma drop_suffix cutoff l : ∃ old, l = old ++ drop_expired cutoff l ∧ Forall (λ t, t ≤ cutoff) old.
Proof.
  induction l as [|t l (old & E & Ho)]; [by exists []|]. cbn. destruct (Z.leb_spec t cutoff).
  - exists (t :: old). split; [by rewrite E at 1|by constructor].
  - by exists [].
Qed.

Lemma filter_none {A} (P : A → Prop) `{!∀ x, Decision (P x)} l : Forall (λ x, ¬ P x) l → filter P l = [].
Proof. induction 1 as [|x l Hx _ IH]; [done|]. by rewrite filter_cons_False. Qed.

Lemma filter_every {A} (P : A → Prop) `{!∀ x, Decision (P x)} l : Forall P l → filter P l = l.
Proof. induction 1 as [|x l Hx _ IH]; [done|]. by rewrite filter_cons_True, IH. Qed.

(** On sorted times, what is left is what is in the window. *)
Lemma drop_filter cutoff l : StronglySorted Z.le l → drop_expired cutoff l = filter (λ t, cutoff < t) l.
Proof.
  induction 1 as [|t l Hs IH Ht]; [done|]. simpl drop_expired. destruct (Z.leb_spec t cutoff).
  - rewrite filter_cons_False by lia. exact IH.
  - symmetry. apply filter_every. constructor; [done|]. eapply Forall_impl; [exact Ht|]. cbn. lia.
Qed.

Lemma sorted_app_r (l1 l2 : list time) : StronglySorted Z.le (l1 ++ l2) → StronglySorted Z.le l2.
Proof. induction l1 as [|x l1 IH]; [done|]. cbn. intros [Hs _]%StronglySorted_inv. by apply IH. Qed.

Lemma sorted_snoc (l : list time) t :
  StronglySorted Z.le l → Forall (λ x, x ≤ t) l → StronglySorted Z.le (l ++ [t]).
Proof.
  induction 1 as [|x l Hs IH Hx]; intros Hl; cbn; [by repeat constructor|]. apply Forall_cons in Hl as [Hxt Hl].
  constructor; [by apply IH|]. apply Forall_app. split; [done|by constructor].
Qed.

Section keeps.
  Context (limiter : SlidingWindowRateLimiter).
  Context (Hrequests : 1 ≤ sw_requests limiter) (Hentries : 1 ≤ sw_max_entries limiter).

Record kept (now : time) (log : list (time * string)) (entries : gmap string (list time)) : Prop := {
  kp_past : Forall (λ c, c.1 ≤ now) log;
  kp_sorted : ∀ key, StronglySorted Z.le (times_of key log);
  kp_entry : ∀ key, ∃ old, times_of key log = old ++ default [] (entries !! key)
    ∧ Forall (λ t, t ≤ now - sw_window limiter) old;
  kp_used : ∀ key ts, entries !! key = Some ts → ts ≠ [] ∧ Z.of_nat (length ts) ≤ sw_requests limiter;
  kp_size : Z.of_nat (size entries) ≤ sw_max_entries limiter
}.

Lemma kept_later now now' log entries : now ≤ now' → kept now log entries → kept now' log entries.
Proof.
  intros Hn [H1 H2 H3 H4 H5]. split; try done.
  - eapply Forall_impl; [exact H1|]. cbn. lia.
  - intros key. destruct (H3 key) as (old & E & Ho). exists old. split; [done|].
    eapply Forall_impl; [exact Ho|]. cbn. lia.
Qed.

(** The times of the window, from the log and from the entry. *)
Lemma kept_window now log entries key : kept now log entries →
  filter (λ t, now - sw_window limiter < t) (times_of key log)
  = drop_expired (now - sw_window limiter) (default [] (entries !! key)).
Proof.
  intros [_ H2 H3 _ _]. destruct (H3 key) as (old & E & Ho). specialize (H2 key). rewrite E in *.
  rewrite filter_app, filter_none by (eapply Forall_impl; [exact Ho|]; cbn; lia).
  by rewrite drop_filter by by eapply sorted_app_r.
Qed.

Lemma purge_lookup cutoff entries key :
  purge cutoff entries !! key
  = match drop_expired cutoff (default [] (entries !! key)) with [] => None | l => Some l end.
Proof. unfold purge. rewrite lookup_omap. by destruct (entries !! key). Qed.

Lemma kept_purge now log entries :
  kept now log entries → kept now log (purge (now - sw_window limiter) entries).
Proof.
  intros Hk. pose proof Hk as [H1 H2 H3 H4 H5]. split; try done.
  - intros key. destruct (H3 key) as (old & E & Ho). rewrite purge_lookup.
    destruct (drop_suffix (now - sw_window limiter) (default [] (entries !! key))) as (old' & E' & Ho').
    exists (old ++ old'). split; [|by apply Forall_app]. rewrite E, E' at 1. rewrite (assoc_L _). f_equal.
    by destruct (drop_expired _ _).
  - intros key ts. rewrite purge_lookup.
    destruct (drop_suffix (now - sw_window limiter) (default [] (entries !! key))) as (old' & E' & _).
    destruct (drop_expired _ _) as [|t l] eqn:Hd; [done|]. intros [= <-]. split; [done|].
    destruct (entries !! key) as [ts0|] eqn:Hts; cbn in E'; [|by destruct old'].
    destruct (H4 _ _ Hts) as [_ Hlen]. rewrite E', length_app in Hlen. lia.
  - etrans; [|exact H5]. apply Nat2Z.inj_le. unfold purge.
    assert (∀ (f : list time → option (list time)) (m : gmap string (list time)), (size (omap f m) ≤ size m)%nat) as Hsz.
    { intros f m. rewrite <-!size_dom. apply subseteq_size. intros k. rewrite !elem_of_dom, lookup_omap.
      destruct (m !! k); [by eexists|by intros []]. }
    apply Hsz.
Qed.

(** The keys with a request in the window. *)
Lemma active_elem now log key :
  key ∈ (list_to_set (filter (λ c, now - sw_window limiter < c.1) log).*2 : gset string)
  ↔ filter (λ t, now - sw_window limiter < t) (times_of key log) ≠ [].
Proof.
  rewrite elem_of_list_to_set, list_elem_of_fmap. split.
  - intros ([t k] & -> & [Ht Hc]%list_elem_of_filter) Hn. cbn in *. apply (not_elem_of_nil t). rewrite <-Hn.
    apply list_elem_of_filter. split; [done|]. apply list_elem_of_fmap. exists (t, k). split; [done|].
    by apply list_elem_of_filter.
  - intros Hn. destruct (filter _ (times_of key log)) as [|t l] eqn:E; [done|].
    assert (t ∈ t :: l) as Ht by apply list_elem_of_here. rewrite <-E in Ht.
    apply list_elem_of_filter in Ht as [Ht ([t' k] & -> & [Hk Hc]%list_elem_of_filter)%list_elem_of_fmap].
    exists (t', k). cbn in *. split; [done|]. by apply list_elem_of_filter.
Qed.

(** A window starts after the entries' expired times: the active keys are keys of
    the entries, and all of them after a purge. *)
Lemma active_le now log entries : kept now log entries →
  active_keys limiter now log ≤ Z.of_nat (size entries).
Proof.
  intros Hk. unfold active_keys. apply Nat2Z.inj_le. rewrite <-size_dom. apply subseteq_size. intros key.
  rewrite active_elem, (kept_window _ _ _ _ Hk), elem_of_dom. by destruct (entries !! key).
Qed.

Lemma active_purged now log entries : kept now log entries →
  active_keys limiter now log = Z.of_nat (size (purge (now - sw_window limiter) entries)).
Proof.
  intros Hk. unfold active_keys. f_equal. rewrite <-size_dom. f_equal. apply set_eq. intros key.
  rewrite active_elem, (kept_window _ _ _ _ Hk), elem_of_dom, purge_lookup.
  destruct (drop_expired _ _); split; [done|by intros []|by eexists|done].
Qed.

(** A key kept without a request in the window leaves room for it. *)
Lemma active_lt now log entries key ts : kept now log entries → entries !! key = Some ts →
  drop_expired (now - sw_window limiter) ts = [] →
  active_keys limiter now log < Z.of_nat (size entries).
Proof.
  intros Hk Hts Hd. unfold active_keys. apply Nat2Z.inj_lt. rewrite <-size_dom. apply subset_size. split.
  - intros k. rewrite active_elem, (kept_window _ _ _ _ Hk), elem_of_dom. by destruct (entries !! k).
  - intros Hs. assert (key ∈ dom entries) as Hin by (apply elem_of_dom; eauto).
    apply Hs, active_elem in Hin. apply Hin. by rewrite (kept_window _ _ _ _ Hk), Hts.
Qed.

Lemma recent_kept now log entries key : kept now log entries →
  recent limiter now key log
  = Z.of_nat (length (drop_expired (now - sw_window limiter) (default [] (entries !! key)))).
Proof. intros Hk. unfold recent. by rewrite (kept_window _ _ _ _ Hk). Qed.

Lemma times_snoc key log c :
  times_of key (log ++ [c]) = times_of key log ++ (if bool_decide (c.2 = key) then [c.1] else []).
Proof.
  unfold times_of. rewrite filter_app, fmap_app. f_equal. case_bool_decide as Hc.
  - by rewrite filter_cons_True.
  - by rewrite filter_cons_False.
Qed.

(** The entry of a key is refreshed by a refused request. *)
Lemma kept_refused now log entries key ts : kept now log entries →
  entries !! key = Some ts → drop_expired (now - sw_window limiter) ts ≠ [] →
  kept now log (<[key := drop_expired (now - sw_window limiter) ts]> entries).
Proof.
  intros [H1 H2 H3 H4 H5] Hts Hne.
  destruct (drop_suffix (now - sw_window limiter) ts) as (old' & E' & Ho').
  split; [done|done| | |].
  - intros k. destruct (decide (k = key)) as [->|Hn]; [|rewrite lookup_insert_ne by done; apply H3].
    rewrite lookup_insert_eq. destruct (H3 key) as (old & E & Ho). rewrite Hts in E. cbn in E |- *.
    exists (old ++ old'). split; [|by apply Forall_app]. by rewrite E, E' at 1; rewrite (assoc_L _).
  - intros k l. destruct (decide (k = key)) as [->|Hn]; [|rewrite lookup_insert_ne by done; apply H4].
    rewrite lookup_insert_eq. intros [= <-]. split; [done|]. destruct (H4 _ _ Hts) as [_ Hl].
    rewrite E', length_app in Hl. lia.
  - by rewrite map_size_insert_Some.
Qed.

(** The entry of a key is extended by an admitted one. *)
Lemma kept_admitted now log entries key :
  let ts := drop_expired (now - sw_window limiter) (default [] (entries !! key)) in
  kept now log entries → Z.of_nat (length ts) < sw_requests limiter →
  (entries !! key = None → Z.of_nat (size entries) < sw_max_entries limiter) →
  kept now (log ++ [(now, key)]) (<[key := ts ++ [now]]> entries).
Proof.
  intros ts [H1 H2 H3 H4 H5] Hlen Hroom. split.
  - apply Forall_app. split; [done|]. by repeat constructor.
  - intros k. rewrite times_snoc. case_bool_decide; [|by rewrite app_nil_r]. apply sorted_snoc; [done|].
    apply Forall_fmap. apply Forall_forall. intros c [_ Hc]%list_elem_of_filter. rewrite Forall_forall in H1. exact (H1 _ Hc).
  - intros k. rewrite times_snoc. cbn. destruct (decide (key = k)) as [<-|Hn].
    + rewrite bool_decide_eq_true_2, lookup_insert_eq by done. destruct (H3 key) as (old & E & Ho).
      destruct (drop_suffix (now - sw_window limiter) (default [] (entries !! key))) as (old' & E' & Ho').
      exists (old ++ old'). split; [|by apply Forall_app]. cbn. rewrite E, E' at 1. by rewrite <-!(assoc_L _).
    + rewrite (bool_decide_eq_false_2 (key = k)), app_nil_r, lookup_insert_ne by done. apply H3.
  - intros k l. destruct (decide (key = k)) as [<-|Hn]; [|rewrite lookup_insert_ne by done; apply H4].
    rewrite lookup_insert_eq. intros [= <-]. split; [by destruct ts|]. rewrite length_app. cbn. lia.
  - destruct (entries !! key) as [l|] eqn:Hl; [by rewrite map_size_insert_Some|].
    rewrite map_size_insert_None by done. specialize (Hroom eq_refl). lia.
Qed.

Lemma earliest_some entries : entries ≠ ∅ → (∀ key ts, entries !! key = Some ts → ts ≠ []) →
  ∃ t, earliest entries = Ret t.
Proof.
  intros Hne Hts. unfold earliest. destruct (map_to_list entries) as [|[k ts] l] eqn:E.
  - by apply map_to_list_empty_iff in E.
  - assert (ts ≠ []) as Hn. { apply (Hts k). apply elem_of_map_to_list. rewrite E. apply list_elem_of_here. }
    destruct ts; [done|]. cbn. eauto.
Qed.

(** What a check decides and leaves, from entries that are already purged. *)
Lemma check_decides now key log entries : kept now log entries →
  let '(entries', o) := check limiter now key entries in
  if admits limiter now key log then o = Ret tt ∧ kept now (log ++ [(now, key)]) entries'
  else (∃ n, o = Raise (AuthRateLimitExceeded n)) ∧ kept now log entries'.
Proof.
  intros Hk. unfold check.
  set (E := if _ <=? _ then purge _ _ else _).
  assert (kept now log E ∧ (sw_max_entries limiter ≤ Z.of_nat (size E) →
    active_keys limiter now log = Z.of_nat (size E))) as [HE Hfull].
  { subst E. destruct (Z.leb_spec (sw_max_entries limiter) (Z.of_nat (size entries))).
    - split; [by apply kept_purge|]. intros _. by apply active_purged.
    - split; [done|lia]. }
  clearbody E. pose proof (recent_kept now log E key HE) as Hr. unfold admits.
  pose proof (kept_admitted now log E key HE) as Hadm. cbn zeta in Hadm.
  destruct (E !! key) as [ts|] eqn:Hts; cbn [default from_option id] in *.
  - set (l := drop_expired _ ts) in *. rewrite Hr.
    destruct (Z.leb_spec (sw_requests limiter) (Z.of_nat (length l))) as [Hge|Hlt].
    + rewrite (proj2 (Z.ltb_ge _ _)) by lia. cbn. destruct l as [|t l'] eqn:Hl; [cbn in Hge; lia|].
      split; [eauto|]. rewrite <-Hl. apply kept_refused; [done|done|]. subst l. by rewrite Hl.
    + rewrite (proj2 (Z.ltb_lt _ _)) by lia. cbn [andb].
      replace ((0 <? Z.of_nat (length l)) || _) with true.
      { split; [done|]. by apply Hadm. }
      symmetry. destruct (decide (l = [])) as [Hl|Hl].
      * rewrite Hl. cbn. apply Z.ltb_lt. pose proof (kp_size _ _ _ HE).
        pose proof (active_lt now log E key ts HE Hts Hl). lia.
      * apply orb_true_iff. left. apply Z.ltb_lt. destruct l; [done|cbn; lia].
  - change (recent limiter now key log = 0) in Hr. rewrite Hr. rewrite (proj2 (Z.ltb_lt 0 (sw_requests limiter))) by lia. cbn [andb orb Z.ltb Z.compare].
    destruct (Z.leb_spec (sw_max_entries limiter) (Z.of_nat (size E))) as [Hge|Hlt].
    + rewrite (proj2 (Z.ltb_ge (active_keys limiter now log) _)) by (rewrite Hfull; lia).
      destruct (earliest_some E) as [t ->].
      { intros ->. rewrite map_size_empty in Hge. lia. }
      { intros k l Hkl. by apply (kp_used _ _ _ HE) in Hkl as [? _]. }
      cbn. split; [eauto|done].
    + pose proof (active_le now log E HE). rewrite (proj2 (Z.ltb_lt (active_keys limiter now log) _)) by lia.
      change (Z.of_nat (length (drop_expired (now - sw_window limiter) []))) with 0.
      rewrite (proj2 (Z.leb_gt (sw_requests limiter) 0)) by lia. split; [done|]. apply Hadm; [cbn; lia|done].
Qed.

Lemma sorted_app_l (l1 l2 : list time) : StronglySorted Z.le (l1 ++ l2) → StronglySorted Z.le l1.
Proof.
  induction l1 as [|x l1 IH]; cbn; [by constructor|]. intros [Hs Hx]%StronglySorted_inv.
  apply Forall_app in Hx as [Hx _]. constructor; auto.
Qed.

Lemma sorted_last (l : list time) a b : StronglySorted Z.le ((l ++ [a]) ++ [b]) → a ≤ b.
Proof.
  rewrite <-(assoc_L (++)). cbn. intros [_ Hab%Forall_inv]%sorted_app_r%StronglySorted_inv. done.
Qed.

Lemma filter_length_le (P Q : time → Prop) `{!∀ x, Decision (P x)} `{!∀ x, Decision (Q x)} l :
  (∀ x, P x → Q x) → (length (filter P l) ≤ length (filter Q l))%nat.
Proof.
  intros HPQ. induction l as [|x l IH]; [done|]. destruct (decide (P x)).
  - rewrite !filter_cons_True by auto. cbn. lia.
  - rewrite (filter_cons_False P) by done. etrans; [exact IH|].
    destruct (decide (Q x)); [rewrite filter_cons_True by done; cbn; lia|by rewrite filter_cons_False].
Qed.

(** A window that holds a new request holds only earlier ones its check saw. *)
Lemma bound_snoc now key log k t :
  Z.of_nat (length (filter (λ u, t < u ≤ t + sw_window limiter) (times_of k log))) ≤ sw_requests limiter →
  recent limiter now key log < sw_requests limiter →
  Z.of_nat (length (filter (λ u, t < u ≤ t + sw_window limiter) (times_of k (log ++ [(now, key)]))))
    ≤ sw_requests limiter.
Proof.
  intros Hold Hlt. rewrite times_snoc, filter_app, length_app. cbn [fst snd].
  case_bool_decide as Hk; [subst k|rewrite filter_nil; cbn; lia].
  destruct (decide (t < now ≤ t + sw_window limiter)) as [Hin|Hout].
  - rewrite filter_cons_True, filter_nil by done. cbn.
    assert (Nat.le (length (filter (λ u, t < u ≤ t + sw_window limiter) (times_of key log)))
      (length (filter (λ u, now - sw_window limiter < u) (times_of key log)))); [|unfold recent in Hlt; lia].
    apply filter_length_le. lia.
  - rewrite filter_cons_False, filter_nil by done. cbn. lia.
Qed.

Lemma run_kept checks now : StronglySorted Z.le (checks.*1 ++ [now]) →
  kept now (run_checks limiter checks).2 (run_checks limiter checks).1
  ∧ ∀ key t, Z.of_nat (length (filter (λ u, t < u ≤ t + sw_window limiter)
      (times_of key (run_checks limiter checks).2))) ≤ sw_requests limiter.
Proof.
  revert now. induction checks as [|[u k] checks IH] using rev_ind; intros now Hs.
  - split; [|intros; cbn; lia]. split; cbn.
    + constructor.
    + intros; constructor.
    + intros key. exists []. by rewrite lookup_empty.
    + intros key ts. by rewrite lookup_empty.
    + rewrite map_size_empty. lia.
  - rewrite fmap_app in Hs. cbn in Hs. pose proof (sorted_last _ _ _ Hs). apply sorted_app_l in Hs.
    destruct (IH _ Hs) as [Hk Hb]. unfold run_checks in *. rewrite foldl_snoc.
    destruct (foldl (step_check limiter) (∅, []) checks) as [entries log]. cbn in Hk, Hb |- *.
    unfold step_check. cbn. pose proof (check_decides u k log entries Hk) as Hd.
    destruct (check limiter u k entries) as [entries' o].
    destruct (admits limiter u k log) eqn:Ha.
    + destruct Hd as [-> Hk']. cbn. split; [by eapply kept_later|]. intros key t. apply bound_snoc; [apply Hb|].
      unfold admits in Ha. apply andb_prop in Ha as [Ha _]. by apply Z.ltb_lt.
    + destruct Hd as [[n ->] Hk']. cbn. split; [by eapply kept_later|done].
Qed.

Lemma ceil_seconds_ge d : d ≤ seconds (ceil_seconds d).
Proof. unfold ceil_seconds, seconds. pose proof (Z.mul_div_le (- d) 1000000). lia. Qed.

Lemma ceil_seconds_lt d : seconds (ceil_seconds d - 1) < d.
Proof. unfold ceil_seconds, seconds. pose proof (Z.mul_succ_div_gt (- d) 1000000). lia. Qed.

(** ** The delay of a refused request *)

Lemma drop_drop cutoff cutoff' l : cutoff ≤ cutoff' →
  drop_expired cutoff' l = drop_expired cutoff' (drop_expired cutoff l).
Proof.
  intros Hc. induction l as [|t l IH]; [done|]. simpl. destruct (Z.leb_spec t cutoff); [|done].
  rewrite (proj2 (Z.leb_le t cutoff')) by lia. exact IH.
Qed.

Lemma drop_length cutoff l : (length (drop_expired cutoff l) ≤ length l)%nat.
Proof. induction l as [|t l IH]; [done|]. simpl. destruct (t <=? cutoff); cbn; lia. Qed.

Lemma drop_first cutoff l t l' : drop_expired cutoff l = t :: l' → cutoff < t.
Proof.
  induction l as [|u l IH]; [done|]. simpl. destruct (Z.leb_spec u cutoff); [exact IH|]. by intros [= -> ->].
Qed.

(** What a refused key is told. *)
Lemma check_full now key log entries : kept now log entries → sw_requests limiter ≤ recent limiter now key log →
  ∃ ts t l, entries !! key = Some ts ∧ drop_expired (now - sw_window limiter) ts = t :: l
    ∧ (check limiter now key entries).2
      = Raise (AuthRateLimitExceeded (Z.max 1 (ceil_seconds (t + sw_window limiter - now)))).
Proof.
  intros Hk Hfull. pose proof (recent_kept now log entries key Hk) as Hr.
  destruct (entries !! key) as [ts|] eqn:Hts; cbn [default from_option id] in Hr; [|cbn in Hr; lia].
  destruct (drop_expired _ ts) as [|t l] eqn:Hl; [cbn in Hr; lia|]. exists ts, t, l. split; [done|]. split; [done|].
  unfold check. set (E := if _ <=? _ then purge _ _ else _).
  assert (∃ ts', E !! key = Some ts' ∧ drop_expired (now - sw_window limiter) ts' = t :: l) as (ts' & -> & Hl').
  { subst E. destruct (_ <=? _); [|by exists ts]. rewrite purge_lookup, Hts. cbn. rewrite Hl. exists (t :: l).
    split; [done|]. by rewrite <-Hl, <-drop_drop by lia. }
  rewrite Hl', <-Hr, (proj2 (Z.leb_le _ _)) by done. done.
Qed.

Lemma delay_honest now key log entries ts t l : kept now log entries → entries !! key = Some ts →
  drop_expired (now - sw_window limiter) ts = t :: l → sw_requests limiter ≤ recent limiter now key log →
  let n := Z.max 1 (ceil_seconds (t + sw_window limiter - now)) in
  admits limiter (now + seconds n) key log = true
  ∧ ∀ d, 0 ≤ d < n → admits limiter (now + seconds d) key log = false.
Proof.
  intros Hk Hts Hl Hfull n. pose proof (drop_first _ _ _ _ Hl) as Ht.
  pose proof (ceil_seconds_ge (t + sw_window limiter - now)). pose proof (ceil_seconds_lt (t + sw_window limiter - now)).
  assert (∀ d, 0 ≤ d → kept (now + seconds d) log entries
    ∧ recent limiter (now + seconds d) key log
      = Z.of_nat (length (drop_expired (now + seconds d - sw_window limiter) (t :: l)))) as Hd.
  { intros d Hd. assert (now ≤ now + seconds d) by (unfold seconds; lia).
    pose proof (kept_later _ _ _ _ ltac:(eassumption) Hk) as Hk'. split; [done|].
    rewrite (recent_kept _ _ _ _ Hk'), Hts. cbn [default from_option id].
    f_equal. f_equal. rewrite (drop_drop (now - sw_window limiter)) by lia. by rewrite Hl. }
  split.
  - destruct (Hd n ltac:(lia)) as [Hk' Hr]. unfold admits.
    assert (t ≤ now + seconds n - sw_window limiter) as Ht' by (unfold seconds in *; lia).
    simpl drop_expired in Hr. rewrite (proj2 (Z.leb_le _ _) Ht') in Hr.
    destruct (kp_used _ _ _ Hk _ _ Hts) as [_ Hlen]. pose proof (drop_length (now - sw_window limiter) ts) as Hts'.
    rewrite Hl in Hts'. cbn in Hts'. pose proof (drop_length (now + seconds n - sw_window limiter) l).
    apply andb_true_iff. split; [apply Z.ltb_lt; lia|]. apply orb_true_iff.
    destruct (Z.ltb_spec 0 (recent limiter (now + seconds n) key log)) as [|Hz]; [by left|right].
    apply Z.ltb_lt. pose proof (kp_size _ _ _ Hk').
    assert (drop_expired (now + seconds n - sw_window limiter) ts = []) as He.
    { rewrite (drop_drop (now - sw_window limiter)), Hl by (unfold seconds; lia). simpl.
      rewrite (proj2 (Z.leb_le _ _) Ht'). apply length_zero_iff_nil. lia. }
    pose proof (active_lt _ _ _ _ _ Hk' Hts He). lia.
  - intros d Hdn. destruct (Hd d ltac:(lia)) as [_ Hr]. unfold admits. apply andb_false_iff. left.
    assert (now + seconds d - sw_window limiter < t) as Ht' by (unfold seconds in *; lia).
    simpl drop_expired in Hr. rewrite (proj2 (Z.leb_gt _ _) Ht') in Hr. apply Z.ltb_ge. rewrite Hr, <-Hl.
    etrans; [exact Hfull|]. rewrite (recent_kept _ _ _ _ Hk), Hts. done.
Qed.

(** A refusal always tells a delay of at least a second. *)
Lemma refused_delay now key entries n :
  (check limiter now key entries).2 = Raise (AuthRateLimitExceeded n) → 1 ≤ n.
Proof.
  unfold check. set (E := if _ <=? _ then purge _ _ else _). clearbody E. destruct (E !! key) as [ts|].
  - destruct (_ <=? _); [|done]. destruct (drop_expired _ ts); [done|]. cbn. intros [= <-]. lia.
  - destruct (sw_max_entries limiter <=? Z.of_nat (size E)).
    + unfold earliest. destruct (omap head _); [done|]. cbn. intros [= <-]. lia.
    + destruct (_ <=? _); done.
Qed.
End keeps.

(** ** The limiter decides as the reference *)

(** C33: After any sequence of checks at the times of a monotonic clock, a check
    lets a request through exactly when the reference that keeps the whole log
    does: fewer than the allowed number of requests of its key were let through
    in the window that ends now, and the key is one of the active ones or the
    table of active keys has room.  Otherwise it raises
    [AuthRateLimitExceeded], whose delay is at least one second, and for a key
    at its limit is the least number of seconds after which the reference lets
    the key through again if nothing else is let through meanwhile. *)
Theorem limiter_exact limiter checks now key :
  1 ≤ sw_requests limiter → 1 ≤ sw_max_entries limiter → StronglySorted Z.le (checks.*1 ++ [now]) →
  let '(entries, log) := run_checks limiter checks in
  let o := (check limiter now key entries).2 in
  if admits limiter now key log then o = Ret tt
  else ∃ n, o = Raise (AuthRateLimitExceeded n) ∧ 1 ≤ n
    ∧ (sw_requests limiter ≤ recent limiter now key log →
       admits limiter (now + seconds n) key log = true
       ∧ ∀ d, 0 ≤ d < n → admits limiter (now + seconds d) key log = false).
Proof.
  intros Hr Hm Hs. destruct (run_kept limiter Hr Hm checks now Hs) as [Hk _].
  destruct (run_checks limiter checks) as [entries log]. cbn [fst snd] in Hk |- *.
  pose proof (check_decides limiter Hr Hm now key log entries Hk) as Hd.
  pose proof (refused_delay limiter now key entries) as Hn.
  pose proof (check_full limiter Hr now key log entries Hk) as Hf.
  destruct (check limiter now key entries) as [entries' o]. cbn [fst snd] in *.
  destruct (admits limiter now key log) eqn:Ha; destruct Hd as [Ho _]; [done|].
  destruct Ho as [n ->]. exists n. split; [done|]. split; [by apply Hn|]. intros Hfull.
  destruct (Hf Hfull) as (ts & t & l & Hts & Hl & [= ->]). by eapply delay_honest.
Qed.

(** C34: However the requests of a key arrive, no more than the allowed number of
    them is let through in any interval as long as the window, and the table
    never holds more keys than its bound nor more times of a key than the allowed
    number. *)
Theorem limiter_bound limiter checks :
  1 ≤ sw_requests limiter → 1 ≤ sw_max_entries limiter → StronglySorted Z.le checks.*1 →
  let '(entries, log) := run_checks limiter checks in
  (∀ key t, Z.of_nat (length (filter (λ u, t < u ≤ t + sw_window limiter) (times_of key log)))
     ≤ sw_requests limiter)
  ∧ Z.of_nat (size entries) ≤ sw_max_entries limiter
  ∧ ∀ key ts, entries !! key = Some ts → Z.of_nat (length ts) ≤ sw_requests limiter.
Proof.
  intros Hr Hm Hs. set (now := foldr Z.max 0 checks.*1).
  assert (StronglySorted Z.le (checks.*1 ++ [now])) as Hs'.
  { apply sorted_snoc; [done|]. subst now. clear. induction (checks.*1) as [|t l IH]; constructor; cbn; [lia|].
    eapply Forall_impl; [exact IH|]. cbn. lia. }
  destruct (run_kept limiter Hr Hm checks now Hs') as [Hk Hb].
  destruct (run_checks limiter checks) as [entries log]. cbn [fst snd] in *. split; [exact Hb|].
  split; [exact (kp_size _ _ _ _ Hk)|]. intros key ts Hts. by apply (kp_used _ _ _ _ Hk) in Hts as [_ ?].
Qed.

(** ** A user name tried six times *)

Definition tries : list (time * string) :=
  [(seconds 0, "login-account:ann"); (seconds 10, "login-account:ann"); (seconds 20, "login-account:ann");
   (seconds 20, "login-account:ann"); (seconds 30, "login-account:bob"); (seconds 40, "login-account:ann")].

Lemma tries_sorted : StronglySorted Z.le (tries.*1 ++ [seconds 45]).
Proof. repeat first [constructor | vm_compute; discriminate]. Qed.

(** The sixth request of the name within the minute is told to wait for the fifteen
    seconds left of the first one's. *)
Lemma limiter_exact_witness :
  (let '(entries, _) := run_checks login_account_limiter tries in
   (check login_account_limiter (seconds 45) "login-account:ann" entries).2) = Raise (AuthRateLimitExceeded 15)
  ∧ let '(entries, log) := run_checks login_account_limiter tries in
    let o := (check login_account_limiter (seconds 45) "login-account:ann" entries).2 in
    if admits login_account_limiter (seconds 45) "login-account:ann" log then o = Ret tt
    else ∃ n, o = Raise (AuthRateLimitExceeded n) ∧ 1 ≤ n
      ∧ (5 ≤ recent login_account_limiter (seconds 45) "login-account:ann" log →
         admits login_account_limiter (seconds 45 + seconds n) "login-account:ann" log = true
         ∧ ∀ d, 0 ≤ d < n → admits login_account_limiter (seconds 45 + seconds d) "login-account:ann" log = false).
Proof.
  split; [vm_compute; reflexivity|].
  apply (limiter_exact login_account_limiter tries (seconds 45) "login-account:ann");
    [vm_compute; discriminate | vm_compute; discriminate | exact tries_sorted].
Defined.

Lemma limiter_bound_witness :
  times_of "login-account:ann" (run_checks login_account_limiter tries).2
    = [seconds 0; seconds 10; seconds 20; seconds 20; seconds 40]
  ∧ let '(entries, log) := run_checks login_account_limiter tries in
    (∀ key t, Z.of_nat (length (filter (λ u, t < u ≤ t + seconds 60) (times_of key log))) ≤ 5)
    ∧ Z.of_nat (size entries) ≤ 4096
    ∧ ∀ key ts, entries !! key = Some ts → Z.of_nat (length ts) ≤ 5.
Proof.
  split; [vm_compute; reflexivity|].
  apply (limiter_bound login_account_limiter tries);
    [vm_compute; discriminate | vm_compute; discriminate | exact (sorted_app_l _ _ tries_sorted)].
Defined.
